(* ===== verification/_CoqProject ===== *)
-Q . S2P
Prelude.v
GoLib.v
Base64.v
GoTime.v
Config.v
EnvSubst.v
Validator.v
Loader.v
Auth.v
Transport.v
GitLabAPI.v
Server.v
Fetch.v
Resolver.v
Governance.v
PathMatch.v
Protections.v
ProtectedTags.v
ProtectedEnvironments.v
Keyed.v
ApprovalRules.v
Webhooks.v
Runners.v
Members.v
BranchMerges.v
RepositoryFiles.v
PushRules.v
TargetBranchRules.v
ProtectedBranches.v
PipelineRetention.v
ProjectSettings.v
Compliance.v
Variables.v
Registry.v
ProjectFilter.v
GroupTree.v
WorkerPool.v
Pagination.v
Discovery.v
License.v
Provenance.v
Logging.v
TaskPool.v
Metrics.v
Engine.v
Simulation.v
DefaultRegistry.v
GraphQL.v
Lambda.v
Inspect.v
ExportPlan.v
Export.v
AuditModel.v
UserRegistry.v
AuditModules.v
Auditor.v
Csv.v
Report.v
AuditReport.v
Xlsx.v
Smtp.v
Cli.v
