(* ===== verification/Prelude.v ===== *)
(** * GitLab Fleet Governor: a verification development

    gitlab-fleet-governor reads a policy document, discovers the groups and
    projects of a GitLab instance that the policy targets, checks its license,
    and runs fifteen governance operations on every one of them, either as a
    plan (a dry run) or as an enforcement; it can also audit the fleet, export
    the policy that a fleet already follows, and it runs as an AWS Lambda
    function or from a command line.  This library translates that program, from
    the HTTP round trip and the policy to the reports and the exit code, into
    executable definitions and proves what makes it correct.

    ** How the code is modelled

    - Go values: a pointer is an [option], a slice a [list], a map a [gmap], an
      [int] a [Z] (wrapped to 64 bits where the code can overflow: [wrap64]), a
      string a byte string, an error a leaf or a wrapper ([error] below).
    - Calls of GitLab, of the file system and of S3 are effects: a function that
      makes them is a [prog], a tree of calls and continuations, and [run] runs
      it against a [handler], a server with a state.  Nothing is assumed of a
      server unless a theorem takes a record of laws (for example
      [branch_server]) that states GitLab's documented behaviour; [Server] and
      the ends of the files have servers that satisfy these laws, and every
      theorem with a hypothesis has a witness that applies it to one.
    - Goroutines are state machines whose labels are atomic moves; an execution
      is a list of labels, the functions that run one are executable, and the
      theorems hold for every execution.  A phase of the engine interleaves the
      calls of its tasks against one server ([TaskPool]).
    - Code outside the repository is a parameter: regular expressions, URLs, the
      YAML and JSON decoders, the license library, the calendar, the formats of
      dates, conversions of floats that do not fit ([GoRegexp], [GoURL], [GoURLParse],
      [GoQuery], [GoYAML], [GoJSON], [GoGraphQL], [GoLicense], [GoCalendar],
      [GoHTTPTime], [GoConversion], [GoFormat]), Ed25519 and the release library
      ([GoRelease]), the library that writes a workbook ([GoExcelize], with the
      laws that it documents); so is the order in which a map is walked,
      where it matters ([MapOrder]).  Of the Go standard library [GoLib], [Base64],
      [GoTime] (time.Parse, the civil calendar), [PathMatch], [Csv] and [Smtp] (the
      client of net/smtp and the dot writer of net/textproto) model what the source uses; a float64 is a [spec_float]
      of 53 bits ([Transport]).

    ** Files and sources (under src/)

    - This file: errors, effects, traces, loops that can fail, tactics and hints.
      [GoLib]: strings, strconv, path, sort.  [Base64], [GoTime], [PathMatch]:
      encoding/base64, time, path.Match.
    - The policy, internal/config: [Config] (model.go), [EnvSubst]
      (envsubst.go), [Validator] (validator.go), [Loader] (loader.go, s3.go,
      unmarshal.go, config.go).
    - The client, internal/gitlab: [Auth] (auth.go and the headers of
      client.go), [Transport] (ratelimit.go), [GraphQL] (the services of
      client.go that post GraphQL), [GitLabAPI] (interfaces.go, one constructor
      per call), [Server] (a concrete GitLab), [Fetch] (the page loop of the
      reconcilers), [Pagination] (pagination.go).
    - The operations, internal/governance: [Governance] (operation.go, diff.go,
      the record [GovernanceOperation] and the classes [DryRun], a plan makes
      no mutating call, and [NoopQuiet], an enforcement after a plan without
      changes makes none); [Resolver] (the caching resolver of
      approvalrules.go); the loops that several reconcilers share,
      [Protections] and [Keyed]; and one file per reconciler: [PushRules],
      [RepositoryFiles], [ProtectedBranches], [ProtectedTags], [BranchMerges],
      [ProtectedEnvironments], [ApprovalRules], [ProjectSettings],
      [TargetBranchRules], [PipelineRetention], [Variables], [Runners],
      [Compliance], [Webhooks], [Members].  [Registry] and [DefaultRegistry] are
      registry.go.
    - Discovery, internal/discovery: [ProjectFilter] (projectfilter.go),
      [GroupTree] (grouptree.go), [Discovery] (discovery.go).
    - The engine, internal/engine: [WorkerPool] (workerpool.go), [TaskPool]
      (the pool with effectful tasks), [Metrics] (metrics.go and the results of
      engine.go), [Engine] (engine.go), [Simulation] (servers that a run cannot
      tell apart).  Licensing, internal/license: [License]; the provenance of a
      release and its conversion date, pkg/version: [Provenance].  The log,
      internal/logging: [Logging].
    - The Lambda function, internal/lambda: [Lambda].  The exporter,
      internal/export: [Inspect] (what is read of a project), [ExportPlan] (the
      reconcilers plan an exported policy), [Export] (the concurrent inspection,
      the normalization by strategy, the document).
    - The audit, internal/audit: [AuditModel] (model.go), [UserRegistry]
      (user_registry.go), [AuditModules] (a module for each kind of finding),
      [Auditor] (auditor.go).  The reports: [Csv] (encoding/csv), [Report]
      (internal/report), [AuditReport] (internal/audit/report/export.go), [Xlsx]
      (xlsx.go, the workbook), [Smtp] (internal/audit/smtp, the mail).
    - The command line, internal/cli and cmd: [Cli], which composes the loader,
      the engine, the auditor, the exporter, the reports, the mail and the
      provenance into commands.

    A run is [Engine.runWithOptions]: [Discovery.DiscoverFleet] on the targets,
    [License.Enforce] on the size and the features, then [TaskPool.ParallelRun]
    on the groups and on the projects, whose tasks are [executeGroup] and
    [executeProject], which run the operations of the registry in order.

    ** What the theorems show

    - The whole program ([DefaultRegistry], [Engine]): a dry run leaves GitLab as
      it was; a concurrent plan reports what planning each target alone would;
      a plan without changes is a faithful forecast of the enforcement; a run
      that the license refuses does nothing; remembering resolved names changes
      no result.  Failures: an enforcement stops at the first failing operation,
      and the targets that fail are missing from the results.
    - Each reconciler converges: when an enforcement reports no error the live
      state is as the policy asks, what the policy does not name is as it was
      (or pruned), and a plan right afterwards has nothing to do
      (the [_Apply_converges] theorems); plans are exact where the code only
      plans or audits ([_Plan_exact]); merges are only of requests just shown
      without conflicts, on a server whose answers have settled, and files are
      only written where the policy says, on any server whatever it answers.  A
      plan of the variables tells nothing of a secret.
    - The policy: validation accepts exactly the well-formed documents, and where
      the published schema and the code agree these satisfy the schema; what
      [Load] returns is valid and complete, expansion of the environment always
      ends and does what it says, every opened file is closed.
    - Discovery, the pool and the streams: termination of every execution,
      exactly the selected groups and projects, no result lost or reordered.
    - The transport: what a round trip answers, how many attempts it makes, when
      it waits and how long, that it closes what it does not return and sends
      the whole body every time, and where the credentials come from; the
      GraphQL service of the target branch rules reports the errors of a reply.
    - The exporter: the policy of a project states everything that the project
      has, and its reconcilers find it in place ([Export_roundtrip]); the concurrent export of a fleet is the
      inspection of each project on its own; the strategies, exactly.
    - The Lambda function: which policy an event runs, that a plan changes
      nothing, and that the response agrees with the run.
    - Licensing and metrics: the decision and the counts, exactly.
    - The audit: a concurrent audit finds in each project what auditing it alone
      finds, its summary counts exactly the findings, it changes nothing; the
      gaps that the branch module names, and that the files module flags what
      the reconciler would write.
    - The reports: their totals are those of the targets they list, the CSV has
      exactly the rows that are to be reported, the Markdown tables keep their columns where the
      code escapes, the workbook shows every finding although cells are merged.
    - The mail: when it is reported sent, the server has accepted just the listed
      recipients, each once, and what it reads of the body is the whole mail;
      credentials are not sent in the clear.
    - Releases: which binaries pass as official, and that no other converts to the
      Apache license.  The log: what is written for a record, and what a line
      without colors lets through.
    - The command line: no command changes GitLab unless it is told to, [validate]
      accepts what [run] loads, the exit codes of [run] and of [version --verify]
      tell the truth.

    ** Fuel and bounds

    A loop that the code leaves by the server's answers takes fuel: one unit a
    page ([Fetch], [Pagination], [GroupTree], [Inspect], [AuditModules]), one a queue item
    ([GroupTree]), one a round of a goroutine.  The theorems assume that the listing has fewer
    elements than a hundred times the fuel, or show how much is enough; running
    out is [errOutOfFuel] or [None], never a result.  The challenges of a mail
    server take fuel too (one unit an answer), and the theorems on the mail hold
    for every fuel.  The expansion of the
    environment and path.Match bound their own fuel by the depth limit of the
    code and by the length of the pattern.

    ** Not modelled

    The JSON and YAML encoders (parameters where a report needs them); the parser
    of the flags, and the command license fingerprint, which only calls the
    license library; SignRelease, which the release pipeline calls; the mock
    server and the browser front end, which are test support and not part of the
    governed program.  The methods of client.go that
    hand a call on to the SDK are the calls of [GitLabAPI].  Within the modelled
    parts: times and durations of results, log lines, the lock of a resolver (a
    resolution is one step), the recovery from a panic, and the methods of the
    worker pool that the program does not call.  Where the repository's documents
    and the code disagree the definitions follow the code, and no theorem speaks
    of the disputed case. *)

From Stdlib Require Import QArith.
From Stdlib Require Export Ascii ZArith Lia.
From Stdlib Require String.
From stdpp Require Export base tactics option gmap strings pretty sorting numbers list.

#[export] Set Default Proof Using "Type".

Declare Scope go_scope.
Delimit Scope go_scope with go.

(** ** Go values and errors *)

(** A Go [error]: a leaf made by [errors.New]/[fmt.Errorf] without [%w], or a
    wrapper [fmt.Errorf("prefix%w", ..., e)] whose chain [errors.Is] follows. *)
Inductive error : Type :=
| ErrNew (msg : string)
| ErrWrap (pre : string) (inner : error).

#[export] Instance error_eq_dec : EqDecision error.
Proof. solve_decision. Defined.

(** [err.Error()]. *)
Fixpoint error_text (e : error) : string :=
  match e with
  | ErrNew m => m
  | ErrWrap p e' => p +:+ error_text e'
  end.

(** [errors.Is(e, target)] for a comparable target. *)
Fixpoint errors_Is (e target : error) : bool :=
  bool_decide (e = target) ||
  match e with
  | ErrNew _ => false
  | ErrWrap _ e' => errors_Is e' target
  end.

(** What a loop of the model answers when its fuel is used up; the theorems show
    that it does not happen. *)
Definition errOutOfFuel : error := ErrNew "out of fuel".

(** The dynamic values a Go [any] holds in diffs and validation errors. *)
Inductive value : Type :=
| VNil
| VStr (s : string)
| VInt (z : Z)
| VBool (b : bool)
| VFloat (q : Q)
| VStrs (l : list string)
| VInts (l : list Z).

(** [err != nil] and [p != nil]. *)
Definition is_some {A} (o : option A) : bool :=
  match o with Some _ => true | None => false end.

(** The value of the first pointer that is not nil. *)
Definition or_else {A} (o d : option A) : option A :=
  match o with Some _ => o | None => d end.

(** ** Machine integers

    Go's [int] and [time.Duration] are 64-bit two's complement. *)
Definition wrap64 (z : Z) : Z := ((z + 2 ^ 63) mod 2 ^ 64 - 2 ^ 63)%Z.

Definition int64_range (z : Z) : Prop := (- 2 ^ 63 <= z < 2 ^ 63)%Z.

Lemma wrap64_range z : int64_range (wrap64 z).
Proof.
  unfold int64_range, wrap64.
  pose proof (Z.mod_pos_bound (z + 2 ^ 63) (2 ^ 64) ltac:(lia)). lia.
Qed.

Lemma wrap64_id z : int64_range z -> wrap64 z = z.
Proof. unfold int64_range, wrap64. intros. rewrite Z.mod_small by lia. lia. Qed.

(** ** Effectful programs

    A Go function that talks to the outside world (the GitLab client, the
    clock, the request context) is a [prog E A]: a tree of calls [e : E X],
    each continued by what the code does with the answer.  Nothing is assumed
    of the answers; a handler chooses them. *)
Inductive prog (E : Type -> Type) (A : Type) : Type :=
| Ret (a : A)
| Vis {X : Type} (e : E X) (k : X -> prog E A).

Arguments Ret {E A} a.
Arguments Vis {E A X} e k.

Definition call {E : Type -> Type} {X} (e : E X) : prog E X := Vis e Ret.

Fixpoint prog_bind_def {E A B} (f : A -> prog E B) (p : prog E A) : prog E B :=
  match p with
  | Ret a => f a
  | Vis e k => Vis e (fun x => prog_bind_def f (k x))
  end.

#[export] Instance prog_ret E : MRet (prog E) := fun A a => Ret a.
#[export] Instance prog_bind E : MBind (prog E) := fun A B f p => prog_bind_def f p.

(** A handler answers the calls from a state [W]. *)
Definition handler (E : Type -> Type) (W : Type) : Type :=
  forall X, E X -> W -> X * W.

Fixpoint run {E A W} (h : handler E W) (p : prog E A) (w : W) : A * W :=
  match p with
  | Ret a => (a, w)
  | Vis e k => let '(x, w') := h _ e w in run h (k x) w'
  end.

(** A program as a part of one that makes more kinds of calls. *)
Fixpoint translate {E F A} (f : forall X, E X -> F X) (p : prog E A) : prog F A :=
  match p with
  | Ret a => Ret a
  | Vis e k => Vis (f _ e) (fun x => translate f (k x))
  end.

(** One call of a program among others that run at the same time. *)
Definition advance {E A W} (h : handler E W) (p : prog E A) (w : W) : option (prog E A * W) :=
  match p with
  | Ret _ => None
  | Vis e k => let '(x, w') := h _ e w in Some (k x, w')
  end.

(** Every call the program can ever make, whatever the answers, satisfies [P]. *)
Fixpoint only {E A} (P : forall X, E X -> Prop) (p : prog E A) : Prop :=
  match p with
  | Ret _ => True
  | Vis e k => P _ e /\ forall x, only P (k x)
  end.

Lemma run_translate {E F A W} (h : handler F W) (f : forall X, E X -> F X) (p : prog E A) w :
  run h (translate f p) w = run (fun X e => h X (f X e)) p w.
Proof. revert w. induction p as [a|X e k IH]; intros w; simpl; [done|]. destruct (h X (f X e) w). apply IH. Qed.

Lemma only_translate {E F A} P (f : forall X, E X -> F X) (p : prog E A) :
  (forall X e, P _ (f X e)) -> only P (translate f p).
Proof. intros Hf. induction p as [a|X e k IH]; simpl; [done|]. split; [apply Hf|done]. Qed.

Lemma run_bind {E A B W} (h : handler E W) (p : prog E A) (f : A -> prog E B) w :
  run h (p ≫= f) w = let '(a, w') := run h p w in run h (f a) w'.
Proof.
  unfold mbind, prog_bind. revert w. induction p as [a | X e k IH]; intros w; simpl; [done|].
  destruct (h X e w) as [x w']. apply IH.
Qed.

Lemma run_ret {E A W} (h : handler E W) (a : A) w : run h (mret a) w = (a, w).
Proof. done. Qed.

Lemma run_call {E X W} (h : handler E W) (e : E X) w : run h (call e) w = h X e w.
Proof. simpl. by destruct (h X e w). Qed.

Lemma run_advance {E A W} (h : handler E W) (p p' : prog E A) w w' :
  advance h p w = Some (p', w') -> run h p w = run h p' w'.
Proof. destruct p as [a|X e k]; simpl; [done|]. destruct (h X e w). by intros [= <- <-]. Qed.

Lemma only_bind {E A B} P (p : prog E A) (f : A -> prog E B) :
  only P p -> (forall a, only P (f a)) -> only P (p ≫= f).
Proof.
  unfold mbind, prog_bind. intros Hp Hf. induction p as [a | X e k IH]; simpl in *; [done|].
  destruct Hp as [He Hk]. split; [done|]. intros x. by apply IH.
Qed.

Lemma only_mono {E A} (P Q : forall X, E X -> Prop) (p : prog E A) :
  (forall X e, P X e -> Q X e) -> only P p -> only Q p.
Proof. intros HPQ. induction p; simpl; [done|]. intros [? ?]. split; eauto. Qed.

(** A program whose calls all preserve [I] preserves it. *)
Lemma run_only {E A W} (h : handler E W) P (I : W -> Prop) (p : prog E A) w :
  (forall X (e : E X) w, P X e -> I w -> I (h X e w).2) ->
  only P p -> I w -> I (run h p w).2.
Proof.
  intros Hh. revert w. induction p as [a | X e k IH]; simpl; [done|].
  intros w [He Hk] Hw. pose proof (Hh X e w He Hw) as Hw'.
  destruct (h X e w) as [x w']. by apply IH.
Qed.

(** Every result the program can ever return satisfies [P]. *)
Fixpoint always {E A} (P : A -> Prop) (p : prog E A) : Prop :=
  match p with
  | Ret a => P a
  | Vis e k => forall x, always P (k x)
  end.

Lemma always_run {E A W} (h : handler E W) P (p : prog E A) w : always P p -> P (run h p w).1.
Proof.
  revert w. induction p as [a | X e k IH]; intros w H; simpl in *; [done|].
  destruct (h X e w) as [x w']. by apply IH.
Qed.

Lemma always_ret {E A} (P : A -> Prop) (a : A) : P a -> always P (mret (M := prog E) a).
Proof. done. Qed.

Lemma always_bind {E A B} (P : B -> Prop) (p : prog E A) (f : A -> prog E B) :
  (forall a, always P (f a)) -> always P (p ≫= f).
Proof. unfold mbind, prog_bind. intros Hf. induction p as [a | X e k IH]; simpl; auto. Qed.

Lemma always_bind_always {E A B} (P : B -> Prop) (Q : A -> Prop) (p : prog E A) (f : A -> prog E B) :
  always Q p -> (forall a, Q a -> always P (f a)) -> always P (p ≫= f).
Proof. unfold mbind, prog_bind. intros Hp Hf. induction p as [a | X e k IH]; simpl in *; auto. Qed.

Lemma always_intro {E A} (P : A -> Prop) (p : prog E A) : (forall a, P a) -> always P p.
Proof. intros Ha. induction p as [a|X e k IH]; simpl; auto. Qed.

Lemma always_translate {E F A} (P : A -> Prop) (f : forall X, E X -> F X) (p : prog E A) : always P p -> always P (translate f p).
Proof. induction p as [a|X e k IH]; simpl; auto. Qed.

(** The continuation may rely on what the results always satisfy. *)
Lemma only_bind_always {E A B} P (Q : A -> Prop) (p : prog E A) (f : A -> prog E B) :
  only P p -> always Q p -> (forall a, Q a -> only P (f a)) -> only P (p ≫= f).
Proof.
  unfold mbind, prog_bind. intros Hp Hq Hf. induction p as [a | X e k IH]; simpl in *; [by apply Hf|].
  destruct Hp as [He Hk]. split; [done|]. intros x. by apply IH.
Qed.

(** Whatever answers that [ok] admits, the program makes only calls that
    satisfy [C], and a result that satisfies [Q]. *)
Fixpoint follows {E A} (ok : forall X, E X -> X -> Prop) (C : forall X, E X -> Prop) (Q : A -> Prop) (p : prog E A) : Prop :=
  match p with
  | Ret a => Q a
  | Vis e k => C _ e /\ forall x, ok _ e x -> follows ok C Q (k x)
  end.

Lemma follows_bind {E A B} ok C (Q : A -> Prop) (R : B -> Prop) (p : prog E A) (f : A -> prog E B) :
  follows ok C Q p -> (forall a, Q a -> follows ok C R (f a)) -> follows ok C R (p ≫= f).
Proof.
  unfold mbind, prog_bind. intros Hp Hf. induction p as [a | X e k IH]; simpl in *; [by apply Hf|].
  destruct Hp as [He Hk]. split; [done|]. intros x Hx. by apply IH, Hk.
Qed.

Lemma follows_call {E X} ok C (Q : X -> Prop) (e : E X) : C _ e -> (forall x, ok _ e x -> Q x) -> follows ok C Q (call e).
Proof. by split. Qed.

Lemma follows_mono {E A} ok C (P Q : A -> Prop) (p : prog E A) : (forall a, P a -> Q a) -> follows ok C P p -> follows ok C Q p.
Proof. intros HPQ. induction p as [a | X e k IH]; simpl; [auto|]. intros [? Hk]. split; [done|]. intros x Hx. by apply IH, Hk. Qed.

(** One call of such a program, answered from a state in which [I] holds, leaves
    such a program. *)
Lemma follows_advance {E A W} ok C (I : W -> Prop) (h : handler E W) (Q : A -> Prop) (p p' : prog E A) w w' :
  (forall X (e : E X) w, C _ e -> I w -> ok _ e (h X e w).1 /\ I (h X e w).2) ->
  follows ok C Q p -> I w -> advance h p w = Some (p', w') -> follows ok C Q p' /\ I w'.
Proof.
  intros Hh Hp Hw. destruct p as [a|X e k]; simpl; [done|]. destruct Hp as [He Hk]. destruct (Hh X e w He Hw) as [Hx Hw'].
  destruct (h X e w) as [x w1]. intros [= <- <-]. auto.
Qed.

Lemma follows_run {E A W} ok C (I : W -> Prop) (h : handler E W) (Q : A -> Prop) (p : prog E A) w :
  (forall X (e : E X) w, C _ e -> I w -> ok _ e (h X e w).1 /\ I (h X e w).2) ->
  follows ok C Q p -> I w -> Q (run h p w).1 /\ I (run h p w).2.
Proof.
  intros Hh. revert w. induction p as [a|X e k IH]; simpl; [done|]. intros w [He Hk] Hw. destruct (Hh X e w He Hw) as [Hx Hw'].
  destruct (h X e w) as [x w']. simpl in *. auto.
Qed.

(** The calls a run makes, in order. *)
Fixpoint calls {E A W} (h : handler E W) (p : prog E A) (w : W) : list (sigT E) :=
  match p with
  | Ret _ => []
  | Vis e k => let '(x, w') := h _ e w in existT _ e :: calls h (k x) w'
  end.

Lemma calls_only {E A W} (h : handler E W) P (p : prog E A) w :
  only P p -> Forall (fun c => P (projT1 c) (projT2 c)) (calls h p w).
Proof.
  revert w. induction p as [a | X e k IH]; simpl; intros w H; [done|].
  destruct H as [He Hk]. destruct (h X e w) as [x w']. constructor; [done|]. by apply IH.
Qed.

Lemma calls_advance {E A W} (h : handler E W) (p p' : prog E A) w w' :
  advance h p w = Some (p', w') -> length (calls h p w) = S (length (calls h p' w')).
Proof. destruct p as [a|X e k]; simpl; [done|]. destruct (h X e w). by intros [= <- <-]. Qed.

(** The calls with their answers, and a property of each call and of what came
    before it. *)
Abbreviation answered E := (sigT (fun X => E X * X)%type).

Fixpoint trace {E A W} (h : handler E W) (p : prog E A) (w : W) : list (sigT (fun X => E X * X)%type) :=
  match p with
  | Ret _ => []
  | Vis e k => let '(x, w') := h _ e w in existT _ (e, x) :: trace h (k x) w'
  end.

Definition each_after {A} (P : list A -> A -> Prop) (l : list A) : Prop :=
  forall before a after, l = before ++ a :: after -> P before a.

Lemma trace_bind {E A B W} (h : handler E W) (p : prog E A) (f : A -> prog E B) w :
  trace h (p ≫= f) w = trace h p w ++ (let '(a, w') := run h p w in trace h (f a) w').
Proof.
  unfold mbind, prog_bind. revert w. induction p as [a | X e k IH]; intros w; simpl; [done|].
  destruct (h X e w) as [x w']. simpl. by rewrite IH.
Qed.

Lemma trace_call {E A B W} (h : handler E W) (e : E A) (f : A -> prog E B) w :
  trace h (call e ≫= f) w = let '(x, w') := h _ e w in existT _ (e, x) :: trace h (f x) w'.
Proof. rewrite trace_bind, run_call. simpl. by destruct (h _ e w). Qed.

Lemma trace_ret {E A W} (h : handler E W) (a : A) w : trace h (mret (M := prog E) a) w = [].
Proof. done. Qed.

(** A property of the calls, their answers and the result of every run there can
    be. *)
Fixpoint traces {E A} (P : list (answered E) -> A -> Prop) (p : prog E A) : Prop :=
  match p with
  | Ret a => P [] a
  | Vis e k => forall x, traces (fun l a => P (existT _ (e, x) :: l) a) (k x)
  end.

Lemma traces_mono {E A} (P Q : list (answered E) -> A -> Prop) (p : prog E A) :
  (forall l a, P l a -> Q l a) -> traces P p -> traces Q p.
Proof.
  revert P Q. induction p as [a|X e k IH]; simpl; intros P Q HPQ Hp; [by apply HPQ|].
  intros x. eapply IH; [|exact (Hp x)]. simpl. auto.
Qed.

Lemma traces_bind {E A B} (P : list (answered E) -> B -> Prop) Q (p : prog E A) (f : A -> prog E B) :
  traces Q p -> (forall l a, Q l a -> traces (fun l' b => P (l ++ l') b) (f a)) -> traces P (p ≫= f).
Proof.
  unfold mbind, prog_bind. revert P Q. induction p as [a|X e k IH]; simpl; intros P Q Hp Hf.
  - by apply (Hf []).
  - intros x. eapply IH; [exact (Hp x)|]. intros l a Hl. by apply (Hf (existT _ (e, x) :: l)).
Qed.

Lemma only_traces {E A} (P : forall X, E X -> Prop) (p : prog E A) :
  only P p -> traces (fun l _ => Forall (fun c : answered E => P _ (projT2 c).1) l) p.
Proof.
  induction p as [a|X e k IH]; simpl; [by constructor|]. intros [He Hk] x.
  eapply traces_mono; [|exact (IH x (Hk x))]. intros l a Hl. by constructor.
Qed.

Lemma traces_call {E A X} (P : list (answered E) -> A -> Prop) (e : E X) (f : X -> prog E A) :
  (forall x, traces (fun l a => P (existT _ (e, x) :: l) a) (f x)) -> traces P (call e ≫= f).
Proof. done. Qed.

Lemma traces_ret {E A} (P : list (answered E) -> A -> Prop) (a : A) : P [] a -> traces P (mret (M := prog E) a).
Proof. done. Qed.

Lemma traces_run {E A W} (h : handler E W) (P : list (answered E) -> A -> Prop) (p : prog E A) w :
  traces P p -> P (trace h p w) (run h p w).1.
Proof.
  revert P w. induction p as [a|X e k IH]; simpl; intros P w Hp; [done|].
  destruct (h X e w) as [x w']. exact (IH x _ w' (Hp x)).
Qed.

Lemma each_after_nil {A} (P : list A -> A -> Prop) : each_after P [].
Proof. intros [|b before] a after Hl; discriminate Hl. Qed.

Lemma each_after_app {A} (P : list A -> A -> Prop) l1 l2 :
  (forall l before a, P before a -> P (l ++ before) a) ->
  each_after P l1 -> each_after P l2 -> each_after P (l1 ++ l2).
Proof.
  intros Hm H1 H2 before a after Hl. apply app_eq_inv in Hl as [(k & -> & Hk)|(k & -> & ->)].
  - destruct k as [|b k]; simpl in Hk.
    + rewrite <- Hk in H2. rewrite <- (app_nil_r before). apply Hm. by apply (H2 [] a after).
    + injection Hk as <- _. by apply (H1 before a k).
  - apply Hm. by apply (H2 k a after).
Qed.

Lemma each_after_snoc {A} (P : list A -> A -> Prop) l a : each_after P l -> P l a -> each_after P (l ++ [a]).
Proof.
  intros Hl Ha before b after He. apply app_eq_inv in He as [(k & -> & Hk)|(k & -> & Hk)].
  - destruct k as [|c k]; simpl in Hk; injection Hk as -> ->; [by rewrite app_nil_r in Ha|by apply (Hl before c k)].
  - destruct k as [|c [|]]; [|discriminate Hk..]. injection Hk as -> <-. by rewrite app_nil_r.
Qed.

Lemma each_after_cons {A} (P : list A -> A -> Prop) a l :
  (forall l before a, P before a -> P (l ++ before) a) -> P [] a -> each_after P l -> each_after P (a :: l).
Proof.
  intros Hm Ha Hl. apply (each_after_app P [a]); [done| |done].
  apply (each_after_snoc P []); [apply each_after_nil|done].
Qed.

Lemma calls_bind {E A B W} (h : handler E W) (p : prog E A) (f : A -> prog E B) w :
  calls h (p ≫= f) w = calls h p w ++ (let '(a, w') := run h p w in calls h (f a) w').
Proof.
  unfold mbind, prog_bind. revert w. induction p as [a | X e k IH]; intros w; simpl; [done|].
  destruct (h X e w) as [x w']. simpl. by rewrite IH.
Qed.

(** The elements of a list of pointers that are not nil. *)
Definition non_nil {A} (l : list (option A)) : list A := omap id l.

(** [for _, a := range l { b, err := f(a); if err != nil { return err }; ... }]. *)
Fixpoint try_map {E A B X} (f : A -> prog E (X + B)) (l : list A) : prog E (X + list B) :=
  match l with
  | [] => mret (inr [])
  | a :: l' =>
      r ← f a;
      match r with
      | inl x => mret (inl x)
      | inr b =>
          rs ← try_map f l';
          mret match rs with inl x => inl x | inr bs => inr (b :: bs) end
      end
  end.

Lemma try_map_only {E A B X} P (f : A -> prog E (X + B)) l : (forall a, only P (f a)) -> only P (try_map f l).
Proof.
  intros Hf. induction l as [|a l IH]; cbn [try_map]; [done|]. apply only_bind; [done|]. intros [x|b]; [done|].
  by apply only_bind.
Qed.

(** The same on answers that are known. *)
Fixpoint try_map_pure {A B X} (f : A -> X + B) (l : list A) : X + list B :=
  match l with
  | [] => inr []
  | a :: l' =>
      match f a with
      | inl x => inl x
      | inr b => match try_map_pure f l' with inl x => inl x | inr bs => inr (b :: bs) end
      end
  end.

Lemma try_map_run {E A B X W} (h : handler E W) (f : A -> prog E (X + B)) g l w :
  (forall a w, run h (f a) w = (g a, w)) -> run h (try_map f l) w = (try_map_pure g l, w).
Proof.
  intros Hf. induction l as [|a l IH]; cbn [try_map try_map_pure]; [done|].
  rewrite run_bind, Hf. destruct (g a) as [x|b]; [done|]. rewrite run_bind, IH. by destruct (try_map_pure g l).
Qed.

Lemma try_map_pure_Forall2 {A B X} (f : A -> X + B) l bs :
  try_map_pure f l = inr bs <-> Forall2 (fun a b => f a = inr b) l bs.
Proof.
  revert bs. induction l as [|a l IH]; intros bs; cbn [try_map_pure].
  { split; [by intros [= <-]|by inversion 1]. }
  split.
  - destruct (f a) as [x|b] eqn:Ea; [done|]. destruct (try_map_pure f l) as [x|cs]; [done|].
    intros [= <-]. constructor; [done|by apply IH].
  - inversion 1 as [|? b ? cs Hb Hcs]; subst. apply IH in Hcs. by rewrite Hb, Hcs.
Qed.

Create HintDb prog discriminated.
#[export] Hint Resolve only_bind : prog.
#[export] Hint Rewrite @run_bind @run_ret @run_call : prog.

(** ** Lists *)

Lemma forallb_Forall_iff {A} (f : A -> bool) (P : A -> Prop) l :
  (forall x, f x = true <-> P x) -> forallb f l = true <-> Forall P l.
Proof.
  intros Hf. induction l as [|x l IH]; simpl; [by split|].
  rewrite Forall_cons. destruct (f x) eqn:E; simpl.
  - apply Hf in E. rewrite IH. tauto.
  - split; [done|]. intros [Hx _]. apply Hf in Hx. congruence.
Qed.

(** Sorting by a key: two permutations of one another sort to the same list
    when the key order is total and the key injective. *)
Lemma merge_sort_unique {A} (R : relation A) `{!∀ x y, Decision (R x y)}
  `{!Transitive R} `{!Total R} `{!AntiSymm (=) R} (l1 l2 : list A) :
  l1 ≡ₚ l2 -> merge_sort R l1 = merge_sort R l2.
Proof.
  intros Hp. apply (StronglySorted_unique R).
  - by apply StronglySorted_merge_sort.
  - by apply StronglySorted_merge_sort.
  - by rewrite !merge_sort_Permutation.
Qed.

(** Two images of lists are permutations together when the maps identify the
    same elements. *)
Lemma fmap_Permutation_transfer {A B C} (f : A -> B) (g : A -> C) :
  (forall x y, f x = f y -> g x = g y) -> (forall x y, g x = g y -> f x = f y) ->
  forall l1 l2, f <$> l1 ≡ₚ f <$> l2 <-> g <$> l1 ≡ₚ g <$> l2.
Proof.
  assert (forall {B C} (f : A -> B) (g : A -> C), (forall x y, f x = f y -> g x = g y) ->
    forall l1 l2, f <$> l1 ≡ₚ f <$> l2 -> g <$> l1 ≡ₚ g <$> l2) as H.
  { clear. intros B C f g Hfg l1 l2 Hp.
    apply Permutation_map_inv in Hp as (l3 & He & Hp). rewrite Hp. apply reflexive_eq.
    clear Hp l2. revert l3 He. induction l1 as [|x l1 IH]; intros [|y l3] He; try done.
    rewrite !fmap_cons in He. injection He as Hx He. rewrite !fmap_cons. f_equal; [by apply Hfg|by apply IH]. }
  intros Hfg Hgf l1 l2. split; by apply H.
Qed.

Lemma omap_id_fmap {A B} (f : A -> option B) (l : list A) : omap id (f <$> l) = omap f l.
Proof.
  induction l as [|a l IH]; [done|]. rewrite fmap_cons.
  change (omap id (f a :: (f <$> l))) with (match f a with Some b => b :: omap id (f <$> l) | None => omap id (f <$> l) end).
  rewrite IH. done.
Qed.

Lemma omap_id_Some {A} (l : list A) : omap id (Some <$> l) = l.
Proof. induction l as [|a l IH]; [done|]. simpl. by f_equal. Qed.

(** Going through a list by index. *)
Lemma omap_seq_lookup {A B} (f : A -> option B) (l : list A) :
  omap (fun i => l !! i ≫= f) (seq 0 (length l)) = omap f l.
Proof.
  induction l as [|x l IH] using rev_ind; [done|]. rewrite length_app, seq_app, !omap_app, <- IH. simpl.
  f_equal; [|by rewrite lookup_app_r, Nat.sub_diag by lia].
  apply list_omap_ext, Forall2_same_length_lookup_2; [done|]. intros i j j' Hj Hj'. rewrite Hj in Hj'. injection Hj' as <-.
  apply lookup_seq in Hj as [-> Hlt]. by rewrite lookup_app_l by lia.
Qed.

(** What a list of elements yields, when one of them changes. *)
Lemma bind_insert_perm {A B} (f : A -> list B) (l : list A) i x y d :
  l !! i = Some x -> f x ≡ₚ d ++ f y -> (l ≫= f) ≡ₚ d ++ (<[i := y]> l ≫= f).
Proof.
  revert i. induction l as [|z l IH]; intros i Hi Hf; [done|]. destruct i as [|i]; simpl in *.
  - injection Hi as ->. by rewrite Hf, <- app_assoc.
  - rewrite (IH i Hi Hf). apply Permutation_app_swap_app.
Qed.

Lemma sum_list_insert {A} (f : A -> nat) (l : list A) i x y :
  l !! i = Some x -> (sum_list_with f (<[i := y]> l) + f x = sum_list_with f l + f y)%nat.
Proof. revert i. induction l as [|z l IH]; intros [|i] Hi; simplify_eq/=; [lia|]. specialize (IH i Hi). lia. Qed.

(** Elements with the same image under a map that tells the elements apart. *)
Lemma NoDup_fmap_eq {A B} (f : A -> B) (l : list A) x y :
  NoDup (f <$> l) -> x ∈ l -> y ∈ l -> f x = f y -> x = y.
Proof.
  induction l as [|a l IH]; [set_solver|]. rewrite fmap_cons, NoDup_cons, !elem_of_cons.
  intros [Ha Hl] [->|Hx] [->|Hy] He; [done| | |by apply IH]; destruct Ha.
  - rewrite He. by apply list_elem_of_fmap_2.
  - rewrite <- He. by apply list_elem_of_fmap_2.
Qed.

Lemma exists_elem_cons {A} (P : A -> Prop) x l :
  (exists y, y ∈ x :: l /\ P y) <-> P x \/ exists y, y ∈ l /\ P y.
Proof. setoid_rewrite elem_of_cons. naive_solver. Qed.

(** [List.filter], for boolean predicates. *)
Lemma elem_of_List_filter {A} (f : A -> bool) l x : x ∈ List.filter f l <-> f x = true /\ x ∈ l.
Proof. rewrite !list_elem_of_In, List.filter_In. tauto. Qed.

Lemma List_filter_true {A} (f : A -> bool) l : (forall x, x ∈ l -> f x = true) -> List.filter f l = l.
Proof.
  induction l as [|x l IH]; intros H; simpl; [done|]. rewrite (H x) by left. f_equal. apply IH. intros y Hy.
  apply H. by right.
Qed.

Lemma NoDup_fmap_List_filter {A B} (g : A -> B) (f : A -> bool) l :
  NoDup (g <$> l) -> NoDup (g <$> List.filter f l).
Proof.
  induction l as [|a l IH]; [done|]. rewrite fmap_cons, NoDup_cons. intros [Ha Hl]. simpl.
  destruct (f a); [|auto]. rewrite fmap_cons, NoDup_cons. split; [|auto].
  rewrite list_elem_of_fmap in *. intros (x & He & Hx). apply elem_of_List_filter in Hx. naive_solver.
Qed.

Lemma List_filter_nil {A} (f : A -> bool) l : List.filter f l = [] <-> forall x, x ∈ l -> f x = false.
Proof.
  induction l as [|a l IH]; simpl; [set_solver|]. setoid_rewrite elem_of_cons. destruct (f a) eqn:E; [|naive_solver].
  split; [done|]. intros H. by rewrite (H a) in E by auto.
Qed.

Lemma fmap_nil_iff {A B} (f : A -> B) (l : list A) : f <$> l = [] <-> l = [].
Proof. by destruct l. Qed.

Lemma List_filter_filter {A} (f g : A -> bool) l :
  List.filter f (List.filter g l) = List.filter (fun x => g x && f x) l.
Proof.
  induction l as [|a l IH]; [done|]. simpl. destruct (g a); simpl; [|done].
  by destruct (f a); rewrite IH.
Qed.

Lemma List_filter_ext {A} (f g : A -> bool) l :
  (forall x, x ∈ l -> f x = g x) -> List.filter f l = List.filter g l.
Proof.
  intros H. apply List.filter_ext_in. intros x Hx. apply H. by apply list_elem_of_In.
Qed.

(** ** Tactics *)

(** Case analysis on every [match]/[if] scrutinee of the goal. *)
Ltac split_matches :=
  repeat (case_match; simplify_eq/=; try done).

(** Boolean hypotheses and goals to propositions. *)
Ltac b2p :=
  repeat match goal with
  | H : _ && _ = true |- _ => apply andb_true_iff in H; destruct H
  | H : _ || _ = false |- _ => apply orb_false_iff in H; destruct H
  | H : negb _ = true |- _ => apply negb_true_iff in H
  | H : negb _ = false |- _ => apply negb_false_iff in H
  | H : bool_decide _ = true |- _ => apply bool_decide_eq_true in H
  | H : bool_decide _ = false |- _ => apply bool_decide_eq_false in H
  | H : (_ =? _)%string = true |- _ => apply String.eqb_eq in H
  | H : (_ =? _)%string = false |- _ => apply String.eqb_neq in H
  | H : (_ =? _)%Z = true |- _ => apply Z.eqb_eq in H
  | H : (_ =? _)%Z = false |- _ => apply Z.eqb_neq in H
  | H : (_ <? _)%Z = true |- _ => apply Z.ltb_lt in H
  | H : (_ <? _)%Z = false |- _ => apply Z.ltb_ge in H
  | H : (_ <=? _)%Z = true |- _ => apply Z.leb_le in H
  | H : (_ <=? _)%Z = false |- _ => apply Z.leb_gt in H
  end.
