(* ===== verification/GoLib.v ===== *)
(** * The Go standard library the components use

    The string functions of package [strings], [strconv.Itoa], [path], the
    [sort] package on strings, and the interfaces of [regexp] and [net/url].
    Strings are byte strings; case mapping and white space are those of ASCII
    (a byte above 127 is left alone and is no white space). *)

From S2P Require Import Prelude.
Local Open Scope string_scope.

(** ** package strings *)

Fixpoint string_map (f : ascii -> ascii) (s : string) : string :=
  match s with
  | "" => ""
  | String c s' => String (f c) (string_map f s')
  end.

Definition ascii_in (lo hi : N) (c : ascii) : bool :=
  ((lo <=? N_of_ascii c) && (N_of_ascii c <=? hi))%N.

Definition is_upper : ascii -> bool := ascii_in 65 90.
Definition is_lower : ascii -> bool := ascii_in 97 122.
Definition is_digit : ascii -> bool := ascii_in 48 57.
Definition is_letter (c : ascii) : bool := is_upper c || is_lower c.

Definition lower_ascii (c : ascii) : ascii :=
  if is_upper c then ascii_of_N (N_of_ascii c + 32) else c.
Definition upper_ascii (c : ascii) : ascii :=
  if is_lower c then ascii_of_N (N_of_ascii c - 32) else c.

Definition ToLower : string -> string := string_map lower_ascii.
Definition ToUpper : string -> string := string_map upper_ascii.

Definition is_space (c : ascii) : bool := ascii_in 9 13 c || (c =? " ")%char.

Fixpoint TrimLeftFunc (p : ascii -> bool) (s : string) : string :=
  match s with
  | "" => ""
  | String c s' => if p c then TrimLeftFunc p s' else s
  end.

Fixpoint TrimRightFunc (p : ascii -> bool) (s : string) : string :=
  match s with
  | "" => ""
  | String c s' =>
      match TrimRightFunc p s' with
      | "" => if p c then "" else String c ""
      | r => String c r
      end
  end.

Definition TrimFunc (p : ascii -> bool) (s : string) : string :=
  TrimRightFunc p (TrimLeftFunc p s).

Definition TrimSpace : string -> string := TrimFunc is_space.

(** [strings.Trim(s, "c")] and [strings.TrimRight(s, "c")] for a one-byte cutset. *)
Definition Trim (c : ascii) : string -> string := TrimFunc (Ascii.eqb c).
Definition TrimRight (c : ascii) : string -> string := TrimRightFunc (Ascii.eqb c).

Definition HasPrefix (s p : string) : bool := String.prefix p s.

Fixpoint HasSuffix (s p : string) : bool :=
  (s =? p) || match s with "" => false | String _ s' => HasSuffix s' p end.

Fixpoint Contains (s sub : string) : bool :=
  HasPrefix s sub || match s with "" => false | String _ s' => Contains s' sub end.

Fixpoint string_drop (n : nat) (s : string) : string :=
  match n, s with
  | S n', String _ s' => string_drop n' s'
  | _, _ => s
  end.

Definition TrimPrefix (s p : string) : string :=
  if HasPrefix s p then string_drop (String.length p) s else s.

Definition TrimSuffix (s p : string) : string :=
  if HasSuffix s p then String.substring 0 (String.length s - String.length p) s else s.

(** [strings.Split(s, "c")] for a one-byte separator. *)
Fixpoint SplitByte (c : ascii) (s : string) : list string :=
  match s with
  | "" => [""]
  | String d s' =>
      if (c =? d)%char then "" :: SplitByte c s'
      else match SplitByte c s' with
           | w :: ws => String d w :: ws
           | [] => [String d ""]
           end
  end.

Fixpoint Join (l : list string) (sep : string) : string :=
  match l with
  | [] => ""
  | [x] => x
  | x :: l' => x +:+ sep +:+ Join l' sep
  end.

(** The prefix before the last [c], when there is one:
    [s[:strings.LastIndex(s, "c")]]. *)
Fixpoint BeforeLast (c : ascii) (s : string) : option string :=
  match s with
  | "" => None
  | String d s' =>
      match BeforeLast c s' with
      | Some r => Some (String d r)
      | None => if (c =? d)%char then Some "" else None
      end
  end.

(** [strings.SplitN(s, "c", 2)]: the text before the first [c], and the text
    after it when there is one. *)
Fixpoint Cut (c : ascii) (s : string) : string * option string :=
  match s with
  | "" => ("", None)
  | String d s' => if (c =? d)%char then ("", Some s') else let '(a, b) := Cut c s' in (String d a, b)
  end.

(** [path.Ext]: from the last dot of the last segment. *)
Fixpoint path_Ext (p : string) : string :=
  match p with
  | "" => ""
  | String c rest =>
      let e := path_Ext rest in
      if negb (e =? "") then e else if (c =? ".")%char && negb (Contains rest "/") then p else ""
  end.

(** [strings.ReplaceAll(s, old, new)], [old] not empty: leftmost matches, not
    overlapping; [skip] counts the bytes of a match still to drop. *)
Fixpoint replace_go (old new : string) (skip : nat) (s : string) : string :=
  match s with
  | "" => ""
  | String c s' =>
      match skip with
      | S k => replace_go old new k s'
      | O => if HasPrefix s old
             then new +:+ replace_go old new (String.length old - 1) s'
             else String c (replace_go old new 0 s')
      end
  end.
Definition ReplaceAll (s old new : string) : string := replace_go old new 0 s.

Definition EqualFold (a b : string) : bool := ToLower a =? ToLower b.

Definition string_all (p : ascii -> bool) (s : string) : bool :=
  forallb p (String.list_ascii_of_string s).

(** ** package path

    [path.Clean]: the segments are processed left to right, [out] holding the
    kept ones in reverse; at the root, [..] is dropped. *)
Fixpoint clean_segments (rooted : bool) (out : list string) (segs : list string) : list string :=
  match segs with
  | [] => reverse out
  | seg :: rest =>
      if (seg =? "") || (seg =? ".") then clean_segments rooted out rest
      else if seg =? ".." then
        match out with
        | top :: out' =>
            if top =? ".." then clean_segments rooted (".." :: out) rest
            else clean_segments rooted out' rest
        | [] => if rooted then clean_segments rooted [] rest else clean_segments rooted [".."] rest
        end
      else clean_segments rooted (seg :: out) rest
  end.

Definition path_Clean (p : string) : string :=
  let rooted := HasPrefix p "/" in
  let body := Join (clean_segments rooted [] (SplitByte "/" p)) "/" in
  if rooted then "/" +:+ body else if body =? "" then "." else body.

(** ** package strconv *)

Definition Itoa (z : Z) : string := pretty z.

(** [strconv.Atoi]: an optional sign and decimal digits within 64 bits; [None]
    is an error. *)
Definition digit_of (c : ascii) : option Z :=
  if is_digit c then Some (Z.of_N (N_of_ascii c) - 48)%Z else None.

Fixpoint parse_digits (acc : Z) (s : string) : option Z :=
  match s with
  | "" => Some acc
  | String c s' => match digit_of c with
                   | Some d => parse_digits (acc * 10 + d)%Z s'
                   | None => None
                   end
  end.

Definition Atoi (s : string) : option Z :=
  let unsigned s := if s =? "" then None else parse_digits 0 s in
  let z := match s with
           | String "-" s' => Z.opp <$> unsigned s'
           | String "+" s' => unsigned s'
           | _ => unsigned s
           end in
  match z with
  | Some z => if ((- 2 ^ 63 <=? z) && (z <? 2 ^ 63))%Z then Some z else None
  | None => None
  end.

(** The longest prefix of characters that satisfy [p], and the rest. *)
Fixpoint Span (p : ascii -> bool) (s : string) : string * string :=
  match s with
  | "" => ("", "")
  | String c s' => if p c then let '(a, b) := Span p s' in (String c a, b) else ("", s)
  end.

(** [fmt.Sprintf("%t", b)]. *)
Definition fmt_bool (b : bool) : string := if b then "true" else "false".

(** ** package sort *)

Definition sort_Strings (l : list string) : list string := merge_sort String.le l.

Lemma sort_Strings_Permutation l : sort_Strings l ≡ₚ l.
Proof. apply merge_sort_Permutation. Qed.

Lemma sort_Strings_eq_iff l1 l2 : sort_Strings l1 = sort_Strings l2 <-> l1 ≡ₚ l2.
Proof.
  split; intros H.
  - rewrite <- (sort_Strings_Permutation l1), H. apply sort_Strings_Permutation.
  - by apply (merge_sort_unique String.le).
Qed.

Lemma sort_Strings_sorted l : StronglySorted String.le (sort_Strings l).
Proof. apply StronglySorted_merge_sort; apply _. Qed.

(** ** packages regexp and net/url

    Regular expressions and URLs come from the policy file: the model is
    given the engine ([regexp.Compile] and [MatchString]) and the parser. *)
Class GoRegexp : Type := {
  (** [regexp.Compile]: the error, or the matcher [re.MatchString]. *)
  regexp_Compile : string -> error + (string -> bool)
}.

Class GoURL : Type := {
  (** [url.ParseRequestURI]: [Some (scheme, host)] when there is no error. *)
  url_ParseRequestURI : string -> option (string * string)
}.

(** ** Lemmas *)

(** Induction on the length of a string. *)
Lemma string_length_ind (P : string -> Prop) :
  (forall s, (forall t, (String.length t < String.length s)%nat -> P t) -> P s) -> forall s, P s.
Proof.
  intros H s. enough (forall n t, (String.length t < n)%nat -> P t) as Hn by (eapply Hn; eauto).
  induction n as [|n IH]; intros t Ht; [lia|]. apply H. intros u Hu. apply IH. lia.
Qed.

Lemma string_app_cons c a b : String c a +:+ b = String c (a +:+ b).
Proof. done. Qed.

Lemma string_app_nil_l a : "" +:+ a = a.
Proof. done. Qed.

Lemma string_app_nil_r s : s +:+ "" = s.
Proof. induction s as [|c s IH]; [done|]. by rewrite string_app_cons, IH. Qed.

Lemma string_app_assoc a b c : (a +:+ b) +:+ c = a +:+ (b +:+ c).
Proof. induction a as [|x a IH]; [done|]. by rewrite !string_app_cons, IH. Qed.

Lemma string_app_length a b : String.length (a +:+ b) = (String.length a + String.length b)%nat.
Proof. induction a as [|x a IH]; [done|]. rewrite string_app_cons. simpl. by rewrite IH. Qed.

Lemma HasPrefix_spec s p : HasPrefix s p = true <-> exists r, s = p +:+ r.
Proof.
  unfold HasPrefix. split.
  - revert s. induction p as [|c p IH]; intros s H; [by exists s|].
    destruct s as [|d s]; [done|]. simpl in H. destruct (ascii_dec c d) as [->|]; [|done].
    destruct (IH _ H) as [r ->]. by exists r.
  - intros [r ->]. induction p as [|c p IH]; [by destruct r|].
    rewrite string_app_cons. simpl. by destruct (ascii_dec c c).
Qed.

Lemma lower_ascii_idem c : lower_ascii (lower_ascii c) = lower_ascii c.
Proof. destruct c as [[] [] [] [] [] [] [] []]; reflexivity. Qed.

Lemma ToLower_idem s : ToLower (ToLower s) = ToLower s.
Proof.
  unfold ToLower. induction s as [|c s IH]; simpl; [done|]. by rewrite lower_ascii_idem, IH.
Qed.

Lemma TrimRightFunc_idem p s : TrimRightFunc p (TrimRightFunc p s) = TrimRightFunc p s.
Proof.
  induction s as [|c s IH]; simpl; [done|].
  destruct (TrimRightFunc p s) as [|d r] eqn:E.
  - destruct (p c) eqn:Hc; simpl; [done|]. by rewrite Hc.
  - simpl in IH. simpl. by rewrite IH.
Qed.

Lemma TrimLeftFunc_TrimRightFunc p s :
  TrimLeftFunc p (TrimLeftFunc p s) = TrimLeftFunc p s.
Proof.
  induction s as [|c s IH]; simpl; [done|]. destruct (p c) eqn:Hc; [done|]. simpl. by rewrite Hc.
Qed.

Lemma TrimLeftFunc_fix p s : TrimLeftFunc p (TrimFunc p s) = TrimFunc p s.
Proof.
  unfold TrimFunc. set (t := TrimLeftFunc p s).
  assert (Ht : TrimLeftFunc p t = t) by apply TrimLeftFunc_TrimRightFunc.
  destruct t as [|c t]; [done|]. simpl in Ht |- *.
  destruct (p c) eqn:Hc.
  - exfalso. apply (f_equal String.length) in Ht. simpl in Ht.
    assert (forall u, String.length (TrimLeftFunc p u) <= String.length u)%nat as Hl.
    { induction u as [|d u IHu]; simpl; [lia|]. destruct (p d); simpl; lia. }
    pose proof (Hl t). lia.
  - destruct (TrimRightFunc p t); simpl; by rewrite Hc.
Qed.

Lemma TrimFunc_idem p s : TrimFunc p (TrimFunc p s) = TrimFunc p s.
Proof.
  unfold TrimFunc at 1. rewrite TrimLeftFunc_fix. unfold TrimFunc. apply TrimRightFunc_idem.
Qed.

Lemma string_all_cons p c s : string_all p (String c s) = p c && string_all p s.
Proof. done. Qed.

Lemma string_all_app p a b : string_all p (a +:+ b) = string_all p a && string_all p b.
Proof.
  induction a as [|c a IH]; [done|]. by rewrite string_app_cons, !string_all_cons, IH, andb_assoc.
Qed.

Lemma string_all_impl p q s :
  (forall c, p c = true -> q c = true) -> string_all p s = true -> string_all q s = true.
Proof.
  intros Hpq. induction s as [|c s IH]; [done|]. rewrite !string_all_cons. intros H. b2p.
  by rewrite (Hpq c), IH.
Qed.

Lemma TrimFunc_none p s : string_all (fun c => negb (p c)) s = true -> TrimFunc p s = s.
Proof.
  unfold TrimFunc. intros H.
  assert (TrimLeftFunc p s = s) as ->.
  { destruct s as [|c s]; [done|]. rewrite string_all_cons in H. b2p. simpl. by rewrite H. }
  induction s as [|c s IH]; [done|]. rewrite string_all_cons in H. b2p. simpl.
  rewrite IH by done. rewrite H. by destruct s.
Qed.

(** Trimming leaves only characters of the string. *)
Lemma string_all_TrimRightFunc p q s : string_all q s = true -> string_all q (TrimRightFunc p s) = true.
Proof.
  induction s as [|c s IH]; [done|]. rewrite string_all_cons. intros H. b2p. cbn [TrimRightFunc].
  specialize (IH ltac:(done)). destruct (TrimRightFunc p s).
  - destruct (p c); [done|]. rewrite string_all_cons. by apply andb_true_iff.
  - rewrite string_all_cons. by apply andb_true_iff.
Qed.

Lemma string_all_TrimLeftFunc p q s : string_all q s = true -> string_all q (TrimLeftFunc p s) = true.
Proof.
  induction s as [|c s IH]; [done|]. intros H. cbn [TrimLeftFunc]. destruct (p c); [|done].
  rewrite string_all_cons in H. b2p. auto.
Qed.

Lemma string_all_TrimFunc p q s : string_all q s = true -> string_all q (TrimFunc p s) = true.
Proof. intros H. by apply string_all_TrimRightFunc, string_all_TrimLeftFunc. Qed.

(** A string in lower case stays so when it is trimmed. *)
Lemma ToLower_fixed s : ToLower s = s <-> string_all (fun c => (lower_ascii c =? c)%char) s = true.
Proof.
  unfold ToLower. induction s as [|c s IH]; [done|]. rewrite string_all_cons, andb_true_iff, <- IH, Ascii.eqb_eq.
  cbn [string_map]. split; [intros [= -> ->]; done|intros [-> ->]; done].
Qed.

Lemma ToLower_Trim c s : ToLower (Trim c (ToLower s)) = Trim c (ToLower s).
Proof. apply ToLower_fixed, string_all_TrimFunc, ToLower_fixed, ToLower_idem. Qed.

Lemma Itoa_inj a b : Itoa a = Itoa b -> a = b.
Proof. apply (inj pretty). Qed.

#[export] Hint Rewrite ToLower_idem TrimFunc_idem string_app_nil_r string_app_nil_l : golib.

Lemma string_drop_app a b : string_drop (String.length a) (a +:+ b) = b.
Proof. induction a as [|c a IH]; [done|]. rewrite string_app_cons. apply IH. Qed.

Lemma string_drop_length n s : String.length (string_drop n s) = (String.length s - n)%nat.
Proof. revert s. induction n as [|n IH]; intros [|c s]; simpl; auto. Qed.

Lemma TrimPrefix_app p s : TrimPrefix (p +:+ s) p = s.
Proof.
  unfold TrimPrefix. assert (HasPrefix (p +:+ s) p = true) as -> by (apply HasPrefix_spec; eauto).
  apply string_drop_app.
Qed.

Lemma string_ltb_ge a b : (b <? a)%string = false <-> String.le a b.
Proof.
  unfold String.le, String.ltb, String.leb. rewrite (String.compare_antisym a b).
  destruct (String.compare b a); simpl; split; intros; done.
Qed.

(** ** Decimal numbers *)

Definition numeral (c : ascii) : bool := is_digit c || (c =? "-")%char.

Lemma pretty_N_go_numeral (x : N) (s : string) :
  string_all numeral s = true -> string_all numeral (pretty_N_go x s) = true.
Proof.
  revert s. induction (N.lt_wf_0 x) as [x _ IH]. intros s Hs.
  assert (x = 0 \/ 0 < x)%N as [->|Hx] by lia; [by rewrite pretty_N_go_0|].
  rewrite pretty_N_go_step by done. apply IH.
  { apply N.div_lt; lia. }
  rewrite string_all_cons, Hs. unfold pretty_N_char. by repeat case_match.
Qed.

Lemma pretty_N_numeral (n : N) : string_all numeral (pretty n) = true.
Proof. unfold pretty, pretty_N. case_decide; [done|]. by apply pretty_N_go_numeral. Qed.

Lemma Itoa_numeral z : string_all numeral (Itoa z) = true.
Proof.
  destruct z as [|p|p]; [done|apply (pretty_N_numeral (Npos p))|].
  change (Itoa (Z.neg p)) with (String "-" (pretty (Npos p))).
  by rewrite string_all_cons, pretty_N_numeral.
Qed.

(** A separator that the left parts do not hold splits uniquely. *)
Lemma string_sep_inj (p : ascii -> bool) c a a' b b' :
  p c = false -> string_all p a = true -> string_all p a' = true ->
  a +:+ String c b = a' +:+ String c b' -> a = a' /\ b = b'.
Proof.
  intros Hc. revert a'. induction a as [|x a IH]; intros [|x' a']; rewrite ?string_app_nil_l, ?string_app_cons,
    ?string_all_cons; intros Ha Ha' He; b2p.
  - by injection He.
  - injection He as -> _. congruence.
  - injection He as -> _. congruence.
  - injection He as -> He. destruct (IH a') as [-> ->]; done.
Qed.
