(* ===== verification/Base64.v ===== *)
(** * Package encoding/base64 of Go, as the program uses it

    [base64_Encode] and [base64_Decode] are [base64.StdEncoding],
    [base64_RawURL_Decode] is [base64.RawURLEncoding.DecodeString].  A decoder
    gives back what was encoded, with line breaks put in anywhere
    ([base64_roundtrip]). *)

From S2P Require Import Prelude GoLib.
Local Open Scope string_scope.
Local Open Scope list_scope.

(** ** Decoding *)

(** The value of a letter; the last two letters of the alphabet differ. *)
Definition alphabet_value (c62 c63 : ascii) (c : ascii) : option N :=
  let n := N_of_ascii c in
  if is_upper c then Some (n - 65)%N else if is_lower c then Some (n - 71)%N else if is_digit c then Some (n + 4)%N
  else if (c =? c62)%char then Some 62%N else if (c =? c63)%char then Some 63%N else None.

Definition base64_value : ascii -> option N := alphabet_value "+" "/".
Definition base64url_value : ascii -> option N := alphabet_value "-" "_".

Fixpoint base64_quanta (l : list ascii) : option (list ascii) :=
  match l with
  | [] => Some []
  | a :: b :: c :: d :: rest =>
      x ← base64_value a; y ← base64_value b;
      let b1 := ascii_of_N (x * 4 + y / 16) in
      if (c =? "=")%char then
        match rest with [] => if (d =? "=")%char then Some [b1] else None | _ => None end
      else
        z ← base64_value c;
        let b2 := ascii_of_N ((y mod 16) * 16 + z / 4) in
        if (d =? "=")%char then match rest with [] => Some [b1; b2] | _ => None end
        else
          t ← base64_value d; bs ← base64_quanta rest;
          Some (b1 :: b2 :: ascii_of_N ((z mod 4) * 64 + t) :: bs)
  | _ => None
  end.

(** Without padding. *)
Fixpoint base64url_quanta (l : list ascii) : option (list ascii) :=
  match l with
  | [] => Some []
  | [_] => None
  | [a; b] => x ← base64url_value a; y ← base64url_value b; Some [ascii_of_N (x * 4 + y / 16)]
  | [a; b; c] =>
      x ← base64url_value a; y ← base64url_value b; z ← base64url_value c;
      Some [ascii_of_N (x * 4 + y / 16); ascii_of_N ((y mod 16) * 16 + z / 4)]
  | a :: b :: c :: d :: rest =>
      x ← base64url_value a; y ← base64url_value b; z ← base64url_value c; t ← base64url_value d; bs ← base64url_quanta rest;
      Some (ascii_of_N (x * 4 + y / 16) :: ascii_of_N ((y mod 16) * 16 + z / 4) :: ascii_of_N ((z mod 4) * 64 + t) :: bs)
  end.

(** The decoders skip line breaks. *)
Definition breaks_line (c : ascii) : bool := (N_of_ascii c =? 10)%N || (N_of_ascii c =? 13)%N.

Definition letters_of (s : string) : list ascii := List.filter (fun c => negb (breaks_line c)) (String.list_ascii_of_string s).

(** [base64.StdEncoding.DecodeString], without the position of an error. *)
Definition base64_Decode (s : string) : option string := String.string_of_list_ascii <$> base64_quanta (letters_of s).

Definition base64_RawURL_Decode (s : string) : option string := String.string_of_list_ascii <$> base64url_quanta (letters_of s).

(** ** Encoding *)

Definition base64_letter (n : N) : ascii :=
  if (n <? 26)%N then ascii_of_N (n + 65) else if (n <? 52)%N then ascii_of_N (n + 71) else if (n <? 62)%N then ascii_of_N (n - 4)
  else if (n =? 62)%N then "+"%char else "/"%char.

Fixpoint base64_groups (l : list ascii) : list ascii :=
  match l with
  | [] => []
  | [a] => let x := N_of_ascii a in [base64_letter (x / 4); base64_letter ((x mod 4) * 16); "="%char; "="%char]
  | [a; b] =>
      let x := N_of_ascii a in let y := N_of_ascii b in
      [base64_letter (x / 4); base64_letter ((x mod 4) * 16 + y / 16); base64_letter ((y mod 16) * 4); "="%char]
  | a :: b :: c :: rest =>
      let x := N_of_ascii a in let y := N_of_ascii b in let z := N_of_ascii c in
      base64_letter (x / 4) :: base64_letter ((x mod 4) * 16 + y / 16) :: base64_letter ((y mod 16) * 4 + z / 64)
      :: base64_letter (z mod 64) :: base64_groups rest
  end.

(** [base64.StdEncoding.EncodeToString]. *)
Definition base64_Encode (s : string) : string := String.string_of_list_ascii (base64_groups (String.list_ascii_of_string s)).

(** ** Lemmas *)

Lemma N_below_forall (P : N -> bool) (n : nat) : forallb (fun i => P (N.of_nat i)) (seq 0 n) = true -> forall x, (x < N.of_nat n)%N -> P x = true.
Proof.
  intros Hf x Hx. rewrite forallb_forall in Hf. rewrite <- (N2Nat.id x). apply Hf, in_seq. lia.
Qed.

(** A letter has its value, is no padding and breaks no line. *)
Lemma base64_letter_spec n : (n < 64)%N ->
  base64_value (base64_letter n) = Some n /\ (base64_letter n =? "=")%char = false /\ breaks_line (base64_letter n) = false.
Proof.
  intros Hn. pose proof (N_below_forall (fun n => match base64_value (base64_letter n) with Some m => (m =? n)%N | None => false end
    && negb (base64_letter n =? "=")%char && negb (breaks_line (base64_letter n))) 64 eq_refl n Hn) as H.
  cbv beta in H. destruct (base64_value _) as [m|]; [|done]. rewrite !andb_true_iff, !negb_true_iff in H. destruct H as [[Hm He] Hb].
  by apply N.eqb_eq in Hm as ->.
Qed.

Lemma base64_letter_unbroken n : breaks_line (base64_letter n) = false.
Proof.
  destruct (N.lt_ge_cases n 64) as [Hn|Hn]; [by apply base64_letter_spec|].
  unfold base64_letter. rewrite !(proj2 (N.ltb_ge _ _)) by lia. by rewrite (proj2 (N.eqb_neq _ _)) by lia.
Qed.

Lemma ascii_of_N_of a n : n = N_of_ascii a -> ascii_of_N n = a.
Proof. intros ->. apply ascii_N_embedding. Qed.

Lemma div_mod_digits (q r k : N) : (r < k)%N -> ((q * k + r) / k = q /\ (q * k + r) mod k = r)%N.
Proof.
  intros Hr. rewrite N.div_add_l, N.div_small, N.add_0_r by lia. split; [done|].
  by rewrite N.add_comm, N.Div0.mod_add, N.mod_small.
Qed.

(** The six-bit groups of three bytes put the bytes together again. *)
Lemma sextets (x y z : N) : (x < 256)%N -> (y < 256)%N -> (z < 256)%N ->
  ((x / 4) * 4 + ((x mod 4) * 16 + y / 16) / 16 = x /\
   (((x mod 4) * 16 + y / 16) mod 16) * 16 + ((y mod 16) * 4 + z / 64) / 4 = y /\
   (((y mod 16) * 4 + z / 64) mod 4) * 64 + z mod 64 = z /\
   x / 4 < 64 /\ (x mod 4) * 16 + y / 16 < 64 /\ (y mod 16) * 4 + z / 64 < 64 /\ z mod 64 < 64)%N.
Proof.
  intros Hx Hy Hz.
  assert (y / 16 < 16)%N as Hy16 by (apply N.Div0.div_lt_upper_bound; lia).
  assert (z / 64 < 4)%N as Hz64 by (apply N.Div0.div_lt_upper_bound; lia).
  assert (x / 4 < 64)%N as Hx4 by (apply N.Div0.div_lt_upper_bound; lia).
  destruct (div_mod_digits (x mod 4) (y / 16) 16 Hy16) as [-> ->]. destruct (div_mod_digits (y mod 16) (z / 64) 4 Hz64) as [-> ->].
  pose proof (N.mod_lt x 4 ltac:(done)). pose proof (N.mod_lt y 16 ltac:(done)). pose proof (N.mod_lt z 64 ltac:(done)).
  pose proof (N.Div0.div_mod x 4). pose proof (N.Div0.div_mod y 16). pose proof (N.Div0.div_mod z 64). lia.
Qed.

Lemma base64_groups_quanta l : base64_quanta (base64_groups l) = Some l.
Proof.
  remember (length l) as n eqn:Hn. assert (length l <= n)%nat as Hl by lia. clear Hn. revert l Hl.
  induction n as [|n IH]; intros l Hl; [by destruct l; [|cbn in Hl; lia]|].
  destruct l as [|a [|b [|c rest]]]; [done|..]; cbn [base64_groups base64_quanta].
  - destruct (sextets (N_of_ascii a) 0 0 ltac:(apply N_ascii_bounded) ltac:(lia) ltac:(lia)) as (H1 & _ & _ & B1 & B2 & _).
    change (0 / 16)%N with 0%N in *. rewrite N.add_0_r in *.
    destruct (base64_letter_spec _ B1) as (-> & _ & _). destruct (base64_letter_spec _ B2) as (-> & _ & _). cbn.
    by rewrite (ascii_of_N_of a).
  - destruct (sextets (N_of_ascii a) (N_of_ascii b) 0 ltac:(apply N_ascii_bounded) ltac:(apply N_ascii_bounded) ltac:(lia)) as (H1 & H2 & _ & B1 & B2 & B3 & _).
    change (0 / 64)%N with 0%N in *. rewrite N.add_0_r in *.
    destruct (base64_letter_spec _ B1) as (-> & _ & _). destruct (base64_letter_spec _ B2) as (-> & _ & _).
    destruct (base64_letter_spec _ B3) as (-> & -> & _). cbn. by rewrite (ascii_of_N_of a), (ascii_of_N_of b).
  - destruct (sextets (N_of_ascii a) (N_of_ascii b) (N_of_ascii c) ltac:(apply N_ascii_bounded) ltac:(apply N_ascii_bounded) ltac:(apply N_ascii_bounded))
      as (H1 & H2 & H3 & B1 & B2 & B3 & B4).
    destruct (base64_letter_spec _ B1) as (-> & _ & _). destruct (base64_letter_spec _ B2) as (-> & _ & _).
    destruct (base64_letter_spec _ B3) as (-> & -> & _). destruct (base64_letter_spec _ B4) as (-> & -> & _). cbn.
    rewrite IH by (cbn in Hl; lia). cbn. by rewrite (ascii_of_N_of a), (ascii_of_N_of b), (ascii_of_N_of c).
Qed.

Lemma base64_groups_unbroken l : Forall (fun c => breaks_line c = false) (base64_groups l).
Proof.
  remember (length l) as n eqn:Hn. assert (length l <= n)%nat as Hl by lia. clear Hn. revert l Hl.
  induction n as [|n IH]; intros l Hl; [by destruct l; [constructor|cbn in Hl; lia]|].
  destruct l as [|a [|b [|c rest]]]; cbn [base64_groups]; repeat constructor; auto using base64_letter_unbroken.
  apply IH. cbn in Hl. lia.
Qed.

(** A decoder reads what was encoded, whatever line breaks were put in. *)
Lemma base64_roundtrip text s : letters_of text = String.list_ascii_of_string (base64_Encode s) -> base64_Decode text = Some s.
Proof.
  intros Ht. unfold base64_Decode. rewrite Ht. unfold base64_Encode.
  rewrite String.list_ascii_of_string_of_list_ascii, base64_groups_quanta. cbn. by rewrite String.string_of_list_ascii_of_string.
Qed.

Lemma letters_of_app a b : letters_of (a +:+ b) = letters_of a ++ letters_of b.
Proof. unfold letters_of. rewrite <- List.filter_app. f_equal. induction a as [|c a IH]; [done|]. rewrite string_app_cons. cbn. by rewrite IH. Qed.

Lemma letters_of_Encode s : letters_of (base64_Encode s) = String.list_ascii_of_string (base64_Encode s).
Proof.
  unfold letters_of. apply List_filter_true. intros c Hc. unfold base64_Encode in Hc. rewrite String.list_ascii_of_string_of_list_ascii in Hc.
  pose proof (base64_groups_unbroken (String.list_ascii_of_string s)) as H. rewrite Forall_forall in H. by rewrite (H c Hc).
Qed.

Example base64_text : base64_Encode "any carnal pleas" = "YW55IGNhcm5hbCBwbGVhcw==" /\ base64_RawURL_Decode "YW55IGNhcm5hbCBwbGVhcw" = Some "any carnal pleas".
Proof. by vm_compute. Qed.
