(* ===== verification/GoTime.v ===== *)
(** * Package time of Go, as the program uses it

    Instants are nanoseconds since 1970 in UTC.  [civil] and [day_of_civil] are
    the proleptic Gregorian calendar, [time_Parse] is [time.Parse] for the
    layouts of the program, [AddYears] is [t.AddDate(n, 0, 0)], and the formats
    are those the program prints.  [time_Parse_RFC3339] shows that parsing gives
    back the second that was formatted. *)

From S2P Require Import Prelude GoLib.
Local Open Scope string_scope.
Local Open Scope list_scope.
Local Open Scope Z_scope.

Definition second : Z := 10 ^ 9.
Definition day_seconds : Z := 86400.

(** ** The calendar *)

(** Year, month and day of a day since 1970. *)
Definition civil (days : Z) : Z * Z * Z :=
  let z := days + 719468 in
  let era := z / 146097 in
  let doe := z mod 146097 in
  let yoe := (doe - doe / 1460 + doe / 36524 - doe / 146096) / 365 in
  let doy := doe - (365 * yoe + yoe / 4 - yoe / 100) in
  let mp := (5 * doy + 2) / 153 in
  let m := if mp <? 10 then mp + 3 else mp - 9 in
  (yoe + era * 400 + (if m <=? 2 then 1 else 0), m, doy - (153 * mp + 2) / 5 + 1).

(** The day since 1970 of a date; a day past the end of its month is one of the
    next month, as for [time.Date]. *)
Definition day_of_civil (y m d : Z) : Z :=
  let y := if m <=? 2 then y - 1 else y in
  let era := y / 400 in
  let yoe := y mod 400 in
  let doy := (153 * (if m <=? 2 then m + 9 else m - 3) + 2) / 5 + d - 1 in
  era * 146097 + yoe * 365 + yoe / 4 - yoe / 100 + doy - 719468.

Definition is_leap (y : Z) : bool := (y mod 4 =? 0) && (negb (y mod 100 =? 0) || (y mod 400 =? 0)).

(** [daysIn]. *)
Definition days_in (m y : Z) : Z :=
  if m =? 2 then if is_leap y then 29 else 28
  else if (m =? 4) || (m =? 6) || (m =? 9) || (m =? 11) then 30 else 31.

(** [t.AddDate(n, 0, 0)]. *)
Definition AddYears (t n : Z) : Z :=
  let days := t / (day_seconds * second) in
  let '(y, m, d) := civil days in
  day_of_civil (y + n) m d * (day_seconds * second) + t mod (day_seconds * second).

(** ** Formats *)

Definition pad (width : nat) (z : Z) : string :=
  let s := Itoa z in String.string_of_list_ascii (replicate (width - String.length s) "0"%char) +:+ s.

(** [t.Format("2006-01-02")]. *)
Definition FormatDate (t : Z) : string :=
  let '(y, m, d) := civil (t / second / day_seconds) in pad 4 y +:+ "-" +:+ pad 2 m +:+ "-" +:+ pad 2 d.

(** [t.Format("15:04:05")]. *)
Definition FormatClock (t : Z) : string :=
  let s := (t / second) mod day_seconds in pad 2 (s / 3600) +:+ ":" +:+ pad 2 (s mod 3600 / 60) +:+ ":" +:+ pad 2 (s mod 60).

(** [t.Format("2006-01-02 15:04:05 UTC")]. *)
Definition FormatUTC (t : Z) : string := FormatDate t +:+ " " +:+ FormatClock t +:+ " UTC".

(** [t.UTC().Format(time.RFC3339)]. *)
Definition FormatRFC3339 (t : Z) : string := FormatDate t +:+ "T" +:+ FormatClock t +:+ "Z".

(** ** time.Parse *)

Variant layout : Type :=
| LayoutRFC3339
| LayoutRFC3339Nano
(** "2006-01-02T15:04:05Z" *)
| LayoutZulu
(** "2006-01-02" *)
| LayoutDate.

(** [getnum]: one digit or two, or just two. *)
Definition getnum (fixed : bool) (s : string) : option (Z * string) :=
  match s with
  | String a rest =>
      x ← digit_of a;
      match rest with
      | String b rest' => match digit_of b with Some y => Some (10 * x + y, rest') | None => if fixed then None else Some (x, rest) end
      | "" => if fixed then None else Some (x, "")
      end
  | "" => None
  end.

(** A number in a range. *)
Definition getnum_in (fixed : bool) (lo hi : Z) (s : string) : option (Z * string) :=
  '(n, rest) ← getnum fixed s;
  if (lo <=? n) && (n <=? hi) then Some (n, rest) else None.

Definition skip (c : ascii) (s : string) : option string :=
  match s with String d rest => if (c =? d)%char then Some rest else None | "" => None end.

(** Four digits. *)
Definition get_year (s : string) : option (Z * string) :=
  match s with
  | String a (String b (String c (String d rest))) => y ← parse_digits 0 (String a (String b (String c (String d "")))); Some (y, rest)
  | _ => None
  end.

(** [parseNanoseconds] of the digits after the period: nine of them count. *)
Definition nanoseconds (digits : string) : option Z :=
  let digits := String.substring 0 9 digits in
  n ← parse_digits 0 digits; Some (n * 10 ^ (9 - Z.of_nat (String.length digits))).

(** A fraction of a second, when there is one. *)
Definition get_fraction (s : string) : option (Z * string) :=
  match s with
  | String c (String d rest) =>
      if ((c =? ".")%char || (c =? ",")%char) && is_digit d then
        let '(digits, rest) := Span is_digit (String d rest) in
        n ← nanoseconds digits; Some (n, rest)
      else Some (0, s)
  | _ => Some (0, s)
  end.

(** "Z", or an offset in seconds. *)
Definition get_zone (s : string) : option (Z * string) :=
  match s with
  | String c rest =>
      if (c =? "Z")%char then Some (0, rest)
      else
        sign ← (if (c =? "+")%char then Some 1 else if (c =? "-")%char then Some (-1) else None);
        '(hr, rest) ← getnum_in true 0 24 rest;
        rest ← skip ":" rest;
        '(mm, rest) ← getnum_in true 0 60 rest;
        Some (sign * ((hr * 60 + mm) * 60), rest)
  | "" => None
  end.

Definition get_date (s : string) : option (Z * string) :=
  '(y, s) ← get_year s; s ← skip "-" s;
  '(m, s) ← getnum_in true 1 12 s; s ← skip "-" s;
  '(d, s) ← getnum true s;
  if (1 <=? d) && (d <=? days_in m y) then Some (day_of_civil y m d, s) else None.

(** The nanoseconds since midnight. *)
Definition get_clock (s : string) : option (Z * string) :=
  '(h, s) ← getnum_in false 0 23 s; s ← skip ":" s;
  '(mi, s) ← getnum_in true 0 59 s; s ← skip ":" s;
  '(se, s) ← getnum_in true 0 59 s;
  '(ns, s) ← get_fraction s;
  Some ((h * 3600 + mi * 60 + se) * second + ns, s).

(** [time.Parse]: [None] is an error. *)
Definition time_Parse (l : layout) (value : string) : option Z :=
  '(day, s) ← get_date value;
  let midnight := day * (day_seconds * second) in
  match l with
  | LayoutDate => if (s =? "")%string then Some midnight else None
  | _ =>
      s ← skip "T" s;
      '(clock, s) ← get_clock s;
      match l with
      | LayoutZulu => s ← skip "Z" s; if (s =? "")%string then Some (midnight + clock) else None
      | _ => '(zone, s) ← get_zone s; if (s =? "")%string then Some (midnight + clock - zone * second) else None
      end
  end.

Example parse_examples :
  time_Parse LayoutRFC3339 "2026-09-11T10:16:56Z" = Some (1789121816 * second) /\
  time_Parse LayoutRFC3339 "2026-09-11T12:16:56.5+02:00" = Some (1789121816 * second + 500000000) /\
  time_Parse LayoutRFC3339 "2026-02-29T10:16:56Z" = None /\
  time_Parse LayoutDate "2024-02-29" = Some (19782 * day_seconds * second) /\
  AddYears (19782 * day_seconds * second) 3 = day_of_civil 2027 3 1 * day_seconds * second.
Proof. by vm_compute. Qed.
Example FormatUTC_epoch : FormatUTC 0 = "1970-01-01 00:00:00 UTC".
Proof. by vm_compute. Qed.
Example FormatUTC_leap : FormatUTC (1709251199 * 10 ^ 9) = "2024-02-29 23:59:59 UTC".
Proof. by vm_compute. Qed.

(** ** The calendar is a bijection *)

(** The days before a year of an era of 400 years that begins in March. *)
Definition days_before (yoe : Z) : Z := 365 * yoe + yoe / 4 - yoe / 100.

Definition year_of_era (doe : Z) : Z := (doe - doe / 1460 + doe / 36524 - doe / 146096) / 365.

Lemma year_of_era_mono a b : 0 <= a <= b -> b < 146097 -> year_of_era a <= year_of_era b.
Proof.
  intros Hab Hb. unfold year_of_era. apply Z.div_le_mono; [lia|].
  assert (forall n, 0 <= n -> a + n < 146097 ->
    a - a / 1460 + a / 36524 - a / 146096 <= a + n - (a + n) / 1460 + (a + n) / 36524 - (a + n) / 146096) as H.
  { intros n Hn. pattern n. apply natlike_ind; [|clear n Hn|done].
    - intros _. rewrite Z.add_0_r. lia.
    - intros n Hn IH Hlt. etransitivity; [apply IH; lia|]. clear IH. replace (a + Z.succ n) with (a + n + 1) by lia.
      assert (0 <= a + n < 146096) as Hc by lia. revert Hc. generalize (a + n). clear. intros c Hc. Z.div_mod_to_equations. lia. }
  specialize (H (b - a)). replace (a + (b - a)) with b in H by lia. lia.
Qed.

Lemma Z_below_forall (P : Z -> bool) (n : nat) : forallb (fun i => P (Z.of_nat i)) (seq 0 n) = true -> forall x, 0 <= x < Z.of_nat n -> P x = true.
Proof.
  intros Hf x Hx. rewrite forallb_forall in Hf. rewrite <- (Z2Nat.id x) by lia. apply Hf, in_seq. lia.
Qed.

Lemma year_of_era_bounds y :
  0 <= y < 400 -> year_of_era (days_before y) = y /\ year_of_era (days_before (y + 1) - (if y =? 399 then 0 else 1)) = y /\
    days_before (y + 1) - days_before y + (if y =? 399 then 1 else 0) = if is_leap (y + 1) then 366 else 365.
Proof.
  intros Hy. pose proof (Z_below_forall (fun y => (year_of_era (days_before y) =? y)
    && (year_of_era (days_before (y + 1) - (if y =? 399 then 0 else 1)) =? y)
    && (days_before (y + 1) - days_before y + (if y =? 399 then 1 else 0) =? if is_leap (y + 1) then 366 else 365)) 400 eq_refl y Hy) as H.
  rewrite !andb_true_iff, !Z.eqb_eq in H. tauto.
Qed.

Lemma era_year_ex doe n : days_before 0 <= doe -> doe < days_before (Z.of_nat n) -> exists y, 0 <= y < Z.of_nat n /\ days_before y <= doe < days_before (y + 1).
Proof.
  induction n as [|n IH]; intros H0 Hn; [change (Z.of_nat 0) with 0 in Hn; lia|]. destruct (Z_lt_le_dec doe (days_before (Z.of_nat n))) as [Hlt|Hge].
  - destruct (IH H0 Hlt) as (y & Hy & Hd). exists y. split; [lia|done].
  - exists (Z.of_nat n). split; [lia|]. rewrite Nat2Z.inj_succ in Hn. by replace (Z.of_nat n + 1) with (Z.succ (Z.of_nat n)) by lia.
Qed.

(** The year of a day of the era, and the day of that year. *)
Lemma year_of_era_spec doe :
  0 <= doe < 146097 ->
  let y := year_of_era doe in 0 <= y < 400 /\ 0 <= doe - days_before y < if is_leap (y + 1) then 366 else 365.
Proof.
  intros Hd. cbv zeta. assert (exists y, 0 <= y < 400 /\ days_before y <= doe /\ doe <= days_before (y + 1) - (if y =? 399 then 0 else 1)) as (y & Hy & Hlo & Hhi).
  { destruct (Z.eq_dec doe 146096) as [->|Hne]; [exists 399; by vm_compute|].
    destruct (era_year_ex doe 400) as (y & Hy & Hlo & Hhi); [change (days_before 0) with 0; lia|change (days_before (Z.of_nat 400)) with 146096; lia|].
    exists y. split; [lia|]. split; [done|]. destruct (y =? 399); lia. }
  destruct (year_of_era_bounds y Hy) as (Ha & Hb & Hl).
  assert (0 <= days_before y) as H0 by (unfold days_before; Z.div_mod_to_equations; lia).
  assert (days_before (y + 1) - (if y =? 399 then 0 else 1) < 146097) as H1.
  { unfold days_before. destruct (Z.eqb_spec y 399) as [->|]; [by vm_compute|]. Z.div_mod_to_equations. lia. }
  pose proof (year_of_era_mono (days_before y) doe ltac:(lia) ltac:(lia)). pose proof (year_of_era_mono doe _ (conj (proj1 Hd) Hhi) H1).
  assert (year_of_era doe = y) as -> by lia. split; [done|]. rewrite <- Hl. destruct (y =? 399); lia.
Qed.

(** Month and day of a day of the year that begins in March. *)
Lemma month_of_year doy :
  0 <= doy < 366 ->
  let mp := (5 * doy + 2) / 153 in
  let m := if mp <? 10 then mp + 3 else mp - 9 in
  let d := doy - (153 * mp + 2) / 5 + 1 in
  1 <= m <= 12 /\ 1 <= d /\ (153 * (if m <=? 2 then m + 9 else m - 3) + 2) / 5 + d - 1 = doy /\
  d <= (if m =? 2 then if doy =? 365 then 29 else 28 else if (m =? 4) || (m =? 6) || (m =? 9) || (m =? 11) then 30 else 31) /\
  (doy = 365 -> m = 2).
Proof.
  intros Hd. pose proof (Z_below_forall (fun doy =>
    let mp := (5 * doy + 2) / 153 in
    let m := if mp <? 10 then mp + 3 else mp - 9 in
    let d := doy - (153 * mp + 2) / 5 + 1 in
    (1 <=? m) && (m <=? 12) && (1 <=? d) && ((153 * (if m <=? 2 then m + 9 else m - 3) + 2) / 5 + d - 1 =? doy)
    && (d <=? (if m =? 2 then if doy =? 365 then 29 else 28 else if (m =? 4) || (m =? 6) || (m =? 9) || (m =? 11) then 30 else 31))
    && (negb (doy =? 365) || (m =? 2))) 366 eq_refl doy Hd) as H.
  cbv zeta in *. rewrite !andb_true_iff, orb_true_iff, negb_true_iff, !Z.leb_le, !Z.eqb_eq, Z.eqb_neq in H. intuition lia.
Qed.

Lemma is_leap_era y era : is_leap (y + era * 400) = is_leap y.
Proof.
  unfold is_leap. replace (y + era * 400) with (y + (era * 100) * 4) at 1 by lia. replace (y + era * 400) with (y + (era * 4) * 100) at 1 by lia.
  by rewrite !Z.mod_add by lia.
Qed.

(** A day is the day of its date, which is valid. *)
Theorem civil_day n :
  let '(y, m, d) := civil n in day_of_civil y m d = n /\ 1 <= m <= 12 /\ 1 <= d <= days_in m y.
Proof.
  unfold civil. cbv zeta. set (era := (n + 719468) / 146097). set (doe := (n + 719468) mod 146097).
  assert (n = era * 146097 + doe - 719468) as Hn by (subst era doe; pose proof (Z.div_mod (n + 719468) 146097); lia).
  assert (0 <= doe < 146097) as Hdoe by (subst doe; apply Z.mod_pos_bound; lia). clearbody era doe.
  fold (year_of_era doe). destruct (year_of_era_spec doe Hdoe) as [Hy Hdoy]. set (yoe := year_of_era doe) in *. clearbody yoe.
  change (365 * yoe + yoe / 4 - yoe / 100) with (days_before yoe). set (doy := doe - days_before yoe) in *.
  assert (0 <= doy < 366) as Hdoy' by (destruct (is_leap _); lia). destruct (month_of_year doy Hdoy') as (Hm & Hd1 & Hdd & Hd2 & H365). cbv zeta in *.
  set (mp := (5 * doy + 2) / 153) in *. set (m := if mp <? 10 then mp + 3 else mp - 9) in *. clearbody m. set (d := doy - (153 * mp + 2) / 5 + 1) in *.
  clearbody d. split_and!; [|lia..|].
  - unfold day_of_civil. set (y := yoe + era * 400 + (if m <=? 2 then 1 else 0)).
    assert ((if m <=? 2 then y - 1 else y) = yoe + era * 400) as -> by (subst y; destruct (m <=? 2); lia).
    rewrite Z.div_add, Z.mod_add, Z.div_small, Z.mod_small by lia. unfold days_before in *. lia.
  - unfold days_in. destruct (Z.eqb_spec m 2) as [->|]; [|done]. cbn [Z.leb Z.compare Pos.compare Pos.compare_cont] in *.
    replace (yoe + era * 400 + 1) with (yoe + 1 + era * 400) by lia. rewrite is_leap_era.
    destruct (is_leap (yoe + 1)); [|]; destruct (Z.eqb_spec doy 365); lia.
Qed.

(** ** Parsing what was formatted *)

Lemma skip_literal c s : skip c (String c "" +:+ s) = Some s.
Proof. rewrite string_app_cons, string_app_nil_l. cbn. by rewrite Ascii.eqb_refl. Qed.

Lemma pad2_spec n : 0 <= n < 100 -> exists a b, pad 2 n = String a (String b "") /\ is_digit a = true /\ is_digit b = true /\
  digit_of a = Some (n / 10) /\ digit_of b = Some (n mod 10).
Proof.
  intros Hn. pose proof (Z_below_forall (fun n => match pad 2 n with
    | String a (String b "") => is_digit a && is_digit b && bool_decide (digit_of a = Some (n / 10)) && bool_decide (digit_of b = Some (n mod 10))
    | _ => false end) 100 eq_refl n Hn) as H. cbv beta in H.
  destruct (pad 2 n) as [|a [|b []]]; try done. rewrite !andb_true_iff, !bool_decide_eq_true in H. exists a, b. tauto.
Qed.

Lemma getnum_pad2 fixed n s : 0 <= n < 100 -> getnum fixed (pad 2 n +:+ s) = Some (n, s).
Proof.
  intros Hn. destruct (pad2_spec n Hn) as (a & b & -> & _ & _ & Ha & Hb). rewrite !string_app_cons, string_app_nil_l. cbn. rewrite Ha. cbn. rewrite Hb.
  do 2 f_equal. pose proof (Z.div_mod n 10). lia.
Qed.

Lemma getnum_in_pad2 fixed lo hi n s : 0 <= n < 100 -> lo <= n <= hi -> getnum_in fixed lo hi (pad 2 n +:+ s) = Some (n, s).
Proof.
  intros Hn Hin. unfold getnum_in. rewrite getnum_pad2 by done. cbn. by rewrite !(proj2 (Z.leb_le _ _)) by lia.
Qed.

Lemma digit_char n : (n < 10)%N -> digit_of (pretty_N_char n) = Some (Z.of_N n).
Proof.
  intros Hn. pose proof (Z_below_forall (fun n => bool_decide (digit_of (pretty_N_char (Z.to_N n)) = Some n)) 10 eq_refl (Z.of_N n) ltac:(lia)) as H.
  cbv beta in H. by rewrite N2Z.id, bool_decide_eq_true in H.
Qed.

Lemma get_year_pad4 y s : 1000 <= y < 10000 -> get_year (pad 4 y +:+ s) = Some (y, s).
Proof.
  intros Hy. assert (exists n, y = Z.of_N n) as [n ->] by (exists (Z.to_N y); lia).
  assert (Itoa (Z.of_N n) = String (pretty_N_char (n / 10 / 10 / 10)) (String (pretty_N_char ((n / 10 / 10) mod 10))
    (String (pretty_N_char ((n / 10) mod 10)) (String (pretty_N_char (n mod 10)) "")))) as Ht.
  { assert (Itoa (Z.of_N n) = pretty n) as -> by (by destruct n).
    assert (1 <= n / 10 / 10 / 10 < 10)%N as Hd by (rewrite !N.Div0.div_div; split; [apply N.div_le_lower_bound|apply N.Div0.div_lt_upper_bound]; lia).
    assert (1 <= n / 10 / 10)%N by (rewrite !N.Div0.div_div; apply N.div_le_lower_bound; lia).
    assert (1 <= n / 10)%N by (apply N.div_le_lower_bound; lia).
    unfold pretty, pretty_N. rewrite decide_False by lia. rewrite !pretty_N_go_step by lia.
    rewrite (N.mod_small (n / 10 / 10 / 10)), (N.div_small (n / 10 / 10 / 10)) by lia. by rewrite pretty_N_go_0. }
  unfold pad. rewrite Ht. cbn [String.length Nat.sub replicate String.string_of_list_ascii]. rewrite string_app_nil_l, !string_app_cons, string_app_nil_l.
  cbn [get_year parse_digits]. assert (n / 10 / 10 / 10 < 10)%N by (rewrite !N.Div0.div_div; apply N.Div0.div_lt_upper_bound; lia).
  rewrite !digit_char by (done || by apply N.mod_lt). cbn [mbind option_bind]. do 2 f_equal.
  pose proof (N.Div0.div_mod n 10). pose proof (N.Div0.div_mod (n / 10) 10). pose proof (N.Div0.div_mod (n / 10 / 10) 10). lia.
Qed.

Definition year_of (t : Z) : Z := (civil (t / second / day_seconds)).1.1.

Lemma get_date_FormatDate t s : 1000 <= year_of t < 10000 -> get_date (FormatDate t +:+ s) = Some (t / second / day_seconds, s).
Proof.
  unfold year_of, FormatDate. pose proof (civil_day (t / second / day_seconds)) as Hc. destruct (civil _) as [[y m] d]. cbn [fst].
  destruct Hc as (Hd & Hm & Hdd). intros Hy. rewrite !string_app_assoc. unfold get_date. rewrite get_year_pad4 by done. cbn [mbind option_bind]. rewrite skip_literal. cbn [mbind option_bind].
  assert (days_in m y <= 31) as H31 by (unfold days_in; destruct (m =? 2), (is_leap y), ((m =? 4) || (m =? 6) || (m =? 9) || (m =? 11)); lia).
  rewrite getnum_in_pad2 by lia. cbn [mbind option_bind]. rewrite skip_literal. cbn [mbind option_bind]. rewrite getnum_pad2 by lia. cbn [mbind option_bind].
  rewrite !(proj2 (Z.leb_le _ _)) by lia. by rewrite Hd.
Qed.

Lemma get_clock_FormatClock t s : get_clock (FormatClock t +:+ String "Z" s) = Some ((t / second) mod day_seconds * second, String "Z" s).
Proof.
  unfold FormatClock. set (n := (t / second) mod day_seconds). assert (0 <= n < 86400) as Hn by (apply Z.mod_pos_bound; done). clearbody n.
  rewrite !string_app_assoc. unfold get_clock.
  do 2 (rewrite getnum_in_pad2 by (Z.div_mod_to_equations; lia); cbn [mbind option_bind]; rewrite skip_literal; cbn [mbind option_bind]).
  rewrite getnum_in_pad2 by (Z.div_mod_to_equations; lia). cbn [mbind option_bind].
  assert (get_fraction (String "Z" s) = Some (0, String "Z" s)) as -> by (by destruct s). cbn [mbind option_bind].
  do 2 f_equal. rewrite Z.add_0_r. f_equal. Z.div_mod_to_equations. lia.
Qed.

(** Parsing gives back the second that was formatted, for the years of four
    digits. *)
Theorem time_Parse_RFC3339 t : 1000 <= year_of t < 10000 -> time_Parse LayoutRFC3339 (FormatRFC3339 t) = Some (t / second * second).
Proof.
  intros Hy. unfold FormatRFC3339. unfold time_Parse. rewrite get_date_FormatDate by done.
  cbn [mbind option_bind]. rewrite skip_literal. cbn [mbind option_bind]. change (FormatClock t +:+ "Z") with (FormatClock t +:+ String "Z" "").
  rewrite get_clock_FormatClock. cbn -[Z.mul Z.add Z.div Z.modulo second day_seconds]. f_equal.
  pose proof (Z.div_mod (t / second) day_seconds ltac:(done)). lia.
Qed.
