(* ===== verification/Config.v ===== *)
(** * The policy document: internal/config/model.go

    One record per Go struct, its fields in the source's order under a short
    prefix.  A Go pointer is an [option]; a slice is a [list] ([nil] and the
    empty slice are not told apart by the code that reads these fields); a
    [float64] setting is a rational.  [SetDefaults], [Seconds] and
    [CompositeKey] follow the structs they are methods of. *)

From Stdlib Require Import QArith.
From S2P Require Import Prelude GoLib.
Local Open Scope string_scope.
Local Open Scope Z_scope.

(** ** Settings *)

Record LicenseSettingsConfig : Type := {
  ls_Key : string; ls_File : string; ls_CRL : string; ls_CRLFile : string; ls_CRLURL : string
}.

Record GitLabSettingsConfig : Type := {
  gl_BaseURL : string;
  gl_Token : string;
  gl_TokenType : string;
  gl_TimeoutSeconds : Z;
  gl_RateLimitRPS : Q;
  gl_RateLimitBurst : Z;
  gl_MaxRetries : Z;
  gl_RetryBaseDelayMs : Z;
  gl_RetryMaxDelayMs : Z
}.

Record SettingsConfig : Type := {
  st_DryRun : option bool;
  st_Concurrency : Z;
  st_LogLevel : string;
  st_LogFormat : string;
  st_ReportFormat : string;
  st_OutputFilePath : string;
  st_ServiceAccounts : list string;
  st_BotPatterns : list string;
  st_GitLab : GitLabSettingsConfig;
  st_License : LicenseSettingsConfig
}.

(** ** Targets *)

Record GroupSelector : Type := {
  gs_GroupIDsInclude : list Z;
  gs_GroupIDsExclude : list Z;
  gs_GroupPathsInclude : list string;
  gs_GroupPathsExclude : list string;
  gs_Recursive : option bool
}.

Record IDRange : Type := { idr_Min : Z; idr_Max : Z }.

Record ProjectSelector : Type := {
  ps_NamespacesInclude : list string;
  ps_NamespacesExclude : list string;
  ps_ProjectNameRegexInclude : string;
  ps_ProjectNameRegexExclude : string;
  ps_TopicsInclude : list string;
  ps_TopicsExclude : list string;
  ps_Visibility : string;
  ps_Archived : option bool;
  ps_ExcludeMarkedForDeletion : option bool;
  ps_IDRange : option IDRange
}.

Record TargetSelectors : Type := {
  ts_GroupSelector : option GroupSelector;
  ts_ProjectSelector : option ProjectSelector
}.

(** ** Policies *)

Record BranchMergeRuleConfig : Type := {
  bm_SourceBranch : string;
  bm_TargetBranch : string;
  bm_Title : string;
  bm_Description : string;
  bm_Labels : list string;
  bm_AutoMerge : option bool;
  bm_RemoveSourceBranch : option bool;
  bm_Squash : option bool;
  bm_MergeWhenPipelineSucceeds : option bool
}.

Record RepositoryFileConfig : Type := {
  rf_Path : string;
  rf_Content : string;
  rf_ContentFile : string;
  rf_EnsureContains : list string;
  rf_TargetBranch : string;
  rf_Enforcement : string;
  rf_MRTitle : string;
  rf_MRLabels : list string;
  rf_AutoMerge : option bool
}.

Record TargetBranchRuleConfig : Type := { tbr_Name : string; tbr_TargetBranch : string }.

Record TargetBranchRulesConfig : Type := {
  tbrs_Prune : option bool;
  tbrs_Rules : list TargetBranchRuleConfig
}.

Record PushRulesConfig : Type := {
  prc_AuthorEmailRegex : string;
  prc_BranchNameRegex : string;
  prc_CommitMessageRegex : string;
  prc_CommitMessageNegativeRegex : string;
  prc_FileNameRegex : string;
  prc_MaxFileSize : option Z;
  prc_CommitCommitterCheck : option bool;
  prc_MemberCheck : option bool;
  prc_PreventSecrets : option bool;
  prc_DenyDeleteTag : option bool;
  prc_RejectUnsignedCommits : option bool;
  prc_RejectNonDCOCommits : option bool
}.

Record BranchAccessDescription : Type := {
  ba_AccessLevel : Z;
  ba_UserID : Z;
  ba_GroupID : Z;
  ba_Username : string;
  ba_GroupPath : string;
  ba_DeployKeyID : Z
}.

Record ProtectedBranchRuleConfig : Type := {
  pb_Name : string;
  pb_AllowedToPush : list BranchAccessDescription;
  pb_AllowedToMerge : list BranchAccessDescription;
  pb_AllowedToUnprotect : list BranchAccessDescription;
  pb_AllowForcePush : option bool;
  pb_CodeOwnerApprovalRequired : option bool
}.

Record TagAccessDescription : Type := {
  ta_AccessLevel : Z;
  ta_UserID : Z;
  ta_GroupID : Z;
  ta_Username : string;
  ta_GroupPath : string
}.

Record ProtectedTagRuleConfig : Type := {
  pt_Name : string;
  pt_AllowedToCreate : list TagAccessDescription
}.

Record ProtectedTagsConfig : Type := {
  pts_Prune : option bool;
  pts_Rules : list ProtectedTagRuleConfig
}.

Record EnvironmentAccessDescription : Type := {
  ea_AccessLevel : Z;
  ea_UserID : Z;
  ea_GroupID : Z;
  ea_Username : string;
  ea_GroupPath : string
}.

Record EnvironmentApprovalGroupConfig : Type := { eag_GroupID : Z; eag_GroupPath : string }.

Record EnvironmentApprovalUserConfig : Type := { eau_UserID : Z; eau_Username : string }.

Record EnvironmentApprovalRuleConfig : Type := {
  ear_AccessLevel : Z;
  ear_UserID : Z;
  ear_GroupID : Z;
  ear_Username : string;
  ear_GroupPath : string;
  ear_RequiredApprovalCount : option Z
}.

Record ProtectedEnvironmentRuleConfig : Type := {
  pe_Name : string;
  pe_DeployAccessLevels : list EnvironmentAccessDescription;
  pe_RequiredApprovalCount : option Z;
  pe_ApprovalRules : list EnvironmentApprovalRuleConfig;
  pe_ApprovalGroups : list EnvironmentApprovalGroupConfig;
  pe_ApprovalUsers : list EnvironmentApprovalUserConfig
}.

Record ProtectedEnvironmentsConfig : Type := {
  pes_Prune : option bool;
  pes_Rules : list ProtectedEnvironmentRuleConfig
}.

Record ApprovalSettingsConfig : Type := {
  aps_ApprovalsBeforeMerge : option Z;
  aps_ResetApprovalsOnPush : option bool;
  aps_AllowAuthorApproval : option bool;
  aps_AllowCommitterApproval : option bool;
  aps_AllowOverridesToApproverListPerMergeRequest : option bool;
  aps_RetainApprovalsOnPush : option bool;
  aps_SelectiveCodeOwnerRemovals : option bool;
  aps_RequirePasswordToApprove : option bool
}.

Record ApprovalRuleConfig : Type := {
  ar_Name : string;
  ar_ApprovalsRequired : Z;
  ar_UserUsernames : list string;
  ar_UserIDs : list Z;
  ar_GroupPaths : list string;
  ar_GroupIDs : list Z;
  ar_ProtectedBranchNames : list string;
  ar_ProtectedBranchIDs : list Z;
  ar_RuleType : string
}.

Record ApprovalRulesConfig : Type := {
  ars_ApprovalsBeforeMerge : option Z;
  ars_ResetApprovalsOnPush : option bool;
  ars_Settings : option ApprovalSettingsConfig;
  ars_Rules : list ApprovalRuleConfig;
  ars_Prune : option bool
}.

Record ContainerExpirationPolicyConfig : Type := {
  cep_Cadence : string;
  cep_Enabled : option bool;
  cep_KeepN : option Z;
  cep_OlderThan : string;
  cep_NameRegex : string;
  cep_NameRegexDelete : string;
  cep_NameRegexKeep : string
}.

Record ProjectSettingsConfig : Type := {
  pj_DefaultBranch : string;
  pj_SquashOption : string;
  pj_MergeMethod : string;
  pj_OnlyAllowMergeIfPipelineSucceeds : option bool;
  pj_AllowMergeOnSkippedPipeline : option bool;
  pj_OnlyAllowMergeIfAllDiscussionsAreResolved : option bool;
  pj_RemoveSourceBranchAfterMerge : option bool;
  pj_KeepLatestArtifact : option bool;
  pj_PrintingMergeRequestLinkEnabled : option bool;
  pj_AutoCancelPendingPipelines : string;
  pj_AutoDevopsEnabled : option bool;
  pj_ContainerExpirationPolicy : option ContainerExpirationPolicyConfig
}.

Record PipelineRetentionConfig : Type := { prt_RetentionDays : Z }.

Record VariableConfig : Type := {
  v_Key : string;
  v_Value : string;
  v_VariableType : string;
  v_Protected : option bool;
  v_Masked : option bool;
  v_Raw : option bool;
  v_EnvironmentScope : string;
  v_Description : string
}.

Record RunnerConfig : Type := {
  rn_ID : Z;
  rn_Description : string;
  rn_Paused : option bool;
  rn_Locked : option bool;
  rn_TagList : list string;
  rn_RunUntagged : option bool;
  rn_AccessLevel : string;
  rn_MaximumTimeout : option Z
}.

Record RunnersConfig : Type := {
  rns_SharedRunnersEnabled : option bool;
  rns_GroupRunnersEnabled : option bool;
  rns_Runners : list RunnerConfig
}.

Record ComplianceConfig : Type := {
  co_FrameworkName : string;
  co_FrameworkID : option Z;
  co_Prune : option bool
}.

Record WebhookConfig : Type := {
  wh_URL : string;
  wh_PushEvents : option bool;
  wh_MergeRequestsEvents : option bool;
  wh_TagPushEvents : option bool;
  wh_IssuesEvents : option bool;
  wh_PipelineEvents : option bool;
  wh_JobEvents : option bool;
  wh_ReleasesEvents : option bool;
  wh_EnableSSLVerification : option bool;
  wh_SecretToken : string;
  wh_PushEventsBranchFilter : string
}.

Record MemberRuleConfig : Type := { mr_Username : string; mr_AccessLevel : Z; mr_ExpiresAt : string }.

Record MembersConfig : Type := {
  mb_MinAccessLevel : option Z;
  mb_MaxAccessLevel : option Z;
  mb_EnforceExpiresAt : option bool;
  mb_MaxExpirationDays : option Z;
  mb_RemoveInheritedMaintainers : option bool;
  mb_AllowedMembers : list MemberRuleConfig;
  mb_DeniedMembers : list string
}.

Record PoliciesConfig : Type := {
  pol_PushRules : option PushRulesConfig;
  pol_ProtectedBranches : list ProtectedBranchRuleConfig;
  pol_ProtectedTags : option ProtectedTagsConfig;
  pol_ProtectedEnvironments : option ProtectedEnvironmentsConfig;
  pol_ApprovalRules : option ApprovalRulesConfig;
  pol_ProjectSettings : option ProjectSettingsConfig;
  pol_PipelineRetention : option PipelineRetentionConfig;
  pol_Variables : list VariableConfig;
  pol_Runners : option RunnersConfig;
  pol_Compliance : option ComplianceConfig;
  pol_Webhooks : list WebhookConfig;
  pol_Members : option MembersConfig;
  pol_TargetBranchRules : option TargetBranchRulesConfig;
  pol_RepositoryFiles : list RepositoryFileConfig;
  pol_BranchMerges : list BranchMergeRuleConfig
}.

Record PolicyConfig : Type := {
  cfg_Version : string;
  cfg_Settings : SettingsConfig;
  cfg_Targets : TargetSelectors;
  cfg_Policies : PoliciesConfig
}.

(** ** Methods *)

Definition or_string (s d : string) : string := if (s =? "")%string then d else s.
Definition or_positive (z d : Z) : Z := if z <=? 0 then d else z.

Definition GitLabSettings_SetDefaults (g : GitLabSettingsConfig) : GitLabSettingsConfig := {|
  gl_BaseURL := or_string (gl_BaseURL g) "https://gitlab.com/api/v4";
  gl_Token := gl_Token g;
  gl_TokenType := or_string (gl_TokenType g) "private_token";
  gl_TimeoutSeconds := or_positive (gl_TimeoutSeconds g) 30;
  gl_RateLimitRPS := if Qle_bool (gl_RateLimitRPS g) 0 then 30%Q else gl_RateLimitRPS g;
  gl_RateLimitBurst := or_positive (gl_RateLimitBurst g) 50;
  gl_MaxRetries := or_positive (gl_MaxRetries g) 3;
  gl_RetryBaseDelayMs := or_positive (gl_RetryBaseDelayMs g) 500;
  gl_RetryMaxDelayMs := or_positive (gl_RetryMaxDelayMs g) 30000
|}.

Definition Settings_SetDefaults (s : SettingsConfig) : SettingsConfig := {|
  st_DryRun := match st_DryRun s with None => Some true | d => d end;
  st_Concurrency := or_positive (st_Concurrency s) 10;
  st_LogLevel := or_string (st_LogLevel s) "info";
  st_LogFormat := or_string (st_LogFormat s) "text";
  st_ReportFormat := or_string (st_ReportFormat s) "table";
  st_OutputFilePath := st_OutputFilePath s;
  st_ServiceAccounts := st_ServiceAccounts s;
  st_BotPatterns := st_BotPatterns s;
  st_GitLab := GitLabSettings_SetDefaults (st_GitLab s);
  st_License := st_License s
|}.

Definition Policy_SetDefaults (p : PolicyConfig) : PolicyConfig := {|
  cfg_Version := cfg_Version p;
  cfg_Settings := Settings_SetDefaults (cfg_Settings p);
  cfg_Targets := cfg_Targets p;
  cfg_Policies := cfg_Policies p
|}.

(** [RetentionDays * 86400] in a 64-bit [int]. *)
Definition PipelineRetention_Seconds (p : PipelineRetentionConfig) : Z :=
  wrap64 (prt_RetentionDays p * 86400).

Definition CompositeKey (v : VariableConfig) : string :=
  v_Key v +:+ "::" +:+ or_string (v_EnvironmentScope v) "*".

(** ** Zero values, as Go's [T{}] *)

Definition zero_GitLabSettings : GitLabSettingsConfig :=
  Build_GitLabSettingsConfig "" "" "" 0 0%Q 0 0 0 0.
Definition zero_Settings : SettingsConfig :=
  Build_SettingsConfig None 0 "" "" "" "" [] [] zero_GitLabSettings
    (Build_LicenseSettingsConfig "" "" "" "" "").
Definition zero_Policies : PoliciesConfig :=
  Build_PoliciesConfig None [] None None None None None [] None None [] None None [] [].
Definition zero_Policy : PolicyConfig :=
  Build_PolicyConfig "" zero_Settings (Build_TargetSelectors None None) zero_Policies.

(** ** Lemmas *)

Lemma or_string_ne s d : d <> "" -> or_string s d <> "".
Proof. unfold or_string. by destruct (String.eqb_spec s ""). Qed.

Lemma or_string_set s d : s <> "" -> or_string s d = s.
Proof. unfold or_string. by destruct (String.eqb_spec s ""). Qed.

Lemma or_positive_pos z d : 0 < d -> 0 < or_positive z d.
Proof. unfold or_positive. destruct (Z.leb_spec z 0); lia. Qed.
