(* ===== verification/EnvSubst.v ===== *)
(** * Environment substitution: internal/config/envsubst.go

    [${VAR}] and [${VAR:-default}] expansion with the escapes [\$] and [$$].
    The Go scanner walks a rune slice by index; here it is a recursion over
    the rest of the text, [i] being the offset the errors report.  The mutual
    recursion between expansion and evaluation is bounded by the code's depth
    counter; the fuel of the model only makes it structural, and
    [ExpandEnv_terminates] shows that it never runs out. *)

From S2P Require Import Prelude GoLib.
Local Open Scope string_scope.

Definition maxEnvSubstDepth : nat := 32.

(** [EnvLookupFunc]; [os.LookupEnv]'s second result is the [option]. *)
Abbreviation EnvLookupFunc := (string -> option string).

(** The outcome of an expansion: [None] only if the model's fuel runs out. *)
Abbreviation expansion := (option (error + string)).

(** [sb.WriteString(w)] before the rest of the output. *)
Definition emit (w : string) (r : expansion) : expansion :=
  match r with
  | Some (inr out) => Some (inr (w +:+ out))
  | other => other
  end.

Definition isValidVarIdentifier (name : string) : bool :=
  match name with
  | "" => false
  | String c rest =>
      (is_letter c || (c =? "_")%char) &&
      string_all (fun r => is_letter r || is_digit r || (r =? "_")%char) rest
  end.

(** The scanner is in running text, or inside the braces of an expression that
    began at offset [start], [depth] braces deep, having read [expr]. *)
Inductive scan_mode : Type :=
| InText
| InBraces (start depth : nat) (expr : string).

Definition snoc (s : string) (c : ascii) : string := s +:+ String c "".

(** The main loop of [expandEnvRecursive] and its inner brace-matching loop. *)
Fixpoint expandLoop (eval : string -> expansion) (m : scan_mode) (i : nat) (s : string)
  : expansion :=
  match m with
  | InText =>
      match s with
      | "" => Some (inr "")
      | String c s1 =>
          match s1 with
          | String d s2 =>
              if (c =? "\")%char && (d =? "$")%char then
                emit "$" (expandLoop eval InText (i + 2) s2)
              else if (c =? "$")%char then
                if (d =? "$")%char then emit "$" (expandLoop eval InText (i + 2) s2)
                else if (d =? "{")%char then expandLoop eval (InBraces i 1 "") (i + 2) s2
                else emit "$" (expandLoop eval InText (i + 1) s1)
              else emit (String c "") (expandLoop eval InText (i + 1) s1)
          | "" => emit (String c "") (expandLoop eval InText (i + 1) s1)
          end
      end
  | InBraces start depth expr =>
      match s with
      | "" => Some (inl (ErrNew ("syntax error in env substitution: unterminated '${' at character offset "
                                   +:+ Itoa (Z.of_nat start))))
      | String c s1 =>
          if (c =? "}")%char then
            if (depth =? 1)%nat then
              match eval expr with
              | Some (inr v) => emit v (expandLoop eval InText (i + 1) s1)
              | Some (inl e) =>
                  Some (inl (ErrWrap ("error expanding '${" +:+ expr +:+ "}' at offset "
                                        +:+ Itoa (Z.of_nat start) +:+ ": ") e))
              | None => None
              end
            else expandLoop eval (InBraces start (depth - 1) (snoc expr c)) (i + 1) s1
          else
            match s1 with
            | String d s2 =>
                if (c =? "$")%char && (d =? "{")%char then
                  expandLoop eval (InBraces start (depth + 1) (snoc (snoc expr c) d)) (i + 2) s2
                else expandLoop eval (InBraces start depth (snoc expr c)) (i + 1) s1
            | "" => expandLoop eval (InBraces start depth (snoc expr c)) (i + 1) s1
            end
      end
  end.

(** The first loop of [evaluateExpression]: the text before and after the
    top-level [:-], when there is one. *)
Fixpoint splitDefault (braceDepth : nat) (s : string) : option (string * string) :=
  match s with
  | "" => None
  | String c s1 =>
      let skip1 (b : nat) := prod_map (String c) id <$> splitDefault b s1 in
      match s1 with
      | String d s2 =>
          if (c =? "$")%char && (d =? "{")%char then
            prod_map (fun p => String c (String d p)) id <$> splitDefault (S braceDepth) s2
          else if (c =? "}")%char then skip1 (pred braceDepth)
          else if (braceDepth =? 0)%nat && (c =? ":")%char && (d =? "-")%char then Some ("", s2)
          else skip1 braceDepth
      | "" => skip1 (if (c =? "}")%char then pred braceDepth else braceDepth)
      end
  end.

Definition errInvalidName (varName : string) : error :=
  ErrNew ("invalid environment variable name '" +:+ varName +:+ "'").

(** [evaluateExpression], with the recursive call [rec s depth]. *)
Definition evaluateExpression (rec : string -> nat -> expansion) (lookup : EnvLookupFunc)
    (expr : string) (depth : nat) : expansion :=
  match splitDefault 0 expr with
  | Some (pre, defaultExpr) =>
      let varName := TrimSpace pre in
      if negb (isValidVarIdentifier varName) then Some (inl (errInvalidName varName))
      else match lookup varName with
           | Some val => if negb (val =? "") then rec val (depth + 1)%nat else rec defaultExpr depth
           | None => rec defaultExpr depth
           end
  | None =>
      let varName := TrimSpace expr in
      if negb (isValidVarIdentifier varName) then Some (inl (errInvalidName varName))
      else match lookup varName with
           | Some val => if negb (val =? "") then rec val (depth + 1)%nat else Some (inr val)
           | None => Some (inr "")
           end
  end.

Definition errMaxDepth : error :=
  ErrNew ("env substitution error: maximum recursion depth ("
            +:+ Itoa (Z.of_nat maxEnvSubstDepth) +:+ ") exceeded").

Fixpoint expandEnvRecursive (fuel : nat) (lookup : EnvLookupFunc) (s : string) (depth : nat)
  : expansion :=
  match fuel with
  | O => None
  | S fuel' =>
      if (maxEnvSubstDepth <? depth)%nat then Some (inl errMaxDepth)
      else expandLoop
             (fun expr => evaluateExpression (expandEnvRecursive fuel' lookup) lookup expr (depth + 1))
             InText 0 s
  end.

(** Depths 0 to 33 are entered, the last only to fail. *)
Definition expandFuel : nat := S (S maxEnvSubstDepth).

Definition ExpandEnvWithLookup (s : string) (lookup : EnvLookupFunc) : expansion :=
  expandEnvRecursive expandFuel lookup s 0.

(** ** Lemmas *)

Definition total (r : expansion) : Prop := exists x, r = Some x.

Lemma emit_total w r : total r -> total (emit w r).
Proof. intros [[e|o] ->]; eexists; done. Qed.

#[local] Hint Resolve emit_total : core.

(** One step of the scanner in running text, and inside braces. *)
Lemma expandLoop_text_cons2 eval i c d s :
  expandLoop eval InText i (String c (String d s)) =
  if (c =? "\")%char && (d =? "$")%char then emit "$" (expandLoop eval InText (i + 2) s)
  else if (c =? "$")%char then
    if (d =? "$")%char then emit "$" (expandLoop eval InText (i + 2) s)
    else if (d =? "{")%char then expandLoop eval (InBraces i 1 "") (i + 2) s
    else emit "$" (expandLoop eval InText (i + 1) (String d s))
  else emit (String c "") (expandLoop eval InText (i + 1) (String d s)).
Proof. done. Qed.

Lemma expandLoop_braces_cons2 eval st dp ex i c d s :
  expandLoop eval (InBraces st dp ex) i (String c (String d s)) =
  if (c =? "}")%char then
    if (dp =? 1)%nat then
      match eval ex with
      | Some (inr v) => emit v (expandLoop eval InText (i + 1) (String d s))
      | Some (inl e) =>
          Some (inl (ErrWrap ("error expanding '${" +:+ ex +:+ "}' at offset "
                                +:+ Itoa (Z.of_nat st) +:+ ": ") e))
      | None => None
      end
    else expandLoop eval (InBraces st (dp - 1) (snoc ex c)) (i + 1) (String d s)
  else if (c =? "$")%char && (d =? "{")%char then
    expandLoop eval (InBraces st (dp + 1) (snoc (snoc ex c) d)) (i + 2) s
  else expandLoop eval (InBraces st dp (snoc ex c)) (i + 1) (String d s).
Proof. simpl. by destruct (c =? "}")%char. Qed.

Lemma expandLoop_braces_last eval st dp ex i c :
  expandLoop eval (InBraces st dp ex) i (String c "") =
  if (c =? "}")%char then
    if (dp =? 1)%nat then
      match eval ex with
      | Some (inr v) => emit v (expandLoop eval InText (i + 1) "")
      | Some (inl e) =>
          Some (inl (ErrWrap ("error expanding '${" +:+ ex +:+ "}' at offset "
                                +:+ Itoa (Z.of_nat st) +:+ ": ") e))
      | None => None
      end
    else expandLoop eval (InBraces st (dp - 1) (snoc ex c)) (i + 1) ""
  else expandLoop eval (InBraces st dp (snoc ex c)) (i + 1) "".
Proof. done. Qed.

Lemma expandLoop_total eval :
  (forall e, total (eval e)) -> forall s m i, total (expandLoop eval m i s).
Proof.
  intros He s. induction s as [s IH] using string_length_ind.
  intros m i. destruct m as [|st d ex]; destruct s as [|c [|c' s]]; try (by eexists).
  - rewrite expandLoop_text_cons2.
    repeat case_match; try apply emit_total; apply IH; simpl; lia.
  - rewrite expandLoop_braces_last. destruct (He ex) as [[e|v] ->];
      repeat case_match; try apply emit_total; by eexists.
  - rewrite expandLoop_braces_cons2. destruct (He ex) as [[e|v] ->];
      repeat case_match; try apply emit_total; try (apply IH; simpl; lia); by eexists.
Qed.

Lemma evaluateExpression_total rec lookup expr depth :
  (forall s d, (depth <= d)%nat -> total (rec s d)) ->
  total (evaluateExpression rec lookup expr depth).
Proof.
  intros Hr. unfold evaluateExpression.
  repeat case_match; try (by eexists); apply Hr; lia.
Qed.

Lemma expandEnvRecursive_total lookup fuel s depth :
  (expandFuel <= fuel + depth)%nat -> (0 < fuel)%nat ->
  total (expandEnvRecursive fuel lookup s depth).
Proof.
  unfold expandFuel. revert s depth. induction fuel as [|fuel IH]; intros s depth Hf Hp; [lia|].
  simpl. case_match eqn:Hd; [by eexists|].
  apply Nat.ltb_ge in Hd. unfold maxEnvSubstDepth in *.
  apply expandLoop_total. intros e. apply evaluateExpression_total.
  intros s' d Hle. apply IH; lia.
Qed.

(** More fuel never changes an answer. *)
Definition refines {A B} (f g : A -> option B) : Prop := forall a b, f a = Some b -> g a = Some b.

Lemma emit_refines w (r r' : expansion) x :
  (forall y, r = Some y -> r' = Some y) -> emit w r = Some x -> emit w r' = Some x.
Proof. intros H. destruct r as [y|]; [|done]. by rewrite (H y eq_refl). Qed.

Lemma expandLoop_refines eval eval' :
  refines eval eval' -> forall s m i x,
  expandLoop eval m i s = Some x -> expandLoop eval' m i s = Some x.
Proof.
  intros He s. induction s as [s IH] using string_length_ind.
  intros m i x. destruct m as [|st d ex]; destruct s as [|c [|c' s]]; try done.
  - rewrite !expandLoop_text_cons2.
    repeat case_match; try (apply emit_refines; intros y); apply IH; simpl; lia.
  - rewrite !expandLoop_braces_last. destruct (eval ex) as [[e|v]|] eqn:Hex;
      try rewrite (He _ _ Hex); repeat case_match; done.
  - rewrite !expandLoop_braces_cons2. destruct (eval ex) as [[e|v]|] eqn:Hex;
      try rewrite (He _ _ Hex); repeat case_match; try done;
      try (apply emit_refines; intros y); apply IH; simpl; lia.
Qed.

Lemma expandEnvRecursive_fuel lookup fuel fuel' s depth x :
  (fuel <= fuel')%nat ->
  expandEnvRecursive fuel lookup s depth = Some x ->
  expandEnvRecursive fuel' lookup s depth = Some x.
Proof.
  revert fuel' s depth x. induction fuel as [|fuel IH]; intros fuel' s depth x Hle; [done|].
  destruct fuel' as [|fuel']; [lia|]. simpl. case_match; [done|].
  apply expandLoop_refines. intros e r. unfold evaluateExpression.
  repeat case_match; try done; apply IH; lia.
Qed.

(** Text the scanner copies. *)
Definition plain (c : ascii) : bool := negb (c =? "$")%char && negb (c =? "\")%char.
Definition not_dollar (c : ascii) : bool := negb (c =? "$")%char.

Lemma emit_emit a b r : emit a (emit b r) = emit (a +:+ b) r.
Proof. destruct r as [[?|?]|]; simpl; try done. by rewrite string_app_assoc. Qed.

Lemma emit_nil r : emit "" r = r.
Proof. by destruct r as [[?|?]|]. Qed.

Lemma expandLoop_text_plain1 eval i c s :
  plain c = true ->
  expandLoop eval InText i (String c s) = emit (String c "") (expandLoop eval InText (i + 1) s).
Proof.
  unfold plain. intros Hc. b2p. destruct s as [|d s]; [done|].
  by rewrite expandLoop_text_cons2, H, H0.
Qed.

Lemma expandLoop_text_plain eval i pre rest :
  string_all plain pre = true ->
  expandLoop eval InText i (pre +:+ rest) =
  emit pre (expandLoop eval InText (i + String.length pre) rest).
Proof.
  revert i. induction pre as [|c pre IH]; intros i H.
  - rewrite emit_nil, string_app_nil_l. simpl. by rewrite Nat.add_0_r.
  - rewrite string_all_cons in H. b2p.
    rewrite string_app_cons, expandLoop_text_plain1, IH, emit_emit by done.
    simpl. rewrite string_app_cons, string_app_nil_l. do 2 f_equal. lia.
Qed.

Lemma expandLoop_text_not_dollar eval i s :
  string_all not_dollar s = true -> expandLoop eval InText i s = Some (inr s).
Proof.
  revert i. induction s as [|c s IH]; intros i H; [done|].
  rewrite string_all_cons in H. b2p. unfold not_dollar in H. b2p. destruct s as [|d s].
  - simpl. done.
  - rewrite expandLoop_text_cons2, H, IH by done.
    assert ((d =? "$")%char = false) as ->.
    { rewrite string_all_cons in H0. b2p. unfold not_dollar in H0. by b2p. }
    rewrite andb_false_r. done.
Qed.

Definition brace_body (c : ascii) : bool := negb (c =? "$")%char && negb (c =? "}")%char.

Lemma expandLoop_braces_body eval st i acc body post :
  string_all brace_body body = true ->
  expandLoop eval (InBraces st 1 acc) i (body +:+ String "}" post) =
  match eval (acc +:+ body) with
  | Some (inr v) => emit v (expandLoop eval InText (i + String.length body + 1) post)
  | Some (inl e) =>
      Some (inl (ErrWrap ("error expanding '${" +:+ (acc +:+ body) +:+ "}' at offset "
                            +:+ Itoa (Z.of_nat st) +:+ ": ") e))
  | None => None
  end.
Proof.
  revert i acc. induction body as [|c body IH]; intros i acc H.
  - rewrite string_app_nil_l, string_app_nil_r. cbn [String.length]. rewrite Nat.add_0_r.
    destruct post; [by rewrite expandLoop_braces_last | by rewrite expandLoop_braces_cons2].
  - rewrite string_all_cons in H. b2p. unfold brace_body in H. b2p.
    rewrite string_app_cons.
    assert (exists d r, body +:+ String "}" post = String d r) as (d & r & Hr).
    { destruct body; [rewrite string_app_nil_l | rewrite string_app_cons]; eauto. }
    rewrite Hr, expandLoop_braces_cons2, H, H1. cbn [andb].
    rewrite <- Hr, IH by done. unfold snoc.
    rewrite string_app_assoc, string_app_cons, string_app_nil_l. simpl.
    replace (i + 1 + String.length body + 1)%nat with (i + S (String.length body) + 1)%nat by lia.
    done.
Qed.

(** *** Evaluating an expression *)

Definition ident_char (c : ascii) : bool := is_letter c || is_digit c || (c =? "_")%char.

Lemma valid_ident_chars name :
  isValidVarIdentifier name = true -> string_all ident_char name = true.
Proof.
  destruct name as [|c s]; [done|]. cbn [isValidVarIdentifier]. rewrite string_all_cons. intros H.
  apply andb_true_iff in H as [Hc Hs].
  apply andb_true_iff. split; [|exact Hs]. unfold ident_char.
  destruct (is_letter c); [done|]. simpl in Hc. rewrite Hc. apply orb_true_r.
Qed.

(** An identifier character is none of the scanner's own characters. *)
Lemma ident_char_ne c d : ident_char c = true -> ident_char d = false -> (c =? d)%char = false.
Proof. intros Hc Hd. destruct (Ascii.eqb_spec c d); [congruence|done]. Qed.

Lemma ident_char_not_space c : ident_char c = true -> is_space c = false.
Proof. destruct c as [[] [] [] [] [] [] [] []]; done. Qed.

Lemma TrimSpace_ident name : string_all ident_char name = true -> TrimSpace name = name.
Proof.
  intros H. apply TrimFunc_none. revert H. apply string_all_impl.
  intros c Hc. by rewrite ident_char_not_space.
Qed.

Lemma splitDefault_cons2 b c d s :
  splitDefault b (String c (String d s)) =
  if (c =? "$")%char && (d =? "{")%char then
    prod_map (fun p => String c (String d p)) id <$> splitDefault (S b) s
  else if (c =? "}")%char then prod_map (String c) id <$> splitDefault (pred b) (String d s)
  else if (b =? 0)%nat && (c =? ":")%char && (d =? "-")%char then Some ("", s)
  else prod_map (String c) id <$> splitDefault b (String d s).
Proof. done. Qed.

Lemma splitDefault_ident name :
  string_all ident_char name = true -> splitDefault 0 name = None.
Proof.
  induction name as [|c s IH]; [done|]. rewrite string_all_cons. intros H. b2p.
  destruct s as [|d s].
  - done.
  - rewrite splitDefault_cons2, IH by done.
    rewrite !(ident_char_ne c) by done. done.
Qed.

Lemma splitDefault_default name def :
  string_all ident_char name = true -> splitDefault 0 (name +:+ ":-" +:+ def) = Some (name, def).
Proof.
  induction name as [|c s IH]; [done|]. rewrite string_all_cons. intros H. b2p.
  rewrite string_app_cons.
  assert (exists d r, s +:+ ":-" +:+ def = String d r) as (d & r & Hr).
  { destruct s; [rewrite string_app_nil_l | rewrite string_app_cons]; eauto. }
  rewrite Hr, splitDefault_cons2, <- Hr, IH by done.
  rewrite !(ident_char_ne c) by done. done.
Qed.

(** The value a reference [${name:-def}] takes: POSIX [:-]. *)
Definition env_or (lookup : EnvLookupFunc) (name def : string) : string :=
  match lookup name with
  | Some v => if v =? "" then def else v
  | None => def
  end.

Lemma evaluateExpression_default rec lookup name def depth :
  isValidVarIdentifier name = true ->
  (forall s d, (d <= depth + 1)%nat -> string_all not_dollar s = true -> rec s d = Some (inr s)) ->
  string_all not_dollar def = true ->
  (forall v, lookup name = Some v -> string_all not_dollar v = true) ->
  evaluateExpression rec lookup (name +:+ ":-" +:+ def) depth = Some (inr (env_or lookup name def)).
Proof.
  intros Hn Hrec Hdef Hval. pose proof (valid_ident_chars _ Hn) as Hc.
  unfold evaluateExpression, env_or. rewrite splitDefault_default, TrimSpace_ident, Hn by done.
  simpl. destruct (lookup name) as [v|] eqn:Hl.
  - destruct (v =? "")%string eqn:Hv; simpl; apply Hrec; auto with lia.
  - apply Hrec; auto with lia.
Qed.

Lemma evaluateExpression_var rec lookup name depth v :
  isValidVarIdentifier name = true -> lookup name = Some v -> v <> "" ->
  evaluateExpression rec lookup name depth = rec v (depth + 1)%nat.
Proof.
  intros Hn Hl Hv. pose proof (valid_ident_chars _ Hn) as Hc.
  unfold evaluateExpression. rewrite splitDefault_ident, TrimSpace_ident, Hn, Hl by done.
  simpl. by apply String.eqb_neq in Hv as ->.
Qed.

Lemma expandEnvRecursive_not_dollar fuel lookup s depth :
  (depth <= maxEnvSubstDepth)%nat -> string_all not_dollar s = true ->
  expandEnvRecursive (S fuel) lookup s depth = Some (inr s).
Proof.
  intros Hd Hs. simpl. destruct (Nat.ltb_spec maxEnvSubstDepth depth); [lia|].
  by apply expandLoop_text_not_dollar.
Qed.

(** The fuel [ExpandEnvWithLookup] passes is enough. *)
Lemma ExpandEnvWithLookup_total s lookup : total (ExpandEnvWithLookup s lookup).
Proof. apply expandEnvRecursive_total; unfold expandFuel; lia. Qed.

(** ** Properties *)

(** Expansion terminates on every input and environment, cyclic ones
    included: the code's depth limit bounds the recursion, so the model's fuel
    never runs out, and any larger fuel gives the same answer. *)
Theorem ExpandEnv_terminates (s : string) (lookup : EnvLookupFunc) (fuel : nat) :
  (expandFuel <= fuel)%nat ->
  exists r, ExpandEnvWithLookup s lookup = Some r /\ expandEnvRecursive fuel lookup s 0 = Some r.
Proof.
  intros Hf. destruct (ExpandEnvWithLookup_total s lookup) as [r Hr].
  exists r. split; [done|]. by eapply expandEnvRecursive_fuel.
Qed.

Definition demo_env : EnvLookupFunc := fun k =>
  if k =? "HOST" then Some "gitlab.example.com"
  else if k =? "LOOP" then Some "${LOOP}"
  else if k =? "EMPTY" then Some ""
  else None.

Lemma ExpandEnv_terminates_witness :
  exists r, ExpandEnvWithLookup "a${LOOP}" demo_env = Some r
            /\ expandEnvRecursive 50 demo_env "a${LOOP}" 0 = Some r.
Proof. apply (ExpandEnv_terminates "a${LOOP}" demo_env 50). unfold expandFuel, maxEnvSubstDepth. lia. Defined.

(** Writing a text so that it expands to itself. *)
Fixpoint escape (s : string) : string :=
  match s with
  | "" => ""
  | String c s' => if (c =? "$")%char then String "\" (String "$" (escape s')) else String c (escape s')
  end.

Lemma expandLoop_escape eval i s : expandLoop eval InText i (escape s) = Some (inr s).
Proof.
  revert i. induction s as [|c s IH]; intros i; [done|]. simpl escape.
  destruct (Ascii.eqb_spec c "$") as [->|Hc].
  - rewrite expandLoop_text_cons2. simpl. by rewrite IH.
  - apply Ascii.eqb_neq in Hc. destruct s as [|d s].
    + simpl. done.
    + specialize (IH (i + 1)%nat). revert IH. simpl escape.
      destruct (Ascii.eqb_spec d "$") as [->|Hd]; intros IH.
      * rewrite expandLoop_text_cons2, Hc, IH. rewrite andb_false_r. done.
      * rewrite expandLoop_text_cons2, Hc, IH. apply Ascii.eqb_neq in Hd. rewrite Hd, andb_false_r. done.
Qed.

(** Escaping round trip: replacing every dollar sign by backslash-dollar
    gives a text that expands, in every environment, to the original text. *)
Theorem ExpandEnv_escape (s : string) (lookup : EnvLookupFunc) :
  ExpandEnvWithLookup (escape s) lookup = Some (inr s).
Proof. unfold ExpandEnvWithLookup, expandFuel. simpl. apply expandLoop_escape. Qed.

(** Functional behaviour of a reference: in a text whose other parts hold
    no dollar sign (and, before it, no backslash), [${name:-def}] is replaced by
    the variable's value when it is set and not empty and by the default
    otherwise (POSIX [:-]); the rest is copied. *)
Theorem ExpandEnv_reference (pre name def post : string) (lookup : EnvLookupFunc) :
  string_all plain pre = true -> string_all not_dollar post = true ->
  isValidVarIdentifier name = true -> string_all brace_body def = true ->
  (forall v, lookup name = Some v -> string_all not_dollar v = true) ->
  ExpandEnvWithLookup (pre +:+ "${" +:+ name +:+ ":-" +:+ def +:+ "}" +:+ post) lookup
  = Some (inr (pre +:+ env_or lookup name def +:+ post)).
Proof.
  intros Hpre Hpost Hname Hdef Hval. unfold ExpandEnvWithLookup, expandFuel.
  remember (S maxEnvSubstDepth) as f eqn:Hf. cbn [expandEnvRecursive].
  replace (maxEnvSubstDepth <? 0)%nat with false by done.
  assert ("${" +:+ name +:+ ":-" +:+ def +:+ "}" +:+ post
          = String "$" (String "{" ((name +:+ ":-" +:+ def) +:+ String "}" post))) as ->.
  { rewrite !string_app_assoc. done. }
  rewrite expandLoop_text_plain, expandLoop_text_cons2 by done. cbn [Ascii.eqb Bool.eqb andb].
  assert (Hb : string_all brace_body (name +:+ ":-" +:+ def) = true).
  { rewrite !string_all_app, Hdef, andb_true_r.
    apply valid_ident_chars in Hname. revert Hname. apply string_all_impl.
    intros c Hc. unfold brace_body. by rewrite !(ident_char_ne c) by done. }
  rewrite expandLoop_braces_body, string_app_nil_l by done.
  rewrite evaluateExpression_default; try done.
  - rewrite expandLoop_text_not_dollar by done. done.
  - intros s d Hd Hs. subst f. apply expandEnvRecursive_not_dollar; [unfold maxEnvSubstDepth; lia|done].
  - revert Hdef. apply string_all_impl. unfold brace_body, not_dollar. intros c Hc. by apply andb_true_iff in Hc as [-> _].
Qed.

Lemma ExpandEnv_reference_witness :
  ExpandEnvWithLookup "url: ${HOST:-localhost}/x" demo_env = Some (inr "url: gitlab.example.com/x")
  /\ ExpandEnvWithLookup "url: ${EMPTY:-localhost}" demo_env = Some (inr "url: localhost").
Proof.
  split.
  - apply (ExpandEnv_reference "url: " "HOST" "localhost" "/x" demo_env); try reflexivity.
    intros v [= <-]. reflexivity.
  - apply (ExpandEnv_reference "url: " "EMPTY" "localhost" "" demo_env); try reflexivity.
    intros v [= <-]. reflexivity.
Defined.

Lemma expandLoop_single_ref eval body :
  string_all brace_body body = true ->
  expandLoop eval InText 0 ("${" +:+ body +:+ "}") =
  match eval body with
  | Some (inr v) => Some (inr v)
  | Some (inl e) => Some (inl (ErrWrap ("error expanding '${" +:+ body +:+ "}' at offset 0: ") e))
  | None => None
  end.
Proof.
  intros Hb.
  assert ("${" +:+ body +:+ "}" = String "$" (String "{" (body +:+ String "}" ""))) as -> by done.
  rewrite expandLoop_text_cons2. cbn [Ascii.eqb Bool.eqb andb].
  rewrite expandLoop_braces_body, string_app_nil_l by done.
  destruct (eval body) as [[e|v]|]; [done| |done]. simpl. by rewrite string_app_nil_r.
Qed.

Lemma ident_brace_body name : isValidVarIdentifier name = true -> string_all brace_body name = true.
Proof.
  intros H. apply valid_ident_chars in H. revert H. apply string_all_impl.
  intros c Hc. unfold brace_body. by rewrite !(ident_char_ne c) by done.
Qed.

Lemma expandEnvRecursive_cycle lookup name fuel depth :
  isValidVarIdentifier name = true ->
  lookup name = Some ("${" +:+ name +:+ "}") ->
  (expandFuel <= fuel + depth)%nat -> (0 < fuel)%nat ->
  exists e, expandEnvRecursive fuel lookup ("${" +:+ name +:+ "}") depth = Some (inl e)
            /\ errors_Is e errMaxDepth = true.
Proof.
  intros Hn Hl. revert depth. induction fuel as [|fuel IH]; intros depth Hf Hp; [lia|].
  cbn [expandEnvRecursive]. destruct (Nat.ltb_spec maxEnvSubstDepth depth) as [Hd|Hd].
  - exists errMaxDepth. done.
  - unfold expandFuel in *. rewrite expandLoop_single_ref by by apply ident_brace_body.
    rewrite (evaluateExpression_var _ _ _ _ _ Hn Hl) by done.
    destruct (IH (depth + 1 + 1)%nat) as (e & -> & He); [lia|unfold maxEnvSubstDepth in *; lia|].
    eexists. split; [done|]. cbn [errors_Is]. rewrite He. apply orb_true_r.
Qed.

(** A variable that refers to itself is an error, not a loop: the error
    wraps the recursion limit. *)
Theorem ExpandEnv_self_reference (name : string) (lookup : EnvLookupFunc) :
  isValidVarIdentifier name = true ->
  lookup name = Some ("${" +:+ name +:+ "}") ->
  exists e, ExpandEnvWithLookup ("${" +:+ name +:+ "}") lookup = Some (inl e)
            /\ errors_Is e errMaxDepth = true.
Proof.
  intros Hn Hl. apply expandEnvRecursive_cycle; [done|done|lia|unfold expandFuel; lia].
Qed.

Lemma ExpandEnv_self_reference_witness :
  exists e, ExpandEnvWithLookup "${LOOP}" demo_env = Some (inl e) /\ errors_Is e errMaxDepth = true.
Proof. apply (ExpandEnv_self_reference "LOOP" demo_env); reflexivity. Defined.
