(* ===== verification/Validator.v ===== *)
(** * Semantic validation of the policy: internal/config/validator.go

    Each [validateX] of the source appends to a shared error slice; here it
    returns the errors it appends, and the caller concatenates them in the
    order of the calls.  Regular expressions and URLs are judged by the
    engine and the parser of [GoRegexp] and [GoURL].  [policy_wf] is what the
    checks come to, section by section; where docs/schema.json says otherwise
    the policy is not [undisputed], and [Validate_exact] does not speak of it. *)

From Stdlib Require Import QArith.
From S2P Require Import Prelude GoLib GoTime Config.
Local Open Scope string_scope.
Local Open Scope list_scope.
Local Open Scope Z_scope.

Record ValidationError : Type := VErr { ve_Field : string; ve_Message : string; ve_Value : value }.

(** A warning has the same three fields. *)
Definition ValidationWarning : Type := ValidationError.

(** [if bad { errs = append(errs, e) }]. *)
Definition check (bad : bool) (e : ValidationError) : list ValidationError :=
  if bad then [e] else [].

(** A [for i, x := range l] loop that appends to the errors. *)
Definition check_each {A} (f : nat -> A -> list ValidationError) (l : list A) : list ValidationError :=
  mjoin (imap f l).

Definition index (prefix : string) (i : nat) : string :=
  prefix +:+ "[" +:+ Itoa (Z.of_nat i) +:+ "]".

(** [switch s { case l...: default: bad }]. *)
Definition one_of (l : list string) (s : string) : bool := existsb (String.eqb s) l.
Definition one_of_int (l : list Z) (z : Z) : bool := existsb (Z.eqb z) l.

(** A Go bool behind a pointer: [p != nil && *p]. *)
Definition is_true_ptr (o : option bool) : bool := match o with Some b => b | None => false end.

(** [p != nil] and [f] holds of what it points to. *)
Definition some_and {A} (f : A -> bool) (o : option A) : bool :=
  match o with Some a => f a | None => false end.

Section Validator.
Context `{GoRegexp} `{GoURL}.

(** ** Settings *)

Definition validateGitLabSettings (g : GitLabSettingsConfig) (prefix : string) : list ValidationError :=
  check (negb (gl_TokenType g =? "")%string
         && negb (one_of ["private_token"; "oauth"; "job_token"] (ToLower (gl_TokenType g))))
    (VErr (prefix +:+ ".token_type")
       ("invalid token_type '" +:+ gl_TokenType g +:+ "' (must be private_token, oauth, or job_token)")
       (VStr (gl_TokenType g)))
  ++ check (gl_TimeoutSeconds g <? 0)
       (VErr (prefix +:+ ".timeout_seconds") "timeout_seconds must be non-negative" (VInt (gl_TimeoutSeconds g)))
  ++ check (negb (Qle_bool 0 (gl_RateLimitRPS g)))
       (VErr (prefix +:+ ".rate_limit_rps") "rate_limit_rps must be non-negative" (VFloat (gl_RateLimitRPS g)))
  ++ check (gl_RateLimitBurst g <? 0)
       (VErr (prefix +:+ ".rate_limit_burst") "rate_limit_burst must be non-negative" (VInt (gl_RateLimitBurst g)))
  ++ check (gl_MaxRetries g <? 0)
       (VErr (prefix +:+ ".max_retries") "max_retries must be non-negative" (VInt (gl_MaxRetries g)))
  ++ check (gl_RetryBaseDelayMs g <? 0)
       (VErr (prefix +:+ ".retry_base_delay_ms") "retry_base_delay_ms must be non-negative" (VInt (gl_RetryBaseDelayMs g)))
  ++ check (gl_RetryMaxDelayMs g <? 0)
       (VErr (prefix +:+ ".retry_max_delay_ms") "retry_max_delay_ms must be non-negative" (VInt (gl_RetryMaxDelayMs g)))
  ++ check ((0 <? gl_RetryBaseDelayMs g) && (0 <? gl_RetryMaxDelayMs g)
            && (gl_RetryMaxDelayMs g <? gl_RetryBaseDelayMs g))
       (VErr (prefix +:+ ".retry_base_delay_ms")
          ("retry_base_delay_ms (" +:+ Itoa (gl_RetryBaseDelayMs g)
             +:+ ") cannot be greater than retry_max_delay_ms (" +:+ Itoa (gl_RetryMaxDelayMs g) +:+ ")")
          VNil).

Definition validateSettings (s : SettingsConfig) (prefix : string) : list ValidationError :=
  check (st_Concurrency s <? 0)
    (VErr (prefix +:+ ".concurrency")
       ("concurrency must be at least 1 (got " +:+ Itoa (st_Concurrency s) +:+ ")") (VInt (st_Concurrency s)))
  ++ check (negb (st_LogLevel s =? "")%string
            && negb (one_of ["debug"; "info"; "warn"; "error"] (ToLower (st_LogLevel s))))
       (VErr (prefix +:+ ".log_level")
          ("invalid log_level '" +:+ st_LogLevel s +:+ "' (must be debug, info, warn, or error)")
          (VStr (st_LogLevel s)))
  ++ check (negb (st_LogFormat s =? "")%string
            && negb (one_of ["text"; "json"] (ToLower (st_LogFormat s))))
       (VErr (prefix +:+ ".log_format")
          ("invalid log_format '" +:+ st_LogFormat s +:+ "' (must be text or json)") (VStr (st_LogFormat s)))
  ++ check (negb (st_ReportFormat s =? "")%string
            && negb (one_of ["table"; "json"; "csv"; "markdown"] (ToLower (st_ReportFormat s))))
       (VErr (prefix +:+ ".report_format")
          ("invalid report_format '" +:+ st_ReportFormat s +:+ "' (must be table, json, csv, or markdown)")
          (VStr (st_ReportFormat s)))
  ++ validateGitLabSettings (st_GitLab s) (prefix +:+ ".gitlab").

(** ** Targets *)

Definition check_group_id (prefix : string) (i : nat) (id : Z) : list ValidationError :=
  check (id <=? 0)
    (VErr (index prefix i) ("group ID must be positive (got " +:+ Itoa id +:+ ")") (VInt id)).

Definition check_group_path (prefix : string) (i : nat) (path : string) : list ValidationError :=
  check ((TrimSpace path =? "")%string || HasPrefix path "/" || HasSuffix path "/")
    (VErr (index prefix i)
       ("invalid group path '" +:+ path +:+ "' (must be non-empty without leading/trailing slashes)")
       (VStr path)).

Definition validateGroupSelector (g : GroupSelector) (prefix : string) : list ValidationError :=
  check_each (check_group_id (prefix +:+ ".group_ids_include")) (gs_GroupIDsInclude g)
  ++ check_each (check_group_id (prefix +:+ ".group_ids_exclude")) (gs_GroupIDsExclude g)
  ++ check_each (check_group_path (prefix +:+ ".group_paths_include")) (gs_GroupPathsInclude g)
  ++ check_each (check_group_path (prefix +:+ ".group_paths_exclude")) (gs_GroupPathsExclude g).

Definition checkRegex (pattern field : string) : list ValidationError :=
  if (pattern =? "")%string then []
  else match regexp_Compile pattern with
       | inl err => [VErr field ("invalid regular expression: " +:+ error_text err) (VStr pattern)]
       | inr _ => []
       end.

Definition validateProjectSelector (p : ProjectSelector) (prefix : string) : list ValidationError :=
  checkRegex (ps_ProjectNameRegexInclude p) (prefix +:+ ".project_name_regex_include")
  ++ checkRegex (ps_ProjectNameRegexExclude p) (prefix +:+ ".project_name_regex_exclude")
  ++ check (negb (ps_Visibility p =? "")%string
            && negb (one_of ["public"; "internal"; "private"; "any"] (ToLower (ps_Visibility p))))
       (VErr (prefix +:+ ".visibility")
          ("invalid visibility '" +:+ ps_Visibility p +:+ "' (must be public, internal, private, or any)")
          (VStr (ps_Visibility p)))
  ++ match ps_IDRange p with
     | None => []
     | Some r =>
         check (idr_Min r <? 0)
           (VErr (prefix +:+ ".id_range.min")
              ("min must be non-negative (got " +:+ Itoa (idr_Min r) +:+ ")") (VInt (idr_Min r)))
         ++ check (idr_Max r <? 0)
              (VErr (prefix +:+ ".id_range.max")
                 ("max must be non-negative (got " +:+ Itoa (idr_Max r) +:+ ")") (VInt (idr_Max r)))
         ++ check ((0 <? idr_Min r) && (0 <? idr_Max r) && (idr_Max r <? idr_Min r))
              (VErr (prefix +:+ ".id_range")
                 ("min (" +:+ Itoa (idr_Min r) +:+ ") cannot be greater than max ("
                    +:+ Itoa (idr_Max r) +:+ ")") VNil)
     end.

Definition validateTargets (t : TargetSelectors) (prefix : string) : list ValidationError :=
  match ts_GroupSelector t with
  | Some g => validateGroupSelector g (prefix +:+ ".group_selector")
  | None => []
  end
  ++ match ts_ProjectSelector t with
     | Some p => validateProjectSelector p (prefix +:+ ".project_selector")
     | None => []
     end.

(** ** Policies *)

Definition validatePushRules (r : PushRulesConfig) (prefix : string) : list ValidationError :=
  checkRegex (prc_AuthorEmailRegex r) (prefix +:+ ".author_email_regex")
  ++ checkRegex (prc_BranchNameRegex r) (prefix +:+ ".branch_name_regex")
  ++ checkRegex (prc_CommitMessageRegex r) (prefix +:+ ".commit_message_regex")
  ++ checkRegex (prc_CommitMessageNegativeRegex r) (prefix +:+ ".commit_message_negative_regex")
  ++ checkRegex (prc_FileNameRegex r) (prefix +:+ ".file_name_regex")
  ++ match prc_MaxFileSize r with
     | Some n => check (n <? 0)
                   (VErr (prefix +:+ ".max_file_size") "max_file_size must be non-negative" (VInt n))
     | None => []
     end.

(** The three identifier checks every access list shares. *)
Definition check_non_negative (field name : string) (z : Z) : list ValidationError :=
  check (z <? 0) (VErr (field +:+ "." +:+ name) (name +:+ " must be non-negative") (VInt z)).

Definition check_level (allowed : list Z) (text : string) (field : string) (level : Z)
  : list ValidationError :=
  check (negb (one_of_int allowed level))
    (VErr (field +:+ ".access_level")
       ("invalid access level " +:+ Itoa level +:+ " (must be " +:+ text +:+ ")") (VInt level)).

Definition validateBranchAccess (prefix : string) (i : nat) (a : BranchAccessDescription)
  : list ValidationError :=
  check_level [0; 30; 40; 60] "0, 30, 40, or 60" (index prefix i) (ba_AccessLevel a)
  ++ check_non_negative (index prefix i) "user_id" (ba_UserID a)
  ++ check_non_negative (index prefix i) "group_id" (ba_GroupID a)
  ++ check_non_negative (index prefix i) "deploy_key_id" (ba_DeployKeyID a).

Definition validateBranchAccessList (l : list BranchAccessDescription) (prefix : string)
  : list ValidationError := check_each (validateBranchAccess prefix) l.

Definition validateProtectedBranch (b : ProtectedBranchRuleConfig) (prefix : string)
  : list ValidationError :=
  check (TrimSpace (pb_Name b) =? "")%string
    (VErr (prefix +:+ ".name") "protected branch name cannot be empty" VNil)
  ++ validateBranchAccessList (pb_AllowedToPush b) (prefix +:+ ".allowed_to_push")
  ++ validateBranchAccessList (pb_AllowedToMerge b) (prefix +:+ ".allowed_to_merge")
  ++ validateBranchAccessList (pb_AllowedToUnprotect b) (prefix +:+ ".allowed_to_unprotect").

Definition validateTagAccess (prefix : string) (i : nat) (a : TagAccessDescription)
  : list ValidationError :=
  check ((ta_AccessLevel a <? 0) || (60 <? ta_AccessLevel a)
         || negb (one_of_int [0; 30; 40; 50; 60] (ta_AccessLevel a)))
    (VErr (index prefix i +:+ ".access_level")
       ("invalid access level " +:+ Itoa (ta_AccessLevel a) +:+ " (must be 0, 30, 40, 50, or 60)")
       (VInt (ta_AccessLevel a)))
  ++ check_non_negative (index prefix i) "user_id" (ta_UserID a)
  ++ check_non_negative (index prefix i) "group_id" (ta_GroupID a).

Definition validateTagAccessList (l : list TagAccessDescription) (prefix : string)
  : list ValidationError := check_each (validateTagAccess prefix) l.

Definition validateProtectedTag (t : ProtectedTagRuleConfig) (prefix : string) : list ValidationError :=
  check (TrimSpace (pt_Name t) =? "")%string
    (VErr (prefix +:+ ".name") "protected tag name cannot be empty" VNil)
  ++ check (length (pt_AllowedToCreate t) =? 0)%nat
       (VErr (prefix +:+ ".allowed_to_create") "at least one allowed_to_create entry is required" VNil)
  ++ validateTagAccessList (pt_AllowedToCreate t) (prefix +:+ ".allowed_to_create").

Definition validateEnvironmentAccess (prefix : string) (i : nat) (a : EnvironmentAccessDescription)
  : list ValidationError :=
  check_level [0; 30; 40; 60] "0, 30, 40, or 60" (index prefix i) (ea_AccessLevel a)
  ++ check_non_negative (index prefix i) "user_id" (ea_UserID a)
  ++ check_non_negative (index prefix i) "group_id" (ea_GroupID a).

Definition validateEnvironmentApproval (prefix : string) (i : nat) (r : EnvironmentApprovalRuleConfig)
  : list ValidationError :=
  check_level [0; 30; 40; 60] "0, 30, 40, or 60" (index prefix i) (ear_AccessLevel r)
  ++ check_non_negative (index prefix i) "user_id" (ear_UserID r)
  ++ check_non_negative (index prefix i) "group_id" (ear_GroupID r)
  ++ match ear_RequiredApprovalCount r with
     | Some n => check (n <? 0)
                   (VErr (index prefix i +:+ ".required_approvals")
                      ("required_approvals cannot be negative (got " +:+ Itoa n +:+ ")") (VInt n))
     | None => []
     end.

Definition validateProtectedEnvironment (e : ProtectedEnvironmentRuleConfig) (prefix : string)
  : list ValidationError :=
  check (TrimSpace (pe_Name e) =? "")%string
    (VErr (prefix +:+ ".name") "protected environment name cannot be empty" VNil)
  ++ match pe_RequiredApprovalCount e with
     | Some n => check (n <? 0)
                   (VErr (prefix +:+ ".required_approval_count")
                      ("required_approval_count cannot be negative (got " +:+ Itoa n +:+ ")") (VInt n))
     | None => []
     end
  ++ check_each (validateEnvironmentAccess (prefix +:+ ".deploy_access_levels")) (pe_DeployAccessLevels e)
  ++ check_each (validateEnvironmentApproval (prefix +:+ ".approval_rules")) (pe_ApprovalRules e).

Definition validateApprovalRule (prefix : string) (i : nat) (r : ApprovalRuleConfig)
  : list ValidationError :=
  let rulePrefix := index (prefix +:+ ".rules") i in
  check (TrimSpace (ar_Name r) =? "")%string
    (VErr (rulePrefix +:+ ".name") "approval rule name cannot be empty" VNil)
  ++ check (ar_ApprovalsRequired r <? 1)
       (VErr (rulePrefix +:+ ".approvals_required")
          ("approvals_required must be at least 1 (got " +:+ Itoa (ar_ApprovalsRequired r) +:+ ")")
          (VInt (ar_ApprovalsRequired r)))
  ++ check (negb (ar_RuleType r =? "")%string
            && negb (one_of ["regular"; "code_owner"; "any_approver"; "report_approver"] (ar_RuleType r)))
       (VErr (rulePrefix +:+ ".rule_type")
          ("invalid rule_type '" +:+ ar_RuleType r
             +:+ "' (must be regular, code_owner, any_approver, or report_approver)")
          (VStr (ar_RuleType r)))
  ++ check (negb (ar_RuleType r =? "any_approver")%string
            && negb ((0 <? length (ar_UserUsernames r))%nat || (0 <? length (ar_UserIDs r))%nat
                     || (0 <? length (ar_GroupPaths r))%nat || (0 <? length (ar_GroupIDs r))%nat))
       (VErr rulePrefix
          ("approval rule '" +:+ ar_Name r +:+ "' requires at least one user or group approver") VNil).

Definition validateApprovalRules (a : ApprovalRulesConfig) (prefix : string) : list ValidationError :=
  check_each (validateApprovalRule prefix) (ars_Rules a).

Definition validateContainerPolicy (c : ContainerExpirationPolicyConfig) (cPrefix : string)
  : list ValidationError :=
  check (negb (cep_Cadence c =? "")%string
         && negb (one_of ["1d"; "7d"; "14d"; "30d"; "60d"; "90d"] (cep_Cadence c)))
    (VErr (cPrefix +:+ ".cadence")
       ("invalid cadence '" +:+ cep_Cadence c +:+ "' (must be 1d, 7d, 14d, 30d, 60d, or 90d)")
       (VStr (cep_Cadence c)))
  ++ check (negb (cep_OlderThan c =? "")%string
            && negb (one_of ["7d"; "14d"; "30d"; "60d"; "90d"] (cep_OlderThan c)))
       (VErr (cPrefix +:+ ".older_than")
          ("invalid older_than '" +:+ cep_OlderThan c +:+ "' (must be 7d, 14d, 30d, 60d, or 90d)")
          (VStr (cep_OlderThan c)))
  ++ match cep_KeepN c with
     | Some n => check (negb (one_of_int [0; 1; 5; 10; 25; 50; 100] n))
                   (VErr (cPrefix +:+ ".keep_n")
                      ("invalid keep_n " +:+ Itoa n +:+ " (must be 0, 1, 5, 10, 25, 50, or 100)") (VInt n))
     | None => []
     end
  ++ checkRegex (cep_NameRegex c) (cPrefix +:+ ".name_regex")
  ++ checkRegex (cep_NameRegexDelete c) (cPrefix +:+ ".name_regex_delete")
  ++ checkRegex (cep_NameRegexKeep c) (cPrefix +:+ ".name_regex_keep").

Definition validateProjectSettings (p : ProjectSettingsConfig) (prefix : string) : list ValidationError :=
  check (negb (pj_SquashOption p =? "")%string
         && negb (one_of ["never"; "always"; "default_on"; "default_off"] (pj_SquashOption p)))
    (VErr (prefix +:+ ".squash_option")
       ("invalid squash_option '" +:+ pj_SquashOption p
          +:+ "' (must be never, always, default_on, or default_off)") (VStr (pj_SquashOption p)))
  ++ check (negb (pj_MergeMethod p =? "")%string
            && negb (one_of ["merge"; "rebase_merge"; "ff"] (pj_MergeMethod p)))
       (VErr (prefix +:+ ".merge_method")
          ("invalid merge_method '" +:+ pj_MergeMethod p +:+ "' (must be merge, rebase_merge, or ff)")
          (VStr (pj_MergeMethod p)))
  ++ check (negb (pj_AutoCancelPendingPipelines p =? "")%string
            && negb (one_of ["enabled"; "disabled"] (pj_AutoCancelPendingPipelines p)))
       (VErr (prefix +:+ ".auto_cancel_pending_pipelines")
          ("invalid auto_cancel_pending_pipelines '" +:+ pj_AutoCancelPendingPipelines p
             +:+ "' (must be enabled or disabled)") (VStr (pj_AutoCancelPendingPipelines p)))
  ++ match pj_ContainerExpirationPolicy p with
     | Some c => validateContainerPolicy c (prefix +:+ ".container_expiration_policy")
     | None => []
     end.

Definition validatePipelineRetention (p : PipelineRetentionConfig) (prefix : string)
  : list ValidationError :=
  check (prt_RetentionDays p <? 0)
    (VErr (prefix +:+ ".retention_days")
       ("retention_days must be non-negative (got " +:+ Itoa (prt_RetentionDays p) +:+ ")")
       (VInt (prt_RetentionDays p))).

(** [varKeyRegex] and [maskedValRegex], two anchored character classes. *)
Definition var_key_char (c : ascii) : bool := is_letter c || is_digit c || (c =? "_")%char.
Definition masked_char (c : ascii) : bool :=
  is_letter c || is_digit c
  || existsb (Ascii.eqb c) ["_"; "+"; "="; "/"; "@"; ":"; "~"; "."; "-"]%char.
Definition nonempty_of (p : ascii -> bool) (s : string) : bool :=
  negb (s =? "")%string && string_all p s.

Definition check_variable (varPrefix : string) (v : VariableConfig) : list ValidationError :=
  (if (TrimSpace (v_Key v) =? "")%string then
     [VErr (varPrefix +:+ ".key") "variable key cannot be empty" VNil]
   else check (negb (nonempty_of var_key_char (v_Key v)))
          (VErr (varPrefix +:+ ".key")
             ("invalid variable key '" +:+ v_Key v +:+ "' (must match '^[a-zA-Z0-9_]+$')")
             (VStr (v_Key v))))
  ++ check (negb (v_VariableType v =? "")%string
            && negb (one_of ["env_var"; "file"] (v_VariableType v)))
       (VErr (varPrefix +:+ ".variable_type")
          ("invalid variable_type '" +:+ v_VariableType v +:+ "' (must be env_var or file)")
          (VStr (v_VariableType v)))
  ++ (if is_true_ptr (v_Masked v) then
        if (String.length (v_Value v) <? 8)%nat then
          [VErr (varPrefix +:+ ".value")
             ("masked CI/CD variable value must be at least 8 characters long (got "
                +:+ Itoa (Z.of_nat (String.length (v_Value v))) +:+ " characters)")
             (VStr "[REDACTED]")]
        else check (negb (nonempty_of masked_char (v_Value v)))
               (VErr (varPrefix +:+ ".value")
                  "masked CI/CD variable value contains invalid characters; must match '^[a-zA-Z0-9_+=/@:~.-]+$' without spaces or newlines"
                  (VStr "[REDACTED]"))
      else []).

(** The loop of [validateVariables], with the keys seen so far. *)
Fixpoint validateVariablesFrom (seen : gset string) (i : nat) (vars : list VariableConfig)
    (prefix : string) : list ValidationError :=
  match vars with
  | [] => []
  | v :: rest =>
      let compKey := CompositeKey v in
      check_variable (index prefix i) v
      ++ check (bool_decide (compKey ∈ seen))
           (VErr prefix
              ("duplicate variable key '" +:+ v_Key v +:+ "' for environment scope '"
                 +:+ or_string (v_EnvironmentScope v) "*" +:+ "'") VNil)
      ++ validateVariablesFrom ({[compKey]} ∪ seen) (S i) rest prefix
  end.

Definition validateVariables (vars : list VariableConfig) (prefix : string) : list ValidationError :=
  validateVariablesFrom ∅ 0 vars prefix.

Definition validateRunner (prefix : string) (i : nat) (r : RunnerConfig) : list ValidationError :=
  let rPrefix := index (prefix +:+ ".runners") i in
  check (negb (rn_AccessLevel r =? "")%string
         && negb (one_of ["ref_protected"; "not_protected"] (rn_AccessLevel r)))
    (VErr (rPrefix +:+ ".access_level")
       ("invalid access_level '" +:+ rn_AccessLevel r +:+ "' (must be ref_protected or not_protected)")
       (VStr (rn_AccessLevel r)))
  ++ match rn_MaximumTimeout r with
     | Some n => check (n <? 0)
                   (VErr (rPrefix +:+ ".maximum_timeout") "maximum_timeout must be non-negative" (VInt n))
     | None => []
     end.

Definition validateRunners (r : RunnersConfig) (prefix : string) : list ValidationError :=
  check_each (validateRunner prefix) (rns_Runners r).

Definition validateCompliance (c : ComplianceConfig) (prefix : string) : list ValidationError :=
  check ((TrimSpace (co_FrameworkName c) =? "")%string && negb (is_some (co_FrameworkID c)))
    (VErr prefix "compliance configuration requires either framework_name or framework_id" VNil).

Definition validateWebhook (w : WebhookConfig) (prefix : string) : list ValidationError :=
  if (TrimSpace (wh_URL w) =? "")%string then
    [VErr (prefix +:+ ".url") "webhook url cannot be empty" VNil]
  else
    check (match url_ParseRequestURI (wh_URL w) with
           | None => true
           | Some (scheme, host) =>
               (negb (scheme =? "http")%string && negb (scheme =? "https")%string)
               || (host =? "")%string
           end)
      (VErr (prefix +:+ ".url")
         ("invalid webhook URL '" +:+ wh_URL w +:+ "' (must be a valid absolute HTTP/HTTPS URL)")
         (VStr (wh_URL w))).

Definition isValidMemberAccessLevel (level : Z) : bool := one_of_int [10; 20; 30; 40; 50] level.

(** [time.Parse("2006-01-02", s)] succeeds. *)
Definition is_date (s : string) : bool := is_some (time_Parse LayoutDate s).

Definition validateMember (prefix : string) (i : nat) (m : MemberRuleConfig) : list ValidationError :=
  let mPrefix := index (prefix +:+ ".allowed_members") i in
  check (TrimSpace (mr_Username m) =? "")%string
    (VErr (mPrefix +:+ ".username") "member username cannot be empty" VNil)
  ++ check (negb (isValidMemberAccessLevel (mr_AccessLevel m)))
       (VErr (mPrefix +:+ ".access_level")
          ("invalid access level " +:+ Itoa (mr_AccessLevel m) +:+ " (must be 10, 20, 30, 40, or 50)")
          (VInt (mr_AccessLevel m)))
  ++ check (negb (mr_ExpiresAt m =? "")%string && negb (is_date (mr_ExpiresAt m)))
       (VErr (mPrefix +:+ ".expires_at")
          ("invalid expires_at format '" +:+ mr_ExpiresAt m +:+ "' (expected YYYY-MM-DD)")
          (VStr (mr_ExpiresAt m))).

Definition check_member_level (prefix name : string) (o : option Z) : list ValidationError :=
  match o with
  | Some n => check (negb (isValidMemberAccessLevel n))
                (VErr (prefix +:+ "." +:+ name)
                   ("invalid " +:+ name +:+ " " +:+ Itoa n +:+ " (must be 10, 20, 30, 40, or 50)") (VInt n))
  | None => []
  end.

Definition validateMembers (m : MembersConfig) (prefix : string) : list ValidationError :=
  check_member_level prefix "min_access_level" (mb_MinAccessLevel m)
  ++ check_member_level prefix "max_access_level" (mb_MaxAccessLevel m)
  ++ match mb_MinAccessLevel m, mb_MaxAccessLevel m with
     | Some lo, Some hi =>
         check (hi <? lo)
           (VErr prefix
              ("min_access_level (" +:+ Itoa lo +:+ ") cannot be greater than max_access_level ("
                 +:+ Itoa hi +:+ ")") VNil)
     | _, _ => []
     end
  ++ match mb_MaxExpirationDays m with
     | Some n => check (n <=? 0)
                   (VErr (prefix +:+ ".max_expiration_days")
                      ("max_expiration_days must be positive (got " +:+ Itoa n +:+ ")") (VInt n))
     | None => []
     end
  ++ check_each (validateMember prefix) (mb_AllowedMembers m).

Definition validateBranchMerge (prefix : string) (i : nat) (m : BranchMergeRuleConfig)
  : list ValidationError :=
  let mPrefix := index prefix i in
  let src := TrimSpace (bm_SourceBranch m) in
  let tgt := TrimSpace (bm_TargetBranch m) in
  check (src =? "")%string
    (VErr (mPrefix +:+ ".source_branch") "source_branch is required and cannot be empty" VNil)
  ++ check (tgt =? "")%string
       (VErr (mPrefix +:+ ".target_branch") "target_branch is required and cannot be empty" VNil)
  ++ check (negb (src =? "")%string && negb (tgt =? "")%string && (src =? tgt)%string)
       (VErr (mPrefix +:+ ".target_branch")
          ("target_branch cannot be identical to source_branch ('" +:+ src +:+ "')") (VStr tgt)).

Definition validateBranchMerges (l : list BranchMergeRuleConfig) (prefix : string)
  : list ValidationError := check_each (validateBranchMerge prefix) l.

(** The path of a repository file leaves the repository. *)
Definition path_traverses (rawPath : string) : bool :=
  let cleanGitPath := path_Clean (ReplaceAll rawPath "\" "/") in
  HasPrefix cleanGitPath "../" || (cleanGitPath =? "..")%string.

Definition validateRepositoryFile (prefix : string) (i : nat) (f : RepositoryFileConfig)
  : list ValidationError :=
  let fPrefix := index prefix i in
  let rawPath := TrimSpace (rf_Path f) in
  let hasContent := negb (rf_Content f =? "")%string in
  let hasContentFile := negb (TrimSpace (rf_ContentFile f) =? "")%string in
  let hasEnsureContains := (0 <? length (rf_EnsureContains f))%nat in
  (if (rawPath =? "")%string then
     [VErr (fPrefix +:+ ".path") "repository file path cannot be empty" VNil]
   else check (path_traverses rawPath)
          (VErr (fPrefix +:+ ".path")
             ("repository file path '" +:+ rf_Path f +:+ "' cannot contain directory traversal ('..')")
             (VStr (rf_Path f))))
  ++ check (negb hasContent && negb hasContentFile && negb hasEnsureContains)
       (VErr fPrefix
          ("repository file policy '" +:+ rf_Path f
             +:+ "' requires at least one of 'content', 'content_file', or 'ensure_contains'") VNil)
  ++ check (hasContent && hasContentFile)
       (VErr fPrefix
          ("repository file policy '" +:+ rf_Path f +:+ "' cannot specify both 'content' and 'content_file'")
          VNil)
  ++ check ((hasContent || hasContentFile) && hasEnsureContains)
       (VErr fPrefix
          ("repository file policy '" +:+ rf_Path f
             +:+ "' cannot combine full file content ('content'/'content_file') with 'ensure_contains'")
          VNil)
  ++ check (negb (rf_Enforcement f =? "")%string
            && negb (one_of ["direct_commit"; "merge_request"; "audit_only"] (ToLower (rf_Enforcement f))))
       (VErr (fPrefix +:+ ".enforcement")
          ("invalid enforcement mode '" +:+ rf_Enforcement f
             +:+ "' (must be direct_commit, merge_request, or audit_only)") (VStr (rf_Enforcement f))).

Definition validateRepositoryFiles (l : list RepositoryFileConfig) (prefix : string)
  : list ValidationError := check_each (validateRepositoryFile prefix) l.

(** The loop of [validateTargetBranchRules]: the errors and the shadowing
    warnings, with the names seen so far. *)
Fixpoint validateTargetBranchRulesFrom (seen : gset string) (i : nat)
    (rules : list TargetBranchRuleConfig) (prefix : string)
  : list ValidationError * list ValidationWarning :=
  match rules with
  | [] => ([], [])
  | rule :: rest =>
      let rulePrefix := index (prefix +:+ ".rules") i in
      let name := TrimSpace (tbr_Name rule) in
      let targetBranch := TrimSpace (tbr_TargetBranch rule) in
      let '(restErrs, restWarns) :=
        validateTargetBranchRulesFrom (if (name =? "")%string then seen else {[name]} ∪ seen)
          (S i) rest prefix in
      ((if (name =? "")%string then
          [VErr (rulePrefix +:+ ".name")
             "target branch rule name (source pattern) cannot be empty" VNil]
        else check (bool_decide (name ∈ seen))
               (VErr (rulePrefix +:+ ".name")
                  ("duplicate target branch rule for source pattern '" +:+ name +:+ "'") (VStr name)))
       ++ (if (targetBranch =? "")%string then
             [VErr (rulePrefix +:+ ".target_branch")
                "target branch rule target_branch cannot be empty" VNil]
           else check (negb (name =? "")%string && (name =? targetBranch)%string)
                  (VErr rulePrefix
                     ("target branch rule source pattern '" +:+ name
                        +:+ "' cannot be identical to target branch '" +:+ targetBranch +:+ "'") VNil))
       ++ restErrs,
       match rest with
       | next :: _ =>
           check (name =? "*")%string
             (VErr (rulePrefix +:+ ".name")
                ("universal catch-all '*' is placed before subsequent pattern '"
                   +:+ TrimSpace (tbr_Name next)
                   +:+ "'; target branch rules are evaluated in top-to-bottom order and earlier wildcards will shadow subsequent rules")
                (VStr name))
       | [] => []
       end ++ restWarns)
  end.

Definition validateTargetBranchRules (t : TargetBranchRulesConfig) (prefix : string)
  : list ValidationError * list ValidationWarning :=
  validateTargetBranchRulesFrom ∅ 0 (tbrs_Rules t) prefix.

(** The loops over tag and environment rules inside [validatePolicies]: each
    rule is checked, then its trimmed name against those seen before. *)
Fixpoint validateNamedFrom {A} (name : A -> string) (validate : A -> string -> list ValidationError)
    (duplicate : string -> string) (seen : gset string) (i : nat) (l : list A) (prefix : string)
  : list ValidationError :=
  match l with
  | [] => []
  | a :: rest =>
      let aPrefix := index prefix i in
      let normName := TrimSpace (name a) in
      validate a aPrefix
      ++ check (negb (normName =? "")%string && bool_decide (normName ∈ seen))
           (VErr (aPrefix +:+ ".name") (duplicate normName) (VStr normName))
      ++ validateNamedFrom name validate duplicate
           (if (normName =? "")%string then seen else {[normName]} ∪ seen) (S i) rest prefix
  end.

Definition validateTagRules (t : ProtectedTagsConfig) (prefix : string) : list ValidationError :=
  validateNamedFrom pt_Name validateProtectedTag
    (fun n => "duplicate protected tag rule for pattern '" +:+ n +:+ "'") ∅ 0 (pts_Rules t) prefix.

Definition validateEnvironmentRules (t : ProtectedEnvironmentsConfig) (prefix : string)
  : list ValidationError :=
  validateNamedFrom pe_Name validateProtectedEnvironment
    (fun n => "duplicate protected environment rule for environment '" +:+ n +:+ "'")
    ∅ 0 (pes_Rules t) prefix.

(** [if p.X != nil { validateX(p.X, prefix, errs) }]. *)
Definition opt_check {A} (o : option A) (f : A -> list ValidationError) : list ValidationError :=
  match o with Some a => f a | None => [] end.

Definition validatePolicies (p : PoliciesConfig) (prefix : string)
  : list ValidationError * list ValidationWarning :=
  let '(tbrErrs, tbrWarns) :=
    match pol_TargetBranchRules p with
    | Some t => validateTargetBranchRules t (prefix +:+ ".target_branch_rules")
    | None => ([], [])
    end in
  (opt_check (pol_PushRules p) (fun r => validatePushRules r (prefix +:+ ".push_rules"))
   ++ check_each (fun i b => validateProtectedBranch b (index (prefix +:+ ".protected_branches") i))
        (pol_ProtectedBranches p)
   ++ opt_check (pol_ProtectedTags p) (fun t => validateTagRules t (prefix +:+ ".protected_tags"))
   ++ opt_check (pol_ProtectedEnvironments p)
        (fun t => validateEnvironmentRules t (prefix +:+ ".protected_environments"))
   ++ opt_check (pol_ApprovalRules p) (fun a => validateApprovalRules a (prefix +:+ ".approval_rules"))
   ++ opt_check (pol_ProjectSettings p)
        (fun s => validateProjectSettings s (prefix +:+ ".project_settings"))
   ++ opt_check (pol_PipelineRetention p)
        (fun r => validatePipelineRetention r (prefix +:+ ".pipeline_retention"))
   ++ validateVariables (pol_Variables p) (prefix +:+ ".variables")
   ++ opt_check (pol_Runners p) (fun r => validateRunners r (prefix +:+ ".runners"))
   ++ opt_check (pol_Compliance p) (fun c => validateCompliance c (prefix +:+ ".compliance"))
   ++ check_each (fun i w => validateWebhook w (index (prefix +:+ ".webhooks") i)) (pol_Webhooks p)
   ++ opt_check (pol_Members p) (fun m => validateMembers m (prefix +:+ ".members"))
   ++ tbrErrs
   ++ validateRepositoryFiles (pol_RepositoryFiles p) (prefix +:+ ".repository_files")
   ++ validateBranchMerges (pol_BranchMerges p) (prefix +:+ ".branch_merges"),
   tbrWarns).

(** [ValidateWithWarnings]: no error is the empty list of errors. *)
Definition ValidateWithWarnings (cfg : option PolicyConfig)
  : list ValidationError * list ValidationWarning :=
  match cfg with
  | None => ([VErr "config" "policy config cannot be nil" VNil], [])
  | Some c =>
      let '(polErrs, warns) := validatePolicies (cfg_Policies c) "policies" in
      (validateSettings (cfg_Settings c) "settings"
       ++ validateTargets (cfg_Targets c) "targets"
       ++ polErrs, warns)
  end.

Definition Validate (cfg : option PolicyConfig) : list ValidationError :=
  fst (ValidateWithWarnings cfg).

(** ** What a valid policy is

    The specification the checks implement, section by section. *)

Definition nonblank (s : string) : Prop := TrimSpace s <> "".
Definition regex_ok (s : string) : Prop := s = "" \/ exists m, regexp_Compile s = inr m.
Definition enum_ok (l : list string) (s : string) : Prop := s = "" \/ s ∈ l.
(** The same, whatever the case of the letters. *)
Definition enum_ci_ok (l : list string) (s : string) : Prop := s = "" \/ ToLower s ∈ l.
Definition opt_all {A} (P : A -> Prop) (o : option A) : Prop := forall a, o = Some a -> P a.

Definition gitlab_wf (g : GitLabSettingsConfig) : Prop :=
  enum_ci_ok ["private_token"; "oauth"; "job_token"] (gl_TokenType g) /\
  0 <= gl_TimeoutSeconds g /\ (0 <= gl_RateLimitRPS g)%Q /\ 0 <= gl_RateLimitBurst g /\
  0 <= gl_MaxRetries g /\ 0 <= gl_RetryBaseDelayMs g /\ 0 <= gl_RetryMaxDelayMs g /\
  (0 < gl_RetryBaseDelayMs g -> 0 < gl_RetryMaxDelayMs g ->
   gl_RetryBaseDelayMs g <= gl_RetryMaxDelayMs g).

Definition settings_wf (s : SettingsConfig) : Prop :=
  0 <= st_Concurrency s /\
  enum_ci_ok ["debug"; "info"; "warn"; "error"] (st_LogLevel s) /\
  enum_ci_ok ["text"; "json"] (st_LogFormat s) /\
  enum_ci_ok ["table"; "json"; "csv"; "markdown"] (st_ReportFormat s) /\
  gitlab_wf (st_GitLab s).

Definition group_path_wf (p : string) : Prop :=
  nonblank p /\ HasPrefix p "/" = false /\ HasSuffix p "/" = false.

Definition group_selector_wf (g : GroupSelector) : Prop :=
  Forall (fun id => 0 < id) (gs_GroupIDsInclude g) /\
  Forall (fun id => 0 < id) (gs_GroupIDsExclude g) /\
  Forall group_path_wf (gs_GroupPathsInclude g) /\
  Forall group_path_wf (gs_GroupPathsExclude g).

Definition id_range_wf (r : IDRange) : Prop :=
  0 <= idr_Min r /\ 0 <= idr_Max r /\ (0 < idr_Min r -> 0 < idr_Max r -> idr_Min r <= idr_Max r).

Definition project_selector_wf (p : ProjectSelector) : Prop :=
  regex_ok (ps_ProjectNameRegexInclude p) /\ regex_ok (ps_ProjectNameRegexExclude p) /\
  enum_ci_ok ["public"; "internal"; "private"; "any"] (ps_Visibility p) /\
  opt_all id_range_wf (ps_IDRange p).

Definition targets_wf (t : TargetSelectors) : Prop :=
  opt_all group_selector_wf (ts_GroupSelector t) /\ opt_all project_selector_wf (ts_ProjectSelector t).

Definition push_rules_wf (r : PushRulesConfig) : Prop :=
  regex_ok (prc_AuthorEmailRegex r) /\ regex_ok (prc_BranchNameRegex r) /\
  regex_ok (prc_CommitMessageRegex r) /\ regex_ok (prc_CommitMessageNegativeRegex r) /\
  regex_ok (prc_FileNameRegex r) /\ opt_all (fun n => 0 <= n) (prc_MaxFileSize r).

Definition branch_access_wf (a : BranchAccessDescription) : Prop :=
  ba_AccessLevel a ∈ [0; 30; 40; 60] /\ 0 <= ba_UserID a /\ 0 <= ba_GroupID a /\ 0 <= ba_DeployKeyID a.

Definition protected_branch_wf (b : ProtectedBranchRuleConfig) : Prop :=
  nonblank (pb_Name b) /\ Forall branch_access_wf (pb_AllowedToPush b) /\
  Forall branch_access_wf (pb_AllowedToMerge b) /\ Forall branch_access_wf (pb_AllowedToUnprotect b).

Definition tag_access_wf (a : TagAccessDescription) : Prop :=
  ta_AccessLevel a ∈ [0; 30; 40; 50; 60] /\ 0 <= ta_UserID a /\ 0 <= ta_GroupID a.

Definition protected_tag_wf (t : ProtectedTagRuleConfig) : Prop :=
  nonblank (pt_Name t) /\ pt_AllowedToCreate t <> [] /\ Forall tag_access_wf (pt_AllowedToCreate t).

(** Rules of a section, each well formed and no trimmed name twice. *)
Definition named_wf {A} (name : A -> string) (P : A -> Prop) (l : list A) : Prop :=
  Forall P l /\ NoDup ((fun a => TrimSpace (name a)) <$> l).

Definition env_access_wf (a : EnvironmentAccessDescription) : Prop :=
  ea_AccessLevel a ∈ [0; 30; 40; 60] /\ 0 <= ea_UserID a /\ 0 <= ea_GroupID a.

Definition env_approval_wf (r : EnvironmentApprovalRuleConfig) : Prop :=
  ear_AccessLevel r ∈ [0; 30; 40; 60] /\ 0 <= ear_UserID r /\ 0 <= ear_GroupID r /\
  opt_all (fun n => 0 <= n) (ear_RequiredApprovalCount r).

Definition protected_environment_wf (e : ProtectedEnvironmentRuleConfig) : Prop :=
  nonblank (pe_Name e) /\ opt_all (fun n => 0 <= n) (pe_RequiredApprovalCount e) /\
  Forall env_access_wf (pe_DeployAccessLevels e) /\ Forall env_approval_wf (pe_ApprovalRules e).

(** Every rule but an [any_approver] one names an approver. *)
Definition approval_rule_wf (r : ApprovalRuleConfig) : Prop :=
  nonblank (ar_Name r) /\ 1 <= ar_ApprovalsRequired r /\
  enum_ok ["regular"; "code_owner"; "any_approver"; "report_approver"] (ar_RuleType r) /\
  (ar_RuleType r = "any_approver" \/ ar_UserUsernames r <> [] \/ ar_UserIDs r <> []
   \/ ar_GroupPaths r <> [] \/ ar_GroupIDs r <> []).

Definition container_policy_wf (c : ContainerExpirationPolicyConfig) : Prop :=
  enum_ok ["1d"; "7d"; "14d"; "30d"; "60d"; "90d"] (cep_Cadence c) /\
  enum_ok ["7d"; "14d"; "30d"; "60d"; "90d"] (cep_OlderThan c) /\
  opt_all (fun n => n ∈ [0; 1; 5; 10; 25; 50; 100]) (cep_KeepN c) /\
  regex_ok (cep_NameRegex c) /\ regex_ok (cep_NameRegexDelete c) /\ regex_ok (cep_NameRegexKeep c).

Definition project_settings_wf (p : ProjectSettingsConfig) : Prop :=
  enum_ok ["never"; "always"; "default_on"; "default_off"] (pj_SquashOption p) /\
  enum_ok ["merge"; "rebase_merge"; "ff"] (pj_MergeMethod p) /\
  enum_ok ["enabled"; "disabled"] (pj_AutoCancelPendingPipelines p) /\
  opt_all container_policy_wf (pj_ContainerExpirationPolicy p).

(** A variable's key is an identifier; a masked value can be masked. *)
Definition variable_wf (v : VariableConfig) : Prop :=
  nonempty_of var_key_char (v_Key v) = true /\
  enum_ok ["env_var"; "file"] (v_VariableType v) /\
  (v_Masked v = Some true ->
   (8 <= String.length (v_Value v))%nat /\ string_all masked_char (v_Value v) = true).

Definition runner_wf (r : RunnerConfig) : Prop :=
  enum_ok ["ref_protected"; "not_protected"] (rn_AccessLevel r) /\
  opt_all (fun n => 0 <= n) (rn_MaximumTimeout r).

Definition webhook_wf (w : WebhookConfig) : Prop :=
  nonblank (wh_URL w) /\
  exists scheme host, url_ParseRequestURI (wh_URL w) = Some (scheme, host)
    /\ (scheme = "http" \/ scheme = "https") /\ host <> "".

Definition member_level (n : Z) : Prop := n ∈ [10; 20; 30; 40; 50].

Definition member_wf (m : MemberRuleConfig) : Prop :=
  nonblank (mr_Username m) /\ member_level (mr_AccessLevel m) /\
  (mr_ExpiresAt m = "" \/ is_date (mr_ExpiresAt m) = true).

Definition members_wf (m : MembersConfig) : Prop :=
  opt_all member_level (mb_MinAccessLevel m) /\ opt_all member_level (mb_MaxAccessLevel m) /\
  (forall lo hi, mb_MinAccessLevel m = Some lo -> mb_MaxAccessLevel m = Some hi -> lo <= hi) /\
  opt_all (fun n => 0 < n) (mb_MaxExpirationDays m) /\ Forall member_wf (mb_AllowedMembers m).

(** A target branch rule routes a pattern to another branch. *)
Definition target_branch_rule_wf (r : TargetBranchRuleConfig) : Prop :=
  nonblank (tbr_Name r) /\ nonblank (tbr_TargetBranch r) /\
  TrimSpace (tbr_Name r) <> TrimSpace (tbr_TargetBranch r).

(** Exactly one source of content, and a path inside the repository. *)
Definition repository_file_wf (f : RepositoryFileConfig) : Prop :=
  nonblank (rf_Path f) /\ path_traverses (TrimSpace (rf_Path f)) = false /\
  ((rf_Content f <> "" /\ ~ nonblank (rf_ContentFile f) /\ rf_EnsureContains f = [])
   \/ (rf_Content f = "" /\ nonblank (rf_ContentFile f) /\ rf_EnsureContains f = [])
   \/ (rf_Content f = "" /\ ~ nonblank (rf_ContentFile f) /\ rf_EnsureContains f <> [])) /\
  enum_ci_ok ["direct_commit"; "merge_request"; "audit_only"] (rf_Enforcement f).

Definition branch_merge_wf (m : BranchMergeRuleConfig) : Prop :=
  nonblank (bm_SourceBranch m) /\ nonblank (bm_TargetBranch m) /\
  TrimSpace (bm_SourceBranch m) <> TrimSpace (bm_TargetBranch m).

Definition policies_wf (p : PoliciesConfig) : Prop :=
  opt_all push_rules_wf (pol_PushRules p) /\
  Forall protected_branch_wf (pol_ProtectedBranches p) /\
  opt_all (fun t => named_wf pt_Name protected_tag_wf (pts_Rules t)) (pol_ProtectedTags p) /\
  opt_all (fun t => named_wf pe_Name protected_environment_wf (pes_Rules t)) (pol_ProtectedEnvironments p) /\
  opt_all (fun a => Forall approval_rule_wf (ars_Rules a)) (pol_ApprovalRules p) /\
  opt_all project_settings_wf (pol_ProjectSettings p) /\
  opt_all (fun r => 0 <= prt_RetentionDays r) (pol_PipelineRetention p) /\
  (Forall variable_wf (pol_Variables p) /\ NoDup (CompositeKey <$> pol_Variables p)) /\
  opt_all (fun r => Forall runner_wf (rns_Runners r)) (pol_Runners p) /\
  opt_all (fun c => nonblank (co_FrameworkName c) \/ is_Some (co_FrameworkID c)) (pol_Compliance p) /\
  Forall webhook_wf (pol_Webhooks p) /\
  opt_all members_wf (pol_Members p) /\
  opt_all (fun t => named_wf tbr_Name target_branch_rule_wf (tbrs_Rules t)) (pol_TargetBranchRules p) /\
  Forall repository_file_wf (pol_RepositoryFiles p) /\
  Forall branch_merge_wf (pol_BranchMerges p).

Definition policy_wf (c : PolicyConfig) : Prop :=
  settings_wf (cfg_Settings c) /\ targets_wf (cfg_Targets c) /\ policies_wf (cfg_Policies c).

(** ** Lemmas: each check is silent exactly on the well-formed inputs *)

Lemma check_nil b e : check b e = [] <-> b = false.
Proof. by destruct b. Qed.

Lemma check_each_nil {A} (f : nat -> A -> list ValidationError) (P : A -> Prop) l :
  (forall i a, f i a = [] <-> P a) -> check_each f l = [] <-> Forall P l.
Proof.
  unfold check_each. intros Hf.
  enough (forall k, mjoin (imap (fun i => f (k + i)%nat) l) = [] <-> Forall P l) as Hk by apply (Hk 0%nat).
  induction l as [|a l IH]; intros k; simpl; [by split|].
  rewrite app_nil, Forall_cons, Hf.
  rewrite (imap_ext _ (fun i => f (S k + i)%nat)) by (intros; simpl; f_equal; lia).
  by rewrite IH.
Qed.

Lemma opt_check_nil {A} (o : option A) f P :
  (forall a, f a = [] <-> P a) -> opt_check o f = [] <-> opt_all P o.
Proof.
  intros Hf. destruct o as [a|]; simpl; unfold opt_all; [rewrite Hf|]; naive_solver.
Qed.

Lemma one_of_iff l s : one_of l s = true <-> s ∈ l.
Proof.
  unfold one_of. rewrite existsb_exists. setoid_rewrite <- list_elem_of_In.
  setoid_rewrite String.eqb_eq. naive_solver.
Qed.

Lemma one_of_int_iff l z : one_of_int l z = true <-> z ∈ l.
Proof.
  unfold one_of_int. rewrite existsb_exists. setoid_rewrite <- list_elem_of_In.
  setoid_rewrite Z.eqb_eq. naive_solver.
Qed.

Lemma negb_one_of_int l z : negb (one_of_int l z) = false <-> z ∈ l.
Proof. rewrite negb_false_iff. apply one_of_int_iff. Qed.

Lemma enum_guard l s t :
  negb (s =? "")%string && negb (one_of l t) = false <-> s = "" \/ t ∈ l.
Proof.
  rewrite <- one_of_iff. destruct (String.eqb_spec s ""), (one_of l t); simpl; naive_solver.
Qed.

Lemma blank_guard s : (TrimSpace s =? "")%string = false <-> nonblank s.
Proof. apply String.eqb_neq. Qed.

Lemma checkRegex_nil p f : checkRegex p f = [] <-> regex_ok p.
Proof.
  unfold checkRegex, regex_ok. destruct (String.eqb_spec p ""); [naive_solver|].
  destruct (regexp_Compile p); naive_solver.
Qed.

(** Rewrites a silent validator to the conjunction of its guards. *)
Ltac guards :=
  rewrite ?app_nil, ?check_nil, ?enum_guard, ?blank_guard, ?checkRegex_nil, ?negb_one_of_int,
    ?Z.ltb_ge, ?Z.leb_gt.

(** [match o with Some n => check (bad n) e | None => [] end]. *)
Lemma opt_guard_nil {A} (o : option A) (l : A -> list ValidationError) P :
  (forall a, l a = [] <-> P a) -> match o with Some a => l a | None => [] end = [] <-> opt_all P o.
Proof. apply opt_check_nil. Qed.

Lemma check_non_negative_nil f n z : check_non_negative f n z = [] <-> 0 <= z.
Proof. unfold check_non_negative. by guards. Qed.

Lemma check_level_nil l t f z : check_level l t f z = [] <-> z ∈ l.
Proof. unfold check_level. by guards. Qed.

Lemma ordered_guard a b : (0 <? a) && (0 <? b) && (b <? a) = false <-> (0 < a -> 0 < b -> a <= b).
Proof. destruct (Z.ltb_spec 0 a), (Z.ltb_spec 0 b), (Z.ltb_spec b a); simpl; split; intros; try done; lia. Qed.

Lemma validateGitLabSettings_nil g p : validateGitLabSettings g p = [] <-> gitlab_wf g.
Proof.
  unfold validateGitLabSettings, gitlab_wf, enum_ci_ok. guards.
  rewrite negb_false_iff, Qle_bool_iff, ordered_guard. done.
Qed.

Lemma validateSettings_nil s p : validateSettings s p = [] <-> settings_wf s.
Proof.
  unfold validateSettings, settings_wf, enum_ci_ok. guards. by rewrite validateGitLabSettings_nil.
Qed.

Lemma check_group_path_nil p i s : check_group_path p i s = [] <-> group_path_wf s.
Proof.
  unfold check_group_path, group_path_wf. guards. rewrite !orb_false_iff, blank_guard. tauto.
Qed.

Lemma validateGroupSelector_nil g p : validateGroupSelector g p = [] <-> group_selector_wf g.
Proof.
  unfold validateGroupSelector, group_selector_wf. guards.
  rewrite !(check_each_nil _ (fun id => 0 < id)) by (intros; unfold check_group_id; by guards).
  by rewrite !(check_each_nil _ group_path_wf) by apply check_group_path_nil.
Qed.

Lemma validateProjectSelector_nil s p : validateProjectSelector s p = [] <-> project_selector_wf s.
Proof.
  unfold validateProjectSelector, project_selector_wf, enum_ci_ok. guards.
  rewrite (opt_guard_nil _ _ id_range_wf); [done|].
  intros r. unfold id_range_wf. guards. by rewrite ordered_guard.
Qed.

Lemma validateTargets_nil t p : validateTargets t p = [] <-> targets_wf t.
Proof.
  unfold validateTargets, targets_wf. guards.
  rewrite (opt_guard_nil _ _ group_selector_wf) by (intros; apply validateGroupSelector_nil).
  by rewrite (opt_guard_nil _ _ project_selector_wf) by (intros; apply validateProjectSelector_nil).
Qed.

Lemma opt_non_negative_nil (o : option Z) (e : Z -> ValidationError) :
  match o with Some n => check (n <? 0) (e n) | None => [] end = [] <-> opt_all (fun n => 0 <= n) o.
Proof. apply opt_guard_nil. intros n. by guards. Qed.

Lemma validatePushRules_nil r p : validatePushRules r p = [] <-> push_rules_wf r.
Proof. unfold validatePushRules, push_rules_wf. guards. by rewrite opt_non_negative_nil. Qed.

Lemma validateBranchAccessList_nil l p :
  validateBranchAccessList l p = [] <-> Forall branch_access_wf l.
Proof.
  apply check_each_nil. intros i a. unfold validateBranchAccess, branch_access_wf. guards.
  by rewrite check_level_nil, !check_non_negative_nil.
Qed.

Lemma validateProtectedBranch_nil b p : validateProtectedBranch b p = [] <-> protected_branch_wf b.
Proof.
  unfold validateProtectedBranch, protected_branch_wf. guards. by rewrite !validateBranchAccessList_nil.
Qed.

Lemma length_guard {A} (l : list A) : (length l =? 0)%nat = false <-> l <> [].
Proof. destruct l; simpl; naive_solver. Qed.

Lemma validateTagAccess_nil p i a : validateTagAccess p i a = [] <-> tag_access_wf a.
Proof.
  unfold validateTagAccess, tag_access_wf. guards. rewrite !check_non_negative_nil.
  rewrite !orb_false_iff, negb_one_of_int, !Z.ltb_ge. split; [tauto|].
  intros (Hl & Hu & Hg). repeat split; try done; set_unfold; lia.
Qed.

Lemma validateProtectedTag_nil t p : validateProtectedTag t p = [] <-> protected_tag_wf t.
Proof.
  unfold validateProtectedTag, protected_tag_wf, validateTagAccessList. guards. rewrite length_guard.
  by rewrite (check_each_nil _ tag_access_wf) by apply validateTagAccess_nil.
Qed.

Lemma validateProtectedEnvironment_nil e p :
  validateProtectedEnvironment e p = [] <-> protected_environment_wf e.
Proof.
  unfold validateProtectedEnvironment, protected_environment_wf. guards.
  rewrite opt_non_negative_nil.
  rewrite (check_each_nil _ env_access_wf)
    by (intros; unfold validateEnvironmentAccess, env_access_wf; guards;
        by rewrite check_level_nil, !check_non_negative_nil).
  by rewrite (check_each_nil _ env_approval_wf)
    by (intros; unfold validateEnvironmentApproval, env_approval_wf; guards;
        by rewrite check_level_nil, !check_non_negative_nil, opt_non_negative_nil).
Qed.

Lemma some_approver_guard t (us : list string) (ui : list Z) (gp : list string) (gi : list Z) :
  negb (t =? "any_approver")%string
  && negb ((0 <? length us)%nat || (0 <? length ui)%nat || (0 <? length gp)%nat || (0 <? length gi)%nat)
  = false <-> t = "any_approver" \/ us <> [] \/ ui <> [] \/ gp <> [] \/ gi <> [].
Proof.
  destruct (String.eqb_spec t "any_approver"); simpl; [tauto|].
  destruct us, ui, gp, gi; simpl; naive_solver.
Qed.

Lemma validateApprovalRules_nil a p :
  validateApprovalRules a p = [] <-> Forall approval_rule_wf (ars_Rules a).
Proof.
  apply check_each_nil. intros i r. unfold validateApprovalRule, approval_rule_wf, enum_ok. guards.
  by rewrite some_approver_guard.
Qed.

Lemma validateContainerPolicy_nil c p : validateContainerPolicy c p = [] <-> container_policy_wf c.
Proof.
  unfold validateContainerPolicy, container_policy_wf, enum_ok. guards.
  by rewrite (opt_guard_nil _ _ (fun n => n ∈ [0; 1; 5; 10; 25; 50; 100])) by (intros; by guards).
Qed.

Lemma validateProjectSettings_nil s p : validateProjectSettings s p = [] <-> project_settings_wf s.
Proof.
  unfold validateProjectSettings, project_settings_wf, enum_ok. guards.
  by rewrite (opt_guard_nil _ _ container_policy_wf) by (intros; apply validateContainerPolicy_nil).
Qed.

Lemma nonempty_key_nonblank s : nonempty_of var_key_char s = true -> nonblank s.
Proof.
  unfold nonempty_of, nonblank. intros Hk. apply andb_true_iff in Hk as [Hne Hall].
  apply negb_true_iff, String.eqb_neq in Hne. unfold TrimSpace. rewrite TrimFunc_none; [done|].
  revert Hall. apply string_all_impl. intros [[] [] [] [] [] [] [] []]; done.
Qed.

Lemma masked_guard (o : option bool) (v : string) p :
  (if is_true_ptr o then
     if (String.length v <? 8)%nat then [p] else check (negb (nonempty_of masked_char v)) p
   else []) = [] <->
  (o = Some true -> (8 <= String.length v)%nat /\ string_all masked_char v = true).
Proof.
  destruct o as [[]|]; simpl; [|naive_solver..].
  destruct (Nat.ltb_spec (String.length v) 8); [naive_solver lia|].
  rewrite check_nil, negb_false_iff. unfold nonempty_of.
  destruct (String.eqb_spec v ""); [subst; simpl in *; lia|]. simpl. naive_solver.
Qed.

Lemma check_variable_nil p v : check_variable p v = [] <-> variable_wf v.
Proof.
  unfold check_variable, variable_wf, enum_ok. guards. 
  assert (forall e1 e2, (if (TrimSpace (v_Key v) =? "")%string then [e1] : list ValidationError
          else check (negb (nonempty_of var_key_char (v_Key v))) e2) = []
          <-> nonempty_of var_key_char (v_Key v) = true) as ->.
  { intros e1 e2. destruct (String.eqb_spec (TrimSpace (v_Key v)) "") as [Hb|Hb].
    - split; [done|]. by intros Hk%nonempty_key_nonblank.
    - by rewrite check_nil, negb_false_iff. }
  destruct (is_true_ptr (v_Masked v)) eqn:Hm.
  - pose proof (masked_guard (v_Masked v) (v_Value v) (VErr "" "" VNil)) as Hg. rewrite Hm in Hg.
    destruct (String.length (v_Value v) <? 8)%nat; [|rewrite check_nil in *]; naive_solver.
  - destruct (v_Masked v) as [[]|]; naive_solver.
Qed.

Lemma validateVariablesFrom_nil seen i l p :
  validateVariablesFrom seen i l p = [] <->
  Forall variable_wf l /\ NoDup (CompositeKey <$> l) /\ Forall (fun v => CompositeKey v ∉ seen) l.
Proof.
  revert seen i. induction l as [|v l IH]; intros seen i; simpl.
  - split; [|done]. repeat split; constructor.
  - guards. rewrite check_variable_nil, bool_decide_eq_false, IH, !Forall_cons, NoDup_cons.
    setoid_rewrite not_elem_of_union. setoid_rewrite not_elem_of_singleton.
    rewrite Forall_and. rewrite list_elem_of_fmap, !Forall_forall. naive_solver.
Qed.

Lemma validateVariables_nil l p :
  validateVariables l p = [] <-> Forall variable_wf l /\ NoDup (CompositeKey <$> l).
Proof.
  unfold validateVariables. rewrite validateVariablesFrom_nil.
  split; [tauto|]. intros [? ?]. repeat split; [done..|]. apply Forall_forall. set_solver.
Qed.

Lemma validateNamedFrom_nil {A} (name : A -> string) validate dup (P : A -> Prop) seen i l p :
  (forall a q, validate a q = [] <-> P a) -> (forall a, P a -> nonblank (name a)) ->
  validateNamedFrom name validate dup seen i l p = [] <->
  named_wf name P l /\ Forall (fun a => TrimSpace (name a) ∉ seen) l.
Proof.
  intros Hv Hn. unfold named_wf. revert seen i. induction l as [|a l IH]; intros seen i; simpl.
  - split; [|done]. repeat split; constructor.
  - guards. rewrite Hv, !Forall_cons, NoDup_cons, list_elem_of_fmap, andb_false_iff, negb_false_iff,
      String.eqb_eq, bool_decide_eq_false, IH.
    destruct (String.eqb_spec (TrimSpace (name a)) "") as [Hb|Hb].
    + split; [|naive_solver]. intros (Ha & _). by apply Hn in Ha.
    + setoid_rewrite not_elem_of_union. setoid_rewrite not_elem_of_singleton.
      rewrite Forall_and, !Forall_forall. naive_solver.
Qed.

Lemma validateTagRules_nil t p :
  validateTagRules t p = [] <-> named_wf pt_Name protected_tag_wf (pts_Rules t).
Proof.
  unfold validateTagRules. rewrite (validateNamedFrom_nil _ _ _ protected_tag_wf).
  - split; [tauto|]. intros; split; [done|]. apply Forall_forall. set_solver.
  - intros. apply validateProtectedTag_nil.
  - by intros a [? _].
Qed.

Lemma validateEnvironmentRules_nil t p :
  validateEnvironmentRules t p = [] <-> named_wf pe_Name protected_environment_wf (pes_Rules t).
Proof.
  unfold validateEnvironmentRules. rewrite (validateNamedFrom_nil _ _ _ protected_environment_wf).
  - split; [tauto|]. intros; split; [done|]. apply Forall_forall. set_solver.
  - intros. apply validateProtectedEnvironment_nil.
  - by intros a [? _].
Qed.

Lemma validateRunners_nil r p : validateRunners r p = [] <-> Forall runner_wf (rns_Runners r).
Proof.
  apply check_each_nil. intros i x. unfold validateRunner, runner_wf, enum_ok. guards.
  by rewrite opt_non_negative_nil.
Qed.

Lemma validateCompliance_nil c p :
  validateCompliance c p = [] <-> nonblank (co_FrameworkName c) \/ is_Some (co_FrameworkID c).
Proof.
  unfold validateCompliance. guards. rewrite andb_false_iff, blank_guard, negb_false_iff.
  destruct (co_FrameworkID c); simpl; split; intros [?|?]; eauto; [done|]. by destruct H1.
Qed.

Lemma validateWebhook_nil w p : validateWebhook w p = [] <-> webhook_wf w.
Proof.
  unfold validateWebhook, webhook_wf, nonblank.
  destruct (String.eqb_spec (TrimSpace (wh_URL w)) "") as [Hb|Hb]; [naive_solver|]. guards.
  destruct (url_ParseRequestURI (wh_URL w)) as [[scheme host]|]; [|naive_solver].
  rewrite orb_false_iff, andb_false_iff, !negb_false_iff, !String.eqb_eq, String.eqb_neq. naive_solver.
Qed.

Lemma isValidMemberAccessLevel_iff n : isValidMemberAccessLevel n = true <-> member_level n.
Proof. apply one_of_int_iff. Qed.

Lemma check_member_level_nil p n o : check_member_level p n o = [] <-> opt_all member_level o.
Proof.
  apply opt_guard_nil. intros z. guards. rewrite negb_false_iff. apply isValidMemberAccessLevel_iff.
Qed.

Lemma validateMember_nil p i m : validateMember p i m = [] <-> member_wf m.
Proof.
  unfold validateMember, member_wf. guards.
  rewrite andb_false_iff, !negb_false_iff, isValidMemberAccessLevel_iff, String.eqb_eq. done.
Qed.

Lemma validateMembers_nil m p : validateMembers m p = [] <-> members_wf m.
Proof.
  unfold validateMembers, members_wf. guards. rewrite !check_member_level_nil.
  rewrite (opt_guard_nil (mb_MaxExpirationDays m) _ (fun n => 0 < n)) by (intros; by guards).
  rewrite (check_each_nil _ member_wf) by apply validateMember_nil.
  destruct (mb_MinAccessLevel m) as [lo|], (mb_MaxAccessLevel m) as [hi|]; guards; naive_solver.
Qed.

Lemma validateBranchMerges_nil l p : validateBranchMerges l p = [] <-> Forall branch_merge_wf l.
Proof.
  apply check_each_nil. intros i m. unfold validateBranchMerge, branch_merge_wf. guards. unfold nonblank.
  rewrite !andb_false_iff, !negb_false_iff, !String.eqb_eq, String.eqb_neq. tauto.
Qed.

Lemma nonblank_guard s : negb (TrimSpace s =? "")%string = true <-> nonblank s.
Proof. rewrite negb_true_iff. apply blank_guard. Qed.

Lemma content_guards (c : string) (file : string) (l : list string) :
  let hc := negb (c =? "")%string in
  let hf := negb (TrimSpace file =? "")%string in
  let he := (0 <? length l)%nat in
  (negb hc && negb hf && negb he = false /\ hc && hf = false /\ (hc || hf) && he = false) <->
  ((c <> "" /\ ~ nonblank file /\ l = []) \/ (c = "" /\ nonblank file /\ l = [])
   \/ (c = "" /\ ~ nonblank file /\ l <> [])).
Proof.
  simpl. unfold nonblank. destruct (String.eqb_spec c ""), (String.eqb_spec (TrimSpace file) ""), l;
    simpl; split; intros; try naive_solver.
Qed.

Lemma validateRepositoryFile_nil p i f : validateRepositoryFile p i f = [] <-> repository_file_wf f.
Proof.
  unfold validateRepositoryFile, repository_file_wf. rewrite <- content_guards. guards.
  unfold enum_ci_ok, nonblank.
  destruct (String.eqb_spec (TrimSpace (rf_Path f)) ""); guards; naive_solver.
Qed.

Lemma Forall_fresh {A} (f : A -> string) n (seen : gset string) (l : list A) :
  Forall (fun r => f r ∉ {[n]} ∪ seen) l <->
  ~ (exists x, n = f x /\ x ∈ l) /\ Forall (fun r => f r ∉ seen) l.
Proof.
  rewrite !Forall_forall. set_solver.
Qed.

Lemma validateTargetBranchRulesFrom_nil seen i l p :
  (validateTargetBranchRulesFrom seen i l p).1 = [] <->
  named_wf tbr_Name target_branch_rule_wf l /\ Forall (fun r => TrimSpace (tbr_Name r) ∉ seen) l.
Proof.
  unfold named_wf. revert seen i. induction l as [|r l IH]; intros seen i; simpl.
  - split; [|done]. repeat split; constructor.
  - specialize (IH (if (TrimSpace (tbr_Name r) =? "")%string then seen
                    else {[TrimSpace (tbr_Name r)]} ∪ seen) (S i)).
    destruct (validateTargetBranchRulesFrom _ _ _ _) as [errs warns]. simpl in *.
    guards. rewrite IH, !Forall_cons, NoDup_cons, list_elem_of_fmap. clear IH.
    unfold target_branch_rule_wf at 2, nonblank.
    destruct (String.eqb_spec (TrimSpace (tbr_Name r)) "") as [Hn|Hn]; [naive_solver|].
    destruct (String.eqb_spec (TrimSpace (tbr_TargetBranch r)) "") as [Ht|Ht]; [naive_solver|].
    cbn [negb andb]. guards. rewrite bool_decide_eq_false, String.eqb_neq, Forall_fresh.
    clear - Hn Ht. split; intros; destruct_and?; split_and?; eauto.
Qed.

Lemma validateTargetBranchRules_nil t p :
  (validateTargetBranchRules t p).1 = [] <-> named_wf tbr_Name target_branch_rule_wf (tbrs_Rules t).
Proof.
  unfold validateTargetBranchRules. rewrite validateTargetBranchRulesFrom_nil.
  split; [tauto|]. intros; split; [done|]. apply Forall_forall. set_solver.
Qed.

Lemma validatePolicies_nil pol p : (validatePolicies pol p).1 = [] <-> policies_wf pol.
Proof.
  unfold validatePolicies, policies_wf.
  assert (Ht : opt_all (fun t => named_wf tbr_Name target_branch_rule_wf (tbrs_Rules t))
                 (pol_TargetBranchRules pol) <->
               (match pol_TargetBranchRules pol with
                | Some t => validateTargetBranchRules t (p +:+ ".target_branch_rules")
                | None => ([], []) end).1 = []).
  { destruct (pol_TargetBranchRules pol) as [t|]; unfold opt_all; simpl; [|naive_solver].
    rewrite validateTargetBranchRules_nil. naive_solver. }
  rewrite Ht. clear Ht.
  destruct (match pol_TargetBranchRules pol with Some _ => _ | None => _ end) as [errs warns].
  cbn [fst]. guards.
  rewrite (opt_check_nil _ _ push_rules_wf) by (intros; apply validatePushRules_nil).
  rewrite (check_each_nil _ protected_branch_wf) by (intros; apply validateProtectedBranch_nil).
  rewrite (opt_check_nil (pol_ProtectedTags pol) _ _) by (intros; apply validateTagRules_nil).
  rewrite (opt_check_nil (pol_ProtectedEnvironments pol) _ _)
    by (intros; apply validateEnvironmentRules_nil).
  rewrite (opt_check_nil (pol_ApprovalRules pol) _ _) by (intros; apply validateApprovalRules_nil).
  rewrite (opt_check_nil (pol_ProjectSettings pol) _ _) by (intros; apply validateProjectSettings_nil).
  rewrite (opt_check_nil (pol_PipelineRetention pol) _ (fun r => 0 <= prt_RetentionDays r))
    by (intros; unfold validatePipelineRetention; by guards).
  rewrite validateVariables_nil.
  rewrite (opt_check_nil (pol_Runners pol) _ _) by (intros; apply validateRunners_nil).
  rewrite (opt_check_nil (pol_Compliance pol) _ _) by (intros; apply validateCompliance_nil).
  rewrite (check_each_nil _ webhook_wf) by (intros; apply validateWebhook_nil).
  rewrite (opt_check_nil (pol_Members pol) _ _) by (intros; apply validateMembers_nil).
  unfold validateRepositoryFiles.
  rewrite (check_each_nil _ repository_file_wf) by apply validateRepositoryFile_nil.
  by rewrite validateBranchMerges_nil.
Qed.

(** What the checks accept, whatever the schema says. *)
Lemma Validate_nil (c : PolicyConfig) : Validate (Some c) = [] <-> policy_wf c.
Proof.
  unfold Validate, ValidateWithWarnings, policy_wf.
  pose proof (validatePolicies_nil (cfg_Policies c) "policies") as Hp.
  destruct (validatePolicies (cfg_Policies c) "policies") as [errs warns]. simpl in *.
  guards. by rewrite validateSettings_nil, validateTargets_nil, Hp.
Qed.

(** ** The published schema

    docs/schema.json constrains a policy as well, and not always as the code
    does.  [schema_ok] is what it says of the values; 0 and the empty string
    stand for a field that is absent.  The fields of a target branch rule have
    other names there. *)

Definition lower_case (s : string) : Prop := ToLower s = s.

Definition schema_settings_ok (s : SettingsConfig) : Prop :=
  1 <= st_Concurrency s <= 100 /\
  enum_ok ["debug"; "info"; "warn"; "error"] (st_LogLevel s) /\
  enum_ok ["text"; "json"] (st_LogFormat s) /\
  enum_ok ["table"; "summary"; "json"; "csv"; "markdown"] (st_ReportFormat s) /\
  (gl_RateLimitRPS (st_GitLab s) == 0 \/ 1 # 10 <= gl_RateLimitRPS (st_GitLab s))%Q /\
  0 <= gl_RateLimitBurst (st_GitLab s) /\ 0 <= gl_MaxRetries (st_GitLab s) /\ 0 <= gl_RetryBaseDelayMs (st_GitLab s).

Definition schema_selector_ok (p : ProjectSelector) : Prop :=
  enum_ok ["public"; "internal"; "private"; "any"] (ps_Visibility p) /\
  opt_all (fun r => 0 <= idr_Min r /\ 0 <= idr_Max r) (ps_IDRange p).

Definition schema_policies_ok (p : PoliciesConfig) : Prop :=
  opt_all (fun r => opt_all (fun n => 0 <= n) (prc_MaxFileSize r)) (pol_PushRules p) /\
  Forall (fun b => pb_Name b <> "") (pol_ProtectedBranches p) /\
  opt_all (fun a => Forall (fun r => ar_Name r <> "" /\ 0 <= ar_ApprovalsRequired r) (ars_Rules a)) (pol_ApprovalRules p) /\
  opt_all (fun s => enum_ok ["always"; "never"; "default_on"; "default_off"] (pj_SquashOption s) /\
                    enum_ok ["merge"; "rebase_merge"; "ff"] (pj_MergeMethod s)) (pol_ProjectSettings p) /\
  opt_all (fun r => 1 <= prt_RetentionDays r <= 3650) (pol_PipelineRetention p) /\
  opt_all (fun c => co_FrameworkName c <> "") (pol_Compliance p).

Definition schema_ok (c : PolicyConfig) : Prop :=
  cfg_Version c ∈ ["v1"; "1"; "1.0"] /\ schema_settings_ok (cfg_Settings c) /\
  opt_all schema_selector_ok (ts_ProjectSelector (cfg_Targets c)) /\ schema_policies_ok (cfg_Policies c).

(** A policy without the values of which the schema and the code judge
    differently: the version, which only the schema looks at; a concurrency of 0
    or above 100; enumerations in capitals; the report format [summary]; a rate
    below a tenth; a rule of no approval; retention for no day or for more than
    ten years; a framework by its number alone; and target branch rules. *)
Record undisputed (c : PolicyConfig) : Prop := {
  ud_version : cfg_Version c ∈ ["v1"; "1"; "1.0"];
  ud_concurrency : st_Concurrency (cfg_Settings c) <> 0 /\ st_Concurrency (cfg_Settings c) <= 100;
  ud_case : lower_case (st_LogLevel (cfg_Settings c)) /\ lower_case (st_LogFormat (cfg_Settings c)) /\
            lower_case (st_ReportFormat (cfg_Settings c)) /\
            opt_all (fun p => lower_case (ps_Visibility p)) (ts_ProjectSelector (cfg_Targets c));
  ud_format : st_ReportFormat (cfg_Settings c) <> "summary";
  ud_rate : ~ (0 < gl_RateLimitRPS (st_GitLab (cfg_Settings c)) < 1 # 10)%Q;
  ud_approvals : opt_all (fun a => Forall (fun r => ar_ApprovalsRequired r <> 0) (ars_Rules a)) (pol_ApprovalRules (cfg_Policies c));
  ud_retention : opt_all (fun r => prt_RetentionDays r <> 0 /\ prt_RetentionDays r <= 3650) (pol_PipelineRetention (cfg_Policies c));
  ud_framework : opt_all (fun f => nonblank (co_FrameworkName f) \/ co_FrameworkID f = None) (pol_Compliance (cfg_Policies c));
  ud_target_rules : opt_all (fun t => tbrs_Rules t = []) (pol_TargetBranchRules (cfg_Policies c))
}.

Lemma nonblank_ne s : nonblank s -> s <> "".
Proof. intros Hn ->. by apply Hn. Qed.

Lemma lower_enum l s : lower_case s -> enum_ci_ok l s -> enum_ok l s.
Proof. unfold lower_case, enum_ci_ok, enum_ok. by intros ->. Qed.

Lemma enum_more l l' s : (forall x, x ∈ l -> x ∈ l') -> enum_ok l s -> enum_ok l' s.
Proof. unfold enum_ok. naive_solver. Qed.

Lemma opt_all_impl {A} (P Q : A -> Prop) o : (forall a, P a -> Q a) -> opt_all P o -> opt_all Q o.
Proof. unfold opt_all. eauto. Qed.

Lemma opt_all_both {A} (P Q : A -> Prop) o : opt_all P o -> opt_all Q o -> opt_all (fun a => P a /\ Q a) o.
Proof. unfold opt_all. eauto. Qed.

Lemma settings_wf_schema c : undisputed c -> settings_wf (cfg_Settings c) -> schema_settings_ok (cfg_Settings c).
Proof.
  intros [_ [Hc1 Hc2] (Hl & Hf & Hr & _) _ Hrate _ _ _ _] (H1 & H2 & H3 & H4 & (_ & _ & H5 & H6 & H7 & H8 & _)).
  unfold schema_settings_ok. split_and!; try done; [lia|by apply lower_enum|by apply lower_enum| |].
  - eapply enum_more; [|by apply lower_enum]. set_solver.
  - destruct (Qlt_le_dec (gl_RateLimitRPS (st_GitLab (cfg_Settings c))) (1 # 10)) as [Hlt|Hge]; [left|by right].
    apply Qle_antisym; [|done]. apply Qnot_lt_le. intros ?. by apply Hrate.
Qed.

Lemma policies_wf_schema c : undisputed c -> policies_wf (cfg_Policies c) -> schema_policies_ok (cfg_Policies c).
Proof.
  intros [_ _ _ _ _ _ Hr Hf _] (H1 & H2 & _ & _ & H5 & H6 & H7 & _ & _ & H10 & _). split_and!.
  - eapply opt_all_impl; [|exact H1]. by intros r (_ & _ & _ & _ & _ & ?).
  - apply (Forall_impl _ _ _ H2). intros b [? _]. by apply nonblank_ne.
  - eapply opt_all_impl; [|exact H5]. intros a Ha. apply (Forall_impl _ _ _ Ha). intros r (? & ? & _). split; [by apply nonblank_ne|lia].
  - eapply opt_all_impl; [|exact H6]. intros a (Hs & Hm & _). split; [|done]. eapply enum_more; [|exact Hs]. set_solver.
  - eapply opt_all_impl; [|exact (opt_all_both _ _ _ H7 Hr)]. intros r. cbn. lia.
  - eapply opt_all_impl; [|exact (opt_all_both _ _ _ H10 Hf)]. intros f [[?|[id Hid]] [?|Hno]]; try (by apply nonblank_ne). congruence.
Qed.

(** ** Properties *)

(** C35. Where the published schema and the code do not judge the same value
    differently, validation is sound and complete: [Validate] returns no error
    exactly on the policies that are well formed, section by section (no bad
    value passes, no good policy is refused), and what it lets pass satisfies
    the schema. *)
Theorem Validate_exact (c : PolicyConfig) :
  undisputed c -> (Validate (Some c) = [] <-> policy_wf c) /\ (Validate (Some c) = [] -> schema_ok c).
Proof.
  intros Hu. split; [apply Validate_nil|]. intros (Hs & Ht & Hp)%Validate_nil. split_and!; [apply Hu|by apply settings_wf_schema| |by apply policies_wf_schema].
  destruct Ht as [_ Ht]. eapply opt_all_impl; [|exact (opt_all_both _ _ _ Ht (proj2 (proj2 (proj2 (ud_case c Hu)))))].
  intros p [(_ & _ & Hv & Hi) Hl]. split; [by apply lower_enum|]. eapply opt_all_impl; [|exact Hi]. intros r (? & ? & _). done.
Qed.

End Validator.

(** ** A policy that passes, and one that does not *)

Section Demo.

#[local] Instance demo_regexp_any : GoRegexp := {| regexp_Compile := fun p => if Contains p "(" then inl (ErrNew "missing )") else inr (fun _ => false) |}.
#[local] Instance demo_url_any : GoURL := {| url_ParseRequestURI := fun _ => Some ("https", "example.com") |}.

Definition demo_gate (approvals : Z) : ApprovalRuleConfig :=
  Build_ApprovalRuleConfig "Security Gate" approvals ["sec_lead"] [] [] [] [] [] "regular".

Definition demo_checked (approvals : Z) : PolicyConfig :=
  Build_PolicyConfig "v1"
    (Build_SettingsConfig None 10 "info" "json" "table" "" [] [] (Build_GitLabSettingsConfig "" "" "oauth" 30 (30 # 1) 50 3 500 30000)
       (Build_LicenseSettingsConfig "" "" "" "" ""))
    (Build_TargetSelectors None None)
    (Build_PoliciesConfig None [Build_ProtectedBranchRuleConfig "main" [Build_BranchAccessDescription 40 0 0 "" "" 0] [] [] None None] None None
       (Some (Build_ApprovalRulesConfig None None None [demo_gate approvals] None)) None (Some (Build_PipelineRetentionConfig 30)) [] None None [] None None [] []).

Lemma demo_checked_undisputed approvals : approvals <> 0 -> undisputed (demo_checked approvals).
Proof.
  intros Ha. split; unfold opt_all, lower_case; try (intros ? [= <-]); cbn; split_and?; try done; try lia; try (by left).
  all: try (by intros ? [=]).
  - intros [_ H]. by vm_compute in H.
  - by repeat constructor.
Qed.

Lemma Validate_exact_witness :
  policy_wf (demo_checked 2) /\ schema_ok (demo_checked 2) /\ ~ policy_wf (demo_checked (-1)).
Proof.
  destruct (Validate_exact (demo_checked 2) (demo_checked_undisputed 2 ltac:(lia))) as [[H1 _] H2].
  destruct (Validate_exact (demo_checked (-1)) (demo_checked_undisputed (-1) ltac:(lia))) as [[_ H3] _].
  split_and!; [apply H1; by vm_compute|apply H2; by vm_compute|]. intros H4. specialize (H3 H4). vm_compute in H3. discriminate.
Defined.

(** Where they differ: the schema allows a rule that asks for no approval, and
    the code refuses it; the code takes any version and any concurrency, and the
    schema does not. *)
Example schema_disputes :
  Validate (Some (demo_checked 0)) <> [] /\ schema_ok (demo_checked 0) /\
  Validate (Some zero_Policy) = [] /\ ~ schema_ok zero_Policy.
Proof.
  split_and!; [done| |done|].
  - unfold schema_ok, schema_settings_ok, schema_policies_ok, enum_ok, opt_all.
    split_and!; try (intros ? [= <-]); cbn; split_and?; try done; try lia; try set_solver.
    all: try (by right); try (by intros ? [=]).
    all: by repeat constructor.
  - intros (Hv & _). cbn in Hv. set_solver.
Qed.

End Demo.
