(* ===== verification/Loader.v ===== *)
(** * Loading a policy: internal/config/{loader,s3,unmarshal,config}.go

    The four stages of [config.Load]: find the source, substitute the
    environment, decode strictly, validate.  The file system, standard input
    and the S3 client are calls of a [prog]; the YAML decoder is the class
    [GoYAML].  The environment is read through the loader's lookup function,
    which does not change while a file is loaded. *)

From Stdlib Require Import QArith.
From S2P Require Import Prelude GoLib Config EnvSubst Validator.
Local Open Scope string_scope.
Local Open Scope list_scope.
Local Open Scope Z_scope.

(** ** The outside world *)

Abbreviation file := Z (only parsing).

Variant LoadE : Type -> Type :=
| OsStat (name : string) : LoadE (option error)
| OsReadFile (name : string) : LoadE (error + string)
| OsOpen (name : string) : LoadE (error + file)
| FileIsRegular (f : file) : LoadE (error + bool)
| FileReadLimit (f : file) (limit : Z) : LoadE (error + string)
| FileClose (f : file) : LoadE unit
| StdinReadAll : LoadE (error + string)
| S3LoadDefaultConfig : LoadE (option error)
| S3GetObject (bucket key : string) : LoadE (error + file)
| S3ReadAll (body : file) : LoadE (error + string)
| S3Close (body : file) : LoadE unit.

(** What one [decoder.Decode] yields: [io.EOF], another error, or a value. *)
Inductive decoded (A : Type) : Type :=
| DecEOF
| DecErr (e : error)
| DecOk (a : A).
Arguments DecEOF {A}.
Arguments DecErr {A} e.
Arguments DecOk {A} a.

(** [gopkg.in/yaml.v3] with [KnownFields(true)]: the first and the second
    document of a stream. *)
Class GoYAML : Type := {
  yaml_Decode : string -> decoded PolicyConfig;
  yaml_DecodeNext : string -> decoded unit
}.

(** ** s3.go *)

Record S3URI : Type := { s3_Bucket : string; s3_Key : string }.

(** [strings.SplitN(s, "/", 2)]. *)
Fixpoint cutSlash (s : string) : option (string * string) :=
  match s with
  | "" => None
  | String c rest =>
      if (c =? "/")%char then Some ("", rest)
      else match cutSlash rest with
           | Some (a, b) => Some (String c a, b)
           | None => None
           end
  end.

Definition ParseS3URI (rawURI : string) : error + S3URI :=
  if negb (HasPrefix rawURI "s3://") then
    inl (ErrNew ("invalid S3 URI '" +:+ rawURI +:+ "': must begin with 's3://'"))
  else
    let trimmed := TrimPrefix rawURI "s3://" in
    let bad := inl (ErrNew ("invalid S3 URI '" +:+ rawURI +:+ "': expected format s3://<bucket>/<key>")) in
    match cutSlash trimmed with
    | None => bad
    | Some (bucket, key) =>
        if (bucket =? "")%string || (key =? "")%string then bad
        else inr {| s3_Bucket := bucket; s3_Key := key |}
    end.

(** ** loader.go *)

Definition DefaultCandidateFiles : list string :=
  ["gitlab-fleet-governor.yaml"; "gitlab-fleet-governor.yml"; "gitlab-fleet-governor.json";
   ".gitlab-fleet-governor.yaml"; ".gitlab-fleet-governor.yml"; ".gitlab-fleet-governor.json";
   "config.yaml"; "config.yml"; "config.json"].

(** [l_s3Client] says whether a client was injected: a loader reads at most
    one source, so [s3InitOnce] runs at most once. *)
Record Loader : Type := {
  l_stdin : bool;
  l_lookupEnv : EnvLookupFunc;
  l_s3Client : bool
}.

Abbreviation LP := (prog LoadE) (only parsing).

Definition wrap (pre : string) (e : error) : error := ErrWrap (pre +:+ ": ") e.

Definition errEmpty : error := ErrNew "empty configuration content".

Definition getOrInitS3Client (l : Loader) : LP (option error) :=
  if l_s3Client l then mret None
  else
    r ← call S3LoadDefaultConfig;
    mret (match r with
          | Some e => Some (wrap "failed to load AWS configuration for S3" e)
          | None => None
          end).

Definition readFromS3 (l : Loader) (rawURI : string) : LP (error + string) :=
  match ParseS3URI rawURI with
  | inl e => mret (inl e)
  | inr u =>
      c ← getOrInitS3Client l;
      match c with
      | Some e => mret (inl (wrap "failed to initialize AWS S3 client" e))
      | None =>
          out ← call (S3GetObject (s3_Bucket u) (s3_Key u));
          match out with
          | inl e => mret (inl (wrap ("failed to fetch config from S3 URI '" +:+ rawURI +:+ "'") e))
          | inr body =>
              data ← call (S3ReadAll body);
              _ ← call (S3Close body);
              mret (match data with
                    | inl e => inl (wrap ("failed to read S3 object payload from '" +:+ rawURI +:+ "'") e)
                    | inr d => inr d
                    end)
          end
      end
  end.

Definition maxConfigFileSize : Z := 10 * 1024 * 1024.

(** The part of [readFromSource] that has the file open; the caller closes. *)
Definition readOpenFile (cleanPath : string) (f : file) : LP (error + string) :=
  st ← call (FileIsRegular f);
  match st with
  | inl e => mret (inl (wrap ("failed to stat configuration file '" +:+ cleanPath +:+ "'") e))
  | inr false =>
      mret (inl (ErrNew ("invalid configuration file '" +:+ cleanPath +:+ "': must be a regular file")))
  | inr true =>
      data ← call (FileReadLimit f (maxConfigFileSize + 1));
      mret (match data with
            | inl e => inl (wrap ("failed to read configuration file '" +:+ cleanPath +:+ "'") e)
            | inr d =>
                if maxConfigFileSize <? Z.of_nat (String.length d) then
                  inl (ErrNew ("configuration file '" +:+ cleanPath +:+ "' exceeds maximum allowed size ("
                                 +:+ Itoa maxConfigFileSize +:+ " bytes)"))
                else inr d
            end)
  end.

Definition readFromSource (l : Loader) (source : string) : LP (error + string) :=
  if (source =? "-")%string then
    if negb (l_stdin l) then mret (inl (ErrNew "standard input reader is nil"))
    else
      data ← call StdinReadAll;
      mret (match data with
            | inl e => inl (wrap "failed to read configuration from standard input" e)
            | inr d => inr d
            end)
  else if HasPrefix source "s3://" then readFromS3 l source
  else
    let cleanPath := path_Clean source in
    if existsb (Ascii.eqb "000"%char) (String.list_ascii_of_string cleanPath) then
      mret (inl (ErrNew "invalid configuration path: contains null byte"))
    else
      f ← call (OsOpen cleanPath);
      match f with
      | inl e => mret (inl (wrap ("failed to open configuration file '" +:+ cleanPath +:+ "'") e))
      | inr f =>
          r ← readOpenFile cleanPath f;
          _ ← call (FileClose f);
          mret r
      end.

(** [len(bytes.TrimSpace(data)) == 0], after the read. *)
Definition nonEmpty (r : error + string) : error + string :=
  match r with
  | inr d => if (TrimSpace d =? "")%string then inl errEmpty else inr d
  | inl e => inl e
  end.

(** The first variable of [keys] that is set to something not blank. *)
Fixpoint firstEnv (lookup : EnvLookupFunc) (keys : list string) : option (string * string) :=
  match keys with
  | [] => None
  | k :: rest =>
      match lookup k with
      | Some val => if negb (TrimSpace val =? "")%string then Some (k, val) else firstEnv lookup rest
      | None => firstEnv lookup rest
      end
  end.

Definition errNoSource : error :=
  ErrNew "no configuration source provided: specify via --config, CONFIG_* environment variables, or create a config.yaml in the working directory".

Fixpoint loadCandidate (candidates : list string) : LP ((error + string) * string) :=
  match candidates with
  | [] => mret (inl errNoSource, "")
  | candidate :: rest =>
      st ← call (OsStat candidate);
      match st with
      | Some _ => loadCandidate rest
      | None =>
          data ← call (OsReadFile candidate);
          match data with
          | inl e => mret (inl (wrap ("failed to read default config file '" +:+ candidate +:+ "'") e), "")
          | inr d => mret (nonEmpty (inr d), candidate)
          end
      end
  end.

Definition LoadRaw (l : Loader) (configPath : string) : LP ((error + string) * string) :=
  if negb (TrimSpace configPath =? "")%string then
    data ← readFromSource l (TrimSpace configPath);
    mret (nonEmpty data, configPath)
  else
    match firstEnv (l_lookupEnv l) ["CONFIG_CONTENT"; "CONFIG_YAML"; "CONFIG_JSON"] with
    | Some (envKey, val) => mret (nonEmpty (inr val), "env:" +:+ envKey)
    | None =>
        match firstEnv (l_lookupEnv l) ["CONFIG_SOURCE"; "CONFIG_FILE"] with
        | Some (envKey, val) =>
            let source := TrimSpace val in
            data ← readFromSource l source;
            mret (nonEmpty data, "env:" +:+ envKey +:+ "(" +:+ source +:+ ")")
        | None => loadCandidate DefaultCandidateFiles
        end
    end.

(** ** unmarshal.go *)

Definition UnmarshalStrict `{GoYAML} (data : string) : error + PolicyConfig :=
  let trimmed := TrimSpace data in
  if (trimmed =? "")%string then inl errEmpty
  else match yaml_Decode trimmed with
       | DecEOF => inl errEmpty
       | DecErr e => inl (wrap "configuration syntax or schema error" e)
       | DecOk target =>
           match yaml_DecodeNext trimmed with
           | DecOk _ => inl (ErrNew "unexpected extra data in configuration")
           | DecErr e => inl (wrap "unexpected extra data in configuration" e)
           | DecEOF => inr target
           end
       end.

(** ** config.go *)

(** [Validate]'s error is the list [ValidationErrors] itself. *)
Inductive LoadError : Type :=
| LoadErr (e : error)
| LoadInvalid (pre : string) (errs : list ValidationError).

Section Load.
Context `{GoRegexp} `{GoURL} `{GoYAML}.

(** Stages 2 to 4, which [Load] and [LoadFromBytes] share but for their error
    texts.  [None] is only for a substitution out of fuel, which
    [ExpandEnv_terminates] excludes. *)
Definition loadStages (inSource : string) (skipValidate : bool) (lookup : EnvLookupFunc)
    (raw : string) : option (LoadError + PolicyConfig) :=
  match ExpandEnvWithLookup raw lookup with
  | None => None
  | Some (inl e) => Some (inl (LoadErr (wrap ("config env substitution error" +:+ inSource) e)))
  | Some (inr expanded) =>
      match UnmarshalStrict expanded with
      | inl e => Some (inl (LoadErr (wrap ("config unmarshal error" +:+ inSource) e)))
      | inr decoded =>
          let cfg := Policy_SetDefaults decoded in
          if negb skipValidate then
            match Validate (Some cfg) with
            | [] => Some (inr cfg)
            | errs => Some (inl (LoadInvalid ("config validation error" +:+ inSource) errs))
            end
          else Some (inr cfg)
      end
  end.

Definition Load (l : Loader) (skipValidate : bool) (configPath : string)
  : LP (option (LoadError + PolicyConfig) * string) :=
  '(raw, sourceDesc) ← LoadRaw l configPath;
  match raw with
  | inl e => mret (Some (inl (LoadErr (wrap "config load error" e))), sourceDesc)
  | inr rawBytes =>
      mret (loadStages (" in source '" +:+ sourceDesc +:+ "'") skipValidate (l_lookupEnv l) rawBytes,
            sourceDesc)
  end.

Definition LoadFromBytes (lookup : EnvLookupFunc) (data : string)
  : option (LoadError + PolicyConfig) := loadStages "" false lookup data.

End Load.

(** ** Lemmas *)

Definition no_slash : string -> bool := string_all (fun c => negb (c =? "/")%char).

Lemma cutSlash_app a b : no_slash a = true -> cutSlash (a +:+ "/" +:+ b) = Some (a, b).
Proof.
  unfold no_slash. induction a as [|c a IH]; intros Ha; [done|].
  rewrite string_app_cons. cbn [cutSlash]. rewrite string_all_cons in Ha. b2p.
  by rewrite H, IH.
Qed.

Lemma cutSlash_Some s a b :
  cutSlash s = Some (a, b) -> s = a +:+ "/" +:+ b /\ no_slash a = true.
Proof.
  revert a. induction s as [|c s IH]; intros a; cbn [cutSlash]; [done|].
  destruct (c =? "/")%char eqn:Hc.
  - intros [= <- <-]. apply Ascii.eqb_eq in Hc as ->. done.
  - destruct (cutSlash s) as [[a' b']|]; [|done]. intros [= <- <-].
    destruct (IH a') as [-> Ha]; [done|]. unfold no_slash in *.
    by rewrite string_all_cons, Hc, Ha.
Qed.

(** The settings the engine runs with: nothing unset, nothing zero. *)
Definition settings_effective (s : SettingsConfig) : Prop :=
  is_Some (st_DryRun s) /\ 0 < st_Concurrency s /\
  st_LogLevel s <> "" /\ st_LogFormat s <> "" /\ st_ReportFormat s <> "" /\
  gl_BaseURL (st_GitLab s) <> "" /\ gl_TokenType (st_GitLab s) <> "" /\
  0 < gl_TimeoutSeconds (st_GitLab s) /\ (0 < gl_RateLimitRPS (st_GitLab s))%Q /\
  0 < gl_RateLimitBurst (st_GitLab s) /\ 0 < gl_MaxRetries (st_GitLab s) /\
  0 < gl_RetryBaseDelayMs (st_GitLab s) <= gl_RetryMaxDelayMs (st_GitLab s).

#[local] Hint Resolve or_string_ne or_positive_pos : core.

Lemma SetDefaults_effective s :
  settings_wf (Settings_SetDefaults s) -> settings_effective (Settings_SetDefaults s).
Proof.
  intros (_ & _ & _ & _ & Hg). destruct Hg as (_ & _ & _ & _ & _ & _ & _ & Hr).
  unfold settings_effective. cbn in *. split_and!; try by eauto with lia.
  - by destruct (st_DryRun s).
  - destruct (Qle_bool _ 0) eqn:E; [done|]. apply Qnot_le_lt. intros Hq.
    apply Qle_bool_iff in Hq. congruence.
Qed.

(** Every way [loadStages] succeeds. *)
Lemma loadStages_inr `{GoRegexp} `{GoURL} `{GoYAML} src skip lookup raw cfg :
  loadStages src skip lookup raw = Some (inr cfg) ->
  exists d, cfg = Policy_SetDefaults d /\ (skip = false -> Validate (Some cfg) = []).
Proof.
  unfold loadStages. intros Hl. destruct skip; simpl in Hl; repeat case_match; simplify_eq;
    eexists; (split; [done|]); done.
Qed.

Lemma loadStages_total `{GoRegexp} `{GoURL} `{GoYAML} src skip lookup raw :
  is_Some (loadStages src skip lookup raw).
Proof.
  unfold loadStages. destruct (ExpandEnvWithLookup_total raw lookup) as [x ->].
  repeat case_match; eauto.
Qed.

Lemma firstEnv_nonblank lookup keys k v : firstEnv lookup keys = Some (k, v) -> TrimSpace v <> "".
Proof.
  induction keys as [|x keys IH]; simpl; [done|].
  destruct (lookup x) as [val|]; [|done]. destruct (String.eqb_spec (TrimSpace val) ""); [done|].
  by intros [= <- <-].
Qed.

(** The descriptors a call opens and closes. *)
Definition opened_after {X} (e : LoadE X) : X -> gset Z -> gset Z :=
  match e with
  | OsOpen _ | S3GetObject _ _ => fun r s => match r with inr f => {[f]} ∪ s | inl _ => s end
  | FileClose f | S3Close f => fun _ s => s ∖ {[f]}
  | _ => fun _ s => s
  end.

(** A world with descriptors: what is open changes as the calls say, and a new
    descriptor is none of the open ones. *)
Record file_laws {W} (h : handler LoadE W) (opened : W -> gset Z) : Prop := {
  fl_opened : forall X (e : LoadE X) w,
    opened (h X e w).2 = opened_after e (h X e w).1 (opened w);
  fl_fresh_file : forall n w f, (h _ (OsOpen n) w).1 = inr f -> f ∉ opened w;
  fl_fresh_body : forall b k w f, (h _ (S3GetObject b k) w).1 = inr f -> f ∉ opened w
}.

Section Descriptors.
Context {W : Type} (h : handler LoadE W) (opened : W -> gset Z) (laws : file_laws h opened).

Definition keeps_open {A} (p : LP A) : Prop := forall w, opened (run h p w).2 = opened w.

Lemma keeps_ret {A} (a : A) : keeps_open (mret a).
Proof using Type. by intros w. Qed.

Lemma keeps_call {A X} (e : LoadE X) (k : X -> LP A) :
  (forall x s, opened_after e x s = s) -> (forall x, keeps_open (k x)) ->
  keeps_open (x ← call e; k x).
Proof using laws.
  intros He Hk w. autorewrite with prog. pose proof (fl_opened _ _ laws _ e w) as Ho.
  destruct (h X e w) as [x w']. rewrite (Hk x w'). simpl in Ho. by rewrite Ho, He.
Qed.

Lemma keeps_bind {A B} (p : LP A) (f : A -> LP B) :
  keeps_open p -> (forall a, keeps_open (f a)) -> keeps_open (p ≫= f).
Proof using Type.
  intros Hp Hf w. rewrite run_bind. specialize (Hp w). destruct (run h p w) as [a w'].
  by rewrite (Hf a w').
Qed.

Lemma readOpenFile_keeps path f : keeps_open (readOpenFile path f).
Proof using laws.
  unfold readOpenFile. apply keeps_call; [done|]. intros [e|[]]; try apply keeps_ret.
  apply keeps_call; [done|]. intros. apply keeps_ret.
Qed.

Lemma readFromS3_keeps l uri : keeps_open (readFromS3 l uri).
Proof using laws.
  unfold readFromS3. destruct (ParseS3URI uri) as [e|u]; [apply keeps_ret|].
  apply keeps_bind.
  { unfold getOrInitS3Client. destruct (l_s3Client l); [apply keeps_ret|].
    apply keeps_call; [done|]. intros. apply keeps_ret. }
  intros [e|]; [apply keeps_ret|]. intros w. autorewrite with prog.
  pose proof (fl_opened _ _ laws _ (S3GetObject (s3_Bucket u) (s3_Key u)) w) as Ho.
  pose proof (fl_fresh_body _ _ laws (s3_Bucket u) (s3_Key u) w) as Hf.
  destruct (h _ _ w) as [[e|f] w1]; simpl in Ho, Hf; [done|]. specialize (Hf f eq_refl).
  pose proof (fl_opened _ _ laws _ (S3ReadAll f) w1) as H1. autorewrite with prog.
  destruct (h _ (S3ReadAll f) w1) as [d w2]. simpl in H1. autorewrite with prog.
  pose proof (fl_opened _ _ laws _ (S3Close f) w2) as H2.
  destruct (h _ (S3Close f) w2) as [u' w3]. simpl in *. set_solver.
Qed.

Lemma readFromSource_keeps l source : keeps_open (readFromSource l source).
Proof using laws.
  unfold readFromSource. destruct (source =? "-")%string.
  { destruct (negb (l_stdin l)); [apply keeps_ret|]. apply keeps_call; [done|].
    intros. apply keeps_ret. }
  destruct (HasPrefix source "s3://"); [apply readFromS3_keeps|].
  destruct (existsb _ _); [apply keeps_ret|]. intros w. autorewrite with prog.
  pose proof (fl_opened _ _ laws _ (OsOpen (path_Clean source)) w) as Ho.
  pose proof (fl_fresh_file _ _ laws (path_Clean source) w) as Hf.
  destruct (h _ _ w) as [[e|f] w1]; simpl in Ho, Hf; [done|]. specialize (Hf f eq_refl).
  autorewrite with prog. pose proof (readOpenFile_keeps (path_Clean source) f w1) as H1.
  destruct (run h (readOpenFile _ _) w1) as [d w2]. simpl in H1. autorewrite with prog.
  pose proof (fl_opened _ _ laws _ (FileClose f) w2) as H2.
  destruct (h _ (FileClose f) w2) as [u' w3]. simpl in *. set_solver.
Qed.

Lemma loadCandidate_keeps l : keeps_open (loadCandidate l).
Proof using laws.
  induction l as [|c l IH]; [apply keeps_ret|]. apply keeps_call; [done|].
  intros [e|]; [done|]. apply keeps_call; [done|]. intros [e|d]; apply keeps_ret.
Qed.

End Descriptors.

(** ** A concrete world *)

(** A file system with one configuration file and a counter of descriptors. *)
Definition demo_fs : handler LoadE (Z * gset Z) := fun X e w =>
  let '(next, s) := w in
  match e in LoadE X return X * (Z * gset Z) with
  | OsStat n => (if (n =? "config.yaml")%string then None else Some (ErrNew "no such file"), w)
  | OsReadFile n => (inr "version: 1", w)
  | OsOpen n => if (n =? "config.yaml")%string
                then (inr (fresh s), (next + 1, {[fresh s]} ∪ s)) else (inl (ErrNew "no such file"), w)
  | FileIsRegular f => (inr true, w)
  | FileReadLimit f n => (inr "version: 1", w)
  | FileClose f => (tt, (next, s ∖ {[f]}))
  | StdinReadAll => (inr "version: 1", w)
  | S3LoadDefaultConfig => (None, w)
  | S3GetObject b k => (inr (fresh s), (next + 1, {[fresh s]} ∪ s))
  | S3ReadAll f => (inl (ErrNew "connection reset"), w)
  | S3Close f => (tt, (next, s ∖ {[f]}))
  end.

Lemma demo_fs_laws : file_laws demo_fs snd.
Proof.
  split.
  - intros X e [n s]. destruct e; simpl; try case_match; done.
  - intros n [k s] f. simpl. case_match; [intros [= <-]; apply is_fresh|done].
  - intros b n [k s] f. simpl. intros [= <-]. apply is_fresh.
Qed.

Definition demo_loader : Loader := {| l_stdin := true; l_lookupEnv := fun _ => None; l_s3Client := false |}.

(** Engines for concrete runs: every pattern compiles and matches itself, a
    URL is anything with a scheme, and every document is the empty policy. *)
Definition demo_regexp : GoRegexp := {| regexp_Compile := fun p => inr (String.eqb p) |}.
Definition demo_url : GoURL := {| url_ParseRequestURI := fun u =>
  if HasPrefix u "https://" then Some ("https", "example.com") else None |}.
Definition demo_yaml : GoYAML := {|
  yaml_Decode := fun d => DecOk zero_Policy;
  yaml_DecodeNext := fun d => DecEOF |}.

(** ** Properties *)

(** C36. [config.Load] always answers, and a configuration it returns is valid
    and ready to run: the whole specification of the validator holds of the
    policy after defaults, and no setting the engine uses is left unset or
    zero. *)
Theorem Load_valid `{GoRegexp} `{GoURL} `{GoYAML} {W} (h : handler LoadE W) l skip path w :
  exists r desc, (run h (Load l skip path) w).1 = (Some r, desc) /\
    forall cfg, skip = false -> r = inr cfg ->
      policy_wf cfg /\ settings_effective (cfg_Settings cfg).
Proof.
  unfold Load. rewrite run_bind. destruct (run h (LoadRaw l path) w) as [[raw desc] w'].
  destruct raw as [e|raw]; rewrite run_ret; [by eexists _, _|].
  destruct (loadStages_total (" in source '" +:+ desc +:+ "'") skip (l_lookupEnv l) raw) as [r Hr].
  cbn [fst]. rewrite Hr. eexists _, _. split; [done|]. intros cfg -> ->.
  destruct (loadStages_inr _ _ _ _ _ Hr) as (d & -> & Hv).
  specialize (Hv eq_refl). apply Validate_nil in Hv.
  split; [done|]. apply SetDefaults_effective. apply Hv.
Qed.

Lemma Load_valid_witness :
  policy_wf (H := demo_regexp) (H0 := demo_url) (Policy_SetDefaults zero_Policy) /\
  settings_effective (cfg_Settings (Policy_SetDefaults zero_Policy)).
Proof.
  destruct (Load_valid (H := demo_regexp) (H0 := demo_url) (H1 := demo_yaml)
              demo_fs demo_loader false "config.yaml" (0, ∅)) as (r & d & Hr & Hv).
  apply Hv; [done|]. vm_compute in Hr. by injection Hr.
Defined.

(** Loading leaks no descriptor: in a world that hands out fresh
    descriptors, what is open after [LoadRaw] is what was open before it,
    whichever source is read and whatever fails on the way. *)
Theorem LoadRaw_closes {W} (h : handler LoadE W) (opened : W -> gset Z)
    (laws : file_laws h opened) l path w :
  opened (run h (LoadRaw l path) w).2 = opened w.
Proof.
  unfold LoadRaw. revert w. change (keeps_open h opened (LoadRaw l path)). unfold LoadRaw.
  destruct (negb _).
  { apply keeps_bind; [by apply readFromSource_keeps|]. intros. apply keeps_ret. }
  destruct (firstEnv _ _) as [[k v]|]; [apply keeps_ret|].
  destruct (firstEnv _ _) as [[k v]|]; [|by apply loadCandidate_keeps].
  apply keeps_bind; [by apply readFromSource_keeps|]. intros. apply keeps_ret.
Qed.

Lemma LoadRaw_closes_witness :
  (run demo_fs (LoadRaw demo_loader "s3://bucket/key") (0, {[7]})).2.2 = {[7]} /\
  (run demo_fs (LoadRaw demo_loader "config.yaml") (0, {[7]})).2.2 = {[7]}.
Proof. split; apply (LoadRaw_closes demo_fs snd demo_fs_laws). Defined.

(** [ParseS3URI] accepts exactly [s3://bucket/key] with a non-empty bucket
    that holds no slash and a non-empty key, and splits it there. *)
Theorem ParseS3URI_iff (uri : string) (u : S3URI) :
  ParseS3URI uri = inr u <->
  uri = "s3://" +:+ s3_Bucket u +:+ "/" +:+ s3_Key u /\
  no_slash (s3_Bucket u) = true /\ s3_Bucket u <> "" /\ s3_Key u <> "".
Proof.
  unfold ParseS3URI. split.
  - destruct (HasPrefix uri "s3://") eqn:Hp; [|done]. apply HasPrefix_spec in Hp as [r ->].
    rewrite TrimPrefix_app. simpl negb. cbv iota.
    destruct (cutSlash r) as [[b k]|] eqn:Hc; [|done].
    apply cutSlash_Some in Hc as [-> Hb].
    destruct (String.eqb_spec b ""), (String.eqb_spec k ""); simpl; try done.
    intros [= <-]. done.
  - intros (-> & Hb & Hb0 & Hk0).
    assert (HasPrefix ("s3://" +:+ s3_Bucket u +:+ "/" +:+ s3_Key u) "s3://" = true) as ->
      by (apply HasPrefix_spec; by eexists).
    rewrite TrimPrefix_app, cutSlash_app by done. simpl negb. cbv iota.
    destruct u as [b k]. simpl in *.
    by destruct (String.eqb_spec b ""), (String.eqb_spec k "").
Qed.
