(* ===== verification/Auth.v ===== *)
(** * Credentials: internal/gitlab/auth.go

    [ResolveAuth] finds the endpoint and the token of the client: in the
    configuration or in the environment, in a fixed order.  The URL parser is
    that of [net/url] ([GoURL]).  [ResolveAuth_exact] says which of the sources
    wins and which URLs are refused; [ResolveAuth_ignores_token_kind] shows what the defaults of the
    configuration do to the tokens of the environment. *)

From S2P Require Import Prelude GoLib Config EnvSubst Loader.
Local Open Scope string_scope.
Local Open Scope list_scope.
Local Open Scope Z_scope.

Definition TokenTypePrivate : string := "private_token".
Definition TokenTypeOAuth : string := "oauth".
Definition TokenTypeJob : string := "job_token".
Definition DefaultGitLabBaseURL : string := "https://gitlab.com/api/v4".

Record ResolvedAuth : Type := {
  ra_BaseURL : string;
  ra_Token : string;
  ra_TokenType : string;
  ra_SourceToken : string;
  ra_SourceBaseURL : string
}.

(** [val, ok := lookupFn(name); ok && strings.TrimSpace(val) != ""]: the value
    without the white space around it. *)
Definition env_value (lookup : string -> option string) (name : string) : option string :=
  match lookup name with
  | Some v => if (TrimSpace v =? "")%string then None else Some (TrimSpace v)
  | None => None
  end.

(** The first of the variables that has a value, with what goes with it. *)
Fixpoint first_set {A} (lookup : string -> option string) (names : list (string * A)) : option (string * string * A) :=
  match names with
  | [] => None
  | (name, a) :: rest =>
      match env_value lookup name with Some v => Some (v, name, a) | None => first_set lookup rest end
  end.

(** The base URL, before its slashes are stripped, and where it is from. *)
Definition resolveBaseURL (cfg : option GitLabSettingsConfig) (lookup : string -> option string) : string * string :=
  let configured := match cfg with Some c => gl_BaseURL c | None => "" end in
  if negb (configured =? "")%string && negb (configured =? DefaultGitLabBaseURL)%string then (configured, "config")
  else match first_set lookup [("GITLAB_BASE_URL", tt); ("CI_API_V4_URL", tt)] with
       | Some (v, name, _) => (v, name)
       | None => if negb (configured =? "")%string then (configured, "config_default")
                 else (DefaultGitLabBaseURL, "default")
       end.

(** The variables that may hold a token, in order, with the type they imply. *)
Definition token_variables : list (string * string) :=
  [("PRIVATE_TOKEN", TokenTypePrivate); ("GITLAB_TOKEN", TokenTypePrivate); ("OAUTH_TOKEN", TokenTypeOAuth);
   ("GITLAB_OAUTH_TOKEN", TokenTypeOAuth); ("CI_JOB_TOKEN", TokenTypeJob)].

(** Token, source and type; no token is the empty one. *)
Definition resolveToken (cfg : option GitLabSettingsConfig) (lookup : string -> option string) : string * string * string :=
  let configured := match cfg with Some c => TrimSpace (gl_Token c) | None => "" end in
  if negb (configured =? "")%string then (configured, "config", TokenTypePrivate)
  else default ("", "", TokenTypePrivate) (first_set lookup token_variables).

(** A token type of the configuration overrides that of the source. *)
Definition effectiveType (cfg : option GitLabSettingsConfig) (implied : string) : string :=
  match cfg with
  | Some c => if (gl_TokenType c =? "")%string then implied else ToLower (gl_TokenType c)
  | None => implied
  end.

Section Resolve.
Context `{GoURL}.

Definition validBaseURL (u : string) : bool :=
  match url_ParseRequestURI u with
  | Some (scheme, _) => (scheme =? "http")%string || (scheme =? "https")%string
  | None => false
  end.

Definition ResolveAuth (cfg : option GitLabSettingsConfig) (lookup : string -> option string) : error + ResolvedAuth :=
  let '(rawURL, sourceURL) := resolveBaseURL cfg lookup in
  let baseURL := TrimRight "/" rawURL in
  if negb (validBaseURL baseURL)
  then inl (ErrNew ("invalid GitLab base URL '" +:+ baseURL +:+ "': must be a valid http or https URL"))
  else
    let '(token, sourceToken, implied) := resolveToken cfg lookup in
    if (token =? "")%string
    then inl (ErrNew "no GitLab authentication token found: please set settings.gitlab.token in config, or export PRIVATE_TOKEN, GITLAB_TOKEN, OAUTH_TOKEN, or CI_JOB_TOKEN")
    else
      let tokenType := effectiveType cfg implied in
      if bool_decide (tokenType ∈ [TokenTypePrivate; TokenTypeOAuth; TokenTypeJob])
      then inr {| ra_BaseURL := baseURL; ra_Token := token; ra_TokenType := tokenType; ra_SourceToken := sourceToken;
                  ra_SourceBaseURL := sourceURL |}
      else inl (ErrNew ("unsupported token type '" +:+ tokenType +:+ "': must be 'private_token', 'oauth', or 'job_token'")).

End Resolve.

(** [setAuthHeader] of the two GraphQL services of client.go: the header and
    its value. *)
Definition setAuthHeader (tokenType token : string) : string * string :=
  if (tokenType =? TokenTypeOAuth)%string then ("Authorization", "Bearer " +:+ token)
  else if (tokenType =? TokenTypeJob)%string then ("JOB-TOKEN", token)
  else ("PRIVATE-TOKEN", token).

(** ** Specification *)

(** [v] is the value of the first variable of [names] that has one. *)
Inductive first_of {A} (lookup : string -> option string) (names : list (string * A)) : string -> string -> A -> Prop :=
| first_of_intro before name a after v :
    names = before ++ (name, a) :: after ->
    Forall (fun x => env_value lookup x.1 = None) before ->
    env_value lookup name = Some v ->
    first_of lookup names v name a.

Definition configured_url (cfg : option GitLabSettingsConfig) : string := match cfg with Some c => gl_BaseURL c | None => "" end.
Definition configured_token (cfg : option GitLabSettingsConfig) : string :=
  match cfg with Some c => TrimSpace (gl_Token c) | None => "" end.

Definition url_variables : list (string * unit) := [("GITLAB_BASE_URL", tt); ("CI_API_V4_URL", tt)].

(** Where the endpoint comes from: a configured one that is not the default,
    then the environment, then the default. *)
Inductive url_from (cfg : option GitLabSettingsConfig) (lookup : string -> option string) : string -> string -> Prop :=
| url_from_config : configured_url cfg <> "" -> configured_url cfg <> DefaultGitLabBaseURL ->
    url_from cfg lookup (configured_url cfg) "config"
| url_from_env v name : configured_url cfg = "" \/ configured_url cfg = DefaultGitLabBaseURL ->
    first_of lookup url_variables v name tt -> url_from cfg lookup v name
| url_from_default : configured_url cfg = "" \/ configured_url cfg = DefaultGitLabBaseURL ->
    Forall (fun x => env_value lookup x.1 = None) url_variables ->
    url_from cfg lookup DefaultGitLabBaseURL (if (configured_url cfg =? "")%string then "default" else "config_default").

(** Where the token comes from, and the type that implies. *)
Inductive token_from (cfg : option GitLabSettingsConfig) (lookup : string -> option string) : string -> string -> string -> Prop :=
| token_from_config : configured_token cfg <> "" ->
    token_from cfg lookup (configured_token cfg) "config" TokenTypePrivate
| token_from_env v name kind : configured_token cfg = "" ->
    first_of lookup token_variables v name kind -> token_from cfg lookup v name kind.

(** ** Lemmas *)

Lemma env_value_nonempty lookup name v : env_value lookup name = Some v -> v <> "".
Proof. unfold env_value. destruct (lookup name); [|done]. case_match eqn:E; [done|]. intros [= <-]. by apply String.eqb_neq. Qed.

Lemma first_set_Some {A} lookup (names : list (string * A)) v n0 a0 :
  first_set lookup names = Some (v, n0, a0) <-> first_of lookup names v n0 a0.
Proof.
  split.
  - induction names as [|[n b] names IH]; simpl; [done|]. destruct (env_value lookup n) as [w|] eqn:E.
    + intros [= -> -> ->]. by apply (first_of_intro _ _ [] _ _ names).
    + intros Hf. destruct (IH Hf) as [before n' a' after v' Hn Hb Hv].
      apply (first_of_intro _ _ ((n, b) :: before) _ _ after); [by rewrite Hn|by constructor|done].
  - intros [before n a' after w -> Hb Hv]. induction Hb as [|[n' b'] before Hn _ IH]; simpl in *; [by rewrite Hv|by rewrite Hn].
Qed.

Lemma first_set_None {A} lookup (names : list (string * A)) :
  first_set lookup names = None <-> Forall (fun x => env_value lookup x.1 = None) names.
Proof.
  induction names as [|[n b] names IH]; simpl; [by split|]. rewrite Forall_cons. simpl.
  destruct (env_value lookup n); [naive_solver|rewrite IH; naive_solver].
Qed.

(** The test of the code for a configured URL that counts. *)
Lemma url_configured u :
  negb (u =? "")%string && negb (u =? DefaultGitLabBaseURL)%string = false <-> u = "" \/ u = DefaultGitLabBaseURL.
Proof. rewrite andb_false_iff, !negb_false_iff, !String.eqb_eq. done. Qed.

Lemma resolveBaseURL_iff cfg lookup u s : resolveBaseURL cfg lookup = (u, s) <-> url_from cfg lookup u s.
Proof.
  unfold resolveBaseURL. fold (configured_url cfg). fold url_variables. pose proof (url_configured (configured_url cfg)) as Hc.
  destruct (negb (configured_url cfg =? "")%string && _) eqn:E.
  - apply andb_true_iff in E as [H1%negb_true_iff%String.eqb_neq H2%negb_true_iff%String.eqb_neq].
    split; [by intros [= <- <-]; constructor|]. intros [| ? ? []|[]]; done.
  - apply proj1 in Hc. specialize (Hc eq_refl). destruct (first_set lookup url_variables) as [[[v n] []]|] eqn:Ef.
    + split; [by intros [= <- <-]; apply url_from_env, first_set_Some|]. intros [? ?|v' n' _ Hf|_ Hn].
      * by destruct Hc.
      * apply first_set_Some in Hf. congruence.
      * apply first_set_None in Hn. congruence.
    + pose proof (proj1 (first_set_None _ _) Ef) as Hn. split.
      * destruct (String.eqb_spec (configured_url cfg) "") as [He|He]; cbn [negb]; intros [= <- <-].
        -- pose proof (url_from_default cfg lookup Hc Hn) as Hu. by rewrite He in Hu.
        -- destruct Hc as [|Hd]; [done|]. pose proof (url_from_default cfg lookup (or_intror Hd) Hn) as Hu.
           by rewrite Hd in Hu |- *.
      * intros [? ?|v' n' _ Hf|_ _]; [by destruct Hc|apply first_set_Some in Hf; congruence|].
        destruct (String.eqb_spec (configured_url cfg) "") as [He|He]; cbn [negb]; [done|]. by destruct Hc as [| ->].
Qed.

Lemma resolveToken_iff cfg lookup v s k :
  v <> "" -> resolveToken cfg lookup = (v, s, k) <-> token_from cfg lookup v s k.
Proof.
  intros Hv. unfold resolveToken. fold (configured_token cfg).
  destruct (String.eqb_spec (configured_token cfg) "") as [He|He]; cbn [negb].
  - split.
    + destruct (first_set lookup token_variables) as [[[v' n] k']|] eqn:Ef; simpl; intros [= <- <- <-]; [|done].
      apply token_from_env; [done|]. by apply first_set_Some.
    + intros [?|? ? ? _ Hf%first_set_Some]; [done|by rewrite Hf].
  - split; [by intros [= <- <- <-]; constructor|]. by intros [|].
Qed.

Lemma token_from_nonempty cfg lookup v s k : token_from cfg lookup v s k -> v <> "".
Proof. intros [|? ? ? _ [? ? ? ? ? _ _ Hv]]; [done|by eapply env_value_nonempty]. Qed.

(** ** Properties *)

(** The credentials are those of the documented sources, in their order:
    [ResolveAuth] answers a token, its source and an endpoint exactly when the
    endpoint is the first one the sources give, without its last slashes and an
    http or https URL, the token is the first one the sources give, and its
    type, the configured one before the one the source implies, is a known
    one. *)
Theorem ResolveAuth_exact `{GoURL} cfg lookup ra :
  ResolveAuth cfg lookup = inr ra <->
  exists url kind,
    url_from cfg lookup url (ra_SourceBaseURL ra) /\ ra_BaseURL ra = TrimRight "/" url /\ validBaseURL (ra_BaseURL ra) = true /\
    token_from cfg lookup (ra_Token ra) (ra_SourceToken ra) kind /\
    ra_TokenType ra = effectiveType cfg kind /\ ra_TokenType ra ∈ [TokenTypePrivate; TokenTypeOAuth; TokenTypeJob].
Proof.
  unfold ResolveAuth. destruct (resolveBaseURL cfg lookup) as [u s] eqn:Eu. pose proof Eu as Eu'. apply resolveBaseURL_iff in Eu'.
  assert (forall u' s', url_from cfg lookup u' s' -> u' = u /\ s' = s) as Hu.
  { intros u' s' Hf%resolveBaseURL_iff. rewrite Eu in Hf. by injection Hf as -> ->. }
  destruct (resolveToken cfg lookup) as [[v src] k] eqn:Et.
  assert (forall v' s' k', token_from cfg lookup v' s' k' -> v' = v /\ s' = src /\ k' = k) as Ht.
  { intros v' s' k' Hf. pose proof (token_from_nonempty _ _ _ _ _ Hf) as Hn. apply (resolveToken_iff _ _ _ _ _ Hn) in Hf.
    rewrite Et in Hf. by injection Hf as -> -> ->. }
  split.
  - destruct (validBaseURL (TrimRight "/" u)) eqn:Ev; cbn [negb]; [|done].
    destruct (String.eqb_spec v "") as [|Hn]; [done|]. case_bool_decide as Hk; [|done]. intros [= <-]. exists u, k. simpl.
    split_and!; [done..| |done|done]. by apply resolveToken_iff.
  - intros (url & kind & Hf & Hb & Hv & Htok & Hty & Hin). destruct (Hu _ _ Hf) as [-> <-].
    pose proof (token_from_nonempty _ _ _ _ _ Htok) as Hn. destruct (Ht _ _ _ Htok) as (<- & <- & <-).
    rewrite <- Hb, Hv. cbn [negb]. rewrite (proj2 (String.eqb_neq _ _) Hn), <- Hty, bool_decide_eq_true_2 by done. by destruct ra.
Qed.

(** The defaults of the configuration undo what the environment says of a
    token: once they are applied, a policy that leaves the token type open
    makes every token a private one, an OAuth or a job token too. *)
Theorem ResolveAuth_ignores_token_kind `{GoURL} g lookup ra :
  gl_TokenType g = "" -> ResolveAuth (Some (GitLabSettings_SetDefaults g)) lookup = inr ra ->
  ra_TokenType ra = TokenTypePrivate.
Proof.
  intros Hg (u & k & _ & _ & _ & _ & Hk & _)%ResolveAuth_exact. rewrite Hk. unfold effectiveType. simpl. by rewrite Hg.
Qed.

(** ** Concrete credentials *)

#[local] Existing Instance demo_url.

Definition demo_ci_env (name : string) : option string :=
  if (name =? "OAUTH_TOKEN")%string then Some " glo-1 " else if (name =? "CI_JOB_TOKEN")%string then Some "job-1" else None.

Lemma ResolveAuth_exact_witness :
  exists url kind, url_from None demo_ci_env url "default" /\ token_from None demo_ci_env "glo-1" "OAUTH_TOKEN" kind /\
    kind = "oauth".
Proof.
  destruct (proj1 (ResolveAuth_exact (H := demo_url) None demo_ci_env {| ra_BaseURL := "https://gitlab.com/api/v4"; ra_Token := "glo-1";
    ra_TokenType := "oauth"; ra_SourceToken := "OAUTH_TOKEN"; ra_SourceBaseURL := "default" |}) ltac:(vm_compute; reflexivity))
    as (url & kind & Hu & _ & _ & Ht & Hk & _).
  exists url, kind. split_and!; [exact Hu|exact Ht|]. symmetry. exact Hk.
Defined.

Example ResolveAuth_ignores_token_kind_ex :
  match ResolveAuth (Some (GitLabSettings_SetDefaults zero_GitLabSettings)) demo_ci_env with
  | inr ra => (ra_Token ra, ra_TokenType ra) = ("glo-1", "private_token")
  | inl _ => False
  end.
Proof. vm_compute. reflexivity. Qed.
