(* ===== verification/Transport.v ===== *)
(** * The HTTP transport of the client: internal/gitlab/ratelimit.go

    [RoundTrip] sends a request, again and again while the answer is a rate
    limit, a server error or a broken connection, waiting in between.  The
    network, the clock, the limiter and the random source are calls; the fields
    that several requests share under a lock are set by calls too.  The body of a
    request is a reader that an attempt uses up.  Durations
    are [int64] nanoseconds with their wrap-around, [float64] is IEEE 754
    binary64 ([SpecFloat]), instants are nanoseconds since 1970.
    [RoundTrip_bounded] and [RoundTrip_frees] hold whatever the network does;
    [RoundTrip_exact] says what a request comes to when nothing cancels it. *)

From Stdlib Require Import SpecFloat QArith.
From S2P Require Import Prelude GoLib Config.
Local Open Scope string_scope.
Local Open Scope list_scope.
Local Open Scope Z_scope.


(** ** Durations and instants *)

Definition Millisecond : Z := 1000000.
Definition Second : Z := 1000000000.

(** [time.Time.Sub] saturates. *)
Definition sat64 (z : Z) : Z := Z.max (- 2 ^ 63) (Z.min z (2 ^ 63 - 1)).
Definition time_Sub (t u : Z) : Z := sat64 (t - u).

(** [http.ParseTime]: the instant of an HTTP date. *)
Class GoHTTPTime : Type := { http_ParseTime : string -> option Z }.

(** ** Floats *)

(** [float64(z)] and [time.Duration(f)]; what a conversion gives that does not
    fit is the implementation's choice. *)
Class GoConversion : Type := { float_overflow : spec_float -> Z }.

Definition float_of_int (z : Z) : spec_float := binary_normalize 53 1024 z 0 false.
Definition fmul : spec_float -> spec_float -> spec_float := SFmul 53 1024.
Definition fadd : spec_float -> spec_float -> spec_float := SFadd 53 1024.
Definition fsub : spec_float -> spec_float -> spec_float := SFsub 53 1024.
Definition fdiv : spec_float -> spec_float -> spec_float := SFdiv 53 1024.
Definition fle (a b : spec_float) : bool := SFleb a b.

Definition int_of_float `{GoConversion} (f : spec_float) : Z :=
  let fits v := (- 2 ^ 63 <=? v) && (v <? 2 ^ 63) in
  match f with
  | S754_zero _ => 0
  | S754_finite s m e =>
      let a := if 0 <=? e then Z.pos m * 2 ^ e else Z.pos m / 2 ^ (- e) in
      let v := if s then - a else a in
      if fits v then v else float_overflow f
  | _ => float_overflow f
  end.

(** [rand.Float64()]: [float64(r.Int63n(1<<53)) / (1<<53)]. *)
Definition rand_Float64 (k : Z) : spec_float := fdiv (float_of_int (k mod 2 ^ 53)) (float_of_int (2 ^ 53)).

(** ** Requests, answers and calls *)

Record http_Response : Type := { hr_StatusCode : Z; hr_Header : string -> string; hr_Body : Z }.

(** The error of a round trip, with what [errors.As] finds in its chain. *)
Record net_error : Type := { ne_err : error; ne_Timeout : bool; ne_OpError : bool }.

Record http_Request : Type := { rq_Body : option string; rq_GetBody : bool }.

Record RateLimitInfo : Type := { rl_Limit : Z; rl_Remaining : Z; rl_Reset : option Z; rl_ObservedAt : Z }.

(** By the contract of [http.RoundTripper] a round trip answers a response or an
    error, and the body of a response is never nil.  The body of a request is a
    reader: [Send] hands over what is unread of it, and [BodyRead] says how many
    bytes of that the round trip has read, which is up to the network. *)
Variant TransportE : Type -> Type :=
| ReadAll (body : string) : TransportE (error + string)
| LimiterWait : TransportE (option error)
| GetBody : TransportE (error + string)
| Send (body : option string) : TransportE (net_error + http_Response)
| BodyRead : TransportE nat
| ClockNow : TransportE Z
| RandInt53 : TransportE Z
| CloseBody (body : Z) : TransportE unit
| Sleep (d : Z) : TransportE (option error)
| SetServerTime (t : Z) : TransportE unit
| SetRateLimitInfo (info : RateLimitInfo) : TransportE unit.

Abbreviation TP := (prog TransportE).
Abbreviation event := (answered TransportE).

Record GovernorTransportConfig : Type := {
  tc_RateLimitRPS : Q;
  tc_RateLimitBurst : Z;
  tc_MaxRetries : Z;
  tc_BaseBackoff : Z;
  tc_MaxBackoff : Z;
  tc_JitterRatio : spec_float
}.

(** [0.10], the double next to a tenth. *)
Definition tenth : spec_float := fdiv (float_of_int 1) (float_of_int 10).

Definition DefaultGovernorTransportConfig : GovernorTransportConfig := {|
  tc_RateLimitRPS := 30; tc_RateLimitBurst := 50; tc_MaxRetries := 3;
  tc_BaseBackoff := 500 * Millisecond; tc_MaxBackoff := 30 * Second; tc_JitterRatio := tenth |}.

(** The limiter by its rate and its burst. *)
Record GovernorTransport : Type := {
  gt_limiter : option (Q * Z);
  gt_maxRetries : Z;
  gt_baseBackoff : Z;
  gt_maxBackoff : Z;
  gt_jitterRatio : spec_float
}.

(** The burst of the limiter; [int(f)] cuts a positive rate off. *)
Definition limiterBurst (cfg : GovernorTransportConfig) : Z :=
  if tc_RateLimitBurst cfg <=? 0 then
    let burst := Qnum (tc_RateLimitRPS cfg) / Z.pos (Qden (tc_RateLimitRPS cfg)) in if burst <=? 0 then 1 else burst
  else tc_RateLimitBurst cfg.

Definition NewGovernorTransport (cfg : GovernorTransportConfig) : GovernorTransport := {|
  gt_limiter := if Qle_bool (tc_RateLimitRPS cfg) 0 then None else Some (tc_RateLimitRPS cfg, limiterBurst cfg);
  gt_maxRetries := if tc_MaxRetries cfg <? 0 then 0 else tc_MaxRetries cfg;
  gt_baseBackoff := if tc_BaseBackoff cfg <=? 0 then 500 * Millisecond else tc_BaseBackoff cfg;
  gt_maxBackoff := if tc_MaxBackoff cfg <=? 0 then 30 * Second else tc_MaxBackoff cfg;
  gt_jitterRatio := if fle (tc_JitterRatio cfg) (S754_zero false) then tenth else tc_JitterRatio cfg
|}.

(** [NewClientFromConfig] of client.go: the transport and the timeout of the
    client. *)
Definition clientTransport (cfg : option GitLabSettingsConfig) : GovernorTransportConfig * Z :=
  let d := DefaultGovernorTransportConfig in
  match cfg with
  | None => (d, 30 * Second)
  | Some c =>
      ({| tc_RateLimitRPS := if Qle_bool (gl_RateLimitRPS c) 0 then tc_RateLimitRPS d else gl_RateLimitRPS c;
          tc_RateLimitBurst := if 0 <? gl_RateLimitBurst c then gl_RateLimitBurst c else tc_RateLimitBurst d;
          tc_MaxRetries := if 0 <=? gl_MaxRetries c then gl_MaxRetries c else tc_MaxRetries d;
          tc_BaseBackoff := if 0 <? gl_RetryBaseDelayMs c then wrap64 (gl_RetryBaseDelayMs c * Millisecond) else tc_BaseBackoff d;
          tc_MaxBackoff := if 0 <? gl_RetryMaxDelayMs c then wrap64 (gl_RetryMaxDelayMs c * Millisecond) else tc_MaxBackoff d;
          tc_JitterRatio := tc_JitterRatio d |},
       if 0 <? gl_TimeoutSeconds c then wrap64 (gl_TimeoutSeconds c * Second) else 30 * Second)
  end.

(** ** Classification *)

Definition context_Canceled : error := ErrNew "context canceled".
Definition context_DeadlineExceeded : error := ErrNew "context deadline exceeded".
Definition io_EOF : error := ErrNew "EOF".
Definition io_ErrUnexpectedEOF : error := ErrNew "unexpected EOF".

Definition isRetryableStatusCode (code : Z) : bool := existsb (Z.eqb code) [429; 500; 502; 503; 504].

Definition isRetryableError (e : net_error) : bool :=
  if errors_Is (ne_err e) context_Canceled || errors_Is (ne_err e) context_DeadlineExceeded then false
  else if ne_Timeout e then true
  else if errors_Is (ne_err e) io_ErrUnexpectedEOF || errors_Is (ne_err e) io_EOF then true
  else ne_OpError e.

Section Retries.
Context `{GoHTTPTime} `{GoConversion}.

(** ** Headers *)

Definition ParseRateLimitReset (h : string -> string) : option Z :=
  let by_date := if (h "RateLimit-ResetTime" =? "")%string then None else http_ParseTime (h "RateLimit-ResetTime") in
  match Atoi (h "RateLimit-Reset") with
  | Some ts => if 0 <? ts then Some (if 100000000000 <? ts then ts * Millisecond else ts * Second) else by_date
  | None => by_date
  end.

Definition ParseRateLimitHeaders (h : string -> string) (now : Z) : option RateLimitInfo :=
  if (h "RateLimit-Limit" =? "")%string && (h "RateLimit-Remaining" =? "")%string then None
  else Some {| rl_Limit := default 0 (Atoi (h "RateLimit-Limit")); rl_Remaining := default 0 (Atoi (h "RateLimit-Remaining"));
               rl_Reset := ParseRateLimitReset h; rl_ObservedAt := now |}.

(** The delay the server asks for. *)
Definition ParseRetryAfter (h : string -> string) (now : Z) : option Z :=
  let val := h "Retry-After" in
  let by_date := (fun t => if now <? t then time_Sub t now else 0) <$> http_ParseTime val in
  if (val =? "")%string then None
  else match Atoi val with
       | Some seconds => if 0 <=? seconds then Some (wrap64 (seconds * Second)) else by_date
       | None => by_date
       end.

(** ** Delays *)

(** The exponential backoff of an attempt, before the jitter. *)
Definition backoff (t : GovernorTransport) (attempt : Z) : Z :=
  let multiplier := wrap64 (Z.shiftl 1 attempt) in
  let multiplier := if 1024 <? multiplier then 1024 else multiplier in
  let baseDelay := wrap64 (gt_baseBackoff t * multiplier) in
  if gt_maxBackoff t <? baseDelay then gt_maxBackoff t else baseDelay.

(** The delay with the jitter of a random draw, and its limits. *)
Definition jittered (t : GovernorTransport) (d k : Z) : Z :=
  let jitterRange := fmul (float_of_int d) (gt_jitterRatio t) in
  let offset := fmul (fsub (fmul (rand_Float64 k) (float_of_int 2)) (float_of_int 1)) jitterRange in
  let final := int_of_float (fadd (float_of_int d) offset) in
  let final := if final <? 0 then 0 else final in
  if gt_maxBackoff t <? final then gt_maxBackoff t else final.

Definition applyJitter (t : GovernorTransport) (d : Z) : TP Z :=
  if d <=? 0 then mret 0
  else if fle (gt_jitterRatio t) (S754_zero false) then mret d
  else k ← call RandInt53; mret (jittered t d k).

(** The delay before the jitter: what the server asks for, or the backoff. *)
Definition baseDelay (t : GovernorTransport) (attempt : Z) (resp : option http_Response) (now : Z) : Z :=
  match resp with
  | None => backoff t attempt
  | Some r =>
      match ParseRetryAfter (hr_Header r) now with
      | Some delay => delay
      | None =>
          match (if hr_StatusCode r =? 429 then ParseRateLimitReset (hr_Header r) else None) with
          | Some reset => if now <? reset then time_Sub reset now else backoff t attempt
          | None => backoff t attempt
          end
      end
  end.

Definition calculateDelay (t : GovernorTransport) (attempt : Z) (resp : option http_Response) : TP Z :=
  now ← call ClockNow; applyJitter t (baseDelay t attempt resp now).

(** ** The round trip *)

Definition updateServerTime (h : string -> string) : TP unit :=
  if (h "Date" =? "")%string then mret tt
  else match http_ParseTime (h "Date") with Some t => call (SetServerTime t) | None => mret tt end.

Definition updateRateLimitInfo (h : string -> string) : TP unit :=
  now ← call ClockNow;
  match ParseRateLimitHeaders h now with Some info => call (SetRateLimitInfo info) | None => mret tt end.

(** Where the body of a retry comes from: nowhere, from the buffer that the
    first attempt was sent from, or from the request's own [GetBody]. *)
Inductive body_source : Type := NoBody | Buffered (content : string) | FromRequest.

Definition first_body (req : http_Request) : TP (error + (option string * body_source)) :=
  match rq_Body req with
  | Some body =>
      if rq_GetBody req then mret (inr (Some body, FromRequest))
      else
        r ← call (ReadAll body);
        mret match r with
             | inl e => inl (ErrWrap "failed to buffer request body for retry support: " e)
             | inr content => inr (Some content, Buffered content)
             end
  | None => mret (inr (None, if rq_GetBody req then FromRequest else NoBody))
  end.

(** [if attempt > 0 && req.GetBody != nil { ... }]: a new reader in the place of
    the one that was read. *)
Definition rewind (src : body_source) (attempt : Z) (body : option string) : TP (error + option string) :=
  if attempt =? 0 then mret (inr body)
  else match src with
       | NoBody => mret (inr body)
       | Buffered content => mret (inr (Some content))
       | FromRequest =>
           r ← call GetBody;
           mret match r with
                | inl e => inl (ErrWrap ("failed to rewind request body for retry attempt " +:+ Itoa attempt +:+ ": ") e)
                | inr content => inr (Some content)
                end
       end.

Definition close_last (resp : option http_Response) : TP unit :=
  match resp with Some r => call (CloseBody (hr_Body r)) | None => mret tt end.

(** One request and what is noted of its answer; what the network has read of the
    body is gone from it. *)
Definition exchange (body : option string) : TP ((net_error + http_Response) * option string) :=
  a ← call (Send body);
  n ← call BodyRead;
  let unread := string_drop n <$> body in
  match a with
  | inl e => mret (inl e, unread)
  | inr resp => _ ← updateServerTime (hr_Header resp); _ ← updateRateLimitInfo (hr_Header resp); mret (inr resp, unread)
  end.

Definition response_of (a : net_error + http_Response) : option http_Response := match a with inl _ => None | inr r => Some r end.

(** An answer that ends the loop. *)
Definition settled (a : net_error + http_Response) : bool :=
  match a with inl e => negb (isRetryableError e) | inr r => negb (isRetryableStatusCode (hr_StatusCode r)) end.

Abbreviation result := (option http_Response * option error)%type.

(** What the last answer comes to. *)
Definition exhausted (t : GovernorTransport) (a : net_error + http_Response) : result :=
  match a with
  | inl e => (None, Some (ErrWrap ("request failed after " +:+ Itoa (gt_maxRetries t) +:+ " retries: ") (ne_err e)))
  | inr r => (Some r, None)
  end.

Definition final (a : net_error + http_Response) : result :=
  match a with inl e => (None, Some (ne_err e)) | inr r => (Some r, None) end.

(** The loop; [left] attempts may follow this one, and [body] is what is unread of
    the request's body. *)
Fixpoint attempts (t : GovernorTransport) (src : body_source) (left : nat) (attempt : Z) (body : option string)
    (lastResp : option http_Response) : TP result :=
  w ← (if is_some (gt_limiter t) then call LimiterWait else mret None);
  match w with
  | Some e => _ ← close_last lastResp; mret (None, Some (ErrWrap "proactive rate limiter wait canceled: " e))
  | None =>
      b ← rewind src attempt body;
      match b with
      | inl e => mret (None, Some e)
      | inr body =>
          '(a, body) ← exchange body;
          if settled a then mret (final a)
          else match left with
               | O => mret (exhausted t a)
               | S left' =>
                   delay ← calculateDelay t attempt (response_of a);
                   _ ← close_last (response_of a);
                   s ← call (Sleep delay);
                   match s with
                   | Some e => mret (None, Some (ErrWrap "context canceled during retry backoff: " e))
                   | None => attempts t src left' (attempt + 1) body (response_of a)
                   end
               end
      end
  end.

Definition RoundTrip (t : GovernorTransport) (req : http_Request) : TP result :=
  b ← first_body req;
  match b with
  | inl e => mret (None, Some e)
  | inr (body, src) =>
      if gt_maxRetries t <? 0 then mret (None, None)
      else attempts t src (Z.to_nat (gt_maxRetries t)) 0 body None
  end.

(** ** What a trace shows *)

Definition ev {X} (e : TransportE X) (x : X) : event := existT _ (e, x).

(** The bodies that were sent, the answers, the waits, and the bodies of answers
    that are still open, after a list of calls with their answers. *)
Definition sent_of (c : event) : option (option string) :=
  match projT2 c with (Send body, _) => Some body | _ => None end.

Definition answer_of (c : event) : option (net_error + http_Response) :=
  match c with existT _ (Send _, a) => Some a | _ => None end.

Definition sleep_of (c : event) : option Z := match projT2 c with (Sleep d, _) => Some d | _ => None end.

Definition buffered_of (c : event) : option string :=
  match c with existT _ (ReadAll _, inr content) => Some content | _ => None end.

Definition opened (l : list Z) (c : event) : list Z :=
  match c with
  | existT _ (Send _, inr r) => hr_Body r :: l
  | existT _ (CloseBody b, _) => filter (fun x => x <> b) l
  | _ => l
  end.

(** A call that was cut short: by the context, or by a body that cannot be read. *)
Definition cut_of (c : event) : bool :=
  match c with
  | existT _ (LimiterWait, Some _) | existT _ (Sleep _, Some _) => true
  | existT _ (ReadAll _, inl _) | existT _ (GetBody, inl _) => true
  | _ => false
  end.

(** A call that the projections do not see, and one that leaves nothing open. *)
Definition quiet (c : event) : Prop :=
  sent_of c = None /\ answer_of c = None /\ sleep_of c = None /\ cut_of c = false /\ forall l, opened l c = l.

Definition idle (c : event) : Prop :=
  sent_of c = None /\ answer_of c = None /\ sleep_of c = None /\ opened [] c = [].

Lemma quiet_idle c : quiet c -> idle c.
Proof. intros (? & ? & ? & ? & Ho). repeat split; auto. Qed.

(** What may be sent after the calls [before]: the whole of the body, as it came
    or as the last of these calls copied it. *)
Definition sends (orig : option string) (src : body_source) (before : list event) (body : option string) : Prop :=
  match src with
  | NoBody => body = None
  | Buffered content => body = Some content
  | FromRequest => body = orig \/ exists content, ev GetBody (inr content) ∈ before /\ body = Some content
  end.

Definition verdict (t : GovernorTransport) (a : net_error + http_Response) : result :=
  if settled a then final a else exhausted t a.

Definition waits (t : GovernorTransport) (d : Z) : Prop := 0 <= d <= gt_maxBackoff t.

Definition closing (a : net_error + http_Response) : list event :=
  match a with inl _ => [] | inr r => [ev (CloseBody (hr_Body r)) tt] end.

(** The runs of the loop: cut short before a request, ended by an answer, cut
    short while waiting, or going round again. *)
Inductive rounds (t : GovernorTransport) (orig : option string) (src : body_source) : nat -> list event -> result -> Prop :=
| rounds_stop left tr e :
    Forall idle tr -> existsb cut_of tr = true -> rounds t orig src left tr (None, Some e)
| rounds_last left before body a after :
    Forall quiet before -> Forall quiet after -> sends orig src before body -> settled a = true \/ left = O ->
    rounds t orig src left (before ++ ev (Send body) a :: after) (verdict t a)
| rounds_interrupted left before body a after d e e' :
    Forall quiet before -> Forall quiet after -> sends orig src before body -> settled a = false -> waits t d ->
    rounds t orig src (S left) (before ++ ev (Send body) a :: after ++ closing a ++ [ev (Sleep d) (Some e)]) (None, Some e')
| rounds_again left before body a after d tr res :
    Forall quiet before -> Forall quiet after -> sends orig src before body -> settled a = false -> waits t d ->
    rounds t orig src left tr res ->
    rounds t orig src (S left) (before ++ ev (Send body) a :: after ++ closing a ++ ev (Sleep d) None :: tr) res.

Lemma exchange_traces body :
  traces (fun tr r => (exists after, tr = ev (Send body) r.1 :: after /\ Forall quiet after) /\ (body = None -> r.2 = None)) (exchange body).
Proof.
  unfold exchange. apply traces_call. intros a. apply traces_call. intros n. destruct a as [e|r].
  { apply traces_ret. split; [|by intros ->]. eexists. split; [done|by repeat constructor]. }
  eapply (traces_bind _ (fun tr _ => Forall quiet tr)).
  { unfold updateServerTime. case_match; [by constructor|]. case_match; [|by constructor].
    intros []. by repeat constructor. }
  intros l _ Hl. eapply (traces_bind _ (fun tr _ => Forall quiet tr)).
  { unfold updateRateLimitInfo. apply traces_call. intros now. case_match; [intros []|]; by repeat constructor. }
  intros l' _ Hl'. apply traces_ret. split; [|by intros ->]. exists (ev BodyRead n :: l ++ l'). rewrite app_nil_r. split; [done|].
  constructor; [by repeat constructor|]. by apply Forall_app.
Qed.

Lemma calculateDelay_traces t attempt resp :
  0 < gt_maxBackoff t -> fle (gt_jitterRatio t) (S754_zero false) = false ->
  traces (fun tr d => Forall quiet tr /\ waits t d) (calculateDelay t attempt resp).
Proof.
  intros Hm Hj. unfold calculateDelay. apply traces_call. intros now. unfold applyJitter. rewrite Hj.
  case_match; [apply traces_ret; split; [by repeat constructor|unfold waits; lia]|].
  apply traces_call. intros k. apply traces_ret. split; [by repeat constructor|].
  unfold waits, jittered. cbv zeta. repeat case_match; lia.
Qed.

(** What the loop starts an attempt with: the whole body the first time, and
    anything that is left of it later. *)
Definition ready (orig : option string) (src : body_source) (attempt : Z) (body : option string) : Prop :=
  0 <= attempt /\ (attempt = 0 -> sends orig src [] body) /\ (src = NoBody -> body = None).

Lemma sends_early orig src tr post body : sends orig src tr body -> sends orig src (tr ++ post) body.
Proof.
  destruct src; [done..|]. intros [?|(c & Hc & ?)]; [by left|right]. exists c. split; [|done]. apply elem_of_app. by left.
Qed.

Lemma sends_app orig src pre tr body : sends orig src tr body -> sends orig src (pre ++ tr) body.
Proof.
  destruct src; [done..|]. intros [?|(c & Hc & ?)]; [by left|right]. exists c. split; [|done]. apply elem_of_app. by right.
Qed.

Lemma rewind_traces orig src attempt body :
  ready orig src attempt body ->
  traces (fun tr r => match r with
                      | inl _ => Forall idle tr /\ existsb cut_of tr = true
                      | inr body => Forall quiet tr /\ sends orig src tr body
                      end) (rewind src attempt body).
Proof.
  intros (Ha & Hs & Hn). unfold rewind. destruct (Z.eqb_spec attempt 0) as [->|Hne]; [apply traces_ret; split; auto|].
  destruct src; [apply traces_ret; split; [done|by apply Hn]|by apply traces_ret|]. apply traces_call.
  intros [e|c]; apply traces_ret; [by repeat constructor|]. split; [by repeat constructor|]. right. exists c. split; [by left|done].
Qed.

Lemma close_last_traces resp : traces (fun tr _ => Forall idle tr) (close_last resp).
Proof. destruct resp; simpl; [intros []|]; by repeat constructor. Qed.

Lemma close_answer_traces a : traces (fun tr _ => tr = closing a) (close_last (response_of a)).
Proof. destruct a as [e|r]; simpl; [done|]. by intros []. Qed.

Lemma wait_traces t :
  traces (fun tr w => match w with
                      | Some _ => Forall idle tr /\ existsb cut_of tr = true
                      | None => Forall quiet tr
                      end) (if is_some (gt_limiter t) then call LimiterWait else mret None).
Proof. destruct (is_some _); [intros [e|]|]; by repeat constructor. Qed.

(** The transports that [NewGovernorTransport] makes. *)
Definition paced (t : GovernorTransport) : Prop :=
  0 <= gt_maxRetries t /\ 0 < gt_maxBackoff t /\ fle (gt_jitterRatio t) (S754_zero false) = false.

Lemma NewGovernorTransport_paced cfg : paced (NewGovernorTransport cfg).
Proof. unfold paced, NewGovernorTransport; cbn. repeat split; case_match; try lia; done. Qed.

Lemma attempts_traces t orig src left attempt body last :
  paced t -> ready orig src attempt body ->
  traces (rounds t orig src left) (attempts t src left attempt body last).
Proof.
  intros (Hr & Hm & Hj). revert attempt body last.
  induction left as [|left IH]; intros attempt body last Hs; cbn [attempts].
  all: eapply traces_bind; [apply wait_traces|]; intros tr1 [e|] H1.
  1, 3: destruct H1 as [H1 Hc]; eapply traces_bind; [apply close_last_traces|]; intros l [] Hl; apply traces_ret;
    apply rounds_stop; [rewrite !Forall_app; by repeat split|rewrite !existsb_app, !orb_true_iff; auto].
  all: eapply traces_bind; [by apply rewind_traces|]; intros tr2 [e|body'] H2; [apply traces_ret|].
  1, 3: destruct H2 as [H2 Hc]; apply rounds_stop;
    [rewrite !Forall_app; repeat split; try done; by eapply Forall_impl, quiet_idle|rewrite !existsb_app, !orb_true_iff; auto].
  all: destruct H2 as [H2 Hs'%(sends_app _ _ tr1)]; eapply traces_bind; [apply exchange_traces|]; intros ? [a body2] [(after & -> & H3) Hn];
    cbn [fst snd] in *.
  - assert (rounds t orig src 0 ((tr1 ++ tr2) ++ ev (Send body') a :: after) (verdict t a)) as HR.
    { apply rounds_last; auto. by apply Forall_app. }
    unfold verdict in HR. rewrite <- app_assoc in HR. destruct (settled a); apply traces_ret; by rewrite app_nil_r.
  - destruct (settled a) eqn:Ea.
    { apply traces_ret. rewrite app_nil_r, (app_assoc tr1). replace (final a) with (verdict t a) by (unfold verdict; by rewrite Ea).
      apply rounds_last; auto. by apply Forall_app. }
    eapply traces_bind; [by apply calculateDelay_traces|]. intros tr4 d [H4 Hd].
    eapply traces_bind; [apply close_answer_traces|]. intros ? [] ->.
    apply traces_call. intros [e|].
    + apply traces_ret. pose proof (rounds_interrupted t orig src left (tr1 ++ tr2) body' a (after ++ tr4) d e
        (ErrWrap "context canceled during retry backoff: " e)) as HR.
      rewrite <- !app_assoc in HR. cbn in HR. rewrite <- ?app_assoc in HR. cbn. rewrite <- ?app_assoc. apply HR; auto; by apply Forall_app.
    + assert (ready orig src (attempt + 1) body2) as Hready.
      { destruct Hs as (Hge & _ & _). split_and!; [lia|lia|]. intros ->. by apply Hn, Hs'. }
      eapply traces_mono; [|by apply IH]. intros tr res HR. cbn beta.
      pose proof (rounds_again t orig src left (tr1 ++ tr2) body' a (after ++ tr4) d tr res) as HR'.
      rewrite <- !app_assoc in HR'. cbn in HR'. rewrite <- ?app_assoc in HR'. cbn. rewrite <- ?app_assoc. apply HR'; auto; by apply Forall_app.
Qed.

(** ** The projections of a run *)

Definition answers (tr : list event) : list (net_error + http_Response) := omap answer_of tr.
Definition sleeps (tr : list event) : list Z := omap sleep_of tr.
Definition bodies (tr : list event) : list (option string) := omap sent_of tr.
Definition left_open (tr : list event) : list Z := foldl opened [] tr.
Definition undisturbed (tr : list event) : bool := negb (existsb cut_of tr).

Lemma omap_none {A B} (f : A -> option B) l : Forall (fun a => f a = None) l -> omap f l = [].
Proof. induction 1 as [|a l Ha _ IH]; cbn; [done|]. by rewrite Ha. Qed.

Lemma idle_answers tr : Forall idle tr -> answers tr = [].
Proof. intros H'. apply omap_none. eapply Forall_impl; [exact H'|]. by intros c (? & ? & ? & ?). Qed.

Lemma idle_sleeps tr : Forall idle tr -> sleeps tr = [].
Proof. intros H'. apply omap_none. eapply Forall_impl; [exact H'|]. by intros c (? & ? & ? & ?). Qed.

Lemma idle_bodies tr : Forall idle tr -> bodies tr = [].
Proof. intros H'. apply omap_none. eapply Forall_impl; [exact H'|]. by intros c (? & ? & ? & ?). Qed.

Lemma idle_open tr : Forall idle tr -> left_open tr = [].
Proof. unfold left_open. induction 1 as [|c l (? & ? & ? & Hc) _ IH]; cbn; [done|]. by rewrite Hc. Qed.

Lemma quiet_open l tr : Forall quiet tr -> foldl opened l tr = l.
Proof. induction 1 as [|c tr (? & ? & ? & ? & Hc) _ IH]; cbn; [done|]. by rewrite Hc. Qed.

Lemma quiet_undisturbed tr : Forall quiet tr -> existsb cut_of tr = false.
Proof. induction 1 as [|c tr (? & ? & ? & Hc & ?) _ IH]; cbn; [done|]. by rewrite Hc. Qed.

Lemma closing_idle a : Forall idle (closing a).
Proof. destruct a; cbn; repeat constructor. Qed.

(** The bodies that an answer leaves open. *)
Definition held (a : net_error + http_Response) : list Z := match a with inl _ => [] | inr r => [hr_Body r] end.

(** What a round shows: one answer, one body. *)
Lemma round_shows before body a after rest :
  Forall quiet before -> Forall quiet after ->
  let tr := before ++ ev (Send body) a :: after ++ rest in
  answers tr = a :: answers rest /\ bodies tr = body :: bodies rest /\ sleeps tr = sleeps rest /\
  left_open tr = foldl opened (held a) rest /\ undisturbed tr = undisturbed rest.
Proof.
  intros Hb Ha tr. subst tr.
  assert (Forall idle before /\ Forall idle after) as [Hb' Ha'] by (split; by eapply Forall_impl, quiet_idle).
  unfold answers, bodies, sleeps, left_open, undisturbed.
  rewrite !omap_app, foldl_app, (quiet_open [] before Hb), existsb_app. cbn.
  rewrite !omap_app, !foldl_app, existsb_app, (quiet_open _ after Ha), (quiet_undisturbed before Hb), (quiet_undisturbed after Ha).
  change (omap answer_of) with answers. change (omap sleep_of) with sleeps. change (omap sent_of) with bodies.
  rewrite !(idle_answers before), !(idle_answers after), !(idle_sleeps before), !(idle_sleeps after),
    !(idle_bodies before), !(idle_bodies after) by done.
  by destruct a.
Qed.

Lemma opened_close b : opened [b] (ev (CloseBody b) tt) = [].
Proof. unfold opened, ev. by rewrite filter_cons_False by tauto. Qed.

Lemma closing_shows a rest :
  answers (closing a ++ rest) = answers rest /\ bodies (closing a ++ rest) = bodies rest /\
  sleeps (closing a ++ rest) = sleeps rest /\ foldl opened (held a) (closing a ++ rest) = left_open rest /\
  undisturbed (closing a ++ rest) = undisturbed rest.
Proof.
  destruct a as [e|r]; [done|]. repeat split; try done.
  change (foldl opened (opened [hr_Body r] (ev (CloseBody (hr_Body r)) tt)) rest = left_open rest).
  by rewrite opened_close.
Qed.

(** A round that another may follow. *)
Lemma retry_shows before body a after rest :
  Forall quiet before -> Forall quiet after ->
  let tr := before ++ ev (Send body) a :: after ++ closing a ++ rest in
  answers tr = a :: answers rest /\ bodies tr = body :: bodies rest /\ sleeps tr = sleeps rest /\
  left_open tr = left_open rest /\ undisturbed tr = undisturbed rest.
Proof.
  intros Hb Ha tr. subst tr. destruct (round_shows before body a after (closing a ++ rest) Hb Ha) as (-> & -> & -> & -> & ->).
  destruct (closing_shows a rest) as (-> & -> & -> & -> & ->). done.
Qed.

(** A round that is the last. *)
Lemma last_shows before body a after :
  Forall quiet before -> Forall quiet after ->
  let tr := before ++ ev (Send body) a :: after in
  answers tr = [a] /\ bodies tr = [body] /\ sleeps tr = [] /\ left_open tr = held a /\ undisturbed tr = true.
Proof.
  intros Hb Ha tr. subst tr. pose proof (round_shows before body a after [] Hb Ha) as Hs. rewrite app_nil_r in Hs. exact Hs.
Qed.

(** The server has said nothing about when to come again. *)
Definition unasked (a : net_error + http_Response) : Prop :=
  match a with
  | inl _ => True
  | inr r =>
      hr_Header r "Retry-After" = "" /\
      (hr_StatusCode r = 429 -> hr_Header r "RateLimit-Reset" = "" /\ hr_Header r "RateLimit-ResetTime" = "")
  end.

(** Each wait follows an answer that may be retried, at most one each; it is never
    negative, and not longer than the maximum unless the server asked for it.
    [last] is the answer that no wait has followed yet. *)
Fixpoint waits_in_turn (t : GovernorTransport) (last : option (net_error + http_Response)) (tr : list event) : Prop :=
  match tr with
  | [] => True
  | c :: tr =>
      match sleep_of c with
      | Some d =>
          (exists a, last = Some a /\ settled a = false /\ 0 <= d /\ (unasked a -> d <= gt_maxBackoff t)) /\ waits_in_turn t None tr
      | None => waits_in_turn t (match answer_of c with Some a => Some a | None => last end) tr
      end
  end.

Lemma in_turn_idle t pre tr last : Forall idle pre -> waits_in_turn t last tr -> waits_in_turn t last (pre ++ tr).
Proof. intros Hi Ht. induction Hi as [|c pre (_ & Ha & Hs & _) _ IH]; [done|]. cbn [app waits_in_turn]. by rewrite Hs, Ha. Qed.

Lemma in_turn_wait t a d : settled a = false -> waits t d ->
  exists b, Some a = Some b /\ settled b = false /\ 0 <= d /\ (unasked b -> d <= gt_maxBackoff t).
Proof. intros Hs [H1 H2]. by exists a. Qed.

Section Runs.
Variable t : GovernorTransport.
Variable orig : option string.
Variable src : body_source.

Lemma rounds_bounded left tr res :
  rounds t orig src left tr res -> (length (answers tr) <= S left)%nat.
Proof.
  induction 1 as [left tr e Hi _|left before body a after Hb Ha _ _|left before body a after d e e' Hb Ha _ _ Hd
    |left before body a after d tr res Hb Ha _ _ Hd _ IH].
  - rewrite (idle_answers tr Hi). cbn. lia.
  - destruct (last_shows before body a after Hb Ha) as (-> & _). cbn. lia.
  - destruct (retry_shows before body a after [ev (Sleep d) (Some e)] Hb Ha) as (-> & _). cbn. lia.
  - destruct (retry_shows before body a after (ev (Sleep d) None :: tr) Hb Ha) as (-> & _).
    change (answers (ev (Sleep d) None :: tr)) with (answers tr). cbn [length]. lia.
Qed.

Lemma rounds_in_turn left tr res : rounds t orig src left tr res -> forall last, waits_in_turn t last tr.
Proof.
  induction 1 as [left tr e Hi _|left before body a after Hb Ha _ _|left before body a after d e e' Hb Ha _ Hs Hd
    |left before body a after d tr res Hb Ha _ Hs Hd _ IH]; intros last.
  - rewrite <- (app_nil_r tr). by apply (in_turn_idle t tr).
  - apply in_turn_idle; [by eapply Forall_impl, quiet_idle|]. cbn. rewrite <- (app_nil_r after).
    apply in_turn_idle; [by eapply Forall_impl, quiet_idle|done].
  - apply in_turn_idle; [by eapply Forall_impl, quiet_idle|]. cbn. apply in_turn_idle; [by eapply Forall_impl, quiet_idle|].
    apply in_turn_idle; [apply closing_idle|]. split; [by apply in_turn_wait|done].
  - apply in_turn_idle; [by eapply Forall_impl, quiet_idle|]. cbn. apply in_turn_idle; [by eapply Forall_impl, quiet_idle|].
    apply in_turn_idle; [apply closing_idle|]. split; [by apply in_turn_wait|]. apply IH.
Qed.

Lemma rounds_frees left tr res :
  rounds t orig src left tr res ->
  left_open tr = match res.1 with Some r => [hr_Body r] | None => [] end /\ Forall (sends orig src tr) (bodies tr).
Proof.
  induction 1 as [left tr e Hi _|left before body a after Hb Ha Hs _|left before body a after d e e' Hb Ha Hs _ Hd
    |left before body a after d tr res Hb Ha Hs _ Hd _ (IH1 & IH2)].
  - by rewrite (idle_open tr Hi), (idle_bodies tr Hi).
  - destruct (last_shows before body a after Hb Ha) as (_ & -> & _ & -> & _).
    split; [unfold verdict; by destruct (settled a), a|]. apply Forall_singleton. by apply sends_early.
  - destruct (retry_shows before body a after [ev (Sleep d) (Some e)] Hb Ha) as (_ & -> & _ & -> & _).
    split; [done|]. apply Forall_singleton. by apply sends_early.
  - destruct (retry_shows before body a after (ev (Sleep d) None :: tr) Hb Ha) as (_ & -> & _ & -> & _).
    split; [exact IH1|]. constructor; [by apply sends_early|]. apply (Forall_impl _ _ _ IH2). intros b Hsb.
    change (before ++ ev (Send body) a :: after ++ closing a ++ ev (Sleep d) None :: tr)
      with (before ++ ([ev (Send body) a] ++ after ++ closing a ++ [ev (Sleep d) None] ++ tr)).
    by repeat apply sends_app.
Qed.

Lemma rounds_exact left tr res :
  rounds t orig src left tr res -> undisturbed tr = true ->
  exists earlier a,
    answers tr = earlier ++ [a] /\ Forall (fun b => settled b = false) earlier /\
    (length earlier <= left)%nat /\ (settled a = true \/ length earlier = left) /\
    length (sleeps tr) = length earlier /\ res = verdict t a.
Proof.
  induction 1 as [left tr e _ Hc|left before body a after Hb Ha _ Hl|left before body a after d e e' Hb Ha _ _ Hd
    |left before body a after d tr res Hb Ha _ He Hd _ IH].
  - unfold undisturbed. by rewrite Hc.
  - destruct (last_shows before body a after Hb Ha) as (-> & _ & -> & _). intros _. exists [], a.
    repeat split; [constructor|cbn; lia|]. destruct Hl as [Hl| ->]; [by left; rewrite Hl|by right].
  - by destruct (retry_shows before body a after [ev (Sleep d) (Some e)] Hb Ha) as (_ & _ & _ & _ & ->).
  - destruct (retry_shows before body a after (ev (Sleep d) None :: tr) Hb Ha) as (-> & _ & -> & _ & ->). intros Hu.
    destruct (IH Hu) as (earlier & b & Ea & Hf & Hlen & Hstop & Hsl & ->). exists (a :: earlier), b.
    change (answers (ev (Sleep d) None :: tr)) with (answers tr). cbn. rewrite Ea, <- Hsl.
    repeat split; [by constructor|lia|destruct Hstop; [by left|right; lia]].
Qed.

End Runs.

(** ** A round trip *)

Lemma RoundTrip_traces t req :
  paced t ->
  traces (fun tr res =>
    (exists body e e', rq_Body req = Some body /\ rq_GetBody req = false /\
       tr = [ev (ReadAll body) (inl e)] /\ res = (None, Some e')) \/
    (exists src before rest, tr = before ++ rest /\ rounds t (rq_Body req) src (Z.to_nat (gt_maxRetries t)) rest res /\
       match rq_Body req with
       | None => before = [] /\ src = (if rq_GetBody req then FromRequest else NoBody)
       | Some body =>
           if rq_GetBody req then before = [] /\ src = FromRequest
           else exists content, before = [ev (ReadAll body) (inr content)] /\ src = Buffered content
       end)) (RoundTrip t req).
Proof.
  intros Ht. unfold RoundTrip, first_body. assert ((gt_maxRetries t <? 0) = false) as -> by (destruct Ht; lia).
  destruct (rq_Body req) as [body|].
  - destruct (rq_GetBody req).
    + eapply traces_mono; [|apply (attempts_traces t (Some body)); [done|by split_and!; [|left|]]].
      cbn beta. intros tr res Hr. right. by exists FromRequest, [], tr.
    + apply traces_call. intros [e|content].
      * apply traces_ret. left. eauto 10.
      * eapply traces_mono; [|apply (attempts_traces t (Some body) (Buffered content)); [done|by split_and!]].
        cbn beta. intros tr res Hr. right. eexists _, [_], tr. split; [done|]. split; [exact Hr|]. by exists content.
  - eapply traces_mono; [|apply (attempts_traces t None); [done|split_and!; [done| |done]]].
    + cbn beta. intros tr res Hr. right. by eexists _, [], tr.
    + intros _. destruct (rq_GetBody req); [by left|done].
Qed.

(** C31. Whatever the server, its headers and the clock answer, a request is sent at
    most one time more than it may be retried, and it waits only after an answer
    that may be retried, at most once after each.  No wait is negative, and a
    wait that the server did not ask for is not longer than the configured
    maximum. *)
Theorem RoundTrip_bounded {W} (h : handler TransportE W) (w : W) cfg req :
  let t := NewGovernorTransport cfg in
  let tr := trace h (RoundTrip t req) w in
  Z.of_nat (length (answers tr)) <= gt_maxRetries t + 1 /\ waits_in_turn t None tr.
Proof.
  intros t tr. assert (paced t) as Ht by apply NewGovernorTransport_paced. clearbody t.
  destruct (traces_run h _ _ w (RoundTrip_traces t req Ht)) as [(body & e & e' & _ & _ & Etr & _)|(src & before & rest & Etr & Hr & Hb)];
    change (trace h (RoundTrip t req) w) with tr in Etr; destruct Ht as (Hn & _).
  { rewrite Etr. split; [cbn; lia|done]. }
  pose proof (rounds_bounded t _ src _ _ _ Hr) as H1. pose proof (rounds_in_turn t _ src _ _ _ Hr None) as H2.
  assert (Forall idle before) as Hi.
  { destruct (rq_Body req), (rq_GetBody req); [|destruct Hb as (content & -> & _); by repeat constructor|..]; by destruct Hb as [-> _]. }
  rewrite Etr. split; [|by apply in_turn_idle]. unfold answers. rewrite omap_app. change (omap answer_of) with answers.
  rewrite (idle_answers before Hi). cbn. lia.
Qed.

(** C32. Nothing leaks and nothing is sent by halves, whatever the network does and
    however much of a body it reads before it fails: when a round trip ends, the
    body of every answer received has been closed, except the one of the answer
    it returns; and every attempt sends the whole body, from the buffer that was
    read once, or, when the request can copy its body, as it came or as it was
    copied for this round trip. *)
Theorem RoundTrip_frees {W} (h : handler TransportE W) (w : W) cfg req :
  let t := NewGovernorTransport cfg in
  let tr := trace h (RoundTrip t req) w in
  left_open tr = match (run h (RoundTrip t req) w).1.1 with Some r => [hr_Body r] | None => [] end /\
  match rq_Body req, rq_GetBody req with
  | None, false => Forall (eq None) (bodies tr)
  | Some body, false =>
      exists r, head tr = Some (ev (ReadAll body) r) /\ Forall (fun b => exists content, r = inr content /\ b = Some content) (bodies tr)
  | orig, true => Forall (fun b => b = orig \/ exists content, ev GetBody (inr content) ∈ tr /\ b = Some content) (bodies tr)
  end.
Proof.
  intros t tr. assert (paced t) as Ht by apply NewGovernorTransport_paced. clearbody t.
  destruct (traces_run h _ _ w (RoundTrip_traces t req Ht)) as [(body & e & e' & Eb & Eg & Etr & Er)|(src & before & rest & Etr & Hr & Hb)];
    change (trace h (RoundTrip t req) w) with tr in Etr.
  { rewrite Etr, Eb, Eg, Er. split; [done|]. eexists. split; [done|]. constructor. }
  destruct (rounds_frees t _ src _ _ _ Hr) as [H1 H2]. rewrite Etr.
  destruct (rq_Body req) as [body|], (rq_GetBody req) eqn:Eg.
  - destruct Hb as [-> ->]. by split.
  - destruct Hb as (content & -> & ->). split; [exact H1|]. eexists. split; [done|].
    apply (Forall_impl _ _ _ H2). intros b Hs. by exists content.
  - destruct Hb as [-> ->]. by split.
  - destruct Hb as [-> ->]. split; [exact H1|]. apply (Forall_impl _ _ _ H2). intros b Hs. by symmetry.
Qed.


(** ** The backoff *)

Lemma wrap64_shift attempt :
  0 <= attempt -> wrap64 (Z.shiftl 1 attempt) = if attempt <? 63 then 2 ^ attempt else if attempt =? 63 then - 2 ^ 63 else 0.
Proof.
  intros Ha. rewrite Z.shiftl_mul_pow2, Z.mul_1_l by done. destruct (Z.ltb_spec attempt 63) as [Hlt|Hge].
  - apply wrap64_id. unfold int64_range. pose proof (Z.pow_lt_mono_r 2 attempt 63 ltac:(lia) ltac:(lia) Hlt). lia.
  - destruct (Z.eqb_spec attempt 63) as [-> | Hne]; [done|]. unfold wrap64.
    replace attempt with (64 + (attempt - 64)) by lia. rewrite Z.pow_add_r, Z.mul_comm by lia.
    rewrite Z.add_comm, Z.mod_add by lia. done.
Qed.

(** The backoff before the jitter doubles from the base with every attempt up
    to 1024 times the base and never passes the maximum, for the first 63
    attempts; from then on the shift has run over and there is no wait at all. *)
Theorem backoff_exact t attempt :
  0 < gt_baseBackoff t -> gt_baseBackoff t * 1024 < 2 ^ 63 -> 0 < gt_maxBackoff t -> 0 <= attempt ->
  Z.max 0 (backoff t attempt) =
    if attempt <? 63 then Z.min (gt_maxBackoff t) (gt_baseBackoff t * 2 ^ Z.min attempt 10) else 0.
Proof.
  intros Hb Hr Hm Ha. unfold backoff. rewrite (wrap64_shift attempt Ha). cbv zeta. destruct (Z.ltb_spec attempt 63) as [Hlt|Hge].
  - assert ((if 1024 <? 2 ^ attempt then 1024 else 2 ^ attempt) = 2 ^ Z.min attempt 10) as ->.
    { destruct (Z.leb_spec attempt 10) as [Hle|Hgt].
      - rewrite Z.min_l by done. pose proof (Z.pow_le_mono_r 2 attempt 10 ltac:(lia) Hle). case_match; lia.
      - rewrite Z.min_r by lia. pose proof (Z.pow_lt_mono_r 2 10 attempt ltac:(lia) ltac:(lia) Hgt). case_match; lia. }
    pose proof (Z.pow_le_mono_r 2 (Z.min attempt 10) 10 ltac:(lia) ltac:(lia)) as Hp.
    pose proof (Z.pow_pos_nonneg 2 (Z.min attempt 10) ltac:(lia) ltac:(lia)) as Hp'.
    rewrite wrap64_id by (unfold int64_range; nia). case_match; nia.
  - assert (forall m, m = - 2 ^ 63 \/ m = 0 -> wrap64 (gt_baseBackoff t * m) <= 0) as Hw.
    { intros m [-> | ->]; [|by rewrite Z.mul_0_r]. unfold wrap64.
      replace (gt_baseBackoff t * - 2 ^ 63 + 2 ^ 63) with ((1 - gt_baseBackoff t) * 2 ^ 63) by lia.
      change (2 ^ 64) with (2 * 2 ^ 63). rewrite Z.mul_mod_distr_r by lia.
      pose proof (Z.mod_pos_bound (1 - gt_baseBackoff t) 2 ltac:(lia)). lia. }
    pose proof (Hw _ (or_introl eq_refl)) as Hw1. pose proof (Hw _ (or_intror eq_refl)) as Hw2.
    destruct (attempt =? 63); [change (1024 <? - 2 ^ 63) with false|change (1024 <? 0) with false]; cbv iota; case_match; lia.
Qed.

End Retries.

(** ** Concrete runs *)

Section Demo.

#[local] Instance demo_dates : GoHTTPTime := {| http_ParseTime := fun _ => None |}.
#[local] Instance demo_conversion : GoConversion := {| float_overflow := fun _ => - 2 ^ 63 |}.

Definition demo_answer (code : Z) (retry : string) : net_error + http_Response :=
  inr {| hr_StatusCode := code; hr_Header := fun k => if (k =? "Retry-After")%string then retry else ""; hr_Body := code |}.

(** A network that answers from a list, at a clock that stands still, and reads one
    byte of a body. *)
Definition demo_network : handler TransportE (list (net_error + http_Response)) := fun X e w =>
  match e in TransportE X return X * list (net_error + http_Response) with
  | ReadAll body => (inr body, w)
  | GetBody => (inr "", w)
  | LimiterWait | Sleep _ => (None, w)
  | Send _ => match w with a :: w' => (a, w') | [] => (demo_answer 200 "", []) end
  | BodyRead => (1%nat, w)
  | ClockNow | RandInt53 => (0, w)
  | CloseBody _ | SetServerTime _ | SetRateLimitInfo _ => (tt, w)
  end.

Definition demo_request : http_Request := {| rq_Body := Some "{}"; rq_GetBody := false |}.
Definition demo_busy : list (net_error + http_Response) := [demo_answer 503 ""; demo_answer 429 "7"; demo_answer 201 ""].
Definition demo_transport : GovernorTransport := NewGovernorTransport DefaultGovernorTransportConfig.
Definition demo_trace : list event := trace demo_network (RoundTrip demo_transport demo_request) demo_busy.

Example demo_transport_waits : sleeps demo_trace = [450000000; 6300000000] /\ left_open demo_trace = [201].
Proof. vm_compute. done. Qed.

(** What the network has read of a body is sent again. *)
Example demo_transport_rewinds : bodies demo_trace = [Some "{}"; Some "{}"; Some "{}"].
Proof. vm_compute. done. Qed.

(** A server that asks for a minute is asked again after half of it, the maximum,
    and the jitter makes the wait shorter than what was asked for even when that
    is below the maximum. *)
Example RetryAfter_is_cut :
  sleeps (trace demo_network (RoundTrip demo_transport demo_request) [demo_answer 429 "60"]) = [30 * Second] /\
  sleeps (trace demo_network (RoundTrip demo_transport demo_request) [demo_answer 429 "10"]) = [9 * Second].
Proof. vm_compute. done. Qed.


Lemma backoff_exact_witness : Z.max 0 (backoff demo_transport 70) = 0 /\ Z.max 0 (backoff demo_transport 3) = 4 * Second.
Proof.
  split.
  - refine (eq_trans (backoff_exact demo_transport 70 _ _ _ _) _); (vm_compute; reflexivity) || (vm_compute; discriminate).
  - refine (eq_trans (backoff_exact demo_transport 3 _ _ _ _) _); (vm_compute; reflexivity) || (vm_compute; discriminate).
Defined.

(** A server that asks for three centuries is asked again at once. *)
Example RetryAfter_runs_over :
  exists d, ParseRetryAfter (fun _ => "9300000000") 0 = Some d /\ d <= 0.
Proof. exists (wrap64 (9300000000 * Second)). split; vm_compute; (reflexivity || discriminate). Qed.

End Demo.
