(* ===== verification/GitLabAPI.v ===== *)
(** * The GitLab client: internal/gitlab/interfaces.go

    One effect per service of [GitLabClient], with the methods the modelled
    reconcilers call; [GitLabE] is their sum, with the request context.  The
    methods are implemented by the GitLab SDK and the server, so nothing is
    assumed of the answers here: a component whose theorems need the server's
    documented behaviour states it as a record of laws on the handler.

    The records hold the fields of the SDK's structs that the program reads.
    A Go result [( *T, *Response, error)] is a [Reply]: every part of it can be
    missing, and the code decides which one it looks at first. *)

From S2P Require Import Prelude GoLib.
Local Open Scope string_scope.
Local Open Scope list_scope.
Local Open Scope Z_scope.

Record Response : Type := { StatusCode : Z; NextPage : Z }.

Record Reply (A : Type) : Type := {
  r_val : A;
  r_resp : option Response;
  r_err : option error
}.
Arguments r_val {A}.
Arguments r_resp {A}.
Arguments r_err {A}.
Arguments Build_Reply {A}.

Definition StatusNotFound : Z := 404.

(** A call that succeeded, with status [200]. *)
Definition reply_ok {A} (a : A) : Reply A :=
  {| r_val := a; r_resp := Some {| StatusCode := 200; NextPage := 0 |}; r_err := None |}.

Definition reply_err {A} (zero : A) (status : Z) (e : error) : Reply A :=
  {| r_val := zero; r_resp := Some {| StatusCode := status; NextPage := 0 |}; r_err := Some e |}.

(** ** Entities *)

(** [gogitlab.ContainerExpirationPolicy]. *)
Record ContainerExpirationPolicy : Type := {
  ce_Cadence : string;
  ce_Enabled : bool;
  ce_KeepN : Z;
  ce_OlderThan : string;
  ce_NameRegex : string;
  ce_NameRegexDelete : string;
  ce_NameRegexKeep : string
}.

(** [gogitlab.Project], the part that the program reads. *)
Record Project : Type := {
  p_ID : Z;
  p_Name : string;
  p_Path : string;
  p_PathWithNamespace : string;
  p_DefaultBranch : string;
  p_Archived : bool;
  p_SquashOption : string;
  p_MergeMethod : string;
  p_OnlyAllowMergeIfPipelineSucceeds : bool;
  p_AllowMergeOnSkippedPipeline : bool;
  p_OnlyAllowMergeIfAllDiscussionsAreResolved : bool;
  p_RemoveSourceBranchAfterMerge : bool;
  p_KeepLatestArtifact : bool;
  p_PrintingMergeRequestLinkEnabled : bool;
  p_AutoCancelPendingPipelines : string;
  p_AutoDevopsEnabled : bool;
  p_SharedRunnersEnabled : bool;
  p_GroupRunnersEnabled : bool;
  p_Visibility : string;
  p_Topics : list string;
  p_TagList : list string;
  (** [Namespace.FullPath], when there is a namespace. *)
  p_Namespace : option string;
  (** [MarkedForDeletionAt], as [String()] prints it. *)
  p_MarkedForDeletionAt : option string;
  p_WebURL : string;
  (** In nanoseconds since 1970. *)
  p_LastActivityAt : option Z;
  p_ContainerExpirationPolicy : option ContainerExpirationPolicy
}.

Record EditProjectOptions : Type := {
  ep_DefaultBranch : option string;
  ep_SquashOption : option string;
  ep_MergeMethod : option string;
  ep_OnlyAllowMergeIfPipelineSucceeds : option bool;
  ep_AllowMergeOnSkippedPipeline : option bool;
  ep_OnlyAllowMergeIfAllDiscussionsAreResolved : option bool;
  ep_RemoveSourceBranchAfterMerge : option bool;
  ep_KeepLatestArtifact : option bool;
  ep_PrintingMergeRequestLinkEnabled : option bool;
  ep_AutoCancelPendingPipelines : option string;
  ep_AutoDevopsEnabled : option bool;
  ep_SharedRunnersEnabled : option bool;
  ep_GroupRunnersEnabled : option bool
}.

Record Group : Type := {
  g_ID : Z;
  g_Name : string;
  g_Path : string;
  g_FullPath : string;
  g_ParentID : Z;
  g_Visibility : string;
  g_Description : string;
  g_WebURL : string
}.

(** [ProjectPushRules] and [GroupPushRules] have these fields in common, and
    the four option structs have them as pointers. *)
Record PushRules : Type := {
  pr_AuthorEmailRegex : string;
  pr_BranchNameRegex : string;
  pr_CommitMessageRegex : string;
  pr_CommitMessageNegativeRegex : string;
  pr_FileNameRegex : string;
  pr_MaxFileSize : Z;
  pr_CommitCommitterCheck : bool;
  pr_MemberCheck : bool;
  pr_PreventSecrets : bool;
  pr_DenyDeleteTag : bool;
  pr_RejectUnsignedCommits : bool;
  pr_RejectNonDCOCommits : bool
}.

Record PushRuleOptions : Type := {
  po_AuthorEmailRegex : option string;
  po_BranchNameRegex : option string;
  po_CommitMessageRegex : option string;
  po_CommitMessageNegativeRegex : option string;
  po_FileNameRegex : option string;
  po_MaxFileSize : option Z;
  po_CommitCommitterCheck : option bool;
  po_MemberCheck : option bool;
  po_PreventSecrets : option bool;
  po_DenyDeleteTag : option bool;
  po_RejectUnsignedCommits : option bool;
  po_RejectNonDCOCommits : option bool
}.

Record TargetBranchRule : Type := {
  tr_ID : string;
  tr_Name : string;
  tr_TargetBranch : string
}.

Record ComplianceFramework : Type := { cf_ID : string; cf_Name : string }.

(** [gogitlab.BranchAccessDescription]. *)
Record BranchAccess : Type := {
  bl_AccessLevel : Z;
  bl_UserID : Z;
  bl_GroupID : Z;
  bl_DeployKeyID : Z
}.

Record ProtectedBranch : Type := {
  br_Name : string;
  br_PushAccessLevels : list BranchAccess;
  br_MergeAccessLevels : list BranchAccess;
  br_UnprotectAccessLevels : list BranchAccess;
  br_AllowForcePush : bool;
  br_CodeOwnerApprovalRequired : bool
}.

Record BranchPermissionOptions : Type := {
  bp_AccessLevel : option Z;
  bp_UserID : option Z;
  bp_GroupID : option Z;
  bp_DeployKeyID : option Z
}.

Record ProtectRepositoryBranchesOptions : Type := {
  pbo_Name : string;
  pbo_AllowForcePush : option bool;
  pbo_CodeOwnerApprovalRequired : option bool;
  pbo_AllowedToPush : option (list BranchPermissionOptions);
  pbo_PushAccessLevel : option Z;
  pbo_AllowedToMerge : option (list BranchPermissionOptions);
  pbo_MergeAccessLevel : option Z;
  pbo_AllowedToUnprotect : option (list BranchPermissionOptions);
  pbo_UnprotectAccessLevel : option Z
}.

(** [ProjectVariable] and [GroupVariable] have these fields in common. *)
Record Variable_ : Type := {
  va_Key : string;
  va_Value : string;
  va_VariableType : string;
  va_Protected : bool;
  va_Masked : bool;
  va_Raw : bool;
  va_EnvironmentScope : string;
  va_Description : string
}.

(** The options of a creation or an update, less the key and the scope. *)
Record VariableOptions : Type := {
  vo_Value : string;
  vo_VariableType : option string;
  vo_Protected : option bool;
  vo_Masked : option bool;
  vo_Raw : option bool;
  vo_Description : option string
}.

Record User : Type := { us_ID : Z; us_Username : string }.

(** [gogitlab.TagAccessDescription]. *)
Record TagAccess : Type := { tl_AccessLevel : Z; tl_UserID : Z; tl_GroupID : Z }.

Record ProtectedTag : Type := {
  tg_Name : string;
  tg_CreateAccessLevels : list (option TagAccess)
}.

Record TagsPermissionOptions : Type := {
  tp_AccessLevel : option Z;
  tp_UserID : option Z;
  tp_GroupID : option Z
}.

Record ProtectRepositoryTagsOptions : Type := {
  pto_Name : string;
  pto_CreateAccessLevel : option Z;
  pto_AllowedToCreate : option (list TagsPermissionOptions)
}.

Record ProjectApprovals : Type := {
  ap_ApprovalsBeforeMerge : Z;
  ap_ResetApprovalsOnPush : bool;
  ap_MergeRequestsAuthorApproval : bool;
  ap_MergeRequestsDisableCommittersApproval : bool;
  ap_DisableOverridingApproversPerMergeRequest : bool;
  ap_SelectiveCodeOwnerRemovals : bool;
  ap_RequirePasswordToApprove : bool
}.

Record ChangeApprovalConfigurationOptions : Type := {
  ac_ApprovalsBeforeMerge : option Z;
  ac_ResetApprovalsOnPush : option bool;
  ac_MergeRequestsAuthorApproval : option bool;
  ac_MergeRequestsDisableCommittersApproval : option bool;
  ac_DisableOverridingApproversPerMergeRequest : option bool;
  ac_SelectiveCodeOwnerRemovals : option bool;
  ac_RequirePasswordToApprove : option bool
}.

(** [gogitlab.ProjectApprovalRule]; the users and the groups by their number. *)
Record ProjectApprovalRule : Type := {
  ru_ID : Z;
  ru_Name : string;
  ru_RuleType : string;
  ru_ApprovalsRequired : Z;
  ru_Users : list (option Z);
  ru_Groups : list (option Z)
}.

(** The options of a creation and of an update; only a creation has a type. *)
Record ApprovalRuleOptions : Type := {
  ro_Name : string;
  ro_ApprovalsRequired : Z;
  ro_UserIDs : list Z;
  ro_GroupIDs : list Z;
  ro_ProtectedBranchIDs : option (list Z);
  ro_RuleType : option string
}.

Record ProjectHook : Type := {
  hk_ID : Z;
  hk_URL : string;
  hk_PushEvents : bool;
  hk_MergeRequestsEvents : bool;
  hk_TagPushEvents : bool;
  hk_IssuesEvents : bool;
  hk_PipelineEvents : bool;
  hk_JobEvents : bool;
  hk_ReleasesEvents : bool;
  hk_EnableSSLVerification : bool;
  hk_PushEventsBranchFilter : string
}.

(** [AddProjectHookOptions] and [EditProjectHookOptions]. *)
Record HookOptions : Type := {
  ho_URL : string;
  ho_PushEvents : option bool;
  ho_MergeRequestsEvents : option bool;
  ho_TagPushEvents : option bool;
  ho_IssuesEvents : option bool;
  ho_PipelineEvents : option bool;
  ho_JobEvents : option bool;
  ho_ReleasesEvents : option bool;
  ho_EnableSSLVerification : option bool;
  ho_PushEventsBranchFilter : option string;
  ho_Token : option string
}.

Record Runner : Type := { rr_ID : Z; rr_Description : string }.

Record RunnerDetails : Type := {
  rd_Paused : bool;
  rd_Locked : bool;
  rd_RunUntagged : bool;
  rd_AccessLevel : string;
  rd_MaximumTimeout : Z;
  rd_TagList : list string
}.

Record UpdateRunnerDetailsOptions : Type := {
  uo_Description : option string;
  uo_Paused : option bool;
  uo_Locked : option bool;
  uo_RunUntagged : option bool;
  uo_AccessLevel : option string;
  uo_MaximumTimeout : option Z;
  uo_TagList : option (list string)
}.

(** [ProjectMember] and [GroupMember]; the expiry as a Unix time. *)
Record Member : Type := {
  me_ID : Z;
  me_Username : string;
  me_AccessLevel : Z;
  me_ExpiresAt : option Z
}.

(** A branch, by the commit it points at. *)
Record Branch : Type := { bn_Commit : option string }.

Record MergeRequest : Type := {
  mq_IID : Z;
  mq_HasConflicts : bool;
  mq_DetailedMergeStatus : string;
  mq_MergeStatus : string
}.

Record CreateMergeRequestOptions : Type := {
  cm_SourceBranch : string;
  cm_TargetBranch : string;
  cm_Title : string;
  cm_Labels : list string;
  cm_Description : option string;
  cm_RemoveSourceBranch : option bool;
  cm_Squash : option bool
}.

Record AcceptMergeRequestOptions : Type := {
  am_MergeWhenPipelineSucceeds : option bool;
  am_ShouldRemoveSourceBranch : option bool;
  am_Squash : option bool
}.

(** [EnvironmentAccessDescription] and [EnvironmentApprovalRule]. *)
Record EnvironmentAccess : Type := { el_AccessLevel : Z; el_UserID : Z; el_GroupID : Z }.

Record EnvironmentApprovalRule : Type := {
  er_AccessLevel : Z;
  er_UserID : Z;
  er_GroupID : Z;
  er_RequiredApprovalCount : Z
}.

Record ProtectedEnvironment : Type := {
  en_Name : string;
  en_DeployAccessLevels : list (option EnvironmentAccess);
  en_RequiredApprovalCount : Z;
  en_ApprovalRules : list (option EnvironmentApprovalRule)
}.

Record EnvironmentAccessOptions : Type := {
  eo_AccessLevel : option Z;
  eo_UserID : option Z;
  eo_GroupID : option Z
}.

Record EnvironmentApprovalRuleOptions : Type := {
  eu_AccessLevel : option Z;
  eu_UserID : option Z;
  eu_GroupID : option Z;
  eu_RequiredApprovalCount : option Z
}.

Record ProtectRepositoryEnvironmentsOptions : Type := {
  peo_Name : string;
  peo_RequiredApprovalCount : option Z;
  peo_DeployAccessLevels : option (list EnvironmentAccessOptions);
  peo_ApprovalRules : option (list EnvironmentApprovalRuleOptions)
}.

(** ** Services *)

(** Whether a service is asked about a project or a group. *)
Variant scope_kind : Type := OnProject | OnGroup.

(** An [*http.Response]: [Header.Get] is a function of the canonical name. *)
Record HTTPResponse : Type := { http_StatusCode : Z; http_Header : string -> string }.

(** The pagination fields of the list options; empty strings and [None] are
    fields left unset. *)
Record ListRequest : Type := {
  lr_PerPage : Z;
  lr_Pagination : string;
  lr_OrderBy : option string;
  lr_Sort : option string;
  lr_IDAfter : option Z;
  lr_PageToken : string;
  lr_Page : Z
}.

(** A page of a listing that is streamed: items, response, error. *)
Abbreviation Listing A := (list (option A) * option HTTPResponse * option error)%type.

Variant ProjectsE : Type -> Type :=
| GetProject (pid : Z) : ProjectsE (Reply (option Project))
| EditProject (pid : Z) (opt : EditProjectOptions) : ProjectsE (Reply unit)
| GetProjectPipelineRetention (pid : Z) : ProjectsE (Reply Z)
| SetProjectPipelineRetention (pid seconds : Z) : ProjectsE (Reply unit)
| ListProjects (req : ListRequest) : ProjectsE (Listing Project).

Variant PushRulesE : Type -> Type :=
| GetPushRule (k : scope_kind) (id : Z) : PushRulesE (Reply (option PushRules))
| AddPushRule (k : scope_kind) (id : Z) (opt : PushRuleOptions) : PushRulesE (Reply unit)
| EditPushRule (k : scope_kind) (id : Z) (opt : PushRuleOptions) : PushRulesE (Reply unit).

Variant ProtectedBranchesE : Type -> Type :=
| ListProtectedBranches (pid page : Z) : ProtectedBranchesE (Reply (list ProtectedBranch))
| ProtectRepositoryBranches (pid : Z) (opt : ProtectRepositoryBranchesOptions)
  : ProtectedBranchesE (Reply unit)
| UnprotectRepositoryBranches (pid : Z) (branch : string) : ProtectedBranchesE (Reply unit)
| UpdateProtectedBranch (pid : Z) (branch : string) (codeOwnerApprovalRequired : option bool)
  : ProtectedBranchesE (Reply unit).

(** The variable services.  A list is one page of at most a hundred and holds
    pointers, so an element can be [nil].  The project's methods select the
    variable to change by a [VariableFilter] ([filter]); the group's update
    passes the scope as a field to set ([newScope]) and its removal passes
    none. *)
Variant VariablesE : Type -> Type :=
| ListVariables (k : scope_kind) (id : Z) : VariablesE (Reply (list (option Variable_)))
| CreateVariable (k : scope_kind) (id : Z) (key scope : string) (opt : VariableOptions)
  : VariablesE (Reply unit)
| UpdateVariable (k : scope_kind) (id : Z) (key : string) (filter newScope : option string)
    (opt : VariableOptions) : VariablesE (Reply unit)
| RemoveVariable (k : scope_kind) (id : Z) (key : string) (filter : option string)
  : VariablesE (Reply unit).

Variant ComplianceE : Type -> Type :=
| GetProjectComplianceFrameworks (pid : Z) : ComplianceE (error + list ComplianceFramework)
| SetProjectComplianceFramework (pid : Z) (frameworkID : string) : ComplianceE (option error)
| RemoveProjectComplianceFramework (pid : Z) (frameworkID : string) : ComplianceE (option error).

Variant TargetBranchRulesE : Type -> Type :=
| GetTargetBranchRules (path : string) : TargetBranchRulesE (error + list TargetBranchRule)
| CreateTargetBranchRule (pid : Z) (name targetBranch : string) : TargetBranchRulesE (option error)
| DestroyTargetBranchRule (ruleID : string) : TargetBranchRulesE (option error).

(** [gid any] is a number or a full path; [ListGroups] is the raw client's list
    of the top-level groups. *)
Variant GroupsE : Type -> Type :=
| GetGroup (gid : Z + string) : GroupsE (Reply (option Group))
| ListSubgroups (gid page : Z) : GroupsE (Reply (list (option Group)))
| ListGroups (page : Z) : GroupsE (Reply (list (option Group)))
| ListGroupProjects (gid : Z) (req : ListRequest) : GroupsE (Listing Project).

(** [ListUsers] with a user name. *)
Variant UsersE : Type -> Type :=
| ListUsers (username : string) : UsersE (Reply (list User)).

Variant ProtectedTagsE : Type -> Type :=
| ListProtectedTags (pid page : Z) : ProtectedTagsE (Reply (list (option ProtectedTag)))
| ProtectRepositoryTags (pid : Z) (opt : ProtectRepositoryTagsOptions) : ProtectedTagsE (Reply unit)
| UnprotectRepositoryTags (pid : Z) (tag : string) : ProtectedTagsE (Reply unit).

(** [GetProjectApprovalRules] without options: the first page. *)
Variant ApprovalRulesE : Type -> Type :=
| GetApprovalConfiguration (pid : Z) : ApprovalRulesE (Reply (option ProjectApprovals))
| ChangeApprovalConfiguration (pid : Z) (opt : ChangeApprovalConfigurationOptions)
  : ApprovalRulesE (Reply unit)
| GetProjectApprovalRules (pid : Z) : ApprovalRulesE (Reply (list (option ProjectApprovalRule)))
| CreateProjectApprovalRule (pid : Z) (opt : ApprovalRuleOptions) : ApprovalRulesE (Reply unit)
| UpdateProjectApprovalRule (pid rule : Z) (opt : ApprovalRuleOptions) : ApprovalRulesE (Reply unit)
| DeleteProjectApprovalRule (pid rule : Z) : ApprovalRulesE (Reply unit).

(** [ListProjectHooks] with empty options: the first page. *)
Variant WebhooksE : Type -> Type :=
| ListProjectHooks (pid : Z) : WebhooksE (Reply (list (option ProjectHook)))
| AddProjectHook (pid : Z) (opt : HookOptions) : WebhooksE (Reply unit)
| EditProjectHook (pid hook : Z) (opt : HookOptions) : WebhooksE (Reply unit)
| DeleteProjectHook (pid hook : Z) : WebhooksE (Reply unit).

Variant RunnersE : Type -> Type :=
| ListProjectRunners (pid : Z) : RunnersE (Reply (list Runner))
| GetRunnerDetails (rid : Z) : RunnersE (Reply RunnerDetails)
| UpdateRunnerDetails (rid : Z) (opt : UpdateRunnerDetailsOptions) : RunnersE (Reply unit).

Variant MembersE : Type -> Type :=
| ListProjectMembers (pid : Z) : MembersE (Reply (list (option Member)))
| ListAllProjectMembers (pid : Z) : MembersE (Reply (list (option Member)))
| ListAllGroupMembers (gid : Z) : MembersE (Reply (list (option Member))).

Variant RepositoryFilesE : Type -> Type :=
| GetRawFile (pid : Z) (path ref : string) : RepositoryFilesE (Reply string)
| CreateFile (pid : Z) (path branch content message : string) : RepositoryFilesE (Reply unit)
| UpdateFile (pid : Z) (path branch content message : string) : RepositoryFilesE (Reply unit).

Variant BranchesE : Type -> Type :=
| GetBranch (pid : Z) (branch : string) : BranchesE (Reply Branch)
| CreateBranch (pid : Z) (branch ref : string) : BranchesE (Reply unit).

(** [ListProjectMergeRequests] asks for the open ones of two branches. *)
Variant MergeRequestsE : Type -> Type :=
| ListProjectMergeRequests (pid : Z) (source target : string) : MergeRequestsE (Reply (list MergeRequest))
| GetMergeRequest (pid iid : Z) : MergeRequestsE (Reply (option MergeRequest))
| CreateMergeRequest (pid : Z) (opt : CreateMergeRequestOptions) : MergeRequestsE (Reply (option MergeRequest))
| AcceptMergeRequest (pid iid : Z) (opt : AcceptMergeRequestOptions) : MergeRequestsE (Reply unit).

Variant ProtectedEnvironmentsE : Type -> Type :=
| ListProtectedEnvironments (pid page : Z) : ProtectedEnvironmentsE (Reply (list (option ProtectedEnvironment)))
| ProtectRepositoryEnvironments (pid : Z) (opt : ProtectRepositoryEnvironmentsOptions)
  : ProtectedEnvironmentsE (Reply unit)
| UnprotectEnvironment (pid : Z) (environment : string) : ProtectedEnvironmentsE (Reply unit).

(** The project's environments, by name. *)
Variant EnvironmentsE : Type -> Type :=
| ListEnvironments (pid page : Z) : EnvironmentsE (Reply (list (option string))).

(** The [CachingResolver] of an operation, by the operation's name: the number
    of a user, or of a group.  [Resolver.v] answers these calls. *)
Variant ResolverE : Type -> Type :=
| ResolveUsername (owner username : string) : ResolverE (error + Z)
| ResolveGroupPath (owner groupPath : string) : ResolverE (error + Z).

(** [time.Now()], as a Unix time. *)
Variant ClockE : Type -> Type :=
| Now : ClockE Z.

(** [ctx.Err()], which [<-ctx.Done()] has made non-nil when it fires. *)
Variant ContextE : Type -> Type :=
| CtxErr : ContextE (option error).

Variant GitLabE : Type -> Type :=
| Context_ {X} (e : ContextE X) : GitLabE X
| Projects {X} (e : ProjectsE X) : GitLabE X
| Groups {X} (e : GroupsE X) : GitLabE X
| PushRules_ {X} (e : PushRulesE X) : GitLabE X
| ProtectedBranches {X} (e : ProtectedBranchesE X) : GitLabE X
| Variables {X} (e : VariablesE X) : GitLabE X
| Compliance {X} (e : ComplianceE X) : GitLabE X
| TargetBranchRules {X} (e : TargetBranchRulesE X) : GitLabE X
| Users_ {X} (e : UsersE X) : GitLabE X
| ProtectedTags_ {X} (e : ProtectedTagsE X) : GitLabE X
| ApprovalRules_ {X} (e : ApprovalRulesE X) : GitLabE X
| Webhooks_ {X} (e : WebhooksE X) : GitLabE X
| Runners_ {X} (e : RunnersE X) : GitLabE X
| Members_ {X} (e : MembersE X) : GitLabE X
| RepositoryFiles_ {X} (e : RepositoryFilesE X) : GitLabE X
| Branches_ {X} (e : BranchesE X) : GitLabE X
| MergeRequests_ {X} (e : MergeRequestsE X) : GitLabE X
| ProtectedEnvironments_ {X} (e : ProtectedEnvironmentsE X) : GitLabE X
| Environments_ {X} (e : EnvironmentsE X) : GitLabE X
| Resolver_ {X} (e : ResolverE X) : GitLabE X
| Clock_ {X} (e : ClockE X) : GitLabE X.

Abbreviation GP := (prog GitLabE) (only parsing).

(** A call that only reads: the HTTP [GET]s and GraphQL queries. *)
Definition is_read {X} (e : GitLabE X) : bool :=
  match e with
  | Context_ _ => true
  | Groups _ => true
  | Projects (GetProject _) | Projects (ListProjects _) | Projects (GetProjectPipelineRetention _) => true
  | PushRules_ (GetPushRule _ _) => true
  | ProtectedBranches (ListProtectedBranches _ _) => true
  | Variables (ListVariables _ _) => true
  | Compliance (GetProjectComplianceFrameworks _) => true
  | TargetBranchRules (GetTargetBranchRules _) => true
  | Users_ _ | Members_ _ | Environments_ _ | Resolver_ _ | Clock_ _ => true
  | ProtectedTags_ (ListProtectedTags _ _) => true
  | ApprovalRules_ (GetApprovalConfiguration _) | ApprovalRules_ (GetProjectApprovalRules _) => true
  | Webhooks_ (ListProjectHooks _) => true
  | Runners_ (ListProjectRunners _) | Runners_ (GetRunnerDetails _) => true
  | RepositoryFiles_ (GetRawFile _ _ _) => true
  | Branches_ (GetBranch _ _) => true
  | MergeRequests_ (ListProjectMergeRequests _ _ _) | MergeRequests_ (GetMergeRequest _ _) => true
  | ProtectedEnvironments_ (ListProtectedEnvironments _ _) => true
  | _ => false
  end.

(** The cases of a call, service by service. *)
Ltac destruct_call e :=
  destruct e as [? e|? e|? e|? e|? e|? e|? e|? e|? e|? e|? e|? e|? e|? e|? e|? e|? e|? e|? e|? e|? e]; destruct e.

(** A program that cannot change anything on the server. *)
Definition reads {A} (p : GP A) : Prop := only (fun X e => is_read e = true) p.

(** A server that a read does not change, and that answers the same question
    the same way until something changes. *)
Definition stable_reads {W} (h : handler GitLabE W) : Prop :=
  forall X (e : GitLabE X) w, is_read e = true -> (h X e w).2 = w.

Lemma run_reads {W A} (h : handler GitLabE W) (p : GP A) w :
  stable_reads h -> reads p -> (run h p w).2 = w.
Proof.
  intros Hs. revert w. induction p as [a|X e k IH]; intros w Hr; [done|].
  destruct Hr as [He Hk]. simpl. pose proof (Hs X e w He) as Hw.
  destruct (h X e w) as [x w']. simpl in Hw. subst w'. apply IH, Hk.
Qed.

Lemma advance_reads {W A} (h : handler GitLabE W) (p p' : GP A) w w' :
  stable_reads h -> reads p -> advance h p w = Some (p', w') -> reads p' /\ w' = w.
Proof.
  intros Hs Hr. destruct p as [a|X e k]; simpl; [done|]. destruct Hr as [He Hk]. pose proof (Hs X e w He) as Hw.
  destruct (h X e w) as [x w1]. simpl in Hw. subst w1. intros [= <- <-]. by split; [apply Hk|].
Qed.

Lemma reads_ret {A} (a : A) : reads (mret a).
Proof. done. Qed.

Lemma reads_call {X} (e : GitLabE X) : is_read e = true -> reads (call e).
Proof. by split. Qed.

Lemma reads_bind {A B} (p : GP A) (f : A -> GP B) :
  reads p -> (forall a, reads (f a)) -> reads (p ≫= f).
Proof. apply only_bind. Qed.

(** Decides [reads] by following the program. *)
Ltac reads :=
  repeat first
    [ apply reads_ret | apply reads_call; reflexivity | done
    | apply reads_bind; [|intros] | case_match ].
