(* ===== verification/Server.v ===== *)
(** * A concrete GitLab, for the witnesses

    A small server that answers every call of [GitLabE] from a store, the way
    the GitLab API documents it.  The theorems do not depend on it: they are
    about every server that satisfies the laws of a component, and the
    witnesses show that this one does. *)

From S2P Require Import Prelude GoLib Config GitLabAPI.
Local Open Scope string_scope.
Local Open Scope list_scope.
Local Open Scope Z_scope.

#[export] Instance scope_kind_eq_dec : EqDecision scope_kind.
Proof. solve_decision. Defined.

Definition set1 {A} (f : Z -> A) (i : Z) (a : A) : Z -> A := fun j => if j =? i then a else f j.
Definition set2 {A} (f : scope_kind -> Z -> A) (k : scope_kind) (i : Z) (a : A)
  : scope_kind -> Z -> A := fun k' j => if bool_decide (k' = k) && (j =? i) then a else f k' j.

Lemma set1_same {A} (f : Z -> A) i a : set1 f i a i = a.
Proof. unfold set1. by rewrite Z.eqb_refl. Qed.

Lemma set2_same {A} (f : scope_kind -> Z -> A) k i a : set2 f k i a k i = a.
Proof. unfold set2. by rewrite bool_decide_eq_true_2, Z.eqb_refl. Qed.

(** [if o != nil { field = *o }]. *)
Definition set_opt {A} (o : option A) (old : A) : A := match o with Some a => a | None => old end.

(** What the server makes of the options: the fields given are set, the others
    keep their value. *)
Definition set_options (o : PushRuleOptions) (r : PushRules) : PushRules := {|
  pr_AuthorEmailRegex := set_opt (po_AuthorEmailRegex o) (pr_AuthorEmailRegex r);
  pr_BranchNameRegex := set_opt (po_BranchNameRegex o) (pr_BranchNameRegex r);
  pr_CommitMessageRegex := set_opt (po_CommitMessageRegex o) (pr_CommitMessageRegex r);
  pr_CommitMessageNegativeRegex := set_opt (po_CommitMessageNegativeRegex o) (pr_CommitMessageNegativeRegex r);
  pr_FileNameRegex := set_opt (po_FileNameRegex o) (pr_FileNameRegex r);
  pr_MaxFileSize := set_opt (po_MaxFileSize o) (pr_MaxFileSize r);
  pr_CommitCommitterCheck := set_opt (po_CommitCommitterCheck o) (pr_CommitCommitterCheck r);
  pr_MemberCheck := set_opt (po_MemberCheck o) (pr_MemberCheck r);
  pr_PreventSecrets := set_opt (po_PreventSecrets o) (pr_PreventSecrets r);
  pr_DenyDeleteTag := set_opt (po_DenyDeleteTag o) (pr_DenyDeleteTag r);
  pr_RejectUnsignedCommits := set_opt (po_RejectUnsignedCommits o) (pr_RejectUnsignedCommits r);
  pr_RejectNonDCOCommits := set_opt (po_RejectNonDCOCommits o) (pr_RejectNonDCOCommits r)
|}.

Definition zero_PushRules : PushRules :=
  Build_PushRules "" "" "" "" "" 0 false false false false false false.

Definition edit_project (o : EditProjectOptions) (p : Project) : Project := {|
  p_ID := p_ID p;
  p_Name := p_Name p;
  p_Path := p_Path p;
  p_PathWithNamespace := p_PathWithNamespace p;
  p_DefaultBranch := set_opt (ep_DefaultBranch o) (p_DefaultBranch p);
  p_Archived := p_Archived p;
  p_SquashOption := set_opt (ep_SquashOption o) (p_SquashOption p);
  p_MergeMethod := set_opt (ep_MergeMethod o) (p_MergeMethod p);
  p_OnlyAllowMergeIfPipelineSucceeds :=
    set_opt (ep_OnlyAllowMergeIfPipelineSucceeds o) (p_OnlyAllowMergeIfPipelineSucceeds p);
  p_AllowMergeOnSkippedPipeline :=
    set_opt (ep_AllowMergeOnSkippedPipeline o) (p_AllowMergeOnSkippedPipeline p);
  p_OnlyAllowMergeIfAllDiscussionsAreResolved :=
    set_opt (ep_OnlyAllowMergeIfAllDiscussionsAreResolved o)
      (p_OnlyAllowMergeIfAllDiscussionsAreResolved p);
  p_RemoveSourceBranchAfterMerge :=
    set_opt (ep_RemoveSourceBranchAfterMerge o) (p_RemoveSourceBranchAfterMerge p);
  p_KeepLatestArtifact := set_opt (ep_KeepLatestArtifact o) (p_KeepLatestArtifact p);
  p_PrintingMergeRequestLinkEnabled :=
    set_opt (ep_PrintingMergeRequestLinkEnabled o) (p_PrintingMergeRequestLinkEnabled p);
  p_AutoCancelPendingPipelines :=
    set_opt (ep_AutoCancelPendingPipelines o) (p_AutoCancelPendingPipelines p);
  p_AutoDevopsEnabled := set_opt (ep_AutoDevopsEnabled o) (p_AutoDevopsEnabled p);
  p_SharedRunnersEnabled := set_opt (ep_SharedRunnersEnabled o) (p_SharedRunnersEnabled p);
  p_GroupRunnersEnabled := set_opt (ep_GroupRunnersEnabled o) (p_GroupRunnersEnabled p);
  p_Visibility := p_Visibility p;
  p_Topics := p_Topics p;
  p_TagList := p_TagList p;
  p_Namespace := p_Namespace p;
  p_MarkedForDeletionAt := p_MarkedForDeletionAt p;
  p_WebURL := p_WebURL p; p_LastActivityAt := p_LastActivityAt p;
  p_ContainerExpirationPolicy := p_ContainerExpirationPolicy p
|}.

(** The access levels the server records for a protection. *)
Definition permission_access (p : BranchPermissionOptions) : BranchAccess := {|
  bl_AccessLevel := set_opt (bp_AccessLevel p) 0;
  bl_UserID := set_opt (bp_UserID p) 0;
  bl_GroupID := set_opt (bp_GroupID p) 0;
  bl_DeployKeyID := set_opt (bp_DeployKeyID p) 0
|}.

Definition protected_as (o : ProtectRepositoryBranchesOptions) : ProtectedBranch := {|
  br_Name := pbo_Name o;
  br_PushAccessLevels := permission_access <$> set_opt (pbo_AllowedToPush o) [];
  br_MergeAccessLevels := permission_access <$> set_opt (pbo_AllowedToMerge o) [];
  br_UnprotectAccessLevels := permission_access <$> set_opt (pbo_AllowedToUnprotect o) [];
  br_AllowForcePush := set_opt (pbo_AllowForcePush o) false;
  br_CodeOwnerApprovalRequired := set_opt (pbo_CodeOwnerApprovalRequired o) false
|}.

(** An update of the code owner flag. *)
Definition set_code_owner (co : option bool) (b : ProtectedBranch) : ProtectedBranch := {|
  br_Name := br_Name b; br_PushAccessLevels := br_PushAccessLevels b;
  br_MergeAccessLevels := br_MergeAccessLevels b; br_UnprotectAccessLevels := br_UnprotectAccessLevels b;
  br_AllowForcePush := br_AllowForcePush b;
  br_CodeOwnerApprovalRequired := set_opt co (br_CodeOwnerApprovalRequired b)
|}.

Definition new_variable (key scope : string) (o : VariableOptions) : Variable_ := {|
  va_Key := key;
  va_Value := vo_Value o;
  va_VariableType := set_opt (vo_VariableType o) "env_var";
  va_Protected := set_opt (vo_Protected o) false;
  va_Masked := set_opt (vo_Masked o) false;
  va_Raw := set_opt (vo_Raw o) false;
  va_EnvironmentScope := scope;
  va_Description := set_opt (vo_Description o) ""
|}.

Definition edit_variable (o : VariableOptions) (v : Variable_) : Variable_ := {|
  va_Key := va_Key v;
  va_Value := vo_Value o;
  va_VariableType := set_opt (vo_VariableType o) (va_VariableType v);
  va_Protected := set_opt (vo_Protected o) (va_Protected v);
  va_Masked := set_opt (vo_Masked o) (va_Masked v);
  va_Raw := set_opt (vo_Raw o) (va_Raw v);
  va_EnvironmentScope := va_EnvironmentScope v;
  va_Description := set_opt (vo_Description o) (va_Description v)
|}.

(** What identifies a variable: its key and its scope, ["*"] by default. *)
Definition variable_id (key scope : string) : string :=
  TrimSpace key +:+ "::" +:+ TrimSpace (or_string scope "*").

Definition is_variable (key scope : string) (v : Variable_) : bool :=
  (variable_id (va_Key v) (va_EnvironmentScope v) =? variable_id key scope)%string.

Definition selects (key : string) (scope : option string) (v : Variable_) : bool :=
  match scope with Some scope => is_variable key scope v | None => (va_Key v =? key)%string end.

(** ** The store and the handler *)

Record server : Type := {
  sv_project : Z -> option Project;
  sv_retention : Z -> Z;
  sv_push : scope_kind -> Z -> option PushRules;
  sv_branches : Z -> list ProtectedBranch;
  sv_vars : scope_kind -> Z -> list Variable_;
  sv_frameworks : Z -> list ComplianceFramework;
  sv_rules : list TargetBranchRule;
  sv_groups : list Group;
  sv_next : Z
}.

Definition empty_server : server := {|
  sv_project := fun _ => None; sv_retention := fun _ => 0; sv_push := fun _ _ => None;
  sv_branches := fun _ => []; sv_vars := fun _ _ => []; sv_frameworks := fun _ => [];
  sv_rules := []; sv_groups := []; sv_next := 1
|}.

Definition with_projects w x := {| sv_project := x; sv_retention := sv_retention w; sv_push := sv_push w;
  sv_branches := sv_branches w; sv_vars := sv_vars w; sv_frameworks := sv_frameworks w;
  sv_rules := sv_rules w; sv_groups := sv_groups w;
  sv_next := sv_next w |}.
Definition with_retention w x := {| sv_project := sv_project w; sv_retention := x; sv_push := sv_push w;
  sv_branches := sv_branches w; sv_vars := sv_vars w; sv_frameworks := sv_frameworks w;
  sv_rules := sv_rules w; sv_groups := sv_groups w;
  sv_next := sv_next w |}.
Definition with_push w x := {| sv_project := sv_project w; sv_retention := sv_retention w; sv_push := x;
  sv_branches := sv_branches w; sv_vars := sv_vars w; sv_frameworks := sv_frameworks w;
  sv_rules := sv_rules w; sv_groups := sv_groups w;
  sv_next := sv_next w |}.
Definition with_branches w x := {| sv_project := sv_project w; sv_retention := sv_retention w;
  sv_push := sv_push w; sv_branches := x; sv_vars := sv_vars w; sv_frameworks := sv_frameworks w;
  sv_rules := sv_rules w; sv_groups := sv_groups w;
  sv_next := sv_next w |}.
Definition with_vars w x := {| sv_project := sv_project w; sv_retention := sv_retention w;
  sv_push := sv_push w; sv_branches := sv_branches w; sv_vars := x; sv_frameworks := sv_frameworks w;
  sv_rules := sv_rules w; sv_groups := sv_groups w;
  sv_next := sv_next w |}.
Definition with_frameworks w x := {| sv_project := sv_project w; sv_retention := sv_retention w;
  sv_push := sv_push w; sv_branches := sv_branches w; sv_vars := sv_vars w; sv_frameworks := x;
  sv_rules := sv_rules w; sv_groups := sv_groups w;
  sv_next := sv_next w |}.
Definition with_rules w x := {| sv_project := sv_project w; sv_retention := sv_retention w;
  sv_push := sv_push w; sv_branches := sv_branches w; sv_vars := sv_vars w;
  sv_frameworks := sv_frameworks w; sv_rules := x; sv_groups := sv_groups w;
  sv_next := sv_next w + 1 |}.

Definition not_found {A} (zero : A) : Reply A := reply_err zero 404 (ErrNew "404 Not Found").

(** The store finds projects by number only: its listings are empty. *)
Definition empty_listing : Listing Project :=
  ([], Some {| http_StatusCode := 200; http_Header := fun _ => "" |}, None).

Definition projects_handler : handler ProjectsE server := fun X e w =>
  match e in ProjectsE X return X * server with
  | GetProject pid =>
      (match sv_project w pid with Some p => reply_ok (Some p) | None => not_found None end, w)
  | EditProject pid opt =>
      match sv_project w pid with
      | Some p => (reply_ok tt, with_projects w (set1 (sv_project w) pid (Some (edit_project opt p))))
      | None => (not_found tt, w)
      end
  | GetProjectPipelineRetention pid => (reply_ok (sv_retention w pid), w)
  | SetProjectPipelineRetention pid s => (reply_ok tt, with_retention w (set1 (sv_retention w) pid s))
  | ListProjects req => (empty_listing, w)
  end.

Definition push_handler : handler PushRulesE server := fun X e w =>
  match e in PushRulesE X return X * server with
  | GetPushRule k id =>
      (match sv_push w k id with Some r => reply_ok (Some r) | None => not_found None end, w)
  | AddPushRule k id opt =>
      match sv_push w k id with
      | Some _ => (reply_err tt 422 (ErrNew "422 Unprocessable Entity"), w)
      | None => (reply_ok tt, with_push w (set2 (sv_push w) k id (Some (set_options opt zero_PushRules))))
      end
  | EditPushRule k id opt =>
      match sv_push w k id with
      | Some r => (reply_ok tt, with_push w (set2 (sv_push w) k id (Some (set_options opt r))))
      | None => (not_found tt, w)
      end
  end.

Definition per_page : nat := 100.

(** GitLab's page, when the request names no size. *)
Definition default_page : nat := 20.

(** One page of a list, and the number of the next page. *)
Definition page_of {A} (l : list A) (page : Z) : Reply (list A) :=
  let skip := (per_page * Z.to_nat (page - 1))%nat in {|
    r_val := take per_page (drop skip l);
    r_resp := Some {| StatusCode := 200;
                      NextPage := if (skip + per_page <? length l)%nat then page + 1 else 0 |};
    r_err := None
  |}.

Definition branches_handler : handler ProtectedBranchesE server := fun X e w =>
  match e in ProtectedBranchesE X return X * server with
  | ListProtectedBranches pid page => (page_of (sv_branches w pid) page, w)
  | ProtectRepositoryBranches pid opt =>
      if existsb (fun b => br_Name b =? pbo_Name opt)%string (sv_branches w pid)
      then (reply_err tt 409 (ErrNew "409 Conflict"), w)
      else (reply_ok tt,
            with_branches w (set1 (sv_branches w) pid (sv_branches w pid ++ [protected_as opt])))
  | UnprotectRepositoryBranches pid name =>
      if existsb (fun b => br_Name b =? name)%string (sv_branches w pid)
      then (reply_ok tt,
            with_branches w (set1 (sv_branches w) pid
                               (List.filter (fun b => negb (br_Name b =? name)%string) (sv_branches w pid))))
      else (not_found tt, w)
  | UpdateProtectedBranch pid name co =>
      if existsb (fun b => br_Name b =? name)%string (sv_branches w pid)
      then (reply_ok tt,
            with_branches w (set1 (sv_branches w) pid
              (map (fun b => if (br_Name b =? name)%string then set_code_owner co b else b)
                 (sv_branches w pid))))
      else (not_found tt, w)
  end.

Definition variables_handler : handler VariablesE server := fun X e w =>
  match e in VariablesE X return X * server with
  | ListVariables k id => (reply_ok (Some <$> sv_vars w k id), w)
  | CreateVariable k id key scope opt =>
      if existsb (is_variable key scope) (sv_vars w k id)
      then (reply_err tt 400 (ErrNew "400 key has already been taken"), w)
      else (reply_ok tt,
            with_vars w (set2 (sv_vars w) k id (sv_vars w k id ++ [new_variable key scope opt])))
  | UpdateVariable k id key filter newScope opt =>
      let selected := selects key (match filter with None => newScope | f => f end) in
      if existsb selected (sv_vars w k id)
      then (reply_ok tt,
            with_vars w (set2 (sv_vars w) k id
              (map (fun v => if selected v then edit_variable opt v else v) (sv_vars w k id))))
      else (not_found tt, w)
  | RemoveVariable k id key filter =>
      let gone := selects key filter in
      if existsb gone (sv_vars w k id)
      then (reply_ok tt,
            with_vars w (set2 (sv_vars w) k id (List.filter (fun v => negb (gone v)) (sv_vars w k id))))
      else (not_found tt, w)
  end.

Definition compliance_handler : handler ComplianceE server := fun X e w =>
  match e in ComplianceE X return X * server with
  | GetProjectComplianceFrameworks pid => (inr (sv_frameworks w pid), w)
  | SetProjectComplianceFramework pid fid =>
      (None, with_frameworks w (set1 (sv_frameworks w) pid [{| cf_ID := fid; cf_Name := fid |}]))
  | RemoveProjectComplianceFramework pid fid =>
      (None, with_frameworks w (set1 (sv_frameworks w) pid []))
  end.

(** Target branch rules of the one project the store has, newest first. *)
Definition rules_handler : handler TargetBranchRulesE server := fun X e w =>
  match e in TargetBranchRulesE X return X * server with
  | GetTargetBranchRules path => (inr (sv_rules w), w)
  | CreateTargetBranchRule pid name target =>
      (None, with_rules w ({| tr_ID := Itoa (sv_next w); tr_Name := name; tr_TargetBranch := target |}
                             :: sv_rules w))
  | DestroyTargetBranchRule id =>
      if existsb (fun r => tr_ID r =? id)%string (sv_rules w)
      then (None, with_rules w (List.filter (fun r => negb (tr_ID r =? id)%string) (sv_rules w)))
      else (Some (ErrNew "rule not found"), w)
  end.

(** The group hierarchy, read by parent. *)
Definition subgroups_of (w : server) (parent : Z) : list Group :=
  List.filter (fun g => g_ParentID g =? parent) (sv_groups w).

Definition groups_handler : handler GroupsE server := fun X e w =>
  match e in GroupsE X return X * server with
  | GetGroup gid =>
      (match List.find (fun g => match gid with inl id => g_ID g =? id
                                 | inr path => (g_FullPath g =? path)%string end) (sv_groups w) with
       | Some g => reply_ok (Some g)
       | None => not_found None
       end, w)
  | ListSubgroups gid page => (page_of (Some <$> subgroups_of w gid) page, w)
  | ListGroups page => (page_of (Some <$> subgroups_of w 0) page, w)
  | ListGroupProjects gid req => (empty_listing, w)
  end.

(** What a service the store does not hold answers. *)
Definition absent {A} (zero : A) : Reply A := not_found zero.

Definition absent_call {X} (e : GitLabE X) : X :=
  match e in GitLabE X return X with
  | Context_ e => match e in ContextE X return X with CtxErr => None end
  | Projects e =>
      match e in ProjectsE X return X with
      | GetProject _ => absent None | EditProject _ _ => absent tt | GetProjectPipelineRetention _ => absent 0
      | SetProjectPipelineRetention _ _ => absent tt | ListProjects _ => empty_listing
      end
  | Groups e =>
      match e in GroupsE X return X with
      | GetGroup _ => absent None | ListSubgroups _ _ => reply_ok [] | ListGroups _ => reply_ok []
      | ListGroupProjects _ _ => empty_listing
      end
  | PushRules_ e =>
      match e in PushRulesE X return X with
      | GetPushRule _ _ => absent None | AddPushRule _ _ _ => absent tt | EditPushRule _ _ _ => absent tt
      end
  | ProtectedBranches e =>
      match e in ProtectedBranchesE X return X with
      | ListProtectedBranches _ _ => reply_ok [] | ProtectRepositoryBranches _ _ => absent tt
      | UnprotectRepositoryBranches _ _ => absent tt | UpdateProtectedBranch _ _ _ => absent tt
      end
  | Variables e =>
      match e in VariablesE X return X with
      | ListVariables _ _ => reply_ok [] | CreateVariable _ _ _ _ _ => absent tt
      | UpdateVariable _ _ _ _ _ _ => absent tt | RemoveVariable _ _ _ _ => absent tt
      end
  | Compliance e =>
      match e in ComplianceE X return X with
      | GetProjectComplianceFrameworks _ => inr [] | SetProjectComplianceFramework _ _ => None
      | RemoveProjectComplianceFramework _ _ => None
      end
  | TargetBranchRules e =>
      match e in TargetBranchRulesE X return X with
      | GetTargetBranchRules _ => inr [] | CreateTargetBranchRule _ _ _ => None | DestroyTargetBranchRule _ => None
      end
  | Users_ e => match e in UsersE X return X with ListUsers _ => reply_ok [] end
  | ProtectedTags_ e =>
      match e in ProtectedTagsE X return X with
      | ListProtectedTags _ _ => reply_ok [] | ProtectRepositoryTags _ _ => absent tt
      | UnprotectRepositoryTags _ _ => absent tt
      end
  | ApprovalRules_ e =>
      match e in ApprovalRulesE X return X with
      | GetApprovalConfiguration _ => absent None | ChangeApprovalConfiguration _ _ => absent tt
      | GetProjectApprovalRules _ => reply_ok [] | CreateProjectApprovalRule _ _ => absent tt
      | UpdateProjectApprovalRule _ _ _ => absent tt | DeleteProjectApprovalRule _ _ => absent tt
      end
  | Webhooks_ e =>
      match e in WebhooksE X return X with
      | ListProjectHooks _ => reply_ok [] | AddProjectHook _ _ => absent tt
      | EditProjectHook _ _ _ => absent tt | DeleteProjectHook _ _ => absent tt
      end
  | Runners_ e =>
      match e in RunnersE X return X with
      | ListProjectRunners _ => reply_ok []
      | GetRunnerDetails _ => absent (Build_RunnerDetails false false false "" 0 [])
      | UpdateRunnerDetails _ _ => absent tt
      end
  | Members_ e =>
      match e in MembersE X return X with
      | ListProjectMembers _ => reply_ok [] | ListAllProjectMembers _ => reply_ok []
      | ListAllGroupMembers _ => reply_ok []
      end
  | RepositoryFiles_ e =>
      match e in RepositoryFilesE X return X with
      | GetRawFile _ _ _ => absent "" | CreateFile _ _ _ _ _ => absent tt | UpdateFile _ _ _ _ _ => absent tt
      end
  | Branches_ e =>
      match e in BranchesE X return X with
      | GetBranch _ _ => absent (Build_Branch None) | CreateBranch _ _ _ => absent tt
      end
  | MergeRequests_ e =>
      match e in MergeRequestsE X return X with
      | ListProjectMergeRequests _ _ _ => reply_ok [] | GetMergeRequest _ _ => absent None
      | CreateMergeRequest _ _ => absent None | AcceptMergeRequest _ _ _ => absent tt
      end
  | ProtectedEnvironments_ e =>
      match e in ProtectedEnvironmentsE X return X with
      | ListProtectedEnvironments _ _ => reply_ok [] | ProtectRepositoryEnvironments _ _ => absent tt
      | UnprotectEnvironment _ _ => absent tt
      end
  | Environments_ e => match e in EnvironmentsE X return X with ListEnvironments _ _ => reply_ok [] end
  | Resolver_ e =>
      match e in ResolverE X return X with
      | ResolveUsername _ _ => inl (ErrNew "user not found") | ResolveGroupPath _ _ => inl (ErrNew "group not found")
      end
  | Clock_ e => match e in ClockE X return X with Now => 0 end
  end.

Definition demo_server : handler GitLabE server := fun X e w =>
  match e in GitLabE X return X * server with
  | Context_ e => match e in ContextE X return X * server with CtxErr => (None, w) end
  | Projects e => projects_handler _ e w
  | Groups e => groups_handler _ e w
  | PushRules_ e => push_handler _ e w
  | ProtectedBranches e => branches_handler _ e w
  | Variables e => variables_handler _ e w
  | Compliance e => compliance_handler _ e w
  | TargetBranchRules e => rules_handler _ e w
  | e => (absent_call e, w)
  end.

Lemma demo_server_stable : stable_reads demo_server.
Proof.
  intros X e w. destruct_call e; simpl; try done.
Qed.

Definition demo_project : Project := {|
  p_ID := 42; p_Name := "api"; p_Path := "api"; p_PathWithNamespace := "platform/api";
  p_DefaultBranch := "main"; p_Archived := false; p_SquashOption := "default_off";
  p_MergeMethod := "merge"; p_OnlyAllowMergeIfPipelineSucceeds := false;
  p_AllowMergeOnSkippedPipeline := false; p_OnlyAllowMergeIfAllDiscussionsAreResolved := false;
  p_RemoveSourceBranchAfterMerge := true; p_KeepLatestArtifact := true;
  p_PrintingMergeRequestLinkEnabled := true; p_AutoCancelPendingPipelines := "enabled";
  p_AutoDevopsEnabled := false; p_SharedRunnersEnabled := true;
  p_GroupRunnersEnabled := true; p_Visibility := "private"; p_Topics := ["golang"]; p_TagList := [];
  p_Namespace := Some "platform"; p_MarkedForDeletionAt := None;
  p_WebURL := ""; p_LastActivityAt := None; p_ContainerExpirationPolicy := None
|}.

Definition demo_group : Group := {|
  g_ID := 7; g_Name := "platform"; g_Path := "platform"; g_FullPath := "platform"; g_ParentID := 0;
  g_Visibility := "private"; g_Description := ""; g_WebURL := "https://gitlab.com/groups/platform"
|}.

Definition with_groups w x := {| sv_project := sv_project w; sv_retention := sv_retention w;
  sv_push := sv_push w; sv_branches := sv_branches w; sv_vars := sv_vars w;
  sv_frameworks := sv_frameworks w; sv_rules := sv_rules w; sv_groups := x; sv_next := sv_next w |}.

(** A policy file with the sections of [p]. *)
Definition with_policies (p : PoliciesConfig) : option PolicyConfig :=
  Some (Build_PolicyConfig "1" zero_Settings (Build_TargetSelectors None None) p).
