(* ===== verification/Fetch.v ===== *)
(** * Listings fetched page by page

    The loop that the reconcilers of protected branches, tags and environments
    and the audit share: ask for a page of a hundred, append it, go on with the page the
    answer names, stop when it names none.  [fuel] bounds the pages the model
    fetches; [fetchPages_run] shows that a listing of fewer than a hundred
    times [fuel] elements is fetched whole. *)

From S2P Require Import Prelude GoLib Config GitLabAPI Server.
Local Open Scope string_scope.
Local Open Scope list_scope.
Local Open Scope Z_scope.

Fixpoint fetchPages {E : Type -> Type} {A} (list_page : Z -> E (Reply (list A))) (fuel : nat) (page : Z) (all : list A)
  : prog E (error + list A) :=
  match fuel with
  | O => mret (inl errOutOfFuel)
  | S fuel' =>
      r ← call (list_page page);
      match r_err r with
      | Some err => mret (inl err)
      | None =>
          let all := all ++ r_val r in
          match r_resp r with
          | None => mret (inr all)
          | Some resp => if NextPage resp =? 0 then mret (inr all)
                         else fetchPages list_page fuel' (NextPage resp) all
          end
      end
  end.

(** A server that lists [l] in pages. *)
Definition lists {E : Type -> Type} {A W} (h : handler E W) (list_page : Z -> E (Reply (list A))) (l : list A) (w : W)
  : Prop := forall page, 1 <= page -> h _ (list_page page) w = (page_of l page, w).

(** The pages from [page] on complete what the earlier ones gave: [page] is
    the first one, or the server said that it exists. *)
Lemma fetchPages_from {E : Type -> Type} {A W} (h : handler E W) list_page (l : list A) w fuel page :
  lists h list_page l w -> 1 <= page ->
  page = 1 \/ (per_page * Z.to_nat (page - 1) < length l)%nat ->
  (length l < per_page * Z.to_nat (page - 1) + per_page * fuel)%nat ->
  run h (fetchPages list_page fuel page (take (per_page * Z.to_nat (page - 1)) l)) w = (inr l, w).
Proof.
  intros Hl. revert page. induction fuel as [|fuel IH]; intros page Hp Hfirst Hf.
  { exfalso. rewrite Nat.mul_0_r, Nat.add_0_r in Hf. destruct Hfirst as [-> |]; [|lia].
    change (Z.to_nat (1 - 1)) with 0%nat in Hf. lia. }
  cbn [fetchPages]. rewrite run_bind, run_call, Hl by done. cbn [r_err r_val r_resp page_of NextPage].
  rewrite take_take_drop.
  assert (per_page * Z.to_nat (page - 1) + per_page = per_page * Z.to_nat (page + 1 - 1))%nat as He.
  { replace (Z.to_nat (page + 1 - 1)) with (S (Z.to_nat (page - 1))) by lia. lia. }
  destruct (Nat.ltb_spec (per_page * Z.to_nat (page - 1) + per_page) (length l)) as [Hlt|Hge].
  - rewrite (proj2 (Z.eqb_neq (page + 1) 0)) by lia. rewrite He. apply IH; [lia| |]; rewrite <- He; [by right|].
    rewrite Nat.mul_succ_r in Hf. lia.
  - cbv iota. by rewrite Z.eqb_refl, run_ret, take_ge by lia.
Qed.

Lemma fetchPages_run {E : Type -> Type} {A W} (h : handler E W) list_page (l : list A) w fuel :
  lists h list_page l w -> (length l < per_page * fuel)%nat ->
  run h (fetchPages list_page fuel 1 []) w = (inr l, w).
Proof.
  intros Hl Hf. apply (fetchPages_from h list_page l w fuel 1 Hl); [lia|by left|].
  change (Z.to_nat (1 - 1)) with 0%nat. rewrite Nat.mul_0_r. lia.
Qed.

Lemma fetchPages_reads {A} (list_page : Z -> GitLabE (Reply (list A))) fuel page all :
  (forall page, is_read (list_page page) = true) -> reads (fetchPages list_page fuel page all).
Proof.
  intros Hr. revert page all. induction fuel as [|fuel IH]; intros page all; [done|]. cbn [fetchPages].
  apply reads_bind; [by apply reads_call|]. intros r. by repeat case_match.
Qed.
