(* ===== verification/Resolver.v ===== *)
(** * Resolving user names and group paths: internal/governance/approvalrules.go

    [CachingResolver] turns names into numbers and remembers the answers.  The
    reconcilers that use one are programs that call [ResolverE]; the resolver
    itself, with its two caches, is the interpretation of these calls
    ([with_resolvers]).  [Resolver_transparent] shows that remembering changes
    nothing: on a GitLab whose users and groups stay as they are, every program
    runs as it would without the caches ([without_caches]), so what the other
    files show of a run holds of the run with its resolvers.  The lock is not
    modelled: a resolution is one step. *)

From S2P Require Import Prelude GoLib Config GitLabAPI Server.
Local Open Scope string_scope.
Local Open Scope list_scope.
Local Open Scope Z_scope.

Record CachingResolver : Type := { cr_userCache : gmap string Z; cr_groupCache : gmap string Z }.

Definition NewCachingResolver : CachingResolver := {| cr_userCache := ∅; cr_groupCache := ∅ |}.

(** The names under which the answers are kept. *)
Definition cleanUser (username : string) : string := TrimPrefix (TrimSpace (ToLower username)) "@".
Definition cleanPath (groupPath : string) : string := Trim "/" (TrimSpace (ToLower groupPath)).

Definition CachingResolver_ResolveUsername (r : CachingResolver) (username : string)
  : GP (CachingResolver * (error + Z)) :=
  let clean := cleanUser username in
  if (clean =? "")%string then mret (r, inl (ErrNew "empty username provided"))
  else match cr_userCache r !! clean with
  | Some id => mret (r, inr id)
  | None =>
      users ← call (Users_ (ListUsers clean));
      match r_err users with
      | Some err => mret (r, inl (ErrWrap ("failed to lookup user '" +:+ clean +:+ "': ") err))
      | None =>
          match r_val users with
          | [] => mret (r, inl (ErrNew ("user '" +:+ clean +:+ "' not found in GitLab instance")))
          | u :: _ => mret ({| cr_userCache := <[clean := us_ID u]> (cr_userCache r);
                               cr_groupCache := cr_groupCache r |}, inr (us_ID u))
          end
      end
  end.

Definition CachingResolver_ResolveGroupPath (r : CachingResolver) (groupPath : string)
  : GP (CachingResolver * (error + Z)) :=
  let clean := cleanPath groupPath in
  if (clean =? "")%string then mret (r, inl (ErrNew "empty group path provided"))
  else match cr_groupCache r !! clean with
  | Some id => mret (r, inr id)
  | None =>
      group ← call (Groups (GetGroup (inr clean)));
      match r_err group with
      | Some err => mret (r, inl (ErrWrap ("failed to lookup group '" +:+ clean +:+ "': ") err))
      | None =>
          match r_val group with
          | None => mret (r, inl (ErrNew ("group '" +:+ clean +:+ "' not found in GitLab instance")))
          | Some g => mret ({| cr_userCache := cr_userCache r;
                               cr_groupCache := <[clean := g_ID g]> (cr_groupCache r) |}, inr (g_ID g))
          end
      end
  end.

(** ** What the reconcilers ask

    [if access.UserID == 0 && access.Username != "" { ... ResolveUsername ... }]
    and the same for groups: the number given, or the one the name has; an error
    is explained by [pre]. *)

Definition resolveUserUnless (owner : string) (id : Z) (username pre : string) : GP (error + Z) :=
  if (id =? 0) && negb (username =? "")%string then
    r ← call (Resolver_ (ResolveUsername owner username));
    mret match r with inl e => inl (ErrWrap pre e) | inr id => inr id end
  else mret (inr id).

Definition resolveGroupUnless (owner : string) (id : Z) (groupPath pre : string) : GP (error + Z) :=
  if (id =? 0) && negb (groupPath =? "")%string then
    r ← call (Resolver_ (ResolveGroupPath owner groupPath));
    mret match r with inl e => inl (ErrWrap pre e) | inr id => inr id end
  else mret (inr id).

Lemma resolveUserUnless_reads owner id name pre : reads (resolveUserUnless owner id name pre).
Proof. unfold resolveUserUnless. reads. Qed.

Lemma resolveGroupUnless_reads owner id name pre : reads (resolveGroupUnless owner id name pre).
Proof. unfold resolveGroupUnless. reads. Qed.

(** A server whose resolvers always give the same answers. *)
Class Answers {W} (h : handler GitLabE W) : Type := {
  answer : forall X, ResolverE X -> X;
  answer_call : forall X (e : ResolverE X) w, h _ (Resolver_ e) w = (answer _ e, w)
}.

Section Answers.
Context {W : Type} (h : handler GitLabE W) `{!Answers h}.

Definition userUnless (owner : string) (id : Z) (username pre : string) : error + Z :=
  if (id =? 0) && negb (username =? "")%string
  then match answer _ (ResolveUsername owner username) with inl e => inl (ErrWrap pre e) | inr id => inr id end
  else inr id.

Definition groupUnless (owner : string) (id : Z) (groupPath pre : string) : error + Z :=
  if (id =? 0) && negb (groupPath =? "")%string
  then match answer _ (ResolveGroupPath owner groupPath) with inl e => inl (ErrWrap pre e) | inr id => inr id end
  else inr id.

Lemma resolveUserUnless_run owner id name pre w :
  run h (resolveUserUnless owner id name pre) w = (userUnless owner id name pre, w).
Proof.
  unfold resolveUserUnless, userUnless. destruct ((id =? 0) && _); [|done].
  rewrite run_bind, run_call, answer_call. done.
Qed.

Lemma resolveGroupUnless_run owner id name pre w :
  run h (resolveGroupUnless owner id name pre) w = (groupUnless owner id name pre, w).
Proof.
  unfold resolveGroupUnless, groupUnless. destruct ((id =? 0) && _); [|done].
  rewrite run_bind, run_call, answer_call. done.
Qed.

End Answers.

(** ** The resolvers of a process

    [NewDefaultRegistry] gives each operation a resolver of its own, which
    lives as long as the registry. *)

Definition resolvers : Type := gmap string CachingResolver.

Definition resolver_of (rs : resolvers) (owner : string) : CachingResolver :=
  match rs !! owner with Some r => r | None => NewCachingResolver end.

(** What a call to a resolver does. *)
Definition resolve {X} (e : ResolverE X) (r : CachingResolver) : GP (CachingResolver * X) :=
  match e in ResolverE X return GP (CachingResolver * X) with
  | ResolveUsername _ u => CachingResolver_ResolveUsername r u
  | ResolveGroupPath _ g => CachingResolver_ResolveGroupPath r g
  end.

Definition owner_of {X} (e : ResolverE X) : string :=
  match e with ResolveUsername o _ | ResolveGroupPath o _ => o end.

Section Handlers.
Context {W : Type} (h : handler GitLabE W).

Definition with_resolvers : handler GitLabE (W * resolvers) := fun X e s =>
  match e in GitLabE X return X * (W * resolvers) with
  | Resolver_ e =>
      let '((r, x), w) := run h (resolve e (resolver_of s.2 (owner_of e))) s.1 in
      (x, (w, <[owner_of e := r]> s.2))
  | e => let '(x, w) := h _ e s.1 in (x, (w, s.2))
  end.

(** The specification: every resolution asks GitLab. *)
Definition without_caches : handler GitLabE W := fun X e w =>
  match e in GitLabE X return X * W with
  | Resolver_ e => let '((_, x), w) := run h (resolve e NewCachingResolver) w in (x, w)
  | e => h _ e w
  end.

End Handlers.

(** A GitLab whose users and groups do not change while the program runs. *)
Record directory {W} (h : handler GitLabE W) (users : string -> Reply (list User))
    (groups : string -> Reply (option Group)) : Prop := {
  dir_users : forall u w, h _ (Users_ (ListUsers u)) w = (users u, w);
  dir_groups : forall p w, h _ (Groups (GetGroup (inr p))) w = (groups p, w)
}.

(** What the directory says of a clean name. *)
Definition user_id (users : string -> Reply (list User)) (clean : string) : option Z :=
  match r_err (users clean), r_val (users clean) with None, u :: _ => Some (us_ID u) | _, _ => None end.
Definition group_id (groups : string -> Reply (option Group)) (clean : string) : option Z :=
  match r_err (groups clean), r_val (groups clean) with None, Some g => Some (g_ID g) | _, _ => None end.

(** A cache that holds only what the directory says. *)
Definition cache_ok users groups (r : CachingResolver) : Prop :=
  (forall k id, cr_userCache r !! k = Some id -> user_id users k = Some id) /\
  (forall k id, cr_groupCache r !! k = Some id -> group_id groups k = Some id).

Definition caches_ok users groups (rs : resolvers) : Prop := forall o r, rs !! o = Some r -> cache_ok users groups r.

Lemma NewCachingResolver_ok users groups : cache_ok users groups NewCachingResolver.
Proof. split; intros k id Hk; cbn in Hk; by apply lookup_empty_Some in Hk. Qed.

Lemma resolver_of_ok users groups rs o : caches_ok users groups rs -> cache_ok users groups (resolver_of rs o).
Proof.
  intros Hrs. unfold resolver_of. destruct (rs !! o) eqn:E; [by eapply Hrs|apply NewCachingResolver_ok].
Qed.

Section Directory.
Context {W : Type} (h : handler GitLabE W) users groups (dir : directory h users groups).

(** A resolution does not depend on what a correct cache holds, changes nothing
    on the server and leaves the cache correct. *)
Lemma resolve_run {X} (e : ResolverE X) r w :
  cache_ok users groups r ->
  exists x r' r0, run h (resolve e r) w = ((r', x), w) /\ run h (resolve e NewCachingResolver) w = ((r0, x), w) /\
    cache_ok users groups r'.
Proof using dir.
  intros [Hu Hg]. destruct e as [o u|o g]; cbn [resolve];
    unfold CachingResolver_ResolveUsername, CachingResolver_ResolveGroupPath;
    (destruct (_ =? "")%string; [by eexists _, r, _|]); cbn [cr_userCache cr_groupCache NewCachingResolver]; rewrite lookup_empty.
  - rewrite !run_bind, run_call, (dir_users _ _ _ dir). specialize (Hu (cleanUser u)) as Hk.
    destruct (cr_userCache r !! cleanUser u) as [id|].
    + specialize (Hk id eq_refl). unfold user_id in Hk. destruct (r_err _); [done|]. destruct (r_val _); [done|].
      injection Hk as ->. by eexists _, r, _.
    + rewrite run_bind, run_call, (dir_users _ _ _ dir). pose proof (eq_refl (user_id users (cleanUser u))) as He.
      unfold user_id at 2 in He. destruct (r_err _); [by eexists _, r, _|]. destruct (r_val _) as [|v vs]; [by eexists _, r, _|].
      eexists _, _, _. split_and!; [done..|]. split; [|done]. simpl. intros k id. rewrite lookup_insert_Some. naive_solver.
  - rewrite !run_bind, run_call, (dir_groups _ _ _ dir). specialize (Hg (cleanPath g)) as Hk.
    destruct (cr_groupCache r !! cleanPath g) as [id|].
    + specialize (Hk id eq_refl). unfold group_id in Hk. destruct (r_err _); [done|]. destruct (r_val _); [|done].
      injection Hk as ->. by eexists _, r, _.
    + rewrite run_bind, run_call, (dir_groups _ _ _ dir). pose proof (eq_refl (group_id groups (cleanPath g))) as He.
      unfold group_id at 2 in He. destruct (r_err _); [by eexists _, r, _|]. destruct (r_val _) as [v|]; [|by eexists _, r, _].
      eexists _, _, _. split_and!; [done..|]. split; [done|]. simpl. intros k id. rewrite lookup_insert_Some. naive_solver.
Qed.

(** One call with the caches is one call without them. *)
Lemma with_resolvers_step {X} (e : GitLabE X) w rs :
  caches_ok users groups rs ->
  exists rs', with_resolvers h X e (w, rs) =
    ((without_caches h X e w).1, ((without_caches h X e w).2, rs')) /\ caches_ok users groups rs'.
Proof using dir.
  intros Hrs. destruct e; cbn [with_resolvers without_caches fst snd];
    try (match goal with |- context [h _ ?e w] => destruct (h _ e w) as [x w'] end; by exists rs).
  destruct (resolve_run e (resolver_of rs (owner_of e)) w (resolver_of_ok _ _ _ _ Hrs)) as (x & r' & r0 & -> & -> & Hr).
  eexists. split; [done|]. intros o r Hl. apply (lookup_insert_Some (M := gmap string)) in Hl as [[_ <-]|[_ Ho]]; [done|by eapply Hrs].
Qed.

(** Interleaved programs, step by step. *)
Lemma with_resolvers_advance {A} (p p' : GP A) w rs w' rs' :
  caches_ok users groups rs -> advance (with_resolvers h) p (w, rs) = Some (p', (w', rs')) ->
  advance (without_caches h) p w = Some (p', w') /\ caches_ok users groups rs'.
Proof using dir.
  intros Hrs. destruct p as [a|X e k]; [done|]. cbn [advance].
  destruct (with_resolvers_step e w rs Hrs) as (rs1 & -> & Hok). destruct (without_caches h X e w) as [x w1]. simpl.
  by intros [= <- <- <-].
Qed.

Lemma with_resolvers_run {A} (p : GP A) w rs :
  caches_ok users groups rs ->
  exists rs', run (with_resolvers h) p (w, rs) =
    ((run (without_caches h) p w).1, ((run (without_caches h) p w).2, rs')) /\ caches_ok users groups rs'.
Proof using dir.
  revert w rs. induction p as [a|X e k IH]; intros w rs Hrs; cbn [run]; [by exists rs|].
  destruct (with_resolvers_step e w rs Hrs) as (rs1 & -> & Hok). destruct (without_caches h X e w) as [x w1]. simpl.
  by apply IH.
Qed.

End Directory.

(** Without the caches, reads are as stable as the server makes them. *)
Lemma without_caches_stable {W} (h : handler GitLabE W) : stable_reads h -> stable_reads (without_caches h).
Proof.
  intros Hs X e w Hr. destruct e; try exact (Hs _ _ w Hr). cbn [without_caches].
  assert (reads (resolve e NewCachingResolver)) as Hp.
  { destruct e; cbn [resolve]; unfold CachingResolver_ResolveUsername, CachingResolver_ResolveGroupPath; reads. }
  pose proof (run_reads h _ w Hs Hp) as Hw. by destruct (run h _ w) as [[r x] w'].
Qed.

(** What a resolver answers, read off the directory. *)
Definition answer_in (users : string -> Reply (list User)) (groups : string -> Reply (option Group)) X
    (e : ResolverE X) : X :=
  match e in ResolverE X return X with
  | ResolveUsername _ u =>
      let clean := cleanUser u in
      if (clean =? "")%string then inl (ErrNew "empty username provided")
      else match r_err (users clean), r_val (users clean) with
           | Some err, _ => inl (ErrWrap ("failed to lookup user '" +:+ clean +:+ "': ") err)
           | None, [] => inl (ErrNew ("user '" +:+ clean +:+ "' not found in GitLab instance"))
           | None, u :: _ => inr (us_ID u)
           end
  | ResolveGroupPath _ g =>
      let clean := cleanPath g in
      if (clean =? "")%string then inl (ErrNew "empty group path provided")
      else match r_err (groups clean), r_val (groups clean) with
           | Some err, _ => inl (ErrWrap ("failed to lookup group '" +:+ clean +:+ "': ") err)
           | None, None => inl (ErrNew ("group '" +:+ clean +:+ "' not found in GitLab instance"))
           | None, Some g => inr (g_ID g)
           end
  end.

Lemma without_caches_answers {W} (h : handler GitLabE W) users groups :
  directory h users groups ->
  forall X (e : ResolverE X) w, without_caches h _ (Resolver_ e) w = (answer_in users groups X e, w).
Proof.
  intros dir X e w. cbn [without_caches]. destruct e as [o u|o g]; cbn [resolve answer_in];
    unfold CachingResolver_ResolveUsername, CachingResolver_ResolveGroupPath; cbv zeta;
    (destruct (_ =? "")%string; [done|]); cbn [cr_userCache cr_groupCache NewCachingResolver]; rewrite lookup_empty, run_bind, run_call.
  - rewrite (dir_users _ _ _ dir). destruct (r_err _); [done|]. by destruct (r_val _).
  - rewrite (dir_groups _ _ _ dir). destruct (r_err _); [done|]. by destruct (r_val _).
Qed.

(** So the reconcilers' theorems, which ask for [Answers], hold of GitLab. *)
Definition directory_answers {W} (h : handler GitLabE W) users groups (dir : directory h users groups)
  : Answers (without_caches h) :=
  {| answer := answer_in users groups; answer_call := without_caches_answers h users groups dir |}.

(** ** Properties *)

(** The caching resolvers are transparent: on a GitLab whose users and
    groups do not change, any program run with the resolvers, their caches in
    any correct state, returns what it would return if every name were looked
    up afresh and leaves the same server, with the caches still correct; and a
    dry run leaves a server that reads do not change exactly as it was. *)
Theorem Resolver_transparent {W A} (h : handler GitLabE W) users groups (p : GP A) w rs :
  directory h users groups -> caches_ok users groups rs ->
  let '(a, (w', rs')) := run (with_resolvers h) p (w, rs) in
  run (without_caches h) p w = (a, w') /\ caches_ok users groups rs' /\
  (stable_reads h -> reads p -> w' = w).
Proof.
  intros Hdir Hrs. destruct (with_resolvers_run h users groups Hdir p w rs Hrs) as (rs' & -> & Hok).
  split_and!; [by destruct (run _ p w)|done|]. intros Hs Hp.
  apply run_reads; [by apply without_caches_stable|done].
Qed.

(** A name is looked up once: after a resolution that succeeded, resolving
    the same name, written with or without its at sign, in any case and with
    any white space around it, gives the same number and makes no call. *)
Theorem ResolveUsername_once {W} (h : handler GitLabE W) r u w r' id w' :
  run h (CachingResolver_ResolveUsername r u) w = ((r', inr id), w') ->
  forall v w2, cleanUser v = cleanUser u ->
    run h (CachingResolver_ResolveUsername r' v) w2 = ((r', inr id), w2) /\
    calls h (CachingResolver_ResolveUsername r' v) w2 = [].
Proof.
  intros Hr v w2 Hv. unfold CachingResolver_ResolveUsername in *. rewrite Hv.
  destruct (cleanUser u =? "")%string; [done|].
  destruct (cr_userCache r !! cleanUser u) as [i|] eqn:E.
  - injection Hr as -> -> ->. by rewrite E.
  - rewrite run_bind, run_call in Hr. destruct (h _ _ w) as [users w1].
    destruct (r_err users); [done|]. destruct (r_val users) as [|x l]; [done|].
    rewrite run_ret in Hr. injection Hr as <- <- _. cbn [cr_userCache]. by rewrite lookup_insert_eq.
Qed.

(** ** A concrete directory *)

(** Users are listed by their exact name; alice is number 11. *)
Definition demo_users (u : string) : Reply (list User) :=
  reply_ok (if (u =? "alice")%string then [{| us_ID := 11; us_Username := "alice" |}] else []).

Definition demo_directory_server : handler GitLabE nat := fun X e w =>
  match e in GitLabE X return X * nat with
  | Users_ e => match e in UsersE X return X * nat with ListUsers u => (demo_users u, w) end
  | Groups e =>
      match e in GroupsE X return X * nat with GetGroup _ => (not_found None, w) | e => (absent_call (Groups e), w) end
  | ProtectedTags_ e =>
      match e in ProtectedTagsE X return X * nat with
      | UnprotectRepositoryTags _ _ => (reply_ok tt, S w) | e => (absent_call (ProtectedTags_ e), w)
      end
  | e => (absent_call e, w)
  end.

Lemma demo_directory_ok : directory demo_directory_server demo_users (fun _ => not_found None).
Proof. by split. Qed.

(** What the resolvers of the witnesses answer. *)
Definition demo_directory {X} (e : ResolverE X) : X :=
  match e in ResolverE X return X with
  | ResolveUsername _ u => if (u =? "alice")%string then inr 11 else inl (ErrNew "user not found")
  | ResolveGroupPath _ g => if (g =? "platform/release")%string then inr 7 else inl (ErrNew "group not found")
  end.

(** Two resolutions of the same user around a change. *)
Definition demo_lookups : GP ((error + Z) * (error + Z)) :=
  a ← call (Resolver_ (ResolveUsername "protected_tags" "@Alice"));
  _ ← call (ProtectedTags_ (UnprotectRepositoryTags 42 "v*"));
  b ← call (Resolver_ (ResolveUsername "protected_tags" " alice"));
  mret (a, b).

Lemma Resolver_transparent_witness :
  let '(a, (w', rs')) := run (with_resolvers demo_directory_server) demo_lookups (0%nat, ∅) in
  a = (inr 11, inr 11) /\ run (without_caches demo_directory_server) demo_lookups 0%nat = (a, w').
Proof.
  pose proof (Resolver_transparent demo_directory_server demo_users (fun _ => not_found None) demo_lookups 0%nat ∅
    demo_directory_ok ltac:(by intros o r)) as H.
  destruct (run (with_resolvers demo_directory_server) demo_lookups (0%nat, ∅)) as [a [w' rs']] eqn:E.
  destruct H as [H _]. split; [|exact H]. vm_compute in E. by injection E as <- _ _.
Defined.

Lemma ResolveUsername_once_witness :
  let r := (run demo_directory_server (CachingResolver_ResolveUsername NewCachingResolver "@Alice") 0%nat).1.1 in
  calls demo_directory_server (CachingResolver_ResolveUsername r "alice ") 0%nat = [].
Proof.
  destruct (ResolveUsername_once demo_directory_server NewCachingResolver "@Alice" 0%nat
    (run demo_directory_server (CachingResolver_ResolveUsername NewCachingResolver "@Alice") 0%nat).1.1 11 0%nat
    ltac:(vm_compute; reflexivity) "alice " 0%nat ltac:(vm_compute; reflexivity)) as [_ Hc].
  exact Hc.
Defined.
