(* ===== verification/Governance.v ===== *)
(** * Results and diffs of the governance operations:
      internal/governance/{operation,diff}.go

    A [PlanResult] is what a dry run reports, an [ApplyResult] what an
    enforcement did; both carry [Diff]s made by a [DiffBuilder].  The clock
    readings of the results (when an operation ran and for how long) are left
    out: no decision depends on them. *)

From S2P Require Import Prelude GoLib Config GitLabAPI.
Local Open Scope string_scope.
Local Open Scope list_scope.
Local Open Scope Z_scope.

(** ** operation.go *)

(** [ActionUnset] is the zero value, the empty string. *)
Inductive ActionType : Type :=
| ActionUnset | ActionCreate | ActionUpdate | ActionDelete | ActionNoop | ActionAudit | ActionSkipped.

#[export] Instance ActionType_eq_dec : EqDecision ActionType.
Proof. solve_decision. Defined.

Inductive ResourceType : Type := ResourceTypeProject | ResourceTypeGroup.

Inductive StatusType : Type := StatusSuccess | StatusFailed | StatusSkipped | StatusNoop.

#[export] Instance StatusType_eq_dec : EqDecision StatusType.
Proof. solve_decision. Defined.

Record FieldDiff : Type := {
  fd_Field : string;
  fd_OldValue : value;
  fd_NewValue : value;
  fd_Action : ActionType
}.

Record Diff : Type := {
  d_Resource : string;
  d_Action : ActionType;
  d_Fields : list FieldDiff;
  d_Details : string
}.

Record PlanResult : Type := {
  pl_OperationName : string;
  pl_ResourceType : ResourceType;
  pl_ResourceID : Z;
  pl_ResourcePath : string;
  pl_Action : ActionType;
  pl_Diffs : list Diff;
  pl_HasChanges : bool;
  pl_Details : string;
  pl_Error : option error
}.

Record ApplyResult : Type := {
  al_OperationName : string;
  al_ResourceType : ResourceType;
  al_ResourceID : Z;
  al_ResourcePath : string;
  al_Action : ActionType;
  al_Diffs : list Diff;
  al_Status : StatusType;
  al_Success : bool;
  al_Details : string;
  al_Error : option error
}.

Definition NewPlanResult (op : string) (rType : ResourceType) (id : Z) (path : string)
    (action : ActionType) (diffs : list Diff) : PlanResult := {|
  pl_OperationName := op;
  pl_ResourceType := rType;
  pl_ResourceID := id;
  pl_ResourcePath := path;
  pl_Action := action;
  pl_Diffs := diffs;
  pl_HasChanges := bool_decide (action <> ActionNoop) && bool_decide (action <> ActionSkipped)
                   && (0 <? Z.of_nat (length diffs));
  pl_Details := "";
  pl_Error := None
|}.

Definition NewNoopPlanResult (op : string) (rType : ResourceType) (id : Z) (path : string)
  : PlanResult := {|
  pl_OperationName := op; pl_ResourceType := rType; pl_ResourceID := id; pl_ResourcePath := path;
  pl_Action := ActionNoop; pl_Diffs := []; pl_HasChanges := false; pl_Details := ""; pl_Error := None
|}.

Definition NewSkippedPlanResult (op : string) (rType : ResourceType) (id : Z) (path reason : string)
  : PlanResult := {|
  pl_OperationName := op; pl_ResourceType := rType; pl_ResourceID := id; pl_ResourcePath := path;
  pl_Action := ActionSkipped; pl_Diffs := []; pl_HasChanges := false; pl_Details := reason;
  pl_Error := None
|}.

Definition NewApplyResult (op : string) (rType : ResourceType) (id : Z) (path : string)
    (action : ActionType) (status : StatusType) (diffs : list Diff) (err : option error)
  : ApplyResult := {|
  al_OperationName := op;
  al_ResourceType := rType;
  al_ResourceID := id;
  al_ResourcePath := path;
  al_Action := action;
  al_Diffs := diffs;
  al_Status := status;
  al_Success := bool_decide (status = StatusSuccess) || bool_decide (status = StatusNoop)
                || bool_decide (status = StatusSkipped);
  al_Details := "";
  al_Error := err
|}.

Definition NewNoopApplyResult (op : string) (rType : ResourceType) (id : Z) (path : string)
  : ApplyResult := {|
  al_OperationName := op; al_ResourceType := rType; al_ResourceID := id; al_ResourcePath := path;
  al_Action := ActionNoop; al_Diffs := []; al_Status := StatusNoop; al_Success := true;
  al_Details := ""; al_Error := None
|}.

Definition NewSkippedApplyResult (op : string) (rType : ResourceType) (id : Z) (path reason : string)
  : ApplyResult := {|
  al_OperationName := op; al_ResourceType := rType; al_ResourceID := id; al_ResourcePath := path;
  al_Action := ActionSkipped; al_Diffs := []; al_Status := StatusSkipped; al_Success := true;
  al_Details := reason; al_Error := None
|}.

(** ** diff.go *)

Definition Diff_HasChanges (d : Diff) : bool :=
  bool_decide (d_Action d <> ActionNoop) && bool_decide (d_Action d <> ActionSkipped)
  && ((0 <? Z.of_nat (length (d_Fields d))) || negb (d_Details d =? "")%string).

Record DiffBuilder : Type := { db_fields : list FieldDiff; db_details : string }.

Definition NewDiffBuilder : DiffBuilder := {| db_fields := []; db_details := "" |}.

Definition Add (b : DiffBuilder) (fd : option FieldDiff) : DiffBuilder :=
  match fd with
  | Some fd => {| db_fields := db_fields b ++ [fd]; db_details := db_details b |}
  | None => b
  end.

Definition AddField (b : DiffBuilder) (field : string) (oldVal newVal : value) (action : ActionType)
  : DiffBuilder :=
  {| db_fields := db_fields b ++ [{| fd_Field := field; fd_OldValue := oldVal;
                                     fd_NewValue := newVal; fd_Action := action |}];
     db_details := db_details b |}.

Definition SetDetails (b : DiffBuilder) (details : string) : DiffBuilder :=
  {| db_fields := db_fields b; db_details := details |}.

Definition Build (b : DiffBuilder) (resource : string) (defaultAction : ActionType) : Diff := {|
  d_Resource := resource;
  d_Action := if (length (db_fields b) =? 0)%nat && (db_details b =? "")%string
              then ActionNoop else defaultAction;
  d_Fields := db_fields b;
  d_Details := db_details b
|}.

(** [if cond { builder.AddField(...) }]. *)
Definition AddFieldIf (cond : bool) (b : DiffBuilder) (field : string) (oldVal newVal : value)
    (action : ActionType) : DiffBuilder :=
  if cond then AddField b field oldVal newVal action else b.

(** [if p != nil { builder.AddField(field, nil, *p, ActionCreate) }]. *)
Definition AddFieldPtr {A} (b : DiffBuilder) (field : string) (p : option A) (inj : A -> value)
  : DiffBuilder :=
  match p with Some a => AddField b field VNil (inj a) ActionCreate | None => b end.

Definition updated (field : string) (live desired : value) : option FieldDiff :=
  Some {| fd_Field := field; fd_OldValue := live; fd_NewValue := desired; fd_Action := ActionUpdate |}.

Definition CompareString (field live desired : string) : option FieldDiff :=
  if (desired =? "")%string || (live =? desired)%string then None
  else updated field (VStr live) (VStr desired).

Definition CompareStringPtr (field live : string) (desired : option string) : option FieldDiff :=
  match desired with
  | None => None
  | Some d => if (live =? d)%string then None else updated field (VStr live) (VStr d)
  end.

Definition CompareBoolPtr (field : string) (live : bool) (desired : option bool) : option FieldDiff :=
  match desired with
  | None => None
  | Some d => if Bool.eqb live d then None else updated field (VBool live) (VBool d)
  end.

Definition CompareIntPtr (field : string) (live : Z) (desired : option Z) : option FieldDiff :=
  match desired with
  | None => None
  | Some d => if live =? d then None else updated field (VInt live) (VInt d)
  end.

(** A [nil] slice is [None]; [sort.Strings] on copies, then [DeepEqual]. *)
Definition CompareStringSlice (field : string) (live : list string) (desired : option (list string))
  : option FieldDiff :=
  match desired with
  | None => None
  | Some d =>
      if bool_decide (sort_Strings live = sort_Strings d) then None
      else updated field (VStrs live) (VStrs d)
  end.

(** [if s != "" { builder.AddField(field, nil, s, ActionCreate) }]. *)
Definition AddFieldStr (b : DiffBuilder) (field s : string) : DiffBuilder :=
  AddFieldIf (negb (s =? "")%string) b field VNil (VStr s) ActionCreate.

(** [if s != "" { opt.X = gogitlab.Ptr(s) }]. *)
Definition ptr_nonempty (s : string) : option string := if (s =? "")%string then None else Some s.

(** ** Shared by the reconcilers *)

(** What a reconciler's methods return: [( *PlanResult, error)] and so on. *)
Abbreviation PlanReturn := (option PlanResult * option error)%type.
Abbreviation ApplyReturn := (option ApplyResult * option error)%type.

Definition kind_name (k : scope_kind) : string :=
  match k with OnProject => "project" | OnGroup => "group" end.

Definition kind_type (k : scope_kind) : ResourceType :=
  match k with OnProject => ResourceTypeProject | OnGroup => ResourceTypeGroup end.

(** [return NewApplyResult(..., status, diffs, err, start), err]. *)
Definition failed (name : string) (k : scope_kind) (id : Z) (path : string) (action : ActionType)
    (diffs : list Diff) (err : error) : ApplyReturn :=
  (Some (NewApplyResult name (kind_type k) id path action StatusFailed diffs (Some err)), Some err).

Definition succeeded (name : string) (k : scope_kind) (id : Z) (path : string) (action : ActionType)
    (diffs : list Diff) : ApplyReturn :=
  (Some (NewApplyResult name (kind_type k) id path action StatusSuccess diffs None), None).

Definition noop_plan (name : string) (k : scope_kind) (id : Z) (path : string) : PlanReturn :=
  (Some (NewNoopPlanResult name (kind_type k) id path), None).

Definition noop_apply (name : string) (k : scope_kind) (id : Z) (path : string) : ApplyReturn :=
  (Some (NewNoopApplyResult name (kind_type k) id path), None).

Definition skipped_plan (name : string) (k : scope_kind) (id : Z) (path reason : string) : PlanReturn :=
  (Some (NewSkippedPlanResult name (kind_type k) id path reason), None).

Definition skipped_apply (name : string) (k : scope_kind) (id : Z) (path reason : string) : ApplyReturn :=
  (Some (NewSkippedApplyResult name (kind_type k) id path reason), None).

Definition planned (name : string) (k : scope_kind) (id : Z) (path : string) (action : ActionType)
    (diffs : list Diff) : PlanReturn :=
  (Some (NewPlanResult name (kind_type k) id path action diffs), None).

(** The shape of the [Apply] methods that start from their own plan:
    [plan, err := r.Plan(...)], a failure if it failed, a no-op result if it
    has no changes, the enforcement otherwise.  A plan that is nil without an
    error would be dereferenced; no reconciler returns one ([answers]). *)
Definition planThenApply (plan : GP PlanReturn) (noop : ApplyReturn) (fail : error -> ApplyReturn)
    (enforce : PlanResult -> GP ApplyReturn) : GP ApplyReturn :=
  '(planRes, err) ← plan;
  match err, planRes with
  | Some e, _ => mret (fail e)
  | None, Some p => if negb (pl_HasChanges p) then mret noop else enforce p
  | None, None => mret (None, None)
  end.

(** [m := make(map...); for _, x := range l { m[x.Name] = x }]. *)
Definition map_by {A} (key : A -> string) (l : list A) : gmap string A :=
  foldl (fun m a => <[key a := a]> m) ∅ l.

(** [if overall == ActionNoop { overall = action }]. *)
Definition first_action (overall action : ActionType) : ActionType :=
  if decide (overall = ActionNoop) then action else overall.

(** [diffs = append(diffs, d)] and the update of [overallAction], the state of
    the reconcilers' loops. *)
Definition push_diff (acc : list Diff * ActionType) (d : Diff) (action : ActionType)
  : list Diff * ActionType := (acc.1 ++ [d], first_action acc.2 action).

(** ** The operation interface *)

Record GovernanceOperation : Type := {
  op_Name : string;
  op_Order : Z;
  op_Plan : option PolicyConfig -> Project -> GP PlanReturn;
  op_Apply : option PolicyConfig -> Project -> GP ApplyReturn;
  op_PlanGroup : option PolicyConfig -> Group -> GP PlanReturn;
  op_ApplyGroup : option PolicyConfig -> Group -> GP ApplyReturn
}.

(** What the registry, the engine and the user rely on in an operation. *)

(** A plan changes nothing. *)
Class DryRun (op : GovernanceOperation) : Prop := {
  plan_reads : forall cfg p, reads (op_Plan op cfg p);
  plan_group_reads : forall cfg g, reads (op_PlanGroup op cfg g)
}.

(** On a server that reads do not change, an enforcement makes no change where
    the plan reports none. *)
Definition quiet {A} (plan : GP PlanReturn) (apply : GP A) : Prop :=
  forall W (h : handler GitLabE W) w r,
    stable_reads h -> (run h plan w).1 = (Some r, None) -> pl_HasChanges r = false ->
    Forall (fun c => is_read (projT2 c) = true) (calls h apply w).

(** A plan answers with a result or an error, never with neither. *)
Definition answers (r : PlanReturn) : Prop := r.1 = None -> r.2 <> None.

Class NoopQuiet (op : GovernanceOperation) : Prop := {
  plan_answers : forall cfg p, always answers (op_Plan op cfg p);
  plan_group_answers : forall cfg g, always answers (op_PlanGroup op cfg g);
  apply_quiet : forall cfg p, quiet (op_Plan op cfg p) (op_Apply op cfg p);
  apply_group_quiet : forall cfg g, quiet (op_PlanGroup op cfg g) (op_ApplyGroup op cfg g)
}.

(** ** Lemmas *)

(** A comparison is silent exactly when the live value is as desired. *)
Lemma CompareString_None f live d : CompareString f live d = None <-> d = "" \/ live = d.
Proof.
  unfold CompareString, updated. destruct (String.eqb_spec d ""), (String.eqb_spec live d);
    simpl; naive_solver.
Qed.

Lemma CompareBoolPtr_None f live d : CompareBoolPtr f live d = None <-> forall b, d = Some b -> live = b.
Proof.
  unfold CompareBoolPtr, updated. destruct d as [b|]; [|naive_solver].
  destruct (Bool.eqb_spec live b); naive_solver.
Qed.

Lemma CompareIntPtr_None f live d : CompareIntPtr f live d = None <-> forall z, d = Some z -> live = z.
Proof.
  unfold CompareIntPtr, updated. destruct d as [z|]; [|naive_solver].
  destruct (Z.eqb_spec live z); naive_solver.
Qed.

Lemma CompareStringSlice_None f live d :
  CompareStringSlice f live d = None <-> forall l, d = Some l -> live ≡ₚ l.
Proof.
  unfold CompareStringSlice, updated. destruct d as [l|]; [|naive_solver].
  case_bool_decide as Hd; rewrite sort_Strings_eq_iff in Hd; naive_solver.
Qed.

(** A builder without details yields a diff with changes iff it has a field. *)
Lemma Build_HasChanges b resource action :
  db_details b = "" -> action <> ActionNoop -> action <> ActionSkipped ->
  Diff_HasChanges (Build b resource action) = false <-> db_fields b = [].
Proof.
  intros Hd Hn Hs. unfold Diff_HasChanges, Build. simpl. rewrite Hd. simpl.
  destruct (db_fields b) as [|f l]; simpl; [done|].
  rewrite !bool_decide_eq_true_2 by done. simpl. split; [|done]. intros H.
  by destruct (Z.ltb_spec 0 (Z.of_nat (S (length l)))); [|lia].
Qed.

Lemma Add_details b fd : db_details (Add b fd) = db_details b.
Proof. by destruct fd. Qed.

Lemma AddFieldIf_details c b f o n a : db_details (AddFieldIf c b f o n a) = db_details b.
Proof. by destruct c. Qed.

Lemma AddFieldPtr_details {A} b f (p : option A) i : db_details (AddFieldPtr b f p i) = db_details b.
Proof. by destruct p. Qed.

Lemma Add_fields_nil b fd : db_fields (Add b fd) = [] <-> db_fields b = [] /\ fd = None.
Proof. destruct fd; simpl; [|naive_solver]. rewrite app_nil. naive_solver. Qed.

Lemma AddFieldIf_fields_nil c b f o n a :
  db_fields (AddFieldIf c b f o n a) = [] <-> db_fields b = [] /\ c = false.
Proof. destruct c; simpl; [rewrite app_nil|]; naive_solver. Qed.

#[export] Hint Rewrite Add_details AddFieldIf_details @AddFieldPtr_details
  Add_fields_nil AddFieldIf_fields_nil : diff.

Lemma NewPlanResult_changes op t id path a diffs :
  a <> ActionNoop -> a <> ActionSkipped ->
  pl_HasChanges (NewPlanResult op t id path a diffs) = false <-> diffs = [].
Proof.
  intros Ha Hs. simpl. rewrite !bool_decide_eq_true_2 by done. simpl.
  rewrite Z.ltb_ge. destruct diffs; simpl; split; intros; try done; lia.
Qed.

(** A run of reads is a list of reads. *)
Lemma calls_reads {W A} (h : handler GitLabE W) (p : GP A) w :
  reads p -> Forall (fun c => is_read (projT2 c) = true) (calls h p w).
Proof. apply (calls_only h (fun X e => is_read e = true)). Qed.

(** Decides [always] by following the program. *)
Ltac always :=
  repeat first [ apply always_ret; done | apply always_bind; intros | case_match ].

(** A run whose calls are all reads leaves a stable server as it was. *)
Lemma run_calls_reads {W A} (h : handler GitLabE W) (p : GP A) w :
  stable_reads h -> Forall (fun c => is_read (projT2 c) = true) (calls h p w) -> (run h p w).2 = w.
Proof.
  intros Hs. revert w. induction p as [a|X e k IH]; intros w Hr; [done|]. simpl in *.
  pose proof (Hs X e w) as Hw. destruct (h X e w) as [x w'].
  rewrite Forall_cons in Hr. destruct Hr as [He Hk]. simpl in *.
  rewrite (Hw He) in *. by apply IH.
Qed.

(** ** Lemmas: maps built by a loop *)

Lemma map_by_snoc {A} (key : A -> string) l a : map_by key (l ++ [a]) = <[key a := a]> (map_by key l).
Proof. unfold map_by. by rewrite foldl_app. Qed.

Lemma map_by_is_some {A} (key : A -> string) l k : is_some (map_by key l !! k) = true <-> k ∈ key <$> l.
Proof.
  induction l as [|a l IH] using rev_ind.
  - unfold map_by. simpl. rewrite lookup_empty. set_solver.
  - rewrite map_by_snoc, fmap_app, elem_of_app, <- IH. simpl. rewrite list_elem_of_singleton.
    destruct (decide (key a = k)) as [<-|Hne].
    + rewrite lookup_insert_eq. naive_solver.
    + rewrite lookup_insert_ne by done. naive_solver.
Qed.

Lemma map_by_filter {A} (key : A -> string) name l :
  map_by key (List.filter (fun a => negb (key a =? name)%string) l) = delete name (map_by key l).
Proof.
  induction l as [|b l IH] using rev_ind; [symmetry; apply delete_empty|].
  rewrite List.filter_app. cbn [List.filter]. rewrite map_by_snoc.
  destruct (String.eqb_spec (key b) name) as [<-|Hne]; cbn [negb].
  - by rewrite app_nil_r, delete_insert_eq, IH.
  - by rewrite map_by_snoc, IH, delete_insert_ne.
Qed.

Lemma map_by_filter_keep {A} (key : A -> string) (p : A -> bool) l k a :
  map_by key l !! k = Some a -> p a = true -> map_by key (List.filter p l) !! k = Some a.
Proof.
  intros Hl Hp. revert Hl. induction l as [|b l IH] using rev_ind; [done|].
  rewrite List.filter_app, map_by_snoc, lookup_insert_Some. intros [[<- ->]|[Hne Hl]]; cbn [List.filter].
  - by rewrite Hp, map_by_snoc, lookup_insert_eq.
  - destruct (p b); [by rewrite map_by_snoc, lookup_insert_ne, IH|]. rewrite app_nil_r. by apply IH.
Qed.

Lemma map_by_is_Some {A} (key : A -> string) l k : is_Some (map_by key l !! k) <-> k ∈ key <$> l.
Proof. rewrite <- map_by_is_some. destruct (map_by key l !! k); simpl; split; naive_solver. Qed.

Lemma map_by_lookup {A} (key : A -> string) l a :
  NoDup (key <$> l) -> a ∈ l -> map_by key l !! key a = Some a.
Proof.
  induction l as [|b l IH] using rev_ind; [set_solver|].
  rewrite map_by_snoc, fmap_app, NoDup_app, elem_of_app, list_elem_of_singleton.
  intros (Hl & Hd & _) [Ha| ->]; [|by rewrite lookup_insert_eq].
  rewrite lookup_insert_ne; [by apply IH|]. intros He. apply (Hd (key a)); [|set_solver].
  by apply list_elem_of_fmap_2.
Qed.

Lemma map_by_lookup_Some {A} (key : A -> string) l k a : map_by key l !! k = Some a -> a ∈ l /\ key a = k.
Proof.
  induction l as [|b l IH] using rev_ind.
  - unfold map_by. simpl. by rewrite lookup_empty.
  - rewrite map_by_snoc, lookup_insert_Some. set_solver.
Qed.

(** Editing by its number the record that a key finds. *)
Lemma map_by_edit {A} (key : A -> string) (num : A -> Z) (f : A -> A) l k a :
  NoDup (num <$> l) -> map_by key l !! k = Some a -> key (f a) = k ->
  map_by key (map (fun b => if num b =? num a then f b else b) l) = <[k := f a]> (map_by key l).
Proof.
  intros Hnd Hl Hk. revert Hnd Hl. induction l as [|b l IH] using rev_ind; [done|].
  rewrite fmap_app, NoDup_app. intros (Hnd & Hd & _) Hl. pose proof (map_by_lookup_Some _ _ _ _ Hl) as [Hin Hka].
  rewrite map_app, map_by_snoc in *. cbn [map]. rewrite map_by_snoc. destruct (Z.eqb_spec (num b) (num a)) as [He|Hne].
  - assert (num a ∉ num <$> l) as Hfresh by (intros Hx; apply (Hd _ Hx); rewrite <- He; set_solver).
    assert (a = b) as <-.
    { apply elem_of_app in Hin as [Hin|Hin]; [|set_solver]. by destruct Hfresh; apply list_elem_of_fmap_2. }
    assert (map (fun b => if num b =? num a then f b else b) l = l) as ->.
    { rewrite <- (List.map_id l) at 2. apply List.map_ext_in. intros x Hx. apply list_elem_of_In in Hx.
      destruct (Z.eqb_spec (num x) (num a)) as [E|]; [|done]. destruct Hfresh. rewrite <- E. by apply list_elem_of_fmap_2. }
    by rewrite Hk, Hka, insert_insert_eq.
  - apply lookup_insert_Some in Hl as [[_ ?]|[Hkb Hl]]; [congruence|]. rewrite IH by done. by apply insert_insert_ne.
Qed.

Lemma fmap_edit {A} (num : A -> Z) (f : A -> A) i l :
  (forall a, num (f a) = num a) -> num <$> map (fun a => if num a =? i then f a else a) l = num <$> l.
Proof.
  intros Hf. change (map ?g l) with (g <$> l). rewrite <- list_fmap_compose. apply list_fmap_ext.
  intros j a _. unfold compose. by case_match.
Qed.

(** ** Lemmas: loops that collect diffs *)

(** [push_diff] only grows the list. *)
Lemma foldl_step_nil {A} (step : list Diff * ActionType -> A -> list Diff * ActionType) (ok : A -> Prop) l acc :
  (forall acc a, ok a /\ step acc a = acc \/ ~ ok a /\ exists d x, step acc a = push_diff acc d x) ->
  (foldl step acc l).1 = [] <-> acc.1 = [] /\ Forall ok l.
Proof.
  intros Hs. revert acc. induction l as [|a l IH]; intros acc; simpl.
  - split; [|tauto]. intros. split; [done|constructor].
  - rewrite IH, Forall_cons. destruct (Hs acc a) as [[Ha ->]|(Ha & d & x & ->)]; [tauto|].
    unfold push_diff. simpl. rewrite app_nil. naive_solver.
Qed.

(** A diff that is not empty comes with an action that counts as a change. *)
Definition action_ok (acc : list Diff * ActionType) : Prop :=
  (acc.1 = [] /\ acc.2 = ActionNoop) \/ acc.2 ∈ [ActionCreate; ActionUpdate; ActionDelete].

Lemma push_diff_ok acc d x :
  action_ok acc -> x ∈ [ActionCreate; ActionUpdate; ActionDelete] -> action_ok (push_diff acc d x).
Proof.
  unfold action_ok, push_diff, first_action. simpl. intros [[_ ->]|Ha] Hx; right; [done|].
  by case_decide.
Qed.

Lemma foldl_ok {A} (step : list Diff * ActionType -> A -> list Diff * ActionType) l acc :
  (forall acc a, action_ok acc -> action_ok (step acc a)) -> action_ok acc -> action_ok (foldl step acc l).
Proof. intros Hs. revert acc. induction l; simpl; auto. Qed.

Lemma action_ok_change acc :
  action_ok acc -> acc.1 <> [] -> acc.2 <> ActionNoop /\ acc.2 <> ActionSkipped.
Proof.
  intros [[E _]|Ha] Hn; [done|]. split; intros E; rewrite E in Ha; set_solver.
Qed.

(** A plan made from collected diffs reports a change iff there is a diff. *)
Lemma planned_changes op t id path acc :
  action_ok acc ->
  pl_HasChanges (NewPlanResult op t id path acc.2 acc.1) = false <-> acc.1 = [].
Proof.
  intros Hok. destruct (decide (acc.1 = [])) as [E|E]; [by rewrite E; simpl; rewrite andb_false_r|].
  destruct (action_ok_change acc Hok E). by apply NewPlanResult_changes.
Qed.

Lemma planThenApply_quiet plan noop fail enforce :
  reads plan -> quiet plan (planThenApply plan noop fail enforce).
Proof.
  intros Hr W h w r _ Hp Hc. unfold planThenApply. rewrite calls_bind. apply Forall_app.
  split; [by apply calls_reads|]. destruct (run h plan w) as [[pr e] w']. simpl in Hp. simplify_eq.
  rewrite Hc. constructor.
Qed.

Lemma planThenApply_run {W} (h : handler GitLabE W) plan noop fail enforce w p w1 :
  run h plan w = ((Some p, None), w1) ->
  run h (planThenApply plan noop fail enforce) w =
  if pl_HasChanges p then run h (enforce p) w1 else (noop, w1).
Proof.
  intros Hp. unfold planThenApply. rewrite run_bind, Hp. by destruct (pl_HasChanges p).
Qed.

Lemma map_by_update {A} (key : A -> string) (f : A -> A) n l :
  (forall a, key (f a) = key a) ->
  map_by key (map (fun a => if (key a =? n)%string then f a else a) l) = alter f n (map_by key l).
Proof.
  intros Hf. induction l as [|a l IH] using rev_ind; [done|].
  rewrite map_app. cbn [map]. rewrite !map_by_snoc, IH.
  destruct (String.eqb_spec (key a) n) as [<-|Hne].
  - rewrite Hf, alter_insert_eq. apply insert_alter_eq.
  - by rewrite alter_insert_ne.
Qed.
