(* ===== verification/PathMatch.v ===== *)
(** * path.Match of the Go standard library

    The shell patterns of the standard library, which the reconcilers of
    protected tags and protected environments use: stars, question marks,
    character classes with ranges and negation, escapes, runes decoded from
    UTF-8.  [None] is [ErrBadPattern].  The recursion of [matchChunk] and
    [path_Match] jumps over whole classes and chunks, so both take fuel, which
    the length of the pattern bounds ([matchChunk_fuel], [match_go_fuel]). *)

From S2P Require Import Prelude GoLib.
Local Open Scope string_scope.
Local Open Scope list_scope.
Local Open Scope Z_scope.

(** ** Runes *)

Definition byte_of (c : ascii) : Z := Z.of_N (N_of_ascii c).
Definition RuneError : Z := 65533.

(** The least and the largest second byte of a sequence, by its first byte. *)
Definition second_range (b : Z) : Z * Z :=
  if b =? 224 then (160, 191) else if b =? 237 then (128, 159)
  else if b =? 240 then (144, 191) else if b =? 244 then (128, 143) else (128, 191).

Definition in_range (r : Z * Z) (b : Z) : bool := (r.1 <=? b) && (b <=? r.2).
Definition is_cont (c : ascii) : bool := in_range (128, 191) (byte_of c).
Definition cont_bits (c : ascii) : Z := Z.land (byte_of c) 63.

(** [utf8.DecodeRuneInString]: the rune and its width. *)
Definition DecodeRuneInString (s : string) : Z * nat :=
  match s with
  | EmptyString => (RuneError, 0%nat)
  | String c0 s1 =>
      let b0 := byte_of c0 in
      if b0 <? 128 then (b0, 1%nat)
      else if negb (in_range (194, 244) b0) then (RuneError, 1%nat)
      else match s1 with
      | EmptyString => (RuneError, 1%nat)
      | String c1 s2 =>
          if negb (in_range (second_range b0) (byte_of c1)) then (RuneError, 1%nat)
          else if b0 <? 224 then (Z.lor (Z.shiftl (Z.land b0 31) 6) (cont_bits c1), 2%nat)
          else match s2 with
          | EmptyString => (RuneError, 1%nat)
          | String c2 s3 =>
              if negb (is_cont c2) then (RuneError, 1%nat)
              else if b0 <? 240 then
                (Z.lor (Z.lor (Z.shiftl (Z.land b0 15) 12) (Z.shiftl (cont_bits c1) 6)) (cont_bits c2), 3%nat)
              else match s3 with
              | EmptyString => (RuneError, 1%nat)
              | String c3 _ =>
                  if negb (is_cont c3) then (RuneError, 1%nat)
                  else (Z.lor (Z.lor (Z.shiftl (Z.land b0 7) 18) (Z.shiftl (cont_bits c1) 12))
                          (Z.lor (Z.shiftl (cont_bits c2) 6) (cont_bits c3)), 4%nat)
              end
          end
      end
  end.

(** ** Chunks *)

Definition backslash : ascii := "\"%char.

(** A possibly escaped rune of a character class. *)
Definition getEsc (chunk : string) : option (Z * string) :=
  match chunk with
  | EmptyString => None
  | String c rest =>
      if (c =? "-")%char || (c =? "]")%char then None
      else
        let chunk := if (c =? backslash)%char then rest else chunk in
        if (chunk =? "")%string then None
        else
          let '(r, n) := DecodeRuneInString chunk in
          let nchunk := string_drop n chunk in
          if ((r =? RuneError) && (n =? 1)%nat) || (nchunk =? "")%string then None else Some (r, nchunk)
  end.

(** The ranges of a class up to its closing bracket: whether one holds [r], and
    what follows the class. *)
Fixpoint parseRanges (fuel : nat) (r : Z) (chunk : string) (matched : bool) (nrange : nat) : option (bool * string) :=
  match fuel with
  | O => None
  | S fuel' =>
      if HasPrefix chunk "]" && (0 <? nrange)%nat then Some (matched, string_drop 1 chunk)
      else
        match getEsc chunk with
        | None => None
        | Some (lo, chunk) =>
            match (if HasPrefix chunk "-" then getEsc (string_drop 1 chunk) else Some (lo, chunk)) with
            | None => None
            | Some (hi, chunk) => parseRanges fuel' r chunk (matched || ((lo <=? r) && (r <=? hi))) (S nrange)
            end
        end
  end.

(** [s] is what is left of the name, [None] once the match has failed; the rest
    of the chunk is still checked.  The result is [None] for a bad pattern. *)
Fixpoint matchChunk (fuel : nat) (chunk : string) (s : option string) : option (option string) :=
  match fuel with
  | O => None
  | S fuel' =>
      let s := match s with Some EmptyString => match chunk with EmptyString => s | _ => None end | _ => s end in
      let literal c rest := matchChunk fuel' rest
        match s with Some (String c0 s) => if (c =? c0)%char then Some s else None | _ => None end in
      match chunk with
      | EmptyString => Some s
      | String c rest =>
          if (c =? "[")%char then
            let '(r, s) := match s with
                           | Some s => let '(r, n) := DecodeRuneInString s in (r, Some (string_drop n s))
                           | None => (0, None)
                           end in
            let negated := HasPrefix rest "^" in
            let rest := if negated then string_drop 1 rest else rest in
            match parseRanges (S (String.length rest)) r rest false 0 with
            | None => None
            | Some (matched, rest) => matchChunk fuel' rest (if eqb matched negated then None else s)
            end
          else if (c =? "?")%char then
            matchChunk fuel' rest
              match s with
              | Some s => if HasPrefix s "/" then None else Some (string_drop (DecodeRuneInString s).2 s)
              | None => None
              end
          else if (c =? backslash)%char then
            match rest with EmptyString => None | String c rest => literal c rest end
          else literal c rest
      end
  end.

Definition match_chunk (chunk s : string) : option (option string) :=
  matchChunk (S (String.length chunk)) chunk (Some s).

(** ** Patterns *)

Fixpoint drop_stars (pattern : string) : string :=
  match pattern with String c rest => if (c =? "*")%char then drop_stars rest else pattern | EmptyString => "" end.

(** The chunk up to the next star outside a class, and the rest. *)
Fixpoint scan_pat (inrange : bool) (pattern : string) : string * string :=
  match pattern with
  | EmptyString => ("", "")
  | String c rest =>
      let keep c := prod_map (String c) (fun p => p) in
      if (c =? backslash)%char then
        match rest with
        | EmptyString => (String c "", "")
        | String c' rest' => keep c (keep c' (scan_pat inrange rest'))
        end
      else if (c =? "[")%char then keep c (scan_pat true rest)
      else if (c =? "]")%char then keep c (scan_pat false rest)
      else if (c =? "*")%char && negb inrange then ("", pattern)
      else keep c (scan_pat inrange rest)
  end.

Definition scanChunk (pattern : string) : bool * string * string :=
  let '(chunk, rest) := scan_pat false (drop_stars pattern) in (HasPrefix pattern "*", chunk, rest).

(** The chunk after a star: skip one byte after the other, no slash. *)
Fixpoint skipMatch (chunk : string) (last : bool) (name : string) : option (option string) :=
  match name with
  | EmptyString => Some None
  | String c name =>
      if (c =? "/")%char then Some None
      else
        match match_chunk chunk name with
        | None => None
        | Some (Some t) => if last && negb (t =? "")%string then skipMatch chunk last name else Some (Some t)
        | Some None => skipMatch chunk last name
        end
  end.

(** What is left of a pattern that did not match must be well formed. *)
Fixpoint check_rest (fuel : nat) (pattern : string) : option bool :=
  match fuel with
  | O => None
  | S fuel' =>
      if (pattern =? "")%string then Some false
      else
        let '(_, chunk, rest) := scanChunk pattern in
        match match_chunk chunk "" with None => None | Some _ => check_rest fuel' rest end
  end.

Fixpoint match_go (fuel : nat) (pattern name : string) : option bool :=
  match fuel with
  | O => None
  | S fuel' =>
      if (pattern =? "")%string then Some (name =? "")%string
      else
        let '(star, chunk, rest) := scanChunk pattern in
        let last := (rest =? "")%string in
        if star && (chunk =? "")%string then Some (negb (Contains name "/"))
        else
          match match_chunk chunk name with
          | None => None
          | Some r =>
              match (match r with
                     | Some t => if (t =? "")%string || negb last then Some (Some t) else Some None
                     | None => Some None
                     end) with
              | Some (Some t) => match_go fuel' rest t
              | _ =>
                  if star then
                    match skipMatch chunk last name with
                    | None => None
                    | Some (Some t) => match_go fuel' rest t
                    | Some None => check_rest fuel' rest
                    end
                  else check_rest fuel' rest
              end
          end
  end.

(** [path.Match]. *)
Definition path_Match (pattern name : string) : option bool := match_go (S (String.length pattern)) pattern name.

(** [matched, _ := path.Match(pattern, name)]: a bad pattern matches nothing. *)
Definition path_matched (pattern name : string) : bool := match path_Match pattern name with Some b => b | None => false end.

Example m1 : path_Match "prod*" "production" = Some true. Proof. reflexivity. Qed.
Example m2 : path_Match "prod*" "prod/eu" = Some false. Proof. reflexivity. Qed.
Example m4 : path_Match "[a-c]?-*x" "b1-yyxx" = Some true. Proof. reflexivity. Qed.
Example m5 : path_Match "[^a-c]?-*x" "b1-yyxx" = Some false. Proof. reflexivity. Qed.
Example m6 : path_Match "[" "b" = None. Proof. reflexivity. Qed.
Example m7 : path_Match "a[" "b" = None. Proof. reflexivity. Qed.
Example m8 : path_Match "*[a-" "b" = None. Proof. reflexivity. Qed.
Example m9 : path_Match "a\*b" "a*b" = Some true. Proof. reflexivity. Qed.
Example m10 : path_Match "a*b*c" "axxbyybzc" = Some true. Proof. reflexivity. Qed.
Example m11 : path_Match "*/*" "a/b" = Some true. Proof. reflexivity. Qed.

(** ** The fuel is enough *)

Lemma DecodeRune_width s : s <> "" -> (0 < (DecodeRuneInString s).2)%nat.
Proof. destruct s as [|c s]; [done|]. intros _. unfold DecodeRuneInString. repeat case_match; simpl; lia. Qed.

Lemma getEsc_shrinks chunk r rest : getEsc chunk = Some (r, rest) -> (String.length rest < String.length chunk)%nat.
Proof.
  destruct chunk as [|c chunk]; [done|]. unfold getEsc. destruct (_ || _); [done|].
  set (ch := if (c =? backslash)%char then chunk else String c chunk).
  assert (String.length ch <= S (String.length chunk))%nat as Hl by (unfold ch; case_match; simpl; lia).
  destruct (String.eqb_spec ch "") as [_|Hne]; [done|]. pose proof (DecodeRune_width ch Hne) as Hw.
  destruct (DecodeRuneInString ch) as [r' n]. destruct (_ || _); [done|]. intros [= <- <-].
  rewrite string_drop_length. simpl in *. destruct ch; simpl in *; [done|]. lia.
Qed.

Lemma HasPrefix_drop s c : HasPrefix s (String c "") = true -> (String.length (string_drop 1 s) < String.length s)%nat.
Proof. destruct s; simpl; [done|]. intros _. lia. Qed.

Lemma parseRanges_fuel f1 f2 r chunk m n :
  (String.length chunk < f1)%nat -> (String.length chunk < f2)%nat ->
  parseRanges f1 r chunk m n = parseRanges f2 r chunk m n /\
  forall m' rest, parseRanges f1 r chunk m n = Some (m', rest) -> (String.length rest < String.length chunk)%nat.
Proof.
  revert f2 chunk m n. induction f1 as [|f1 IH]; intros [|f2] chunk m n H1 H2; [lia..|]. cbn [parseRanges].
  destruct (HasPrefix chunk "]" && (0 <? n)%nat) eqn:E.
  { apply andb_true_iff in E as [E _]. split; [done|]. intros m' rest [= <- <-]. by apply HasPrefix_drop in E. }
  destruct (getEsc chunk) as [[lo c1]|] eqn:E1; [|done]. apply getEsc_shrinks in E1.
  destruct (if HasPrefix c1 "-" then getEsc (string_drop 1 c1) else Some (lo, c1)) as [[hi c2]|] eqn:E2; [|done].
  assert (String.length c2 <= String.length c1)%nat as Hl.
  { destruct (HasPrefix c1 "-"); [|by injection E2 as _ <-]. apply getEsc_shrinks in E2. rewrite string_drop_length in E2. lia. }
  destruct (IH f2 c2 (m || ((lo <=? r) && (r <=? hi))) (S n)) as [He Hs]; [lia..|]. split; [done|].
  intros m' rest Hp. apply Hs in Hp. lia.
Qed.

Lemma matchChunk_fuel f1 f2 chunk s :
  (String.length chunk < f1)%nat -> (String.length chunk < f2)%nat -> matchChunk f1 chunk s = matchChunk f2 chunk s.
Proof.
  revert f2 chunk s. induction f1 as [|f1 IH]; intros [|f2] chunk s H1 H2; [lia..|]. cbn [matchChunk].
  destruct chunk as [|c rest]; [done|]. simpl in H1, H2.
  destruct (c =? "[")%char.
  - destruct (match _ with Some s0 => _ | None => (0, None) end) as [r s1].
    assert (String.length (if HasPrefix rest "^" then string_drop 1 rest else rest) <= String.length rest)%nat as Hl.
    { case_match; [rewrite string_drop_length|]; lia. }
    match goal with |- context [parseRanges ?f r ?ch false 0] =>
      pose proof (proj2 (parseRanges_fuel f f r ch false 0 ltac:(lia) ltac:(lia))) as Hs;
      destruct (parseRanges f r ch false 0) as [[m rest']|]; [|done] end.
    specialize (Hs _ _ eq_refl). apply IH; lia.
  - destruct (c =? "?")%char; [apply IH; lia|]. destruct (c =? backslash)%char; [|apply IH; lia].
    destruct rest; [done|]. simpl in *. apply IH; lia.
Qed.

Lemma drop_stars_length p : (String.length (drop_stars p) <= String.length p)%nat.
Proof. induction p as [|c p IH]; simpl; [done|]. case_match; simpl; lia. Qed.

Lemma scan_pat_length p : forall b, (String.length (scan_pat b p).1 + String.length (scan_pat b p).2 = String.length p)%nat.
Proof.
  assert (forall n p b, (String.length p <= n)%nat ->
    (String.length (scan_pat b p).1 + String.length (scan_pat b p).2 = String.length p)%nat) as H; [|by intros; eapply H].
  clear p. induction n as [|n IH]; intros [|c p] b Hn; simpl in *; [done|lia|done|].
  destruct (c =? backslash)%char.
  - destruct p as [|c' p]; [done|]. pose proof (IH p b ltac:(simpl in *; lia)).
    destruct (scan_pat b p). simpl in *. lia.
  - destruct (c =? "[")%char; [|destruct (c =? "]")%char; [|destruct ((c =? "*")%char && negb b); [done|]]];
      match goal with |- context [scan_pat ?b p] => pose proof (IH p b ltac:(lia)); destruct (scan_pat b p) end; simpl in *; lia.
Qed.

Lemma scanChunk_shrinks p star chunk rest :
  scanChunk p = (star, chunk, rest) -> p <> "" -> (String.length rest < String.length p)%nat.
Proof.
  unfold scanChunk. destruct p as [|c p]; [done|]. pose proof (drop_stars_length p) as Hd. cbn [drop_stars].
  destruct (c =? "*")%char eqn:Ec.
  - pose proof (scan_pat_length (drop_stars p) false) as Hl. destruct (scan_pat false (drop_stars p)) as [ch r].
    intros [= _ _ <-] _. simpl in *. lia.
  - pose proof (scan_pat_length (String c p) false) as Hl.
    assert ((scan_pat false (String c p)).1 <> "") as Hne.
    { simpl. rewrite Ec. simpl. destruct (c =? backslash)%char; [by destruct p|].
      destruct (c =? "[")%char; [done|]. by destruct (c =? "]")%char. }
    destruct (scan_pat false (String c p)) as [ch r]. intros [= _ _ <-] _. simpl in *. destruct ch; [done|]. simpl in *. lia.
Qed.

Lemma check_rest_fuel f1 f2 p :
  (String.length p < f1)%nat -> (String.length p < f2)%nat -> check_rest f1 p = check_rest f2 p.
Proof.
  revert f2 p. induction f1 as [|f1 IH]; intros [|f2] p H1 H2; [lia..|]. cbn [check_rest].
  destruct (String.eqb_spec p "") as [_|Hne]; [done|]. destruct (scanChunk p) as [[star ch] rest] eqn:Es.
  apply scanChunk_shrinks in Es; [|done]. destruct (match_chunk ch ""); [|done]. apply IH; lia.
Qed.

Lemma match_go_fuel f1 f2 p name :
  (String.length p < f1)%nat -> (String.length p < f2)%nat -> match_go f1 p name = match_go f2 p name.
Proof.
  revert f2 p name. induction f1 as [|f1 IH]; intros [|f2] p name H1 H2; [lia..|]. cbn [match_go].
  destruct (String.eqb_spec p "") as [_|Hne]; [done|]. destruct (scanChunk p) as [[star ch] rest] eqn:Es.
  apply scanChunk_shrinks in Es; [|done].
  assert (forall t, match_go f1 rest t = match_go f2 rest t) as Hm by (intros; apply IH; lia).
  assert (check_rest f1 rest = check_rest f2 rest) as Hc by (apply check_rest_fuel; lia).
  destruct (star && _); [done|]. destruct (match_chunk ch name) as [r|]; [|done].
  destruct (match r with Some t => _ | None => Some None end) as [[t|]|]; [done|..];
    (destruct star; [|done]); destruct (skipMatch ch _ name) as [[t|]|]; done.
Qed.

(** ** Literal patterns and prefixes *)

(** A character that stands for itself. *)
Definition is_literal (c : ascii) : bool :=
  negb ((c =? "*")%char || (c =? "?")%char || (c =? "[")%char || (c =? backslash)%char).

Lemma is_literal_inv c : is_literal c = true ->
  (c =? "*")%char = false /\ (c =? "?")%char = false /\ (c =? "[")%char = false /\ (c =? backslash)%char = false.
Proof. unfold is_literal. rewrite negb_true_iff, !orb_false_iff. tauto. Qed.

Lemma matchChunk_literal f p s :
  string_all is_literal p = true -> (String.length p < f)%nat ->
  matchChunk f p (Some s) = Some (if HasPrefix s p then Some (string_drop (String.length p) s) else None) /\
  matchChunk f p None = Some None.
Proof.
  revert f s. induction p as [|c p IH]; intros [|f] s Hl Hf; [lia| |lia|]; cbn [matchChunk].
  { by destruct s. }
  simpl in Hl. apply andb_true_iff in Hl as [Hc Hl]. apply is_literal_inv in Hc as (H1 & H2 & H3 & H4).
  rewrite H2, H3, H4. simpl in Hf. pose proof (fun s => IH f s Hl ltac:(lia)) as Hs. split; [|by apply (Hs "")].
  destruct s as [|c0 s]; [by apply (Hs "")|]. unfold HasPrefix in *. cbn [String.prefix String.length string_drop].
  destruct (Ascii.eqb_spec c c0) as [->|Hne].
  - rewrite (proj1 (Hs s)). destruct (ascii_dec c0 c0); [done|congruence].
  - destruct (ascii_dec c c0); [congruence|]. by apply (Hs "").
Qed.

Lemma scan_literal p q : string_all is_literal p = true -> scan_pat false q = ("", q) -> scan_pat false (p +:+ q) = (p, q).
Proof.
  intros Hl Hq. induction p as [|c p IH]; [done|]. simpl in Hl. apply andb_true_iff in Hl as [Hc Hl].
  apply is_literal_inv in Hc as (H1 & H2 & H3 & H4). rewrite string_app_cons. simpl. rewrite H1, H3, H4, (IH Hl).
  simpl. by destruct (c =? "]")%char.
Qed.

(** A literal text followed by a star matches what it is a prefix of, up to the
    next slash; a literal pattern matches itself. *)
Lemma path_matched_prefix p name :
  string_all is_literal p = true ->
  path_matched (p +:+ "*") name = true <-> exists rest, name = p +:+ rest /\ Contains rest "/" = false.
Proof.
  intros Hl. unfold path_matched, path_Match. rewrite string_app_length, Nat.add_comm. cbn [String.length Nat.add].
  assert (forall n f, match_go (S f) "*" n = Some (negb (Contains n "/"))) as Hstar by done.
  destruct (decide (p = "")) as [->|Hp].
  { rewrite string_app_nil_l. cbn -[Contains]. rewrite negb_true_iff. split; [by exists name|].
    by intros (r & -> & ?). }
  remember (S (String.length p)) as f eqn:Hf. cbn [match_go]. assert (scanChunk (p +:+ "*") = (false, p, "*")) as ->.
  { unfold scanChunk. assert (drop_stars (p +:+ "*") = p +:+ "*" /\ HasPrefix (p +:+ "*") "*" = false) as [-> ->].
    { destruct p as [|c p]; [done|]. simpl in Hl. apply andb_true_iff in Hl as [Hc _].
      apply is_literal_inv in Hc as (H1 & _). rewrite string_app_cons. unfold HasPrefix. cbn [drop_stars String.prefix]. rewrite H1.
      split; [done|]. destruct (ascii_dec "*" c) as [<-|]; done. }
    by rewrite scan_literal. }
  destruct (String.eqb_spec (p +:+ "*") "") as [He|_]; [by destruct p|]. cbn [andb String.eqb]. subst f.
  unfold match_chunk. rewrite (proj1 (matchChunk_literal _ p name Hl (Nat.lt_succ_diag_r _))).
  destruct (HasPrefix name p) eqn:Hpre.
  - apply HasPrefix_spec in Hpre as [r ->]. rewrite string_drop_app, orb_true_r, Hstar, negb_true_iff.
    split; [by exists r|]. intros (r' & He & Hr). by apply (inj (String.app p)) in He as <-.
  - destruct p as [|c p]; [done|]. split; [done|]. intros (r & -> & _). by rewrite (proj2 (HasPrefix_spec (String c p +:+ r) _) (ex_intro _ r eq_refl)) in Hpre.
Qed.
