(* ===== verification/Protections.v ===== *)
(** * Protections by name

    Protected tags and protected environments are reconciled by the same loop:
    resolve each rule, create the protections that are missing, replace those
    that differ (unprotect, then protect), and with pruning remove those the
    policy does not manage.  The loops are written once here, over a record of
    what the two reconcilers do differently, with the lemmas both use; the
    reconcilers instantiate them. *)

From S2P Require Import Prelude GoLib Config GitLabAPI Server Governance.
Local Open Scope string_scope.
Local Open Scope list_scope.
Local Open Scope Z_scope.

(** The parts of a reconciler: [Opt] is what a rule becomes once its names are
    resolved. *)
Record protections (Rule Live Opt : Type) : Type := {
  rule_name : Rule -> string;
  live_name : Live -> string;
  rule_options : Rule -> GP (error + Opt);
  create_diff : Rule -> Opt -> Diff;
  update_diff : Live -> Rule -> Opt -> Diff;
  delete_diff : string -> Diff;
  protect : Opt -> GP (option error);
  unprotect : string -> GP (option error);
  (** The results of a failure, from the diffs applied so far. *)
  fail_resolve : list Diff -> error -> ApplyReturn;
  fail_create : list Diff -> Diff -> Rule -> error -> ApplyReturn;
  fail_update : list Diff -> Diff -> Rule -> error -> ApplyReturn;
  fail_prune : list Diff -> string -> error -> ApplyReturn
}.
Arguments rule_name {Rule Live Opt}.
Arguments live_name {Rule Live Opt}.
Arguments rule_options {Rule Live Opt}.
Arguments create_diff {Rule Live Opt}.
Arguments update_diff {Rule Live Opt}.
Arguments delete_diff {Rule Live Opt}.
Arguments protect {Rule Live Opt}.
Arguments unprotect {Rule Live Opt}.
Arguments fail_resolve {Rule Live Opt}.
Arguments fail_create {Rule Live Opt}.
Arguments fail_update {Rule Live Opt}.
Arguments fail_prune {Rule Live Opt}.

Section Loops.
Context {Rule Live Opt : Type} (ps : protections Rule Live Opt).

Definition live_by_name (live : list (option Live)) : gmap string Live := map_by (live_name ps) (omap id live).

Definition planRule (liveMap : gmap string Live) (acc : list Diff * ActionType) (rule : Rule) (opt : Opt)
  : list Diff * ActionType :=
  match liveMap !! rule_name ps rule with
  | None => push_diff acc (create_diff ps rule opt) ActionCreate
  | Some live =>
      let diff := update_diff ps live rule opt in
      if Diff_HasChanges diff then push_diff acc diff ActionUpdate else acc
  end.

Fixpoint planProtections (liveMap : gmap string Live) (rules : list Rule) (acc : list Diff * ActionType)
  : GP (error + (list Diff * ActionType)) :=
  match rules with
  | [] => mret (inr acc)
  | rule :: rest =>
      o ← rule_options ps rule;
      match o with
      | inl e => mret (inl e)
      | inr opt => planProtections liveMap rest (planRule liveMap acc rule opt)
      end
  end.

Definition prunePlan (managed : string -> bool) (live : list (option Live)) (acc : list Diff * ActionType)
  : list Diff * ActionType :=
  foldl (fun acc l => if managed (live_name ps l) then acc
                      else push_diff acc (delete_diff ps (live_name ps l)) ActionDelete) acc (omap id live).

Fixpoint applyProtections (liveMap : gmap string Live) (rules : list Rule) (acc : list Diff * ActionType)
    (next : list Diff * ActionType -> GP ApplyReturn) : GP ApplyReturn :=
  match rules with
  | [] => next acc
  | rule :: rest =>
      o ← rule_options ps rule;
      match o with
      | inl e => mret (fail_resolve ps acc.1 e)
      | inr opt =>
          match liveMap !! rule_name ps rule with
          | None =>
              let diff := create_diff ps rule opt in
              r ← protect ps opt;
              match r with
              | Some e => mret (fail_create ps acc.1 diff rule e)
              | None => applyProtections liveMap rest (push_diff acc diff ActionCreate) next
              end
          | Some live =>
              let diff := update_diff ps live rule opt in
              if negb (Diff_HasChanges diff) then applyProtections liveMap rest acc next
              else
                (* the error of the removal is ignored *)
                _ ← unprotect ps (rule_name ps rule);
                r ← protect ps opt;
                match r with
                | Some e => mret (fail_update ps acc.1 diff rule e)
                | None => applyProtections liveMap rest (push_diff acc diff ActionUpdate) next
                end
          end
      end
  end.

Fixpoint pruneApply (managed : string -> bool) (live : list Live) (acc : list Diff * ActionType)
    (next : list Diff * ActionType -> GP ApplyReturn) : GP ApplyReturn :=
  match live with
  | [] => next acc
  | l :: rest =>
      if managed (live_name ps l) then pruneApply managed rest acc next
      else
        r ← unprotect ps (live_name ps l);
        match r with
        | Some e => mret (fail_prune ps acc.1 (live_name ps l) e)
        | None => pruneApply managed rest (push_diff acc (delete_diff ps (live_name ps l)) ActionDelete) next
        end
  end.

(** The two halves of a plan, and of an enforcement. *)
Definition planAll (managed : string -> bool) (prune : bool) (live : list (option Live)) (rules : list Rule)
  : GP (error + (list Diff * ActionType)) :=
  r ← planProtections (live_by_name live) rules ([], ActionNoop);
  mret match r with
       | inl e => inl e
       | inr acc => inr (if prune then prunePlan managed live acc else acc)
       end.

Definition applyAll (managed : string -> bool) (prune : bool) (live : list (option Live)) (rules : list Rule)
    (finish : list Diff * ActionType -> GP ApplyReturn) : GP ApplyReturn :=
  applyProtections (live_by_name live) rules ([], ActionNoop)
    (fun acc => if prune then pruneApply managed (omap id live) acc finish else finish acc).

(** ** Planning *)

Lemma prunePlan_nil managed live acc :
  (prunePlan managed live acc).1 = [] <->
  acc.1 = [] /\ Forall (fun l => managed (live_name ps l) = true) (omap id live).
Proof.
  apply foldl_step_nil. intros acc' l. destruct (managed _); [by left|right]. naive_solver.
Qed.

Lemma planRule_ok liveMap acc rule opt : action_ok acc -> action_ok (planRule liveMap acc rule opt).
Proof. intros Ha. unfold planRule. repeat case_match; auto; apply push_diff_ok; auto; set_solver. Qed.

Lemma prunePlan_ok managed live acc : action_ok acc -> action_ok (prunePlan managed live acc).
Proof. apply foldl_ok. intros acc' l Ha. case_match; [done|]. apply push_diff_ok; [done|set_solver]. Qed.

Lemma planRule_grows liveMap acc rule opt : (planRule liveMap acc rule opt).1 = [] -> planRule liveMap acc rule opt = acc.
Proof. unfold planRule, push_diff. repeat case_match; simpl; rewrite ?app_nil; naive_solver. Qed.

Lemma planProtections_reads liveMap rules acc :
  (forall rule, reads (rule_options ps rule)) -> reads (planProtections liveMap rules acc).
Proof.
  intros Hr. revert acc. induction rules as [|rule rules IH]; intros acc; cbn [planProtections]; [done|].
  apply reads_bind; [done|]. intros [e|opt]; [done|apply IH].
Qed.

Lemma planProtections_ok {W} (h : handler GitLabE W) liveMap rules acc acc' w w' :
  action_ok acc -> run h (planProtections liveMap rules acc) w = (inr acc', w') -> action_ok acc'.
Proof.
  revert acc w. induction rules as [|rule rules IH]; intros acc w Ha; cbn [planProtections]; [by intros [= <- _]|].
  rewrite run_bind. destruct (run h _ w) as [[e|opt] w1]; [done|]. by apply IH, planRule_ok.
Qed.

Lemma planProtections_grows {W} (h : handler GitLabE W) liveMap rules acc acc' w w' :
  run h (planProtections liveMap rules acc) w = (inr acc', w') -> acc'.1 = [] -> acc' = acc.
Proof.
  revert acc w. induction rules as [|rule rules IH]; intros acc w; cbn [planProtections]; [by intros [= -> _]|].
  rewrite run_bind. destruct (run h _ w) as [[e|opt] w1]; [done|]. intros Hr Hn.
  pose proof (IH _ _ Hr Hn) as ->. by apply planRule_grows.
Qed.

(** A rule that leaves the plan as it was has a protection that meets it. *)
Lemma planRule_quiet liveMap acc rule opt :
  acc.1 = [] -> (planRule liveMap acc rule opt = acc) <->
  exists live, liveMap !! rule_name ps rule = Some live /\ Diff_HasChanges (update_diff ps live rule opt) = false.
Proof.
  intros Hn. unfold planRule, push_diff. destruct acc as [d a]. simpl in Hn. subst d.
  destruct (liveMap !! _) as [live|]; [destruct (Diff_HasChanges _) eqn:E|]; simpl; naive_solver congruence.
Qed.

(** Where the plan finds nothing, the enforcement of the rules only reads. *)
Lemma applyProtections_quiet {W} (h : handler GitLabE W) liveMap rules acc next w w' :
  stable_reads h -> (forall rule, reads (rule_options ps rule)) ->
  run h (planProtections liveMap rules acc) w = (inr acc, w') -> acc.1 = [] ->
  Forall (fun c => is_read (projT2 c) = true) (calls h (next acc) w) ->
  Forall (fun c => is_read (projT2 c) = true) (calls h (applyProtections liveMap rules acc next) w).
Proof.
  intros Hs Hr Hp Hn Hnext. induction rules as [|rule rules IH]; cbn [planProtections applyProtections] in *; [done|].
  rewrite run_bind in Hp. rewrite calls_bind.
  pose proof (run_reads h _ w Hs (Hr rule)) as Hw. pose proof (calls_reads h _ w (Hr rule)) as Hc.
  destruct (run h (rule_options ps rule) w) as [[e|opt] w1]; [done|]. simpl in Hw. subst w1.
  pose proof (planProtections_grows h _ _ _ _ _ _ Hp Hn) as He.
  rewrite <- He in Hp. symmetry in He. apply (planRule_quiet _ _ _ _ Hn) in He as (live & -> & Hq).
  cbv zeta. rewrite Hq. cbn [negb]. apply Forall_app. split; [done|]. by apply IH.
Qed.

Lemma pruneApply_quiet {W} (h : handler GitLabE W) managed live acc next w :
  Forall (fun l => managed (live_name ps l) = true) live ->
  calls h (pruneApply managed live acc next) w = calls h (next acc) w.
Proof. induction 1 as [|l live Hl _ IH]; cbn [pruneApply]; [done|]. by rewrite Hl. Qed.

Lemma planAll_reads managed prune live rules :
  (forall rule, reads (rule_options ps rule)) -> reads (planAll managed prune live rules).
Proof. intros Hr. apply reads_bind; [by apply planProtections_reads|done]. Qed.

Lemma planAll_ok {W} (h : handler GitLabE W) managed prune live rules acc w w' :
  run h (planAll managed prune live rules) w = (inr acc, w') -> action_ok acc.
Proof.
  unfold planAll. rewrite run_bind. destruct (run h _ w) as [[e|acc'] w1] eqn:Hr; rewrite run_ret; [done|].
  intros [= <- _]. apply planProtections_ok in Hr; [|by left]. destruct prune; [by apply prunePlan_ok|done].
Qed.

Lemma applyAll_quiet {W} (h : handler GitLabE W) managed prune live rules finish acc w w' :
  stable_reads h -> (forall rule, reads (rule_options ps rule)) ->
  run h (planAll managed prune live rules) w = (inr acc, w') -> acc.1 = [] ->
  (forall acc, reads (finish acc)) ->
  Forall (fun c => is_read (projT2 c) = true) (calls h (applyAll managed prune live rules finish) w).
Proof.
  intros Hs Hr Hp Hn Hf. unfold planAll in Hp. rewrite run_bind in Hp.
  destruct (run h _ w) as [[e|acc1] w1] eqn:Hr1; rewrite run_ret in Hp; [done|]. injection Hp as <- <-.
  assert (acc1.1 = [] /\ (prune = true -> Forall (fun l => managed (live_name ps l) = true) (omap id live)))
    as [Hn1 Hm].
  { destruct prune; [|done]. apply prunePlan_nil in Hn as []. by split. }
  pose proof (planProtections_grows h _ _ _ _ _ _ Hr1 Hn1). subst acc1.
  unfold applyAll. eapply applyProtections_quiet; [done..|exact Hr1|done|].
  destruct prune; [|by apply calls_reads]. rewrite pruneApply_quiet by auto. by apply calls_reads.
Qed.

(** A plan is quiet exactly when every rule resolves to what its protection
    meets, so the order of the rules does not matter to it. *)
Lemma planProtections_quiet_iff {W} (h : handler GitLabE W) liveMap rules acc w :
  stable_reads h -> (forall rule, reads (rule_options ps rule)) -> acc.1 = [] ->
  (exists acc', run h (planProtections liveMap rules acc) w = (inr acc', w) /\ acc'.1 = []) <->
  Forall (fun rule => exists opt live, (run h (rule_options ps rule) w).1 = inr opt /\
    liveMap !! rule_name ps rule = Some live /\ Diff_HasChanges (update_diff ps live rule opt) = false) rules.
Proof.
  intros Hs Hr Hn. induction rules as [|rule rules IH]; cbn [planProtections].
  { split; [done|]. intros _. by exists acc. }
  rewrite Forall_cons, <- IH, run_bind. pose proof (run_reads h _ w Hs (Hr rule)) as Hw.
  destruct (run h (rule_options ps rule) w) as [[e|opt] w1]; cbn [fst snd] in *; subst w1.
  { split; [by intros (? & [=] & _)|by intros [(? & ? & [=] & _) _]]. }
  split.
  - intros (acc' & Hp & Hn'). pose proof (planProtections_grows h _ _ _ _ _ _ Hp Hn') as ->.
    pose proof (planRule_grows _ _ _ _ Hn') as He. rewrite He in Hp.
    apply (planRule_quiet _ _ _ _ Hn) in He as (live & ? & ?).
    split; [by exists opt, live|by exists acc].
  - intros [(opt' & live & [= ->] & Hl & Hq) (acc' & Hp & Hn')].
    rewrite (proj2 (planRule_quiet liveMap acc rule opt' Hn)) by eauto. by exists acc'.
Qed.

Lemma planAll_quiet_perm {W} (h : handler GitLabE W) managed managed' prune live rules rules' acc w w' :
  stable_reads h -> (forall rule, reads (rule_options ps rule)) -> rules ≡ₚ rules' -> (forall n, managed n = managed' n) ->
  run h (planAll managed prune live rules) w = (inr acc, w') -> acc.1 = [] ->
  exists acc', run h (planAll managed' prune live rules') w = (inr acc', w) /\ acc'.1 = [].
Proof.
  intros Hs Hr Hperm Hm Hp Hn. unfold planAll in *. rewrite run_bind in *.
  pose proof (run_reads h (planProtections (live_by_name live) rules ([], ActionNoop)) w Hs
    (planProtections_reads _ _ _ Hr)) as Hw.
  destruct (run h (planProtections _ rules _) w) as [[e|acc1] w1] eqn:Hr1; rewrite run_ret in Hp; [done|].
  simpl in Hw. subst w1. injection Hp as <- <-.
  assert (acc1.1 = []) as Hn1 by (destruct prune; [by apply prunePlan_nil in Hn as []|done]).
  destruct (proj2 (planProtections_quiet_iff h (live_by_name live) rules' ([], ActionNoop) w Hs Hr eq_refl)) as (acc2 & Hr2 & Hn2).
  { rewrite <- Hperm. apply (planProtections_quiet_iff h _ _ ([], ActionNoop) w Hs Hr eq_refl). by exists acc1. }
  rewrite Hr2, run_ret. eexists. split; [done|]. destruct prune; [|done].
  apply prunePlan_nil in Hn as [_ Hn]. apply prunePlan_nil. split; [done|].
  eapply Forall_impl; [exact Hn|]. intros l. cbv beta. by rewrite <- Hm.
Qed.

End Loops.

(** ** Enforcing *)

Section Server.
Context {Rule Live Opt : Type} (ps : protections Rule Live Opt) {W : Type} (h : handler GitLabE W).

(** What the server does: [prot] are the protections it has, [as_live] what a
    protection looks like once it is made, [resolved] what the rules resolve
    to. *)
Record protection_server (prot : W -> gmap string Live) (as_live : Opt -> Live)
    (resolved : Rule -> error + Opt) : Prop := {
  pv_resolve : forall rule w, run h (rule_options ps rule) w = (resolved rule, w);
  pv_protect : forall rule opt w, resolved rule = inr opt ->
    (run h (protect ps opt) w).1 = None ->
    prot (run h (protect ps opt) w).2 = <[rule_name ps rule := as_live opt]> (prot w);
  pv_unprotect_other : forall n m w, m <> n -> prot (run h (unprotect ps n) w).2 !! m = prot w !! m;
  pv_unprotect : forall n w,
    (run h (unprotect ps n) w).1 = None -> prot (run h (unprotect ps n) w).2 !! n = None
}.

(** A failure carries an error. *)
Record failures : Prop := {
  fl_resolve : forall d e, (fail_resolve ps d e).2 <> None;
  fl_create : forall d x r e, (fail_create ps d x r e).2 <> None;
  fl_update : forall d x r e, (fail_update ps d x r e).2 <> None;
  fl_prune : forall d n e, (fail_prune ps d n e).2 <> None
}.

Context (prot : W -> gmap string Live) (as_live : Opt -> Live) (resolved : Rule -> error + Opt)
  (srv : protection_server prot as_live resolved) (fl : failures).

(** A rule is met by the protection of its name. *)
Definition rule_met (m : gmap string Live) (rule : Rule) : Prop :=
  exists opt live, resolved rule = inr opt /\ m !! rule_name ps rule = Some live /\
    Diff_HasChanges (update_diff ps live rule opt) = false.

(** A new protection meets its rule. *)
Definition makes_good (rule : Rule) : Prop :=
  forall opt, resolved rule = inr opt -> Diff_HasChanges (update_diff ps (as_live opt) rule opt) = false.

Lemma rule_met_frame m m' rule : m' !! rule_name ps rule = m !! rule_name ps rule -> rule_met m rule -> rule_met m' rule.
Proof. unfold rule_met. by intros ->. Qed.

Lemma planRule_nil liveMap acc rule opt :
  resolved rule = inr opt -> (planRule ps liveMap acc rule opt).1 = [] <-> acc.1 = [] /\ rule_met liveMap rule.
Proof.
  intros Er. unfold planRule, push_diff, rule_met. destruct (liveMap !! _) as [live|];
    [destruct (Diff_HasChanges _) eqn:E|]; simpl; rewrite ?app_nil; naive_solver congruence.
Qed.

(** What planning the rules gives: an error if a rule does not resolve, else no
    diff exactly when every rule is met. *)
Lemma planProtections_run liveMap rules acc w :
  match run h (planProtections ps liveMap rules acc) w with
  | (inr acc', w') => w' = w /\ (acc'.1 = [] <-> acc.1 = [] /\ Forall (rule_met liveMap) rules)
  | (inl e, w') => w' = w /\ exists rule, rule ∈ rules /\ resolved rule = inl e
  end.
Proof using srv.
  revert acc. induction rules as [|rule rules IH]; intros acc; cbn [planProtections].
  { rewrite run_ret. split; [done|]. split; [intros; by split|by intros []]. }
  rewrite run_bind, (pv_resolve _ _ _ srv). destruct (resolved rule) as [e|opt] eqn:Er.
  { rewrite run_ret. split; [done|]. exists rule. split; [by left|done]. }
  specialize (IH (planRule ps liveMap acc rule opt)). destruct (run h _ w) as [[e|acc'] w']; destruct IH as [-> IH].
  - split; [done|]. destruct IH as (r & ? & ?). exists r. split; [by right|done].
  - split; [done|]. rewrite IH, Forall_cons, (planRule_nil _ _ _ _ Er). tauto.
Qed.

(** A rule that differs, replaced. *)
Lemma replace_run rule opt w u w1 w2 :
  resolved rule = inr opt -> run h (unprotect ps (rule_name ps rule)) w = (u, w1) ->
  run h (protect ps opt) w1 = (None, w2) ->
  prot w2 !! rule_name ps rule = Some (as_live opt) /\
  (forall m, m <> rule_name ps rule -> prot w2 !! m = prot w !! m).
Proof using srv.
  intros Er Hu Hp. pose proof (fun m => pv_unprotect_other _ _ _ srv (rule_name ps rule) m w) as Ho.
  pose proof (pv_protect _ _ _ srv rule opt w1 Er) as Hm. rewrite Hu in Ho. rewrite Hp in Hm. cbn [fst snd] in *.
  rewrite (Hm eq_refl). split; [by rewrite lookup_insert_eq|]. intros m Hne.
  rewrite lookup_insert_ne by done. by apply Ho.
Qed.

(** When the loop over the rules goes through, every rule is met and only
    protections that the rules name have changed. *)
Lemma applyProtections_run live0 rules acc next w res w' :
  NoDup (rule_name ps <$> rules) -> Forall makes_good rules ->
  (forall n, n ∈ rule_name ps <$> rules -> prot w !! n = live0 !! n) ->
  run h (applyProtections ps live0 rules acc next) w = ((res, None), w') ->
  exists w1 acc1, run h (next acc1) w1 = ((res, None), w') /\
    (forall n, n ∉ rule_name ps <$> rules -> prot w1 !! n = prot w !! n) /\
    Forall (rule_met (prot w1)) rules.
Proof using srv fl.
  revert w acc. induction rules as [|rule rules IH]; intros w acc Hnd Hok Hlive Hr; cbn [applyProtections] in Hr.
  { exists w, acc. by split_and!. }
  rewrite fmap_cons, NoDup_cons in Hnd. destruct Hnd as [Hn Hnd].
  rewrite Forall_cons in Hok. destruct Hok as [Hok Hoks].
  assert (exists w1 acc1, rule_met (prot w1) rule /\ (forall n, n <> rule_name ps rule -> prot w1 !! n = prot w !! n) /\
    run h (applyProtections ps live0 rules acc1 next) w1 = ((res, None), w')) as (w1 & acc1 & H1 & Hframe & Hr1).
  { rewrite run_bind, (pv_resolve _ _ _ srv) in Hr. destruct (resolved rule) as [e|opt] eqn:Er.
    { rewrite run_ret in Hr. injection Hr as Hr _. by destruct (fl_resolve fl acc.1 e (f_equal snd Hr)). }
    specialize (Hlive (rule_name ps rule) ltac:(rewrite fmap_cons; set_solver)). rewrite <- Hlive in Hr.
    destruct (prot w !! rule_name ps rule) as [live|] eqn:El; cbv zeta in Hr.
    - destruct (Diff_HasChanges (update_diff ps live rule opt)) eqn:Ec; cbn [negb] in Hr.
      + rewrite run_bind in Hr. destruct (run h (unprotect ps _) w) as [u w1] eqn:Eu.
        rewrite run_bind in Hr. destruct (run h (protect ps opt) w1) as [[e|] w2] eqn:Ep.
        { rewrite run_ret in Hr. injection Hr as Hr _. by destruct (fl_update fl _ _ _ _ (f_equal snd Hr)). }
        destruct (replace_run rule opt w u w1 w2 Er Eu Ep) as [Hl Hf]. eexists w2, _. split_and!; [|done|exact Hr].
        exists opt, (as_live opt). split_and!; [done|done|by apply Hok].
      + exists w, acc. split_and!; [|done|done]. by exists opt, live.
    - rewrite run_bind in Hr. pose proof (pv_protect _ _ _ srv rule opt w Er) as Hp.
      destruct (run h (protect ps opt) w) as [[e|] w1].
      { rewrite run_ret in Hr. injection Hr as Hr _. by destruct (fl_create fl _ _ _ _ (f_equal snd Hr)). }
      cbn [fst snd] in Hp. eexists w1, _. split_and!; [| |exact Hr]; rewrite (Hp eq_refl).
      + exists opt, (as_live opt). rewrite lookup_insert_eq. split_and!; [done|done|by apply Hok].
      + intros n Hne. by rewrite lookup_insert_ne. }
  destruct (IH w1 acc1 Hnd Hoks) as (w2 & acc2 & Hnext & Hother & Hdone); [|done|].
  { intros n Hin. rewrite Hframe by set_solver. apply Hlive. rewrite fmap_cons. set_solver. }
  exists w2, acc2. split_and!; [done| |].
  - intros n. rewrite fmap_cons, not_elem_of_cons. intros [Hne Hnin]. by rewrite Hother, Hframe.
  - constructor; [|done]. eapply rule_met_frame; [by apply Hother|done].
Qed.

(** When the pruning goes through, what it found unmanaged is gone and nothing
    else has changed. *)
Lemma pruneApply_run managed live acc next w res w' :
  run h (pruneApply ps managed live acc next) w = ((res, None), w') ->
  exists w1 acc1, run h (next acc1) w1 = ((res, None), w') /\
    (forall n, managed n = true -> prot w1 !! n = prot w !! n) /\
    (forall n, managed n = false -> n ∈ live_name ps <$> live -> prot w1 !! n = None) /\
    (forall n, prot w !! n = None -> prot w1 !! n = None).
Proof using srv fl.
  revert w acc. induction live as [|l live IH]; intros w acc; cbn [pruneApply].
  { intros Hr. exists w, acc. split_and!; [done..|set_solver|done]. }
  destruct (managed (live_name ps l)) eqn:Em.
  - intros Hr. destruct (IH _ _ Hr) as (w1 & acc1 & Hn & Hm & Hgone & Hstay). exists w1, acc1.
    split_and!; [done..| |done]. intros n Hf. rewrite fmap_cons, elem_of_cons.
    intros [->|Hin]; [congruence|by apply Hgone].
  - rewrite run_bind. pose proof (fun m => pv_unprotect_other _ _ _ srv (live_name ps l) m w) as Hu.
    pose proof (pv_unprotect _ _ _ srv (live_name ps l) w) as Hd.
    destruct (run h (unprotect ps _) w) as [[e|] w1]; cbn [fst snd] in *.
    { rewrite run_ret. intros [= Hr _]. by destruct (fl_prune fl _ _ _ (f_equal snd Hr)). }
    intros Hr. destruct (IH _ _ Hr) as (w2 & acc2 & Hn & Hm & Hgone & Hstay). exists w2, acc2.
    split_and!; [done| | |].
    + intros n Ht. rewrite Hm by done. apply Hu. congruence.
    + intros n Hf. rewrite fmap_cons, elem_of_cons. intros [->|Hin]; [by apply Hstay, Hd|by apply Hgone].
    + intros n Hnone. apply Hstay. destruct (decide (n = live_name ps l)) as [->|Hne]; [by apply Hd|by rewrite Hu].
Qed.

(** What the policy asks of the protections of a project. *)
Definition policy_met (managed : string -> bool) (prune : bool) (rules : list Rule) (m : gmap string Live) : Prop :=
  Forall (rule_met m) rules /\ (prune = true -> forall n, is_Some (m !! n) -> managed n = true).

Lemma planAll_run managed prune live rules w :
  match run h (planAll ps managed prune live rules) w with
  | (inr acc, w') => w' = w /\ (acc.1 = [] <-> policy_met managed prune rules (live_by_name ps live))
  | (inl e, w') => w' = w /\ exists rule, rule ∈ rules /\ resolved rule = inl e
  end.
Proof using srv.
  unfold planAll, policy_met. rewrite run_bind.
  pose proof (planProtections_run (live_by_name ps live) rules ([], ActionNoop) w) as H.
  destruct (run h _ w) as [[e|acc] w']; rewrite run_ret; [done|]. destruct H as [-> H]. split; [done|].
  assert (Forall (fun l => managed (live_name ps l) = true) (omap id live) <->
          forall n, is_Some (live_by_name ps live !! n) -> managed n = true) as Hm.
  { rewrite Forall_forall. unfold live_by_name. setoid_rewrite map_by_is_Some. setoid_rewrite list_elem_of_fmap. naive_solver. }
  destruct prune; [rewrite prunePlan_nil|]; rewrite H; simpl; naive_solver.
Qed.

(** When an enforcement reports no error the policy is met, and a protection
    that the policy does not manage is as it was, or gone when pruning. *)
Lemma applyAll_run managed prune live rules finish w res w' :
  (forall acc w, (run h (finish acc) w).2 = w) ->
  live_by_name ps live = prot w ->
  NoDup (rule_name ps <$> rules) -> Forall makes_good rules ->
  (forall rule, rule ∈ rules -> managed (rule_name ps rule) = true) ->
  run h (applyAll ps managed prune live rules finish) w = ((res, None), w') ->
  policy_met managed prune rules (prot w') /\
  (forall n, n ∉ rule_name ps <$> rules ->
     prot w' !! n = if prune && negb (managed n) then None else prot w !! n).
Proof using srv fl.
  intros Hfin Hlive Hnd Hok Hman Hr. unfold applyAll in Hr.
  destruct (applyProtections_run _ _ _ _ _ _ _ Hnd Hok (fun n _ => eq_sym (f_equal (fun m => m !! n) Hlive)) Hr)
    as (w1 & acc1 & Hr1 & Hother & Hmet).
  destruct prune; cbn [andb].
  2: { pose proof (Hfin acc1 w1) as Hw. rewrite Hr1 in Hw. simpl in Hw. subst w1. by split_and!. }
  destruct (pruneApply_run _ _ _ _ _ _ _ Hr1) as (w2 & acc2 & Hr2 & Hkeep & Hgone & Hstay).
  pose proof (Hfin acc2 w2) as Hw. rewrite Hr2 in Hw. simpl in Hw. subst w2.
  assert (forall n, managed n = false -> prot w' !! n = None) as Hnone.
  { intros n Hf. assert (n ∉ rule_name ps <$> rules) as Hn.
    { rewrite list_elem_of_fmap. intros (rule & -> & Hin). apply Hman in Hin. congruence. }
    destruct (prot w !! n) as [l|] eqn:El.
    - apply Hgone; [done|]. unfold live_by_name in Hlive. apply map_by_is_Some. by rewrite Hlive, El.
    - apply Hstay. by rewrite Hother, El. }
  split; [split|].
  - apply Forall_forall. intros rule Hin. rewrite Forall_forall in Hmet.
    eapply rule_met_frame; [by apply Hkeep, Hman|by apply Hmet].
  - intros _ n [l Hl]. destruct (managed n) eqn:E; [done|]. by rewrite Hnone in Hl.
  - intros n Hn. destruct (managed n) eqn:E; simpl; [|by apply Hnone]. by rewrite Hkeep, Hother.
Qed.

End Server.
