(* ===== verification/ProtectedTags.v ===== *)
(** * Tag protections: internal/governance/protectedtags.go

    The loops are those of [Protections]; a rule is resolved by looking up the
    user names and group paths of its access descriptions.  [fuel] bounds the
    pages of the listing.  [MatchesTagPattern] is used by the tests alone: a
    tag pattern is looked up by its text, never matched. *)

From S2P Require Import Prelude GoLib Config GitLabAPI Server Fetch Resolver Governance PathMatch Protections.
Local Open Scope string_scope.
Local Open Scope list_scope.
Local Open Scope Z_scope.

Definition ProtectedTags_Name : string := "protected_tags".
Definition ProtectedTags_Order : Z := 22.

Definition MatchesTagPattern (pattern tag : string) : bool :=
  let pattern := TrimSpace pattern in
  let tag := TrimSpace tag in
  if (pattern =? tag)%string || (pattern =? "*")%string then true
  else if path_matched pattern tag then true
  else if HasSuffix pattern "*" then HasPrefix tag (TrimSuffix pattern "*")
  else false.

Example tag_pattern : MatchesTagPattern " v* " "v1.0/rc" = true. Proof. reflexivity. Qed.
Example tag_pattern_other : MatchesTagPattern "v[0-9].*" "w1.0" = false. Proof. reflexivity. Qed.

(** ** Access descriptions *)

Definition liveTagAccessToDescriptions (levels : list (option TagAccess)) : list TagAccessDescription :=
  (fun l => {| ta_AccessLevel := tl_AccessLevel l; ta_UserID := tl_UserID l; ta_GroupID := tl_GroupID l;
               ta_Username := ""; ta_GroupPath := "" |}) <$> omap id levels.

Definition tag_access_key (d : TagAccessDescription) : string :=
  "role:" +:+ Itoa (ta_AccessLevel d) +:+ "/user:" +:+ Itoa (ta_UserID d) +:+ "/group:" +:+ Itoa (ta_GroupID d).

Definition equalTagAccessDescriptions (a b : list TagAccessDescription) : bool :=
  if negb (length a =? length b)%nat then false
  else bool_decide (sort_Strings (tag_access_key <$> a) = sort_Strings (tag_access_key <$> b)).

Definition formatTagAccess (d : TagAccessDescription) : string :=
  if negb (ta_UserID d =? 0) then
    if negb (ta_Username d =? "")%string then "user:" +:+ ta_Username d else "user:" +:+ Itoa (ta_UserID d)
  else if negb (ta_GroupID d =? 0) then
    if negb (ta_GroupPath d =? "")%string then "group:" +:+ ta_GroupPath d else "group:" +:+ Itoa (ta_GroupID d)
  else "access_level:" +:+ Itoa (ta_AccessLevel d).

Definition formatTagAccessDescriptions (l : list TagAccessDescription) : string :=
  "[" +:+ Join (formatTagAccess <$> l) ", " +:+ "]".

(** ** Resolving a rule *)

Definition with_user (a : TagAccessDescription) (id : Z) : TagAccessDescription :=
  {| ta_AccessLevel := ta_AccessLevel a; ta_UserID := id; ta_GroupID := ta_GroupID a;
     ta_Username := ta_Username a; ta_GroupPath := ta_GroupPath a |}.
Definition with_group (a : TagAccessDescription) (id : Z) : TagAccessDescription :=
  {| ta_AccessLevel := ta_AccessLevel a; ta_UserID := ta_UserID a; ta_GroupID := id;
     ta_Username := ta_Username a; ta_GroupPath := ta_GroupPath a |}.

Definition resolveAccess (rule_name : string) (a : TagAccessDescription) : GP (error + TagAccessDescription) :=
  uid ← resolveUserUnless ProtectedTags_Name (ta_UserID a) (ta_Username a)
          ("failed to resolve username '" +:+ ta_Username a +:+ "' for tag rule '" +:+ rule_name +:+ "': ");
  match uid with
  | inl e => mret (inl e)
  | inr uid =>
      gid ← resolveGroupUnless ProtectedTags_Name (ta_GroupID a) (ta_GroupPath a)
              ("failed to resolve group path '" +:+ ta_GroupPath a +:+ "' for tag rule '" +:+ rule_name +:+ "': ");
      mret match gid with
           | inl e => inl e
           | inr gid => inr (with_group (with_user a uid) gid)
           end
  end.

Definition resolveRule (rule : ProtectedTagRuleConfig) : GP (error + ProtectedTagRuleConfig) :=
  l ← try_map (resolveAccess (pt_Name rule)) (pt_AllowedToCreate rule);
  mret match l with
       | inl e => inl e
       | inr l => inr {| pt_Name := pt_Name rule; pt_AllowedToCreate := l |}
       end.

(** ** Diffs and options *)

Definition tag_resource (name : string) : string := "protected_tag:" +:+ name.

Definition tag_CreateDiff (rule : ProtectedTagRuleConfig) : Diff :=
  let b := AddField NewDiffBuilder "name" VNil (VStr (pt_Name rule)) ActionCreate in
  let b := AddFieldIf (0 <? length (pt_AllowedToCreate rule))%nat b "allowed_to_create" VNil
             (VStr (formatTagAccessDescriptions (pt_AllowedToCreate rule))) ActionCreate in
  Build b (tag_resource (pt_Name rule)) ActionCreate.

Definition tag_UpdateDiff (live : ProtectedTag) (rule : ProtectedTagRuleConfig) : Diff :=
  let liveAccess := liveTagAccessToDescriptions (tg_CreateAccessLevels live) in
  let b := AddFieldIf ((0 <? length (pt_AllowedToCreate rule))%nat
                       && negb (equalTagAccessDescriptions liveAccess (pt_AllowedToCreate rule)))
             NewDiffBuilder "allowed_to_create" (VStr (formatTagAccessDescriptions liveAccess))
             (VStr (formatTagAccessDescriptions (pt_AllowedToCreate rule))) ActionUpdate in
  Build b (tag_resource (pt_Name rule)) ActionUpdate.

Definition tag_DeleteDiff (name : string) : Diff :=
  Build (AddField NewDiffBuilder "protected" (VBool true) (VBool false) ActionDelete) (tag_resource name) ActionDelete.

Definition ptr_nonzero (z : Z) : option Z := if z =? 0 then None else Some z.

Definition tag_permission (a : TagAccessDescription) : TagsPermissionOptions :=
  {| tp_AccessLevel := ptr_nonzero (ta_AccessLevel a); tp_UserID := ptr_nonzero (ta_UserID a);
     tp_GroupID := ptr_nonzero (ta_GroupID a) |}.

Definition toProtectTagOptions (rule : ProtectedTagRuleConfig) : ProtectRepositoryTagsOptions :=
  let many l := {| pto_Name := pt_Name rule; pto_CreateAccessLevel := None;
                   pto_AllowedToCreate := Some (tag_permission <$> l) |} in
  match pt_AllowedToCreate rule with
  | [] => {| pto_Name := pt_Name rule; pto_CreateAccessLevel := None; pto_AllowedToCreate := None |}
  | [a] => if (ta_UserID a =? 0) && (ta_GroupID a =? 0)
           then {| pto_Name := pt_Name rule; pto_CreateAccessLevel := Some (ta_AccessLevel a); pto_AllowedToCreate := None |}
           else many [a]
  | l => many l
  end.

(** ** The methods *)

Definition fetchAllLiveProtectedTags (fuel : nat) (projectID : Z) : GP (error + list (option ProtectedTag)) :=
  fetchPages (fun page => ProtectedTags_ (ListProtectedTags projectID page)) fuel 1 [].

(** The policy, when there is something to do: [None] is a no-op. *)
Definition tags_policy (cfg : option PolicyConfig) : option (list ProtectedTagRuleConfig * bool) :=
  match cfg with
  | None => None
  | Some c =>
      match pol_ProtectedTags (cfg_Policies c) with
      | None => None
      | Some t =>
          let prune := set_opt (pts_Prune t) false in
          if (length (pts_Rules t) =? 0)%nat && negb prune then None else Some (pts_Rules t, prune)
      end
  end.

(** [managedNames], after the loop over the rules. *)
Definition tag_managed (rules : list ProtectedTagRuleConfig) (name : string) : bool :=
  bool_decide (name ∈ pt_Name <$> rules).

(** The result explains the error, the method returns the bare one. *)
Definition tag_failed (id : Z) (path : string) (action : ActionType) (diffs : list Diff) (pre : string) (err : error)
  : ApplyReturn :=
  (Some (NewApplyResult ProtectedTags_Name ResourceTypeProject id path action StatusFailed diffs
           (Some (ErrWrap pre err))), Some err).

Definition tag_protections (id : Z) (path : string)
  : protections ProtectedTagRuleConfig ProtectedTag ProtectedTagRuleConfig := {|
  rule_name := pt_Name;
  live_name := tg_Name;
  rule_options := resolveRule;
  create_diff := fun _ => tag_CreateDiff;
  update_diff := fun live _ => tag_UpdateDiff live;
  delete_diff := tag_DeleteDiff;
  protect := fun rule =>
    r ← call (ProtectedTags_ (ProtectRepositoryTags id (toProtectTagOptions rule))); mret (r_err r);
  unprotect := fun name => r ← call (ProtectedTags_ (UnprotectRepositoryTags id name)); mret (r_err r);
  fail_resolve := fun diffs e => failed ProtectedTags_Name OnProject id path ActionNoop diffs e;
  fail_create := fun diffs _ rule => tag_failed id path ActionCreate diffs ("failed to protect tag '" +:+ pt_Name rule +:+ "': ");
  fail_update := fun diffs _ rule =>
    tag_failed id path ActionUpdate diffs ("failed to update protected tag '" +:+ pt_Name rule +:+ "': ");
  fail_prune := fun diffs name => tag_failed id path ActionDelete diffs ("failed to unprotect tag '" +:+ name +:+ "': ")
|}.

Definition ProtectedTags_Plan (fuel : nat) (cfg : option PolicyConfig) (project : Project) : GP PlanReturn :=
  let id := p_ID project in
  let path := p_PathWithNamespace project in
  match tags_policy cfg with
  | None => mret (noop_plan ProtectedTags_Name OnProject id path)
  | Some (rules, prune) =>
      live ← fetchAllLiveProtectedTags fuel id;
      match live with
      | inl err => mret (None, Some (ErrWrap ("failed to list protected tags for project " +:+ Itoa id +:+ ": ") err))
      | inr liveTags =>
          r ← planAll (tag_protections id path) (tag_managed rules) prune liveTags rules;
          mret match r with
               | inl e => (None, Some e)
               | inr (allDiffs, overallAction) =>
                   if (length allDiffs =? 0)%nat then noop_plan ProtectedTags_Name OnProject id path
                   else planned ProtectedTags_Name OnProject id path overallAction allDiffs
               end
      end
  end.

Definition tag_finish (id : Z) (path : string) (acc : list Diff * ActionType) : GP ApplyReturn :=
  let '(appliedDiffs, overallAction) := acc in
  mret (if (length appliedDiffs =? 0)%nat then noop_apply ProtectedTags_Name OnProject id path
        else succeeded ProtectedTags_Name OnProject id path overallAction appliedDiffs).

Definition ProtectedTags_Apply (fuel : nat) (cfg : option PolicyConfig) (project : Project) : GP ApplyReturn :=
  let id := p_ID project in
  let path := p_PathWithNamespace project in
  match tags_policy cfg with
  | None => mret (noop_apply ProtectedTags_Name OnProject id path)
  | Some (rules, prune) =>
      live ← fetchAllLiveProtectedTags fuel id;
      match live with
      | inl err => mret (failed ProtectedTags_Name OnProject id path ActionNoop [] err)
      | inr liveTags => applyAll (tag_protections id path) (tag_managed rules) prune liveTags rules (tag_finish id path)
      end
  end.

Definition ProtectedTags_PlanGroup (cfg : option PolicyConfig) (group : Group) : GP PlanReturn :=
  mret (noop_plan ProtectedTags_Name OnGroup (g_ID group) (g_FullPath group)).

Definition ProtectedTags_ApplyGroup (cfg : option PolicyConfig) (group : Group) : GP ApplyReturn :=
  mret (noop_apply ProtectedTags_Name OnGroup (g_ID group) (g_FullPath group)).

Definition NewProtectedTagsReconciler (fuel : nat) : GovernanceOperation := {|
  op_Name := ProtectedTags_Name;
  op_Order := ProtectedTags_Order;
  op_Plan := ProtectedTags_Plan fuel;
  op_Apply := ProtectedTags_Apply fuel;
  op_PlanGroup := ProtectedTags_PlanGroup;
  op_ApplyGroup := ProtectedTags_ApplyGroup
|}.

(** ** Specification *)

(** What the code compares of a description. *)
Definition tag_triple (d : TagAccessDescription) : Z * Z * Z := (ta_AccessLevel d, ta_UserID d, ta_GroupID d).

(** The live protection grants what the rule asks for, as a multiset of role,
    user and group; a rule without descriptions asks for nothing. *)
Definition tag_meets (rule : ProtectedTagRuleConfig) (live : ProtectedTag) : Prop :=
  pt_AllowedToCreate rule = [] \/
  tag_triple <$> liveTagAccessToDescriptions (tg_CreateAccessLevels live) ≡ₚ tag_triple <$> pt_AllowedToCreate rule.

(** The protection that GitLab makes of the options: the levels given, or the
    maintainers. *)
Definition tag_as (o : ProtectRepositoryTagsOptions) : ProtectedTag := {|
  tg_Name := pto_Name o;
  tg_CreateAccessLevels :=
    match pto_CreateAccessLevel o, pto_AllowedToCreate o with
    | None, None => [Some {| tl_AccessLevel := 40; tl_UserID := 0; tl_GroupID := 0 |}]
    | level, perms =>
        Some <$> (option_list ((fun l => {| tl_AccessLevel := l; tl_UserID := 0; tl_GroupID := 0 |}) <$> level)
                  ++ ((fun p => {| tl_AccessLevel := set_opt (tp_AccessLevel p) 0; tl_UserID := set_opt (tp_UserID p) 0;
                                   tl_GroupID := set_opt (tp_GroupID p) 0 |}) <$> set_opt perms []))
    end
|}.

(** GitLab's protected tags API, for one project. *)
Record tag_server {W} (h : handler GitLabE W) (pid : Z) (tags : W -> gmap string ProtectedTag) (count : W -> nat)
  : Prop := {
  ts_list : forall w, exists l, map_by tg_Name (omap id l) = tags w /\ length l = count w /\
    lists h (fun page => ProtectedTags_ (ListProtectedTags pid page)) l w;
  ts_protect : forall opt w,
    r_err (h _ (ProtectedTags_ (ProtectRepositoryTags pid opt)) w).1 = None ->
    tags (h _ (ProtectedTags_ (ProtectRepositoryTags pid opt)) w).2 = <[pto_Name opt := tag_as opt]> (tags w);
  ts_unprotect_other : forall n m w, m <> n ->
    tags (h _ (ProtectedTags_ (UnprotectRepositoryTags pid n)) w).2 !! m = tags w !! m;
  ts_unprotect : forall n w,
    r_err (h _ (ProtectedTags_ (UnprotectRepositoryTags pid n)) w).1 = None ->
    tags (h _ (ProtectedTags_ (UnprotectRepositoryTags pid n)) w).2 !! n = None
}.

(** ** Lemmas *)

Lemma tag_access_key_inj a b : tag_access_key a = tag_access_key b -> tag_triple a = tag_triple b.
Proof.
  unfold tag_access_key, tag_triple. rewrite !string_app_cons, !string_app_nil_l. intros H. injection H as H.
  apply (string_sep_inj numeral) in H as [H1 H]; [|done|apply Itoa_numeral..].
  injection H as H.
  apply (string_sep_inj numeral) in H as [H2 H3]; [|done|apply Itoa_numeral..]. injection H3 as H3.
  apply Itoa_inj in H1, H2, H3. by rewrite H1, H2, H3.
Qed.

Lemma equalTagAccessDescriptions_iff a b :
  equalTagAccessDescriptions a b = true <-> tag_triple <$> a ≡ₚ tag_triple <$> b.
Proof.
  unfold equalTagAccessDescriptions.
  assert (tag_access_key <$> a ≡ₚ tag_access_key <$> b <-> tag_triple <$> a ≡ₚ tag_triple <$> b) as Hk.
  { apply (fmap_Permutation_transfer _ _ tag_access_key_inj). unfold tag_triple, tag_access_key.
    by intros x y [= -> -> ->]. }
  destruct (Nat.eqb_spec (length a) (length b)) as [_|He]; cbn [negb].
  - by rewrite bool_decide_eq_true, sort_Strings_eq_iff.
  - split; [done|]. intros Hl. apply Permutation_length in Hl. by rewrite !length_fmap in Hl.
Qed.

Lemma tag_UpdateDiff_quiet live rule : Diff_HasChanges (tag_UpdateDiff live rule) = false <-> tag_meets rule live.
Proof.
  unfold tag_UpdateDiff, tag_meets. rewrite Build_HasChanges; [|by autorewrite with diff|done..].
  autorewrite with diff. rewrite andb_false_iff, negb_false_iff, equalTagAccessDescriptions_iff.
  destruct (pt_AllowedToCreate rule); simpl; naive_solver.
Qed.

(** A protection made for a rule meets it. *)
Lemma tag_as_meets rule : tag_meets rule (tag_as (toProtectTagOptions rule)).
Proof.
  unfold tag_meets, toProtectTagOptions. assert (forall l, tag_triple <$> liveTagAccessToDescriptions
      (tg_CreateAccessLevels (tag_as {| pto_Name := pt_Name rule; pto_CreateAccessLevel := None;
        pto_AllowedToCreate := Some (tag_permission <$> l) |})) = tag_triple <$> l) as Hmany.
  { intros l. simpl. unfold liveTagAccessToDescriptions. rewrite omap_id_Some, <- !list_fmap_compose.
    apply list_fmap_ext. intros i [lv u g un gp] _. unfold compose, tag_triple, tag_permission, ptr_nonzero. cbn -[Z.eqb].
    destruct (Z.eqb_spec lv 0), (Z.eqb_spec u 0), (Z.eqb_spec g 0); cbn; congruence. }
  destruct (pt_AllowedToCreate rule) as [|a [|b l]]; [by left| |]; right; [|by rewrite Hmany].
  destruct ((ta_UserID a =? 0) && (ta_GroupID a =? 0)) eqn:E; [|by rewrite Hmany]. b2p.
  apply reflexive_eq. simpl. unfold tag_triple. simpl. congruence.
Qed.

Lemma resolveAccess_reads name a : reads (resolveAccess name a).
Proof.
  apply reads_bind; [apply resolveUserUnless_reads|]. intros [e|uid]; [done|].
  apply reads_bind; [apply resolveGroupUnless_reads|done].
Qed.

Lemma resolveRule_reads rule : reads (resolveRule rule).
Proof. apply reads_bind; [|done]. apply try_map_only, resolveAccess_reads. Qed.

Lemma tag_failures id path : failures (tag_protections id path).
Proof. by split. Qed.

Lemma tag_finish_run {W} (h : handler GitLabE W) id path acc w : (run h (tag_finish id path acc) w).2 = w.
Proof. by destruct acc. Qed.

Section Server.
Context {W : Type} (h : handler GitLabE W) `{!Answers h} (id : Z) (path : string)
  (tags : W -> gmap string ProtectedTag) (count : W -> nat) (srv : tag_server h id tags count).

(** What a rule resolves to. *)
Definition resolved_access (name : string) (a : TagAccessDescription) : error + TagAccessDescription :=
  match userUnless h ProtectedTags_Name (ta_UserID a) (ta_Username a)
          ("failed to resolve username '" +:+ ta_Username a +:+ "' for tag rule '" +:+ name +:+ "': ") with
  | inl e => inl e
  | inr uid =>
      match groupUnless h ProtectedTags_Name (ta_GroupID a) (ta_GroupPath a)
              ("failed to resolve group path '" +:+ ta_GroupPath a +:+ "' for tag rule '" +:+ name +:+ "': ") with
      | inl e => inl e
      | inr gid => inr (with_group (with_user a uid) gid)
      end
  end.

Definition resolved_rule (rule : ProtectedTagRuleConfig) : error + ProtectedTagRuleConfig :=
  match try_map_pure (resolved_access (pt_Name rule)) (pt_AllowedToCreate rule) with
  | inl e => inl e
  | inr l => inr {| pt_Name := pt_Name rule; pt_AllowedToCreate := l |}
  end.

Lemma resolveRule_run rule w : run h (resolveRule rule) w = (resolved_rule rule, w).
Proof.
  unfold resolveRule, resolved_rule. rewrite run_bind, (try_map_run h _ (resolved_access (pt_Name rule))); [done|].
  intros a w1. unfold resolveAccess, resolved_access. rewrite run_bind, (resolveUserUnless_run h).
  destruct (userUnless h _ _ _ _); [done|]. by rewrite run_bind, (resolveGroupUnless_run h).
Qed.

Lemma resolved_rule_name rule rr : resolved_rule rule = inr rr -> pt_Name rr = pt_Name rule.
Proof. unfold resolved_rule. destruct (try_map_pure _ _); [done|]. by intros [= <-]. Qed.

Lemma tag_protection_server :
  protection_server (tag_protections id path) h tags (fun rr => tag_as (toProtectTagOptions rr)) resolved_rule.
Proof using srv.
  split; cbn [tag_protections rule_options rule_name protect unprotect].
  - apply resolveRule_run.
  - intros rule rr w Hr. rewrite run_bind, run_call. pose proof (ts_protect _ _ _ _ srv (toProtectTagOptions rr) w) as Hp.
    destruct (h _ _ w) as [r w1]. rewrite run_ret. cbn [fst snd] in *. intros He. rewrite (Hp He).
    rewrite <- (resolved_rule_name rule rr Hr). f_equal.
    unfold toProtectTagOptions. by repeat case_match.
  - intros n m w Hne. rewrite run_bind, run_call. pose proof (ts_unprotect_other _ _ _ _ srv n m w Hne) as Hu.
    by destruct (h _ _ w).
  - intros n w. rewrite run_bind, run_call. pose proof (ts_unprotect _ _ _ _ srv n w) as Hu. by destruct (h _ _ w).
Qed.

Lemma tag_makes_good rule : makes_good (tag_protections id path) (fun rr => tag_as (toProtectTagOptions rr)) resolved_rule rule.
Proof. intros rr _. apply tag_UpdateDiff_quiet, tag_as_meets. Qed.

Lemma fetchTags_run fuel w : (count w < per_page * fuel)%nat ->
  exists l, live_by_name (tag_protections id path) l = tags w /\ run h (fetchAllLiveProtectedTags fuel id) w = (inr l, w).
Proof using srv.
  intros Hf. destruct (ts_list _ _ _ _ srv w) as (l & Hl & Hc & Hp). exists l. split; [done|].
  apply fetchPages_run; [exact Hp|lia].
Qed.

End Server.

#[export] Instance ProtectedTags_DryRun fuel : DryRun (NewProtectedTagsReconciler fuel).
Proof.
  split; intros; simpl; [|done]. unfold ProtectedTags_Plan. destruct (tags_policy cfg) as [[rules prune]|]; [|done].
  apply reads_bind; [by apply fetchPages_reads|]. intros [e|live]; [done|].
  apply reads_bind; [apply planAll_reads, resolveRule_reads|]. intros [e|[diffs a]]; by repeat case_match.
Qed.

#[export] Instance ProtectedTags_NoopQuiet fuel : NoopQuiet (NewProtectedTagsReconciler fuel).
Proof.
  split; intros; simpl; [unfold ProtectedTags_Plan; always|done| |by intros W h w r _ _ _; constructor].
  intros W h w r Hs Hp Hc. unfold ProtectedTags_Plan, ProtectedTags_Apply in *.
  destruct (tags_policy cfg) as [[rules prune]|]; [|constructor].
  rewrite run_bind in Hp. rewrite calls_bind. apply Forall_app. split.
  { by apply calls_reads, fetchPages_reads. }
  pose proof (run_reads h (fetchAllLiveProtectedTags fuel (p_ID p)) w Hs ltac:(by apply fetchPages_reads)) as Hw.
  destruct (run h _ w) as [[e|live] w']; [constructor|]. simpl in Hw. subst w'.
  rewrite run_bind in Hp. destruct (run h (planAll _ _ _ _ _) w) as [[e|acc] w1] eqn:Ha; [done|].
  rewrite run_ret in Hp. pose proof (planAll_ok _ _ _ _ _ _ _ _ _ Ha) as Hok.
  eapply applyAll_quiet; [done|apply resolveRule_reads|exact Ha| |].
  - destruct acc as [diffs a]. cbn [fst] in *. destruct (length diffs =? 0)%nat eqn:El.
    + by apply Nat.eqb_eq, nil_length_inv in El.
    + injection Hp as <-. by apply (planned_changes _ _ _ _ _ Hok) in Hc.
  - intros [d a]. unfold tag_finish. by case_match.
Qed.

(** ** Properties *)

(** Enforcing tag protections works, converges and stays in its lane:
    whenever [Apply] reports no error, every rule resolves and a protection of
    its name grants what it asks for, a tag pattern the policy does not name is
    protected as before, or not at all when pruning, and a plan made right
    afterwards has nothing to do. *)
Theorem ProtectedTags_Apply_converges {W} (h : handler GitLabE W) (ans : Answers h) tags count fuel cfg project
    (srv : tag_server h (p_ID project) tags count) rules prune w res w' :
  tags_policy cfg = Some (rules, prune) ->
  (count w < per_page * fuel)%nat -> (count w' < per_page * fuel)%nat ->
  NoDup (pt_Name <$> rules) ->
  run h (ProtectedTags_Apply fuel cfg project) w = ((res, None), w') ->
  (forall rule, rule ∈ rules -> exists rr live,
     resolved_rule h rule = inr rr /\ tags w' !! pt_Name rule = Some live /\ tag_meets rr live) /\
  (forall n, n ∉ pt_Name <$> rules -> tags w' !! n = if prune then None else tags w !! n) /\
  run h (ProtectedTags_Plan fuel cfg project) w' =
    (noop_plan ProtectedTags_Name OnProject (p_ID project) (p_PathWithNamespace project), w').
Proof.
  intros Hpol Hf Hf' Hnd Hr. unfold ProtectedTags_Apply in Hr. rewrite Hpol in Hr.
  destruct (fetchTags_run h (p_ID project) (p_PathWithNamespace project) tags count srv fuel w Hf) as (l & Hl & Hrun).
  rewrite run_bind, Hrun in Hr.
  pose proof (tag_protection_server h (p_ID project) (p_PathWithNamespace project) tags count srv) as Hsrv.
  destruct (applyAll_run _ _ _ _ _ Hsrv (tag_failures (p_ID project) (p_PathWithNamespace project)) (tag_managed rules) prune l rules _ w res w'
    (tag_finish_run h (p_ID project) (p_PathWithNamespace project)) Hl Hnd
    (Forall_true _ _ (tag_makes_good h (p_ID project) (p_PathWithNamespace project)))) as [Hmet Hother]; [|exact Hr|].
  { intros rule Hin. apply bool_decide_eq_true. by apply list_elem_of_fmap_2. }
  split_and!.
  - destruct Hmet as [Hmet _]. rewrite Forall_forall in Hmet. intros rule Hin.
    destruct (Hmet rule Hin) as (rr & live & ? & ? & Hq). exists rr, live. split_and!; [done..|].
    by apply tag_UpdateDiff_quiet.
  - intros n Hn. rewrite Hother by done. unfold tag_managed. rewrite bool_decide_eq_false_2 by done. by destruct prune.
  - unfold ProtectedTags_Plan. rewrite Hpol.
    destruct (fetchTags_run h (p_ID project) (p_PathWithNamespace project) tags count srv fuel w' Hf') as (l' & Hl' & Hrun').
    rewrite run_bind, Hrun', run_bind.
    pose proof (planAll_run _ _ _ _ _ Hsrv (tag_managed rules) prune l' rules w') as Hp. rewrite Hl' in Hp.
    destruct (run h (planAll (tag_protections _ _) _ _ _ _) w') as [[e|acc] w2]; destruct Hp as [-> Hp]; rewrite run_ret.
    + destruct Hp as (rule & Hin & He). destruct Hmet as [Hmet _]. rewrite Forall_forall in Hmet.
      destruct (Hmet rule Hin) as (rr & live & ? & _). simpl in *. congruence.
    + apply Hp in Hmet. destruct acc as [d a]. simpl in Hmet. by subst.
Qed.

(** ** A concrete server *)

Definition demo_tag_server : handler GitLabE (list ProtectedTag) := fun X e w =>
  match e in GitLabE X return X * list ProtectedTag with
  | ProtectedTags_ e =>
      match e in ProtectedTagsE X return X * list ProtectedTag with
      | ListProtectedTags _ page => (page_of (Some <$> w) page, w)
      | ProtectRepositoryTags _ opt =>
          if bool_decide (pto_Name opt ∈ tg_Name <$> w) then (reply_err tt 409 (ErrNew "409 Conflict"), w)
          else (reply_ok tt, w ++ [tag_as opt])
      | UnprotectRepositoryTags _ name =>
          if bool_decide (name ∈ tg_Name <$> w)
          then (reply_ok tt, List.filter (fun t => negb (tg_Name t =? name)%string) w) else (not_found tt, w)
      end
  | Resolver_ e => (demo_directory e, w)
  | e => (absent_call e, w)
  end.

#[local] Instance demo_tag_answers : Answers demo_tag_server := {| answer := @demo_directory; answer_call := fun X e w => eq_refl |}.

Lemma demo_tag_server_ok : tag_server demo_tag_server 42 (map_by tg_Name) length.
Proof.
  split.
  - intros w. exists (Some <$> w). rewrite omap_id_Some, length_fmap. by split_and!.
  - intros opt w. simpl. case_bool_decide; [done|]. intros _. exact (map_by_snoc tg_Name w (tag_as opt)).
  - intros n m w Hne. simpl. case_bool_decide; [|done]. simpl. by rewrite map_by_filter, lookup_delete_ne.
  - intros n w. simpl. case_bool_decide; [|done]. intros _. simpl. by rewrite map_by_filter, lookup_delete_eq.
Qed.

Definition demo_tag_access (level : Z) (user group : string) : TagAccessDescription :=
  {| ta_AccessLevel := level; ta_UserID := 0; ta_GroupID := 0; ta_Username := user; ta_GroupPath := group |}.

Definition demo_tag_rules : list ProtectedTagRuleConfig :=
  [{| pt_Name := "v*"; pt_AllowedToCreate := [demo_tag_access 40 "" ""] |};
   {| pt_Name := "rel-*"; pt_AllowedToCreate := [demo_tag_access 0 "alice" ""; demo_tag_access 0 "" "platform/release"] |}].

Definition demo_tags_cfg : option PolicyConfig := with_policies
  (Build_PoliciesConfig None [] (Some {| pts_Prune := Some true; pts_Rules := demo_tag_rules |})
     None None None None [] None None [] None None [] []).

(** One rule's protection differs, the other is missing, a third is stray. *)
Definition demo_tags : list ProtectedTag :=
  [{| tg_Name := "v*"; tg_CreateAccessLevels := [Some {| tl_AccessLevel := 30; tl_UserID := 0; tl_GroupID := 0 |}] |};
   {| tg_Name := "old-*"; tg_CreateAccessLevels := [] |}].

Lemma ProtectedTags_Apply_converges_witness :
  let w' := (run demo_tag_server (ProtectedTags_Apply 1 demo_tags_cfg demo_project) demo_tags).2 in
  map_by tg_Name w' !! "old-*" = None /\
  run demo_tag_server (ProtectedTags_Plan 1 demo_tags_cfg demo_project) w' =
    (noop_plan ProtectedTags_Name OnProject 42 "platform/api", w').
Proof.
  destruct (ProtectedTags_Apply_converges demo_tag_server demo_tag_answers _ _ 1 demo_tags_cfg demo_project demo_tag_server_ok
    demo_tag_rules true demo_tags
    (run demo_tag_server (ProtectedTags_Apply 1 demo_tags_cfg demo_project) demo_tags).1.1
    (run demo_tag_server (ProtectedTags_Apply 1 demo_tags_cfg demo_project) demo_tags).2) as (_ & Hother & Hplan).
  - reflexivity.
  - apply Nat.ltb_lt. vm_compute. reflexivity.
  - apply Nat.ltb_lt. vm_compute. reflexivity.
  - by apply (bool_decide_unpack _); vm_compute.
  - vm_compute. reflexivity.
  - split; [|exact Hplan]. apply (Hother "old-*"). by apply (bool_decide_unpack _); vm_compute.
Defined.
