(* ===== verification/ProtectedEnvironments.v ===== *)
(** * Environment protections: internal/governance/protectedenvironments.go

    The loops are those of [Protections]; before them the rules whose names are
    patterns are expanded to a rule for each environment they match, in the
    order in which Go's map iteration gives the names ([plan_order] in a plan,
    [apply_order] in an enforcement: any permutation).  [fuel] bounds the pages
    of the listings.  The Environments service of the client is never nil. *)

From S2P Require Import Prelude GoLib Config GitLabAPI Server Fetch Resolver Governance PathMatch Protections.
Local Open Scope string_scope.
Local Open Scope list_scope.
Local Open Scope Z_scope.

Definition ProtectedEnvironments_Name : string := "protected_environments".
Definition ProtectedEnvironments_Order : Z := 25.

(** ** Expanding the rules *)

(** [strings.ContainsAny(name, "*?[")]. *)
Definition is_wildcard (name : string) : bool :=
  negb (string_all (fun c => negb ((c =? "*")%char || (c =? "?")%char || (c =? "[")%char)) name).

(** [concrete := rule; concrete.Name = name]. *)
Definition with_name (rule : ProtectedEnvironmentRuleConfig) (name : string) : ProtectedEnvironmentRuleConfig := {|
  pe_Name := name;
  pe_DeployAccessLevels := pe_DeployAccessLevels rule;
  pe_RequiredApprovalCount := pe_RequiredApprovalCount rule;
  pe_ApprovalRules := pe_ApprovalRules rule;
  pe_ApprovalGroups := pe_ApprovalGroups rule;
  pe_ApprovalUsers := pe_ApprovalUsers rule
|}.

(** The project's environments, up to the first page that fails; [None] only if
    the fuel runs out. *)
Fixpoint fetchProjectEnvironments (fuel : nat) (projectID page : Z) (all : list (option string))
  : GP (option (list (option string))) :=
  match fuel with
  | O => mret None
  | S fuel' =>
      r ← call (Environments_ (ListEnvironments projectID page));
      match r_err r with
      | Some _ => mret (Some all)
      | None =>
          let all := all ++ r_val r in
          match r_resp r with
          | None => mret (Some all)
          | Some resp => if NextPage resp =? 0 then mret (Some all)
                         else fetchProjectEnvironments fuel' projectID (NextPage resp) all
          end
      end
  end.

Definition candidateNames (projectEnvs : list (option string)) (liveEnvs : list (option ProtectedEnvironment)) : gset string :=
  list_to_set (List.filter (fun n => negb (n =? "")%string) (omap id projectEnvs ++ (en_Name <$> omap id liveEnvs))).

(** What has been expanded so far: the names seen and the rules. *)
Abbreviation expansion_state := (gset string * list ProtectedEnvironmentRuleConfig)%type.

Definition expandName (rule : ProtectedEnvironmentRuleConfig) (acc : expansion_state) (name : string) : expansion_state :=
  if path_matched (pe_Name rule) name && negb (bool_decide (name ∈ acc.1))
  then ({[name]} ∪ acc.1, acc.2 ++ [with_name rule name]) else acc.

Definition expandRule (order : string -> gset string -> list string) (candidates : gset string) (acc : expansion_state)
    (rule : ProtectedEnvironmentRuleConfig) : expansion_state :=
  if is_wildcard (pe_Name rule) then foldl (expandName rule) acc (order (pe_Name rule) candidates)
  else if bool_decide (pe_Name rule ∈ acc.1) then acc
  else ({[pe_Name rule]} ∪ acc.1, acc.2 ++ [rule]).

Definition hasWildcards (rules : list ProtectedEnvironmentRuleConfig) : bool := existsb (fun r => is_wildcard (pe_Name r)) rules.

(** [expandRules], once the environments are known. *)
Definition expanded (order : string -> gset string -> list string) (candidates : gset string)
    (rules : list ProtectedEnvironmentRuleConfig) : list ProtectedEnvironmentRuleConfig :=
  if hasWildcards rules then (foldl (expandRule order candidates) (∅, []) rules).2 else rules.

Definition expandRules (fuel : nat) (order : string -> gset string -> list string) (projectID : Z)
    (rules : list ProtectedEnvironmentRuleConfig) (liveEnvs : list (option ProtectedEnvironment))
  : GP (error + list ProtectedEnvironmentRuleConfig) :=
  if negb (hasWildcards rules) then mret (inr rules)
  else
    envs ← fetchProjectEnvironments fuel projectID 1 [];
    mret match envs with
         | None => inl errOutOfFuel
         | Some projectEnvs => inr (expanded order (candidateNames projectEnvs liveEnvs) rules)
         end.

(** [explicitManaged] are the names of the expanded rules. *)
Definition mentioned (rules : list ProtectedEnvironmentRuleConfig) (name : string) : bool :=
  existsb (fun rule => (pe_Name rule =? name)%string || (is_wildcard (pe_Name rule) && path_matched (pe_Name rule) name)) rules.

Definition isManaged (rules explicitManaged : list ProtectedEnvironmentRuleConfig) (name : string) : bool :=
  bool_decide (name ∈ pe_Name <$> explicitManaged) || mentioned rules name.

(** ** Options *)

(** [if x > 0 { entry.F = Ptr(x) }]. *)
Definition positive (z : Z) : option Z := if 0 <? z then Some z else None.

(** The user and the group of an entry, whose errors speak of [what]. *)
Definition resolvePair (what : string) (uid : Z) (username : string) (gid : Z) (path : string) : GP (error + (Z * Z)) :=
  u ← resolveUserUnless ProtectedEnvironments_Name uid username ("failed to resolve username '" +:+ username +:+ "' for " +:+ what +:+ ": ");
  match u with
  | inl e => mret (inl e)
  | inr u =>
      g ← resolveGroupUnless ProtectedEnvironments_Name gid path ("failed to resolve group_path '" +:+ path +:+ "' for " +:+ what +:+ ": ");
      mret match g with inl e => inl e | inr g => inr (u, g) end
  end.

Definition deployAccess (acc : EnvironmentAccessDescription) : GP (error + EnvironmentAccessOptions) :=
  r ← resolvePair "deploy access" (ea_UserID acc) (ea_Username acc) (ea_GroupID acc) (ea_GroupPath acc);
  mret match r with
       | inl e => inl e
       | inr (u, g) => inr {| eo_AccessLevel := positive (ea_AccessLevel acc); eo_UserID := positive u; eo_GroupID := positive g |}
       end.

Definition approvalRule (ar : EnvironmentApprovalRuleConfig) : GP (error + EnvironmentApprovalRuleOptions) :=
  r ← resolvePair "approval rule" (ear_UserID ar) (ear_Username ar) (ear_GroupID ar) (ear_GroupPath ar);
  mret match r with
       | inl e => inl e
       | inr (u, g) => inr {| eu_AccessLevel := positive (ear_AccessLevel ar); eu_UserID := positive u; eu_GroupID := positive g;
                              eu_RequiredApprovalCount := ear_RequiredApprovalCount ar |}
       end.

Definition user_rule (uid : Z) : option EnvironmentApprovalRuleOptions :=
  (fun u => {| eu_AccessLevel := None; eu_UserID := Some u; eu_GroupID := None; eu_RequiredApprovalCount := None |}) <$> positive uid.
Definition group_rule (gid : Z) : option EnvironmentApprovalRuleOptions :=
  (fun g => {| eu_AccessLevel := None; eu_UserID := None; eu_GroupID := Some g; eu_RequiredApprovalCount := None |}) <$> positive gid.

Definition approvalUser (u : EnvironmentApprovalUserConfig) : GP (error + option EnvironmentApprovalRuleOptions) :=
  r ← resolveUserUnless ProtectedEnvironments_Name (eau_UserID u) (eau_Username u)
        ("failed to resolve username '" +:+ eau_Username u +:+ "' for approval user: ");
  mret match r with inl e => inl e | inr uid => inr (user_rule uid) end.

Definition approvalGroup (g : EnvironmentApprovalGroupConfig) : GP (error + option EnvironmentApprovalRuleOptions) :=
  r ← resolveGroupUnless ProtectedEnvironments_Name (eag_GroupID g) (eag_GroupPath g)
        ("failed to resolve group_path '" +:+ eag_GroupPath g +:+ "' for approval group: ");
  mret match r with inl e => inl e | inr gid => inr (group_rule gid) end.

Definition nonempty_list {A} (l : list A) : option (list A) := match l with [] => None | _ => Some l end.

Definition env_options (rule : ProtectedEnvironmentRuleConfig) (deploy : list EnvironmentAccessOptions)
    (rules : list EnvironmentApprovalRuleOptions) : ProtectRepositoryEnvironmentsOptions := {|
  peo_Name := pe_Name rule;
  peo_RequiredApprovalCount := pe_RequiredApprovalCount rule;
  peo_DeployAccessLevels := nonempty_list deploy;
  peo_ApprovalRules := nonempty_list rules
|}.

Definition toProtectEnvOptions (rule : ProtectedEnvironmentRuleConfig) : GP (error + ProtectRepositoryEnvironmentsOptions) :=
  deploy ← try_map deployAccess (pe_DeployAccessLevels rule);
  match deploy with
  | inl e => mret (inl e)
  | inr deploy =>
      rules ← try_map approvalRule (pe_ApprovalRules rule);
      match rules with
      | inl e => mret (inl e)
      | inr rules =>
          users ← try_map approvalUser (pe_ApprovalUsers rule);
          match users with
          | inl e => mret (inl e)
          | inr users =>
              groups ← try_map approvalGroup (pe_ApprovalGroups rule);
              mret match groups with
                   | inl e => inl e
                   | inr groups => inr (env_options rule deploy (rules ++ omap id users ++ omap id groups))
                   end
          end
      end
  end.

(** ** Comparing and formatting *)

Definition formatAccessLevel (level : Z) : string :=
  if level =? 0 then "No access (0)" else if level =? 10 then "Guest (10)"
  else if level =? 20 then "Reporter (20)" else if level =? 30 then "Developer (30)"
  else if level =? 40 then "Maintainer (40)" else if level =? 50 then "Owner (50)"
  else if level =? 60 then "Admin (60)" else "level:" +:+ Itoa level.

(** A user or group by number, or nothing. *)
Definition formatPrincipal (uid gid : Z) : option string :=
  if 0 <? uid then Some ("User:" +:+ Itoa uid) else if 0 <? gid then Some ("Group:" +:+ Itoa gid) else None.

(** [User], [Group] or level, the first that is positive. *)
Definition formatTarget (level uid gid : Z) : option string :=
  or_else (formatPrincipal uid gid) (if 0 <? level then Some (formatAccessLevel level) else None).

Definition joined (parts : list string) : string := Join (sort_Strings parts) ", ".

Definition formatDesiredEnvAccess (l : list EnvironmentAccessOptions) : string :=
  joined (omap (fun a => formatTarget (set_opt (eo_AccessLevel a) 0) (set_opt (eo_UserID a) 0) (set_opt (eo_GroupID a) 0)) l).

Definition formatDesiredApprovalRules (l : list EnvironmentApprovalRuleOptions) : string :=
  joined ((fun a => set_opt (formatTarget (set_opt (eu_AccessLevel a) 0) (set_opt (eu_UserID a) 0) (set_opt (eu_GroupID a) 0)) "unknown"
                      +:+ "(" +:+ Itoa (set_opt (eu_RequiredApprovalCount a) 1) +:+ ")") <$> l).

Definition formatLiveEnvAccess (l : list (option EnvironmentAccess)) : string :=
  joined (omap (fun a => formatTarget (el_AccessLevel a) (el_UserID a) (el_GroupID a)) (omap id l)).

Definition formatLiveApprovalRules (l : list (option EnvironmentApprovalRule)) : string :=
  joined ((fun a => set_opt (formatPrincipal (er_UserID a) (er_GroupID a)) (formatAccessLevel (er_AccessLevel a))
                      +:+ "(" +:+ Itoa (er_RequiredApprovalCount a) +:+ ")") <$> omap id l).

(** [fmt.Sprintf("%d:%d:%d", ...)], of any number of integers. *)
Definition colon_key (l : list Z) : string := Join (Itoa <$> l) ":".

Definition live_access (a : EnvironmentAccess) : list Z := [el_AccessLevel a; el_UserID a; el_GroupID a].
Definition desired_access (a : EnvironmentAccessOptions) : list Z :=
  [set_opt (eo_AccessLevel a) 0; set_opt (eo_UserID a) 0; set_opt (eo_GroupID a) 0].
Definition live_approval (a : EnvironmentApprovalRule) : list Z :=
  [er_AccessLevel a; er_UserID a; er_GroupID a; er_RequiredApprovalCount a].
Definition desired_approval (a : EnvironmentApprovalRuleOptions) : list Z :=
  [set_opt (eu_AccessLevel a) 0; set_opt (eu_UserID a) 0; set_opt (eu_GroupID a) 0; set_opt (eu_RequiredApprovalCount a) 1].

(** The sorted keys, compared by length and then position by position. *)
Definition equal_keys (live desired : list (list Z)) : bool :=
  let liveKeys := sort_Strings (colon_key <$> live) in
  let desiredKeys := sort_Strings (colon_key <$> desired) in
  if negb (length liveKeys =? length desiredKeys)%nat then false else bool_decide (liveKeys = desiredKeys).

Definition equalEnvAccess (live : list (option EnvironmentAccess)) (desired : list EnvironmentAccessOptions) : bool :=
  equal_keys (live_access <$> omap id live) (desired_access <$> desired).

Definition equalEnvApprovalRules (live : list (option EnvironmentApprovalRule)) (desired : list EnvironmentApprovalRuleOptions) : bool :=
  equal_keys (live_approval <$> omap id live) (desired_approval <$> desired).

Definition env_resource (name : string) : string := "protected_environment:" +:+ name.

(** [l != nil && len( *l ) > 0]. *)
Definition given {A} (l : option (list A)) : bool := (0 <? length (set_opt l []))%nat.

Definition env_CreateDiff (rule : ProtectedEnvironmentRuleConfig) (opt : ProtectRepositoryEnvironmentsOptions) : Diff :=
  let b := AddField NewDiffBuilder "name" VNil (VStr (pe_Name rule)) ActionCreate in
  let b := AddFieldIf (is_some (pe_RequiredApprovalCount rule)) b "required_approval_count" VNil
             (VInt (set_opt (pe_RequiredApprovalCount rule) 0)) ActionCreate in
  let deploy := set_opt (peo_DeployAccessLevels opt) [] in
  let rules := set_opt (peo_ApprovalRules opt) [] in
  let b := AddFieldIf (given (peo_DeployAccessLevels opt)) b "deploy_access_levels" VNil (VStr (formatDesiredEnvAccess deploy)) ActionCreate in
  let b := AddFieldIf (given (peo_ApprovalRules opt)) b "approval_rules" VNil (VStr (formatDesiredApprovalRules rules)) ActionCreate in
  Build b (env_resource (pe_Name rule)) ActionCreate.

Definition env_UpdateDiff (live : ProtectedEnvironment) (rule : ProtectedEnvironmentRuleConfig)
    (opt : ProtectRepositoryEnvironmentsOptions) : Diff :=
  let deploy := set_opt (peo_DeployAccessLevels opt) [] in
  let rules := set_opt (peo_ApprovalRules opt) [] in
  let count := set_opt (pe_RequiredApprovalCount rule) 0 in
  let b := AddFieldIf (is_some (pe_RequiredApprovalCount rule) && negb (count =? en_RequiredApprovalCount live)) NewDiffBuilder
             "required_approval_count" (VInt (en_RequiredApprovalCount live)) (VInt count) ActionUpdate in
  let b := AddFieldIf (given (peo_DeployAccessLevels opt) && negb (equalEnvAccess (en_DeployAccessLevels live) deploy)) b
             "deploy_access_levels" (VStr (formatLiveEnvAccess (en_DeployAccessLevels live))) (VStr (formatDesiredEnvAccess deploy)) ActionUpdate in
  let b := AddFieldIf (given (peo_ApprovalRules opt) && negb (equalEnvApprovalRules (en_ApprovalRules live) rules)) b
             "approval_rules" (VStr (formatLiveApprovalRules (en_ApprovalRules live))) (VStr (formatDesiredApprovalRules rules)) ActionUpdate in
  Build b (env_resource (pe_Name rule)) ActionUpdate.

Definition env_DeleteDiff (name : string) : Diff :=
  Build (AddField NewDiffBuilder "protected" (VBool true) (VBool false) ActionDelete) (env_resource name) ActionDelete.

(** ** The methods *)

Definition fetchAllLiveProtectedEnvironments (fuel : nat) (projectID : Z) : GP (error + list (option ProtectedEnvironment)) :=
  fetchPages (fun page => ProtectedEnvironments_ (ListProtectedEnvironments projectID page)) fuel 1 [].

(** The rules and whether to prune, when there is something to do. *)
Definition environments_policy (cfg : option PolicyConfig) : option (list ProtectedEnvironmentRuleConfig * bool) :=
  match cfg with
  | None => None
  | Some c =>
      match pol_ProtectedEnvironments (cfg_Policies c) with
      | None => None
      | Some pe =>
          let prune := set_opt (pes_Prune pe) false in
          if (length (pes_Rules pe) =? 0)%nat && negb prune then None else Some (pes_Rules pe, prune)
      end
  end.

Definition env_protections (id : Z) (path : string)
  : protections ProtectedEnvironmentRuleConfig ProtectedEnvironment ProtectRepositoryEnvironmentsOptions := {|
  rule_name := pe_Name;
  live_name := en_Name;
  rule_options := toProtectEnvOptions;
  create_diff := env_CreateDiff;
  update_diff := env_UpdateDiff;
  delete_diff := env_DeleteDiff;
  protect := fun opt => r ← call (ProtectedEnvironments_ (ProtectRepositoryEnvironments id opt)); mret (r_err r);
  unprotect := fun name => r ← call (ProtectedEnvironments_ (UnprotectEnvironment id name)); mret (r_err r);
  fail_resolve := fun diffs e => failed ProtectedEnvironments_Name OnProject id path ActionNoop diffs e;
  fail_create := fun diffs diff _ e => failed ProtectedEnvironments_Name OnProject id path ActionCreate (diffs ++ [diff]) e;
  fail_update := fun diffs diff _ e => failed ProtectedEnvironments_Name OnProject id path ActionUpdate (diffs ++ [diff]) e;
  fail_prune := fun diffs name e =>
    (Some (NewApplyResult ProtectedEnvironments_Name ResourceTypeProject id path ActionDelete StatusFailed diffs
             (Some (ErrWrap ("failed to prune unmanaged protected environment '" +:+ name +:+ "': ") e))), Some e)
|}.

Definition env_finish (id : Z) (path : string) (acc : list Diff * ActionType) : GP ApplyReturn :=
  let '(appliedDiffs, overallAction) := acc in
  mret (if (length appliedDiffs =? 0)%nat then noop_apply ProtectedEnvironments_Name OnProject id path
        else succeeded ProtectedEnvironments_Name OnProject id path overallAction appliedDiffs).

Section Orders.
Context (plan_order apply_order : string -> gset string -> list string) (fuel : nat).

Definition ProtectedEnvironments_Plan (cfg : option PolicyConfig) (project : Project) : GP PlanReturn :=
  let id := p_ID project in
  let path := p_PathWithNamespace project in
  match environments_policy cfg with
  | None => mret (noop_plan ProtectedEnvironments_Name OnProject id path)
  | Some (rules, prune) =>
      live ← fetchAllLiveProtectedEnvironments fuel id;
      match live with
      | inl err => mret (None, Some (ErrWrap ("failed to list protected environments for project " +:+ Itoa id +:+ ": ") err))
      | inr liveEnvs =>
          x ← expandRules fuel plan_order id rules liveEnvs;
          match x with
          | inl err => mret (None, Some (ErrWrap "failed to expand protected environment rules: " err))
          | inr expandedRules =>
              r ← planAll (env_protections id path) (isManaged rules expandedRules) prune liveEnvs expandedRules;
              mret match r with
                   | inl e => (None, Some e)
                   | inr (allDiffs, overallAction) =>
                       if (length allDiffs =? 0)%nat then noop_plan ProtectedEnvironments_Name OnProject id path
                       else planned ProtectedEnvironments_Name OnProject id path overallAction allDiffs
                   end
          end
      end
  end.

Definition ProtectedEnvironments_Apply (cfg : option PolicyConfig) (project : Project) : GP ApplyReturn :=
  let id := p_ID project in
  let path := p_PathWithNamespace project in
  match environments_policy cfg with
  | None => mret (noop_apply ProtectedEnvironments_Name OnProject id path)
  | Some (rules, prune) =>
      live ← fetchAllLiveProtectedEnvironments fuel id;
      match live with
      | inl err => mret (failed ProtectedEnvironments_Name OnProject id path ActionNoop [] err)
      | inr liveEnvs =>
          x ← expandRules fuel apply_order id rules liveEnvs;
          match x with
          | inl err => mret (failed ProtectedEnvironments_Name OnProject id path ActionNoop [] err)
          | inr expandedRules =>
              applyAll (env_protections id path) (isManaged rules expandedRules) prune liveEnvs expandedRules (env_finish id path)
          end
      end
  end.

Definition ProtectedEnvironments_PlanGroup (cfg : option PolicyConfig) (group : Group) : GP PlanReturn :=
  mret (skipped_plan ProtectedEnvironments_Name OnGroup (g_ID group) (g_FullPath group)
          "Protected environments are not applicable to groups").

Definition ProtectedEnvironments_ApplyGroup (cfg : option PolicyConfig) (group : Group) : GP ApplyReturn :=
  mret (skipped_apply ProtectedEnvironments_Name OnGroup (g_ID group) (g_FullPath group)
          "Protected environments are not applicable to groups").

Definition NewProtectedEnvironmentsReconciler : GovernanceOperation := {|
  op_Name := ProtectedEnvironments_Name;
  op_Order := ProtectedEnvironments_Order;
  op_Plan := ProtectedEnvironments_Plan;
  op_Apply := ProtectedEnvironments_Apply;
  op_PlanGroup := ProtectedEnvironments_PlanGroup;
  op_ApplyGroup := ProtectedEnvironments_ApplyGroup
|}.

End Orders.

(** ** Specification *)

(** Go's iteration over a map gives its keys in some order. *)
Class MapOrder (order : string -> gset string -> list string) : Prop := { order_perm : forall p s, order p s ≡ₚ elements s }.

(** The rule that governs an environment: the first in the policy that names it
    or whose pattern matches it; a pattern only matches environments that the
    project has or protects ([candidates]). *)
Definition governs (candidates : gset string) (name : string) (rule : ProtectedEnvironmentRuleConfig) : bool :=
  if is_wildcard (pe_Name rule) then bool_decide (name ∈ candidates) && path_matched (pe_Name rule) name
  else (pe_Name rule =? name)%string.

Definition governing (candidates : gset string) (rules : list ProtectedEnvironmentRuleConfig) (name : string)
  : option ProtectedEnvironmentRuleConfig :=
  (fun rule => with_name rule name) <$> List.find (governs candidates name) rules.

(** What the code compares: counts, and access and approvals as multisets; what
    a rule leaves out it does not ask for. *)
Definition env_meets (rule : ProtectedEnvironmentRuleConfig) (opt : ProtectRepositoryEnvironmentsOptions) (live : ProtectedEnvironment)
  : Prop :=
  (forall n, pe_RequiredApprovalCount rule = Some n -> en_RequiredApprovalCount live = n) /\
  (given (peo_DeployAccessLevels opt) = true ->
     live_access <$> omap id (en_DeployAccessLevels live) ≡ₚ desired_access <$> set_opt (peo_DeployAccessLevels opt) []) /\
  (given (peo_ApprovalRules opt) = true ->
     live_approval <$> omap id (en_ApprovalRules live) ≡ₚ desired_approval <$> set_opt (peo_ApprovalRules opt) []).

(** The protection that GitLab makes of the options. *)
Definition env_as (o : ProtectRepositoryEnvironmentsOptions) : ProtectedEnvironment := {|
  en_Name := peo_Name o;
  en_DeployAccessLevels :=
    (fun a => Some {| el_AccessLevel := set_opt (eo_AccessLevel a) 0; el_UserID := set_opt (eo_UserID a) 0;
                      el_GroupID := set_opt (eo_GroupID a) 0 |}) <$> set_opt (peo_DeployAccessLevels o) [];
  en_RequiredApprovalCount := set_opt (peo_RequiredApprovalCount o) 0;
  en_ApprovalRules :=
    (fun a => Some {| er_AccessLevel := set_opt (eu_AccessLevel a) 0; er_UserID := set_opt (eu_UserID a) 0;
                      er_GroupID := set_opt (eu_GroupID a) 0;
                      er_RequiredApprovalCount := set_opt (eu_RequiredApprovalCount a) 1 |}) <$> set_opt (peo_ApprovalRules o) []
|}.

(** GitLab's environments and their protections, for one project. *)
Record env_server {W} (h : handler GitLabE W) (pid : Z) (envs : W -> gmap string ProtectedEnvironment) (names : W -> list string)
    (count : W -> nat) : Prop := {
  ns_list : forall w, exists l, map_by en_Name (omap id l) = envs w /\ length l = count w /\
    lists h (fun page => ProtectedEnvironments_ (ListProtectedEnvironments pid page)) l w;
  ns_names : forall w, lists h (fun page => Environments_ (ListEnvironments pid page)) (Some <$> names w) w;
  ns_protect : forall opt w,
    r_err (h _ (ProtectedEnvironments_ (ProtectRepositoryEnvironments pid opt)) w).1 = None ->
    envs (h _ (ProtectedEnvironments_ (ProtectRepositoryEnvironments pid opt)) w).2 = <[peo_Name opt := env_as opt]> (envs w);
  ns_unprotect_other : forall n m w, m <> n ->
    envs (h _ (ProtectedEnvironments_ (UnprotectEnvironment pid n)) w).2 !! m = envs w !! m;
  ns_unprotect : forall n w,
    r_err (h _ (ProtectedEnvironments_ (UnprotectEnvironment pid n)) w).1 = None ->
    envs (h _ (ProtectedEnvironments_ (UnprotectEnvironment pid n)) w).2 !! n = None
}.

(** The names that patterns range over. *)
Definition candidates {W} (envs : W -> gmap string ProtectedEnvironment) (names : W -> list string) (w : W) : gset string :=
  (list_to_set (names w) ∪ dom (envs w)) ∖ {[""]}.

(** ** Expansion *)

Lemma with_name_id rule : with_name rule (pe_Name rule) = rule.
Proof. by destruct rule. Qed.

(** The state of the expansion holds the rules [S] says, one for each name. *)
Definition expansion_ok (S : string -> option ProtectedEnvironmentRuleConfig) (acc : expansion_state) : Prop :=
  NoDup (pe_Name <$> acc.2) /\ acc.1 = list_to_set (pe_Name <$> acc.2) /\ forall n, map_by pe_Name acc.2 !! n = S n.

Lemma expansion_ok_ext S S' acc : (forall n, S n = S' n) -> expansion_ok S acc -> expansion_ok S' acc.
Proof. intros He (? & ? & Hm). split_and!; [done..|]. intros n. by rewrite Hm, He. Qed.

Lemma expansion_ok_seen S acc n : expansion_ok S acc -> n ∈ acc.1 <-> is_Some (S n).
Proof. intros (_ & -> & Hm). by rewrite elem_of_list_to_set, <- Hm, map_by_is_Some. Qed.

(** A name is added with its rule unless it has been seen. *)
Lemma expansion_ok_add S acc rule : expansion_ok S acc -> S (pe_Name rule) = None ->
  expansion_ok (fun m => if decide (m = pe_Name rule) then Some rule else S m)
    ({[pe_Name rule]} ∪ acc.1, acc.2 ++ [rule]).
Proof.
  intros (Hnd & He & Hm) Hn. split_and!; cbn [fst snd].
  - rewrite fmap_app. apply NoDup_app. split_and!; [done| |apply NoDup_singleton].
    intros x Hx Hx2. apply list_elem_of_singleton in Hx2 as ->. apply map_by_is_Some in Hx. rewrite Hm, Hn in Hx. by destruct Hx.
  - rewrite fmap_app, list_to_set_app_L, He. simpl. set_solver.
  - intros m. rewrite map_by_snoc. destruct (decide (m = pe_Name rule)) as [->|Hne]; [by rewrite lookup_insert_eq|].
    by rewrite lookup_insert_ne, Hm.
Qed.

Definition or_rule (S S' : string -> option ProtectedEnvironmentRuleConfig) (n : string) : option ProtectedEnvironmentRuleConfig :=
  or_else (S n) (S' n).

Lemma expandName_ok rule names S acc : expansion_ok S acc ->
  expansion_ok (or_rule S (fun n => if bool_decide (n ∈ names) && path_matched (pe_Name rule) n then Some (with_name rule n) else None))
    (foldl (expandName rule) acc names).
Proof.
  intros Hok. induction names as [|n names IH] using rev_ind; cbn [foldl].
  { eapply expansion_ok_ext; [|exact Hok]. intros n. unfold or_rule, or_else. by destruct (S n). }
  rewrite foldl_app. cbn [foldl]. set (acc' := foldl _ acc names) in *. unfold expandName.
  pose proof (expansion_ok_seen _ _ n IH) as Hseen. unfold or_rule, or_else in *.
  destruct (path_matched (pe_Name rule) n) eqn:Em; cbn [andb].
  - destruct (bool_decide_reflect (n ∈ acc'.1)) as [Hin|Hin]; cbn [negb].
    + eapply expansion_ok_ext; [|exact IH]. intros m. cbv beta. apply Hseen in Hin. destruct (S m) eqn:Es; [done|].
      destruct (decide (m = n)) as [->|Hne].
      * rewrite Es in Hin. rewrite (bool_decide_eq_true_2 (n ∈ names ++ [n])) by set_solver.
        case_bool_decide; [done|]. by destruct Hin.
      * by rewrite (bool_decide_ext (m ∈ names ++ [n]) (m ∈ names)) by set_solver.
    + eapply expansion_ok_ext; [|apply (expansion_ok_add _ _ (with_name rule n) IH)].
      * intros m. cbn [pe_Name with_name]. rewrite Hseen in Hin. cbv beta. destruct (decide (m = n)) as [->|Hne].
        { destruct (S n); [by destruct Hin|]. by rewrite bool_decide_eq_true_2, Em by set_solver. }
        destruct (S m); [done|]. by rewrite (bool_decide_ext (m ∈ names ++ [n]) (m ∈ names)) by set_solver.
      * apply eq_None_not_Some. intros Hs. apply Hin, Hseen. rewrite <- Em. exact Hs.
  - eapply expansion_ok_ext; [|exact IH]. intros m. cbv beta. destruct (S m); [done|].
    destruct (decide (m = n)) as [->|Hne]; [by rewrite Em, !andb_false_r|].
    by rewrite (bool_decide_ext (m ∈ names ++ [n]) (m ∈ names)) by set_solver.
Qed.

Lemma governing_snoc cands rules rule n :
  governing cands (rules ++ [rule]) n =
  or_rule (governing cands rules) (fun n => if governs cands n rule then Some (with_name rule n) else None) n.
Proof.
  unfold governing, or_rule, or_else. induction rules as [|r rules IH]; simpl; [by destruct (governs _ _ _)|].
  by destruct (governs cands n r).
Qed.

Lemma expandRule_ok order `{!MapOrder order} cands rules rule acc :
  expansion_ok (governing cands rules) acc ->
  expansion_ok (governing cands (rules ++ [rule])) (expandRule order cands acc rule).
Proof.
  intros Hok. unfold expandRule. destruct (is_wildcard (pe_Name rule)) eqn:Ew.
  - eapply expansion_ok_ext; [|apply (expandName_ok rule (order (pe_Name rule) cands) _ _ Hok)].
    intros n. rewrite governing_snoc. unfold or_rule, governs. rewrite Ew.
    by rewrite (bool_decide_ext (n ∈ order _ _) (n ∈ cands)) by (by rewrite order_perm, elem_of_elements).
  - pose proof (expansion_ok_seen _ _ (pe_Name rule) Hok) as Hseen. case_bool_decide as Hin.
    + eapply expansion_ok_ext; [|exact Hok]. intros n. rewrite governing_snoc. unfold or_rule, or_else, governs. rewrite Ew.
      destruct (String.eqb_spec (pe_Name rule) n) as [<-|Hne]; [apply Hseen in Hin as [r ->]; done|].
      by destruct (governing cands rules n).
    + eapply expansion_ok_ext; [|apply (expansion_ok_add _ _ rule Hok)].
      * intros n. rewrite governing_snoc. unfold or_rule, or_else, governs. rewrite Ew.
        destruct (decide (n = pe_Name rule)) as [->|Hne].
        { rewrite String.eqb_refl, with_name_id. destruct (governing _ _ _) eqn:Eg; [|done].
          exfalso. apply Hin, Hseen. by eexists. }
        destruct (governing cands rules n); [done|].
        destruct (String.eqb_spec (pe_Name rule) n) as [He|]; [by destruct Hne|done].
      * apply eq_None_not_Some. by rewrite <- Hseen.
Qed.

Lemma expandRules_ok order `{!MapOrder order} cands rules :
  expansion_ok (governing cands rules) (foldl (expandRule order cands) (∅, []) rules).
Proof.
  induction rules as [|rule rules IH] using rev_ind; [split_and!; [constructor|done|intros n; apply lookup_empty]|].
  rewrite foldl_app. by apply expandRule_ok.
Qed.

(** Without patterns and with distinct names a rule governs what it names. *)
Lemma governing_names cands rules rule :
  hasWildcards rules = false -> NoDup (pe_Name <$> rules) ->
  governing cands rules (pe_Name rule) = Some rule <-> rule ∈ rules.
Proof.
  unfold governing. intros Hw Hnd. induction rules as [|r rules IH]; simpl in *; [set_solver|].
  apply orb_false_iff in Hw as [Hr Hw]. apply NoDup_cons in Hnd as [Hn Hnd].
  unfold governs at 1. rewrite Hr. destruct (String.eqb_spec (pe_Name r) (pe_Name rule)) as [He|Hne].
  - simpl. rewrite <- He, with_name_id, elem_of_cons. split; [intros [= <-]; by left|intros [->|Hin]; [done|]].
    destruct Hn. rewrite He. by apply list_elem_of_fmap_2.
  - rewrite (IH Hw Hnd), elem_of_cons. split; [by right|intros [->|?]; done].
Qed.

(** What a policy expands to: for each environment that a rule governs, that
    rule; whatever the order of the iterations. *)
Definition distinct_rules (rules : list ProtectedEnvironmentRuleConfig) : Prop :=
  hasWildcards rules = true \/ NoDup (pe_Name <$> rules).

Lemma expanded_spec order `{!MapOrder order} cands rules :
  distinct_rules rules ->
  NoDup (pe_Name <$> expanded order cands rules) /\
  forall rule, rule ∈ expanded order cands rules <-> governing cands rules (pe_Name rule) = Some rule.
Proof.
  unfold expanded. intros Hd. destruct (hasWildcards rules) eqn:Ew.
  - destruct (expandRules_ok order cands rules) as (Hnd & _ & Hm). split; [done|]. intros rule. rewrite <- Hm. split.
    + by apply map_by_lookup.
    + by intros [? _]%map_by_lookup_Some.
  - destruct Hd as [Hd|Hnd]; [congruence|]. split; [done|]. intros rule. by rewrite governing_names.
Qed.

(** Two iterations expand to the same rules, in another order at most. *)
Lemma expanded_perm order `{!MapOrder order} order' `{!MapOrder order'} cands rules :
  expanded order cands rules ≡ₚ expanded order' cands rules.
Proof.
  unfold expanded. destruct (hasWildcards rules) eqn:Ew; [|done].
  destruct (expandRules_ok order cands rules) as (Hnd & _ & Hm), (expandRules_ok order' cands rules) as (Hnd' & _ & Hm').
  apply NoDup_Permutation; [by eapply NoDup_fmap_1..|]. intros rule.
  split; intros Hin; [apply (map_by_lookup _ _ _ Hnd) in Hin; rewrite Hm, <- Hm' in Hin
                     |apply (map_by_lookup _ _ _ Hnd') in Hin; rewrite Hm', <- Hm in Hin];
    by apply map_by_lookup_Some in Hin as [? _].
Qed.

Lemma isManaged_perm rules l l' name : l ≡ₚ l' -> isManaged rules l name = isManaged rules l' name.
Proof. intros Hp. unfold isManaged. f_equal. apply bool_decide_ext. by rewrite Hp. Qed.

(** ** Comparison *)

Lemma pretty_N_go_length (x : N) (s : string) : (String.length s <= String.length (pretty_N_go x s))%nat.
Proof.
  revert s. induction (N.lt_wf_0 x) as [x _ IH]. intros s. destruct (decide (x = 0)%N) as [->|Hne].
  - by rewrite pretty_N_go_0.
  - rewrite pretty_N_go_step by lia. etransitivity; [|apply IH; apply N.div_lt; lia]. simpl. lia.
Qed.

Lemma Itoa_nonempty z : Itoa z <> "".
Proof.
  assert (forall p, pretty (N.pos p) <> "") as H.
  { intros p. unfold pretty, pretty_N. destruct (decide _); [done|]. rewrite pretty_N_go_step by lia. intros He.
    pose proof (pretty_N_go_length (N.pos p `div` 10) (String (pretty_N_char (N.pos p `mod` 10)) "")) as Hl.
    rewrite He in Hl. simpl in Hl. lia. }
  destruct z as [|p|p]; [done|apply H|]. unfold Itoa, pretty, pretty_Z. by destruct (pretty _).
Qed.

Lemma colon_key_cons z l : colon_key (z :: l) = match l with [] => Itoa z | _ => Itoa z +:+ String ":" (colon_key l) end.
Proof. by destruct l. Qed.

Lemma Itoa_no_colon z y b : Itoa z <> Itoa y +:+ String ":" b.
Proof.
  intros He. pose proof (Itoa_numeral z) as Hz. rewrite He, string_all_app, string_all_cons in Hz.
  by rewrite andb_comm in Hz.
Qed.

Lemma colon_key_inj l l' : colon_key l = colon_key l' -> l = l'.
Proof.
  revert l'. induction l as [|z l IH]; intros [|z' l']; rewrite ?colon_key_cons; [done| | |].
  - intros He. symmetry in He. destruct l'; [by apply Itoa_nonempty in He|by destruct (Itoa z')].
  - intros He. destruct l; [by apply Itoa_nonempty in He|by destruct (Itoa z)].
  - destruct l as [|y l], l' as [|y' l'].
    + by intros ->%Itoa_inj.
    + by intros He%Itoa_no_colon.
    + intros He. symmetry in He. by apply Itoa_no_colon in He.
    + intros He. apply (string_sep_inj numeral) in He as [->%Itoa_inj He]; [|done|apply Itoa_numeral..].
      f_equal. by apply IH.
Qed.

Lemma equal_keys_iff a b : equal_keys a b = true <-> a ≡ₚ b.
Proof.
  unfold equal_keys. assert (colon_key <$> a ≡ₚ colon_key <$> b <-> a ≡ₚ b) as Hk.
  { rewrite (fmap_Permutation_transfer colon_key id) by (intros x y Hxy; first [by apply colon_key_inj|by simpl in Hxy; subst]).
    by rewrite !list_fmap_id. }
  destruct (Nat.eqb_spec (length (sort_Strings (colon_key <$> a))) (length (sort_Strings (colon_key <$> b)))) as [_|He]; cbn [negb].
  - by rewrite bool_decide_eq_true, sort_Strings_eq_iff.
  - split; [done|]. intros Hl. destruct He. by rewrite (proj2 (sort_Strings_eq_iff _ _) (proj2 Hk Hl)).
Qed.

Lemma env_UpdateDiff_quiet live rule opt :
  peo_RequiredApprovalCount opt = pe_RequiredApprovalCount rule ->
  Diff_HasChanges (env_UpdateDiff live rule opt) = false <-> env_meets rule opt live.
Proof.
  intros Hc. unfold env_UpdateDiff, env_meets. rewrite Build_HasChanges; [|by autorewrite with diff|done..].
  autorewrite with diff. rewrite !andb_false_iff, !negb_false_iff. unfold equalEnvAccess, equalEnvApprovalRules.
  rewrite !equal_keys_iff, Z.eqb_eq.
  assert (forall P Q : Prop, (P <-> Q) -> forall b : bool, (b = false \/ P) <-> (b = true -> Q)) as Hi.
  { intros P Q HPQ []; naive_solver. }
  rewrite (Hi _ _ (iff_refl _) (given (peo_DeployAccessLevels opt))), (Hi _ _ (iff_refl _) (given (peo_ApprovalRules opt))).
  destruct (pe_RequiredApprovalCount rule); simpl; naive_solver.
Qed.

Lemma omap_id_fmap_Some {A B} (f : A -> B) (l : list A) : omap id ((fun a => Some (f a)) <$> l) = f <$> l.
Proof. by rewrite (list_fmap_compose f Some), omap_id_Some. Qed.

(** A protection made for a rule meets it. *)
Lemma env_as_meets rule opt : peo_RequiredApprovalCount opt = pe_RequiredApprovalCount rule -> env_meets rule opt (env_as opt).
Proof.
  intros Hc. unfold env_meets, env_as. cbn [en_RequiredApprovalCount en_DeployAccessLevels en_ApprovalRules]. split_and!.
  - intros n Hn. by rewrite Hc, Hn.
  - intros _. apply reflexive_eq. by rewrite omap_id_fmap_Some, <- list_fmap_compose.
  - intros _. apply reflexive_eq. by rewrite omap_id_fmap_Some, <- list_fmap_compose.
Qed.

(** ** Reading and resolving *)

Lemma fetchProjectEnvironments_reads fuel pid page all : reads (fetchProjectEnvironments fuel pid page all).
Proof.
  revert page all. induction fuel as [|fuel IH]; intros page all; [done|]. cbn [fetchProjectEnvironments].
  apply reads_bind; [by apply reads_call|]. intros r. by repeat case_match.
Qed.

Lemma expandRules_reads fuel order pid rules live : reads (expandRules fuel order pid rules live).
Proof.
  unfold expandRules. destruct (hasWildcards rules); [|done]. apply reads_bind; [apply fetchProjectEnvironments_reads|done].
Qed.

Lemma resolvePair_reads what uid name gid path : reads (resolvePair what uid name gid path).
Proof.
  apply reads_bind; [apply resolveUserUnless_reads|]. intros [e|u]; [done|].
  apply reads_bind; [apply resolveGroupUnless_reads|done].
Qed.

Lemma toProtectEnvOptions_reads rule : reads (toProtectEnvOptions rule).
Proof.
  apply reads_bind; [apply try_map_only; intros a; apply reads_bind; [apply resolvePair_reads|done]|]. intros [e|deploy]; [done|].
  apply reads_bind; [apply try_map_only; intros a; apply reads_bind; [apply resolvePair_reads|done]|]. intros [e|rules]; [done|].
  apply reads_bind; [apply try_map_only; intros a; apply reads_bind; [apply resolveUserUnless_reads|done]|]. intros [e|users]; [done|].
  apply reads_bind; [apply try_map_only; intros a; apply reads_bind; [apply resolveGroupUnless_reads|done]|done].
Qed.

(** Where the strict listing succeeds the lenient one gives the same. *)
Lemma fetchProjectEnvironments_fetch {W} (h : handler GitLabE W) fuel pid page all l w w' :
  run h (fetchPages (fun page => Environments_ (ListEnvironments pid page)) fuel page all) w = (inr l, w') ->
  run h (fetchProjectEnvironments fuel pid page all) w = (Some l, w').
Proof.
  revert page all w. induction fuel as [|fuel IH]; intros page all w; [done|]. cbn [fetchPages fetchProjectEnvironments].
  rewrite !run_bind, !run_call. destruct (h _ _ w) as [r w1]. destruct (r_err r); [done|].
  destruct (r_resp r) as [resp|]; [|by intros [= -> ->]]. destruct (NextPage resp =? 0); [by intros [= -> ->]|]. apply IH.
Qed.

Section Server.
Context {W : Type} (h : handler GitLabE W) `{!Answers h} (id : Z) (path : string)
  (envs : W -> gmap string ProtectedEnvironment) (names : W -> list string) (count : W -> nat)
  (srv : env_server h id envs names count).

(** What the entries of a rule resolve to. *)
Definition resolved_pair (what : string) (uid : Z) (username : string) (gid : Z) (path : string) : error + (Z * Z) :=
  match userUnless h ProtectedEnvironments_Name uid username ("failed to resolve username '" +:+ username +:+ "' for " +:+ what +:+ ": ") with
  | inl e => inl e
  | inr u =>
      match groupUnless h ProtectedEnvironments_Name gid path ("failed to resolve group_path '" +:+ path +:+ "' for " +:+ what +:+ ": ") with
      | inl e => inl e
      | inr g => inr (u, g)
      end
  end.

Definition resolved_deploy (acc : EnvironmentAccessDescription) : error + EnvironmentAccessOptions :=
  match resolved_pair "deploy access" (ea_UserID acc) (ea_Username acc) (ea_GroupID acc) (ea_GroupPath acc) with
  | inl e => inl e
  | inr (u, g) => inr {| eo_AccessLevel := positive (ea_AccessLevel acc); eo_UserID := positive u; eo_GroupID := positive g |}
  end.

Definition resolved_approval (ar : EnvironmentApprovalRuleConfig) : error + EnvironmentApprovalRuleOptions :=
  match resolved_pair "approval rule" (ear_UserID ar) (ear_Username ar) (ear_GroupID ar) (ear_GroupPath ar) with
  | inl e => inl e
  | inr (u, g) => inr {| eu_AccessLevel := positive (ear_AccessLevel ar); eu_UserID := positive u; eu_GroupID := positive g;
                         eu_RequiredApprovalCount := ear_RequiredApprovalCount ar |}
  end.

Definition resolved_user (u : EnvironmentApprovalUserConfig) : error + option EnvironmentApprovalRuleOptions :=
  match userUnless h ProtectedEnvironments_Name (eau_UserID u) (eau_Username u)
          ("failed to resolve username '" +:+ eau_Username u +:+ "' for approval user: ") with
  | inl e => inl e
  | inr uid => inr (user_rule uid)
  end.

Definition resolved_group (g : EnvironmentApprovalGroupConfig) : error + option EnvironmentApprovalRuleOptions :=
  match groupUnless h ProtectedEnvironments_Name (eag_GroupID g) (eag_GroupPath g)
          ("failed to resolve group_path '" +:+ eag_GroupPath g +:+ "' for approval group: ") with
  | inl e => inl e
  | inr gid => inr (group_rule gid)
  end.

Definition resolved_env (rule : ProtectedEnvironmentRuleConfig) : error + ProtectRepositoryEnvironmentsOptions :=
  match try_map_pure resolved_deploy (pe_DeployAccessLevels rule), try_map_pure resolved_approval (pe_ApprovalRules rule),
        try_map_pure resolved_user (pe_ApprovalUsers rule), try_map_pure resolved_group (pe_ApprovalGroups rule) with
  | inr deploy, inr rules, inr users, inr groups => inr (env_options rule deploy (rules ++ omap Datatypes.id users ++ omap Datatypes.id groups))
  | inl e, _, _, _ | inr _, inl e, _, _ | inr _, inr _, inl e, _ | inr _, inr _, inr _, inl e => inl e
  end.

Lemma resolvePair_run what uid name gid gpath w :
  run h (resolvePair what uid name gid gpath) w = (resolved_pair what uid name gid gpath, w).
Proof.
  unfold resolvePair, resolved_pair. rewrite run_bind, (resolveUserUnless_run h). destruct (userUnless h _ _ _ _); [done|].
  by rewrite run_bind, (resolveGroupUnless_run h).
Qed.

Lemma toProtectEnvOptions_run rule w : run h (toProtectEnvOptions rule) w = (resolved_env rule, w).
Proof.
  unfold toProtectEnvOptions, resolved_env.
  rewrite run_bind, (try_map_run h _ resolved_deploy).
  2: { intros a w1. unfold deployAccess, resolved_deploy. rewrite run_bind, resolvePair_run. by destruct (resolved_pair _ _ _ _ _) as [|[]]. }
  destruct (try_map_pure resolved_deploy _); [done|]. rewrite run_bind, (try_map_run h _ resolved_approval).
  2: { intros a w1. unfold approvalRule, resolved_approval. rewrite run_bind, resolvePair_run. by destruct (resolved_pair _ _ _ _ _) as [|[]]. }
  destruct (try_map_pure resolved_approval _); [done|]. rewrite run_bind, (try_map_run h _ resolved_user).
  2: { intros a w1. unfold approvalUser, resolved_user. by rewrite run_bind, (resolveUserUnless_run h). }
  destruct (try_map_pure resolved_user _); [done|]. rewrite run_bind, (try_map_run h _ resolved_group); [done|].
  intros a w1. unfold approvalGroup, resolved_group. by rewrite run_bind, (resolveGroupUnless_run h).
Qed.

Lemma resolved_env_rule rule opt : resolved_env rule = inr opt ->
  peo_Name opt = pe_Name rule /\ peo_RequiredApprovalCount opt = pe_RequiredApprovalCount rule.
Proof. unfold resolved_env. repeat case_match; intros [= <-]; done. Qed.

Lemma env_protection_server : protection_server (env_protections id path) h envs env_as resolved_env.
Proof using srv.
  split; cbn [env_protections rule_options rule_name protect unprotect].
  - apply toProtectEnvOptions_run.
  - intros rule opt w Hr. rewrite run_bind, run_call. pose proof (ns_protect _ _ _ _ _ srv opt w) as Hp.
    destruct (h _ _ w) as [r w1]. rewrite run_ret. cbn [fst snd] in *. intros He. rewrite (Hp He).
    by rewrite (proj1 (resolved_env_rule _ _ Hr)).
  - intros n m w Hne. rewrite run_bind, run_call. pose proof (ns_unprotect_other _ _ _ _ _ srv n m w Hne) as Hu.
    by destruct (h _ _ w).
  - intros n w. rewrite run_bind, run_call. pose proof (ns_unprotect _ _ _ _ _ srv n w) as Hu. by destruct (h _ _ w).
Qed.

Lemma env_makes_good rule : makes_good (env_protections id path) env_as resolved_env rule.
Proof.
  intros opt Hr. apply resolved_env_rule in Hr as [_ Hr]. apply env_UpdateDiff_quiet; [done|]. by apply env_as_meets.
Qed.

Lemma fetchEnvironments_run fuel w : (count w < per_page * fuel)%nat ->
  exists l, live_by_name (env_protections id path) l = envs w /\
    run h (fetchAllLiveProtectedEnvironments fuel id) w = (inr l, w).
Proof using srv.
  intros Hf. destruct (ns_list _ _ _ _ _ srv w) as (l & Hl & Hc & Hp). exists l. split; [done|].
  apply fetchPages_run; [exact Hp|lia].
Qed.

Lemma candidateNames_candidates l w :
  live_by_name (env_protections id path) l = envs w -> candidateNames (Some <$> names w) l = candidates envs names w.
Proof.
  intros Hl. unfold candidateNames, candidates. rewrite omap_id_Some. apply set_eq. intros x.
  rewrite elem_of_list_to_set, list_elem_of_In, filter_In, <- list_elem_of_In, elem_of_app, negb_true_iff, String.eqb_neq,
    elem_of_difference, elem_of_union, elem_of_list_to_set, elem_of_dom, not_elem_of_singleton, <- Hl.
  unfold live_by_name. cbn [env_protections live_name]. by rewrite map_by_is_Some.
Qed.

Lemma expandRules_run fuel order rules l w :
  (length (names w) < per_page * fuel)%nat -> live_by_name (env_protections id path) l = envs w ->
  run h (expandRules fuel order id rules l) w = (inr (expanded order (candidates envs names w) rules), w).
Proof using srv.
  intros Hf Hl. unfold expandRules, expanded. destruct (hasWildcards rules); [|done]. cbn [negb].
  rewrite run_bind, (fetchProjectEnvironments_fetch h fuel id 1 [] (Some <$> names w) w w).
  - by rewrite run_ret, (candidateNames_candidates _ _ Hl).
  - apply fetchPages_run; [apply (ns_names _ _ _ _ _ srv)|by rewrite length_fmap].
Qed.

End Server.

Lemma env_failures id path : failures (env_protections id path).
Proof. by split. Qed.

Lemma env_finish_run {W} (h : handler GitLabE W) id path acc w : (run h (env_finish id path acc) w).2 = w.
Proof. by destruct acc. Qed.

#[export] Instance ProtectedEnvironments_DryRun plan_order apply_order fuel :
  DryRun (NewProtectedEnvironmentsReconciler plan_order apply_order fuel).
Proof.
  split; intros; simpl; [|done]. unfold ProtectedEnvironments_Plan. destruct (environments_policy cfg) as [[rules prune]|]; [|done].
  apply reads_bind; [by apply fetchPages_reads|]. intros [e|live]; [done|].
  apply reads_bind; [apply expandRules_reads|]. intros [e|x]; [done|].
  apply reads_bind; [apply planAll_reads, toProtectEnvOptions_reads|]. intros [e|[diffs a]]; by repeat case_match.
Qed.

(** What an expansion leaves, whatever the order: the same answer but for the
    order of the rules. *)
Lemma expandRules_orders {W} (h : handler GitLabE W) fuel order `{!MapOrder order} order' `{!MapOrder order'} pid rules live w l w' :
  run h (expandRules fuel order pid rules live) w = (inr l, w') ->
  exists l', run h (expandRules fuel order' pid rules live) w = (inr l', w') /\ l ≡ₚ l'.
Proof.
  unfold expandRules. destruct (hasWildcards rules); cbn [negb]; [|intros [= <- <-]; by exists rules].
  rewrite !run_bind. destruct (run h _ w) as [[envs|] w1]; rewrite !run_ret; [|done]. intros [= <- <-].
  eexists. split; [done|]. by apply expanded_perm.
Qed.

#[export] Instance ProtectedEnvironments_NoopQuiet plan_order `{!MapOrder plan_order} apply_order `{!MapOrder apply_order} fuel :
  NoopQuiet (NewProtectedEnvironmentsReconciler plan_order apply_order fuel).
Proof.
  split; intros; simpl; [unfold ProtectedEnvironments_Plan; always|done| |by intros W h w r _ _ _; constructor].
  intros W h w r Hs Hp Hc. unfold ProtectedEnvironments_Plan, ProtectedEnvironments_Apply in *.
  destruct (environments_policy cfg) as [[rules prune]|]; [|constructor].
  rewrite run_bind in Hp. rewrite calls_bind. apply Forall_app. split; [by apply calls_reads, fetchPages_reads|].
  pose proof (run_reads h (fetchAllLiveProtectedEnvironments fuel (p_ID p)) w Hs ltac:(by apply fetchPages_reads)) as Hw.
  destruct (run h _ w) as [[e|live] w']; [constructor|]. simpl in Hw. subst w'.
  rewrite run_bind in Hp. rewrite calls_bind. apply Forall_app. split; [apply calls_reads, expandRules_reads|].
  pose proof (run_reads h (expandRules fuel plan_order (p_ID p) rules live) w Hs (expandRules_reads _ _ _ _ _)) as Hw.
  destruct (run h (expandRules fuel plan_order _ _ _) w) as [[e|l] w1] eqn:Hx; [done|]. simpl in Hw. subst w1.
  destruct (expandRules_orders h fuel plan_order apply_order _ _ _ _ _ _ Hx) as (l' & -> & Hl).
  rewrite run_bind in Hp. destruct (run h (planAll _ _ _ _ _) w) as [[e|acc] w1] eqn:Ha; [done|].
  rewrite run_ret in Hp. pose proof (planAll_ok _ _ _ _ _ _ _ _ _ Ha) as Hok.
  assert (acc.1 = []) as Hn.
  { destruct acc as [diffs a]. cbn [fst] in *. destruct (length diffs =? 0)%nat eqn:El.
    + by apply Nat.eqb_eq, nil_length_inv in El.
    + injection Hp as <-. by apply (planned_changes _ _ _ _ _ Hok) in Hc. }
  destruct (planAll_quiet_perm (env_protections (p_ID p) (p_PathWithNamespace p)) h (isManaged rules l) (isManaged rules l')
    prune live l l' acc w w1 Hs toProtectEnvOptions_reads Hl (fun n => isManaged_perm rules l l' n Hl) Ha Hn) as (acc' & Ha' & Hn').
  eapply applyAll_quiet; [done|apply toProtectEnvOptions_reads|exact Ha'|done|].
  intros [d a]. unfold env_finish. by case_match.
Qed.

(** ** Properties *)


(** ** A concrete server *)

Definition demo_env_server : handler GitLabE (list ProtectedEnvironment) := fun X e w =>
  match e in GitLabE X return X * list ProtectedEnvironment with
  | ProtectedEnvironments_ e =>
      match e in ProtectedEnvironmentsE X return X * list ProtectedEnvironment with
      | ListProtectedEnvironments _ page => (page_of (Some <$> w) page, w)
      | ProtectRepositoryEnvironments _ opt =>
          if bool_decide (peo_Name opt ∈ en_Name <$> w) then (reply_err tt 409 (ErrNew "409 Conflict"), w)
          else (reply_ok tt, w ++ [env_as opt])
      | UnprotectEnvironment _ name =>
          if bool_decide (name ∈ en_Name <$> w)
          then (reply_ok tt, List.filter (fun t => negb (en_Name t =? name)%string) w) else (not_found tt, w)
      end
  | Environments_ e =>
      match e in EnvironmentsE X return X * list ProtectedEnvironment with
      | ListEnvironments _ page => (page_of (Some <$> ["prod-eu"; "prod-us"; "dev"]) page, w)
      end
  | Resolver_ e => (demo_directory e, w)
  | e => (absent_call e, w)
  end.

#[local] Instance demo_env_answers : Answers demo_env_server := {| answer := @demo_directory; answer_call := fun X e w => eq_refl |}.

#[local] Instance elements_order : MapOrder (fun _ s => elements s).
Proof. by split. Qed.

#[local] Instance reverse_order : MapOrder (fun _ s => rev (elements s)).
Proof. split. intros _ s. by rewrite <- Permutation_rev. Qed.

Lemma demo_env_server_ok :
  env_server demo_env_server 42 (map_by en_Name) (fun _ => ["prod-eu"; "prod-us"; "dev"]) length.
Proof.
  split.
  - intros w. exists (Some <$> w). rewrite omap_id_Some, length_fmap. by split_and!.
  - done.
  - intros opt w. simpl. case_bool_decide; [done|]. intros _. exact (map_by_snoc en_Name w (env_as opt)).
  - intros n m w Hne. simpl. case_bool_decide; [|done]. simpl. by rewrite map_by_filter, lookup_delete_ne.
  - intros n w. simpl. case_bool_decide; [|done]. intros _. simpl. by rewrite map_by_filter, lookup_delete_eq.
Qed.

Definition demo_env_rule (name : string) (level : Z) (user : string) (approvals : Z) : ProtectedEnvironmentRuleConfig := {|
  pe_Name := name;
  pe_DeployAccessLevels := [{| ea_AccessLevel := level; ea_UserID := 0; ea_GroupID := 0; ea_Username := user; ea_GroupPath := "" |}];
  pe_RequiredApprovalCount := Some approvals;
  pe_ApprovalRules := [];
  pe_ApprovalGroups := [{| eag_GroupID := 0; eag_GroupPath := "platform/release" |}];
  pe_ApprovalUsers := []
|}.

Definition demo_env_rules : list ProtectedEnvironmentRuleConfig :=
  [demo_env_rule "prod-eu" 40 "" 2; demo_env_rule "prod-*" 0 "alice" 1].

Definition demo_envs_cfg (rules : list ProtectedEnvironmentRuleConfig) : option PolicyConfig := with_policies
  (Build_PoliciesConfig None [] None (Some {| pes_Prune := Some true; pes_Rules := rules |}) None None None [] None None [] None None [] []).

(** One environment's protection differs, another's is missing, a third is stray. *)
Definition demo_envs : list ProtectedEnvironment :=
  [{| en_Name := "prod-eu"; en_DeployAccessLevels := [Some {| el_AccessLevel := 30; el_UserID := 0; el_GroupID := 0 |}];
      en_RequiredApprovalCount := 1; en_ApprovalRules := [] |};
   {| en_Name := "old"; en_DeployAccessLevels := []; en_RequiredApprovalCount := 0; en_ApprovalRules := [] |}].

Definition demo_env_apply (rules : list ProtectedEnvironmentRuleConfig) (w : list ProtectedEnvironment) : ApplyReturn * list ProtectedEnvironment :=
  run demo_env_server (ProtectedEnvironments_Apply (fun _ s => elements s) 1 (demo_envs_cfg rules) demo_project) w.

Definition demo_env_plan (rules : list ProtectedEnvironmentRuleConfig) (w : list ProtectedEnvironment) : PlanReturn * list ProtectedEnvironment :=
  run demo_env_server (ProtectedEnvironments_Plan (fun _ s => rev (elements s)) 1 (demo_envs_cfg rules) demo_project) w.


(** A successful enforcement of environment protections can leave drift: a
    pattern only ranges over environments that exist or are protected, so with
    a pattern before an explicit name of an environment that is neither, the
    explicit rule creates the protection and the pattern governs it from then
    on; the plan made right after the enforcement asks for an update, and the
    next enforcement replaces what the first one made. *)
Theorem ProtectedEnvironments_pattern_takes_over :
  let rules := [demo_env_rule "stag*" 40 "" 2; demo_env_rule "staging" 30 "" 1] in
  let '(r1, w1) := demo_env_apply rules [] in
  let '(p, w2) := demo_env_plan rules w1 in
  let '(r2, w3) := demo_env_apply rules w1 in
  r1.2 = None /\ (en_RequiredApprovalCount <$> w1 = [1]) /\
  (option_map (fun r => (pl_HasChanges r, pl_Action r)) p.1 = Some (true, ActionUpdate)) /\
  r2.2 = None /\ (en_RequiredApprovalCount <$> w3 = [2]).
Proof. vm_compute. split_and!; reflexivity. Qed.
