(* ===== verification/Keyed.v ===== *)
(** * Numbered records matched by a key

    Approval rules and webhooks are reconciled by the same loops: the live
    records have numbers, a policy entry is matched to a live record by a key
    made of its name, a missing record is created, a matched one is edited by
    its number, and with pruning the records that no entry matched are deleted.
    The loops are written once here, over a record of what the two reconcilers
    do differently, with the lemmas both use. *)

From S2P Require Import Prelude GoLib Config GitLabAPI Server Governance.
Local Open Scope string_scope.
Local Open Scope list_scope.
Local Open Scope Z_scope.

(** [Opt] is what an entry of the policy becomes once its names are resolved. *)
Record keyed (Rule Live Opt : Type) : Type := {
  rule_key : Rule -> string;
  live_key : Live -> string;
  live_id : Live -> Z;
  (** A live record that pruning may delete. *)
  prunable : Live -> bool;
  (** Resolving an entry for the plan, and again, errors ignored, for the
      enforcement. *)
  plan_options : Rule -> GP (error + Opt);
  apply_options : Rule -> GP Opt;
  missing_diff : Rule -> Opt -> Diff;
  drift_diff : Rule -> Live -> Opt -> Diff;
  prune_diff : Live -> Diff;
  create_record : Rule -> Opt -> GP (option error);
  edit_record : Rule -> Live -> Opt -> GP (option error);
  delete_record : Live -> GP (option error);
  (** How the failure of a change is explained. *)
  explain_create : Rule -> string;
  explain_edit : Rule -> Live -> string;
  explain_delete : Live -> string
}.
Arguments rule_key {Rule Live Opt}.
Arguments live_key {Rule Live Opt}.
Arguments live_id {Rule Live Opt}.
Arguments prunable {Rule Live Opt}.
Arguments plan_options {Rule Live Opt}.
Arguments apply_options {Rule Live Opt}.
Arguments missing_diff {Rule Live Opt}.
Arguments drift_diff {Rule Live Opt}.
Arguments prune_diff {Rule Live Opt}.
Arguments create_record {Rule Live Opt}.
Arguments edit_record {Rule Live Opt}.
Arguments delete_record {Rule Live Opt}.
Arguments explain_create {Rule Live Opt}.
Arguments explain_edit {Rule Live Opt}.
Arguments explain_delete {Rule Live Opt}.

Section Loops.
Context {Rule Live Opt : Type} (kd : keyed Rule Live Opt).

Definition live_by_key (live : list Live) : gmap string Live := map_by (live_key kd) live.

(** [matchedIDs]: the numbers of the records that some entry matched. *)
Definition planRecord (liveMap : gmap string Live) (acc : list Diff * gset Z) (rule : Rule) (opt : Opt)
  : list Diff * gset Z :=
  match liveMap !! rule_key kd rule with
  | None => (acc.1 ++ [missing_diff kd rule opt], acc.2)
  | Some live =>
      let diff := drift_diff kd rule live opt in
      (if Diff_HasChanges diff then acc.1 ++ [diff] else acc.1, {[live_id kd live]} ∪ acc.2)
  end.

Fixpoint planRecords (liveMap : gmap string Live) (rules : list Rule) (acc : list Diff * gset Z)
  : GP (error + (list Diff * gset Z)) :=
  match rules with
  | [] => mret (inr acc)
  | rule :: rest =>
      o ← plan_options kd rule;
      match o with
      | inl e => mret (inl e)
      | inr opt => planRecords liveMap rest (planRecord liveMap acc rule opt)
      end
  end.

(** A live record that pruning deletes. *)
Definition stray (matched : gset Z) (l : Live) : bool :=
  negb (bool_decide (live_id kd l ∈ matched)) && prunable kd l.

(** The diffs of a plan, after those of [diffs]. *)
Definition planKeyed (prune : bool) (live : list (option Live)) (rules : list Rule) (diffs : list Diff)
  : GP (error + list Diff) :=
  r ← planRecords (live_by_key (omap id live)) rules (diffs, ∅);
  mret match r with
       | inl e => inl e
       | inr (diffs, matched) =>
           inr (if prune then diffs ++ (prune_diff kd <$> List.filter (stray matched) (omap id live)) else diffs)
       end.

(** Every change fails the same way: [fail] gets the action and the error. *)
Fixpoint applyRecords (fail : ActionType -> error -> ApplyReturn) (liveMap : gmap string Live)
    (rules : list Rule) (matched : gset Z) (next : gset Z -> GP ApplyReturn) : GP ApplyReturn :=
  match rules with
  | [] => next matched
  | rule :: rest =>
      opt ← apply_options kd rule;
      match liveMap !! rule_key kd rule with
      | None =>
          r ← create_record kd rule opt;
          match r with
          | Some e => mret (fail ActionCreate (ErrWrap (explain_create kd rule) e))
          | None => applyRecords fail liveMap rest matched next
          end
      | Some live =>
          r ← edit_record kd rule live opt;
          match r with
          | Some e => mret (fail ActionUpdate (ErrWrap (explain_edit kd rule live) e))
          | None => applyRecords fail liveMap rest ({[live_id kd live]} ∪ matched) next
          end
      end
  end.

Fixpoint pruneRecords (fail : ActionType -> error -> ApplyReturn) (matched : gset Z) (live : list Live)
    (next : GP ApplyReturn) : GP ApplyReturn :=
  match live with
  | [] => next
  | l :: rest =>
      if stray matched l then
        r ← delete_record kd l;
        match r with
        | Some e => mret (fail ActionDelete (ErrWrap (explain_delete kd l) e))
        | None => pruneRecords fail matched rest next
        end
      else pruneRecords fail matched rest next
  end.

Definition applyKeyed (fail : ActionType -> error -> ApplyReturn) (prune : bool) (live : list (option Live))
    (rules : list Rule) (next : GP ApplyReturn) : GP ApplyReturn :=
  applyRecords fail (live_by_key (omap id live)) rules ∅
    (fun matched => if prune then pruneRecords fail matched (omap id live) next else next).

Lemma planKeyed_reads prune live rules diffs :
  (forall rule, reads (plan_options kd rule)) -> reads (planKeyed prune live rules diffs).
Proof.
  intros Hr. apply reads_bind; [|done]. generalize (diffs, (∅ : gset Z)). induction rules as [|rule rules IH]; intros acc;
    cbn [planRecords]; [done|]. apply reads_bind; [done|]. intros [e|opt]; [done|apply IH].
Qed.

(** The calls of an enforcement are those of its parts. *)
Lemma applyKeyed_only P fail prune live rules next :
  (forall rule, only P (apply_options kd rule)) -> (forall rule opt, only P (create_record kd rule opt)) ->
  (forall rule l opt, only P (edit_record kd rule l opt)) -> (forall l, only P (delete_record kd l)) ->
  only P next -> only P (applyKeyed fail prune live rules next).
Proof.
  intros Ho Hc He Hd Hn. unfold applyKeyed. generalize (live_by_key (omap id live)), (∅ : gset Z). intros m matched.
  revert matched. induction rules as [|rule rules IH]; intros matched; cbn [applyRecords].
  - destruct prune; [|done]. induction (omap id live) as [|l ls IHl]; cbn [pruneRecords]; [done|].
    destruct (stray matched l); [|done]. apply only_bind; [done|]. by intros [e|].
  - apply only_bind; [done|]. intros opt. destruct (m !! _); (apply only_bind; [done|]); by intros [e|].
Qed.

End Loops.

(** ** What the server does *)

Section Server.
Context {Rule Live Opt : Type} (kd : keyed Rule Live Opt) {W : Type} (h : handler GitLabE W).

(** [set_record rule opt] is what an edit makes of a record. *)
Record keyed_server (items : W -> list Live) (resolved : Rule -> error + Opt) (set_record : Rule -> Opt -> Live -> Live)
  : Prop := {
  kv_ids : forall w, NoDup (live_id kd <$> items w);
  kv_resolve : forall rule w, run h (plan_options kd rule) w = (resolved rule, w);
  kv_reresolve : forall rule opt w, resolved rule = inr opt -> run h (apply_options kd rule) w = (opt, w);
  kv_create : forall rule opt w, resolved rule = inr opt -> (run h (create_record kd rule opt) w).1 = None ->
    exists new, items (run h (create_record kd rule opt) w).2 = items w ++ [new] /\
      live_key kd new = rule_key kd rule /\ Diff_HasChanges (drift_diff kd rule new opt) = false;
  kv_edit : forall rule live opt w, resolved rule = inr opt -> (run h (edit_record kd rule live opt) w).1 = None ->
    items (run h (edit_record kd rule live opt) w).2 =
      map (fun l => if live_id kd l =? live_id kd live then set_record rule opt l else l) (items w);
  kv_set_id : forall rule opt l, live_id kd (set_record rule opt l) = live_id kd l;
  kv_set_key : forall rule opt l, live_key kd (set_record rule opt l) = rule_key kd rule;
  kv_set_good : forall rule opt l, resolved rule = inr opt ->
    Diff_HasChanges (drift_diff kd rule (set_record rule opt l) opt) = false;
  kv_delete : forall l w, (run h (delete_record kd l) w).1 = None ->
    items (run h (delete_record kd l) w).2 = List.filter (fun x => negb (live_id kd x =? live_id kd l)) (items w)
}.

Context (items : W -> list Live) (resolved : Rule -> error + Opt) (set_record : Rule -> Opt -> Live -> Live)
  (srv : keyed_server items resolved set_record).

Local Abbreviation mapped l := (live_by_key kd l).

(** An entry of the policy is met by the record its key finds. *)
Definition record_met (l : list Live) (rule : Rule) : Prop :=
  exists opt live, resolved rule = inr opt /\ mapped l !! rule_key kd rule = Some live /\
    Diff_HasChanges (drift_diff kd rule live opt) = false.

(** ** The loop over the entries

    [l0] are the records at the start and [l] those after the entries [done_]:
    the other keys find what they found, the entries are met by the edited
    record or by a new one, and nothing else has appeared or gone. *)
Record progress (l0 : list Live) (done_ : list Rule) (l : list Live) : Prop := {
  pg_other : forall k, k ∉ rule_key kd <$> done_ -> mapped l !! k = mapped l0 !! k;
  pg_met : Forall (record_met l) done_;
  pg_number : forall k live, k ∈ rule_key kd <$> done_ -> mapped l !! k = Some live ->
    match mapped l0 !! k with
    | Some y => live_id kd live = live_id kd y
    | None => live_id kd live ∉ live_id kd <$> l0
    end;
  pg_from : forall x, x ∈ l -> x ∈ l0 \/ (live_key kd x ∈ rule_key kd <$> done_ /\ mapped l !! live_key kd x = Some x);
  pg_keep : forall x, x ∈ l0 -> live_key kd x ∉ rule_key kd <$> done_ -> x ∈ l;
  pg_ids : forall x, x ∈ l0 -> live_id kd x ∈ live_id kd <$> l
}.

Lemma progress_start l : progress l [] l.
Proof.
  clear srv set_record items h W. split; [done|constructor|set_solver|by left|done|]. intros x Hx. by apply list_elem_of_fmap_2.
Qed.

(** How a record changes under one step that affects the key of [rule] only. *)
Lemma progress_step l0 done_ l l' rule live opt :
  progress l0 done_ l -> rule_key kd rule ∉ rule_key kd <$> done_ -> resolved rule = inr opt ->
  mapped l' = <[rule_key kd rule := live]> (mapped l) ->
  Diff_HasChanges (drift_diff kd rule live opt) = false -> live_key kd live = rule_key kd rule ->
  match mapped l0 !! rule_key kd rule with
  | Some y => live_id kd live = live_id kd y
  | None => live_id kd live ∉ live_id kd <$> l0
  end ->
  (forall x, x ∈ l' -> x ∈ l \/ x = live) ->
  (forall x, x ∈ l -> live_key kd x <> rule_key kd rule -> x ∈ l') ->
  (forall x, x ∈ l -> live_id kd x ∈ live_id kd <$> l') ->
  progress l0 (done_ ++ [rule]) l'.
Proof.
  clear srv set_record items h W. intros HP Hnew Hres Hm Hq Hk Hnum Hfrom Hkeep Hids.
  assert (forall k, k ∈ rule_key kd <$> (done_ ++ [rule]) <-> k ∈ rule_key kd <$> done_ \/ k = rule_key kd rule) as Hin.
  { intros k. rewrite fmap_app, elem_of_app. simpl. by rewrite list_elem_of_singleton. }
  assert (forall k, k ∈ rule_key kd <$> done_ -> mapped l' !! k = mapped l !! k) as Hold.
  { intros k Hkd. rewrite Hm, lookup_insert_ne; [done|]. by intros <-. }
  split.
  - intros k Hkn. rewrite Hin in Hkn. rewrite Hm, lookup_insert_ne by naive_solver. apply (pg_other _ _ _ HP). naive_solver.
  - rewrite Forall_app, Forall_singleton. split.
    + pose proof (pg_met _ _ _ HP) as Hmet. rewrite Forall_forall in Hmet |- *. intros r Hr.
      destruct (Hmet r Hr) as (o & lv & ? & Hl & ?). exists o, lv. split_and!; [done| |done].
      rewrite Hold by (by apply list_elem_of_fmap_2). done.
    + exists opt, live. split_and!; [done| |done]. by rewrite Hm, lookup_insert_eq.
  - intros k lv Hkn Hl. rewrite Hin in Hkn. destruct (decide (k = rule_key kd rule)) as [->|Hne].
    + rewrite Hm, lookup_insert_eq in Hl. by injection Hl as <-.
    + destruct Hkn as [Hkn|]; [|done]. rewrite Hold in Hl by done. by apply (pg_number _ _ _ HP).
  - intros x Hx. rewrite Hin. destruct (Hfrom x Hx) as [Hxl| ->].
    + destruct (pg_from _ _ _ HP x Hxl) as [?|[Hd Hl]]; [by left|right]. split; [by left|]. by rewrite Hold.
    + right. rewrite Hk. split; [by right|]. by rewrite Hm, lookup_insert_eq.
  - intros x Hx Hn. rewrite Hin in Hn. apply Hkeep; [apply (pg_keep _ _ _ HP)|]; naive_solver.
  - intros x Hx. pose proof (pg_ids _ _ _ HP x Hx) as Hi. apply list_elem_of_fmap in Hi as (y & -> & Hy). by apply Hids.
Qed.

(** One entry, created or edited. *)
Lemma progress_create l0 done_ rule opt w w1 :
  progress l0 done_ (items w) -> rule_key kd rule ∉ rule_key kd <$> done_ -> resolved rule = inr opt ->
  mapped l0 !! rule_key kd rule = None -> run h (create_record kd rule opt) w = (None, w1) ->
  progress l0 (done_ ++ [rule]) (items w1).
Proof using srv.
  intros HP Hn Hres Hl0 Hr. pose proof (kv_create _ _ _ srv rule opt w Hres) as Hc. rewrite Hr in Hc.
  destruct (Hc eq_refl) as (new & Hi & Hk & Hq). cbn [snd] in Hi.
  pose proof (kv_ids _ _ _ srv w1) as Hnd. rewrite Hi, fmap_app, NoDup_app in Hnd. destruct Hnd as (_ & Hfresh & _).
  eapply (progress_step l0 done_ (items w) _ rule new opt); try done.
  - rewrite Hi. unfold live_by_key. by rewrite map_by_snoc, Hk.
  - rewrite Hl0. intros Hx. apply list_elem_of_fmap in Hx as (y & He & Hy). apply (pg_ids _ _ _ HP) in Hy.
    rewrite <- He in Hy. apply (Hfresh _ Hy). set_solver.
  - intros x. rewrite Hi, elem_of_app. set_solver.
  - intros x Hx _. rewrite Hi. set_solver.
  - intros x Hx. rewrite Hi, fmap_app, elem_of_app. left. by apply list_elem_of_fmap_2.
Qed.

Lemma progress_edit l0 done_ rule opt y w w1 :
  progress l0 done_ (items w) -> rule_key kd rule ∉ rule_key kd <$> done_ -> resolved rule = inr opt ->
  mapped l0 !! rule_key kd rule = Some y -> run h (edit_record kd rule y opt) w = (None, w1) ->
  progress l0 (done_ ++ [rule]) (items w1).
Proof using srv.
  intros HP Hn Hres Hl0 Hr. pose proof (kv_edit _ _ _ srv rule y opt w Hres) as He. rewrite Hr in He.
  specialize (He eq_refl). cbn [snd] in He.
  assert (mapped (items w) !! rule_key kd rule = Some y) as Hl by (by rewrite (pg_other _ _ _ HP)).
  pose proof (map_by_lookup_Some _ _ _ _ Hl) as [Hin Hky].
  assert (forall x, x ∈ items w -> live_id kd x = live_id kd y -> x = y) as Huniq.
  { intros x Hx Hxy. eapply (NoDup_fmap_eq (live_id kd)); [apply (kv_ids _ _ _ srv w)|done..]. }
  eapply (progress_step l0 done_ (items w) _ rule (set_record rule opt y) opt); try done.
  - rewrite He. unfold live_by_key. rewrite map_by_edit with (k := rule_key kd rule); [done|apply (kv_ids _ _ _ srv)|done|].
    apply (kv_set_key _ _ _ srv).
  - by apply (kv_set_good _ _ _ srv).
  - apply (kv_set_key _ _ _ srv).
  - rewrite Hl0. apply (kv_set_id _ _ _ srv).
  - intros x. rewrite He, list_elem_of_In, List.in_map_iff. intros (z & <- & Hz). apply list_elem_of_In in Hz.
    destruct (Z.eqb_spec (live_id kd z) (live_id kd y)) as [E|]; [|by left]. right. by rewrite (Huniq z).
  - intros x Hx Hne. rewrite He. apply list_elem_of_In, List.in_map_iff. exists x. split; [|by apply list_elem_of_In].
    destruct (Z.eqb_spec (live_id kd x) (live_id kd y)) as [E|]; [|done]. by rewrite (Huniq x Hx E) in Hne.
  - intros x Hx. rewrite He. apply list_elem_of_fmap.
    exists (if live_id kd x =? live_id kd y then set_record rule opt x else x). split.
    + case_match; [by rewrite (kv_set_id _ _ _ srv)|done].
    + apply list_elem_of_In, List.in_map_iff. exists x. split; [done|]. by apply list_elem_of_In.
Qed.

(** The numbers of the records that the entries match. *)
Definition matched_ids (l0 : list Live) (rules : list Rule) (matched : gset Z) : Prop :=
  forall i, i ∈ matched <-> exists rule y, rule ∈ rules /\ mapped l0 !! rule_key kd rule = Some y /\ live_id kd y = i.

Lemma applyRecords_run fail l0 rules done_ matched next w res w' :
  (forall a e, (fail a e).2 <> None) ->
  NoDup (rule_key kd <$> (done_ ++ rules)) -> Forall (fun rule => exists opt, resolved rule = inr opt) rules ->
  progress l0 done_ (items w) -> matched_ids l0 done_ matched ->
  run h (applyRecords kd fail (mapped l0) rules matched next) w = ((res, None), w') ->
  exists w1 matched1, run h (next matched1) w1 = ((res, None), w') /\
    progress l0 (done_ ++ rules) (items w1) /\ matched_ids l0 (done_ ++ rules) matched1.
Proof using srv.
  intros Hfail. revert done_ matched w. induction rules as [|rule rules IH]; intros done_ matched w Hnd Hok HP Hm Hr;
    cbn [applyRecords] in Hr.
  { exists w, matched. by rewrite app_nil_r. }
  rewrite Forall_cons in Hok. destruct Hok as [[opt Hopt] Hok].
  assert (rule_key kd rule ∉ rule_key kd <$> done_) as Hn.
  { rewrite fmap_app, NoDup_app in Hnd. destruct Hnd as (_ & Hnd & _). intros Hx. apply (Hnd _ Hx). set_solver. }
  replace (done_ ++ rule :: rules) with ((done_ ++ [rule]) ++ rules) in Hnd |- * by (by rewrite <- app_assoc).
  rewrite run_bind, (kv_reresolve _ _ _ srv rule opt) in Hr by done.
  destruct (mapped l0 !! rule_key kd rule) as [y|] eqn:El; rewrite run_bind in Hr.
  - destruct (run h (edit_record kd rule y opt) w) as [[e|] w1] eqn:Ee.
    { rewrite run_ret in Hr. injection Hr as Hr _. by destruct (Hfail _ _ (f_equal snd Hr)). }
    eapply IH; [done..|by eapply progress_edit| |exact Hr].
    intros i. rewrite elem_of_union, elem_of_singleton, (Hm i). split.
    + intros [->|(r & z & ? & ? & ?)]; [exists rule, y|exists r, z]; set_solver.
    + intros (r & z & [Hr'|Hr']%elem_of_app & Hz & <-); [right; eauto|left].
      apply list_elem_of_singleton in Hr' as ->. congruence.
  - destruct (run h (create_record kd rule opt) w) as [[e|] w1] eqn:Ee.
    { rewrite run_ret in Hr. injection Hr as Hr _. by destruct (Hfail _ _ (f_equal snd Hr)). }
    eapply IH; [done..|by eapply progress_create| |exact Hr].
    intros i. rewrite (Hm i). split.
    + intros (r & z & ? & ? & ?). exists r, z. set_solver.
    + intros (r & z & [Hr'|Hr']%elem_of_app & Hz & <-); [eauto|].
      apply list_elem_of_singleton in Hr' as ->. congruence.
Qed.

Definition pruned (matched : gset Z) (live : list Live) (x : Live) : bool :=
  existsb (fun l => stray kd matched l && (live_id kd x =? live_id kd l)) live.

Lemma pruneRecords_run fail matched live next w res w' :
  (forall a e, (fail a e).2 <> None) ->
  run h (pruneRecords kd fail matched live next) w = ((res, None), w') ->
  exists w1, run h next w1 = ((res, None), w') /\
    items w1 = List.filter (fun x => negb (pruned matched live x)) (items w).
Proof using srv.
  intros Hfail. revert w. induction live as [|l live IH]; intros w Hr; cbn [pruneRecords] in Hr.
  { exists w. split; [done|]. by rewrite List_filter_true. }
  unfold pruned. cbn [existsb]. destruct (stray kd matched l).
  - rewrite run_bind in Hr. pose proof (kv_delete _ _ _ srv l w) as Hd.
    destruct (run h (delete_record kd l) w) as [[e|] w1].
    { rewrite run_ret in Hr. injection Hr as Hr _. by destruct (Hfail _ _ (f_equal snd Hr)). }
    destruct (IH _ Hr) as (w2 & Hn & Hi). exists w2. split; [done|]. cbn [fst snd] in Hd.
    rewrite Hi, Hd, List_filter_filter by done. apply List_filter_ext. intros x _. simpl. by rewrite negb_orb.
  - destruct (IH _ Hr) as (w2 & Hn & Hi). exists w2. split; [done|]. rewrite Hi. by apply List_filter_ext.
Qed.

(** What the policy asks of the records of a project. *)
Definition records_met (prune : bool) (rules : list Rule) (l : list Live) : Prop :=
  Forall (record_met l) rules /\
  (prune = true -> forall x, x ∈ l -> prunable kd x = true -> exists rule y, rule ∈ rules /\
     mapped l !! rule_key kd rule = Some y /\ live_id kd y = live_id kd x).

(** When an enforcement reports no error the policy is met; every record it
    leaves was there or is named by the policy; and a record that the policy
    does not name is left alone unless pruning may delete it. *)
Lemma applyKeyed_run fail prune live rules next w res w' :
  (forall a e, (fail a e).2 <> None) -> omap id live = items w ->
  NoDup (rule_key kd <$> rules) -> Forall (fun rule => exists opt, resolved rule = inr opt) rules ->
  run h (applyKeyed kd fail prune live rules next) w = ((res, None), w') ->
  exists w1, run h next w1 = ((res, None), w') /\ records_met prune rules (items w1) /\
    (forall x, x ∈ items w1 -> x ∈ items w \/ live_key kd x ∈ rule_key kd <$> rules) /\
    (forall x, x ∈ items w -> live_key kd x ∉ rule_key kd <$> rules -> prune && prunable kd x = false ->
       x ∈ items w1).
Proof using srv.
  intros Hfail Hlive Hnd Hok Hr. unfold applyKeyed in Hr. rewrite Hlive in Hr.
  eapply (applyRecords_run fail (items w) rules []) in Hr as (w1 & matched & Hr1 & HP & Hm);
    [|done..|apply progress_start|].
  2: { intros i. split; [set_solver|]. intros (r & y & Hr' & _). set_solver. }
  cbn [app] in HP, Hm. destruct prune; cbn [andb].
  2: { exists w1. split_and!; [done|split; [apply (pg_met _ _ _ HP)|done]| |].
       - intros x Hx. destruct (pg_from _ _ _ HP x Hx) as [|[]]; auto.
       - intros x Hx Hn _. by apply (pg_keep _ _ _ HP). }
  destruct (pruneRecords_run fail matched (items w) next w1 res w' Hfail Hr1) as (w2 & Hr2 & Hi2).
  pose proof (kv_ids _ _ _ srv w) as Hnd0. pose proof (kv_ids _ _ _ srv w1) as Hnd1.
  (* what an entry matched, or made, is not pruned *)
  assert (forall rule lv, rule ∈ rules -> mapped (items w1) !! rule_key kd rule = Some lv ->
    pruned matched (items w) lv = false) as Hstay.
  { intros rule lv Hrule Hlv. apply not_true_is_false. intros Hp. apply existsb_exists in Hp as (l & Hl & Hp). b2p.
    apply list_elem_of_In in Hl. unfold stray in *. b2p. assert (live_id kd lv = live_id kd l) as He by done.
    pose proof (pg_number _ _ _ HP _ lv (list_elem_of_fmap_2 _ _ _ Hrule) Hlv) as Hnum.
    destruct (mapped (items w) !! rule_key kd rule) as [y|] eqn:Ey.
    - assert (live_id kd l ∈ matched) by (apply Hm; exists rule, y; split_and!; [done..|congruence]). done.
    - apply Hnum. rewrite He. by apply list_elem_of_fmap_2. }
  exists w2. split_and!; [done|split|..].
  - pose proof (pg_met _ _ _ HP) as Hmet. rewrite Forall_forall in Hmet |- *. intros rule Hrule.
    destruct (Hmet rule Hrule) as (opt & lv & Ho & Hl & Hq). exists opt, lv. split_and!; [done| |done].
    rewrite Hi2. apply map_by_filter_keep; [done|]. by rewrite (Hstay rule).
  - intros _ x Hx Hpr. rewrite Hi2 in Hx. apply elem_of_List_filter in Hx as [Hnp Hx]. apply negb_true_iff in Hnp.
    assert (exists rule lv, rule ∈ rules /\ mapped (items w1) !! rule_key kd rule = Some lv /\ live_id kd lv = live_id kd x)
      as (rule & lv & Hrule & Hl & He).
    { destruct (pg_from _ _ _ HP x Hx) as [Hx0|[Hd Hl]].
      - destruct (decide (live_id kd x ∈ matched)) as [Hin|Hnin].
        + apply Hm in Hin as (rule & y & Hrule & Hy & He). pose proof (pg_met _ _ _ HP) as Hmet.
          rewrite Forall_forall in Hmet. destruct (Hmet rule Hrule) as (opt & lv & _ & Hl & _).
          exists rule, lv. split_and!; [done..|]. pose proof (pg_number _ _ _ HP _ lv (list_elem_of_fmap_2 _ _ _ Hrule) Hl) as Hnum.
          rewrite Hy in Hnum. congruence.
        + exfalso. assert (pruned matched (items w) x = true) as Hp; [|congruence].
          apply existsb_exists. exists x. split; [by apply list_elem_of_In|]. unfold stray.
          by rewrite bool_decide_eq_false_2, Hpr, Z.eqb_refl.
      - apply list_elem_of_fmap in Hd as (rule & Hk & Hrule). rewrite Hk in Hl. by exists rule, x. }
    exists rule, lv. split_and!; [done| |done]. rewrite Hi2. apply map_by_filter_keep; [done|]. by rewrite (Hstay rule).
  - intros x. rewrite Hi2, elem_of_List_filter. intros [_ Hx]. destruct (pg_from _ _ _ HP x Hx) as [|[]]; auto.
  - intros x Hx Hn Hpr. rewrite Hi2. apply elem_of_List_filter. split; [|by apply (pg_keep _ _ _ HP)].
    apply negb_true_iff, not_true_is_false. intros Hp. apply existsb_exists in Hp as (l & Hl & Hp). b2p.
    apply list_elem_of_In in Hl. assert (x = l) as <- by by apply (NoDup_fmap_eq (live_id kd) (items w)). unfold stray in *. b2p. congruence.
Qed.

(** ** Planning *)

Lemma planRecord_spec l acc rule opt :
  resolved rule = inr opt ->
  ((planRecord kd (mapped l) acc rule opt).1 = [] <-> acc.1 = [] /\ record_met l rule) /\
  (forall i, i ∈ (planRecord kd (mapped l) acc rule opt).2 <->
     i ∈ acc.2 \/ exists y, mapped l !! rule_key kd rule = Some y /\ live_id kd y = i).
Proof.
  clear srv set_record items h W. intros Hres. unfold planRecord, record_met. destruct (mapped l !! _) as [y|].
  - cbn [fst snd]. split; [|set_solver]. destruct (Diff_HasChanges _) eqn:E; rewrite ?app_nil; naive_solver congruence.
  - cbn [fst snd]. rewrite app_nil. split; [naive_solver|set_solver].
Qed.

Lemma planRecords_run l rules acc w :
  match run h (planRecords kd (mapped l) rules acc) w with
  | (inr acc', w') => w' = w /\ (acc'.1 = [] <-> acc.1 = [] /\ Forall (record_met l) rules) /\
      (forall i, i ∈ acc'.2 <-> i ∈ acc.2 \/ exists rule y, rule ∈ rules /\
         mapped l !! rule_key kd rule = Some y /\ live_id kd y = i) /\
      Forall (fun rule => exists opt, resolved rule = inr opt) rules
  | (inl e, w') => w' = w /\ exists rule, rule ∈ rules /\ resolved rule = inl e
  end.
Proof using srv.
  revert acc. induction rules as [|rule rules IH]; intros acc; cbn [planRecords].
  { rewrite run_ret. split_and!; [done| |set_solver|constructor]. split; [intros; by split|by intros []]. }
  rewrite run_bind, (kv_resolve _ _ _ srv). destruct (resolved rule) as [e|opt] eqn:Er.
  { rewrite run_ret. split; [done|]. exists rule. split; [by left|done]. }
  destruct (planRecord_spec l acc rule opt Er) as [Hd Hm].
  specialize (IH (planRecord kd (mapped l) acc rule opt)). destruct (run h _ w) as [[e|acc'] w']; destruct IH as [-> IH].
  - split; [done|]. destruct IH as (r & ? & ?). exists r. split; [by right|done].
  - destruct IH as (IHd & IHm & IHr). split_and!; [done|rewrite IHd, Hd, Forall_cons; tauto| |].
    + intros i. rewrite (IHm i), (Hm i). clear. set_solver.
    + constructor; [by exists opt|done].
Qed.

Lemma planKeyed_run prune live rules diffs w :
  match run h (planKeyed kd prune live rules diffs) w with
  | (inr ds, w') => w' = w /\ (ds = [] <-> diffs = [] /\ records_met prune rules (omap id live)) /\
      Forall (fun rule => exists opt, resolved rule = inr opt) rules
  | (inl e, w') => w' = w /\ exists rule, rule ∈ rules /\ resolved rule = inl e
  end.
Proof using srv.
  unfold planKeyed, records_met. rewrite run_bind. pose proof (planRecords_run (omap id live) rules (diffs, ∅) w) as H.
  destruct (run h _ w) as [[e|[ds matched]] w']; rewrite run_ret; [done|]. cbn [fst snd] in H.
  destruct H as (-> & Hd & Hm & Hok). split_and!; [done| |done]. destruct prune; [|naive_solver].
  rewrite app_nil, Hd. rewrite fmap_nil_iff, List_filter_nil. unfold stray. split.
  - intros [[-> Hmet] Hs]. split_and!; [done..|]. intros _ x Hx Hp. specialize (Hs x Hx).
    rewrite Hp, andb_true_r, negb_false_iff, bool_decide_eq_true, (Hm (live_id kd x)) in Hs. set_solver.
  - intros (-> & Hmet & Hs). split; [done|]. intros x Hx. specialize (Hs eq_refl x Hx).
    destruct (prunable kd x); [|by rewrite andb_false_r]. rewrite andb_true_r, negb_false_iff, bool_decide_eq_true, (Hm (live_id kd x)).
    right. by apply Hs.
Qed.

End Server.

(** ** Numbered stores, for the witnesses *)

(** A number that a list does not have. *)
Definition next_id (l : list Z) : Z := 1 + foldr Z.max 0 l.

Lemma next_id_fresh l : next_id l ∉ l.
Proof.
  assert (forall i, i ∈ l -> i <= foldr Z.max 0 l) as Hmax.
  { induction l as [|j l IH]; [set_solver|]. intros i. rewrite elem_of_cons. simpl. intros [->|Hi]; [lia|].
    specialize (IH i Hi). lia. }
  unfold next_id. intros Hi. specialize (Hmax _ Hi). lia.
Qed.

(** A store is a list whose numbers are told apart; any other list is read as
    the empty store. *)
Definition distinct_by {A} (num : A -> Z) (l : list A) : list A := if decide (NoDup (num <$> l)) then l else [].

Lemma distinct_by_NoDup {A} (num : A -> Z) l : NoDup (num <$> distinct_by num l).
Proof. unfold distinct_by. case_decide; [done|constructor]. Qed.

Lemma distinct_by_id {A} (num : A -> Z) l : NoDup (num <$> l) -> distinct_by num l = l.
Proof. intros H. unfold distinct_by. by rewrite decide_True. Qed.

Lemma distinct_by_snoc {A} (num : A -> Z) l a :
  num a = next_id (num <$> distinct_by num l) -> distinct_by num (distinct_by num l ++ [a]) = distinct_by num l ++ [a].
Proof.
  intros Ha. apply distinct_by_id. rewrite fmap_app, NoDup_app. split_and!; [apply distinct_by_NoDup| |apply NoDup_singleton].
  intros i Hi. simpl. rewrite list_elem_of_singleton, Ha. intros ->. by eapply next_id_fresh.
Qed.

Lemma distinct_by_edit {A} (num : A -> Z) (f : A -> A) i l : (forall a, num (f a) = num a) ->
  distinct_by num (map (fun a => if num a =? i then f a else a) (distinct_by num l)) =
  map (fun a => if num a =? i then f a else a) (distinct_by num l).
Proof. intros Hf. apply distinct_by_id. rewrite fmap_edit by done. apply distinct_by_NoDup. Qed.

Lemma distinct_by_filter {A} (num : A -> Z) (p : A -> bool) l :
  distinct_by num (List.filter p (distinct_by num l)) = List.filter p (distinct_by num l).
Proof. apply distinct_by_id, NoDup_fmap_List_filter, distinct_by_NoDup. Qed.
