(* ===== verification/ApprovalRules.v ===== *)
(** * Merge request approvals: internal/governance/approvalrules.go

    The project's approval settings and its named approval rules.  The rules
    are matched and enforced by the loops of [Keyed]; the users and groups of a
    rule are resolved by the resolvers of [Resolver].  The live rules are what
    one unpaginated call lists: [approval_server] promises all of them only up
    to GitLab's default page. *)

From S2P Require Import Prelude GoLib Config GitLabAPI Server Resolver Governance Keyed.
Local Open Scope string_scope.
Local Open Scope list_scope.
Local Open Scope Z_scope.

Definition ApprovalRules_Name : string := "approval_rules".
Definition ApprovalRules_Order : Z := 30.

(** ** Settings *)

Definition zero_ProjectApprovals : ProjectApprovals := Build_ProjectApprovals 0 false false false false false false.

Definition effectiveApprovalSettings (c : ApprovalRulesConfig) : option ApprovalSettingsConfig :=
  if negb (is_some (ars_Settings c)) && negb (is_some (ars_ApprovalsBeforeMerge c))
     && negb (is_some (ars_ResetApprovalsOnPush c)) then None
  else
    let res := match ars_Settings c with
               | Some s => s
               | None => Build_ApprovalSettingsConfig None None None None None None None None
               end in
    Some {|
      aps_ApprovalsBeforeMerge := or_else (ars_ApprovalsBeforeMerge c) (aps_ApprovalsBeforeMerge res);
      aps_ResetApprovalsOnPush := or_else (ars_ResetApprovalsOnPush c) (aps_ResetApprovalsOnPush res);
      aps_AllowAuthorApproval := aps_AllowAuthorApproval res;
      aps_AllowCommitterApproval := aps_AllowCommitterApproval res;
      aps_AllowOverridesToApproverListPerMergeRequest := aps_AllowOverridesToApproverListPerMergeRequest res;
      aps_RetainApprovalsOnPush := aps_RetainApprovalsOnPush res;
      aps_SelectiveCodeOwnerRemovals := aps_SelectiveCodeOwnerRemovals res;
      aps_RequirePasswordToApprove := aps_RequirePasswordToApprove res
    |}.

Definition diffApprovalSettings (desired : ApprovalSettingsConfig) (live : ProjectApprovals) : Diff :=
  let b := NewDiffBuilder in
  let b := Add b (CompareIntPtr "approvals_before_merge" (ap_ApprovalsBeforeMerge live) (aps_ApprovalsBeforeMerge desired)) in
  let b := Add b (CompareBoolPtr "reset_approvals_on_push" (ap_ResetApprovalsOnPush live) (aps_ResetApprovalsOnPush desired)) in
  let b := Add b (CompareBoolPtr "allow_author_approval" (ap_MergeRequestsAuthorApproval live)
                    (aps_AllowAuthorApproval desired)) in
  let b := Add b (CompareBoolPtr "allow_committer_approval" (negb (ap_MergeRequestsDisableCommittersApproval live))
                    (aps_AllowCommitterApproval desired)) in
  let b := Add b (CompareBoolPtr "allow_overrides_to_approver_list_per_merge_request"
                    (negb (ap_DisableOverridingApproversPerMergeRequest live))
                    (aps_AllowOverridesToApproverListPerMergeRequest desired)) in
  let b := Add b (CompareBoolPtr "retain_approvals_on_push" (negb (ap_ResetApprovalsOnPush live))
                    (aps_RetainApprovalsOnPush desired)) in
  let b := Add b (CompareBoolPtr "selective_code_owner_removals" (ap_SelectiveCodeOwnerRemovals live)
                    (aps_SelectiveCodeOwnerRemovals desired)) in
  let b := Add b (CompareBoolPtr "require_password_to_approve" (ap_RequirePasswordToApprove live)
                    (aps_RequirePasswordToApprove desired)) in
  Build b "project_approval_settings" ActionUpdate.

(** The options of the change; the last assignment to a field stands. *)
Definition toChangeOptions (s : ApprovalSettingsConfig) : ChangeApprovalConfigurationOptions := {|
  ac_ApprovalsBeforeMerge := aps_ApprovalsBeforeMerge s;
  ac_ResetApprovalsOnPush := or_else (negb <$> aps_RetainApprovalsOnPush s) (aps_ResetApprovalsOnPush s);
  ac_MergeRequestsAuthorApproval := aps_AllowAuthorApproval s;
  ac_MergeRequestsDisableCommittersApproval := negb <$> aps_AllowCommitterApproval s;
  ac_DisableOverridingApproversPerMergeRequest := negb <$> aps_AllowOverridesToApproverListPerMergeRequest s;
  ac_SelectiveCodeOwnerRemovals := aps_SelectiveCodeOwnerRemovals s;
  ac_RequirePasswordToApprove := aps_RequirePasswordToApprove s
|}.

(** [hasSettingChange]. *)
Definition any_setting (s : ApprovalSettingsConfig) : bool :=
  is_some (aps_ApprovalsBeforeMerge s) || is_some (aps_ResetApprovalsOnPush s) || is_some (aps_AllowAuthorApproval s)
  || is_some (aps_AllowCommitterApproval s) || is_some (aps_AllowOverridesToApproverListPerMergeRequest s)
  || is_some (aps_RetainApprovalsOnPush s) || is_some (aps_SelectiveCodeOwnerRemovals s)
  || is_some (aps_RequirePasswordToApprove s).

(** ** Rules *)

(** [sort.Ints]. *)
Definition sort_Ints (l : list Z) : list Z := merge_sort Z.le l.

Definition given_ids (ids : list Z) : gset Z := list_to_set (List.filter (fun i => 0 <? i) ids).
Definition given_names (names : list string) : list string := List.filter (fun n => negb (n =? "")%string) names.

Definition sorted_ids (ids : list Z) (resolved : list Z) : list Z :=
  sort_Ints (elements (given_ids ids ∪ list_to_set resolved)).

Definition resolveUserIDs (rule : ApprovalRuleConfig) : GP (error + list Z) :=
  r ← try_map (fun u => call (Resolver_ (ResolveUsername ApprovalRules_Name u))) (given_names (ar_UserUsernames rule));
  mret match r with inl e => inl e | inr ids => inr (sorted_ids (ar_UserIDs rule) ids) end.

Definition resolveGroupIDs (rule : ApprovalRuleConfig) : GP (error + list Z) :=
  r ← try_map (fun g => call (Resolver_ (ResolveGroupPath ApprovalRules_Name g))) (given_names (ar_GroupPaths rule));
  mret match r with inl e => inl e | inr ids => inr (sorted_ids (ar_GroupIDs rule) ids) end.

Definition approval_key (name : string) : string := ToLower (TrimSpace name).

Definition approval_resource (name : string) : string := "approval_rule:" +:+ name.

(** The users and groups of a rule, for the plan. *)
Definition planApprovers (rule : ApprovalRuleConfig) : GP (error + (list Z * list Z)) :=
  us ← resolveUserIDs rule;
  match us with
  | inl e => mret (inl (ErrWrap ("rule '" +:+ ar_Name rule +:+ "' user resolution failed: ") e))
  | inr us =>
      gs ← resolveGroupIDs rule;
      mret match gs with
           | inl e => inl (ErrWrap ("rule '" +:+ ar_Name rule +:+ "' group resolution failed: ") e)
           | inr gs => inr (us, gs)
           end
  end.

(** [userIDs, _ := ...]: an error leaves the list empty. *)
Definition ids_or_none (r : error + list Z) : list Z := match r with inl _ => [] | inr l => l end.

Definition applyApprovers (rule : ApprovalRuleConfig) : GP (list Z * list Z) :=
  us ← resolveUserIDs rule;
  gs ← resolveGroupIDs rule;
  mret (ids_or_none us, ids_or_none gs).

Definition createRuleDiff (rule : ApprovalRuleConfig) (approvers : list Z * list Z) : Diff :=
  let b := AddField NewDiffBuilder "name" VNil (VStr (ar_Name rule)) ActionCreate in
  let b := AddField b "approvals_required" VNil (VInt (ar_ApprovalsRequired rule)) ActionCreate in
  let b := AddFieldIf (0 <? length approvers.1)%nat b "user_ids" VNil (VInts approvers.1) ActionCreate in
  let b := AddFieldIf (0 <? length approvers.2)%nat b "group_ids" VNil (VInts approvers.2) ActionCreate in
  let b := SetDetails b ("Create approval rule '" +:+ ar_Name rule +:+ "' requiring "
                           +:+ Itoa (ar_ApprovalsRequired rule) +:+ " approvals") in
  Build b (approval_resource (ar_Name rule)) ActionCreate.

Definition diffSingleRule (desired : ApprovalRuleConfig) (live : ProjectApprovalRule) (approvers : list Z * list Z) : Diff :=
  let liveUserIDs := sort_Ints (omap id (ru_Users live)) in
  let liveGroupIDs := sort_Ints (omap id (ru_Groups live)) in
  let b := AddFieldIf (negb (ru_ApprovalsRequired live =? ar_ApprovalsRequired desired)) NewDiffBuilder
             "approvals_required" (VInt (ru_ApprovalsRequired live)) (VInt (ar_ApprovalsRequired desired)) ActionUpdate in
  let b := AddFieldIf (negb (bool_decide (liveUserIDs = approvers.1))) b "user_ids"
             (VInts liveUserIDs) (VInts approvers.1) ActionUpdate in
  let b := AddFieldIf (negb (bool_decide (liveGroupIDs = approvers.2))) b "group_ids"
             (VInts liveGroupIDs) (VInts approvers.2) ActionUpdate in
  Build b (approval_resource (ar_Name desired)) ActionUpdate.

Definition pruneRuleDiff (lr : ProjectApprovalRule) : Diff :=
  let b := AddField NewDiffBuilder "name" (VStr (ru_Name lr)) VNil ActionDelete in
  let b := AddField b "id" (VInt (ru_ID lr)) VNil ActionDelete in
  let b := SetDetails b ("Prune unmanaged approval rule '" +:+ ru_Name lr +:+ "' (ID: " +:+ Itoa (ru_ID lr) +:+ ")") in
  Build b (approval_resource (ru_Name lr)) ActionDelete.

Definition toRuleOptions (rule : ApprovalRuleConfig) (approvers : list Z * list Z) (ruleType : option string)
  : ApprovalRuleOptions := {|
  ro_Name := ar_Name rule;
  ro_ApprovalsRequired := ar_ApprovalsRequired rule;
  ro_UserIDs := approvers.1;
  ro_GroupIDs := approvers.2;
  ro_ProtectedBranchIDs := match ar_ProtectedBranchIDs rule with [] => None | ids => Some ids end;
  ro_RuleType := ruleType
|}.

Definition approval_rules (pid : Z) : keyed ApprovalRuleConfig ProjectApprovalRule (list Z * list Z) := {|
  rule_key := fun rule => approval_key (ar_Name rule);
  live_key := fun lr => approval_key (ru_Name lr);
  live_id := ru_ID;
  prunable := fun lr => (ru_RuleType lr =? "")%string || (ru_RuleType lr =? "regular")%string;
  plan_options := planApprovers;
  apply_options := applyApprovers;
  missing_diff := createRuleDiff;
  drift_diff := diffSingleRule;
  prune_diff := pruneRuleDiff;
  create_record := fun rule a =>
    r ← call (ApprovalRules_ (CreateProjectApprovalRule pid (toRuleOptions rule a (ptr_nonempty (ar_RuleType rule)))));
    mret (r_err r);
  edit_record := fun rule lr a =>
    r ← call (ApprovalRules_ (UpdateProjectApprovalRule pid (ru_ID lr) (toRuleOptions rule a None)));
    mret (r_err r);
  delete_record := fun lr => r ← call (ApprovalRules_ (DeleteProjectApprovalRule pid (ru_ID lr))); mret (r_err r);
  explain_create := fun rule => "failed to create approval rule '" +:+ ar_Name rule +:+ "': ";
  explain_edit := fun rule lr =>
    "failed to update approval rule '" +:+ ar_Name rule +:+ "' (ID " +:+ Itoa (ru_ID lr) +:+ "): ";
  explain_delete := fun lr =>
    "failed to delete unmanaged approval rule '" +:+ ru_Name lr +:+ "' (ID " +:+ Itoa (ru_ID lr) +:+ "): "
|}.

(** ** The methods *)

Definition approvals_policy (cfg : option PolicyConfig) : option ApprovalRulesConfig :=
  match cfg with Some c => pol_ApprovalRules (cfg_Policies c) | None => None end.

(** The first part of the plan: the diff of the settings, if it has changes. *)
Definition planSettings (pid : Z) (c : ApprovalRulesConfig) : GP (error + list Diff) :=
  match effectiveApprovalSettings c with
  | None => mret (inr [])
  | Some s =>
      r ← call (ApprovalRules_ (GetApprovalConfiguration pid));
      mret match r_err r with
           | Some e => inl (ErrWrap ("failed to get project approval configuration for project " +:+ Itoa pid +:+ ": ") e)
           | None =>
               let live := match r_val r with Some a => a | None => zero_ProjectApprovals end in
               let diff := diffApprovalSettings s live in
               inr (if Diff_HasChanges diff then [diff] else [])
           end
  end.

Definition ApprovalRules_Plan (cfg : option PolicyConfig) (project : Project) : GP PlanReturn :=
  let pid := p_ID project in
  let path := p_PathWithNamespace project in
  match approvals_policy cfg with
  | None => mret (noop_plan ApprovalRules_Name OnProject pid path)
  | Some c =>
      s ← planSettings pid c;
      match s with
      | inl e => mret (None, Some e)
      | inr settingsDiffs =>
          r ← call (ApprovalRules_ (GetProjectApprovalRules pid));
          match r_err r with
          | Some e =>
              mret (None, Some (ErrWrap ("failed to list project approval rules for project " +:+ Itoa pid +:+ ": ") e))
          | None =>
              ds ← planKeyed (approval_rules pid) (set_opt (ars_Prune c) false) (r_val r) (ars_Rules c) settingsDiffs;
              mret match ds with
                   | inl e => (None, Some e)
                   | inr allDiffs =>
                       if (length allDiffs =? 0)%nat then noop_plan ApprovalRules_Name OnProject pid path
                       else planned ApprovalRules_Name OnProject pid path ActionUpdate allDiffs
                   end
          end
      end
  end.

(** The settings are sent whole, whatever differs. *)
Definition applySettings (pid : Z) (c : ApprovalRulesConfig) : GP (option error) :=
  match effectiveApprovalSettings c with
  | None => mret None
  | Some s =>
      if any_setting s then
        r ← call (ApprovalRules_ (ChangeApprovalConfiguration pid (toChangeOptions s)));
        mret match r_err r with
             | Some e => Some (ErrWrap "failed to change approval configuration: " e)
             | None => None
             end
      else mret None
  end.

Definition ApprovalRules_Apply (cfg : option PolicyConfig) (project : Project) : GP ApplyReturn :=
  let pid := p_ID project in
  let path := p_PathWithNamespace project in
  match approvals_policy cfg with
  | None => mret (noop_apply ApprovalRules_Name OnProject pid path)
  | Some c =>
      planThenApply (ApprovalRules_Plan cfg project)
        (noop_apply ApprovalRules_Name OnProject pid path)
        (failed ApprovalRules_Name OnProject pid path ActionNoop [])
        (fun plan =>
           let fail action := failed ApprovalRules_Name OnProject pid path action (pl_Diffs plan) in
           s ← applySettings pid c;
           match s with
           | Some e => mret (fail ActionUpdate e)
           | None =>
               r ← call (ApprovalRules_ (GetProjectApprovalRules pid));
               match r_err r with
               | Some e => mret (fail ActionUpdate (ErrWrap "failed to list project approval rules: " e))
               | None =>
                   applyKeyed (approval_rules pid) fail (set_opt (ars_Prune c) false) (r_val r) (ars_Rules c)
                     (mret (succeeded ApprovalRules_Name OnProject pid path ActionUpdate (pl_Diffs plan)))
               end
           end)
  end.

Definition ApprovalRules_PlanGroup (cfg : option PolicyConfig) (group : Group) : GP PlanReturn :=
  mret (skipped_plan ApprovalRules_Name OnGroup (g_ID group) (g_FullPath group)
          "Approval rules are not applicable to groups").

Definition ApprovalRules_ApplyGroup (cfg : option PolicyConfig) (group : Group) : GP ApplyReturn :=
  mret (skipped_apply ApprovalRules_Name OnGroup (g_ID group) (g_FullPath group)
          "Approval rules are not applicable to groups").

Definition NewApprovalRulesReconciler : GovernanceOperation := {|
  op_Name := ApprovalRules_Name;
  op_Order := ApprovalRules_Order;
  op_Plan := ApprovalRules_Plan;
  op_Apply := ApprovalRules_Apply;
  op_PlanGroup := ApprovalRules_PlanGroup;
  op_ApplyGroup := ApprovalRules_ApplyGroup
|}.

(** ** Specification *)

(** The live settings are those the policy states. *)
Definition settings_as_stated (s : ApprovalSettingsConfig) (live : ProjectApprovals) : Prop :=
  (forall z, aps_ApprovalsBeforeMerge s = Some z -> ap_ApprovalsBeforeMerge live = z) /\
  (forall b, aps_ResetApprovalsOnPush s = Some b -> ap_ResetApprovalsOnPush live = b) /\
  (forall b, aps_AllowAuthorApproval s = Some b -> ap_MergeRequestsAuthorApproval live = b) /\
  (forall b, aps_AllowCommitterApproval s = Some b -> negb (ap_MergeRequestsDisableCommittersApproval live) = b) /\
  (forall b, aps_AllowOverridesToApproverListPerMergeRequest s = Some b ->
     negb (ap_DisableOverridingApproversPerMergeRequest live) = b) /\
  (forall b, aps_RetainApprovalsOnPush s = Some b -> negb (ap_ResetApprovalsOnPush live) = b) /\
  (forall b, aps_SelectiveCodeOwnerRemovals s = Some b -> ap_SelectiveCodeOwnerRemovals live = b) /\
  (forall b, aps_RequirePasswordToApprove s = Some b -> ap_RequirePasswordToApprove live = b).

(** The two settings about a push do not contradict each other. *)
Definition consistent_push (s : ApprovalSettingsConfig) : Prop :=
  forall a b, aps_ResetApprovalsOnPush s = Some a -> aps_RetainApprovalsOnPush s = Some b -> a = negb b.

(** A live rule asks for the approvals, users and groups of the policy's. *)
Definition approval_meets (rule : ApprovalRuleConfig) (approvers : list Z * list Z) (live : ProjectApprovalRule) : Prop :=
  ru_ApprovalsRequired live = ar_ApprovalsRequired rule /\
  sort_Ints (omap id (ru_Users live)) = approvers.1 /\ sort_Ints (omap id (ru_Groups live)) = approvers.2.

(** What GitLab makes of the options. *)
Definition change_settings (o : ChangeApprovalConfigurationOptions) (a : ProjectApprovals) : ProjectApprovals := {|
  ap_ApprovalsBeforeMerge := set_opt (ac_ApprovalsBeforeMerge o) (ap_ApprovalsBeforeMerge a);
  ap_ResetApprovalsOnPush := set_opt (ac_ResetApprovalsOnPush o) (ap_ResetApprovalsOnPush a);
  ap_MergeRequestsAuthorApproval := set_opt (ac_MergeRequestsAuthorApproval o) (ap_MergeRequestsAuthorApproval a);
  ap_MergeRequestsDisableCommittersApproval :=
    set_opt (ac_MergeRequestsDisableCommittersApproval o) (ap_MergeRequestsDisableCommittersApproval a);
  ap_DisableOverridingApproversPerMergeRequest :=
    set_opt (ac_DisableOverridingApproversPerMergeRequest o) (ap_DisableOverridingApproversPerMergeRequest a);
  ap_SelectiveCodeOwnerRemovals := set_opt (ac_SelectiveCodeOwnerRemovals o) (ap_SelectiveCodeOwnerRemovals a);
  ap_RequirePasswordToApprove := set_opt (ac_RequirePasswordToApprove o) (ap_RequirePasswordToApprove a)
|}.

Definition edit_rule (o : ApprovalRuleOptions) (r : ProjectApprovalRule) : ProjectApprovalRule := {|
  ru_ID := ru_ID r; ru_Name := ro_Name o; ru_RuleType := ru_RuleType r;
  ru_ApprovalsRequired := ro_ApprovalsRequired o; ru_Users := Some <$> ro_UserIDs o; ru_Groups := Some <$> ro_GroupIDs o
|}.

Definition new_rule (id : Z) (o : ApprovalRuleOptions) : ProjectApprovalRule := {|
  ru_ID := id; ru_Name := ro_Name o; ru_RuleType := set_opt (ro_RuleType o) "regular";
  ru_ApprovalsRequired := ro_ApprovalsRequired o; ru_Users := Some <$> ro_UserIDs o; ru_Groups := Some <$> ro_GroupIDs o
|}.

Definition is_settings_change {X} (e : GitLabE X) : bool :=
  match e with ApprovalRules_ (ChangeApprovalConfiguration _ _) => true | _ => false end.

(** GitLab's approvals API, for one project. *)
Record approval_server {W} (h : handler GitLabE W) (pid : Z) (settings : W -> ProjectApprovals)
    (rules : W -> list ProjectApprovalRule) : Prop := {
  as_settings : forall w, h _ (ApprovalRules_ (GetApprovalConfiguration pid)) w = (reply_ok (Some (settings w)), w);
  as_change : forall opt w, r_err (h _ (ApprovalRules_ (ChangeApprovalConfiguration pid opt)) w).1 = None ->
    settings (h _ (ApprovalRules_ (ChangeApprovalConfiguration pid opt)) w).2 = change_settings opt (settings w) /\
    rules (h _ (ApprovalRules_ (ChangeApprovalConfiguration pid opt)) w).2 = rules w;
  as_frame : forall X (e : GitLabE X) w, is_settings_change e = false -> settings (h _ e w).2 = settings w;
  as_list : forall w, (length (rules w) <= default_page)%nat ->
    h _ (ApprovalRules_ (GetProjectApprovalRules pid)) w = (reply_ok (Some <$> rules w), w);
  as_ids : forall w, NoDup (ru_ID <$> rules w);
  as_create : forall opt w, r_err (h _ (ApprovalRules_ (CreateProjectApprovalRule pid opt)) w).1 = None ->
    exists id, rules (h _ (ApprovalRules_ (CreateProjectApprovalRule pid opt)) w).2 = rules w ++ [new_rule id opt];
  as_update : forall i opt w, r_err (h _ (ApprovalRules_ (UpdateProjectApprovalRule pid i opt)) w).1 = None ->
    rules (h _ (ApprovalRules_ (UpdateProjectApprovalRule pid i opt)) w).2 =
      map (fun r => if ru_ID r =? i then edit_rule opt r else r) (rules w);
  as_delete : forall i w, r_err (h _ (ApprovalRules_ (DeleteProjectApprovalRule pid i)) w).1 = None ->
    rules (h _ (ApprovalRules_ (DeleteProjectApprovalRule pid i)) w).2 =
      List.filter (fun r => negb (ru_ID r =? i)) (rules w)
}.

(** ** Lemmas *)

Lemma diffApprovalSettings_quiet s live :
  Diff_HasChanges (diffApprovalSettings s live) = false <-> settings_as_stated s live.
Proof.
  unfold diffApprovalSettings, settings_as_stated.
  rewrite Build_HasChanges; [|by autorewrite with diff|done..].
  autorewrite with diff. rewrite !CompareBoolPtr_None, CompareIntPtr_None. simpl. tauto.
Qed.

(** The change asked for brings the settings to what is stated. *)
Lemma change_settings_as_stated s live :
  consistent_push s -> settings_as_stated s (change_settings (toChangeOptions s) live).
Proof.
  intros Hc. unfold settings_as_stated, change_settings, toChangeOptions, consistent_push in *.
  cbn [ap_ApprovalsBeforeMerge ap_ResetApprovalsOnPush ap_MergeRequestsAuthorApproval
    ap_MergeRequestsDisableCommittersApproval ap_DisableOverridingApproversPerMergeRequest
    ap_SelectiveCodeOwnerRemovals ap_RequirePasswordToApprove ac_ApprovalsBeforeMerge ac_ResetApprovalsOnPush
    ac_MergeRequestsAuthorApproval ac_MergeRequestsDisableCommittersApproval
    ac_DisableOverridingApproversPerMergeRequest ac_SelectiveCodeOwnerRemovals ac_RequirePasswordToApprove].
  split_and!; intros x Hx; rewrite ?Hx; simpl; rewrite ?negb_involutive; try done.
  destruct (aps_RetainApprovalsOnPush s) as [y|]; simpl; [|done]. symmetry. by apply Hc.
Qed.

Lemma diffSingleRule_quiet rule live a :
  Diff_HasChanges (diffSingleRule rule live a) = false <-> approval_meets rule a live.
Proof.
  unfold diffSingleRule, approval_meets. rewrite Build_HasChanges; [|by autorewrite with diff|done..].
  autorewrite with diff. rewrite !negb_false_iff, !bool_decide_eq_true, Z.eqb_eq. simpl. tauto.
Qed.

Lemma sort_Ints_idem l : sort_Ints (sort_Ints l) = sort_Ints l.
Proof. apply (merge_sort_unique Z.le), merge_sort_Permutation. Qed.

Lemma resolveUserIDs_reads rule : reads (resolveUserIDs rule).
Proof. apply reads_bind; [|done]. apply try_map_only. intros u. by apply reads_call. Qed.

Lemma resolveGroupIDs_reads rule : reads (resolveGroupIDs rule).
Proof. apply reads_bind; [|done]. apply try_map_only. intros u. by apply reads_call. Qed.

Lemma planApprovers_reads rule : reads (planApprovers rule).
Proof.
  apply reads_bind; [apply resolveUserIDs_reads|]. intros [e|us]; [done|].
  apply reads_bind; [apply resolveGroupIDs_reads|done].
Qed.

Lemma applyApprovers_reads rule : reads (applyApprovers rule).
Proof.
  apply reads_bind; [apply resolveUserIDs_reads|]. intros us. apply reads_bind; [apply resolveGroupIDs_reads|done].
Qed.

Lemma ApprovalRules_Plan_reads cfg p : reads (ApprovalRules_Plan cfg p).
Proof.
  unfold ApprovalRules_Plan. destruct (approvals_policy cfg) as [c|]; [|done]. apply reads_bind.
  { unfold planSettings. reads. }
  intros [e|ds]; [done|]. apply reads_bind; [by apply reads_call|]. intros r. destruct (r_err r); [done|].
  apply reads_bind; [apply planKeyed_reads, planApprovers_reads|done].
Qed.

#[export] Instance ApprovalRules_DryRun : DryRun NewApprovalRulesReconciler.
Proof. split; intros; [apply ApprovalRules_Plan_reads|done]. Qed.

#[export] Instance ApprovalRules_NoopQuiet : NoopQuiet NewApprovalRulesReconciler.
Proof.
  split; intros; simpl; [unfold ApprovalRules_Plan; always|done| |by intros W h w r _ _ _; constructor].
  unfold ApprovalRules_Apply. destruct (approvals_policy cfg) as [c|] eqn:E.
  - apply planThenApply_quiet, ApprovalRules_Plan_reads.
  - intros W h w r _ _ _. constructor.
Qed.

Section Server.
Context {W : Type} (h : handler GitLabE W) `{!Answers h} (pid : Z) (settings : W -> ProjectApprovals)
  (rules : W -> list ProjectApprovalRule) (srv : approval_server h pid settings rules).

(** Who approves, as the resolvers answer. *)
Definition resolved_users (rule : ApprovalRuleConfig) : error + list Z :=
  match try_map_pure (fun u => answer _ (ResolveUsername ApprovalRules_Name u)) (given_names (ar_UserUsernames rule)) with
  | inl e => inl e | inr ids => inr (sorted_ids (ar_UserIDs rule) ids) end.

Definition resolved_groups (rule : ApprovalRuleConfig) : error + list Z :=
  match try_map_pure (fun g => answer _ (ResolveGroupPath ApprovalRules_Name g)) (given_names (ar_GroupPaths rule)) with
  | inl e => inl e | inr ids => inr (sorted_ids (ar_GroupIDs rule) ids) end.

Definition resolved_approvers (rule : ApprovalRuleConfig) : error + (list Z * list Z) :=
  match resolved_users rule with
  | inl e => inl (ErrWrap ("rule '" +:+ ar_Name rule +:+ "' user resolution failed: ") e)
  | inr us =>
      match resolved_groups rule with
      | inl e => inl (ErrWrap ("rule '" +:+ ar_Name rule +:+ "' group resolution failed: ") e)
      | inr gs => inr (us, gs)
      end
  end.

Lemma resolveUserIDs_run rule w : run h (resolveUserIDs rule) w = (resolved_users rule, w).
Proof.
  unfold resolveUserIDs, resolved_users.
  rewrite run_bind, (try_map_run h _ (fun u => answer _ (ResolveUsername ApprovalRules_Name u))); [done|].
  intros u w1. by rewrite run_call, answer_call.
Qed.

Lemma resolveGroupIDs_run rule w : run h (resolveGroupIDs rule) w = (resolved_groups rule, w).
Proof.
  unfold resolveGroupIDs, resolved_groups.
  rewrite run_bind, (try_map_run h _ (fun g => answer _ (ResolveGroupPath ApprovalRules_Name g))); [done|].
  intros u w1. by rewrite run_call, answer_call.
Qed.

(** The numbers are sorted, so a rule made of them compares equal. *)
Lemma resolved_approvers_sorted rule a :
  resolved_approvers rule = inr a -> sort_Ints a.1 = a.1 /\ sort_Ints a.2 = a.2.
Proof.
  unfold resolved_approvers, resolved_users, resolved_groups.
  destruct (try_map_pure _ _); [done|]. destruct (try_map_pure _ _); [done|]. intros [= <-].
  split; apply sort_Ints_idem.
Qed.

Definition set_approval (rule : ApprovalRuleConfig) (a : list Z * list Z) : ProjectApprovalRule -> ProjectApprovalRule :=
  edit_rule (toRuleOptions rule a None).

Lemma made_rule_meets rule a lr :
  resolved_approvers rule = inr a -> ru_ApprovalsRequired lr = ar_ApprovalsRequired rule ->
  ru_Users lr = Some <$> a.1 -> ru_Groups lr = Some <$> a.2 -> Diff_HasChanges (diffSingleRule rule lr a) = false.
Proof.
  intros Ha Hn Hu Hg. apply diffSingleRule_quiet. unfold approval_meets. rewrite Hu, Hg, !omap_id_Some.
  apply resolved_approvers_sorted in Ha. naive_solver.
Qed.

Lemma approval_keyed_server : keyed_server (approval_rules pid) h rules resolved_approvers set_approval.
Proof using srv.
  split; cbn [approval_rules rule_key live_key live_id plan_options apply_options create_record edit_record
    delete_record drift_diff].
  - apply (as_ids _ _ _ _ srv).
  - intros rule w. unfold planApprovers, resolved_approvers. rewrite run_bind, resolveUserIDs_run.
    destruct (resolved_users rule); [done|]. rewrite run_bind, resolveGroupIDs_run. by destruct (resolved_groups rule).
  - intros rule a w. unfold applyApprovers, resolved_approvers.
    rewrite run_bind, resolveUserIDs_run, run_bind, resolveGroupIDs_run.
    destruct (resolved_users rule); [done|]. destruct (resolved_groups rule); [done|]. by intros [= <-].
  - intros rule a w Ha. rewrite run_bind, run_call.
    pose proof (as_create _ _ _ _ srv (toRuleOptions rule a (ptr_nonempty (ar_RuleType rule))) w) as Hc.
    destruct (h _ _ w) as [r w1]. rewrite run_ret. intros He. destruct (Hc He) as [i Hi].
    eexists. split_and!; [exact Hi|done|]. by apply made_rule_meets.
  - intros rule lr a w Ha. rewrite run_bind, run_call.
    pose proof (as_update _ _ _ _ srv (ru_ID lr) (toRuleOptions rule a None) w) as Hu. by destruct (h _ _ w).
  - done.
  - done.
  - intros rule a l Ha. by apply made_rule_meets.
  - intros lr w. rewrite run_bind, run_call. pose proof (as_delete _ _ _ _ srv (ru_ID lr) w) as Hd. by destruct (h _ _ w).
Qed.

(** What the policy asks of the project. *)
Definition approvals_met (c : ApprovalRulesConfig) (w : W) : Prop :=
  (forall s, effectiveApprovalSettings c = Some s -> settings_as_stated s (settings w)) /\
  records_met (approval_rules pid) resolved_approvers (set_opt (ars_Prune c) false) (ars_Rules c) (rules w).

Lemma ApprovalRules_Plan_run cfg c project w :
  p_ID project = pid -> approvals_policy cfg = Some c -> (length (rules w) <= default_page)%nat ->
  (exists e rule, run h (ApprovalRules_Plan cfg project) w = ((None, Some e), w) /\
     rule ∈ ars_Rules c /\ resolved_approvers rule = inl e) \/
  exists ds, run h (ApprovalRules_Plan cfg project) w =
      (if (length ds =? 0)%nat then noop_plan ApprovalRules_Name OnProject pid (p_PathWithNamespace project)
       else planned ApprovalRules_Name OnProject pid (p_PathWithNamespace project) ActionUpdate ds, w) /\
    (ds = [] <-> approvals_met c w) /\ Forall (fun rule => exists a, resolved_approvers rule = inr a) (ars_Rules c).
Proof using srv.
  intros Hid Hc Hlen. unfold ApprovalRules_Plan. rewrite Hc, Hid, run_bind.
  assert (exists sd, run h (planSettings pid c) w = (inr sd, w) /\
    (sd = [] <-> forall s, effectiveApprovalSettings c = Some s -> settings_as_stated s (settings w))) as (sd & -> & Hsd).
  { unfold planSettings. destruct (effectiveApprovalSettings c) as [s|]; [|by exists []].
    rewrite run_bind, run_call, (as_settings _ _ _ _ srv). cbn [r_err r_val reply_ok]. eexists. split; [done|].
    pose proof (diffApprovalSettings_quiet s (settings w)) as Hq.
    destruct (Diff_HasChanges _); naive_solver. }
  rewrite run_bind, run_call, (as_list _ _ _ _ srv) by done. cbn [r_err r_val reply_ok]. rewrite run_bind.
  pose proof (planKeyed_run _ _ _ _ _ approval_keyed_server (set_opt (ars_Prune c) false) (Some <$> rules w)
    (ars_Rules c) sd w) as Hp. rewrite omap_id_Some in Hp.
  destruct (run h (planKeyed _ _ _ _ _) w) as [[e|ds] w']; destruct Hp as [-> Hp].
  - left. destruct Hp as (rule & ? & ?). by exists e, rule.
  - right. destruct Hp as [Hds Hres]. exists ds. rewrite run_ret.
    split_and!; [done| |done]. unfold approvals_met. rewrite Hds, Hsd. done.
Qed.

(** Nothing but the change of the settings touches them. *)
Lemma settings_frame {A} (p : GP A) w :
  only (fun X e => is_settings_change e = false) p -> settings (run h p w).2 = settings w.
Proof using srv.
  intros Hp. apply (run_only h (fun X e => is_settings_change e = false) (fun w' => settings w' = settings w)); [|done..].
  intros X e w1 He <-. by apply (as_frame _ _ _ _ srv).
Qed.

End Server.

(** The calls of the part of [Apply] that enforces the rules. *)
Lemma applyRules_settings pid fail prune live rules next :
  only (fun X e => is_settings_change e = false) next ->
  only (fun X e => is_settings_change e = false) (applyKeyed (approval_rules pid) fail prune live rules next).
Proof.
  intros Hn. assert (forall A (p : GP A), reads p -> only (fun X e => is_settings_change e = false) p) as Hreads.
  { intros A p. apply only_mono. intros X e. by destruct_call e. }
  apply applyKeyed_only; [|by intros; split|by intros; split|by intros; split|done].
  intros rule. apply Hreads, applyApprovers_reads.
Qed.

Section Apply.
Context {W : Type} (h : handler GitLabE W) `{!Answers h} (pid : Z) (settings : W -> ProjectApprovals)
  (rules : W -> list ProjectApprovalRule) (srv : approval_server h pid settings rules).

Lemma applySettings_run c w w1 :
  (forall s, effectiveApprovalSettings c = Some s -> consistent_push s) ->
  run h (applySettings pid c) w = (None, w1) ->
  rules w1 = rules w /\ forall s, effectiveApprovalSettings c = Some s -> settings_as_stated s (settings w1).
Proof using srv.
  intros Hcons. unfold applySettings. destruct (effectiveApprovalSettings c) as [s|]; [|by intros [= <-]].
  specialize (Hcons s eq_refl). destruct (any_setting s) eqn:Ea.
  - rewrite run_bind, run_call. pose proof (as_change _ _ _ _ srv (toChangeOptions s) w) as Hch.
    destruct (h _ _ w) as [r w2]. rewrite run_ret. cbn [fst snd] in Hch. destruct (r_err r); [done|]. intros [= <-].
    destruct (Hch eq_refl) as [Hs Hr]. split; [done|]. intros s' [= <-]. rewrite Hs. by apply change_settings_as_stated.
  - intros [= <-]. split; [done|]. intros s' [= <-]. revert Ea. unfold any_setting, settings_as_stated.
    rewrite !orb_false_iff. intros Hn. destruct_and! Hn.
    repeat match goal with H : is_some ?o = false |- _ => destruct o; [done|]; clear H end. by split_and!.
Qed.

(** An enforcement that reports no error, from the plan on. *)
Lemma ApprovalRules_Apply_run c cfg project w res w' :
  p_ID project = pid -> approvals_policy cfg = Some c -> (length (rules w) <= default_page)%nat ->
  NoDup ((fun rule => approval_key (ar_Name rule)) <$> ars_Rules c) ->
  (forall s, effectiveApprovalSettings c = Some s -> consistent_push s) ->
  run h (ApprovalRules_Apply cfg project) w = ((res, None), w') ->
  approvals_met h pid settings rules c w' /\
  (forall lr, lr ∈ rules w -> approval_key (ru_Name lr) ∉ (fun rule => approval_key (ar_Name rule)) <$> ars_Rules c ->
     set_opt (ars_Prune c) false && prunable (approval_rules pid) lr = false -> lr ∈ rules w').
Proof using srv.
  intros Hid Hc Hlen Hnd Hcons. unfold ApprovalRules_Apply. rewrite Hc, Hid.
  destruct (ApprovalRules_Plan_run h pid settings rules srv cfg c project w Hid Hc Hlen) as [(e & rule & Hp & _)|(ds & Hp & Hds & Hres)].
  { unfold planThenApply. rewrite run_bind, Hp. by rewrite run_ret. }
  destruct (decide (ds = [])) as [->|Hne].
  { rewrite (planThenApply_run h _ _ _ _ _ _ _ Hp). simpl. intros [= _ <-]. split; [by apply Hds|done]. }
  destruct (length ds =? 0)%nat eqn:El; [by apply Nat.eqb_eq, nil_length_inv in El|].
  rewrite (planThenApply_run h _ _ _ _ _ _ _ Hp).
  assert (pl_HasChanges (NewPlanResult ApprovalRules_Name (kind_type OnProject) pid (p_PathWithNamespace project) ActionUpdate ds)
          = true) as ->.
  { apply not_false_is_true. intros Hf. by apply NewPlanResult_changes in Hf. }
  rewrite run_bind. destruct (run h (applySettings pid c) w) as [[e|] w1] eqn:Ea; [by rewrite run_ret|].
  destruct (applySettings_run c w w1 Hcons Ea) as [Hr1 Hs1].
  rewrite run_bind, run_call, (as_list _ _ _ _ srv) by (by rewrite Hr1). cbn [r_err r_val reply_ok]. intros Hr.
  assert (settings w' = settings w1) as Hs'.
  { match type of Hr with run h ?p _ = _ => pose proof (settings_frame h pid settings rules srv p w1) as Hs end.
    rewrite Hr in Hs. by apply Hs, applyRules_settings. }
  eapply (applyKeyed_run _ _ _ _ _ (approval_keyed_server h pid settings rules srv)) in Hr
    as (w2 & Hn & Hmet & Hfrom & Hkeep); [|done|apply omap_id_Some|done|done].
  rewrite run_ret in Hn. injection Hn as _ ->. split; [split|].
  - intros s Hs. rewrite Hs'. by apply Hs1.
  - done.
  - rewrite <- Hr1. exact Hkeep.
Qed.

End Apply.

(** ** Properties *)

(** Enforcing merge request approvals works, converges and stays in its
    lane: on a project whose rules fit one page, whenever [Apply] reports no
    error the settings are those stated, every rule of the policy has a live
    rule of its name with its approvals, users and groups, the rules that the
    policy does not name are still there unless pruning deletes them, and a
    plan made right afterwards has nothing to do. *)
Theorem ApprovalRules_Apply_converges {W} (h : handler GitLabE W) (ans : Answers h) settings rules cfg c project
    (srv : approval_server h (p_ID project) settings rules) w res w' :
  approvals_policy cfg = Some c ->
  (length (rules w) <= default_page)%nat -> (length (rules w') <= default_page)%nat ->
  NoDup ((fun rule => approval_key (ar_Name rule)) <$> ars_Rules c) ->
  (forall s, effectiveApprovalSettings c = Some s -> consistent_push s) ->
  run h (ApprovalRules_Apply cfg project) w = ((res, None), w') ->
  (forall s, effectiveApprovalSettings c = Some s -> settings_as_stated s (settings w')) /\
  (forall rule, rule ∈ ars_Rules c -> exists a lr, resolved_approvers h rule = inr a /\ lr ∈ rules w' /\
     approval_key (ru_Name lr) = approval_key (ar_Name rule) /\ approval_meets rule a lr) /\
  (forall lr, lr ∈ rules w -> approval_key (ru_Name lr) ∉ (fun rule => approval_key (ar_Name rule)) <$> ars_Rules c ->
     set_opt (ars_Prune c) false && prunable (approval_rules (p_ID project)) lr = false -> lr ∈ rules w') /\
  run h (ApprovalRules_Plan cfg project) w' =
    (noop_plan ApprovalRules_Name OnProject (p_ID project) (p_PathWithNamespace project), w').
Proof.
  intros Hc Hlen Hlen' Hnd Hcons Hr.
  destruct (ApprovalRules_Apply_run h _ settings rules srv c cfg project w res w' eq_refl Hc Hlen Hnd Hcons Hr)
    as [Hmet Hkeep].
  split_and!; [apply Hmet| |exact Hkeep|].
  - destruct Hmet as [_ [Hmet _]]. rewrite Forall_forall in Hmet. intros rule Hin.
    destruct (Hmet rule Hin) as (a & lr & Ha & Hl & Hq). apply map_by_lookup_Some in Hl as [Hl Hk].
    exists a, lr. split_and!; [done..|]. by apply diffSingleRule_quiet.
  - destruct (ApprovalRules_Plan_run h _ settings rules srv cfg c project w' eq_refl Hc Hlen') as [(e & rule & _ & Hin & He)|(ds & -> & Hds & _)].
    + exfalso. destruct Hmet as [_ [Hmet _]]. rewrite Forall_forall in Hmet. destruct (Hmet rule Hin) as (a & lr & Ha & _). congruence.
    + apply Hds in Hmet. by subst.
Qed.

(** Settings that contradict each other are never met: when a policy asks
    both to reset the approvals on a push and to retain them, or neither, no
    live settings satisfy the comparison, so every plan reports a change and
    every enforcement is followed by another. *)
Theorem contradictory_settings_never_met (s : ApprovalSettingsConfig) (b : bool) (live : ProjectApprovals) :
  aps_ResetApprovalsOnPush s = Some b -> aps_RetainApprovalsOnPush s = Some b ->
  Diff_HasChanges (diffApprovalSettings s live) = true.
Proof.
  intros Hr Ht. apply not_false_is_true. rewrite diffApprovalSettings_quiet.
  intros (_ & Hreset & _ & _ & _ & Hretain & _). specialize (Hreset b Hr). specialize (Hretain b Ht).
  rewrite Hreset in Hretain. by destruct b.
Qed.

(** ** A concrete server *)

Record approval_store : Type := { sa_settings : ProjectApprovals; sa_rules : list ProjectApprovalRule }.

Definition sa_list (w : approval_store) : list ProjectApprovalRule := distinct_by ru_ID (sa_rules w).

Definition demo_approval_server : handler GitLabE approval_store := fun X e w =>
  match e in GitLabE X return X * approval_store with
  | ApprovalRules_ e =>
      let rules := sa_list w in
      let set l := {| sa_settings := sa_settings w; sa_rules := l |} in
      match e in ApprovalRulesE X return X * approval_store with
      | GetApprovalConfiguration _ => (reply_ok (Some (sa_settings w)), w)
      | ChangeApprovalConfiguration _ opt =>
          (reply_ok tt, {| sa_settings := change_settings opt (sa_settings w); sa_rules := sa_rules w |})
      | GetProjectApprovalRules _ => (reply_ok (Some <$> take default_page rules), w)
      | CreateProjectApprovalRule _ opt =>
          (reply_ok tt, set (rules ++ [new_rule (next_id (ru_ID <$> rules)) opt]))
      | UpdateProjectApprovalRule _ i opt =>
          (reply_ok tt, set (map (fun r => if ru_ID r =? i then edit_rule opt r else r) rules))
      | DeleteProjectApprovalRule _ i =>
          (reply_ok tt, set (List.filter (fun r => negb (ru_ID r =? i)) rules))
      end
  | Resolver_ e => (demo_directory e, w)
  | e => (absent_call e, w)
  end.

#[local] Instance demo_approval_answers : Answers demo_approval_server :=
  {| answer := @demo_directory; answer_call := fun X e w => eq_refl |}.

Lemma demo_approval_server_ok : approval_server demo_approval_server 42 sa_settings sa_list.
Proof.
  split; intros; try done.
  - by destruct_call e.
  - simpl. by rewrite take_ge.
  - apply distinct_by_NoDup.
  - eexists. by apply distinct_by_snoc.
  - by apply distinct_by_edit.
  - apply distinct_by_filter.
Qed.

Definition demo_approval (name : string) (n : Z) (users groups : list string) : ApprovalRuleConfig := {|
  ar_Name := name; ar_ApprovalsRequired := n; ar_UserUsernames := users; ar_UserIDs := [5; 0; 5];
  ar_GroupPaths := groups; ar_GroupIDs := []; ar_ProtectedBranchNames := []; ar_ProtectedBranchIDs := []; ar_RuleType := "" |}.

Definition demo_approvals : ApprovalRulesConfig := {|
  ars_ApprovalsBeforeMerge := None; ars_ResetApprovalsOnPush := Some true;
  ars_Settings := Some (Build_ApprovalSettingsConfig None None (Some false) (Some false) None (Some false) None None);
  ars_Rules := [demo_approval "Security" 2 ["alice"] []; demo_approval "Release" 1 [] ["platform/release"]];
  ars_Prune := Some true |}.

Definition demo_approvals_cfg : option PolicyConfig := with_policies
  (Build_PoliciesConfig None [] None None (Some demo_approvals) None None [] None None [] None None [] []).

(** The security rule exists under another capitalisation; one rule is stray,
    one belongs to GitLab. *)
Definition demo_approval_store : approval_store := {|
  sa_settings := zero_ProjectApprovals;
  sa_rules := [{| ru_ID := 3; ru_Name := "security "; ru_RuleType := "regular"; ru_ApprovalsRequired := 1;
                  ru_Users := [Some 9]; ru_Groups := [] |};
               {| ru_ID := 4; ru_Name := "Old"; ru_RuleType := "regular"; ru_ApprovalsRequired := 1; ru_Users := [];
                  ru_Groups := [] |};
               {| ru_ID := 6; ru_Name := "All Members"; ru_RuleType := "any_approver"; ru_ApprovalsRequired := 1;
                  ru_Users := []; ru_Groups := [] |}] |}.

Definition demo_approval_run := run demo_approval_server (ApprovalRules_Apply demo_approvals_cfg demo_project) demo_approval_store.

Lemma ApprovalRules_Apply_converges_witness :
  ru_ID <$> sa_list demo_approval_run.2 = [3; 6; 7] /\
  run demo_approval_server (ApprovalRules_Plan demo_approvals_cfg demo_project) demo_approval_run.2 =
    (noop_plan ApprovalRules_Name OnProject 42 "platform/api", demo_approval_run.2).
Proof.
  split; [vm_compute; reflexivity|].
  apply (ApprovalRules_Apply_converges demo_approval_server demo_approval_answers _ _ demo_approvals_cfg demo_approvals
    demo_project demo_approval_server_ok demo_approval_store demo_approval_run.1.1 demo_approval_run.2).
  - reflexivity.
  - apply Nat.leb_le. vm_compute. reflexivity.
  - apply Nat.leb_le. vm_compute. reflexivity.
  - by apply (bool_decide_unpack _); vm_compute.
  - intros s Hs. vm_compute in Hs. injection Hs as <-. intros a b. cbn. by intros [= <-] [= <-].
  - vm_compute. reflexivity.
Defined.

Lemma contradictory_settings_never_met_witness :
  Diff_HasChanges (diffApprovalSettings (Build_ApprovalSettingsConfig None (Some true) None None None (Some true) None None)
                     zero_ProjectApprovals) = true.
Proof. by apply (contradictory_settings_never_met _ true). Defined.
