(* ===== verification/Webhooks.v ===== *)
(** * Webhooks: internal/governance/webhooks.go

    A project's hooks, matched by their normalised URL and enforced by the
    loops of [Keyed].  The URL parser is that of [net/url] ([GoURLParse]).  The
    live hooks are what one unpaginated call lists: [hook_server] promises all
    of them only up to GitLab's default page.  The secret token of a hook is
    sent but never compared, since GitLab does not return it. *)

From S2P Require Import Prelude GoLib Config GitLabAPI Server Governance Keyed.
Local Open Scope string_scope.
Local Open Scope list_scope.
Local Open Scope Z_scope.

Definition Webhooks_Name : string := "webhooks".
Definition Webhooks_Order : Z := 90.

(** [url.Parse], the assignment to [u.Path] and [u.String()]. *)
Class GoURLParse : Type := {
  URL : Type;
  url_Parse : string -> option URL;
  url_Path : URL -> string;
  url_WithPath : URL -> string -> URL;
  url_String : URL -> string
}.

Section Webhooks.
Context `{GoURLParse}.

Definition normalizeWebhookURL (raw : string) : string :=
  match url_Parse (TrimSpace raw) with
  | None => TrimRight "/" (ToLower raw)
  | Some u => ToLower (url_String (url_WithPath u (TrimRight "/" (url_Path u))))
  end.

(** The options of a creation and of an edit are the same. *)
Definition toHookOptions (desired : WebhookConfig) : HookOptions := {|
  ho_URL := wh_URL desired;
  ho_PushEvents := wh_PushEvents desired;
  ho_MergeRequestsEvents := wh_MergeRequestsEvents desired;
  ho_TagPushEvents := wh_TagPushEvents desired;
  ho_IssuesEvents := wh_IssuesEvents desired;
  ho_PipelineEvents := wh_PipelineEvents desired;
  ho_JobEvents := wh_JobEvents desired;
  ho_ReleasesEvents := wh_ReleasesEvents desired;
  ho_EnableSSLVerification := wh_EnableSSLVerification desired;
  ho_PushEventsBranchFilter := ptr_nonempty (wh_PushEventsBranchFilter desired);
  ho_Token := ptr_nonempty (wh_SecretToken desired)
|}.

Definition createHookDiff (desired : WebhookConfig) : Diff :=
  let b := AddField NewDiffBuilder "url" VNil (VStr (wh_URL desired)) ActionCreate in
  let b := SetDetails b ("Webhook " +:+ wh_URL desired +:+ " to be created") in
  Build b ("webhook:" +:+ wh_URL desired) ActionCreate.

(** [builder.HasChanges()], with the details that are set when it has. *)
Definition updateHookDiff (desired : WebhookConfig) (existing : ProjectHook) : Diff :=
  let b := NewDiffBuilder in
  let b := Add b (CompareBoolPtr "push_events" (hk_PushEvents existing) (wh_PushEvents desired)) in
  let b := Add b (CompareBoolPtr "merge_requests_events" (hk_MergeRequestsEvents existing) (wh_MergeRequestsEvents desired)) in
  let b := Add b (CompareBoolPtr "tag_push_events" (hk_TagPushEvents existing) (wh_TagPushEvents desired)) in
  let b := Add b (CompareBoolPtr "issues_events" (hk_IssuesEvents existing) (wh_IssuesEvents desired)) in
  let b := Add b (CompareBoolPtr "pipeline_events" (hk_PipelineEvents existing) (wh_PipelineEvents desired)) in
  let b := Add b (CompareBoolPtr "job_events" (hk_JobEvents existing) (wh_JobEvents desired)) in
  let b := Add b (CompareBoolPtr "releases_events" (hk_ReleasesEvents existing) (wh_ReleasesEvents desired)) in
  let b := Add b (CompareBoolPtr "enable_ssl_verification" (hk_EnableSSLVerification existing)
                    (wh_EnableSSLVerification desired)) in
  let b := AddFieldIf (negb (wh_PushEventsBranchFilter desired =? "")%string
                       && negb (hk_PushEventsBranchFilter existing =? wh_PushEventsBranchFilter desired)%string) b
             "push_events_branch_filter" (VStr (hk_PushEventsBranchFilter existing))
             (VStr (wh_PushEventsBranchFilter desired)) ActionUpdate in
  let b := if (length (db_fields b) =? 0)%nat then b
           else SetDetails b ("Webhook " +:+ wh_URL desired +:+ " has drift") in
  Build b ("webhook:" +:+ Itoa (hk_ID existing)) ActionUpdate.

Definition pruneHookDiff (h : ProjectHook) : Diff :=
  let b := AddField NewDiffBuilder "url" (VStr (hk_URL h)) VNil ActionDelete in
  let b := SetDetails b ("Prune unmanaged webhook ID " +:+ Itoa (hk_ID h) +:+ " (" +:+ hk_URL h +:+ ")") in
  Build b ("webhook:" +:+ Itoa (hk_ID h)) ActionDelete.

Definition hooks_of (pid : Z) : keyed WebhookConfig ProjectHook unit := {|
  rule_key := fun desired => normalizeWebhookURL (wh_URL desired);
  live_key := fun h => normalizeWebhookURL (hk_URL h);
  live_id := hk_ID;
  prunable := fun _ => true;
  plan_options := fun _ => mret (inr tt);
  apply_options := fun _ => mret tt;
  missing_diff := fun desired _ => createHookDiff desired;
  drift_diff := fun desired existing _ => updateHookDiff desired existing;
  prune_diff := pruneHookDiff;
  create_record := fun desired _ =>
    r ← call (Webhooks_ (AddProjectHook pid (toHookOptions desired))); mret (r_err r);
  edit_record := fun desired existing _ =>
    r ← call (Webhooks_ (EditProjectHook pid (hk_ID existing) (toHookOptions desired))); mret (r_err r);
  delete_record := fun h => r ← call (Webhooks_ (DeleteProjectHook pid (hk_ID h))); mret (r_err r);
  explain_create := fun desired => "failed to add webhook " +:+ wh_URL desired +:+ " to project " +:+ Itoa pid +:+ ": ";
  explain_edit := fun _ existing => "failed to edit webhook " +:+ Itoa (hk_ID existing) +:+ " for project " +:+ Itoa pid +:+ ": ";
  explain_delete := fun h => "failed to delete unmanaged webhook " +:+ Itoa (hk_ID h) +:+ ": "
|}.

(** ** The methods; [pruneUnmanaged] is a field of the reconciler *)

Definition hooks_policy (cfg : option PolicyConfig) : list WebhookConfig :=
  match cfg with Some c => pol_Webhooks (cfg_Policies c) | None => [] end.

Definition calculateWebhooksDiffs (pruneUnmanaged : bool) (desiredList : list WebhookConfig) (pid : Z)
  : GP (error + list Diff) :=
  r ← call (Webhooks_ (ListProjectHooks pid));
  match r_err r with
  | Some e => mret (inl (ErrWrap ("failed to list project webhooks for " +:+ Itoa pid +:+ ": ") e))
  | None => planKeyed (hooks_of pid) pruneUnmanaged (r_val r) desiredList []
  end.

Definition Webhooks_Plan (pruneUnmanaged : bool) (cfg : option PolicyConfig) (project : Project) : GP PlanReturn :=
  let pid := p_ID project in
  let path := p_PathWithNamespace project in
  match hooks_policy cfg with
  | [] => mret (noop_plan Webhooks_Name OnProject pid path)
  | desiredList =>
      ds ← calculateWebhooksDiffs pruneUnmanaged desiredList pid;
      mret match ds with
           | inl e => (None, Some e)
           | inr diffs => if (length diffs =? 0)%nat then noop_plan Webhooks_Name OnProject pid path
                          else planned Webhooks_Name OnProject pid path ActionUpdate diffs
           end
  end.

Definition Webhooks_Apply (pruneUnmanaged : bool) (cfg : option PolicyConfig) (project : Project) : GP ApplyReturn :=
  let pid := p_ID project in
  let path := p_PathWithNamespace project in
  match hooks_policy cfg with
  | [] => mret (noop_apply Webhooks_Name OnProject pid path)
  | desiredList =>
      planThenApply (Webhooks_Plan pruneUnmanaged cfg project)
        (noop_apply Webhooks_Name OnProject pid path)
        (failed Webhooks_Name OnProject pid path ActionNoop [])
        (fun plan =>
           let fail action := failed Webhooks_Name OnProject pid path action (pl_Diffs plan) in
           r ← call (Webhooks_ (ListProjectHooks pid));
           match r_err r with
           | Some e => mret (fail ActionUpdate (ErrWrap ("failed to list project hooks for " +:+ Itoa pid +:+ ": ") e))
           | None =>
               applyKeyed (hooks_of pid) fail pruneUnmanaged (r_val r) desiredList
                 (mret (succeeded Webhooks_Name OnProject pid path ActionUpdate (pl_Diffs plan)))
           end)
  end.

Definition Webhooks_PlanGroup (cfg : option PolicyConfig) (group : Group) : GP PlanReturn :=
  mret (skipped_plan Webhooks_Name OnGroup (g_ID group) (g_FullPath group)
          "Webhooks policy is not applicable to groups").

Definition Webhooks_ApplyGroup (cfg : option PolicyConfig) (group : Group) : GP ApplyReturn :=
  mret (skipped_apply Webhooks_Name OnGroup (g_ID group) (g_FullPath group)
          "Webhooks policy is not applicable to groups").

Definition NewWebhooksReconciler (pruneUnmanaged : bool) : GovernanceOperation := {|
  op_Name := Webhooks_Name;
  op_Order := Webhooks_Order;
  op_Plan := Webhooks_Plan pruneUnmanaged;
  op_Apply := Webhooks_Apply pruneUnmanaged;
  op_PlanGroup := Webhooks_PlanGroup;
  op_ApplyGroup := Webhooks_ApplyGroup
|}.

(** ** Specification *)

Definition hook_meets (desired : WebhookConfig) (h : ProjectHook) : Prop :=
  (forall b, wh_PushEvents desired = Some b -> hk_PushEvents h = b) /\
  (forall b, wh_MergeRequestsEvents desired = Some b -> hk_MergeRequestsEvents h = b) /\
  (forall b, wh_TagPushEvents desired = Some b -> hk_TagPushEvents h = b) /\
  (forall b, wh_IssuesEvents desired = Some b -> hk_IssuesEvents h = b) /\
  (forall b, wh_PipelineEvents desired = Some b -> hk_PipelineEvents h = b) /\
  (forall b, wh_JobEvents desired = Some b -> hk_JobEvents h = b) /\
  (forall b, wh_ReleasesEvents desired = Some b -> hk_ReleasesEvents h = b) /\
  (forall b, wh_EnableSSLVerification desired = Some b -> hk_EnableSSLVerification h = b) /\
  (wh_PushEventsBranchFilter desired = "" \/ hk_PushEventsBranchFilter h = wh_PushEventsBranchFilter desired).

(** What GitLab makes of the options. *)
Definition edit_hook (o : HookOptions) (h : ProjectHook) : ProjectHook := {|
  hk_ID := hk_ID h;
  hk_URL := ho_URL o;
  hk_PushEvents := set_opt (ho_PushEvents o) (hk_PushEvents h);
  hk_MergeRequestsEvents := set_opt (ho_MergeRequestsEvents o) (hk_MergeRequestsEvents h);
  hk_TagPushEvents := set_opt (ho_TagPushEvents o) (hk_TagPushEvents h);
  hk_IssuesEvents := set_opt (ho_IssuesEvents o) (hk_IssuesEvents h);
  hk_PipelineEvents := set_opt (ho_PipelineEvents o) (hk_PipelineEvents h);
  hk_JobEvents := set_opt (ho_JobEvents o) (hk_JobEvents h);
  hk_ReleasesEvents := set_opt (ho_ReleasesEvents o) (hk_ReleasesEvents h);
  hk_EnableSSLVerification := set_opt (ho_EnableSSLVerification o) (hk_EnableSSLVerification h);
  hk_PushEventsBranchFilter := set_opt (ho_PushEventsBranchFilter o) (hk_PushEventsBranchFilter h)
|}.

(** A new hook, before its options: pushes, verified. *)
Definition fresh_hook (id : Z) : ProjectHook :=
  Build_ProjectHook id "" true false false false false false false true "".

(** GitLab's hooks API, for one project. *)
Record hook_server {W} (h : handler GitLabE W) (pid : Z) (hooks : W -> list ProjectHook) : Prop := {
  hs_list : forall w, (length (hooks w) <= default_page)%nat ->
    h _ (Webhooks_ (ListProjectHooks pid)) w = (reply_ok (Some <$> hooks w), w);
  hs_ids : forall w, NoDup (hk_ID <$> hooks w);
  hs_add : forall opt w, r_err (h _ (Webhooks_ (AddProjectHook pid opt)) w).1 = None ->
    exists id, hooks (h _ (Webhooks_ (AddProjectHook pid opt)) w).2 = hooks w ++ [edit_hook opt (fresh_hook id)];
  hs_edit : forall i opt w, r_err (h _ (Webhooks_ (EditProjectHook pid i opt)) w).1 = None ->
    hooks (h _ (Webhooks_ (EditProjectHook pid i opt)) w).2 =
      map (fun x => if hk_ID x =? i then edit_hook opt x else x) (hooks w);
  hs_delete : forall i w, r_err (h _ (Webhooks_ (DeleteProjectHook pid i)) w).1 = None ->
    hooks (h _ (Webhooks_ (DeleteProjectHook pid i)) w).2 = List.filter (fun x => negb (hk_ID x =? i)) (hooks w)
}.

(** ** Lemmas *)

Lemma updateHookDiff_quiet desired existing :
  Diff_HasChanges (updateHookDiff desired existing) = false <-> hook_meets desired existing.
Proof.
  unfold updateHookDiff. cbv zeta. match goal with |- context [AddFieldIf ?c ?b ?f ?o ?n ?a] => set (b9 := AddFieldIf c b f o n a) end.
  assert (db_fields b9 = [] <-> hook_meets desired existing) as Hb.
  { unfold b9, hook_meets. autorewrite with diff. rewrite !CompareBoolPtr_None, andb_false_iff, !negb_false_iff, !String.eqb_eq.
    simpl. tauto. }
  assert (db_details b9 = "") as Hd by (unfold b9; by autorewrite with diff).
  rewrite <- Hb. destruct (length (db_fields b9) =? 0)%nat eqn:E.
  - by apply Build_HasChanges.
  - apply Nat.eqb_neq in E. destruct (db_fields b9) as [|f l] eqn:Ef; [done|].
    split; [|done]. unfold Diff_HasChanges, Build. simpl. by rewrite Ef.
Qed.

Lemma edit_hook_meets desired h : hook_meets desired (edit_hook (toHookOptions desired) h).
Proof.
  unfold hook_meets, edit_hook, toHookOptions. cbn [hk_PushEvents hk_MergeRequestsEvents hk_TagPushEvents hk_IssuesEvents
    hk_PipelineEvents hk_JobEvents hk_ReleasesEvents hk_EnableSSLVerification hk_PushEventsBranchFilter ho_PushEvents
    ho_MergeRequestsEvents ho_TagPushEvents ho_IssuesEvents ho_PipelineEvents ho_JobEvents ho_ReleasesEvents
    ho_EnableSSLVerification ho_PushEventsBranchFilter].
  split_and!; [intros b ->; done..|]. unfold ptr_nonempty.
  destruct (String.eqb_spec (wh_PushEventsBranchFilter desired) ""); [by left|by right].
Qed.

Lemma Webhooks_Plan_reads prune cfg p : reads (Webhooks_Plan prune cfg p).
Proof.
  unfold Webhooks_Plan. destruct (hooks_policy cfg); [done|]. apply reads_bind; [|done].
  apply reads_bind; [by apply reads_call|]. intros r. destruct (r_err r); [done|]. by apply planKeyed_reads.
Qed.

End Webhooks.

#[export] Instance Webhooks_DryRun `{GoURLParse} prune : DryRun (NewWebhooksReconciler prune).
Proof. split; intros; [apply Webhooks_Plan_reads|done]. Qed.

#[export] Instance Webhooks_NoopQuiet `{GoURLParse} prune : NoopQuiet (NewWebhooksReconciler prune).
Proof.
  split; intros; simpl; [unfold Webhooks_Plan; always|done| |by intros W h w r _ _ _; constructor].
  unfold Webhooks_Apply. destruct (hooks_policy cfg) eqn:E.
  - intros W h w r _ _ _. constructor.
  - apply planThenApply_quiet, Webhooks_Plan_reads.
Qed.

Section Server.
Context `{GoURLParse} {W : Type} (h : handler GitLabE W) (pid : Z) (hooks : W -> list ProjectHook)
  (srv : hook_server h pid hooks).

Lemma hook_keyed_server : keyed_server (hooks_of pid) h hooks (fun _ => inr tt) (fun d _ => edit_hook (toHookOptions d)).
Proof using srv.
  split; cbn [hooks_of rule_key live_key live_id plan_options apply_options create_record edit_record delete_record drift_diff];
    try done.
  - apply (hs_ids _ _ _ srv).
  - by intros rule [] w.
  - intros d [] w _. rewrite run_bind, run_call. pose proof (hs_add _ _ _ srv (toHookOptions d) w) as Ha.
    destruct (h _ _ w) as [r w1]. rewrite run_ret. intros He. destruct (Ha He) as [i Hi].
    eexists. split_and!; [exact Hi|done|]. apply updateHookDiff_quiet, edit_hook_meets.
  - intros d l [] w _. rewrite run_bind, run_call. pose proof (hs_edit _ _ _ srv (hk_ID l) (toHookOptions d) w) as He.
    by destruct (h _ _ w).
  - intros d [] l _. apply updateHookDiff_quiet, edit_hook_meets.
  - intros l w. rewrite run_bind, run_call. pose proof (hs_delete _ _ _ srv (hk_ID l) w) as Hd. by destruct (h _ _ w).
Qed.

Lemma Webhooks_Plan_run prune cfg project w :
  p_ID project = pid -> hooks_policy cfg <> [] -> (length (hooks w) <= default_page)%nat ->
  exists ds, run h (Webhooks_Plan prune cfg project) w =
      (if (length ds =? 0)%nat then noop_plan Webhooks_Name OnProject pid (p_PathWithNamespace project)
       else planned Webhooks_Name OnProject pid (p_PathWithNamespace project) ActionUpdate ds, w) /\
    (ds = [] <-> records_met (hooks_of pid) (fun _ => inr tt) prune (hooks_policy cfg) (hooks w)).
Proof using srv.
  intros Hid Hne Hlen. unfold Webhooks_Plan. rewrite Hid. destruct (hooks_policy cfg) as [|d l] eqn:E; [done|].
  unfold calculateWebhooksDiffs. rewrite !run_bind, run_call, (hs_list _ _ _ srv) by done. cbn [r_err r_val reply_ok].
  pose proof (planKeyed_run _ _ _ _ _ hook_keyed_server prune (Some <$> hooks w) (d :: l) [] w) as Hp.
  rewrite omap_id_Some in Hp. destruct (run h (planKeyed _ _ _ _ _) w) as [[e|ds] w']; destruct Hp as [-> Hp].
  - by destruct Hp as (rule & _ & ?).
  - destruct Hp as [Hp _]. exists ds. rewrite run_ret. split; [done|]. rewrite Hp. split; [by intros []|by split].
Qed.

Lemma Webhooks_Apply_run prune cfg project w res w' :
  p_ID project = pid -> (length (hooks w) <= default_page)%nat ->
  NoDup ((fun d => normalizeWebhookURL (wh_URL d)) <$> hooks_policy cfg) -> hooks_policy cfg <> [] ->
  run h (Webhooks_Apply prune cfg project) w = ((res, None), w') ->
  records_met (hooks_of pid) (fun _ => inr tt) prune (hooks_policy cfg) (hooks w') /\
  (forall x, x ∈ hooks w -> normalizeWebhookURL (hk_URL x) ∉ (fun d => normalizeWebhookURL (wh_URL d)) <$> hooks_policy cfg ->
     prune = false -> x ∈ hooks w').
Proof using srv.
  intros Hid Hlen Hnd Hne. destruct (Webhooks_Plan_run prune cfg project w Hid Hne Hlen) as (ds & Hp & Hds).
  unfold Webhooks_Apply. rewrite Hid. destruct (hooks_policy cfg) as [|d l] eqn:E; [done|].
  destruct (decide (ds = [])) as [->|Hn].
  { rewrite (planThenApply_run h _ _ _ _ _ _ _ Hp). simpl. intros [= _ <-]. split; [by apply Hds|done]. }
  destruct (length ds =? 0)%nat eqn:El; [by apply Nat.eqb_eq, nil_length_inv in El|].
  rewrite (planThenApply_run h _ _ _ _ _ _ _ Hp).
  assert (pl_HasChanges (NewPlanResult Webhooks_Name (kind_type OnProject) pid (p_PathWithNamespace project) ActionUpdate ds)
          = true) as ->.
  { apply not_false_is_true. intros Hf. by apply NewPlanResult_changes in Hf. }
  rewrite run_bind, run_call, (hs_list _ _ _ srv) by done. cbn [r_err r_val reply_ok]. intros Hr.
  eapply (applyKeyed_run _ _ _ _ _ hook_keyed_server) in Hr as (w2 & Hn2 & Hmet & _ & Hkeep);
    [|done|apply omap_id_Some|done|by apply Forall_true; intros; exists tt].
  rewrite run_ret in Hn2. injection Hn2 as _ ->. split; [done|]. intros x Hx Hk ->. by apply Hkeep.
Qed.

End Server.

(** ** Properties *)

(** Enforcing webhooks works, converges and stays in its lane: on a project
    whose hooks fit one page, whenever [Apply] reports no error every declared
    hook exists with its events, its filter and its verification as declared,
    without pruning the hooks of other URLs are still there, with pruning there
    are none, and a plan made right afterwards has nothing to do. *)
Theorem Webhooks_Apply_converges `{GoURLParse} {W} (h : handler GitLabE W) hooks prune cfg project
    (srv : hook_server h (p_ID project) hooks) w res w' :
  hooks_policy cfg <> [] ->
  (length (hooks w) <= default_page)%nat -> (length (hooks w') <= default_page)%nat ->
  NoDup ((fun d => normalizeWebhookURL (wh_URL d)) <$> hooks_policy cfg) ->
  run h (Webhooks_Apply prune cfg project) w = ((res, None), w') ->
  (forall d, d ∈ hooks_policy cfg -> exists x, x ∈ hooks w' /\
     normalizeWebhookURL (hk_URL x) = normalizeWebhookURL (wh_URL d) /\ hook_meets d x) /\
  (forall x, normalizeWebhookURL (hk_URL x) ∉ (fun d => normalizeWebhookURL (wh_URL d)) <$> hooks_policy cfg ->
     if prune then x ∉ hooks w' else x ∈ hooks w -> x ∈ hooks w') /\
  run h (Webhooks_Plan prune cfg project) w' =
    (noop_plan Webhooks_Name OnProject (p_ID project) (p_PathWithNamespace project), w').
Proof.
  intros Hne Hlen Hlen' Hnd Hr.
  destruct (Webhooks_Apply_run h _ hooks srv prune cfg project w res w' eq_refl Hlen Hnd Hne Hr) as [Hmet Hkeep].
  split_and!.
  - destruct Hmet as [Hmet _]. rewrite Forall_forall in Hmet. intros d Hd.
    destruct (Hmet d Hd) as ([] & x & _ & Hl & Hq). apply map_by_lookup_Some in Hl as [Hl Hk].
    exists x. split_and!; [done..|]. by apply updateHookDiff_quiet.
  - intros x Hx. destruct prune; [|intros Hin; by apply Hkeep]. intros Hin. destruct Hmet as [_ Hp].
    destruct (Hp eq_refl x Hin eq_refl) as (d & y & Hd & Hl & He). apply map_by_lookup_Some in Hl as [Hl Hk].
    assert (y = x) as -> by by apply (NoDup_fmap_eq hk_ID (hooks w')); [apply (hs_ids _ _ _ srv)|..].
    apply Hx. apply list_elem_of_fmap. by exists d.
  - destruct (Webhooks_Plan_run h _ hooks srv prune cfg project w' eq_refl Hne Hlen') as (ds & -> & Hds).
    apply Hds in Hmet. by subst.
Qed.

(** ** A concrete server *)

(** A parser that takes a URL as its own path. *)
#[local] Instance demo_url_parse : GoURLParse :=
  {| URL := string; url_Parse := Some; url_Path := id; url_WithPath := fun _ p => p; url_String := id |}.

Definition demo_hook_server : handler GitLabE (list ProjectHook) := fun X e w =>
  match e in GitLabE X return X * list ProjectHook with
  | Webhooks_ e =>
      let hooks := distinct_by hk_ID w in
      match e in WebhooksE X return X * list ProjectHook with
      | ListProjectHooks _ => (reply_ok (Some <$> take default_page hooks), w)
      | AddProjectHook _ opt => (reply_ok tt, hooks ++ [edit_hook opt (fresh_hook (next_id (hk_ID <$> hooks)))])
      | EditProjectHook _ i opt => (reply_ok tt, map (fun x => if hk_ID x =? i then edit_hook opt x else x) hooks)
      | DeleteProjectHook _ i => (reply_ok tt, List.filter (fun x => negb (hk_ID x =? i)) hooks)
      end
  | e => (absent_call e, w)
  end.

Lemma demo_hook_server_ok : hook_server demo_hook_server 42 (distinct_by hk_ID).
Proof.
  split; intros; try done.
  - simpl. by rewrite take_ge.
  - apply distinct_by_NoDup.
  - eexists. by apply distinct_by_snoc.
  - by apply distinct_by_edit.
  - apply distinct_by_filter.
Qed.

Definition demo_webhook (url filter : string) : WebhookConfig := {|
  wh_URL := url; wh_PushEvents := Some true; wh_MergeRequestsEvents := Some true; wh_TagPushEvents := None;
  wh_IssuesEvents := None; wh_PipelineEvents := None; wh_JobEvents := None; wh_ReleasesEvents := None;
  wh_EnableSSLVerification := Some true; wh_SecretToken := "t"; wh_PushEventsBranchFilter := filter |}.

Definition demo_hooks_cfg : option PolicyConfig := with_policies
  (Build_PoliciesConfig None [] None None None None None [] None None
     [demo_webhook "https://ci.example.com/hook/" "main"; demo_webhook "https://audit.example.com" ""] None None [] []).

(** The first hook exists with other settings; one hook is stray. *)
Definition demo_hooks : list ProjectHook :=
  [Build_ProjectHook 5 "https://CI.example.com/hook" false true false false false false false false "";
   Build_ProjectHook 8 "https://old.example.com" true false false false false false false true ""].

Definition demo_hook_run := run demo_hook_server (Webhooks_Apply true demo_hooks_cfg demo_project) demo_hooks.

Lemma Webhooks_Apply_converges_witness :
  hk_ID <$> distinct_by hk_ID demo_hook_run.2 = [5; 9] /\
  run demo_hook_server (Webhooks_Plan true demo_hooks_cfg demo_project) demo_hook_run.2 =
    (noop_plan Webhooks_Name OnProject 42 "platform/api", demo_hook_run.2).
Proof.
  split; [vm_compute; reflexivity|].
  apply (Webhooks_Apply_converges demo_hook_server _ true demo_hooks_cfg demo_project demo_hook_server_ok demo_hooks
    demo_hook_run.1.1 demo_hook_run.2).
  - done.
  - apply Nat.leb_le. vm_compute. reflexivity.
  - apply Nat.leb_le. vm_compute. reflexivity.
  - by apply (bool_decide_unpack _); vm_compute.
  - vm_compute. reflexivity.
Defined.

(** Past the first page the code is blind: with twenty other hooks in front of
    it, a hook that is exactly as declared is added again. *)
Lemma Webhooks_second_page_unseen :
  let other i := Build_ProjectHook (Z.of_nat i) ("https://h" +:+ Itoa (Z.of_nat i)) true true false false false false false true "" in
  let hooks := (other <$> seq 0 20) ++ [Build_ProjectHook 99 "https://audit.example.com" true true false false false false false true ""] in
  let cfg := with_policies (Build_PoliciesConfig None [] None None None None None [] None None
               [demo_webhook "https://audit.example.com" ""] None None [] []) in
  length (List.filter (fun x => (hk_URL x =? "https://audit.example.com")%string)
            (run demo_hook_server (Webhooks_Apply false cfg demo_project) hooks).2) = 2%nat.
Proof. vm_compute. reflexivity. Qed.
