(* ===== verification/Runners.v ===== *)
(** * Runners: internal/governance/runners.go

    The runner switches of a project and the attributes of the runners assigned
    to it.  A declared runner is matched by number or by description against
    one unpaginated listing.  [Runners_Plan_exact] says when a plan is silent,
    [Runners_missing_applied] what happens to a runner that is not there. *)

From S2P Require Import Prelude GoLib Config GitLabAPI Server Governance.
Local Open Scope string_scope.
Local Open Scope list_scope.
Local Open Scope Z_scope.

Definition Runners_Name : string := "runners".
Definition Runners_Order : Z := 70.

Definition tagsEqual (a b : list string) : bool :=
  if negb (length a =? length b)%nat then false else bool_decide (sort_Strings a = sort_Strings b).

Definition matches_runner (cfg : RunnerConfig) (r : Runner) : bool :=
  ((0 <? rn_ID cfg) && (rr_ID r =? rn_ID cfg))
  || (negb (rn_Description cfg =? "")%string && (rr_Description r =? rn_Description cfg)%string).

(** The first runner that matches. *)
Definition findMatchingRunner (cfg : RunnerConfig) (runners : list Runner) : option Runner :=
  List.find (matches_runner cfg) runners.

(** ** The plan *)

Definition settingsDiff (current : Project) (desired : RunnersConfig) : Diff :=
  let b := Add NewDiffBuilder (CompareBoolPtr "shared_runners_enabled" (p_SharedRunnersEnabled current)
                                 (rns_SharedRunnersEnabled desired)) in
  let b := Add b (CompareBoolPtr "group_runners_enabled" (p_GroupRunnersEnabled current) (rns_GroupRunnersEnabled desired)) in
  Build b "runners_settings" ActionUpdate.

Definition missingRunnerDiff (cfg : RunnerConfig) : Diff :=
  Build (SetDetails NewDiffBuilder "Runner assertion defined in policy not assigned to project")
    ("runner:" +:+ Itoa (rn_ID cfg) +:+ "/" +:+ rn_Description cfg) ActionCreate.

Definition runnerDiff (cfg : RunnerConfig) (id : Z) (d : RunnerDetails) : Diff :=
  let b := NewDiffBuilder in
  let b := Add b (CompareBoolPtr "paused" (rd_Paused d) (rn_Paused cfg)) in
  let b := Add b (CompareBoolPtr "locked" (rd_Locked d) (rn_Locked cfg)) in
  let b := Add b (CompareBoolPtr "run_untagged" (rd_RunUntagged d) (rn_RunUntagged cfg)) in
  let b := AddFieldIf (negb (rn_AccessLevel cfg =? "")%string && negb (rd_AccessLevel d =? rn_AccessLevel cfg)%string) b
             "access_level" (VStr (rd_AccessLevel d)) (VStr (rn_AccessLevel cfg)) ActionUpdate in
  let b := Add b (CompareIntPtr "maximum_timeout" (rd_MaximumTimeout d) (rn_MaximumTimeout cfg)) in
  let b := AddFieldIf ((0 <? length (rn_TagList cfg))%nat && negb (tagsEqual (rn_TagList cfg) (rd_TagList d))) b
             "tag_list" (VStrs (rd_TagList d)) (VStrs (rn_TagList cfg)) ActionUpdate in
  Build b ("runner:" +:+ Itoa id) ActionUpdate.

(** [if builder.HasChanges() { allDiffs = append(allDiffs, diff) }]. *)
Definition append_changed (diffs : list Diff) (d : Diff) : list Diff := if Diff_HasChanges d then diffs ++ [d] else diffs.

Fixpoint runnersDiffs (existing : list Runner) (cfgs : list RunnerConfig) (diffs : list Diff) : GP (error + list Diff) :=
  match cfgs with
  | [] => mret (inr diffs)
  | cfg :: rest =>
      match findMatchingRunner cfg existing with
      | None => runnersDiffs existing rest (diffs ++ [missingRunnerDiff cfg])
      | Some matched =>
          r ← call (Runners_ (GetRunnerDetails (rr_ID matched)));
          match r_err r with
          | Some e => mret (inl (ErrWrap ("failed to fetch runner details " +:+ Itoa (rr_ID matched) +:+ ": ") e))
          | None => runnersDiffs existing rest (append_changed diffs (runnerDiff cfg (rr_ID matched) (r_val r)))
          end
      end
  end.

Definition calculateProjectDiffs (desired : RunnersConfig) (project : Project) : GP (error + list Diff) :=
  let pid := p_ID project in
  r ← call (Projects (GetProject pid));
  match r_err r with
  | Some e => mret (inl (ErrWrap ("failed to fetch project " +:+ Itoa pid +:+ ": ") e))
  | None =>
      let currentProj := match r_val r with Some p => p | None => project end in
      let diffs := append_changed [] (settingsDiff currentProj desired) in
      match rns_Runners desired with
      | [] => mret (inr diffs)
      | cfgs =>
          l ← call (Runners_ (ListProjectRunners pid));
          match r_err l with
          | Some e => mret (inl (ErrWrap ("failed to list project runners for " +:+ Itoa pid +:+ ": ") e))
          | None => runnersDiffs (r_val l) cfgs diffs
          end
      end
  end.

Definition runners_policy (cfg : option PolicyConfig) : option RunnersConfig :=
  match cfg with Some c => pol_Runners (cfg_Policies c) | None => None end.

Definition Runners_Plan (cfg : option PolicyConfig) (project : Project) : GP PlanReturn :=
  let pid := p_ID project in
  let path := p_PathWithNamespace project in
  match runners_policy cfg with
  | None => mret (noop_plan Runners_Name OnProject pid path)
  | Some desired =>
      ds ← calculateProjectDiffs desired project;
      mret match ds with
           | inl e => (None, Some e)
           | inr diffs => if (length diffs =? 0)%nat then noop_plan Runners_Name OnProject pid path
                          else planned Runners_Name OnProject pid path ActionUpdate diffs
           end
  end.

(** ** The enforcement *)

Definition toRunnerSwitches (desired : RunnersConfig) : EditProjectOptions :=
  Build_EditProjectOptions None None None None None None None None None None None
    (rns_SharedRunnersEnabled desired) (rns_GroupRunnersEnabled desired).

Definition toRunnerOptions (cfg : RunnerConfig) : UpdateRunnerDetailsOptions := {|
  uo_Description := ptr_nonempty (rn_Description cfg);
  uo_Paused := rn_Paused cfg;
  uo_Locked := rn_Locked cfg;
  uo_RunUntagged := rn_RunUntagged cfg;
  uo_AccessLevel := ptr_nonempty (rn_AccessLevel cfg);
  uo_MaximumTimeout := rn_MaximumTimeout cfg;
  uo_TagList := match rn_TagList cfg with [] => None | tags => Some tags end
|}.

(** [hasUpdate]. *)
Definition has_update (o : UpdateRunnerDetailsOptions) : bool :=
  is_some (uo_Description o) || is_some (uo_Paused o) || is_some (uo_Locked o) || is_some (uo_RunUntagged o)
  || is_some (uo_AccessLevel o) || is_some (uo_MaximumTimeout o) || is_some (uo_TagList o).

Fixpoint updateRunners (fail : error -> ApplyReturn) (existing : list Runner) (cfgs : list RunnerConfig)
    (next : GP ApplyReturn) : GP ApplyReturn :=
  match cfgs with
  | [] => next
  | cfg :: rest =>
      match findMatchingRunner cfg existing with
      | None => updateRunners fail existing rest next
      | Some target =>
          if has_update (toRunnerOptions cfg) then
            r ← call (Runners_ (UpdateRunnerDetails (rr_ID target) (toRunnerOptions cfg)));
            match r_err r with
            | Some e => mret (fail (ErrWrap ("failed to update runner " +:+ Itoa (rr_ID target) +:+ ": ") e))
            | None => updateRunners fail existing rest next
            end
          else updateRunners fail existing rest next
      end
  end.

Definition enforceRunners (fail : error -> ApplyReturn) (pid : Z) (cfgs : list RunnerConfig) (next : GP ApplyReturn)
  : GP ApplyReturn :=
  match cfgs with
  | [] => next
  | _ =>
      l ← call (Runners_ (ListProjectRunners pid));
      match r_err l with
      | Some e => mret (fail (ErrWrap ("failed to list runners for project " +:+ Itoa pid +:+ ": ") e))
      | None => updateRunners fail (r_val l) cfgs next
      end
  end.

Definition Runners_Apply (cfg : option PolicyConfig) (project : Project) : GP ApplyReturn :=
  let pid := p_ID project in
  let path := p_PathWithNamespace project in
  match runners_policy cfg with
  | None => mret (noop_apply Runners_Name OnProject pid path)
  | Some desired =>
      planThenApply (Runners_Plan cfg project)
        (noop_apply Runners_Name OnProject pid path)
        (failed Runners_Name OnProject pid path ActionNoop [])
        (fun plan =>
           let fail := failed Runners_Name OnProject pid path ActionUpdate (pl_Diffs plan) in
           let finish := mret (succeeded Runners_Name OnProject pid path ActionUpdate (pl_Diffs plan)) in
           if is_some (rns_SharedRunnersEnabled desired) || is_some (rns_GroupRunnersEnabled desired) then
             r ← call (Projects (EditProject pid (toRunnerSwitches desired)));
             match r_err r with
             | Some e => mret (fail (ErrWrap ("failed to update project runner settings for " +:+ Itoa pid +:+ ": ") e))
             | None => enforceRunners fail pid (rns_Runners desired) finish
             end
           else enforceRunners fail pid (rns_Runners desired) finish)
  end.

Definition Runners_PlanGroup (cfg : option PolicyConfig) (group : Group) : GP PlanReturn :=
  mret (skipped_plan Runners_Name OnGroup (g_ID group) (g_FullPath group)
          "Runner project policy is not applicable to groups").

Definition Runners_ApplyGroup (cfg : option PolicyConfig) (group : Group) : GP ApplyReturn :=
  mret (skipped_apply Runners_Name OnGroup (g_ID group) (g_FullPath group)
          "Runner project policy is not applicable to groups").

Definition NewRunnersReconciler : GovernanceOperation := {|
  op_Name := Runners_Name;
  op_Order := Runners_Order;
  op_Plan := Runners_Plan;
  op_Apply := Runners_Apply;
  op_PlanGroup := Runners_PlanGroup;
  op_ApplyGroup := Runners_ApplyGroup
|}.

(** ** Specification *)

Definition switches_meet (desired : RunnersConfig) (p : Project) : Prop :=
  (forall b, rns_SharedRunnersEnabled desired = Some b -> p_SharedRunnersEnabled p = b) /\
  (forall b, rns_GroupRunnersEnabled desired = Some b -> p_GroupRunnersEnabled p = b).

(** What the plan compares of a runner; its description is not. *)
Definition runner_meets (cfg : RunnerConfig) (d : RunnerDetails) : Prop :=
  (forall b, rn_Paused cfg = Some b -> rd_Paused d = b) /\
  (forall b, rn_Locked cfg = Some b -> rd_Locked d = b) /\
  (forall b, rn_RunUntagged cfg = Some b -> rd_RunUntagged d = b) /\
  (rn_AccessLevel cfg = "" \/ rd_AccessLevel d = rn_AccessLevel cfg) /\
  (forall z, rn_MaximumTimeout cfg = Some z -> rd_MaximumTimeout d = z) /\
  (rn_TagList cfg = [] \/ rn_TagList cfg ≡ₚ rd_TagList d).

(** GitLab's runners API, for one project. *)
Record runner_server {W} (h : handler GitLabE W) (pid : Z) (proj : W -> Project) (runners : W -> list Runner)
    (details : W -> Z -> RunnerDetails) : Prop := {
  rv_project : forall w, h _ (Projects (GetProject pid)) w = (reply_ok (Some (proj w)), w);
  rv_list : forall w, (length (runners w) <= default_page)%nat ->
    h _ (Runners_ (ListProjectRunners pid)) w = (reply_ok (runners w), w);
  rv_details : forall i w, h _ (Runners_ (GetRunnerDetails i)) w = (reply_ok (details w i), w)
}.

(** ** Lemmas *)

Lemma tagsEqual_iff a b : tagsEqual a b = true <-> a ≡ₚ b.
Proof.
  unfold tagsEqual. destruct (Nat.eqb_spec (length a) (length b)) as [_|He]; cbn [negb].
  - by rewrite bool_decide_eq_true, sort_Strings_eq_iff.
  - split; [done|]. intros Hp. by apply Permutation_length in Hp.
Qed.

Lemma settingsDiff_quiet p desired : Diff_HasChanges (settingsDiff p desired) = false <-> switches_meet desired p.
Proof.
  unfold settingsDiff, switches_meet. rewrite Build_HasChanges; [|by autorewrite with diff|done..].
  autorewrite with diff. rewrite !CompareBoolPtr_None. simpl. tauto.
Qed.

Lemma runnerDiff_quiet cfg i d : Diff_HasChanges (runnerDiff cfg i d) = false <-> runner_meets cfg d.
Proof.
  unfold runnerDiff, runner_meets. rewrite Build_HasChanges; [|by autorewrite with diff|done..].
  autorewrite with diff.
  rewrite !CompareBoolPtr_None, CompareIntPtr_None, !andb_false_iff, !negb_false_iff, !String.eqb_eq, tagsEqual_iff.
  assert ((0 <? length (rn_TagList cfg))%nat = false <-> rn_TagList cfg = []) as ->.
  { destruct (rn_TagList cfg); simpl; [done|]. by split. }
  simpl. tauto.
Qed.

Lemma append_changed_nil diffs d : append_changed diffs d = [] <-> diffs = [] /\ Diff_HasChanges d = false.
Proof. unfold append_changed. destruct (Diff_HasChanges d); rewrite ?app_nil; naive_solver. Qed.

Lemma runnersDiffs_reads existing cfgs diffs : reads (runnersDiffs existing cfgs diffs).
Proof.
  revert diffs. induction cfgs as [|cfg cfgs IH]; intros diffs; cbn [runnersDiffs]; [done|].
  destruct (findMatchingRunner cfg existing); [|apply IH]. apply reads_bind; [by apply reads_call|].
  intros reply. by destruct (r_err reply).
Qed.

Lemma Runners_Plan_reads cfg p : reads (Runners_Plan cfg p).
Proof.
  unfold Runners_Plan. destruct (runners_policy cfg) as [desired|]; [|done]. apply reads_bind; [|done].
  unfold calculateProjectDiffs. apply reads_bind; [by apply reads_call|]. intros r. destruct (r_err r); [done|].
  destruct (rns_Runners desired); [done|].
  apply reads_bind; [by apply reads_call|]. intros l1. destruct (r_err l1); [done|]. apply runnersDiffs_reads.
Qed.

#[export] Instance Runners_DryRun : DryRun NewRunnersReconciler.
Proof. split; intros; [apply Runners_Plan_reads|done]. Qed.

#[export] Instance Runners_NoopQuiet : NoopQuiet NewRunnersReconciler.
Proof.
  split; intros; simpl; [unfold Runners_Plan; always|done| |by intros W h w r _ _ _; constructor].
  unfold Runners_Apply. destruct (runners_policy cfg) eqn:E.
  - apply planThenApply_quiet, Runners_Plan_reads.
  - intros W h w r _ _ _. constructor.
Qed.

(** Declared runners that match nothing. *)
Lemma runnersDiffs_missing existing cfgs diffs :
  Forall (fun c => findMatchingRunner c existing = None) cfgs ->
  runnersDiffs existing cfgs diffs = mret (inr (diffs ++ (missingRunnerDiff <$> cfgs))).
Proof.
  intros Hm. revert diffs. induction Hm as [|c cfgs Hc _ IH]; intros diffs; cbn [runnersDiffs].
  - by rewrite app_nil_r.
  - rewrite Hc, IH. by rewrite <- app_assoc.
Qed.

Lemma updateRunners_missing fail existing cfgs next :
  Forall (fun c => findMatchingRunner c existing = None) cfgs -> updateRunners fail existing cfgs next = next.
Proof. induction 1 as [|c cfgs Hc _ IH]; cbn [updateRunners]; [done|]. by rewrite Hc. Qed.

Section Server.
Context {W : Type} (h : handler GitLabE W) (pid : Z) (proj : W -> Project) (runners : W -> list Runner)
  (details : W -> Z -> RunnerDetails) (srv : runner_server h pid proj runners details).

(** A declared runner is assigned to the project and has what is declared. *)
Definition runner_ok (w : W) (cfg : RunnerConfig) : Prop :=
  exists r, findMatchingRunner cfg (runners w) = Some r /\ runner_meets cfg (details w (rr_ID r)).

Lemma runnersDiffs_run cfgs diffs w :
  exists ds, run h (runnersDiffs (runners w) cfgs diffs) w = (inr ds, w) /\
    (ds = [] <-> diffs = [] /\ Forall (runner_ok w) cfgs).
Proof using srv.
  revert diffs. induction cfgs as [|cfg cfgs IH]; intros diffs; cbn [runnersDiffs].
  { exists diffs. split; [done|]. split; [intros; by split|by intros []]. }
  setoid_rewrite Forall_cons. unfold runner_ok at 1. destruct (findMatchingRunner cfg (runners w)) as [r|].
  - rewrite run_bind, run_call, (rv_details _ _ _ _ _ srv). cbn [r_err r_val reply_ok].
    destruct (IH (append_changed diffs (runnerDiff cfg (rr_ID r) (details w (rr_ID r))))) as (ds & -> & Hds).
    exists ds. split; [done|]. rewrite Hds, append_changed_nil, runnerDiff_quiet. naive_solver.
  - destruct (IH (diffs ++ [missingRunnerDiff cfg])) as (ds & -> & Hds). exists ds. split; [done|].
    rewrite Hds, app_nil. naive_solver.
Qed.

End Server.

(** ** Properties *)

(** A runners plan is exact: on a project whose runners fit one page, it
    answers, and reports no change exactly when the project's switches are as
    declared and every declared runner is assigned to the project with the
    attributes declared for it, tags in any order. *)
Theorem Runners_Plan_exact {W} (h : handler GitLabE W) proj runners details cfg project desired
    (srv : runner_server h (p_ID project) proj runners details) w :
  runners_policy cfg = Some desired -> (length (runners w) <= default_page)%nat ->
  exists r, run h (Runners_Plan cfg project) w = ((Some r, None), w) /\
    (pl_HasChanges r = false <->
     switches_meet desired (proj w) /\ Forall (runner_ok runners details w) (rns_Runners desired)).
Proof.
  intros Hp Hlen. unfold Runners_Plan, calculateProjectDiffs. rewrite Hp, !run_bind, run_call, (rv_project _ _ _ _ _ srv).
  cbn [r_err r_val reply_ok].
  assert (exists ds, run h match rns_Runners desired with
    | [] => mret (inr (append_changed [] (settingsDiff (proj w) desired)))
    | cfgs => l ← call (Runners_ (ListProjectRunners (p_ID project)));
        match r_err l with
        | Some e => mret (inl (ErrWrap ("failed to list project runners for " +:+ Itoa (p_ID project) +:+ ": ") e))
        | None => runnersDiffs (r_val l) cfgs (append_changed [] (settingsDiff (proj w) desired))
        end
    end w = (inr ds, w) /\ (ds = [] <-> switches_meet desired (proj w) /\
      Forall (runner_ok runners details w) (rns_Runners desired))) as (ds & -> & Hds).
  { setoid_rewrite <- settingsDiff_quiet. destruct (rns_Runners desired) as [|c cs].
    - eexists. split; [done|]. rewrite append_changed_nil. split; [intros []; by split|by intros []].
    - rewrite run_bind, run_call, (rv_list _ _ _ _ _ srv) by done. cbn [r_err r_val reply_ok].
      destruct (runnersDiffs_run h _ proj runners details srv (c :: cs) (append_changed [] (settingsDiff (proj w) desired)) w)
        as (ds & Hr & Hds).
      exists ds. split; [done|]. rewrite Hds, append_changed_nil. tauto. }
  rewrite run_ret. destruct (length ds =? 0)%nat eqn:El.
  - apply Nat.eqb_eq, nil_length_inv in El. subst ds. eexists. split; [done|]. rewrite <- Hds. done.
  - eexists. split; [done|]. rewrite <- Hds. by apply NewPlanResult_changes.
Qed.

(** A runner that is not assigned to the project is reported as applied:
    when the policy declares only runners that match none of the project's, an
    enforcement makes no call that changes anything, and still returns success
    with a diff for every one of them, which the next plan reports again. *)
Theorem Runners_missing_applied {W} (h : handler GitLabE W) proj runners details cfg project desired
    (srv : runner_server h (p_ID project) proj runners details) w :
  runners_policy cfg = Some desired -> (length (runners w) <= default_page)%nat ->
  rns_SharedRunnersEnabled desired = None -> rns_GroupRunnersEnabled desired = None -> rns_Runners desired <> [] ->
  Forall (fun c => findMatchingRunner c (runners w) = None) (rns_Runners desired) ->
  run h (Runners_Apply cfg project) w =
    (succeeded Runners_Name OnProject (p_ID project) (p_PathWithNamespace project) ActionUpdate
       (missingRunnerDiff <$> rns_Runners desired), w) /\
  Forall (fun c => is_read (projT2 c) = true) (calls h (Runners_Apply cfg project) w) /\
  run h (Runners_Plan cfg project) w =
    (planned Runners_Name OnProject (p_ID project) (p_PathWithNamespace project) ActionUpdate
       (missingRunnerDiff <$> rns_Runners desired), w).
Proof.
  intros Hp Hlen Hs Hg Hne Hmiss.
  assert (run h (Runners_Plan cfg project) w = (planned Runners_Name OnProject (p_ID project)
    (p_PathWithNamespace project) ActionUpdate (missingRunnerDiff <$> rns_Runners desired), w)) as Hplan.
  { unfold Runners_Plan, calculateProjectDiffs. rewrite Hp, !run_bind, run_call, (rv_project _ _ _ _ _ srv).
    cbn [r_err r_val reply_ok]. assert (append_changed [] (settingsDiff (proj w) desired) = []) as ->.
    { apply append_changed_nil. split; [done|]. apply settingsDiff_quiet. unfold switches_meet. by rewrite Hs, Hg. }
    destruct (rns_Runners desired) as [|c cs]; [done|]. rewrite run_bind, run_call, (rv_list _ _ _ _ _ srv) by done.
    cbn [r_err r_val reply_ok]. by rewrite runnersDiffs_missing. }
  set (ds := missingRunnerDiff <$> rns_Runners desired) in *.
  assert (pl_HasChanges (NewPlanResult Runners_Name (kind_type OnProject) (p_ID project) (p_PathWithNamespace project)
            ActionUpdate ds) = true) as Hch.
  { apply not_false_is_true. intros Hf. apply NewPlanResult_changes in Hf; [|done..]. unfold ds in Hf.
    by apply fmap_nil_iff in Hf. }
  assert (forall fail next, enforceRunners fail (p_ID project) (rns_Runners desired) next =
    (l ← call (Runners_ (ListProjectRunners (p_ID project)));
     match r_err l with
     | Some e => mret (fail (ErrWrap ("failed to list runners for project " +:+ Itoa (p_ID project) +:+ ": ") e))
     | None => updateRunners fail (r_val l) (rns_Runners desired) next
     end)) as Hen by (intros fail next; by destruct (rns_Runners desired)).
  split_and!; [|..|exact Hplan].
  - unfold Runners_Apply. rewrite Hp, (planThenApply_run h _ _ _ _ _ _ _ Hplan), Hch, Hs, Hg. cbn [is_some orb].
    rewrite Hen, run_bind, run_call, (rv_list _ _ _ _ _ srv) by done. cbn [r_err r_val reply_ok].
    by rewrite updateRunners_missing.
  - unfold Runners_Apply, planThenApply. rewrite Hp, calls_bind, Hplan. apply Forall_app. split.
    { apply calls_reads, Runners_Plan_reads. }
    cbn [planned fst snd]. rewrite Hch, Hs, Hg. cbn [negb is_some orb].
    rewrite Hen, calls_bind, run_call, (rv_list _ _ _ _ _ srv) by done. cbn [r_err r_val reply_ok].
    rewrite updateRunners_missing by done. apply Forall_app. split; [|constructor].
    apply calls_reads. by apply reads_call.
Qed.

(** ** A concrete server *)

Definition demo_runner_server : handler GitLabE (list (Runner * RunnerDetails)) := fun X e w =>
  match e in GitLabE X return X * list (Runner * RunnerDetails) with
  | Projects e =>
      match e in ProjectsE X return X * list (Runner * RunnerDetails) with
      | GetProject _ => (reply_ok (Some demo_project), w) | e => (absent_call (Projects e), w)
      end
  | Runners_ e =>
      match e in RunnersE X return X * list (Runner * RunnerDetails) with
      | ListProjectRunners _ => (reply_ok (take default_page (fst <$> w)), w)
      | GetRunnerDetails i =>
          (reply_ok match List.find (fun r => rr_ID r.1 =? i) w with
                    | Some r => r.2 | None => Build_RunnerDetails false false false "" 0 [] end, w)
      | UpdateRunnerDetails i opt => (reply_ok tt, w)
      end
  | e => (absent_call e, w)
  end.

Definition demo_details (w : list (Runner * RunnerDetails)) (i : Z) : RunnerDetails :=
  match List.find (fun r => rr_ID r.1 =? i) w with Some r => r.2 | None => Build_RunnerDetails false false false "" 0 [] end.

Lemma demo_runner_server_ok : runner_server demo_runner_server 42 (fun _ => demo_project) (fun w => fst <$> w) demo_details.
Proof. split; intros; try done. simpl. by rewrite take_ge. Qed.

Definition demo_runner (id : Z) (tags : list string) : RunnerConfig := {|
  rn_ID := id; rn_Description := ""; rn_Paused := Some false; rn_Locked := None; rn_TagList := tags;
  rn_RunUntagged := None; rn_AccessLevel := "not_protected"; rn_MaximumTimeout := None |}.

Definition demo_runners_cfg (l : list RunnerConfig) : option PolicyConfig := with_policies
  (Build_PoliciesConfig None [] None None None None None []
     (Some {| rns_SharedRunnersEnabled := None; rns_GroupRunnersEnabled := None; rns_Runners := l |}) None [] None None [] []).

Definition demo_runners : list (Runner * RunnerDetails) :=
  [({| rr_ID := 1; rr_Description := "docker" |}, Build_RunnerDetails false true true "not_protected" 0 ["b"; "a"])].

Lemma Runners_Plan_exact_witness :
  exists r, run demo_runner_server (Runners_Plan (demo_runners_cfg [demo_runner 1 ["a"; "b"]]) demo_project) demo_runners
      = ((Some r, None), demo_runners) /\ pl_HasChanges r = false.
Proof.
  destruct (Runners_Plan_exact demo_runner_server _ _ _ (demo_runners_cfg [demo_runner 1 ["a"; "b"]]) demo_project
    {| rns_SharedRunnersEnabled := None; rns_GroupRunnersEnabled := None; rns_Runners := [demo_runner 1 ["a"; "b"]] |}
    demo_runner_server_ok demo_runners eq_refl ltac:(apply Nat.leb_le; vm_compute; reflexivity)) as (r & Hr & Hc).
  exists r. split; [exact Hr|]. apply Hc. split; [done|]. constructor; [|constructor].
  eexists. split; [reflexivity|]. repeat split; try done; [by intros b [= <-]|by right|]. right. simpl. apply Permutation_swap.
Defined.

Lemma Runners_missing_applied_witness :
  run demo_runner_server (Runners_Apply (demo_runners_cfg [demo_runner 2 []]) demo_project) demo_runners =
    (succeeded Runners_Name OnProject 42 "platform/api" ActionUpdate [missingRunnerDiff (demo_runner 2 [])], demo_runners).
Proof.
  apply (Runners_missing_applied demo_runner_server _ _ _ (demo_runners_cfg [demo_runner 2 []]) demo_project
    {| rns_SharedRunnersEnabled := None; rns_GroupRunnersEnabled := None; rns_Runners := [demo_runner 2 []] |}
    demo_runner_server_ok demo_runners eq_refl ltac:(apply Nat.leb_le; vm_compute; reflexivity)); try done.
  by repeat constructor.
Defined.
