(* ===== verification/Members.v ===== *)
(** * Members: internal/governance/members.go

    The audit of who may access a project or a group.  It never changes
    anything, enforced or not ([Members_audit_only]); [Members_Plan_exact] says
    which members it reports: those of the first page that GitLab lists, since
    the listings are not paginated.  Times are Unix times; the calendar belongs
    to the process's time zone ([GoCalendar]). *)

From S2P Require Import Prelude GoLib Config GitLabAPI Server Governance.
Local Open Scope string_scope.
Local Open Scope list_scope.
Local Open Scope Z_scope.

Definition Members_Name : string := "members".
Definition Members_Order : Z := 100.

Inductive ViolationSeverity : Type := SeverityCritical | SeverityHigh | SeverityMedium | SeverityLow.

Record MemberViolation : Type := {
  mv_Username : string;
  mv_AccessLevel : Z;
  mv_IsDirect : bool;
  mv_Severity : ViolationSeverity;
  mv_ViolationType : string;
  mv_Message : string
}.

(** [t.AddDate(0, 0, days)] and [t.Format("2006-01-02")]. *)
Class GoCalendar : Type := { AddDays : Z -> Z -> Z; FormatDay : Z -> string }.

(** One finding: the violation and the field of its diff; its message is the
    details of the diff. *)
Definition memberDiff (v : MemberViolation) (field : string) (old new : value) : Diff :=
  Build (SetDetails (AddField NewDiffBuilder field old new ActionAudit) (mv_Message v))
    ("member:" +:+ mv_Username v) ActionAudit.

Definition deniedSet (policy : MembersConfig) : gset string := list_to_set (ToLower <$> mb_DeniedMembers policy).

Definition finding_if (c : bool) (v : MemberViolation) (field : string) (old new : value)
  : list (MemberViolation * Diff) := if c then [(v, memberDiff v field old new)] else [].

Definition violation (m : Member) (direct : bool) (severity : ViolationSeverity) (kind message : string) : MemberViolation :=
  {| mv_Username := me_Username m; mv_AccessLevel := me_AccessLevel m; mv_IsDirect := direct; mv_Severity := severity;
     mv_ViolationType := kind; mv_Message := message |}.

Definition is_denied (policy : MembersConfig) (m : Member) : bool := bool_decide (ToLower (me_Username m) ∈ deniedSet policy).

Definition checkDenied (policy : MembersConfig) (m : Member) (direct : bool) : list (MemberViolation * Diff) :=
  finding_if (is_denied policy m)
    (violation m direct SeverityCritical "DENIED_MEMBER"
       ("User '" +:+ me_Username m +:+ "' is present in denied_members policy"))
    "denied_member" (VStr (me_Username m)) VNil.

Section Members.
Context `{GoCalendar}.

(** The five checks of a member of a project, in order. *)
Definition checkMember (policy : MembersConfig) (now : Z) (direct : bool) (m : Member) : list (MemberViolation * Diff) :=
  let name := me_Username m in
  let level := me_AccessLevel m in
  checkDenied policy m direct
  ++ match mb_MaxAccessLevel policy with
     | Some max =>
         finding_if (max <? level)
           (violation m direct SeverityHigh "OVER_PRIVILEGED"
              ("User '" +:+ name +:+ "' has access level " +:+ Itoa level +:+ " exceeding max " +:+ Itoa max))
           "access_level" (VInt level) (VInt max)
     | None => []
     end
  ++ match mb_MinAccessLevel policy with
     | Some min =>
         finding_if (level <? min)
           (violation m direct SeverityLow "UNDER_PRIVILEGED"
              ("User '" +:+ name +:+ "' has access level " +:+ Itoa level +:+ " below min " +:+ Itoa min))
           "access_level" (VInt level) (VInt min)
     | None => []
     end
  ++ (if direct then
        finding_if (set_opt (mb_EnforceExpiresAt policy) false && negb (is_some (me_ExpiresAt m)))
          (violation m true SeverityMedium "MISSING_EXPIRATION"
             ("Direct member '" +:+ name +:+ "' has no expiration date configured"))
          "expires_at" VNil (VStr "<configured_date>")
        ++ match mb_MaxExpirationDays policy, me_ExpiresAt m with
           | Some days, Some expires =>
               finding_if (AddDays now days <? expires)
                 (violation m true SeverityMedium "EXCESSIVE_EXPIRATION"
                    ("Direct member '" +:+ name +:+ "' expiration " +:+ FormatDay expires +:+ " exceeds max " +:+ Itoa days
                       +:+ " days"))
                 "expires_at" (VStr (FormatDay expires)) (VStr (FormatDay (AddDays now days)))
           | _, _ => []
           end
      else []).

(** The loop over all members; a direct member is one whose number the direct
    listing has. *)
Definition memberFindings (policy : MembersConfig) (now : Z) (direct all : list Member) : list (MemberViolation * Diff) :=
  all ≫= (fun m => checkMember policy now (bool_decide (me_ID m ∈ (list_to_set (me_ID <$> direct) : gset Z))) m).

Definition groupFindings (policy : MembersConfig) (all : list Member) : list (MemberViolation * Diff) :=
  all ≫= (fun m => checkDenied policy m false).

(** The members of a reply, whose entries may be nil. *)
Definition present (l : list (option Member)) : list Member := omap id l.

Definition auditProjectMembers (policy : MembersConfig) (pid : Z) : GP (error + list (MemberViolation * Diff)) :=
  d ← call (Members_ (ListProjectMembers pid));
  match r_err d with
  | Some e => mret (inl (ErrWrap ("failed to list direct project members for " +:+ Itoa pid +:+ ": ") e))
  | None =>
      a ← call (Members_ (ListAllProjectMembers pid));
      match r_err a with
      | Some e => mret (inl (ErrWrap ("failed to list all project members for " +:+ Itoa pid +:+ ": ") e))
      | None =>
          now ← call (Clock_ Now);
          mret (inr (memberFindings policy now (present (r_val d)) (present (r_val a))))
      end
  end.

(** A group's members are only checked against the denied ones. *)
Definition auditGroupMembers (policy : MembersConfig) (gid : Z) : GP (error + list (MemberViolation * Diff)) :=
  a ← call (Members_ (ListAllGroupMembers gid));
  mret match r_err a with
       | Some e => inl (ErrWrap ("failed to list all group members for " +:+ Itoa gid +:+ ": ") e)
       | None => inr (groupFindings policy (present (r_val a)))
       end.

Definition members_policy (cfg : option PolicyConfig) : option MembersConfig :=
  match cfg with Some c => pol_Members (cfg_Policies c) | None => None end.

(** [Plan] and [PlanGroup], which differ in the audit. *)
Definition planMembers (k : scope_kind) (rid : Z) (path : string) (audit : GP (error + list (MemberViolation * Diff)))
  : GP PlanReturn :=
  r ← audit;
  mret match r with
       | inl e => (None, Some e)
       | inr findings =>
           if (length (fst <$> findings) =? 0)%nat && (length (snd <$> findings) =? 0)%nat then noop_plan Members_Name k rid path
           else planned Members_Name k rid path ActionAudit (snd <$> findings)
       end.

Definition Members_Plan (cfg : option PolicyConfig) (project : Project) : GP PlanReturn :=
  match members_policy cfg with
  | None => mret (noop_plan Members_Name OnProject (p_ID project) (p_PathWithNamespace project))
  | Some policy =>
      planMembers OnProject (p_ID project) (p_PathWithNamespace project) (auditProjectMembers policy (p_ID project))
  end.

Definition Members_PlanGroup (cfg : option PolicyConfig) (group : Group) : GP PlanReturn :=
  match members_policy cfg with
  | None => mret (noop_plan Members_Name OnGroup (g_ID group) (g_FullPath group))
  | Some policy => planMembers OnGroup (g_ID group) (g_FullPath group) (auditGroupMembers policy (g_ID group))
  end.

(** [Apply] and [ApplyGroup]: the plan, reported as a success. *)
Definition applyMembers (k : scope_kind) (rid : Z) (path : string) (plan : GP PlanReturn) : GP ApplyReturn :=
  planThenApply plan (noop_apply Members_Name k rid path) (failed Members_Name k rid path ActionNoop [])
    (fun p => mret (succeeded Members_Name k rid path (pl_Action p) (pl_Diffs p))).

Definition Members_Apply (cfg : option PolicyConfig) (project : Project) : GP ApplyReturn :=
  match members_policy cfg with
  | None => mret (noop_apply Members_Name OnProject (p_ID project) (p_PathWithNamespace project))
  | Some _ => applyMembers OnProject (p_ID project) (p_PathWithNamespace project) (Members_Plan cfg project)
  end.

Definition Members_ApplyGroup (cfg : option PolicyConfig) (group : Group) : GP ApplyReturn :=
  match members_policy cfg with
  | None => mret (noop_apply Members_Name OnGroup (g_ID group) (g_FullPath group))
  | Some _ => applyMembers OnGroup (g_ID group) (g_FullPath group) (Members_PlanGroup cfg group)
  end.

Definition NewMembersReconciler : GovernanceOperation := {|
  op_Name := Members_Name;
  op_Order := Members_Order;
  op_Plan := Members_Plan;
  op_Apply := Members_Apply;
  op_PlanGroup := Members_PlanGroup;
  op_ApplyGroup := Members_ApplyGroup
|}.

(** ** Specification *)

(** A member the policy has nothing to say about. *)
Definition not_denied (policy : MembersConfig) (m : Member) : Prop :=
  ToLower (me_Username m) ∉ ToLower <$> mb_DeniedMembers policy.

Definition compliant (policy : MembersConfig) (now : Z) (direct : bool) (m : Member) : Prop :=
  not_denied policy m /\
  (forall max, mb_MaxAccessLevel policy = Some max -> me_AccessLevel m <= max) /\
  (forall min, mb_MinAccessLevel policy = Some min -> min <= me_AccessLevel m) /\
  (direct = true ->
     (mb_EnforceExpiresAt policy = Some true -> is_Some (me_ExpiresAt m)) /\
     (forall days expires, mb_MaxExpirationDays policy = Some days -> me_ExpiresAt m = Some expires ->
        expires <= AddDays now days)).

(** GitLab's member listings: the first page of each. *)
Record member_server {W} (h : handler GitLabE W) (direct all : W -> Z -> list Member) (group_all : W -> Z -> list Member)
    (now : Z) : Prop := {
  ms_direct : forall pid w, h _ (Members_ (ListProjectMembers pid)) w = (reply_ok (Some <$> take default_page (direct w pid)), w);
  ms_all : forall pid w, h _ (Members_ (ListAllProjectMembers pid)) w = (reply_ok (Some <$> take default_page (all w pid)), w);
  ms_group : forall gid w, h _ (Members_ (ListAllGroupMembers gid)) w = (reply_ok (Some <$> take default_page (group_all w gid)), w);
  ms_now : forall w, h _ (Clock_ Now) w = (now, w)
}.

(** ** Lemmas *)

Lemma finding_if_nil c v f o n : finding_if c v f o n = [] <-> c = false.
Proof. by destruct c. Qed.

Lemma is_denied_iff policy m : is_denied policy m = false <-> not_denied policy m.
Proof. unfold is_denied, not_denied, deniedSet. by rewrite bool_decide_eq_false, elem_of_list_to_set. Qed.

Lemma present_Some l : present (Some <$> l) = l.
Proof. apply omap_id_Some. Qed.

Lemma checkMember_nil policy now direct m : checkMember policy now direct m = [] <-> compliant policy now direct m.
Proof.
  unfold checkMember, checkDenied, compliant. cbv zeta. rewrite !app_nil, finding_if_nil, is_denied_iff.
  assert (forall (o : option Z) f (P : Z -> Prop), (forall z, o = Some z -> (f z = [] <-> P z)) ->
    match o with Some z => f z | None => [] end = [] :> list (MemberViolation * Diff) <-> (forall z, o = Some z -> P z)) as Ho.
  { intros [z|] f P Hf; [rewrite (Hf z) by done|]; naive_solver. }
  rewrite (Ho _ _ (fun max => me_AccessLevel m <= max)) by (intros; by rewrite finding_if_nil, Z.ltb_ge).
  rewrite (Ho _ _ (fun min => min <= me_AccessLevel m)) by (intros; by rewrite finding_if_nil, Z.ltb_ge).
  destruct direct; [|naive_solver]. rewrite app_nil, finding_if_nil.
  assert (set_opt (mb_EnforceExpiresAt policy) false && negb (is_some (me_ExpiresAt m)) = false <->
          (mb_EnforceExpiresAt policy = Some true -> is_Some (me_ExpiresAt m))) as ->.
  { destruct (mb_EnforceExpiresAt policy) as [[]|], (me_ExpiresAt m); simpl; split; try done; eauto.
    intros H'. by destruct (H' eq_refl). }
  destruct (mb_MaxExpirationDays policy) as [days|], (me_ExpiresAt m) as [expires|];
    rewrite ?finding_if_nil, ?Z.ltb_ge; naive_solver.
Qed.

Lemma bind_nil_Forall {A B} (f : A -> list B) (P : A -> Prop) l :
  (forall a, f a = [] <-> P a) -> l ≫= f = [] <-> Forall P l.
Proof.
  intros Hf. induction l as [|a l IH]; [by split|]. rewrite bind_cons, app_nil, Forall_cons, IH, Hf. done.
Qed.

Lemma Members_Plan_reads cfg p : reads (Members_Plan cfg p).
Proof. unfold Members_Plan, planMembers, auditProjectMembers. reads. Qed.

Lemma Members_PlanGroup_reads cfg g : reads (Members_PlanGroup cfg g).
Proof. unfold Members_PlanGroup, planMembers, auditGroupMembers. reads. Qed.

Lemma applyMembers_reads k rid path plan : reads plan -> reads (applyMembers k rid path plan).
Proof. intros Hp. apply reads_bind; [done|]. intros [[p|] [e|]]; reads. Qed.

Lemma planMembers_run {W} (h : handler GitLabE W) k rid path audit findings w :
  run h audit w = (inr findings, w) ->
  exists r, run h (planMembers k rid path audit) w = ((Some r, None), w) /\ (pl_HasChanges r = false <-> findings = []).
Proof.
  intros Hr. unfold planMembers. rewrite run_bind, Hr, run_ret, !length_fmap.
  destruct (length findings =? 0)%nat eqn:E; cbn [andb].
  - apply Nat.eqb_eq, nil_length_inv in E. subst. by eexists.
  - eexists. split; [done|]. rewrite NewPlanResult_changes by done. apply fmap_nil_iff.
Qed.

End Members.

#[export] Instance Members_DryRun `{GoCalendar} : DryRun NewMembersReconciler.
Proof. split; intros; [apply Members_Plan_reads|apply Members_PlanGroup_reads]. Qed.

(** ** Properties *)

(** The member audit never changes anything: whatever the policy and the
    server's answers, planning and enforcing, on projects and on groups, only
    make calls that read. *)
Theorem Members_audit_only `{GoCalendar} (cfg : option PolicyConfig) (project : Project) (group : Group) :
  reads (Members_Plan cfg project) /\ reads (Members_Apply cfg project) /\
  reads (Members_PlanGroup cfg group) /\ reads (Members_ApplyGroup cfg group).
Proof.
  split_and!; [apply Members_Plan_reads| |apply Members_PlanGroup_reads|].
  - unfold Members_Apply. destruct (members_policy cfg); [|done]. apply applyMembers_reads, Members_Plan_reads.
  - unfold Members_ApplyGroup. destruct (members_policy cfg); [|done]. apply applyMembers_reads, Members_PlanGroup_reads.
Qed.

#[export] Instance Members_NoopQuiet `{GoCalendar} : NoopQuiet NewMembersReconciler.
Proof.
  split; intros; simpl; [unfold Members_Plan, planMembers; always|unfold Members_PlanGroup, planMembers; always| |];
    intros W h w r _ _ _; apply calls_reads.
  - unfold Members_Apply. destruct (members_policy cfg); [|done]. apply applyMembers_reads, Members_Plan_reads.
  - unfold Members_ApplyGroup. destruct (members_policy cfg); [|done]. apply applyMembers_reads, Members_PlanGroup_reads.
Qed.

(** The member audit reports exactly the violations of the first page: it
    is silent on a project exactly when each of the first twenty members that
    GitLab lists is not denied, is within the access levels and, if among the
    first twenty direct members, has an expiry as required; it is silent on a
    group exactly when none of the first twenty is denied, whatever the policy
    says about levels and expiries.  Members past the first page are not
    audited. *)
Theorem Members_Plan_exact `{GoCalendar} {W} (h : handler GitLabE W) direct all group_all now cfg policy
    (srv : member_server h direct all group_all now) (project : Project) (group : Group) w :
  members_policy cfg = Some policy ->
  (exists r, run h (Members_Plan cfg project) w = ((Some r, None), w) /\
     (pl_HasChanges r = false <->
      Forall (fun m => compliant policy now
                (bool_decide (me_ID m ∈ me_ID <$> take default_page (direct w (p_ID project)))) m)
        (take default_page (all w (p_ID project))))) /\
  (exists r, run h (Members_PlanGroup cfg group) w = ((Some r, None), w) /\
     (pl_HasChanges r = false <-> Forall (not_denied policy) (take default_page (group_all w (g_ID group))))).
Proof.
  intros Hp. unfold Members_Plan, Members_PlanGroup. rewrite Hp. split.
  - edestruct (planMembers_run h OnProject (p_ID project) (p_PathWithNamespace project)
      (auditProjectMembers policy (p_ID project))) as (r & Hr & Hc).
    { unfold auditProjectMembers. rewrite run_bind, run_call, (ms_direct _ _ _ _ _ srv). cbn [r_err r_val reply_ok].
      rewrite run_bind, run_call, (ms_all _ _ _ _ _ srv). cbn [r_err r_val reply_ok].
      rewrite run_bind, run_call, (ms_now _ _ _ _ _ srv), run_ret, !present_Some. reflexivity. }
    exists r. split; [done|]. rewrite Hc. unfold memberFindings. apply bind_nil_Forall. intros m. rewrite checkMember_nil.
    rewrite (bool_decide_ext (me_ID m ∈ list_to_set (C := gset Z) _) (me_ID m ∈ me_ID <$> take default_page (direct w (p_ID project))));
      [done|]. by rewrite elem_of_list_to_set.
  - edestruct (planMembers_run h OnGroup (g_ID group) (g_FullPath group)
      (auditGroupMembers policy (g_ID group))) as (r & Hr & Hc).
    { unfold auditGroupMembers. rewrite run_bind, run_call, (ms_group _ _ _ _ _ srv). cbn [r_err r_val reply_ok].
      rewrite run_ret, present_Some. reflexivity. }
    exists r. split; [done|]. rewrite Hc. unfold groupFindings. apply bind_nil_Forall. intros m.
    unfold checkDenied. by rewrite finding_if_nil, is_denied_iff.
Qed.

(** ** A concrete audit *)

#[local] Instance demo_calendar : GoCalendar := { AddDays now d := now + 86400 * d; FormatDay := Itoa }.

(** Two direct members and an inherited one: a denied user, a maintainer whose
    membership ends in a year, and a guest. *)
Definition demo_members : list Member :=
  [{| me_ID := 1; me_Username := "Mallory"; me_AccessLevel := 30; me_ExpiresAt := Some 86400 |};
   {| me_ID := 2; me_Username := "bob"; me_AccessLevel := 40; me_ExpiresAt := Some (86400 * 365) |};
   {| me_ID := 3; me_Username := "eve"; me_AccessLevel := 10; me_ExpiresAt := None |}].

Definition demo_members_server : handler GitLabE (list Member) := fun X e w =>
  match e in GitLabE X return X * list Member with
  | Members_ e =>
      match e in MembersE X return X * list Member with
      | ListProjectMembers _ => (reply_ok (Some <$> take default_page (take 2 w)), w)
      | ListAllProjectMembers _ | ListAllGroupMembers _ => (reply_ok (Some <$> take default_page w), w)
      end
  | Clock_ e => match e in ClockE X return X * list Member with Now => (0, w) end
  | e => (absent_call e, w)
  end.

Lemma demo_members_server_ok :
  member_server demo_members_server (fun w _ => take 2 w) (fun w _ => w) (fun w _ => w) 0.
Proof. by split. Qed.

Definition demo_members_policy : MembersConfig := {|
  mb_MinAccessLevel := None;
  mb_MaxAccessLevel := Some 40;
  mb_EnforceExpiresAt := Some true;
  mb_MaxExpirationDays := Some 90;
  mb_RemoveInheritedMaintainers := None;
  mb_AllowedMembers := [];
  mb_DeniedMembers := ["mallory"]
|}.

Definition demo_members_cfg : option PolicyConfig := with_policies
  (Build_PoliciesConfig None [] None None None None None [] None None [] (Some demo_members_policy) None [] []).

(** Mallory is denied and the maintainer's membership ends too late, so neither
    the project nor the group is clean. *)
Lemma Members_Plan_exact_witness :
  (length (checkMember demo_members_policy 0 true <$> demo_members) = 3%nat) /\
  (exists r, (run demo_members_server (Members_Plan demo_members_cfg demo_project) demo_members).1 = (Some r, None) /\
     pl_HasChanges r <> false) /\
  (exists r, (run demo_members_server (Members_PlanGroup demo_members_cfg demo_group) demo_members).1 = (Some r, None) /\
     pl_HasChanges r <> false).
Proof.
  destruct (Members_Plan_exact demo_members_server _ _ _ 0 demo_members_cfg demo_members_policy demo_members_server_ok
    demo_project demo_group demo_members eq_refl) as [(r & Hr & Hc) (g & Hg & Hgc)].
  split_and!; [done| |].
  - exists r. rewrite Hr. split; [done|]. rewrite Hc. intros Hall.
    apply Forall_inv in Hall as [Hd _]. apply Hd. simpl. set_solver.
  - exists g. rewrite Hg. split; [done|]. rewrite Hgc. intros Hall.
    apply Forall_inv in Hall. apply Hall. simpl. set_solver.
Defined.
