(* ===== verification/BranchMerges.v ===== *)
(** * Branch merges: internal/governance/branchmerges.go

    A plan looks at the branches and at the open merge request between them; an
    enforcement opens the request if there is none and merges it unless it
    conflicts.  [BranchMerges_merges_clean] is the guarantee that makes this
    safe, on any server that reports a request it cannot merge in one of the
    fields that the code reads ([merge_status_not_read] is one that does not);
    [BranchMerges_plan_misses_merge] shows that a plan
    without changes can be followed by a merge, so this is the one operation
    that is not [NoopQuiet]. *)

From S2P Require Import Prelude GoLib Config GitLabAPI Server Governance.
Local Open Scope string_scope.
Local Open Scope list_scope.
Local Open Scope Z_scope.

Definition BranchMerges_Name : string := "branch_merges".
Definition BranchMerges_Order : Z := 24.

Definition hasConflict (mr : MergeRequest) : bool :=
  mq_HasConflicts mr || (mq_DetailedMergeStatus mr =? "conflict")%string.

Definition autoMerge (rule : BranchMergeRuleConfig) : bool := set_opt (bm_AutoMerge rule) true.

Definition srcBranch (rule : BranchMergeRuleConfig) : string := TrimSpace (bm_SourceBranch rule).
Definition tgtBranch (rule : BranchMergeRuleConfig) : string := TrimSpace (bm_TargetBranch rule).

Definition targetIdentifier (rule : BranchMergeRuleConfig) : string :=
  "mr:" +:+ srcBranch rule +:+ "->" +:+ tgtBranch rule.

(** A nil merge request without an error, which the client never returns, would
    be dereferenced. *)
Definition errNilMergeRequest : error := ErrNew "runtime error: invalid memory address or nil pointer dereference".

Definition sameCommit (src tgt : Branch) : bool :=
  match bn_Commit src, bn_Commit tgt with Some a, Some b => (a =? b)%string | _, _ => false end.

(** What both methods do first: [None] leaves the rule out. *)
Definition inspect (project : Project) (rule : BranchMergeRuleConfig) : GP (error + option (list MergeRequest)) :=
  let id := p_ID project in
  let path := p_PathWithNamespace project in
  if (srcBranch rule =? "")%string || (tgtBranch rule =? "")%string then mret (inr None)
  else
    src ← call (Branches_ (GetBranch id (srcBranch rule)));
    match r_err src with
    | Some e => mret (inl (ErrWrap ("source branch '" +:+ srcBranch rule +:+ "' not found on project " +:+ path +:+ ": ") e))
    | None =>
        tgt ← call (Branches_ (GetBranch id (tgtBranch rule)));
        match r_err tgt with
        | Some e => mret (inl (ErrWrap ("target branch '" +:+ tgtBranch rule +:+ "' not found on project " +:+ path +:+ ": ") e))
        | None =>
            if sameCommit (r_val src) (r_val tgt) then mret (inr None)
            else
              mrs ← call (MergeRequests_ (ListProjectMergeRequests id (srcBranch rule) (tgtBranch rule)));
              mret match r_err mrs with
                   | Some e => inl (ErrWrap ("failed to list merge requests on project " +:+ path +:+ ": ") e)
                   | None => inr (Some (r_val mrs))
                   end
        end
    end.

(** [builder.AddField("mr_iid", iid, iid, action)]. *)
Definition add_iid (b : DiffBuilder) (mr : MergeRequest) (action : ActionType) : DiffBuilder :=
  AddField b "mr_iid" (VInt (mq_IID mr)) (VInt (mq_IID mr)) action.

(** ** Planning *)

Definition planMerge (rule : BranchMergeRuleConfig) (mrs : list MergeRequest) (acc : list Diff * ActionType)
  : list Diff * ActionType :=
  let build b action := Build b (targetIdentifier rule) action in
  match mrs with
  | existingMR :: _ =>
      let open := "(!" +:+ Itoa (mq_IID existingMR) +:+ ")" in
      if hasConflict existingMR then
        let b := AddField NewDiffBuilder "status" (VStr ("open_with_conflicts " +:+ open)) (VStr "leave_open_for_manual_resolution") ActionNoop in
        (acc.1 ++ [build (add_iid b existingMR ActionNoop) ActionNoop], acc.2)
      else if autoMerge rule then
        let b := AddField NewDiffBuilder "status" (VStr ("open_clean " +:+ open)) (VStr "merge") ActionUpdate in
        push_diff acc (build (add_iid b existingMR ActionUpdate) ActionUpdate) ActionUpdate
      else
        let b := AddField NewDiffBuilder "status" (VStr ("open_clean " +:+ open)) (VStr "leave_open") ActionNoop in
        (acc.1 ++ [build b ActionNoop], acc.2)
  | [] =>
      let b := AddField NewDiffBuilder "source_branch" VNil (VStr (srcBranch rule)) ActionCreate in
      let b := AddField b "target_branch" VNil (VStr (tgtBranch rule)) ActionCreate in
      let b := AddField b "action" VNil
                 (VStr (if autoMerge rule then "create_mr_and_auto_merge_if_clean" else "create_mr_only")) ActionCreate in
      push_diff acc (build b ActionCreate) ActionCreate
  end.

Fixpoint planMerges (project : Project) (rules : list BranchMergeRuleConfig) (acc : list Diff * ActionType)
  : GP (error + (list Diff * ActionType)) :=
  match rules with
  | [] => mret (inr acc)
  | rule :: rest =>
      i ← inspect project rule;
      match i with
      | inl e => mret (inl e)
      | inr None => planMerges project rest acc
      | inr (Some mrs) => planMerges project rest (planMerge rule mrs acc)
      end
  end.

(** ** Enforcing *)

Definition createOpts (rule : BranchMergeRuleConfig) : CreateMergeRequestOptions := {|
  cm_SourceBranch := srcBranch rule;
  cm_TargetBranch := tgtBranch rule;
  cm_Title := if (bm_Title rule =? "")%string
              then "Merge branch '" +:+ srcBranch rule +:+ "' into '" +:+ tgtBranch rule +:+ "'" else bm_Title rule;
  cm_Labels := match bm_Labels rule with [] => ["automated"; "fleet-governor"] | l => l end;
  cm_Description := if (bm_Description rule =? "")%string then None else Some (bm_Description rule);
  cm_RemoveSourceBranch := bm_RemoveSourceBranch rule;
  cm_Squash := bm_Squash rule
|}.

Definition acceptOpts (rule : BranchMergeRuleConfig) : AcceptMergeRequestOptions := {|
  am_MergeWhenPipelineSucceeds :=
    match bm_MergeWhenPipelineSucceeds rule with Some b => Some b | None => Some true end;
  am_ShouldRemoveSourceBranch := bm_RemoveSourceBranch rule;
  am_Squash := bm_Squash rule
|}.

(** The merge request to deal with, and the fields reported so far; [None] when
    there is nothing to merge. *)
Definition targetMR (project : Project) (rule : BranchMergeRuleConfig) (mrs : list MergeRequest)
  : GP (error + option (MergeRequest * DiffBuilder)) :=
  let id := p_ID project in
  match mrs with
  | mr :: _ =>
      refreshed ← call (MergeRequests_ (GetMergeRequest id (mq_IID mr)));
      mret (inr (Some (match r_err refreshed, r_val refreshed with None, Some mr' => mr' | _, _ => mr end, NewDiffBuilder)))
  | [] =>
      new ← call (MergeRequests_ (CreateMergeRequest id (createOpts rule)));
      mret match r_err new with
           | Some e =>
               if Contains (ToLower (error_text e)) "no changes" then inr None
               else inl (ErrWrap ("failed to create merge request from '" +:+ srcBranch rule +:+ "' to '" +:+ tgtBranch rule
                           +:+ "' on project " +:+ p_PathWithNamespace project +:+ ": ") e)
           | None =>
               match r_val new with
               | None => inl errNilMergeRequest
               | Some mr => inr (Some (mr, AddField NewDiffBuilder "mr_created" VNil (VInt (mq_IID mr)) ActionCreate))
               end
           end
  end.

Definition finishMerge (project : Project) (rule : BranchMergeRuleConfig) (mr : MergeRequest) (b : DiffBuilder)
    (acc : list Diff * ActionType) : GP (list Diff * ActionType) :=
  let build b action := Build b (targetIdentifier rule) action in
  if hasConflict mr then
    let b := AddField b "status" (VStr "conflicts_detected") (VStr "left_open_for_manual_resolution") ActionNoop in
    let b := AddField (add_iid b mr ActionNoop) "has_conflicts" VNil (VBool true) ActionNoop in
    mret (push_diff acc (build b ActionCreate) ActionCreate)
  else if autoMerge rule then
    accepted ← call (MergeRequests_ (AcceptMergeRequest (p_ID project) (mq_IID mr) (acceptOpts rule)));
    mret match r_err accepted with
         | Some e =>
             let b := AddField b "status" (VStr "clean") (VStr ("auto_merge_error: " +:+ error_text e +:+ " (left open)")) ActionNoop in
             push_diff acc (build (add_iid b mr ActionNoop) ActionCreate) ActionCreate
         | None =>
             let b := AddField b "status" (VStr "open") (VStr "merged") ActionUpdate in
             push_diff acc (build (add_iid b mr ActionUpdate) ActionUpdate) ActionUpdate
         end
  else
    let b := AddField b "status" (VStr "open") (VStr "left_open_auto_merge_disabled") ActionNoop in
    mret (push_diff acc (build (add_iid b mr ActionNoop) ActionCreate) ActionCreate).

(** One round of the loop. *)
Definition applyMerge (project : Project) (rule : BranchMergeRuleConfig) (acc : list Diff * ActionType)
  : GP (error + (list Diff * ActionType)) :=
  i ← inspect project rule;
  match i with
  | inl e => mret (inl e)
  | inr None => mret (inr acc)
  | inr (Some mrs) =>
      t ← targetMR project rule mrs;
      match t with
      | inl e => mret (inl e)
      | inr None => mret (inr acc)
      | inr (Some (mr, b)) => acc ← finishMerge project rule mr b acc; mret (inr acc)
      end
  end.

Fixpoint applyMerges (project : Project) (rules : list BranchMergeRuleConfig) (acc : list Diff * ActionType) : GP ApplyReturn :=
  let id := p_ID project in
  let path := p_PathWithNamespace project in
  match rules with
  | [] => mret (if (length acc.1 =? 0)%nat then noop_apply BranchMerges_Name OnProject id path
                else succeeded BranchMerges_Name OnProject id path acc.2 acc.1)
  | rule :: rest =>
      r ← applyMerge project rule acc;
      match r with
      | inl e => mret (failed BranchMerges_Name OnProject id path acc.2 acc.1 e)
      | inr acc => applyMerges project rest acc
      end
  end.

(** ** The methods *)

Definition merges_policy (cfg : option PolicyConfig) : list BranchMergeRuleConfig :=
  match cfg with Some c => pol_BranchMerges (cfg_Policies c) | None => [] end.

Definition BranchMerges_Plan (cfg : option PolicyConfig) (project : Project) : GP PlanReturn :=
  let id := p_ID project in
  let path := p_PathWithNamespace project in
  match merges_policy cfg with
  | [] => mret (noop_plan BranchMerges_Name OnProject id path)
  | rules =>
      r ← planMerges project rules ([], ActionNoop);
      mret match r with
           | inl e => (None, Some e)
           | inr (diffs, overallAction) =>
               if (length diffs =? 0)%nat then noop_plan BranchMerges_Name OnProject id path
               else planned BranchMerges_Name OnProject id path overallAction diffs
           end
  end.

Definition BranchMerges_Apply (cfg : option PolicyConfig) (project : Project) : GP ApplyReturn :=
  match merges_policy cfg with
  | [] => mret (noop_apply BranchMerges_Name OnProject (p_ID project) (p_PathWithNamespace project))
  | rules => applyMerges project rules ([], ActionNoop)
  end.

Definition BranchMerges_PlanGroup (cfg : option PolicyConfig) (group : Group) : GP PlanReturn :=
  mret (skipped_plan BranchMerges_Name OnGroup (g_ID group) (g_FullPath group)
          "Branch merges governance is not applicable to groups").

Definition BranchMerges_ApplyGroup (cfg : option PolicyConfig) (group : Group) : GP ApplyReturn :=
  mret (skipped_apply BranchMerges_Name OnGroup (g_ID group) (g_FullPath group)
          "Branch merges governance is not applicable to groups").

Definition NewBranchMergesReconciler : GovernanceOperation := {|
  op_Name := BranchMerges_Name;
  op_Order := BranchMerges_Order;
  op_Plan := BranchMerges_Plan;
  op_Apply := BranchMerges_Apply;
  op_PlanGroup := BranchMerges_PlanGroup;
  op_ApplyGroup := BranchMerges_ApplyGroup
|}.

(** ** Specification *)

(** An answer that shows [mr] right before what follows: the request just
    created, the request just read again, or the listed one when reading it
    again failed. *)
Definition shown (project : Project) (rule : BranchMergeRuleConfig) (before : list (sigT (fun X => GitLabE X * X)%type))
    (mr : MergeRequest) : Prop :=
  let id := p_ID project in
  (exists l r, before = l ++ [existT _ (MergeRequests_ (CreateMergeRequest id (createOpts rule)), r)] /\
     r_err r = None /\ r_val r = Some mr) \/
  (exists l iid r, before = l ++ [existT _ (MergeRequests_ (GetMergeRequest id iid), r)] /\
     r_err r = None /\ r_val r = Some mr) \/
  (exists l r rest r', before = l ++ [existT _ (MergeRequests_ (ListProjectMergeRequests id (srcBranch rule) (tgtBranch rule)), r);
                                      existT _ (MergeRequests_ (GetMergeRequest id (mq_IID mr)), r')] /\
     r_err r = None /\ r_val r = mr :: rest /\ (r_err r' <> None \/ r_val r' = None)).

(** A merge is of a request just shown without conflicts, for a rule that asks
    for it and with its options. *)
Definition merge_allowed (project : Project) (rules : list BranchMergeRuleConfig)
    (before : list (sigT (fun X => GitLabE X * X)%type)) (c : sigT (fun X => GitLabE X * X)%type) : Prop :=
  match (projT2 c).1 with
  | MergeRequests_ e =>
      match e with
      | AcceptMergeRequest pid iid opt =>
          pid = p_ID project /\
          exists rule mr, rule ∈ rules /\ autoMerge rule = true /\ opt = acceptOpts rule /\
            shown project rule before mr /\ hasConflict mr = false /\ iid = mq_IID mr
      | _ => True
      end
  | _ => True
  end.

(** A conflict in the sense of docs/operations.md, which names three
    indicators; the code reads the first two. *)
Definition conflicting (mr : MergeRequest) : Prop :=
  mq_HasConflicts mr = true \/ mq_DetailedMergeStatus mr = "conflict" \/ mq_MergeStatus mr = "cannot_be_merged".

(** GitLab's documentation of [merge_status]: a merge request that cannot be
    merged has conflicts, and its other fields show them. *)
Definition mr_settled (mr : MergeRequest) : Prop :=
  mq_MergeStatus mr = "cannot_be_merged" -> mq_HasConflicts mr = true \/ mq_DetailedMergeStatus mr = "conflict".

Definition settled_answer (c : sigT (fun X => GitLabE X * X)%type) : Prop :=
  let (X, ex) := c in
  match ex.1 in GitLabE X return X -> Prop with
  | MergeRequests_ e =>
      match e in MergeRequestsE X return X -> Prop with
      | ListProjectMergeRequests _ _ _ => fun r => Forall mr_settled (r_val r)
      | GetMergeRequest _ _ | CreateMergeRequest _ _ => fun r => forall mr, r_val r = Some mr -> mr_settled mr
      | AcceptMergeRequest _ _ _ => fun _ => True
      end
  | _ => fun _ => True
  end ex.2.

(** A merge is of a request just shown, whose indicators name no conflict, for a
    rule that asks for it and with its options. *)
Definition merge_clean (project : Project) (rules : list BranchMergeRuleConfig)
    (before : list (sigT (fun X => GitLabE X * X)%type)) (c : sigT (fun X => GitLabE X * X)%type) : Prop :=
  forall pid iid opt x, c = existT _ (MergeRequests_ (AcceptMergeRequest pid iid opt), x) ->
    pid = p_ID project /\
    exists rule mr, rule ∈ rules /\ autoMerge rule = true /\ opt = acceptOpts rule /\
      shown project rule before mr /\ ~ conflicting mr /\ iid = mq_IID mr.

(** ** Lemmas *)

Lemma shown_settled project rule before mr : Forall settled_answer before -> shown project rule before mr -> mr_settled mr.
Proof.
  intros Hs [(l & r & -> & _ & Hv)|[(l & iid & r & -> & _ & Hv)|(l & r & rest & r' & -> & _ & Hv & _)]];
    apply Forall_app in Hs as [_ Hs]; rewrite ?Forall_cons in Hs; destruct Hs as [Hs _]; cbn in Hs.
  - by apply Hs.
  - by apply Hs.
  - rewrite Hv, Forall_cons in Hs. tauto.
Qed.

(** Without a conflict in the fields the code reads there is none. *)
Lemma settled_clean mr : mr_settled mr -> hasConflict mr = false -> ~ conflicting mr.
Proof.
  unfold mr_settled, hasConflict, conflicting. rewrite orb_false_iff, String.eqb_neq. intros Hs [H1 H2] [H|[H|H]]; [congruence..|].
  destruct (Hs H); congruence.
Qed.

Lemma merge_allowed_clean project rules before c :
  Forall settled_answer before -> merge_allowed project rules before c -> merge_clean project rules before c.
Proof.
  intros Hs Hc pid iid opt x ->. destruct Hc as (Hp & rule & mr & ? & ? & ? & ? & ? & ?).
  split; [done|]. exists rule, mr. split_and!; try done. eauto using settled_clean, shown_settled.
Qed.

Lemma shown_prefix project rule l before mr : shown project rule before mr -> shown project rule (l ++ before) mr.
Proof.
  intros [(l' & r & -> & H)|[(l' & iid & r & -> & H)|(l' & r & rest & r' & -> & H)]]; [left|right; left|right; right];
    rewrite app_assoc; eauto 8.
Qed.

Lemma merge_allowed_prefix project rules l before c :
  merge_allowed project rules before c -> merge_allowed project rules (l ++ before) c.
Proof.
  unfold merge_allowed. destruct (projT2 c).1 as [? e|? e|? e|? e|? e|? e|? e|? e|? e|? e|? e|? e|? e|? e|? e|? e|? e|? e|? e|? e|? e]; try done.
  destruct e; try done. intros (? & rule & mr & ? & ? & ? & ? & ? & ?). split; [done|]. exists rule, mr. split_and!; try done.
  by apply shown_prefix.
Qed.

(** Calls that merge nothing. *)
Lemma quiet_cons project rules {X} (e : GitLabE X) x l :
  (forall before, merge_allowed project rules before (existT X (e, x))) ->
  each_after (merge_allowed project rules) l -> each_after (merge_allowed project rules) (existT X (e, x) :: l).
Proof. intros He. apply each_after_cons; [apply merge_allowed_prefix|apply He]. Qed.

(** The inspection ends with the listing it returns and merges nothing. *)
Lemma inspect_trace {W} (h : handler GitLabE W) project rules rule w :
  each_after (merge_allowed project rules) (trace h (inspect project rule) w) /\
  (forall mrs w', run h (inspect project rule) w = (inr (Some mrs), w') ->
     exists l r, trace h (inspect project rule) w =
       l ++ [existT _ (MergeRequests_ (ListProjectMergeRequests (p_ID project) (srcBranch rule) (tgtBranch rule)), r)] /\
       r_err r = None /\ r_val r = mrs).
Proof.
  unfold inspect. cbv zeta. destruct (_ || _); [split; [apply each_after_nil|done]|].
  rewrite trace_call, run_bind, run_call. destruct (h _ _ w) as [src w1].
  destruct (r_err src); [split; [(apply quiet_cons; [done|]); apply each_after_nil|done]|].
  rewrite trace_call, run_bind, run_call. destruct (h _ _ w1) as [tgt w2].
  destruct (r_err tgt); [split; [do 2 (apply quiet_cons; [done|]); apply each_after_nil|done]|].
  destruct (sameCommit _ _); [split; [do 2 (apply quiet_cons; [done|]); apply each_after_nil|done]|].
  rewrite trace_call, run_bind, run_call. destruct (h _ _ w2) as [mrs w3]. rewrite trace_ret, run_ret.
  split; [do 3 (apply quiet_cons; [done|]); apply each_after_nil|]. intros l w' Hr. eexists [_; _], mrs.
  split; [done|]. by destruct (r_err mrs); [|injection Hr as <- _].
Qed.

(** Merging what was shown last is allowed. *)
Lemma finishMerge_trace {W} (h : handler GitLabE W) project rules rule mr b acc before w :
  rule ∈ rules -> each_after (merge_allowed project rules) before -> shown project rule before mr ->
  each_after (merge_allowed project rules) (before ++ trace h (finishMerge project rule mr b acc) w).
Proof.
  intros Hin Hb Hs. unfold finishMerge. cbv zeta. destruct (hasConflict mr) eqn:Ec; [by rewrite trace_ret, app_nil_r|].
  destruct (autoMerge rule) eqn:Ea; [|by rewrite trace_ret, app_nil_r].
  rewrite trace_call. destruct (h _ _ w) as [r w1]. rewrite trace_ret. apply each_after_snoc; [done|].
  split; [done|]. by exists rule, mr.
Qed.

Lemma applyMerge_trace {W} (h : handler GitLabE W) project rules rule acc w :
  rule ∈ rules -> each_after (merge_allowed project rules) (trace h (applyMerge project rule acc) w).
Proof.
  intros Hin. unfold applyMerge. rewrite trace_bind. destruct (inspect_trace h project rules rule w) as [Hi Hl].
  destruct (run h (inspect project rule) w) as [[e|[mrs|]] w1]; [by rewrite trace_ret, app_nil_r| |by rewrite trace_ret, app_nil_r].
  destruct (Hl mrs w1 eq_refl) as (l & r & Hr & He & Hv). rewrite trace_bind.
  assert (forall mr b x w2 (e : GitLabE x) (y : x), (forall before, merge_allowed project rules before (existT x (e, y))) ->
    shown project rule (trace h (inspect project rule) w ++ [existT x (e, y)]) mr ->
    each_after (merge_allowed project rules)
      (trace h (inspect project rule) w ++ [existT x (e, y)] ++
       trace h (acc0 ← finishMerge project rule mr b acc; mret (inr (A := error) acc0)) w2)) as Hfin.
  { intros mr b x w2 e y Hq Hs. rewrite trace_bind, app_assoc. destruct (run h (finishMerge _ _ _ _ _) w2) as [a w3].
    rewrite trace_ret, app_nil_r. apply finishMerge_trace; [done| |done]. by apply each_after_snoc. }
  unfold targetMR. cbv zeta. destruct mrs as [|mr rest].
  - rewrite trace_call, run_bind, run_call. destruct (h _ _ w1) as [new w2]. rewrite trace_ret, run_ret.
    destruct (r_err new) as [e|] eqn:En.
    + destruct (Contains _ _); rewrite trace_ret; by apply each_after_snoc.
    + destruct (r_val new) as [mr|] eqn:Ev; [|rewrite trace_ret; by apply each_after_snoc].
      apply Hfin; [done|]. left. by eexists _, new.
  - rewrite trace_call, run_bind, run_call. destruct (h _ _ w1) as [re w2]. rewrite trace_ret, run_ret.
    apply Hfin; [done|]. destruct (r_err re) as [e|] eqn:En; [|destruct (r_val re) as [mr'|] eqn:Ev].
    + right. right. exists l, r, rest, re. rewrite Hr, <- app_assoc, En. by split_and!; [| | |left].
    + right. left. by eexists _, _, re.
    + right. right. exists l, r, rest, re. rewrite Hr, <- app_assoc, En, Ev. by split_and!; [| | |right].
Qed.

Lemma applyMerges_trace {W} (h : handler GitLabE W) project rules rest acc w :
  (forall rule, rule ∈ rest -> rule ∈ rules) ->
  each_after (merge_allowed project rules) (trace h (applyMerges project rest acc) w).
Proof.
  revert acc w. induction rest as [|rule rest IH]; intros acc w Hin; cbn [applyMerges].
  { rewrite trace_ret. apply each_after_nil. }
  rewrite trace_bind. apply each_after_app; [apply merge_allowed_prefix|apply applyMerge_trace, Hin; by left|].
  destruct (run h _ w) as [[e|acc'] w1]; [rewrite trace_ret; apply each_after_nil|].
  apply IH. intros r Hr. apply Hin. by right.
Qed.

Lemma planMerges_reads project rules acc : reads (planMerges project rules acc).
Proof.
  revert acc. induction rules as [|rule rules IH]; intros acc; cbn [planMerges]; [done|].
  apply reads_bind; [unfold inspect; reads|]. intros [e|[mrs|]]; [done|apply IH|apply IH].
Qed.

#[export] Instance BranchMerges_DryRun : DryRun NewBranchMergesReconciler.
Proof.
  split; intros; simpl; [|done]. unfold BranchMerges_Plan. destruct (merges_policy cfg) as [|rule rules]; [done|].
  apply reads_bind; [apply planMerges_reads|]. intros [e|[diffs a]]; by repeat case_match.
Qed.

(** ** Properties *)

(** C14. An enforcement merges with care, on any server whose answers have been
    consistent: every merge it asks for is of a merge request of its project that
    the server has shown right before, by the last answer about it, with no
    indicator of a conflict (neither [has_conflicts], nor the detailed status
    [conflict], nor the merge status [cannot_be_merged]), for a rule of the
    policy that wants automatic merging, and with that rule's options. *)
Theorem BranchMerges_merges_clean {W} (h : handler GitLabE W) (cfg : option PolicyConfig) (project : Project) w before c after :
  trace h (BranchMerges_Apply cfg project) w = before ++ c :: after ->
  Forall settled_answer before ->
  merge_clean project (merges_policy cfg) before c.
Proof.
  intros Ht Hs. apply merge_allowed_clean; [done|]. unfold BranchMerges_Apply in Ht.
  destruct (merges_policy cfg) as [|rule rules] eqn:E.
  - rewrite trace_ret in Ht. by destruct before.
  - by apply (applyMerges_trace h project (rule :: rules) (rule :: rules) ([], ActionNoop) w (fun _ H => H) _ _ _ Ht).
Qed.

(** ** A concrete server *)

(** Branches with their commits, and the open merge request, which the listing
    shows as it was when the conflict was last computed. *)
Record merge_state : Type := { ms_main : string; ms_open : option MergeRequest; ms_stale : bool }.

Definition demo_merge_server : handler GitLabE merge_state := fun X e w =>
  match e in GitLabE X return X * merge_state with
  | Branches_ e =>
      match e in BranchesE X return X * merge_state with
      | GetBranch _ name =>
          (reply_ok {| bn_Commit := Some (if (name =? "main")%string then ms_main w else "c2") |}, w)
      | CreateBranch _ _ _ => (reply_ok tt, w)
      end
  | MergeRequests_ e =>
      match e in MergeRequestsE X return X * merge_state with
      | ListProjectMergeRequests _ _ _ =>
          (reply_ok (option_list ((fun mr => {| mq_IID := mq_IID mr; mq_HasConflicts := ms_stale w;
                                                mq_DetailedMergeStatus := "unchecked"; mq_MergeStatus := "unchecked" |}) <$> ms_open w)), w)
      | GetMergeRequest _ _ => (reply_ok (ms_open w), w)
      | CreateMergeRequest _ _ =>
          let mr := {| mq_IID := 1; mq_HasConflicts := false; mq_DetailedMergeStatus := "mergeable"; mq_MergeStatus := "can_be_merged" |} in
          (reply_ok (Some mr), {| ms_main := ms_main w; ms_open := Some mr; ms_stale := false |})
      | AcceptMergeRequest _ _ _ => (reply_ok tt, {| ms_main := "c2"; ms_open := None; ms_stale := false |})
      end
  | e => (absent_call e, w)
  end.

Definition demo_merges_cfg : option PolicyConfig := with_policies
  (Build_PoliciesConfig None [] None None None None None [] None None [] None None []
     [{| bm_SourceBranch := "develop"; bm_TargetBranch := "main"; bm_Title := ""; bm_Description := ""; bm_Labels := [];
         bm_AutoMerge := None; bm_RemoveSourceBranch := None; bm_Squash := None; bm_MergeWhenPipelineSucceeds := None |}]).

Definition demo_merge (stale : bool) : merge_state :=
  {| ms_main := "c1"; ms_open := Some {| mq_IID := 7; mq_HasConflicts := false; mq_DetailedMergeStatus := "mergeable"; mq_MergeStatus := "can_be_merged" |};
     ms_stale := stale |}.

Lemma BranchMerges_merges_clean_witness :
  let t := trace demo_merge_server (BranchMerges_Apply demo_merges_cfg demo_project) (demo_merge false) in
  exists c, t = take 4 t ++ c :: [] /\ merge_clean demo_project (merges_policy demo_merges_cfg) (take 4 t) c /\
    exists opt x, c = existT _ (MergeRequests_ (AcceptMergeRequest 42 7 opt), x).
Proof.
  cbv zeta. eexists. split; [vm_compute; reflexivity|]. split; [|by do 2 eexists].
  eapply (BranchMerges_merges_clean demo_merge_server demo_merges_cfg demo_project (demo_merge false) _ _ []).
  - vm_compute. reflexivity.
  - vm_compute. repeat constructor; intros; simplify_eq; try done; intros ?; discriminate.
Defined.

(** The merge status is not read: a server that shows it and nothing else has
    its request merged. *)
Example merge_status_not_read :
  let mr := {| mq_IID := 7; mq_HasConflicts := false; mq_DetailedMergeStatus := "checking"; mq_MergeStatus := "cannot_be_merged" |} in
  let w := {| ms_main := "c1"; ms_open := Some mr; ms_stale := false |} in
  conflicting mr /\ ms_open (run demo_merge_server (BranchMerges_Apply demo_merges_cfg demo_project) w).2 = None.
Proof. split; [by right; right|by vm_compute]. Qed.

(** The plan of the branch merges is no forecast: on a server whose reads
    change nothing, a plan can end without an error and report no change where
    the enforcement merges, because the plan trusts the conflict status of the
    listing and the enforcement reads the request again. *)
Theorem BranchMerges_plan_misses_merge :
  stable_reads demo_merge_server /\
  let '(p, w1) := run demo_merge_server (BranchMerges_Plan demo_merges_cfg demo_project) (demo_merge true) in
  let '(r, w2) := run demo_merge_server (BranchMerges_Apply demo_merges_cfg demo_project) w1 in
  p.2 = None /\ (pl_HasChanges <$> p.1 = Some false) /\ (ms_main w1 = "c1") /\ r.2 = None /\ (ms_main w2 = "c2").
Proof.
  split; [|vm_compute; split_and!; reflexivity].
  intros X e w He. destruct e as [? e|? e|? e|? e|? e|? e|? e|? e|? e|? e|? e|? e|? e|? e|? e|? e|? e|? e|? e|? e|? e]; try done;
    destruct e; done.
Qed.
