(* ===== verification/RepositoryFiles.v ===== *)
(** * Repository files: internal/governance/repositoryfiles.go

    Keeps files of a project as the policy declares them, by commits to the
    target branch or by merge requests from a feature branch.  The environment
    ([LookupEnv]) and the contents of the files the policy names ([LoadContent],
    [config.NewLoader().LoadRaw], modelled in [Loader]) are those of the process
    and do not change during a run ([content_files] is the instance that
    [Loader] gives). *)

From S2P Require Import Prelude GoLib Config EnvSubst Loader GitLabAPI Server Governance.
Local Open Scope string_scope.
Local Open Scope list_scope.
Local Open Scope Z_scope.

Definition RepositoryFiles_Name : string := "repository_files".
Definition RepositoryFiles_Order : Z := 15.

(** ** Contents *)

Definition LF : string := String "010"%char "".
Definition CR : string := String "013"%char "".

Definition normalizeContent (s : string) : string :=
  let s := ReplaceAll s (CR +:+ LF) LF in
  let s := ReplaceAll s CR LF in
  let s := TrimRight "010"%char s in
  if (0 <? String.length s)%nat then s +:+ LF else s.

Definition managed_mark : string := "Auto-managed by gitlab-fleet-governor".

Definition attachManagedHeader (filePath content : string) : string :=
  if Contains content managed_mark then content
  else
    let ext := ToLower (path_Ext filePath) in
    if (ext =? ".json")%string then content
    else
      let line := managed_mark +:+ " — do not edit manually" in
      let header :=
        if bool_decide (ext ∈ [".md"; ".html"]) then "<!-- " +:+ line +:+ " -->" +:+ LF
        else if bool_decide (ext ∈ [".go"; ".js"; ".ts"; ".java"; ".c"; ".cpp"; ".rs"])
        then "// Enterprise policy" +:+ LF +:+ "// " +:+ line +:+ LF
        else "# Enterprise policy" +:+ LF +:+ "# " +:+ line +:+ LF in
      if HasPrefix content "#!" then
        let '(first, rest) := Cut "010"%char content in
        first +:+ LF +:+ header +:+ set_opt rest ""
      else header +:+ content.

(** [-+] replaced by [-]. *)
Fixpoint collapse_dashes (s : string) : string :=
  match s with
  | EmptyString => ""
  | String c rest => if (c =? "-")%char && HasPrefix rest "-" then collapse_dashes rest else String c (collapse_dashes rest)
  end.

Definition slugifyPath (p : string) : string :=
  let p := TrimPrefix p "." in
  let res := string_map (fun c => if is_lower c || is_digit c then c else "-"%char) (ToLower p) in
  collapse_dashes (Trim "-"%char res).

Definition summarizeSnippet (s : string) : string :=
  let lines := SplitByte "010"%char s in
  if (length lines <=? 5)%nat then s
  else Join (take 5 lines) LF +:+ LF +:+ "... (" +:+ Itoa (Z.of_nat (length lines)) +:+ " total lines)".

Definition cleanFilePath (f : RepositoryFileConfig) : string :=
  TrimPrefix (path_Clean (ReplaceAll (rf_Path f) "\" "/")) "/".

Definition fileBranch (project : Project) (f : RepositoryFileConfig) : string :=
  if negb (rf_TargetBranch f =? "")%string then rf_TargetBranch f
  else if (p_DefaultBranch project =? "")%string then "main" else p_DefaultBranch project.

Definition fileEnforcement (f : RepositoryFileConfig) : string :=
  let e := ToLower (rf_Enforcement f) in if (e =? "")%string then "direct_commit" else e.

Definition featureBranch (f : RepositoryFileConfig) : string := "governance/sync-" +:+ slugifyPath (cleanFilePath f).

Definition commitMsg (f : RepositoryFileConfig) : string := "chore: sync " +:+ cleanFilePath f +:+ " to policy".

(** The texts of [ensure_contains] that the file lacks. *)
Definition missing (checks : list string) (existing : string) : list string :=
  List.filter (fun check => negb (Contains (normalizeContent existing) (ReplaceAll check (CR +:+ LF) LF))) checks.

Section Contents.
Context (LookupEnv : string -> option string) (LoadContent : string -> error + string).

Definition ExpandEnv (s : string) : error + string :=
  match ExpandEnvWithLookup s LookupEnv with Some r => r | None => inl errOutOfFuel end.

(** The text the policy wants before expansion; [None] when every text that the
    file must contain is there. *)
Definition desiredRaw (f : RepositoryFileConfig) (existing : option string) : error + option string :=
  if negb (rf_Content f =? "")%string then inr (Some (rf_Content f))
  else if negb (rf_ContentFile f =? "")%string then
    match LoadContent (rf_ContentFile f) with
    | inl e => inl (ErrWrap ("failed to load content_file '" +:+ rf_ContentFile f +:+ "': ") e)
    | inr data => inr (Some data)
    end
  else if (0 <? length (rf_EnsureContains f))%nat then
    match existing with
    | None => inr (Some (Join (rf_EnsureContains f) LF +:+ LF))
    | Some existing =>
        match missing (rf_EnsureContains f) existing with
        | [] => inr None
        | l => inr (Some ((if negb (HasSuffix existing LF) && (0 <? String.length existing)%nat then existing +:+ LF else existing)
                          +:+ Join l LF +:+ LF))
        end
    end
  else inr (Some "").

(** The desired content, whether the file drifts from it, and the action. *)
Definition calculateFileDrift (f : RepositoryFileConfig) (existing : option string) : error + (string * bool * ActionType) :=
  match desiredRaw f existing with
  | inl e => inl e
  | inr None => inr (set_opt existing "", false, ActionNoop)
  | inr (Some raw) =>
      match ExpandEnv raw with
      | inl e => inl (ErrWrap "failed to expand env vars in file content: " e)
      | inr expanded =>
          let headed := (fileEnforcement f =? "direct_commit")%string
                        && (negb (rf_Content f =? "")%string || negb (rf_ContentFile f =? "")%string) in
          let desired := normalizeContent (if headed then attachManagedHeader (rf_Path f) expanded else expanded) in
          match existing with
          | None => inr (desired, true, ActionCreate)
          | Some c => if (normalizeContent c =? desired)%string then inr (c, false, ActionNoop)
                      else inr (desired, true, ActionUpdate)
          end
      end
  end.

(** ** Calls *)

Definition fetchFileContent (pid : Z) (path ref : string) : GP (error + option string) :=
  r ← call (RepositoryFiles_ (GetRawFile pid path ref));
  mret match r_err r with
       | None => inr (Some (r_val r))
       | Some e =>
           if match r_resp r with Some resp => StatusCode resp =? 404 | None => false end then inr None
           else if Contains (error_text e) "404" then inr None
           else inl e
       end.

Definition isForbidden (resp : option Response) (e : error) : bool :=
  match resp with Some r => StatusCode r =? 403 | None => false end
  || Contains (error_text e) "403" || Contains (ToLower (error_text e)) "forbidden".

(** [CreateFile] or [UpdateFile]. *)
Definition writeFile (pid : Z) (f : RepositoryFileConfig) (branch content : string) (exists_ : bool) : GP (Reply unit) :=
  call (RepositoryFiles_ (if exists_ then UpdateFile pid (cleanFilePath f) branch content (commitMsg f)
                          else CreateFile pid (cleanFilePath f) branch content (commitMsg f))).

Definition openRequests (pid : Z) (project : Project) (f : RepositoryFileConfig) : GP (Reply (list MergeRequest)) :=
  call (MergeRequests_ (ListProjectMergeRequests pid (featureBranch f) (fileBranch project f))).

(** A creation or an update of the content, reported under [target]. *)
Definition contentDiff (target : string) (existing : option string) (desired : string) : Diff :=
  match existing with
  | None => Build (AddField NewDiffBuilder "content" VNil (VStr (summarizeSnippet desired)) ActionCreate) target ActionCreate
  | Some c => Build (AddField NewDiffBuilder "content" (VStr (summarizeSnippet c)) (VStr (summarizeSnippet desired)) ActionUpdate)
                target ActionUpdate
  end.

Definition file_target (f : RepositoryFileConfig) : string := "file:" +:+ cleanFilePath f.
Definition mr_target (f : RepositoryFileConfig) (mr : MergeRequest) : string :=
  file_target f +:+ " (MR !" +:+ Itoa (mq_IID mr) +:+ ")".

(** An open request whose branch has the content waits for its review. *)
Definition pending (feat : option string) (desired : string) : bool :=
  match feat with Some c => (normalizeContent c =? normalizeContent desired)%string | None => false end.

(** ** Planning *)

(** One file: what to report, or nothing. *)
Definition planFile (project : Project) (f : RepositoryFileConfig) : GP (error + option (Diff * ActionType)) :=
  let pid := p_ID project in
  let branch := fileBranch project f in
  existing ← fetchFileContent pid (cleanFilePath f) branch;
  match existing with
  | inl e => mret (inl (ErrWrap ("failed to fetch raw file " +:+ cleanFilePath f +:+ " on branch " +:+ branch +:+ ": ") e))
  | inr existing =>
      let report := (contentDiff (file_target f) existing, if is_some existing then ActionUpdate else ActionCreate) in
      match calculateFileDrift f existing with
      | inl e => mret (inl (ErrWrap ("failed to calculate drift for file " +:+ cleanFilePath f +:+ ": ") e))
      | inr (_, false, _) => mret (inr None)
      | inr (desired, true, _) =>
          if negb (fileEnforcement f =? "merge_request")%string then mret (inr (Some (report.1 desired, report.2)))
          else
            mrs ← openRequests pid project f;
            match r_err mrs with
            | Some e => mret (inl (ErrWrap ("failed to list merge requests for branch " +:+ featureBranch f +:+ ": ") e))
            | None =>
                match r_val mrs with
                | [] => mret (inr (Some (report.1 desired, report.2)))
                | mr :: _ =>
                    feat ← fetchFileContent pid (cleanFilePath f) (featureBranch f);
                    mret match feat with
                         | inl e => inl (ErrWrap ("failed to fetch raw file " +:+ cleanFilePath f +:+ " on feature branch " +:+ featureBranch f +:+ ": ") e)
                         | inr feat => if pending feat desired then inr None
                                       else inr (Some (contentDiff (mr_target f mr) feat desired, ActionUpdate))
                         end
                end
            end
      end
  end.

Fixpoint planFiles (project : Project) (files : list RepositoryFileConfig) (acc : list Diff * ActionType)
  : GP (error + (list Diff * ActionType)) :=
  match files with
  | [] => mret (inr acc)
  | f :: rest =>
      r ← planFile project f;
      match r with
      | inl e => mret (inl e)
      | inr None => planFiles project rest acc
      | inr (Some (diff, action)) => planFiles project rest (push_diff acc diff action)
      end
  end.

(** ** Enforcing *)

(** The result explains the error, the method returns the bare one. *)
Definition file_failed (project : Project) (acc : list Diff * ActionType) (pre : string) (e : error) : ApplyReturn :=
  (Some (NewApplyResult RepositoryFiles_Name ResourceTypeProject (p_ID project) (p_PathWithNamespace project) acc.2 StatusFailed
           acc.1 (Some (ErrWrap pre e))), Some e).

Definition file_error (project : Project) (acc : list Diff * ActionType) (e : error) : ApplyReturn :=
  failed RepositoryFiles_Name OnProject (p_ID project) (p_PathWithNamespace project) acc.2 acc.1 e.

(** [enforcement: direct_commit]. *)
Definition commitFile (project : Project) (f : RepositoryFileConfig) (existing : option string) (desired : string)
    (action : ActionType) (acc : list Diff * ActionType) : GP (ApplyReturn + (list Diff * ActionType)) :=
  let branch := fileBranch project f in
  r ← writeFile (p_ID project) f branch desired (is_some existing);
  mret match r_err r with
       | Some e =>
           if isForbidden (r_resp r) e then
             inl (file_error project acc (ErrWrap ("direct commit to branch " +:+ branch +:+ " failed with HTTP 403 Forbidden: push permissions are restricted; please use 'enforcement: merge_request' for protected branches: ") e))
           else inl (file_failed project acc ((if is_some existing then "failed to update file " else "failed to create file ")
                       +:+ cleanFilePath f +:+ " on " +:+ branch +:+ ": ") e)
       | None => inr (push_diff acc (contentDiff (file_target f) existing desired) action)
       end.

(** The commit to the feature branch: the diff is reported even when the write
    fails. *)
Definition commitFeature (project : Project) (f : RepositoryFileConfig) (target : string) (feat : option string) (desired : string)
    (acc : list Diff * ActionType) : GP (ApplyReturn + (list Diff * ActionType)) :=
  let acc := (acc.1 ++ [contentDiff target feat desired], acc.2) in
  r ← writeFile (p_ID project) f (featureBranch f) desired (is_some feat);
  mret match r_err r with
       | Some e => inl (file_failed project acc ((if is_some feat then "failed to update file on feature branch "
                          else "failed to create file on feature branch ") +:+ featureBranch f +:+ ": ") e)
       | None => inr acc
       end.

Definition mrOpt (project : Project) (f : RepositoryFileConfig) : CreateMergeRequestOptions := {|
  cm_SourceBranch := featureBranch f;
  cm_TargetBranch := fileBranch project f;
  cm_Title := if (rf_MRTitle f =? "")%string then "chore: sync " +:+ cleanFilePath f +:+ " to enterprise policy" else rf_MRTitle f;
  cm_Labels := match rf_MRLabels f with [] => ["automated"; "governance"] | l => l end;
  cm_Description := None;
  cm_RemoveSourceBranch := None;
  cm_Squash := None
|}.

Definition autoAccept : AcceptMergeRequestOptions :=
  {| am_MergeWhenPipelineSucceeds := Some true; am_ShouldRemoveSourceBranch := Some true; am_Squash := None |}.

(** Opening the request; an error of the automatic merge is only logged. *)
Definition openRequest (project : Project) (f : RepositoryFileConfig) (acc : list Diff * ActionType)
  : GP (ApplyReturn + (list Diff * ActionType)) :=
  mr ← call (MergeRequests_ (CreateMergeRequest (p_ID project) (mrOpt project f)));
  match r_err mr with
  | Some e => mret (inl (file_failed project acc ("failed to create merge request for " +:+ cleanFilePath f +:+ ": ") e))
  | None =>
      match r_val mr with
      | Some m =>
          if set_opt (rf_AutoMerge f) false then
            _ ← call (MergeRequests_ (AcceptMergeRequest (p_ID project) (mq_IID m) autoAccept));
            mret (inr acc)
          else mret (inr acc)
      | None => mret (inr acc)
      end
  end.

(** The feature branch, created from the target when it is not there. *)
Definition ensureBranch (project : Project) (f : RepositoryFileConfig) : GP (option error) :=
  b ← call (Branches_ (GetBranch (p_ID project) (featureBranch f)));
  match r_err b with
  | None => mret None
  | Some _ => c ← call (Branches_ (CreateBranch (p_ID project) (featureBranch f) (fileBranch project f))); mret (r_err c)
  end.

(** [enforcement: merge_request]. *)
Definition requestFile (project : Project) (f : RepositoryFileConfig) (existing : option string) (desired : string)
    (action : ActionType) (acc : list Diff * ActionType) : GP (ApplyReturn + (list Diff * ActionType)) :=
  let pid := p_ID project in
  let fetch_failed := file_failed project acc ("failed to fetch raw file " +:+ cleanFilePath f +:+ " on feature branch " +:+ featureBranch f +:+ ": ") in
  mrs ← openRequests pid project f;
  match r_err mrs with
  | Some e => mret (inl (file_failed project acc ("failed to list merge requests for branch " +:+ featureBranch f +:+ ": ") e))
  | None =>
      match r_val mrs with
      | mr :: _ =>
          feat ← fetchFileContent pid (cleanFilePath f) (featureBranch f);
          match feat with
          | inl e => mret (inl (fetch_failed e))
          | inr feat =>
              if pending feat desired then mret (inr acc)
              else
                r ← commitFeature project f (mr_target f mr) feat desired acc;
                mret match r with inl e => inl e | inr acc => inr (acc.1, first_action acc.2 ActionUpdate) end
          end
      | [] =>
          b ← ensureBranch project f;
          match b with
          | Some e => mret (inl (file_failed project acc ("failed to create feature branch " +:+ featureBranch f +:+ ": ") e))
          | None =>
              feat ← fetchFileContent pid (cleanFilePath f) (featureBranch f);
              match feat with
              | inl e => mret (inl (fetch_failed e))
              | inr feat =>
                  r ← (if pending feat desired then
                         mret (inr (acc.1 ++ [Build (AddField NewDiffBuilder "content" (VStr (summarizeSnippet (set_opt existing "")))
                                                (VStr (summarizeSnippet desired)) ActionCreate) (file_target f +:+ " (MR)") ActionCreate],
                                    acc.2))
                       else commitFeature project f (file_target f) feat desired acc);
                  match r with
                  | inl e => mret (inl e)
                  | inr acc => openRequest project f (acc.1, first_action acc.2 action)
                  end
              end
          end
      end
  end.

(** One file; an enforcement the code does not know does nothing. *)
Definition applyFile (project : Project) (f : RepositoryFileConfig) (acc : list Diff * ActionType)
  : GP (ApplyReturn + (list Diff * ActionType)) :=
  existing ← fetchFileContent (p_ID project) (cleanFilePath f) (fileBranch project f);
  match existing with
  | inl e => mret (inl (file_error project ([], ActionNoop) e))
  | inr existing =>
      match calculateFileDrift f existing with
      | inl e => mret (inl (file_error project ([], ActionNoop) e))
      | inr (_, false, _) => mret (inr acc)
      | inr (desired, true, action) =>
          if (fileEnforcement f =? "audit_only")%string then
            mret (inr (push_diff acc (contentDiff (file_target f) existing desired) action))
          else if (fileEnforcement f =? "direct_commit")%string then commitFile project f existing desired action acc
          else if (fileEnforcement f =? "merge_request")%string then requestFile project f existing desired action acc
          else mret (inr acc)
      end
  end.

Fixpoint applyFiles (project : Project) (files : list RepositoryFileConfig) (acc : list Diff * ActionType) : GP ApplyReturn :=
  match files with
  | [] =>
      mret (if (length acc.1 =? 0)%nat then noop_apply RepositoryFiles_Name OnProject (p_ID project) (p_PathWithNamespace project)
            else succeeded RepositoryFiles_Name OnProject (p_ID project) (p_PathWithNamespace project) acc.2 acc.1)
  | f :: rest =>
      r ← applyFile project f acc;
      match r with inl res => mret res | inr acc => applyFiles project rest acc end
  end.

(** ** The methods *)

Definition files_policy (cfg : option PolicyConfig) : list RepositoryFileConfig :=
  match cfg with Some c => pol_RepositoryFiles (cfg_Policies c) | None => [] end.

Definition RepositoryFiles_Plan (cfg : option PolicyConfig) (project : Project) : GP PlanReturn :=
  let id := p_ID project in
  let path := p_PathWithNamespace project in
  match files_policy cfg with
  | [] => mret (noop_plan RepositoryFiles_Name OnProject id path)
  | files =>
      r ← planFiles project files ([], ActionNoop);
      mret match r with
           | inl e => (None, Some e)
           | inr (diffs, overallAction) =>
               if (length diffs =? 0)%nat then noop_plan RepositoryFiles_Name OnProject id path
               else planned RepositoryFiles_Name OnProject id path overallAction diffs
           end
  end.

Definition RepositoryFiles_Apply (cfg : option PolicyConfig) (project : Project) : GP ApplyReturn :=
  match files_policy cfg with
  | [] => mret (noop_apply RepositoryFiles_Name OnProject (p_ID project) (p_PathWithNamespace project))
  | files => applyFiles project files ([], ActionNoop)
  end.

Definition RepositoryFiles_PlanGroup (cfg : option PolicyConfig) (group : Group) : GP PlanReturn :=
  mret (skipped_plan RepositoryFiles_Name OnGroup (g_ID group) (g_FullPath group)
          "Repository files governance is not applicable to groups").

Definition RepositoryFiles_ApplyGroup (cfg : option PolicyConfig) (group : Group) : GP ApplyReturn :=
  mret (skipped_apply RepositoryFiles_Name OnGroup (g_ID group) (g_FullPath group)
          "Repository files governance is not applicable to groups").

Definition NewRepositoryFilesReconciler : GovernanceOperation := {|
  op_Name := RepositoryFiles_Name;
  op_Order := RepositoryFiles_Order;
  op_Plan := RepositoryFiles_Plan;
  op_Apply := RepositoryFiles_Apply;
  op_PlanGroup := RepositoryFiles_PlanGroup;
  op_ApplyGroup := RepositoryFiles_ApplyGroup
|}.

End Contents.

(** What [Loader] reads of a file of the policy. *)
Definition content_files {W} (h : handler LoadE W) (w : W) (l : Loader) (path : string) : error + string :=
  (run h (LoadRaw l path) w).1.1.

(** ** Specification *)

(** The calls an enforcement may make: it reads, it writes the files of the
    policy to the branch that their enforcement says, and for merge requests it
    creates the feature branch, opens the request and merges it when told to. *)
Definition write_allowed (project : Project) (files : list RepositoryFileConfig) {X} (e : GitLabE X) : Prop :=
  let id := p_ID project in
  let written pid path branch :=
    pid = id /\ exists f, f ∈ files /\ path = cleanFilePath f /\
      ((fileEnforcement f = "direct_commit" /\ branch = fileBranch project f) \/
       (fileEnforcement f = "merge_request" /\ branch = featureBranch f)) in
  match e with
  | RepositoryFiles_ e =>
      match e with
      | CreateFile pid path branch _ _ | UpdateFile pid path branch _ _ => written pid path branch
      | GetRawFile _ _ _ => True
      end
  | Branches_ e =>
      match e with
      | CreateBranch pid branch ref =>
          pid = id /\ exists f, f ∈ files /\ fileEnforcement f = "merge_request" /\ branch = featureBranch f /\ ref = fileBranch project f
      | GetBranch _ _ => True
      end
  | MergeRequests_ e =>
      match e with
      | CreateMergeRequest pid opt =>
          pid = id /\ exists f, f ∈ files /\ fileEnforcement f = "merge_request" /\ opt = mrOpt project f
      | AcceptMergeRequest pid _ _ =>
          pid = id /\ exists f, f ∈ files /\ fileEnforcement f = "merge_request" /\ rf_AutoMerge f = Some true
      | ListProjectMergeRequests _ _ _ | GetMergeRequest _ _ => True
      end
  | e => is_read e = true
  end.

(** A file the policy gives whole, to be committed. *)
Definition declared (f : RepositoryFileConfig) : Prop :=
  fileEnforcement f = "direct_commit" /\ (rf_Content f <> "" \/ rf_ContentFile f <> "").

(** GitLab's repository files, for one project. *)
Record file_server {W} (h : handler GitLabE W) (pid : Z) (files : W -> gmap (string * string) string) : Prop := {
  fs_get : forall path ref w,
    (h _ (RepositoryFiles_ (GetRawFile pid path ref)) w).2 = w /\
    match files w !! (ref, path) with
    | Some c => r_err (h _ (RepositoryFiles_ (GetRawFile pid path ref)) w).1 = None /\
                r_val (h _ (RepositoryFiles_ (GetRawFile pid path ref)) w).1 = c
    | None => exists e resp, r_err (h _ (RepositoryFiles_ (GetRawFile pid path ref)) w).1 = Some e /\
                r_resp (h _ (RepositoryFiles_ (GetRawFile pid path ref)) w).1 = Some resp /\ StatusCode resp = 404
    end;
  fs_create : forall path branch content msg w,
    r_err (h _ (RepositoryFiles_ (CreateFile pid path branch content msg)) w).1 = None ->
    files (h _ (RepositoryFiles_ (CreateFile pid path branch content msg)) w).2 = <[(branch, path) := content]> (files w);
  fs_update : forall path branch content msg w,
    r_err (h _ (RepositoryFiles_ (UpdateFile pid path branch content msg)) w).1 = None ->
    files (h _ (RepositoryFiles_ (UpdateFile pid path branch content msg)) w).2 = <[(branch, path) := content]> (files w)
}.

(** ** Lemmas: what is called *)

Lemma reads_allowed {A} project files (p : GP A) : reads p -> only (fun X e => write_allowed project files e) p.
Proof.
  apply only_mono. intros X e He. destruct e as [? e|? e|? e|? e|? e|? e|? e|? e|? e|? e|? e|? e|? e|? e|? e|? e|? e|? e|? e|? e|? e];
    try exact He; by destruct e.
Qed.

Lemma fetchFileContent_reads pid path ref : reads (fetchFileContent pid path ref).
Proof. unfold fetchFileContent. reads. Qed.

Section Allowed.
Context (project : Project) (files : list RepositoryFileConfig) (f : RepositoryFileConfig) (Hin : f ∈ files).

Lemma writeFile_allowed branch content b :
  (fileEnforcement f = "direct_commit" /\ branch = fileBranch project f) \/
  (fileEnforcement f = "merge_request" /\ branch = featureBranch f) ->
  only (fun X e => write_allowed project files e) (writeFile (p_ID project) f branch content b).
Proof using Hin. intros Hb. unfold writeFile. split; [|done]. destruct b; (split; [done|]; by exists f). Qed.

Lemma commitFile_allowed existing desired action acc : fileEnforcement f = "direct_commit" ->
  only (fun X e => write_allowed project files e) (commitFile project f existing desired action acc).
Proof using Hin. intros He. apply only_bind; [|done]. apply writeFile_allowed. by left. Qed.

Context (He : fileEnforcement f = "merge_request").

Lemma commitFeature_allowed target feat desired acc :
  only (fun X e => write_allowed project files e) (commitFeature project f target feat desired acc).
Proof using Hin He. apply only_bind; [|done]. apply writeFile_allowed. by right. Qed.

Lemma openRequest_allowed acc : only (fun X e => write_allowed project files e) (openRequest project f acc).
Proof using Hin He.
  apply only_bind; [split; [split; [done|by exists f]|done]|]. intros mr. destruct (r_err mr); [done|].
  destruct (r_val mr) as [m|]; [|done]. destruct (rf_AutoMerge f) as [[]|] eqn:Ea; [|done..].
  apply only_bind; [|done]. split; [split; [done|by exists f]|done].
Qed.

Lemma ensureBranch_allowed : only (fun X e => write_allowed project files e) (ensureBranch project f).
Proof using Hin He.
  apply only_bind; [by apply reads_allowed, reads_call|]. intros b. destruct (r_err b); [|done].
  apply only_bind; [split; [split; [done|by exists f]|done]|done].
Qed.

Lemma requestFile_allowed existing desired action acc :
  only (fun X e => write_allowed project files e) (requestFile project f existing desired action acc).
Proof using Hin He.
  apply only_bind; [by apply reads_allowed, reads_call|]. intros mrs. destruct (r_err mrs); [done|].
  destruct (r_val mrs) as [|mr rest].
  - apply only_bind; [apply ensureBranch_allowed|]. intros [e|]; [done|].
    apply only_bind; [apply reads_allowed, fetchFileContent_reads|]. intros [e|feat]; [done|].
    apply only_bind; [|intros [e|a]; [done|apply openRequest_allowed]].
    destruct (pending feat desired); [done|apply commitFeature_allowed].
  - apply only_bind; [apply reads_allowed, fetchFileContent_reads|]. intros [e|feat]; [done|].
    destruct (pending feat desired); [done|]. apply only_bind; [apply commitFeature_allowed|done].
Qed.

End Allowed.

Lemma applyFiles_allowed LookupEnv LoadContent project files rest acc :
  (forall f, f ∈ rest -> f ∈ files) ->
  only (fun X e => write_allowed project files e) (applyFiles LookupEnv LoadContent project rest acc).
Proof.
  revert acc. induction rest as [|f rest IH]; intros acc Hin; cbn [applyFiles]; [done|].
  apply only_bind; [|intros [r|a]; [done|apply IH; intros g Hg; apply Hin; by right]].
  apply only_bind; [apply reads_allowed, fetchFileContent_reads|]. intros [e|existing]; [done|].
  destruct (calculateFileDrift _ _ f existing) as [e|[[desired []] action]]; [done| |done].
  assert (f ∈ files) as Hf by (apply Hin; by left).
  destruct (String.eqb_spec (fileEnforcement f) "audit_only"); [done|].
  destruct (String.eqb_spec (fileEnforcement f) "direct_commit"); [by apply commitFile_allowed|].
  destruct (String.eqb_spec (fileEnforcement f) "merge_request"); [by apply requestFile_allowed|done].
Qed.

Lemma planFile_reads LookupEnv LoadContent project f : reads (planFile LookupEnv LoadContent project f).
Proof.
  apply reads_bind; [apply fetchFileContent_reads|]. intros [e|existing]; [done|]. cbv zeta.
  destruct (calculateFileDrift _ _ f existing) as [e|[[desired []] action]]; [done| |done].
  destruct (negb _); [done|]. apply reads_bind; [by apply reads_call|]. intros mrs. destruct (r_err mrs); [done|].
  destruct (r_val mrs); [done|]. apply reads_bind; [apply fetchFileContent_reads|]. intros [e|feat]; reads.
Qed.

Lemma planFiles_reads LookupEnv LoadContent project files acc : reads (planFiles LookupEnv LoadContent project files acc).
Proof.
  revert acc. induction files as [|f files IH]; intros acc; cbn [planFiles]; [done|].
  apply reads_bind; [apply planFile_reads|]. intros [e|[[d a]|]]; [done|apply IH..].
Qed.

#[export] Instance RepositoryFiles_DryRun LookupEnv LoadContent : DryRun (NewRepositoryFilesReconciler LookupEnv LoadContent).
Proof.
  split; intros; simpl; [|done]. unfold RepositoryFiles_Plan. destruct (files_policy cfg) as [|f files]; [done|].
  apply reads_bind; [apply planFiles_reads|]. intros [e|[diffs a]]; by repeat case_match.
Qed.

(** ** Lemmas: where the plan is silent the enforcement is *)

Section Quiet.
Context (LookupEnv : string -> option string) (LoadContent : string -> error + string) (project : Project)
  {W : Type} (h : handler GitLabE W) (Hs : stable_reads h).

Lemma applyFile_quiet f acc w w' :
  run h (planFile LookupEnv LoadContent project f) w = (inr None, w') ->
  run h (applyFile LookupEnv LoadContent project f acc) w = (inr acc, w) /\
  Forall (fun c => is_read (projT2 c) = true) (calls h (applyFile LookupEnv LoadContent project f acc) w).
Proof using Hs.
  unfold planFile, applyFile. cbv zeta. rewrite !run_bind, calls_bind.
  pose proof (fun pid p r w => run_reads h (fetchFileContent pid p r) w Hs (fetchFileContent_reads _ _ _)) as Hf.
  pose proof (fun pid p r w => calls_reads h (fetchFileContent pid p r) w (fetchFileContent_reads _ _ _)) as Hc.
  specialize (Hf (p_ID project) (cleanFilePath f) (fileBranch project f) w) as Hw.
  specialize (Hc (p_ID project) (cleanFilePath f) (fileBranch project f) w) as Hcw.
  destruct (run h (fetchFileContent _ _ (fileBranch project f)) w) as [[e|existing] w1]; [done|]. simpl in Hw. subst w1.
  destruct (calculateFileDrift LookupEnv LoadContent f existing) as [e|[[desired []] action]]; [done| |].
  2: { intros _. split; [done|]. apply Forall_app. by split. }
  destruct (String.eqb_spec (fileEnforcement f) "merge_request") as [He|He]; cbn [negb]; [|done].
  rewrite !He. cbn [String.eqb Ascii.eqb Bool.eqb]. unfold requestFile. cbv zeta. rewrite !run_bind, calls_bind.
  unfold openRequests. rewrite !run_call. pose proof (Hs _ (MergeRequests_ (ListProjectMergeRequests (p_ID project) (featureBranch f) (fileBranch project f))) w eq_refl) as Hl.
  destruct (h _ _ w) as [mrs w1] eqn:Eh. simpl in Hl. subst w1. destruct (r_err mrs); [done|]. destruct (r_val mrs) as [|mr rest]; [done|].
  rewrite !run_bind, !calls_bind. specialize (Hf (p_ID project) (cleanFilePath f) (featureBranch f) w) as Hw2.
  specialize (Hc (p_ID project) (cleanFilePath f) (featureBranch f) w) as Hc2.
  destruct (run h (fetchFileContent _ _ (featureBranch f)) w) as [[e|feat] w1]; [done|]. simpl in Hw2. subst w1.
  rewrite run_ret. destruct (pending feat desired); [|done]. intros _. split; [done|].
  repeat (apply Forall_app; split; [done|]). apply Forall_app. split; [|apply Forall_app; by split].
  cbn [calls call]. rewrite Eh. by repeat constructor.
Qed.

Lemma applyFiles_quiet files acc acc' w w' :
  acc.1 = [] -> run h (planFiles LookupEnv LoadContent project files acc) w = (inr acc', w') -> acc'.1 = [] ->
  Forall (fun c => is_read (projT2 c) = true) (calls h (applyFiles LookupEnv LoadContent project files acc) w) /\
  run h (applyFiles LookupEnv LoadContent project files acc) w =
    (noop_apply RepositoryFiles_Name OnProject (p_ID project) (p_PathWithNamespace project), w).
Proof using Hs.
  intros Hn. assert (forall files acc acc' w w', run h (planFiles LookupEnv LoadContent project files acc) w = (inr acc', w') ->
    acc'.1 = [] -> acc.1 = []) as Hgrow.
  { clear. induction files as [|f files IH]; intros acc acc' w w'; cbn [planFiles]; [by intros [= -> _]|].
    rewrite run_bind. destruct (run h _ w) as [[e|[[d a]|]] w1]; [done| |apply IH].
    intros Hr Hn. pose proof (IH _ _ _ _ Hr Hn) as H. unfold push_diff in H. simpl in H. by apply app_nil in H as []. }
  revert acc w Hn. induction files as [|f files IH]; intros acc w Hn; cbn [planFiles applyFiles].
  { intros _ _. rewrite Hn. by split. }
  rewrite run_bind. pose proof (run_reads h (planFile LookupEnv LoadContent project f) w Hs (planFile_reads _ _ _ _)) as Hw.
  destruct (run h (planFile _ _ _ _) w) as [[e|[[d a]|]] w1] eqn:Ep; [done| |]; simpl in Hw; subst w1; intros Hr Hn'.
  - apply (Hgrow _ _ _ _ _ Hr) in Hn'. unfold push_diff in Hn'. simpl in Hn'. by apply app_nil in Hn' as [].
  - destruct (applyFile_quiet f acc w w Ep) as [Ha Hc]. destruct (IH acc w Hn Hr Hn') as [IHc IHr].
    rewrite calls_bind, run_bind, Ha. split; [|done]. apply Forall_app. by split.
Qed.

End Quiet.

Lemma planFiles_ok {W} (h : handler GitLabE W) LookupEnv LoadContent project files acc acc' w w' :
  action_ok acc -> run h (planFiles LookupEnv LoadContent project files acc) w = (inr acc', w') -> action_ok acc'.
Proof.
  revert acc w. induction files as [|f files IH]; intros acc w Ha; cbn [planFiles]; [by intros [= <- _]|].
  rewrite run_bind. destruct (run h (planFile _ _ _ _) w) as [[e|[[d a]|]] w1] eqn:Ep; [done| |by apply IH].
  apply IH. apply push_diff_ok; [done|]. clear -Ep.
  pose proof (always_run h (fun r => match r with inr (Some (_, a)) => a ∈ [ActionCreate; ActionUpdate] | _ => True end)
    (planFile LookupEnv LoadContent project f) w) as H. rewrite Ep in H. cbn [fst] in H.
  assert (a ∈ [ActionCreate; ActionUpdate]) as Ha; [|set_solver].
  apply H. unfold planFile. apply always_bind. intros [e|existing]; [done|]. cbv zeta.
  destruct (calculateFileDrift _ _ f existing) as [e|[[desired []] action]]; [done| |done].
  destruct (negb _); [destruct existing; apply always_ret; simpl; set_solver|].
  apply always_bind. intros mrs. destruct (r_err mrs); [done|]. destruct (r_val mrs) as [|mr rest].
  { destruct existing; apply always_ret; simpl; set_solver. }
  apply always_bind. intros [e|feat]; [done|]. apply always_ret. destruct (pending _ _); [done|]. set_solver.
Qed.

#[export] Instance RepositoryFiles_NoopQuiet LookupEnv LoadContent : NoopQuiet (NewRepositoryFilesReconciler LookupEnv LoadContent).
Proof.
  split; intros; simpl; [unfold RepositoryFiles_Plan; always|done| |by intros W h w r _ _ _; constructor].
  intros W h w r Hs Hp Hc. unfold RepositoryFiles_Plan, RepositoryFiles_Apply in *.
  destruct (files_policy cfg) as [|f files]; [constructor|].
  rewrite run_bind in Hp. destruct (run h (planFiles _ _ _ _ _) w) as [[e|acc] w1] eqn:Ha; [done|].
  rewrite run_ret in Hp. assert (action_ok acc) as Hok by (eapply planFiles_ok; [|exact Ha]; by left).
  eapply applyFiles_quiet; [done|done|exact Ha|].
  destruct acc as [diffs a]. cbn [fst] in *. destruct (length diffs =? 0)%nat eqn:El.
  - by apply Nat.eqb_eq, nil_length_inv in El.
  - injection Hp as <-. by apply (planned_changes _ _ _ _ _ Hok) in Hc.
Qed.

(** ** Lemmas: contents *)

Definition not_CR (c : ascii) : bool := negb (c =? "013")%char.

Lemma ReplaceAll_absent c rest new s : string_all (fun d => negb (d =? c)%char) s = true -> ReplaceAll s (String c rest) new = s.
Proof.
  unfold ReplaceAll. induction s as [|d s IH]; [done|]. rewrite string_all_cons, andb_true_iff, negb_true_iff, Ascii.eqb_neq.
  intros [Hd Hs]. cbn [replace_go]. unfold HasPrefix. cbn [String.prefix]. destruct (ascii_dec c d) as [->|]; [done|]. by rewrite IH.
Qed.

Lemma ReplaceAll_CR s : string_all not_CR (ReplaceAll s CR LF) = true.
Proof.
  unfold ReplaceAll. induction s as [|d s IH]; [done|]. cbn [replace_go]. unfold HasPrefix, CR in *. cbn [String.prefix].
  destruct (ascii_dec "013" d) as [<-|Hne].
  - assert (String.prefix "" s = true) as -> by (by destruct s). exact IH.
  - rewrite string_all_cons, IH. unfold not_CR. destruct (Ascii.eqb_spec d "013"); [congruence|done].
Qed.

Lemma TrimRightFunc_snoc p t c : p c = true -> TrimRightFunc p (t +:+ String c "") = TrimRightFunc p t.
Proof.
  intros Hc. induction t as [|d t IH]; [simpl; by rewrite Hc|]. rewrite string_app_cons. cbn [TrimRightFunc]. by rewrite IH.
Qed.

(** A normalised text is left as it is. *)
Lemma normalizeContent_idem s : normalizeContent (normalizeContent s) = normalizeContent s.
Proof.
  unfold normalizeContent at 2 3. cbv zeta. set (t := TrimRight _ _).
  assert (string_all not_CR t = true) as Ht by apply string_all_TrimRightFunc, ReplaceAll_CR.
  assert (TrimRight "010"%char t = t) as Htr by apply TrimRightFunc_idem.
  destruct (0 <? String.length t)%nat eqn:El.
  - unfold normalizeContent. cbv zeta.
    assert (string_all not_CR (t +:+ LF) = true) as Hl by (by rewrite string_all_app, Ht).
    change (CR +:+ LF) with (String "013" LF). change CR with (String "013" "").
    rewrite (ReplaceAll_absent "013" LF LF (t +:+ LF) Hl), (ReplaceAll_absent "013" "" LF (t +:+ LF) Hl).
    unfold TrimRight, LF. rewrite TrimRightFunc_snoc by done. fold (TrimRight "010"%char t). by rewrite Htr, El.
  - by destruct t.
Qed.

(** ** Lemmas: enforcing declared contents *)

Definition file_key (project : Project) (f : RepositoryFileConfig) : string * string := (fileBranch project f, cleanFilePath f).

Section Declared.
Context (LookupEnv : string -> option string) (LoadContent : string -> error + string).

(** What a declared file is to hold: the text of the policy or of the file it
    names, expanded, with the header, normalised. *)
Definition wanted_content (f : RepositoryFileConfig) : error + string :=
  match (if negb (rf_Content f =? "")%string then inr (rf_Content f)
         else match LoadContent (rf_ContentFile f) with
              | inl e => inl (ErrWrap ("failed to load content_file '" +:+ rf_ContentFile f +:+ "': ") e)
              | inr data => inr data
              end) with
  | inl e => inl e
  | inr raw =>
      match ExpandEnv LookupEnv raw with
      | inl e => inl (ErrWrap "failed to expand env vars in file content: " e)
      | inr x => inr (normalizeContent (attachManagedHeader (rf_Path f) x))
      end
  end.

Definition in_sync (project : Project) (files : gmap (string * string) string) (f : RepositoryFileConfig) : Prop :=
  exists c, files !! file_key project f = Some c /\ wanted_content f = inr (normalizeContent c).

Lemma wanted_content_normal f d : wanted_content f = inr d -> normalizeContent d = d.
Proof. unfold wanted_content. repeat case_match; intros [= <-]; apply normalizeContent_idem. Qed.

Lemma declared_drift f existing : declared f ->
  calculateFileDrift LookupEnv LoadContent f existing =
  match wanted_content f with
  | inl e => inl e
  | inr d =>
      match existing with
      | None => inr (d, true, ActionCreate)
      | Some c => if (normalizeContent c =? d)%string then inr (c, false, ActionNoop) else inr (d, true, ActionUpdate)
      end
  end.
Proof.
  intros [He Hc]. unfold calculateFileDrift, wanted_content, desiredRaw. rewrite He. cbn [String.eqb Ascii.eqb Bool.eqb andb].
  destruct (String.eqb_spec (rf_Content f) "") as [H1|H1]; cbn [negb].
  - destruct (String.eqb_spec (rf_ContentFile f) "") as [H2|H2]; [by destruct Hc|]. cbn [negb orb].
    destruct (LoadContent _); [done|]. by destruct (ExpandEnv _ _).
  - cbn [orb]. by destruct (ExpandEnv _ _).
Qed.

Context (project : Project) {W : Type} (h : handler GitLabE W) (files : W -> gmap (string * string) string)
  (srv : file_server h (p_ID project) files).

Lemma fetchFileContent_run path ref w :
  run h (fetchFileContent (p_ID project) path ref) w = (inr (files w !! (ref, path)), w).
Proof using srv.
  unfold fetchFileContent. rewrite run_bind, run_call. pose proof (fs_get _ _ _ srv path ref w) as [Hw Ha].
  destruct (h _ _ w) as [r w1]. cbn [fst snd] in *. subst w1. rewrite run_ret.
  destruct (files w !! (ref, path)) as [c|].
  - destruct Ha as [-> ->]. done.
  - destruct Ha as (e & resp & -> & -> & ->). done.
Qed.

(** One file: when there is no error it is in sync and no other has changed. *)
Lemma applyFile_run f acc w : declared f ->
  match run h (applyFile LookupEnv LoadContent project f acc) w with
  | (inl res, w') => res.2 <> None
  | (inr acc', w') => in_sync project (files w') f /\ forall k, k <> file_key project f -> files w' !! k = files w !! k
  end.
Proof using srv.
  intros Hd. unfold applyFile. rewrite run_bind, fetchFileContent_run, (declared_drift f _ Hd).
  destruct (wanted_content f) as [e|d] eqn:Ew; [by rewrite run_ret|]. pose proof (wanted_content_normal f d Ew) as Hnorm.
  destruct Hd as [He _]. rewrite He. cbn [String.eqb Ascii.eqb Bool.eqb].
  assert (forall w1, files w1 = <[file_key project f := d]> (files w) ->
    in_sync project (files w1) f /\ forall k, k <> file_key project f -> files w1 !! k = files w !! k) as Hw.
  { intros w1 ->. split; [|intros k Hne; by rewrite lookup_insert_ne].
    exists d. by rewrite lookup_insert_eq, Hnorm. }
  destruct (files w !! (fileBranch project f, cleanFilePath f)) as [c|] eqn:El.
  - destruct (String.eqb_spec (normalizeContent c) d) as [Hc|_].
    { rewrite run_ret. split; [|done]. exists c. by rewrite Hc. }
    unfold commitFile, writeFile. rewrite run_bind. cbn [is_some]. rewrite run_call.
    pose proof (fs_update _ _ _ srv (cleanFilePath f) (fileBranch project f) d (commitMsg f) w) as Hu.
    destruct (h _ _ w) as [r w1]. cbn [fst snd] in Hu. rewrite run_ret. destruct (r_err r) as [e|]; [by destruct (isForbidden _ _)|].
    by apply Hw, Hu.
  - unfold commitFile, writeFile. rewrite run_bind. cbn [is_some]. rewrite run_call.
    pose proof (fs_create _ _ _ srv (cleanFilePath f) (fileBranch project f) d (commitMsg f) w) as Hu.
    destruct (h _ _ w) as [r w1]. cbn [fst snd] in Hu. rewrite run_ret. destruct (r_err r) as [e|]; [by destruct (isForbidden _ _)|].
    by apply Hw, Hu.
Qed.

Lemma applyFiles_run fs acc w res w' :
  (forall f, f ∈ fs -> declared f) -> NoDup (file_key project <$> fs) ->
  run h (applyFiles LookupEnv LoadContent project fs acc) w = ((res, None), w') ->
  (forall f, f ∈ fs -> in_sync project (files w') f) /\
  (forall k, k ∉ file_key project <$> fs -> files w' !! k = files w !! k).
Proof using srv.
  revert acc w. induction fs as [|f fs IH]; intros acc w Hd Hnd; cbn [applyFiles].
  { rewrite run_ret. intros Hr. assert (w' = w) as -> by by injection Hr. split; [set_solver|done]. }
  rewrite fmap_cons, NoDup_cons in Hnd. destruct Hnd as [Hn Hnd]. rewrite run_bind.
  pose proof (applyFile_run f acc w (Hd f ltac:(by left))) as H1.
  destruct (run h (applyFile _ _ _ _ _) w) as [[r|acc1] w1]; [rewrite run_ret; intros [= -> _]; by destruct H1|].
  intros Hr. destruct (IH acc1 w1) as [Hs Ho]; [intros g Hg; apply Hd; by right|done|done|].
  destruct H1 as [(c & Hc & Hw) Hother]. split.
  - intros g [->|Hg]%elem_of_cons; [|by apply Hs]. exists c. by rewrite Ho.
  - intros k. rewrite fmap_cons, not_elem_of_cons. intros [Hk Hk']. by rewrite Ho, Hother.
Qed.

Lemma planFiles_in_sync fs acc w :
  (forall f, f ∈ fs -> declared f) -> (forall f, f ∈ fs -> in_sync project (files w) f) ->
  run h (planFiles LookupEnv LoadContent project fs acc) w = (inr acc, w).
Proof using srv.
  intros Hd Hs. induction fs as [|f fs IH]; cbn [planFiles]; [done|].
  rewrite run_bind. unfold planFile. cbv zeta. rewrite run_bind, fetchFileContent_run.
  rewrite declared_drift by (apply Hd; by left). destruct (Hs f ltac:(by left)) as (c & Hc & ->).
  unfold file_key in Hc. rewrite Hc, String.eqb_refl, run_ret.
  apply IH; intros g Hg; [apply Hd|apply Hs]; by right.
Qed.

End Declared.

(** ** Properties *)

(** C16. File governance writes only where the policy says: whatever the server
    answers, an enforcement creates and updates only files of the policy, on
    the target branch only for direct commits and otherwise on the feature
    branch of the file; it creates only these branches and opens only these
    merge requests, and merges none unless a rule asks for it. *)
Theorem RepositoryFiles_writes_where_told LookupEnv LoadContent (cfg : option PolicyConfig) (project : Project) :
  only (fun X e => write_allowed project (files_policy cfg) e) (RepositoryFiles_Apply LookupEnv LoadContent cfg project).
Proof.
  unfold RepositoryFiles_Apply. destruct (files_policy cfg) as [|f files]; [done|]. by apply applyFiles_allowed.
Qed.


(** ** A concrete repository *)

Definition demo_file_server : handler GitLabE (gmap (string * string) string) := fun X e w =>
  match e in GitLabE X return X * gmap (string * string) string with
  | RepositoryFiles_ e =>
      match e in RepositoryFilesE X return X * gmap (string * string) string with
      | GetRawFile _ path ref =>
          (match w !! (ref, path) with Some c => reply_ok c | None => not_found "" end, w)
      | CreateFile _ path branch content _ =>
          match w !! (branch, path) with
          | None => (reply_ok tt, <[(branch, path) := content]> w)
          | Some _ => (reply_err tt 400 (ErrNew "A file with this name already exists"), w)
          end
      | UpdateFile _ path branch content _ =>
          match w !! (branch, path) with
          | Some _ => (reply_ok tt, <[(branch, path) := content]> w)
          | None => (reply_err tt 400 (ErrNew "A file with this name does not exist"), w)
          end
      end
  | e => (absent_call e, w)
  end.

Lemma demo_file_server_ok : file_server demo_file_server 42 id.
Proof.
  split.
  - intros path ref w. simpl. split; [done|]. destruct (w !! (ref, path)); [done|]. by eexists _, _.
  - intros path branch content msg w. simpl. by destruct (w !! (branch, path)).
  - intros path branch content msg w. simpl. by destruct (w !! (branch, path)).
Qed.

Definition demo_file (path content contentFile : string) (ensure : list string) : RepositoryFileConfig := {|
  rf_Path := path; rf_Content := content; rf_ContentFile := contentFile; rf_EnsureContains := ensure; rf_TargetBranch := "";
  rf_Enforcement := ""; rf_MRTitle := ""; rf_MRLabels := []; rf_AutoMerge := None
|}.

Definition demo_files_cfg (files : list RepositoryFileConfig) : option PolicyConfig := with_policies
  (Build_PoliciesConfig None [] None None None None None [] None None [] None None files []).

Definition demo_files : list RepositoryFileConfig :=
  [demo_file "/.gitlab-ci.yml" ("host: ${HOST:-none}" +:+ CR +:+ LF) "" []; demo_file "docs/../CODEOWNERS" "" "config.yaml" []].

Definition demo_repository : gmap (string * string) string :=
  <[("main", ".gitlab-ci.yml") := "old"]> (<[("main", "README.md") := "# API"]> ∅).

Definition demo_content : string -> error + string := content_files demo_fs (0, ∅) demo_loader.


(** A text with a variable reference among [ensure_contains] never settles:
    what is appended is the expanded text, which does not hold the reference,
    so every enforcement succeeds, reports a change and makes the file longer;
    and the references in the rest of the file are expanded too. *)
Theorem RepositoryFiles_ensure_contains_grows :
  let apply w := run demo_file_server (RepositoryFiles_Apply demo_env demo_content
                   (demo_files_cfg [demo_file "ci.yml" "" "" ["image: ${HOST}/ci"]]) demo_project) w in
  let w0 := <[("main", "ci.yml") := "tag: ${EMPTY:-$latest}" +:+ LF]> ∅ in
  let '(r1, w1) := apply w0 in
  let '(r2, w2) := apply w1 in
  let line := "image: gitlab.example.com/ci" +:+ LF in
  r1.2 = None /\ r2.2 = None /\
  (al_Action <$> r2.1 = Some ActionUpdate) /\
  w1 !! ("main", "ci.yml") = Some ("tag: $latest" +:+ LF +:+ line) /\
  w2 !! ("main", "ci.yml") = Some ("tag: $latest" +:+ LF +:+ line +:+ line).
Proof. vm_compute. split_and!; reflexivity. Qed.
