(* ===== verification/PushRules.v ===== *)
(** * Push rules: internal/governance/pushrules.go

    The project and group methods of the source differ in the service methods
    they call and in two words of an error; here they are instances of one
    definition over [scope_kind]. *)

From S2P Require Import Prelude GoLib Config GitLabAPI Server Governance.
Local Open Scope string_scope.
Local Open Scope list_scope.
Local Open Scope Z_scope.

(** Whether the answer means that the resource is absent. *)
Definition isNotFound (err : option error) (resp : option Response) : bool :=
  match resp with Some r => StatusCode r =? StatusNotFound | None => false end
  || match err with
     | Some e => let errStr := ToLower (error_text e) in
                 Contains errStr "404" || Contains errStr "not found"
     | None => false
     end.

Definition PushRules_Name : string := "push_rules".
Definition PushRules_Order : Z := 10.

(** ** Diffs and options *)

Definition buildProjectCreateDiff (cfg : PushRulesConfig) : Diff :=
  let b := NewDiffBuilder in
  let b := AddFieldStr b "author_email_regex" (prc_AuthorEmailRegex cfg) in
  let b := AddFieldStr b "branch_name_regex" (prc_BranchNameRegex cfg) in
  let b := AddFieldStr b "commit_message_regex" (prc_CommitMessageRegex cfg) in
  let b := AddFieldStr b "commit_message_negative_regex" (prc_CommitMessageNegativeRegex cfg) in
  let b := AddFieldStr b "file_name_regex" (prc_FileNameRegex cfg) in
  let b := AddFieldPtr b "max_file_size" (prc_MaxFileSize cfg) VInt in
  let b := AddFieldPtr b "commit_committer_check" (prc_CommitCommitterCheck cfg) VBool in
  let b := AddFieldPtr b "member_check" (prc_MemberCheck cfg) VBool in
  let b := AddFieldPtr b "prevent_secrets" (prc_PreventSecrets cfg) VBool in
  let b := AddFieldPtr b "deny_delete_tag" (prc_DenyDeleteTag cfg) VBool in
  let b := AddFieldPtr b "reject_unsigned_commits" (prc_RejectUnsignedCommits cfg) VBool in
  let b := AddFieldPtr b "reject_non_dco_commits" (prc_RejectNonDCOCommits cfg) VBool in
  Build b "push_rule" ActionCreate.

Definition buildGroupCreateDiff (cfg : PushRulesConfig) : Diff := buildProjectCreateDiff cfg.

Definition buildProjectUpdateDiff (live : PushRules) (cfg : PushRulesConfig) : Diff :=
  let b := NewDiffBuilder in
  let b := Add b (CompareString "author_email_regex" (pr_AuthorEmailRegex live) (prc_AuthorEmailRegex cfg)) in
  let b := Add b (CompareString "branch_name_regex" (pr_BranchNameRegex live) (prc_BranchNameRegex cfg)) in
  let b := Add b (CompareString "commit_message_regex" (pr_CommitMessageRegex live) (prc_CommitMessageRegex cfg)) in
  let b := Add b (CompareString "commit_message_negative_regex"
                    (pr_CommitMessageNegativeRegex live) (prc_CommitMessageNegativeRegex cfg)) in
  let b := Add b (CompareString "file_name_regex" (pr_FileNameRegex live) (prc_FileNameRegex cfg)) in
  let b := Add b (CompareIntPtr "max_file_size" (pr_MaxFileSize live) (prc_MaxFileSize cfg)) in
  let b := Add b (CompareBoolPtr "commit_committer_check"
                    (pr_CommitCommitterCheck live) (prc_CommitCommitterCheck cfg)) in
  let b := Add b (CompareBoolPtr "member_check" (pr_MemberCheck live) (prc_MemberCheck cfg)) in
  let b := Add b (CompareBoolPtr "prevent_secrets" (pr_PreventSecrets live) (prc_PreventSecrets cfg)) in
  let b := Add b (CompareBoolPtr "deny_delete_tag" (pr_DenyDeleteTag live) (prc_DenyDeleteTag cfg)) in
  let b := Add b (CompareBoolPtr "reject_unsigned_commits"
                    (pr_RejectUnsignedCommits live) (prc_RejectUnsignedCommits cfg)) in
  let b := Add b (CompareBoolPtr "reject_non_dco_commits"
                    (pr_RejectNonDCOCommits live) (prc_RejectNonDCOCommits cfg)) in
  Build b "push_rule" ActionUpdate.

(** The group's version makes the same comparisons. *)
Definition buildGroupUpdateDiff (live : PushRules) (cfg : PushRulesConfig) : Diff :=
  buildProjectUpdateDiff live cfg.

Definition toAddProjectOptions (cfg : PushRulesConfig) : PushRuleOptions := {|
  po_AuthorEmailRegex := ptr_nonempty (prc_AuthorEmailRegex cfg);
  po_BranchNameRegex := ptr_nonempty (prc_BranchNameRegex cfg);
  po_CommitMessageRegex := ptr_nonempty (prc_CommitMessageRegex cfg);
  po_CommitMessageNegativeRegex := ptr_nonempty (prc_CommitMessageNegativeRegex cfg);
  po_FileNameRegex := ptr_nonempty (prc_FileNameRegex cfg);
  po_MaxFileSize := prc_MaxFileSize cfg;
  po_CommitCommitterCheck := prc_CommitCommitterCheck cfg;
  po_MemberCheck := prc_MemberCheck cfg;
  po_PreventSecrets := prc_PreventSecrets cfg;
  po_DenyDeleteTag := prc_DenyDeleteTag cfg;
  po_RejectUnsignedCommits := prc_RejectUnsignedCommits cfg;
  po_RejectNonDCOCommits := prc_RejectNonDCOCommits cfg
|}.

(** The other three have the same assignments. *)
Definition toEditProjectOptions (cfg : PushRulesConfig) : PushRuleOptions := toAddProjectOptions cfg.
Definition toAddGroupOptions (cfg : PushRulesConfig) : PushRuleOptions := toAddProjectOptions cfg.
Definition toEditGroupOptions (cfg : PushRulesConfig) : PushRuleOptions := toAddProjectOptions cfg.

(** ** The methods *)

Definition push_policy (cfg : option PolicyConfig) : option PushRulesConfig :=
  match cfg with Some c => pol_PushRules (cfg_Policies c) | None => None end.

Definition planPushRules (k : scope_kind) (id : Z) (path : string) (cfg : option PolicyConfig)
  : GP PlanReturn :=
  match push_policy cfg with
  | None => mret (noop_plan PushRules_Name k id path)
  | Some ruleCfg =>
      r ← call (PushRules_ (GetPushRule k id));
      match r_err r, isNotFound (r_err r) (r_resp r) with
      | Some err, false =>
          mret (None, Some (ErrWrap ("failed to fetch " +:+ kind_name k +:+ " push rules for "
                                       +:+ kind_name k +:+ " " +:+ Itoa id +:+ ": ") err))
      | _, notFound =>
          match r_val r, notFound with
          | Some liveRule, false =>
              let diff := match k with
                          | OnProject => buildProjectUpdateDiff liveRule ruleCfg
                          | OnGroup => buildGroupUpdateDiff liveRule ruleCfg
                          end in
              if negb (Diff_HasChanges diff)
              then mret (noop_plan PushRules_Name k id path)
              else mret (planned PushRules_Name k id path ActionUpdate [diff])
          | _, _ =>
              let diff := match k with
                          | OnProject => buildProjectCreateDiff ruleCfg
                          | OnGroup => buildGroupCreateDiff ruleCfg
                          end in
              mret (planned PushRules_Name k id path ActionCreate [diff])
          end
      end
  end.

Definition applyPushRules (k : scope_kind) (id : Z) (path : string) (cfg : option PolicyConfig)
  : GP ApplyReturn :=
  match push_policy cfg with
  | None => mret (noop_apply PushRules_Name k id path)
  | Some ruleCfg =>
      r ← call (PushRules_ (GetPushRule k id));
      match r_err r, isNotFound (r_err r) (r_resp r) with
      | Some err, false => mret (failed PushRules_Name k id path ActionNoop [] err)
      | _, notFound =>
          match r_val r, notFound with
          | Some liveRule, false =>
              let diff := match k with
                          | OnProject => buildProjectUpdateDiff liveRule ruleCfg
                          | OnGroup => buildGroupUpdateDiff liveRule ruleCfg
                          end in
              if negb (Diff_HasChanges diff) then mret (noop_apply PushRules_Name k id path)
              else
                let editOpt := match k with
                               | OnProject => toEditProjectOptions ruleCfg
                               | OnGroup => toEditGroupOptions ruleCfg
                               end in
                e ← call (PushRules_ (EditPushRule k id editOpt));
                match r_err e with
                | Some editErr => mret (failed PushRules_Name k id path ActionUpdate [diff] editErr)
                | None => mret (succeeded PushRules_Name k id path ActionUpdate [diff])
                end
          | _, _ =>
              let diff := match k with
                          | OnProject => buildProjectCreateDiff ruleCfg
                          | OnGroup => buildGroupCreateDiff ruleCfg
                          end in
              let addOpt := match k with
                            | OnProject => toAddProjectOptions ruleCfg
                            | OnGroup => toAddGroupOptions ruleCfg
                            end in
              a ← call (PushRules_ (AddPushRule k id addOpt));
              match r_err a with
              | Some createErr => mret (failed PushRules_Name k id path ActionCreate [diff] createErr)
              | None => mret (succeeded PushRules_Name k id path ActionCreate [diff])
              end
          end
      end
  end.

Definition PushRules_Plan (cfg : option PolicyConfig) (project : Project) : GP PlanReturn :=
  planPushRules OnProject (p_ID project) (p_PathWithNamespace project) cfg.

Definition PushRules_Apply (cfg : option PolicyConfig) (project : Project) : GP ApplyReturn :=
  applyPushRules OnProject (p_ID project) (p_PathWithNamespace project) cfg.

Definition PushRules_PlanGroup (cfg : option PolicyConfig) (group : Group) : GP PlanReturn :=
  planPushRules OnGroup (g_ID group) (g_FullPath group) cfg.

Definition PushRules_ApplyGroup (cfg : option PolicyConfig) (group : Group) : GP ApplyReturn :=
  applyPushRules OnGroup (g_ID group) (g_FullPath group) cfg.

Definition NewPushRulesReconciler : GovernanceOperation := {|
  op_Name := PushRules_Name;
  op_Order := PushRules_Order;
  op_Plan := PushRules_Plan;
  op_Apply := PushRules_Apply;
  op_PlanGroup := PushRules_PlanGroup;
  op_ApplyGroup := PushRules_ApplyGroup
|}.

(** ** Specification *)

(** The live rules are as the policy wants them; what the policy leaves out is
    free. *)
Definition push_rules_meet (c : PushRulesConfig) (r : PushRules) : Prop :=
  let str d l := d = "" \/ l = d in
  let opt {A} (d : option A) l := forall x, d = Some x -> l = x in
  str (prc_AuthorEmailRegex c) (pr_AuthorEmailRegex r) /\
  str (prc_BranchNameRegex c) (pr_BranchNameRegex r) /\
  str (prc_CommitMessageRegex c) (pr_CommitMessageRegex r) /\
  str (prc_CommitMessageNegativeRegex c) (pr_CommitMessageNegativeRegex r) /\
  str (prc_FileNameRegex c) (pr_FileNameRegex r) /\
  opt (prc_MaxFileSize c) (pr_MaxFileSize r) /\
  opt (prc_CommitCommitterCheck c) (pr_CommitCommitterCheck r) /\
  opt (prc_MemberCheck c) (pr_MemberCheck r) /\
  opt (prc_PreventSecrets c) (pr_PreventSecrets r) /\
  opt (prc_DenyDeleteTag c) (pr_DenyDeleteTag r) /\
  opt (prc_RejectUnsignedCommits c) (pr_RejectUnsignedCommits r) /\
  opt (prc_RejectNonDCOCommits c) (pr_RejectNonDCOCommits r).

(** GitLab's push rule API, as documented: a rule that exists is returned, one
    that does not is a 404; an edit or a creation that reports no error has set
    the fields it was given, a creation on top of the server's defaults. *)
Record push_rule_server {W} (h : handler GitLabE W)
    (rule : W -> scope_kind -> Z -> option PushRules) (defaults : PushRules) : Prop := {
  prs_get : forall k id w, h _ (PushRules_ (GetPushRule k id)) w =
    (match rule w k id with
     | Some r => reply_ok (Some r)
     | None => reply_err None 404 (ErrNew "404 Not Found")
     end, w);
  prs_edit : forall k id opt w r, rule w k id = Some r ->
    r_err (h _ (PushRules_ (EditPushRule k id opt)) w).1 = None ->
    rule (h _ (PushRules_ (EditPushRule k id opt)) w).2 k id = Some (set_options opt r);
  prs_add : forall k id opt w, rule w k id = None ->
    r_err (h _ (PushRules_ (AddPushRule k id opt)) w).1 = None ->
    rule (h _ (PushRules_ (AddPushRule k id opt)) w).2 k id = Some (set_options opt defaults)
}.

(** ** Lemmas *)

Lemma buildProjectUpdateDiff_quiet live cfg :
  Diff_HasChanges (buildProjectUpdateDiff live cfg) = false <-> push_rules_meet cfg live.
Proof.
  unfold buildProjectUpdateDiff. rewrite Build_HasChanges; [|by autorewrite with diff..].
  autorewrite with diff. unfold push_rules_meet.
  rewrite ?CompareString_None, ?CompareBoolPtr_None, ?CompareIntPtr_None.
  simpl. tauto.
Qed.

Lemma update_diff_quiet k live cfg :
  Diff_HasChanges (match k with OnProject => buildProjectUpdateDiff live cfg
                              | OnGroup => buildGroupUpdateDiff live cfg end) = false
  <-> push_rules_meet cfg live.
Proof. destruct k; apply buildProjectUpdateDiff_quiet. Qed.

Lemma ptr_nonempty_meet s old :
  s = "" \/ match ptr_nonempty s with Some a => a | None => old end = s.
Proof. unfold ptr_nonempty. destruct (String.eqb_spec s ""); auto. Qed.

Lemma set_options_meet cfg r : push_rules_meet cfg (set_options (toAddProjectOptions cfg) r).
Proof.
  unfold push_rules_meet. split_and!; cbn; try apply ptr_nonempty_meet; by intros x ->.
Qed.

Lemma planPushRules_reads k id path cfg : reads (planPushRules k id path cfg).
Proof. unfold planPushRules. reads. Qed.

Lemma applyPushRules_quiet k id path cfg :
  quiet (planPushRules k id path cfg) (applyPushRules k id path cfg).
Proof.
  intros W h w r _ Hp Hc. unfold planPushRules, applyPushRules in *.
  destruct (push_policy cfg) as [c|]; [|by constructor].
  rewrite run_bind, run_call in Hp. simpl.
  destruct (h _ (PushRules_ (GetPushRule k id)) w) as [rep w'].
  constructor; [done|].
  destruct (r_err rep), (isNotFound _ _), (r_val rep); simpl in *; unfold planned in Hp;
    simplify_eq; try done.
  all: destruct (Diff_HasChanges _); simplify_eq/=; constructor.
Qed.

#[export] Instance PushRules_DryRun : DryRun NewPushRulesReconciler.
Proof. split; intros; apply planPushRules_reads. Qed.

#[export] Instance PushRules_NoopQuiet : NoopQuiet NewPushRulesReconciler.
Proof.
  split; intros; try apply applyPushRules_quiet; simpl;
    unfold PushRules_Plan, PushRules_PlanGroup, planPushRules; always.
Qed.

Section Server.
Context {W : Type} (h : handler GitLabE W) (rule : W -> scope_kind -> Z -> option PushRules)
  (defaults : PushRules) (srv : push_rule_server h rule defaults).

(** What a plan answers, from the server's state alone. *)
Lemma planPushRules_run k id path cfg c w :
  push_policy cfg = Some c ->
  run h (planPushRules k id path cfg) w =
  (match rule w k id with
   | Some live =>
       let diff := match k with OnProject => buildProjectUpdateDiff live c
                              | OnGroup => buildGroupUpdateDiff live c end in
       if Diff_HasChanges diff then planned PushRules_Name k id path ActionUpdate [diff]
       else noop_plan PushRules_Name k id path
   | None =>
       planned PushRules_Name k id path ActionCreate
         [match k with OnProject => buildProjectCreateDiff c | OnGroup => buildGroupCreateDiff c end]
   end, w).
Proof using srv.
  intros Hc. unfold planPushRules. rewrite Hc. rewrite run_bind, run_call, (prs_get _ _ _ srv).
  destruct (rule w k id) as [live|]; [|done]. cbn [r_err r_val r_resp reply_ok isNotFound].
  simpl. by destruct (Diff_HasChanges _).
Qed.

(** What a successful enforcement leaves behind. *)
Lemma applyPushRules_run k id path cfg c w res w' :
  push_policy cfg = Some c ->
  run h (applyPushRules k id path cfg) w = ((res, None), w') ->
  exists live, rule w' k id = Some live /\ push_rules_meet c live.
Proof using srv.
  intros Hc. unfold applyPushRules. rewrite Hc. rewrite run_bind, run_call, (prs_get _ _ _ srv).
  destruct (rule w k id) as [live|] eqn:Hr.
  - cbn [r_err r_val r_resp reply_ok]. cbn -[Diff_HasChanges call].
    destruct (Diff_HasChanges _) eqn:Hd.
    + cbn [negb]. rewrite run_bind, run_call.
      pose proof (prs_edit _ _ _ srv k id (toAddProjectOptions c) w live Hr) as He.
      destruct k; cbn [toEditProjectOptions toEditGroupOptions] in *;
        destruct (h _ _ w) as [rep w2]; cbn [fst snd] in *;
        (destruct (r_err rep); [done|]; intros [= _ <-]; specialize (He eq_refl);
         eexists; split; [exact He|apply set_options_meet]).
    + intros [= _ <-]. exists live. split; [done|]. by apply update_diff_quiet in Hd.
  - cbn -[call]. rewrite run_bind, run_call.
    pose proof (prs_add _ _ _ srv k id (toAddProjectOptions c) w Hr) as He.
    destruct k; cbn [toAddProjectOptions toAddGroupOptions] in *;
      destruct (h _ _ w) as [rep w2]; cbn [fst snd] in *;
      (destruct (r_err rep); [done|]; intros [= _ <-]; specialize (He eq_refl);
       eexists; split; [exact He|apply set_options_meet]).
Qed.

End Server.

(** ** Properties *)

(** Enforcing push rules works and converges: whenever [Apply] reports no
    error, the project's live rules meet the policy, and a plan made right
    afterwards reports nothing left to do. *)
Theorem PushRules_Apply_converges {W} (h : handler GitLabE W) rule defaults
    (srv : push_rule_server h rule defaults) cfg c project w res w' :
  push_policy cfg = Some c ->
  run h (PushRules_Apply cfg project) w = ((res, None), w') ->
  (exists live, rule w' OnProject (p_ID project) = Some live /\ push_rules_meet c live) /\
  (run h (PushRules_Plan cfg project) w').1 =
    noop_plan PushRules_Name OnProject (p_ID project) (p_PathWithNamespace project).
Proof.
  intros Hc Ha. destruct (applyPushRules_run h rule defaults srv _ _ _ _ _ _ _ _ Hc Ha)
    as (live & Hl & Hm).
  split; [by exists live|]. unfold PushRules_Plan.
  rewrite (planPushRules_run h rule defaults srv _ _ _ _ _ _ Hc), Hl. simpl.
  by apply buildProjectUpdateDiff_quiet in Hm as ->.
Qed.

Definition demo_push_policy : PushRulesConfig := {|
  prc_AuthorEmailRegex := "@example.com$"; prc_BranchNameRegex := ""; prc_CommitMessageRegex := "";
  prc_CommitMessageNegativeRegex := ""; prc_FileNameRegex := ""; prc_MaxFileSize := Some 50;
  prc_CommitCommitterCheck := None; prc_MemberCheck := Some true; prc_PreventSecrets := Some true;
  prc_DenyDeleteTag := None; prc_RejectUnsignedCommits := Some false; prc_RejectNonDCOCommits := None
|}.

Lemma demo_push_server : push_rule_server demo_server sv_push zero_PushRules.
Proof.
  split.
  - intros k id w. simpl. by destruct (sv_push w k id).
  - intros k id opt w r Hr _. simpl. rewrite Hr. simpl. by rewrite set2_same.
  - intros k id opt w Hr _. simpl. rewrite Hr. simpl. by rewrite set2_same.
Qed.

Lemma PushRules_Apply_converges_witness :
  let cfg := with_policies (Build_PoliciesConfig (Some demo_push_policy) [] None None None None None []
                              None None [] None None [] []) in
  exists w', (exists live, sv_push w' OnProject 42 = Some live /\ push_rules_meet demo_push_policy live) /\
  (run demo_server (PushRules_Plan cfg demo_project) w').1 =
    noop_plan PushRules_Name OnProject 42 "platform/api".
Proof.
  eexists. apply (PushRules_Apply_converges demo_server sv_push zero_PushRules demo_push_server
                    _ demo_push_policy demo_project empty_server
                    (Some (NewApplyResult PushRules_Name ResourceTypeProject 42 "platform/api" ActionCreate
                             StatusSuccess [buildProjectCreateDiff demo_push_policy] None)));
    reflexivity.
Defined.

(** A push rule plan reports an update exactly when some configured field
    differs from the live rule. *)
Theorem PushRules_Plan_exact {W} (h : handler GitLabE W) rule defaults
    (srv : push_rule_server h rule defaults) cfg c group w live :
  push_policy cfg = Some c -> rule w OnGroup (g_ID group) = Some live ->
  exists r, (run h (PushRules_PlanGroup cfg group) w).1 = (Some r, None) /\
    (pl_HasChanges r = false <-> push_rules_meet c live).
Proof.
  intros Hc Hl. unfold PushRules_PlanGroup.
  rewrite (planPushRules_run h rule defaults srv _ _ _ _ _ _ Hc), Hl. simpl.
  pose proof (buildProjectUpdateDiff_quiet live c) as Hq. unfold buildGroupUpdateDiff.
  destruct (Diff_HasChanges _); eexists; (split; [done|]); rewrite <- Hq; done.
Qed.

Lemma PushRules_Plan_exact_witness :
  let cfg := with_policies (Build_PoliciesConfig (Some demo_push_policy) [] None None None None None []
                              None None [] None None [] []) in
  let w := with_push empty_server (fun _ _ => Some zero_PushRules) in
  exists r, (run demo_server (PushRules_PlanGroup cfg demo_group) w).1 = (Some r, None) /\
    (pl_HasChanges r = false <-> push_rules_meet demo_push_policy zero_PushRules).
Proof.
  apply (PushRules_Plan_exact demo_server sv_push zero_PushRules demo_push_server); reflexivity.
Defined.

(** A refusal can be taken for an absence: [isNotFound] also looks for
    "404" in the text of the error, which holds the URL, so whatever status the
    server answers (a 403 on project 4042, say) a plan reports that the push
    rule is to be created, and no error. *)
Theorem PushRules_Plan_404_in_text {W} (h : handler GitLabE W) cfg c project w e :
  push_policy cfg = Some c ->
  r_err (h _ (PushRules_ (GetPushRule OnProject (p_ID project))) w).1 = Some e ->
  Contains (ToLower (error_text e)) "404" = true ->
  exists p, (run h (PushRules_Plan cfg project) w).1 = (Some p, None) /\ pl_Action p = ActionCreate.
Proof.
  intros Hc He Ht. unfold PushRules_Plan, planPushRules. rewrite Hc, run_bind, run_call.
  destruct (h _ _ w) as [r w']. simpl in He. cbn [fst]. rewrite He.
  assert (isNotFound (Some e) (r_resp r) = true) as ->.
  { unfold isNotFound. cbv zeta. rewrite Ht. by rewrite orb_true_l, orb_true_r. }
  destruct (r_val r); rewrite run_ret; eexists; split; reflexivity.
Qed.

Definition demo_refusal : handler GitLabE server := fun X e w =>
  match e in GitLabE X return X * server with
  | PushRules_ e' =>
      match e' in PushRulesE X return X * server with
      | GetPushRule _ _ =>
          (reply_err None 403
             (ErrNew "GET https://gitlab.com/api/v4/projects/4042/push_rule: 403 {message: 403 Forbidden}"), w)
      | e'' => push_handler _ e'' w
      end
  | e' => demo_server _ e' w
  end.

Lemma PushRules_Plan_404_in_text_witness :
  let cfg := with_policies (Build_PoliciesConfig (Some demo_push_policy) [] None None None None None []
                              None None [] None None [] []) in
  exists p, (run demo_refusal (PushRules_Plan cfg demo_project) empty_server).1 = (Some p, None) /\
    pl_Action p = ActionCreate.
Proof. eapply (PushRules_Plan_404_in_text demo_refusal); reflexivity. Defined.
