(* ===== verification/TargetBranchRules.v ===== *)
(** * Merge request target branch rules: internal/governance/targetbranchrules.go

    GitLab has no update for these rules and shows the newest first, so an
    enforcement destroys the managed rules and creates the declared ones in
    reverse order. *)

From S2P Require Import Prelude GoLib Config GitLabAPI Server Governance.
Local Open Scope string_scope.
Local Open Scope list_scope.
Local Open Scope Z_scope.

Definition TargetBranchRules_Name : string := "target_branch_rules".
Definition TargetBranchRules_Order : Z := 45.

(** ** Diffs *)

(** [p != nil && *p]. *)
Definition prune_enabled (t : TargetBranchRulesConfig) : bool :=
  match tbrs_Prune t with Some b => b | None => false end.

Definition ruleDiff (name : string) (old new : value) (action : ActionType) : Diff :=
  Build (AddField NewDiffBuilder "target_branch" old new action) ("target_branch_rule:" +:+ name) action.

Definition desiredStep (liveMap : gmap string TargetBranchRule) (acc : list Diff * ActionType)
    (dr : TargetBranchRuleConfig) : list Diff * ActionType :=
  match liveMap !! tbr_Name dr with
  | None => push_diff acc (ruleDiff (tbr_Name dr) VNil (VStr (tbr_TargetBranch dr)) ActionCreate) ActionCreate
  | Some liveRule =>
      if negb (tr_TargetBranch liveRule =? tbr_TargetBranch dr)%string
      then push_diff acc (ruleDiff (tbr_Name dr) (VStr (tr_TargetBranch liveRule))
                            (VStr (tbr_TargetBranch dr)) ActionUpdate) ActionUpdate
      else acc
  end.

Definition pruneStep (desiredMap : gmap string TargetBranchRuleConfig) (acc : list Diff * ActionType)
    (lr : TargetBranchRule) : list Diff * ActionType :=
  match desiredMap !! tr_Name lr with
  | None => push_diff acc (ruleDiff (tr_Name lr) (VStr (tr_TargetBranch lr)) VNil ActionDelete) ActionDelete
  | Some _ => acc
  end.

(** [for i := range a { if a[i] != b[i] { drift = true; break } }]. *)
Fixpoint differs (a b : list string) : bool :=
  match a, b with
  | x :: a', y :: b' => if negb (x =? y)%string then true else differs a' b'
  | _, _ => false
  end.

Definition managed (desiredMap : gmap string TargetBranchRuleConfig) (lr : TargetBranchRule) : bool :=
  is_some (desiredMap !! tr_Name lr).

Definition calculateDiffs (liveRules : list TargetBranchRule) (desiredCfg : TargetBranchRulesConfig)
  : list Diff * ActionType :=
  let liveMap := map_by tr_Name liveRules in
  let desiredMap := map_by tbr_Name (tbrs_Rules desiredCfg) in
  let acc := foldl (desiredStep liveMap) ([], ActionNoop) (tbrs_Rules desiredCfg) in
  let acc := if prune_enabled desiredCfg then foldl (pruneStep desiredMap) acc liveRules else acc in
  let liveSequence := tr_Name <$> List.filter (managed desiredMap) liveRules in
  let desiredSequence := tbr_Name <$> tbrs_Rules desiredCfg in
  let orderDrift := (length liveSequence =? length desiredSequence)%nat
                    && differs liveSequence desiredSequence in
  if orderDrift && (length acc.1 =? 0)%nat
  then push_diff acc (Build (AddField NewDiffBuilder "evaluation_order" (VStrs liveSequence)
                               (VStrs desiredSequence) ActionUpdate)
                        "target_branch_rules:evaluation_order" ActionUpdate) ActionUpdate
  else acc.

(** ** The methods *)

Definition rules_policy (cfg : option PolicyConfig) : option TargetBranchRulesConfig :=
  match cfg with Some c => pol_TargetBranchRules (cfg_Policies c) | None => None end.

Definition TargetBranchRules_Plan (cfg : option PolicyConfig) (project : Project) : GP PlanReturn :=
  let id := p_ID project in
  let path := p_PathWithNamespace project in
  match rules_policy cfg with
  | None => mret (noop_plan TargetBranchRules_Name OnProject id path)
  | Some rules =>
      live ← call (TargetBranchRules (GetTargetBranchRules path));
      match live with
      | inl err =>
          mret (None, Some (ErrWrap ("failed to fetch target branch rules for project " +:+ path +:+ ": ") err))
      | inr liveRules =>
          let '(diffs, overallAction) := calculateDiffs liveRules rules in
          if (length diffs =? 0)%nat then mret (noop_plan TargetBranchRules_Name OnProject id path)
          else mret (planned TargetBranchRules_Name OnProject id path overallAction diffs)
      end
  end.

(** The first loop: destroy what is managed, or everything when pruning. *)
Fixpoint destroyRules (fail : error -> error -> ApplyReturn)
    (desiredMap : gmap string TargetBranchRuleConfig) (prune : bool) (live : list TargetBranchRule)
    (next : GP ApplyReturn) : GP ApplyReturn :=
  match live with
  | [] => next
  | lr :: rest =>
      if managed desiredMap lr || prune then
        r ← call (TargetBranchRules (DestroyTargetBranchRule (tr_ID lr)));
        match r with
        | Some e => mret (fail (ErrWrap ("failed to destroy target branch rule " +:+ tr_Name lr +:+ " ("
                                           +:+ tr_ID lr +:+ "): ") e) e)
        | None => destroyRules fail desiredMap prune rest next
        end
      else destroyRules fail desiredMap prune rest next
  end.

(** The second loop, on the rules from the last to the first. *)
Fixpoint createRules (fail : error -> error -> ApplyReturn) (pid : Z)
    (reversed : list TargetBranchRuleConfig) (next : GP ApplyReturn) : GP ApplyReturn :=
  match reversed with
  | [] => next
  | dr :: rest =>
      r ← call (TargetBranchRules (CreateTargetBranchRule pid (tbr_Name dr) (tbr_TargetBranch dr)));
      match r with
      | Some e => mret (fail (ErrWrap ("failed to create target branch rule " +:+ tbr_Name dr +:+ " -> "
                                         +:+ tbr_TargetBranch dr +:+ ": ") e) e)
      | None => createRules fail pid rest next
      end
  end.

Definition TargetBranchRules_Apply (cfg : option PolicyConfig) (project : Project) : GP ApplyReturn :=
  let id := p_ID project in
  let path := p_PathWithNamespace project in
  match rules_policy cfg with
  | None => mret (noop_apply TargetBranchRules_Name OnProject id path)
  | Some rules =>
      live ← call (TargetBranchRules (GetTargetBranchRules path));
      match live with
      | inl err => mret (failed TargetBranchRules_Name OnProject id path ActionNoop [] err)
      | inr liveRules =>
          let '(diffs, overallAction) := calculateDiffs liveRules rules in
          if (length diffs =? 0)%nat then mret (noop_apply TargetBranchRules_Name OnProject id path)
          else
            let desiredMap := map_by tbr_Name (tbrs_Rules rules) in
            (* the result holds the explained error, the method returns the bare one *)
            let fail explained err : ApplyReturn :=
              (Some (NewApplyResult TargetBranchRules_Name ResourceTypeProject id path overallAction
                       StatusFailed diffs (Some explained)), Some err) in
            destroyRules fail desiredMap (prune_enabled rules) liveRules
              (createRules fail id (rev (tbrs_Rules rules))
                 (mret (succeeded TargetBranchRules_Name OnProject id path overallAction diffs)))
      end
  end.

Definition TargetBranchRules_PlanGroup (cfg : option PolicyConfig) (group : Group) : GP PlanReturn :=
  mret (skipped_plan TargetBranchRules_Name OnGroup (g_ID group) (g_FullPath group)
          "Target branch rules are not applicable to groups").

Definition TargetBranchRules_ApplyGroup (cfg : option PolicyConfig) (group : Group) : GP ApplyReturn :=
  mret (skipped_apply TargetBranchRules_Name OnGroup (g_ID group) (g_FullPath group)
          "Target branch rules are not applicable to groups").

Definition NewTargetBranchRulesReconciler : GovernanceOperation := {|
  op_Name := TargetBranchRules_Name;
  op_Order := TargetBranchRules_Order;
  op_Plan := TargetBranchRules_Plan;
  op_Apply := TargetBranchRules_Apply;
  op_PlanGroup := TargetBranchRules_PlanGroup;
  op_ApplyGroup := TargetBranchRules_ApplyGroup
|}.

(** ** Specification *)

(** What GitLab evaluates: names with their targets, from the top. *)
Definition entry (r : TargetBranchRule) : string * string := (tr_Name r, tr_TargetBranch r).
Definition desired_entry (r : TargetBranchRuleConfig) : string * string := (tbr_Name r, tbr_TargetBranch r).

(** The live rules implement the policy: the managed ones are the declared
    ones in the declared order, and when pruning there are no others. *)
Definition rules_meet (t : TargetBranchRulesConfig) (live : list TargetBranchRule) : Prop :=
  entry <$> List.filter (managed (map_by tbr_Name (tbrs_Rules t))) live = desired_entry <$> tbrs_Rules t /\
  (prune_enabled t = true -> Forall (fun r => managed (map_by tbr_Name (tbrs_Rules t)) r = true) live).

(** GitLab's target branch rules of one project: a query returns them newest
    first, a creation that succeeds puts a rule with a new identifier on top,
    a destruction that succeeds removes the rule with that identifier. *)
Record rule_server {W} (h : handler GitLabE W) (pid : Z) (path : string)
    (rules : W -> list TargetBranchRule) : Prop := {
  rs_get : forall w, h _ (TargetBranchRules (GetTargetBranchRules path)) w = (inr (rules w), w);
  rs_create : forall w name target,
    (h _ (TargetBranchRules (CreateTargetBranchRule pid name target)) w).1 = None ->
    exists id, rules (h _ (TargetBranchRules (CreateTargetBranchRule pid name target)) w).2 =
      {| tr_ID := id; tr_Name := name; tr_TargetBranch := target |} :: rules w;
  rs_destroy : forall w id,
    (h _ (TargetBranchRules (DestroyTargetBranchRule id)) w).1 = None ->
    rules (h _ (TargetBranchRules (DestroyTargetBranchRule id)) w).2 =
      List.filter (fun r => negb (tr_ID r =? id)%string) (rules w)
}.

Lemma managed_spec l lr : managed (map_by tbr_Name l) lr = true <-> tr_Name lr ∈ tbr_Name <$> l.
Proof. apply map_by_is_some. Qed.

(** ** Lemmas: the diff *)

Lemma desiredStep_ok live acc dr :
  let ok := exists lr, live !! tbr_Name dr = Some lr /\ tr_TargetBranch lr = tbr_TargetBranch dr in
  ok /\ desiredStep live acc dr = acc \/ ~ ok /\ exists d x, desiredStep live acc dr = push_diff acc d x.
Proof.
  unfold desiredStep. destruct (live !! tbr_Name dr) as [lr|]; [|right; naive_solver].
  destruct (String.eqb_spec (tr_TargetBranch lr) (tbr_TargetBranch dr)); simpl; [left|right]; naive_solver.
Qed.

Lemma pruneStep_ok dm acc lr :
  managed dm lr = true /\ pruneStep dm acc lr = acc \/
  ~ managed dm lr = true /\ exists d x, pruneStep dm acc lr = push_diff acc d x.
Proof.
  unfold pruneStep, managed. destruct (dm !! tr_Name lr); simpl; [by left|right]. naive_solver.
Qed.

Lemma differs_false a b : length a = length b -> differs a b = false <-> a = b.
Proof.
  revert b. induction a as [|x a IH]; intros [|y b]; simpl; try done. intros [= Hl].
  destruct (String.eqb_spec x y) as [->|]; simpl; [rewrite (IH b Hl)|]; naive_solver.
Qed.

Lemma first_nil (acc : list Diff * ActionType) (drift : bool) d x :
  (if drift && (length acc.1 =? 0)%nat then push_diff acc d x else acc).1 = [] <->
  acc.1 = [] /\ drift = false.
Proof.
  destruct acc as [[|e l] a], drift; simpl; naive_solver.
Qed.

(** What the diff is silent about. *)
Lemma calculateDiffs_nil_iff live t :
  (calculateDiffs live t).1 = [] <->
  Forall (fun dr => exists lr, map_by tr_Name live !! tbr_Name dr = Some lr
                               /\ tr_TargetBranch lr = tbr_TargetBranch dr) (tbrs_Rules t) /\
  (prune_enabled t = true -> Forall (fun r => managed (map_by tbr_Name (tbrs_Rules t)) r = true) live) /\
  let liveSeq := tr_Name <$> List.filter (managed (map_by tbr_Name (tbrs_Rules t))) live in
  (length liveSeq = length (tbrs_Rules t) -> liveSeq = tbr_Name <$> tbrs_Rules t).
Proof.
  unfold calculateDiffs. rewrite first_nil.
  set (dm := map_by tbr_Name (tbrs_Rules t)). set (seq := tr_Name <$> List.filter (managed dm) live).
  assert ((length seq =? length (tbr_Name <$> tbrs_Rules t))%nat && differs seq (tbr_Name <$> tbrs_Rules t)
          = false <-> (length seq = length (tbrs_Rules t) -> seq = tbr_Name <$> tbrs_Rules t)) as ->.
  { rewrite length_fmap. destruct (Nat.eqb_spec (length seq) (length (tbrs_Rules t))); simpl; [|naive_solver].
    rewrite differs_false by (by rewrite length_fmap). naive_solver. }
  pose proof (foldl_step_nil _ _ (tbrs_Rules t) ([], ActionNoop) (desiredStep_ok (map_by tr_Name live))) as Hd.
  destruct (prune_enabled t).
  - rewrite (foldl_step_nil _ _ live _ (pruneStep_ok dm)), Hd. cbn [fst].
    split; [intros ((( _ & ?) & ?) & ?)|intros (? & ? & ?)]; auto.
  - rewrite Hd. cbn [fst]. split; [intros ((_ & ?) & ?)|intros (? & _ & ?)]; auto.
    split_and!; [done|done|done].
Qed.

Lemma fmap_entry_eq (F : list TargetBranchRule) (R : list TargetBranchRuleConfig) :
  entry <$> F = desired_entry <$> R <->
  tr_Name <$> F = tbr_Name <$> R /\ tr_TargetBranch <$> F = tbr_TargetBranch <$> R.
Proof.
  revert R. induction F as [|f F IH]; intros [|r R]; [done| | |].
  1, 2: simpl; naive_solver.
  rewrite !fmap_cons. unfold entry at 1, desired_entry at 1. split.
  - intros [= -> -> H]. by apply IH in H as [-> ->].
  - intros [[= -> Hn] [= -> Ht]]. f_equal. by apply IH.
Qed.

Lemma fmap_targets_eq (F : list TargetBranchRule) (R : list TargetBranchRuleConfig) :
  tr_Name <$> F = tbr_Name <$> R ->
  (forall f r, f ∈ F -> r ∈ R -> tr_Name f = tbr_Name r -> tr_TargetBranch f = tbr_TargetBranch r) ->
  tr_TargetBranch <$> F = tbr_TargetBranch <$> R.
Proof.
  revert R. induction F as [|f F IH]; intros [|r R]; try done.
  rewrite !fmap_cons. intros [= Hn Hs] Ht. f_equal; [apply Ht; set_solver|]. apply IH; set_solver.
Qed.

(** When no name is used twice on either side, the diff is empty exactly when
    the live rules implement the policy. *)
Lemma calculateDiffs_meet live t :
  NoDup (tr_Name <$> live) -> NoDup (tbr_Name <$> tbrs_Rules t) ->
  (calculateDiffs live t).1 = [] <-> rules_meet t live.
Proof.
  intros Hl Ht. rewrite calculateDiffs_nil_iff. unfold rules_meet.
  set (F := List.filter (managed (map_by tbr_Name (tbrs_Rules t))) live).
  assert (NoDup (tr_Name <$> F)) as HF by by apply NoDup_fmap_List_filter.
  split.
  - intros (Hd & Hp & Hs). split; [|done].
    assert (tr_Name <$> F ≡ₚ tbr_Name <$> tbrs_Rules t) as Hperm.
    { apply NoDup_Permutation; [done..|]. intros n. split.
      - rewrite list_elem_of_fmap. intros (lr & -> & Hlr).
        apply elem_of_List_filter in Hlr as [Hm _]. by apply managed_spec in Hm.
      - rewrite !list_elem_of_fmap. intros (dr & -> & Hdr). rewrite Forall_forall in Hd.
        destruct (Hd dr Hdr) as (lr & Hlr & _). apply map_by_lookup_Some in Hlr as [Hin Hn].
        exists lr. split; [done|]. apply elem_of_List_filter. split; [|done].
        apply managed_spec. rewrite Hn. by apply list_elem_of_fmap_2. }
    assert (tr_Name <$> F = tbr_Name <$> tbrs_Rules t) as Hn.
    { apply Hs. rewrite Hperm. by rewrite length_fmap. }
    apply fmap_entry_eq. split; [done|]. apply fmap_targets_eq; [done|].
    intros lr dr Hlr Hdr He. rewrite Forall_forall in Hd. destruct (Hd dr Hdr) as (lr' & Hlk & <-).
    apply elem_of_List_filter in Hlr as [_ Hlr]. rewrite <- He in Hlk.
    rewrite (map_by_lookup tr_Name live lr) in Hlk by done. by simplify_eq.
  - intros [He Hp]. apply fmap_entry_eq in He as [Hn Hg]. split_and!; [|done|done].
    apply Forall_forall. intros dr Hdr.
    assert (desired_entry dr ∈ entry <$> F) as Hin.
    { assert (entry <$> F = desired_entry <$> tbrs_Rules t) as -> by by apply fmap_entry_eq.
      by apply list_elem_of_fmap_2. }
    apply list_elem_of_fmap in Hin as (lr & Heq & Hlr). injection Heq as Hn' Ht'.
    apply elem_of_List_filter in Hlr as [_ Hlr].
    exists lr. split; [|done]. rewrite Hn'. by apply map_by_lookup.
Qed.

(** ** Lemmas: the loops of [Apply] *)

Section Server.
Context {W : Type} (h : handler GitLabE W) (pid : Z) (path : string)
  (rules : W -> list TargetBranchRule) (srv : rule_server h pid path rules).

(** The failure continuation always carries an error. *)
Context (fail : error -> error -> ApplyReturn) (fail_err : forall a b, (fail a b).2 <> None).

Definition destroyed (dm : gmap string TargetBranchRuleConfig) (prune : bool) (live : list TargetBranchRule)
    (r : TargetBranchRule) : bool :=
  existsb (fun lr => (managed dm lr || prune) && (tr_ID r =? tr_ID lr)%string) live.

Lemma destroyRules_run dm prune live next w res w' :
  run h (destroyRules fail dm prune live next) w = ((res, None), w') ->
  exists w1, rules w1 = List.filter (fun r => negb (destroyed dm prune live r)) (rules w) /\
    run h next w1 = ((res, None), w').
Proof using srv fail_err.
  revert w. induction live as [|lr live IH]; intros w; cbn [destroyRules].
  - intros Hr. exists w. split; [|done]. by rewrite List.filter_true.
  - unfold destroyed. cbn [existsb]. destruct (managed dm lr || prune).
    + rewrite run_bind, run_call. pose proof (rs_destroy _ _ _ _ srv w (tr_ID lr)) as Hd.
      destruct (h _ _ w) as [[e|] w1]; simpl in Hd.
      { rewrite run_ret. intros [= Hr _]. by destruct (fail_err _ _ (f_equal snd Hr)). }
      intros Hr. destruct (IH _ Hr) as (w2 & H2 & Hn). exists w2. split; [|done].
      rewrite H2, Hd by done. rewrite List_filter_filter. apply List_filter_ext. intros x _.
      simpl. by rewrite negb_orb.
    + intros Hr. simpl. by apply IH.
Qed.

Lemma createRules_run l next w res w' :
  run h (createRules fail pid l next) w = ((res, None), w') ->
  exists w1 new, rules w1 = new ++ rules w /\ entry <$> new = desired_entry <$> rev l /\
    run h next w1 = ((res, None), w').
Proof using srv fail_err.
  revert w. induction l as [|dr l IH]; intros w; cbn [createRules].
  - intros Hr. by exists w, [].
  - rewrite run_bind, run_call.
    pose proof (rs_create _ _ _ _ srv w (tbr_Name dr) (tbr_TargetBranch dr)) as Hc.
    destruct (h _ _ w) as [[e|] w1]; simpl in Hc.
    { rewrite run_ret. intros [= Hr _]. by destruct (fail_err _ _ (f_equal snd Hr)). }
    intros Hr. destruct (Hc eq_refl) as [id Hid]. destruct (IH _ Hr) as (w2 & new & H2 & He & Hn).
    exists w2, (new ++ [{| tr_ID := id; tr_Name := tbr_Name dr; tr_TargetBranch := tbr_TargetBranch dr |}]).
    rewrite H2, Hid, <- app_assoc. split; [done|]. split; [|done].
    rewrite fmap_app, He. simpl. by rewrite fmap_app.
Qed.

End Server.

Lemma calculateDiffs_action live t :
  (calculateDiffs live t).1 <> [] ->
  (calculateDiffs live t).2 <> ActionNoop /\ (calculateDiffs live t).2 <> ActionSkipped.
Proof.
  assert (action_ok (calculateDiffs live t)) as Hok.
  { unfold calculateDiffs.
    assert (action_ok (foldl (desiredStep (map_by tr_Name live)) ([], ActionNoop) (tbrs_Rules t))) as H1.
    { apply foldl_ok; [|by left]. intros acc a Ha. unfold desiredStep.
      repeat case_match; auto; apply push_diff_ok; auto; set_solver. }
    assert (action_ok (if prune_enabled t
      then foldl (pruneStep (map_by tbr_Name (tbrs_Rules t)))
             (foldl (desiredStep (map_by tr_Name live)) ([], ActionNoop) (tbrs_Rules t)) live
      else foldl (desiredStep (map_by tr_Name live)) ([], ActionNoop) (tbrs_Rules t))) as H2.
    { destruct (prune_enabled t); [|done]. apply foldl_ok; [|done]. intros acc a Ha. unfold pruneStep.
      repeat case_match; auto; apply push_diff_ok; auto; set_solver. }
    destruct (_ && _); [|done]. apply push_diff_ok; [done|set_solver]. }
  by apply action_ok_change.
Qed.

(** With unique identifiers, what is destroyed is what was marked. *)
Lemma destroyed_marked dm prune live r :
  NoDup (tr_ID <$> live) -> r ∈ live -> destroyed dm prune live r = managed dm r || prune.
Proof.
  intros Hn Hr. unfold destroyed. apply eq_true_iff_eq. rewrite existsb_exists. split.
  - intros (lr & Hlr & Hb). apply list_elem_of_In in Hlr. b2p.
    assert (lr = r) as ->; [|done].
    apply (inj Some). rewrite <- (map_by_lookup tr_ID live lr), <- (map_by_lookup tr_ID live r) by done.
    congruence.
  - intros Hm. exists r. rewrite Hm, String.eqb_refl. split; [by apply list_elem_of_In|done].
Qed.

(** What the two loops leave implements the policy. *)
Lemma recreated_meet t live new rest :
  NoDup (tr_Name <$> live) -> NoDup (tbr_Name <$> tbrs_Rules t) ->
  rest = List.filter (fun r => negb (managed (map_by tbr_Name (tbrs_Rules t)) r || prune_enabled t)) live ->
  entry <$> new = desired_entry <$> tbrs_Rules t ->
  rules_meet t (new ++ rest) /\ NoDup (tr_Name <$> (new ++ rest)).
Proof.
  intros Hl Ht -> He. set (dm := map_by tbr_Name (tbrs_Rules t)).
  pose proof (proj1 (fmap_entry_eq _ _) He) as [Hn _].
  assert (Hnew : Forall (fun r => managed dm r = true) new).
  { apply Forall_forall. intros r Hr. apply managed_spec. rewrite <- Hn. by apply list_elem_of_fmap_2. }
  set (rest := List.filter _ live).
  assert (Hrest : Forall (fun r => managed dm r = false /\ prune_enabled t = false) rest).
  { apply Forall_forall. intros r Hr. apply elem_of_List_filter in Hr as [Hr _].
    apply negb_true_iff, orb_false_iff in Hr. done. }
  split; [split|].
  - rewrite List.filter_app, (List_filter_ext _ (fun _ => true) new), List.filter_true.
    2:{ rewrite Forall_forall in Hnew. auto. }
    rewrite (List_filter_ext _ (fun _ => false) rest), List.filter_false, app_nil_r; [done|].
    rewrite Forall_forall in Hrest. intros x Hx. by apply Hrest.
  - intros Hp. apply Forall_app. split; [done|]. eapply Forall_impl; [exact Hrest|].
    intros x []. congruence.
  - rewrite fmap_app, NoDup_app, Hn. split_and!; [done| |by apply NoDup_fmap_List_filter].
    intros n Hin. rewrite list_elem_of_fmap. intros (r & -> & Hr). rewrite Forall_forall in Hrest.
    destruct (Hrest r Hr) as [Hm _]. apply managed_spec in Hin. fold dm in Hin. congruence.
Qed.

Section Methods.
Context {W : Type} (h : handler GitLabE W) (project : Project) (rules : W -> list TargetBranchRule)
  (srv : rule_server h (p_ID project) (p_PathWithNamespace project) rules).

Lemma TargetBranchRules_Plan_run cfg t w :
  rules_policy cfg = Some t ->
  run h (TargetBranchRules_Plan cfg project) w =
  (let '(diffs, a) := calculateDiffs (rules w) t in
   if (length diffs =? 0)%nat
   then noop_plan TargetBranchRules_Name OnProject (p_ID project) (p_PathWithNamespace project)
   else planned TargetBranchRules_Name OnProject (p_ID project) (p_PathWithNamespace project) a diffs, w).
Proof using srv.
  intros Hc. unfold TargetBranchRules_Plan. rewrite Hc, run_bind, run_call, (rs_get _ _ _ _ srv).
  destruct (calculateDiffs (rules w) t) as [diffs a]. by destruct (length diffs =? 0)%nat.
Qed.

Lemma TargetBranchRules_Apply_run cfg t w res w' :
  rules_policy cfg = Some t -> NoDup (tr_ID <$> rules w) -> NoDup (tr_Name <$> rules w) ->
  NoDup (tbr_Name <$> tbrs_Rules t) ->
  run h (TargetBranchRules_Apply cfg project) w = ((res, None), w') ->
  rules_meet t (rules w') /\ NoDup (tr_Name <$> rules w').
Proof using srv.
  intros Hc Hid Hnames Ht. unfold TargetBranchRules_Apply.
  rewrite Hc, run_bind, run_call, (rs_get _ _ _ _ srv).
  pose proof (calculateDiffs_meet (rules w) t Hnames Ht) as Hd.
  destruct (calculateDiffs (rules w) t) as [diffs a]. simpl in Hd.
  destruct (length diffs =? 0)%nat eqn:El.
  - apply Nat.eqb_eq, nil_length_inv in El. intros [= _ <-]. split; [by apply Hd|done].
  - intros Hr.
    apply (destroyRules_run h _ _ rules srv) in Hr as (w1 & Hw1 & Hr); [|done].
    apply (createRules_run h _ _ rules srv) in Hr as (w2 & new & Hw2 & Hnew & Hr); [|done].
    rewrite run_ret in Hr. injection Hr as _ <-. rewrite Hw2, Hw1.
    rewrite rev_involutive in Hnew. eapply recreated_meet; [exact Hnames|done| |done].
    apply List_filter_ext. intros x Hx. f_equal. by apply destroyed_marked.
Qed.

End Methods.

Lemma TargetBranchRules_Plan_reads cfg p : reads (TargetBranchRules_Plan cfg p).
Proof. unfold TargetBranchRules_Plan. reads. Qed.

#[export] Instance TargetBranchRules_DryRun : DryRun NewTargetBranchRulesReconciler.
Proof. split; intros; simpl; [apply TargetBranchRules_Plan_reads|done]. Qed.

#[export] Instance TargetBranchRules_NoopQuiet : NoopQuiet NewTargetBranchRulesReconciler.
Proof.
  split; intros; simpl.
  - unfold TargetBranchRules_Plan. always.
  - done.
  - intros W h w r _ Hp Hc. unfold TargetBranchRules_Plan, TargetBranchRules_Apply in *.
    destruct (rules_policy cfg) as [t|]; [|constructor].
    rewrite run_bind, run_call in Hp. rewrite calls_bind, run_call. apply Forall_app.
    simpl calls at 1. destruct (h _ _ w) as [[e|live] w']; simpl in *; [done|].
    split; [by repeat constructor|].
    pose proof (calculateDiffs_action live t) as Ha.
    destruct (calculateDiffs live t) as [diffs a]. simpl in Ha.
    destruct (length diffs =? 0)%nat eqn:El; [constructor|]. unfold planned in Hp. simplify_eq.
    apply Nat.eqb_neq in El. destruct Ha as [Ha1 Ha2]; [by destruct diffs|].
    exfalso. rewrite run_ret in Hp. injection Hp as <-.
    apply NewPlanResult_changes in Hc; [|done..]. by subst.
  - intros W h w r _ _ _. constructor.
Qed.

(** ** Properties *)

(** C13. Enforcing target branch rules works and converges: whenever [Apply]
    reports no error, the live rules are the declared ones, with their
    targets, in the declared order of evaluation (and alone when pruning), and
    a plan made right afterwards reports nothing left to do. *)
Theorem TargetBranchRules_Apply_converges {W} (h : handler GitLabE W) project rules
    (srv : rule_server h (p_ID project) (p_PathWithNamespace project) rules) cfg t w res w' :
  rules_policy cfg = Some t ->
  NoDup (tr_ID <$> rules w) -> NoDup (tr_Name <$> rules w) -> NoDup (tbr_Name <$> tbrs_Rules t) ->
  run h (TargetBranchRules_Apply cfg project) w = ((res, None), w') ->
  rules_meet t (rules w') /\
  (run h (TargetBranchRules_Plan cfg project) w').1 =
    noop_plan TargetBranchRules_Name OnProject (p_ID project) (p_PathWithNamespace project).
Proof.
  intros Hc Hid Hn Ht Hr.
  destruct (TargetBranchRules_Apply_run h project rules srv _ _ _ _ _ Hc Hid Hn Ht Hr) as [Hm Hn'].
  split; [done|]. rewrite (TargetBranchRules_Plan_run h project rules srv _ _ _ Hc).
  apply calculateDiffs_meet in Hm; [|done..].
  destruct (calculateDiffs (rules w') t) as [diffs a]. simpl in Hm. by subst.
Qed.

Lemma demo_rule_server project : rule_server demo_server (p_ID project) (p_PathWithNamespace project) sv_rules.
Proof.
  split; [done|by eexists|]. intros w id. simpl. by destruct (existsb _ _).
Qed.

Definition demo_rules : TargetBranchRulesConfig := {|
  tbrs_Prune := Some true;
  tbrs_Rules := [{| tbr_Name := "release/*"; tbr_TargetBranch := "stable" |};
                 {| tbr_Name := "*"; tbr_TargetBranch := "main" |}]
|}.

(** Live: the declared catch-all is on top, and a stray rule is below. *)
Definition demo_live : server := with_rules empty_server
  [{| tr_ID := "31"; tr_Name := "*"; tr_TargetBranch := "main" |};
   {| tr_ID := "30"; tr_Name := "hotfix/*"; tr_TargetBranch := "main" |}].

Definition demo_rules_cfg : option PolicyConfig := with_policies
  (Build_PoliciesConfig None [] None None None None None [] None None [] None (Some demo_rules) [] []).

Lemma TargetBranchRules_Apply_converges_witness :
  let w' := (run demo_server (TargetBranchRules_Apply demo_rules_cfg demo_project) demo_live).2 in
  entry <$> sv_rules w' = [("release/*", "stable"); ("*", "main")] /\ rules_meet demo_rules (sv_rules w').
Proof.
  split; [reflexivity|].
  eapply (TargetBranchRules_Apply_converges demo_server demo_project sv_rules
            (demo_rule_server demo_project) demo_rules_cfg demo_rules demo_live).
  - reflexivity.
  - by apply (bool_decide_unpack _); vm_compute.
  - by apply (bool_decide_unpack _); vm_compute.
  - by apply (bool_decide_unpack _); vm_compute.
  - reflexivity.
Defined.

(** A plan for target branch rules is exact: on a project where no name
    is used twice it reports no change exactly when the live rules already
    implement the policy, order of evaluation included. *)
Theorem TargetBranchRules_Plan_exact {W} (h : handler GitLabE W) project rules
    (srv : rule_server h (p_ID project) (p_PathWithNamespace project) rules) cfg t w :
  rules_policy cfg = Some t -> NoDup (tr_Name <$> rules w) -> NoDup (tbr_Name <$> tbrs_Rules t) ->
  exists r, run h (TargetBranchRules_Plan cfg project) w = ((Some r, None), w) /\
    (pl_HasChanges r = false <-> rules_meet t (rules w)).
Proof.
  intros Hc Hn Ht. rewrite (TargetBranchRules_Plan_run h project rules srv _ _ _ Hc).
  pose proof (calculateDiffs_meet (rules w) t Hn Ht) as Hq.
  pose proof (calculateDiffs_action (rules w) t) as Ha.
  destruct (calculateDiffs (rules w) t) as [diffs a]. cbn [fst snd] in *.
  destruct (length diffs =? 0)%nat eqn:El.
  - apply Nat.eqb_eq, nil_length_inv in El as ->. eexists. split; [done|]. by rewrite <- Hq.
  - apply Nat.eqb_neq in El. destruct Ha as [Ha1 Ha2]; [by destruct diffs|].
    eexists. split; [done|]. rewrite <- Hq. by apply NewPlanResult_changes.
Qed.

Lemma TargetBranchRules_Plan_exact_witness :
  exists r, run demo_server (TargetBranchRules_Plan demo_rules_cfg demo_project) demo_live
              = ((Some r, None), demo_live) /\
    (pl_HasChanges r = false <-> rules_meet demo_rules (sv_rules demo_live)).
Proof.
  apply (TargetBranchRules_Plan_exact demo_server demo_project sv_rules (demo_rule_server demo_project)).
  - reflexivity.
  - by apply (bool_decide_unpack _); vm_compute.
  - by apply (bool_decide_unpack _); vm_compute.
Defined.
