(* ===== verification/ProtectedBranches.v ===== *)
(** * Branch protections: internal/governance/protectedbranches.go

    The live protections are fetched page by page; [fuel] bounds the pages the
    model fetches, and running out of it is the error [errOutOfFuel], which
    [ProtectedBranches_Plan_exact] and [ProtectedBranches_Apply_converges]
    exclude when the pages fit.  The latter is stated for rules that name their
    grantees by number and grant no deploy key: the reconciler does not resolve
    names, and it does not compare keys ([deploy_keys_not_compared]). *)

From S2P Require Import Prelude GoLib Config GitLabAPI Server Fetch Governance.
Local Open Scope string_scope.
Local Open Scope list_scope.
Local Open Scope Z_scope.

Definition ProtectedBranches_Name : string := "protected_branches".
Definition ProtectedBranches_Order : Z := 20.

(** ** Access descriptions *)

(** What the code compares of a description, and the text it sorts by. *)
Definition access_triple (d : BranchAccessDescription) : Z * Z * Z :=
  (ba_AccessLevel d, ba_UserID d, ba_GroupID d).

Definition access_key (d : BranchAccessDescription) : string :=
  Itoa (ba_AccessLevel d) +:+ ":" +:+ Itoa (ba_UserID d) +:+ ":" +:+ Itoa (ba_GroupID d).

(** [sort.Slice] by that text. *)
Definition sort_access (l : list BranchAccessDescription) : list BranchAccessDescription :=
  merge_sort (fun a b => String.le (access_key a) (access_key b)) l.

Fixpoint same_triples (a b : list BranchAccessDescription) : bool :=
  match a, b with
  | [], [] => true
  | x :: a', y :: b' =>
      negb (negb (ba_AccessLevel x =? ba_AccessLevel y) || negb (ba_UserID x =? ba_UserID y)
            || negb (ba_GroupID x =? ba_GroupID y)) && same_triples a' b'
  | _, _ => false
  end.

Definition equalAccessDescriptions (a b : list BranchAccessDescription) : bool :=
  if negb (length a =? length b)%nat then false else same_triples (sort_access a) (sort_access b).

Definition formatAccess (d : BranchAccessDescription) : string :=
  if 0 <? ba_UserID d then "user_id:" +:+ Itoa (ba_UserID d)
  else if 0 <? ba_GroupID d then "group_id:" +:+ Itoa (ba_GroupID d)
  else if 0 <? ba_DeployKeyID d then "deploy_key_id:" +:+ Itoa (ba_DeployKeyID d)
  else "level:" +:+ Itoa (ba_AccessLevel d).

Definition formatAccessDescriptions (l : list BranchAccessDescription) : string :=
  Join (formatAccess <$> l) ", ".

(** The deploy key of a live access level is not copied. *)
Definition liveAccessToDescriptions (levels : list BranchAccess) : list BranchAccessDescription :=
  (fun l => {| ba_AccessLevel := bl_AccessLevel l; ba_UserID := bl_UserID l;
               ba_GroupID := bl_GroupID l; ba_Username := ""; ba_GroupPath := "";
               ba_DeployKeyID := 0 |}) <$> levels.

Definition ptr_positive (z : Z) : option Z := if 0 <? z then Some z else None.

Definition toBranchPermissionOptions (descs : list BranchAccessDescription)
  : list BranchPermissionOptions :=
  (fun d => {| bp_AccessLevel := ptr_positive (ba_AccessLevel d);
               bp_UserID := ptr_positive (ba_UserID d);
               bp_GroupID := ptr_positive (ba_GroupID d);
               bp_DeployKeyID := ptr_positive (ba_DeployKeyID d) |}) <$> descs.

(** ** Diffs and options *)

Definition nonempty {A} (l : list A) : bool := (0 <? length l)%nat.

Definition branch_resource (rule : ProtectedBranchRuleConfig) : string :=
  "protected_branch:" +:+ pb_Name rule.

Definition buildCreateDiff (rule : ProtectedBranchRuleConfig) : Diff :=
  let b := NewDiffBuilder in
  let b := AddField b "name" VNil (VStr (pb_Name rule)) ActionCreate in
  let b := AddFieldIf (nonempty (pb_AllowedToPush rule)) b "allowed_to_push" VNil
             (VStr (formatAccessDescriptions (pb_AllowedToPush rule))) ActionCreate in
  let b := AddFieldIf (nonempty (pb_AllowedToMerge rule)) b "allowed_to_merge" VNil
             (VStr (formatAccessDescriptions (pb_AllowedToMerge rule))) ActionCreate in
  let b := AddFieldIf (nonempty (pb_AllowedToUnprotect rule)) b "allowed_to_unprotect" VNil
             (VStr (formatAccessDescriptions (pb_AllowedToUnprotect rule))) ActionCreate in
  let b := AddFieldPtr b "allow_force_push" (pb_AllowForcePush rule) VBool in
  let b := AddFieldPtr b "code_owner_approval_required" (pb_CodeOwnerApprovalRequired rule) VBool in
  Build b (branch_resource rule) ActionCreate.

(** One of the three comparisons of permissions. *)
Definition compareAccess (b : DiffBuilder) (field : string) (live : list BranchAccess)
    (desired : list BranchAccessDescription) : DiffBuilder :=
  let liveDescs := liveAccessToDescriptions live in
  AddFieldIf (nonempty desired && negb (equalAccessDescriptions liveDescs desired)) b field
    (VStr (formatAccessDescriptions liveDescs)) (VStr (formatAccessDescriptions desired)) ActionUpdate.

Definition buildUpdateDiff (live : ProtectedBranch) (rule : ProtectedBranchRuleConfig) : Diff :=
  let b := NewDiffBuilder in
  let b := compareAccess b "allowed_to_push" (br_PushAccessLevels live) (pb_AllowedToPush rule) in
  let b := compareAccess b "allowed_to_merge" (br_MergeAccessLevels live) (pb_AllowedToMerge rule) in
  let b := compareAccess b "allowed_to_unprotect" (br_UnprotectAccessLevels live)
             (pb_AllowedToUnprotect rule) in
  let b := Add b (CompareBoolPtr "allow_force_push" (br_AllowForcePush live) (pb_AllowForcePush rule)) in
  let b := Add b (CompareBoolPtr "code_owner_approval_required" (br_CodeOwnerApprovalRequired live)
                    (pb_CodeOwnerApprovalRequired rule)) in
  Build b (branch_resource rule) ActionUpdate.

Definition isOnlyCodeOwnerApprovalChanged (diff : Diff) : bool :=
  match d_Fields diff with
  | [f] => (fd_Field f =? "code_owner_approval_required")%string
  | _ => false
  end.

(** The single role given, when the list is one role and nothing else. *)
Definition single_role (descs : list BranchAccessDescription) (deployKeys : bool) : option Z :=
  match descs with
  | [d] => if (ba_UserID d =? 0) && (ba_GroupID d =? 0) && (negb deployKeys || (ba_DeployKeyID d =? 0))
           then Some (ba_AccessLevel d) else None
  | _ => None
  end.

Definition some_if {A} (b : bool) (a : A) : option A := if b then Some a else None.

Definition toProtectOptions (rule : ProtectedBranchRuleConfig) : ProtectRepositoryBranchesOptions := {|
  pbo_Name := pb_Name rule;
  pbo_AllowForcePush := pb_AllowForcePush rule;
  pbo_CodeOwnerApprovalRequired := pb_CodeOwnerApprovalRequired rule;
  pbo_AllowedToPush := some_if (nonempty (pb_AllowedToPush rule))
                         (toBranchPermissionOptions (pb_AllowedToPush rule));
  pbo_PushAccessLevel := single_role (pb_AllowedToPush rule) true;
  pbo_AllowedToMerge := some_if (nonempty (pb_AllowedToMerge rule))
                          (toBranchPermissionOptions (pb_AllowedToMerge rule));
  pbo_MergeAccessLevel := single_role (pb_AllowedToMerge rule) false;
  pbo_AllowedToUnprotect := some_if (nonempty (pb_AllowedToUnprotect rule))
                              (toBranchPermissionOptions (pb_AllowedToUnprotect rule));
  pbo_UnprotectAccessLevel := single_role (pb_AllowedToUnprotect rule) false
|}.

(** ** The methods *)

Definition fetchAllLiveProtectedBranches (fuel : nat) (projectID : Z)
  : GP (error + list ProtectedBranch) :=
  fetchPages (fun page => ProtectedBranches (ListProtectedBranches projectID page)) fuel 1 [].

Definition branches_policy (cfg : option PolicyConfig) : list ProtectedBranchRuleConfig :=
  match cfg with Some c => pol_ProtectedBranches (cfg_Policies c) | None => [] end.

Definition live_map (l : list ProtectedBranch) : gmap string ProtectedBranch :=
  map_by br_Name l.

Fixpoint planRules (liveMap : gmap string ProtectedBranch) (rules : list ProtectedBranchRuleConfig)
    (acc : list Diff * ActionType) : list Diff * ActionType :=
  match rules with
  | [] => acc
  | rule :: rest =>
      planRules liveMap rest
        match liveMap !! pb_Name rule with
        | None => push_diff acc (buildCreateDiff rule) ActionCreate
        | Some live =>
            let diff := buildUpdateDiff live rule in
            if Diff_HasChanges diff then push_diff acc diff ActionUpdate else acc
        end
  end.

Definition ProtectedBranches_Plan (fuel : nat) (cfg : option PolicyConfig) (project : Project)
  : GP PlanReturn :=
  let id := p_ID project in
  let path := p_PathWithNamespace project in
  match branches_policy cfg with
  | [] => mret (noop_plan ProtectedBranches_Name OnProject id path)
  | rules =>
      live ← fetchAllLiveProtectedBranches fuel id;
      match live with
      | inl err =>
          mret (None, Some (ErrWrap ("failed to list protected branches for project " +:+ Itoa id +:+ ": ") err))
      | inr liveBranches =>
          let '(allDiffs, overallAction) := planRules (live_map liveBranches) rules ([], ActionNoop) in
          if (length allDiffs =? 0)%nat then mret (noop_plan ProtectedBranches_Name OnProject id path)
          else mret (planned ProtectedBranches_Name OnProject id path overallAction allDiffs)
      end
  end.

Section Apply.
Context (id : Z) (path : string) (liveMap : gmap string ProtectedBranch).

Definition branch_failed (action : ActionType) (diffs : list Diff) (err : error) : ApplyReturn :=
  failed ProtectedBranches_Name OnProject id path action diffs err.

(** One existing protection that differs: patch it when only the code owner
    flag does, else unprotect and protect again.  [None] is success. *)
Definition updateRule (rule : ProtectedBranchRuleConfig) (diff : Diff) : GP (option error) :=
  if isOnlyCodeOwnerApprovalChanged diff && is_some (pb_CodeOwnerApprovalRequired rule) then
    r ← call (ProtectedBranches (UpdateProtectedBranch id (pb_Name rule) (pb_CodeOwnerApprovalRequired rule)));
    mret (r_err r)
  else
    u ← call (ProtectedBranches (UnprotectRepositoryBranches id (pb_Name rule)));
    match r_err u with
    | Some e => mret (Some e)
    | None =>
        r ← call (ProtectedBranches (ProtectRepositoryBranches id (toProtectOptions rule)));
        mret (r_err r)
    end.

Fixpoint applyRules (rules : list ProtectedBranchRuleConfig) (acc : list Diff * ActionType)
  : GP ApplyReturn :=
  match rules with
  | [] =>
      let '(appliedDiffs, overallAction) := acc in
      if (length appliedDiffs =? 0)%nat then mret (noop_apply ProtectedBranches_Name OnProject id path)
      else mret (succeeded ProtectedBranches_Name OnProject id path overallAction appliedDiffs)
  | rule :: rest =>
      match liveMap !! pb_Name rule with
      | None =>
          let diff := buildCreateDiff rule in
          r ← call (ProtectedBranches (ProtectRepositoryBranches id (toProtectOptions rule)));
          match r_err r with
          | Some createErr => mret (branch_failed ActionCreate (acc.1 ++ [diff]) createErr)
          | None => applyRules rest (push_diff acc diff ActionCreate)
          end
      | Some live =>
          let diff := buildUpdateDiff live rule in
          if negb (Diff_HasChanges diff) then applyRules rest acc
          else
            e ← updateRule rule diff;
            match e with
            | Some err => mret (branch_failed ActionUpdate (acc.1 ++ [diff]) err)
            | None => applyRules rest (push_diff acc diff ActionUpdate)
            end
      end
  end.

End Apply.

Definition ProtectedBranches_Apply (fuel : nat) (cfg : option PolicyConfig) (project : Project)
  : GP ApplyReturn :=
  let id := p_ID project in
  let path := p_PathWithNamespace project in
  match branches_policy cfg with
  | [] => mret (noop_apply ProtectedBranches_Name OnProject id path)
  | rules =>
      live ← fetchAllLiveProtectedBranches fuel id;
      match live with
      | inl err => mret (branch_failed id path ActionNoop [] err)
      | inr liveBranches => applyRules id path (live_map liveBranches) rules ([], ActionNoop)
      end
  end.

Definition ProtectedBranches_PlanGroup (cfg : option PolicyConfig) (group : Group) : GP PlanReturn :=
  mret (skipped_plan ProtectedBranches_Name OnGroup (g_ID group) (g_FullPath group)
          "Protected branches are not applicable to groups").

Definition ProtectedBranches_ApplyGroup (cfg : option PolicyConfig) (group : Group) : GP ApplyReturn :=
  mret (skipped_apply ProtectedBranches_Name OnGroup (g_ID group) (g_FullPath group)
          "Protected branches are not applicable to groups").

Definition NewProtectedBranchesReconciler (fuel : nat) : GovernanceOperation := {|
  op_Name := ProtectedBranches_Name;
  op_Order := ProtectedBranches_Order;
  op_Plan := ProtectedBranches_Plan fuel;
  op_Apply := ProtectedBranches_Apply fuel;
  op_PlanGroup := ProtectedBranches_PlanGroup;
  op_ApplyGroup := ProtectedBranches_ApplyGroup
|}.

(** ** Specification *)

(** A list of descriptions grants what the live levels grant, as far as the
    code looks: role, user and group, in any order. *)
Definition access_meets (desired : list BranchAccessDescription) (live : list BranchAccess) : Prop :=
  desired = [] \/ access_triple <$> liveAccessToDescriptions live ≡ₚ access_triple <$> desired.

Definition branch_meets (rule : ProtectedBranchRuleConfig) (live : ProtectedBranch) : Prop :=
  access_meets (pb_AllowedToPush rule) (br_PushAccessLevels live) /\
  access_meets (pb_AllowedToMerge rule) (br_MergeAccessLevels live) /\
  access_meets (pb_AllowedToUnprotect rule) (br_UnprotectAccessLevels live) /\
  (forall b, pb_AllowForcePush rule = Some b -> br_AllowForcePush live = b) /\
  (forall b, pb_CodeOwnerApprovalRequired rule = Some b -> br_CodeOwnerApprovalRequired live = b).

(** Whom an entry of a rule names, in the words of the policy's model, and whom
    a live access level grants. *)
Inductive branch_grantee : Type :=
| ToRole (level : Z)
| ToUser (id : Z)
| ToGroup (id : Z)
| ToDeployKey (id : Z).

Definition branch_grantee_of (key user group level : Z) : branch_grantee :=
  if 0 <? key then ToDeployKey key else if 0 <? user then ToUser user else if 0 <? group then ToGroup group
  else ToRole level.

Definition described (d : BranchAccessDescription) : branch_grantee :=
  branch_grantee_of (ba_DeployKeyID d) (ba_UserID d) (ba_GroupID d) (ba_AccessLevel d).

Definition live_grantee (l : BranchAccess) : branch_grantee :=
  branch_grantee_of (bl_DeployKeyID l) (bl_UserID l) (bl_GroupID l) (bl_AccessLevel l).

(** The entries the reconciler can enforce: one branch_grantee, a role, a user or a
    group, by number.  It resolves no [username] and no [group_path], and
    compares no deploy key, whatever the model of the policy promises of them. *)
Definition names_one (d : BranchAccessDescription) : Prop :=
  ba_Username d = "" /\ ba_GroupPath d = "" /\ ba_DeployKeyID d = 0 /\
  ((0 <= ba_AccessLevel d /\ ba_UserID d = 0 /\ ba_GroupID d = 0) \/
   (ba_AccessLevel d = 0 /\ 0 < ba_UserID d /\ ba_GroupID d = 0) \/
   (ba_AccessLevel d = 0 /\ ba_UserID d = 0 /\ 0 < ba_GroupID d)).

Definition rule_names_one (rule : ProtectedBranchRuleConfig) : Prop :=
  Forall (Forall names_one) [pb_AllowedToPush rule; pb_AllowedToMerge rule; pb_AllowedToUnprotect rule].

(** A protection grants nothing to a deploy key. *)
Definition keyless (b : ProtectedBranch) : Prop :=
  Forall (Forall (fun l => bl_DeployKeyID l = 0))
    [br_PushAccessLevels b; br_MergeAccessLevels b; br_UnprotectAccessLevels b].

(** The grants of a rule, where it says any, and its flags are those of the
    branch: nobody is missing and nobody else is let in. *)
Definition grants_exactly (desired : list BranchAccessDescription) (live : list BranchAccess) : Prop :=
  desired = [] \/ live_grantee <$> live ≡ₚ described <$> desired.

Definition rule_enforced (protections : gmap string ProtectedBranch) (rule : ProtectedBranchRuleConfig) : Prop :=
  exists live, protections !! pb_Name rule = Some live /\
    grants_exactly (pb_AllowedToPush rule) (br_PushAccessLevels live) /\
    grants_exactly (pb_AllowedToMerge rule) (br_MergeAccessLevels live) /\
    grants_exactly (pb_AllowedToUnprotect rule) (br_UnprotectAccessLevels live) /\
    (forall b, pb_AllowForcePush rule = Some b -> br_AllowForcePush live = b) /\
    (forall b, pb_CodeOwnerApprovalRequired rule = Some b -> br_CodeOwnerApprovalRequired live = b).

(** GitLab's protected branch API: the protections of a project are listed in
    pages, and a protection, an update or a removal that reports no error has
    had its effect on the named one only. *)
Record branch_server {W} (h : handler GitLabE W) (prot : W -> Z -> gmap string ProtectedBranch)
    (count : W -> Z -> nat) : Prop := {
  bs_list : forall pid w, exists l, live_map l = prot w pid /\ length l = count w pid /\
    forall page, 1 <= page ->
      h _ (ProtectedBranches (ListProtectedBranches pid page)) w = (page_of l page, w);
  bs_protect : forall pid opt w,
    r_err (h _ (ProtectedBranches (ProtectRepositoryBranches pid opt)) w).1 = None ->
    prot (h _ (ProtectedBranches (ProtectRepositoryBranches pid opt)) w).2 pid =
      <[pbo_Name opt := protected_as opt]> (prot w pid);
  bs_unprotect : forall pid name w,
    r_err (h _ (ProtectedBranches (UnprotectRepositoryBranches pid name)) w).1 = None ->
    prot (h _ (ProtectedBranches (UnprotectRepositoryBranches pid name)) w).2 pid = delete name (prot w pid);
  bs_update : forall pid name co w,
    r_err (h _ (ProtectedBranches (UpdateProtectedBranch pid name co)) w).1 = None ->
    prot (h _ (ProtectedBranches (UpdateProtectedBranch pid name co)) w).2 pid =
      alter (set_code_owner co) name (prot w pid)
}.

(** ** Lemmas: comparing descriptions *)

Lemma access_key_inj a b : access_key a = access_key b -> access_triple a = access_triple b.
Proof.
  unfold access_key, access_triple. intros H.
  apply (string_sep_inj numeral) in H as [H1 H]; [|done|apply Itoa_numeral..].
  apply (string_sep_inj numeral) in H as [H2 H3]; [|done|apply Itoa_numeral..].
  apply Itoa_inj in H1, H2, H3. by rewrite H1, H2, H3.
Qed.

Lemma same_triples_spec a b : same_triples a b = true <-> access_triple <$> a = access_triple <$> b.
Proof.
  revert b. induction a as [|x a IH]; intros [|y b]; [done..|]. cbn [same_triples].
  rewrite !fmap_cons, andb_true_iff, IH, negb_true_iff, !orb_false_iff, !negb_false_iff, !Z.eqb_eq.
  split.
  - intros [[[H1 H2] H3] ->]. f_equal. unfold access_triple. by rewrite H1, H2, H3.
  - intros [= H1 H2 H3 H]. done.
Qed.

#[local] Instance access_le_dec (a b : BranchAccessDescription) :
  Decision (String.le (access_key a) (access_key b)).
Proof. apply _. Defined.

#[local] Instance access_le_trans :
  Transitive (fun a b => String.le (access_key a) (access_key b)).
Proof. intros a b c. apply transitivity. Qed.

#[local] Instance access_le_total : Total (fun a b => String.le (access_key a) (access_key b)).
Proof. intros a b. apply (total String.le). Qed.

(** The same order, on triples. *)
Definition triple_key (t : Z * Z * Z) : string :=
  Itoa t.1.1 +:+ ":" +:+ Itoa t.1.2 +:+ ":" +:+ Itoa t.2.

Lemma sort_access_triples l :
  StronglySorted (fun s t => String.le (triple_key s) (triple_key t)) (access_triple <$> sort_access l).
Proof.
  apply (StronglySorted_fmap _ (fun a b => String.le (access_key a) (access_key b))); [done|].
  apply StronglySorted_merge_sort; apply _.
Qed.

Lemma triple_key_inj s t : triple_key s = triple_key t -> s = t.
Proof.
  intros H.
  set (d (t : Z * Z * Z) := {| ba_AccessLevel := t.1.1; ba_UserID := t.1.2; ba_GroupID := t.2;
                 ba_Username := ""; ba_GroupPath := ""; ba_DeployKeyID := 0 |}).
  pose proof (access_key_inj (d s) (d t) H) as Hi. destruct s as [[]], t as [[]]. exact Hi.
Qed.

Lemma equalAccessDescriptions_iff a b :
  equalAccessDescriptions a b = true <-> access_triple <$> a ≡ₚ access_triple <$> b.
Proof.
  unfold equalAccessDescriptions.
  assert (Hp : forall l, access_triple <$> sort_access l ≡ₚ access_triple <$> l).
  { intros l. apply fmap_Permutation, merge_sort_Permutation. }
  assert (same_triples (sort_access a) (sort_access b) = true <-> access_triple <$> a ≡ₚ access_triple <$> b)
    as Hs.
  { rewrite same_triples_spec. split.
    - intros He. rewrite <- (Hp a), <- (Hp b). by rewrite He.
    - intros He. eapply (StronglySorted_unique_strong _ _ _ _ (sort_access_triples a)
        (sort_access_triples b)).
      Unshelve.
      2: { intros s t _ _ H1 H2. apply triple_key_inj. by apply (anti_symm String.le). }
      by rewrite (Hp a), (Hp b). }
  destruct (Nat.eqb_spec (length a) (length b)) as [He|He]; simpl; [done|].
  split; [done|]. intros Hl. apply Permutation_length in Hl. by rewrite !length_fmap in Hl.
Qed.

Lemma compareAccess_quiet b f live desired :
  db_fields (compareAccess b f live desired) = [] <-> db_fields b = [] /\ access_meets desired live.
Proof.
  unfold compareAccess, access_meets. autorewrite with diff.
  rewrite andb_false_iff, negb_false_iff, equalAccessDescriptions_iff.
  destruct desired; simpl; naive_solver.
Qed.

Lemma compareAccess_details b f live desired :
  db_details (compareAccess b f live desired) = db_details b.
Proof. unfold compareAccess. by autorewrite with diff. Qed.

Lemma buildUpdateDiff_quiet live rule :
  Diff_HasChanges (buildUpdateDiff live rule) = false <-> branch_meets rule live.
Proof.
  unfold buildUpdateDiff, branch_meets.
  rewrite Build_HasChanges; [|by rewrite ?Add_details, ?compareAccess_details|done..].
  rewrite !Add_fields_nil, !compareAccess_quiet, !CompareBoolPtr_None. simpl. tauto.
Qed.

(** ** Lemmas: planning *)

(** [Q] is what else holds of the protection. *)
Definition rule_held (Q : ProtectedBranch -> Prop) (liveMap : gmap string ProtectedBranch) (rule : ProtectedBranchRuleConfig) : Prop :=
  exists live, liveMap !! pb_Name rule = Some live /\ branch_meets rule live /\ Q live.

Definition rule_ok (liveMap : gmap string ProtectedBranch) (rule : ProtectedBranchRuleConfig) : Prop :=
  exists live, liveMap !! pb_Name rule = Some live /\ branch_meets rule live.

Lemma planRules_foldl liveMap rules acc :
  planRules liveMap rules acc =
  foldl (fun acc rule => match liveMap !! pb_Name rule with
           | None => push_diff acc (buildCreateDiff rule) ActionCreate
           | Some live => let diff := buildUpdateDiff live rule in
                          if Diff_HasChanges diff then push_diff acc diff ActionUpdate else acc
           end) acc rules.
Proof. revert acc. induction rules as [|rule rules IH]; intros acc; simpl; auto. Qed.

Lemma planRules_nil liveMap rules :
  (planRules liveMap rules ([], ActionNoop)).1 = [] <-> Forall (rule_ok liveMap) rules.
Proof.
  rewrite planRules_foldl, (foldl_step_nil _ (rule_ok liveMap)); [cbn; tauto|].
  intros acc rule. unfold rule_ok. destruct (liveMap !! pb_Name rule) as [live|]; cbn zeta.
  - pose proof (buildUpdateDiff_quiet live rule) as Hq.
    destruct (Diff_HasChanges (buildUpdateDiff live rule)); [right|left]; split; try naive_solver.
  - right. naive_solver.
Qed.

Lemma planRules_action liveMap rules :
  action_ok (planRules liveMap rules ([], ActionNoop)).
Proof.
  rewrite planRules_foldl. apply foldl_ok; [|by left]. intros acc rule Ha. cbv zeta.
  repeat case_match; auto; apply push_diff_ok; auto; set_solver.
Qed.

(** ** Lemmas: enforcing *)

(** What the server records meets the rule it was given, provided the rule
    names no deploy key, which the code does not compare. *)
Lemma toBranchPermissionOptions_meets descs :
  Forall (fun d => 0 <= ba_AccessLevel d /\ 0 <= ba_UserID d /\ 0 <= ba_GroupID d) descs ->
  access_meets descs (permission_access <$> set_opt (some_if (nonempty descs)
                                                    (toBranchPermissionOptions descs)) []).
Proof.
  intros Hd. destruct descs as [|d descs]; [by left|]. right.
  cbn [nonempty length Nat.ltb Nat.leb some_if set_opt]. unfold toBranchPermissionOptions, liveAccessToDescriptions.
  rewrite <- !list_fmap_compose. apply reflexive_eq, list_fmap_ext. intros i x Hx.
  rewrite Forall_lookup in Hd. specialize (Hd i x Hx) as (H1 & H2 & H3).
  unfold access_triple, ptr_positive. simpl.
  destruct (Z.ltb_spec 0 (ba_AccessLevel x)), (Z.ltb_spec 0 (ba_UserID x)), (Z.ltb_spec 0 (ba_GroupID x));
    simpl; repeat f_equal; lia.
Qed.

Definition accesses_ok (rule : ProtectedBranchRuleConfig) : Prop :=
  Forall (Forall (fun d => 0 <= ba_AccessLevel d /\ 0 <= ba_UserID d /\ 0 <= ba_GroupID d))
    [pb_AllowedToPush rule; pb_AllowedToMerge rule; pb_AllowedToUnprotect rule].

Lemma protected_as_meets rule : accesses_ok rule -> branch_meets rule (protected_as (toProtectOptions rule)).
Proof.
  unfold accesses_ok. rewrite !Forall_cons. intros (H1 & H2 & H3 & _).
  unfold branch_meets. simpl. split_and!; try by apply toBranchPermissionOptions_meets.
  - by intros b ->.
  - by intros b ->.
Qed.

Lemma CompareBoolPtr_field f live d fd : CompareBoolPtr f live d = Some fd -> fd_Field fd = f.
Proof. unfold CompareBoolPtr, updated. intros. repeat case_match; by simplify_eq/=. Qed.

Lemma access_quiet desired live :
  nonempty desired && negb (equalAccessDescriptions (liveAccessToDescriptions live) desired) = false ->
  access_meets desired live.
Proof.
  intros Hq. assert (db_fields (compareAccess NewDiffBuilder "" live desired) = []) as Hf.
  { unfold compareAccess. by rewrite Hq. }
  by apply compareAccess_quiet in Hf as [_ Hf].
Qed.

(** A difference in the code owner flag alone is repaired by the patch. *)
Lemma code_owner_patch_meets live rule :
  isOnlyCodeOwnerApprovalChanged (buildUpdateDiff live rule) = true ->
  branch_meets rule (set_code_owner (pb_CodeOwnerApprovalRequired rule) live).
Proof.
  unfold isOnlyCodeOwnerApprovalChanged, buildUpdateDiff, compareAccess, AddFieldIf.
  destruct (nonempty (pb_AllowedToPush rule) && _) eqn:E1,
    (nonempty (pb_AllowedToMerge rule) && _) eqn:E2,
    (nonempty (pb_AllowedToUnprotect rule) && _) eqn:E3,
    (CompareBoolPtr "allow_force_push" _ _) as [fp|] eqn:E4,
    (CompareBoolPtr "code_owner_approval_required" _ _) as [co|] eqn:E5;
    simpl; try discriminate.
  - apply CompareBoolPtr_field in E4. by rewrite E4.
  - intros _. unfold branch_meets. simpl. split_and!; try by apply access_quiet.
    + exact (proj1 (CompareBoolPtr_None _ _ _) E4).
    + by intros b ->.
Qed.

Lemma names_one_ok rule : rule_names_one rule -> accesses_ok rule.
Proof.
  intros Hr. eapply Forall_impl; [exact Hr|]. intros l Hl. eapply Forall_impl; [exact Hl|].
  unfold names_one. simpl. intuition lia.
Qed.

(** What the code compares is whom it grants, deploy keys apart. *)
Lemma access_grants desired live :
  Forall names_one desired -> Forall (fun l => bl_DeployKeyID l = 0) live ->
  access_meets desired live -> grants_exactly desired live.
Proof.
  intros Hd Hl [->|Hp]; [by left|right].
  set (f (t : Z * Z * Z) := branch_grantee_of 0 t.1.2 t.2 t.1.1).
  assert (live_grantee <$> live = f <$> (access_triple <$> liveAccessToDescriptions live)) as ->.
  { unfold liveAccessToDescriptions. rewrite <- !list_fmap_compose. apply list_fmap_ext. intros i l Hi.
    rewrite Forall_lookup in Hl. unfold live_grantee. by rewrite (Hl i l Hi). }
  assert (described <$> desired = f <$> (access_triple <$> desired)) as ->.
  { rewrite <- list_fmap_compose. apply list_fmap_ext. intros i d Hi.
    rewrite Forall_lookup in Hd. destruct (Hd i d Hi) as (_ & _ & Hk & _). unfold described. by rewrite Hk. }
  by rewrite Hp.
Qed.

Lemma rule_held_enforced m rule : rule_names_one rule -> rule_held keyless m rule -> rule_enforced m rule.
Proof.
  unfold rule_names_one. rewrite !Forall_cons. intros (H1 & H2 & H3 & _) (live & Hl & (M1 & M2 & M3 & M4 & M5) & Hk).
  unfold keyless in Hk. rewrite !Forall_cons in Hk. destruct Hk as (K1 & K2 & K3 & _).
  exists live. split_and!; auto using access_grants.
Qed.

Lemma protected_as_keyless rule : rule_names_one rule -> keyless (protected_as (toProtectOptions rule)).
Proof.
  unfold rule_names_one, keyless. rewrite !Forall_cons. intros (H1 & H2 & H3 & _). simpl.
  assert (forall l, Forall names_one l ->
    Forall (fun l => bl_DeployKeyID l = 0) (permission_access <$> set_opt (some_if (nonempty l) (toBranchPermissionOptions l)) []))
    as H.
  { intros [|d l]; [by constructor|]. intros Hl. cbn [nonempty length Nat.ltb Nat.leb some_if set_opt].
    unfold toBranchPermissionOptions. rewrite <- list_fmap_compose. apply Forall_fmap. eapply Forall_impl; [exact Hl|].
    intros x (_ & _ & Hk & _). simpl. by rewrite Hk. }
  split_and!; auto.
Qed.

Section Server.
Context {W : Type} (h : handler GitLabE W) (prot : W -> Z -> gmap string ProtectedBranch)
  (count : W -> Z -> nat) (srv : branch_server h prot count).

Lemma fetchAll_run fuel pid w :
  (count w pid < per_page * fuel)%nat ->
  exists l, live_map l = prot w pid /\
    run h (fetchAllLiveProtectedBranches fuel pid) w = (inr l, w).
Proof using srv.
  intros Hf. destruct (bs_list _ _ _ srv pid w) as (l & Hl & Hc & Hpage).
  exists l. split; [done|]. apply fetchPages_run; [exact Hpage|lia].
Qed.

Lemma Plan_run fuel cfg project w :
  branches_policy cfg <> [] -> (count w (p_ID project) < per_page * fuel)%nat ->
  run h (ProtectedBranches_Plan fuel cfg project) w =
  (let '(diffs, a) := planRules (prot w (p_ID project)) (branches_policy cfg) ([], ActionNoop) in
   if (length diffs =? 0)%nat
   then noop_plan ProtectedBranches_Name OnProject (p_ID project) (p_PathWithNamespace project)
   else planned ProtectedBranches_Name OnProject (p_ID project) (p_PathWithNamespace project) a diffs, w).
Proof using srv.
  intros Hb Hf. unfold ProtectedBranches_Plan. destruct (branches_policy cfg) as [|r rules] eqn:E; [done|].
  destruct (fetchAll_run fuel (p_ID project) w Hf) as (l & <- & Hl).
  rewrite run_bind, Hl. destruct (planRules _ _ _) as [diffs a]. by destruct (length diffs =? 0)%nat.
Qed.

Context (Q : ProtectedBranch -> Prop) (Q_code_owner : forall co b, Q b -> Q (set_code_owner co b)).

(** What one rule does to the server when it succeeds. *)
Lemma updateRule_run id live rule w w1 :
  accesses_ok rule -> Q (protected_as (toProtectOptions rule)) -> Q live -> prot w id !! pb_Name rule = Some live ->
  run h (updateRule id rule (buildUpdateDiff live rule)) w = (None, w1) ->
  rule_held Q (prot w1 id) rule /\ forall n, n <> pb_Name rule -> prot w1 id !! n = prot w id !! n.
Proof using srv Q_code_owner.
  intros Hok Hqr Hq Hlive. unfold updateRule, rule_held.
  destruct (isOnlyCodeOwnerApprovalChanged _ && _) eqn:Ho.
  - apply andb_true_iff in Ho as [Ho _]. rewrite run_bind, run_call.
    pose proof (bs_update _ _ _ srv id (pb_Name rule) (pb_CodeOwnerApprovalRequired rule) w) as Hu.
    destruct (h _ _ w) as [r w2]. rewrite run_ret. intros [= He <-]. simpl in Hu. rewrite (Hu He).
    split; [|intros; by rewrite lookup_alter_ne].
    exists (set_code_owner (pb_CodeOwnerApprovalRequired rule) live).
    rewrite lookup_alter_eq, Hlive. split_and!; [done|by apply code_owner_patch_meets|auto].
  - rewrite run_bind, run_call. pose proof (bs_unprotect _ _ _ srv id (pb_Name rule) w) as Hu.
    destruct (h _ _ w) as [u w2]. simpl in Hu. destruct (r_err u); [by rewrite run_ret|].
    rewrite run_bind, run_call. pose proof (bs_protect _ _ _ srv id (toProtectOptions rule) w2) as Hp.
    destruct (h _ _ w2) as [r w3]. rewrite run_ret. intros [= He <-]. simpl in Hp.
    rewrite (Hp He), (Hu eq_refl). split.
    + exists (protected_as (toProtectOptions rule)). simpl. rewrite lookup_insert_eq.
      split_and!; [done|by apply protected_as_meets|done].
    + intros n Hn. simpl. by rewrite lookup_insert_ne, lookup_delete_ne.
Qed.

(** The rules named differently keep what they have. *)
Lemma rule_held_frame (m m' : gmap string ProtectedBranch) rule :
  m' !! pb_Name rule = m !! pb_Name rule -> rule_held Q m rule -> rule_held Q m' rule.
Proof using Type. unfold rule_held. by intros ->. Qed.

(** When the loop reports no error, every rule is met and no other branch has
    changed.  [live0] is the snapshot the loop looks names up in. *)
Lemma applyRules_run id path live0 rules acc w res w' :
  NoDup (pb_Name <$> rules) -> Forall accesses_ok rules ->
  Forall (fun rule => Q (protected_as (toProtectOptions rule))) rules ->
  (forall n b, n ∈ pb_Name <$> rules -> live0 !! n = Some b -> Q b) ->
  (forall n, n ∈ pb_Name <$> rules -> prot w id !! n = live0 !! n) ->
  run h (applyRules id path live0 rules acc) w = ((res, None), w') ->
  (forall n, n ∉ pb_Name <$> rules -> prot w' id !! n = prot w id !! n) /\
  Forall (rule_held Q (prot w' id)) rules.
Proof using srv Q_code_owner.
  revert w acc. induction rules as [|rule rules IH]; intros w acc Hnd Hok HQr HQ Hlive Hr.
  { cbn [applyRules] in Hr. destruct acc as [diffs a].
    destruct (length diffs =? 0)%nat; rewrite run_ret in Hr; injection Hr as _ <-; by split. }
  rewrite fmap_cons, NoDup_cons in Hnd. destruct Hnd as [Hn Hnd].
  rewrite Forall_cons in Hok. destruct Hok as [Hok Hoks].
  rewrite Forall_cons in HQr. destruct HQr as [Hqr HQr].
  assert (Hstep : exists w1 acc', rule_held Q (prot w1 id) rule /\
    (forall n, n <> pb_Name rule -> prot w1 id !! n = prot w id !! n) /\
    run h (applyRules id path live0 rules acc') w1 = ((res, None), w')).
  { specialize (Hlive (pb_Name rule) ltac:(rewrite fmap_cons; set_solver)).
    cbn [applyRules] in Hr. rewrite <- Hlive in Hr.
    assert (forall b, prot w id !! pb_Name rule = Some b -> Q b) as Hq.
    { intros b. rewrite Hlive. apply HQ. rewrite fmap_cons. set_solver. }
    destruct (prot w id !! pb_Name rule) as [live|] eqn:El.
    - destruct (Diff_HasChanges (buildUpdateDiff live rule)) eqn:Ec; cbn [negb] in Hr.
      + rewrite run_bind in Hr.
        destruct (run h (updateRule id rule (buildUpdateDiff live rule)) w) as [[e|] w1] eqn:Eu;
          [by rewrite run_ret in Hr|].
        destruct (updateRule_run id live rule w w1 Hok Hqr (Hq live eq_refl) El Eu). eauto.
      + apply buildUpdateDiff_quiet in Ec. exists w, acc. split; [|done]. exists live. auto.
    - rewrite run_bind, run_call in Hr.
      pose proof (bs_protect _ _ _ srv id (toProtectOptions rule) w) as Hp.
      destruct (h _ _ w) as [r w1]. simpl in Hp. destruct (r_err r); [by rewrite run_ret in Hr|].
      exists w1, (push_diff acc (buildCreateDiff rule) ActionCreate). rewrite (Hp eq_refl). split_and!; [|intros; by rewrite lookup_insert_ne|done].
      exists (protected_as (toProtectOptions rule)). rewrite lookup_insert_eq.
      split_and!; [done|by apply protected_as_meets|done]. }
  destruct Hstep as (w1 & acc' & H1 & Hframe & Hr1).
  destruct (IH w1 acc' Hnd Hoks HQr) as [Hother Hdone]; [| |done|].
  { intros n b Hin. apply HQ. rewrite fmap_cons. set_solver. }
  { intros n Hin. rewrite Hframe by set_solver. apply Hlive. rewrite fmap_cons. set_solver. }
  split.
  - intros n. rewrite fmap_cons, not_elem_of_cons. intros [Hne Hnin].
    by rewrite Hother, Hframe.
  - constructor; [|done]. eapply rule_held_frame; [by apply Hother|done].
Qed.

End Server.

#[export] Instance ProtectedBranches_DryRun fuel : DryRun (NewProtectedBranchesReconciler fuel).
Proof.
  split; intros; simpl; [|done]. unfold ProtectedBranches_Plan. case_match; [done|].
  apply reads_bind; [by apply fetchPages_reads|]. intros. repeat case_match; done.
Qed.

Lemma applyRules_quiet {W} (h : handler GitLabE W) id path liveMap rules acc w :
  Forall (rule_ok liveMap) rules -> calls h (applyRules id path liveMap rules acc) w = [].
Proof.
  revert acc. induction rules as [|rule rules IH]; intros acc; cbn [applyRules].
  { intros _. destruct acc as [diffs a]. by case_match. }
  rewrite Forall_cons. intros [(live & -> & Hm) Hr].
  apply buildUpdateDiff_quiet in Hm as ->. by apply IH.
Qed.

#[export] Instance ProtectedBranches_NoopQuiet fuel : NoopQuiet (NewProtectedBranchesReconciler fuel).
Proof.
  split; intros; simpl; [unfold ProtectedBranches_Plan; always|done| |].
  2: { intros W h w r _ _ _. constructor. }
  intros W h w r Hs Hp Hc. unfold ProtectedBranches_Plan, ProtectedBranches_Apply in *.
  destruct (branches_policy cfg) as [|rule rules]; [constructor|].
  rewrite run_bind in Hp. rewrite calls_bind. apply Forall_app. split.
  { by apply calls_reads, fetchPages_reads. }
  destruct (run h _ w) as [[e|live] w']; [constructor|].
  pose proof (planRules_action (live_map live) (rule :: rules)) as Ha.
  pose proof (planRules_nil (live_map live) (rule :: rules)) as Hn.
  destruct (planRules _ _ _) as [diffs a]. cbn [fst snd] in *.
  destruct (length diffs =? 0)%nat eqn:El.
  - apply Nat.eqb_eq, nil_length_inv in El. rewrite applyRules_quiet; [constructor|by apply Hn].
  - exfalso. apply Nat.eqb_neq in El. rewrite run_ret in Hp. injection Hp as <-.
    apply (planned_changes _ _ _ _ _ Ha) in Hc. simpl in Hc. by subst.
Qed.

(** ** Properties *)

(** A plan for protected branches is exact: when the pages fit the fuel,
    it reports no change exactly when every rule of the policy has a live
    protection of its name whose permissions (as multisets of role, user and
    group) and flags are those of the rule. *)
Theorem ProtectedBranches_Plan_exact {W} (h : handler GitLabE W) prot count
    (srv : branch_server h prot count) fuel cfg project w :
  (count w (p_ID project) < per_page * fuel)%nat ->
  exists r, run h (ProtectedBranches_Plan fuel cfg project) w = ((Some r, None), w) /\
    (pl_HasChanges r = false <->
     Forall (rule_ok (prot w (p_ID project))) (branches_policy cfg)).
Proof.
  intros Hf. destruct (decide (branches_policy cfg = [])) as [E|E].
  { unfold ProtectedBranches_Plan. rewrite E. eexists. split; [done|]. by split. }
  rewrite (Plan_run h prot count srv) by done.
  pose proof (planRules_action (prot w (p_ID project)) (branches_policy cfg)) as Ha.
  pose proof (planRules_nil (prot w (p_ID project)) (branches_policy cfg)) as Hn.
  destruct (planRules _ _ _) as [diffs a]. cbn [fst snd] in *.
  destruct (length diffs =? 0)%nat eqn:El.
  - apply Nat.eqb_eq, nil_length_inv in El. eexists. split; [done|]. by rewrite <- Hn.
  - apply Nat.eqb_neq in El. eexists. split; [done|]. rewrite <- Hn.
    exact (planned_changes _ _ _ _ _ Ha).
Qed.

(** C11. Enforcing branch protections works, converges and stays in its lane.
    For a policy whose rules name roles, users and groups by number, and branches
    that grant nothing to a deploy key: whenever [Apply] reports no error, every
    rule has a protection that lets in exactly the rule's grantees, where it
    says any, and has its flags; every branch the policy does not name is
    protected as before; and a plan made right afterwards has nothing to do. *)
Theorem ProtectedBranches_Apply_converges {W} (h : handler GitLabE W) prot count
    (srv : branch_server h prot count) fuel cfg project w res w' :
  (count w (p_ID project) < per_page * fuel)%nat ->
  (count w' (p_ID project) < per_page * fuel)%nat ->
  NoDup (pb_Name <$> branches_policy cfg) -> Forall rule_names_one (branches_policy cfg) ->
  (forall n b, n ∈ pb_Name <$> branches_policy cfg -> prot w (p_ID project) !! n = Some b -> keyless b) ->
  run h (ProtectedBranches_Apply fuel cfg project) w = ((res, None), w') ->
  Forall (rule_enforced (prot w' (p_ID project))) (branches_policy cfg) /\
  (forall n, n ∉ pb_Name <$> branches_policy cfg ->
     prot w' (p_ID project) !! n = prot w (p_ID project) !! n) /\
  (run h (ProtectedBranches_Plan fuel cfg project) w').1 =
    noop_plan ProtectedBranches_Name OnProject (p_ID project) (p_PathWithNamespace project).
Proof.
  intros Hf Hf' Hnd Hone Hk Hr.
  assert (Hmeet : (forall n, n ∉ pb_Name <$> branches_policy cfg ->
      prot w' (p_ID project) !! n = prot w (p_ID project) !! n) /\
      Forall (rule_held keyless (prot w' (p_ID project))) (branches_policy cfg)).
  { unfold ProtectedBranches_Apply in Hr.
    destruct (branches_policy cfg) as [|rule rules]; [injection Hr as _ <-; by split|].
    destruct (fetchAll_run h prot count srv fuel (p_ID project) w Hf) as (l & Hl & Hrun).
    rewrite run_bind, Hrun in Hr. rewrite <- Hl in Hk.
    eapply (applyRules_run h prot count srv keyless); [done|done| | |exact Hk| |exact Hr]; [..|by rewrite Hl].
    - eapply Forall_impl; [exact Hone|apply names_one_ok].
    - eapply Forall_impl; [exact Hone|apply protected_as_keyless]. }
  destruct Hmeet as [Hframe Hheld]. split_and!; [|done|].
  { apply Forall_forall. intros rule Hin. rewrite Forall_forall in Hone, Hheld. auto using rule_held_enforced. }
  destruct (decide (branches_policy cfg = [])) as [E|E].
  { unfold ProtectedBranches_Plan. by rewrite E. }
  rewrite (Plan_run h prot count srv) by done.
  assert (Forall (rule_ok (prot w' (p_ID project))) (branches_policy cfg)) as Hmeet.
  { eapply Forall_impl; [exact Hheld|]. intros rule (live & ? & ? & _). by exists live. }
  apply planRules_nil in Hmeet. destruct (planRules _ _ _) as [diffs a]. simpl in Hmeet. by subst.
Qed.

Definition role (level : Z) : BranchAccessDescription := {|
  ba_AccessLevel := level; ba_UserID := 0; ba_GroupID := 0; ba_Username := ""; ba_GroupPath := "";
  ba_DeployKeyID := 0 |}.

Definition deploy_key (key : Z) : BranchAccessDescription := {|
  ba_AccessLevel := 0; ba_UserID := 0; ba_GroupID := 0; ba_Username := ""; ba_GroupPath := "";
  ba_DeployKeyID := key |}.

Definition demo_branches_cfg : option PolicyConfig := with_policies
  (Build_PoliciesConfig None
     [{| pb_Name := "main"; pb_AllowedToPush := [role 40]; pb_AllowedToMerge := [role 30; role 40];
         pb_AllowedToUnprotect := []; pb_AllowForcePush := Some false;
         pb_CodeOwnerApprovalRequired := Some true |};
      {| pb_Name := "release/*"; pb_AllowedToPush := []; pb_AllowedToMerge := [];
         pb_AllowedToUnprotect := []; pb_AllowForcePush := None; pb_CodeOwnerApprovalRequired := None |}]
     None None None None None [] None None [] None None [] []).

Lemma live_map_filter name l :
  live_map (List.filter (fun b => negb (br_Name b =? name)%string) l) = delete name (live_map l).
Proof. apply (map_by_filter br_Name). Qed.

Lemma live_map_update name co l :
  live_map (map (fun b => if (br_Name b =? name)%string then set_code_owner co b else b) l)
  = alter (set_code_owner co) name (live_map l).
Proof. by apply (map_by_update br_Name). Qed.

Lemma demo_branch_server : branch_server demo_server (fun w pid => live_map (sv_branches w pid))
  (fun w pid => length (sv_branches w pid)).
Proof.
  split.
  - intros pid w. exists (sv_branches w pid). split_and!; [done..|]. by intros page _.
  - intros pid opt w. simpl. destruct (existsb _ _); simpl; [done|]. intros _. simpl.
    rewrite set1_same. exact (map_by_snoc br_Name _ (protected_as opt)).
  - intros pid name w. simpl. destruct (existsb _ _); [|done]. intros _. simpl.
    by rewrite set1_same, live_map_filter.
  - intros pid name co w. simpl. destruct (existsb _ _); [|done]. intros _. simpl.
    by rewrite set1_same, live_map_update.
Qed.

Lemma ProtectedBranches_Plan_exact_witness :
  exists r, run demo_server (ProtectedBranches_Plan 1 demo_branches_cfg demo_project) empty_server
              = ((Some r, None), empty_server) /\
    (pl_HasChanges r = false <-> Forall (rule_ok ∅) (branches_policy demo_branches_cfg)).
Proof.
  apply (ProtectedBranches_Plan_exact demo_server _ _ demo_branch_server). simpl. unfold per_page. lia.
Defined.

(** [main] lets a developer push, and [legacy] is not in the policy. *)
Definition demo_drifted : server := (run demo_server
  (_ ← call (ProtectedBranches (ProtectRepositoryBranches 42 (toProtectOptions
     {| pb_Name := "legacy"; pb_AllowedToPush := [role 60]; pb_AllowedToMerge := []; pb_AllowedToUnprotect := [];
        pb_AllowForcePush := None; pb_CodeOwnerApprovalRequired := None |})));
   call (ProtectedBranches (ProtectRepositoryBranches 42 (toProtectOptions
     {| pb_Name := "main"; pb_AllowedToPush := [role 30; role 40]; pb_AllowedToMerge := []; pb_AllowedToUnprotect := [];
        pb_AllowForcePush := Some true; pb_CodeOwnerApprovalRequired := None |})))) empty_server).2.

Lemma ProtectedBranches_Apply_converges_witness :
  let w' := (run demo_server (ProtectedBranches_Apply 1 demo_branches_cfg demo_project) demo_drifted).2 in
  Forall (rule_enforced (live_map (sv_branches w' 42))) (branches_policy demo_branches_cfg) /\
  live_map (sv_branches w' 42) !! "legacy" = live_map (sv_branches demo_drifted 42) !! "legacy" /\
  (run demo_server (ProtectedBranches_Plan 1 demo_branches_cfg demo_project) w').1 =
    noop_plan ProtectedBranches_Name OnProject 42 "platform/api".
Proof.
  intros w'.
  edestruct (ProtectedBranches_Apply_converges demo_server _ _ demo_branch_server 1 demo_branches_cfg
            demo_project demo_drifted) as (H1 & H2 & H3); [| | | | |vm_compute; reflexivity|].
  - apply Nat.ltb_lt. vm_compute. reflexivity.
  - apply Nat.ltb_lt. vm_compute. reflexivity.
  - by apply (bool_decide_unpack _); vm_compute.
  - repeat constructor; simpl; lia.
  - intros n b Hn. apply elem_of_cons in Hn as [->|Hn]; [|apply list_elem_of_singleton in Hn as ->].
    + vm_compute. intros [= <-]. repeat constructor.
    + by vm_compute.
  - split_and!; [exact H1|apply H2; by apply (bool_decide_unpack _); vm_compute|exact H3].
Defined.

(** Deploy keys are outside the comparison: lists that differ only in
    their deploy keys compare equal, so a rule that grants push to one deploy
    key is taken as met by a live protection that grants it to another. *)
Theorem deploy_keys_not_compared (l : list BranchAccessDescription) (key : Z -> Z) :
  equalAccessDescriptions l
    ((fun d => {| ba_AccessLevel := ba_AccessLevel d; ba_UserID := ba_UserID d; ba_GroupID := ba_GroupID d;
                  ba_Username := ba_Username d; ba_GroupPath := ba_GroupPath d;
                  ba_DeployKeyID := key (ba_DeployKeyID d) |}) <$> l) = true.
Proof. apply equalAccessDescriptions_iff. by rewrite <- list_fmap_compose. Qed.
