(* ===== verification/PipelineRetention.v ===== *)
(** * Pipeline retention: internal/governance/pipelineretention.go *)

From S2P Require Import Prelude GoLib Config GitLabAPI Server Governance.
Local Open Scope string_scope.
Local Open Scope list_scope.
Local Open Scope Z_scope.

Definition PipelineRetention_Name : string := "pipeline_retention".
Definition PipelineRetention_Order : Z := 50.

Definition retention_policy (cfg : option PolicyConfig) : option PipelineRetentionConfig :=
  match cfg with Some c => pol_PipelineRetention (cfg_Policies c) | None => None end.

Definition retentionDiff (currentSeconds : Z) (retentionCfg : PipelineRetentionConfig) : Diff :=
  let desiredSeconds := PipelineRetention_Seconds retentionCfg in
  let days := Z.quot currentSeconds 86400 in
  let b := NewDiffBuilder in
  let b := AddField b "ci_delete_pipelines_in_seconds" (VInt currentSeconds) (VInt desiredSeconds) ActionUpdate in
  let b := AddField b "retention_days" (VInt days) (VInt (prt_RetentionDays retentionCfg)) ActionUpdate in
  let b := SetDetails b ("Update pipeline retention from " +:+ Itoa days +:+ " days (" +:+ Itoa currentSeconds
                           +:+ " sec) to " +:+ Itoa (prt_RetentionDays retentionCfg) +:+ " days ("
                           +:+ Itoa desiredSeconds +:+ " sec)") in
  Build b "pipeline_retention" ActionUpdate.

Definition PipelineRetention_Plan (cfg : option PolicyConfig) (project : Project) : GP PlanReturn :=
  let id := p_ID project in
  let path := p_PathWithNamespace project in
  match retention_policy cfg with
  | None => mret (noop_plan PipelineRetention_Name OnProject id path)
  | Some retentionCfg =>
      r ← call (Projects (GetProjectPipelineRetention id));
      match r_err r with
      | Some err =>
          mret (None, Some (ErrWrap ("failed to fetch project " +:+ Itoa id +:+ " pipeline retention: ") err))
      | None =>
          let currentSeconds := r_val r in
          if currentSeconds =? PipelineRetention_Seconds retentionCfg
          then mret (noop_plan PipelineRetention_Name OnProject id path)
          else mret (planned PipelineRetention_Name OnProject id path ActionUpdate
                       [retentionDiff currentSeconds retentionCfg])
      end
  end.

Definition PipelineRetention_Apply (cfg : option PolicyConfig) (project : Project) : GP ApplyReturn :=
  let id := p_ID project in
  let path := p_PathWithNamespace project in
  match retention_policy cfg with
  | None => mret (noop_apply PipelineRetention_Name OnProject id path)
  | Some retentionCfg =>
      planThenApply (PipelineRetention_Plan cfg project)
        (noop_apply PipelineRetention_Name OnProject id path)
        (failed PipelineRetention_Name OnProject id path ActionNoop [])
        (fun plan =>
           let desiredSeconds := PipelineRetention_Seconds retentionCfg in
           r ← call (Projects (SetProjectPipelineRetention id desiredSeconds));
           match r_err r with
           | Some err =>
               mret (failed PipelineRetention_Name OnProject id path ActionUpdate (pl_Diffs plan)
                       (ErrWrap ("failed to update pipeline retention on project " +:+ Itoa id +:+ ": ") err))
           | None => mret (succeeded PipelineRetention_Name OnProject id path ActionUpdate (pl_Diffs plan))
           end)
  end.

Definition PipelineRetention_PlanGroup (cfg : option PolicyConfig) (group : Group) : GP PlanReturn :=
  mret (skipped_plan PipelineRetention_Name OnGroup (g_ID group) (g_FullPath group)
          "Pipeline retention is not applicable to groups").

Definition PipelineRetention_ApplyGroup (cfg : option PolicyConfig) (group : Group) : GP ApplyReturn :=
  mret (skipped_apply PipelineRetention_Name OnGroup (g_ID group) (g_FullPath group)
          "Pipeline retention is not applicable to groups").

Definition NewPipelineRetentionReconciler : GovernanceOperation := {|
  op_Name := PipelineRetention_Name;
  op_Order := PipelineRetention_Order;
  op_Plan := PipelineRetention_Plan;
  op_Apply := PipelineRetention_Apply;
  op_PlanGroup := PipelineRetention_PlanGroup;
  op_ApplyGroup := PipelineRetention_ApplyGroup
|}.

(** The attribute of the project, read and written. *)
Record retention_server {W} (h : handler GitLabE W) (retention : W -> Z -> Z) : Prop := {
  rts_get : forall pid w,
    h _ (Projects (GetProjectPipelineRetention pid)) w = (reply_ok (retention w pid), w);
  rts_set : forall pid s w,
    r_err (h _ (Projects (SetProjectPipelineRetention pid s)) w).1 = None ->
    retention (h _ (Projects (SetProjectPipelineRetention pid s)) w).2 pid = s
}.

(** ** Lemmas *)

Lemma PipelineRetention_Plan_reads cfg p : reads (PipelineRetention_Plan cfg p).
Proof. unfold PipelineRetention_Plan. reads. Qed.

#[export] Instance PipelineRetention_DryRun : DryRun NewPipelineRetentionReconciler.
Proof. split; intros; simpl; [apply PipelineRetention_Plan_reads|done]. Qed.

#[export] Instance PipelineRetention_NoopQuiet : NoopQuiet NewPipelineRetentionReconciler.
Proof.
  split; intros; simpl; [unfold PipelineRetention_Plan; always|done| |].
  - unfold PipelineRetention_Apply. destruct (retention_policy cfg).
    + apply planThenApply_quiet, PipelineRetention_Plan_reads.
    + intros W h w r _ _ _. constructor.
  - intros W h w r _ _ _. constructor.
Qed.

(** Seconds are exact for every number of days that fits. *)
Lemma Seconds_exact p :
  0 <= prt_RetentionDays p <= 106751991167300 -> PipelineRetention_Seconds p = prt_RetentionDays p * 86400.
Proof. intros. apply wrap64_id. unfold int64_range. lia. Qed.

Section Server.
Context {W : Type} (h : handler GitLabE W) (retention : W -> Z -> Z) (srv : retention_server h retention).

Lemma PipelineRetention_Plan_run cfg c project w :
  retention_policy cfg = Some c ->
  run h (PipelineRetention_Plan cfg project) w =
  (if retention w (p_ID project) =? PipelineRetention_Seconds c
   then noop_plan PipelineRetention_Name OnProject (p_ID project) (p_PathWithNamespace project)
   else planned PipelineRetention_Name OnProject (p_ID project) (p_PathWithNamespace project) ActionUpdate
          [retentionDiff (retention w (p_ID project)) c], w).
Proof using srv.
  intros Hc. unfold PipelineRetention_Plan. rewrite Hc, run_bind, run_call, (rts_get _ _ srv).
  cbn [r_err r_val reply_ok]. by destruct (_ =? _).
Qed.

Lemma PipelineRetention_Apply_run cfg c project w res w' :
  retention_policy cfg = Some c ->
  run h (PipelineRetention_Apply cfg project) w = ((res, None), w') ->
  retention w' (p_ID project) = PipelineRetention_Seconds c.
Proof using srv.
  intros Hc. unfold PipelineRetention_Apply. rewrite Hc.
  pose proof (PipelineRetention_Plan_run cfg c project w Hc) as Hp.
  destruct (Z.eqb_spec (retention w (p_ID project)) (PipelineRetention_Seconds c)) as [He|He];
    rewrite (planThenApply_run _ _ _ _ _ _ _ _ Hp); [by intros [= _ <-]|].
  cbn [pl_HasChanges NewPlanResult]. cbn -[call]. rewrite run_bind, run_call.
  pose proof (rts_set _ _ srv (p_ID project) (PipelineRetention_Seconds c) w) as Hs.
  destruct (h _ _ w) as [r w2]. simpl in Hs.
  destruct (r_err r); rewrite run_ret; [done|]. intros [= _ <-]. by apply Hs.
Qed.

End Server.

(** ** Properties *)

(** Enforcing pipeline retention works and converges: whenever [Apply]
    reports no error the project keeps pipelines for exactly the configured
    number of days (up to the range of the 64-bit product), and a plan made
    right afterwards has nothing to do. *)
Theorem PipelineRetention_Apply_converges {W} (h : handler GitLabE W) retention
    (srv : retention_server h retention) cfg c project w res w' :
  retention_policy cfg = Some c -> 0 <= prt_RetentionDays c <= 106751991167300 ->
  run h (PipelineRetention_Apply cfg project) w = ((res, None), w') ->
  retention w' (p_ID project) = prt_RetentionDays c * 86400 /\
  (run h (PipelineRetention_Plan cfg project) w').1 =
    noop_plan PipelineRetention_Name OnProject (p_ID project) (p_PathWithNamespace project).
Proof.
  intros Hc Hd Hr. rewrite <- (Seconds_exact c Hd).
  pose proof (PipelineRetention_Apply_run h retention srv _ _ _ _ _ _ Hc Hr) as He.
  split; [done|]. by rewrite (PipelineRetention_Plan_run h retention srv _ _ _ _ Hc), He, Z.eqb_refl.
Qed.

Lemma demo_retention_server : retention_server demo_server sv_retention.
Proof. split; [done|]. intros pid s w _. apply set1_same. Qed.

Lemma PipelineRetention_Apply_converges_witness :
  let cfg := with_policies (Build_PoliciesConfig None [] None None None None
                              (Some {| prt_RetentionDays := 30 |}) [] None None [] None None [] []) in
  let w' := (run demo_server (PipelineRetention_Apply cfg demo_project) empty_server).2 in
  sv_retention w' 42 = 2592000.
Proof.
  intros cfg w'.
  eapply (PipelineRetention_Apply_converges demo_server sv_retention demo_retention_server cfg
            {| prt_RetentionDays := 30 |} demo_project empty_server); [reflexivity|simpl; lia|reflexivity].
Defined.
