(* ===== verification/ProjectSettings.v ===== *)
(** * Project settings: internal/governance/projectsettings.go *)

From S2P Require Import Prelude GoLib Config GitLabAPI Server Governance.
Local Open Scope string_scope.
Local Open Scope list_scope.
Local Open Scope Z_scope.

Definition ProjectSettings_Name : string := "project_settings".
Definition ProjectSettings_Order : Z := 40.

(** [if d != "" && live != d { builder.AddField(field, live, d, ActionUpdate) }]. *)
Definition AddFieldStrUpdate (b : DiffBuilder) (field live desired : string) : DiffBuilder :=
  AddFieldIf (negb (desired =? "")%string && negb (live =? desired)%string) b field
    (VStr live) (VStr desired) ActionUpdate.

Definition buildProjectSettingsDiff (live : Project) (desired : ProjectSettingsConfig) : Diff :=
  let b := NewDiffBuilder in
  let b := AddFieldStrUpdate b "default_branch" (p_DefaultBranch live) (pj_DefaultBranch desired) in
  let b := AddFieldStrUpdate b "squash_option" (p_SquashOption live) (pj_SquashOption desired) in
  let b := AddFieldStrUpdate b "merge_method" (p_MergeMethod live) (pj_MergeMethod desired) in
  let b := Add b (CompareBoolPtr "only_allow_merge_if_pipeline_succeeds"
                    (p_OnlyAllowMergeIfPipelineSucceeds live) (pj_OnlyAllowMergeIfPipelineSucceeds desired)) in
  let b := Add b (CompareBoolPtr "allow_merge_on_skipped_pipeline"
                    (p_AllowMergeOnSkippedPipeline live) (pj_AllowMergeOnSkippedPipeline desired)) in
  let b := Add b (CompareBoolPtr "only_allow_merge_if_all_discussions_are_resolved"
                    (p_OnlyAllowMergeIfAllDiscussionsAreResolved live)
                    (pj_OnlyAllowMergeIfAllDiscussionsAreResolved desired)) in
  let b := Add b (CompareBoolPtr "remove_source_branch_after_merge"
                    (p_RemoveSourceBranchAfterMerge live) (pj_RemoveSourceBranchAfterMerge desired)) in
  let b := Add b (CompareBoolPtr "keep_latest_artifact"
                    (p_KeepLatestArtifact live) (pj_KeepLatestArtifact desired)) in
  let b := Add b (CompareBoolPtr "printing_merge_request_link_enabled"
                    (p_PrintingMergeRequestLinkEnabled live) (pj_PrintingMergeRequestLinkEnabled desired)) in
  let b := AddFieldStrUpdate b "auto_cancel_pending_pipelines" (p_AutoCancelPendingPipelines live)
             (pj_AutoCancelPendingPipelines desired) in
  let b := Add b (CompareBoolPtr "auto_devops_enabled"
                    (p_AutoDevopsEnabled live) (pj_AutoDevopsEnabled desired)) in
  Build b "project_settings" ActionUpdate.

Definition toEditProjectSettings (cfg : ProjectSettingsConfig) : EditProjectOptions := {|
  ep_DefaultBranch := ptr_nonempty (pj_DefaultBranch cfg);
  ep_SquashOption := ptr_nonempty (pj_SquashOption cfg);
  ep_MergeMethod := ptr_nonempty (pj_MergeMethod cfg);
  ep_OnlyAllowMergeIfPipelineSucceeds := pj_OnlyAllowMergeIfPipelineSucceeds cfg;
  ep_AllowMergeOnSkippedPipeline := pj_AllowMergeOnSkippedPipeline cfg;
  ep_OnlyAllowMergeIfAllDiscussionsAreResolved := pj_OnlyAllowMergeIfAllDiscussionsAreResolved cfg;
  ep_RemoveSourceBranchAfterMerge := pj_RemoveSourceBranchAfterMerge cfg;
  ep_KeepLatestArtifact := pj_KeepLatestArtifact cfg;
  ep_PrintingMergeRequestLinkEnabled := pj_PrintingMergeRequestLinkEnabled cfg;
  ep_AutoCancelPendingPipelines := ptr_nonempty (pj_AutoCancelPendingPipelines cfg);
  ep_AutoDevopsEnabled := pj_AutoDevopsEnabled cfg;
  ep_SharedRunnersEnabled := None;
  ep_GroupRunnersEnabled := None
|}.

Definition settings_policy (cfg : option PolicyConfig) : option ProjectSettingsConfig :=
  match cfg with Some c => pol_ProjectSettings (cfg_Policies c) | None => None end.

Definition ProjectSettings_Plan (cfg : option PolicyConfig) (project : Project) : GP PlanReturn :=
  let id := p_ID project in
  let path := p_PathWithNamespace project in
  match settings_policy cfg with
  | None => mret (noop_plan ProjectSettings_Name OnProject id path)
  | Some desired =>
      r ← call (Projects (GetProject id));
      match r_err r with
      | Some err => mret (None, Some (ErrWrap ("failed to get project " +:+ Itoa id +:+ " details: ") err))
      | None =>
          let liveProj := match r_val r with Some p => p | None => project end in
          let diff := buildProjectSettingsDiff liveProj desired in
          if negb (Diff_HasChanges diff) then mret (noop_plan ProjectSettings_Name OnProject id path)
          else mret (planned ProjectSettings_Name OnProject id path ActionUpdate [diff])
      end
  end.

Definition ProjectSettings_Apply (cfg : option PolicyConfig) (project : Project) : GP ApplyReturn :=
  let id := p_ID project in
  let path := p_PathWithNamespace project in
  match settings_policy cfg with
  | None => mret (noop_apply ProjectSettings_Name OnProject id path)
  | Some settingCfg =>
      planThenApply (ProjectSettings_Plan cfg project)
        (noop_apply ProjectSettings_Name OnProject id path)
        (failed ProjectSettings_Name OnProject id path ActionNoop [])
        (fun plan =>
           r ← call (Projects (EditProject id (toEditProjectSettings settingCfg)));
           match r_err r with
           | Some err =>
               mret (failed ProjectSettings_Name OnProject id path ActionUpdate (pl_Diffs plan)
                       (ErrWrap ("failed to update project settings for project " +:+ Itoa id +:+ ": ") err))
           | None => mret (succeeded ProjectSettings_Name OnProject id path ActionUpdate (pl_Diffs plan))
           end)
  end.

Definition ProjectSettings_PlanGroup (cfg : option PolicyConfig) (group : Group) : GP PlanReturn :=
  mret (skipped_plan ProjectSettings_Name OnGroup (g_ID group) (g_FullPath group)
          "Project settings are not applicable to groups").

Definition ProjectSettings_ApplyGroup (cfg : option PolicyConfig) (group : Group) : GP ApplyReturn :=
  mret (skipped_apply ProjectSettings_Name OnGroup (g_ID group) (g_FullPath group)
          "Project settings are not applicable to groups").

Definition NewProjectSettingsReconciler : GovernanceOperation := {|
  op_Name := ProjectSettings_Name;
  op_Order := ProjectSettings_Order;
  op_Plan := ProjectSettings_Plan;
  op_Apply := ProjectSettings_Apply;
  op_PlanGroup := ProjectSettings_PlanGroup;
  op_ApplyGroup := ProjectSettings_ApplyGroup
|}.

(** ** Specification *)

Definition settings_meet (c : ProjectSettingsConfig) (p : Project) : Prop :=
  let str d l := d = "" \/ l = d in
  let opt (d : option bool) l := forall x, d = Some x -> l = x in
  str (pj_DefaultBranch c) (p_DefaultBranch p) /\
  str (pj_SquashOption c) (p_SquashOption p) /\
  str (pj_MergeMethod c) (p_MergeMethod p) /\
  opt (pj_OnlyAllowMergeIfPipelineSucceeds c) (p_OnlyAllowMergeIfPipelineSucceeds p) /\
  opt (pj_AllowMergeOnSkippedPipeline c) (p_AllowMergeOnSkippedPipeline p) /\
  opt (pj_OnlyAllowMergeIfAllDiscussionsAreResolved c) (p_OnlyAllowMergeIfAllDiscussionsAreResolved p) /\
  opt (pj_RemoveSourceBranchAfterMerge c) (p_RemoveSourceBranchAfterMerge p) /\
  opt (pj_KeepLatestArtifact c) (p_KeepLatestArtifact p) /\
  opt (pj_PrintingMergeRequestLinkEnabled c) (p_PrintingMergeRequestLinkEnabled p) /\
  str (pj_AutoCancelPendingPipelines c) (p_AutoCancelPendingPipelines p) /\
  opt (pj_AutoDevopsEnabled c) (p_AutoDevopsEnabled p).

(** GitLab's project API: a project is returned as it is, and an edit that
    reports no error sets the attributes it was given. *)
Record project_server {W} (h : handler GitLabE W) (proj : W -> Z -> option Project) : Prop := {
  pjs_get : forall pid w p, proj w pid = Some p ->
    h _ (Projects (GetProject pid)) w = (reply_ok (Some p), w);
  pjs_edit : forall pid opt w p, proj w pid = Some p ->
    r_err (h _ (Projects (EditProject pid opt)) w).1 = None ->
    proj (h _ (Projects (EditProject pid opt)) w).2 pid = Some (edit_project opt p)
}.

(** ** Lemmas *)

Lemma AddFieldStrUpdate_fields_nil b f live d :
  db_fields (AddFieldStrUpdate b f live d) = [] <-> db_fields b = [] /\ (d = "" \/ live = d).
Proof.
  unfold AddFieldStrUpdate. rewrite AddFieldIf_fields_nil, andb_false_iff, !negb_false_iff, !String.eqb_eq. done.
Qed.

Lemma AddFieldStrUpdate_details b f live d : db_details (AddFieldStrUpdate b f live d) = db_details b.
Proof. apply AddFieldIf_details. Qed.

#[local] Hint Rewrite AddFieldStrUpdate_fields_nil AddFieldStrUpdate_details : diff.

Lemma buildProjectSettingsDiff_quiet live c :
  Diff_HasChanges (buildProjectSettingsDiff live c) = false <-> settings_meet c live.
Proof.
  unfold buildProjectSettingsDiff, settings_meet.
  rewrite Build_HasChanges; [|by autorewrite with diff|done..].
  autorewrite with diff. rewrite ?CompareBoolPtr_None. simpl. tauto.
Qed.

Lemma edit_settings_meet c p : settings_meet c (edit_project (toEditProjectSettings c) p).
Proof.
  unfold settings_meet. split_and!; cbn; try (by intros x ->);
    unfold ptr_nonempty; match goal with |- context [(?s =? "")%string] => destruct (String.eqb_spec s "") end;
    auto.
Qed.

Lemma ProjectSettings_Plan_reads cfg p : reads (ProjectSettings_Plan cfg p).
Proof. unfold ProjectSettings_Plan. reads. Qed.

#[export] Instance ProjectSettings_DryRun : DryRun NewProjectSettingsReconciler.
Proof. split; intros; simpl; [apply ProjectSettings_Plan_reads|done]. Qed.

#[export] Instance ProjectSettings_NoopQuiet : NoopQuiet NewProjectSettingsReconciler.
Proof.
  split; intros; simpl; [unfold ProjectSettings_Plan; always|done| |].
  - unfold ProjectSettings_Apply. destruct (settings_policy cfg).
    + apply planThenApply_quiet, ProjectSettings_Plan_reads.
    + intros W h w r _ _ _. constructor.
  - intros W h w r _ _ _. constructor.
Qed.

Section Server.
Context {W : Type} (h : handler GitLabE W) (proj : W -> Z -> option Project) (srv : project_server h proj).

Lemma ProjectSettings_Plan_run cfg c project w live :
  settings_policy cfg = Some c -> proj w (p_ID project) = Some live ->
  run h (ProjectSettings_Plan cfg project) w =
  (let diff := buildProjectSettingsDiff live c in
   if Diff_HasChanges diff
   then planned ProjectSettings_Name OnProject (p_ID project) (p_PathWithNamespace project) ActionUpdate [diff]
   else noop_plan ProjectSettings_Name OnProject (p_ID project) (p_PathWithNamespace project), w).
Proof using srv.
  intros Hc Hl. unfold ProjectSettings_Plan.
  rewrite Hc, run_bind, run_call, (pjs_get _ _ srv _ _ _ Hl). cbn [r_err r_val reply_ok]. cbv zeta.
  by destruct (Diff_HasChanges _).
Qed.

Lemma ProjectSettings_Apply_run cfg c project w live res w' :
  settings_policy cfg = Some c -> proj w (p_ID project) = Some live ->
  run h (ProjectSettings_Apply cfg project) w = ((res, None), w') ->
  exists live', proj w' (p_ID project) = Some live' /\ settings_meet c live'.
Proof using srv.
  intros Hc Hl. unfold ProjectSettings_Apply. rewrite Hc.
  pose proof (ProjectSettings_Plan_run cfg c project w live Hc Hl) as Hp.
  pose proof (buildProjectSettingsDiff_quiet live c) as Hq. cbv zeta in Hp.
  destruct (Diff_HasChanges (buildProjectSettingsDiff live c));
    rewrite (planThenApply_run _ _ _ _ _ _ _ _ Hp).
  - cbn -[call]. rewrite run_bind, run_call.
    pose proof (pjs_edit _ _ srv (p_ID project) (toEditProjectSettings c) w live Hl) as Hs.
    destruct (h _ _ w) as [r w2]. simpl in Hs.
    destruct (r_err r); rewrite run_ret; [done|]. intros [= _ <-].
    eexists. split; [by apply Hs|]. apply edit_settings_meet.
  - intros [= _ <-]. exists live. split; [done|]. by apply Hq.
Qed.

End Server.

(** ** Properties *)

(** Enforcing project settings works and converges: whenever [Apply]
    reports no error, every setting the policy configures has its value on the
    live project, and a plan made right afterwards has nothing to do. *)
Theorem ProjectSettings_Apply_converges {W} (h : handler GitLabE W) proj
    (srv : project_server h proj) cfg c project w live res w' :
  settings_policy cfg = Some c -> proj w (p_ID project) = Some live ->
  run h (ProjectSettings_Apply cfg project) w = ((res, None), w') ->
  (exists live', proj w' (p_ID project) = Some live' /\ settings_meet c live') /\
  (run h (ProjectSettings_Plan cfg project) w').1 =
    noop_plan ProjectSettings_Name OnProject (p_ID project) (p_PathWithNamespace project).
Proof.
  intros Hc Hl Hr.
  destruct (ProjectSettings_Apply_run h proj srv _ _ _ _ _ _ _ Hc Hl Hr) as (live' & Hl' & Hm).
  split; [by exists live'|]. rewrite (ProjectSettings_Plan_run h proj srv _ _ _ _ _ Hc Hl').
  apply buildProjectSettingsDiff_quiet in Hm. cbv zeta. by rewrite Hm.
Qed.

Lemma demo_project_server : project_server demo_server sv_project.
Proof.
  split.
  - intros pid w p Hp. simpl. by rewrite Hp.
  - intros pid opt w p Hp _. simpl. rewrite Hp. simpl. by rewrite set1_same.
Qed.

Definition demo_settings : ProjectSettingsConfig := {|
  pj_DefaultBranch := ""; pj_SquashOption := "always"; pj_MergeMethod := "ff";
  pj_OnlyAllowMergeIfPipelineSucceeds := Some true; pj_AllowMergeOnSkippedPipeline := None;
  pj_OnlyAllowMergeIfAllDiscussionsAreResolved := Some true; pj_RemoveSourceBranchAfterMerge := Some true;
  pj_KeepLatestArtifact := None; pj_PrintingMergeRequestLinkEnabled := None;
  pj_AutoCancelPendingPipelines := "disabled"; pj_AutoDevopsEnabled := Some false;
  pj_ContainerExpirationPolicy := None
|}.

Lemma ProjectSettings_Apply_converges_witness :
  let cfg := with_policies (Build_PoliciesConfig None [] None None None (Some demo_settings) None [] None
                              None [] None None [] []) in
  let w := with_projects empty_server (set1 (sv_project empty_server) 42 (Some demo_project)) in
  let w' := (run demo_server (ProjectSettings_Apply cfg demo_project) w).2 in
  exists live', sv_project w' 42 = Some live' /\ settings_meet demo_settings live'.
Proof.
  intros cfg w w'.
  eapply (ProjectSettings_Apply_converges demo_server sv_project demo_project_server cfg demo_settings
            demo_project w demo_project); reflexivity.
Defined.
