(* ===== verification/Compliance.v ===== *)
(** * Compliance frameworks: internal/governance/compliance.go *)

From S2P Require Import Prelude GoLib Config Validator GitLabAPI Server Governance.
Local Open Scope string_scope.
Local Open Scope list_scope.
Local Open Scope Z_scope.

Definition Compliance_Name : string := "compliance".
Definition Compliance_Order : Z := 80.

Definition resolveDesiredFrameworkID (cfg : ComplianceConfig) : string :=
  match co_FrameworkID cfg with Some id => Itoa id | None => co_FrameworkName cfg end.

(** The name and identifier of the first framework, empty without one. *)
Definition currentFramework (l : list ComplianceFramework) : string * string :=
  match l with f :: _ => (cf_Name f, cf_ID f) | [] => ("", "") end.

(** The configuration that asks for the framework to be cleared. *)
Definition wantsPrune (desired : ComplianceConfig) : bool :=
  match co_Prune desired with Some b => b | None => false end
  && ((co_FrameworkName desired =? "")%string && negb (is_some (co_FrameworkID desired))).

(** Whether the current framework is the desired one. *)
Definition frameworkMatches (currentName currentID desiredName desiredID : string) : bool :=
  if negb (desiredID =? "")%string && (currentID =? desiredID)%string then true
  else negb (desiredName =? "")%string && EqualFold currentName desiredName.

(** [calculateComplianceDiffs], after the frameworks have been fetched. *)
Definition complianceDiffs (currentFrameworks : list ComplianceFramework) (desired : ComplianceConfig)
  : list Diff :=
  let '(currentName, currentID) := currentFramework currentFrameworks in
  let desiredName := co_FrameworkName desired in
  let desiredID := resolveDesiredFrameworkID desired in
  if wantsPrune desired then
    if negb (currentID =? "")%string || negb (currentName =? "")%string then
      [Build (SetDetails (AddField NewDiffBuilder "compliance_framework" (VStr currentName) VNil ActionDelete)
                ("Pruning compliance framework '" +:+ currentName +:+ "'"))
         "compliance_framework" ActionDelete]
    else []
  else if (desiredName =? "")%string && (desiredID =? "")%string then []
  else if frameworkMatches currentName currentID desiredName desiredID then []
  else
    let action := if negb (currentName =? "")%string || negb (currentID =? "")%string
                  then ActionUpdate else ActionCreate in
    [Build (SetDetails (AddField NewDiffBuilder "compliance_framework" (VStr currentName) (VStr desiredName) action)
              ("Assigning compliance framework '" +:+ desiredName +:+ "' (ID: " +:+ desiredID +:+ ")"))
       "compliance_framework" action].

Definition calculateComplianceDiffs (desired : ComplianceConfig) (project : Project)
  : GP (error + list Diff) :=
  r ← call (Compliance (GetProjectComplianceFrameworks (p_ID project)));
  mret (match r with
        | inl err => inl (ErrWrap ("failed to get compliance frameworks for project "
                                     +:+ Itoa (p_ID project) +:+ ": ") err)
        | inr currentFrameworks => inr (complianceDiffs currentFrameworks desired)
        end).

Definition compliance_policy (cfg : option PolicyConfig) : option ComplianceConfig :=
  match cfg with Some c => pol_Compliance (cfg_Policies c) | None => None end.

Definition Compliance_Plan (cfg : option PolicyConfig) (project : Project) : GP PlanReturn :=
  let id := p_ID project in
  let path := p_PathWithNamespace project in
  match compliance_policy cfg with
  | None => mret (noop_plan Compliance_Name OnProject id path)
  | Some desired =>
      diffs ← calculateComplianceDiffs desired project;
      match diffs with
      | inl err => mret (None, Some err)
      | inr [] => mret (noop_plan Compliance_Name OnProject id path)
      | inr ((d :: _) as diffs) => mret (planned Compliance_Name OnProject id path (d_Action d) diffs)
      end
  end.

(** The loop of [Apply] over the planned diffs. *)
Fixpoint applyComplianceDiffs (id : Z) (path : string) (desired : ComplianceConfig) (plan : PlanResult)
    (diffs : list Diff) : GP ApplyReturn :=
  let fail d e := mret (failed Compliance_Name OnProject id path (d_Action d) (pl_Diffs plan) e) in
  match diffs with
  | [] => mret (succeeded Compliance_Name OnProject id path (pl_Action plan) (pl_Diffs plan))
  | d :: rest =>
      match d_Action d with
      | ActionCreate | ActionUpdate =>
          let frameworkID := resolveDesiredFrameworkID desired in
          if (frameworkID =? "")%string
          then fail d (ErrNew "compliance framework ID or name is required")
          else
            r ← call (Compliance (SetProjectComplianceFramework id frameworkID));
            match r with
            | Some err => fail d (ErrWrap ("failed to set compliance framework on project "
                                             +:+ Itoa id +:+ ": ") err)
            | None => applyComplianceDiffs id path desired plan rest
            end
      | ActionDelete =>
          r ← call (Compliance (RemoveProjectComplianceFramework id ""));
          match r with
          | Some err => fail d (ErrWrap ("failed to remove compliance framework from project "
                                           +:+ Itoa id +:+ ": ") err)
          | None => applyComplianceDiffs id path desired plan rest
          end
      | _ => applyComplianceDiffs id path desired plan rest
      end
  end.

Definition Compliance_Apply (cfg : option PolicyConfig) (project : Project) : GP ApplyReturn :=
  let id := p_ID project in
  let path := p_PathWithNamespace project in
  match compliance_policy cfg with
  | None => mret (noop_apply Compliance_Name OnProject id path)
  | Some desired =>
      planThenApply (Compliance_Plan cfg project)
        (noop_apply Compliance_Name OnProject id path)
        (failed Compliance_Name OnProject id path ActionNoop [])
        (fun plan => applyComplianceDiffs id path desired plan (pl_Diffs plan))
  end.

Definition Compliance_PlanGroup (cfg : option PolicyConfig) (group : Group) : GP PlanReturn :=
  mret (skipped_plan Compliance_Name OnGroup (g_ID group) (g_FullPath group)
          "Compliance framework policy is not applicable to groups").

Definition Compliance_ApplyGroup (cfg : option PolicyConfig) (group : Group) : GP ApplyReturn :=
  mret (skipped_apply Compliance_Name OnGroup (g_ID group) (g_FullPath group)
          "Compliance framework policy is not applicable to groups").

Definition NewComplianceReconciler : GovernanceOperation := {|
  op_Name := Compliance_Name;
  op_Order := Compliance_Order;
  op_Plan := Compliance_Plan;
  op_Apply := Compliance_Apply;
  op_PlanGroup := Compliance_PlanGroup;
  op_ApplyGroup := Compliance_ApplyGroup
|}.

(** ** Lemmas *)

Lemma Compliance_Plan_reads cfg p : reads (Compliance_Plan cfg p).
Proof. unfold Compliance_Plan, calculateComplianceDiffs. reads. Qed.

#[export] Instance Compliance_DryRun : DryRun NewComplianceReconciler.
Proof. split; intros; simpl; [apply Compliance_Plan_reads|done]. Qed.

#[export] Instance Compliance_NoopQuiet : NoopQuiet NewComplianceReconciler.
Proof.
  split; intros; simpl; [unfold Compliance_Plan; always|done| |].
  - unfold Compliance_Apply. destruct (compliance_policy cfg).
    + apply planThenApply_quiet, Compliance_Plan_reads.
    + intros W h w r _ _ _. constructor.
  - intros W h w r _ _ _. constructor.
Qed.

(** A well-formed policy never asks for a framework to be cleared. *)
Lemma wf_never_prunes c : nonblank (co_FrameworkName c) \/ is_Some (co_FrameworkID c) -> wantsPrune c = false.
Proof.
  unfold wantsPrune. intros [Hn|[id ->]]; [|by rewrite !andb_false_r].
  destruct (String.eqb_spec (co_FrameworkName c) "") as [E|E]; [|by rewrite andb_false_r].
  by rewrite E in Hn.
Qed.

Lemma complianceDiffs_no_delete l c :
  wantsPrune c = false -> Forall (fun d => d_Action d <> ActionDelete) (complianceDiffs l c).
Proof.
  intros Hp. unfold complianceDiffs. rewrite Hp. destruct (currentFramework l) as [n i].
  repeat case_match; repeat constructor; done.
Qed.

(** A call that leaves every framework in place or sets one. *)
Definition no_clear {X} (e : GitLabE X) : Prop :=
  match e with Compliance (RemoveProjectComplianceFramework _ _) => False | _ => True end.

Lemma applyComplianceDiffs_no_clear id path c plan diffs :
  Forall (fun d => d_Action d <> ActionDelete) diffs ->
  only (@no_clear) (applyComplianceDiffs id path c plan diffs).
Proof.
  induction diffs as [|d diffs IH]; cbn [applyComplianceDiffs]; [done|].
  rewrite Forall_cons. intros [Hd Hds]. specialize (IH Hds).
  assert (Hset : forall fid e, only (@no_clear)
    (r ← call (Compliance (SetProjectComplianceFramework id fid));
     match r with Some err => mret (e err) | None => applyComplianceDiffs id path c plan diffs end)).
  { intros fid e. split; [done|]. intros [err|]; done. }
  destruct (d_Action d); try done; case_match; try done; apply Hset.
Qed.

(** A plan for a policy that never prunes has no deletion. *)
Lemma Compliance_Plan_no_delete cfg c project :
  compliance_policy cfg = Some c -> wantsPrune c = false ->
  always (fun r : PlanReturn => forall p, r.1 = Some p ->
            Forall (fun d => d_Action d <> ActionDelete) (pl_Diffs p)) (Compliance_Plan cfg project).
Proof.
  intros Hc Hp. unfold Compliance_Plan, calculateComplianceDiffs. rewrite Hc. simpl.
  intros [e|l]; [done|]. pose proof (complianceDiffs_no_delete l c Hp) as Hd.
  destruct (complianceDiffs l c) as [|d ds]; simpl; intros p [= <-]; [constructor|done].
Qed.

(** ** Properties *)

(** Pruning a compliance framework is out of reach of a valid policy: on
    every server, enforcing a policy the validator accepts never removes a
    framework, because the validator demands a name or an identifier and the
    pruning branch runs only without both. *)
Theorem Compliance_prune_unreachable `{GoRegexp} `{GoURL} (cfg : PolicyConfig) (project : Project) :
  Validate (Some cfg) = [] -> only (@no_clear) (Compliance_Apply (Some cfg) project).
Proof.
  intros Hv. apply Validate_nil in Hv as (_ & _ & Hwf). unfold Compliance_Apply.
  destruct (compliance_policy (Some cfg)) as [c|] eqn:Hc; [|done].
  assert (wantsPrune c = false) as Hp.
  { apply wf_never_prunes. destruct Hwf as (_&_&_&_&_&_&_&_&_&Hco&_). by apply Hco. }
  unfold planThenApply. eapply only_bind_always; [| exact (Compliance_Plan_no_delete _ c project Hc Hp) |].
  - eapply only_mono; [|apply Compliance_Plan_reads]. intros X e. by destruct_call e.
  - intros [[p|] [e|]] Hd; try done. destruct (negb (pl_HasChanges p)); [done|].
    apply applyComplianceDiffs_no_clear. by apply Hd.
Qed.

Definition demo_compliance : ComplianceConfig := {|
  co_FrameworkName := "SOC2"; co_FrameworkID := None; co_Prune := Some true |}.

Definition demo_compliance_cfg : PolicyConfig :=
  Build_PolicyConfig "1" zero_Settings (Build_TargetSelectors None None)
    (Build_PoliciesConfig None [] None None None None None [] None (Some demo_compliance) [] None None [] []).

Lemma Compliance_prune_unreachable_witness :
  only (@no_clear) (Compliance_Apply (Some demo_compliance_cfg) demo_project).
Proof.
  apply (Compliance_prune_unreachable (H := {| regexp_Compile := fun p => inr (String.eqb p) |})
           (H0 := {| url_ParseRequestURI := fun _ => None |})).
  reflexivity.
Defined.

(** A compliance plan is exact: when the policy names a framework, the
    plan reports no change exactly when the project's first framework has the
    configured identifier, or the configured name up to the case of letters. *)
Theorem Compliance_Plan_exact {W} (h : handler GitLabE W) cfg c project w l :
  compliance_policy cfg = Some c -> wantsPrune c = false -> resolveDesiredFrameworkID c <> "" ->
  (h _ (Compliance (GetProjectComplianceFrameworks (p_ID project))) w).1 = inr l ->
  exists r, (run h (Compliance_Plan cfg project) w).1 = (Some r, None) /\
    (pl_HasChanges r = false <->
     (currentFramework l).2 = resolveDesiredFrameworkID c \/
     (co_FrameworkName c <> "" /\ ToLower (currentFramework l).1 = ToLower (co_FrameworkName c))).
Proof.
  intros Hc Hp Hid Hl. unfold Compliance_Plan, calculateComplianceDiffs. rewrite Hc, !run_bind, run_call.
  destruct (h _ _ w) as [x w']. simpl in Hl. subst x. rewrite run_ret.
  unfold complianceDiffs. rewrite Hp. destruct (currentFramework l) as [n i]. cbn [fst snd].
  apply String.eqb_neq in Hid as Hid'. rewrite Hid', andb_false_r.
  assert (frameworkMatches n i (co_FrameworkName c) (resolveDesiredFrameworkID c) = true <->
    i = resolveDesiredFrameworkID c \/ (co_FrameworkName c <> "" /\ ToLower n = ToLower (co_FrameworkName c))) as Hm.
  { unfold frameworkMatches, EqualFold. rewrite Hid'. simpl.
    destruct (String.eqb_spec i (resolveDesiredFrameworkID c)); [naive_solver|].
    rewrite andb_true_iff, negb_true_iff, String.eqb_neq, String.eqb_eq. naive_solver. }
  destruct (frameworkMatches _ _ _ _).
  - eexists. split; [done|]. rewrite <- Hm. done.
  - eexists. split; [done|]. rewrite <- Hm. by destruct (_ || _).
Qed.

Lemma Compliance_Plan_exact_witness :
  let w := with_frameworks empty_server (fun _ => [{| cf_ID := "3"; cf_Name := "soc2" |}]) in
  exists r, (run demo_server (Compliance_Plan (Some demo_compliance_cfg) demo_project) w).1 = (Some r, None) /\
    (pl_HasChanges r = false <-> "3" = "SOC2" \/ ("SOC2" <> "" /\ ToLower "soc2" = ToLower "SOC2")).
Proof.
  intros w. apply (Compliance_Plan_exact demo_server (Some demo_compliance_cfg) demo_compliance demo_project w
    [{| cf_ID := "3"; cf_Name := "soc2" |}]); [done..|reflexivity].
Defined.
