(* ===== verification/Variables.v ===== *)
(** * CI/CD variables: internal/governance/variables.go

    Project and group variables differ in the service methods and in the texts;
    the methods here are instances of one definition over [scope_kind]. *)

From S2P Require Import Prelude GoLib Config GitLabAPI Server Governance.
Local Open Scope string_scope.
Local Open Scope list_scope.
Local Open Scope Z_scope.

Definition Variables_Name : string := "variables".
Definition Variables_Order : Z := 60.

Definition varCompositeKey (key scope : string) : string :=
  let scope := if (scope =? "")%string then "*" else scope in
  TrimSpace key +:+ "::" +:+ TrimSpace scope.

Definition isSensitiveVariable (key : string) (masked : bool) : bool :=
  if masked then true
  else
    let kUpper := ToUpper key in
    Contains kUpper "SECRET" || Contains kUpper "TOKEN" || Contains kUpper "PASSWORD"
    || Contains kUpper "KEY" || Contains kUpper "AUTH" || Contains kUpper "PRIVATE".

Definition sanitizeValue (key val : string) (masked : bool) : string :=
  if isSensitiveVariable key masked then "******" else val.

Definition true_ptr (o : option bool) : bool := match o with Some b => b | None => false end.

(** [scope := decl.EnvironmentScope; if scope == "" { scope = "*" }]. *)
Definition decl_scope (decl : VariableConfig) : string := or_string (v_EnvironmentScope decl) "*".

Definition decl_key (decl : VariableConfig) : string := varCompositeKey (v_Key decl) (decl_scope decl).

Definition live_key (lv : Variable_) : string := varCompositeKey (va_Key lv) (va_EnvironmentScope lv).

(** ** Plan *)

(** [diffProjectVariable] and [diffGroupVariable], which are alike. *)
Definition diffVariable (desired : VariableConfig) (live : Variable_) : Diff :=
  let masked := true_ptr (v_Masked desired) || va_Masked live in
  let b := NewDiffBuilder in
  let b := AddFieldIf (negb (va_Value live =? v_Value desired)%string) b "value"
             (VStr (sanitizeValue (va_Key live) (va_Value live) masked))
             (VStr (sanitizeValue (v_Key desired) (v_Value desired) masked)) ActionUpdate in
  let b := AddFieldIf (negb (v_VariableType desired =? "")%string
                       && negb (va_VariableType live =? v_VariableType desired)%string) b "variable_type"
             (VStr (va_VariableType live)) (VStr (v_VariableType desired)) ActionUpdate in
  let b := Add b (CompareBoolPtr "protected" (va_Protected live) (v_Protected desired)) in
  let b := Add b (CompareBoolPtr "masked" (va_Masked live) (v_Masked desired)) in
  let b := Add b (CompareBoolPtr "raw" (va_Raw live) (v_Raw desired)) in
  let b := AddFieldIf (negb (v_Description desired =? "")%string
                       && negb (va_Description live =? v_Description desired)%string) b "description"
             (VStr (va_Description live)) (VStr (v_Description desired)) ActionUpdate in
  Build b ("variable:" +:+ varCompositeKey (v_Key desired) (v_EnvironmentScope desired)) ActionUpdate.

Definition diffProjectVariable := diffVariable.
Definition diffGroupVariable := diffVariable.

Definition article (k : scope_kind) : string := match k with OnProject => "" | OnGroup => "group " end.

Definition createVariableDiff (k : scope_kind) (decl : VariableConfig) : Diff :=
  let scope := decl_scope decl in
  let b := NewDiffBuilder in
  let b := AddField b "key" VNil (VStr (v_Key decl)) ActionCreate in
  let b := AddField b "value" VNil
             (VStr (sanitizeValue (v_Key decl) (v_Value decl) (true_ptr (v_Masked decl)))) ActionCreate in
  let b := AddField b "environment_scope" VNil (VStr scope) ActionCreate in
  let b := AddFieldStr b "variable_type" (v_VariableType decl) in
  let b := AddFieldPtr b "masked" (v_Masked decl) VBool in
  let b := AddFieldPtr b "protected" (v_Protected decl) VBool in
  let b := AddFieldPtr b "raw" (v_Raw decl) VBool in
  let b := SetDetails b ("Create " +:+ article k +:+ "variable '" +:+ v_Key decl +:+ "' (scope: "
                           +:+ scope +:+ ")") in
  Build b ("variable:" +:+ decl_key decl) ActionCreate.

Definition pruneVariableDiff (k : scope_kind) (lv : Variable_) : Diff :=
  let b := NewDiffBuilder in
  let b := AddField b "key" (VStr (va_Key lv)) VNil ActionDelete in
  let b := AddField b "environment_scope" (VStr (va_EnvironmentScope lv)) VNil ActionDelete in
  let b := SetDetails b ("Prune unmanaged " +:+ article k +:+ "variable '" +:+ va_Key lv +:+ "' (scope: "
                           +:+ va_EnvironmentScope lv +:+ ")") in
  Build b ("variable:" +:+ live_key lv) ActionDelete.

Definition live_vars_map (liveVars : list (option Variable_)) : gmap string Variable_ :=
  map_by live_key (non_nil liveVars).

(** One declared variable: the diff it adds. *)
Definition declDiff (k : scope_kind) (liveMap : gmap string Variable_) (decl : VariableConfig) : list Diff :=
  match liveMap !! decl_key decl with
  | None => [createVariableDiff k decl]
  | Some existing =>
      let varDiff := match k with
                     | OnProject => diffProjectVariable decl existing
                     | OnGroup => diffGroupVariable decl existing
                     end in
      if Diff_HasChanges varDiff then [varDiff] else []
  end.

(** [matchedKeys]: the keys of the declarations that were found. *)
Definition matchedKeys (liveMap : gmap string Variable_) (decls : list VariableConfig) : gset string :=
  list_to_set (List.filter (fun key => is_some (liveMap !! key)) (decl_key <$> decls)).

Definition unmanaged (liveMap : gmap string Variable_) (decls : list VariableConfig)
    (liveVars : list (option Variable_)) : list Variable_ :=
  List.filter (fun lv => negb (bool_decide (live_key lv ∈ matchedKeys liveMap decls))) (non_nil liveVars).

Definition variableDiffs (k : scope_kind) (prune : bool) (decls : list VariableConfig)
    (liveVars : list (option Variable_)) : list Diff :=
  let liveMap := live_vars_map liveVars in
  mjoin (declDiff k liveMap <$> decls)
  ++ (if prune then pruneVariableDiff k <$> unmanaged liveMap decls liveVars else []).

Definition variables_policy (cfg : option PolicyConfig) : list VariableConfig :=
  match cfg with Some c => pol_Variables (cfg_Policies c) | None => [] end.

Definition planVariables (k : scope_kind) (prune : bool) (id : Z) (path : string)
    (cfg : option PolicyConfig) : GP PlanReturn :=
  match variables_policy cfg with
  | [] => mret (noop_plan Variables_Name k id path)
  | decls =>
      r ← call (Variables (ListVariables k id));
      match r_err r with
      | Some err =>
          mret (None, Some (ErrWrap ("failed to list " +:+ kind_name k +:+ " variables for "
                                       +:+ kind_name k +:+ " " +:+ Itoa id +:+ ": ") err))
      | None =>
          let allDiffs := variableDiffs k prune decls (r_val r) in
          if (length allDiffs =? 0)%nat then mret (noop_plan Variables_Name k id path)
          else mret (planned Variables_Name k id path ActionUpdate allDiffs)
      end
  end.

(** ** Apply *)

Definition toVariableOptions (decl : VariableConfig) : VariableOptions := {|
  vo_Value := v_Value decl;
  vo_VariableType := ptr_nonempty (v_VariableType decl);
  vo_Protected := v_Protected decl;
  vo_Masked := v_Masked decl;
  vo_Raw := v_Raw decl;
  vo_Description := ptr_nonempty (v_Description decl)
|}.

Section Apply.
Context (k : scope_kind) (id : Z) (path : string) (plan : PlanResult).

Definition variable_failed (action : ActionType) (verb cKey : string) (err : error) : ApplyReturn :=
  failed Variables_Name k id path action (pl_Diffs plan)
    (ErrWrap ("failed to " +:+ verb +:+ " " +:+ kind_name k +:+ " variable '" +:+ cKey +:+ "': ") err).

(** The first loop: create what is missing, update what is there. *)
Fixpoint applyDecls (liveMap : gmap string Variable_) (decls : list VariableConfig) (next : GP ApplyReturn)
  : GP ApplyReturn :=
  match decls with
  | [] => next
  | decl :: rest =>
      let scope := decl_scope decl in
      let cKey := decl_key decl in
      match liveMap !! cKey with
      | None =>
          r ← call (Variables (CreateVariable k id (v_Key decl) scope (toVariableOptions decl)));
          match r_err r with
          | Some err => mret (variable_failed ActionCreate "create" cKey err)
          | None => applyDecls liveMap rest next
          end
      | Some _ =>
          let filter := match k with OnProject => Some scope | OnGroup => None end in
          let newScope := match k with OnProject => None | OnGroup => Some scope end in
          r ← call (Variables (UpdateVariable k id (v_Key decl) filter newScope (toVariableOptions decl)));
          match r_err r with
          | Some err => mret (variable_failed ActionUpdate "update" cKey err)
          | None => applyDecls liveMap rest next
          end
      end
  end.

(** The second loop: remove what no declaration matched. *)
Fixpoint pruneVars (gone : list Variable_) (next : GP ApplyReturn) : GP ApplyReturn :=
  match gone with
  | [] => next
  | lv :: rest =>
      let filter := match k with OnProject => Some (va_EnvironmentScope lv) | OnGroup => None end in
      r ← call (Variables (RemoveVariable k id (va_Key lv) filter));
      match r_err r with
      | Some err => mret (variable_failed ActionDelete "remove unmanaged" (live_key lv) err)
      | None => pruneVars rest next
      end
  end.

End Apply.

Definition applyVariables (k : scope_kind) (prune : bool) (id : Z) (path : string)
    (cfg : option PolicyConfig) : GP ApplyReturn :=
  match variables_policy cfg with
  | [] => mret (noop_apply Variables_Name k id path)
  | decls =>
      planThenApply (planVariables k prune id path cfg)
        (noop_apply Variables_Name k id path)
        (failed Variables_Name k id path ActionNoop [])
        (fun plan =>
           r ← call (Variables (ListVariables k id));
           match r_err r with
           | Some err =>
               mret (failed Variables_Name k id path ActionUpdate (pl_Diffs plan)
                       (ErrWrap ("failed to list " +:+ kind_name k +:+ " variables: ") err))
           | None =>
               let liveMap := live_vars_map (r_val r) in
               applyDecls k id path plan liveMap decls
                 (pruneVars k id path plan
                    (if prune then unmanaged liveMap decls (r_val r) else [])
                    (mret (succeeded Variables_Name k id path ActionUpdate (pl_Diffs plan))))
           end)
  end.

Definition Variables_Plan (prune : bool) (cfg : option PolicyConfig) (project : Project) : GP PlanReturn :=
  planVariables OnProject prune (p_ID project) (p_PathWithNamespace project) cfg.
Definition Variables_Apply (prune : bool) (cfg : option PolicyConfig) (project : Project) : GP ApplyReturn :=
  applyVariables OnProject prune (p_ID project) (p_PathWithNamespace project) cfg.
Definition Variables_PlanGroup (prune : bool) (cfg : option PolicyConfig) (group : Group) : GP PlanReturn :=
  planVariables OnGroup prune (g_ID group) (g_FullPath group) cfg.
Definition Variables_ApplyGroup (prune : bool) (cfg : option PolicyConfig) (group : Group) : GP ApplyReturn :=
  applyVariables OnGroup prune (g_ID group) (g_FullPath group) cfg.

(** [NewVariablesReconciler(pruneUnmanaged...)]; without an argument nothing
    is pruned. *)
Definition NewVariablesReconciler (pruneUnmanaged : bool) : GovernanceOperation := {|
  op_Name := Variables_Name;
  op_Order := Variables_Order;
  op_Plan := Variables_Plan pruneUnmanaged;
  op_Apply := Variables_Apply pruneUnmanaged;
  op_PlanGroup := Variables_PlanGroup pruneUnmanaged;
  op_ApplyGroup := Variables_ApplyGroup pruneUnmanaged
|}.

(** ** Specification *)

Definition variable_meets (d : VariableConfig) (v : Variable_) : Prop :=
  va_Value v = v_Value d /\
  (v_VariableType d = "" \/ va_VariableType v = v_VariableType d) /\
  (forall b, v_Protected d = Some b -> va_Protected v = b) /\
  (forall b, v_Masked d = Some b -> va_Masked v = b) /\
  (forall b, v_Raw d = Some b -> va_Raw v = b) /\
  (v_Description d = "" \/ va_Description v = v_Description d).

Definition decl_ok (m : gmap string Variable_) (d : VariableConfig) : Prop :=
  exists v, m !! decl_key d = Some v /\ variable_meets d v.

(** GitLab's variable API, for at most one page of variables: they are listed,
    and a creation or an update that reports no error has had its effect on the
    one variable of that key and scope.  [vars] indexes them by composite key. *)
Record variable_server {W} (h : handler GitLabE W)
    (vars : W -> scope_kind -> Z -> gmap string Variable_) : Prop := {
  vs_list : forall k id w, exists l, live_vars_map l = vars w k id /\
    h _ (Variables (ListVariables k id)) w = (reply_ok l, w);
  vs_create : forall k id key scope opt w,
    r_err (h _ (Variables (CreateVariable k id key scope opt)) w).1 = None ->
    vars (h _ (Variables (CreateVariable k id key scope opt)) w).2 k id =
      <[varCompositeKey key scope := new_variable key scope opt]> (vars w k id);
  vs_update : forall k id key filter newScope scope opt w,
    filter = Some scope \/ filter = None /\ newScope = Some scope ->
    r_err (h _ (Variables (UpdateVariable k id key filter newScope opt)) w).1 = None ->
    vars (h _ (Variables (UpdateVariable k id key filter newScope opt)) w).2 k id =
      alter (edit_variable opt) (varCompositeKey key scope) (vars w k id)
}.

(** Two declarations, or two live variables, that differ at most in the value
    of a secret. *)
Definition same_decl (a b : VariableConfig) : Prop :=
  (v_Key a, v_VariableType a, v_Protected a, v_Masked a, v_Raw a, v_EnvironmentScope a, v_Description a)
  = (v_Key b, v_VariableType b, v_Protected b, v_Masked b, v_Raw b, v_EnvironmentScope b, v_Description b) /\
  (isSensitiveVariable (v_Key a) (true_ptr (v_Masked a)) = false -> v_Value a = v_Value b).

Definition same_live (a b : Variable_) : Prop :=
  (va_Key a, va_VariableType a, va_Protected a, va_Masked a, va_Raw a, va_EnvironmentScope a, va_Description a)
  = (va_Key b, va_VariableType b, va_Protected b, va_Masked b, va_Raw b, va_EnvironmentScope b, va_Description b) /\
  (isSensitiveVariable (va_Key a) (va_Masked a) = false -> va_Value a = va_Value b).

(** On both sides the same declared values are already live. *)
Definition same_drift (m1 m2 : gmap string Variable_) (d1 d2 : VariableConfig) : Prop :=
  forall v1 v2, m1 !! decl_key d1 = Some v1 -> m2 !! decl_key d2 = Some v2 ->
  (va_Value v1 = v_Value d1 <-> va_Value v2 = v_Value d2).

(** ** Lemmas: secrets *)

Lemma sensitive_mono key m1 m2 :
  isSensitiveVariable key m1 = true -> isSensitiveVariable key (m1 || m2) = true.
Proof. unfold isSensitiveVariable. destruct m1, m2; simpl; auto. Qed.

(** A value is shown only if it is the same on both sides. *)
Lemma sanitizeValue_same key a b masked own :
  (isSensitiveVariable key own = false -> a = b) -> (own = true -> masked = true) ->
  sanitizeValue key a masked = sanitizeValue key b masked.
Proof.
  intros Hab Hm. unfold sanitizeValue.
  destruct (isSensitiveVariable key masked) eqn:E; [done|]. apply Hab.
  destruct own; [by rewrite Hm in E by done|]. destruct masked; [done|exact E].
Qed.

Lemma eqb_iff a b c d : (a = b <-> c = d) -> (a =? b)%string = (c =? d)%string.
Proof. intros H. destruct (String.eqb_spec a b), (String.eqb_spec c d); tauto. Qed.

Lemma diffVariable_same d1 d2 v1 v2 :
  same_decl d1 d2 -> same_live v1 v2 -> (va_Value v1 = v_Value d1 <-> va_Value v2 = v_Value d2) ->
  diffVariable d1 v1 = diffVariable d2 v2.
Proof.
  intros [Hd Hdv] [Hl Hlv] Hv. injection Hd as H1 H2 H3 H4 H5 H6 H7. injection Hl as L1 L2 L3 L4 L5 L6 L7.
  unfold diffVariable. rewrite (eqb_iff _ _ _ _ Hv), <- H1, <- H2, <- H3, <- H4, <- H5, <- H6, <- H7,
    <- L1, <- L2, <- L3, <- L4, <- L5, <- L7.
  rewrite (sanitizeValue_same (va_Key v1) (va_Value v1) (va_Value v2) _ (va_Masked v1)), 
    (sanitizeValue_same (v_Key d1) (v_Value d1) (v_Value d2) _ (true_ptr (v_Masked d1))); try done.
  - intros ->. done.
  - intros ->. by rewrite orb_true_r.
Qed.

Lemma createVariableDiff_same k d1 d2 : same_decl d1 d2 -> createVariableDiff k d1 = createVariableDiff k d2.
Proof.
  intros [Hd Hdv]. injection Hd as H1 H2 H3 H4 H5 H6 H7.
  unfold createVariableDiff, decl_key, decl_scope. rewrite <- H1, <- H2, <- H3, <- H4, <- H5, <- H6.
  by rewrite (sanitizeValue_same (v_Key d1) (v_Value d1) (v_Value d2) _ (true_ptr (v_Masked d1))).
Qed.

Lemma same_decl_key d1 d2 : same_decl d1 d2 -> decl_key d1 = decl_key d2.
Proof. intros [Hd _]. unfold decl_key, decl_scope. by injection Hd as -> _ _ _ _ -> _. Qed.

Lemma same_live_key v1 v2 : same_live v1 v2 -> live_key v1 = live_key v2.
Proof. intros [Hd _]. unfold live_key. by injection Hd as -> _ _ _ _ -> _. Qed.

Lemma pruneVariableDiff_same k v1 v2 : same_live v1 v2 -> pruneVariableDiff k v1 = pruneVariableDiff k v2.
Proof.
  intros Hl. unfold pruneVariableDiff. rewrite (same_live_key _ _ Hl). destruct Hl as [Hl _].
  by injection Hl as -> _ _ _ _ -> _.
Qed.

Lemma map_by_Forall2 {A} (key : A -> string) (R : A -> A -> Prop) l1 l2 n :
  (forall a b, R a b -> key a = key b) -> Forall2 R l1 l2 ->
  option_Forall2 R (map_by key l1 !! n) (map_by key l2 !! n).
Proof.
  intros Hk. induction l1 as [|a l1 IH] using rev_ind in l2 |- *; intros HF.
  - apply Forall2_nil_inv_l in HF as ->. unfold map_by. simpl. rewrite lookup_empty. constructor.
  - apply Forall2_app_inv_l in HF as (k1 & k2 & HF & Hs & ->).
    apply Forall2_cons_inv_l in Hs as (b & k3 & Hab & Hn & ->). apply Forall2_nil_inv_l in Hn as ->.
    rewrite !map_by_snoc, <- (Hk a b Hab).
    destruct (decide (key a = n)) as [<-|Hne].
    + rewrite !lookup_insert_eq. by constructor.
    + rewrite !lookup_insert_ne by done. by apply IH.
Qed.

Lemma non_nil_Forall2 {A} (R : A -> A -> Prop) l1 l2 :
  Forall2 (option_Forall2 R) l1 l2 -> Forall2 R (non_nil l1) (non_nil l2).
Proof.
  unfold non_nil. induction 1 as [|a b l1 l2 Hab _ IH]; simpl; [constructor|].
  destruct Hab; simpl; [by constructor|done].
Qed.

Lemma List_filter_Forall2 {A} (R : A -> A -> Prop) (f g : A -> bool) l1 l2 :
  (forall a b, R a b -> f a = g b) -> Forall2 R l1 l2 -> Forall2 R (List.filter f l1) (List.filter g l2).
Proof.
  intros Hfg. induction 1 as [|a b l1 l2 Hab _ IH]; simpl; [constructor|].
  rewrite (Hfg a b Hab). destruct (g b); [by constructor|done].
Qed.

(** Plans made from worlds that differ only in secrets are the same. *)
Lemma variableDiffs_same k prune ds1 ds2 l1 l2 :
  Forall2 same_decl ds1 ds2 -> Forall2 (option_Forall2 same_live) l1 l2 ->
  Forall2 (same_drift (live_vars_map l1) (live_vars_map l2)) ds1 ds2 ->
  variableDiffs k prune ds1 l1 = variableDiffs k prune ds2 l2.
Proof.
  intros Hd Hl Hdr. apply non_nil_Forall2 in Hl.
  assert (Hm : forall n, option_Forall2 same_live (live_vars_map l1 !! n) (live_vars_map l2 !! n)).
  { intros n. by apply map_by_Forall2; [apply same_live_key|]. }
  assert (Hkeys : decl_key <$> ds1 = decl_key <$> ds2).
  { clear Hdr. induction Hd as [|d1 d2 ds1 ds2 H _ IH]; [done|].
    rewrite !fmap_cons, IH. f_equal. by apply same_decl_key. }
  unfold variableDiffs. f_equal.
  - f_equal. clear Hkeys. revert Hdr. induction Hd as [|d1 d2 ds1 ds2 Hd _ IH]; [done|].
    rewrite Forall2_cons. intros [H1 Hdr]. rewrite !fmap_cons. f_equal; [|by apply IH].
    unfold declDiff. unfold same_drift in H1. rewrite <- (same_decl_key _ _ Hd) in *.
    destruct (Hm (decl_key d1)) as [v1 v2 Hv|].
    + unfold diffProjectVariable, diffGroupVariable. rewrite (diffVariable_same d1 d2 v1 v2); auto.
    + by rewrite (createVariableDiff_same k d1 d2).
  - destruct prune; [|done]. unfold unmanaged, matchedKeys. rewrite <- Hkeys.
    assert (Hf : forall n, is_some (live_vars_map l1 !! n) = is_some (live_vars_map l2 !! n)).
    { intros n. by destruct (Hm n). }
    rewrite (List_filter_ext (fun key => is_some (live_vars_map l2 !! key))
               (fun key => is_some (live_vars_map l1 !! key))) by done.
    set (matched := list_to_set _ : gset string).
    apply (List_filter_Forall2 same_live (fun lv => negb (bool_decide (live_key lv ∈ matched)))
             (fun lv => negb (bool_decide (live_key lv ∈ matched)))) in Hl.
    2: { intros a b Hab. by rewrite (same_live_key _ _ Hab). }
    induction Hl as [|v1 v2 vs1 vs2 Hv _ IH]; [done|].
    rewrite !fmap_cons, IH. f_equal. by apply pruneVariableDiff_same.
Qed.

(** ** Lemmas: drift *)

Lemma diffVariable_quiet d v : Diff_HasChanges (diffVariable d v) = false <-> variable_meets d v.
Proof.
  unfold diffVariable, variable_meets. cbv zeta.
  rewrite Build_HasChanges; [|by autorewrite with diff|done..].
  autorewrite with diff. rewrite ?CompareBoolPtr_None, !andb_false_iff, !negb_false_iff, !String.eqb_eq.
  simpl. tauto.
Qed.

Lemma declDiff_nil k m d : declDiff k m d = [] <-> decl_ok m d.
Proof.
  unfold declDiff, decl_ok. destruct (m !! decl_key d) as [v|]; [|naive_solver].
  unfold diffProjectVariable, diffGroupVariable.
  pose proof (diffVariable_quiet d v) as Hq.
  destruct k; destruct (Diff_HasChanges (diffVariable d v)); naive_solver.
Qed.

Lemma variableDiffs_nil k decls l :
  variableDiffs k false decls l = [] <-> Forall (decl_ok (live_vars_map l)) decls.
Proof.
  unfold variableDiffs. rewrite app_nil_r. induction decls as [|d decls IH]; [by split|].
  rewrite fmap_cons. simpl. rewrite app_nil, Forall_cons, declDiff_nil. by rewrite IH.
Qed.

Lemma ptr_nonempty_set s old : s = "" \/ set_opt (ptr_nonempty s) old = s.
Proof. unfold ptr_nonempty. destruct (String.eqb_spec s ""); auto. Qed.

Lemma new_variable_meets d key scope : variable_meets d (new_variable key scope (toVariableOptions d)).
Proof.
  unfold variable_meets. cbn. split_and!; try (by intros b ->); try apply ptr_nonempty_set; done.
Qed.

Lemma edit_variable_meets d v : variable_meets d (edit_variable (toVariableOptions d) v).
Proof.
  unfold variable_meets. cbn. split_and!; try (by intros b ->); try apply ptr_nonempty_set; done.
Qed.

Lemma planVariables_reads k prune id path cfg : reads (planVariables k prune id path cfg).
Proof. unfold planVariables. reads. Qed.

Lemma applyVariables_quiet k prune id path cfg :
  quiet (planVariables k prune id path cfg) (applyVariables k prune id path cfg).
Proof.
  unfold applyVariables. destruct (variables_policy cfg); [intros W h w r _ _ _; constructor|].
  apply planThenApply_quiet, planVariables_reads.
Qed.

#[export] Instance Variables_DryRun prune : DryRun (NewVariablesReconciler prune).
Proof. split; intros; apply planVariables_reads. Qed.

#[export] Instance Variables_NoopQuiet prune : NoopQuiet (NewVariablesReconciler prune).
Proof.
  split; intros; try apply applyVariables_quiet; simpl;
    unfold Variables_Plan, Variables_PlanGroup, planVariables; always.
Qed.

Section Server.
Context {W : Type} (h : handler GitLabE W) (vars : W -> scope_kind -> Z -> gmap string Variable_)
  (srv : variable_server h vars).

Lemma planVariables_run k id path cfg w :
  variables_policy cfg <> [] ->
  exists l, live_vars_map l = vars w k id /\
    h _ (Variables (ListVariables k id)) w = (reply_ok l, w) /\
    run h (planVariables k false id path cfg) w =
    (let diffs := variableDiffs k false (variables_policy cfg) l in
     if (length diffs =? 0)%nat then noop_plan Variables_Name k id path
     else planned Variables_Name k id path ActionUpdate diffs, w).
Proof using srv.
  intros Hp. destruct (vs_list _ _ srv k id w) as (l & Hl & Hr). exists l. split_and!; [done..|].
  unfold planVariables. destruct (variables_policy cfg) as [|d ds]; [done|].
  rewrite run_bind, run_call, Hr. cbn [r_err r_val reply_ok]. cbv zeta. by destruct (length _ =? 0)%nat.
Qed.

(** What one declaration does to the server. *)
Lemma applyDecls_run k id path plan live decls next w res w' :
  NoDup (decl_key <$> decls) ->
  (forall n, n ∈ decl_key <$> decls -> vars w k id !! n = live !! n) ->
  run h (applyDecls k id path plan live decls next) w = ((res, None), w') ->
  exists w1, run h next w1 = ((res, None), w') /\
    (forall n, n ∉ decl_key <$> decls -> vars w1 k id !! n = vars w k id !! n) /\
    Forall (decl_ok (vars w1 k id)) decls.
Proof using srv.
  revert w. induction decls as [|d decls IH]; intros w Hnd Hlive Hr; cbn [applyDecls] in Hr.
  { exists w. split_and!; [done..|constructor]. }
  rewrite fmap_cons, NoDup_cons in Hnd. destruct Hnd as [Hn Hnd].
  assert (Hstep : exists w1, run h (applyDecls k id path plan live decls next) w1 = ((res, None), w') /\
    (forall n, n <> decl_key d -> vars w1 k id !! n = vars w k id !! n) /\
    decl_ok (vars w1 k id) d).
  { pose proof (Hlive (decl_key d) ltac:(rewrite fmap_cons; set_solver)) as Hd.
    destruct (live !! decl_key d) as [v|] eqn:El; rewrite run_bind, run_call in Hr.
    - match type of Hr with context [UpdateVariable k id ?key ?f ?ns ?o] =>
        pose proof (vs_update _ _ srv k id key f ns (decl_scope d) o w ltac:(destruct k; auto)) as Hu end.
      destruct (h _ _ w) as [r w1]. simpl in Hu. destruct (r_err r); [by rewrite run_ret in Hr|].
      exists w1. rewrite (Hu eq_refl). split_and!; [done|intros; by rewrite lookup_alter_ne|].
      exists (edit_variable (toVariableOptions d) v). unfold decl_key in Hd |- *.
      rewrite lookup_alter_eq, Hd. split; [done|apply edit_variable_meets].
    - pose proof (vs_create _ _ srv k id (v_Key d) (decl_scope d) (toVariableOptions d) w) as Hu.
      destruct (h _ _ w) as [r w1]. simpl in Hu. destruct (r_err r); [by rewrite run_ret in Hr|].
      exists w1. rewrite (Hu eq_refl). split_and!; [done|intros; by rewrite lookup_insert_ne|].
      eexists. unfold decl_key. rewrite lookup_insert_eq. split; [done|apply new_variable_meets]. }
  destruct Hstep as (w1 & Hr1 & Hframe & Hok).
  destruct (IH w1 Hnd) as (w2 & Hr2 & Hother & Hdone); [|done|].
  { intros n Hin. rewrite Hframe by set_solver. apply Hlive. rewrite fmap_cons. set_solver. }
  exists w2. split_and!; [done| |].
  - intros n. rewrite fmap_cons, not_elem_of_cons. intros [Hne Hnin]. by rewrite Hother, Hframe.
  - constructor; [|done]. destruct Hok as (v & Hv & Hm). exists v. by rewrite Hother.
Qed.

Lemma applyVariables_run k id path cfg w res w' :
  NoDup (decl_key <$> variables_policy cfg) ->
  run h (applyVariables k false id path cfg) w = ((res, None), w') ->
  (forall n, n ∉ decl_key <$> variables_policy cfg -> vars w' k id !! n = vars w k id !! n) /\
  Forall (decl_ok (vars w' k id)) (variables_policy cfg).
Proof using srv.
  intros Hnd Hr. unfold applyVariables in Hr.
  destruct (decide (variables_policy cfg = [])) as [E|E].
  { rewrite E in Hr |- *. injection Hr as _ <-. by split. }
  destruct (planVariables_run k id path cfg w E) as (l & Hl & Hlist & Hplan). cbv zeta in Hplan.
  pose proof (variableDiffs_nil k (variables_policy cfg) l) as Hnil.
  destruct (variables_policy cfg) as [|d0 ds0]; [done|]. set (decls := d0 :: ds0) in *.
  destruct (variableDiffs k false decls l) as [|df dfs]; cbn [length Nat.eqb] in Hplan;
    rewrite (planThenApply_run _ _ _ _ _ _ _ _ Hplan) in Hr.
  { injection Hr as _ <-. split; [done|]. rewrite <- Hl. by apply Hnil. }
  cbn -[call applyDecls pruneVars] in Hr. rewrite run_bind, run_call, Hlist in Hr.
  cbn [r_err r_val reply_ok] in Hr.
  apply applyDecls_run in Hr as (w1 & Hr & Hframe & Hok); [|done|by intros; rewrite <- Hl].
  cbn [pruneVars] in Hr. rewrite run_ret in Hr. injection Hr as _ <-. done.
Qed.

End Server.

(** ** Properties *)


Definition demo_variable (value : string) : VariableConfig := {|
  v_Key := "DEPLOY_TOKEN"; v_Value := value; v_VariableType := ""; v_Protected := Some true;
  v_Masked := Some true; v_Raw := None; v_EnvironmentScope := ""; v_Description := ""
|}.

Definition demo_variables_cfg (value : string) : option PolicyConfig := with_policies
  (Build_PoliciesConfig None [] None None None None None [demo_variable value] None None [] None None [] []).

Definition demo_vars (value : string) : server :=
  with_vars empty_server (fun _ _ => [{|
    va_Key := "DEPLOY_TOKEN"; va_Value := value; va_VariableType := "env_var"; va_Protected := true;
    va_Masked := true; va_Raw := false; va_EnvironmentScope := "*"; va_Description := "" |}]).


(** Enforcing variables works, converges and touches nothing else:
    without pruning, and for declarations with distinct keys and scopes on a
    project or group whose variables fit one page, whenever [Apply] reports no
    error every declared variable is live as declared, every other variable is
    as before, and a plan made right afterwards has nothing to do. *)
Theorem Variables_Apply_converges {W} (h : handler GitLabE W) vars (srv : variable_server h vars)
    k id path cfg w res w' :
  NoDup (decl_key <$> variables_policy cfg) ->
  run h (applyVariables k false id path cfg) w = ((res, None), w') ->
  Forall (decl_ok (vars w' k id)) (variables_policy cfg) /\
  (forall n, n ∉ decl_key <$> variables_policy cfg -> vars w' k id !! n = vars w k id !! n) /\
  (run h (planVariables k false id path cfg) w').1 = noop_plan Variables_Name k id path.
Proof.
  intros Hnd Hr. destruct (applyVariables_run h vars srv _ _ _ _ _ _ _ Hnd Hr) as [Hframe Hok].
  split_and!; [done..|]. destruct (decide (variables_policy cfg = [])) as [E|E].
  { unfold planVariables. by rewrite E. }
  destruct (planVariables_run h vars srv k id path cfg w' E) as (l & Hl & _ & ->).
  rewrite <- Hl in Hok. apply variableDiffs_nil with (k := k) in Hok. by rewrite Hok.
Qed.

Lemma non_nil_Some {A} (l : list A) : non_nil (Some <$> l) = l.
Proof. unfold non_nil. induction l as [|a l IH]; [done|]. cbn. by f_equal. Qed.

Lemma demo_variable_server : variable_server demo_server (fun w k id => live_vars_map (Some <$> sv_vars w k id)).
Proof.
  split.
  - intros k id w. by eexists.
  - intros k id key scope opt w. simpl. destruct (existsb _ _); simpl; [done|]. intros _.
    rewrite set2_same. unfold live_vars_map. rewrite !non_nil_Some.
    exact (map_by_snoc live_key _ (new_variable key scope opt)).
  - intros k id key filter newScope scope opt w Hs.
    assert (match filter with None => newScope | f => f end = Some scope) as Hsel by naive_solver.
    simpl. rewrite Hsel. destruct (existsb _ _); simpl; [|done]. intros _.
    rewrite set2_same. unfold live_vars_map. rewrite !non_nil_Some.
    exact (map_by_update live_key (edit_variable opt) (varCompositeKey key scope) _ (fun _ => eq_refl)).
Qed.

Lemma Variables_Apply_converges_witness :
  let cfg := demo_variables_cfg "s3cr3t" in
  let w' := (run demo_server (applyVariables OnProject false 42 "platform/api" cfg) (demo_vars "0ld")).2 in
  (run demo_server (planVariables OnProject false 42 "platform/api" cfg) w').1 =
    noop_plan Variables_Name OnProject 42 "platform/api".
Proof.
  intros cfg w'. eapply (Variables_Apply_converges demo_server _ demo_variable_server OnProject 42 "platform/api"
    cfg (demo_vars "0ld")).
  - by apply (bool_decide_unpack _); vm_compute.
  - reflexivity.
Defined.
