(* ===== verification/Registry.v ===== *)
(** * The operations registry: internal/governance/registry.go

    Registration, ordering and the four loops that run every operation on a
    project or a group.  The loops are one definition, [runOps], with the
    method and the failure texts as arguments.  Theorems about them are proved
    against the interface classes [DryRun] and [NoopQuiet] of [Governance]; the
    registry of the program is in [DefaultRegistry]. *)

From S2P Require Import Prelude GoLib Config GitLabAPI Server Governance.
From S2P Require Import PushRules TargetBranchRules ProtectedBranches PipelineRetention ProjectSettings Compliance Variables.
Local Open Scope string_scope.
Local Open Scope list_scope.
Local Open Scope Z_scope.

(** The Go map from names to operations. *)
Abbreviation OperationsRegistry := (gmap string GovernanceOperation) (only parsing).

Definition Register (r : OperationsRegistry) (op : GovernanceOperation) : OperationsRegistry :=
  <[op_Name op := op]> r.

Definition Get (r : OperationsRegistry) (name : string) : option GovernanceOperation := r !! name.

(** [sort.Slice]'s less function. *)
Definition op_less (a b : GovernanceOperation) : bool :=
  if op_Order a =? op_Order b then (op_Name a <? op_Name b)%string else op_Order a <? op_Order b.

(** [a] may come before [b]. *)
Definition op_le (a b : GovernanceOperation) : Prop := op_less b a = false.

#[export] Instance op_le_dec a b : Decision (op_le a b).
Proof. unfold op_le. solve_decision. Defined.

(** The sort of some enumeration of a map; Go enumerates in an order of its
    own, which [OrderedOperations_deterministic] shows not to matter. *)
Definition sortOperations (l : list GovernanceOperation) : list GovernanceOperation :=
  merge_sort op_le l.

Definition OrderedOperations (r : OperationsRegistry) : list GovernanceOperation :=
  sortOperations (snd <$> map_to_list r).

(** The loop the four methods share. *)
Fixpoint runOps {R} (method : GovernanceOperation -> GP (option R * option error))
    (missing : GovernanceOperation -> error -> R) (explain : GovernanceOperation -> string)
    (ops : list GovernanceOperation) (results : list R) : GP (list R * option error) :=
  match ops with
  | [] => mret (results, None)
  | op :: rest =>
      done_ ← call (Context_ CtxErr);
      match done_ with
      | Some e => mret (results, Some e)
      | None =>
          '(res, err) ← method op;
          match err with
          | Some e =>
              let res := match res with Some r => r | None => missing op e end in
              mret (results ++ [res], Some (ErrWrap (explain op) e))
          | None => runOps method missing explain rest (results ++ option_list res)
          end
      end
  end.

Definition explain (verb kind : string) (id : Z) (op : GovernanceOperation) : string :=
  "operation " +:+ op_Name op +:+ " failed " +:+ verb +:+ " on " +:+ kind +:+ " " +:+ Itoa id +:+ ": ".

Definition missingPlan (t : ResourceType) (id : Z) (path : string) (op : GovernanceOperation) (e : error)
  : PlanResult := {|
  pl_OperationName := op_Name op; pl_ResourceType := t; pl_ResourceID := id; pl_ResourcePath := path;
  pl_Action := ActionUnset; pl_Diffs := []; pl_HasChanges := false; pl_Details := ""; pl_Error := Some e
|}.

Definition missingApply (t : ResourceType) (id : Z) (path : string) (op : GovernanceOperation) (e : error)
  : ApplyResult := {|
  al_OperationName := op_Name op; al_ResourceType := t; al_ResourceID := id; al_ResourcePath := path;
  al_Action := ActionUnset; al_Diffs := []; al_Status := StatusFailed; al_Success := false;
  al_Details := ""; al_Error := Some e
|}.

Definition PlanProject (r : OperationsRegistry) (project : Project) (cfg : option PolicyConfig)
  : GP (list PlanResult * option error) :=
  runOps (fun op => op_Plan op cfg project)
    (missingPlan ResourceTypeProject (p_ID project) (p_PathWithNamespace project))
    (explain "planning" "project" (p_ID project)) (OrderedOperations r) [].

Definition ApplyProject (r : OperationsRegistry) (project : Project) (cfg : option PolicyConfig)
  : GP (list ApplyResult * option error) :=
  runOps (fun op => op_Apply op cfg project)
    (missingApply ResourceTypeProject (p_ID project) (p_PathWithNamespace project))
    (explain "applying" "project" (p_ID project)) (OrderedOperations r) [].

Definition PlanGroup (r : OperationsRegistry) (group : Group) (cfg : option PolicyConfig)
  : GP (list PlanResult * option error) :=
  runOps (fun op => op_PlanGroup op cfg group)
    (missingPlan ResourceTypeGroup (g_ID group) (g_FullPath group))
    (explain "planning" "group" (g_ID group)) (OrderedOperations r) [].

Definition ApplyGroup (r : OperationsRegistry) (group : Group) (cfg : option PolicyConfig)
  : GP (list ApplyResult * option error) :=
  runOps (fun op => op_ApplyGroup op cfg group)
    (missingApply ResourceTypeGroup (g_ID group) (g_FullPath group))
    (explain "applying" "group" (g_ID group)) (OrderedOperations r) [].

(** ** Lemmas: the order *)

(** Operations registered under their own name. *)
Definition well_named (r : OperationsRegistry) : Prop := forall n op, r !! n = Some op -> op_Name op = n.

Lemma Register_well_named r op : well_named r -> well_named (Register r op).
Proof.
  intros Hr n op'. unfold Register. rewrite lookup_insert_Some. intros [[<- <-]|[_ H]]; [done|by apply Hr].
Qed.

Lemma op_le_spec a b :
  op_le a b <-> op_Order a < op_Order b \/ (op_Order a = op_Order b /\ String.le (op_Name a) (op_Name b)).
Proof.
  unfold op_le, op_less. destruct (Z.eqb_spec (op_Order b) (op_Order a)) as [He|He].
  - rewrite string_ltb_ge. naive_solver lia.
  - rewrite Z.ltb_ge. naive_solver lia.
Qed.

#[export] Instance op_le_trans : Transitive op_le.
Proof.
  intros a b c. rewrite !op_le_spec. intros [|[]] [|[]]; try (left; lia).
  right. split; [lia|]. by etrans.
Qed.

#[export] Instance op_le_total : Total op_le.
Proof.
  intros a b. rewrite !op_le_spec.
  destruct (Z.lt_trichotomy (op_Order a) (op_Order b)) as [?|[?|?]]; [by auto| |by auto].
  destruct (total String.le (op_Name a) (op_Name b)); auto.
Qed.

(** Two operations that may each come first have the same name. *)
Lemma op_le_antisym a b : op_le a b -> op_le b a -> op_Name a = op_Name b.
Proof.
  rewrite !op_le_spec. intros [?|[? Hab]] [?|[? Hba]]; try lia. by apply (anti_symm String.le).
Qed.

Lemma registry_values_names r :
  well_named r -> forall a b, a ∈ snd <$> map_to_list r -> b ∈ snd <$> map_to_list r ->
  op_Name a = op_Name b -> a = b.
Proof.
  intros Hr a b. rewrite !list_elem_of_fmap. intros ([n a'] & -> & Ha) ([m b'] & -> & Hb). simpl.
  apply elem_of_map_to_list in Ha, Hb. rewrite (Hr _ _ Ha), (Hr _ _ Hb). intros ->. congruence.
Qed.

(** ** Lemmas: the loop *)

Lemma runOps_reads {R} (method : GovernanceOperation -> GP (option R * option error)) m e ops rs :
  (forall op, op ∈ ops -> reads (method op)) -> reads (runOps method m e ops rs).
Proof.
  revert rs. induction ops as [|op ops IH]; intros rs Hm; cbn [runOps]; [done|].
  apply reads_bind; [by apply reads_call|]. intros [err|]; [done|].
  apply reads_bind; [apply Hm; set_solver|]. intros [res [err|]]; [done|].
  apply IH. set_solver.
Qed.

(** The loop stops at the first operation that fails: what comes after it in
    the order does not matter. *)
Lemma runOps_stop {R W} (h : handler GitLabE W) (method : GovernanceOperation -> GP (option R * option error))
    m e ops1 ops2 rs w err rs' w' :
  run h (runOps method m e ops1 rs) w = ((rs', Some err), w') ->
  run h (runOps method m e (ops1 ++ ops2) rs) w = ((rs', Some err), w').
Proof.
  revert rs w. induction ops1 as [|op ops1 IH]; intros rs w; simpl app; [done|].
  cbn [runOps]. rewrite !run_bind, run_call.
  destruct (h _ (Context_ CtxErr) w) as [[ce|] w1]; [done|].
  rewrite !run_bind. destruct (run h (method op) w1) as [[res [er|]] w2]; [done|]. apply IH.
Qed.

Lemma runOps_stop_calls {R W} (h : handler GitLabE W) (method : GovernanceOperation -> GP (option R * option error))
    m e ops1 ops2 rs w err rs' w' :
  run h (runOps method m e ops1 rs) w = ((rs', Some err), w') ->
  calls h (runOps method m e (ops1 ++ ops2) rs) w = calls h (runOps method m e ops1 rs) w.
Proof.
  revert rs w. induction ops1 as [|op ops1 IH]; intros rs w; simpl app; [done|].
  cbn [runOps]. rewrite !calls_bind, !run_bind, run_call.
  destruct (h _ (Context_ CtxErr) w) as [[ce|] w1]; [done|]. rewrite !calls_bind, !run_bind.
  destruct (run h (method op) w1) as [[res [er|]] w2]; [done|]. intros Hr. do 2 f_equal. by apply IH.
Qed.

(** When the loop reports no error, every operation has run, and its result
    stands in the order of the operations. *)
Lemma runOps_complete {R W} (h : handler GitLabE W)
    (method : GovernanceOperation -> GP (option R * option error)) m e (P : GovernanceOperation -> R -> Prop) ops rs w rs' w' :
  (forall op w r, op ∈ ops -> (run h (method op) w).1 = (r, None) -> exists x, r = Some x /\ P op x) ->
  run h (runOps method m e ops rs) w = ((rs', None), w') ->
  exists new, rs' = rs ++ new /\ Forall2 P ops new.
Proof.
  revert rs w. induction ops as [|op ops IH]; intros rs w Hm; cbn [runOps].
  - intros [= <- <-]. exists []. split; [by rewrite app_nil_r|constructor].
  - rewrite !run_bind, run_call. destruct (h _ (Context_ CtxErr) w) as [[ce|] w1]; [done|].
    rewrite !run_bind. specialize (Hm op w1) as Hop.
    destruct (run h (method op) w1) as [[res [er|]] w2]; [done|].
    destruct (Hop res ltac:(set_solver) eq_refl) as (x & -> & Hx). intros Hr.
    destruct (IH _ _ ltac:(set_solver) Hr) as (new & -> & Hn).
    exists (x :: new). simpl. rewrite <- app_assoc. split; [done|]. by constructor.
Qed.

(** The loop only adds to the results. *)
Lemma runOps_prefix {R W} (h : handler GitLabE W)
    (method : GovernanceOperation -> GP (option R * option error)) m e ops rs w rs' :
  (run h (runOps method m e ops rs) w).1 = (rs', None) -> exists new, rs' = rs ++ new.
Proof.
  revert rs w. induction ops as [|op ops IH]; intros rs w; cbn [runOps].
  - intros [= <-]. exists []. by rewrite app_nil_r.
  - rewrite !run_bind, run_call. destruct (h _ (Context_ CtxErr) w) as [[ce|] w1]; [done|].
    rewrite !run_bind. destruct (run h (method op) w1) as [[res [er|]] w2]; [done|]. intros Hr.
    destruct (IH _ _ Hr) as [new ->]. rewrite <- app_assoc. eauto.
Qed.

(** If planning every operation in turn finds nothing to change, enforcing
    them in turn only reads. *)
Lemma runOps_quiet {R W} (h : handler GitLabE W) (plan : GovernanceOperation -> GP PlanReturn)
    (apply : GovernanceOperation -> GP (option R * option error)) m m' e e' ops rs rs0 w rs' :
  stable_reads h ->
  (forall op, op ∈ ops -> reads (plan op) /\ always answers (plan op) /\ quiet (plan op) (apply op)) ->
  (run h (runOps plan m e ops rs) w).1 = (rs', None) ->
  Forall (fun r => pl_HasChanges r = false) rs' ->
  Forall (fun c => is_read (projT2 c) = true) (calls h (runOps apply m' e' ops rs0) w).
Proof.
  intros Hs. revert rs rs0. induction ops as [|op ops IH]; intros rs rs0 Hops Hp Hrs;
    cbn [runOps] in *; [constructor|].
  rewrite run_bind, run_call in Hp. rewrite calls_bind.
  pose proof (Hs _ (Context_ CtxErr) w eq_refl) as Hc. apply Forall_app. split.
  { simpl. destruct (h _ _ w). repeat constructor. }
  rewrite run_call. destruct (h _ (Context_ CtxErr) w) as [[ce|] w1]; simpl in Hc; subst w1; [done|].
  destruct (Hops op ltac:(set_solver)) as (Hread & Hans & Hq).
  rewrite run_bind in Hp. pose proof (run_reads h (plan op) w Hs Hread) as Hw.
  pose proof (always_run h _ _ w Hans) as Ha. unfold answers in Ha.
  specialize (Hq W h w). destruct (run h (plan op) w) as [[[r|] [er|]] w2]; cbn in *; try done.
  2: by destruct Ha.
  subst w2.
  assert (pl_HasChanges r = false) as Hr.
  { destruct (runOps_prefix h plan m e ops (rs ++ [r]) w rs' Hp) as [new ->].
    rewrite !Forall_app, Forall_singleton in Hrs. tauto. }
  specialize (Hq r Hs eq_refl Hr). rewrite calls_bind. apply Forall_app. split; [done|].
  pose proof (run_calls_reads h (apply op) w Hs Hq) as Hw2.
  destruct (run h (apply op) w) as [[res [er|]] w3]; simpl in Hw2; subst w3; [constructor|].
  eapply IH; [set_solver|exact Hp|done].
Qed.

Lemma OrderedOperations_perm r : OrderedOperations r ≡ₚ snd <$> map_to_list r.
Proof. apply merge_sort_Permutation. Qed.

Lemma OrderedOperations_elem r op :
  op ∈ OrderedOperations r -> exists n, r !! n = Some op.
Proof.
  rewrite OrderedOperations_perm, list_elem_of_fmap. intros ([n op'] & -> & Hn).
  apply elem_of_map_to_list in Hn. by exists n.
Qed.

Lemma Register_perm r op :
  r !! op_Name op = None ->
  snd <$> map_to_list (Register r op) ≡ₚ op :: (snd <$> map_to_list r).
Proof. intros Hn. unfold Register. by rewrite map_to_list_insert. Qed.

(** On the projects that a configuration governs, an operation is quiet where
    its plan is. *)
Definition quiet_under (cfg : option PolicyConfig) (op : GovernanceOperation) : Prop :=
  forall p, always answers (op_Plan op cfg p) /\ quiet (op_Plan op cfg p) (op_Apply op cfg p).

Lemma NoopQuiet_under op cfg : NoopQuiet op -> quiet_under cfg op.
Proof. intros Hq p. split; [apply plan_answers|apply apply_quiet]. Qed.

Lemma ordered_unique r l :
  well_named r -> l ≡ₚ snd <$> map_to_list r -> StronglySorted op_le l -> l = OrderedOperations r.
Proof.
  intros Hr Hl Hs.
  assert (StronglySorted op_le (OrderedOperations r)) as Ho by (apply StronglySorted_merge_sort; apply _).
  apply (StronglySorted_unique_strong op_le); [|done..|by rewrite Hl, OrderedOperations_perm].
  intros a b Ha Hb Hab Hba. eapply registry_values_names; [done| | |by apply op_le_antisym].
  - by rewrite <- Hl.
  - by rewrite <- OrderedOperations_perm.
Qed.

(** What a registry needs for its dry runs, and for its quiet runs. *)
Definition all_dry_run (r : OperationsRegistry) : Prop := forall n op, r !! n = Some op -> DryRun op.
Definition all_quiet (cfg : option PolicyConfig) (r : OperationsRegistry) : Prop :=
  forall n op, r !! n = Some op -> quiet_under cfg op.

Lemma Register_all {P : GovernanceOperation -> Prop} (r : OperationsRegistry) op :
  P op -> (forall n op, r !! n = Some op -> P op) -> forall n op', Register r op !! n = Some op' -> P op'.
Proof.
  intros Hop Hr n op'. unfold Register. rewrite lookup_insert_Some. intros [[_ <-]|[_ H]]; [done|by eapply Hr].
Qed.

Lemma OrderedOperations_Forall (P : GovernanceOperation -> Prop) r op :
  (forall n op, r !! n = Some op -> P op) -> op ∈ OrderedOperations r -> P op.
Proof. intros Hr Hop. apply OrderedOperations_elem in Hop as [n Hn]. by eapply Hr. Qed.

(** ** A registry for the witnesses *)

(** Planning only reads. *)
Lemma PlanProject_reads r project cfg : all_dry_run r -> reads (PlanProject r project cfg).
Proof.
  intros Hr. apply runOps_reads. intros op Hop. pose proof (OrderedOperations_Forall DryRun r op Hr Hop) as Hd. apply plan_reads.
Qed.

Lemma PlanGroup_reads r group cfg : all_dry_run r -> reads (PlanGroup r group cfg).
Proof.
  intros Hr. apply runOps_reads. intros op Hop. pose proof (OrderedOperations_Forall DryRun r op Hr Hop) as Hd. apply plan_group_reads.
Qed.

Definition demo_registry : OperationsRegistry :=
  foldl Register ∅
    [NewComplianceReconciler; NewVariablesReconciler false; NewPipelineRetentionReconciler;
     NewTargetBranchRulesReconciler; NewProjectSettingsReconciler; NewProtectedBranchesReconciler 10;
     NewPushRulesReconciler].

Lemma demo_registry_named : well_named demo_registry.
Proof. unfold demo_registry. simpl. repeat apply Register_well_named. by intros n op. Qed.

Lemma demo_registry_dry_run : all_dry_run demo_registry.
Proof.
  unfold demo_registry, all_dry_run. simpl. repeat (apply Register_all; [apply _|]). by intros n op.
Qed.

Lemma demo_registry_quiet cfg : all_quiet cfg demo_registry.
Proof.
  unfold demo_registry, all_quiet. simpl. repeat (apply Register_all; [apply NoopQuiet_under, _|]). by intros n op.
Qed.

Lemma apply_quiet_registry {W} (h : handler GitLabE W) (r : OperationsRegistry) project cfg w results :
  stable_reads h -> all_dry_run r -> all_quiet cfg r ->
  (run h (PlanProject r project cfg) w).1 = (results, None) ->
  Forall (fun x => pl_HasChanges x = false) results ->
  Forall (fun c => is_read (projT2 c) = true) (calls h (ApplyProject r project cfg) w) /\
  (run h (ApplyProject r project cfg) w).2 = w.
Proof.
  intros Hs Hd Hq Hp Hc.
  assert (Forall (fun c => is_read (projT2 c) = true) (calls h (ApplyProject r project cfg) w)) as Hreads.
  { eapply (runOps_quiet h (fun op => op_Plan op cfg project)); [done| |exact Hp|done].
    intros op Hop. pose proof (OrderedOperations_Forall DryRun r op Hd Hop) as H1.
    pose proof (OrderedOperations_Forall (quiet_under cfg) r op Hq Hop project) as [H2 H3].
    split_and!; [apply plan_reads|done|done]. }
  split; [done|]. by apply run_calls_reads.
Qed.

(** ** Properties *)

(** The order of the operations is determined: whatever order Go's map
    iteration yields the registered operations in, and whatever algorithm
    sorts them by [Order] and then [Name], the result is the same list, a
    sorted permutation of the registered operations. *)
Theorem OrderedOperations_deterministic (r : OperationsRegistry) (l : list GovernanceOperation) :
  well_named r -> l ≡ₚ snd <$> map_to_list r -> StronglySorted op_le l ->
  l = OrderedOperations r /\ StronglySorted op_le (OrderedOperations r).
Proof.
  intros Hr Hl Hs. split; [by apply ordered_unique|]. apply StronglySorted_merge_sort; apply _.
Qed.

Lemma OrderedOperations_deterministic_witness :
  let l := [NewPushRulesReconciler; NewProtectedBranchesReconciler 10; NewProjectSettingsReconciler;
            NewTargetBranchRulesReconciler; NewPipelineRetentionReconciler; NewVariablesReconciler false;
            NewComplianceReconciler] in
  l = OrderedOperations demo_registry.
Proof.
  intros l. refine (proj1 (OrderedOperations_deterministic demo_registry l demo_registry_named _ _)).
  - unfold demo_registry. cbn [foldl]. rewrite !Register_perm by reflexivity. reflexivity.
  - repeat constructor.
Defined.

(** A dry run is faithful: if planning a project succeeds and no result
    has changes, then enforcing the same policy on the same server makes no
    mutating call at all, and leaves the server as it was. *)
Theorem Apply_quiet_after_clean_plan {W} (h : handler GitLabE W) (r : OperationsRegistry) project cfg w results :
  stable_reads h -> all_dry_run r -> all_quiet cfg r ->
  (run h (PlanProject r project cfg) w).1 = (results, None) ->
  Forall (fun x => pl_HasChanges x = false) results ->
  Forall (fun c => is_read (projT2 c) = true) (calls h (ApplyProject r project cfg) w) /\
  (run h (ApplyProject r project cfg) w).2 = w.
Proof. apply apply_quiet_registry. Qed.

Lemma Apply_quiet_after_clean_plan_witness :
  (run demo_server (ApplyProject demo_registry demo_project None) demo_live).2 = demo_live.
Proof.
  eapply (Apply_quiet_after_clean_plan demo_server demo_registry demo_project None demo_live);
    [exact demo_server_stable|exact demo_registry_dry_run|exact (demo_registry_quiet None)|reflexivity|].
  repeat constructor.
Defined.

(** Enforcement stops at the first failure: if running the operations up
    to some point of the order ends in an error, then so does the whole
    [ApplyProject], with the same results, the same error and the same calls,
    so nothing is done on behalf of the operations that come later. *)
Theorem ApplyProject_fail_stop {W} (h : handler GitLabE W) (r : OperationsRegistry) project cfg w
    first later results err w' :
  OrderedOperations r = first ++ later ->
  let loop ops := runOps (fun op => op_Apply op cfg project)
    (missingApply ResourceTypeProject (p_ID project) (p_PathWithNamespace project))
    (explain "applying" "project" (p_ID project)) ops [] in
  run h (loop first) w = ((results, Some err), w') ->
  run h (ApplyProject r project cfg) w = ((results, Some err), w') /\
  calls h (ApplyProject r project cfg) w = calls h (loop first) w.
Proof.
  intros Ho loop Hr. unfold ApplyProject. rewrite Ho. split.
  - by apply runOps_stop.
  - by eapply runOps_stop_calls.
Qed.

(** A server that cannot answer for push rules. *)
Definition demo_broken : handler GitLabE server := fun X e w =>
  match e in GitLabE X return X * server with
  | PushRules_ e' =>
      match e' in PushRulesE X return X * server with
      | GetPushRule _ _ => (reply_err None 500 (ErrNew "500 Internal Server Error"), w)
      | e'' => push_handler _ e'' w
      end
  | e' => demo_server _ e' w
  end.

Definition demo_push_cfg : option PolicyConfig := with_policies
  (Build_PoliciesConfig (Some demo_push_policy) [] None None None None None [] None None [] None None [] []).

Lemma ApplyProject_fail_stop_witness :
  exists results err, (run demo_broken (ApplyProject demo_registry demo_project demo_push_cfg) demo_live)
    = ((results, Some err), demo_live) /\ length results = 1%nat.
Proof.
  eexists _, _. split.
  - eapply (ApplyProject_fail_stop demo_broken demo_registry demo_project demo_push_cfg demo_live
              (take 1 (OrderedOperations demo_registry)) (drop 1 (OrderedOperations demo_registry))).
    + symmetry. apply take_drop.
    + vm_compute. reflexivity.
  - reflexivity.
Defined.
