(* ===== verification/ProjectFilter.v ===== *)
(** * The project filter: internal/discovery/projectfilter.go

    [NewProjectFilter] compiles the project selector of a policy,
    [ProjectFilter.Evaluate] runs a project through the criteria in order and
    names the first one it fails.  The specification [selected] says, of the
    selector itself, which projects are governed. *)

From S2P Require Import Prelude GoLib Config GitLabAPI Server.
Local Open Scope string_scope.
Local Open Scope list_scope.
Local Open Scope Z_scope.

(** ** Data *)

Variant FilterDecision : Type :=
| DecisionMatched | DecisionExcludedNamespace | DecisionExcludedRegex | DecisionExcludedTopic
| DecisionMissingNamespace | DecisionMissingRegex | DecisionMissingTopic | DecisionMismatchVisibility
| DecisionMismatchArchived | DecisionMismatchMarkedForDeletion | DecisionMismatchIDRange
| DecisionNilProject.

Record FilterResult : Type := {
  fr_Matched : bool;
  fr_Decision : FilterDecision;
  fr_Reason : string;
  fr_MatchedRule : string
}.

(** A compiled [*regexp.Regexp]: its source text and [MatchString]. *)
Record Regexp : Type := { re_String : string; re_MatchString : string -> bool }.

(** A nil set of topics and an empty one behave alike. *)
Record ProjectFilter : Type := {
  pf_namespacesInclude : list string;
  pf_namespacesExclude : list string;
  pf_regexInclude : option Regexp;
  pf_regexExclude : option Regexp;
  pf_topicsInclude : gset string;
  pf_topicsExclude : gset string;
  pf_visibility : string;
  pf_archived : option bool;
  pf_excludeMarkedForDeletion : option bool;
  pf_idRange : option IDRange
}.

(** ** Construction *)

(** [strings.Trim(strings.ToLower(s), "/")] and [strings.TrimSpace(strings.ToLower(s))]. *)
Definition norm_path (s : string) : string := Trim "/" (ToLower s).
Definition norm_topic (s : string) : string := TrimSpace (ToLower s).

Definition nonblank_strings : list string -> list string :=
  List.filter (fun s => negb (s =? "")%string).

Definition compile_selector `{GoRegexp} (field pattern : string) : error + option Regexp :=
  if (TrimSpace pattern =? "")%string then inr None
  else match regexp_Compile pattern with
       | inl err => inl (ErrWrap ("invalid " +:+ field +:+ " '" +:+ pattern +:+ "': ") err)
       | inr m => inr (Some {| re_String := pattern; re_MatchString := m |})
       end.

Definition empty_filter : ProjectFilter := {|
  pf_namespacesInclude := []; pf_namespacesExclude := []; pf_regexInclude := None; pf_regexExclude := None;
  pf_topicsInclude := ∅; pf_topicsExclude := ∅; pf_visibility := ""; pf_archived := None;
  pf_excludeMarkedForDeletion := None; pf_idRange := None
|}.

Definition NewProjectFilter `{GoRegexp} (sel : option ProjectSelector) : error + ProjectFilter :=
  match sel with
  | None => inr empty_filter
  | Some sel =>
      match compile_selector "project_name_regex_include" (ps_ProjectNameRegexInclude sel) with
      | inl err => inl err
      | inr regexInclude =>
          match compile_selector "project_name_regex_exclude" (ps_ProjectNameRegexExclude sel) with
          | inl err => inl err
          | inr regexExclude => inr {|
              pf_namespacesInclude := nonblank_strings (norm_path <$> ps_NamespacesInclude sel);
              pf_namespacesExclude := nonblank_strings (norm_path <$> ps_NamespacesExclude sel);
              pf_regexInclude := regexInclude;
              pf_regexExclude := regexExclude;
              pf_topicsInclude := list_to_set (nonblank_strings (norm_topic <$> ps_TopicsInclude sel));
              pf_topicsExclude := list_to_set (nonblank_strings (norm_topic <$> ps_TopicsExclude sel));
              pf_visibility := ToLower (TrimSpace (ps_Visibility sel));
              pf_archived := ps_Archived sel;
              pf_excludeMarkedForDeletion := ps_ExcludeMarkedForDeletion sel;
              pf_idRange := ps_IDRange sel
            |}
          end
      end
  end.

(** ** What is read of a project *)

Definition extractProjectNamespace (p : Project) : string :=
  match p_Namespace p with
  | Some full => if negb (full =? "")%string then norm_path full
                 else from_option norm_path "" (BeforeLast "/" (p_PathWithNamespace p))
  | None => from_option norm_path "" (BeforeLast "/" (p_PathWithNamespace p))
  end.

(** [topics] with [seen], the closure [add] of the code. *)
Definition add_topic (topics : list string) (item : string) : list string :=
  let t := norm_topic item in
  if negb (t =? "")%string && negb (bool_decide (t ∈ topics)) then topics ++ [t] else topics.

Definition extractProjectTopics (p : Project) : list string :=
  foldl add_topic (foldl add_topic [] (p_Topics p)) (p_TagList p).

Definition matchNamespace (projNS targetNS : string) : bool :=
  let projNS := norm_path projNS in
  let targetNS := norm_path targetNS in
  if (projNS =? "")%string || (targetNS =? "")%string then (projNS =? targetNS)%string
  else (projNS =? targetNS)%string || HasPrefix projNS (targetNS +:+ "/").

Definition regex_candidates (p : Project) : list string :=
  [p_Name p; ToLower (p_Name p); p_Path p; ToLower (p_Path p); p_PathWithNamespace p;
   ToLower (p_PathWithNamespace p); ReplaceAll (ToLower (p_Name p)) " - " "-";
   ReplaceAll (ToLower (p_Name p)) " " "-"].

Definition matchProjectRegex (re : Regexp) (p : Project) : bool :=
  existsb (fun c => negb (c =? "")%string && re_MatchString re c) (regex_candidates p).

(** ** The criteria, in the order of the code: [Some] is an early return *)

Definition reject (d : FilterDecision) (reason rule : string) : option FilterResult :=
  Some {| fr_Matched := false; fr_Decision := d; fr_Reason := reason; fr_MatchedRule := rule |}.

Definition checkArchived (pf : ProjectFilter) (p : Project) : option FilterResult :=
  match pf_archived pf with
  | Some b => if negb (Bool.eqb (p_Archived p) b)
              then reject DecisionMismatchArchived
                     ("project archived status (" +:+ fmt_bool (p_Archived p) +:+ ") does not match required ("
                        +:+ fmt_bool b +:+ ")") ""
              else None
  | None => None
  end.

(** Projects pending deletion are left out on demand, and by default when only
    active projects are asked for. *)
Definition shouldExcludeMarked (exclude archived : option bool) : bool :=
  match exclude with
  | Some b => b
  | None => match archived with Some a => negb a | None => false end
  end.

Definition checkMarked (pf : ProjectFilter) (p : Project) : option FilterResult :=
  match p_MarkedForDeletionAt p with
  | Some at_ => if shouldExcludeMarked (pf_excludeMarkedForDeletion pf) (pf_archived pf)
                then reject DecisionMismatchMarkedForDeletion
                       ("project is marked for deletion (scheduled at " +:+ at_ +:+ ")") ""
                else None
  | None => None
  end.

Definition checkVisibility (pf : ProjectFilter) (p : Project) : option FilterResult :=
  if negb (pf_visibility pf =? "")%string && negb (pf_visibility pf =? "any")%string then
    let projVis := ToLower (p_Visibility p) in
    if negb (projVis =? pf_visibility pf)%string
    then reject DecisionMismatchVisibility
           ("project visibility '" +:+ projVis +:+ "' does not match required '" +:+ pf_visibility pf +:+ "'") ""
    else None
  else None.

Definition checkIDRange (pf : ProjectFilter) (p : Project) : option FilterResult :=
  match pf_idRange pf with
  | None => None
  | Some r =>
      if (0 <? idr_Min r) && (p_ID p <? idr_Min r)
      then reject DecisionMismatchIDRange
             ("project ID " +:+ Itoa (p_ID p) +:+ " is below minimum ID " +:+ Itoa (idr_Min r)) ""
      else if (0 <? idr_Max r) && (idr_Max r <? p_ID p)
      then reject DecisionMismatchIDRange
             ("project ID " +:+ Itoa (p_ID p) +:+ " is above maximum ID " +:+ Itoa (idr_Max r)) ""
      else None
  end.

Definition checkNamespaceExclude (pf : ProjectFilter) (p : Project) : option FilterResult :=
  let projNS := extractProjectNamespace p in
  match List.find (matchNamespace projNS) (pf_namespacesExclude pf) with
  | Some ns => reject DecisionExcludedNamespace
                 ("project namespace '" +:+ projNS +:+ "' matched excluded namespace '" +:+ ns +:+ "'") ns
  | None => None
  end.

Definition checkRegexExclude (pf : ProjectFilter) (p : Project) : option FilterResult :=
  match pf_regexExclude pf with
  | Some re => if matchProjectRegex re p
               then reject DecisionExcludedRegex
                      ("project name/path '" +:+ p_Name p +:+ "' matched excluded regex '" +:+ re_String re +:+ "'")
                      (re_String re)
               else None
  | None => None
  end.

Definition checkTopicExclude (pf : ProjectFilter) (p : Project) : option FilterResult :=
  match List.find (fun pt => bool_decide (pt ∈ pf_topicsExclude pf)) (extractProjectTopics p) with
  | Some pt => reject DecisionExcludedTopic ("project contains excluded topic '" +:+ pt +:+ "'") pt
  | None => None
  end.

Definition checkNamespaceInclude (pf : ProjectFilter) (p : Project) : option FilterResult :=
  let projNS := extractProjectNamespace p in
  match pf_namespacesInclude pf with
  | [] => None
  | _ => if existsb (matchNamespace projNS) (pf_namespacesInclude pf) then None
         else reject DecisionMissingNamespace
                ("project namespace '" +:+ projNS +:+ "' did not match any included namespaces") ""
  end.

Definition checkRegexInclude (pf : ProjectFilter) (p : Project) : option FilterResult :=
  match pf_regexInclude pf with
  | Some re => if negb (matchProjectRegex re p)
               then reject DecisionMissingRegex
                      ("project name/path '" +:+ p_Name p +:+ "' did not match included regex '"
                         +:+ re_String re +:+ "'") ""
               else None
  | None => None
  end.

Definition checkTopicInclude (pf : ProjectFilter) (p : Project) : option FilterResult :=
  if (0 <? size (pf_topicsInclude pf))%nat
     && negb (existsb (fun pt => bool_decide (pt ∈ pf_topicsInclude pf)) (extractProjectTopics p))
  then reject DecisionMissingTopic "project does not contain any of the required included topics" ""
  else None.

Definition filter_steps : list (ProjectFilter -> Project -> option FilterResult) :=
  [checkArchived; checkMarked; checkVisibility; checkIDRange; checkNamespaceExclude; checkRegexExclude;
   checkTopicExclude; checkNamespaceInclude; checkRegexInclude; checkTopicInclude].

(** The first early return, or the result at the end of the function. *)
Fixpoint first_return (steps : list (option FilterResult)) (last : FilterResult) : FilterResult :=
  match steps with
  | [] => last
  | Some r :: _ => r
  | None :: rest => first_return rest last
  end.

Definition Evaluate (pf : option ProjectFilter) (p : option Project) : FilterResult :=
  match p, pf with
  | None, _ => {| fr_Matched := false; fr_Decision := DecisionNilProject;
                  fr_Reason := "project is nil"; fr_MatchedRule := "" |}
  | Some _, None => {| fr_Matched := true; fr_Decision := DecisionMatched;
                       fr_Reason := "no filter configured (matches all)"; fr_MatchedRule := "" |}
  | Some p, Some pf =>
      first_return ((fun step => step pf p) <$> filter_steps)
        {| fr_Matched := true; fr_Decision := DecisionMatched;
           fr_Reason := "passed all filter criteria"; fr_MatchedRule := "" |}
  end.

Definition Matches (pf : option ProjectFilter) (p : option Project) : bool := fr_Matched (Evaluate pf p).

(** ** Specification *)

(** The namespace is the target or below it. *)
Definition under (ns target : string) : Prop := ns = target \/ exists rest, ns = target +:+ "/" +:+ rest.

Definition in_namespace (p : Project) (target : string) : Prop :=
  norm_path target <> "" /\ under (extractProjectNamespace p) (norm_path target).

Definition has_topic (p : Project) (topic : string) : Prop :=
  norm_topic topic <> "" /\ exists t, t ∈ p_Topics p ++ p_TagList p /\ norm_topic t = norm_topic topic.

(** One of the spellings of the project's name and path matches. *)
Definition named (p : Project) (m : string -> bool) : Prop :=
  exists c, c ∈ regex_candidates p /\ c <> "" /\ m c = true.

(** A list of wanted values: no value, or one of them holds. *)
Definition wanted (norm : string -> string) (holds : string -> Prop) (l : list string) : Prop :=
  Forall (fun s => norm s = "") l \/ Exists holds l.

Record selected `{GoRegexp} (sel : ProjectSelector) (p : Project) : Prop := {
  sl_archived : forall b, ps_Archived sel = Some b -> p_Archived p = b;
  sl_marked : p_MarkedForDeletionAt p <> None ->
    ps_ExcludeMarkedForDeletion sel = Some false
    \/ (ps_ExcludeMarkedForDeletion sel = None /\ ps_Archived sel <> Some false);
  sl_visibility : let v := ToLower (TrimSpace (ps_Visibility sel)) in
    v = "" \/ v = "any" \/ ToLower (p_Visibility p) = v;
  sl_range : forall r, ps_IDRange sel = Some r ->
    (0 < idr_Min r -> idr_Min r <= p_ID p) /\ (0 < idr_Max r -> p_ID p <= idr_Max r);
  sl_namespace_out : Forall (fun ns => ~ in_namespace p ns) (ps_NamespacesExclude sel);
  sl_regex_out : forall m, TrimSpace (ps_ProjectNameRegexExclude sel) <> "" ->
    regexp_Compile (ps_ProjectNameRegexExclude sel) = inr m -> ~ named p m;
  sl_topic_out : Forall (fun t => ~ has_topic p t) (ps_TopicsExclude sel);
  sl_namespace_in : wanted norm_path (in_namespace p) (ps_NamespacesInclude sel);
  sl_regex_in : forall m, TrimSpace (ps_ProjectNameRegexInclude sel) <> "" ->
    regexp_Compile (ps_ProjectNameRegexInclude sel) = inr m -> named p m;
  sl_topic_in : wanted norm_topic (has_topic p) (ps_TopicsInclude sel)
}.

(** ** Lemmas *)

Lemma norm_path_idem s : norm_path (norm_path s) = norm_path s.
Proof. unfold norm_path. rewrite ToLower_Trim. apply TrimFunc_idem. Qed.

Lemma extractProjectNamespace_norm p :
  norm_path (extractProjectNamespace p) = extractProjectNamespace p.
Proof.
  unfold extractProjectNamespace. destruct (p_Namespace p) as [full|]; [case_match; [apply norm_path_idem|]|];
    destruct (BeforeLast _ _); try apply norm_path_idem; reflexivity.
Qed.

Lemma matchNamespace_iff ns target :
  norm_path ns = ns -> norm_path target = target -> target <> "" ->
  matchNamespace ns target = true <-> under ns target.
Proof.
  intros Hn Ht Hne. unfold matchNamespace, under. rewrite Hn, Ht.
  rewrite (proj2 (String.eqb_neq target "")), orb_false_r by done.
  destruct (String.eqb_spec ns "") as [->|Hns].
  - rewrite String.eqb_eq. split; [by left|]. intros [?|[rest He]]; [done|].
    destruct target; [done|]. by rewrite string_app_cons in He.
  - rewrite orb_true_iff, String.eqb_eq, HasPrefix_spec.
    setoid_rewrite string_app_assoc. done.
Qed.

(** The normalised, non-blank values of a list. *)
Lemma elem_of_nonblank_strings s l : s ∈ nonblank_strings l <-> s <> "" /\ s ∈ l.
Proof. unfold nonblank_strings. rewrite elem_of_List_filter, negb_true_iff, String.eqb_neq. done. Qed.

Lemma nonblank_strings_nil (norm : string -> string) l :
  nonblank_strings (norm <$> l) = [] <-> Forall (fun s => norm s = "") l.
Proof.
  rewrite Forall_forall. split.
  - intros Hn s Hs. destruct (decide (norm s = "")) as [|Hne]; [done|]. exfalso.
    assert (norm s ∈ nonblank_strings (norm <$> l)) as Hi.
    { apply elem_of_nonblank_strings. split; [done|]. by apply list_elem_of_fmap_2. }
    rewrite Hn in Hi. by apply elem_of_nil in Hi.
  - intros Hf. destruct (nonblank_strings (norm <$> l)) as [|x r] eqn:E; [done|]. exfalso.
    assert (x ∈ nonblank_strings (norm <$> l)) as Hi by (rewrite E; left).
    apply elem_of_nonblank_strings in Hi as [Hx (s & -> & Hs)%list_elem_of_fmap]. by apply Hx, Hf.
Qed.

Lemma Exists_norm (norm : string -> string) (P : string -> Prop) l :
  Exists (fun s => norm s <> "" /\ P (norm s)) l <-> exists x, x ∈ nonblank_strings (norm <$> l) /\ P x.
Proof.
  rewrite Exists_exists. setoid_rewrite elem_of_nonblank_strings. setoid_rewrite list_elem_of_fmap. naive_solver.
Qed.

Lemma add_topic_elem topics item t :
  t ∈ add_topic topics item <-> t ∈ topics \/ (t <> "" /\ t = norm_topic item).
Proof.
  unfold add_topic. destruct (String.eqb_spec (norm_topic item) "") as [He|Hne]; simpl; [naive_solver|].
  case_bool_decide; simpl; [naive_solver|]. rewrite elem_of_app, list_elem_of_singleton. naive_solver.
Qed.

Lemma foldl_add_topic_elem l topics t :
  t ∈ foldl add_topic topics l <-> t ∈ topics \/ (t <> "" /\ exists x, x ∈ l /\ t = norm_topic x).
Proof.
  revert topics. induction l as [|x l IH]; intros topics; simpl.
  - setoid_rewrite elem_of_nil. naive_solver.
  - rewrite IH, add_topic_elem. setoid_rewrite elem_of_cons. naive_solver.
Qed.

Lemma extractProjectTopics_elem p t :
  t ∈ extractProjectTopics p <-> t <> "" /\ exists x, x ∈ p_Topics p ++ p_TagList p /\ t = norm_topic x.
Proof.
  unfold extractProjectTopics. rewrite !foldl_add_topic_elem, elem_of_nil. setoid_rewrite elem_of_app. naive_solver.
Qed.

Lemma matchProjectRegex_iff re p : matchProjectRegex re p = true <-> named p (re_MatchString re).
Proof.
  unfold matchProjectRegex, named. rewrite List.existsb_exists.
  setoid_rewrite andb_true_iff. setoid_rewrite negb_true_iff. setoid_rewrite String.eqb_neq.
  setoid_rewrite <- list_elem_of_In. naive_solver.
Qed.

Lemma reject_ne d reason rule : reject d reason rule <> None.
Proof. done. Qed.

(** The pipeline accepts iff no step returns early; an early return rejects. *)
Lemma first_return_matched steps last :
  fr_Matched last = true -> Forall (fun s => forall r, s = Some r -> fr_Matched r = false) steps ->
  fr_Matched (first_return steps last) = true <-> Forall (fun s => s = None) steps.
Proof.
  intros Hl Hs. induction Hs as [|s steps Hr Hs IH]; [done|]. rewrite Forall_cons. destruct s as [r|]; simpl.
  - rewrite (Hr r) by done. naive_solver.
  - rewrite IH. naive_solver.
Qed.

(** Every step returns nothing or a rejection. *)
Lemma filter_steps_reject pf p :
  Forall (fun s => forall r, s = Some r -> fr_Matched r = false) ((fun step => step pf p) <$> filter_steps).
Proof.
  assert (forall d reason rule r, reject d reason rule = Some r -> fr_Matched r = false) as Hr
    by (by intros ???? [= <-]).
  unfold filter_steps. simpl. repeat constructor; intros r;
    unfold checkArchived, checkMarked, checkVisibility, checkIDRange, checkNamespaceExclude, checkRegexExclude,
      checkTopicExclude, checkNamespaceInclude, checkRegexInclude, checkTopicInclude;
    repeat case_match; intros; eauto; done.
Qed.

Section Compiled.
Context `{GoRegexp} (sel : ProjectSelector) (pf : ProjectFilter) (p : Project)
  (Hpf : NewProjectFilter (Some sel) = inr pf).

(** What the compilation of the selector gives. *)
Lemma compiled_fields :
  pf_namespacesInclude pf = nonblank_strings (norm_path <$> ps_NamespacesInclude sel) /\
  pf_namespacesExclude pf = nonblank_strings (norm_path <$> ps_NamespacesExclude sel) /\
  pf_topicsInclude pf = list_to_set (nonblank_strings (norm_topic <$> ps_TopicsInclude sel)) /\
  pf_topicsExclude pf = list_to_set (nonblank_strings (norm_topic <$> ps_TopicsExclude sel)) /\
  pf_visibility pf = ToLower (TrimSpace (ps_Visibility sel)) /\ pf_archived pf = ps_Archived sel /\
  pf_excludeMarkedForDeletion pf = ps_ExcludeMarkedForDeletion sel /\ pf_idRange pf = ps_IDRange sel.
Proof using Hpf.
  unfold NewProjectFilter in Hpf. repeat case_match; simplify_eq. by simpl.
Qed.

Lemma compiled_regex field pattern r :
  compile_selector field pattern = inr r ->
  (forall m, TrimSpace pattern <> "" -> regexp_Compile pattern = inr m ->
     r = Some {| re_String := pattern; re_MatchString := m |}) /\
  (forall re, r = Some re -> TrimSpace pattern <> "" /\ regexp_Compile pattern = inr (re_MatchString re)).
Proof.
  unfold compile_selector. destruct (String.eqb_spec (TrimSpace pattern) ""); intros Hc; simplify_eq.
  - split; [done|]. naive_solver.
  - destruct (regexp_Compile pattern); simplify_eq. split; [naive_solver|]. by intros re [= <-].
Qed.

Lemma compiled_regexes :
  compile_selector "project_name_regex_include" (ps_ProjectNameRegexInclude sel) = inr (pf_regexInclude pf) /\
  compile_selector "project_name_regex_exclude" (ps_ProjectNameRegexExclude sel) = inr (pf_regexExclude pf).
Proof using Hpf. unfold NewProjectFilter in Hpf. repeat case_match; simplify_eq. by simpl. Qed.

Lemma checkArchived_None :
  checkArchived pf p = None <-> forall b, ps_Archived sel = Some b -> p_Archived p = b.
Proof using Hpf.
  destruct compiled_fields as (_&_&_&_&_&Ha&_). unfold checkArchived, reject. rewrite Ha.
  destruct (ps_Archived sel) as [b|]; [|naive_solver].
  destruct (Bool.eqb_spec (p_Archived p) b); simpl; naive_solver.
Qed.

Lemma checkMarked_None :
  checkMarked pf p = None <->
  (p_MarkedForDeletionAt p <> None ->
   ps_ExcludeMarkedForDeletion sel = Some false
   \/ (ps_ExcludeMarkedForDeletion sel = None /\ ps_Archived sel <> Some false)).
Proof using Hpf.
  destruct compiled_fields as (_&_&_&_&_&Ha&He&_). unfold checkMarked, shouldExcludeMarked, reject. rewrite Ha, He.
  destruct (p_MarkedForDeletionAt p), (ps_ExcludeMarkedForDeletion sel) as [[]|], (ps_Archived sel) as [[]|];
    simpl; naive_solver.
Qed.

Lemma checkVisibility_None :
  checkVisibility pf p = None <->
  let v := ToLower (TrimSpace (ps_Visibility sel)) in v = "" \/ v = "any" \/ ToLower (p_Visibility p) = v.
Proof using Hpf.
  destruct compiled_fields as (_&_&_&_&Hv&_). unfold checkVisibility, reject. rewrite Hv. cbv zeta.
  destruct (String.eqb_spec (ToLower (TrimSpace (ps_Visibility sel))) ""); simpl; [naive_solver|].
  destruct (String.eqb_spec (ToLower (TrimSpace (ps_Visibility sel))) "any"); simpl; [naive_solver|].
  destruct (String.eqb_spec (ToLower (p_Visibility p)) (ToLower (TrimSpace (ps_Visibility sel))));
    simpl; naive_solver.
Qed.

Lemma checkIDRange_None :
  checkIDRange pf p = None <-> forall r, ps_IDRange sel = Some r ->
    (0 < idr_Min r -> idr_Min r <= p_ID p) /\ (0 < idr_Max r -> p_ID p <= idr_Max r).
Proof using Hpf.
  destruct compiled_fields as (_&_&_&_&_&_&_&Hr). unfold checkIDRange, reject. rewrite Hr.
  destruct (ps_IDRange sel) as [r|]; [|naive_solver].
  transitivity ((0 < idr_Min r -> idr_Min r <= p_ID p) /\ (0 < idr_Max r -> p_ID p <= idr_Max r)); [|naive_solver].
  destruct (Z.ltb_spec 0 (idr_Min r)), (Z.ltb_spec (p_ID p) (idr_Min r)), (Z.ltb_spec 0 (idr_Max r)),
    (Z.ltb_spec (idr_Max r) (p_ID p)); simpl; split; intros; try done; lia.
Qed.

Lemma in_namespace_match target :
  norm_path target <> "" ->
  matchNamespace (extractProjectNamespace p) (norm_path target) = true <->
  under (extractProjectNamespace p) (norm_path target).
Proof. apply matchNamespace_iff; [apply extractProjectNamespace_norm|apply norm_path_idem]. Qed.

Lemma existsb_namespace l :
  existsb (matchNamespace (extractProjectNamespace p)) (nonblank_strings (norm_path <$> l)) = true <->
  Exists (in_namespace p) l.
Proof.
  rewrite List.existsb_exists. unfold in_namespace. rewrite Exists_exists. split.
  - intros (x & (Hne & (s & -> & Hs)%list_elem_of_fmap)%list_elem_of_In%elem_of_nonblank_strings & Hm).
    exists s. by rewrite <- in_namespace_match.
  - intros (s & Hs & Hne & Hu). exists (norm_path s). rewrite <- list_elem_of_In, elem_of_nonblank_strings.
    rewrite in_namespace_match by done. split; [|done]. split; [done|]. by apply list_elem_of_fmap_2.
Qed.

Lemma existsb_topic (l : list string) :
  existsb (fun pt => bool_decide (pt ∈ (list_to_set (nonblank_strings (norm_topic <$> l)) : gset string)))
    (extractProjectTopics p) = true <-> Exists (has_topic p) l.
Proof.
  rewrite List.existsb_exists, Exists_exists. unfold has_topic. split.
  - intros (t & Ht%list_elem_of_In & Hb%bool_decide_eq_true). apply elem_of_list_to_set, elem_of_nonblank_strings in Hb
      as [Hne (s & -> & Hs)%list_elem_of_fmap].
    apply extractProjectTopics_elem in Ht as (_ & x & Hx & He). exists s. eauto.
  - intros (s & Hs & Hne & x & Hx & He). exists (norm_topic s). rewrite <- list_elem_of_In, extractProjectTopics_elem.
    rewrite bool_decide_eq_true, elem_of_list_to_set, elem_of_nonblank_strings.
    split; [eauto|]. split; [done|]. by apply list_elem_of_fmap_2.
Qed.

Lemma find_None {A} (f : A -> bool) l : List.find f l = None <-> existsb f l <> true.
Proof. induction l as [|x l IH]; simpl; [done|]. destruct (f x); simpl; naive_solver. Qed.

Lemma checkNamespaceExclude_None :
  checkNamespaceExclude pf p = None <-> Forall (fun ns => ~ in_namespace p ns) (ps_NamespacesExclude sel).
Proof using Hpf.
  destruct compiled_fields as (_&Hx&_). unfold checkNamespaceExclude, reject. rewrite Hx.
  rewrite List.Forall_Exists_neg, <- existsb_namespace, <- find_None. case_match; naive_solver.
Qed.

Lemma checkTopicExclude_None :
  checkTopicExclude pf p = None <-> Forall (fun t => ~ has_topic p t) (ps_TopicsExclude sel).
Proof using Hpf.
  destruct compiled_fields as (_&_&_&Hx&_). unfold checkTopicExclude, reject. rewrite Hx.
  rewrite List.Forall_Exists_neg, <- existsb_topic, <- find_None. case_match; naive_solver.
Qed.

Lemma checkNamespaceInclude_None :
  checkNamespaceInclude pf p = None <-> wanted norm_path (in_namespace p) (ps_NamespacesInclude sel).
Proof using Hpf.
  destruct compiled_fields as (Hi&_). unfold checkNamespaceInclude, wanted, reject.
  rewrite <- nonblank_strings_nil, <- existsb_namespace, <- Hi.
  destruct (pf_namespacesInclude pf) as [|n l]; [naive_solver|]. destruct (existsb _ _); naive_solver.
Qed.

Lemma checkTopicInclude_None :
  checkTopicInclude pf p = None <-> wanted norm_topic (has_topic p) (ps_TopicsInclude sel).
Proof using Hpf.
  destruct compiled_fields as (_&_&Hi&_). unfold checkTopicInclude, wanted, reject.
  rewrite <- nonblank_strings_nil, <- existsb_topic, Hi.
  destruct (nonblank_strings (norm_topic <$> ps_TopicsInclude sel)) as [|x l] eqn:E.
  - change (list_to_set [] : gset string) with (∅ : gset string). rewrite size_empty. naive_solver.
  - assert (0 < size (list_to_set (x :: l) : gset string))%nat as Hs.
    { apply Nat.neq_0_lt_0. rewrite size_non_empty_iff. set_solver. }
    apply Nat.ltb_lt in Hs as ->. destruct (existsb _ _); simpl; naive_solver.
Qed.

Lemma checkRegexExclude_None :
  checkRegexExclude pf p = None <->
  (forall m, TrimSpace (ps_ProjectNameRegexExclude sel) <> "" ->
     regexp_Compile (ps_ProjectNameRegexExclude sel) = inr m -> ~ named p m).
Proof using Hpf.
  destruct compiled_regexes as [_ [Hm Hr]%compiled_regex]. unfold checkRegexExclude, reject.
  destruct (pf_regexExclude pf) as [re|].
  - destruct (Hr re eq_refl) as [Hne Hc]. pose proof (matchProjectRegex_iff re p) as Hn.
    destruct (matchProjectRegex re p); naive_solver.
  - naive_solver.
Qed.

Lemma checkRegexInclude_None :
  checkRegexInclude pf p = None <->
  (forall m, TrimSpace (ps_ProjectNameRegexInclude sel) <> "" ->
     regexp_Compile (ps_ProjectNameRegexInclude sel) = inr m -> named p m).
Proof using Hpf.
  destruct compiled_regexes as [[Hm Hr]%compiled_regex _]. unfold checkRegexInclude, reject.
  destruct (pf_regexInclude pf) as [re|].
  - destruct (Hr re eq_refl) as [Hne Hc]. pose proof (matchProjectRegex_iff re p) as Hn.
    destruct (matchProjectRegex re p); simpl; naive_solver.
  - naive_solver.
Qed.

End Compiled.

(** ** Properties *)

(** C38. The filter governs exactly the projects its selector describes: a
    project passes [Evaluate] iff it meets every criterion of the policy, where
    an exclusion (namespace, name or topic) always wins over an inclusion, a
    namespace covers its subgroups but not its namesakes, and a list without a
    value asks for nothing. *)
Theorem ProjectFilter_selects `{GoRegexp} (sel : ProjectSelector) (pf : ProjectFilter) (p : Project) :
  NewProjectFilter (Some sel) = inr pf -> Matches (Some pf) (Some p) = true <-> selected sel p.
Proof.
  intros Hpf. unfold Matches, Evaluate. rewrite first_return_matched by (done || apply filter_steps_reject).
  unfold filter_steps. rewrite !fmap_cons, !Forall_cons,
    (checkArchived_None sel pf p Hpf), (checkMarked_None sel pf p Hpf), (checkVisibility_None sel pf p Hpf),
    (checkIDRange_None sel pf p Hpf), (checkNamespaceExclude_None sel pf p Hpf),
    (checkRegexExclude_None sel pf p Hpf), (checkTopicExclude_None sel pf p Hpf),
    (checkNamespaceInclude_None sel pf p Hpf), (checkRegexInclude_None sel pf p Hpf),
    (checkTopicInclude_None sel pf p Hpf).
  split; [intros (?&?&?&?&?&?&?&?&?&?&_); by constructor|]. intros []. repeat (split; [assumption|]). constructor.
Qed.

(** A policy that wants the platform's Go services and none of its archived or
    sandbox projects. *)
Definition demo_selector : ProjectSelector := {|
  ps_NamespacesInclude := ["/Platform/"]; ps_NamespacesExclude := ["platform/sandbox"];
  ps_ProjectNameRegexInclude := ""; ps_ProjectNameRegexExclude := "playground"; ps_TopicsInclude := ["GoLang"];
  ps_TopicsExclude := ["experimental"]; ps_Visibility := "any"; ps_Archived := Some false;
  ps_ExcludeMarkedForDeletion := None; ps_IDRange := Some {| idr_Min := 1; idr_Max := 0 |}
|}.

Definition demo_literal : GoRegexp := {| regexp_Compile := fun p => inr (String.eqb p) |}.
#[local] Existing Instance demo_literal.

Lemma ProjectFilter_selects_witness :
  let pf := match NewProjectFilter (Some demo_selector) with inr pf => pf | inl _ => empty_filter end in
  Matches (Some pf) (Some demo_project) = true /\ selected demo_selector demo_project.
Proof.
  intros pf. assert (Matches (Some pf) (Some demo_project) = true) as H by (vm_compute; reflexivity).
  assert (NewProjectFilter (Some demo_selector) = inr pf) as Hpf by reflexivity.
  split; [exact H|]. by apply (ProjectFilter_selects demo_selector pf demo_project Hpf).
Defined.
