(* ===== verification/GroupTree.v ===== *)
(** * The group hierarchy: internal/discovery/grouptree.go

    [GroupSelectorEvaluator] compiles the group selector; [Traverse] walks the
    subgroups breadth first from the included groups (or all top-level ones),
    with a visited set against cycles and a depth limit.  The loops of the code
    take fuel: one page of a listing or one queue item each. *)

From S2P Require Import Prelude GoLib Config GitLabAPI Server.
Local Open Scope string_scope.
Local Open Scope list_scope.
Local Open Scope Z_scope.

(** ** The selector *)

Record GroupSelectorEvaluator : Type := {
  ge_includeIDs : gset Z;
  ge_excludeIDs : gset Z;
  ge_includePaths : gset string;
  ge_excludePaths : gset string;
  ge_hasIncludes : bool;
  ge_recursive : bool
}.

(** [strings.Trim(strings.ToLower(p), "/")]. *)
Definition clean_path (p : string) : string := Trim "/" (ToLower p).

Definition path_set (l : list string) : gset string :=
  list_to_set (List.filter (fun s => negb (s =? "")%string) (clean_path <$> l)).

Definition NewGroupSelectorEvaluator (sel : option GroupSelector) : GroupSelectorEvaluator :=
  match sel with
  | None => {| ge_includeIDs := ∅; ge_excludeIDs := ∅; ge_includePaths := ∅; ge_excludePaths := ∅;
               ge_hasIncludes := false; ge_recursive := true |}
  | Some sel =>
      let includeIDs : gset Z := list_to_set (gs_GroupIDsInclude sel) in
      let includePaths := path_set (gs_GroupPathsInclude sel) in {|
        ge_includeIDs := includeIDs;
        ge_excludeIDs := list_to_set (gs_GroupIDsExclude sel);
        ge_includePaths := includePaths;
        ge_excludePaths := path_set (gs_GroupPathsExclude sel);
        ge_hasIncludes := (0 <? size includeIDs)%nat || (0 <? size includePaths)%nat;
        ge_recursive := match gs_Recursive sel with Some b => b | None => true end
      |}
  end.

Definition IsExcluded (e : GroupSelectorEvaluator) (g : Group) : bool :=
  bool_decide (g_ID g ∈ ge_excludeIDs e) || bool_decide (clean_path (g_FullPath g) ∈ ge_excludePaths e).

Definition Group_Matches (e : GroupSelectorEvaluator) (g : option Group) : bool :=
  match g with
  | None => false
  | Some g =>
      if IsExcluded e g then false
      else if negb (ge_hasIncludes e) then true
      else bool_decide (g_ID g ∈ ge_includeIDs e)
           || bool_decide (clean_path (g_FullPath g) ∈ ge_includePaths e)
  end.

(** ** Discovered groups *)

Record DiscoveredGroup : Type := {
  dg_ID : Z;
  dg_Name : string;
  dg_Path : string;
  dg_FullPath : string;
  dg_ParentID : Z;
  dg_RootParentID : Z;
  dg_Depth : Z;
  dg_Visibility : string;
  dg_Description : string;
  dg_WebURL : string;
  dg_Raw : Group
}.

Definition NormalizeGroup (raw : Group) (depth rootParentID : Z) : DiscoveredGroup := {|
  dg_ID := g_ID raw; dg_Name := g_Name raw; dg_Path := g_Path raw; dg_FullPath := g_FullPath raw;
  dg_ParentID := g_ParentID raw; dg_RootParentID := rootParentID; dg_Depth := depth;
  dg_Visibility := g_Visibility raw; dg_Description := g_Description raw; dg_WebURL := g_WebURL raw;
  dg_Raw := raw
|}.

(** ** Listings *)

(** The [for] loop over the pages of a listing, which calls [onPage] with what
    was collected and the page. *)
Fixpoint listPages {A} (fuel : nat) (fetch : Z -> GitLabE (Reply (list (option Group)))) (wrap : error -> error)
    (onPage : A -> list (option Group) -> A) (page : Z) (acc : A) : GP (error + A) :=
  match fuel with
  | O => mret (inl errOutOfFuel)
  | S fuel' =>
      r ← call (fetch page);
      match r_err r with
      | Some err => mret (inl (wrap err))
      | None =>
          let acc := onPage acc (r_val r) in
          match r_resp r with
          | None => mret (inr acc)
          | Some resp => if NextPage resp =? 0 then mret (inr acc)
                         else listPages fuel' fetch wrap onPage (NextPage resp) acc
          end
      end
  end.

Definition listAllSubgroups (fuel : nat) (groupID : Z) : GP (error + list (option Group)) :=
  listPages fuel (fun page => Groups (ListSubgroups groupID page)) id app 1 [].

(** [if g != nil && !seen[g.ID] { seen[g.ID] = true; roots = append(roots, g) }]:
    [seen] holds the identifiers of [roots]. *)
Definition addRoot (roots : list Group) (g : option Group) : list Group :=
  match g with
  | Some g => if bool_decide (g_ID g ∈ g_ID <$> roots) then roots else roots ++ [g]
  | None => roots
  end.

(** The two loops over the explicit includes. *)
Fixpoint rootsByID (ids : list Z) (roots : list Group) : GP (error + list Group) :=
  match ids with
  | [] => mret (inr roots)
  | id :: rest =>
      if bool_decide (id ∈ g_ID <$> roots) then rootsByID rest roots
      else
        r ← call (Groups (GetGroup (inl id)));
        match r_err r with
        | Some err => mret (inl (ErrWrap ("failed to get group by ID " +:+ Itoa id +:+ ": ") err))
        | None => rootsByID rest (addRoot roots (r_val r))
        end
  end.

Fixpoint rootsByPath (paths : list string) (roots : list Group) : GP (error + list Group) :=
  match paths with
  | [] => mret (inr roots)
  | path :: rest =>
      let clean := Trim "/" path in
      if (clean =? "")%string then rootsByPath rest roots
      else
        r ← call (Groups (GetGroup (inr clean)));
        match r_err r with
        | Some err => mret (inl (ErrWrap ("failed to get group by path '" +:+ clean +:+ "': ") err))
        | None => rootsByPath rest (addRoot roots (r_val r))
        end
  end.

(** [len(selector.GroupIDsInclude) > 0 || len(selector.GroupPathsInclude) > 0]. *)
Definition explicit (sel : option GroupSelector) : option GroupSelector :=
  match sel with
  | Some s => match gs_GroupIDsInclude s, gs_GroupPathsInclude s with [], [] => None | _, _ => Some s end
  | None => None
  end.

Definition resolveRoots (fuel : nat) (sel : option GroupSelector) : GP (error + list Group) :=
  match explicit sel with
  | Some s =>
      r ← rootsByID (gs_GroupIDsInclude s) [];
      match r with
      | inl err => mret (inl err)
      | inr roots => rootsByPath (gs_GroupPathsInclude s) roots
      end
  | None =>
      listPages fuel (fun page => Groups (ListGroups page)) (ErrWrap "failed to list top-level groups: ")
        (foldl addRoot) 1 []
  end.

(** ** The traversal *)

Record queueItem : Type := { qi_group : Group; qi_depth : Z; qi_rootParentID : Z }.

(** The seeds, and the children of an item: what is not visited is marked and
    queued. *)
Definition enqueue (item : Group -> queueItem) (acc : gset Z * list queueItem) (g : option Group)
  : gset Z * list queueItem :=
  match g with
  | None => acc
  | Some g => if bool_decide (g_ID g ∈ acc.1) then acc else ({[g_ID g]} ∪ acc.1, acc.2 ++ [item g])
  end.

Definition rootItem (g : Group) : queueItem :=
  {| qi_group := g; qi_depth := 0; qi_rootParentID := g_ID g |}.

Definition childItem (curr : queueItem) (child : Group) : queueItem := {|
  qi_group := child;
  qi_depth := qi_depth curr + 1;
  qi_rootParentID := if qi_rootParentID curr =? 0 then g_ID (qi_group curr) else qi_rootParentID curr
|}.

Definition expands (maxDepth : Z) (eval : GroupSelectorEvaluator) (depth : Z) : bool :=
  ge_recursive eval && ((maxDepth <=? 0) || (depth <? maxDepth)).

Definition emitGroup (eval : GroupSelectorEvaluator) (curr : queueItem) : list DiscoveredGroup :=
  if IsExcluded eval (qi_group curr) then []
  else [NormalizeGroup (qi_group curr) (qi_depth curr) (qi_rootParentID curr)].

(** [queue] is [queue[head:]]. *)
Fixpoint bfs (fuel pages : nat) (maxDepth : Z) (eval : GroupSelectorEvaluator) (queue : list queueItem)
    (visited : gset Z) (matched : list DiscoveredGroup) : GP (error + list DiscoveredGroup) :=
  match queue with
  | [] => mret (inr matched)
  | curr :: rest =>
      match fuel with
      | O => mret (inl errOutOfFuel)
      | S fuel' =>
          done_ ← call (Context_ CtxErr);
          match done_ with
          | Some err => mret (inl err)
          | None =>
              let matched := matched ++ emitGroup eval curr in
              if expands maxDepth eval (qi_depth curr) then
                subgroups ← listAllSubgroups pages (g_ID (qi_group curr));
                match subgroups with
                | inl err => mret (inl (ErrWrap ("failed to list subgroups for group " +:+ Itoa (g_ID (qi_group curr))
                                                   +:+ " (" +:+ g_FullPath (qi_group curr) +:+ "): ") err))
                | inr subgroups =>
                    let '(visited, queue) := foldl (enqueue (childItem curr)) (visited, rest) subgroups in
                    bfs fuel' pages maxDepth eval queue visited matched
                end
              else bfs fuel' pages maxDepth eval rest visited matched
          end
      end
  end.

(** [BFSGroupTraverser]'s [maxDepth], set by [NewBFSGroupTraverser]. *)
Definition default_maxDepth : Z := 100.

Definition Traverse (fuel pages : nat) (maxDepth : Z) (selector : option GroupSelector)
  : GP (error + list DiscoveredGroup) :=
  let eval := NewGroupSelectorEvaluator selector in
  roots ← resolveRoots pages selector;
  match roots with
  | inl err => mret (inl (ErrWrap "failed to resolve root groups: " err))
  | inr roots =>
      let '(visited, queue) := foldl (enqueue rootItem) (∅, []) (Some <$> roots) in
      bfs fuel pages maxDepth eval queue visited []
  end.

(** ** Lemmas: discovery only reads *)

Lemma listPages_reads {A} fuel fetch wrap (onPage : A -> list (option Group) -> A) page acc :
  (forall p, is_read (fetch p) = true) -> reads (listPages fuel fetch wrap onPage page acc).
Proof.
  intros Hf. revert page acc. induction fuel as [|fuel IH]; intros page acc; cbn [listPages]; [done|].
  apply reads_bind; [by apply reads_call|]. intros r. repeat case_match; first [done|apply IH].
Qed.

Lemma rootsByID_reads ids roots : reads (rootsByID ids roots).
Proof.
  revert roots. induction ids as [|i ids IH]; intros roots; cbn [rootsByID]; [done|]. case_match; [apply IH|].
  apply reads_bind; [by apply reads_call|]. intros r. case_match; [done|apply IH].
Qed.

Lemma rootsByPath_reads paths roots : reads (rootsByPath paths roots).
Proof.
  revert roots. induction paths as [|path paths IH]; intros roots; cbn [rootsByPath]; [done|]. case_match; [apply IH|].
  apply reads_bind; [by apply reads_call|]. intros r. case_match; [done|apply IH].
Qed.

Lemma bfs_reads fuel pages maxDepth eval queue visited matched :
  reads (bfs fuel pages maxDepth eval queue visited matched).
Proof.
  revert queue visited matched. induction fuel as [|fuel IH]; intros [|curr rest] visited matched; cbn [bfs]; try done.
  apply reads_bind; [by apply reads_call|]. intros [err|]; [done|]. case_match; [|apply IH].
  apply reads_bind; [by apply listPages_reads|]. intros [err|subgroups]; [done|]. case_match. apply IH.
Qed.

Lemma Traverse_reads fuel pages maxDepth selector : reads (Traverse fuel pages maxDepth selector).
Proof.
  apply reads_bind.
  - unfold resolveRoots. case_match; [|by apply listPages_reads].
    apply reads_bind; [apply rootsByID_reads|]. intros [err|roots]; [done|apply rootsByPath_reads].
  - intros [err|roots]; [done|]. case_match. apply bfs_reads.
Qed.

(** ** Specification *)

(** A server whose hierarchy holds still: [children] and [top] are its
    listings, [lookup] its answers to [GetGroup]. *)
Record group_server {W} (h : handler GitLabE W) (w : W) (children : Z -> list Group) (top : list Group)
    (lookup : Z + string -> option Group) : Prop := {
  gs_alive : h _ (Context_ CtxErr) w = (None, w);
  gs_get : forall gid, h _ (Groups (GetGroup gid)) w =
    (match lookup gid with Some g => reply_ok (Some g) | None => not_found None end, w);
  gs_sub : forall i page, 1 <= page ->
    h _ (Groups (ListSubgroups i page)) w = (page_of (Some <$> children i) page, w);
  gs_top : forall page, 1 <= page -> h _ (Groups (ListGroups page)) w = (page_of (Some <$> top) page, w);
  gs_by_id : forall i g, lookup (inl i) = Some g -> g_ID g = i;
  gs_known : forall g, (g ∈ top \/ (exists i, g ∈ children i) \/ (exists gid, lookup gid = Some g)) ->
    0 < g_ID g /\ lookup (inl (g_ID g)) = Some g
}.

Section Spec.
Context (children : Z -> list Group) (top : list Group) (lookup : Z + string -> option Group).
Context (selector : option GroupSelector) (maxDepth : Z).

Let eval := NewGroupSelectorEvaluator selector.

(** Where the traversal starts. *)
Definition is_root (g : Group) : Prop :=
  match explicit selector with
  | Some s => (exists i, i ∈ gs_GroupIDsInclude s /\ lookup (inl i) = Some g) \/
              (exists p, p ∈ gs_GroupPathsInclude s /\ Trim "/" p <> "" /\ lookup (inr (Trim "/" p)) = Some g)
  | None => g ∈ top
  end.

(** Every explicitly included group exists. *)
Definition resolves : Prop :=
  match explicit selector with
  | Some s => Forall (fun i => lookup (inl i) <> None) (gs_GroupIDsInclude s) /\
              Forall (fun p => Trim "/" p = "" \/ lookup (inr (Trim "/" p)) <> None) (gs_GroupPathsInclude s)
  | None => True
  end.

(** [n] subgroup links, all within the limits, lead from a root to a group. *)
Inductive reach : Group -> nat -> Group -> Prop :=
| reach_root g : is_root g -> reach g 0 g
| reach_child r n p c :
    reach r n p -> expands maxDepth eval (Z.of_nat n) = true -> c ∈ children (g_ID p) -> reach r (S n) c.

(** What a traversal must find: the groups within reach that are not excluded,
    once each, at their distance from the roots and with a root above them. *)
Record traversal (l : list DiscoveredGroup) : Prop := {
  tr_nodup : NoDup (dg_ID <$> l);
  tr_sound : forall d, d ∈ l -> IsExcluded eval (dg_Raw d) = false /\
    exists r n, reach r n (dg_Raw d) /\ d = NormalizeGroup (dg_Raw d) (Z.of_nat n) (g_ID r) /\
      forall r' m, reach r' m (dg_Raw d) -> (n <= m)%nat;
  tr_complete : forall r n g, reach r n g -> IsExcluded eval g = false -> g ∈ dg_Raw <$> l
}.

End Spec.

(** ** Lemmas: listings *)

Lemma listPages_run {W A} (h : handler GitLabE W) fetch wrap (onPage : A -> list (option Group) -> A) l w fuel page acc :
  (forall page, 1 <= page -> h _ (fetch page) w = (page_of l page, w)) ->
  (forall acc a b, onPage acc (a ++ b) = onPage (onPage acc a) b) -> (forall acc, onPage acc [] = acc) ->
  1 <= page -> page = 1 \/ (per_page * Z.to_nat (page - 1) < length l)%nat ->
  (length l < per_page * Z.to_nat (page - 1) + per_page * fuel)%nat ->
  run h (listPages fuel fetch wrap onPage page acc) w = (inr (onPage acc (drop (per_page * Z.to_nat (page - 1)) l)), w).
Proof.
  intros Hl Happ Hnil. revert page acc. induction fuel as [|fuel IH]; intros page acc Hp Hfirst Hf.
  { exfalso. rewrite Nat.mul_0_r, Nat.add_0_r in Hf. destruct Hfirst as [-> |]; [|lia].
    change (Z.to_nat (1 - 1)) with 0%nat in Hf. lia. }
  cbn [listPages]. rewrite run_bind, run_call, Hl by done. cbn [r_err r_val r_resp page_of NextPage].
  assert (per_page * Z.to_nat (page - 1) + per_page = per_page * Z.to_nat (page + 1 - 1))%nat as He.
  { replace (Z.to_nat (page + 1 - 1)) with (S (Z.to_nat (page - 1))) by lia. lia. }
  destruct (Nat.ltb_spec (per_page * Z.to_nat (page - 1) + per_page) (length l)) as [Hlt|Hge].
  - rewrite (proj2 (Z.eqb_neq (page + 1) 0)) by lia. rewrite IH; [|lia| |].
    + rewrite <- Happ, <- He, <- drop_drop. by rewrite take_drop.
    + rewrite <- He. by right.
    + rewrite <- He. rewrite Nat.mul_succ_r in Hf. lia.
  - cbv iota. rewrite Z.eqb_refl, run_ret. rewrite take_ge; [done|]. rewrite length_drop. lia.
Qed.

Lemma foldl_enqueue_cons item acc g l :
  foldl (enqueue item) acc (g :: l) = foldl (enqueue item) (enqueue item acc g) l.
Proof. done. Qed.

(** Queueing a listing: the new items are the groups not yet visited, once
    each. *)
Lemma enqueue_fold (item : Group -> queueItem) (Hitem : forall g, qi_group (item g) = g) l visited queue :
  exists new, foldl (enqueue item) (visited, queue) (Some <$> l) =
    (list_to_set (g_ID ∘ qi_group <$> new) ∪ visited, queue ++ new) /\
    NoDup (g_ID ∘ qi_group <$> new) /\
    (forall x, x ∈ new -> exists g, g ∈ l /\ x = item g /\ g_ID g ∉ visited) /\
    (forall g, g ∈ l -> g_ID g ∈ visited \/ g_ID g ∈ g_ID ∘ qi_group <$> new).
Proof.
  revert visited queue. induction l as [|g l IH]; intros visited queue.
  - exists []. simpl. rewrite app_nil_r. split; [f_equal; set_solver|].
    split; [constructor|]. split; intros x Hx; by apply elem_of_nil in Hx.
  - rewrite fmap_cons, foldl_enqueue_cons. unfold enqueue at 2. cbn [fst snd]. case_bool_decide as Hv.
    + destruct (IH visited queue) as (new & -> & Hn & Hs & Hc). exists new. split; [done|]. split; [done|].
      split; [intros x (g' & ? & ?)%Hs; exists g'; set_solver|]. intros g' [->|Hg]%elem_of_cons; [by left|auto].
    + destruct (IH ({[g_ID g]} ∪ visited) (queue ++ [item g])) as (new & -> & Hn & Hs & Hc).
      exists (item g :: new). rewrite fmap_cons. cbn [compose]. unfold compose at 2 4. rewrite Hitem.
      split; [f_equal; [set_solver|by rewrite <- app_assoc]|]. split.
      { constructor; [|done]. intros (x & He & (g' & _ & -> & Hg')%Hs)%list_elem_of_fmap.
        unfold compose in He. rewrite Hitem in He. apply Hg'. rewrite <- He. set_solver. }
      split.
      * intros x [->|(g' & ? & ? & ?)%Hs]%elem_of_cons; [exists g|exists g']; set_solver.
      * intros g' [->|Hg]%elem_of_cons; [right; left|]. destruct (Hc g' Hg) as [[He|]%elem_of_union|]; [|by left|].
        -- apply elem_of_singleton in He as ->. right. left.
        -- right. by right.
Qed.

Section Run.
Context {W} (h : handler GitLabE W) (w : W) (children : Z -> list Group) (top : list Group)
  (lookup : Z + string -> option Group) (srv : group_server h w children top lookup).
Context (selector : option GroupSelector) (maxDepth : Z) (pages : nat).

Local Abbreviation eval := (NewGroupSelectorEvaluator selector).
Local Abbreviation rooted := (is_root top lookup selector).
Local Abbreviation reached := (reach children top lookup selector maxDepth).

(** ** Lemmas: the roots *)

Lemma group_unique g g' :
  lookup (inl (g_ID g)) = Some g -> lookup (inl (g_ID g')) = Some g' -> g_ID g = g_ID g' -> g = g'.
Proof. intros H1 H2 He. rewrite He in H1. congruence. Qed.

Lemma lookup_known gid g : lookup gid = Some g -> lookup (inl (g_ID g)) = Some g.
Proof using srv. intros Hg. apply (gs_known _ _ _ _ _ srv). eauto. Qed.

Lemma root_known g : rooted g -> 0 < g_ID g /\ lookup (inl (g_ID g)) = Some g.
Proof using srv.
  intros Hr. apply (gs_known _ _ _ _ _ srv). unfold is_root in Hr.
  destruct (explicit selector); naive_solver.
Qed.

(** Roots collected so far: known groups, once each. *)
Definition roots_ok (roots : list Group) : Prop :=
  NoDup (g_ID <$> roots) /\ Forall (fun g => lookup (inl (g_ID g)) = Some g) roots.

Lemma addRoot_ok roots g :
  roots_ok roots -> lookup (inl (g_ID g)) = Some g ->
  roots_ok (addRoot roots (Some g)) /\ (forall x, x ∈ addRoot roots (Some g) <-> x ∈ roots \/ x = g).
Proof.
  intros [Hn Hk] Hg. unfold addRoot. case_bool_decide as Hi.
  - split; [done|]. apply list_elem_of_fmap in Hi as (g' & He & Hg'). rewrite Forall_forall in Hk.
    rewrite (group_unique g g' Hg (Hk _ Hg') He). naive_solver.
  - split; [|intros x; rewrite elem_of_app, list_elem_of_singleton; done]. split.
    + rewrite fmap_app. apply NoDup_app. split; [done|]. split; [|apply NoDup_singleton].
      intros x Hx ->%list_elem_of_singleton. done.
    + apply Forall_app. split; [done|]. by constructor.
Qed.

Lemma rootsByID_run ids roots :
  roots_ok roots ->
  exists r, run h (rootsByID ids roots) w = (r, w) /\
    match r with
    | inr roots' => roots_ok roots' /\ Forall (fun i => lookup (inl i) <> None) ids /\
        forall x, x ∈ roots' <-> x ∈ roots \/ exists i, i ∈ ids /\ lookup (inl i) = Some x
    | inl _ => ~ Forall (fun i => lookup (inl i) <> None) ids
    end.
Proof using srv.
  revert roots. induction ids as [|i ids IH]; intros roots Hok; cbn [rootsByID].
  { eexists. split; [apply run_ret|]. split; [done|]. split; [constructor|].
    intros x. split; [by left|]. by intros [?|(i & Hi%elem_of_nil & _)]. }
  case_bool_decide as Hi.
  - destruct (IH roots Hok) as (r & -> & Hr). exists r. split; [done|].
    apply list_elem_of_fmap in Hi as (g & -> & Hg). destruct Hok as [_ Hk]. rewrite Forall_forall in Hk.
    specialize (Hk g Hg). destruct r as [e|roots']; rewrite Forall_cons; [naive_solver|]. destruct Hr as (? & ? & Hr).
    split; [done|]. split; [split; [by rewrite Hk|done]|]. intros x. rewrite Hr. rewrite exists_elem_cons. naive_solver.
  - rewrite run_bind, run_call, (gs_get _ _ _ _ _ srv). destruct (lookup (inl i)) as [g|] eqn:Hg; cbn [r_err r_val reply_ok not_found reply_err].
    + pose proof (addRoot_ok roots g Hok (lookup_known _ _ Hg)) as [Hok' Ha].
      destruct (IH _ Hok') as (r & -> & Hr). exists r. split; [done|].
      destruct r as [e|roots']; rewrite Forall_cons; [naive_solver|]. destruct Hr as (? & ? & Hr).
      split; [done|]. split; [split; [congruence|done]|]. intros x. rewrite Hr, Ha. rewrite exists_elem_cons. naive_solver.
    + eexists. split; [apply run_ret|]. cbv beta iota. rewrite Forall_cons. naive_solver.
Qed.

Lemma rootsByPath_run paths roots :
  roots_ok roots ->
  exists r, run h (rootsByPath paths roots) w = (r, w) /\
    match r with
    | inr roots' => roots_ok roots' /\
        Forall (fun p => Trim "/" p = "" \/ lookup (inr (Trim "/" p)) <> None) paths /\
        forall x, x ∈ roots' <->
          x ∈ roots \/ exists p, p ∈ paths /\ Trim "/" p <> "" /\ lookup (inr (Trim "/" p)) = Some x
    | inl _ => ~ Forall (fun p => Trim "/" p = "" \/ lookup (inr (Trim "/" p)) <> None) paths
    end.
Proof using srv.
  revert roots. induction paths as [|p paths IH]; intros roots Hok; cbn [rootsByPath].
  { eexists. split; [apply run_ret|]. split; [done|]. split; [constructor|].
    intros x. split; [by left|]. by intros [?|(i & Hi%elem_of_nil & _)]. }
  cbv zeta.
  destruct (String.eqb_spec (Trim "/" p) "") as [He|Hne].
  - destruct (IH roots Hok) as (r & -> & Hr). exists r. split; [done|].
    destruct r as [e|roots']; rewrite Forall_cons; [naive_solver|]. destruct Hr as (? & ? & Hr).
    split; [done|]. split; [split; [by left|done]|]. intros x. rewrite Hr. rewrite exists_elem_cons. naive_solver.
  - rewrite run_bind, run_call, (gs_get _ _ _ _ _ srv).
    destruct (lookup (inr (Trim "/" p))) as [g|] eqn:Hg; cbn [r_err r_val reply_ok not_found reply_err].
    + pose proof (addRoot_ok roots g Hok (lookup_known _ _ Hg)) as [Hok' Ha].
      destruct (IH _ Hok') as (r & -> & Hr). exists r. split; [done|].
      destruct r as [e|roots']; rewrite Forall_cons; [naive_solver|]. destruct Hr as (? & ? & Hr).
      split; [done|]. split; [split; [right; congruence|done]|]. intros x. rewrite Hr, Ha. rewrite exists_elem_cons. naive_solver.
    + eexists. split; [apply run_ret|]. cbv beta iota. rewrite Forall_cons. naive_solver.
Qed.

Lemma foldl_addRoot_ok l roots :
  roots_ok roots -> Forall (fun g => lookup (inl (g_ID g)) = Some g) l ->
  roots_ok (foldl addRoot roots (Some <$> l)) /\
  (forall x, x ∈ foldl addRoot roots (Some <$> l) <-> x ∈ roots \/ x ∈ l).
Proof.
  intros Hok Hl. revert roots Hok. induction Hl as [|g l Hg Hl IH]; intros roots Hok.
  - split; [done|]. intros x. simpl. rewrite elem_of_nil. naive_solver.
  - pose proof (addRoot_ok roots g Hok Hg) as [Hok' Ha]. destruct (IH _ Hok') as [? Hr].
    split; [done|]. intros x. simpl. rewrite Hr, Ha, elem_of_cons. naive_solver.
Qed.

Lemma resolveRoots_run :
  (length top < per_page * pages)%nat ->
  exists r, run h (resolveRoots pages selector) w = (r, w) /\
    match r with
    | inr roots => resolves lookup selector /\ roots_ok roots /\ forall g, g ∈ roots <-> rooted g
    | inl _ => ~ resolves lookup selector
    end.
Proof using srv.
  intros Htop. assert (roots_ok []) as Hnil by (split; constructor).
  unfold resolveRoots, resolves, is_root. destruct (explicit selector) as [s|].
  - rewrite run_bind. destruct (rootsByID_run (gs_GroupIDsInclude s) [] Hnil) as (r1 & -> & H1).
    destruct r1 as [e|roots1]; [eexists; split; [apply run_ret|]; naive_solver|].
    destruct H1 as (Hok1 & Hf1 & H1). destruct (rootsByPath_run (gs_GroupPathsInclude s) _ Hok1) as (r2 & -> & H2).
    exists r2. split; [done|]. destruct r2 as [e|roots2]; [naive_solver|].
    destruct H2 as (? & ? & H2). split; [done|]. split; [done|]. intros g. rewrite H2, H1, elem_of_nil. naive_solver.
  - rewrite (listPages_run h _ _ (foldl addRoot) (Some <$> top) w pages 1 []); [| | |done|lia|by left|].
    + eexists. split; [done|]. change (Z.to_nat (1 - 1)) with 0%nat. rewrite Nat.mul_0_r, drop_0.
      destruct (foldl_addRoot_ok top [] Hnil) as [? Hr].
      { apply Forall_forall. intros g Hg. apply (gs_known _ _ _ _ _ srv). by left. }
      split; [done|]. split; [done|]. intros g. rewrite Hr, elem_of_nil. naive_solver.
    + intros page Hp. apply (gs_top _ _ _ _ _ srv _ Hp).
    + intros acc a b. apply foldl_app.
    + rewrite length_fmap. change (Z.to_nat (1 - 1)) with 0%nat. lia.
Qed.

(** ** Lemmas: the breadth-first search *)

Abbreviation item_id := (g_ID ∘ qi_group).

(** [proc] is processed, [queue] waits.  Depths do not decrease along the two
    and exceed that of the head of the queue by at most one. *)
Record Inv (proc queue : list queueItem) (visited : gset Z) : Prop := {
  inv_sorted : StronglySorted (fun a b => qi_depth a <= qi_depth b) (proc ++ queue);
  inv_near : forall curr rest x, queue = curr :: rest -> x ∈ proc ++ queue -> qi_depth x <= qi_depth curr + 1;
  inv_nodup : NoDup (item_id <$> proc ++ queue);
  inv_visited : forall i, i ∈ visited <-> i ∈ item_id <$> proc ++ queue;
  inv_reach : forall x, x ∈ proc ++ queue ->
    exists r n, reached r n (qi_group x) /\ qi_depth x = Z.of_nat n /\ qi_rootParentID x = g_ID r;
  inv_roots : forall g, rooted g -> exists x, x ∈ proc ++ queue /\ qi_group x = g /\ qi_depth x = 0;
  inv_closed : forall p c, p ∈ proc -> expands maxDepth eval (qi_depth p) = true ->
    c ∈ children (item_id p) -> exists x, x ∈ proc ++ queue /\ qi_group x = c /\ qi_depth x <= qi_depth p + 1
}.

Lemma reached_known r n g : reached r n g -> 0 < g_ID g /\ lookup (inl (g_ID g)) = Some g.
Proof using srv.
  intros Hr. destruct Hr as [g Hg|r n p c _ _ Hc]; [by apply root_known|].
  apply (gs_known _ _ _ _ _ srv). right. left. by exists (g_ID p).
Qed.

Lemma reached_root r n g : reached r n g -> 0 < g_ID r.
Proof using srv. induction 1 as [g Hg|]; [by apply root_known|done]. Qed.

Lemma expands_mono d d' : d <= d' -> expands maxDepth eval d' = true -> expands maxDepth eval d = true.
Proof.
  unfold expands. rewrite !andb_true_iff, !orb_true_iff, !Z.leb_le, !Z.ltb_lt. intros Hd [? [|]]; split; auto.
  right. lia.
Qed.

Lemma childItem_root curr c r : 0 < g_ID r -> qi_rootParentID curr = g_ID r ->
  qi_rootParentID (childItem curr c) = g_ID r.
Proof. intros Hr He. simpl. rewrite He. destruct (Z.eqb_spec (g_ID r) 0); [lia|done]. Qed.

(** An item with the identifier of a group within reach is that group's. *)
Lemma Inv_item proc queue visited r n g :
  Inv proc queue visited -> reached r n g -> g_ID g ∈ item_id <$> proc ++ queue ->
  exists x, x ∈ proc ++ queue /\ qi_group x = g.
Proof using srv.
  intros HI Hg (x & Hx & Hin)%list_elem_of_fmap. exists x. split; [done|].
  destruct (inv_reach _ _ _ HI x Hin) as (r' & n' & Hr & _). symmetry.
  apply group_unique; [by eapply reached_known..|done].
Qed.

(** Processing the head of the queue. *)
Lemma Inv_step proc curr rest visited new :
  Inv proc (curr :: rest) visited ->
  (expands maxDepth eval (qi_depth curr) = false -> new = []) ->
  NoDup (item_id <$> new) ->
  (forall x, x ∈ new -> exists g, g ∈ children (item_id curr) /\ x = childItem curr g /\ g_ID g ∉ visited) ->
  (expands maxDepth eval (qi_depth curr) = true ->
   forall g, g ∈ children (item_id curr) -> g_ID g ∈ visited \/ g_ID g ∈ item_id <$> new) ->
  Inv (proc ++ [curr]) (rest ++ new) (list_to_set (item_id <$> new) ∪ visited).
Proof using srv.
  intros HI Hno Hnd Hnew Hall.
  assert ((proc ++ [curr]) ++ rest ++ new = (proc ++ curr :: rest) ++ new) as Heq by (by rewrite <- !app_assoc).
  assert (forall x, x ∈ new -> qi_depth x = qi_depth curr + 1) as Hd by (intros x (g & _ & -> & _)%Hnew; done).
  pose proof (inv_near _ _ _ HI curr rest) as Hnear.
  assert (forall x, x ∈ rest -> qi_depth curr <= qi_depth x) as Hrest.
  { intros x Hx. pose proof (inv_sorted _ _ _ HI) as Hs. apply StronglySorted_app in Hs as (_ & _ & Hs).
    apply StronglySorted_inv in Hs as [_ Hs]. rewrite Forall_forall in Hs. by apply Hs. }
  assert (curr ∈ proc ++ curr :: rest) as Hcurr by (apply elem_of_app; right; left).
  constructor; rewrite ?Heq.
  - apply StronglySorted_app. split; [|split; [apply HI|]].
    + intros x y Hx Hy. rewrite (Hd y Hy). by apply Hnear.
    + clear -Hd. induction new as [|x new IH]; constructor; [apply IH; intros; apply Hd; by right|].
      apply Forall_forall. intros y Hy. rewrite (Hd x), (Hd y); [lia|by right|by left].
  - intros c r x Hq Hx. assert (qi_depth curr <= qi_depth c) as Hc.
    { assert (c ∈ rest ++ new) as [Hc|Hc]%elem_of_app by (rewrite Hq; left); [auto|]. rewrite (Hd c Hc). lia. }
    apply elem_of_app in Hx as [Hx|Hx]; [specialize (Hnear x eq_refl Hx); lia|rewrite (Hd x Hx); lia].
  - rewrite fmap_app. apply NoDup_app. split; [apply HI|]. split; [|done].
    intros i Hi (x & -> & (g & _ & -> & Hg)%Hnew)%list_elem_of_fmap. apply Hg, (inv_visited _ _ _ HI), Hi.
  - intros i. rewrite elem_of_union, elem_of_list_to_set, (inv_visited _ _ _ HI), (fmap_app _ (proc ++ _)), elem_of_app.
    tauto.
  - intros x [Hx|Hx]%elem_of_app; [by apply HI|]. destruct (expands maxDepth eval (qi_depth curr)) eqn:Hex.
    + apply Hnew in Hx as (g & Hg & -> & _). destruct (inv_reach _ _ _ HI curr Hcurr) as (r & n & Hr & Hn & Hp).
      exists r, (S n). split.
      { apply (reach_child _ _ _ _ _ r n (qi_group curr)); [done|by rewrite <- Hn|done]. }
      split; [simpl; lia|]. apply childItem_root; [by eapply reached_root|done].
    + rewrite (Hno eq_refl) in Hx. by apply elem_of_nil in Hx.
  - intros g (x & ? & ? & ?)%(inv_roots _ _ _ HI). exists x. rewrite elem_of_app. auto.
  - intros p c [Hp| ->%list_elem_of_singleton]%elem_of_app He Hc.
    + destruct (inv_closed _ _ _ HI p c Hp He Hc) as (x & ? & ? & ?). exists x. rewrite elem_of_app. auto.
    + destruct (inv_reach _ _ _ HI curr Hcurr) as (r & n & Hr & Hn & _).
      assert (reached r (S n) c) as Hrc
        by (apply (reach_child _ _ _ _ _ r n (qi_group curr)); [done|by rewrite <- Hn|done]).
      destruct (Hall He c Hc) as [Hv%(inv_visited _ _ _ HI)|(x & Hi & Hx)%list_elem_of_fmap].
      * destruct (Inv_item _ _ _ _ _ _ HI Hrc Hv) as (x & Hx & Hg). exists x. rewrite elem_of_app. auto.
      * exists x. rewrite elem_of_app, (Hd x Hx). split; [by right|]. split; [|lia].
        destruct (Hnew x Hx) as (g & Hg & -> & _). apply group_unique; [|by eapply reached_known|done].
        apply (gs_known _ _ _ _ _ srv). right. left. by exists (item_id curr).
Qed.

(** Once the queue is empty, every group within reach has been processed, at
    its distance. *)
Lemma Inv_done proc visited r n g :
  Inv proc [] visited -> reached r n g -> exists x, x ∈ proc /\ qi_group x = g /\ qi_depth x <= Z.of_nat n.
Proof using srv.
  intros HI Hr. induction Hr as [g Hg|r n p c Hr (y & Hy & <- & Hd) He Hc].
  - destruct (inv_roots _ _ _ HI g Hg) as (x & Hx & ? & ?). rewrite app_nil_r in Hx. exists x. split_and!; [done..|lia].
  - destruct (inv_closed _ _ _ HI y c Hy) as (x & Hx & ? & ?); [by eapply expands_mono|done|].
    rewrite app_nil_r in Hx. exists x. split_and!; [done..|lia].
Qed.

Context (U : gset Z) (HU : forall g, lookup (inl (g_ID g)) = Some g -> g_ID g ∈ U)
  (Hpages : forall i, (length (children i) < per_page * pages)%nat).

Lemma Inv_length proc queue visited :
  Inv proc queue visited -> (length proc + length queue <= size U)%nat.
Proof using srv HU.
  intros HI. rewrite <- length_app, <- (length_fmap item_id), <- (size_list_to_set (C := gset Z)) by apply HI.
  apply subseteq_size. intros i Hi%elem_of_list_to_set. apply list_elem_of_fmap in Hi as (x & -> & Hx).
  apply (inv_reach _ _ _ HI) in Hx as (r & n & Hr & _). apply HU. by eapply reached_known.
Qed.

Lemma listAllSubgroups_run i :
  run h (listAllSubgroups pages i) w = (inr (Some <$> children i), w).
Proof using srv Hpages.
  unfold listAllSubgroups. rewrite (listPages_run h _ _ app (Some <$> children i) w pages 1 []);
    [|by intros; apply (gs_sub _ _ _ _ _ srv)|by intros; rewrite app_assoc|by intros; rewrite app_nil_r|lia|by left|].
  - change (Z.to_nat (1 - 1)) with 0%nat. by rewrite Nat.mul_0_r, drop_0.
  - rewrite length_fmap. change (Z.to_nat (1 - 1)) with 0%nat. specialize (Hpages i). lia.
Qed.

Lemma bfs_run fuel proc queue visited :
  Inv proc queue visited -> (size U <= fuel + length proc)%nat ->
  exists proc' visited', Inv proc' [] visited' /\
    run h (bfs fuel pages maxDepth eval queue visited (mjoin (emitGroup eval <$> proc))) w =
    (inr (mjoin (emitGroup eval <$> proc')), w).
Proof using srv HU Hpages.
  revert proc queue visited. induction fuel as [|fuel IH]; intros proc queue visited HI Hf.
  - pose proof (Inv_length _ _ _ HI). destruct queue; [|simpl in *; lia]. by exists proc, visited.
  - destruct queue as [|curr rest]; [by exists proc, visited|]. cbn [bfs].
    rewrite run_bind, run_call, (gs_alive _ _ _ _ _ srv). cbv zeta.
    assert (mjoin (emitGroup eval <$> proc) ++ emitGroup eval curr = mjoin (emitGroup eval <$> (proc ++ [curr]))) as ->.
    { rewrite fmap_app, join_app. simpl. by rewrite app_nil_r. }
    assert (size U <= fuel + length (proc ++ [curr]))%nat as Hf' by (rewrite length_app; simpl; lia).
    destruct (expands maxDepth eval (qi_depth curr)) eqn:Hex.
    + rewrite run_bind, listAllSubgroups_run.
      destruct (enqueue_fold (childItem curr) (fun _ => eq_refl) (children (g_ID (qi_group curr))) visited rest)
        as (new & -> & Hnd & Hs & Hc).
      apply IH; [|done]. apply Inv_step; [done|by rewrite Hex|done|done|by intros _].
    + rewrite <- (app_nil_r rest). rewrite <- (left_id_L ∅ (∪) visited).
      apply (IH (proc ++ [curr])); [|done].
      apply (Inv_step proc curr rest visited []); [done|done|constructor| |by rewrite Hex].
      by intros x Hx%elem_of_nil.
Qed.

(** ** Lemmas: the traversal as a whole *)

(** The seeds. *)
Lemma Inv_init roots new :
  roots_ok roots -> (forall g, g ∈ roots <-> rooted g) -> NoDup (item_id <$> new) ->
  (forall x, x ∈ new -> exists g, g ∈ roots /\ x = rootItem g) ->
  (forall g, g ∈ roots -> g_ID g ∈ item_id <$> new) ->
  Inv [] new (list_to_set (item_id <$> new) ∪ ∅).
Proof using All.
  intros Hok Hroots Hnd Hs Hc. constructor; rewrite ?app_nil_l.
  - clear -Hs. induction new as [|x new IH]; constructor; [apply IH; intros; apply Hs; by right|].
    apply Forall_forall. intros y Hy. destruct (Hs x) as (? & _ & ->); [by left|].
    destruct (Hs y) as (? & _ & ->); [by right|]. done.
  - intros curr rest x -> Hx. destruct (Hs x) as (? & _ & ->); [done|].
    destruct (Hs curr) as (? & _ & ->); [by left|]. simpl. lia.
  - done.
  - intros i. rewrite elem_of_union, elem_of_list_to_set. set_solver.
  - intros x (g & Hg & ->)%Hs. exists g, 0%nat. split; [|done]. by apply reach_root, Hroots.
  - intros g Hg%Hroots. pose proof (Hc g Hg) as (x & Hi & Hx)%list_elem_of_fmap.
    destruct (Hs x Hx) as (g' & Hg' & ->). exists (rootItem g'). split; [done|]. split; [|done].
    assert (forall x, x ∈ roots -> lookup (inl (g_ID x)) = Some x) as Hk by (intros y Hy; by apply root_known, Hroots).
    symmetry. apply group_unique; [by apply Hk|by apply Hk|done].
  - by intros p c Hp%elem_of_nil.
Qed.

Lemma emit_elem proc d :
  d ∈ mjoin (emitGroup eval <$> proc) <->
  exists x, x ∈ proc /\ IsExcluded eval (qi_group x) = false /\
    d = NormalizeGroup (qi_group x) (qi_depth x) (qi_rootParentID x).
Proof.
  rewrite list_elem_of_join. setoid_rewrite list_elem_of_fmap. unfold emitGroup. split.
  - intros (l & Hd & x & -> & Hx). exists x. destruct (IsExcluded eval (qi_group x)); [by apply elem_of_nil in Hd|].
    apply list_elem_of_singleton in Hd as ->. done.
  - intros (x & Hx & He & ->). exists [NormalizeGroup (qi_group x) (qi_depth x) (qi_rootParentID x)].
    split; [by left|]. exists x. by rewrite He.
Qed.

Lemma emit_nodup proc : NoDup (item_id <$> proc) -> NoDup (dg_ID <$> mjoin (emitGroup eval <$> proc)).
Proof.
  induction proc as [|x proc IH]; [constructor|]. rewrite fmap_cons. intros [Hx Hn]%NoDup_cons. cbn [fmap list_fmap mjoin list_join foldr].
  rewrite fmap_app. apply NoDup_app. split; [unfold emitGroup; case_match; [constructor|apply NoDup_singleton]|].
  split; [|by apply IH]. intros i Hi (d & -> & (y & Hy & _ & ->)%emit_elem)%list_elem_of_fmap.
  unfold emitGroup in Hi. case_match; [by apply elem_of_nil in Hi|]. apply list_elem_of_singleton in Hi. simpl in Hi.
  apply Hx. change (qi_group y) with (qi_group y) in Hi. apply list_elem_of_fmap. exists y. split; [|done]. unfold compose. by rewrite <- Hi.
Qed.

(** The items processed are a traversal. *)
Lemma Inv_traversal proc visited :
  Inv proc [] visited ->
  traversal children top lookup selector maxDepth (mjoin (emitGroup eval <$> proc)).
Proof using srv.
  intros HI. assert (forall x, x ∈ proc -> x ∈ proc ++ []) as Hin by (by rewrite app_nil_r). constructor.
  - apply emit_nodup. pose proof (inv_nodup _ _ _ HI) as Hn. by rewrite app_nil_r in Hn.
  - intros d (x & Hx & He & ->)%emit_elem. simpl. split; [done|].
    destruct (inv_reach _ _ _ HI x (Hin _ Hx)) as (r & n & Hr & Hn & Hp). exists r, n.
    split; [done|]. split; [by rewrite Hn, Hp|]. intros r' m Hm.
    destruct (Inv_done _ _ _ _ _ HI Hm) as (y & Hy & Hg & Hd). enough (x = y) as <- by lia.
    pose proof (inv_nodup _ _ _ HI) as Hnd. rewrite app_nil_r in Hnd.
    apply list_elem_of_lookup in Hx as [i Hi]. apply list_elem_of_lookup in Hy as [j Hj].
    assert (i = j) as ->; [|congruence]. apply (NoDup_lookup _ _ _ (item_id x) Hnd); rewrite list_lookup_fmap.
    + by rewrite Hi.
    + rewrite Hj. simpl. by rewrite Hg.
  - intros r n g Hr He. destruct (Inv_done _ _ _ _ _ HI Hr) as (x & Hx & <- & _).
    apply list_elem_of_fmap. exists (NormalizeGroup (qi_group x) (qi_depth x) (qi_rootParentID x)).
    split; [done|]. apply emit_elem. eauto.
Qed.

Lemma Traverse_run fuel :
  (size U <= fuel)%nat -> (length top < per_page * pages)%nat ->
  exists r, run h (Traverse fuel pages maxDepth selector) w = (r, w) /\
    match r with
    | inr l => resolves lookup selector /\ traversal children top lookup selector maxDepth l
    | inl _ => ~ resolves lookup selector
    end.
Proof using srv HU Hpages.
  intros Hf Htop. unfold Traverse. cbv zeta. rewrite run_bind.
  destruct (resolveRoots_run Htop) as (r & -> & Hr). destruct r as [e|roots].
  { eexists. split; [apply run_ret|]. done. }
  destruct Hr as (Hres & Hok & Hroots).
  destruct (enqueue_fold rootItem (fun _ => eq_refl) roots ∅ []) as (new & -> & Hnd & Hs & Hc).
  rewrite app_nil_l. destruct (bfs_run fuel [] new (list_to_set (item_id <$> new) ∪ ∅)) as (proc & visited & HI & Hrun).
  - apply (Inv_init roots); [done..| |].
    + intros x (g & ? & ? & _)%Hs. eauto.
    + intros g [Hx|Hx]%Hc; [set_solver|done].
  - simpl. lia.
  - eexists. split; [exact Hrun|]. split; [done|]. by eapply Inv_traversal.
Qed.

End Run.

(** ** Properties *)

(** C37. Discovery of groups is exact and always ends, cyclic hierarchies and
    repeated includes too: on a server with finitely many groups, [Traverse]
    fails exactly when an included group does not exist, and otherwise returns,
    once each, exactly the groups that subgroup links lead to from the roots
    within the depth limit and that are not excluded, at their distance from
    the roots.  One unit of fuel per group is enough. *)
Theorem Traverse_exact {W} (h : handler GitLabE W) w children top lookup
    (srv : group_server h w children top lookup) selector maxDepth pages fuel (U : gset Z) :
  (forall g, lookup (inl (g_ID g)) = Some g -> g_ID g ∈ U) ->
  (forall i, (length (children i) < per_page * pages)%nat) -> (length top < per_page * pages)%nat ->
  (size U <= fuel)%nat ->
  exists r, run h (Traverse fuel pages maxDepth selector) w = (r, w) /\
    match r with
    | inr l => resolves lookup selector /\ traversal children top lookup selector maxDepth l
    | inl _ => ~ resolves lookup selector
    end.
Proof. intros HU Hp Ht Hf. by apply (Traverse_run h w children top lookup srv selector maxDepth pages U HU Hp). Qed.

Definition demo_subgroup (id parent : Z) (name path : string) : Group := {|
  g_ID := id; g_Name := name; g_Path := name; g_FullPath := path; g_ParentID := parent;
  g_Visibility := "private"; g_Description := ""; g_WebURL := "https://gitlab.com/groups/" +:+ path
|}.

(** A hierarchy with a cycle: the server lists [platform] below [api]. *)
Definition demo_groups : list Group :=
  [demo_group; demo_subgroup 8 7 "api" "platform/api"; demo_subgroup 9 7 "sandbox" "platform/sandbox";
   demo_subgroup 10 9 "old" "platform/sandbox/old"].

Definition demo_group_children (i : Z) : list Group :=
  if i =? 8 then [demo_group] else List.filter (fun g => g_ParentID g =? i) demo_groups.

Definition demo_group_lookup (gid : Z + string) : option Group :=
  List.find (fun g => match gid with inl id => g_ID g =? id | inr path => (g_FullPath g =? path)%string end)
    demo_groups.

Definition demo_hierarchy : handler GitLabE server := fun X e w =>
  match e in GitLabE X return X * server with
  | Groups e' =>
      match e' in GroupsE X return X * server with
      | GetGroup gid =>
          (match demo_group_lookup gid with Some g => reply_ok (Some g) | None => not_found None end, w)
      | ListSubgroups i page => (page_of (Some <$> demo_group_children i) page, w)
      | ListGroups page => (page_of (Some <$> demo_group_children 0) page, w)
      | ListGroupProjects gid req => (empty_listing, w)
      end
  | e' => demo_server _ e' w
  end.

Definition demo_group_selector : option GroupSelector := Some {|
  gs_GroupIDsInclude := [7]; gs_GroupIDsExclude := []; gs_GroupPathsInclude := ["/platform/"];
  gs_GroupPathsExclude := ["Platform/Sandbox"]; gs_Recursive := None
|}.

Lemma demo_group_server :
  group_server demo_hierarchy empty_server demo_group_children (demo_group_children 0) demo_group_lookup.
Proof.
  assert (forall i g, g ∈ demo_group_children i -> g ∈ demo_groups) as Hch.
  { intros i g. unfold demo_group_children. case_match; [set_solver|]. by intros [_ ?]%elem_of_List_filter. }
  constructor; try reflexivity.
  - intros i g [_ Hb]%List.find_some. by apply Z.eqb_eq in Hb.
  - intros g Hg. assert (g ∈ demo_groups) as Hin.
    { destruct Hg as [Hg|[[i Hg]|[gid [Hg _]%List.find_some]]]; [by eapply Hch..|by apply list_elem_of_In]. }
    unfold demo_groups in Hin. repeat (apply elem_of_cons in Hin as [->|Hin]; [by split; [vm_compute|reflexivity]|]).
    by apply elem_of_nil in Hin.
Qed.

(** The traversal of the cyclic hierarchy ends; it leaves out the sandbox, and
    finds what is below it. *)
Lemma Traverse_exact_witness :
  exists r, run demo_hierarchy (Traverse 4 1 default_maxDepth demo_group_selector) empty_server = (r, empty_server) /\
    match r with
    | inr l => resolves demo_group_lookup demo_group_selector /\
        traversal demo_group_children (demo_group_children 0) demo_group_lookup demo_group_selector default_maxDepth l
        /\ dg_FullPath <$> l = ["platform"; "platform/api"; "platform/sandbox/old"]
    | inl _ => ~ resolves demo_group_lookup demo_group_selector
    end.
Proof.
  destruct (Traverse_exact demo_hierarchy empty_server _ _ _ demo_group_server demo_group_selector default_maxDepth 1 4
              (list_to_set [7; 8; 9; 10])) as (r & Hr & H).
  - intros g Hg. apply List.find_some in Hg as [Hg%list_elem_of_In _]. unfold demo_groups in Hg.
    repeat (apply elem_of_cons in Hg as [->|Hg]; [set_solver|]). by apply elem_of_nil in Hg.
  - intros i. unfold demo_group_children. case_match; [vm_compute; lia|].
    eapply Nat.le_lt_trans; [apply List.filter_length_le|]. vm_compute. lia.
  - vm_compute. lia.
  - vm_compute. lia.
  - exists r. split; [exact Hr|]. destruct r as [e|l]; [exact H|]. destruct H as [H1 H2].
    split; [exact H1|]. split; [exact H2|]. vm_compute in Hr. injection Hr as <-. reflexivity.
Defined.
