(* ===== verification/WorkerPool.v ===== *)
(** * The worker pool: internal/engine/workerpool.go

    [ParallelMap] on a [WorkerPool]: the caller submits one task per item,
    closes the queue and waits; the workers take tasks from the queue until it
    is closed and empty, or until the context is cancelled.  The goroutines
    interleave freely, so the pool is a state machine whose labels are the
    atomic moves of the caller, of the workers and of the outside world (which
    may cancel the context at any moment).  An execution is a list of labels;
    [step] is executable, and the theorems are about every execution. *)

From S2P Require Import Prelude.
Local Open Scope string_scope.
Local Open Scope list_scope.

(** What calling [fn] on an item comes to. *)
Inductive outcome (R : Type) : Type :=
| Returned (r : R)
| Failed (err : error)
| Panicked (err : error).
Arguments Returned {R} r.
Arguments Failed {R} err.
Arguments Panicked {R} err.

(** A worker waits for a task, has taken one from the queue, has seen that the
    context is alive and runs [fn], or has returned. *)
Variant worker : Type :=
| Idle
| Taken (i : nat)
| Executing (i : nat)
| Exited.

#[export] Instance worker_eq_dec : EqDecision worker.
Proof. solve_decision. Defined.

Variant label : Type :=
| Submit           (* the caller's [select] sends to [p.tasks] *)
| SubmitCanceled   (* ... or sees [p.ctx.Done()] *)
| CloseQueue       (* [close(p.tasks)] *)
| Cancel           (* the context is cancelled *)
| Take (w : nat)   (* the worker's [select] receives a task *)
| ExitDone (w : nat)    (* ... sees [p.ctx.Done()] *)
| ExitClosed (w : nat)  (* ... or that the queue is closed and empty *)
| Enter (w : nat)  (* [executeTask] looks at the context *)
| Finish (w : nat) (* [fn] has returned *).

#[export] Instance label_eq_dec : EqDecision label.
Proof. solve_decision. Defined.

(** The shared state.  [pp_results] and [pp_errs] are the slices of
    [ParallelMap], with [None] for the zero value; [pp_errors] is [p.errors]. *)
Record pool (R : Type) : Type := {
  pp_next : nat;
  pp_queue : list nat;
  pp_closed : bool;
  pp_canceled : bool;
  pp_workers : list worker;
  pp_results : list (option R);
  pp_errs : list (option error);
  pp_errors : list error
}.
Arguments Build_pool {R}.
Arguments pp_next {R}. Arguments pp_queue {R}. Arguments pp_closed {R}. Arguments pp_canceled {R}.
Arguments pp_workers {R}. Arguments pp_results {R}. Arguments pp_errs {R}. Arguments pp_errors {R}.

(** [NewWorkerPool]: the worker count, and the queue that [ParallelMap] asks
    for. *)
Definition worker_count (concurrency : Z) : nat :=
  if (concurrency <=? 0)%Z then 10 else Z.to_nat concurrency.

Definition NewWorkerPool {R} (concurrency : Z) (n : nat) : pool R := {|
  pp_next := 0; pp_queue := []; pp_closed := false; pp_canceled := false;
  pp_workers := replicate (worker_count concurrency) Idle;
  pp_results := replicate n None; pp_errs := replicate n None; pp_errors := []
|}.

Section Step.
Context {R : Type}.

Definition set_worker (p : pool R) (w : nat) (s : worker) : pool R := {|
  pp_next := pp_next p; pp_queue := pp_queue p; pp_closed := pp_closed p; pp_canceled := pp_canceled p;
  pp_workers := <[w := s]> (pp_workers p); pp_results := pp_results p; pp_errs := pp_errs p;
  pp_errors := pp_errors p |}.

Definition set_queue (p : pool R) (next : nat) (q : list nat) : pool R := {|
  pp_next := next; pp_queue := q; pp_closed := pp_closed p; pp_canceled := pp_canceled p;
  pp_workers := pp_workers p; pp_results := pp_results p; pp_errs := pp_errs p; pp_errors := pp_errors p |}.

Definition set_flags (p : pool R) (closed canceled : bool) : pool R := {|
  pp_next := pp_next p; pp_queue := pp_queue p; pp_closed := closed; pp_canceled := canceled;
  pp_workers := pp_workers p; pp_results := pp_results p; pp_errs := pp_errs p; pp_errors := pp_errors p |}.

(** [p.recordError(err)]. *)
Definition recordError (p : pool R) (err : error) : pool R := {|
  pp_next := pp_next p; pp_queue := pp_queue p; pp_closed := pp_closed p; pp_canceled := pp_canceled p;
  pp_workers := pp_workers p; pp_results := pp_results p; pp_errs := pp_errs p;
  pp_errors := pp_errors p ++ [err] |}.

(** [results[i] = res] and [errs[i] = err]. *)
Definition set_result (p : pool R) (i : nat) (r : R) : pool R := {|
  pp_next := pp_next p; pp_queue := pp_queue p; pp_closed := pp_closed p; pp_canceled := pp_canceled p;
  pp_workers := pp_workers p; pp_results := <[i := Some r]> (pp_results p); pp_errs := pp_errs p;
  pp_errors := pp_errors p |}.
Definition set_err (p : pool R) (i : nat) (err : error) : pool R := {|
  pp_next := pp_next p; pp_queue := pp_queue p; pp_closed := pp_closed p; pp_canceled := pp_canceled p;
  pp_workers := pp_workers p; pp_results := pp_results p; pp_errs := <[i := Some err]> (pp_errs p);
  pp_errors := pp_errors p |}.

(** The task that [ParallelMap] submits for item [i], and the rest of
    [executeTask]. *)
Definition finishTask (p : pool R) (i : nat) (o : outcome R) : pool R :=
  match o with
  | Returned r => set_result p i r
  | Failed err => recordError (set_err p i err) err
  | Panicked err => recordError p err
  end.

Context (n : nat) (out : nat -> outcome R) (ctxErr : error).

(** One atomic move; [None] when it is not possible.  [n] items, [out i] is
    what calling [fn] on item [i] comes to in this execution, [ctxErr] is
    [ctx.Err()]. *)
Definition step (l : label) (p : pool R) : option (pool R) :=
  match l with
  | Submit =>
      if (pp_next p <? n)%nat && (length (pp_queue p) <? n)%nat
      then Some (set_queue p (S (pp_next p)) (pp_queue p ++ [pp_next p])) else None
  | SubmitCanceled =>
      if (pp_next p <? n)%nat && pp_canceled p
      then Some (recordError (set_err (set_queue p (S (pp_next p)) (pp_queue p)) (pp_next p) ctxErr) ctxErr)
      else None
  | CloseQueue =>
      if (pp_next p =? n)%nat && negb (pp_closed p) then Some (set_flags p true (pp_canceled p)) else None
  | Cancel => if negb (pp_canceled p) then Some (set_flags p (pp_closed p) true) else None
  | Take w =>
      match pp_workers p !! w, pp_queue p with
      | Some Idle, i :: q => Some (set_worker (set_queue p (pp_next p) q) w (Taken i))
      | _, _ => None
      end
  | ExitDone w =>
      match pp_workers p !! w with
      | Some Idle => if pp_canceled p then Some (set_worker p w Exited) else None
      | _ => None
      end
  | ExitClosed w =>
      match pp_workers p !! w, pp_queue p with
      | Some Idle, [] => if pp_closed p then Some (set_worker p w Exited) else None
      | _, _ => None
      end
  | Enter w =>
      match pp_workers p !! w with
      | Some (Taken i) => if pp_canceled p then Some (recordError (set_worker p w Idle) ctxErr)
                          else Some (set_worker p w (Executing i))
      | _ => None
      end
  | Finish w =>
      match pp_workers p !! w with
      | Some (Executing i) => Some (finishTask (set_worker p w Idle) i (out i))
      | _ => None
      end
  end.

Fixpoint steps (ls : list label) (p : pool R) : option (pool R) :=
  match ls with
  | [] => Some p
  | l :: rest => match step l p with Some p' => steps rest p' | None => None end
  end.

End Step.

(** [pool.Close()] has returned: the queue is closed and [wg.Wait()] is over. *)
Definition closed_down {R} (p : pool R) : bool :=
  pp_closed p && forallb (fun w => match w with Exited => true | _ => false end) (pp_workers p).

(** The end of [ParallelMap]: the errors by item, then those of the pool whose
    text is not yet among them.  [hasError] is set whenever an item's error
    is. *)
Definition add_error (collected : list error) (pErr : error) : list error :=
  if existsb (fun cErr => (error_text cErr =? error_text pErr)%string) collected
  then collected else collected ++ [pErr].

Definition collect {R} (p : pool R) : list (option R) * list error :=
  (pp_results p, foldl add_error (omap id (pp_errs p)) (pp_errors p)).

(** [ParallelMap] on [n] items, as the executions of the pool: a list of
    labels that ends with the pool closed down, and what is returned.  Without
    items nothing is started. *)
Definition ParallelMap {R} (concurrency : Z) (n : nat) (out : nat -> outcome R) (ctxErr : error)
    (ls : list label) : option (list (option R) * list error) :=
  if (n =? 0)%nat then Some ([], [])
  else match steps n out ctxErr ls (NewWorkerPool concurrency n) with
       | Some p => if closed_down p then Some (collect p) else None
       | None => None
       end.

(** ** What an execution must come to *)

Definition result_of {R} (o : outcome R) : option R :=
  match o with Returned r => Some r | _ => None end.

(** The error of an item ([errs[i]]), and what the pool records (panics too). *)
Definition item_error {R} (o : outcome R) : option error :=
  match o with Failed e => Some e | _ => None end.
Definition failure_of {R} (o : outcome R) : option error :=
  match o with Failed e | Panicked e => Some e | Returned _ => None end.

(** ** Lemmas *)

Definition running (s : worker) : option nat :=
  match s with Taken i | Executing i => Some i | _ => None end.

(** The items queued or in the hands of a worker. *)
Definition live {R} (p : pool R) : list nat := pp_queue p ++ omap running (pp_workers p).

Lemma delete_insert_list {A} (l : list A) w x : delete w (<[w := x]> l) = delete w l.
Proof. revert w. induction l as [|y l IH]; intros [|w]; simpl; [done..|]. f_equal. apply IH. Qed.

Lemma running_split (ws : list worker) w s :
  ws !! w = Some s -> omap running ws ≡ₚ option_list (running s) ++ omap running (delete w ws).
Proof.
  intros Hw. rewrite (delete_Permutation ws w s Hw) at 1. simpl. by destruct (running s).
Qed.

Lemma running_insert (ws : list worker) w s s' :
  ws !! w = Some s -> omap running (<[w := s']> ws) ≡ₚ option_list (running s') ++ omap running (delete w ws).
Proof.
  intros Hw. rewrite <- (delete_insert_list ws w s'). apply running_split, list_lookup_insert_eq, (lookup_lt_Some _ _ _ Hw).
Qed.

(** [add_error] keeps what is there, and adds errors of the pool only. *)
Lemma add_error_cases c x :
  (add_error c x = c /\ exists e, e ∈ c /\ error_text e = error_text x) \/ add_error c x = c ++ [x].
Proof.
  unfold add_error. destruct (existsb _ c) eqn:E; [|by right]. left. split; [done|].
  apply List.existsb_exists in E as (e & He%list_elem_of_In & Ht%String.eqb_eq). eauto.
Qed.

Lemma foldl_add_error_prefix l c : c `prefix_of` foldl add_error c l.
Proof.
  revert c. induction l as [|e l IH]; intros c; [done|]. simpl. etrans; [|apply IH].
  destruct (add_error_cases c e) as [[-> _]| ->]; [done|]. by apply prefix_app_r.
Qed.

Lemma foldl_add_error_elem l c e : e ∈ foldl add_error c l -> e ∈ c \/ e ∈ l.
Proof.
  revert c. induction l as [|x l IH]; intros c; simpl; [by left|]. intros [H|H]%IH; [|right; by right].
  destruct (add_error_cases c x) as [[Hc _]|Hc]; rewrite Hc in H; [by left|].
  apply elem_of_app in H as [H|H]; [by left|]. apply list_elem_of_singleton in H as ->. right. left.
Qed.

(** No error is lost but to another one with its text. *)
Lemma foldl_add_error_text l c e :
  e ∈ c \/ e ∈ l -> exists e', e' ∈ foldl add_error c l /\ error_text e' = error_text e.
Proof.
  intros H. revert c H. induction l as [|x l IH]; intros c; simpl.
  - intros [?| ?%elem_of_nil]; [|done]. eauto.
  - destruct (add_error_cases c x) as [[-> (e' & He' & Ht)]| ->]; intros [H|[->|H]%elem_of_cons].
    + auto.
    + destruct (foldl_add_error_prefix l c) as [k ->]. exists e'. rewrite elem_of_app. auto.
    + auto.
    + apply IH. left. apply elem_of_app. by left.
    + apply IH. left. apply elem_of_app. right. left.
    + auto.
Qed.

Lemma exited_insert (ws : list worker) w s : s <> Exited -> Exited ∈ <[w := s]> ws -> Exited ∈ ws.
Proof.
  intros Hs (i & Hi)%list_elem_of_lookup. apply list_elem_of_lookup.
  apply list_lookup_insert_Some in Hi as [(_ & -> & _)|[_ Hi]]; [done|eauto].
Qed.

(** An item leaves a worker's hands. *)
Lemma live_release {R} (p : pool R) w i :
  pp_workers p !! w = Some (Taken i) \/ pp_workers p !! w = Some (Executing i) ->
  live p ≡ₚ i :: live (set_worker p w Idle).
Proof.
  intros Hw. assert (exists s, pp_workers p !! w = Some s /\ running s = Some i) as (s & Hs & Hr) by naive_solver.
  unfold live, set_worker. cbn [pp_queue pp_workers].
  rewrite (running_split _ _ _ Hs), (running_insert _ _ _ Idle Hs), Hr. simpl. by rewrite Permutation_middle.
Qed.

Section PoolInv.
Context {R : Type} (n : nat) (out : nat -> outcome R) (ctxErr : error).
Local Abbreviation pool_step := (step n out ctxErr).
Local Abbreviation pool_steps := (steps n out ctxErr).

(** [D] ran to their end, [X] were turned away by the cancelled context. *)
Record PoolInv (p : pool R) (D X : list nat) : Prop := {
  iv_perm : live p ++ D ++ X ≡ₚ seq 0 (pp_next p);
  iv_next : (pp_next p <= n)%nat;
  iv_closed : pp_closed p = true -> pp_next p = n;
  iv_alive : pp_canceled p = false -> X = [];
  iv_exited : pp_canceled p = false -> Exited ∈ pp_workers p -> pp_queue p = [] /\ pp_closed p = true;
  iv_results : pp_results p = ((fun i => if decide (i ∈ D) then result_of (out i) else None) <$> seq 0 n);
  iv_errs : length (pp_errs p) = n /\ forall i, i < n ->
    i ∉ X -> pp_errs p !! i = Some (if decide (i ∈ D) then item_error (out i) else None);
  iv_errors : pp_errors p ≡ₚ omap (failure_of ∘ out) D ++ replicate (length X) ctxErr
}.

Lemma PoolInv_init concurrency : PoolInv (NewWorkerPool concurrency n) [] [].
Proof.
  constructor; simpl; try done.
  - unfold live. simpl. generalize (worker_count concurrency) as k. by induction k.
  - lia.
  - intros _ H%elem_of_replicate. by destruct H.
  - generalize 0. induction n as [|m IH]; intros k; [done|]. simpl. by rewrite <- IH.
  - split; [apply length_replicate|]. intros i Hi _. by apply lookup_replicate_2.
Qed.

Lemma PoolInv_nodup (p : pool R) D X i : PoolInv p D X -> i ∈ live p -> (i < n)%nat /\ (i ∉ D) /\ i ∉ X.
Proof.
  intros HI Hi. pose proof (iv_perm _ _ _ HI) as Hp.
  assert (NoDup (live p ++ D ++ X)) as Hn by (rewrite Hp; apply NoDup_seq).
  apply NoDup_app in Hn as (_ & Hd & _). specialize (Hd i Hi). rewrite elem_of_app in Hd.
  assert (i ∈ seq 0 (pp_next p)) as [_ Hlt]%elem_of_seq by (rewrite <- Hp; apply elem_of_app; by left).
  pose proof (iv_next _ _ _ HI). split; [lia|]. tauto.
Qed.

(** Reassigning the items in flight: the same items, elsewhere. *)
Lemma PoolInv_move (p p' : pool R) D X :
  PoolInv p D X -> live p' ≡ₚ live p -> pp_next p' = pp_next p -> pp_results p' = pp_results p ->
  pp_errs p' = pp_errs p -> pp_errors p' = pp_errors p ->
  (pp_closed p' = true -> pp_next p = n) -> (pp_canceled p' = false -> pp_canceled p = false) ->
  (pp_canceled p' = false -> Exited ∈ pp_workers p' -> pp_queue p' = [] /\ pp_closed p' = true) ->
  PoolInv p' D X.
Proof.
  intros HI Hl Hn Hr He Hes Hc Hcan Hex. constructor; rewrite ?Hn, ?Hr, ?He, ?Hes; try apply HI; [|done| |done].
  - rewrite Hl. apply HI.
  - intros H. apply (iv_alive _ _ _ HI). auto.
Qed.

Lemma PoolInv_finish (p : pool R) D X w i :
  PoolInv p D X -> pp_workers p !! w = Some (Executing i) ->
  PoolInv (finishTask (set_worker p w Idle) i (out i)) (i :: D) X.
Proof.
  intros HI Hw. pose proof (live_release p w i (or_intror Hw)) as Hl.
  destruct (PoolInv_nodup p D X i HI) as (Hi & HD & HX); [rewrite Hl; left|].
  assert (live (finishTask (set_worker p w Idle) i (out i)) = live (set_worker p w Idle)) as Hf
    by (by destruct (out i)).
  assert (pp_next (finishTask (set_worker p w Idle) i (out i)) = pp_next p /\
          pp_closed (finishTask (set_worker p w Idle) i (out i)) = pp_closed p /\
          pp_canceled (finishTask (set_worker p w Idle) i (out i)) = pp_canceled p /\
          pp_queue (finishTask (set_worker p w Idle) i (out i)) = pp_queue p /\
          pp_workers (finishTask (set_worker p w Idle) i (out i)) = <[w := Idle]> (pp_workers p))
    as (En & Ecl & Eca & Eq & Ew) by (by destruct (out i)).
  constructor; rewrite ?En, ?Ecl, ?Eca, ?Eq, ?Ew; try apply HI.
  - rewrite Hf, <- (iv_perm _ _ _ HI), Hl. simpl. by rewrite <- Permutation_middle.
  - intros Hc Hx. apply (iv_exited _ _ _ HI Hc). eapply exited_insert; [|exact Hx]; done.
  - assert (pp_results (finishTask (set_worker p w Idle) i (out i)) = <[i := result_of (out i)]> (pp_results p)) as ->.
    { destruct (out i) as [r|e|e]; simpl; [done| |]; symmetry; apply list_insert_id;
        rewrite (iv_results _ _ _ HI), list_lookup_fmap, lookup_seq_lt by done; simpl; by rewrite decide_False. }
    rewrite (iv_results _ _ _ HI). apply list_eq. intros j.
    destruct (decide (i = j)) as [<-|Hne].
    + rewrite list_lookup_insert_eq by (by rewrite length_fmap, length_seq).
      rewrite list_lookup_fmap, lookup_seq_lt by done. simpl. by rewrite decide_True by left.
    + rewrite list_lookup_insert_ne, !list_lookup_fmap by done. destruct (seq 0 n !! j) as [k|] eqn:Ej; [|done].
      apply lookup_seq in Ej as [-> _]. simpl. f_equal.
      destruct (decide (j ∈ D)); [by rewrite decide_True by (by right)|]. rewrite decide_False; [done|].
      intros [?|?]%elem_of_cons; [lia|done].
  - destruct (iv_errs _ _ _ HI) as [Hlen He].
    assert (pp_errs (finishTask (set_worker p w Idle) i (out i)) = <[i := item_error (out i)]> (pp_errs p)) as ->.
    { destruct (out i) as [r|e|e]; simpl; [|done|]; symmetry; apply list_insert_id;
        rewrite He by done; by rewrite decide_False. }
    split; [by rewrite length_insert|]. intros j Hj HjX. destruct (decide (i = j)) as [<-|Hne].
    + rewrite list_lookup_insert_eq by lia. by rewrite decide_True by left.
    + rewrite list_lookup_insert_ne by done. rewrite He by done. f_equal.
      destruct (decide (j ∈ D)); [by rewrite decide_True by (by right)|]. rewrite decide_False; [done|].
      intros [?|?]%elem_of_cons; [lia|done].
  - assert (pp_errors (finishTask (set_worker p w Idle) i (out i)) = pp_errors p ++ option_list (failure_of (out i))) as ->
      by (destruct (out i); simpl; by rewrite ?app_nil_r).
    rewrite (iv_errors _ _ _ HI). simpl. unfold compose. destruct (failure_of (out i)) as [e|]; simpl; [|by rewrite app_nil_r].
    by rewrite Permutation_app_comm.
Qed.

(** An item is turned away by the cancelled context: it leaves a worker's
    hands ([executeTask]), or is not queued at all ([Submit]). *)
Lemma PoolInv_turned_away (p : pool R) D X w i :
  PoolInv p D X -> pp_workers p !! w = Some (Taken i) -> pp_canceled p = true ->
  PoolInv (recordError (set_worker p w Idle) ctxErr) D (i :: X).
Proof.
  intros HI Hw Hc. pose proof (live_release p w i (or_introl Hw)) as Hl.
  constructor; simpl; try apply HI; try congruence.
  - change (live _) with (live (set_worker p w Idle)). rewrite <- (iv_perm _ _ _ HI), Hl. simpl.
    by rewrite <- !Permutation_middle.
  - split; [apply HI|]. intros j Hj [_ HX]%not_elem_of_cons. by apply HI.
  - rewrite (iv_errors _ _ _ HI), <- app_assoc. f_equiv. by rewrite <- Permutation_cons_append.
Qed.

Lemma PoolInv_not_queued (p : pool R) D X :
  PoolInv p D X -> (pp_next p < n)%nat -> pp_canceled p = true ->
  PoolInv (recordError (set_err (set_queue p (S (pp_next p)) (pp_queue p)) (pp_next p) ctxErr) ctxErr) D (pp_next p :: X).
Proof.
  intros HI Hn Hc. constructor; simpl; try apply HI; try congruence.
  - change (live _) with (live p). change (0%nat :: _) with (seq 0 (S (pp_next p))). replace (seq 0 (S (pp_next p))) with (seq 0 (pp_next p) ++ [pp_next p])
      by (by rewrite <- seq_S). rewrite <- (iv_perm _ _ _ HI).
    by rewrite <- !Permutation_middle, app_nil_r.
  - lia.
  - intros Hcl. apply (iv_closed _ _ _ HI) in Hcl. lia.
  - destruct (iv_errs _ _ _ HI) as [Hlen He]. split; [by rewrite length_insert|].
    intros j Hj [Hne HX]%not_elem_of_cons. rewrite list_lookup_insert_ne by done. by apply He.
  - rewrite (iv_errors _ _ _ HI), <- app_assoc. f_equiv. by rewrite <- Permutation_cons_append.
Qed.

Lemma PoolInv_submit (p : pool R) D X :
  PoolInv p D X -> (pp_next p < n)%nat -> PoolInv (set_queue p (S (pp_next p)) (pp_queue p ++ [pp_next p])) D X.
Proof.
  intros HI Hn. assert (pp_closed p = true -> False) as Hcl by (intros H%(iv_closed _ _ _ HI); lia).
  constructor; simpl; try apply HI; try naive_solver lia.
  - change (0%nat :: _) with (seq 0 (S (pp_next p))). replace (seq 0 (S (pp_next p))) with (seq 0 (pp_next p) ++ [pp_next p]) by (by rewrite <- seq_S).
    rewrite <- (iv_perm _ _ _ HI). unfold live. simpl. rewrite <- !app_assoc. simpl. by rewrite <- !Permutation_middle, app_nil_r.
  - intros Hca Hex. destruct (iv_exited _ _ _ HI Hca Hex) as [_ Hx]. by destruct (Hcl Hx).
Qed.

(** A worker changes hands without an item changing its place. *)
Lemma PoolInv_worker (p : pool R) D X w s s' :
  PoolInv p D X -> pp_workers p !! w = Some s -> running s' = running s ->
  (s' = Exited -> pp_canceled p = true \/ (pp_queue p = [] /\ pp_closed p = true)) ->
  PoolInv (set_worker p w s') D X.
Proof.
  intros HI Hw Hr Hex. apply (PoolInv_move p); try done; try apply HI.
  - unfold live. simpl. by rewrite (running_insert _ _ _ _ Hw), (running_split _ _ _ Hw), Hr.
  - simpl. intros Hc Hx. destruct (decide (s' = Exited)) as [->|Hne]; [destruct (Hex eq_refl) as [?|?]; [congruence|done]|].
    apply (iv_exited _ _ _ HI Hc). eapply exited_insert; [exact Hne|exact Hx].
Qed.

Lemma PoolInv_take (p : pool R) D X w i q :
  PoolInv p D X -> pp_workers p !! w = Some Idle -> pp_queue p = i :: q ->
  PoolInv (set_worker (set_queue p (pp_next p) q) w (Taken i)) D X.
Proof.
  intros HI Hw Hq. apply (PoolInv_move p); try done; try apply HI; simpl.
  - unfold live. simpl. rewrite (running_insert _ _ _ _ Hw), (running_split _ _ _ Hw), Hq. simpl.
    by rewrite <- Permutation_middle.
  - intros Hc Hx. apply exited_insert in Hx; [|done]. destruct (iv_exited _ _ _ HI Hc Hx). congruence.
Qed.

Lemma step_PoolInv l (p p' : pool R) D X :
  PoolInv p D X -> pool_step l p = Some p' -> exists D' X', PoolInv p' D' X'.
Proof.
  intros HI. destruct l; simpl; intros Hs; repeat case_match; simplify_eq; b2p.
  - exists D, X. apply PoolInv_submit; [done|]. by apply Nat.ltb_lt.
  - exists D, (pp_next p :: X). apply PoolInv_not_queued; [done|by apply Nat.ltb_lt|done].
  - exists D, X. apply (PoolInv_move p); try done; try apply HI; simpl.
    + intros _. by apply Nat.eqb_eq.
    + intros Hc Hx. split; [|done]. by apply (iv_exited _ _ _ HI).
  - exists D, X. apply (PoolInv_move p); try done; try apply HI.
  - exists D, X. by apply PoolInv_take.
  - exists D, X. eapply PoolInv_worker; [done..|by left].
  - exists D, X. eapply PoolInv_worker; [done..|by right].
  - eexists D, (_ :: X). by apply PoolInv_turned_away.
  - exists D, X. by eapply PoolInv_worker.
  - eexists (_ :: D), X. by apply PoolInv_finish.
Qed.

Lemma steps_PoolInv ls (p p' : pool R) D X :
  PoolInv p D X -> pool_steps ls p = Some p' -> exists D' X', PoolInv p' D' X'.
Proof.
  revert p D X. induction ls as [|l ls IH]; intros p D X HI; simpl; [intros [= <-]; eauto|].
  destruct (pool_step l p) as [p1|] eqn:Hl; [|done]. destruct (step_PoolInv _ _ _ _ _ HI Hl) as (D1 & X1 & H1). eauto.
Qed.

(** Only the outside world cancels; the workers stay as many as they were. *)
Lemma step_frame l (p p' : pool R) :
  pool_step l p = Some p' ->
  (l <> Cancel -> pp_canceled p' = pp_canceled p) /\ length (pp_workers p') = length (pp_workers p).
Proof.
  destruct l; simpl; intros Hs; repeat case_match; simplify_eq; simpl; rewrite ?length_insert; try done.
  unfold finishTask. by destruct (out i); simpl; rewrite length_insert.
Qed.

Lemma steps_frame ls (p p' : pool R) :
  pool_steps ls p = Some p' ->
  (Cancel ∉ ls -> pp_canceled p' = pp_canceled p) /\ length (pp_workers p') = length (pp_workers p).
Proof.
  revert p. induction ls as [|l ls IH]; intros p; simpl; [by intros [= <-]|].
  destruct (pool_step l p) as [p1|] eqn:Hl; [|done]. intros Hs.
  destruct (step_frame _ _ _ Hl) as [Hc1 Hw1]. destruct (IH _ Hs) as [Hc2 Hw2].
  split; [|congruence]. intros [? ?]%not_elem_of_cons. rewrite Hc2, Hc1; auto.
Qed.

(** ** Lemmas: progress and termination *)

Definition weight (s : worker) : nat :=
  match s with Idle => 1 | Taken _ => 3 | Executing _ => 2 | Exited => 0 end.

Definition flag (b : bool) : nat := if b then 0 else 1.

(** Every move brings the pool closer to its end. *)
Definition measure (p : pool R) : nat :=
  4 * (n - pp_next p) + 3 * length (pp_queue p) + sum_list_with weight (pp_workers p)
  + flag (pp_closed p) + flag (pp_canceled p).

Lemma step_measure l (p p' : pool R) : pool_step l p = Some p' -> (measure p' < measure p)%nat.
Proof.
  unfold measure. destruct l; simpl; intros Hs; repeat case_match; simplify_eq; b2p; cbn [recordError set_err set_result
    set_worker set_queue set_flags pp_next pp_queue pp_closed pp_canceled pp_workers flag];
    try match goal with H : pp_workers p !! _ = Some ?s |- context [<[_ := ?s']> _] =>
      pose proof (sum_list_insert weight _ _ _ s' H) as Hsum; simpl in Hsum end;
    repeat match goal with H : pp_queue p = _ |- _ => rewrite H | H : (_ <? _)%nat = true |- _ => apply Nat.ltb_lt in H
      | H : pp_closed p = _ |- _ => rewrite H | H : pp_canceled p = _ |- _ => rewrite H end;
    rewrite ?length_app; simpl; try lia.
  match goal with H : pp_workers p !! _ = Some (Executing _) |- _ =>
    pose proof (sum_list_insert weight _ _ _ Idle H) as Hsum; simpl in Hsum end.
  unfold finishTask. destruct (out i); simpl; lia.
Qed.

Lemma steps_measure ls (p p' : pool R) :
  pool_steps ls p = Some p' -> (length ls + measure p' <= measure p)%nat.
Proof.
  revert p. induction ls as [|l ls IH]; intros p; simpl; [intros [= <-]; lia|].
  destruct (pool_step l p) as [p1|] eqn:Hl; [|done]. intros Hs. apply step_measure in Hl. apply IH in Hs. lia.
Qed.

Lemma not_all_exited (ws : list worker) :
  forallb (fun w => match w with Exited => true | _ => false end) ws = false ->
  exists w s, ws !! w = Some s /\ s <> Exited.
Proof.
  induction ws as [|x ws IH]; [done|]. simpl. destruct x; [exists 0, Idle|exists 0, (Taken i)|exists 0, (Executing i)|];
    try done. intros (w & s & ? & ?)%IH. by exists (S w), s.
Qed.

(** A pool that has not closed down can move, without help from outside. *)
Lemma progress (p : pool R) D X :
  PoolInv p D X -> closed_down p = false -> exists l p', l <> Cancel /\ pool_step l p = Some p'.
Proof.
  intros HI Hc. pose proof (iv_next _ _ _ HI). assert (length (pp_queue p) <= pp_next p)%nat as Hq.
  { pose proof (Permutation_length (iv_perm _ _ _ HI)) as Hl. unfold live in Hl.
    rewrite !length_app, length_seq in Hl. lia. }
  destruct (decide (pp_next p < n)%nat) as [Hlt|Hge].
  { exists Submit. eexists. split; [done|]. simpl. by rewrite (proj2 (Nat.ltb_lt (pp_next p) n)), (proj2 (Nat.ltb_lt (length (pp_queue p)) n)) by lia. }
  destruct (pp_closed p) eqn:Hcl.
  2:{ exists CloseQueue. eexists. split; [done|]. simpl. by rewrite Hcl, (proj2 (Nat.eqb_eq (pp_next p) n)) by lia. }
  unfold closed_down in Hc. rewrite Hcl in Hc. apply not_all_exited in Hc as (w & s & Hw & Hs).
  destruct s as [|i|i|]; [|exists (Enter w)|exists (Finish w)|done].
  - destruct (pp_queue p) as [|i q] eqn:Hpq; [exists (ExitClosed w)|exists (Take w)]; eexists; (split; [done|]); simpl;
      by rewrite Hw, Hpq, ?Hcl.
  - simpl. rewrite Hw. destruct (pp_canceled p); by eexists.
  - simpl. rewrite Hw. by eexists.
Qed.

Lemma complete_execution (p : pool R) D X :
  PoolInv p D X -> exists ls p', (Cancel ∉ ls) /\ pool_steps ls p = Some p' /\ closed_down p' = true.
Proof.
  remember (measure p) as m eqn:Hm. revert p D X Hm. induction (lt_wf m) as [m _ IH]; intros p D X -> HI.
  destruct (closed_down p) eqn:Hc; [exists [], p; split; [apply not_elem_of_nil|done]|].
  destruct (progress p D X HI Hc) as (l & p1 & Hl & Hp). destruct (step_PoolInv _ _ _ _ _ HI Hp) as (D1 & X1 & H1).
  destruct (IH (measure p1) (step_measure _ _ _ Hp) p1 D1 X1 eq_refl H1) as (ls & p' & Hn & Hs & Hd).
  exists (l :: ls), p'. rewrite not_elem_of_cons. simpl. rewrite Hp. auto.
Qed.

(** ** Lemmas: the end of an execution *)

(** When the pool has closed down and was never cancelled, every item has run. *)
Lemma closed_down_all (p : pool R) D X :
  PoolInv p D X -> closed_down p = true -> pp_canceled p = false -> (0 < length (pp_workers p))%nat ->
  D ≡ₚ seq 0 n /\ X = [].
Proof.
  intros HI [Hcl Hex]%andb_true_iff Hca Hw. pose proof (iv_alive _ _ _ HI Hca) as ->. split; [|done].
  rewrite forallb_forall in Hex.
  assert (Exited ∈ pp_workers p) as Hin.
  { destruct (pp_workers p) as [|x ws]; [simpl in Hw; lia|]. specialize (Hex x (or_introl eq_refl)).
    destruct x; try done. left. }
  destruct (iv_exited _ _ _ HI Hca Hin) as [Hq _].
  assert (live p = []) as Hl.
  { unfold live. rewrite Hq. simpl. clear -Hex. induction (pp_workers p) as [|x ws IH]; [done|]. simpl.
    pose proof (Hex x (or_introl eq_refl)). destruct x; try done. apply IH. intros y Hy. apply Hex. by right. }
  pose proof (iv_perm _ _ _ HI) as Hp. rewrite Hl, app_nil_r, (iv_closed _ _ _ HI Hcl) in Hp. exact Hp.
Qed.

End PoolInv.

Lemma collect_all {R} n (out : nat -> outcome R) ctxErr (p : pool R) D :
  PoolInv n out ctxErr p D [] -> D ≡ₚ seq 0 n ->
  pp_results p = ((result_of ∘ out) <$> seq 0 n) /\
  omap id (pp_errs p) = omap (item_error ∘ out) (seq 0 n) /\
  pp_errors p ≡ₚ omap (failure_of ∘ out) (seq 0 n).
Proof.
  intros HI HD. assert (forall i, i < n -> i ∈ D)%nat as Hin by (intros i Hi; rewrite HD; apply elem_of_seq; lia).
  split; [|split].
  - rewrite (iv_results _ _ _ _ _ _ HI). apply list_fmap_ext. intros i j Hj%lookup_seq.
    unfold compose. rewrite decide_True; [done|]. apply Hin. lia.
  - destruct (iv_errs _ _ _ _ _ _ HI) as [Hlen He].
    assert (pp_errs p = ((item_error ∘ out) <$> seq 0 n)) as ->.
    { apply list_eq. intros i. destruct (decide (i < n)%nat) as [Hi|Hi].
      - rewrite He, decide_True, list_lookup_fmap, lookup_seq_lt; [done..|by apply Hin|done|apply not_elem_of_nil].
      - rewrite !lookup_ge_None_2; [done|rewrite length_fmap, length_seq; lia|lia]. }
    apply omap_id_fmap.
  - rewrite (iv_errors _ _ _ _ _ _ HI). simpl. rewrite app_nil_r. by rewrite HD.
Qed.

Lemma steps_app {R} n (out : nat -> outcome R) ctxErr ls1 ls2 p :
  steps n out ctxErr (ls1 ++ ls2) p = match steps n out ctxErr ls1 p with
                                      | Some p' => steps n out ctxErr ls2 p' | None => None end.
Proof. revert p. induction ls1 as [|l ls1 IH]; intros p; simpl; [done|]. by destruct (step n out ctxErr l p). Qed.

Lemma worker_count_pos c : (0 < worker_count c)%nat.
Proof. unfold worker_count. destruct (Z.leb_spec c 0); lia. Qed.

(** What an execution that is not cancelled returns. *)
Lemma pool_complete {R} concurrency n (out : nat -> outcome R) ctxErr ls results errs :
  ParallelMap concurrency n out ctxErr ls = Some (results, errs) -> Cancel ∉ ls ->
  results = ((result_of ∘ out) <$> seq 0 n) /\
  omap (item_error ∘ out) (seq 0 n) `prefix_of` errs /\
  (forall e, e ∈ errs -> exists i, (i < n)%nat /\ failure_of (out i) = Some e) /\
  (forall i e, (i < n)%nat -> failure_of (out i) = Some e -> exists e', e' ∈ errs /\ error_text e' = error_text e) /\
  (errs = [] <-> forall i, (i < n)%nat -> exists r, out i = Returned r).
Proof.
  unfold ParallelMap. intros Hp Hls. destruct (Nat.eqb_spec n 0) as [->|Hn].
  { injection Hp as <- <-. split; [done|]. split; [done|]. split; [by intros e He%elem_of_nil|]. split; [lia|].
    split; [lia|done]. }
  destruct (steps _ _ _ _ _) as [p|] eqn:Hs; [|done]. destruct (closed_down p) eqn:Hc; [|done].
  unfold collect in Hp. injection Hp as <- <-.
  destruct (steps_PoolInv _ _ _ _ _ _ _ _ (PoolInv_init n out ctxErr concurrency) Hs) as (D & X & HI).
  destruct (steps_frame _ _ _ _ _ _ Hs) as [Hca Hw].
  destruct (closed_down_all _ _ _ _ _ _ HI Hc (Hca Hls)) as [HD ->].
  { rewrite Hw. simpl. rewrite length_replicate. apply worker_count_pos. }
  destruct (collect_all _ _ _ _ _ HI HD) as (Hr & He & Hes). rewrite Hr, He.
  assert (forall i e, (i < n)%nat -> failure_of (out i) = Some e -> e ∈ pp_errors p) as Hfail.
  { intros i e Hi Hf. rewrite Hes. apply list_elem_of_omap. exists i. rewrite elem_of_seq. split; [lia|done]. }
  assert (forall e, e ∈ foldl add_error (omap (item_error ∘ out) (seq 0 n)) (pp_errors p) ->
            exists i, (i < n)%nat /\ failure_of (out i) = Some e) as Hback.
  { intros e [H|H]%foldl_add_error_elem; [|rewrite Hes in H];
      apply list_elem_of_omap in H as (i & [_ Hi]%elem_of_seq & Hf); exists i; (split; [lia|]); [|done].
    unfold compose in Hf. by destruct (out i). }
  split; [done|]. split; [apply foldl_add_error_prefix|]. split; [done|]. split.
  - intros i e Hi Hf. apply foldl_add_error_text. right. by eapply Hfail.
  - split.
    + intros Hnil i Hi. destruct (out i) as [r|e|e] eqn:Ho; [by exists r|exfalso..];
        destruct (foldl_add_error_text (pp_errors p) (omap (item_error ∘ out) (seq 0 n)) e) as (e' & H' & _);
        try (rewrite Hnil in H'; by apply elem_of_nil in H'); right; apply (Hfail i); rewrite ?Ho; done.
    + intros Hall. destruct (foldl _ _ _) as [|e l] eqn:E; [done|]. exfalso.
      destruct (Hback e) as (i & Hi & Hf); [left|]. destruct (Hall i Hi) as [r Hr']. by rewrite Hr' in Hf.
Qed.

(** Whatever happens, a result comes from its own item. *)
Lemma pool_sound {R} concurrency n (out : nat -> outcome R) ctxErr ls results errs i r :
  ParallelMap concurrency n out ctxErr ls = Some (results, errs) -> results !! i = Some (Some r) -> out i = Returned r.
Proof.
  unfold ParallelMap. intros Hp Hi. destruct (_ =? _)%nat; [by injection Hp as <- <-|].
  destruct (steps _ _ _ _ _) as [p|] eqn:Hs; [|done]. destruct (closed_down p); [|done]. injection Hp as <- <-.
  destruct (steps_PoolInv _ _ _ _ _ _ _ _ (PoolInv_init n out ctxErr concurrency) Hs) as (D & X & HI).
  simpl in Hi. rewrite (iv_results _ _ _ _ _ _ HI), list_lookup_fmap in Hi.
  destruct (seq 0 n !! i) as [j|] eqn:Hj; [|done]. apply lookup_seq in Hj as [-> _]. simpl in Hi.
  case_decide; [|done]. destruct (out i) eqn:Ho; simplify_eq/=; done.
Qed.

(** ** Properties *)

(** Without cancellation the pool loses nothing, whatever the interleaving:
    every result stands at the index of its item, the errors of the items come
    first and in the order of the items, every error returned is one of them or
    of a task that panicked, no failure goes unreported (errors with the same
    text are one), and there is no error exactly when every item succeeded. *)
Theorem ParallelMap_complete {R} concurrency n (out : nat -> outcome R) ctxErr ls results errs :
  ParallelMap concurrency n out ctxErr ls = Some (results, errs) -> Cancel ∉ ls ->
  results = ((result_of ∘ out) <$> seq 0 n) /\
  omap (item_error ∘ out) (seq 0 n) `prefix_of` errs /\
  (forall e, e ∈ errs -> exists i, (i < n)%nat /\ failure_of (out i) = Some e) /\
  (forall i e, (i < n)%nat -> failure_of (out i) = Some e -> exists e', e' ∈ errs /\ error_text e' = error_text e) /\
  (errs = [] <-> forall i, (i < n)%nat -> exists r, out i = Returned r).
Proof. apply pool_complete. Qed.

(** Two workers, three items: the second fails, the third is the first done. *)
Definition demo_out (i : nat) : outcome nat :=
  if (i =? 1)%nat then Failed (ErrNew "boom") else Returned (10 * i)%nat.

Definition demo_schedule : list label :=
  [Submit; Submit; Submit; Take 0; Enter 0; Take 1; CloseQueue; Enter 1; Finish 1; Take 1; Enter 1; Finish 1;
   ExitClosed 1; Finish 0; ExitClosed 0].

Lemma ParallelMap_complete_witness :
  ParallelMap 2 3 demo_out (ErrNew "context canceled") demo_schedule = Some ([Some 0; None; Some 20]%nat, [ErrNew "boom"]) /\
  ((result_of ∘ demo_out) <$> seq 0 3) = [Some 0; None; Some 20]%nat.
Proof.
  assert (ParallelMap 2 3 demo_out (ErrNew "context canceled") demo_schedule
          = Some ([Some 0; None; Some 20]%nat, [ErrNew "boom"])) as H by (vm_compute; reflexivity).
  split; [exact H|]. destruct (ParallelMap_complete _ _ _ _ _ _ _ H) as (Hr & _); [|symmetry; exact Hr].
  unfold demo_schedule. set_solver.
Defined.

(** C39. The pool never hangs: from every state that an execution can reach,
    cancelled or not, the caller and the workers alone can bring [ParallelMap]
    to its return, and no execution is longer than four moves per item, one per
    worker and two. *)
Theorem ParallelMap_terminates {R} concurrency n (out : nat -> outcome R) ctxErr ls p :
  steps n out ctxErr ls (NewWorkerPool concurrency n) = Some p ->
  (length ls <= 4 * n + worker_count concurrency + 2)%nat /\
  exists ls' p', (Cancel ∉ ls') /\ steps n out ctxErr ls' p = Some p' /\ closed_down p' = true.
Proof.
  intros Hs. split.
  - apply steps_measure in Hs. enough (measure n (NewWorkerPool (R := R) concurrency n)
      = 4 * n + worker_count concurrency + 2)%nat by lia.
    unfold measure, NewWorkerPool. cbn [pp_next pp_queue pp_workers pp_closed pp_canceled flag length].
    assert (forall k, sum_list_with weight (replicate k Idle) = k) as -> by (induction k; simpl; congruence). lia.
  - destruct (steps_PoolInv _ _ _ _ _ _ _ _ (PoolInv_init n out ctxErr concurrency) Hs) as (D & X & HI).
    by apply (complete_execution _ _ _ _ _ _ HI).
Qed.

Lemma ParallelMap_terminates_witness :
  exists p, steps 3 demo_out (ErrNew "context canceled") [Submit; Cancel; Take 0] (NewWorkerPool 2 3) = Some p /\
  exists ls' p', (Cancel ∉ ls') /\ steps 3 demo_out (ErrNew "context canceled") ls' p = Some p' /\ closed_down p' = true.
Proof.
  eexists. split; [reflexivity|].
  exact (proj2 (ParallelMap_terminates 2 3 demo_out (ErrNew "context canceled") [Submit; Cancel; Take 0] _ eq_refl)).
Defined.

Lemma submit_all {R} n (out : nat -> outcome R) ctxErr k m q (p : pool R) :
  pp_next p = m -> pp_queue p = q -> length q = m -> (m + k = n)%nat ->
  steps n out ctxErr (replicate k Submit) p = Some (set_queue p n (q ++ seq m k)).
Proof.
  revert m q p. induction k as [|k IH]; intros m q p Hm Hq Hl Hk; simpl.
  - rewrite app_nil_r, <- Hq. replace n with m by lia. destruct p. simpl in *. by subst.
  - rewrite Hm, Hq, Hl, !(proj2 (Nat.ltb_lt m n)) by lia. simpl.
    rewrite (IH (S m) (q ++ [m])); [|done..|rewrite length_app; simpl; lia|lia]. by rewrite <- app_assoc.
Qed.

Lemma exit_all {R} n (out : nat -> outcome R) ctxErr k m (p : pool R) :
  pp_workers p = replicate m Exited ++ replicate k Idle -> pp_canceled p = true ->
  exists p', steps n out ctxErr (ExitDone <$> seq m k) p = Some p' /\ pp_workers p' = replicate (m + k) Exited /\
    pp_closed p' = pp_closed p /\ pp_results p' = pp_results p /\ pp_errs p' = pp_errs p /\ pp_errors p' = pp_errors p.
Proof.
  revert m p. induction k as [|k IH]; intros m p Hw Hc.
  - exists p. rewrite Nat.add_0_r. simpl in Hw. rewrite app_nil_r in Hw. done.
  - change (seq m (S k)) with (m :: seq (S m) k). rewrite fmap_cons. cbn [steps step].
    assert (pp_workers p !! m = Some Idle) as ->.
    { rewrite Hw, lookup_app_r; rewrite length_replicate; [by rewrite Nat.sub_diag|lia]. }
    rewrite Hc. destruct (IH (S m) (set_worker p m Exited)) as (p' & -> & Hw' & ? & ? & ? & ?); [|done|].
    + simpl. rewrite Hw. rewrite insert_app_r_alt; rewrite length_replicate; [|lia]. rewrite Nat.sub_diag. simpl.
      clear. induction m as [|m IH]; simpl; [done|]. by rewrite IH.
    + exists p'. split; [done|]. rewrite Hw'. split; [f_equal; lia|done].
Qed.

(** A cancelled run can lose every item without a trace: whatever [fn] and
    however many items and workers, there is an execution in which the context
    is cancelled once the tasks are queued, all workers leave, and
    [ParallelMap] returns zero results and no error, as if all had gone well. *)
Theorem ParallelMap_cancel_silent {R} concurrency n (out : nat -> outcome R) ctxErr :
  exists ls, ParallelMap concurrency n out ctxErr ls = Some (replicate n None, []).
Proof.
  destruct (decide (n = 0%nat)) as [->|Hn]; [by exists []|].
  exists (replicate n Submit ++ [CloseQueue; Cancel] ++ (ExitDone <$> seq 0 (worker_count concurrency))).
  unfold ParallelMap. destruct (Nat.eqb_spec n 0); [done|].
  rewrite steps_app, (submit_all n out ctxErr n 0 []) by (done || lia). simpl. rewrite Nat.eqb_refl. simpl.
  match goal with |- context [steps _ _ _ _ ?p] =>
    destruct (exit_all n out ctxErr (worker_count concurrency) 0 p) as (p' & -> & Hw & Hc & Hr & He & Hes);
      [reflexivity..|] end.
  unfold closed_down, collect. rewrite Hw, Hc, Hr, He, Hes. simpl.
  assert (forall k, forallb (fun w => match w with Exited => true | _ => false end) (replicate k Exited) = true) as ->
    by (induction k; done).
  do 2 f_equal. clear. induction n as [|m IH]; [done|exact IH].
Qed.
