(* ===== verification/Pagination.v ===== *)
(** * Pagination and streaming: internal/gitlab/pagination.go

    Parsing of the pagination headers, and [StreamAll]: the loop that follows
    keyset or numbered pages and hands out the items.  The consumer of the
    channel reads what the producer sends in order, so a stream is modelled by
    the list of its items, the last of which may be an error. *)

From S2P Require Import Prelude GoLib Config GitLabAPI Server.
Local Open Scope string_scope.
Local Open Scope list_scope.
Local Open Scope Z_scope.

(** ** Options *)

Variant PaginationMode : Type := PaginationModeKeyset | PaginationModePage.

Record PaginationOptions : Type := {
  po_Mode : PaginationMode;
  po_Page : Z;
  po_PerPage : Z;
  po_OrderBy : string;
  po_Sort : string;
  po_IDAfter : Z;
  po_PageToken : string
}.

Definition DefaultPaginationOptions : PaginationOptions := {|
  po_Mode := PaginationModeKeyset; po_Page := 1; po_PerPage := 100; po_OrderBy := "id"; po_Sort := "asc";
  po_IDAfter := 0; po_PageToken := ""
|}.

(** The buffer of the channel does not show in what is read from it. *)
Record StreamOptions : Type := { so_Pagination : PaginationOptions; so_AutoFallback : bool }.

Definition DefaultStreamOptions : StreamOptions :=
  {| so_Pagination := DefaultPaginationOptions; so_AutoFallback := true |}.

(** ** Headers *)

Record PageResponse : Type := {
  pg_CurrentPage : Z;
  pg_PerPage : Z;
  pg_NextPage : Z;
  pg_PrevPage : Z;
  pg_Total : Z;
  pg_TotalPages : Z;
  pg_NextURL : string;
  pg_NextIDAfter : Z;
  pg_HasNext : bool
}.

(** [\s] of a regular expression. *)
Definition is_re_space (c : ascii) : bool :=
  (c =? " ")%char || bool_decide (N_of_ascii c ∈ [9; 10; 12; 13]%N).

Definition dquote : ascii := "034"%char.

(** [linkRegex] at one position: a URL between angle brackets, a semicolon,
    white space, [rel=], and the relation, which may be quoted. *)
Definition match_link_here (s : string) : option (string * string) :=
  match s with
  | String "<" s =>
      let '(url, s) := Span (fun c => negb (c =? ">")%char) s in
      if (url =? "")%string then None
      else if HasPrefix s ">;" then
        let s := TrimLeftFunc is_re_space (TrimPrefix s ">;") in
        if HasPrefix s "rel=" then
          let s := TrimPrefix s "rel=" in
          let s := match s with String c s' => if (c =? dquote)%char then s' else s | "" => "" end in
          let rel := (Span (fun c => negb (c =? dquote)%char && negb (c =? ";")%char) s).1 in
          if (rel =? "")%string then None else Some (url, rel)
        else None
      else None
  | _ => None
  end.

(** [FindStringSubmatch]: the leftmost match. *)
Fixpoint match_link (s : string) : option (string * string) :=
  match match_link_here s with
  | Some m => Some m
  | None => match s with "" => None | String _ s' => match_link s' end
  end.

Definition add_link (links : gmap string string) (part : string) : gmap string string :=
  match match_link (TrimSpace part) with
  | Some (targetURL, rel) => <[ToLower rel := targetURL]> links
  | None => links
  end.

Definition ParseLinkHeader (header : string) : gmap string string :=
  if (header =? "")%string then ∅ else foldl add_link ∅ (SplitByte "," header).

(** [url.Parse(s)] followed by [Query().Get]: [None] when the URL is invalid. *)
Class GoQuery : Type := { url_Query : string -> option (string -> string) }.

Definition header_int (h : string -> string) (name : string) : Z :=
  match Atoi (h name) with Some v => v | None => 0 end.

Definition ParsePageResponse `{GoQuery} (resp : option HTTPResponse) : PageResponse :=
  match resp with
  | None => {| pg_CurrentPage := 0; pg_PerPage := 0; pg_NextPage := 0; pg_PrevPage := 0; pg_Total := 0;
               pg_TotalPages := 0; pg_NextURL := ""; pg_NextIDAfter := 0; pg_HasNext := false |}
  | Some resp =>
      let h := http_Header resp in
      let next := header_int h "X-Next-Page" in
      let nextPage := if 0 <? next then next else 0 in
      let nextURL := match ParseLinkHeader (h "Link") !! "next" with Some u => u | None => "" end in
      let query := if (nextURL =? "")%string then None else url_Query nextURL in
      {| pg_CurrentPage := header_int h "X-Page";
         pg_PerPage := header_int h "X-Per-Page";
         pg_NextPage := match query with
                        | Some q => if negb (q "page" =? "")%string && (nextPage =? 0)
                                    then match Atoi (q "page") with Some p => p | None => nextPage end
                                    else nextPage
                        | None => nextPage
                        end;
         pg_PrevPage := header_int h "X-Prev-Page";
         pg_Total := header_int h "X-Total";
         pg_TotalPages := header_int h "X-Total-Pages";
         pg_NextURL := nextURL;
         pg_NextIDAfter := match query with
                           | Some q => match Atoi (q "id_after") with Some i => i | None => 0 end
                           | None => 0
                           end;
         pg_HasNext := (0 <? next) || negb (nextURL =? "")%string |}
  end.

(** ** The stream *)

Variant StreamItem (T : Type) : Type :=
| ItemValue (v : T)
| ItemErr (err : error).
Arguments ItemValue {T} v.
Arguments ItemErr {T} err.

Definition with_page (o : PaginationOptions) (mode : PaginationMode) (page idAfter : Z) : PaginationOptions := {|
  po_Mode := mode; po_Page := page; po_PerPage := po_PerPage o; po_OrderBy := po_OrderBy o; po_Sort := po_Sort o;
  po_IDAfter := idAfter; po_PageToken := po_PageToken o
|}.

(** The defaults that [StreamAll] fills in. *)
Definition start_options (o : PaginationOptions) : PaginationOptions := {|
  po_Mode := po_Mode o; po_Page := if po_Page o <=? 0 then 1 else po_Page o;
  po_PerPage := if po_PerPage o <=? 0 then 100 else po_PerPage o; po_OrderBy := po_OrderBy o; po_Sort := po_Sort o;
  po_IDAfter := po_IDAfter o; po_PageToken := po_PageToken o
|}.

(** The termination checks: the options of the next request, if there is one. *)
Definition next_options `{GoQuery} {T} (currentOpt : PaginationOptions) (items : list T)
    (resp : option HTTPResponse) : option PaginationOptions :=
  let pageMeta := ParsePageResponse resp in
  match items with
  | [] => None
  | _ =>
      match po_Mode currentOpt with
      | PaginationModeKeyset =>
          if negb (pg_HasNext pageMeta) || (pg_NextURL pageMeta =? "")%string then None
          else if 0 <? pg_NextIDAfter pageMeta then
            if pg_NextIDAfter pageMeta <=? po_IDAfter currentOpt then None
            else Some (with_page currentOpt PaginationModeKeyset (po_Page currentOpt) (pg_NextIDAfter pageMeta))
          else None
      | PaginationModePage =>
          if negb (pg_HasNext pageMeta) || (pg_NextPage pageMeta <=? po_Page currentOpt) then None
          else Some (with_page currentOpt PaginationModePage (pg_NextPage pageMeta) (po_IDAfter currentOpt))
      end
  end.

(** A refused keyset request: a 400 answer, in keyset mode, with the fallback
    enabled. *)
Definition falls_back (autoFallback : bool) (currentOpt : PaginationOptions) (resp : option HTTPResponse) : bool :=
  match po_Mode currentOpt, resp with
  | PaginationModeKeyset, Some r => autoFallback && (http_StatusCode r =? 400)
  | _, _ => false
  end.

Section Stream.
Context `{GoQuery} {T : Type}.

(** Sending the items of a page.  Before each one the [select] may see the
    context cancelled, which ends the stream. *)
Fixpoint sendItems (items : list T) (sent : list (StreamItem T)) (next : list (StreamItem T) -> GP (list (StreamItem T)))
  : GP (list (StreamItem T)) :=
  match items with
  | [] => next sent
  | item :: rest =>
      done_ ← call (Context_ CtxErr);
      match done_ with
      | Some err => mret (sent ++ [ItemErr err])
      | None => sendItems rest (sent ++ [ItemValue item]) next
      end
  end.

Fixpoint streamLoop (fuel : nat)
    (fetcher : PaginationOptions -> GP (list T * option HTTPResponse * option error))
    (autoFallback : bool) (currentOpt : PaginationOptions) (sent : list (StreamItem T))
  : GP (list (StreamItem T)) :=
  match fuel with
  | O => mret (sent ++ [ItemErr errOutOfFuel])
  | S fuel' =>
      done_ ← call (Context_ CtxErr);
      match done_ with
      | Some err => mret (sent ++ [ItemErr err])
      | None =>
          '(items, resp, err) ← fetcher currentOpt;
          match err with
          | Some err =>
              if falls_back autoFallback currentOpt resp
              then streamLoop fuel' fetcher autoFallback (with_page currentOpt PaginationModePage 1 0) sent
              else mret (sent ++ [ItemErr err])
          | None =>
              sendItems items sent (fun sent =>
                match next_options currentOpt items resp with
                | Some opt => streamLoop fuel' fetcher autoFallback opt sent
                | None => mret sent
                end)
          end
      end
  end.

Definition StreamAll (fuel : nat) (fetcher : PaginationOptions -> GP (list T * option HTTPResponse * option error))
    (opts : StreamOptions) : GP (list (StreamItem T)) :=
  streamLoop fuel fetcher (so_AutoFallback opts) (start_options (so_Pagination opts)) [].

(** [CollectAll]: the values before the first error, and that error. *)
Fixpoint CollectAll (ch : list (StreamItem T)) (results : list T) : list T * option error :=
  match ch with
  | [] => (results, None)
  | ItemErr err :: _ => (results, Some err)
  | ItemValue v :: rest => CollectAll rest (results ++ [v])
  end.

End Stream.

(** ** The streamers *)

Definition opt_string (s : string) : option string := if (s =? "")%string then None else Some s.

(** The request for a page; [token] says how the endpoint takes the keyset
    position. *)
Definition page_request (token : bool) (pOpt : PaginationOptions) : ListRequest :=
  match po_Mode pOpt with
  | PaginationModeKeyset => {|
      lr_PerPage := po_PerPage pOpt; lr_Pagination := "keyset"; lr_OrderBy := opt_string (po_OrderBy pOpt);
      lr_Sort := opt_string (po_Sort pOpt);
      lr_IDAfter := if negb token && (0 <? po_IDAfter pOpt) then Some (po_IDAfter pOpt) else None;
      lr_PageToken := if token then
                        if negb (po_PageToken pOpt =? "")%string then po_PageToken pOpt
                        else if 0 <? po_IDAfter pOpt then Itoa (po_IDAfter pOpt) else ""
                      else "";
      lr_Page := 0 |}
  | PaginationModePage => {|
      lr_PerPage := po_PerPage pOpt; lr_Pagination := ""; lr_OrderBy := None; lr_Sort := None; lr_IDAfter := None;
      lr_PageToken := ""; lr_Page := po_Page pOpt |}
  end.

Definition StreamProjects `{GoQuery} (fuel : nat) (opts : StreamOptions) : GP (list (StreamItem (option Project))) :=
  StreamAll fuel (fun pOpt => call (Projects (ListProjects (page_request false pOpt)))) opts.

Definition StreamGroupProjects `{GoQuery} (fuel : nat) (groupID : Z) (opts : StreamOptions)
  : GP (list (StreamItem (option Project))) :=
  StreamAll fuel (fun pOpt => call (Groups (ListGroupProjects groupID (page_request true pOpt)))) opts.

(** ** Specification *)

(** What remains of a listing sorted by identifier after a keyset position. *)
Definition after {T} (idOf : T -> Z) (a : Z) (l : list T) : list T := List.filter (fun x => a <? idOf x) l.

(** The page numbered [k]. *)
Definition numbered {T} (perPage : nat) (k : Z) (l : list T) : list T :=
  take perPage (drop (perPage * Z.to_nat (k - 1)) l).

Section Server.
Context `{GoQuery} {T W : Type} (h : handler GitLabE W) (w : W)
  (fetcher : PaginationOptions -> GP (list T * option HTTPResponse * option error)) (idOf : T -> Z) (l : list T).

(** A server with keyset pagination: it answers with the items after the
    position, and with the position of the last one if there are more. *)
Definition serves_keyset : Prop :=
  forall o, po_Mode o = PaginationModeKeyset -> 0 < po_PerPage o ->
    let rest := after idOf (po_IDAfter o) l in
    let page := take (Z.to_nat (po_PerPage o)) rest in
    exists resp, run h (fetcher o) w = ((page, resp, None), w) /\
      let meta := ParsePageResponse resp in
      if (Z.to_nat (po_PerPage o) <? length rest)%nat
      then pg_HasNext meta = true /\ pg_NextURL meta <> "" /\ idOf <$> last page = Some (pg_NextIDAfter meta)
      else pg_HasNext meta = false.

(** A server without it: a keyset request is a bad request; numbered pages
    name the next page if there is one. *)
Definition serves_pages : Prop :=
  forall o,
    match po_Mode o with
    | PaginationModeKeyset => exists items resp err,
        run h (fetcher o) w = ((items, Some resp, Some err), w) /\ http_StatusCode resp = 400
    | PaginationModePage => 1 <= po_Page o -> 0 < po_PerPage o ->
        exists resp, run h (fetcher o) w = ((numbered (Z.to_nat (po_PerPage o)) (po_Page o) l, resp, None), w) /\
          let meta := ParsePageResponse resp in
          if (Z.to_nat (po_PerPage o) * Z.to_nat (po_Page o) <? length l)%nat
          then pg_HasNext meta = true /\ pg_NextPage meta = po_Page o + 1
          else pg_HasNext meta = false
    end.

Context (Halive : h _ (Context_ CtxErr) w = (None, w)).

(** ** Lemmas: one page *)

Lemma sendItems_run (items : list T) sent next :
  run h (sendItems items sent next) w = run h (next (sent ++ (ItemValue <$> items))) w.
Proof using Halive.
  revert sent. induction items as [|x items IH]; intros sent; cbn [sendItems].
  - by rewrite app_nil_r.
  - rewrite run_bind, run_call, Halive, IH, fmap_cons, <- app_assoc. done.
Qed.

Lemma streamLoop_page fuel auto o sent items resp :
  run h (fetcher o) w = ((items, resp, None), w) ->
  run h (streamLoop (S fuel) fetcher auto o sent) w =
  match next_options o items resp with
  | Some o' => run h (streamLoop fuel fetcher auto o' (sent ++ (ItemValue <$> items))) w
  | None => (sent ++ (ItemValue <$> items), w)
  end.
Proof using Halive.
  intros Hf. cbn [streamLoop]. rewrite run_bind, run_call, Halive, run_bind, Hf, sendItems_run.
  by destruct (next_options o items resp).
Qed.

(** ** Lemmas: keyset pages *)

Lemma after_after a b : a <= b -> after idOf b (after idOf a l) = after idOf b l.
Proof.
  intros Hab. unfold after. rewrite List_filter_filter. apply List_filter_ext. intros x _.
  destruct (Z.ltb_spec a (idOf x)), (Z.ltb_spec b (idOf x)); simpl; lia || done.
Qed.

(** In a sorted listing, what follows a page is what is after its last item. *)
Lemma after_page (rest : list T) k x :
  StronglySorted (fun x y => idOf x < idOf y) rest -> last (take k rest) = Some x ->
  after idOf (idOf x) rest = drop k rest.
Proof.
  intros Hs Hl. apply last_Some in Hl as [pre Hpre].
  assert (rest = pre ++ x :: drop k rest) as Hr by (rewrite <- (take_drop k rest) at 1; by rewrite Hpre, <- app_assoc).
  rewrite Hr in Hs. apply StronglySorted_app in Hs as (Hlt & _ & [_ Hx]%StronglySorted_inv).
  rewrite Hr at 1. unfold after. rewrite List.filter_app. simpl. rewrite Z.ltb_irrefl.
  assert (List.filter (fun y => idOf x <? idOf y) pre = []) as ->.
  { clear -Hlt. induction pre as [|y pre IH]; [done|]. simpl. rewrite (proj2 (Z.ltb_ge _ _)).
    - apply IH. intros z t ? ?. apply Hlt; [by right|done].
    - apply Z.lt_le_incl, Hlt; left. }
  simpl. rewrite <- (List_filter_true (fun y => idOf x <? idOf y) (drop k rest)) at 2; [done|].
  rewrite Forall_forall in Hx. intros y Hy. by apply Z.ltb_lt, Hx.
Qed.

Lemma next_options_end o (items : list T) resp :
  pg_HasNext (ParsePageResponse resp) = false -> next_options o items resp = None.
Proof. unfold next_options. intros ->. destruct items, (po_Mode o); done. Qed.

Lemma after_sorted a :
  StronglySorted (fun x y => idOf x < idOf y) l -> StronglySorted (fun x y => idOf x < idOf y) (after idOf a l).
Proof.
  unfold after. induction 1 as [|x l' Hs IH Hx]; simpl; [constructor|]. destruct (a <? idOf x); [|done].
  constructor; [done|]. rewrite Forall_forall in *. intros y [_ Hy]%elem_of_List_filter. by apply Hx.
Qed.

Lemma keyset_loop fuel auto o sent :
  serves_keyset -> StronglySorted (fun x y => idOf x < idOf y) l -> (forall x, x ∈ l -> 0 < idOf x) ->
  po_Mode o = PaginationModeKeyset -> 0 < po_PerPage o ->
  (length (after idOf (po_IDAfter o) l) < Z.to_nat (po_PerPage o) * fuel)%nat ->
  run h (streamLoop fuel fetcher auto o sent) w = (sent ++ (ItemValue <$> after idOf (po_IDAfter o) l), w).
Proof using Halive.
  intros Hsrv Hs Hpos. revert o sent. induction fuel as [|fuel IH]; intros o sent Hm Hpp Hf; [lia|].
  destruct (Hsrv o Hm Hpp) as (resp & Hrun & Hmeta). rewrite (streamLoop_page _ _ _ _ _ _ Hrun).
  set (rest := after idOf (po_IDAfter o) l) in *. set (k := Z.to_nat (po_PerPage o)) in *.
  destruct (Nat.ltb_spec k (length rest)) as [Hlt|Hge].
  - destruct Hmeta as (Hn & Hu & Hid). destruct (last (take k rest)) as [x|] eqn:Hl; [|done]. injection Hid as Hid.
    assert (x ∈ rest) as Hx by (eapply (subseteq_take k), last_Some_elem_of, Hl).
    apply elem_of_List_filter in Hx as [Ha%Z.ltb_lt Hx]. specialize (Hpos x Hx).
    assert (next_options o (take k rest) resp = Some (with_page o PaginationModeKeyset (po_Page o) (idOf x))) as ->.
    { unfold next_options. destruct (take k rest); [done|]. rewrite Hm, Hn, (proj2 (String.eqb_neq _ _) Hu), <- Hid.
      simpl. by rewrite (proj2 (Z.ltb_lt 0 _)), (proj2 (Z.leb_gt _ _)) by lia. }
    assert (after idOf (idOf x) l = drop k rest) as Hdrop.
    { rewrite <- (after_page rest k x); [by rewrite (after_after (po_IDAfter o)) by lia|by apply after_sorted|done]. }
    rewrite IH; [|done|done|]; cbn [with_page po_IDAfter po_PerPage]; rewrite Hdrop.
    + by rewrite <- app_assoc, <- fmap_app, take_drop.
    + rewrite length_drop. fold k. rewrite Nat.mul_succ_r in Hf. lia.
  - rewrite (next_options_end _ _ _ Hmeta), take_ge by lia. done.
Qed.

(** ** Lemmas: numbered pages *)

Lemma pages_loop fuel auto o sent :
  serves_pages -> po_Mode o = PaginationModePage -> 0 < po_PerPage o -> 1 <= po_Page o ->
  po_Page o = 1 \/ (Z.to_nat (po_PerPage o) * Z.to_nat (po_Page o - 1) < length l)%nat ->
  (length l < Z.to_nat (po_PerPage o) * Z.to_nat (po_Page o - 1) + Z.to_nat (po_PerPage o) * fuel)%nat ->
  run h (streamLoop fuel fetcher auto o sent) w =
  (sent ++ (ItemValue <$> drop (Z.to_nat (po_PerPage o) * Z.to_nat (po_Page o - 1)) l), w).
Proof using Halive.
  intros Hsrv. revert o sent. induction fuel as [|fuel IH]; intros o sent Hm Hpp Hp Hfirst Hf.
  { exfalso. destruct Hfirst as [Hfirst|]; [|lia]. rewrite Hfirst in Hf. change (Z.to_nat (1 - 1)) with 0%nat in Hf. lia. }
  pose proof (Hsrv o) as Ho. rewrite Hm in Ho. destruct (Ho Hp Hpp) as (resp & Hrun & Hmeta).
  rewrite (streamLoop_page _ _ _ _ _ _ Hrun). unfold numbered in *. set (k := Z.to_nat (po_PerPage o)) in *.
  assert (k * Z.to_nat (po_Page o) = k * Z.to_nat (po_Page o - 1) + k)%nat as Hk.
  { replace (Z.to_nat (po_Page o)) with (S (Z.to_nat (po_Page o - 1))) by lia. lia. }
  destruct (Nat.ltb_spec (k * Z.to_nat (po_Page o)) (length l)) as [Hlt|Hge].
  - destruct Hmeta as (Hn & Hid).
    assert (next_options o (take k (drop (k * Z.to_nat (po_Page o - 1)) l)) resp =
      Some (with_page o PaginationModePage (po_Page o + 1) (po_IDAfter o))) as ->.
    { unfold next_options. destruct (take k (drop (k * Z.to_nat (po_Page o - 1)) l)) as [|x t] eqn:E.
      - apply (f_equal length) in E. rewrite length_take, length_drop in E. simpl in E. lia.
      - rewrite Hm, Hn, Hid. simpl. by rewrite (proj2 (Z.leb_gt _ _)) by lia. }
    rewrite IH; cbn [with_page po_Mode po_PerPage po_Page]; fold k; replace (po_Page o + 1 - 1) with (po_Page o) by lia;
      [|done|lia|lia|by right|rewrite Nat.mul_succ_r in Hf; lia].
    rewrite <- app_assoc, <- fmap_app. by rewrite Hk, <- drop_drop, take_drop.
  - rewrite (next_options_end _ _ _ Hmeta). rewrite (take_ge (drop _ _)); [done|]. rewrite length_drop. lia.
Qed.

End Server.

(** ** Lemmas: what streaming asks for *)

Lemma CollectAll_acc {T} (ch : list (StreamItem T)) results :
  CollectAll ch results = (results ++ (CollectAll ch []).1, (CollectAll ch []).2).
Proof.
  revert results. induction ch as [|[v|err] ch IH]; intros results; simpl; rewrite ?app_nil_r; [done| |done].
  rewrite (IH (results ++ [v])), (IH [v]). simpl. by rewrite <- app_assoc.
Qed.

Lemma sendItems_reads {T} (items : list T) sent next :
  (forall sent, reads (next sent)) -> reads (sendItems items sent next).
Proof.
  intros Hn. revert sent. induction items as [|item rest IH]; intros sent; cbn [sendItems]; [apply Hn|].
  apply reads_bind; [by apply reads_call|]. intros [err|]; [done|apply IH].
Qed.

Lemma StreamAll_reads `{GoQuery} {T} fuel (fetcher : PaginationOptions -> GP (list T * option HTTPResponse * option error))
    opts :
  (forall o, reads (fetcher o)) -> reads (StreamAll fuel fetcher opts).
Proof.
  intros Hf. unfold StreamAll. generalize (start_options (so_Pagination opts)), (@nil (StreamItem T)).
  induction fuel as [|fuel IH]; intros o sent; cbn [streamLoop]; [done|].
  apply reads_bind; [by apply reads_call|]. intros [err|]; [done|].
  apply reads_bind; [apply Hf|]. intros [[items resp] [err|]]; [case_match; [apply IH|done]|].
  apply sendItems_reads. intros sent'. case_match; [apply IH|done].
Qed.

(** ** Properties *)

(** A stream loses nothing, repeats nothing and ends: with the default mode
    and from the beginning, on a server that pages by key, and on one that
    refuses to (where the stream falls back to numbered pages), the items
    streamed are exactly those of the listing, in its order and without an
    error.  One unit of fuel per page and one for the refusal are enough. *)
Theorem StreamAll_complete `{GoQuery} {T W} (h : handler GitLabE W) w fetcher (idOf : T -> Z) l opts fuel :
  h _ (Context_ CtxErr) w = (None, w) ->
  StronglySorted (fun x y => idOf x < idOf y) l -> (forall x, x ∈ l -> 0 < idOf x) ->
  po_Mode (so_Pagination opts) = PaginationModeKeyset -> po_IDAfter (so_Pagination opts) = 0 ->
  serves_keyset h w fetcher idOf l \/ (serves_pages h w fetcher l /\ so_AutoFallback opts = true) ->
  (length l < Z.to_nat (po_PerPage (start_options (so_Pagination opts))) * fuel)%nat ->
  run h (StreamAll (S fuel) fetcher opts) w = (ItemValue <$> l, w).
Proof.
  intros Halive Hs Hpos Hm Hid Hsrv Hf. set (o := start_options (so_Pagination opts)) in *.
  assert (0 < po_PerPage o) as Hpp by (subst o; simpl; destruct (Z.leb_spec (po_PerPage (so_Pagination opts)) 0); lia).
  unfold StreamAll. fold o. destruct Hsrv as [Hsrv|[Hsrv Hauto]].
  - rewrite (keyset_loop h w fetcher idOf l Halive); [|done..|].
    + unfold o, start_options. cbn [po_IDAfter]. rewrite Hid. unfold after. rewrite List_filter_true; [done|].
      intros x Hx. by apply Z.ltb_lt, Hpos.
    + rewrite Nat.mul_succ_r. enough (length (after idOf (po_IDAfter o) l) <= length l)%nat by lia.
      apply List.filter_length_le.
  - pose proof (Hsrv o) as Ho. unfold o at 1, start_options in Ho. cbn [po_Mode] in Ho. rewrite Hm in Ho.
    destruct Ho as (items & resp & err & Hrun & H400). cbn [streamLoop].
    rewrite run_bind, run_call, Halive, run_bind, Hrun.
    assert (falls_back (so_AutoFallback opts) o (Some resp) = true) as ->.
    { unfold falls_back, o, start_options. cbn [po_Mode]. by rewrite Hm, Hauto, H400. }
    rewrite (pages_loop h w fetcher l Halive); [|done|done|done|done|by left|].
    2: { cbn [with_page po_Page po_PerPage]. change (Z.to_nat (1 - 1)) with 0%nat. rewrite Nat.mul_0_r. exact Hf. }
    cbn [with_page po_Page]. change (Z.to_nat (1 - 1)) with 0%nat. by rewrite Nat.mul_0_r, drop_0.
Qed.

(** A keyset stream takes a numbered link for the end: when the server
    answers a keyset request with a link to a next page that carries no
    [id_after], the stream hands out the first page and closes without an
    error, however many pages there are. *)
Theorem StreamAll_keyset_truncates `{GoQuery} {T W} (h : handler GitLabE W) w fetcher (opts : StreamOptions)
    (items : list T) resp fuel :
  h _ (Context_ CtxErr) w = (None, w) -> po_Mode (so_Pagination opts) = PaginationModeKeyset ->
  run h (fetcher (start_options (so_Pagination opts))) w = ((items, resp, None), w) ->
  pg_NextIDAfter (ParsePageResponse resp) <= 0 ->
  run h (StreamAll (S fuel) fetcher opts) w = (ItemValue <$> items, w).
Proof.
  intros Halive Hm Hrun Hid. unfold StreamAll. rewrite (streamLoop_page h w fetcher Halive _ _ _ _ _ _ Hrun).
  assert (next_options (start_options (so_Pagination opts)) items resp = None) as ->; [|done].
  unfold next_options, start_options. cbn [po_Mode]. rewrite Hm. destruct items; [done|].
  rewrite (proj2 (Z.ltb_ge 0 _) Hid). by destruct (_ || _).
Qed.

(** ** A concrete server *)

(** The query of a URL, for the witnesses: what follows the question mark, cut
    at the ampersands. *)
Definition demo_query_get (url name : string) : string :=
  match SplitByte "?" url with
  | [_; q] => match List.find (fun kv => HasPrefix kv (name +:+ "=")) (SplitByte "&" q) with
              | Some kv => TrimPrefix kv (name +:+ "=")
              | None => ""
              end
  | _ => ""
  end.

#[local] Instance demo_query : GoQuery := {| url_Query := fun url => Some (demo_query_get url) |}.

Definition link_to (url : string) : string :=
  "<" +:+ url +:+ ">; rel=" +:+ String dquote ("next" +:+ String dquote "").

Definition demo_header (link : string) : option HTTPResponse :=
  Some {| http_StatusCode := 200; http_Header := fun name => if (name =? "Link")%string then link else "" |}.

(** Three items, served by key. *)
Definition demo_keyset_fetcher (o : PaginationOptions) : GP (list Z * option HTTPResponse * option error) :=
  let rest := after id (po_IDAfter o) [1; 2; 3] in
  let page := take (Z.to_nat (po_PerPage o)) rest in
  mret (page,
        demo_header (if (Z.to_nat (po_PerPage o) <? length rest)%nat
                     then link_to ("https://gitlab.com/api/v4/projects?pagination=keyset&id_after="
                                     +:+ match last page with Some i => Itoa i | None => "" end)
                     else ""), None).

Lemma demo_serves_keyset : serves_keyset demo_server empty_server demo_keyset_fetcher id [1; 2; 3].
Proof.
  intros o _ Hpp rest page. eexists. split; [apply run_ret|]. cbv zeta. fold rest page.
  destruct (Nat.ltb_spec (Z.to_nat (po_PerPage o)) (length rest)) as [Hlt|_]; [|reflexivity].
  assert (rest = [1; 2; 3] \/ rest = [2; 3] \/ rest = [3] \/ rest = []) as Hrest.
  { unfold rest, after. simpl. unfold id. destruct (Z.ltb_spec (po_IDAfter o) 1), (Z.ltb_spec (po_IDAfter o) 2),
      (Z.ltb_spec (po_IDAfter o) 3); try lia; auto. }
  unfold page. clearbody rest. clear page. destruct (Z.to_nat (po_PerPage o)) as [|[|[|k]]] eqn:Hk; [lia|..];
    destruct Hrest as [->|[->|[->| ->]]]; simpl in Hlt; try lia; vm_compute; repeat split; discriminate.
Qed.

Lemma StreamAll_complete_witness :
  run demo_server (StreamAll 2 demo_keyset_fetcher DefaultStreamOptions) empty_server
  = (ItemValue <$> [1; 2; 3], empty_server).
Proof.
  apply (StreamAll_complete demo_server empty_server demo_keyset_fetcher id [1; 2; 3] DefaultStreamOptions 1);
    [reflexivity| | |reflexivity|reflexivity|left; exact demo_serves_keyset|vm_compute; lia].
  - repeat constructor; unfold id; lia.
  - intros x Hx. unfold id. apply elem_of_cons in Hx as [->|Hx]; [lia|]. apply elem_of_cons in Hx as [->|Hx]; [lia|].
    apply list_elem_of_singleton in Hx as ->. lia.
Defined.

(** A listing of three that ignores the keyset parameters and numbers its
    pages. *)
Definition demo_numbered_fetcher (o : PaginationOptions) : GP (list Z * option HTTPResponse * option error) :=
  mret ([1; 2], demo_header (link_to "https://gitlab.com/api/v4/groups/7/projects?page=2&per_page=2"), None).

Lemma StreamAll_keyset_truncates_witness :
  run demo_server (StreamAll 9 demo_numbered_fetcher DefaultStreamOptions) empty_server
  = (ItemValue <$> [1; 2], empty_server).
Proof.
  apply (StreamAll_keyset_truncates demo_server empty_server demo_numbered_fetcher DefaultStreamOptions [1; 2]
           (demo_header (link_to "https://gitlab.com/api/v4/groups/7/projects?page=2&per_page=2")) 8);
    [reflexivity..|]. vm_compute. discriminate.
Defined.
