(* ===== verification/Discovery.v ===== *)
(** * Fleet discovery: internal/discovery/discovery.go

    [DiscoverFleet] compiles the project filter, walks the groups and scans the
    projects of each with a goroutine of its own, at most [concurrency] at a
    time; without a group selector it scans the instance.  The goroutines share
    the accumulator and interleave freely: the scan is a state machine, an
    execution is a list of labels, and the theorems hold for all of them.
    [DiscoverFleet_exact] is stated for the projects that the groups have, on a
    server that lists them in pages ([group_answers]); [DiscoverFleet_streams]
    for any server, by what its streams bring. *)

From S2P Require Import Prelude GoLib Config GitLabAPI Server ProjectFilter GroupTree Pagination.
Local Open Scope string_scope.
Local Open Scope list_scope.
Local Open Scope Z_scope.

(** ** Data *)

Record TargetProject : Type := {
  tp_ID : Z;
  tp_Name : string;
  tp_Path : string;
  tp_PathWithNamespace : string;
  tp_DefaultBranch : string;
  tp_Visibility : string;
  tp_Archived : bool;
  tp_MarkedForDeletion : bool;
  tp_MarkedForDeletionAt : option string;
  tp_Topics : list string;
  tp_NamespaceFullPath : string;
  tp_ParentGroupID : Z;
  tp_Raw : option Project
}.

Record TargetGroup : Type := {
  tg_ID : Z;
  tg_Name : string;
  tg_Path : string;
  tg_FullPath : string;
  tg_ParentID : Z;
  tg_Raw : option Group
}.

(** [TargetFleet], without the time it took. *)
Record TargetFleet : Type := {
  tf_Projects : gmap Z TargetProject;
  tf_Groups : gmap Z TargetGroup;
  tf_ScannedProjectsCount : Z;
  tf_ScannedGroupsCount : Z;
  tf_MatchedProjectsCount : Z;
  tf_MatchedGroupsCount : Z
}.

Definition IsEmpty (f : TargetFleet) : bool :=
  (size (tf_Projects f) =? 0)%nat && (size (tf_Groups f) =? 0)%nat.

(** The less functions of [ProjectList] and [GroupList]: by path, then by
    identifier. *)
Definition path_less (a b : string * Z) : bool :=
  if (a.1 =? b.1)%string then a.2 <? b.2 else (a.1 <? b.1)%string.

Definition path_le (a b : string * Z) : Prop := path_less b a = false.

#[export] Instance path_le_dec a b : Decision (path_le a b).
Proof. unfold path_le. solve_decision. Defined.

Definition project_key (p : TargetProject) : string * Z := (tp_PathWithNamespace p, tp_ID p).
Definition group_key (g : TargetGroup) : string * Z := (tg_FullPath g, tg_ID g).

(** [a] may come before [b] in a list sorted by [key]. *)
Definition by_key {A} (key : A -> string * Z) (a b : A) : Prop := path_le (key a) (key b).

#[export] Instance by_key_dec {A} (key : A -> string * Z) a b : Decision (by_key key a b).
Proof. unfold by_key. apply _. Defined.

Definition ProjectList (f : TargetFleet) : list TargetProject :=
  merge_sort (by_key project_key) (snd <$> map_to_list (tf_Projects f)).
Definition GroupList (f : TargetFleet) : list TargetGroup :=
  merge_sort (by_key group_key) (snd <$> map_to_list (tf_Groups f)).

Definition ProjectIDs (f : TargetFleet) : list Z := merge_sort Z.le (fst <$> map_to_list (tf_Projects f)).
Definition GroupIDs (f : TargetFleet) : list Z := merge_sort Z.le (fst <$> map_to_list (tf_Groups f)).

(** ** The accumulator *)

Record fleetAccumulator : Type := {
  fa_projects : gmap Z TargetProject;
  fa_groups : gmap Z TargetGroup;
  fa_scannedProjectsCount : Z;
  fa_scannedGroupsCount : Z
}.

Definition newFleetAccumulator : fleetAccumulator := {|
  fa_projects := ∅; fa_groups := ∅; fa_scannedProjectsCount := 0; fa_scannedGroupsCount := 0
|}.

Definition toTargetGroup (g : DiscoveredGroup) : TargetGroup := {|
  tg_ID := dg_ID g; tg_Name := dg_Name g; tg_Path := dg_Path g; tg_FullPath := dg_FullPath g;
  tg_ParentID := dg_ParentID g; tg_Raw := Some (dg_Raw g)
|}.

Definition addTargetGroup (a : fleetAccumulator) (t : TargetGroup) : fleetAccumulator := {|
  fa_projects := fa_projects a;
  fa_groups := match fa_groups a !! tg_ID t with
               | Some _ => fa_groups a
               | None => <[tg_ID t := t]> (fa_groups a)
               end;
  fa_scannedProjectsCount := fa_scannedProjectsCount a;
  fa_scannedGroupsCount := fa_scannedGroupsCount a + 1
|}.

Definition AddDiscoveredGroup (a : fleetAccumulator) (g : option DiscoveredGroup) : fleetAccumulator :=
  match g with None => a | Some g => addTargetGroup a (toTargetGroup g) end.

Definition AddGroup (a : fleetAccumulator) (g : option Group) : fleetAccumulator :=
  match g with
  | None => a
  | Some g => addTargetGroup a {|
      tg_ID := g_ID g; tg_Name := g_Name g; tg_Path := g_Path g; tg_FullPath := g_FullPath g;
      tg_ParentID := g_ParentID g; tg_Raw := Some g |}
  end.

Definition toTargetProject (p : Project) (parentGroupID : Z) : TargetProject := {|
  tp_ID := p_ID p; tp_Name := p_Name p; tp_Path := p_Path p; tp_PathWithNamespace := p_PathWithNamespace p;
  tp_DefaultBranch := p_DefaultBranch p; tp_Visibility := p_Visibility p; tp_Archived := p_Archived p;
  tp_MarkedForDeletion := is_some (p_MarkedForDeletionAt p); tp_MarkedForDeletionAt := p_MarkedForDeletionAt p;
  tp_Topics := extractProjectTopics p; tp_NamespaceFullPath := extractProjectNamespace p;
  tp_ParentGroupID := parentGroupID; tp_Raw := Some p
|}.

Definition AddProjectIfMatches (a : fleetAccumulator) (p : option Project) (filter : option ProjectFilter)
    (parentGroupID : Z) : bool * fleetAccumulator :=
  match p with
  | None => (false, a)
  | Some p =>
      let counted projects := {|
        fa_projects := projects; fa_groups := fa_groups a;
        fa_scannedProjectsCount := fa_scannedProjectsCount a + 1;
        fa_scannedGroupsCount := fa_scannedGroupsCount a |} in
      if is_some filter && negb (Matches filter (Some p)) then (false, counted (fa_projects a))
      else (true, counted (match fa_projects a !! p_ID p with
                           | Some _ => fa_projects a
                           | None => <[p_ID p := toTargetProject p parentGroupID]> (fa_projects a)
                           end))
  end.

Definition ToFleet (a : fleetAccumulator) : TargetFleet := {|
  tf_Projects := fa_projects a; tf_Groups := fa_groups a;
  tf_ScannedProjectsCount := fa_scannedProjectsCount a; tf_ScannedGroupsCount := fa_scannedGroupsCount a;
  tf_MatchedProjectsCount := Z.of_nat (size (fa_projects a));
  tf_MatchedGroupsCount := Z.of_nat (size (fa_groups a))
|}.

(** ** The scan of the groups *)

(** A goroutine and its stream: the stream still runs, or its items are being
    read off the channel, or the goroutine has returned.  The stream's goroutine
    may run ahead of its reader; the reader touches the accumulator only and the
    stream the server only, so the model lets the stream end first. *)
Inductive scanner : Type :=
| Streaming (p : GP (list (StreamItem (option Project))))
| Consuming (rest : list (StreamItem (option Project)))
| ScanReturned.

Definition is_returned (s : scanner) : bool := match s with ScanReturned => true | _ => false end.

Variant scan_label : Type :=
| Spawn         (* the loop's [select] acquires the semaphore and starts a goroutine *)
| SpawnCanceled (* ... or sees [ctx.Done()] *)
| Move (i : nat) (* the goroutine of the i-th group moves on *).

(** The shared state; [sc_canceled] is the early return of the loop. *)
Record scan (W : Type) : Type := {
  sc_todo : list DiscoveredGroup;
  sc_scanners : list (DiscoveredGroup * scanner);
  sc_acc : fleetAccumulator;
  sc_errs : list error;
  sc_canceled : option error;
  sc_world : W
}.
Arguments Build_scan {W}. Arguments sc_todo {W}. Arguments sc_scanners {W}. Arguments sc_acc {W}.
Arguments sc_errs {W}. Arguments sc_canceled {W}. Arguments sc_world {W}.

Record discoveryCoordinator : Type := {
  dc_targets : TargetSelectors;
  dc_concurrency : Z;
  dc_streamOpts : StreamOptions
}.

Definition stream_error (g : DiscoveredGroup) (e : error) : error :=
  ErrWrap ("failed to stream projects for group " +:+ Itoa (dg_ID g) +:+ " (" +:+ dg_FullPath g +:+ "): ") e.

Section Scan.
Context `{GoQuery} {W : Type} (h : handler GitLabE W) (streamFuel : nat).
Context (dc : discoveryCoordinator) (filter : option ProjectFilter) (cap : nat).

Definition group_stream (g : DiscoveredGroup) : GP (list (StreamItem (option Project))) :=
  StreamGroupProjects streamFuel (dg_ID g) (dc_streamOpts dc).

(** One move of a goroutine: what becomes of it, the accumulator, the error
    channel (with room for [cap] errors, and [select]'s [default]) and the
    server. *)
Definition move_scanner (g : DiscoveredGroup) (s : scanner) (acc : fleetAccumulator) (errs : list error) (w : W)
  : option (scanner * fleetAccumulator * list error * W) :=
  match s with
  | Streaming (Ret items) => Some (Consuming items, acc, errs, w)
  | Streaming p => match advance h p w with Some (p', w') => Some (Streaming p', acc, errs, w') | None => None end
  | Consuming [] => Some (ScanReturned, acc, errs, w)
  | Consuming (ItemErr err :: _) =>
      Some (ScanReturned, acc, if (length errs <? cap)%nat then errs ++ [stream_error g err] else errs, w)
  | Consuming (ItemValue p :: rest) =>
      Some (Consuming rest, (AddProjectIfMatches acc p filter (dg_ID g)).2, errs, w)
  | ScanReturned => None
  end.

(** The goroutines that hold the semaphore. *)
Definition running_scanners (l : list (DiscoveredGroup * scanner)) : nat :=
  length (List.filter (fun gs => negb (is_returned gs.2)) l).

Definition scan_step (l : scan_label) (s : scan W) : option (scan W) :=
  match l with
  | Spawn =>
      match sc_todo s, sc_canceled s with
      | g :: todo, None =>
          if (running_scanners (sc_scanners s) <? Z.to_nat (dc_concurrency dc))%nat
          then Some {| sc_todo := todo; sc_scanners := sc_scanners s ++ [(g, Streaming (group_stream g))];
                       sc_acc := sc_acc s; sc_errs := sc_errs s; sc_canceled := None; sc_world := sc_world s |}
          else None
      | _, _ => None
      end
  | SpawnCanceled =>
      match sc_todo s, sc_canceled s with
      | _ :: _, None =>
          let '(done_, w') := h _ (Context_ CtxErr) (sc_world s) in
          match done_ with
          | Some err => Some {| sc_todo := sc_todo s; sc_scanners := sc_scanners s; sc_acc := sc_acc s;
                                sc_errs := sc_errs s; sc_canceled := Some err; sc_world := w' |}
          | None => None
          end
      | _, _ => None
      end
  | Move i =>
      match sc_scanners s !! i with
      | Some (g, sc) =>
          match move_scanner g sc (sc_acc s) (sc_errs s) (sc_world s) with
          | Some (sc', acc', errs', w') =>
              Some {| sc_todo := sc_todo s; sc_scanners := <[i := (g, sc')]> (sc_scanners s); sc_acc := acc';
                      sc_errs := errs'; sc_canceled := sc_canceled s; sc_world := w' |}
          | None => None
          end
      | None => None
      end
  end.

Fixpoint scan_steps (ls : list scan_label) (s : scan W) : option (scan W) :=
  match ls with
  | [] => Some s
  | l :: rest => match scan_step l s with Some s' => scan_steps rest s' | None => None end
  end.

End Scan.

Definition scan_start {W} (groups : list DiscoveredGroup) (acc : fleetAccumulator) (w : W) : scan W := {|
  sc_todo := groups; sc_scanners := []; sc_acc := acc; sc_errs := []; sc_canceled := None; sc_world := w
|}.

(** [wg.Wait()] is over. *)
Definition scan_over {W} (s : scan W) : bool :=
  match sc_todo s with [] => forallb (fun gs => is_returned gs.2) (sc_scanners s) | _ => false end.

(** [scanGroupProjects]: the schedule must be a complete execution, up to the
    early return or to the end of [wg.Wait()]. *)
Definition scanGroupProjects `{GoQuery} {W} (h : handler GitLabE W) (streamFuel : nat) (dc : discoveryCoordinator)
    (groups : list DiscoveredGroup) (filter : option ProjectFilter) (acc : fleetAccumulator)
    (schedule : list scan_label) (w : W) : option (option error * fleetAccumulator * W) :=
  match scan_steps h streamFuel dc filter (length groups) schedule (scan_start groups acc w) with
  | Some s =>
      match sc_canceled s with
      | Some err => Some (Some err, sc_acc s, sc_world s)
      | None => if scan_over s then Some (head (sc_errs s), sc_acc s, sc_world s) else None
      end
  | None => None
  end.

(** ** The scan of the instance *)

Fixpoint consumeInstance (items : list (StreamItem (option Project))) (filter : option ProjectFilter)
    (acc : fleetAccumulator) : GP (option error * fleetAccumulator) :=
  match items with
  | [] => mret (None, acc)
  | item :: rest =>
      done_ ← call (Context_ CtxErr);
      match done_ with
      | Some err => mret (Some err, acc)
      | None =>
          match item with
          | ItemErr err => mret (Some (ErrWrap "failed to stream instance projects: " err), acc)
          | ItemValue p => consumeInstance rest filter (AddProjectIfMatches acc p filter 0).2
          end
      end
  end.

Definition scanInstanceProjects `{GoQuery} (streamFuel : nat) (dc : discoveryCoordinator)
    (filter : option ProjectFilter) (acc : fleetAccumulator) : GP (option error * fleetAccumulator) :=
  items ← StreamProjects streamFuel (dc_streamOpts dc);
  consumeInstance items filter acc.

(** ** The coordinator *)

(** How many queue items and pages of subgroups the traversal may take, and how
    many pages a stream. *)
Record discoveryFuel : Type := { df_tree : nat; df_pages : nat; df_stream : nat }.

Definition Execute `{GoRegexp} `{GoQuery} {W} (h : handler GitLabE W) (fuel : discoveryFuel)
    (dc : discoveryCoordinator) (schedule : list scan_label) (w : W) : option ((error + TargetFleet) * W) :=
  match NewProjectFilter (ts_ProjectSelector (dc_targets dc)) with
  | inl err => Some (inl (ErrWrap "failed to initialize project filter: " err), w)
  | inr projectFilter =>
      match ts_GroupSelector (dc_targets dc) with
      | Some selector =>
          let '(groups, w) := run h (Traverse (df_tree fuel) (df_pages fuel) default_maxDepth (Some selector)) w in
          match groups with
          | inl err => Some (inl (ErrWrap "group discovery failed: " err), w)
          | inr groups =>
              let acc := foldl AddDiscoveredGroup newFleetAccumulator (Some <$> groups) in
              if (0 <? length groups)%nat then
                '(err, acc, w) ← scanGroupProjects h (df_stream fuel) dc groups (Some projectFilter) acc schedule w;
                Some (match err with Some err => inl err | None => inr (ToFleet acc) end, w)
              else Some (inr (ToFleet acc), w)
          end
      | None =>
          let '((err, acc), w) :=
            run h (scanInstanceProjects (df_stream fuel) dc (Some projectFilter) newFleetAccumulator) w in
          Some (match err with Some err => inl err | None => inr (ToFleet acc) end, w)
      end
  end.

(** [DiscoverFleet] with the option [WithConcurrency(c)], on a client that is
    not nil. *)
Definition DiscoverFleet `{GoRegexp} `{GoQuery} {W} (h : handler GitLabE W) (fuel : discoveryFuel)
    (targets : TargetSelectors) (concurrency : Z) (schedule : list scan_label) (w : W)
  : option ((error + TargetFleet) * W) :=
  Execute h fuel {| dc_targets := targets; dc_concurrency := if 0 <? concurrency then concurrency else 10;
                    dc_streamOpts := DefaultStreamOptions |} schedule w.

(** ** What a scan adds *)

(** A project and the group it was listed under. *)
Abbreviation addition := (option Project * Z)%type.

Definition add_all (filter : option ProjectFilter) (log : list addition) (acc : fleetAccumulator) : fleetAccumulator :=
  foldl (fun a e => (AddProjectIfMatches a e.1 filter e.2).2) acc log.

(** What a group's stream adds, up to its first error, and that error. *)
Definition adds (g : DiscoveredGroup) (items : list (StreamItem (option Project))) : list addition :=
  (fun p => (p, dg_ID g)) <$> (CollectAll items []).1.
Definition fails (g : DiscoveredGroup) (items : list (StreamItem (option Project))) : list error :=
  option_list (stream_error g <$> (CollectAll items []).2).

(** [p], listed under [parent], is of the target fleet. *)
Definition in_fleet (filter : option ProjectFilter) (log : list addition) (p : Project) (parent : Z) : Prop :=
  (Some p, parent) ∈ log /\ Matches filter (Some p) = true.

Lemma adds_cons g p rest : adds g (ItemValue p :: rest) = (p, dg_ID g) :: adds g rest.
Proof. unfold adds. simpl. by rewrite CollectAll_acc. Qed.

Lemma fails_cons g p rest : fails g (ItemValue p :: rest) = fails g rest.
Proof. unfold fails. simpl. by rewrite CollectAll_acc. Qed.

Lemma add_all_app filter log1 log2 acc : add_all filter (log1 ++ log2) acc = add_all filter log2 (add_all filter log1 acc).
Proof. apply foldl_app. Qed.

Lemma Matches_nil_filter p : Matches None (Some p) = true.
Proof. done. Qed.

Lemma add_step filter acc p parent :
  let acc' := (AddProjectIfMatches acc (Some p) filter parent).2 in
  fa_groups acc' = fa_groups acc /\ fa_scannedGroupsCount acc' = fa_scannedGroupsCount acc /\
  fa_scannedProjectsCount acc' = fa_scannedProjectsCount acc + 1 /\
  fa_projects acc' = if Matches filter (Some p) then
                       match fa_projects acc !! p_ID p with
                       | Some _ => fa_projects acc
                       | None => <[p_ID p := toTargetProject p parent]> (fa_projects acc)
                       end
                     else fa_projects acc.
Proof.
  simpl. destruct filter as [pf|]; simpl; [|done]. by destruct (Matches (Some pf) (Some p)).
Qed.

(** A log leaves the groups alone and counts every project; an identifier maps
    to a target made of one of its matching listings, if it has any. *)
Lemma add_all_spec filter log acc :
  let acc' := add_all filter log acc in
  fa_groups acc' = fa_groups acc /\ fa_scannedGroupsCount acc' = fa_scannedGroupsCount acc /\
  fa_scannedProjectsCount acc' = fa_scannedProjectsCount acc + Z.of_nat (length (omap fst log)) /\
  (forall i t, fa_projects acc' !! i = Some t ->
     fa_projects acc !! i = Some t \/ exists p parent, in_fleet filter log p parent /\ p_ID p = i /\ t = toTargetProject p parent) /\
  (forall i, is_Some (fa_projects acc' !! i) <->
     is_Some (fa_projects acc !! i) \/ exists p parent, in_fleet filter log p parent /\ p_ID p = i).
Proof.
  unfold in_fleet. cbv zeta. revert acc. induction log as [|[[p|] parent] log IH]; intros acc.
  - simpl. split; [done|]. split; [done|]. split; [lia|]. split; [by left|]. intros i. split; [by left|].
    intros [|(p & q & [H _] & _)]; [done|]. by apply elem_of_nil in H.
  - destruct (add_step filter acc p parent) as (Hg & Hc & Hn & Hp).
    change (add_all filter ((Some p, parent) :: log) acc) with
      (add_all filter log (AddProjectIfMatches acc (Some p) filter parent).2).
    destruct (IH (AddProjectIfMatches acc (Some p) filter parent).2) as (Ig & Ic & In & Isrc & Idom).
    split; [congruence|]. split; [congruence|].
    split; [rewrite In, Hn; cbn [omap list_omap fst length]; lia|]. split.
    + intros i t Ht. destruct (Isrc _ _ Ht) as [Ha|(q & pa & [Hq Hm] & Hi)].
      * rewrite Hp in Ha. destruct (Matches filter (Some p)) eqn:Hm; [|by left].
        destruct (fa_projects acc !! p_ID p) eqn:Hl; [by left|]. apply lookup_insert_Some in Ha as [[<- <-]|[_ ?]]; [|by left].
        right. exists p, parent. split; [|done]. split; [left|done].
      * right. exists q, pa. split; [|done]. split; [by right|done].
    + intros i. rewrite Idom, Hp. setoid_rewrite elem_of_cons. split.
      * intros [Ha|(q & pa & [Hq Hm] & Hi)]; [|right; exists q, pa; auto].
        destruct (Matches filter (Some p)) eqn:Hm; [|by left].
        destruct (fa_projects acc !! p_ID p) eqn:Hl; [by left|].
        apply lookup_insert_is_Some in Ha as [<-|[_ ?]]; [|by left]. right. exists p, parent. auto.
      * intros [Ha|(q & pa & [[[= -> ->]|Hq] Hm] & Hi)]; [left|left|right; exists q, pa; auto].
        -- destruct (Matches filter (Some p)); [|done]. destruct (fa_projects acc !! p_ID p); [done|].
           apply lookup_insert_is_Some. destruct (decide (p_ID p = i)); auto.
        -- rewrite Hm. destruct (fa_projects acc !! p_ID p) eqn:Hl; [rewrite <- Hi, Hl; eauto|].
           rewrite Hi, lookup_insert, decide_True; eauto.
  - change (add_all filter ((None, parent) :: log) acc) with (add_all filter log acc).
    destruct (IH acc) as (Ig & Ic & In & Isrc & Idom).
    split; [done|]. split; [done|]. split; [done|]. split.
    + intros i t Ht. destruct (Isrc _ _ Ht) as [|(q & pa & [Hq Hm] & Hi)]; [by left|right]. exists q, pa.
      split; [|done]. split; [by right|done].
    + intros i. rewrite Idom. setoid_rewrite elem_of_cons. naive_solver.
Qed.

(** ** Lemmas: executions of the scan *)

Section ScanInv.
Context `{GoQuery} {W : Type} (h : handler GitLabE W) (w : W) (streamFuel : nat).
Context (dc : discoveryCoordinator) (filter : option ProjectFilter).
Context (groups : list DiscoveredGroup) (acc0 : fleetAccumulator).
Context (Hstable : stable_reads h).

Abbreviation the_stream := (group_stream streamFuel dc).
Abbreviation the_step := (scan_step h streamFuel dc filter (length groups)).
Abbreviation the_steps := (scan_steps h streamFuel dc filter (length groups)).

(** What the stream of a group comes to, and what a goroutine has still to
    read. *)
Definition streamed (g : DiscoveredGroup) : list (StreamItem (option Project)) := (run h (the_stream g) w).1.

Definition left_of (s : scanner) : list (StreamItem (option Project)) :=
  match s with
  | Streaming p => (run h p w).1
  | Consuming rest => rest
  | ScanReturned => []
  end.

Definition pure_stream (s : scanner) : Prop := match s with Streaming p => reads p | _ => True end.

(** [log] is what was added so far, in order; together with what is still to
    come it is everything that the streams add, and the same for the errors. *)
Record ScanInv (s : scan W) (log : list addition) : Prop := {
  si_world : sc_world s = w;
  si_acc : sc_acc s = add_all filter log acc0;
  si_adds : log ++ (sc_todo s ≫= fun g => adds g (streamed g))
              ++ (sc_scanners s ≫= fun gs => adds gs.1 (left_of gs.2))
            ≡ₚ groups ≫= fun g => adds g (streamed g);
  si_errs : sc_errs s ++ (sc_todo s ≫= fun g => fails g (streamed g))
              ++ (sc_scanners s ≫= fun gs => fails gs.1 (left_of gs.2))
            ≡ₚ groups ≫= fun g => fails g (streamed g);
  si_reads : Forall (fun gs => pure_stream gs.2) (sc_scanners s)
}.

Lemma the_stream_reads g : reads (the_stream g).
Proof. apply StreamAll_reads. intros o. by apply reads_call. Qed.

Lemma fails_length (l : list DiscoveredGroup) (f : DiscoveredGroup -> list (StreamItem (option Project))) :
  (length (l ≫= fun g => fails g (f g)) <= length l)%nat.
Proof.
  induction l as [|g l IH]; [done|]. rewrite bind_cons, length_app. simpl.
  enough (length (fails g (f g)) <= 1)%nat by lia. unfold fails.
  destruct (CollectAll (f g) []).2; simpl; lia.
Qed.

Lemma ScanInv_init : ScanInv (scan_start groups acc0 w) [].
Proof. constructor; simpl; rewrite ?app_nil_r; done. Qed.

Lemma ScanInv_spawn s log g todo :
  ScanInv s log -> sc_todo s = g :: todo ->
  ScanInv {| sc_todo := todo; sc_scanners := sc_scanners s ++ [(g, Streaming (the_stream g))];
             sc_acc := sc_acc s; sc_errs := sc_errs s; sc_canceled := None; sc_world := sc_world s |} log.
Proof.
  intros [Hw Ha Hadd Herr Hr] Ht. rewrite Ht in Hadd, Herr. constructor; simpl; [done|done| | |].
  - rewrite <- Hadd, bind_app, bind_cons. simpl. rewrite app_nil_r. fold (streamed g). solve_Permutation.
  - rewrite <- Herr, bind_app, bind_cons. simpl. rewrite app_nil_r. fold (streamed g). solve_Permutation.
  - apply Forall_app. split; [done|]. constructor; [apply the_stream_reads|done].
Qed.

(** A goroutine has moved on: what it has added or reported is no longer to
    come. *)
Lemma ScanInv_update s log i g sc sc' acc' errs' d de :
  ScanInv s log -> sc_scanners s !! i = Some (g, sc) ->
  adds g (left_of sc) = d ++ adds g (left_of sc') -> fails g (left_of sc) = de ++ fails g (left_of sc') ->
  acc' = add_all filter d (sc_acc s) -> errs' = sc_errs s ++ de ->
  pure_stream sc' ->
  ScanInv {| sc_todo := sc_todo s; sc_scanners := <[i := (g, sc')]> (sc_scanners s); sc_acc := acc';
             sc_errs := errs'; sc_canceled := sc_canceled s; sc_world := w |} (log ++ d).
Proof.
  intros [Hw Ha Hadd Herr Hr] Hi Hd Hde -> -> Hrd. constructor; simpl; [done|by rewrite Ha, add_all_app| | |].
  - rewrite <- Hadd. rewrite (bind_insert_perm (fun gs => adds gs.1 (left_of gs.2)) _ i (g, sc) (g, sc') d Hi); [|simpl; by rewrite Hd].
    solve_Permutation.
  - rewrite <- Herr. rewrite (bind_insert_perm (fun gs => fails gs.1 (left_of gs.2)) _ i (g, sc) (g, sc') de Hi); [|simpl; by rewrite Hde].
    solve_Permutation.
  - by apply Forall_insert.
Qed.

Lemma scan_move_Inv s log i s' :
  ScanInv s log -> the_step (Move i) s = Some s' ->
  exists d, ScanInv s' (log ++ d) /\ sc_canceled s' = sc_canceled s.
Proof using All.
  intros HI. pose proof HI as [Hw _ _ Herr Hr]. simpl. destruct (sc_scanners s !! i) as [[g sc]|] eqn:Hi; [|done].
  rewrite Hw. destruct sc as [[items|X e k]|[|[p|err] rest]|]; simpl.
  - intros [= <-]. exists []. split; [|done].
    by eapply (ScanInv_update _ _ _ g (Streaming (Ret items)) (Consuming items) _ _ [] []); rewrite ?app_nil_r.
  - assert (reads (Vis e k)) as Hk by exact (proj1 (Forall_lookup _ _) Hr _ _ Hi).
    destruct (h X e w) as [x w'] eqn:He. intros [= <-]. exists [].
    destruct (advance_reads h (Vis e k) (k x) w w' Hstable Hk) as [Hk' ->]; [simpl; by rewrite He|]. split; [|done].
    eapply (ScanInv_update _ _ _ g (Streaming (Vis e k)) (Streaming (k x)) _ _ [] []); rewrite ?app_nil_r; try done;
      simpl; by rewrite He.
  - intros [= <-]. exists []. split; [|done].
    by eapply (ScanInv_update _ _ _ g (Consuming []) ScanReturned _ _ [] []); rewrite ?app_nil_r.
  - intros [= <-]. exists [(p, dg_ID g)]. split; [|done].
    eapply (ScanInv_update _ _ _ g (Consuming (ItemValue p :: rest)) (Consuming rest) _ _ [(p, dg_ID g)] []);
      rewrite ?app_nil_r; try done; simpl; by rewrite ?adds_cons, ?fails_cons.
  - assert (length (sc_errs s) < length groups)%nat as Hlen.
    { pose proof (fails_length groups streamed) as Hf. rewrite <- (Permutation_length Herr), !length_app in Hf.
      rewrite (Permutation_length (bind_insert_perm (fun gs => fails gs.1 (left_of gs.2)) _ i _ (g, ScanReturned)
        [stream_error g err] Hi ltac:(done))) in Hf. simpl in Hf. lia. }
    rewrite (proj2 (Nat.ltb_lt _ _) Hlen). intros [= <-]. exists []. split; [|done].
    by eapply (ScanInv_update _ _ _ g (Consuming (ItemErr err :: rest)) ScanReturned _ _ [] [stream_error g err]);
      rewrite ?app_nil_r.
  - done.
Qed.

(** Cancelled or not, a scan leaves the server as it was. *)
Lemma scan_step_world l s s' :
  sc_world s = w -> Forall (fun gs => pure_stream gs.2) (sc_scanners s) -> the_step l s = Some s' ->
  sc_world s' = w /\ Forall (fun gs => pure_stream gs.2) (sc_scanners s').
Proof using Hstable.
  intros Hw Hr. destruct l as [| |i]; simpl.
  - destruct (sc_todo s) as [|g todo]; [done|]. destruct (sc_canceled s); [done|]. destruct (_ <? _)%nat; [|done].
    intros [= <-]. simpl. split; [done|]. apply Forall_app. split; [done|]. constructor; [apply the_stream_reads|done].
  - destruct (sc_todo s); [done|]. destruct (sc_canceled s); [done|].
    pose proof (Hstable _ (Context_ CtxErr) (sc_world s) eq_refl) as Hc. destruct (h _ _ _) as [[err|] w1]; [|done].
    simpl in Hc. subst w1. intros [= <-]. done.
  - destruct (sc_scanners s !! i) as [[g sc]|] eqn:Hi; [|done]. rewrite Hw.
    pose proof (proj1 (Forall_lookup _ _) Hr _ _ Hi) as Hsc. simpl in Hsc.
    destruct sc as [[items|X e k]|[|[p|err] rest]|]; simpl; try (intros [= <-]; simpl; split; [done|by apply Forall_insert]).
    + destruct (h X e w) as [x w'] eqn:He. intros [= <-]. simpl.
      destruct (advance_reads h (Vis e k) (k x) w w' Hstable Hsc) as [Hk ->]; [simpl; by rewrite He|].
      split; [done|]. by apply Forall_insert.
    + done.
Qed.

Lemma scanGroupProjects_world schedule err acc w' :
  scanGroupProjects h streamFuel dc groups filter acc0 schedule w = Some (err, acc, w') -> w' = w.
Proof using Hstable.
  unfold scanGroupProjects. destruct (the_steps _ _) as [s|] eqn:Hs; [|done].
  enough (sc_world s = w) as Hw by (destruct (sc_canceled s); [|destruct (scan_over s)]; intros; simplify_eq; done).
  assert (sc_world (scan_start groups acc0 w) = w /\
    Forall (fun gs => pure_stream gs.2) (sc_scanners (scan_start groups acc0 w))) as H0 by done.
  revert H0 Hs. generalize (scan_start groups acc0 w). induction schedule as [|l ls IH]; intros s0 [Hw Hr]; simpl.
  { by intros [= <-]. }
  destruct (the_step l s0) as [s1|] eqn:Hl; [|done]. apply IH. by apply (scan_step_world l s0).
Qed.

Context (Halive : h _ (Context_ CtxErr) w = (None, w)).

Lemma scan_step_Inv s log l s' :
  ScanInv s log -> sc_canceled s = None -> the_step l s = Some s' ->
  exists d, ScanInv s' (log ++ d) /\ sc_canceled s' = None.
Proof using All.
  intros HI Hc. destruct l as [| |i].
  - simpl. destruct (sc_todo s) as [|g todo] eqn:Ht; [done|]. rewrite Hc. destruct (_ <? _)%nat; [|done].
    intros [= <-]. exists []. rewrite app_nil_r. split; [by apply ScanInv_spawn|done].
  - simpl. destruct (sc_todo s); [done|]. rewrite Hc, (si_world _ _ HI), Halive. done.
  - intros Hs. destruct (scan_move_Inv _ _ _ _ HI Hs) as (d & ? & Hcs). exists d. by rewrite Hcs.
Qed.

Lemma scan_steps_Inv ls s log s' :
  ScanInv s log -> sc_canceled s = None -> the_steps ls s = Some s' ->
  exists d, ScanInv s' (log ++ d) /\ sc_canceled s' = None.
Proof using All.
  revert s log. induction ls as [|l ls IH]; intros s log HI Hc; simpl.
  { intros [= <-]. exists []. by rewrite app_nil_r. }
  destruct (the_step l s) as [s1|] eqn:Hl; [|done]. destruct (scan_step_Inv _ _ _ _ HI Hc Hl) as (d1 & H1 & Hc1).
  intros Hs. destruct (IH _ _ H1 Hc1 Hs) as (d2 & ? & ?). exists (d1 ++ d2). by rewrite app_assoc.
Qed.

(** How many moves are left, at most. *)
Definition moves_left (s : scanner) : nat :=
  match s with
  | Streaming p => length (calls h p w) + length (run h p w).1 + 2
  | Consuming rest => length rest + 1
  | ScanReturned => 0
  end.

Definition scan_measure (s : scan W) : nat :=
  sum_list_with (fun g => S (moves_left (Streaming (the_stream g)))) (sc_todo s) +
  sum_list_with (fun gs => moves_left gs.2) (sc_scanners s).

Lemma move_left g sc acc errs sc' acc' errs' w' :
  pure_stream sc -> move_scanner h filter (length groups) g sc acc errs w = Some (sc', acc', errs', w') ->
  w' = w /\ (S (moves_left sc') <= moves_left sc)%nat.
Proof using Hstable.
  intros Hr. destruct sc as [[items|X e k]|[|[p|err] rest]|]; cbn [move_scanner]; intros Hm.
  - injection Hm as <- <- <- <-. simpl. split; [done|lia].
  - destruct (advance h (Vis e k) w) as [[p' w1]|] eqn:He; [|done]. injection Hm as <- <- <- <-.
    destruct (advance_reads h _ _ _ _ Hstable Hr He) as [_ ->]. split; [done|]. cbn [moves_left].
    rewrite (run_advance _ _ _ _ _ He), (calls_advance _ _ _ _ _ He). lia.
  - injection Hm as <- <- <- <-. simpl. split; [done|lia].
  - injection Hm as <- <- <- <-. simpl. split; [done|lia].
  - injection Hm as <- <- <- <-. simpl. split; [done|lia].
  - done.
Qed.

Lemma scan_step_measure s log l s' :
  ScanInv s log -> sc_canceled s = None -> the_step l s = Some s' -> (S (scan_measure s') <= scan_measure s)%nat.
Proof using All.
  intros [Hw _ _ _ Hr] Hc. unfold scan_measure. destruct l as [| |i]; simpl.
  - destruct (sc_todo s) as [|g todo]; [done|]. rewrite Hc. destruct (_ <? _)%nat; [|done]. intros [= <-]. simpl.
    rewrite sum_list_with_app. simpl. lia.
  - destruct (sc_todo s); [done|]. rewrite Hc, Hw, Halive. done.
  - destruct (sc_scanners s !! i) as [[g sc]|] eqn:Hi; [|done]. rewrite Hw.
    destruct (move_scanner _ _ _ _ _ _ _ _) as [[[[sc' acc'] errs'] w']|] eqn:Hm; [|done]. intros [= <-]. simpl.
    destruct (move_left _ _ _ _ _ _ _ _ (proj1 (Forall_lookup _ _) Hr _ _ Hi) Hm) as [_ Hle].
    pose proof (sum_list_insert (fun gs => moves_left gs.2) _ _ _ (g, sc') Hi). simpl in *. lia.
Qed.

(** A scan that is not over can go on. *)
Lemma scan_progress s log :
  ScanInv s log -> sc_canceled s = None -> 0 < dc_concurrency dc -> scan_over s = false ->
  exists l s', the_step l s = Some s'.
Proof.
  intros [Hw _ _ _ Hr] Hc Hpos Hover. destruct (forallb (fun gs => is_returned gs.2) (sc_scanners s)) eqn:Hall.
  - unfold scan_over in Hover. destruct (sc_todo s) as [|g todo] eqn:Ht; [congruence|]. exists Spawn. simpl. rewrite Ht, Hc.
    assert (running_scanners (sc_scanners s) = 0%nat) as ->; [|rewrite (proj2 (Nat.ltb_lt 0 _)) by lia; eauto].
    unfold running_scanners. clear -Hall. induction (sc_scanners s) as [|gs l IH]; [done|]. simpl in *.
    apply andb_true_iff in Hall as [-> Hl]. by apply IH.
  - assert (exists i g sc, sc_scanners s !! i = Some (g, sc) /\ is_returned sc = false) as (i & g & sc & Hi & Hsc).
    { clear -Hall. induction (sc_scanners s) as [|[g sc] l IH]; [done|]. simpl in Hall.
      destruct (is_returned sc) eqn:E; [destruct (IH Hall) as (i & ? & ? & ?); by exists (S i); eauto|by exists 0%nat, g, sc]. }
    exists (Move i). simpl. rewrite Hi. destruct sc as [[items|X e k]|[|[p|err] rest]|]; simpl; eauto; [|done].
    destruct (h X e (sc_world s)). eauto.
Qed.

Lemma scan_can_finish s log :
  ScanInv s log -> sc_canceled s = None -> 0 < dc_concurrency dc ->
  exists ls s', the_steps ls s = Some s' /\ scan_over s' = true.
Proof using All.
  remember (scan_measure s) as m eqn:Hm. revert s log Hm.
  induction (lt_wf m) as [m _ IH]; intros s log -> HI Hc Hpos.
  destruct (scan_over s) eqn:Ho; [by exists [], s|].
  destruct (scan_progress _ _ HI Hc Hpos Ho) as (l & s1 & Hl). pose proof (scan_step_measure _ _ _ _ HI Hc Hl).
  destruct (scan_step_Inv _ _ _ _ HI Hc Hl) as (d & HI1 & Hc1).
  destruct (IH (scan_measure s1) ltac:(lia) s1 _ eq_refl HI1 Hc1 Hpos) as (ls & s' & Hs & Hf).
  exists (l :: ls), s'. simpl. by rewrite Hl.
Qed.

Lemma scan_steps_measure ls s log s' :
  ScanInv s log -> sc_canceled s = None -> the_steps ls s = Some s' -> (length ls + scan_measure s' <= scan_measure s)%nat.
Proof using All.
  revert s log. induction ls as [|l ls IH]; intros s log HI Hc; simpl; [intros [= <-]; lia|].
  destruct (the_step l s) as [s1|] eqn:Hl; [|done]. destruct (scan_step_Inv _ _ _ _ HI Hc Hl) as (d & H1 & Hc1).
  pose proof (scan_step_measure _ _ _ _ HI Hc Hl). intros Hs. specialize (IH _ _ H1 Hc1 Hs). lia.
Qed.

Lemma scan_steps_app ls1 ls2 s :
  the_steps (ls1 ++ ls2) s = match the_steps ls1 s with Some s' => the_steps ls2 s' | None => None end.
Proof. revert s. induction ls1 as [|l ls1 IH]; intros s; simpl; [done|]. by destruct (the_step l s). Qed.

(** A complete execution has added everything and reported every error. *)
Lemma scan_complete schedule err acc w' :
  scanGroupProjects h streamFuel dc groups filter acc0 schedule w = Some (err, acc, w') ->
  w' = w /\ exists log errs,
    acc = add_all filter log acc0 /\ err = head errs /\
    log ≡ₚ (groups ≫= fun g => adds g (streamed g)) /\ errs ≡ₚ groups ≫= fun g => fails g (streamed g).
Proof using All.
  unfold scanGroupProjects. destruct (the_steps _ _) as [s|] eqn:Hs; [|done].
  destruct (scan_steps_Inv _ _ _ _ ScanInv_init eq_refl Hs) as (log & [Hw Ha Hadd Herr _] & Hc). rewrite Hc.
  unfold scan_over. destruct (sc_todo s); [|done]. destruct (forallb _ _) eqn:Hall; [|done]. intros [= <- <- <-].
  split; [done|]. exists log, (sc_errs s).
  assert (forall B (f : DiscoveredGroup -> list (StreamItem (option Project)) -> list B), (forall g, f g [] = []) ->
    (sc_scanners s ≫= fun gs => f gs.1 (left_of gs.2)) = []) as Hnil.
  { intros B f Hf. clear -Hall Hf. induction (sc_scanners s) as [|[g sc] l IH]; [done|]. simpl in Hall.
    apply andb_true_iff in Hall as [Hsc Hl]. destruct sc; try done. rewrite bind_cons. simpl. by rewrite Hf, (IH Hl). }
  rewrite Hnil in Hadd, Herr by done. simpl in Hadd, Herr. rewrite !app_nil_r in Hadd, Herr. done.
Qed.

End ScanInv.

Lemma add_groups_spec groups acc :
  let acc' := foldl AddDiscoveredGroup acc (Some <$> groups) in
  fa_projects acc' = fa_projects acc /\ fa_scannedProjectsCount acc' = fa_scannedProjectsCount acc /\
  fa_scannedGroupsCount acc' = fa_scannedGroupsCount acc + Z.of_nat (length groups) /\
  (forall i t, fa_groups acc' !! i = Some t ->
     fa_groups acc !! i = Some t \/ exists g, g ∈ groups /\ dg_ID g = i /\ t = toTargetGroup g) /\
  (forall i, is_Some (fa_groups acc' !! i) <-> is_Some (fa_groups acc !! i) \/ i ∈ dg_ID <$> groups).
Proof.
  cbv zeta. revert acc. induction groups as [|g groups IH]; intros acc.
  { simpl. split; [done|]. split; [done|]. split; [lia|]. split; [by left|]. intros i. rewrite elem_of_nil. tauto. }
  rewrite !fmap_cons. change (foldl AddDiscoveredGroup acc (Some g :: (Some <$> groups))) with
    (foldl AddDiscoveredGroup (addTargetGroup acc (toTargetGroup g)) (Some <$> groups)).
  destruct (IH (addTargetGroup acc (toTargetGroup g))) as (Ip & In & Ic & Isrc & Idom).
  split; [done|]. split; [done|]. split; [rewrite Ic; simpl; lia|].
  assert (forall i t, fa_groups (addTargetGroup acc (toTargetGroup g)) !! i = Some t ->
            fa_groups acc !! i = Some t \/ (dg_ID g = i /\ t = toTargetGroup g)) as Hone.
  { intros i t. simpl. destruct (fa_groups acc !! dg_ID g); [by left|]. rewrite lookup_insert_Some. naive_solver. }
  split.
  - intros i t Ht. destruct (Isrc _ _ Ht) as [Ha|(q & Hq & Hr)].
    + destruct (Hone _ _ Ha) as [|[]]; [by left|right]. exists g. split; [left|done].
    + right. exists q. split; [by right|done].
  - intros i. rewrite Idom, elem_of_cons. simpl. destruct (fa_groups acc !! dg_ID g) as [t|] eqn:Hl.
    + split; [tauto|]. intros [?|[->|?]]; [by left| |by right]. left. rewrite Hl. eauto.
    + rewrite lookup_insert_is_Some'. naive_solver.
Qed.

Lemma adds_elem (groups : list DiscoveredGroup) f p parent :
  (p, parent) ∈ (groups ≫= fun g => adds g (f g)) <->
  exists g, g ∈ groups /\ p ∈ (CollectAll (f g) []).1 /\ parent = dg_ID g.
Proof.
  rewrite list_elem_of_bind. unfold adds. setoid_rewrite list_elem_of_fmap. split.
  - intros (g & (q & [= <- ->] & Hq) & Hg). by exists g.
  - intros (g & Hg & Hp & ->). exists g. split; [by exists p|done].
Qed.

Lemma fails_elem (groups : list DiscoveredGroup) f err :
  err ∈ (groups ≫= fun g => fails g (f g)) <->
  exists g e, g ∈ groups /\ (CollectAll (f g) []).2 = Some e /\ err = stream_error g e.
Proof.
  rewrite list_elem_of_bind. unfold fails. split.
  - intros (g & He & Hg). destruct (CollectAll (f g) []).2 as [e|] eqn:E; [|by apply elem_of_nil in He].
    apply list_elem_of_singleton in He. by exists g, e.
  - intros (g & e & Hg & E & ->). exists g. rewrite E. split; [by apply list_elem_of_singleton|done].
Qed.

Lemma adds_count (groups : list DiscoveredGroup) f :
  length (omap fst (groups ≫= fun g => adds g (f g))) = length (omap id (groups ≫= fun g => (CollectAll (f g) []).1)).
Proof.
  induction groups as [|g l IH]; [done|]. rewrite !bind_cons, !omap_app, !length_app, IH. f_equal. unfold adds.
  generalize (CollectAll (f g) []).1. intros ps. induction ps as [|[p|] ps IHp]; simpl; [done|by f_equal|done].
Qed.

(** The coordinator in group mode is the traversal and then the scan. *)
Lemma DiscoverFleet_run `{GoRegexp} `{GoQuery} {W} (h : handler GitLabE W) w fuel targets selector pf groups
    concurrency schedule :
  ts_GroupSelector targets = Some selector -> NewProjectFilter (ts_ProjectSelector targets) = inr pf ->
  run h (Traverse (df_tree fuel) (df_pages fuel) default_maxDepth (Some selector)) w = (inr groups, w) ->
  (0 < length groups)%nat ->
  DiscoverFleet h fuel targets concurrency schedule w =
  '(err, acc, w) ← scanGroupProjects h (df_stream fuel)
    {| dc_targets := targets; dc_concurrency := if 0 <? concurrency then concurrency else 10;
       dc_streamOpts := DefaultStreamOptions |} groups (Some pf)
    (foldl AddDiscoveredGroup newFleetAccumulator (Some <$> groups)) schedule w;
  Some (match err with Some err => inl err | None => inr (ToFleet acc) end, w).
Proof.
  intros Hsel Hpf Ht Hlen. unfold DiscoverFleet, Execute. cbn [dc_targets]. rewrite Hpf, Hsel, Ht.
  by rewrite (proj2 (Nat.ltb_lt _ _) Hlen).
Qed.

Lemma scanInstanceProjects_reads `{GoQuery} streamFuel dc filter acc :
  reads (scanInstanceProjects streamFuel dc filter acc).
Proof.
  apply reads_bind; [apply StreamAll_reads; intros o; by apply reads_call|]. intros items.
  revert acc. induction items as [|item rest IH]; intros acc; cbn [consumeInstance]; [done|].
  apply reads_bind; [by apply reads_call|]. intros [err|]; [done|]. destruct item; [apply IH|done].
Qed.

(** Discovery leaves the server as it was. *)
Lemma DiscoverFleet_world `{GoRegexp} `{GoQuery} {W} (h : handler GitLabE W) fuel targets concurrency schedule w res w' :
  stable_reads h -> DiscoverFleet h fuel targets concurrency schedule w = Some (res, w') -> w' = w.
Proof.
  intros Hst. unfold DiscoverFleet, Execute. cbn [dc_targets]. destruct (NewProjectFilter _) as [err|pf]; [by intros [= _ <-]|].
  destruct (ts_GroupSelector targets) as [sel|].
  - pose proof (run_reads h (Traverse (df_tree fuel) (df_pages fuel) default_maxDepth (Some sel)) w Hst (Traverse_reads _ _ _ _)) as Ht.
    destruct (run h (Traverse _ _ _ _) w) as [[err|groups] w1]; simpl in Ht; subst w1; [by intros [= _ <-]|].
    destruct (_ <? _)%nat; [|by intros [= _ <-]].
    destruct (scanGroupProjects _ _ _ _ _ _ _ _) as [[[err acc] w1]|] eqn:Hs; [|done]. simpl. intros [= _ <-].
    by apply (scanGroupProjects_world _ _ _ _ _ _ _ Hst _ _ _ _ Hs).
  - pose proof (run_reads h (scanInstanceProjects (df_stream fuel) {| dc_targets := targets;
      dc_concurrency := if 0 <? concurrency then concurrency else 10; dc_streamOpts := DefaultStreamOptions |} (Some pf)
      newFleetAccumulator) w Hst (scanInstanceProjects_reads _ _ _ _)) as Ht.
    destruct (run _ _ _) as [[err acc] w1]. simpl in Ht. subst w1. by intros [= _ <-].
Qed.

(** ** Lemmas: what the streams bring *)

(** In terms of the streams' items. *)
Lemma DiscoverFleet_streams `{GoRegexp} `{GoQuery} {W} (h : handler GitLabE W) w fuel targets selector pf groups
    concurrency schedule res w' :
  stable_reads h -> h _ (Context_ CtxErr) w = (None, w) ->
  ts_GroupSelector targets = Some selector -> NewProjectFilter (ts_ProjectSelector targets) = inr pf ->
  run h (Traverse (df_tree fuel) (df_pages fuel) default_maxDepth (Some selector)) w = (inr groups, w) ->
  (0 < length groups)%nat ->
  DiscoverFleet h fuel targets concurrency schedule w = Some (res, w') ->
  let listing g := CollectAll (run h (StreamGroupProjects (df_stream fuel) (dg_ID g) DefaultStreamOptions) w).1 [] in
  w' = w /\
  match res with
  | inl err => exists g e, g ∈ groups /\ (listing g).2 = Some e /\ err = stream_error g e
  | inr fleet =>
      (forall g, g ∈ groups -> (listing g).2 = None) /\
      (forall i, is_Some (tf_Projects fleet !! i) <->
         exists g p, g ∈ groups /\ Some p ∈ (listing g).1 /\ Matches (Some pf) (Some p) = true /\ p_ID p = i) /\
      (forall i t, tf_Projects fleet !! i = Some t ->
         exists g p, g ∈ groups /\ Some p ∈ (listing g).1 /\ Matches (Some pf) (Some p) = true /\ p_ID p = i /\ t = toTargetProject p (dg_ID g)) /\
      (forall i, is_Some (tf_Groups fleet !! i) <-> i ∈ dg_ID <$> groups) /\
      tf_ScannedProjectsCount fleet = Z.of_nat (length (omap id (groups ≫= fun g => (listing g).1))) /\
      tf_ScannedGroupsCount fleet = Z.of_nat (length groups)
  end.
Proof.
  intros Hst Hal Hsel Hpf Ht Hlen. rewrite (DiscoverFleet_run _ _ _ _ _ _ _ _ _ Hsel Hpf Ht Hlen). cbv zeta.
  set (acc0 := foldl AddDiscoveredGroup newFleetAccumulator (Some <$> groups)).
  destruct (scanGroupProjects _ _ _ _ _ _ _ _) as [[[err acc] w1]|] eqn:Hs; [|done]. intros [= <- <-].
  destruct (scan_complete _ _ _ _ _ _ _ Hst Hal _ _ _ _ Hs) as [-> (log & errs & -> & -> & Hlog & Herrs)].
  split; [done|]. destruct (add_groups_spec groups newFleetAccumulator) as (Gp & Gn & Gc & _ & Gdom). fold acc0 in Gp, Gn, Gc, Gdom.
  destruct (add_all_spec (Some pf) log acc0) as (Ag & Ac & An & Asrc & Adom).
  destruct errs as [|err errs]; simpl.
  2:{ apply (fails_elem groups). rewrite <- Herrs. left. }
  apply Permutation_nil in Herrs.
  split; [|split; [|split; [|split; [|split]]]].
  - intros g Hg. destruct (CollectAll _ _).2 as [e|] eqn:E; [|done]. exfalso.
    apply (not_elem_of_nil (stream_error g e)). rewrite <- Herrs. apply fails_elem. by exists g, e.
  - intros i. rewrite Adom, Gp. simpl. unfold in_fleet. setoid_rewrite Hlog. setoid_rewrite adds_elem. rewrite lookup_empty.
    split; [intros [[? ?]|(p & pa & [(g & ? & ? & ?) ?] & ?)]; [done|by exists g, p]|].
    intros (g & p & ? & ? & ? & ?). right. exists p, (dg_ID g). split; [|done]. split; [by exists g|done].
  - intros i t Hi. destruct (Asrc _ _ Hi) as [Hi0|(p & pa & [Hp Hmatch] & Hid & ->)]; [by rewrite Gp in Hi0|].
    rewrite Hlog in Hp. apply adds_elem in Hp as (g & ? & ? & ->). by exists g, p.
  - intros i. rewrite Ag, Gdom. simpl. rewrite lookup_empty. split; [intros [[? ?]|]; done|by right].
  - rewrite An, Gn. simpl. by rewrite Hlog, adds_count.
  - rewrite Ac, Gc. simpl. lia.
Qed.

(** ** Specification: the projects of a group *)

Definition group_fetcher (gid : Z) (o : PaginationOptions) : GP (list (option Project) * option HTTPResponse * option error) :=
  call (Groups (ListGroupProjects gid (page_request true o))).

Definition listed_id (p : option Project) : Z := match p with Some p => p_ID p | None => 0 end.

(** What GitLab has for a group: its projects, in the order of their
    identifiers, which it serves by key, or in numbered pages after it has
    refused to; or an error, whatever page is asked for, that is not such a
    refusal. *)
Definition group_answers `{GoQuery} {W} (h : handler GitLabE W) (w : W) (gid : Z) (answer : error + list Project) : Prop :=
  match answer with
  | inr ps =>
      StronglySorted (fun p q => p_ID p < p_ID q) ps /\ (forall p, p ∈ ps -> 0 < p_ID p) /\
      (serves_keyset h w (group_fetcher gid) listed_id (Some <$> ps) \/ serves_pages h w (group_fetcher gid) (Some <$> ps))
  | inl e => forall o, exists items resp,
      run h (group_fetcher gid o) w = ((items, resp, Some e), w) /\
      match resp with Some r => http_StatusCode r <> 400 | None => True end
  end.

Lemma CollectAll_values {T} (l : list T) : CollectAll (ItemValue <$> l) [] = (l, None).
Proof.
  enough (forall acc, CollectAll (ItemValue <$> l) acc = (acc ++ l, None)) as H by apply H.
  induction l as [|x l IH]; intros acc; simpl; [by rewrite app_nil_r|]. rewrite IH. by rewrite <- app_assoc.
Qed.

(** A stream brings the projects of the group, all of them, or its error. *)
Lemma group_listing `{GoQuery} {W} (h : handler GitLabE W) w gid answer fuel :
  h _ (Context_ CtxErr) w = (None, w) -> group_answers h w gid answer ->
  match answer with inr ps => (length ps < 100 * fuel)%nat | inl _ => True end ->
  CollectAll (run h (StreamGroupProjects (S fuel) gid DefaultStreamOptions) w).1 [] =
  match answer with inr ps => (Some <$> ps, None) | inl e => ([], Some e) end.
Proof.
  intros Hal Ha Hf. unfold StreamGroupProjects. fold (group_fetcher gid). destruct answer as [e|ps].
  - destruct (Ha (start_options DefaultPaginationOptions)) as (items & resp & Hrun & H400).
    unfold StreamAll. cbn [streamLoop]. rewrite run_bind, run_call, Hal, run_bind.
    change (so_Pagination DefaultStreamOptions) with DefaultPaginationOptions. rewrite Hrun.
    assert (falls_back (so_AutoFallback DefaultStreamOptions) (start_options DefaultPaginationOptions) resp = false) as ->; [|done].
    destruct resp as [r|]; [|done]. apply (proj2 (Z.eqb_neq _ _)) in H400. unfold falls_back. simpl. exact H400.
  - destruct Ha as (Hs & Hpos & Hsrv).
    rewrite (StreamAll_complete h w (group_fetcher gid) listed_id (Some <$> ps) DefaultStreamOptions fuel Hal);
      [cbn [fst]; by rewrite CollectAll_values| | |done|done| |].
    + clear -Hs. induction Hs as [|p ps _ IH Hp]; simpl; constructor; [done|]. by apply List.Forall_map.
    + intros x (p & -> & Hp)%list_elem_of_fmap. by apply Hpos.
    + destruct Hsrv; [by left|by right].
    + rewrite length_fmap. exact Hf.
Qed.

(** ** Properties *)

(** C7. Discovery by groups is exact, whatever the interleaving of the
    goroutines: on a server that has an answer for every discovered group, either
    no group fails and the fleet holds exactly the projects of the discovered
    groups that the filter passes, each as its group lists it, and exactly the
    discovered groups, with every project counted; or some group fails, and the
    answer is the error of such a group.  A fleet is never partial, however many
    pages the listings take: a unit of fuel for each hundred projects and two more
    are enough. *)
Theorem DiscoverFleet_exact `{GoRegexp} `{GoQuery} {W} (h : handler GitLabE W) w tree pages fuel targets selector pf groups
    (projects : DiscoveredGroup -> error + list Project) concurrency schedule res w' :
  stable_reads h -> h _ (Context_ CtxErr) w = (None, w) ->
  ts_GroupSelector targets = Some selector -> NewProjectFilter (ts_ProjectSelector targets) = inr pf ->
  run h (Traverse tree pages default_maxDepth (Some selector)) w = (inr groups, w) ->
  (0 < length groups)%nat ->
  (forall g, g ∈ groups -> group_answers h w (dg_ID g) (projects g) /\
     match projects g with inr ps => (length ps < 100 * fuel)%nat | inl _ => True end) ->
  DiscoverFleet h {| df_tree := tree; df_pages := pages; df_stream := S fuel |} targets concurrency schedule w = Some (res, w') ->
  w' = w /\
  match res with
  | inl err => exists g e, g ∈ groups /\ projects g = inl e /\ err = stream_error g e
  | inr fleet =>
      let listed g p := exists ps, projects g = inr ps /\ p ∈ ps in
      (forall g, g ∈ groups -> exists ps, projects g = inr ps) /\
      (forall i, is_Some (tf_Projects fleet !! i) <->
         exists g p, g ∈ groups /\ listed g p /\ Matches (Some pf) (Some p) = true /\ p_ID p = i) /\
      (forall i t, tf_Projects fleet !! i = Some t ->
         exists g p, g ∈ groups /\ listed g p /\ Matches (Some pf) (Some p) = true /\ p_ID p = i /\
           t = toTargetProject p (dg_ID g)) /\
      (forall i, is_Some (tf_Groups fleet !! i) <-> i ∈ dg_ID <$> groups) /\
      tf_ScannedProjectsCount fleet =
        Z.of_nat (length (groups ≫= fun g => match projects g with inr ps => ps | inl _ => [] end)) /\
      tf_ScannedGroupsCount fleet = Z.of_nat (length groups)
  end.
Proof.
  intros Hst Hal Hsel Hpf Ht Hlen Hans Hd. destruct (DiscoverFleet_streams h w {| df_tree := tree; df_pages := pages; df_stream := S fuel |} _ _ _ _ _ _ _ _ Hst Hal Hsel Hpf Ht Hlen Hd) as [-> Hres].
  split; [done|]. cbn [df_stream] in Hres.
  assert (forall g, g ∈ groups -> CollectAll (run h (StreamGroupProjects (S fuel) (dg_ID g) DefaultStreamOptions) w).1 [] =
            match projects g with inr ps => (Some <$> ps, None) | inl e => ([], Some e) end) as Hl.
  { intros g Hg. destruct (Hans g Hg). by apply group_listing. }
  destruct res as [err|fleet].
  - destruct Hres as (g & e & Hg & He & ->). exists g, e. split; [done|]. rewrite (Hl g Hg) in He.
    destruct (projects g); simplify_eq/=; done.
  - assert (forall g p, g ∈ groups -> Some p ∈ (CollectAll (run h (StreamGroupProjects (S fuel) (dg_ID g) DefaultStreamOptions) w).1 []).1 <->
              exists ps, projects g = inr ps /\ p ∈ ps) as Hin.
    { intros g p Hg. rewrite (Hl g Hg). destruct (projects g) as [e|ps]; simpl; [set_solver|].
      rewrite list_elem_of_fmap. split; [intros (? & [= <-] & ?)|intros (? & [= <-] & ?)]; eauto. }
    destruct Hres as (H1 & H2 & H3 & H4 & H5 & H6). split; [|split; [|split; [|split; [|split]]]].
    + intros g Hg. specialize (H1 g Hg). rewrite (Hl g Hg) in H1. destruct (projects g); [discriminate H1|eauto].
    + intros i. rewrite H2. split; intros (g & p & Hg & Hp & Hr); exists g, p; (split; [done|]); (split; [by apply Hin|done]).
    + intros i t Hi. destruct (H3 i t Hi) as (g & p & Hg & Hp & Hr). exists g, p. split; [done|]. split; [by apply Hin|done].
    + done.
    + rewrite H5. f_equal. clear -Hl. induction groups as [|g gs IH]; [done|].
      rewrite !bind_cons, omap_app, !length_app, IH by (intros g0 Hg0; apply Hl; set_solver).
      f_equal. rewrite Hl by set_solver. destruct (projects g) as [|ps]; [done|]. simpl. clear. induction ps; simpl; auto.
    + done.
Qed.

(** C40. Discovery by groups always comes to an end: whatever the goroutines have
    done so far, they can finish, and no execution is longer than a bound that
    the server's listings set. *)
Theorem DiscoverFleet_terminates `{GoRegexp} `{GoQuery} {W} (h : handler GitLabE W) w fuel dc groups filter acc ls s :
  stable_reads h -> h _ (Context_ CtxErr) w = (None, w) -> 0 < dc_concurrency dc ->
  scan_steps h (df_stream fuel) dc filter (length groups) ls (scan_start groups acc w) = Some s ->
  (length ls <= scan_measure h w (df_stream fuel) dc (scan_start groups acc w))%nat /\
  exists ls' err acc' w', scanGroupProjects h (df_stream fuel) dc groups filter acc (ls ++ ls') w = Some (err, acc', w').
Proof.
  intros Hst Hal Hpos Hs.
  pose proof (ScanInv_init h w (df_stream fuel) dc filter groups acc) as Hini.
  destruct (scan_steps_Inv _ _ _ _ _ _ _ Hst Hal _ _ _ _ Hini eq_refl Hs) as (d & HI & Hc). split.
  { pose proof (scan_steps_measure _ _ _ _ _ _ _ Hst Hal _ _ _ _ Hini eq_refl Hs). lia. }
  destruct (scan_can_finish _ _ _ _ _ _ _ Hst Hal _ _ HI Hc Hpos) as (ls' & s' & Hs' & Ho).
  destruct (scan_steps_Inv _ _ _ _ _ _ _ Hst Hal _ _ _ _ HI Hc Hs') as (d' & _ & Hc').
  exists ls'. unfold scanGroupProjects. rewrite scan_steps_app, Hs, Hs', Hc', Ho. eauto.
Qed.

(** ** A concrete server *)

(** The platform group has the [api] project; its subgroup has a playground. *)
Definition demo_playground : Project := {|
  p_ID := 43; p_Name := "playground"; p_Path := "playground"; p_PathWithNamespace := "platform/api/playground";
  p_DefaultBranch := "main"; p_Archived := false; p_SquashOption := ""; p_MergeMethod := "merge";
  p_OnlyAllowMergeIfPipelineSucceeds := false; p_AllowMergeOnSkippedPipeline := false;
  p_OnlyAllowMergeIfAllDiscussionsAreResolved := false; p_RemoveSourceBranchAfterMerge := true;
  p_KeepLatestArtifact := true; p_PrintingMergeRequestLinkEnabled := true; p_AutoCancelPendingPipelines := "enabled";
  p_AutoDevopsEnabled := false; p_SharedRunnersEnabled := true; p_GroupRunnersEnabled := true; p_Visibility := "private"; p_Topics := ["golang"]; p_TagList := [];
  p_Namespace := Some "platform/api"; p_MarkedForDeletionAt := None;
  p_WebURL := ""; p_LastActivityAt := None; p_ContainerExpirationPolicy := None
|}.

Definition demo_listing (ps : list Project) : Listing Project :=
  (Some <$> ps, Some {| http_StatusCode := 200; http_Header := fun _ => "" |}, None).

Definition demo_fleet_server : handler GitLabE server := fun X e w =>
  match e in GitLabE X return X * server with
  | Groups e' =>
      match e' in GroupsE X return X * server with
      | ListGroupProjects gid _ =>
          (demo_listing (if gid =? 7 then [demo_project] else if gid =? 8 then [demo_playground] else []), w)
      | e'' => demo_hierarchy _ (Groups e'') w
      end
  | e' => demo_hierarchy _ e' w
  end.

Lemma demo_fleet_server_stable : stable_reads demo_fleet_server.
Proof.
  intros X e w. destruct_call e; simpl; try done.
Qed.

#[local] Instance demo_fleet_query : GoQuery := {| url_Query := fun _ => None |}.

Definition demo_fleet_fuel : discoveryFuel := {| df_tree := 4; df_pages := 1; df_stream := 1 |}.

Definition demo_targets : TargetSelectors :=
  {| ts_GroupSelector := demo_group_selector; ts_ProjectSelector := Some demo_selector |}.

Definition demo_filter : ProjectFilter :=
  match NewProjectFilter (H := demo_literal) (Some demo_selector) with inr pf => pf | inl _ => empty_filter end.

Definition demo_discovered : list DiscoveredGroup :=
  match (run demo_fleet_server (Traverse 4 1 default_maxDepth demo_group_selector) empty_server).1 with
  | inr l => l | inl _ => [] end.

(** Two goroutines at a time, interleaved; the third group waits for the
    first. *)
Definition demo_scan_schedule : list scan_label :=
  [Spawn; Spawn; Move 1; Move 0; Move 1; Move 1; Move 0; Move 0; Move 1; Move 0; Move 1; Move 0; Move 0; Spawn;
   Move 2; Move 2; Move 2; Move 2; Move 1].

Definition demo_discovery :=
  DiscoverFleet (H := demo_literal) demo_fleet_server demo_fleet_fuel demo_targets 2 demo_scan_schedule empty_server.

(** A group of a hundred playgrounds and the [api] project after them: the
    server refuses to page by key, and its numbered pages name the next. *)
Definition demo_numbered_project (p : Project) (i : Z) : Project := {|
  p_ID := i; p_Name := p_Name p; p_Path := p_Path p; p_PathWithNamespace := p_PathWithNamespace p;
  p_DefaultBranch := p_DefaultBranch p; p_Archived := p_Archived p; p_SquashOption := p_SquashOption p; p_MergeMethod := p_MergeMethod p;
  p_OnlyAllowMergeIfPipelineSucceeds := p_OnlyAllowMergeIfPipelineSucceeds p; p_AllowMergeOnSkippedPipeline := p_AllowMergeOnSkippedPipeline p;
  p_OnlyAllowMergeIfAllDiscussionsAreResolved := p_OnlyAllowMergeIfAllDiscussionsAreResolved p;
  p_RemoveSourceBranchAfterMerge := p_RemoveSourceBranchAfterMerge p;
  p_KeepLatestArtifact := p_KeepLatestArtifact p; p_PrintingMergeRequestLinkEnabled := p_PrintingMergeRequestLinkEnabled p;
  p_AutoCancelPendingPipelines := p_AutoCancelPendingPipelines p;
  p_AutoDevopsEnabled := p_AutoDevopsEnabled p; p_SharedRunnersEnabled := p_SharedRunnersEnabled p;
  p_GroupRunnersEnabled := p_GroupRunnersEnabled p; p_Visibility := p_Visibility p; p_Topics := p_Topics p; p_TagList := p_TagList p;
  p_Namespace := p_Namespace p; p_MarkedForDeletionAt := p_MarkedForDeletionAt p;
  p_WebURL := p_WebURL p; p_LastActivityAt := p_LastActivityAt p; p_ContainerExpirationPolicy := p_ContainerExpirationPolicy p
|}.

Definition demo_crowd : list Project :=
  (demo_numbered_project demo_playground <$> seqZ 100 100) ++ [demo_numbered_project demo_project 400].

Definition demo_group_projects (gid : Z) : list Project :=
  if gid =? 7 then demo_crowd else if gid =? 8 then [demo_playground] else [].

Definition demo_paged_listing (ps : list Project) (req : ListRequest) : Listing Project :=
  if (lr_Pagination req =? "keyset")%string then
    ([], Some {| http_StatusCode := 400; http_Header := fun _ => "" |}, Some (ErrNew "keyset pagination is not available"))
  else
    (numbered (Z.to_nat (lr_PerPage req)) (lr_Page req) (Some <$> ps),
     Some {| http_StatusCode := 200; http_Header := fun name =>
       if (name =? "X-Next-Page")%string && (Z.to_nat (lr_PerPage req) * Z.to_nat (lr_Page req) <? length ps)%nat
       then Itoa (lr_Page req + 1) else "" |}, None).

Definition demo_paged_server : handler GitLabE server := fun X e w =>
  match e in GitLabE X return X * server with
  | Groups e' =>
      match e' in GroupsE X return X * server with
      | ListGroupProjects gid req => (demo_paged_listing (demo_group_projects gid) req, w)
      | e'' => demo_hierarchy _ (Groups e'') w
      end
  | e' => demo_hierarchy _ e' w
  end.

Lemma demo_paged_server_stable : stable_reads demo_paged_server.
Proof. intros X e w. destruct_call e; simpl; done. Qed.

Lemma demo_group_size gid : (length (demo_group_projects gid) < 102)%nat.
Proof. unfold demo_group_projects. destruct (gid =? 7); [vm_compute; lia|]. destruct (gid =? 8); simpl; lia. Qed.

Lemma demo_next_page k : 1 <= k <= 101 -> Atoi (Itoa (k + 1)) = Some (k + 1).
Proof.
  intros Hk. assert (k ∈ seqZ 1 101) as Hin by (apply elem_of_seqZ; lia). revert Hin.
  assert (Forall (fun k => Atoi (Itoa (k + 1)) = Some (k + 1)) (seqZ 1 101)) as Hall.
  { apply (bool_decide_unpack _). by vm_compute. }
  rewrite Forall_forall in Hall. apply Hall.
Qed.

Lemma demo_pages gid : serves_pages demo_paged_server empty_server (group_fetcher gid) (Some <$> demo_group_projects gid).
Proof.
  intros o. unfold group_fetcher, page_request. destruct (po_Mode o).
  - eexists _, _, _. split; [rewrite run_call; reflexivity|done].
  - intros Hp Hpp. eexists. split; [rewrite run_call; reflexivity|]. cbn -[Nat.mul Nat.ltb demo_group_projects ParseLinkHeader].
    rewrite length_fmap. pose proof (demo_group_size gid).
    destruct (Nat.ltb_spec (Z.to_nat (po_PerPage o) * Z.to_nat (po_Page o)) (length (demo_group_projects gid))) as [Hlt|]; [|reflexivity].
    assert (1 <= po_Page o <= 101) as Hk by nia. unfold header_int. simpl. rewrite demo_next_page by done. simpl.
    rewrite (proj2 (Z.ltb_lt 0 _)) by lia. done.
Qed.

Lemma demo_group_answers gid : group_answers demo_paged_server empty_server gid (inr (demo_group_projects gid)).
Proof.
  split; [|split; [|right; apply demo_pages]]; unfold demo_group_projects; destruct (gid =? 7).
  - apply (bool_decide_unpack _). by vm_compute.
  - destruct (gid =? 8); repeat constructor.
  - apply Forall_forall. apply (bool_decide_unpack _). by vm_compute.
  - apply Forall_forall. destruct (gid =? 8); repeat constructor.
Qed.

(** Two goroutines at a time; the first one takes its time. *)
Definition demo_paged_schedule : list scan_label :=
  [Spawn; Spawn; Move 1; Move 0; Move 1] ++ repeat (Move 0) 209 ++ [Spawn; Move 2] ++ repeat (Move 1) 6 ++ repeat (Move 2) 5.

(** The [api] project is on the second page of the platform group. *)
Definition demo_paged_discovery :=
  DiscoverFleet (H := demo_literal) demo_paged_server {| df_tree := 4; df_pages := 1; df_stream := 4 |} demo_targets 2
    demo_paged_schedule empty_server.

Lemma DiscoverFleet_exact_witness :
  exists fleet w', demo_paged_discovery = Some (inr fleet, w') /\
    tf_ScannedProjectsCount fleet = 102 /\ (map_to_list (tf_Projects fleet)).*1 = [400] /\
    forall i, is_Some (tf_Projects fleet !! i) <->
      exists g p, g ∈ demo_discovered /\ (exists ps, inr (A := error) (demo_group_projects (dg_ID g)) = inr ps /\ p ∈ ps) /\
        Matches (Some demo_filter) (Some p) = true /\ p_ID p = i.
Proof.
  destruct demo_paged_discovery as [[[err|fleet] w']|] eqn:Hd; [by vm_compute in Hd..| |by vm_compute in Hd].
  exists fleet, w'. split; [done|].
  destruct (DiscoverFleet_exact (H := demo_literal) demo_paged_server empty_server 4 1 3 demo_targets
    {| gs_GroupIDsInclude := [7]; gs_GroupIDsExclude := []; gs_GroupPathsInclude := ["/platform/"];
       gs_GroupPathsExclude := ["Platform/Sandbox"]; gs_Recursive := None |}
    demo_filter demo_discovered (fun g => inr (demo_group_projects (dg_ID g))) 2 demo_paged_schedule (inr fleet) w')
    as [_ (_ & Hdom & _)];
    [exact demo_paged_server_stable|reflexivity|reflexivity|reflexivity|vm_compute; reflexivity|vm_compute; lia
    |intros g _; split; [apply demo_group_answers|pose proof (demo_group_size (dg_ID g)); lia]|exact Hd|].
  vm_compute in Hd. injection Hd as <- _. split; [reflexivity|]. split; [reflexivity|exact Hdom].
Defined.

Definition demo_coordinator : discoveryCoordinator :=
  {| dc_targets := demo_targets; dc_concurrency := 2; dc_streamOpts := DefaultStreamOptions |}.

Lemma DiscoverFleet_terminates_witness :
  exists ls' err acc' w', scanGroupProjects demo_fleet_server 1 demo_coordinator demo_discovered
    (Some demo_filter) newFleetAccumulator (take 7 demo_scan_schedule ++ ls') empty_server = Some (err, acc', w').
Proof.
  destruct (scan_steps demo_fleet_server 1 demo_coordinator (Some demo_filter)
    (length demo_discovered) (take 7 demo_scan_schedule) (scan_start demo_discovered newFleetAccumulator empty_server))
    as [s|] eqn:Hs; [|by vm_compute in Hs].
  exact (proj2 (DiscoverFleet_terminates (H := demo_literal) demo_fleet_server empty_server demo_fleet_fuel demo_coordinator _ _ _ _ s
    demo_fleet_server_stable eq_refl ltac:(simpl; lia) Hs)).
Defined.
