(* ===== verification/License.v ===== *)
(** * Licensing: internal/license/{enforcer,model,verifier}.go

    [Enforce] decides whether a run may go on under the Business Source License:
    dry runs and small fleets are free, the rest needs a commercial token.  The
    signature scheme and the claims of a token belong to a library outside the
    repository ([GoLicense]); the build metadata with its provenance, the clock,
    the process environment and the files are what a call finds ([license_env]). *)

From S2P Require Import Prelude GoLib.
Local Open Scope string_scope.
Local Open Scope list_scope.
Local Open Scope Z_scope.

Definition FreeTierMaxProjects : Z := 25.

Record EnforcementOptions : Type := {
  eo_DiscoveredProjects : Z;
  eo_IsDryRun : bool;
  eo_GitLabBaseURL : string;
  eo_TargetPaths : list string;
  eo_LicenseKey : string;
  eo_LicenseFile : string;
  eo_CRL : string;
  eo_CRLFile : string;
  eo_CRLURL : string;
  eo_Command : string;
  (** [None] is the zero time. *)
  eo_EvaluationTime : option Z;
  eo_GitLabServerTime : option Z;
  eo_RequiredFeatures : list string
}.

(** [version.Get()]: the version, whether the release's provenance is verified,
    its release time and, three years later, its change date.  Times are
    nanoseconds. *)
Record BuildInfo : Type := {
  bi_Version : string;
  bi_Verified : bool;
  bi_ReleaseTime : option Z;
  bi_ChangeDate : option Z;
  (** The change date as a calendar day, for messages. *)
  bi_ChangeDay : string
}.

(** A license file that could be opened: what [Stat] and [ReadAll] answer. *)
Record license_file : Type := { lf_regular : error + bool; lf_content : error + string }.

Record license_env : Type := {
  le_Now : Z;
  le_Build : BuildInfo;
  le_Getenv : string -> string;
  le_Open : string -> error + license_file
}.

(** How the validator finds revocations. *)
Variant crl_source : Type := CRLInline (data : string) | CRLURL_ (url : string) | CRLAuto.

Record validator_options : Type := {
  vo_CurrentVersion : option string;
  vo_BuildDate : option Z;
  vo_Revocation : crl_source
}.

(** The license library: its claims and what the program asks of them. *)
Class GoLicense : Type := {
  Claims : Type;
  claims_ID : Claims -> string;
  claims_CustomerName : Claims -> string;
  claims_Plan : Claims -> string;
  (** [Scope]: the hosts and the namespaces. *)
  claims_Scope : Claims -> option (list string * list string);
  claims_GetLimit : Claims -> string -> option Z;
  claims_CheckLimit : Claims -> string -> Z -> option error;
  claims_AssertFeature : Claims -> string -> option error;
  claims_IsHostAllowed : Claims -> string -> bool;
  claims_IsNamespaceAllowed : Claims -> string -> bool;
  claims_DaysRemaining : Claims -> Z;
  claims_IsInGracePeriodAt : Claims -> Z -> bool;
  claims_GraceDaysRemainingAt : Claims -> Z -> Z;
  claims_IsPerpetual : Claims -> bool;
  claims_ExpiresOn : Claims -> string;
  claims_GracePeriodDays : Claims -> Z;
  lib_ResolveToken : error + string;
  lib_NotFound : error -> bool;
  lib_Revoked : error -> bool;
  lib_ScopeMismatch : error -> bool;
  lib_ResolveCRL : list string -> error + string;
  lib_NewValidator : validator_options -> option error;
  lib_Verify : validator_options -> string -> Z -> error + (Claims * bool * Z);
  lib_Inspect : string -> error + Claims;
  lib_NormalizeHost : string -> string;
  (** [EvaluateEntitlement] of the policy of [GetBSLPolicy], from the release
      date of a verified build, the environment, the project count and the
      time. *)
  lib_EvaluateEntitlement : option Z -> string -> Z -> Z -> bool
}.

Section License.
Context `{GoLicense}.

Record ValidationStatus : Type := {
  vs_Valid : bool;
  vs_InGracePeriod : bool;
  vs_DaysRemaining : Z;
  vs_Message : string;
  vs_Claims : option Claims
}.

Definition permitted (msg : string) : ValidationStatus :=
  {| vs_Valid := true; vs_InGracePeriod := false; vs_DaysRemaining := 0; vs_Message := msg; vs_Claims := None |}.

(** ** model.go *)

Definition GetClaimsPlan (c : option Claims) : string :=
  match c with
  | None => "community"
  | Some c => if (claims_Plan c =? "")%string then "community" else claims_Plan c
  end.

Definition GetClaimsMaxProjects (c : option Claims) : Z :=
  match c with
  | None => 0
  | Some c => match claims_GetLimit c "max_projects" with Some lim => if 0 <? lim then lim else 0 | None => 0 end
  end.

Definition ExtractHost (rawURL : string) : string :=
  let raw := TrimSpace rawURL in if (raw =? "")%string then "gitlab.com" else lib_NormalizeHost raw.

Definition community_features : list string :=
  ["governance.push_rules"; "governance.protected_branches"; "governance.branch_merges"; "governance.project_settings";
   "governance.members"; "governance.variables"; "report.table"; "report.json"; "report.csv"; "report.markdown";
   "report.summary"; "report.*"].

Definition pro_features : list string :=
  ["governance.approval_rules"; "governance.target_branch_rules"; "governance.runners"; "governance.webhooks";
   "governance.pipeline_retention"; "governance.protected_environments"; "governance.protected_tags"].

Definition IsCommunityFeature (feature : string) : bool :=
  bool_decide (TrimSpace (ToLower feature) ∈ community_features).

Definition RequiredTierForFeature (feature : string) : string :=
  if IsCommunityFeature feature then "community"
  else if bool_decide (TrimSpace (ToLower feature) ∈ pro_features) then "pro" else "enterprise".

(** ** verifier.go *)

Definition has_nul (s : string) : bool := Contains s (String "000"%char "").

Definition is_url (s : string) : bool := HasPrefix s "http://" || HasPrefix s "https://".

(** [ResolveCRL]. *)
Definition crl_explicit (sources : list string) : error + list string :=
  foldr (fun s rest =>
    let trimmed := TrimSpace s in
    if (trimmed =? "")%string then rest
    else if has_nul trimmed then inl (ErrNew "invalid CRL source: contains null byte")
    else match rest with
         | inl err => inl err
         | inr l => inr ((if is_url trimmed || HasPrefix trimmed "-----BEGIN" then trimmed else path_Clean trimmed) :: l)
         end) (inr []) sources.

Definition ResolveCRL (sources : list string) : error + string :=
  match crl_explicit sources with
  | inl err => inl err
  | inr explicit =>
      match lib_ResolveCRL explicit with
      | inl err => if (error_text err =? "license: crl not found")%string then inr "" else inl err
      | inr content => inr content
      end
  end.

Definition grace_message (c : Claims) (days : Z) : string :=
  "License expired on " +:+ claims_ExpiresOn c +:+ "; currently operating within " +:+ Itoa (claims_GracePeriodDays c)
    +:+ "-day grace period (" +:+ Itoa days +:+ " days remaining)".

(** The status of verified claims. *)
Definition verified_status (c : Claims) (inGrace : bool) (graceDays : Z) : ValidationStatus :=
  let daysRemaining := if inGrace then graceDays else claims_DaysRemaining c in {|
  vs_Valid := true; vs_InGracePeriod := inGrace; vs_DaysRemaining := daysRemaining;
  vs_Message := if inGrace then grace_message c graceDays
                else if claims_IsPerpetual c then "Perpetual commercial license is valid and active"
                else "License is valid and active (" +:+ Itoa daysRemaining +:+ " days remaining)";
  vs_Claims := Some c
|}.

Definition validatorOptions (build : BuildInfo) (crlData : string) (crlURLs : list string) : validator_options := {|
  vo_CurrentVersion := if (bi_Version build =? "")%string || (bi_Version build =? "dev")%string then None
                       else Some (bi_Version build);
  vo_BuildDate := bi_ReleaseTime build;
  vo_Revocation := if negb (crlData =? "")%string then CRLInline crlData
                   else match crlURLs with url :: _ => CRLURL_ url | [] => CRLAuto end
|}.

(** [ParseAndVerifyAt], with the built-in key. *)
Definition ParseAndVerifyAt (env : license_env) (token : string) (evalTime : Z) (crlSources : list string)
  : option ValidationStatus * option error :=
  let token := TrimSpace token in
  if (token =? "")%string then (None, Some (ErrNew "license token cannot be empty"))
  else
    let trimmed := List.filter (fun s => negb (s =? "")%string) (TrimSpace <$> crlSources) in
    let crlURLs := List.filter is_url trimmed in
    match ResolveCRL (List.filter (fun s => negb (is_url s)) trimmed) with
    | inl err => (None, Some (ErrWrap "failed to resolve certificate revocation list (CRL): " err))
    | inr crlData =>
        let opts := validatorOptions (le_Build env) crlData crlURLs in
        match lib_NewValidator opts with
        | Some err => (None, Some (ErrWrap "failed to initialize license validator: " err))
        | None =>
            match lib_Verify opts token evalTime with
            | inr (claims, inGrace, graceDays) => (Some (verified_status claims inGrace graceDays), None)
            | inl err =>
                match lib_ScopeMismatch err, lib_Inspect token with
                | true, inr claims =>
                    (Some (verified_status claims (claims_IsInGracePeriodAt claims evalTime)
                             (claims_GraceDaysRemainingAt claims evalTime)), None)
                | _, inspected =>
                    (Some {| vs_Valid := false; vs_InGracePeriod := false; vs_DaysRemaining := 0;
                             vs_Message := error_text err;
                             vs_Claims := match inspected with inr c => Some c | inl _ => None end |}, Some err)
                end
            end
        end
    end.

(** ** enforcer.go *)

Definition maxLicenseFileSize : Z := 64 * 1024.

(** Reading the license file; the limit reader hands out one byte more than the
    limit at most. *)
Definition readLicenseFile (env : license_env) (file : string) : error + string :=
  let cleanPath := path_Clean file in
  let quoted := String "034"%char (cleanPath +:+ String "034"%char "") in
  if has_nul cleanPath then inl (ErrNew "invalid license file path: contains null byte")
  else
    match le_Open env cleanPath with
    | inl err => inl (ErrWrap ("failed to open license file " +:+ quoted +:+ ": ") err)
    | inr f =>
        match lf_regular f with
        | inl err => inl (ErrWrap ("failed to stat license file " +:+ quoted +:+ ": ") err)
        | inr false => inl (ErrNew ("invalid license file " +:+ quoted +:+ ": must be a regular file"))
        | inr true =>
            match lf_content f with
            | inl err => inl (ErrWrap ("failed to read license file " +:+ quoted +:+ ": ") err)
            | inr content =>
                if maxLicenseFileSize <? Z.of_nat (String.length content)
                then inl (ErrNew ("license file " +:+ quoted +:+ " exceeds maximum allowed size (" +:+
                                  Itoa maxLicenseFileSize +:+ " bytes)"))
                else inr (TrimSpace content)
            end
        end
    end.

Definition ResolveToken (env : license_env) (key file : string) : error + string :=
  let key := TrimSpace key in
  let file := TrimSpace file in
  if negb (key =? "")%string then inr key
  else if negb (file =? "")%string then readLicenseFile env file
  else match lib_ResolveToken with
       | inl err => if lib_NotFound err then inr "" else inl err
       | inr token => inr (TrimSpace token)
       end.

(** [version.Info.IsApacheConverted]. *)
Definition IsApacheConverted (build : BuildInfo) (now : Z) : bool :=
  bi_Verified build && match bi_ChangeDate build with Some changeDate => changeDate <? now | None => false end.

Definition hour : Z := 3600 * 10 ^ 9.

(** The time at which the license is evaluated, anchored to the server's clock
    when the local clock claims a change date that the server denies, or is more
    than an hour off. *)
Definition anchoredTime (env : license_env) (opts : EnforcementOptions) : Z :=
  let evalTime := default (le_Now env) (eo_EvaluationTime opts) in
  match eo_GitLabServerTime opts with
  | None => evalTime
  | Some serverTime =>
      if IsApacheConverted (le_Build env) evalTime && negb (IsApacheConverted (le_Build env) serverTime) then serverTime
      else if (evalTime - serverTime <? - hour) || (hour <? evalTime - serverTime) then serverTime
      else evalTime
  end.

Definition isHostAllowed (claims : Claims) (rawURL : string) : bool :=
  match claims_Scope claims with
  | Some (_ :: _, _) => claims_IsHostAllowed claims rawURL
  | _ => true
  end.

Definition isNamespaceAllowed (claims : Claims) (path : string) : bool :=
  match claims_Scope claims with
  | Some (_, _ :: _) => claims_IsNamespaceAllowed claims path
  | _ => true
  end.

Definition dry_run_grant : ValidationStatus :=
  permitted "Simulation / dry-run mode exempted under BSL 1.1 Additional Use Grant (a)".

(** What the claims of a token refuse, in the order of the checks; a dry run
    gets warnings instead. *)
Definition capacityError (claims : Claims) (opts : EnforcementOptions) : option error :=
  match claims_CheckLimit claims "max_projects" (eo_DiscoveredProjects opts) with
  | Some _ => Some (ErrNew ("FLEET CAPACITY EXCEEDED: Governing " +:+ Itoa (eo_DiscoveredProjects opts) +:+
      " production projects exceeds your licensed capacity of " +:+ Itoa (GetClaimsMaxProjects (Some claims)) +:+
      " projects (" +:+ ToUpper (GetClaimsPlan (Some claims)) +:+
      " Tier). Please contact licensing@divmora.com to upgrade your fleet capacity."))
  | None => None
  end.

(** [%v] of a list of strings. *)
Definition fmt_list (l : list string) : string := "[" +:+ Join l " " +:+ "]".

Definition hostError (claims : Claims) (opts : EnforcementOptions) : option error :=
  if isHostAllowed claims (eo_GitLabBaseURL opts) then None
  else Some (ErrNew ("COMMERCIAL LICENSE HOST MISMATCH: License is restricted to GitLab host(s) " +:+
    fmt_list (match claims_Scope claims with Some (hosts, _) => hosts | None => [] end) +:+
    ", but active target is '" +:+ ExtractHost (eo_GitLabBaseURL opts) +:+
    "'. Please obtain a commercial license for this host or contact licensing@divmora.com")).

Definition namespaceError (claims : Claims) (path : string) : option error :=
  if isNamespaceAllowed claims path then None
  else Some (ErrNew ("COMMERCIAL LICENSE GROUP MISMATCH: License is restricted to GitLab group hierarchy " +:+
    fmt_list (match claims_Scope claims with Some (_, namespaces) => namespaces | None => [] end) +:+
    ", but targeted resource '" +:+ path +:+
    "' falls outside permitted groups. Please contact licensing@divmora.com to extend your license scope")).

Definition quote (s : string) : string := String "034"%char (s +:+ String "034"%char "").

Definition featureError (claims : Claims) (feat : string) : option error :=
  if IsCommunityFeature feat then None
  else match claims_AssertFeature claims feat with
       | None => None
       | Some err => Some (ErrNew ("FEATURE NOT ENTITLED: Feature " +:+ quote feat +:+ " is not authorized under license tier "
           +:+ quote (claims_Plan claims) +:+ " (" +:+ error_text err +:+ "). Upgrade to " +:+
           ToUpper (RequiredTierForFeature feat) +:+ " at https://divmora.com or contact licensing@divmora.com"))
       end.

(** The first of the checks that refuses. *)
Fixpoint first_error (l : list (option error)) : option error :=
  match l with
  | [] => None
  | Some err :: _ => Some err
  | None :: rest => first_error rest
  end.

Definition entitlement_checks (claims : Claims) (opts : EnforcementOptions) : list (option error) :=
  [capacityError claims opts; hostError claims opts] ++ (namespaceError claims <$> eo_TargetPaths opts)
  ++ (featureError claims <$> eo_RequiredFeatures opts).

(** A commercial token. *)
Definition enforceToken (env : license_env) (opts : EnforcementOptions) (token : string) (evalTime : Z)
  : option ValidationStatus * option error :=
  match ParseAndVerifyAt env token evalTime [eo_CRL opts; eo_CRLFile opts; eo_CRLURL opts] with
  | (status, Some err) =>
      if eo_IsDryRun opts then (Some dry_run_grant, None)
      else (status, Some (ErrWrap (if lib_Revoked err then "COMMERCIAL LICENSE REVOKED: "
                                   else "commercial license verification failed: ") err))
  | (status, None) =>
      match status with
      | Some st =>
          match vs_Claims st with
          | Some claims =>
              if eo_IsDryRun opts then (status, None) else (status, first_error (entitlement_checks claims opts))
          | None => (status, None)
          end
      | None => (status, None)
      end
  end.

Definition unlicensedError (feat : string) : option error :=
  if IsCommunityFeature feat then None
  else Some (ErrNew ("COMMERCIAL LICENSE REQUIRED: Feature " +:+ quote feat +:+ " requires a " +:+
    ToUpper (RequiredTierForFeature feat) +:+ " subscription. Community Tier only includes baseline repository " +:+
    "governance. Visit https://divmora.com or contact licensing@divmora.com")).

Definition nl : string := String "010"%char "".

Definition environment_name (env : license_env) : string :=
  let e := le_Getenv env "ENV" in
  let e := if (e =? "")%string then le_Getenv env "ENVIRONMENT" else e in
  if (e =? "")%string then "production" else e.

(** [GetBSLPolicy]'s release date. *)
Definition policyReleaseDate (build : BuildInfo) : option Z :=
  if bi_Verified build then bi_ReleaseTime build else None.

(** No token: the community tier. *)
Definition enforceCommunity (env : license_env) (opts : EnforcementOptions) (evalTime : Z)
  : option ValidationStatus * option error :=
  if eo_IsDryRun opts then (Some dry_run_grant, None)
  else match first_error (unlicensedError <$> eo_RequiredFeatures opts) with
       | Some err => (None, Some err)
       | None =>
           if lib_EvaluateEntitlement (policyReleaseDate (le_Build env)) (environment_name env)
                (eo_DiscoveredProjects opts) evalTime
           then (Some (permitted ("Free Community Tier (" +:+ Itoa (eo_DiscoveredProjects opts) +:+ "/" +:+
                                  Itoa FreeTierMaxProjects +:+ " managed projects)")), None)
           else (None, Some (ErrNew ("COMMERCIAL LICENSE REQUIRED: Governing " +:+ Itoa (eo_DiscoveredProjects opts) +:+
                  " projects in production exceeds the free Community Tier limit (" +:+ Itoa FreeTierMaxProjects +:+
                  " projects) permitted under the Business Source License 1.1." +:+ nl +:+ nl +:+
                  "To continue managing fleets of this size:" +:+ nl +:+
                  "  1. Obtain a commercial subscription at https://divmora.com or contact licensing@divmora.com" +:+ nl +:+
                  "  2. Set your license key via environment variable:" +:+ nl +:+
                  "       export DIVMORA_LICENSE_KEY=" +:+ quote "<token>" +:+ nl +:+
                  "     or provide it via CLI flag:" +:+ nl +:+ "       --license-key=" +:+ quote "<token>")))
       end.

Definition Enforce (env : license_env) (opts : EnforcementOptions) : option ValidationStatus * option error :=
  let evalTime := anchoredTime env opts in
  if IsApacheConverted (le_Build env) evalTime
  then (Some (permitted ("Automatically converted to Apache License 2.0 on " +:+ bi_ChangeDay (le_Build env)
                         +:+ " under BSL 1.1 terms. Unrestricted usage permitted.")), None)
  else match ResolveToken env (eo_LicenseKey opts) (eo_LicenseFile opts) with
       | inl err => (None, Some err)
       | inr token => if (token =? "")%string then enforceCommunity env opts evalTime
                      else enforceToken env opts token evalTime
       end.

(** ** Specification *)

(** The claims cover the run. *)
Record entitled (claims : Claims) (opts : EnforcementOptions) : Prop := {
  en_capacity : claims_CheckLimit claims "max_projects" (eo_DiscoveredProjects opts) = None;
  en_host : isHostAllowed claims (eo_GitLabBaseURL opts) = true;
  en_paths : forall path, path ∈ eo_TargetPaths opts -> isNamespaceAllowed claims path = true;
  en_features : forall feat, feat ∈ eo_RequiredFeatures opts ->
    IsCommunityFeature feat = true \/ claims_AssertFeature claims feat = None
}.

(** ** Lemmas *)

Lemma first_error_None l : first_error l = None <-> forall e, e ∈ l -> e = None.
Proof.
  induction l as [|[err|] l IH]; simpl.
  - split; [by intros _ e He%elem_of_nil|done].
  - split; [done|]. intros Hl. by specialize (Hl (Some err) ltac:(left)).
  - rewrite IH. split; intros Hl e; rewrite ?elem_of_cons; [|by intros; apply Hl; right].
    intros [->|He]; [done|by apply Hl].
Qed.

Lemma first_error_fmap {A} (f : A -> option error) l : first_error (f <$> l) = None <-> forall a, a ∈ l -> f a = None.
Proof.
  rewrite first_error_None. split.
  - intros Hl a Ha. apply Hl, list_elem_of_fmap. by exists a.
  - intros Hl e (a & -> & Ha)%list_elem_of_fmap. by apply Hl.
Qed.

Lemma entitlement_checks_None claims opts : first_error (entitlement_checks claims opts) = None <-> entitled claims opts.
Proof.
  rewrite first_error_None. unfold entitlement_checks. split.
  - intros Hl. split.
    + specialize (Hl (capacityError claims opts) ltac:(left)). unfold capacityError in Hl. by destruct (claims_CheckLimit _ _ _).
    + specialize (Hl (hostError claims opts) ltac:(right; left)). unfold hostError in Hl. by destruct (isHostAllowed _ _).
    + intros path Hp. assert (namespaceError claims path = None) as E.
      { apply Hl, elem_of_app. right. apply elem_of_app. left. apply list_elem_of_fmap. by exists path. }
      unfold namespaceError in E. by destruct (isNamespaceAllowed claims path).
    + intros feat Hf. assert (featureError claims feat = None) as E.
      { apply Hl, elem_of_app. right. apply elem_of_app. right. apply list_elem_of_fmap. by exists feat. }
      unfold featureError in E. destruct (IsCommunityFeature feat); [by left|right]. by destruct (claims_AssertFeature claims feat).
  - intros [Hc Hh Hp Hf] e He. repeat rewrite ?elem_of_cons, ?elem_of_app, ?elem_of_nil in He.
    destruct He as [[->|[->|[]]]|[(path & -> & Hi)%list_elem_of_fmap|(feat & -> & Hi)%list_elem_of_fmap]].
    + unfold capacityError. by rewrite Hc.
    + unfold hostError. by rewrite Hh.
    + unfold namespaceError. by rewrite (Hp _ Hi).
    + unfold featureError. destruct (Hf _ Hi) as [->| ->]; [done|]. by destruct (IsCommunityFeature feat).
Qed.

Lemma ParseAndVerifyAt_claims env token evalTime sources :
  (exists st err, ParseAndVerifyAt env token evalTime sources = (st, Some err)) \/
  (exists st claims, ParseAndVerifyAt env token evalTime sources = (Some st, None) /\ vs_Claims st = Some claims).
Proof.
  unfold ParseAndVerifyAt. destruct (_ =? "")%string; [left; eauto|]. destruct (ResolveCRL _); [left; eauto|].
  destruct (lib_NewValidator _); [left; eauto|]. destruct (lib_Verify _ _ _) as [err|[[claims g] d]]; [|right; eauto].
  destruct (lib_ScopeMismatch err), (lib_Inspect _); eauto 6.
Qed.

Lemma enforceCommunity_None env opts evalTime :
  (exists status, enforceCommunity env opts evalTime = (status, None)) <->
  eo_IsDryRun opts = true \/
  ((forall feat, feat ∈ eo_RequiredFeatures opts -> IsCommunityFeature feat = true) /\
   lib_EvaluateEntitlement (policyReleaseDate (le_Build env)) (environment_name env)
     (eo_DiscoveredProjects opts) evalTime = true).
Proof.
  unfold enforceCommunity. destruct (eo_IsDryRun opts); [split; [by left|by eexists]|].
  assert (first_error (unlicensedError <$> eo_RequiredFeatures opts) = None <->
    forall feat, feat ∈ eo_RequiredFeatures opts -> IsCommunityFeature feat = true) as Hf.
  { rewrite first_error_fmap. unfold unlicensedError. split; intros Hl feat Hi; specialize (Hl feat Hi);
      by destruct (IsCommunityFeature feat). }
  rewrite <- Hf. destruct (first_error _); [split; [by intros [? ?]|intros [|[? _]]; done]|].
  destruct (lib_EvaluateEntitlement _ _ _ _); split; try (by eexists); try (by right); [by intros [? ?]|].
  intros [|[_ ?]]; done.
Qed.

Lemma enforceToken_None env opts token evalTime :
  (exists status, enforceToken env opts token evalTime = (status, None)) <->
  eo_IsDryRun opts = true \/
  exists status claims,
    ParseAndVerifyAt env token evalTime [eo_CRL opts; eo_CRLFile opts; eo_CRLURL opts] = (Some status, None) /\
    vs_Claims status = Some claims /\ entitled claims opts.
Proof.
  unfold enforceToken. destruct (ParseAndVerifyAt_claims env token evalTime [eo_CRL opts; eo_CRLFile opts; eo_CRLURL opts])
    as [(st & err & ->)|(st & claims & -> & Hc)].
  - destruct (eo_IsDryRun opts); [split; [by left|by eexists]|]. split; [by intros [? ?]|].
    intros [|(? & ? & ? & _)]; done.
  - rewrite Hc. destruct (eo_IsDryRun opts); [split; [by left|by eexists]|]. split.
    + intros [status [= _ Hf]]. right. exists st, claims. rewrite <- entitlement_checks_None. done.
    + intros [|(st' & claims' & [= <-] & Hc' & He)]; [done|]. rewrite Hc in Hc'. injection Hc' as <-.
      apply entitlement_checks_None in He. rewrite He. by eexists.
Qed.

End License.

(** ** Properties *)


(** Without a token, at most 25 projects and only free features, or a dry
    run: that is what the community tier permits in production, given the
    documented behaviour of the library's free tier grant. *)
Theorem Enforce_community_limit `{GoLicense} (env : license_env) (opts : EnforcementOptions) :
  (forall n t, lib_EvaluateEntitlement (policyReleaseDate (le_Build env)) "production" n t =
     (n <=? FreeTierMaxProjects)) ->
  le_Getenv env "ENV" = "" -> le_Getenv env "ENVIRONMENT" = "" -> bi_Verified (le_Build env) = false ->
  ResolveToken env (eo_LicenseKey opts) (eo_LicenseFile opts) = inr "" ->
  (exists status, Enforce env opts = (status, None)) <->
  eo_IsDryRun opts = true \/
  (eo_DiscoveredProjects opts <= 25 /\ forall feat, feat ∈ eo_RequiredFeatures opts -> IsCommunityFeature feat = true).
Proof.
  intros Hlib He1 He2 Hv Ht. unfold Enforce, IsApacheConverted. rewrite Hv, Ht. simpl.
  rewrite enforceCommunity_None. unfold environment_name. rewrite He1, He2. simpl. rewrite Hlib, Z.leb_le.
  unfold FreeTierMaxProjects. tauto.
Qed.

(** A library whose grants are the free tier's, and no token anywhere. *)
#[local] Instance demo_license : GoLicense := {|
  Claims := unit; claims_ID := fun _ => "lic-1"; claims_CustomerName := fun _ => "Example"; claims_Plan := fun _ => "pro"; claims_Scope := fun _ => None; claims_GetLimit := fun _ _ => None;
  claims_CheckLimit := fun _ _ _ => None; claims_AssertFeature := fun _ _ => None;
  claims_IsHostAllowed := fun _ _ => true; claims_IsNamespaceAllowed := fun _ _ => true;
  claims_DaysRemaining := fun _ => 30; claims_IsInGracePeriodAt := fun _ _ => false;
  claims_GraceDaysRemainingAt := fun _ _ => 0; claims_IsPerpetual := fun _ => false;
  claims_ExpiresOn := fun _ => "2027-01-01"; claims_GracePeriodDays := fun _ => 14;
  lib_ResolveToken := inl (ErrNew "license: not found"); lib_NotFound := fun _ => true; lib_Revoked := fun _ => false;
  lib_ScopeMismatch := fun _ => false; lib_ResolveCRL := fun _ => inr ""; lib_NewValidator := fun _ => None;
  lib_Verify := fun _ _ _ => inl (ErrNew "invalid signature"); lib_Inspect := fun _ => inl (ErrNew "malformed");
  lib_NormalizeHost := ToLower;
  lib_EvaluateEntitlement := fun _ environment n _ => negb (environment =? "production")%string || (n <=? 25)
|}.

Definition demo_license_env : license_env := {|
  le_Now := 0; le_Build := {| bi_Version := "0.17.0"; bi_Verified := false; bi_ReleaseTime := None; bi_ChangeDate := None; bi_ChangeDay := "" |};
  le_Getenv := fun _ => ""; le_Open := fun _ => inl (ErrNew "no such file or directory")
|}.

Definition demo_enforcement (n : Z) (features : list string) : EnforcementOptions := {|
  eo_DiscoveredProjects := n; eo_IsDryRun := false; eo_GitLabBaseURL := "https://gitlab.com"; eo_TargetPaths := [];
  eo_LicenseKey := ""; eo_LicenseFile := ""; eo_CRL := ""; eo_CRLFile := ""; eo_CRLURL := ""; eo_Command := "run";
  eo_EvaluationTime := None; eo_GitLabServerTime := None; eo_RequiredFeatures := features
|}.

(** Twenty-five projects with free features may be governed, twenty-six may
    not, nor may one with a feature of the pro tier. *)
Lemma Enforce_community_limit_witness :
  (exists status, Enforce demo_license_env (demo_enforcement 25 ["governance.members"]) = (status, None)) /\
  ~ (exists status, Enforce demo_license_env (demo_enforcement 26 []) = (status, None)) /\
  ~ (exists status, Enforce demo_license_env (demo_enforcement 1 ["governance.webhooks"]) = (status, None)).
Proof.
  split; [|split].
  - apply (Enforce_community_limit demo_license_env (demo_enforcement 25 ["governance.members"])); try reflexivity.
    right. split; [vm_compute; discriminate|]. intros feat Hf. by apply list_elem_of_singleton in Hf as ->.
  - intros Hs. apply (Enforce_community_limit demo_license_env (demo_enforcement 26 [])) in Hs; try reflexivity.
    destruct Hs as [Hs|[Hs _]]; [by vm_compute in Hs|]. by apply Hs.
  - intros Hs. apply (Enforce_community_limit demo_license_env (demo_enforcement 1 ["governance.webhooks"])) in Hs; try reflexivity.
    destruct Hs as [Hs|[_ Hs]]; [by vm_compute in Hs|]. specialize (Hs "governance.webhooks" ltac:(left)). by vm_compute in Hs.
Defined.
