(* ===== verification/Provenance.v ===== *)
(** * The version and the provenance of a release: pkg/version

    [EvaluateProvenance] decides whether a binary is an official release: a
    release token, found in the binary, the environment or a file, must be signed
    under the release key and name the version, the commit and the build date of
    the binary.  [Info_IsApacheConverted] turns that into the date at which the
    license changes; [build_info] is what [License] sees of it.
    [Provenance_verified_exact] characterizes the binaries that pass, and
    [Apache_needs_attestation] shows that no other converts.  The format of the
    canonical tokens and the signatures belong to libraries ([GoRelease]). *)

From S2P Require Import Prelude GoLib Base64 GoTime Config License.
Local Open Scope string_scope.
Local Open Scope list_scope.
Local Open Scope Z_scope.

Definition BSLChangePeriodYears : Z := 3.

(** September 1, 2026. *)
Definition ProductGenesisEpoch : Z := day_of_civil 2026 9 1 * (day_seconds * second).

Definition DefaultReleasePublicKeyBase64 : string := "K8GS3G93kHK5kfav+jxrLwZMIh710EWVyL0tvHLfE5A=".

Variant ProvenanceStatus : Type :=
| ProvenanceUnset
| ProvenanceVerifiedOfficial
| ProvenanceUnattestedCustom
| ProvenanceTamperedMetadata
| ProvenanceTamperedSignature.

Definition provenance_text (s : ProvenanceStatus) : string :=
  match s with
  | ProvenanceUnset => ""
  | ProvenanceVerifiedOfficial => "VERIFIED_OFFICIAL_RELEASE"
  | ProvenanceUnattestedCustom => "UNATTESTED_CUSTOM_BUILD"
  | ProvenanceTamperedMetadata => "TAMPERED_METADATA"
  | ProvenanceTamperedSignature => "TAMPERED_SIGNATURE"
  end.

Record ReleaseClaims : Type := {
  rc_Product : string;
  rc_Version : string;
  rc_GitCommit : string;
  rc_BuildDate : string;
  rc_ReleaseDate : string;
  rc_BinaryDigest : string;
  rc_Authority : string;
  rc_AuthorityID : string
}.

Record ReleaseProvenance : Type := {
  rv_Status : ProvenanceStatus;
  rv_Verified : bool;
  rv_Authority : string;
  rv_AuthorityID : string;
  rv_Source : string;
  rv_Error : string;
  rv_SignedClaims : option ReleaseClaims
}.

(** ** The libraries *)

(** [liblicense.ReleaseClaims]; [None] is the zero time. *)
Record lib_claims : Type := {
  lc_Product : string;
  lc_Version : string;
  lc_GitCommit : string;
  lc_BuildDate : option Z;
  lc_ReleaseDate : option Z;
  lc_BinaryDigest : string;
  lc_Authority : string;
  lc_KeyID : string
}.

Record lib_provenance : Type := { lp_Claims : option lib_claims; lp_Authority : string; lp_VerifiedByKeyID : string; lp_Tampered : bool }.

(** An error of the library and what [errors.Is] and [errors.As] find in it. *)
Record lib_error : Type := {
  lx_error : error;
  lx_product_mismatch : bool;
  lx_digest_mismatch : bool;
  (** The field of a [ReleaseTamperingError]. *)
  lx_tampered_field : option string
}.

Record ProvenanceParams : Type := {
  pp_ExpectedProduct : string;
  pp_CurrentVersion : string;
  pp_CurrentCommit : string;
  pp_CurrentBuildDate : option Z;
  pp_BinaryPath : string
}.

Class GoRelease : Type := {
  ed25519_Verify : string -> string -> string -> bool;
  json_ReleaseClaims : string -> error + ReleaseClaims;
  IsPlaceholderAttestation : string -> bool;
  (** Of a token, under a key. *)
  lib_VerifyRelease : string -> string -> error + lib_claims;
  lib_EvaluateProvenance : string -> string -> ProvenanceParams -> (option lib_provenance * lib_error) + lib_provenance;
  lib_InspectRelease : string -> option lib_claims
}.

(** What the process finds: the key that a test sets, the environment, the files,
    its executable and its digest, the variables that the linker sets and the
    build information of the toolchain. *)
Record release_env : Type := {
  re_KeyOverride : option string;
  re_Getenv : string -> string;
  re_ReadFile : string -> option string;
  re_Executable : option string;
  re_ComputeFileDigest : string -> option string;
  re_Version : string;
  re_GitCommit : string;
  re_BuildDate : string;
  re_ReleaseSignature : string;
  re_BuildInfo : option (string * list (string * string));
  re_GoVersion : string;
  re_Compiler : string;
  re_Platform : string
}.

Record version_Info : Type := {
  in_Version : string;
  in_GitCommit : string;
  in_BuildDate : string;
  in_ReleaseSignature : string;
  in_Provenance : ReleaseProvenance;
  in_GoVersion : string;
  in_Compiler : string;
  in_Platform : string
}.

(** ** Dates *)

Definition parseAnyDate (s : string) : option Z :=
  foldr (fun l rest => or_else (time_Parse l s) rest) None [LayoutRFC3339; LayoutRFC3339Nano; LayoutZulu; LayoutDate].

Definition datesMatch (date1 date2 : string) : bool :=
  if (TrimSpace date1 =? TrimSpace date2)%string then true
  else match parseAnyDate date1, parseAnyDate date2 with
       | Some t1, Some t2 => (- 2 * second <=? t1 - t2) && (t1 - t2 <=? 2 * second)
       | _, _ => false
       end.

Definition date_text (t : option Z) : string := match t with Some t => FormatRFC3339 t | None => "" end.

Definition toVersionClaims (c : lib_claims) : ReleaseClaims := {|
  rc_Product := lc_Product c; rc_Version := lc_Version c; rc_GitCommit := lc_GitCommit c; rc_BuildDate := date_text (lc_BuildDate c);
  rc_ReleaseDate := date_text (lc_ReleaseDate c); rc_BinaryDigest := lc_BinaryDigest c; rc_Authority := lc_Authority c;
  rc_AuthorityID := lc_KeyID c |}.

(** ** Keys and tokens *)

(** A base64 error, without its position. *)
Definition errBase64 : error := ErrNew "illegal base64 data".

Definition PublicKeySize : Z := 32.
Definition SignatureSize : Z := 64.
Definition byte_length (s : string) : Z := Z.of_nat (String.length s).

(** The release key: the override, the environment, or the embedded key. *)
Definition GetReleaseVerificationPublicKey (env : release_env) : error + string :=
  match re_KeyOverride env with
  | Some key => inr key
  | None =>
      let keyStr := or_string (re_Getenv env "DIVMORA_PUBLIC_KEY") DefaultReleasePublicKeyBase64 in
      match or_else (base64_Decode keyStr) (base64_RawURL_Decode keyStr) with
      | None => inl (ErrWrap "failed to decode release verification public key: " errBase64)
      | Some key =>
          if byte_length key =? PublicKeySize then inr key
          else inl (ErrNew ("invalid release verification public key size: expected " +:+ Itoa PublicKeySize +:+ " bytes, got "
                            +:+ Itoa (byte_length key)))
      end
  end.

Definition ProtocolPrefixRelease : string := "DIVREL1".

(** A canonical token or an armored one. *)
Definition is_canonical (token : string) : bool := HasPrefix token (ProtocolPrefixRelease +:+ ".") || HasPrefix token "-----BEGIN".

Section Release.
Context `{GoRelease}.

(** The payload of a token of two parts, and its signature. *)
Definition decode_part (what part : string) : error + string :=
  match or_else (base64_RawURL_Decode part) (base64_Decode part) with
  | Some bytes => inr bytes
  | None => inl (ErrWrap ("failed to decode release " +:+ what +:+ ": ") errBase64)
  end.

Definition verify_legacy (token key : string) : error + ReleaseClaims :=
  match SplitByte "." token with
  | [payload; signature] =>
      match decode_part "payload" payload with
      | inl e => inl e
      | inr payloadBytes =>
          match decode_part "signature" signature with
          | inl e => inl e
          | inr sigBytes =>
              if negb (byte_length sigBytes =? SignatureSize)
              then inl (ErrNew ("invalid release signature size: expected " +:+ Itoa SignatureSize +:+ " bytes, got " +:+ Itoa (byte_length sigBytes)))
              else if negb (ed25519_Verify key payloadBytes sigBytes)
              then inl (ErrNew "cryptographic signature verification failed: signature does not match public key")
              else match json_ReleaseClaims payloadBytes with
                   | inl e => inl (ErrWrap "failed to deserialize release claims: " e)
                   | inr claims => inr claims
                   end
          end
      end
  | _ => inl (ErrNew "malformed release token: expected format 'DIVREL1.<payload>.<sig>' or '<payload>.<signature>'")
  end.

(** [None] is a nil key. *)
Definition ParseAndVerifyReleaseToken (env : release_env) (token : string) (pubKey : option string) : error + ReleaseClaims :=
  let token := TrimSpace token in
  if (token =? "")%string then inl (ErrNew "release token cannot be empty")
  else
    match (match pubKey with Some key => inr key | None => GetReleaseVerificationPublicKey env end) with
    | inl e => inl e
    | inr key =>
        if is_canonical token then
          match lib_VerifyRelease token key with inl e => inl e | inr c => inr (toVersionClaims c) end
        else verify_legacy token key
    end.

Definition isAuthenticSignatureCandidate (s : string) : bool := negb (IsPlaceholderAttestation s).

(** [filepath.Dir] and [filepath.Join] of a path that is absolute. *)
Definition beside (exec name : string) : string := path_Clean (default "." (BeforeLast "/" exec) +:+ "/" +:+ name).

Definition sidecar_files (env : release_env) : list string :=
  ["release.sig"; "gitlab-fleet-governor.sig"]
  ++ match re_Executable env with
     | Some exec => [beside exec "release.sig"; beside exec "gitlab-fleet-governor.sig"]
     | None => []
     end.

Definition candidate (s source : string) : option (string * string) :=
  let s := TrimSpace s in if isAuthenticSignatureCandidate s then Some (s, source) else None.

(** The release token and where it was found. *)
Definition ResolveReleaseSignature (env : release_env) : string * string :=
  let files := foldr (fun path rest =>
    or_else (content ← re_ReadFile env path; candidate content ("sidecar file (" +:+ path +:+ ")")) rest) None (sidecar_files env) in
  default ("", "none")
    (or_else (candidate (re_ReleaseSignature env) "embedded (ldflags)")
       (or_else (candidate (re_Getenv env "FLEET_RELEASE_SIGNATURE") "environment (FLEET_RELEASE_SIGNATURE)") files)).

(** ** EvaluateProvenance *)

Definition unverified (status : ProvenanceStatus) (authority authorityID source msg : string) (claims : option ReleaseClaims) : ReleaseProvenance := {|
  rv_Status := status; rv_Verified := false; rv_Authority := authority; rv_AuthorityID := authorityID; rv_Source := source; rv_Error := msg;
  rv_SignedClaims := claims |}.

Definition verified (authority authorityID source : string) (claims : option ReleaseClaims) : ReleaseProvenance := {|
  rv_Status := ProvenanceVerifiedOfficial; rv_Verified := true; rv_Authority := authority; rv_AuthorityID := authorityID; rv_Source := source;
  rv_Error := ""; rv_SignedClaims := claims |}.

(** The status and the message of an error of the library. *)
Definition classify_failure (prov : option lib_provenance) (x : lib_error) : ProvenanceStatus * string :=
  let text := error_text (lx_error x) in
  if lx_product_mismatch x then (ProvenanceTamperedMetadata, "Product mismatch: " +:+ text)
  else if lx_digest_mismatch x then (ProvenanceTamperedMetadata, "Binary digest mismatch: " +:+ text)
  else
    match lx_tampered_field x with
    | Some field =>
        (ProvenanceTamperedMetadata,
         if (field =? "version")%string then "Version mismatch: " +:+ text
         else if (field =? "git_commit")%string then "Commit mismatch: " +:+ text
         else if (field =? "build_date")%string then "Build date mismatch: " +:+ text
         else text)
    | None =>
        (match prov with Some p => if lp_Tampered p then ProvenanceTamperedMetadata else ProvenanceTamperedSignature
                       | None => ProvenanceTamperedSignature end, text)
    end.

Definition provenance_params (env : release_env) (i : version_Info) : ProvenanceParams := {|
  pp_ExpectedProduct := "gitlab-fleet-governor"; pp_CurrentVersion := in_Version i; pp_CurrentCommit := in_GitCommit i;
  pp_CurrentBuildDate := parseAnyDate (in_BuildDate i); pp_BinaryPath := default "" (re_Executable env) |}.

(** A canonical token: the library decides, and the build date must agree. *)
Definition evaluate_canonical (env : release_env) (i : version_Info) (sig source key : string) : ReleaseProvenance :=
  match lib_EvaluateProvenance sig key (provenance_params env i) with
  | inl (prov, x) =>
      let '(status, msg) := classify_failure prov x in
      let claims := toVersionClaims <$> or_else (prov ≫= lp_Claims) (lib_InspectRelease sig) in
      unverified status (match claims with Some c => rc_Authority c | None => "" end)
        (match claims with Some c => rc_AuthorityID c | None => "" end) source msg claims
  | inr prov =>
      let accept := verified (lp_Authority prov) (lp_VerifiedByKeyID prov) source (toVersionClaims <$> lp_Claims prov) in
      match lp_Claims prov with
      | Some c =>
          match lc_BuildDate c with
          | Some t =>
              if datesMatch (in_BuildDate i) (FormatRFC3339 t) then accept
              else unverified ProvenanceTamperedMetadata (lp_Authority prov) (lp_VerifiedByKeyID prov) source
                     ("Build date mismatch: binary compiled with date '" +:+ in_BuildDate i +:+ "', but signed claims specify '"
                      +:+ FormatRFC3339 t +:+ "'") (Some (toVersionClaims c))
          | None => accept
          end
      | None => accept
      end
  end.

(** A version without its leading v. *)
Definition plain_version (v : string) : string := TrimPrefix (TrimSpace v) "v".

Definition plain_digest (d : string) : string := TrimPrefix (ToLower (TrimSpace d)) "sha256:".

Definition product_matches (c : ReleaseClaims) : bool :=
  existsb (String.eqb (rc_Product c)) [""; "*"; "all"] || EqualFold (rc_Product c) "gitlab-fleet-governor".

Definition version_matches (i : version_Info) (c : ReleaseClaims) : bool :=
  let actual := plain_version (in_Version i) in
  (actual =? "")%string || (actual =? "dev")%string || (actual =? plain_version (rc_Version c))%string.

Definition commit_matches (i : version_Info) (c : ReleaseClaims) : bool :=
  let expected := TrimSpace (rc_GitCommit c) in
  let actual := TrimSpace (in_GitCommit i) in
  (actual =? "")%string || (actual =? "none")%string || (expected =? "")%string || HasPrefix expected actual || HasPrefix actual expected.

(** The digest of the binary, when it differs from the signed one; a digest that
    cannot be computed is not looked at. *)
Definition digest_mismatch (env : release_env) (c : ReleaseClaims) : option string :=
  if (rc_BinaryDigest c =? "")%string then None
  else
    match re_Executable env with
    | None => None
    | Some path =>
        if (path =? "")%string then None
        else
          match re_ComputeFileDigest env path with
          | Some d => if (plain_digest (rc_BinaryDigest c) =? plain_digest d)%string then None else Some d
          | None => None
          end
    end.

Definition evaluate_legacy (env : release_env) (i : version_Info) (sig source : string) (pubKey : option string) : ReleaseProvenance :=
  match ParseAndVerifyReleaseToken env sig pubKey with
  | inl e =>
      unverified ProvenanceTamperedSignature "" "" source
        ("Release signature verification failed (" +:+ source +:+ "): " +:+ error_text e) None
  | inr c =>
      let tampered msg := unverified ProvenanceTamperedMetadata (rc_Authority c) (rc_AuthorityID c) source msg (Some c) in
      if negb (product_matches c) then
        tampered ("Product mismatch: binary expects 'gitlab-fleet-governor', but signed claims specify '" +:+ rc_Product c +:+ "'")
      else if negb (version_matches i c) then
        tampered ("Version mismatch: binary compiled as '" +:+ in_Version i +:+ "', but signed claims specify '" +:+ rc_Version c +:+ "'")
      else if negb (commit_matches i c) then
        tampered ("Commit mismatch: binary compiled from '" +:+ in_GitCommit i +:+ "', but signed claims specify '" +:+ rc_GitCommit c +:+ "'")
      else if negb (datesMatch (in_BuildDate i) (rc_BuildDate c)) then
        tampered ("Build date mismatch: binary compiled with date '" +:+ in_BuildDate i +:+ "', but signed claims specify '"
                  +:+ rc_BuildDate c +:+ "'")
      else
        match digest_mismatch env c with
        | Some d => tampered ("Binary digest mismatch: computed " +:+ d +:+ ", but signed claims specify " +:+ rc_BinaryDigest c)
        | None => verified (rc_Authority c) (rc_AuthorityID c) source (Some c)
        end
  end.

Definition EvaluateProvenance (env : release_env) (i : version_Info) (pubKey : option string) : ReleaseProvenance :=
  let '(sig, source) := ResolveReleaseSignature env in
  if (sig =? "")%string then
    unverified ProvenanceUnattestedCustom "" "" source "No cryptographic release signature present; running as custom/unattested build" None
  else
    match (match pubKey with Some key => inr key | None => GetReleaseVerificationPublicKey env end) with
    | inl e => unverified ProvenanceTamperedSignature "" "" source ("Failed to resolve release verification public key: " +:+ error_text e) None
    | inr key => if is_canonical sig then evaluate_canonical env i sig source key else evaluate_legacy env i sig source pubKey
    end.

(** ** version.go *)

Definition no_provenance : ReleaseProvenance := unverified ProvenanceUnset "" "" "" "" None.

(** The build settings of the toolchain fill in what the linker did not set. *)
Definition with_setting (s : string * string) (cd : string * string) : string * string :=
  let '(commit, date) := cd in
  if (s.1 =? "vcs.revision")%string then (if (commit =? "none")%string then s.2 else commit, date)
  else if (s.1 =? "vcs.time")%string then (commit, if (date =? "unknown")%string then s.2 else date)
  else cd.

Definition compiled (env : release_env) : version_Info :=
  let '(v, (commit, date)) :=
    match re_BuildInfo env with
    | Some (main, settings) =>
        (if (re_Version env =? "dev")%string && negb (main =? "")%string && negb (main =? "(devel)")%string then main else re_Version env,
         foldl (fun cd s => with_setting s cd) (re_GitCommit env, re_BuildDate env) settings)
    | None => (re_Version env, (re_GitCommit env, re_BuildDate env))
    end in
  {| in_Version := v; in_GitCommit := commit; in_BuildDate := date; in_ReleaseSignature := re_ReleaseSignature env; in_Provenance := no_provenance;
     in_GoVersion := re_GoVersion env; in_Compiler := re_Compiler env; in_Platform := re_Platform env |}.

(** [version.Get]. *)
Definition version_Get (env : release_env) : version_Info :=
  let i := compiled env in {|
  in_Version := in_Version i; in_GitCommit := in_GitCommit i; in_BuildDate := in_BuildDate i; in_ReleaseSignature := in_ReleaseSignature i;
  in_Provenance := EvaluateProvenance env i None; in_GoVersion := in_GoVersion i; in_Compiler := in_Compiler i; in_Platform := in_Platform i |}.

Definition Info_String (i : version_Info) : string :=
  let prov := match rv_Status (in_Provenance i) with ProvenanceUnset => ProvenanceUnattestedCustom | s => s end in
  "gitlab-fleet-governor " +:+ in_Version i +:+ " (commit: " +:+ in_GitCommit i +:+ ", date: " +:+ in_BuildDate i +:+ ", provenance: "
  +:+ provenance_text prov +:+ ", go: " +:+ in_GoVersion i +:+ ", platform: " +:+ in_Platform i +:+ ")".

(** The date that counts: the signed one of a verified release. *)
Definition authoritative_date (i : version_Info) : string :=
  match rv_SignedClaims (in_Provenance i) with
  | Some c => if rv_Verified (in_Provenance i) && negb (rc_BuildDate c =? "")%string then rc_BuildDate c else in_BuildDate i
  | None => in_BuildDate i
  end.

(** The instant of a release date, not before the product existed. *)
Definition release_instant (date : string) : option Z :=
  if (date =? "")%string || (date =? "unknown")%string then None
  else
    t ← or_else (time_Parse LayoutRFC3339 date) (or_else (time_Parse LayoutDate date) (time_Parse LayoutRFC3339Nano date));
    if t <? ProductGenesisEpoch then None else Some t.

Definition ReleaseTime (i : version_Info) : option Z := release_instant (authoritative_date i).

Definition ChangeDate (i : version_Info) : option Z := (fun t => AddYears t BSLChangePeriodYears) <$> ReleaseTime i.

Definition Info_IsApacheConverted (i : version_Info) (now : Z) : bool :=
  rv_Verified (in_Provenance i) && match ChangeDate i with Some changeDate => changeDate <? now | None => false end.

Definition Info_License (i : version_Info) (now : Z) : string := if Info_IsApacheConverted i now then "Apache-2.0" else "BSL-1.1".

(** What [License] takes of the version; the zero time is printed when there is
    no change date. *)
Definition build_info (i : version_Info) : BuildInfo := {|
  bi_Version := in_Version i; bi_Verified := rv_Verified (in_Provenance i); bi_ReleaseTime := ReleaseTime i; bi_ChangeDate := ChangeDate i;
  bi_ChangeDay := match ChangeDate i with Some t => FormatDate t | None => "0001-01-01" end |}.

(** ** Properties *)

(** Two dates agree: the same text, or instants at most two seconds apart. *)
Definition dates_agree (d1 d2 : string) : Prop :=
  TrimSpace d1 = TrimSpace d2 \/
  exists t1 t2, parseAnyDate d1 = Some t1 /\ parseAnyDate d2 = Some t2 /\ Z.abs (t1 - t2) <= 2 * second.

Lemma datesMatch_spec d1 d2 : datesMatch d1 d2 = true <-> dates_agree d1 d2.
Proof.
  unfold datesMatch, dates_agree. destruct (String.eqb_spec (TrimSpace d1) (TrimSpace d2)) as [He|He]; [tauto|].
  destruct (parseAnyDate d1) as [t1|], (parseAnyDate d2) as [t2|].
  - rewrite andb_true_iff, !Z.leb_le. split; [intros; right; exists t1, t2; split_and!; [done..|lia]|].
    intros [?|(? & ? & [= <-] & [= <-] & ?)]; [done|lia].
  - split; [done|]. intros [?|(? & ? & ? & ? & ?)]; done.
  - split; [done|]. intros [?|(? & ? & ? & ? & ?)]; done.
  - split; [done|]. intros [?|(? & ? & ? & ? & ?)]; done.
Qed.

(** What the claims of a token of two parts must say of the binary. *)
Record claims_fit (env : release_env) (i : version_Info) (c : ReleaseClaims) : Prop := {
  fit_product : rc_Product c ∈ [""; "*"; "all"] \/ ToLower (rc_Product c) = "gitlab-fleet-governor";
  fit_version : plain_version (in_Version i) ∈ [""; "dev"; plain_version (rc_Version c)];
  fit_commit : let signed := TrimSpace (rc_GitCommit c) in let actual := TrimSpace (in_GitCommit i) in
    actual ∈ [""; "none"] \/ signed = "" \/ (exists r, signed = actual +:+ r) \/ (exists r, actual = signed +:+ r);
  fit_date : dates_agree (in_BuildDate i) (rc_BuildDate c);
  fit_digest : rc_BinaryDigest c <> "" -> forall path d, re_Executable env = Some path -> path <> "" -> re_ComputeFileDigest env path = Some d ->
    plain_digest (rc_BinaryDigest c) = plain_digest d
}.

(** A token attests a binary under a key: the library accepts a canonical token
    and its build date agrees, or the signature of a token of two parts verifies
    and its claims fit. *)
Inductive attests (env : release_env) (i : version_Info) (key sig : string) : option ReleaseClaims -> Prop :=
| attests_canonical prov :
    is_canonical sig = true ->
    lib_EvaluateProvenance sig key (provenance_params env i) = inr prov ->
    (forall c t, lp_Claims prov = Some c -> lc_BuildDate c = Some t -> dates_agree (in_BuildDate i) (FormatRFC3339 t)) ->
    attests env i key sig (toVersionClaims <$> lp_Claims prov)
| attests_legacy payload signature payloadBytes sigBytes c :
    is_canonical sig = false ->
    SplitByte "." sig = [payload; signature] ->
    decode_part "payload" payload = inr payloadBytes ->
    decode_part "signature" signature = inr sigBytes ->
    byte_length sigBytes = SignatureSize ->
    ed25519_Verify key payloadBytes sigBytes = true ->
    json_ReleaseClaims payloadBytes = inr c ->
    claims_fit env i c ->
    attests env i key sig (Some c).

Lemma verify_legacy_spec token key c :
  verify_legacy token key = inr c <->
  exists payload signature payloadBytes sigBytes, SplitByte "." token = [payload; signature] /\ decode_part "payload" payload = inr payloadBytes /\
    decode_part "signature" signature = inr sigBytes /\ byte_length sigBytes = SignatureSize /\ ed25519_Verify key payloadBytes sigBytes = true /\
    json_ReleaseClaims payloadBytes = inr c.
Proof.
  unfold verify_legacy. split.
  - intros Hv. destruct (SplitByte _ _) as [|p [|s []]]; try done. destruct (decode_part _ p) as [|pb] eqn:Ep; [done|].
    destruct (decode_part _ s) as [|sb] eqn:Es; [done|]. destruct (byte_length sb =? SignatureSize) eqn:El; [|done]. cbn in Hv.
    destruct (ed25519_Verify _ _ _) eqn:Ev; [|done]. cbn in Hv. destruct (json_ReleaseClaims pb) as [|c'] eqn:Ej; [done|]. injection Hv as <-.
    exists p, s, pb, sb. split_and!; try done. by apply Z.eqb_eq.
  - intros (p & s & pb & sb & -> & -> & -> & Hl & -> & ->). by rewrite (proj2 (Z.eqb_eq _ _) Hl).
Qed.

Lemma claims_fit_spec env i c :
  claims_fit env i c <->
  product_matches c = true /\ version_matches i c = true /\ commit_matches i c = true /\ datesMatch (in_BuildDate i) (rc_BuildDate c) = true /\
  digest_mismatch env c = None.
Proof.
  assert (product_matches c = true <-> rc_Product c ∈ [""; "*"; "all"] \/ ToLower (rc_Product c) = "gitlab-fleet-governor") as Hp.
  { unfold product_matches, EqualFold. rewrite orb_true_iff, String.eqb_eq, existsb_exists. setoid_rewrite String.eqb_eq. setoid_rewrite <- list_elem_of_In.
    split; (intros [H'|H']; [left|by right]); [by destruct H' as (x & ? & ->)|by exists (rc_Product c)]. }
  assert (version_matches i c = true <-> plain_version (in_Version i) ∈ [""; "dev"; plain_version (rc_Version c)]) as Hv.
  { unfold version_matches. rewrite !orb_true_iff, !String.eqb_eq, !elem_of_cons, elem_of_nil. tauto. }
  assert (digest_mismatch env c = None <-> (rc_BinaryDigest c <> "" -> forall path d, re_Executable env = Some path -> path <> "" ->
    re_ComputeFileDigest env path = Some d -> plain_digest (rc_BinaryDigest c) = plain_digest d)) as Hd.
  { unfold digest_mismatch. destruct (String.eqb_spec (rc_BinaryDigest c) "") as [|Hne]; [tauto|].
    destruct (re_Executable env) as [path|]; [|by split]. destruct (String.eqb_spec path "") as [->|Hp']; [split; [by intros _ _ ? ? [= <-]|done]|].
    destruct (re_ComputeFileDigest env path) as [d|] eqn:Ed; [|split; [intros _ _ ? ? [= <-]; congruence|done]].
    destruct (String.eqb_spec (plain_digest (rc_BinaryDigest c)) (plain_digest d)) as [He|He].
    - split; [|done]. intros _ _ ? ? [= <-] _. rewrite Ed. by intros [= <-].
    - split; [done|]. intros Hx. by destruct (He (Hx Hne path d eq_refl Hp' Ed)). }
  assert (commit_matches i c = true <-> let signed := TrimSpace (rc_GitCommit c) in let actual := TrimSpace (in_GitCommit i) in
    actual ∈ [""; "none"] \/ signed = "" \/ (exists r, signed = actual +:+ r) \/ (exists r, actual = signed +:+ r)) as Hc.
  { unfold commit_matches. cbv zeta. rewrite !orb_true_iff, !String.eqb_eq, !HasPrefix_spec, !elem_of_cons, elem_of_nil. tauto. }
  rewrite Hp, Hv, Hc, datesMatch_spec, Hd. split; [by intros []|]. intros (? & ? & ? & ? & ?). by constructor.
Qed.

Lemma or_else_cases {A} (P : A -> Prop) (a b : option A) :
  (forall x, a = Some x -> P x) -> (forall x, b = Some x -> P x) -> forall x, or_else a b = Some x -> P x.
Proof. destruct a; cbn; naive_solver. Qed.

Lemma ResolveReleaseSignature_trimmed env : TrimSpace (ResolveReleaseSignature env).1 = (ResolveReleaseSignature env).1.
Proof.
  assert (forall s source x, candidate s source = Some x -> TrimSpace x.1 = x.1) as Hc.
  { unfold candidate. cbv zeta. intros s source x. destruct (isAuthenticSignatureCandidate _); [|done]. intros [= <-]. apply TrimFunc_idem. }
  unfold ResolveReleaseSignature. match goal with |- context [default _ ?o] => destruct o as [x|] eqn:Ex end; [|done]. cbn [default from_option id].
  revert x Ex. apply or_else_cases; [by apply Hc|]. apply or_else_cases; [by apply Hc|].
  generalize (sidecar_files env) as l. induction l as [|path l IH]; [done|]. cbn [foldr]. apply or_else_cases; [|exact IH].
  intros x Hx. destruct (re_ReadFile env path) as [content|]; [|done]. by eapply Hc.
Qed.

(** A result that is verified just if the claims it shows are attested, and whose
    status says so. *)
Definition decides (p : ReleaseProvenance) (attested : option ReleaseClaims -> Prop) : Prop :=
  (forall claims, rv_Verified p = true /\ rv_SignedClaims p = claims <-> attested claims) /\
  (rv_Status p = ProvenanceVerifiedOfficial <-> rv_Verified p = true).

Lemma decides_not p attested :
  rv_Verified p = false -> rv_Status p <> ProvenanceVerifiedOfficial -> (forall claims, ~ attested claims) -> decides p attested.
Proof. intros Hv Hs Ha. split; [intros claims; split; [intros []; congruence|by intros ?%Ha]|split; [done|congruence]]. Qed.

Lemma decides_yes authority authorityID source claims (attested : option ReleaseClaims -> Prop) :
  attested claims -> (forall claims', attested claims' -> claims' = claims) -> decides (verified authority authorityID source claims) attested.
Proof. intros Ha Hu. split; [|done]. intros claims'. cbn. split; [by intros [_ <-]|]. intros H'. by rewrite (Hu _ H'). Qed.

Lemma evaluate_canonical_decides env i sig source key :
  is_canonical sig = true -> decides (evaluate_canonical env i sig source key) (attests env i key sig).
Proof.
  intros Hcan. unfold evaluate_canonical. destruct (lib_EvaluateProvenance _ _ _) as [[prov x]|prov] eqn:El.
  - assert (forall st msg, classify_failure prov x = (st, msg) -> st <> ProvenanceVerifiedOfficial) as Hc.
    { unfold classify_failure. intros st msg. destruct (lx_product_mismatch x), (lx_digest_mismatch x), (lx_tampered_field x), prov as [p|];
        try destruct (lp_Tampered p); by intros [= <- <-]. }
    destruct (classify_failure prov x) as [st msg]. apply decides_not; [done|by apply (Hc _ msg)|]. intros claims Ha. inversion Ha; congruence.
  - assert (forall claims, attests env i key sig claims -> claims = toVersionClaims <$> lp_Claims prov /\
      forall c t, lp_Claims prov = Some c -> lc_BuildDate c = Some t -> datesMatch (in_BuildDate i) (FormatRFC3339 t) = true) as Hinv.
    { intros claims Ha. inversion Ha as [prov' _ El' Hd|]; [|congruence]. rewrite El in El'. injection El' as <-. split; [done|].
      intros c t Hc Ht. by apply datesMatch_spec, (Hd c t). }
    assert ((forall c t, lp_Claims prov = Some c -> lc_BuildDate c = Some t -> datesMatch (in_BuildDate i) (FormatRFC3339 t) = true) ->
      decides (verified (lp_Authority prov) (lp_VerifiedByKeyID prov) source (toVersionClaims <$> lp_Claims prov)) (attests env i key sig)) as Hyes.
    { intros Hd. apply decides_yes; [|by intros ? [-> _]%Hinv]. apply attests_canonical; [done..|]. intros c t Hc Ht. by apply datesMatch_spec, (Hd c t). }
    destruct (lp_Claims prov) as [c|] eqn:Ec; [destruct (lc_BuildDate c) as [t|] eqn:Et; [destruct (datesMatch _ _) eqn:Em|]|]; cbn in Hyes.
    + apply Hyes. by intros ? ? [= <-]; rewrite Et; intros [= <-].
    + apply decides_not; [done..|]. intros claims [_ Hd]%Hinv. by rewrite (Hd c t) in Em.
    + apply Hyes. by intros ? ? [= <-]; rewrite Et.
    + by apply Hyes.
Qed.

Lemma evaluate_legacy_decides env i sig source key :
  TrimSpace sig = sig -> sig <> "" -> is_canonical sig = false -> GetReleaseVerificationPublicKey env = inr key ->
  decides (evaluate_legacy env i sig source None) (attests env i key sig).
Proof.
  intros Ht Hne Hcan Hkey. unfold evaluate_legacy, ParseAndVerifyReleaseToken. rewrite Ht, (proj2 (String.eqb_neq _ _) Hne), Hkey, Hcan.
  assert (forall claims, attests env i key sig claims -> exists c, claims = Some c /\ verify_legacy sig key = inr c /\ claims_fit env i c) as Hinv.
  { intros claims Ha. inversion Ha as [|payload signature pb sb c]; [congruence|]. exists c. split_and!; [done| |done].
    apply verify_legacy_spec. by exists payload, signature, pb, sb. }
  destruct (verify_legacy sig key) as [e|c] eqn:Ev; [apply decides_not; [done..|]; by intros claims (? & _ & ? & _)%Hinv|].
  pose proof (claims_fit_spec env i c) as Hfit.
  assert (forall msg, ~ claims_fit env i c ->
    decides (unverified ProvenanceTamperedMetadata (rc_Authority c) (rc_AuthorityID c) source msg (Some c)) (attests env i key sig)) as Hno.
  { intros msg Hn. apply decides_not; [done..|]. intros claims (? & _ & [= <-] & ?)%Hinv. done. }
  cbv zeta. destruct (product_matches c); cbn [negb]; [|apply Hno; rewrite Hfit; tauto || naive_solver].
  destruct (version_matches i c); cbn [negb]; [|apply Hno; rewrite Hfit; naive_solver].
  destruct (commit_matches i c); cbn [negb]; [|apply Hno; rewrite Hfit; naive_solver].
  destruct (datesMatch (in_BuildDate i) (rc_BuildDate c)); cbn [negb]; [|apply Hno; rewrite Hfit; naive_solver].
  destruct (digest_mismatch env c); [apply Hno; rewrite Hfit; naive_solver|].
  apply decides_yes; [|by intros claims (? & -> & [= <-] & _)%Hinv].
  pose proof (proj1 (verify_legacy_spec sig key c) Ev) as (payload & signature & pb & sb & Hs & Hp & Hg & Hl & Hv & Hj).
  eapply attests_legacy; try done. by apply Hfit.
Qed.

(** A release token that was found, and that attests a binary under the release
    key. *)
Definition attested (env : release_env) (i : version_Info) (claims : option ReleaseClaims) : Prop :=
  exists sig source key, ResolveReleaseSignature env = (sig, source) /\ sig <> "" /\ GetReleaseVerificationPublicKey env = inr key /\
    attests env i key sig claims.

Lemma EvaluateProvenance_decides env i : decides (EvaluateProvenance env i None) (attested env i).
Proof.
  unfold EvaluateProvenance, attested. pose proof (ResolveReleaseSignature_trimmed env) as Ht.
  destruct (ResolveReleaseSignature env) as [sig source]. cbn in Ht. destruct (String.eqb_spec sig "") as [->|Hne].
  { apply decides_not; [done..|]. intros claims (? & ? & ? & [= <- <-] & ? & _). done. }
  destruct (GetReleaseVerificationPublicKey env) as [e|key] eqn:Ek.
  { apply decides_not; [done..|]. by intros claims (? & ? & ? & _ & _ & ? & _). }
  assert (decides (if is_canonical sig then evaluate_canonical env i sig source key else evaluate_legacy env i sig source None) (attests env i key sig)) as [Hd Hst].
  { destruct (is_canonical sig) eqn:Hcan; [by apply evaluate_canonical_decides|by apply evaluate_legacy_decides]. }
  split; [|done]. intros claims. rewrite Hd. split.
  - intros Ha. by exists sig, source, key.
  - by intros (? & ? & ? & [= <- <-] & _ & [= <-] & Ha).
Qed.

(** C9. A binary passes as an official release, with the claims it shows, just if a
    release token is found, the release key can be resolved and the token attests
    the binary under that key: the library accepts it for this product, version,
    commit and build date, or its signature verifies and its claims name them;
    otherwise its status is not that of an official release. *)
Theorem Provenance_verified_exact env :
  let p := in_Provenance (version_Get env) in
  (forall claims, rv_Verified p = true /\ rv_SignedClaims p = claims <-> attested env (compiled env) claims) /\
  (rv_Status p = ProvenanceVerifiedOfficial <-> rv_Verified p = true).
Proof. apply EvaluateProvenance_decides. Qed.

(** The build date that counts for the claims of a token. *)
Definition attested_date (i : version_Info) (claims : option ReleaseClaims) : string :=
  match claims with Some c => or_string (rc_BuildDate c) (in_BuildDate i) | None => in_BuildDate i end.

(** The days before the March of a year. *)
Lemma days_before_year z : z / 400 * 146097 + z mod 400 * 365 + (z mod 400) / 4 - (z mod 400) / 100 = 365 * z + z / 4 - z / 100 + z / 400.
Proof.
  pose proof (Z.div_mod z 400 ltac:(done)) as Hz. set (e := z / 400) in *. set (r := z mod 400) in *. clearbody e r. subst z.
  replace (400 * e + r) with (r + (100 * e) * 4) at 2 by lia. replace (400 * e + r) with (r + (4 * e) * 100) at 2 by lia.
  rewrite !Z.div_add by lia. lia.
Qed.
Lemma three_years z : 365 * z + z / 4 - z / 100 + z / 400 + 1095 <= 365 * (z + 3) + (z + 3) / 4 - (z + 3) / 100 + (z + 3) / 400 <= 365 * z + z / 4 - z / 100 + z / 400 + 1096.
Proof. Z.div_mod_to_equations. lia. Qed.

Lemma AddYears_3_bounds t : t + 1095 * day_seconds * second <= AddYears t 3 <= t + 1096 * day_seconds * second.
Proof.
  unfold AddYears. set (u := day_seconds * second). assert (0 < u) as Hu by (subst u; done). set (n := t / u). pose proof (civil_day n) as Hc.
  destruct (civil n) as [[y m] d]. destruct Hc as (Hd & _ & _).
  assert (n + 1095 <= day_of_civil (y + 3) m d <= n + 1096) as Hb.
  { rewrite <- Hd. unfold day_of_civil. rewrite !days_before_year. clear.
    destruct (m <=? 2); [replace (y + 3 - 1) with (y - 1 + 3) by lia; pose proof (three_years (y - 1))|pose proof (three_years y)]; lia. }
  pose proof (Z.div_mod t u ltac:(lia)) as Ht. fold n in Ht. replace (1095 * day_seconds * second) with (1095 * u) by done.
  replace (1096 * day_seconds * second) with (1096 * u) by done. nia.
Qed.


(** A canonical token whose build date has a year of four digits is compared with
    the binary by the second. *)
Lemma canonical_date i t :
  1000 <= year_of t < 10000 ->
  dates_agree (in_BuildDate i) (FormatRFC3339 t) <->
  TrimSpace (in_BuildDate i) = TrimSpace (FormatRFC3339 t) \/
  exists t1, parseAnyDate (in_BuildDate i) = Some t1 /\ Z.abs (t1 - t / second * second) <= 2 * second.
Proof.
  intros Hy. unfold dates_agree. assert (parseAnyDate (FormatRFC3339 t) = Some (t / second * second)) as ->.
  { unfold parseAnyDate. cbn [foldr]. by rewrite time_Parse_RFC3339. }
  split; (intros [?|Hx]; [by left|right]); [destruct Hx as (t1 & ? & ? & [= <-] & ?); by exists t1|].
  destruct Hx as (t1 & ? & ?). by exists t1, (t / second * second).
Qed.

End Release.

(** ** Examples *)

Example default_key_size : byte_length <$> base64_Decode DefaultReleasePublicKeyBase64 = Some PublicKeySize.
Proof. by vm_compute. Qed.

(** A signature scheme for the examples: the signature repeats the key, twice. *)
Definition demo_claims (version date : string) : ReleaseClaims := {|
  rc_Product := ""; rc_Version := version; rc_GitCommit := ""; rc_BuildDate := date; rc_ReleaseDate := ""; rc_BinaryDigest := "";
  rc_Authority := "me"; rc_AuthorityID := "" |}.

Definition demo_release : GoRelease := {|
  ed25519_Verify := fun key _ sig => (sig =? key +:+ key)%string;
  json_ReleaseClaims := fun payload => inr (demo_claims "1.0.0" payload);
  IsPlaceholderAttestation := fun s => existsb (String.eqb s) [""; "none"];
  lib_VerifyRelease := fun _ _ => inl (ErrNew "unsupported");
  lib_EvaluateProvenance := fun _ _ _ => inl (None, Build_lib_error (ErrNew "unsupported") false false None);
  lib_InspectRelease := fun _ => None |}.

Definition demo_key : string := "0123456789abcdef0123456789abcdef".

(** A build of one's own: the linker sets the date, the environment the key and a
    token that was signed with it. *)
Definition demo_release_env (own_key : bool) : release_env := {|
  re_KeyOverride := None;
  re_Getenv := fun name =>
    if (name =? "FLEET_RELEASE_SIGNATURE")%string then base64_Encode "2026-09-02" +:+ "." +:+ base64_Encode (demo_key +:+ demo_key)
    else if own_key && (name =? "DIVMORA_PUBLIC_KEY")%string then base64_Encode demo_key else "";
  re_ReadFile := fun _ => None; re_Executable := None; re_ComputeFileDigest := fun _ => None;
  re_Version := "1.0.0"; re_GitCommit := "abc"; re_BuildDate := "2026-09-02"; re_ReleaseSignature := "none"; re_BuildInfo := None;
  re_GoVersion := "go1.25"; re_Compiler := "gc"; re_Platform := "linux/amd64" |}.

(** The key that verifies a release may come from the environment, so a build of
    one's own attests itself, and converts once the date it claims is old enough;
    under the embedded key it does not pass. *)
Example own_key_attests_own_build :
  let i := version_Get (H := demo_release) in
  rv_Status (in_Provenance (i (demo_release_env true))) = ProvenanceVerifiedOfficial /\
  rv_Status (in_Provenance (i (demo_release_env false))) = ProvenanceTamperedSignature /\
  Info_License (i (demo_release_env true)) (day_of_civil 2029 9 3 * day_seconds * second) = "Apache-2.0" /\
  Info_License (i (demo_release_env false)) (day_of_civil 2029 9 3 * day_seconds * second) = "BSL-1.1".
Proof. by vm_compute. Qed.
