(* ===== verification/Logging.v ===== *)
(** * The log: internal/logging

    A record passes the handler that adds what the context carries
    ([ContextHandler_Handle]) and a base handler, which writes it as a line of
    text or hands it to the JSON handler of log/slog.  [log_written] shows that a
    logger writes a record just if its level reaches the threshold, with the
    attributes of the logger, of the record and of the context, in this order;
    [log_line_plain] that a line without colors has no escape code of its own. *)

From S2P Require Import Prelude GoLib License.
Local Open Scope string_scope.
Local Open Scope list_scope.
Local Open Scope Z_scope.

(** ** logging.go *)

(** [slog.Level]. *)
Definition LevelDebug : Z := -4.
Definition LevelInfo : Z := 0.
Definition LevelWarn : Z := 4.
Definition LevelError : Z := 8.

Variant log_format : Type := LogText | LogJSON.

(** [strconv.Quote] of printable UTF-8 and ASCII control characters. *)
Definition hex_digit (n : N) : ascii := ascii_of_N (if (n <? 10)%N then n + 48 else n + 87).

Definition quote_char (c : ascii) : string :=
  let n := N_of_ascii c in
  let esc (d : ascii) := String "\" (String d "") in
  if (n =? 34)%N || (n =? 92)%N then String "\" (String c "")
  else if (n =? 7)%N then esc "a"%char else if (n =? 8)%N then esc "b"%char else if (n =? 12)%N then esc "f"%char
  else if (n =? 10)%N then esc "n"%char else if (n =? 13)%N then esc "r"%char else if (n =? 9)%N then esc "t"%char
  else if (n =? 11)%N then esc "v"%char
  else if (n <? 32)%N || (n =? 127)%N then String "\" (String "x" (String (hex_digit (n / 16)) (String (hex_digit (n mod 16)) "")))
  else String c "".

Definition Quote (s : string) : string :=
  String "034" (String.concat "" (quote_char <$> String.list_ascii_of_string s) +:+ String "034" "").

Definition ParseLevel (lvl : string) : error + Z :=
  let l := ToLower (TrimSpace lvl) in
  let among := existsb (String.eqb l) in
  if among ["debug"] then inr LevelDebug
  else if among ["info"; ""] then inr LevelInfo
  else if among ["warn"; "warning"] then inr LevelWarn
  else if among ["error"] then inr LevelError
  else inl (ErrNew ("invalid log level " +:+ Quote lvl +:+ " (valid: debug, info, warn, error)")).

Definition ParseLogFormat (s : string) : error + log_format :=
  let f := ToLower (TrimSpace s) in
  let among := existsb (String.eqb f) in
  if among ["text"; "console"; "terminal"; ""] then inr LogText
  else if among ["json"] then inr LogJSON
  else inl (ErrNew ("invalid log format " +:+ Quote s +:+ " (valid: text, json)")).

Record LogConfig : Type := { lo_Level : string; lo_Format : string; lo_NoColor : bool; lo_AddSource : bool }.

Definition DefaultConfig : LogConfig := {| lo_Level := "info"; lo_Format := "text"; lo_NoColor := false; lo_AddSource := false |}.

(** ** Records and contexts *)

(** The value of an attribute, by its kind, with the text of [%v]; a time has the
    text of RFC 3339 too. *)
Inductive attr_value : Type :=
| AttrString (s : string)
| AttrNumber (text : string)
| AttrBool (b : bool)
| AttrDuration (text : string)
| AttrTime (rfc3339 text : string)
| AttrOther (text : string).

Record attr : Type := Attr { a_Key : string; a_Value : attr_value }.

(** [slog.Record]; the source is the base name of the file with the line, when
    the caller is known, and the time is as "15:04:05.000" shows it. *)
Record log_record : Type := {
  rec_Time : string;
  rec_Level : Z;
  rec_Message : string;
  rec_Source : option string;
  rec_Attrs : list attr
}.

(** What a context carries of the package's keys. *)
Record log_context : Type := {
  cx_TraceID : option string;
  cx_ProjectID : option Z;
  cx_ProjectPath : option string;
  cx_GroupID : option Z;
  cx_GroupPath : option string;
  cx_Operation : option string;
  cx_Attempt : option Z;
  cx_CustomAttrs : list attr
}.

Definition Background : log_context := {|
  cx_TraceID := None; cx_ProjectID := None; cx_ProjectPath := None; cx_GroupID := None; cx_GroupPath := None; cx_Operation := None;
  cx_Attempt := None; cx_CustomAttrs := [] |}.

Definition WithTrace (c : log_context) (traceID : string) : log_context := {|
  cx_TraceID := Some traceID; cx_ProjectID := cx_ProjectID c; cx_ProjectPath := cx_ProjectPath c; cx_GroupID := cx_GroupID c;
  cx_GroupPath := cx_GroupPath c; cx_Operation := cx_Operation c; cx_Attempt := cx_Attempt c; cx_CustomAttrs := cx_CustomAttrs c |}.

Definition WithProject (c : log_context) (id : Z) (path : string) : log_context := {|
  cx_TraceID := cx_TraceID c; cx_ProjectID := Some id; cx_ProjectPath := Some path; cx_GroupID := cx_GroupID c;
  cx_GroupPath := cx_GroupPath c; cx_Operation := cx_Operation c; cx_Attempt := cx_Attempt c; cx_CustomAttrs := cx_CustomAttrs c |}.

Definition WithGroupContext (c : log_context) (id : Z) (fullPath : string) : log_context := {|
  cx_TraceID := cx_TraceID c; cx_ProjectID := cx_ProjectID c; cx_ProjectPath := cx_ProjectPath c; cx_GroupID := Some id;
  cx_GroupPath := Some fullPath; cx_Operation := cx_Operation c; cx_Attempt := cx_Attempt c; cx_CustomAttrs := cx_CustomAttrs c |}.

Definition WithOperation (c : log_context) (operation : string) : log_context := {|
  cx_TraceID := cx_TraceID c; cx_ProjectID := cx_ProjectID c; cx_ProjectPath := cx_ProjectPath c; cx_GroupID := cx_GroupID c;
  cx_GroupPath := cx_GroupPath c; cx_Operation := Some operation; cx_Attempt := cx_Attempt c; cx_CustomAttrs := cx_CustomAttrs c |}.

Definition WithAttempt (c : log_context) (attempt : Z) : log_context := {|
  cx_TraceID := cx_TraceID c; cx_ProjectID := cx_ProjectID c; cx_ProjectPath := cx_ProjectPath c; cx_GroupID := cx_GroupID c;
  cx_GroupPath := cx_GroupPath c; cx_Operation := cx_Operation c; cx_Attempt := Some attempt; cx_CustomAttrs := cx_CustomAttrs c |}.

Definition WithContextAttrs (c : log_context) (attrs : list attr) : log_context := {|
  cx_TraceID := cx_TraceID c; cx_ProjectID := cx_ProjectID c; cx_ProjectPath := cx_ProjectPath c; cx_GroupID := cx_GroupID c;
  cx_GroupPath := cx_GroupPath c; cx_Operation := cx_Operation c; cx_Attempt := cx_Attempt c; cx_CustomAttrs := cx_CustomAttrs c ++ attrs |}.

Definition text_attr (key : string) (v : option string) : list attr :=
  match v with Some s => if (s =? "")%string then [] else [Attr key (AttrString s)] | None => [] end.

Definition int_attr (key : string) (v : option Z) : list attr :=
  match v with Some z => if 0 <? z then [Attr key (AttrNumber (Itoa z))] else [] | None => [] end.

(** The attributes that the context adds. *)
Definition context_attrs (c : log_context) : list attr :=
  text_attr "trace_id" (cx_TraceID c) ++ int_attr "project_id" (cx_ProjectID c) ++ text_attr "project_path" (cx_ProjectPath c)
  ++ int_attr "group_id" (cx_GroupID c) ++ text_attr "group_path" (cx_GroupPath c) ++ text_attr "operation" (cx_Operation c)
  ++ int_attr "attempt" (cx_Attempt c) ++ cx_CustomAttrs c.

(** ** text.go *)

Definition ESC : ascii := "027"%char.
Definition sgr (code : string) : string := String ESC ("[" +:+ code +:+ "m").
Definition reset : string := sgr "0".

Definition formatLevelBadge (level : Z) (noColor : bool) : string :=
  let '(badge, color) :=
    if level <? LevelInfo then ("[DEBUG]", sgr "36")
    else if level <? LevelWarn then ("[INFO ]", sgr "32")
    else if level <? LevelError then ("[WARN ]", sgr "33")
    else ("[ERROR]", sgr "1;31") in
  if noColor then badge else color +:+ badge +:+ reset.

Definition value_text (v : attr_value) : string :=
  match v with
  | AttrString s => s
  | AttrNumber t | AttrDuration t | AttrTime _ t | AttrOther t => t
  | AttrBool b => fmt_bool b
  end.

Definition formatAttr (a : attr) (noColor : bool) : string :=
  if noColor then a_Key a +:+ "=" +:+ value_text (a_Value a)
  else
    let key := sgr "36" +:+ a_Key a +:+ reset +:+ "=" in
    match a_Value a with
    | AttrString s => key +:+ sgr "37" +:+ Quote s +:+ reset
    | AttrNumber t => key +:+ sgr "35" +:+ t +:+ reset
    | AttrBool b => key +:+ sgr "33" +:+ fmt_bool b +:+ reset
    | AttrDuration t => key +:+ sgr "34" +:+ t +:+ reset
    | AttrTime rfc3339 _ => key +:+ sgr "34" +:+ rfc3339 +:+ reset
    | AttrOther t => key +:+ t
    end.

Record TextHandler : Type := {
  th_Level : Z;
  th_NoColor : bool;
  th_AddSource : bool;
  th_attrs : list attr;
  th_groups : list string
}.

(** The line of a record. *)
Definition log_line (h : TextHandler) (r : log_record) : string :=
  let noColor := th_NoColor h in
  let time := if noColor then rec_Time r else sgr "90" +:+ rec_Time r +:+ reset in
  let source :=
    match rec_Source r with
    | Some src =>
        if negb (th_AddSource h) then ""
        else if noColor then " (" +:+ src +:+ ")" else " " +:+ sgr "90" +:+ "(" +:+ src +:+ ")" +:+ reset
    | None => ""
    end in
  let msg := if negb noColor && (LevelError <=? rec_Level r) then sgr "1;31" +:+ rec_Message r +:+ reset else rec_Message r in
  time +:+ " " +:+ formatLevelBadge (rec_Level r) noColor +:+ source +:+ " " +:+ msg
  +:+ String.concat "" ((fun a => " " +:+ formatAttr a noColor) <$> th_attrs h ++ rec_Attrs r) +:+ String "010" "".

Definition Text_WithAttrs (h : TextHandler) (attrs : list attr) : TextHandler := {|
  th_Level := th_Level h; th_NoColor := th_NoColor h; th_AddSource := th_AddSource h; th_attrs := th_attrs h ++ attrs;
  th_groups := th_groups h |}.

Definition Text_WithGroup (h : TextHandler) (name : string) : TextHandler := {|
  th_Level := th_Level h; th_NoColor := th_NoColor h; th_AddSource := th_AddSource h; th_attrs := th_attrs h;
  th_groups := th_groups h ++ [name] |}.

(** ** Loggers *)

(** What is written: a line, or a record for the JSON handler with the
    attributes that its logger has. *)
Inductive log_output : Type :=
| LogLine (line : string)
| LogJSONRecord (addSource : bool) (attrs : list attr) (r : log_record).

(** The base handler of a logger: the text handler, or the JSON handler with its
    level, source flag and attributes. *)
Inductive base_handler : Type :=
| BaseText (h : TextHandler)
| BaseJSON (level : Z) (addSource : bool) (attrs : list attr).

Definition base_level (b : base_handler) : Z := match b with BaseText h => th_Level h | BaseJSON l _ _ => l end.
Definition base_attrs (b : base_handler) : list attr := match b with BaseText h => th_attrs h | BaseJSON _ _ l => l end.

(** [ContextHandler.Enabled]. *)
Definition Enabled (b : base_handler) (level : Z) : bool := base_level b <=? level.

Definition with_attrs (r : log_record) (attrs : list attr) : log_record := {|
  rec_Time := rec_Time r; rec_Level := rec_Level r; rec_Message := rec_Message r; rec_Source := rec_Source r; rec_Attrs := rec_Attrs r ++ attrs |}.

(** The record with what the context carries, as the base handler writes it. *)
Definition ContextHandler_Handle (b : base_handler) (c : log_context) (r : log_record) : log_output :=
  let r := with_attrs r (context_attrs c) in
  match b with
  | BaseText h => LogLine (log_line h r)
  | BaseJSON _ addSource attrs => LogJSONRecord addSource attrs r
  end.

Definition Logger_With (b : base_handler) (attrs : list attr) : base_handler :=
  match b with BaseText h => BaseText (Text_WithAttrs h attrs) | BaseJSON l s a => BaseJSON l s (a ++ attrs) end.

(** [NewLogger]; [no_color] is the variable NO_COLOR.  A level or a format that is
    not known is the default. *)
Definition NewLogger (no_color : string) (cfg : LogConfig) : base_handler :=
  let level := match ParseLevel (lo_Level cfg) with inr l => l | inl _ => LevelInfo end in
  match ParseLogFormat (lo_Format cfg) with
  | inr LogJSON => BaseJSON level (lo_AddSource cfg) []
  | _ => BaseText {| th_Level := level; th_NoColor := lo_NoColor cfg || negb (no_color =? "")%string; th_AddSource := lo_AddSource cfg;
                     th_attrs := []; th_groups := [] |}
  end.

(** [logger.Log]. *)
Definition Log (b : base_handler) (c : log_context) (r : log_record) : list log_output :=
  if Enabled b (rec_Level r) then [ContextHandler_Handle b c r] else [].

(** ** Properties *)

(** A record is written once, just if its level reaches the threshold, and with
    the attributes of the logger, of the record and of the context. *)
Theorem log_written b more c r :
  Log (Logger_With b more) c r =
  if base_level b <=? rec_Level r then
    [match b with
     | BaseText h => LogLine (log_line (Text_WithAttrs h more) (with_attrs r (context_attrs c)))
     | BaseJSON _ addSource attrs => LogJSONRecord addSource (attrs ++ more) (with_attrs r (context_attrs c))
     end]
  else [].
Proof. unfold Log, Enabled. by destruct b. Qed.

(** What the context carries last is what a record shows. *)
Lemma context_last c id path id' path' op :
  context_attrs (WithOperation (WithProject (WithProject c id path) id' path') op) = context_attrs (WithOperation (WithProject c id' path') op).
Proof. done. Qed.

Definition no_esc (s : string) : bool := string_all (fun c => negb (c =? ESC)%char) s.

Definition attr_no_esc (a : attr) : bool := no_esc (a_Key a) && no_esc (value_text (a_Value a)).

Lemma no_esc_app a b : no_esc (a +:+ b) = no_esc a && no_esc b.
Proof. apply string_all_app. Qed.

Lemma formatAttr_plain a : attr_no_esc a = true -> no_esc (formatAttr a true) = true.
Proof. unfold attr_no_esc, formatAttr. rewrite !no_esc_app. intros [-> ->]%andb_prop. done. Qed.

Lemma no_esc_concat l : forallb no_esc l = true -> no_esc (String.concat "" l) = true.
Proof.
  induction l as [|a l IH]; [done|]. cbn [forallb]. intros [Ha Hl]%andb_prop. destruct l as [|b l]; [done|].
  change (String.concat "" (a :: b :: l)) with (a +:+ String.concat "" (b :: l)). by rewrite no_esc_app, Ha, IH.
Qed.

(** A line without colors has no escape code but those in its texts. *)
Theorem log_line_plain h r :
  th_NoColor h = true -> no_esc (rec_Time r) = true -> no_esc (rec_Message r) = true -> no_esc (default "" (rec_Source r)) = true ->
  forallb attr_no_esc (th_attrs h ++ rec_Attrs r) = true ->
  no_esc (log_line h r) = true.
Proof.
  intros Hc Ht Hm Hs Ha. unfold log_line. rewrite Hc. cbv zeta. cbn [negb andb]. rewrite !no_esc_app, Ht, Hm.
  assert (no_esc (formatLevelBadge (rec_Level r) true) = true) as ->.
  { unfold formatLevelBadge. destruct (rec_Level r <? LevelInfo), (rec_Level r <? LevelWarn), (rec_Level r <? LevelError); done. }
  rewrite no_esc_concat.
  - destruct (rec_Source r) as [src|]; [|done]. change (no_esc src = true) in Hs. destruct (th_AddSource h); [|done]. cbn [negb]. by rewrite !no_esc_app, Hs.
  - rewrite forallb_forall in Ha |- *. intros x (a & <- & Hin)%in_map_iff. rewrite no_esc_app. by rewrite formatAttr_plain by (by apply Ha).
Qed.

(** ** Examples *)

Definition demo_record (v : string) : log_record := {|
  rec_Time := "12:00:00.000"; rec_Level := LevelInfo; rec_Message := "done"; rec_Source := None; rec_Attrs := [Attr "project" (AttrString v)] |}.

Definition demo_handler (noColor : bool) : TextHandler := {|
  th_Level := LevelInfo; th_NoColor := noColor; th_AddSource := false; th_attrs := []; th_groups := ["governor"] |}.

(** With colors a string is quoted, without it is not: what is logged may then
    contain lines that were never logged.  The group of a logger is not shown. *)
Example plain_log_is_forged :
  SplitByte "010" (log_line (demo_handler true) (demo_record ("x" +:+ String "010" "12:00:00.001 [ERROR] forged"))) =
    ["12:00:00.000 [INFO ] done project=x"; "12:00:00.001 [ERROR] forged"; ""] /\
  length (SplitByte "010" (log_line (demo_handler false) (demo_record ("x" +:+ String "010" "12:00:00.001 [ERROR] forged")))) = 2%nat.
Proof. by vm_compute. Qed.

Example quote_text : Quote (String "034" (String "010" (String "001" "a"))) = String "034" ("\" +:+ String "034" "\n\x01a" +:+ String "034" "").
Proof. by vm_compute. Qed.
