(* ===== verification/TaskPool.v ===== *)
(** * Running effectful tasks on the worker pool

    [ParallelMap] (WorkerPool.v) says what the pool makes of the outcomes of its
    tasks.  Here the tasks are programs that call the outside world: an
    execution interleaves the pool's moves with the calls of the tasks that are
    executing, one call at a time, against one shared world.  Every such
    execution refines an execution of the pool ([parallel_refines]), and for
    tasks that only read it is as if each had run alone ([parallel_reads]). *)

From S2P Require Import Prelude WorkerPool GitLabAPI.
Local Open Scope string_scope.
Local Open Scope list_scope.

Variant move : Type :=
| Pool (l : label)   (* a move of the pool *)
| Call (w : nat)     (* the task that worker [w] executes makes its next call *).

(** The moves that the pool sees. *)
Definition pool_moves (ms : list move) : list label :=
  omap (fun m => match m with Pool l => Some l | Call _ => None end) ms.

Record task_pool (E : Type -> Type) (W R : Type) : Type := {
  tk_pool : pool R;
  tk_tasks : list (prog E (outcome R));
  tk_world : W
}.
Arguments Build_task_pool {E W R}. Arguments tk_pool {E W R}. Arguments tk_tasks {E W R}. Arguments tk_world {E W R}.

(** What the tasks that have returned came to. *)
Definition outcome_of {E R} (tasks : list (prog E (outcome R))) (i : nat) : outcome R :=
  match tasks !! i with Some (Ret o) => o | _ => Failed (ErrNew "still running") end.

Section Step.
Context {E : Type -> Type} {W R : Type} (h : handler E W) (n : nat) (ctxErr : error).

Definition pool_move (l : label) (s : task_pool E W R) : option (task_pool E W R) :=
  p ← step n (outcome_of (tk_tasks s)) ctxErr l (tk_pool s);
  Some {| tk_pool := p; tk_tasks := tk_tasks s; tk_world := tk_world s |}.

Definition has_returned (p : prog E (outcome R)) : bool := match p with Ret _ => true | Vis _ _ => false end.

(** The task in the hands of worker [w]. *)
Definition executing (s : task_pool E W R) (w : nat) : option (nat * prog E (outcome R)) :=
  match pp_workers (tk_pool s) !! w with
  | Some (Executing i) => p ← tk_tasks s !! i; Some (i, p)
  | _ => None
  end.

Definition task_step (m : move) (s : task_pool E W R) : option (task_pool E W R) :=
  match m with
  | Pool (Finish w) =>
      '(i, p) ← executing s w;
      if has_returned p then pool_move (Finish w) s else None
  | Pool l => pool_move l s
  | Call w =>
      '(i, p) ← executing s w;
      '(p', w') ← advance h p (tk_world s);
      Some {| tk_pool := tk_pool s; tk_tasks := <[i := p']> (tk_tasks s); tk_world := w' |}
  end.

Fixpoint task_steps (ms : list move) (s : task_pool E W R) : option (task_pool E W R) :=
  match ms with
  | [] => Some s
  | m :: rest => match task_step m s with Some s' => task_steps rest s' | None => None end
  end.

End Step.

Definition task_start {E W R} (concurrency : Z) (tasks : list (prog E (outcome R))) (w : W) : task_pool E W R :=
  {| tk_pool := NewWorkerPool concurrency (length tasks); tk_tasks := tasks; tk_world := w |}.

(** [ParallelMap] on effectful tasks: what it returns, and the world it leaves,
    when [ms] is a complete execution. *)
Definition ParallelRun {E W R} (h : handler E W) (concurrency : Z) (tasks : list (prog E (outcome R))) (ctxErr : error)
    (ms : list move) (w : W) : option (list (option R) * list error * W) :=
  if (length tasks =? 0)%nat then Some ([], [], w)
  else match task_steps h (length tasks) ctxErr ms (task_start concurrency tasks w) with
       | Some s => if closed_down (tk_pool s) then Some (collect (tk_pool s), tk_world s) else None
       | None => None
       end.

(** ** Lemmas *)

Section Refine.
Context {E : Type -> Type} {W R : Type} (h : handler E W) (n : nat) (ctxErr : error).

Abbreviation t_step := (task_step (R := R) h n ctxErr).
Abbreviation t_steps := (task_steps (R := R) h n ctxErr).

Lemma executing_Some (s : task_pool E W R) w i p :
  executing s w = Some (i, p) -> pp_workers (tk_pool s) !! w = Some (Executing i) /\ tk_tasks s !! i = Some p.
Proof.
  unfold executing. destruct (pp_workers (tk_pool s) !! w) as [[| |j|]|]; try done.
  destruct (tk_tasks s !! j) as [q|] eqn:Hj; simpl; [|done]. by intros [= <- <-].
Qed.

Lemma pool_move_Some l (s s' : task_pool E W R) :
  pool_move n ctxErr l s = Some s' ->
  step n (outcome_of (tk_tasks s)) ctxErr l (tk_pool s) = Some (tk_pool s') /\
  tk_tasks s' = tk_tasks s /\ tk_world s' = tk_world s.
Proof. unfold pool_move. destruct (step _ _ _ _ _); simpl; [|done]. by intros [= <-]. Qed.

(** The cases of a step. *)
Lemma t_step_cases m (s s' : task_pool E W R) :
  t_step m s = Some s' ->
  (exists l, m = Pool l /\ step n (outcome_of (tk_tasks s)) ctxErr l (tk_pool s) = Some (tk_pool s') /\
     tk_tasks s' = tk_tasks s /\ tk_world s' = tk_world s /\
     (forall w i, l = Finish w -> pp_workers (tk_pool s) !! w = Some (Executing i) -> exists o, tk_tasks s !! i = Some (Ret o))) \/
  (exists w i p p', m = Call w /\ tk_tasks s !! i = Some p /\ advance h p (tk_world s) = Some (p', tk_world s') /\
     tk_pool s' = tk_pool s /\ tk_tasks s' = <[i := p']> (tk_tasks s)).
Proof.
  destruct m as [l|w]; simpl.
  - intros Hm. left. exists l. split; [done|].
    assert (pool_move n ctxErr l s = Some s' /\ forall w i, l = Finish w ->
      pp_workers (tk_pool s) !! w = Some (Executing i) -> exists o, tk_tasks s !! i = Some (Ret o)) as [Hp Hf].
    { destruct l as [| | | |?|?|?|?|w]; try (split; [exact Hm|done]).
      destruct (executing s w) as [[i p]|] eqn:Hx; simpl in Hm; [|done].
      destruct (executing_Some _ _ _ _ Hx) as [Hw Hi]. destruct p as [o|]; simpl in Hm; [|done]. split; [done|].
      intros w' j [= <-]. rewrite Hw. intros [= <-]. eauto. }
    by destruct (pool_move_Some _ _ _ Hp) as (? & ? & ?).
  - intros Hm. right. destruct (executing s w) as [[i p]|] eqn:Hx; simpl in Hm; [|done].
    destruct (executing_Some _ _ _ _ Hx) as [_ Hi]. destruct (advance h p (tk_world s)) as [[p' w']|] eqn:Ha; simpl in Hm; [|done].
    injection Hm as <-. by exists w, i, p, p'.
Qed.

(** A task that has returned stays so. *)
Lemma t_steps_returned ms (s s' : task_pool E W R) i o :
  t_steps ms s = Some s' -> tk_tasks s !! i = Some (Ret o) -> tk_tasks s' !! i = Some (Ret o).
Proof.
  revert s. induction ms as [|m ms IH]; intros s; simpl; [by intros [= ->]|].
  destruct (t_step m s) as [s1|] eqn:Hm; [|done]. intros Hs Hi. apply (IH s1 Hs).
  destruct (t_step_cases _ _ _ Hm) as [(l & _ & _ & -> & _)|(w & j & p & p' & _ & Hj & Ha & _ & ->)]; [done|].
  destruct (decide (i = j)) as [->|Hij]; [|by rewrite list_lookup_insert_ne].
  rewrite Hi in Hj. injection Hj as <-. done.
Qed.

(** What the pool does depends on the outcome of a task only when it finishes. *)
Lemma step_outcome (out out' : nat -> outcome R) l (p : pool R) :
  (forall w i, l = Finish w -> pp_workers p !! w = Some (Executing i) -> out i = out' i) ->
  step n out ctxErr l p = step n out' ctxErr l p.
Proof.
  intros Hf. destruct l as [| | | |?|?|?|?|w]; try done. simpl. specialize (Hf w).
  destruct (pp_workers p !! w) as [[| |i|]|]; try done. by rewrite (Hf i eq_refl eq_refl).
Qed.

(** An execution of the tasks is an execution of the pool, for the outcomes the
    tasks come to. *)
Lemma t_steps_refine ms (s s' : task_pool E W R) (out : nat -> outcome R) :
  t_steps ms s = Some s' -> (forall i o, tk_tasks s' !! i = Some (Ret o) -> out i = o) ->
  steps n out ctxErr (pool_moves ms) (tk_pool s) = Some (tk_pool s').
Proof.
  intros Hs Hout. revert s Hs. induction ms as [|m ms IH]; intros s; simpl; [by intros [= ->]|].
  destruct (t_step m s) as [s1|] eqn:Hm; [|done]. intros Hs. specialize (IH s1 Hs).
  destruct (t_step_cases _ _ _ Hm) as [(l & -> & Hl & Ht & _ & Hf)|(w & i & p & p' & -> & _ & _ & <- & _)]; [|done].
  simpl. rewrite (step_outcome out (outcome_of (tk_tasks s))), Hl; [done|].
  intros w i -> Hw. destruct (Hf w i eq_refl Hw) as [o Ho]. unfold outcome_of. rewrite Ho. apply Hout.
  apply (t_steps_returned _ _ _ _ _ Hs). by rewrite Ht.
Qed.

End Refine.

Lemma parallel_refines {E W R} (h : handler E W) concurrency (tasks : list (prog E (outcome R))) ctxErr ms w res errs w' :
  ParallelRun h concurrency tasks ctxErr ms w = Some (res, errs, w') ->
  exists out, ParallelMap concurrency (length tasks) out ctxErr (pool_moves ms) = Some (res, errs).
Proof.
  unfold ParallelRun, ParallelMap. destruct (_ =? _)%nat; [intros [= <- <- <-]; by exists (fun _ => Failed ctxErr)|].
  destruct (task_steps _ _ _ _ _) as [s|] eqn:Hs; [|done]. destruct (closed_down _) eqn:Hc; [|done]. intros [= <- <- <-].
  exists (outcome_of (tk_tasks s)).
  change (NewWorkerPool concurrency (length tasks)) with (tk_pool (task_start concurrency tasks w)).
  rewrite (t_steps_refine _ _ _ _ _ _ (outcome_of (tk_tasks s)) Hs); [by rewrite Hc|].
  intros i o Hi. unfold outcome_of. by rewrite Hi.
Qed.

(** Tasks that only read run as if alone, and leave the world as it was. *)
Lemma parallel_reads {W R} (h : handler GitLabE W) concurrency (tasks : list (GP (outcome R))) ctxErr ms w res errs w' :
  stable_reads h -> Forall reads tasks ->
  ParallelRun h concurrency tasks ctxErr ms w = Some (res, errs, w') ->
  w' = w /\ ParallelMap concurrency (length tasks)
              (fun i => match tasks !! i with Some p => (run h p w).1 | None => Failed ctxErr end) ctxErr (pool_moves ms)
            = Some (res, errs).
Proof.
  intros Hst Hr. unfold ParallelRun, ParallelMap. destruct (_ =? _)%nat; [by intros [= <- <- <-]|].
  destruct (task_steps _ _ _ _ _) as [s|] eqn:Hs; [|done]. destruct (closed_down _) eqn:Hc; [|done]. intros [= <- <- <-].
  assert (tk_world s = w /\ Forall2 (fun t p => run h t w = run h p w /\ reads t) (tk_tasks s) tasks) as [-> Hall].
  { assert (tk_world (task_start concurrency tasks w) = w /\
      Forall2 (fun t p => run h t w = run h p w /\ reads t) (tk_tasks (task_start concurrency tasks w)) tasks) as H0.
    { split; [done|]. simpl. clear -Hr. induction Hr; constructor; auto. }
    revert H0 Hs. generalize (task_start concurrency tasks w). clear -Hst.
    induction ms as [|m ms IH]; intros s1 [Hw H1]; simpl; [intros [= <-]; done|].
    destruct (task_step _ _ _ m s1) as [s2|] eqn:Hm; [|done]. apply IH.
    destruct (t_step_cases _ _ _ _ _ _ Hm) as [(l & _ & _ & -> & -> & _)|(v & i & p & p' & _ & Hi & Ha & _ & ->)]; [done|].
    destruct (Forall2_lookup_l _ _ _ _ _ H1 Hi) as (q & Hq & Hrun & Hp). rewrite Hw in Ha.
    destruct (advance_reads _ _ _ _ _ Hst Hp Ha) as [Hp' Hw2]. rewrite Hw2 in Ha |- *.
    split; [done|]. rewrite <- (list_insert_id _ _ _ Hq). apply Forall2_insert; [done|]. split; [|done].
    by rewrite <- (run_advance _ _ _ _ _ Ha). }
  split; [done|]. change (NewWorkerPool concurrency (length tasks)) with (tk_pool (task_start concurrency tasks w)).
  rewrite (t_steps_refine _ _ _ _ _ _ _ Hs); [by rewrite Hc|].
  intros i o Hi. destruct (Forall2_lookup_l _ _ _ _ _ Hall Hi) as (q & Hq & Hrun & _). rewrite Hq. by rewrite <- Hrun.
Qed.

(** Whatever the interleaving, a result kept is one that its task could
    return. *)
Lemma parallel_always {E W R} (h : handler E W) concurrency (tasks : list (prog E (outcome R))) ctxErr ms w res errs w'
    (P : outcome R -> Prop) r :
  Forall (always P) tasks -> ParallelRun h concurrency tasks ctxErr ms w = Some (res, errs, w') -> Some r ∈ res ->
  P (Returned r).
Proof.
  intros Hall Hp (i & Hi)%list_elem_of_lookup. pose proof Hp as Hq. revert Hp. unfold ParallelRun.
  destruct (length tasks =? 0)%nat eqn:Hn; [by intros [= <- <- <-]|].
  destruct (task_steps _ _ _ _ _) as [s|] eqn:Hs; [|done]. destruct (closed_down _) eqn:Hc; [|done]. intros [= <- <- <-].
  assert (ParallelMap concurrency (length tasks) (outcome_of (tk_tasks s)) ctxErr (pool_moves ms) = Some (collect (tk_pool s))) as Hpool.
  { unfold ParallelMap. rewrite Hn.
    change (NewWorkerPool concurrency (length tasks)) with (tk_pool (task_start concurrency tasks w)).
    rewrite (t_steps_refine _ _ _ _ _ _ (outcome_of (tk_tasks s)) Hs); [by rewrite Hc|].
    intros j o Hj. unfold outcome_of. by rewrite Hj. }
  pose proof (pool_sound _ _ _ _ _ _ _ _ _ Hpool Hi) as Ho.
  assert (Forall (fun t => exists p, p ∈ tasks /\ (always P p -> always P t)) (tk_tasks s)) as Hinv.
  { assert (Forall (fun t => exists p, p ∈ tasks /\ (always P p -> always P t)) (tk_tasks (task_start concurrency tasks w))) as H0.
    { simpl. apply Forall_forall. intros t Ht. by exists t. }
    revert H0 Hs. clear. generalize (task_start concurrency tasks w). induction ms as [|m ms IH]; intros s1 H1; simpl; [by intros [= <-]|].
    destruct (task_step _ _ _ m s1) as [s2|] eqn:Hm; [|done]. apply IH.
    destruct (t_step_cases _ _ _ _ _ _ Hm) as [(l & _ & _ & -> & _)|(v & j & p & p' & _ & Hj & Ha & _ & ->)]; [done|].
    apply Forall_insert; [done|]. destruct (proj1 (Forall_lookup _ _) H1 _ _ Hj) as (q & Hq & Himp). exists q. split; [done|].
    intros Hal. specialize (Himp Hal). destruct p as [a|X ev k]; simpl in Ha; [done|]. destruct (h X ev _). injection Ha as <- _.
    apply Himp. }
  unfold outcome_of in Ho. destruct (tk_tasks s !! i) as [[o|]|] eqn:Ht; simplify_eq/=.
  destruct (proj1 (Forall_lookup _ _) Hinv _ _ Ht) as (p & Hp & Himp). rewrite Forall_forall in Hall. by apply Himp, Hall.
Qed.

