(* ===== verification/Metrics.v ===== *)
(** * Results and metrics: internal/engine/engine.go, internal/engine/metrics.go

    The results of operations and targets, and the accumulator that counts them.
    Times and durations are left out: nothing is decided by them. *)

From S2P Require Import Prelude GoLib Config GitLabAPI Governance Discovery.
Local Open Scope string_scope.
Local Open Scope list_scope.
Local Open Scope Z_scope.

(** ** Results *)

Record OperationResult : Type := {
  or_OperationName : string;
  or_ResourceType : ResourceType;
  or_ResourceID : Z;
  or_ResourcePath : string;
  or_Action : ActionType;
  or_Status : StatusType;
  or_HasChanges : bool;
  or_Success : bool;
  or_Diffs : list Diff;
  or_Details : string;
  or_Error : option error
}.

Definition OperationResultFromPlan (pr : PlanResult) : OperationResult := {|
  or_OperationName := pl_OperationName pr; or_ResourceType := pl_ResourceType pr; or_ResourceID := pl_ResourceID pr;
  or_ResourcePath := pl_ResourcePath pr; or_Action := pl_Action pr;
  or_Status := if is_some (pl_Error pr) then StatusFailed
               else if bool_decide (pl_Action pr = ActionNoop) then StatusNoop
               else if bool_decide (pl_Action pr = ActionSkipped) then StatusSkipped else StatusSuccess;
  or_HasChanges := pl_HasChanges pr; or_Success := negb (is_some (pl_Error pr)); or_Diffs := pl_Diffs pr;
  or_Details := pl_Details pr; or_Error := pl_Error pr
|}.

Definition OperationResultFromApply (ar : ApplyResult) : OperationResult := {|
  or_OperationName := al_OperationName ar; or_ResourceType := al_ResourceType ar; or_ResourceID := al_ResourceID ar;
  or_ResourcePath := al_ResourcePath ar; or_Action := al_Action ar; or_Status := al_Status ar;
  or_HasChanges := bool_decide (al_Action ar <> ActionNoop) && bool_decide (al_Action ar <> ActionSkipped)
                   && (0 <? length (al_Diffs ar))%nat;
  or_Success := al_Success ar; or_Diffs := al_Diffs ar; or_Details := al_Details ar; or_Error := al_Error ar
|}.

Record TargetResult : Type := {
  tr_TargetID : Z;
  tr_TargetPath : string;
  tr_TargetName : string;
  tr_ResourceType : ResourceType;
  tr_DryRun : bool;
  tr_Success : bool;
  tr_HasChanges : bool;
  tr_Operations : list OperationResult;
  tr_Error : option error
}.

Definition op_failed (op : OperationResult) : bool := negb (or_Success op) || is_some (or_Error op).
Definition target_failed (tr : TargetResult) : bool := negb (tr_Success tr) || is_some (tr_Error tr).

Definition ChangedOperations (tr : TargetResult) : list OperationResult := List.filter or_HasChanges (tr_Operations tr).
Definition FailedOperations (tr : TargetResult) : list OperationResult := List.filter op_failed (tr_Operations tr).
Definition Target_Diffs (tr : TargetResult) : list Diff := tr_Operations tr ≫= or_Diffs.

(** ** The accumulator *)

Record OperationSummary : Type := {
  os_OperationName : string;
  os_Total : Z;
  os_Created : Z;
  os_Updated : Z;
  os_Deleted : Z;
  os_Noop : Z;
  os_Audit : Z;
  os_Skipped : Z;
  os_Failed : Z
}.

#[export] Instance ActionType_countable : Countable ActionType.
Proof.
  refine (inj_countable' (fun a => match a with
    | ActionCreate => 0 | ActionUpdate => 1 | ActionDelete => 2 | ActionNoop => 3 | ActionAudit => 4
    | ActionSkipped => 5 | ActionUnset => 6 end%nat) (fun n => match n with
    | 0 => ActionCreate | 1 => ActionUpdate | 2 => ActionDelete | 3 => ActionNoop | 4 => ActionAudit
    | 5 => ActionSkipped | _ => ActionUnset end%nat) _).
  by intros [].
Defined.

Record DriftSummary : Type := {
  ds_TotalDriftFields : Z;
  ds_DriftByAction : gmap ActionType Z;
  ds_DriftByOperation : gmap string Z;
  ds_DriftByResource : gmap string Z;
  ds_ChangedResources : list string;
  ds_FailedResources : list string
}.

Record SummaryMetrics : Type := {
  sm_DryRun : bool;
  sm_ScannedProjects : Z;
  sm_ScannedGroups : Z;
  sm_TotalScanned : Z;
  sm_TargetedProjects : Z;
  sm_TargetedGroups : Z;
  sm_TotalTargeted : Z;
  sm_TotalChanged : Z;
  sm_TotalUnchanged : Z;
  sm_TotalFailed : Z;
  sm_TotalSkipped : Z;
  sm_TotalApplied : Z;
  sm_TotalNoop : Z;
  sm_OperationCounts : gmap string OperationSummary;
  sm_DriftSummary : DriftSummary
}.

Definition NewSummaryMetrics (dryRun : bool) : SummaryMetrics := {|
  sm_DryRun := dryRun; sm_ScannedProjects := 0; sm_ScannedGroups := 0; sm_TotalScanned := 0; sm_TargetedProjects := 0;
  sm_TargetedGroups := 0; sm_TotalTargeted := 0; sm_TotalChanged := 0; sm_TotalUnchanged := 0; sm_TotalFailed := 0;
  sm_TotalSkipped := 0; sm_TotalApplied := 0; sm_TotalNoop := 0; sm_OperationCounts := ∅;
  sm_DriftSummary := {| ds_TotalDriftFields := 0; ds_DriftByAction := ∅; ds_DriftByOperation := ∅;
                        ds_DriftByResource := ∅; ds_ChangedResources := []; ds_FailedResources := [] |}
|}.

(** [m[k]++]. *)
Definition count_key `{Countable K} (k : K) (m : gmap K Z) : gmap K Z := <[k := default 0 (m !! k) + 1]> m.

Definition b2z (b : bool) : Z := if b then 1 else 0.
Definition is_action (a : ActionType) (op : OperationResult) : bool := bool_decide (or_Action op = a).

Definition op_counts_failed (op : OperationResult) : bool :=
  op_failed op || bool_decide (or_Status op = StatusFailed).
Definition applied_op (op : OperationResult) : bool :=
  is_action ActionCreate op || is_action ActionUpdate op || is_action ActionDelete op.

Definition new_summary (name : string) : OperationSummary := {|
  os_OperationName := name; os_Total := 0; os_Created := 0; os_Updated := 0; os_Deleted := 0; os_Noop := 0;
  os_Audit := 0; os_Skipped := 0; os_Failed := 0 |}.

(** The counters of the operation's summary. *)
Definition count_op (s : OperationSummary) (op : OperationResult) : OperationSummary := {|
  os_OperationName := os_OperationName s;
  os_Total := os_Total s + 1;
  os_Created := os_Created s + b2z (is_action ActionCreate op);
  os_Updated := os_Updated s + b2z (is_action ActionUpdate op);
  os_Deleted := os_Deleted s + b2z (is_action ActionDelete op);
  os_Noop := os_Noop s + b2z (is_action ActionNoop op);
  os_Audit := os_Audit s + b2z (is_action ActionAudit op);
  os_Skipped := os_Skipped s + b2z (is_action ActionSkipped op);
  os_Failed := os_Failed s + b2z (op_counts_failed op)
|}.

(** The drift fields of a diff. *)
Definition drift_fields (d : Diff) : Z :=
  Z.of_nat (length (d_Fields d)) + b2z ((length (d_Fields d) =? 0)%nat && Diff_HasChanges d).

Definition record_drift (d : DriftSummary) (op : OperationResult) : DriftSummary := {|
  ds_TotalDriftFields := if or_HasChanges op then foldl (fun n diff => n + drift_fields diff) (ds_TotalDriftFields d) (or_Diffs op)
                         else ds_TotalDriftFields d;
  ds_DriftByAction := match or_Action op with
                      | ActionCreate | ActionUpdate | ActionDelete | ActionAudit => count_key (or_Action op) (ds_DriftByAction d)
                      | _ => ds_DriftByAction d
                      end;
  ds_DriftByOperation := if or_HasChanges op then count_key (or_OperationName op) (ds_DriftByOperation d) else ds_DriftByOperation d;
  ds_DriftByResource := if or_HasChanges op then count_key (or_ResourcePath op) (ds_DriftByResource d) else ds_DriftByResource d;
  ds_ChangedResources := ds_ChangedResources d;
  ds_FailedResources := ds_FailedResources d
|}.

Definition recordOperationLocked (m : SummaryMetrics) (op : OperationResult) : SummaryMetrics := {|
  sm_DryRun := sm_DryRun m; sm_ScannedProjects := sm_ScannedProjects m; sm_ScannedGroups := sm_ScannedGroups m;
  sm_TotalScanned := sm_TotalScanned m; sm_TargetedProjects := sm_TargetedProjects m;
  sm_TargetedGroups := sm_TargetedGroups m; sm_TotalTargeted := sm_TotalTargeted m;
  sm_TotalChanged := sm_TotalChanged m; sm_TotalUnchanged := sm_TotalUnchanged m; sm_TotalFailed := sm_TotalFailed m;
  sm_TotalSkipped := sm_TotalSkipped m + b2z (is_action ActionSkipped op);
  sm_TotalApplied := sm_TotalApplied m + b2z (applied_op op);
  sm_TotalNoop := sm_TotalNoop m + b2z (is_action ActionNoop op);
  sm_OperationCounts :=
    let summary := default (new_summary (or_OperationName op)) (sm_OperationCounts m !! or_OperationName op) in
    <[or_OperationName op := count_op summary op]> (sm_OperationCounts m);
  sm_DriftSummary := record_drift (sm_DriftSummary m) op
|}.

(** The outcome of a target. *)
Definition record_outcome (m : SummaryMetrics) (tr : TargetResult) : SummaryMetrics :=
  let changed := negb (target_failed tr) && tr_HasChanges tr in
  let d := sm_DriftSummary m in {|
  sm_DryRun := sm_DryRun m; sm_ScannedProjects := sm_ScannedProjects m; sm_ScannedGroups := sm_ScannedGroups m;
  sm_TotalScanned := sm_TotalScanned m; sm_TargetedProjects := sm_TargetedProjects m;
  sm_TargetedGroups := sm_TargetedGroups m; sm_TotalTargeted := sm_TotalTargeted m;
  sm_TotalChanged := sm_TotalChanged m + b2z changed;
  sm_TotalUnchanged := sm_TotalUnchanged m + b2z (negb (target_failed tr) && negb (tr_HasChanges tr));
  sm_TotalFailed := sm_TotalFailed m + b2z (target_failed tr);
  sm_TotalSkipped := sm_TotalSkipped m; sm_TotalApplied := sm_TotalApplied m; sm_TotalNoop := sm_TotalNoop m;
  sm_OperationCounts := sm_OperationCounts m;
  sm_DriftSummary := {|
    ds_TotalDriftFields := ds_TotalDriftFields d; ds_DriftByAction := ds_DriftByAction d;
    ds_DriftByOperation := ds_DriftByOperation d; ds_DriftByResource := ds_DriftByResource d;
    ds_ChangedResources := if changed then ds_ChangedResources d ++ [tr_TargetPath tr] else ds_ChangedResources d;
    ds_FailedResources := if target_failed tr then ds_FailedResources d ++ [tr_TargetPath tr] else ds_FailedResources d |}
|}.

Definition RecordTargetResult (m : SummaryMetrics) (tr : TargetResult) : SummaryMetrics :=
  foldl recordOperationLocked (record_outcome m tr) (tr_Operations tr).

Definition RecordDiscovery (m : SummaryMetrics) (fleet : TargetFleet) : SummaryMetrics := {|
  sm_DryRun := sm_DryRun m;
  sm_ScannedProjects := tf_ScannedProjectsCount fleet; sm_ScannedGroups := tf_ScannedGroupsCount fleet;
  sm_TotalScanned := tf_ScannedProjectsCount fleet + tf_ScannedGroupsCount fleet;
  sm_TargetedProjects := tf_MatchedProjectsCount fleet; sm_TargetedGroups := tf_MatchedGroupsCount fleet;
  sm_TotalTargeted := tf_MatchedProjectsCount fleet + tf_MatchedGroupsCount fleet;
  sm_TotalChanged := sm_TotalChanged m; sm_TotalUnchanged := sm_TotalUnchanged m; sm_TotalFailed := sm_TotalFailed m;
  sm_TotalSkipped := sm_TotalSkipped m; sm_TotalApplied := sm_TotalApplied m; sm_TotalNoop := sm_TotalNoop m;
  sm_OperationCounts := sm_OperationCounts m; sm_DriftSummary := sm_DriftSummary m
|}.

(** ** The snapshot *)

Record SummaryMetricsSnapshot : Type := {
  ss_Metrics : SummaryMetrics;
  ss_TotalAppliedOperations : Z;
  ss_TotalSkippedOperations : Z;
  ss_TotalFailedOperations : Z
}.

(** A sum over the summaries. *)
Definition sum_counts (f : OperationSummary -> Z) (m : gmap string OperationSummary) : Z :=
  foldr Z.add 0 (f <$> (map_to_list m).*2).

(** [Snapshot]: the copy of the counters, with the lists of resources sorted,
    and the sums over the summaries. *)
Definition Snapshot (m : SummaryMetrics) : SummaryMetricsSnapshot :=
  let d := sm_DriftSummary m in {|
  ss_Metrics := {|
    sm_DryRun := sm_DryRun m; sm_ScannedProjects := sm_ScannedProjects m; sm_ScannedGroups := sm_ScannedGroups m;
    sm_TotalScanned := sm_TotalScanned m; sm_TargetedProjects := sm_TargetedProjects m;
    sm_TargetedGroups := sm_TargetedGroups m; sm_TotalTargeted := sm_TotalTargeted m;
    sm_TotalChanged := sm_TotalChanged m; sm_TotalUnchanged := sm_TotalUnchanged m; sm_TotalFailed := sm_TotalFailed m;
    sm_TotalSkipped := sm_TotalSkipped m; sm_TotalApplied := sm_TotalApplied m; sm_TotalNoop := sm_TotalNoop m;
    sm_OperationCounts := sm_OperationCounts m;
    sm_DriftSummary := {|
      ds_TotalDriftFields := ds_TotalDriftFields d; ds_DriftByAction := ds_DriftByAction d;
      ds_DriftByOperation := ds_DriftByOperation d; ds_DriftByResource := ds_DriftByResource d;
      ds_ChangedResources := sort_Strings (ds_ChangedResources d);
      ds_FailedResources := sort_Strings (ds_FailedResources d) |} |};
  ss_TotalAppliedOperations := sum_counts (fun v => os_Created v + os_Updated v + os_Deleted v) (sm_OperationCounts m);
  ss_TotalSkippedOperations := sum_counts os_Skipped (sm_OperationCounts m);
  ss_TotalFailedOperations := sum_counts os_Failed (sm_OperationCounts m)
|}.

(** ** Lemmas *)

Definition count {A} (P : A -> bool) (l : list A) : Z := Z.of_nat (length (List.filter P l)).

Lemma count_cons {A} (P : A -> bool) x l : count P (x :: l) = b2z (P x) + count P l.
Proof. unfold count. simpl. destruct (P x); simpl length; simpl b2z; lia. Qed.

Lemma count_app {A} (P : A -> bool) l k : count P (l ++ k) = count P l + count P k.
Proof. unfold count. rewrite List.filter_app, length_app. lia. Qed.

Lemma count_snoc {A} (P : A -> bool) l x : count P (l ++ [x]) = count P l + b2z (P x).
Proof. rewrite count_app, count_cons. unfold count. simpl. lia. Qed.

Lemma count_nonneg {A} (P : A -> bool) l : 0 <= count P l.
Proof. unfold count. lia. Qed.

Lemma count_zero {A} (P : A -> bool) l : count P l = 0 <-> forall x, x ∈ l -> P x = false.
Proof.
  induction l as [|x l IH]; [split; [by intros _ y Hy%elem_of_nil|done]|]. rewrite count_cons. pose proof (count_nonneg P l).
  split.
  - intros Hc y [->|Hy]%elem_of_cons; [destruct (P x); cbn in Hc; [lia|done]|]. apply IH; [|done]. destruct (P x); cbn in Hc; lia.
  - intros Hl. rewrite (Hl x) by left. cbn. apply IH. intros y Hy. apply Hl. by right.
Qed.

Lemma foldr_add_perm (l k : list Z) : l ≡ₚ k -> foldr Z.add 0 l = foldr Z.add 0 k.
Proof. induction 1; simpl; lia. Qed.

Lemma sum_counts_empty f : sum_counts f ∅ = 0.
Proof. unfold sum_counts. by rewrite map_to_list_empty. Qed.

Lemma sum_counts_fresh f m k v : m !! k = None -> sum_counts f (<[k := v]> m) = f v + sum_counts f m.
Proof.
  intros Hk. unfold sum_counts. rewrite (foldr_add_perm _ (f <$> ((k, v) :: map_to_list m).*2)); [done|].
  by rewrite map_to_list_insert.
Qed.

Lemma sum_counts_insert f m k v :
  sum_counts f (<[k := v]> m) + match m !! k with Some old => f old | None => 0 end = sum_counts f m + f v.
Proof.
  destruct (m !! k) as [old|] eqn:Hk; [|rewrite sum_counts_fresh by done; lia].
  rewrite <- (insert_delete_eq m), sum_counts_fresh by apply lookup_delete_eq.
  rewrite <- (insert_id m k old Hk) at 2. rewrite <- (insert_delete_eq m k old), sum_counts_fresh by apply lookup_delete_eq. lia.
Qed.

(** The operations of an operation name. *)
Definition op_named (n : string) (op : OperationResult) : bool := (or_OperationName op =? n)%string.

(** The summary of a list of operations. *)
Definition summary_of (n : string) (ops : list OperationResult) : OperationSummary :=
  let ops := List.filter (op_named n) ops in {|
  os_OperationName := n; os_Total := Z.of_nat (length ops);
  os_Created := count (is_action ActionCreate) ops; os_Updated := count (is_action ActionUpdate) ops;
  os_Deleted := count (is_action ActionDelete) ops; os_Noop := count (is_action ActionNoop) ops;
  os_Audit := count (is_action ActionAudit) ops; os_Skipped := count (is_action ActionSkipped) ops;
  os_Failed := count op_counts_failed ops |}.

Lemma summary_of_snoc n ops op :
  op_named n op = true -> summary_of n (ops ++ [op]) = count_op (summary_of n ops) op.
Proof.
  intros Hn. unfold summary_of, count_op. rewrite List.filter_app. cbn [List.filter]. rewrite Hn, length_app, !count_snoc.
  cbn. f_equal. lia.
Qed.

Lemma recordOperations_counts m ops n :
  sm_OperationCounts m = ∅ ->
  sm_OperationCounts (foldl recordOperationLocked m ops) !! n =
  if existsb (op_named n) ops then Some (summary_of n ops) else None.
Proof.
  intros Hm. induction ops as [|op ops IH] using rev_ind; [by simpl; rewrite Hm|].
  rewrite foldl_snoc, existsb_app. simpl. rewrite orb_false_r. destruct (op_named n op) eqn:Hn.
  - pose proof Hn as Hn'. unfold op_named in Hn'. apply String.eqb_eq in Hn'. rewrite Hn', lookup_insert_eq, IH, orb_true_r.
    rewrite summary_of_snoc by done. destruct (existsb (op_named n) ops) eqn:He; [done|]. simpl. do 2 f_equal.
    assert (List.filter (op_named n) ops = []) as Hnil.
    { clear -He. induction ops as [|o ops IH]; [done|]. simpl in *. apply orb_false_iff in He as [-> He]. by apply IH. }
    unfold summary_of. by rewrite Hnil.
  - rewrite orb_false_r. pose proof Hn as Hn'. unfold op_named in Hn. apply String.eqb_neq in Hn. rewrite lookup_insert_ne by done. rewrite IH.
    destruct (existsb (op_named n) ops); [|done]. unfold summary_of. rewrite List.filter_app. cbn [List.filter].
    by rewrite Hn', app_nil_r.
Qed.

Lemma recordOperations_sum (f : OperationSummary -> Z) (P : OperationResult -> bool) m ops :
  (forall s op, f (count_op s op) = f s + b2z (P op)) -> (forall n, f (new_summary n) = 0) ->
  sum_counts f (sm_OperationCounts (foldl recordOperationLocked m ops)) =
  sum_counts f (sm_OperationCounts m) + count P ops.
Proof.
  intros Hf H0. induction ops as [|op ops IH] using rev_ind; [unfold count; simpl; lia|].
  rewrite foldl_snoc, count_snoc. cbn [recordOperationLocked sm_OperationCounts].
  set (M := sm_OperationCounts (foldl recordOperationLocked m ops)) in *.
  pose proof (sum_counts_insert f M (or_OperationName op)
    (count_op (default (new_summary (or_OperationName op)) (M !! or_OperationName op)) op)) as Hs.
  rewrite Hf in Hs. destruct (M !! or_OperationName op) as [old|]; simpl in *; rewrite ?H0 in Hs; lia.
Qed.

(** The counters that operations leave alone, and those they add to. *)
Lemma recordOperations_totals m ops :
  let m' := foldl recordOperationLocked m ops in
  sm_TotalChanged m' = sm_TotalChanged m /\ sm_TotalUnchanged m' = sm_TotalUnchanged m /\
  sm_TotalFailed m' = sm_TotalFailed m /\
  ds_ChangedResources (sm_DriftSummary m') = ds_ChangedResources (sm_DriftSummary m) /\
  ds_FailedResources (sm_DriftSummary m') = ds_FailedResources (sm_DriftSummary m) /\
  sm_TotalApplied m' = sm_TotalApplied m + count applied_op ops.
Proof.
  cbv zeta. induction ops as [|op ops IH] using rev_ind.
  - unfold count. simpl. repeat (split; [done|]). lia.
  - rewrite foldl_snoc, count_snoc. destruct IH as (? & ? & ? & ? & ? & ?). cbn. repeat (split; [done|]). lia.
Qed.

Definition target_changed (tr : TargetResult) : bool := negb (target_failed tr) && tr_HasChanges tr.

Definition recorded (trs : list TargetResult) : list OperationResult := trs ≫= tr_Operations.

(** The operations are recorded one after the other, whatever the targets. *)
Lemma RecordTargetResults_counts m trs n :
  sm_OperationCounts m = ∅ ->
  sm_OperationCounts (foldl RecordTargetResult m trs) !! n =
  if existsb (op_named n) (recorded trs) then Some (summary_of n (recorded trs)) else None.
Proof.
  intros Hm.
  assert (forall k l m1 m2, sm_OperationCounts m1 = sm_OperationCounts (foldl recordOperationLocked m2 k) ->
    sm_OperationCounts (foldl recordOperationLocked m1 l) = sm_OperationCounts (foldl recordOperationLocked m2 (k ++ l))) as Hgen.
  { intros k l m1 m2 He. rewrite foldl_app. revert He. generalize (foldl recordOperationLocked m2 k). clear. intros m3 He.
    revert m1 m3 He. induction l as [|op l IH]; intros m1 m3 He; [done|]. simpl. apply IH. simpl. by rewrite He. }
  rewrite <- (recordOperations_counts m) by done. f_equal.
  induction trs as [|tr trs IH] using rev_ind; [done|]. rewrite foldl_snoc. unfold recorded. rewrite bind_app. simpl.
  rewrite app_nil_r. by apply Hgen.
Qed.

Lemma RecordTargetResult_eq m tr :
  RecordTargetResult m tr = foldl recordOperationLocked (record_outcome m tr) (tr_Operations tr).
Proof. done. Qed.

Lemma RecordTargetResults_sum f P m trs :
  (forall s op, f (count_op s op) = f s + b2z (P op)) -> (forall n, f (new_summary n) = 0) ->
  sum_counts f (sm_OperationCounts (foldl RecordTargetResult m trs)) =
  sum_counts f (sm_OperationCounts m) + count P (recorded trs).
Proof.
  intros Hf H0. induction trs as [|tr trs IH] using rev_ind; [unfold count; simpl; lia|].
  rewrite foldl_snoc, RecordTargetResult_eq. unfold recorded. rewrite bind_app, count_app. simpl. rewrite app_nil_r.
  rewrite (recordOperations_sum f P) by done. simpl. rewrite IH. unfold recorded. lia.
Qed.

Lemma RecordTargetResults_totals m trs :
  let m' := foldl RecordTargetResult m trs in
  sm_TotalChanged m' = sm_TotalChanged m + count target_changed trs /\
  sm_TotalUnchanged m' = sm_TotalUnchanged m + count (fun tr => negb (target_failed tr) && negb (tr_HasChanges tr)) trs /\
  sm_TotalFailed m' = sm_TotalFailed m + count target_failed trs /\
  ds_ChangedResources (sm_DriftSummary m') = ds_ChangedResources (sm_DriftSummary m) ++ (tr_TargetPath <$> List.filter target_changed trs) /\
  ds_FailedResources (sm_DriftSummary m') = ds_FailedResources (sm_DriftSummary m) ++ (tr_TargetPath <$> List.filter target_failed trs) /\
  sm_TotalApplied m' = sm_TotalApplied m + count applied_op (recorded trs).
Proof.
  cbv zeta. induction trs as [|tr trs IH] using rev_ind.
  - unfold count. simpl. rewrite !app_nil_r. repeat (split; [lia || done|]). lia.
  - rewrite foldl_snoc, !count_snoc, !RecordTargetResult_eq.
    destruct (recordOperations_totals (record_outcome (foldl RecordTargetResult m trs) tr) (tr_Operations tr))
      as (Hc & Hu & Hf & Hcr & Hfr & Ha). destruct IH as (Ic & Iu & If & Icr & Ifr & Ia).
    rewrite Hc, Hu, Hf, Hcr, Hfr, Ha. cbn. rewrite Ic, Iu, If, Icr, Ifr, Ia, !List.filter_app, !fmap_app.
    unfold recorded. rewrite bind_app, count_app. simpl. rewrite app_nil_r. fold (target_changed tr).
    split; [lia|]. split; [lia|]. split; [lia|].
    split; [destruct (target_changed tr); simpl; by rewrite ?app_nil_r, <- ?app_assoc|].
    split; [destruct (target_failed tr); simpl; by rewrite ?app_nil_r, <- ?app_assoc|]. lia.
Qed.

(** ** Properties *)

(** The metrics are the truth about the results recorded: every target is
    counted once, as failed, changed or unchanged, and the failed and changed
    ones are named; the summary of an operation counts its results by action
    and failure; and the totals over the summaries agree with the operations. *)
Theorem Metrics_exact dryRun fleet trs :
  let snap := Snapshot (foldl RecordTargetResult (RecordDiscovery (NewSummaryMetrics dryRun) fleet) trs) in
  let m := ss_Metrics snap in
  sm_TotalChanged m + sm_TotalUnchanged m + sm_TotalFailed m = Z.of_nat (length trs) /\
  sm_TotalFailed m = count target_failed trs /\ sm_TotalChanged m = count target_changed trs /\
  ds_FailedResources (sm_DriftSummary m) ≡ₚ tr_TargetPath <$> List.filter target_failed trs /\
  ds_ChangedResources (sm_DriftSummary m) ≡ₚ tr_TargetPath <$> List.filter target_changed trs /\
  (forall n, sm_OperationCounts m !! n =
     if existsb (op_named n) (recorded trs) then Some (summary_of n (recorded trs)) else None) /\
  ss_TotalAppliedOperations snap = count applied_op (recorded trs) /\
  ss_TotalAppliedOperations snap = sm_TotalApplied m /\
  ss_TotalSkippedOperations snap = count (is_action ActionSkipped) (recorded trs) /\
  ss_TotalFailedOperations snap = count op_counts_failed (recorded trs).
Proof.
  cbv zeta. set (m0 := RecordDiscovery (NewSummaryMetrics dryRun) fleet).
  destruct (RecordTargetResults_totals m0 trs) as (Hc & Hu & Hf & Hcr & Hfr & Ha). cbn.
  rewrite !sort_Strings_Permutation, Hc, Hu, Hf, Hcr, Hfr, Ha. cbn.
  rewrite (RecordTargetResults_sum _ applied_op), (RecordTargetResults_sum _ (is_action ActionSkipped)),
    (RecordTargetResults_sum _ op_counts_failed) by (intros; cbn; unfold applied_op, is_action; repeat case_bool_decide; cbn; congruence || lia).
  unfold m0 at 2 3 4 5. cbn. rewrite !sum_counts_empty.
  split.
  { clear. induction trs as [|tr trs IH]; [done|]. rewrite !count_cons. unfold target_changed at 1. simpl length.
    destruct (target_failed tr), (tr_HasChanges tr); cbn [b2z negb andb]; lia. }
  repeat (split; [done || lia|]). split; [|done || lia]. intros n. by apply RecordTargetResults_counts.
Qed.
