(* ===== verification/Engine.v ===== *)
(** * The governance engine: internal/engine/engine.go

    [runWithOptions] discovers the fleet, asks the license, runs every group and
    then every project on the worker pool, and assembles the result.  The
    concurrent phases interleave: a run takes the schedule of each as an
    argument, and the theorems hold for all schedules. *)

From S2P Require Import Prelude GoLib Config GitLabAPI Server Governance Registry ProjectFilter GroupTree Pagination.
From S2P Require Import PushRules TargetBranchRules ProtectedBranches.
From S2P Require Import Discovery WorkerPool TaskPool Metrics License.
Local Open Scope string_scope.
Local Open Scope list_scope.
Local Open Scope Z_scope.

(** ** The adapters of registry.go *)

(** The project of a target: what discovery saw, or its copy of the fields. *)
Definition raw_project (t : TargetProject) : Project :=
  match tp_Raw t with
  | Some p => p
  | None => {|
      p_ID := tp_ID t; p_Name := tp_Name t; p_Path := tp_Path t; p_PathWithNamespace := tp_PathWithNamespace t;
      p_DefaultBranch := tp_DefaultBranch t; p_Archived := tp_Archived t; p_SquashOption := ""; p_MergeMethod := "";
      p_OnlyAllowMergeIfPipelineSucceeds := false; p_AllowMergeOnSkippedPipeline := false;
      p_OnlyAllowMergeIfAllDiscussionsAreResolved := false; p_RemoveSourceBranchAfterMerge := false;
      p_KeepLatestArtifact := false; p_PrintingMergeRequestLinkEnabled := false; p_AutoCancelPendingPipelines := "";
      p_AutoDevopsEnabled := false; p_SharedRunnersEnabled := false; p_GroupRunnersEnabled := false; p_Visibility := ""; p_Topics := []; p_TagList := []; p_Namespace := None;
      p_MarkedForDeletionAt := tp_MarkedForDeletionAt t; p_WebURL := ""; p_LastActivityAt := None; p_ContainerExpirationPolicy := None |}
  end.

Definition raw_group (t : TargetGroup) : Group :=
  match tg_Raw t with
  | Some g => g
  | None => {| g_ID := tg_ID t; g_Name := tg_Name t; g_Path := tg_Path t; g_FullPath := tg_FullPath t;
               g_ParentID := tg_ParentID t; g_Visibility := ""; g_Description := ""; g_WebURL := "" |}
  end.

Definition PlanTargetProject (r : OperationsRegistry) (t : TargetProject) (cfg : option PolicyConfig) :=
  PlanProject r (raw_project t) cfg.
Definition ApplyTargetProject (r : OperationsRegistry) (t : TargetProject) (cfg : option PolicyConfig) :=
  ApplyProject r (raw_project t) cfg.
Definition PlanTargetGroup (r : OperationsRegistry) (t : TargetGroup) (cfg : option PolicyConfig) :=
  PlanGroup r (raw_group t) cfg.
Definition ApplyTargetGroup (r : OperationsRegistry) (t : TargetGroup) (cfg : option PolicyConfig) :=
  ApplyGroup r (raw_group t) cfg.

(** ** One target *)

(** The result of a target from those of its operations, and the error with
    which the registry stopped. *)
Definition finish_target (id : Z) (path name : string) (t : ResourceType) (dryRun : bool)
    (ops : list OperationResult) (err : option error) : TargetResult := {|
  tr_TargetID := id; tr_TargetPath := path; tr_TargetName := name; tr_ResourceType := t; tr_DryRun := dryRun;
  tr_Success := negb (is_some err) && forallb or_Success ops;
  tr_HasChanges := existsb or_HasChanges ops;
  tr_Operations := ops; tr_Error := err
|}.

Definition marked (t : TargetProject) : bool :=
  tp_MarkedForDeletion t || is_some (tp_MarkedForDeletionAt t) ||
  match tp_Raw t with Some p => is_some (p_MarkedForDeletionAt p) | None => false end.

Definition lifecycle_check (t : TargetProject) : OperationResult := {|
  or_OperationName := "lifecycle_check"; or_ResourceType := ResourceTypeProject; or_ResourceID := tp_ID t;
  or_ResourcePath := tp_PathWithNamespace t; or_Action := ActionSkipped; or_Status := StatusSkipped;
  or_HasChanges := false; or_Success := true; or_Diffs := [];
  or_Details := "Repository is marked for deletion; skipping reconciliation"; or_Error := None
|}.

Definition executeProject (t : TargetProject) (r : OperationsRegistry) (cfg : option PolicyConfig) (dryRun : bool)
  : GP (TargetResult * option error) :=
  let finish := finish_target (tp_ID t) (tp_PathWithNamespace t) (tp_Name t) ResourceTypeProject dryRun in
  if marked t then mret (finish [lifecycle_check t] None, None)
  else if dryRun then
    '(planResults, err) ← PlanTargetProject r t cfg;
    mret (finish (OperationResultFromPlan <$> planResults) err, err)
  else
    '(applyResults, err) ← ApplyTargetProject r t cfg;
    mret (finish (OperationResultFromApply <$> applyResults) err, err).

Definition executeGroup (t : TargetGroup) (r : OperationsRegistry) (cfg : option PolicyConfig) (dryRun : bool)
  : GP (TargetResult * option error) :=
  let finish := finish_target (tg_ID t) (tg_FullPath t) (tg_Name t) ResourceTypeGroup dryRun in
  if dryRun then
    '(planResults, err) ← PlanTargetGroup r t cfg;
    mret (finish (OperationResultFromPlan <$> planResults) err, err)
  else
    '(applyResults, err) ← ApplyTargetGroup r t cfg;
    mret (finish (OperationResultFromApply <$> applyResults) err, err).

(** A target as a task of [ParallelMap], which keeps the result or the error. *)
Definition target_task (p : GP (TargetResult * option error)) : GP (outcome TargetResult) :=
  '(res, err) ← p;
  mret (match err with Some err => Failed err | None => Returned res end).

(** ** The run *)

Record ProjectChange : Type := {
  pc_ProjectID : Z;
  pc_ProjectPath : string;
  pc_Action : ActionType;
  pc_Operations : list string
}.

(** [ExecutionResult]; [SummaryMetrics] repeats [Metrics]. *)
Record ExecutionResult : Type := {
  er_Mode : string;
  er_DryRun : bool;
  er_Success : bool;
  er_Fleet : option TargetFleet;
  er_GroupResults : list TargetResult;
  er_ProjectResults : list TargetResult;
  er_TargetResults : list TargetResult;
  er_Metrics : SummaryMetricsSnapshot;
  er_ProjectChanges : list ProjectChange;
  er_Errors : list error
}.

Definition HasChanges (er : ExecutionResult) : bool := 0 <? sm_TotalChanged (ss_Metrics (er_Metrics er)).
Definition HasErrors (er : ExecutionResult) : bool :=
  negb (er_Success er) || (0 <? length (er_Errors er))%nat || (0 <? sm_TotalFailed (ss_Metrics (er_Metrics er))).
Definition ChangedTargets (er : ExecutionResult) : list TargetResult := List.filter tr_HasChanges (er_TargetResults er).
Definition UnchangedTargets (er : ExecutionResult) : list TargetResult :=
  List.filter (fun tr => negb (tr_HasChanges tr) && tr_Success tr) (er_TargetResults er).
Definition FailedTargets (er : ExecutionResult) : list TargetResult := List.filter target_failed (er_TargetResults er).
Definition TotalDiffs (er : ExecutionResult) : Z :=
  foldr (fun tr n => Z.of_nat (length (Target_Diffs tr)) + n) 0 (er_TargetResults er).

Definition ran_nothing (mode : string) (dryRun success : bool) (fleet : option TargetFleet) (snap : SummaryMetricsSnapshot)
    (errs : list error) : ExecutionResult := {|
  er_Mode := mode; er_DryRun := dryRun; er_Success := success; er_Fleet := fleet; er_GroupResults := [];
  er_ProjectResults := []; er_TargetResults := []; er_Metrics := snap; er_ProjectChanges := []; er_Errors := errs
|}.

(** The features a policy needs a license for; [onLambda] is whether one of the
    two Lambda variables is set. *)
Definition requiredFeatures (p : PoliciesConfig) (onLambda : bool) : list string :=
  let feature (b : bool) (name : string) := if b then [name] else [] in
  feature match pol_ProtectedEnvironments p with
          | Some e => (0 <? length (pes_Rules e))%nat || match pes_Prune e with Some b => b | None => false end
          | None => false end "governance.protected_environments" ++
  feature match pol_ProtectedTags p with
          | Some t => (0 <? length (pts_Rules t))%nat || match pts_Prune t with Some b => b | None => false end
          | None => false end "governance.protected_tags" ++
  feature (is_some (pol_ApprovalRules p)) "governance.approval_rules" ++
  feature (0 <? length (pol_BranchMerges p))%nat "governance.branch_merges" ++
  feature (is_some (pol_TargetBranchRules p)) "governance.target_branch_rules" ++
  feature (is_some (pol_Runners p)) "governance.runners" ++
  feature (0 <? length (pol_Webhooks p))%nat "governance.webhooks" ++
  feature (is_some (pol_PipelineRetention p)) "governance.pipeline_retention" ++
  feature (is_some (pol_Compliance p)) "governance.compliance_frameworks" ++
  feature onLambda "runtime.lambda".

Definition enforcementOptions (cfg : PolicyConfig) (fleet : TargetFleet) (dryRun : bool) (env : license_env)
    (serverTime : option Z) : EnforcementOptions :=
  let license := st_License (cfg_Settings cfg) in {|
  eo_DiscoveredProjects := Z.of_nat (size (tf_Projects fleet)); eo_IsDryRun := dryRun;
  eo_GitLabBaseURL := gl_BaseURL (st_GitLab (cfg_Settings cfg));
  eo_TargetPaths := (tp_PathWithNamespace <$> (map_to_list (tf_Projects fleet)).*2)
                    ++ (tg_FullPath <$> (map_to_list (tf_Groups fleet)).*2);
  eo_LicenseKey := ls_Key license; eo_LicenseFile := ls_File license; eo_CRL := ls_CRL license;
  eo_CRLFile := ls_CRLFile license; eo_CRLURL := ls_CRLURL license; eo_Command := "run";
  eo_EvaluationTime := None; eo_GitLabServerTime := serverTime;
  eo_RequiredFeatures := requiredFeatures (cfg_Policies cfg)
    (negb (le_Getenv env "AWS_LAMBDA_FUNCTION_NAME" =? "")%string
     || negb (le_Getenv env "AWS_LAMBDA_RUNTIME_API" =? "")%string)
|}.

(** The changes of a project: its changed operations, and the action of the
    last of them. *)
Definition projectChange (r : TargetResult) : option ProjectChange :=
  if tr_HasChanges r then Some {|
    pc_ProjectID := tr_TargetID r; pc_ProjectPath := tr_TargetPath r;
    pc_Action := List.last (or_Action <$> ChangedOperations r) ActionUpdate;
    pc_Operations := or_OperationName <$> ChangedOperations r |}
  else None.

Definition target_key (tr : TargetResult) : string * Z := (tr_TargetPath tr, tr_TargetID tr).

Record engine_schedule : Type := {
  es_scan : list scan_label;
  es_groups : list TaskPool.move;
  es_projects : list TaskPool.move
}.

(** [ctx.Err()] of a cancelled context. *)
Definition errCanceled : error := ErrNew "context canceled".

Record GovernanceEngine : Type := {
  ge_config : option PolicyConfig;
  ge_registry : OperationsRegistry;
  ge_concurrency : Z;
  ge_dryRun : bool
}.

Section Run.
Context `{GoRegexp} `{GoQuery} `{GoLicense} {W : Type} (h : handler GitLabE W) (fuel : discoveryFuel) (env : license_env)
  (serverTime : option Z).

(** The two phases and the assembly, on a fleet that is not empty. *)
Definition governFleet (e : GovernanceEngine) (cfg : PolicyConfig) (dryRun : bool) (concurrency : Z) (fleet : TargetFleet)
    (metrics : SummaryMetrics) (schedule : engine_schedule) (w : W) : option (ExecutionResult * W) :=
  let task_g g := target_task (executeGroup g (ge_registry e) (Some cfg) dryRun) in
  let task_p p := target_task (executeProject p (ge_registry e) (Some cfg) dryRun) in
  '(gres, gerrs, w) ← ParallelRun h concurrency (task_g <$> GroupList fleet) errCanceled (es_groups schedule) w;
  '(pres, perrs, w) ← ParallelRun h concurrency (task_p <$> ProjectList fleet) errCanceled (es_projects schedule) w;
  let groupResults := omap id gres in
  let projectResults := omap id pres in
  let snap := Snapshot (foldl RecordTargetResult metrics (groupResults ++ projectResults)) in
  let allErrors := gerrs ++ perrs in
  Some ({|
    er_Mode := if dryRun then "plan" else "apply"; er_DryRun := dryRun;
    er_Success := (length allErrors =? 0)%nat && (sm_TotalFailed (ss_Metrics snap) =? 0);
    er_Fleet := Some fleet; er_GroupResults := groupResults; er_ProjectResults := projectResults;
    er_TargetResults := merge_sort (by_key target_key) (groupResults ++ projectResults);
    er_Metrics := snap; er_ProjectChanges := omap projectChange projectResults; er_Errors := allErrors |}, w).

Definition runWithOptions (e : GovernanceEngine) (cfg : option PolicyConfig) (dryRun : bool) (concurrency : Z)
    (schedule : engine_schedule) (w : W) : option (option ExecutionResult * option error * W) :=
  match cfg with
  | None => Some (None, Some (ErrNew "policy config cannot be nil"), w)
  | Some cfg =>
      let concurrency := if concurrency <=? 0 then 10 else concurrency in
      let metrics := NewSummaryMetrics dryRun in
      let mode := if dryRun then "plan" else "apply" in
      '(res, w) ← DiscoverFleet h fuel (cfg_Targets cfg) concurrency (es_scan schedule) w;
      match res with
      | inl err =>
          Some (Some (ran_nothing mode dryRun false None (Snapshot metrics) [ErrWrap "fleet discovery failed: " err]),
                Some err, w)
      | inr fleet =>
          let metrics := RecordDiscovery metrics fleet in
          match (Enforce env (enforcementOptions cfg fleet dryRun env serverTime)).2 with
          | Some err => Some (Some (ran_nothing mode dryRun false (Some fleet) (Snapshot metrics) [err]), Some err, w)
          | None =>
              if IsEmpty fleet then Some (Some (ran_nothing mode dryRun true (Some fleet) (Snapshot metrics) []), None, w)
              else '(er, w) ← governFleet e cfg dryRun concurrency fleet metrics schedule w; Some (Some er, None, w)
          end
      end
  end.

Definition Engine_Run (e : GovernanceEngine) := runWithOptions e (ge_config e) (ge_dryRun e) (ge_concurrency e).
Definition Engine_Plan (e : GovernanceEngine) := runWithOptions e (ge_config e) true (ge_concurrency e).
Definition Engine_Apply (e : GovernanceEngine) := runWithOptions e (ge_config e) false (ge_concurrency e).

Definition Engine_Execute (e : GovernanceEngine) (cfg : option PolicyConfig) (schedule : engine_schedule) (w : W) :=
  match cfg with
  | None => Some (None, Some (ErrNew "policy config cannot be nil"), w)
  | Some c =>
      runWithOptions e cfg (default (ge_dryRun e) (st_DryRun (cfg_Settings c)))
        (if 0 <? st_Concurrency (cfg_Settings c) then st_Concurrency (cfg_Settings c) else ge_concurrency e) schedule w
  end.

End Run.

(** [NewGovernanceEngine], with the registry that the caller provides or the
    default one. *)
Definition NewGovernanceEngine (registry : OperationsRegistry) (cfg : option PolicyConfig) : error + GovernanceEngine :=
  match cfg with
  | None => inl (ErrNew "policy config cannot be nil")
  | Some c => inr {|
      ge_config := cfg; ge_registry := registry;
      ge_concurrency := if st_Concurrency (cfg_Settings c) <=? 0 then 10 else st_Concurrency (cfg_Settings c);
      ge_dryRun := default true (st_DryRun (cfg_Settings c)) |}
  end.

Definition NewEngine (registry : OperationsRegistry) : GovernanceEngine :=
  {| ge_config := None; ge_registry := registry; ge_concurrency := 10; ge_dryRun := true |}.

(** ** Lemmas: one target *)

Lemma executeProject_reads t r cfg : all_dry_run r -> reads (executeProject t r cfg true).
Proof.
  intros Hr. unfold executeProject. cbv zeta. destruct (marked t); [done|].
  apply reads_bind; [by apply PlanProject_reads|]. by intros [results err].
Qed.

Lemma executeGroup_reads t r cfg : all_dry_run r -> reads (executeGroup t r cfg true).
Proof.
  intros Hr. unfold executeGroup. cbv zeta. apply reads_bind; [by apply PlanGroup_reads|]. by intros [results err].
Qed.

Lemma target_task_reads p : reads p -> reads (target_task p).
Proof. intros Hp. apply reads_bind; [done|]. by intros [res err]. Qed.

Lemma target_task_run {W} (h : handler GitLabE W) p w :
  (run h (target_task p) w).1 =
  match (run h p w).1 with (res, Some err) => Failed err | (res, None) => Returned res end.
Proof. unfold target_task. rewrite run_bind. by destruct (run h p w) as [[res [err|]] w']. Qed.

(** A target's result carries the error it comes with; without one it is a
    failure only through an operation. *)
Definition sound_target (x : TargetResult * option error) : Prop :=
  tr_Error x.1 = x.2 /\
  (x.2 = None -> tr_Success x.1 = false -> exists op, op ∈ tr_Operations x.1 /\ or_Success op = false).

Lemma finish_target_sound id path name t dryRun ops err :
  sound_target (finish_target id path name t dryRun ops err, err).
Proof.
  split; [done|]. simpl. intros ->. simpl. induction ops as [|op ops IH]; [done|]. simpl.
  destruct (or_Success op) eqn:E; [|exists op; split; [left|done]]. simpl. intros Hf. destruct (IH Hf) as (o & ? & ?).
  exists o. split; [by right|done].
Qed.

Lemma executeProject_sound t r cfg dryRun : always sound_target (executeProject t r cfg dryRun).
Proof.
  unfold executeProject. cbv zeta. destruct (marked t); [apply always_ret, finish_target_sound|].
  destruct dryRun; apply always_bind; intros [results err]; apply always_ret, finish_target_sound.
Qed.

Lemma executeGroup_sound t r cfg dryRun : always sound_target (executeGroup t r cfg dryRun).
Proof.
  unfold executeGroup. cbv zeta. destruct dryRun; apply always_bind; intros [results err]; apply always_ret, finish_target_sound.
Qed.

(** What a task may return. *)
Definition sound_result (o : outcome TargetResult) : Prop :=
  match o with
  | Returned res => tr_Error res = None /\
      (tr_Success res = false -> exists op, op ∈ tr_Operations res /\ or_Success op = false)
  | _ => True
  end.

Lemma target_task_sound p : always sound_target p -> always sound_result (target_task p).
Proof.
  intros Hp. apply (always_bind_always _ sound_target); [done|].
  intros [res [err|]] [He Hs]; [done|]. apply always_ret. simpl in *. split; [done|]. by apply Hs.
Qed.

(** ** Lemmas: the two phases *)

Section Phases.
Context {W : Type} (h : handler GitLabE W) (e : GovernanceEngine) (cfg : PolicyConfig) (dryRun : bool) (fleet : TargetFleet).

(** The targets of a run, groups first, as programs. *)
Definition group_runs : list (GP (TargetResult * option error)) :=
  (fun g => executeGroup g (ge_registry e) (Some cfg) dryRun) <$> GroupList fleet.
Definition project_runs : list (GP (TargetResult * option error)) :=
  (fun p => executeProject p (ge_registry e) (Some cfg) dryRun) <$> ProjectList fleet.

Lemma governFleet_phases concurrency metrics schedule w er w' :
  governFleet h e cfg dryRun concurrency fleet metrics schedule w = Some (er, w') ->
  exists gres gerrs w1 pres perrs,
    ParallelRun h concurrency (target_task <$> group_runs) errCanceled (es_groups schedule) w = Some (gres, gerrs, w1) /\
    ParallelRun h concurrency (target_task <$> project_runs) errCanceled (es_projects schedule) w1 = Some (pres, perrs, w') /\
    er_GroupResults er = omap id gres /\ er_ProjectResults er = omap id pres /\ er_Errors er = gerrs ++ perrs /\
    er_TargetResults er ≡ₚ er_GroupResults er ++ er_ProjectResults er /\
    er_Metrics er = Snapshot (foldl RecordTargetResult metrics (er_GroupResults er ++ er_ProjectResults er)) /\
    er_Success er = (length (er_Errors er) =? 0)%nat && (sm_TotalFailed (ss_Metrics (er_Metrics er)) =? 0) /\
    er_Fleet er = Some fleet.
Proof.
  unfold governFleet, group_runs, project_runs. rewrite <- !list_fmap_compose. unfold compose.
  destruct (ParallelRun _ _ _ _ (es_groups schedule) _) as [[[gres gerrs] w1]|]; [|done]. simpl.
  destruct (ParallelRun _ _ _ _ (es_projects schedule) _) as [[[pres perrs] w2]|] eqn:Hp; [|done]. simpl.
  intros [= <- <-]. exists gres, gerrs, w1, pres, perrs. simpl.
  split; [done|]. split; [exact Hp|]. do 3 (split; [done|]). split; [apply merge_sort_Permutation|]. done.
Qed.

End Phases.

(** What each target comes to when it runs alone, and the results kept. *)
Definition alone {W} (h : handler GitLabE W) (w : W) (runs : list (GP (TargetResult * option error)))
  : list (TargetResult * option error) := (fun p => (run h p w).1) <$> runs.

Definition kept (xs : list (TargetResult * option error)) : list TargetResult :=
  omap (fun x => match x.2 with None => Some x.1 | Some _ => None end) xs.

(** The errors that a list of outcomes must be reported with, up to equal
    texts. *)
Definition reports (errs : list error) (xs : list (TargetResult * option error)) : Prop :=
  (forall err, err ∈ errs -> exists x, x ∈ xs /\ x.2 = Some err) /\
  (forall x err, x ∈ xs -> x.2 = Some err -> exists err', err' ∈ errs /\ error_text err' = error_text err).

Lemma reports_nil errs xs : reports errs xs -> errs = [] <-> forall x, x ∈ xs -> x.2 = None.
Proof.
  intros [Hs Hc]. split.
  - intros -> x Hx. destruct x.2 as [err|] eqn:E; [|done]. destruct (Hc x err Hx E) as (err' & H & _).
    by apply elem_of_nil in H.
  - intros Hx. destruct errs as [|err errs]; [done|]. destruct (Hs err ltac:(left)) as (x & Hi & E).
    by rewrite (Hx x Hi) in E.
Qed.

Lemma reports_app errs1 errs2 xs1 xs2 : reports errs1 xs1 -> reports errs2 xs2 -> reports (errs1 ++ errs2) (xs1 ++ xs2).
Proof.
  intros [Hs1 Hc1] [Hs2 Hc2]. split.
  - intros err [He|He]%elem_of_app; [destruct (Hs1 _ He) as (x & ? & ?)|destruct (Hs2 _ He) as (x & ? & ?)];
      exists x; rewrite elem_of_app; auto.
  - intros x err [Hx|Hx]%elem_of_app He; [destruct (Hc1 _ _ Hx He) as (e' & ? & ?)|destruct (Hc2 _ _ Hx He) as (e' & ? & ?)];
      exists e'; rewrite elem_of_app; auto.
Qed.

(** A phase of a plan is its targets planned one by one. *)
Lemma phase_alone {W} (h : handler GitLabE W) concurrency runs ms w res errs w' :
  stable_reads h -> Forall reads runs -> Cancel ∉ pool_moves ms ->
  ParallelRun h concurrency (target_task <$> runs) errCanceled ms w = Some (res, errs, w') ->
  w' = w /\ omap id res = kept (alone h w runs) /\ reports errs (alone h w runs).
Proof.
  intros Hst Hr Hms Hp. apply parallel_reads in Hp as [-> Hp]; [|done|].
  2:{ apply Forall_fmap. eapply Forall_impl; [done|]. intros p. apply target_task_reads. }
  split; [done|]. apply pool_complete in Hp as (-> & _ & Hsound & Hrep & _); [|done]. rewrite length_fmap in *.
  assert (forall i, match (target_task <$> runs) !! i with Some p => (run h p w).1 | None => Failed errCanceled end =
    match alone h w runs !! i with Some (x, None) => Returned x | Some (_, Some err) => Failed err | None => Failed errCanceled end) as Hout.
  { intros i. unfold alone. rewrite !list_lookup_fmap. destruct (runs !! i) as [p|]; simpl; [|done].
    rewrite target_task_run. by destruct (run h p w).1 as [x [err|]]. }
  assert (length (alone h w runs) = length runs) as Hlen by apply length_fmap.
  split; [|split].
  - rewrite omap_id_fmap. unfold kept. rewrite <- (omap_seq_lookup _ (alone h w runs)), Hlen.
    apply list_omap_ext, Forall2_same_length_lookup_2; [done|]. intros i j j' Hj Hj'. rewrite Hj in Hj'.
    injection Hj' as <-. unfold compose. rewrite Hout. apply lookup_seq in Hj as [-> Hi].
    simpl. destruct (alone h w runs !! i) as [[x [err|]]|]; done.
  - intros err He. destruct (Hsound err He) as (i & Hi & Ho). rewrite Hout in Ho.
    destruct (alone h w runs !! i) as [[x [err'|]]|] eqn:Ha; simplify_eq/=.
    + exists (x, Some err). split; [by eapply list_elem_of_lookup_2|done].
    + apply lookup_ge_None in Ha. lia.
  - intros x err Hx He. apply list_elem_of_lookup in Hx as (i & Hi). destruct x as [x e']. simpl in He. subst e'.
    apply (Hrep i); [rewrite <- Hlen; by eapply lookup_lt_Some|]. by rewrite Hout, Hi.
Qed.


Lemma group_runs_reads e cfg fleet : all_dry_run (ge_registry e) -> Forall reads (group_runs e cfg true fleet).
Proof. intros Hr. apply Forall_fmap, Forall_forall. intros g _. by apply executeGroup_reads. Qed.

Lemma project_runs_reads e cfg fleet : all_dry_run (ge_registry e) -> Forall reads (project_runs e cfg true fleet).
Proof. intros Hr. apply Forall_fmap, Forall_forall. intros p _. by apply executeProject_reads. Qed.

Lemma group_tasks_sound e cfg dryRun fleet : Forall (always sound_result) (target_task <$> group_runs e cfg dryRun fleet).
Proof. apply Forall_fmap, Forall_fmap, Forall_forall. intros g _. apply target_task_sound, executeGroup_sound. Qed.

Lemma project_tasks_sound e cfg dryRun fleet : Forall (always sound_result) (target_task <$> project_runs e cfg dryRun fleet).
Proof. apply Forall_fmap, Forall_fmap, Forall_forall. intros p _. apply target_task_sound, executeProject_sound. Qed.

Lemma tasks_reads runs : Forall reads runs -> Forall reads (target_task <$> runs).
Proof. intros Hr. apply Forall_fmap. eapply Forall_impl; [done|]. intros p. apply target_task_reads. Qed.

(** No failed result is counted exactly when no result kept has failed. *)
Lemma success_iff dryRun fleet planned :
  ((forall x, x ∈ planned -> x.2 = None) /\
   sm_TotalFailed (ss_Metrics (Snapshot (foldl RecordTargetResult (RecordDiscovery (NewSummaryMetrics dryRun) fleet) (kept planned)))) = 0) <->
  forall x : TargetResult * option error, x ∈ planned -> x.2 = None /\ target_failed x.1 = false.
Proof.
  destruct (RecordTargetResults_totals (RecordDiscovery (NewSummaryMetrics dryRun) fleet) (kept planned)) as (_ & _ & Hf & _).
  cbn [Snapshot ss_Metrics sm_TotalFailed]. rewrite Hf.
  cbn [RecordDiscovery NewSummaryMetrics sm_TotalFailed]. rewrite Z.add_0_l, count_zero. unfold kept. setoid_rewrite list_elem_of_omap.
  split.
  - intros [He Hk] x Hx. split; [by apply He|]. apply Hk. exists x. by rewrite (He x Hx).
  - intros Hx. split; [intros x Hi; by apply Hx|]. intros tr (x & Hi & Ho). destruct (Hx x Hi) as [E Ht]. rewrite E in Ho. by simplify_eq.
Qed.

(** The ways a run can end. *)
Lemma runWithOptions_cases `{GoRegexp} `{GoQuery} `{GoLicense} {W} (h : handler GitLabE W) fuel env serverTime e cfg dryRun
    concurrency schedule w er err w' :
  runWithOptions h fuel env serverTime e (Some cfg) dryRun concurrency schedule w = Some (er, err, w') ->
  exists res w1,
    DiscoverFleet h fuel (cfg_Targets cfg) (if concurrency <=? 0 then 10 else concurrency) (es_scan schedule) w = Some (res, w1) /\
    match res with
    | inl derr => w' = w1 /\ err = Some derr /\
        er = Some (ran_nothing (if dryRun then "plan" else "apply") dryRun false None (Snapshot (NewSummaryMetrics dryRun))
                     [ErrWrap "fleet discovery failed: " derr])
    | inr fleet =>
        let snap := Snapshot (RecordDiscovery (NewSummaryMetrics dryRun) fleet) in
        match (Enforce env (enforcementOptions cfg fleet dryRun env serverTime)).2 with
        | Some lerr => w' = w1 /\ err = Some lerr /\
            er = Some (ran_nothing (if dryRun then "plan" else "apply") dryRun false (Some fleet) snap [lerr])
        | None => err = None /\
            if IsEmpty fleet
            then w' = w1 /\ er = Some (ran_nothing (if dryRun then "plan" else "apply") dryRun true (Some fleet) snap [])
            else exists x, er = Some x /\
              governFleet h e cfg dryRun (if concurrency <=? 0 then 10 else concurrency) fleet
                (RecordDiscovery (NewSummaryMetrics dryRun) fleet) schedule w1 = Some (x, w')
        end
    end.
Proof.
  unfold runWithOptions. cbv zeta. destruct (DiscoverFleet _ _ _ _ _ _) as [[res w1]|]; [|done]. cbn [mbind option_bind].
  intros Hr. exists res, w1. split; [done|]. destruct res as [derr|fleet]; [by simplify_eq|].
  destruct (Enforce _ _).2 as [lerr|]; [by simplify_eq|]. destruct (IsEmpty fleet); [by simplify_eq|].
  destruct (governFleet _ _ _ _ _ _ _ _ _) as [[x w2]|]; simplify_eq/=. split; [done|]. by eexists.
Qed.

(** A dry run of the engine. *)
Lemma runWithOptions_dry_run `{GoRegexp} `{GoQuery} `{GoLicense} {W} (h : handler GitLabE W) fuel env serverTime e cfg concurrency
    schedule w er err w' :
  stable_reads h -> all_dry_run (ge_registry e) ->
  runWithOptions h fuel env serverTime e (Some cfg) true concurrency schedule w = Some (er, err, w') -> w' = w.
Proof.
  intros Hst Hdry Hr.
  apply runWithOptions_cases in Hr as (res & w1 & Hd & Hr). apply DiscoverFleet_world in Hd as ->; [|done].
  destruct res as [derr|fleet]; [by destruct Hr|]. destruct (Enforce _ _).2; [by destruct Hr|]. destruct Hr as [_ Hr].
  destruct (IsEmpty fleet); [by destruct Hr|]. destruct Hr as (x & -> & Hg).
  apply governFleet_phases in Hg as (gres & gerrs & w2 & pres & perrs & Hg & Hp & _).
  apply parallel_reads in Hg as [-> _]; [|done|by apply tasks_reads, group_runs_reads].
  by apply parallel_reads in Hp as [-> _]; [|done|by apply tasks_reads, project_runs_reads].
Qed.

(** ** Properties *)

(** A dry run never changes anything on GitLab: on a server that reads do
    not change, with operations that only read when they plan, whatever the
    policy, the fleet, the answers, the interleaving of the goroutines and the
    moment of cancellation, a plan, and a run of an engine whose configuration
    does not say [dry_run: false], leaves the server exactly as it was. *)
Theorem DryRun_changes_nothing `{GoRegexp} `{GoQuery} `{GoLicense} {W} (h : handler GitLabE W) fuel env serverTime e
    registry cfg schedule w er err w' :
  stable_reads h -> all_dry_run registry -> NewGovernanceEngine registry (Some cfg) = inr e ->
  Engine_Plan h fuel env serverTime e schedule w = Some (er, err, w') \/
  (st_DryRun (cfg_Settings cfg) <> Some false /\ Engine_Run h fuel env serverTime e schedule w = Some (er, err, w')) ->
  w' = w.
Proof.
  intros Hst Hdry [= <-] Hrun.
  assert (exists concurrency, runWithOptions h fuel env serverTime {| ge_config := Some cfg; ge_registry := registry;
    ge_concurrency := if st_Concurrency (cfg_Settings cfg) <=? 0 then 10 else st_Concurrency (cfg_Settings cfg);
    ge_dryRun := default true (st_DryRun (cfg_Settings cfg)) |} (Some cfg) true concurrency schedule w = Some (er, err, w')) as [c Hr].
  { destruct Hrun as [Hr|[Hd Hr]]; [eexists; exact Hr|]. unfold Engine_Run in Hr. cbn [ge_dryRun ge_config] in Hr.
    destruct (st_DryRun (cfg_Settings cfg)) as [[]|]; [eexists; exact Hr|done|eexists; exact Hr]. }
  by eapply runWithOptions_dry_run; [..|exact Hr].
Qed.

(** C2. A plan does not depend on the scheduling of the workers: unless it is
    cancelled, the results of a dry run are those of planning every group and
    then every project on its own, in the order of their paths; the errors are
    those of the targets that fail, all of them up to equal texts; and it is a
    success exactly when no target fails. *)
Theorem Plan_run_exact `{GoRegexp} `{GoQuery} `{GoLicense} {W} (h : handler GitLabE W) fuel env serverTime e cfg concurrency
    schedule w er err w' fleet :
  stable_reads h -> all_dry_run (ge_registry e) ->
  Cancel ∉ pool_moves (es_groups schedule) -> Cancel ∉ pool_moves (es_projects schedule) ->
  runWithOptions h fuel env serverTime e (Some cfg) true concurrency schedule w = Some (Some er, err, w') ->
  er_Fleet er = Some fleet -> IsEmpty fleet = false -> err = None ->
  let planned := alone h w (group_runs e cfg true fleet ++ project_runs e cfg true fleet) in
  er_GroupResults er ++ er_ProjectResults er = kept planned /\ er_TargetResults er ≡ₚ kept planned /\
  reports (er_Errors er) planned /\
  (er_Success er = true <-> forall x, x ∈ planned -> x.2 = None /\ target_failed x.1 = false).
Proof.
  intros Hst Hdry Hcg Hcp Hr Hf Hne -> planned.
  apply runWithOptions_cases in Hr as (res & w1 & Hd & Hr). apply DiscoverFleet_world in Hd as ->; [|done].
  destruct res as [derr|fleet']; [by destruct Hr as (_ & ? & _)|]. cbv zeta in Hr.
  destruct (Enforce _ _).2; [by destruct Hr as (_ & ? & _)|]. destruct Hr as [_ Hr].
  destruct (IsEmpty fleet') eqn:He; [destruct Hr as [_ [= ->]]; simpl in Hf; congruence|].
  destruct Hr as (x & [= <-] & Hg).
  apply governFleet_phases in Hg as (gres & gerrs & w2 & pres & perrs & Hg & Hp & Hgr & Hpr & Herr & Hperm & Hm & Hs & Hf').
  rewrite Hf in Hf'. injection Hf' as <-.
  apply phase_alone in Hg as (-> & Hgk & Hgrep); [|done|by apply group_runs_reads|done].
  apply phase_alone in Hp as (_ & Hpk & Hprep); [|done|by apply project_runs_reads|done].
  assert (planned = alone h w (group_runs e cfg true fleet) ++ alone h w (project_runs e cfg true fleet)) as Hpl
    by apply fmap_app.
  assert (er_GroupResults er ++ er_ProjectResults er = kept planned) as Hkept.
  { rewrite Hgr, Hpr, Hgk, Hpk, Hpl. symmetry. apply omap_app. }
  split; [done|]. split; [by rewrite Hperm, Hkept|].
  assert (reports (er_Errors er) planned) as Hrep by (rewrite Herr, Hpl; by apply reports_app).
  split; [done|]. rewrite Hs, Hm, Hkept, andb_true_iff, Nat.eqb_eq, Z.eqb_eq, length_zero_iff_nil, (reports_nil _ _ Hrep).
  apply success_iff.
Qed.

(** The license gate closes before anything happens: when the enforcer
    refuses the discovered fleet, the run ends with its error, in apply mode
    too, without a result and with the server as it was. *)
Theorem Engine_license_gate `{GoRegexp} `{GoQuery} `{GoLicense} {W} (h : handler GitLabE W) fuel env serverTime e cfg dryRun
    concurrency schedule w er err w' fleet w1 lerr :
  stable_reads h ->
  runWithOptions h fuel env serverTime e (Some cfg) dryRun concurrency schedule w = Some (er, err, w') ->
  DiscoverFleet h fuel (cfg_Targets cfg) (if concurrency <=? 0 then 10 else concurrency) (es_scan schedule) w
    = Some (inr fleet, w1) ->
  (Enforce env (enforcementOptions cfg fleet dryRun env serverTime)).2 = Some lerr ->
  w' = w /\ err = Some lerr /\
  exists x, er = Some x /\ er_Success x = false /\ er_Errors x = [lerr] /\ er_TargetResults x = [] /\ HasErrors x = true.
Proof.
  intros Hst Hr Hd Hl. apply runWithOptions_cases in Hr as (res & w2 & Hd' & Hr). rewrite Hd in Hd'. injection Hd' as <- <-.
  rewrite Hl in Hr. destruct Hr as (-> & -> & ->). apply DiscoverFleet_world in Hd as ->; [|done].
  split; [done|]. split; [done|]. by eexists.
Qed.

(** A target that fails leaves no trace in the results: in every run,
    planned or applied, whatever the interleaving, the target results hold only
    targets without an error, so the failed ones are neither among
    [FailedTargets] by their error nor counted by the metrics; only the list of
    errors tells of them. *)
Theorem Engine_drops_failures `{GoRegexp} `{GoQuery} `{GoLicense} {W} (h : handler GitLabE W) fuel env serverTime e cfg dryRun
    concurrency schedule w er err w' :
  runWithOptions h fuel env serverTime e cfg dryRun concurrency schedule w = Some (Some er, err, w') ->
  (forall tr, tr ∈ er_TargetResults er -> tr_Error tr = None) /\
  (forall tr, tr ∈ FailedTargets er -> exists op, op ∈ tr_Operations tr /\ or_Success op = false).
Proof.
  intros Hr. assert (forall tr, tr ∈ er_TargetResults er -> tr_Error tr = None /\
    (tr_Success tr = false -> exists op, op ∈ tr_Operations tr /\ or_Success op = false)) as Hall.
  2:{ split; [intros tr Htr; by apply Hall|]. intros tr [Hf Htr]%elem_of_List_filter. destruct (Hall tr Htr) as [He Hs].
      unfold target_failed in Hf. rewrite He in Hf. simpl in Hf. rewrite orb_false_r in Hf. apply Hs. by destruct (tr_Success tr). }
  destruct cfg as [cfg|]; [|done]. apply runWithOptions_cases in Hr as (res & w1 & _ & Hr).
  destruct res as [derr|fleet]; [destruct Hr as (_ & _ & [= ->]); by intros tr Htr%elem_of_nil|]. cbv zeta in Hr.
  destruct (Enforce _ _).2; [destruct Hr as (_ & _ & [= ->]); by intros tr Htr%elem_of_nil|]. destruct Hr as [_ Hr].
  destruct (IsEmpty fleet); [destruct Hr as [_ [= ->]]; by intros tr Htr%elem_of_nil|]. destruct Hr as (x & [= <-] & Hg).
  apply governFleet_phases in Hg as (gres & gerrs & w2 & pres & perrs & Hg & Hp & Hgr & Hpr & _ & Hperm & _).
  intros tr. rewrite Hperm, elem_of_app, Hgr, Hpr, !list_elem_of_omap.
  intros [(o & Ho & E)|(o & Ho & E)]; simpl in E; subst o.
  - by apply (parallel_always _ _ _ _ _ _ _ _ _ sound_result tr (group_tasks_sound e cfg dryRun fleet) Hg).
  - by apply (parallel_always _ _ _ _ _ _ _ _ _ sound_result tr (project_tasks_sound e cfg dryRun fleet) Hp).
Qed.

(** ** Concrete runs *)

(** The moves that a run of [k] workers may make, tried in this order. *)
Definition demo_candidates (k : nat) : list TaskPool.move :=
  (seq 0 k ≫= fun w => [TaskPool.Call w; Pool (Enter w); Pool (Take w); Pool (Finish w); Pool (ExitClosed w)])
  ++ [Pool Submit; Pool CloseQueue].

(** A complete execution of the tasks, found by trying. *)
Fixpoint demo_moves {E W R} (fuel k : nat) (h : handler E W) (n : nat) (s : task_pool E W R) : list TaskPool.move :=
  match fuel with
  | O => []
  | S fuel' =>
      match List.find (fun m => is_some (task_step h n errCanceled m s)) (demo_candidates k) with
      | Some m => match task_step h n errCanceled m s with Some s' => m :: demo_moves fuel' k h n s' | None => [] end
      | None => []
      end
  end.

Definition demo_phase {W R} (h : handler GitLabE W) (w : W) (tasks : list (GP (outcome R))) : list TaskPool.move :=
  demo_moves 400 2 h (length tasks) (task_start 2 tasks w).

(** A policy for the platform's projects that also wants target branch rules, a
    feature of the pro tier. *)
Definition demo_engine_cfg : PolicyConfig := {|
  cfg_Version := "1";
  cfg_Settings := Build_SettingsConfig None 2 "" "" "" "" [] [] zero_GitLabSettings (Build_LicenseSettingsConfig "" "" "" "" "");
  cfg_Targets := demo_targets;
  cfg_Policies := Build_PoliciesConfig (Some demo_push_policy) [] None None None None None [] None None [] None (Some demo_rules) [] []
|}.

Definition demo_engine : GovernanceEngine :=
  match NewGovernanceEngine demo_registry (Some demo_engine_cfg) with inr e => e | inl _ => NewEngine demo_registry end.

Definition demo_fleet : TargetFleet :=
  match demo_discovery with Some (inr f, _) => f | _ => ToFleet newFleetAccumulator end.

Definition demo_schedule (w : server) (dryRun : bool) : engine_schedule :=
  let groups := target_task <$> group_runs demo_engine demo_engine_cfg dryRun demo_fleet in
  let es_g := demo_phase demo_fleet_server w groups in
  let w1 := match ParallelRun demo_fleet_server 2 groups errCanceled es_g w with Some (_, w1) => w1 | None => w end in {|
  es_scan := demo_scan_schedule; es_groups := es_g;
  es_projects := demo_phase demo_fleet_server w1 (target_task <$> project_runs demo_engine demo_engine_cfg dryRun demo_fleet) |}.

Definition demo_run (dryRun : bool) :=
  runWithOptions (H := demo_literal) (H0 := demo_fleet_query) (H1 := demo_license) demo_fleet_server demo_fleet_fuel demo_license_env None demo_engine
    (Some demo_engine_cfg) dryRun 2 (demo_schedule empty_server dryRun) empty_server.

#[local] Existing Instance demo_literal.
#[local] Existing Instance demo_fleet_query.
#[local] Existing Instance demo_license.

Lemma DryRun_changes_nothing_witness :
  match demo_run true with Some (_, _, w') => w' = empty_server | None => False end.
Proof.
  destruct (demo_run true) as [[[er err] w']|] eqn:Hr; [|by vm_compute in Hr].
  apply (DryRun_changes_nothing demo_fleet_server demo_fleet_fuel demo_license_env None demo_engine demo_registry
           demo_engine_cfg (demo_schedule empty_server true) empty_server er err w');
    [exact demo_fleet_server_stable|exact demo_registry_dry_run|reflexivity|]. left. exact Hr.
Defined.

(** The plan of the demonstration finds the project's drift. *)
Lemma Plan_run_exact_witness :
  match demo_run true with
  | Some (Some er, _, _) =>
      (pc_Operations <$> er_ProjectChanges er) = [["push_rules"; "target_branch_rules"]] /\
      er_GroupResults er ++ er_ProjectResults er =
        kept (alone demo_fleet_server empty_server
          (group_runs demo_engine demo_engine_cfg true demo_fleet ++ project_runs demo_engine demo_engine_cfg true demo_fleet))
  | _ => False
  end.
Proof.
  destruct (demo_run true) as [[[[er|] err] w']|] eqn:Hr; [|by vm_compute in Hr..].
  assert (err = None) as Herr by (vm_compute in Hr; by injection Hr).
  assert (er_Fleet er = Some demo_fleet) as Hf by (vm_compute in Hr; injection Hr as <- _ _; vm_compute; reflexivity).
  split; [vm_compute in Hr; injection Hr as <- _ _; reflexivity|].
  apply (Plan_run_exact demo_fleet_server demo_fleet_fuel demo_license_env None demo_engine demo_engine_cfg 2
           (demo_schedule empty_server true) empty_server er err w' demo_fleet);
    [exact demo_fleet_server_stable|exact demo_registry_dry_run| | |exact Hr|exact Hf|reflexivity|exact Herr].
  - apply (bool_decide_unpack _). vm_compute. reflexivity.
  - apply (bool_decide_unpack _). vm_compute. reflexivity.
Defined.

(** Enforcing the policy needs a license for its target branch rules. *)
Lemma Engine_license_gate_witness :
  match demo_run false with
  | Some (Some er, Some _, w') => w' = empty_server /\ er_TargetResults er = []
  | _ => False
  end.
Proof.
  unfold demo_run. destruct (runWithOptions _ _ _ _ _ _ _ _ _ _) as [[[er err] w']|] eqn:Hr; [|by vm_compute in Hr].
  destruct (DiscoverFleet demo_fleet_server demo_fleet_fuel (cfg_Targets demo_engine_cfg) (if 2 <=? 0 then 10 else 2)
    (es_scan (demo_schedule empty_server false)) empty_server) as [[[derr|fleet] w1]|] eqn:Hd;
    [by vm_compute in Hd| |by vm_compute in Hd].
  destruct (Enforce demo_license_env (enforcementOptions demo_engine_cfg fleet false demo_license_env None)).2 as [lerr|] eqn:Hl.
  - pose proof (Engine_license_gate demo_fleet_server demo_fleet_fuel demo_license_env None demo_engine demo_engine_cfg false 2
      (demo_schedule empty_server false) empty_server er err w' fleet w1 lerr demo_fleet_server_stable Hr Hd Hl) as Hg.
    clear -Hg. destruct Hg as (-> & -> & x & -> & _ & _ & -> & _). split; reflexivity.
  - exfalso. vm_compute in Hd. injection Hd as <- _. by vm_compute in Hl.
Defined.

(** A server that refuses to show push rules. *)
Definition demo_refusing : handler GitLabE server := fun X e w =>
  match e in GitLabE X return X * server with
  | PushRules_ e' =>
      match e' in PushRulesE X return X * server with
      | GetPushRule k id => (reply_err None 403 (ErrNew "403 Forbidden"), w)
      | e'' => demo_fleet_server _ (PushRules_ e'') w
      end
  | e' => demo_fleet_server _ e' w
  end.

Definition demo_refused_run :=
  let groups := target_task <$> group_runs demo_engine demo_engine_cfg true demo_fleet in
  let projects := target_task <$> project_runs demo_engine demo_engine_cfg true demo_fleet in
  runWithOptions demo_refusing demo_fleet_fuel demo_license_env None demo_engine (Some demo_engine_cfg) true 2
    {| es_scan := demo_scan_schedule; es_groups := demo_phase demo_refusing empty_server groups;
       es_projects := demo_phase demo_refusing empty_server projects |} empty_server.

(** Every target fails, and the metrics count no failure. *)
Lemma Engine_drops_failures_witness :
  match demo_refused_run with
  | Some (Some er, _, _) =>
      length (er_Errors er) = 4%nat /\ er_Success er = false /\ sm_TotalFailed (ss_Metrics (er_Metrics er)) = 0 /\
      forall tr, tr ∈ er_TargetResults er -> tr_Error tr = None
  | _ => False
  end.
Proof.
  unfold demo_refused_run. cbv zeta.
  destruct (runWithOptions _ _ _ _ _ _ _ _ _ _) as [[[[er|] err] w']|] eqn:Hr; [|by vm_compute in Hr..].
  split; [vm_compute in Hr; injection Hr as <- _ _; reflexivity|].
  split; [vm_compute in Hr; injection Hr as <- _ _; reflexivity|].
  split; [vm_compute in Hr; injection Hr as <- _ _; reflexivity|].
  exact (proj1 (Engine_drops_failures demo_refusing demo_fleet_fuel demo_license_env None demo_engine (Some demo_engine_cfg)
    true 2 _ empty_server er err w' Hr)).
Defined.
