(* ===== verification/Simulation.v ===== *)
(** * Servers that a run cannot tell apart

    A view maps the states of one server to those of another so that every call
    has the same answer on both.  A program, interleaved programs, a scan, a
    pool of tasks and a whole run of the engine then have the same results on
    both, and leave corresponding states.  [DefaultRegistry] uses this for the
    resolvers' caches, which are a part of the state that no result shows. *)

From S2P Require Import Prelude GoLib Config GitLabAPI Server Governance Registry ProjectFilter GroupTree Pagination Discovery WorkerPool TaskPool Metrics License Engine.
Local Open Scope string_scope.
Local Open Scope list_scope.
Local Open Scope Z_scope.

(** [h2] seen through [f] answers as [h1] does, as long as [I] holds. *)
Definition view {E W1 W2} (h1 : handler E W1) (h2 : handler E W2) (f : W1 -> W2) (I : W1 -> Prop) : Prop :=
  forall X (e : E X) w, I w -> h2 X e (f w) = ((h1 X e w).1, f (h1 X e w).2) /\ I (h1 X e w).2.

(** The same answer, in corresponding states. *)
Definition same_answer {A W1 W2} (f : W1 -> W2) (I : W1 -> Prop) (r1 : option (A * W1)) (r2 : option (A * W2)) : Prop :=
  match r1 with
  | Some (a, w) => r2 = Some (a, f w) /\ I w
  | None => r2 = None
  end.

Section View.
Context {E : Type -> Type} {W1 W2 : Type} (h1 : handler E W1) (h2 : handler E W2) (f : W1 -> W2) (I : W1 -> Prop)
  (v : view h1 h2 f I).

Lemma view_run {A} (p : prog E A) w :
  I w -> run h2 p (f w) = ((run h1 p w).1, f (run h1 p w).2) /\ I (run h1 p w).2.
Proof using v.
  revert w. induction p as [a|X e k IH]; intros w Hw; cbn [run]; [by split|].
  destruct (v X e w Hw) as [-> Hi]. destruct (h1 X e w) as [x w1]. by apply IH.
Qed.

Lemma view_advance {A} (p : prog E A) w : I w -> same_answer f I (advance h1 p w) (advance h2 p (f w)).
Proof using v.
  destruct p as [a|X e k]; intros Hw; [done|]. cbn [advance]. destruct (v X e w Hw) as [-> Hi].
  by destruct (h1 X e w) as [x w1].
Qed.

(** ** Task pools *)

Context {R : Type} (n : nat) (ctxErr : error).

Definition view_pool (s : task_pool E W1 R) : task_pool E W2 R :=
  {| tk_pool := tk_pool s; tk_tasks := tk_tasks s; tk_world := f (tk_world s) |}.

Lemma view_task_step m (s : task_pool E W1 R) :
  I (tk_world s) ->
  match task_step h1 n ctxErr m s with
  | Some s' => task_step h2 n ctxErr m (view_pool s) = Some (view_pool s') /\ I (tk_world s')
  | None => task_step h2 n ctxErr m (view_pool s) = None
  end.
Proof using v.
  intros Hw. assert (forall l, match pool_move n ctxErr l s with
    | Some s' => pool_move n ctxErr l (view_pool s) = Some (view_pool s') /\ I (tk_world s')
    | None => pool_move n ctxErr l (view_pool s) = None end) as Hpool.
  { intros l. unfold pool_move. cbn [view_pool tk_pool tk_tasks]. by destruct (step _ _ _ _ _). }
  assert (forall w, executing (view_pool s) w = executing s w) as Hx by done.
  destruct m as [l|w]; cbn [task_step].
  - destruct l as [| | | |?|?|?|?|w]; try apply Hpool. rewrite Hx. destruct (executing s w) as [[i p]|]; [|done]. cbn [mbind option_bind].
    destruct (has_returned p); [apply Hpool|done].
  - rewrite Hx. destruct (executing s w) as [[i p]|]; cbn; [|done].
    pose proof (view_advance p (tk_world s) Hw) as Ha. destruct (advance h1 p (tk_world s)) as [[p' w']|]; cbn [same_answer] in Ha; cbn [view_pool tk_world].
    + destruct Ha as [-> Hi]. by split.
    + by rewrite Ha.
Qed.

Lemma view_task_steps ms (s : task_pool E W1 R) :
  I (tk_world s) ->
  match task_steps h1 n ctxErr ms s with
  | Some s' => task_steps h2 n ctxErr ms (view_pool s) = Some (view_pool s') /\ I (tk_world s')
  | None => task_steps h2 n ctxErr ms (view_pool s) = None
  end.
Proof using v.
  revert s. induction ms as [|m ms IH]; intros s Hw; cbn [task_steps]; [done|].
  pose proof (view_task_step m s Hw) as Hm. destruct (task_step h1 n ctxErr m s) as [s'|].
  - destruct Hm as [-> Hw']. by apply IH.
  - by rewrite Hm.
Qed.

End View.

Lemma view_ParallelRun {E W1 W2 R} (h1 : handler E W1) (h2 : handler E W2) (f : W1 -> W2) (I : W1 -> Prop)
    (v : view h1 h2 f I) concurrency (tasks : list (prog E (outcome R))) ctxErr ms w :
  I w -> same_answer f I (ParallelRun h1 concurrency tasks ctxErr ms w) (ParallelRun h2 concurrency tasks ctxErr ms (f w)).
Proof.
  intros Hw. unfold ParallelRun. destruct (length tasks =? 0)%nat; [by split|].
  pose proof (view_task_steps h1 h2 f I v (length tasks) ctxErr ms (task_start concurrency tasks w) Hw) as Hs.
  change (task_start concurrency tasks (f w)) with (view_pool f (task_start concurrency tasks w)).
  destruct (task_steps h1 _ _ _ _) as [s|].
  - destruct Hs as [-> Hi]. cbn [view_pool tk_pool]. by destruct (closed_down (tk_pool s)).
  - by rewrite Hs.
Qed.

(** ** Discovery and the engine *)

Section Engine.
Context `{GoRegexp} `{GoQuery} `{GoLicense} {W1 W2 : Type} (h1 : handler GitLabE W1) (h2 : handler GitLabE W2) (f : W1 -> W2)
  (I : W1 -> Prop) (v : view h1 h2 f I).

Definition view_scan (s : scan W1) : scan W2 :=
  {| sc_todo := sc_todo s; sc_scanners := sc_scanners s; sc_acc := sc_acc s; sc_errs := sc_errs s; sc_canceled := sc_canceled s;
     sc_world := f (sc_world s) |}.

Lemma view_move_scanner filter cap g sc acc errs w :
  I w -> same_answer f I (move_scanner h1 filter cap g sc acc errs w) (move_scanner h2 filter cap g sc acc errs (f w)).
Proof using v.
  intros Hw. destruct sc as [[items|X e k]|[|[p|err] rest]|]; cbn [move_scanner]; try (by split).
  pose proof (view_advance h1 h2 f I v (Vis e k) w Hw) as Ha. destruct (advance h1 _ w) as [[p' w']|]; cbn [same_answer] in Ha.
  - destruct Ha as [-> Hi]. by split.
  - by rewrite Ha.
Qed.

Lemma view_scan_step fuel dc filter cap l (s : scan W1) :
  I (sc_world s) ->
  match scan_step h1 fuel dc filter cap l s with
  | Some s' => scan_step h2 fuel dc filter cap l (view_scan s) = Some (view_scan s') /\ I (sc_world s')
  | None => scan_step h2 fuel dc filter cap l (view_scan s) = None
  end.
Proof using v.
  intros Hw. destruct l as [| |i]; cbn [scan_step view_scan sc_todo sc_canceled sc_scanners sc_acc sc_errs sc_world].
  - destruct (sc_todo s), (sc_canceled s); try done. by destruct (_ <? _)%nat.
  - destruct (sc_todo s), (sc_canceled s); try done. destruct (v _ (Context_ CtxErr) _ Hw) as [-> Hi].
    destruct (h1 _ _ _) as [[err|] w']; by cbn in *.
  - destruct (sc_scanners s !! i) as [[g sc]|]; [|done].
    pose proof (view_move_scanner filter cap g sc (sc_acc s) (sc_errs s) (sc_world s) Hw) as Hm.
    destruct (move_scanner h1 _ _ _ _ _ _ _) as [[[[sc' acc'] errs'] w']|]; cbn [same_answer] in Hm.
    + destruct Hm as [-> Hi]. by split.
    + by rewrite Hm.
Qed.

Lemma view_scan_steps fuel dc filter cap ls (s : scan W1) :
  I (sc_world s) ->
  match scan_steps h1 fuel dc filter cap ls s with
  | Some s' => scan_steps h2 fuel dc filter cap ls (view_scan s) = Some (view_scan s') /\ I (sc_world s')
  | None => scan_steps h2 fuel dc filter cap ls (view_scan s) = None
  end.
Proof using v.
  revert s. induction ls as [|l ls IH]; intros s Hw; cbn [scan_steps]; [done|].
  pose proof (view_scan_step fuel dc filter cap l s Hw) as Hm. destruct (scan_step h1 fuel dc filter cap l s) as [s'|].
  - destruct Hm as [-> Hw']. by apply IH.
  - by rewrite Hm.
Qed.

Lemma view_scanGroupProjects fuel dc groups filter acc schedule w :
  I w -> same_answer f I (scanGroupProjects h1 fuel dc groups filter acc schedule w)
           (scanGroupProjects h2 fuel dc groups filter acc schedule (f w)).
Proof using v.
  intros Hw. unfold scanGroupProjects.
  pose proof (view_scan_steps fuel dc filter (length groups) schedule (scan_start groups acc w) Hw) as Hs.
  change (scan_start groups acc (f w)) with (view_scan (scan_start groups acc w)).
  destruct (scan_steps h1 _ _ _ _ _ _) as [s|]; [destruct Hs as [-> Hi]|by rewrite Hs].
  cbn [view_scan sc_canceled sc_acc sc_world sc_errs]. destruct (sc_canceled s); [by split|].
  change (scan_over (view_scan s)) with (scan_over s). by destruct (scan_over s).
Qed.

Lemma view_DiscoverFleet fuel targets concurrency schedule w :
  I w -> same_answer f I (DiscoverFleet h1 fuel targets concurrency schedule w)
           (DiscoverFleet h2 fuel targets concurrency schedule (f w)).
Proof using v.
  intros Hw. unfold DiscoverFleet, Execute. cbv zeta. destruct (NewProjectFilter _) as [err|filter]; [by split|].
  destruct (ts_GroupSelector _) as [selector|].
  - pose proof (view_run h1 h2 f I v (Traverse (df_tree fuel) (df_pages fuel) default_maxDepth (Some selector)) w Hw) as [-> Hi].
    destruct (run h1 _ w) as [[err|groups] w1]; cbn [fst snd] in *; [by split|]. destruct (0 <? length groups)%nat; [|by split].
    pose proof (view_scanGroupProjects (df_stream fuel) {| dc_targets := targets; dc_concurrency := if 0 <? concurrency then concurrency else 10;
                    dc_streamOpts := DefaultStreamOptions |} groups (Some filter)
      (foldl AddDiscoveredGroup newFleetAccumulator (Some <$> groups)) schedule w1 Hi) as Hs.
    destruct (scanGroupProjects h1 _ _ _ _ _ _ _) as [[[err acc] w2]|]; cbn [same_answer] in Hs; [destruct Hs as [-> Hs]|rewrite Hs]; by cbn.
  - pose proof (view_run h1 h2 f I v (scanInstanceProjects (df_stream fuel) {| dc_targets := targets; dc_concurrency := if 0 <? concurrency then concurrency else 10;
                    dc_streamOpts := DefaultStreamOptions |} (Some filter) newFleetAccumulator) w Hw) as [-> Hi].
    destruct (run h1 _ w) as [[err acc] w1]; by cbn in *.
Qed.

Lemma view_governFleet e cfg dryRun concurrency fleet metrics schedule w :
  I w -> same_answer f I (governFleet h1 e cfg dryRun concurrency fleet metrics schedule w)
           (governFleet h2 e cfg dryRun concurrency fleet metrics schedule (f w)).
Proof using v.
  intros Hw. unfold governFleet. cbv zeta.
  set (tasks_g := _ <$> GroupList fleet). set (tasks_p := _ <$> ProjectList fleet).
  pose proof (view_ParallelRun h1 h2 f I v concurrency tasks_g errCanceled (es_groups schedule) w Hw) as Hg.
  destruct (ParallelRun h1 _ tasks_g _ _ _) as [[[gres gerrs] w1]|]; cbn [same_answer] in Hg; [destruct Hg as [-> Hg]|by rewrite Hg]. cbn.
  pose proof (view_ParallelRun h1 h2 f I v concurrency tasks_p errCanceled (es_projects schedule) w1 Hg) as Hp.
  destruct (ParallelRun h1 _ tasks_p _ _ _) as [[[pres perrs] w2]|]; cbn [same_answer] in Hp; [destruct Hp as [-> Hp]|by rewrite Hp]. by cbn.
Qed.

(** A run of the engine. *)
Lemma view_runWithOptions fuel env serverTime e cfg dryRun concurrency schedule w :
  I w -> same_answer f I (runWithOptions h1 fuel env serverTime e cfg dryRun concurrency schedule w)
           (runWithOptions h2 fuel env serverTime e cfg dryRun concurrency schedule (f w)).
Proof using v.
  intros Hw. unfold runWithOptions. cbv zeta. destruct cfg as [cfg|]; [|by split].
  pose proof (view_DiscoverFleet fuel (cfg_Targets cfg) (if concurrency <=? 0 then 10 else concurrency) (es_scan schedule) w Hw) as Hd.
  destruct (DiscoverFleet h1 _ _ _ _ _) as [[[err|fleet] w1]|]; cbn [same_answer] in Hd; [| |by rewrite Hd]; destruct Hd as [-> Hd]; cbn; [by split|].
  destruct (Enforce _ _).2; [by split|]. destruct (IsEmpty fleet); [by split|].
  pose proof (view_governFleet e cfg dryRun (if concurrency <=? 0 then 10 else concurrency) fleet
    (RecordDiscovery (NewSummaryMetrics dryRun) fleet) schedule w1 Hd) as Hg.
  destruct (governFleet h1 _ _ _ _ _ _ _ _) as [[er w2]|]; cbn [same_answer] in Hg; [destruct Hg as [-> Hg]|by rewrite Hg]. by cbn.
Qed.

End Engine.
