(* ===== verification/DefaultRegistry.v ===== *)
(** * The registry of the program: internal/governance/registry.go

    [NewDefaultRegistry] registers the fifteen reconcilers.  The theorems of
    [Registry] and [Engine], proved against the interface classes, hold of it:
    each reconciler's file has shown its instances. *)

From S2P Require Import Prelude GoLib Config EnvSubst Validator GitLabAPI Server Resolver Governance PathMatch Protections ProtectedTags ProtectedEnvironments Keyed ApprovalRules Webhooks Runners Members BranchMerges RepositoryFiles PushRules TargetBranchRules ProtectedBranches PipelineRetention ProjectSettings Compliance Variables Registry ProjectFilter GroupTree Pagination Discovery WorkerPool TaskPool Metrics License Engine Simulation.
Local Open Scope string_scope.
Local Open Scope list_scope.
Local Open Scope Z_scope.

Section Default.
Context `{GoCalendar} `{GoURLParse} (plan_order apply_order : string -> gset string -> list string)
  (LookupEnv : string -> option string) (LoadContent : string -> error + string) (fuel : nat).

(** In the order of the source.  [fuel] bounds the pages of a listing; the map
    orders and the process's environment and files are those of
    [ProtectedEnvironments] and [RepositoryFiles]. *)
Definition NewDefaultRegistry : OperationsRegistry :=
  foldl Register ∅
    [NewPushRulesReconciler; NewRepositoryFilesReconciler LookupEnv LoadContent; NewProtectedBranchesReconciler fuel;
     NewBranchMergesReconciler; NewProtectedTagsReconciler fuel;
     NewProtectedEnvironmentsReconciler plan_order apply_order fuel; NewApprovalRulesReconciler;
     NewProjectSettingsReconciler; NewPipelineRetentionReconciler; NewVariablesReconciler false; NewRunnersReconciler;
     NewComplianceReconciler; NewWebhooksReconciler false; NewMembersReconciler; NewTargetBranchRulesReconciler].

Lemma NewDefaultRegistry_named : well_named NewDefaultRegistry.
Proof. unfold NewDefaultRegistry. cbn [foldl]. repeat apply Register_well_named. by intros n op. Qed.

Lemma NewDefaultRegistry_dry_run : all_dry_run NewDefaultRegistry.
Proof. unfold NewDefaultRegistry, all_dry_run. cbn [foldl]. repeat (apply Register_all; [apply _|]). by intros n op. Qed.

(** Without rules the branch merges are quiet. *)
Lemma BranchMerges_quiet_without cfg : merges_policy cfg = [] -> quiet_under cfg NewBranchMergesReconciler.
Proof.
  intros Hm p. cbn [op_Plan op_Apply NewBranchMergesReconciler]. unfold BranchMerges_Plan, BranchMerges_Apply. rewrite Hm.
  split; [by apply always_ret|]. intros W h w r _ _ _. constructor.
Qed.

Lemma NewDefaultRegistry_quiet `{!MapOrder plan_order} `{!MapOrder apply_order} cfg :
  merges_policy cfg = [] -> all_quiet cfg NewDefaultRegistry.
Proof.
  intros Hm. unfold NewDefaultRegistry, all_quiet. cbn [foldl].
  repeat (apply Register_all; [first [by apply BranchMerges_quiet_without|apply NoopQuiet_under, _]|]). by intros n op.
Qed.

(** ** Properties *)

(** The program runs its fifteen operations in the documented order: sorted
    by their [Order], the registry's operations are these, once each. *)
Theorem NewDefaultRegistry_order :
  (fun op => (op_Order op, op_Name op)) <$> OrderedOperations NewDefaultRegistry =
  [(10, "push_rules"); (15, "repository_files"); (20, "protected_branches"); (22, "protected_tags"); (24, "branch_merges");
   (25, "protected_environments"); (30, "approval_rules"); (40, "project_settings"); (45, "target_branch_rules");
   (50, "pipeline_retention"); (60, "variables"); (70, "runners"); (80, "compliance"); (90, "webhooks"); (100, "members")].
Proof.
  set (l := [NewPushRulesReconciler; NewRepositoryFilesReconciler LookupEnv LoadContent; NewProtectedBranchesReconciler fuel;
    NewProtectedTagsReconciler fuel; NewBranchMergesReconciler; NewProtectedEnvironmentsReconciler plan_order apply_order fuel;
    NewApprovalRulesReconciler; NewProjectSettingsReconciler; NewTargetBranchRulesReconciler; NewPipelineRetentionReconciler;
    NewVariablesReconciler false; NewRunnersReconciler; NewComplianceReconciler; NewWebhooksReconciler false; NewMembersReconciler]).
  rewrite <- (ordered_unique NewDefaultRegistry l); [reflexivity|apply NewDefaultRegistry_named| |repeat constructor].
  unfold NewDefaultRegistry. cbn [foldl]. rewrite !Register_perm by reflexivity. subst l. solve_Permutation.
Qed.

End Default.

(** ** The governor: the engine, the default registry and its resolvers *)

(** The caches are a part of the state that no call shows. *)
Lemma resolvers_view {W} (h : handler GitLabE W) users groups :
  directory h users groups ->
  view (with_resolvers h) (without_caches h) fst (fun s => caches_ok users groups s.2).
Proof.
  intros dir X e [w rs] Hrs. destruct (with_resolvers_step h users groups dir e w rs Hrs) as (rs' & -> & Hok).
  cbn [fst snd]. split; [by destruct (without_caches h X e w)|done].
Qed.

Lemma caches_ok_empty users groups : caches_ok users groups ∅.
Proof. by intros o r. Qed.

Section Governor.
Context `{GoRegexp} `{GoQuery} `{GoLicense} `{GoCalendar} `{GoURLParse}.

(** C1. The governor is safe to try: on a GitLab that reads do not change and
    whose users and groups stay as they are, a plan with the fifteen operations
    of the program, or a run that the policy does not explicitly take out of
    dry-run mode, leaves GitLab exactly as it was, whatever the policy, the
    interleaving of the workers, the order of the maps and the names its
    resolvers have cached. *)
Theorem Governor_dry_run_changes_nothing {W} (h : handler GitLabE W) users groups plan_order apply_order LookupEnv LoadContent
    pages fuel env serverTime e cfg schedule w rs er err w' rs' :
  stable_reads h -> directory h users groups -> caches_ok users groups rs ->
  NewGovernanceEngine (NewDefaultRegistry plan_order apply_order LookupEnv LoadContent pages) (Some cfg) = inr e ->
  Engine_Plan (with_resolvers h) fuel env serverTime e schedule (w, rs) = Some (er, err, (w', rs')) \/
  (st_DryRun (cfg_Settings cfg) <> Some false /\
   Engine_Run (with_resolvers h) fuel env serverTime e schedule (w, rs) = Some (er, err, (w', rs'))) ->
  w' = w /\ caches_ok users groups rs'.
Proof.
  intros Hst Hdir Hrs He Hrun. pose proof (resolvers_view h users groups Hdir) as v.
  assert (exists c, runWithOptions (with_resolvers h) fuel env serverTime e (Some cfg) true c schedule (w, rs) =
    Some (er, err, (w', rs'))) as [c Hr].
  { injection He as <-. destruct Hrun as [Hr|[Hd Hr]]; [eexists; exact Hr|]. unfold Engine_Run in Hr. cbn [ge_dryRun ge_config] in Hr.
    destruct (st_DryRun (cfg_Settings cfg)) as [[]|]; [eexists; exact Hr|done|eexists; exact Hr]. }
  pose proof (view_runWithOptions _ _ _ _ v fuel env serverTime e (Some cfg) true c schedule (w, rs) Hrs) as Hv.
  rewrite Hr in Hv. destruct Hv as [Hv Hok]. split; [|done]. cbn [fst] in Hv.
  eapply (runWithOptions_dry_run (without_caches h)); [by apply without_caches_stable| |exact Hv].
  injection He as <-. apply NewDefaultRegistry_dry_run.
Qed.

(** C34. Remembering names changes nothing, for the whole program: on a GitLab
    whose users and groups stay as they are, every run of the engine, with any
    operations, dry or not, in any interleaving, reports what it would report
    if every name were looked up afresh, and leaves the same server. *)
Theorem Governor_resolvers_transparent {W} (h : handler GitLabE W) users groups fuel env serverTime e cfg dryRun
    concurrency schedule w rs er err w' rs' :
  directory h users groups -> caches_ok users groups rs ->
  runWithOptions (with_resolvers h) fuel env serverTime e cfg dryRun concurrency schedule (w, rs) = Some (er, err, (w', rs')) ->
  runWithOptions (without_caches h) fuel env serverTime e cfg dryRun concurrency schedule w = Some (er, err, w').
Proof.
  intros Hdir Hrs Hr. pose proof (view_runWithOptions _ _ _ _ (resolvers_view h users groups Hdir) fuel env serverTime e cfg
    dryRun concurrency schedule (w, rs) Hrs) as Hv.
  rewrite Hr in Hv. by destruct Hv as [Hv _].
Qed.

(** C3. Planning with the program's operations is a faithful forecast for
    policies without branch merges: if planning a project succeeds and no
    operation has changes, enforcing the policy on it makes no mutating call
    and leaves the server as it was. *)
Theorem Governor_apply_quiet_after_clean_plan {W} (h : handler GitLabE W) plan_order (Hplan : MapOrder plan_order)
    apply_order (Happly : MapOrder apply_order) LookupEnv LoadContent pages project cfg w results :
  let r := NewDefaultRegistry plan_order apply_order LookupEnv LoadContent pages in
  stable_reads h -> merges_policy cfg = [] ->
  (run h (PlanProject r project cfg) w).1 = (results, None) ->
  Forall (fun x => pl_HasChanges x = false) results ->
  Forall (fun c => is_read (projT2 c) = true) (calls h (ApplyProject r project cfg) w) /\
  (run h (ApplyProject r project cfg) w).2 = w.
Proof.
  intros r Hs Hm Hp Hc. by apply (apply_quiet_registry h r project cfg w results Hs (NewDefaultRegistry_dry_run _ _ _ _ _)
    (NewDefaultRegistry_quiet _ _ _ _ _ cfg Hm)).
Qed.

End Governor.

(** ** A concrete run of the whole program *)

#[local] Existing Instance demo_literal.
#[local] Existing Instance demo_fleet_query.
#[local] Existing Instance demo_license.
#[local] Existing Instance demo_calendar.

(** The demonstration's fleet, with a user. *)
Definition demo_staffed : handler GitLabE server := fun X e w =>
  match e in GitLabE X return X * server with
  | Users_ e => match e in UsersE X return X * server with ListUsers u => (demo_users u, w) end
  | e => demo_fleet_server _ e w
  end.

Lemma demo_staffed_stable : stable_reads demo_staffed.
Proof. intros X e w. destruct_call e; simpl; try done. Qed.

Lemma demo_staffed_directory :
  directory demo_staffed demo_users (fun p => (demo_staffed _ (Groups (GetGroup (inr p))) empty_server).1).
Proof. split; intros; reflexivity. Qed.

Definition demo_default_registry `{GoURLParse} : OperationsRegistry :=
  NewDefaultRegistry (fun _ s => elements s) (fun _ s => elements s) demo_env demo_content 1.

(** The policy of the engine's demonstration, and tag protections with a user
    to look up. *)
Definition demo_governor_cfg : PolicyConfig := {|
  cfg_Version := "1";
  cfg_Settings := cfg_Settings demo_engine_cfg;
  cfg_Targets := cfg_Targets demo_engine_cfg;
  cfg_Policies := Build_PoliciesConfig (Some demo_push_policy) [] (Some {| pts_Prune := Some true;
                      pts_Rules := [{| pt_Name := "v*"; pt_AllowedToCreate := [demo_tag_access 0 "alice" ""] |}] |})
                    None None None None [] None None [] None (Some demo_rules) [] []
|}.

Definition demo_governor `{GoURLParse} : GovernanceEngine :=
  match NewGovernanceEngine demo_default_registry (Some demo_governor_cfg) with inr e => e | inl _ => NewEngine demo_default_registry end.

Definition demo_governor_server : handler GitLabE (server * resolvers) := with_resolvers demo_staffed.

Definition demo_governor_schedule `{GoURLParse} (w : server * resolvers) : engine_schedule :=
  let groups := target_task <$> group_runs demo_governor demo_governor_cfg true demo_fleet in
  let es_g := demo_phase demo_governor_server w groups in
  let w1 := match ParallelRun demo_governor_server 2 groups errCanceled es_g w with Some (_, w1) => w1 | None => w end in {|
  es_scan := demo_scan_schedule; es_groups := es_g;
  es_projects := demo_phase demo_governor_server w1 (target_task <$> project_runs demo_governor demo_governor_cfg true demo_fleet) |}.

Definition demo_governor_run `{GoURLParse} :=
  Engine_Plan demo_governor_server demo_fleet_fuel demo_license_env None demo_governor (demo_governor_schedule (empty_server, ∅))
    (empty_server, ∅).

#[local] Existing Instance demo_url_parse.

Lemma demo_governor_new : NewGovernanceEngine demo_default_registry (Some demo_governor_cfg) = inr demo_governor.
Proof. reflexivity. Qed.

(** The plan of the demonstration reports the project's drift and leaves the
    server as it was. *)
Lemma Governor_dry_run_changes_nothing_witness :
  match demo_governor_run with
  | Some (Some er, None, (w', rs')) =>
      w' = empty_server /\ (pc_Operations <$> er_ProjectChanges er) = [["push_rules"; "protected_tags"; "target_branch_rules"]] /\
      er_Errors er = []
  | _ => False
  end.
Proof.
  destruct demo_governor_run as [[[[er|] [err|]] [w' rs']]|] eqn:Hr; [by vm_compute in Hr| |by vm_compute in Hr..].
  split; [unfold demo_governor_run, demo_governor_server in Hr|].
  - refine (proj1 (Governor_dry_run_changes_nothing demo_staffed demo_users _ (fun _ s => elements s) (fun _ s => elements s) demo_env
      demo_content 1 demo_fleet_fuel demo_license_env None demo_governor
      demo_governor_cfg (demo_governor_schedule (empty_server, ∅)) empty_server ∅ (Some er) None w' rs'
      demo_staffed_stable demo_staffed_directory (caches_ok_empty _ _) demo_governor_new (or_introl Hr))).
  - vm_compute in Hr. injection Hr as <- _ _. split; reflexivity.
Defined.

Lemma Governor_resolvers_transparent_witness :
  match demo_governor_run with
  | Some (er, err, (w', rs')) =>
      runWithOptions (without_caches demo_staffed) demo_fleet_fuel demo_license_env None demo_governor (ge_config demo_governor) true
        (ge_concurrency demo_governor) (demo_governor_schedule (empty_server, ∅)) empty_server = Some (er, err, w') /\
      (cr_userCache <$> rs' !! "protected_tags" = Some (<["alice" := 11]> ∅))
  | None => False
  end.
Proof.
  destruct demo_governor_run as [[[er err] [w' rs']]|] eqn:Hr; [|by vm_compute in Hr].
  split; [unfold demo_governor_run, demo_governor_server, Engine_Plan in Hr|].
  - refine (Governor_resolvers_transparent demo_staffed demo_users _ demo_fleet_fuel demo_license_env None demo_governor
      (ge_config demo_governor) true (ge_concurrency demo_governor) (demo_governor_schedule (empty_server, ∅)) empty_server ∅ er err w' rs'
      demo_staffed_directory (caches_ok_empty _ _) Hr).
  - vm_compute in Hr. injection Hr as _ _ _ <-. vm_compute. reflexivity.
Defined.

#[local] Existing Instance elements_order.

(** A policy of seven sections. *)
Definition demo_full_cfg : option PolicyConfig := with_policies
  (Build_PoliciesConfig (Some demo_push_policy)
     [{| pb_Name := "main"; pb_AllowedToPush := [role 40]; pb_AllowedToMerge := [role 30; role 40]; pb_AllowedToUnprotect := [];
         pb_AllowForcePush := Some false; pb_CodeOwnerApprovalRequired := Some true |}]
     None None None (Some demo_settings) (Some {| prt_RetentionDays := 30 |}) [demo_variable "s3cr3t"] None (Some demo_compliance) [] None
     (Some demo_rules) [] []).

Definition demo_unruly : server := with_projects empty_server (set1 (sv_project empty_server) 42 (Some demo_project)).

(** The server after a first enforcement. *)
Definition demo_ruled : server := (run demo_staffed (ApplyProject demo_default_registry demo_project demo_full_cfg) demo_unruly).2.

(** A plan of seven sections against it shows no change, and so enforcing them
    again makes no mutating call; against the server before, every one of the
    sections had something to change. *)
Lemma Governor_apply_quiet_after_clean_plan_witness :
  let plan w := (run demo_staffed (PlanProject demo_default_registry demo_project demo_full_cfg) w).1.1 in
  let apply := ApplyProject demo_default_registry demo_project demo_full_cfg in
  (pl_OperationName <$> List.filter pl_HasChanges (plan demo_unruly)) =
    ["push_rules"; "protected_branches"; "project_settings"; "target_branch_rules"; "pipeline_retention"; "variables"; "compliance"] /\
  length (plan demo_ruled) = 15%nat /\
  Forall (fun c => is_read (projT2 c) = true) (calls demo_staffed apply demo_ruled) /\
  (run demo_staffed apply demo_ruled).2 = demo_ruled.
Proof.
  split; [by vm_compute|]. split; [by vm_compute|].
  eapply (Governor_apply_quiet_after_clean_plan demo_staffed _ _ _ _ _ _ 1 demo_project demo_full_cfg demo_ruled);
    [exact demo_staffed_stable|by vm_compute|vm_compute; reflexivity|].
  vm_compute. repeat constructor.
Defined.
