(* ===== verification/GraphQL.v ===== *)
(** * The services that speak GraphQL: internal/gitlab/client.go

    Two services of the client post GraphQL documents themselves instead of
    calling the SDK: the target branch rules and the compliance frameworks.  A
    post is a call ([HttpE]); the JSON decoder is the class [GoGraphQL], and a
    body that [json.Marshal] makes is the value it is made of.
    The first service reports the errors that a reply lists
    ([TargetBranchRules_check_errors]); the second does not look at them
    ([Compliance_ignores_refusals]).  That the endpoint keeps the promise the
    reconciler relies on ([rule_server] of [TargetBranchRules]) is a hypothesis
    there: the pages of a GraphQL listing are not modelled. *)

From S2P Require Import Prelude GoLib Config GitLabAPI Server Governance TargetBranchRules Compliance Auth.
Local Open Scope string_scope.
Local Open Scope list_scope.
Local Open Scope Z_scope.

#[warnings="-register-all"] Inductive json_value : Type :=
| JString (s : string)
| JObject (fields : list (string * json_value)).

Inductive http_body : Type := Marshalled (v : json_value) | Text (s : string).

(** A POST with its authentication header and a JSON content type, and what can
    be read of the reply. *)
Record http_post : Type := { po_URL : string; po_Auth : string * string; po_Body : http_body }.
Record http_reply : Type := { re_StatusCode : Z; re_Body : string }.

Variant HttpE : Type -> Type :=
| Post (p : http_post) : HttpE (error + http_reply).

Abbreviation HP := (prog HttpE) (only parsing).

(** [http.NewRequestWithContext] refuses an URL that it cannot parse.  The
    decoders give the messages of the top-level errors, the errors of the
    mutation, and the data. *)
Class GoGraphQL : Type := {
  http_NewRequest : string -> option error;
  decode_rules : string -> error + (list string * option (list TargetBranchRule));
  decode_create : string -> error + (list string * list string * option TargetBranchRule);
  decode_destroy : string -> error + (list string * list string);
  decode_frameworks : string -> error + list ComplianceFramework
}.

Record graphql_service : Type := { gq_baseURL : string; gq_token : string; gq_tokenType : string }.

(** ** Target branch rules *)

Definition graphqlURL (s : graphql_service) : string :=
  TrimSuffix (TrimSuffix (gq_baseURL s) "/") "/api/v4" +:+ "/api/graphql".

Definition getTargetBranchRules : string := "query getTargetBranchRules($fullPath: ID!) {
  project(fullPath: $fullPath) {
    id
    targetBranchRules {
      nodes {
        id
        name
        targetBranch
        createdAt
      }
    }
  }
}".

Definition createTargetBranchRule : string := "mutation createTargetBranchRule($input: ProjectTargetBranchRuleCreateInput!) {
  projectTargetBranchRuleCreate(input: $input) {
    errors
    targetBranchRule {
      id
      name
      targetBranch
    }
  }
}".

Definition destroyTargetBranchRule : string := "mutation destroyTargetBranchRule($input: ProjectTargetBranchRuleDestroyInput!) {
  projectTargetBranchRuleDestroy(input: $input) {
    errors
  }
}".

Definition graphql_request (document : string) (variables : list (string * json_value)) : http_body :=
  Marshalled (JObject [("query", JString document); ("variables", JObject variables)]).

(** [formatProjectGID] of an [int] or a [string]. *)
Definition formatProjectGID (id : Z + string) : string :=
  match id with
  | inl v => "gid://gitlab/Project/" +:+ Itoa v
  | inr v => if HasPrefix v "gid://gitlab/Project/" then v
             else if is_some (Atoi v) then "gid://gitlab/Project/" +:+ v else v
  end.

Section Services.
Context `{GoGraphQL}.

Definition post (s : graphql_service) (url : string) (body : http_body) : HP (error + http_reply) :=
  match http_NewRequest url with
  | Some e => mret (inl e)
  | None => call (Post {| po_URL := url; po_Auth := setAuthHeader (gq_tokenType s) (gq_token s); po_Body := body |})
  end.

Definition rules_request (path : string) : http_body := graphql_request getTargetBranchRules [("fullPath", JString path)].

Definition create_request (projectID : Z + string) (name targetBranch : string) : http_body :=
  graphql_request createTargetBranchRule
    [("input", JObject [("projectId", JString (formatProjectGID projectID)); ("name", JString name);
                        ("targetBranch", JString targetBranch)])].

Definition destroy_request (ruleID : string) : http_body :=
  graphql_request destroyTargetBranchRule [("input", JObject [("id", JString ruleID)])].

(** A reply whose status is not 200 is an error. *)
Definition ok_body (what : string) (r : error + http_reply) : error + string :=
  match r with
  | inl e => inl e
  | inr r => if re_StatusCode r =? 200 then inr (re_Body r)
             else inl (ErrNew ("graphql " +:+ what +:+ " returned status " +:+ Itoa (re_StatusCode r) +:+ ": " +:+ re_Body r))
  end.

Definition service_GetTargetBranchRules (s : graphql_service) (path : string) : HP (error + list TargetBranchRule) :=
  r ← post s (graphqlURL s) (rules_request path);
  mret match ok_body "target branch rules query" r with
       | inl e => inl e
       | inr body =>
           match decode_rules body with
           | inl e => inl (ErrWrap "failed to decode target branch rules query response: " e)
           | inr (m :: _, _) => inl (ErrNew ("graphql target branch rules query error: " +:+ m))
           | inr ([], None) => inl (ErrNew ("project not found: " +:+ path))
           | inr ([], Some nodes) => inr nodes
           end
       end.

Definition service_CreateTargetBranchRule (s : graphql_service) (projectID : Z + string) (name targetBranch : string)
  : HP (error + option TargetBranchRule) :=
  r ← post s (graphqlURL s) (create_request projectID name targetBranch);
  mret match ok_body "create target branch rule mutation" r with
       | inl e => inl e
       | inr body =>
           match decode_create body with
           | inl e => inl (ErrWrap "failed to decode create target branch rule response: " e)
           | inr (m :: _, _, _) => inl (ErrNew ("graphql create target branch rule error: " +:+ m))
           | inr ([], m :: _, _) => inl (ErrNew ("create target branch rule error: " +:+ m))
           | inr ([], [], rule) => inr rule
           end
       end.

Definition service_DestroyTargetBranchRule (s : graphql_service) (ruleID : string) : HP (option error) :=
  r ← post s (graphqlURL s) (destroy_request ruleID);
  mret match ok_body "destroy target branch rule mutation" r with
       | inl e => Some e
       | inr body =>
           match decode_destroy body with
           | inl e => Some (ErrWrap "failed to decode destroy target branch rule response: " e)
           | inr (m :: _, _) => Some (ErrNew ("graphql destroy target branch rule error: " +:+ m))
           | inr ([], m :: _) => Some (ErrNew ("destroy target branch rule error: " +:+ m))
           | inr ([], []) => None
           end
       end.

(** ** Compliance frameworks *)

Definition json_quote : string := String (Ascii.ascii_of_nat 34) "".
Definition json_quoted (s : string) : string := json_quote +:+ s +:+ json_quote.
(** A quote inside a JSON string. *)
Definition inner (s : string) : string := "\" +:+ json_quote +:+ s +:+ "\" +:+ json_quote.

Definition compliance_request (document : string) : http_body := Text ("{" +:+ json_quoted "query" +:+ ": " +:+ json_quoted document +:+ "}").

Definition compliance_query (projectID : Z) : string :=
  "{ project(fullPath: " +:+ inner (Itoa projectID) +:+ ") { complianceFrameworks { nodes { id name description color default } } } }".

Definition compliance_mutation (projectID : Z) (framework : string) : string :=
  "mutation { projectSetComplianceFramework(input: { projectId: " +:+ inner ("gid://gitlab/Project/" +:+ Itoa projectID)
    +:+ ", complianceFrameworkId: " +:+ framework +:+ " }) { clientMutationId errors } }".

Definition complianceURL (s : graphql_service) : string := gq_baseURL s +:+ "/graphql".

Definition service_GetProjectComplianceFrameworks (s : graphql_service) (projectID : Z) : HP (error + list ComplianceFramework) :=
  r ← post s (complianceURL s) (compliance_request (compliance_query projectID));
  mret match r with
       | inl e => inl e
       | inr r => if re_StatusCode r =? 200 then decode_frameworks (re_Body r)
                  else inl (ErrNew ("graphql compliance query returned status " +:+ Itoa (re_StatusCode r)))
       end.

Definition compliance_result (what : string) (r : error + http_reply) : option error :=
  match r with
  | inl e => Some e
  | inr r => if 400 <=? re_StatusCode r
             then Some (ErrNew (what +:+ " compliance framework failed (" +:+ Itoa (re_StatusCode r) +:+ "): " +:+ re_Body r))
             else None
  end.

Definition service_SetProjectComplianceFramework (s : graphql_service) (projectID : Z) (frameworkID : string) : HP (option error) :=
  r ← post s (complianceURL s) (compliance_request (compliance_mutation projectID (inner frameworkID)));
  mret (compliance_result "set" r).

Definition service_RemoveProjectComplianceFramework (s : graphql_service) (projectID : Z) (frameworkID : string) : HP (option error) :=
  r ← post s (complianceURL s) (compliance_request (compliance_mutation projectID "null"));
  mret (compliance_result "remove" r).

(** ** The services as a part of the client *)

(** The client whose two GraphQL services post to [hh]. *)
Definition over_http {W} (s : graphql_service) (hh : handler HttpE W) (hg : handler GitLabE W) : handler GitLabE W := fun X e w =>
  match e in GitLabE X return X * W with
  | TargetBranchRules e =>
      match e in TargetBranchRulesE X return X * W with
      | GetTargetBranchRules path => run hh (service_GetTargetBranchRules s path) w
      | CreateTargetBranchRule pid name target =>
          let '(r, w) := run hh (service_CreateTargetBranchRule s (inl pid) name target) w in
          (match r with inl e => Some e | inr _ => None end, w)
      | DestroyTargetBranchRule id => run hh (service_DestroyTargetBranchRule s id) w
      end
  | Compliance e =>
      match e in ComplianceE X return X * W with
      | GetProjectComplianceFrameworks pid => run hh (service_GetProjectComplianceFrameworks s pid) w
      | SetProjectComplianceFramework pid id => run hh (service_SetProjectComplianceFramework s pid id) w
      | RemoveProjectComplianceFramework pid id => run hh (service_RemoveProjectComplianceFramework s pid id) w
      end
  | e => hg _ e w
  end.

Definition rule_post (s : graphql_service) (body : http_body) : HttpE (error + http_reply) :=
  Post {| po_URL := graphqlURL s; po_Auth := setAuthHeader (gq_tokenType s) (gq_token s); po_Body := body |}.

(** ** Lemmas *)

Lemma post_run {A W} s (hh : handler HttpE W) body (f : error + http_reply -> A) w :
  http_NewRequest (graphqlURL s) = None ->
  run hh (r ← post s (graphqlURL s) body; mret (f r)) w =
    (f (hh _ (rule_post s body) w).1, (hh _ (rule_post s body) w).2).
Proof. intros Hn. unfold post. rewrite Hn, run_bind, run_call. unfold rule_post. by destruct (hh _ _ w). Qed.

Lemma ok_body_inr what r body : ok_body what r = inr body -> exists a, r = inr a /\ re_StatusCode a = 200 /\ re_Body a = body.
Proof.
  unfold ok_body. destruct r as [e|a]; [done|]. destruct (Z.eqb_spec (re_StatusCode a) 200); [|done]. intros [= <-]. by exists a.
Qed.

(** ** Properties *)

(** The target branch rules service reports success only for a reply that lists no
    error, neither of the request nor of the mutation. *)
Theorem TargetBranchRules_check_errors {W} s (hh : handler HttpE W) pid name target id w :
  http_NewRequest (graphqlURL s) = None ->
  (forall rule, (run hh (service_CreateTargetBranchRule s (inl pid) name target) w).1 = inr rule ->
     exists a, (hh _ (rule_post s (create_request (inl pid) name target)) w).1 = inr a /\ re_StatusCode a = 200 /\
       decode_create (re_Body a) = inr ([], [], rule)) /\
  ((run hh (service_DestroyTargetBranchRule s id) w).1 = None ->
     exists a, (hh _ (rule_post s (destroy_request id)) w).1 = inr a /\ re_StatusCode a = 200 /\ decode_destroy (re_Body a) = inr ([], [])).
Proof.
  intros Hn. split.
  - intros rule. unfold service_CreateTargetBranchRule. rewrite post_run by done. cbn [fst snd].
    destruct (ok_body _ _) as [e|body] eqn:Eo; [done|]. apply ok_body_inr in Eo as (a & Ha & Hs & <-).
    destruct (decode_create (re_Body a)) as [e|[[[|m ms] [|m' ms']] r]] eqn:Ed; try done. intros [= <-]. by exists a.
  - unfold service_DestroyTargetBranchRule. rewrite post_run by done. cbn [fst snd].
    destruct (ok_body _ _) as [e|body] eqn:Eo; [done|]. apply ok_body_inr in Eo as (a & Ha & Hs & <-).
    destruct (decode_destroy (re_Body a)) as [e|[[|m ms] [|m' ms']]] eqn:Ed; try done. intros _. by exists a.
Qed.

(** The compliance service reports success for every reply with a status below
    400, whatever errors its body lists. *)
Theorem Compliance_ignores_refusals {W} s (hh : handler HttpE W) pid framework w code body w' :
  http_NewRequest (complianceURL s) = None -> code < 400 ->
  (forall p, hh _ (Post p) w = (inr {| re_StatusCode := code; re_Body := body |}, w')) ->
  run hh (service_SetProjectComplianceFramework s pid framework) w = (None, w') /\
  run hh (service_RemoveProjectComplianceFramework s pid framework) w = (None, w').
Proof.
  intros Hn Hc Hh. unfold service_SetProjectComplianceFramework, service_RemoveProjectComplianceFramework, post.
  rewrite Hn, !run_bind, !run_call, !Hh, !run_ret. unfold compliance_result. cbn [re_StatusCode].
  by rewrite (proj2 (Z.leb_gt 400 code) Hc).
Qed.

End Services.

(** ** A concrete endpoint *)

Definition demo_graphql_service : graphql_service :=
  {| gq_baseURL := "https://gitlab.example.com/api/v4"; gq_token := "glpat"; gq_tokenType := TokenTypePrivate |}.

(** The two services post to different places. *)
Example graphql_urls :
  graphqlURL demo_graphql_service = "https://gitlab.example.com/api/graphql" /\
  complianceURL demo_graphql_service = "https://gitlab.example.com/api/v4/graphql".
Proof. by split. Qed.
