(* ===== verification/Lambda.v ===== *)
(** * The Lambda function: internal/lambda

    [HandleRequest] finds out what kind of event it is given (detector.go),
    resolves the policy that the event asks for (resolver.go, on top of [Loader]),
    runs the engine on it and answers with a summary (adapter.go and the four
    handlers).  The JSON decoder is the class [GoJSON]; creating a client and
    running the engine are calls, which [on_gitlab] answers with the engine of
    [Engine].  Times are left out, and an error message is what it is made of
    ([message]), not its text. *)

From S2P Require Import Prelude GoLib Base64 Config EnvSubst Validator Loader GitLabAPI Server Governance Registry ProjectFilter GroupTree WorkerPool Pagination Discovery License TaskPool Metrics Engine.
Local Open Scope string_scope.
Local Open Scope list_scope.
Local Open Scope Z_scope.

(** ** Events *)

Definition EventTypeDirectInvocation : string := "DIRECT_INVOCATION".
Definition EventTypeEventBridgeSchedule : string := "EVENTBRIDGE_SCHEDULED".
Definition EventTypeS3Put : string := "S3_OBJECT_CREATED".
Definition EventTypeAPIGateway : string := "API_GATEWAY_PROXY".

(** A record of an S3 event, as far as the code reads it. *)
Record S3EventRecord : Type := { sr_EventSource : string; sr_Bucket : string; sr_Key : string }.

(** The fields of [ebProbe]. *)
Record EventBridgeProbe : Type := { eb_Source : string; eb_DetailType : string; eb_Resources : list string }.

Record DirectInvocationPayload : Type := {
  dp_Action : string;
  dp_Config : option PolicyConfig;
  dp_ConfigS3URI : string;
  dp_ConfigContent : string;
  dp_ConfigYAML : string;
  dp_ConfigJSON : string;
  dp_DryRun : option bool;
  dp_Concurrency : Z;
  dp_LogLevel : string;
  dp_LogFormat : string;
  dp_GroupIDsInclude : list Z;
  dp_GroupIDsExclude : list Z;
  dp_GroupPathsInclude : list string;
  dp_GroupPathsExclude : list string;
  dp_NamespacesInclude : list string;
  dp_NamespacesExclude : list string;
  dp_ProjectRegexInclude : string;
  dp_ProjectRegexExclude : string
}.

Definition zero_Payload : DirectInvocationPayload :=
  Build_DirectInvocationPayload "" None "" "" "" "" None 0 "" "" [] [] [] [] [] [] "" "".

Record APIGatewayProxyRequest : Type := { ag_Body : string; ag_IsBase64 : bool }.

(** ** Answers *)

(** Why a policy could not be resolved. *)
Inductive resolve_error : Type :=
| InlineError (e : LoadError)
| URIError (uri : string) (e : LoadError)
| DefaultError (e : LoadError).

(** The messages of a response. *)
Inductive message : Type :=
| Plain (e : error)
| Unresolved (pre : string) (e : resolve_error)
| BadBase64
| S3Unresolved (uri : string) (e : LoadError)
| S3Failed (source : string) (e : error).

Record ExecutionSummary : Type := {
  xs_ScannedGroups : Z;
  xs_MatchedGroups : Z;
  xs_ScannedProjects : Z;
  xs_MatchedProjects : Z;
  xs_AppliedOperations : Z;
  xs_SkippedOperations : Z;
  xs_FailedOperations : Z
}.

Record ExecutionMetrics : Type := {
  xm_TotalScanned : Z;
  xm_TotalTargeted : Z;
  xm_TotalChanged : Z;
  xm_TotalUnchanged : Z;
  xm_TotalFailed : Z
}.

(** [ProjectChangeSummary] has the fields of [ProjectChange]. *)
Record LambdaResponse : Type := {
  lr_StatusCode : Z;
  lr_Status : string;
  lr_EventType : string;
  lr_ConfigSource : string;
  lr_DryRun : bool;
  lr_Summary : option ExecutionSummary;
  lr_ChangedProjects : list ProjectChange;
  lr_Metrics : option ExecutionMetrics;
  lr_Errors : list message
}.

(** The content type is always JSON. *)
Record APIGatewayProxyResponse : Type := { ap_StatusCode : Z; ap_Body : string }.

Variant lambda_reply : Type := Direct (r : LambdaResponse) | Proxy (r : APIGatewayProxyResponse).

(** [encoding/json].  [None] or [inl] is an error; a payload is what the decoder
    has filled in, whether or not it fails. *)
Class GoJSON : Type := {
  json_S3Probe : string -> option (list S3EventRecord);
  json_EventBridgeProbe : string -> option EventBridgeProbe;
  json_HTTPMethod : string -> option string;
  json_S3Event : string -> error + list S3EventRecord;
  json_EventBridgeDetail : string -> error + string;
  json_APIGatewayProxyRequest : string -> error + APIGatewayProxyRequest;
  json_Payload : string -> DirectInvocationPayload * option error;
  json_Marshal : LambdaResponse -> string
}.

(** ** Calls *)

(** [EngineExecute] runs [engine.NewEngine(client, WithConcurrency(concurrency),
    WithDryRun(dryRun))] on a policy. *)
Variant LambdaE : Type -> Type :=
| ConfigCall {X} (e : LoadE X) : LambdaE X
| CreateClient (cfg : GitLabSettingsConfig) : LambdaE (option error)
| EngineExecute (concurrency : Z) (dryRun : bool) (cfg : PolicyConfig) : LambdaE (option ExecutionResult * option error).

Abbreviation AP := (prog LambdaE) (only parsing).

(** [Handler]: what the resolver reads the environment with, and whether an S3
    client was injected. *)
Record Handler : Type := { lh_lookupEnv : EnvLookupFunc; lh_s3Client : bool }.

Definition handler_loader (h : Handler) : Loader :=
  {| l_stdin := true; l_lookupEnv := lh_lookupEnv h; l_s3Client := lh_s3Client h |}.

(** ** detector.go *)

Definition hasEventBridgeResource (resources : list string) : bool :=
  existsb (fun r => Contains r ":events:" || Contains r "rule/") resources.

Definition DetectEventType `{GoJSON} (data : string) : string :=
  let trimmed := TrimSpace data in
  if (trimmed =? "")%string || (trimmed =? "{}")%string || (trimmed =? "null")%string then EventTypeDirectInvocation
  else if match json_S3Probe trimmed with
          | Some (r :: _) => (sr_EventSource r =? "aws:s3")%string || negb (sr_Bucket r =? "")%string
          | _ => false
          end then EventTypeS3Put
  else if match json_EventBridgeProbe trimmed with
          | Some p => (eb_Source p =? "aws.events")%string || (eb_DetailType p =? "Scheduled Event")%string
                      || hasEventBridgeResource (eb_Resources p)
          | None => false
          end then EventTypeEventBridgeSchedule
  else if match json_HTTPMethod trimmed with Some m => negb (m =? "")%string | None => false end then EventTypeAPIGateway
  else EventTypeDirectInvocation.

(** ** resolver.go *)

(** The action of a payload overrides its [dry_run]. *)
Definition effective_payload (p : DirectInvocationPayload) : DirectInvocationPayload :=
  let with_dry_run b := Build_DirectInvocationPayload (dp_Action p) (dp_Config p) (dp_ConfigS3URI p) (dp_ConfigContent p)
    (dp_ConfigYAML p) (dp_ConfigJSON p) (Some b) (dp_Concurrency p) (dp_LogLevel p) (dp_LogFormat p) (dp_GroupIDsInclude p)
    (dp_GroupIDsExclude p) (dp_GroupPathsInclude p) (dp_GroupPathsExclude p) (dp_NamespacesInclude p) (dp_NamespacesExclude p)
    (dp_ProjectRegexInclude p) (dp_ProjectRegexExclude p) in
  if EqualFold (dp_Action p) "dry_run" || EqualFold (dp_Action p) "plan" then with_dry_run true
  else if EqualFold (dp_Action p) "apply" then with_dry_run false
  else p.

Definition given_list {A} (l d : list A) : list A := match l with [] => d | _ => l end.

Definition given_any {A} (l : list A) : bool := (0 <? length l)%nat.

Definition override_groups (p : DirectInvocationPayload) (sel : option GroupSelector) : option GroupSelector :=
  if given_any (dp_GroupIDsInclude p) || given_any (dp_GroupIDsExclude p) || given_any (dp_GroupPathsInclude p)
     || given_any (dp_GroupPathsExclude p) then
    let s := default (Build_GroupSelector [] [] [] [] None) sel in
    Some {| gs_GroupIDsInclude := given_list (dp_GroupIDsInclude p) (gs_GroupIDsInclude s);
            gs_GroupIDsExclude := given_list (dp_GroupIDsExclude p) (gs_GroupIDsExclude s);
            gs_GroupPathsInclude := given_list (dp_GroupPathsInclude p) (gs_GroupPathsInclude s);
            gs_GroupPathsExclude := given_list (dp_GroupPathsExclude p) (gs_GroupPathsExclude s);
            gs_Recursive := gs_Recursive s |}
  else sel.

Definition override_projects (p : DirectInvocationPayload) (sel : option ProjectSelector) : option ProjectSelector :=
  if given_any (dp_NamespacesInclude p) || given_any (dp_NamespacesExclude p) || negb (dp_ProjectRegexInclude p =? "")%string
     || negb (dp_ProjectRegexExclude p =? "")%string then
    let s := default (Build_ProjectSelector [] [] "" "" [] [] "" None None None) sel in
    Some {| ps_NamespacesInclude := given_list (dp_NamespacesInclude p) (ps_NamespacesInclude s);
            ps_NamespacesExclude := given_list (dp_NamespacesExclude p) (ps_NamespacesExclude s);
            ps_ProjectNameRegexInclude := or_string (dp_ProjectRegexInclude p) (ps_ProjectNameRegexInclude s);
            ps_ProjectNameRegexExclude := or_string (dp_ProjectRegexExclude p) (ps_ProjectNameRegexExclude s);
            ps_TopicsInclude := ps_TopicsInclude s; ps_TopicsExclude := ps_TopicsExclude s; ps_Visibility := ps_Visibility s;
            ps_Archived := ps_Archived s; ps_ExcludeMarkedForDeletion := ps_ExcludeMarkedForDeletion s;
            ps_IDRange := ps_IDRange s |}
  else sel.

Definition applyPayloadOverrides (cfg : PolicyConfig) (p : DirectInvocationPayload) : PolicyConfig :=
  let s := cfg_Settings cfg in {|
  cfg_Version := cfg_Version cfg;
  cfg_Settings := {|
    st_DryRun := or_else (dp_DryRun p) (st_DryRun s);
    st_Concurrency := or_positive (dp_Concurrency p) (st_Concurrency s);
    st_LogLevel := or_string (dp_LogLevel p) (st_LogLevel s);
    st_LogFormat := or_string (dp_LogFormat p) (st_LogFormat s);
    st_ReportFormat := st_ReportFormat s; st_OutputFilePath := st_OutputFilePath s;
    st_ServiceAccounts := st_ServiceAccounts s; st_BotPatterns := st_BotPatterns s;
    st_GitLab := st_GitLab s; st_License := st_License s |};
  cfg_Targets := {|
    ts_GroupSelector := override_groups p (ts_GroupSelector (cfg_Targets cfg));
    ts_ProjectSelector := override_projects p (ts_ProjectSelector (cfg_Targets cfg)) |};
  cfg_Policies := cfg_Policies cfg |}.

Section Invocation.
Context `{GoRegexp} `{GoURL} `{GoYAML} `{GoJSON}.

Definition loaded (r : option (LoadError + PolicyConfig)) : LoadError + PolicyConfig := default (inl (LoadErr errOutOfFuel)) r.

(** [config.Load] as a part of the Lambda function. *)
Definition load (h : Handler) (path : string) : AP ((LoadError + PolicyConfig) * string) :=
  '(r, source) ← translate (@ConfigCall) (Load (handler_loader h) false path); mret (loaded r, source).

Definition map_error {A B X} (f : A -> B) (r : A + X) : B + X := match r with inl a => inl (f a) | inr x => inr x end.

Definition ResolveFromDirectPayload (h : Handler) (payload : DirectInvocationPayload)
  : AP ((resolve_error + PolicyConfig) * string) :=
  let payload := effective_payload payload in
  let inlineContent := or_string (dp_ConfigContent payload) (or_string (dp_ConfigYAML payload) (dp_ConfigJSON payload)) in
  '(r, source) ← (match dp_Config payload with
                  | Some cfg => mret (inr cfg, "inline:payload")
                  | None =>
                      if negb (TrimSpace inlineContent =? "")%string then
                        mret (map_error InlineError (loaded (LoadFromBytes (lh_lookupEnv h) inlineContent)), "inline:payload")
                      else if negb (TrimSpace (dp_ConfigS3URI payload) =? "")%string then
                        '(r, source) ← load h (TrimSpace (dp_ConfigS3URI payload));
                        mret (map_error (URIError (dp_ConfigS3URI payload)) r, source)
                      else
                        '(r, source) ← load h ""; mret (map_error DefaultError r, source)
                  end : AP ((resolve_error + PolicyConfig) * string));
  mret (match r with inl e => inl e | inr cfg => inr (applyPayloadOverrides cfg payload) end, source).

Definition ResolveFromS3URI (h : Handler) (s3URI : string) : AP ((LoadError + PolicyConfig) * string) := load h s3URI.

(** ** adapter.go *)

Definition executeEngine (cfg : PolicyConfig) : AP (option ExecutionResult * option error) :=
  c ← call (CreateClient (st_GitLab (cfg_Settings cfg)));
  match c with
  | Some err => mret (None, Some (ErrWrap "failed to initialize GitLab client: " err))
  | None => call (EngineExecute (or_positive (st_Concurrency (cfg_Settings cfg)) 10)
                    (default true (st_DryRun (cfg_Settings cfg))) cfg)
  end.

Definition execution_summary (s : SummaryMetricsSnapshot) : ExecutionSummary :=
  let m := ss_Metrics s in {|
  xs_ScannedGroups := sm_ScannedGroups m; xs_MatchedGroups := sm_TargetedGroups m;
  xs_ScannedProjects := sm_ScannedProjects m; xs_MatchedProjects := sm_TargetedProjects m;
  xs_AppliedOperations := ss_TotalAppliedOperations s; xs_SkippedOperations := ss_TotalSkippedOperations s;
  xs_FailedOperations := ss_TotalFailedOperations s |}.

Definition execution_metrics (s : SummaryMetricsSnapshot) : ExecutionMetrics :=
  let m := ss_Metrics s in {|
  xm_TotalScanned := sm_TotalScanned m; xm_TotalTargeted := sm_TotalTargeted m; xm_TotalChanged := sm_TotalChanged m;
  xm_TotalUnchanged := sm_TotalUnchanged m; xm_TotalFailed := sm_TotalFailed m |}.

Definition failed_response (eventType : string) (statusCode : Z) (source : string) (dryRun : bool) (m : message) : LambdaResponse := {|
  lr_StatusCode := statusCode; lr_Status := "FAILED"; lr_EventType := eventType; lr_ConfigSource := source; lr_DryRun := dryRun;
  lr_Summary := None; lr_ChangedProjects := []; lr_Metrics := None; lr_Errors := [m] |}.

Definition BuildErrorResponse (eventType : string) (statusCode : Z) (m : message) : LambdaResponse :=
  failed_response eventType statusCode "" false m.

(** Something was done, or could have been. *)
Definition productive (s : ExecutionSummary) : bool := (0 <? xs_AppliedOperations s) || (0 <? xs_MatchedProjects s).

Definition BuildLambdaResponse (eventType source : string) (dryRun : bool) (res : option ExecutionResult) (execErr : option error)
  : LambdaResponse :=
  match execErr, res with
  | Some err, _ => failed_response eventType 500 source dryRun (Plain err)
  | None, None => failed_response eventType 500 source dryRun (Plain (ErrNew "nil execution result returned from engine"))
  | None, Some res =>
      let summary := execution_summary (er_Metrics res) in
      let errors := Plain <$> er_Errors res in
      let '(code, status) :=
        if (0 <? length errors)%nat && productive summary then (200, "PARTIAL_SUCCESS")
        else if (0 <? length errors)%nat || negb (er_Success res) then (500, "FAILED")
        else (200, "SUCCESS") in {|
      lr_StatusCode := code; lr_Status := status; lr_EventType := eventType; lr_ConfigSource := source;
      lr_DryRun := er_DryRun res; lr_Summary := Some summary; lr_ChangedProjects := er_ProjectChanges res;
      lr_Metrics := Some (execution_metrics (er_Metrics res)); lr_Errors := errors |}
  end.

(** ** The handlers *)

(** The common end of the three handlers of a payload. *)
Definition invoke (h : Handler) (eventType unresolved : string) (payload : DirectInvocationPayload) : AP LambdaResponse :=
  '(r, source) ← ResolveFromDirectPayload h payload;
  match r with
  | inl e => mret (BuildErrorResponse eventType 400 (Unresolved unresolved e))
  | inr cfg =>
      '(res, err) ← executeEngine cfg;
      mret (BuildLambdaResponse eventType source (default true (st_DryRun (cfg_Settings cfg))) res err)
  end.

(** [len(raw) > 0 && string(raw) != "{}" && string(raw) != "null"]. *)
Definition has_content (raw : string) : bool := negb (raw =? "")%string && negb (raw =? "{}")%string && negb (raw =? "null")%string.

(** direct_handler.go. *)
Definition handleDirectInvocation (h : Handler) (raw : string) : AP LambdaResponse :=
  let '(payload, err) := if has_content raw then json_Payload raw else (zero_Payload, None) in
  match err with
  | Some e => mret (BuildErrorResponse EventTypeDirectInvocation 400 (Plain (ErrWrap "invalid direct invocation JSON payload: " e)))
  | None => invoke h EventTypeDirectInvocation "failed to resolve policy config: " payload
  end.

(** eventbridge.go; an error of the decoder of the detail is dropped. *)
Definition handleEventBridgeEvent (h : Handler) (raw : string) : AP LambdaResponse :=
  match json_EventBridgeDetail raw with
  | inl e => mret (BuildErrorResponse EventTypeEventBridgeSchedule 400
                     (Plain (ErrWrap "failed to parse EventBridge scheduled event: " e)))
  | inr detail =>
      invoke h EventTypeEventBridgeSchedule "failed to resolve policy config for EventBridge event: "
        (if has_content detail then (json_Payload detail).1 else zero_Payload)
  end.

(** apigw_handler.go. *)
Definition formatAPIGatewayError (statusCode : Z) (m : message) : APIGatewayProxyResponse :=
  {| ap_StatusCode := statusCode; ap_Body := json_Marshal (failed_response EventTypeAPIGateway statusCode "" false m) |}.

Definition proxied (r : LambdaResponse) : LambdaResponse := {|
  lr_StatusCode := lr_StatusCode r; lr_Status := lr_Status r; lr_EventType := EventTypeAPIGateway;
  lr_ConfigSource := lr_ConfigSource r; lr_DryRun := lr_DryRun r; lr_Summary := lr_Summary r;
  lr_ChangedProjects := lr_ChangedProjects r; lr_Metrics := lr_Metrics r; lr_Errors := lr_Errors r |}.

Definition handleAPIGatewayEvent (h : Handler) (raw : string) : AP APIGatewayProxyResponse :=
  match json_APIGatewayProxyRequest raw with
  | inl e => mret (formatAPIGatewayError 400 (Plain (ErrWrap "failed to parse API Gateway request: " e)))
  | inr req =>
      match (if ag_IsBase64 req then base64_Decode (ag_Body req) else Some (ag_Body req)) with
      | None => mret (formatAPIGatewayError 400 BadBase64)
      | Some body =>
          r ← handleDirectInvocation h body;
          mret {| ap_StatusCode := lr_StatusCode r; ap_Body := json_Marshal (proxied r) |}
      end
  end.

(** [url.QueryUnescape]. *)
Definition hex_value (c : ascii) : option N :=
  let n := N_of_ascii c in
  if is_digit c then Some (n - 48)%N else if ascii_in 97 102 c then Some (n - 87)%N
  else if ascii_in 65 70 c then Some (n - 55)%N else None.

Fixpoint QueryUnescape (s : string) : option string :=
  match s with
  | "" => Some ""
  | String c rest =>
      if (c =? "%")%char then
        match rest with
        | String a (String b rest') =>
            x ← hex_value a; y ← hex_value b; r ← QueryUnescape rest'; Some (String (ascii_of_N (x * 16 + y)) r)
        | _ => None
        end
      else r ← QueryUnescape rest; Some (String (if (c =? "+")%char then " "%char else c) r)
  end.

(** s3_handler.go: the key of a record, when it names a configuration. *)
Definition config_uri (r : S3EventRecord) : option string :=
  let key := default (sr_Key r) (QueryUnescape (sr_Key r)) in
  let ext := ToLower (path_Ext key) in
  if (ext =? ".yaml")%string || (ext =? ".yml")%string || (ext =? ".json")%string
  then Some ("s3://" +:+ sr_Bucket r +:+ "/" +:+ key) else None.

(** The variables of the loop over the records. *)
Record s3_totals : Type := {
  t_errors : list message;
  t_changed : list ProjectChange;
  t_summary : ExecutionSummary;
  t_metrics : ExecutionMetrics;
  t_source : string;
  t_dryRun : bool
}.

Definition zero_totals : s3_totals := {|
  t_errors := []; t_changed := []; t_summary := Build_ExecutionSummary 0 0 0 0 0 0 0; t_metrics := Build_ExecutionMetrics 0 0 0 0 0;
  t_source := ""; t_dryRun := false |}.

Definition add_summary (a b : ExecutionSummary) : ExecutionSummary := {|
  xs_ScannedGroups := xs_ScannedGroups a + xs_ScannedGroups b; xs_MatchedGroups := xs_MatchedGroups a + xs_MatchedGroups b;
  xs_ScannedProjects := xs_ScannedProjects a + xs_ScannedProjects b;
  xs_MatchedProjects := xs_MatchedProjects a + xs_MatchedProjects b;
  xs_AppliedOperations := xs_AppliedOperations a + xs_AppliedOperations b;
  xs_SkippedOperations := xs_SkippedOperations a + xs_SkippedOperations b;
  xs_FailedOperations := xs_FailedOperations a + xs_FailedOperations b |}.

Definition add_metrics (a b : ExecutionMetrics) : ExecutionMetrics := {|
  xm_TotalScanned := xm_TotalScanned a + xm_TotalScanned b; xm_TotalTargeted := xm_TotalTargeted a + xm_TotalTargeted b;
  xm_TotalChanged := xm_TotalChanged a + xm_TotalChanged b; xm_TotalUnchanged := xm_TotalUnchanged a + xm_TotalUnchanged b;
  xm_TotalFailed := xm_TotalFailed a + xm_TotalFailed b |}.

Definition report_error (t : s3_totals) (source : string) (dryRun : bool) (m : message) : s3_totals := {|
  t_errors := t_errors t ++ [m]; t_changed := t_changed t; t_summary := t_summary t; t_metrics := t_metrics t;
  t_source := source; t_dryRun := dryRun |}.

Definition mergeEngineResult (t : s3_totals) (source : string) (dryRun : bool) (res : option ExecutionResult) : s3_totals :=
  match res with
  | None => {| t_errors := t_errors t; t_changed := t_changed t; t_summary := t_summary t; t_metrics := t_metrics t;
               t_source := source; t_dryRun := dryRun |}
  | Some res => {|
      t_errors := t_errors t; t_changed := t_changed t ++ er_ProjectChanges res;
      t_summary := add_summary (t_summary t) (execution_summary (er_Metrics res));
      t_metrics := add_metrics (t_metrics t) (execution_metrics (er_Metrics res)); t_source := source; t_dryRun := dryRun |}
  end.

Fixpoint s3_records (h : Handler) (records : list S3EventRecord) (t : s3_totals) : AP s3_totals :=
  match records with
  | [] => mret t
  | record :: rest =>
      match config_uri record with
      | None => s3_records h rest t
      | Some uri =>
          '(r, source) ← ResolveFromS3URI h uri;
          match r with
          | inl e => s3_records h rest (report_error t uri (t_dryRun t) (S3Unresolved uri e))
          | inr cfg =>
              let dryRun := default true (st_DryRun (cfg_Settings cfg)) in
              '(res, err) ← executeEngine cfg;
              match err with
              | Some e => s3_records h rest (report_error t uri dryRun (S3Failed source e))
              | None => s3_records h rest (mergeEngineResult t uri dryRun res)
              end
          end
      end
  end.

Definition s3_response (t : s3_totals) : LambdaResponse :=
  let '(code, status) :=
    if given_any (t_errors t) then if productive (t_summary t) then (200, "PARTIAL_SUCCESS") else (500, "FAILED")
    else (200, "SUCCESS") in {|
  lr_StatusCode := code; lr_Status := status; lr_EventType := EventTypeS3Put; lr_ConfigSource := t_source t;
  lr_DryRun := t_dryRun t; lr_Summary := Some (t_summary t); lr_ChangedProjects := t_changed t;
  lr_Metrics := Some (t_metrics t); lr_Errors := t_errors t |}.

Definition handleS3Event (h : Handler) (raw : string) : AP LambdaResponse :=
  match json_S3Event raw with
  | inl e => mret (BuildErrorResponse EventTypeS3Put 400 (Plain (ErrWrap "failed to parse S3 event payload: " e)))
  | inr [] => mret (BuildErrorResponse EventTypeS3Put 400 (Plain (ErrNew "S3 event contains no records")))
  | inr records => t ← s3_records h records zero_totals; mret (s3_response t)
  end.

(** handler.go.  Nothing of the model panics, so the recovery of a panic has no
    counterpart. *)
Definition HandleRequest (h : Handler) (raw : string) : AP lambda_reply :=
  let eventType := DetectEventType raw in
  if (eventType =? EventTypeS3Put)%string then r ← handleS3Event h raw; mret (Direct r)
  else if (eventType =? EventTypeEventBridgeSchedule)%string then r ← handleEventBridgeEvent h raw; mret (Direct r)
  else if (eventType =? EventTypeAPIGateway)%string then r ← handleAPIGatewayEvent h raw; mret (Proxy r)
  else r ← handleDirectInvocation h raw; mret (Direct r).

End Invocation.

(** ** The function and GitLab *)

(** The state of the world: that of the loader, that of GitLab, and how the
    goroutines of the next executions of the engine will interleave. *)
Record lambda_world (L W : Type) : Type := { lw_config : L; lw_gitlab : W; lw_schedules : list engine_schedule }.
Arguments Build_lambda_world {L W}. Arguments lw_config {L W}. Arguments lw_gitlab {L W}. Arguments lw_schedules {L W}.

(** The engine that [NewHandler]'s factory makes. *)
Definition engineFactory (registry : OperationsRegistry) (concurrency : Z) (dryRun : bool) : GovernanceEngine :=
  {| ge_config := None; ge_registry := registry; ge_concurrency := concurrency; ge_dryRun := dryRun |}.

(** An execution without a schedule does not end; the function is stopped. *)
Definition on_gitlab `{GoRegexp} `{GoQuery} `{GoLicense} {L W} (hl : handler LoadE L) (hg : handler GitLabE W) (fuel : discoveryFuel)
    (env : license_env) (serverTime : option Z) (registry : OperationsRegistry) (connect : GitLabSettingsConfig -> option error)
  : handler LambdaE (lambda_world L W) := fun X e w =>
  match e in LambdaE X return X * lambda_world L W with
  | ConfigCall e => let '(x, l) := hl _ e (lw_config w) in (x, Build_lambda_world l (lw_gitlab w) (lw_schedules w))
  | CreateClient cfg => (connect cfg, w)
  | EngineExecute concurrency dryRun cfg =>
      match lw_schedules w with
      | [] => ((None, Some errCanceled), w)
      | schedule :: rest =>
          match Engine_Execute hg fuel env serverTime (engineFactory registry concurrency dryRun) (Some cfg) schedule (lw_gitlab w) with
          | None => ((None, Some errCanceled), Build_lambda_world (lw_config w) (lw_gitlab w) rest)
          | Some (res, err, g) => ((res, err), Build_lambda_world (lw_config w) g rest)
          end
      end
  end.

(** The payload that an event carries. *)
Definition asked `{GoJSON} (raw : string) : option DirectInvocationPayload :=
  let direct body := if has_content body then match json_Payload body with (p, None) => Some p | _ => None end else Some zero_Payload in
  let eventType := DetectEventType raw in
  if (eventType =? EventTypeS3Put)%string then None
  else if (eventType =? EventTypeEventBridgeSchedule)%string then
    match json_EventBridgeDetail raw with
    | inl _ => None
    | inr detail => Some (if has_content detail then (json_Payload detail).1 else zero_Payload)
    end
  else if (eventType =? EventTypeAPIGateway)%string then
    match json_APIGatewayProxyRequest raw with
    | inl _ => None
    | inr req => match (if ag_IsBase64 req then base64_Decode (ag_Body req) else Some (ag_Body req)) with
                 | None => None
                 | Some body => direct body
                 end
    end
  else direct raw.

(** ** Lemmas *)

Lemma effective_dry_run p :
  dp_DryRun (effective_payload p) =
    if EqualFold (dp_Action p) "dry_run" || EqualFold (dp_Action p) "plan" then Some true
    else if EqualFold (dp_Action p) "apply" then Some false else dp_DryRun p.
Proof. unfold effective_payload. by repeat case_match. Qed.

Lemma effective_source p :
  dp_Config (effective_payload p) = dp_Config p /\ dp_ConfigContent (effective_payload p) = dp_ConfigContent p /\
  dp_ConfigYAML (effective_payload p) = dp_ConfigYAML p /\ dp_ConfigJSON (effective_payload p) = dp_ConfigJSON p /\
  dp_ConfigS3URI (effective_payload p) = dp_ConfigS3URI p.
Proof. unfold effective_payload. by repeat case_match. Qed.

Section Properties.
Context `{GoRegexp} `{GoURL} `{GoYAML} `{GoJSON}.

(** The engine is only run on policies that satisfy [P]. *)
Definition executes (P : PolicyConfig -> Prop) X (e : LambdaE X) : Prop :=
  match e with EngineExecute _ _ cfg => P cfg | _ => True end.

Lemma load_executes P h path : only (executes P) (load h path).
Proof. unfold load. apply only_bind; [by apply only_translate|]. by intros [r source]. Qed.

Lemma Resolve_executes P h p : only (executes P) (ResolveFromDirectPayload h p).
Proof.
  unfold ResolveFromDirectPayload. apply only_bind; [|by intros [r source]].
  repeat case_match; [done..| |]; (apply only_bind; [apply load_executes|]; by intros [r source]).
Qed.

Lemma executeEngine_executes (P : PolicyConfig -> Prop) cfg : P cfg -> only (executes P) (executeEngine cfg).
Proof. intros Hp. unfold executeEngine. apply only_bind; [by split|]. intros [e|]; [done|]. by split. Qed.

(** What a payload says of the dry run is what the resolved policy says. *)
Lemma Resolve_dry_run h p b :
  dp_DryRun (effective_payload p) = Some b ->
  always (fun r => match r.1 with inl _ => True | inr cfg => st_DryRun (cfg_Settings cfg) = Some b end) (ResolveFromDirectPayload h p).
Proof.
  intros Hd. unfold ResolveFromDirectPayload. apply always_bind. intros [[e|cfg] source]; apply always_ret; [done|]. cbn. by rewrite Hd.
Qed.

Lemma invoke_executes h eventType unresolved p b :
  dp_DryRun (effective_payload p) = Some b ->
  only (executes (fun cfg => st_DryRun (cfg_Settings cfg) = Some b)) (invoke h eventType unresolved p).
Proof.
  intros Hd. unfold invoke. eapply only_bind_always; [apply Resolve_executes|by apply Resolve_dry_run|].
  intros [[e|cfg] source] Hc; [done|]. apply only_bind; [by apply executeEngine_executes|]. by intros [res err].
Qed.

Lemma handleDirectInvocation_executes h raw b :
  (forall p, (if has_content raw then match json_Payload raw with (p, None) => Some p | _ => None end else Some zero_Payload) = Some p ->
     dp_DryRun (effective_payload p) = Some b) ->
  only (executes (fun cfg => st_DryRun (cfg_Settings cfg) = Some b)) (handleDirectInvocation h raw).
Proof.
  intros Hp. unfold handleDirectInvocation. destruct (has_content raw).
  - destruct (json_Payload raw) as [p [e|]]; [done|]. by apply invoke_executes, Hp.
  - by apply invoke_executes, Hp.
Qed.

Lemma HandleRequest_executes h raw p b :
  asked raw = Some p -> dp_DryRun (effective_payload p) = Some b ->
  only (executes (fun cfg => st_DryRun (cfg_Settings cfg) = Some b)) (HandleRequest h raw).
Proof.
  unfold asked, HandleRequest. cbv zeta. intros Ha Hd. destruct (_ =? EventTypeS3Put)%string; [done|].
  destruct (_ =? EventTypeEventBridgeSchedule)%string.
  { apply only_bind; [|done]. unfold handleEventBridgeEvent. destruct (json_EventBridgeDetail raw) as [e|detail]; [done|].
    injection Ha as <-. by apply invoke_executes. }
  destruct (_ =? EventTypeAPIGateway)%string.
  { apply only_bind; [|done]. unfold handleAPIGatewayEvent. destruct (json_APIGatewayProxyRequest raw) as [e|req]; [done|].
    destruct (if ag_IsBase64 req then _ else _) as [body|]; [|done]. apply only_bind; [|done].
    apply handleDirectInvocation_executes. intros p' Hp'. rewrite Hp' in Ha. by injection Ha as ->. }
  apply only_bind; [|done]. apply handleDirectInvocation_executes. intros p' Hp'. rewrite Hp' in Ha. by injection Ha as ->.
Qed.

(** *** Where a policy comes from *)

Definition valid_policy (cfg : PolicyConfig) : Prop := policy_wf cfg /\ settings_effective (cfg_Settings cfg).

Lemma loaded_valid src lookup raw cfg : loaded (loadStages src false lookup raw) = inr cfg -> valid_policy cfg.
Proof.
  unfold loaded. destruct (loadStages src false lookup raw) as [[e|c]|] eqn:El; try done. cbn. intros [= ->].
  destruct (loadStages_inr _ _ _ _ _ El) as (d & -> & Hv). specialize (Hv eq_refl). apply Validate_nil in Hv.
  split; [done|]. apply SetDefaults_effective. apply Hv.
Qed.

Lemma load_valid h path :
  always (fun r => match r.1 with inl _ => True | inr cfg => valid_policy cfg end /\
                   (TrimSpace path <> "" -> r.2 = path)) (load h path).
Proof.
  unfold load. apply (always_bind_always _ (fun x => match loaded x.1 with inl _ => True | inr cfg => valid_policy cfg end /\
    (TrimSpace path <> "" -> x.2 = path))); [|by intros [r source]].
  apply always_translate. unfold Load. apply (always_bind_always _ (fun x => TrimSpace path <> "" -> x.2 = path)).
  - unfold LoadRaw. destruct (String.eqb_spec (TrimSpace path) ""); cbn [negb].
    + by apply always_intro.
    + apply always_bind. intros data. by apply always_ret.
  - intros [[e|raw] source] Hs; apply always_ret; [done|]. split; [|done]. destruct (loaded _) as [e|cfg] eqn:El; [done|].
    by eapply loaded_valid.
Qed.

(** *** Responses *)

Definition consistent (r : LambdaResponse) : Prop :=
  (lr_StatusCode r = 200 /\ lr_Status r = "SUCCESS" /\ lr_Errors r = []) \/
  (lr_StatusCode r = 200 /\ lr_Status r = "PARTIAL_SUCCESS" /\ lr_Errors r <> [] /\
     exists s, lr_Summary r = Some s /\ productive s = true) \/
  ((lr_StatusCode r = 400 \/ lr_StatusCode r = 500) /\ lr_Status r = "FAILED").

Definition answers_as (eventType : string) (r : LambdaResponse) : Prop := consistent r /\ lr_EventType r = eventType.

Lemma failed_consistent eventType code source dryRun m :
  code = 400 \/ code = 500 -> answers_as eventType (failed_response eventType code source dryRun m).
Proof. intros Hc. split; [|done]. right. by right. Qed.

Lemma BuildLambdaResponse_consistent eventType source dryRun res err :
  answers_as eventType (BuildLambdaResponse eventType source dryRun res err).
Proof.
  unfold BuildLambdaResponse. destruct err as [e|]; [apply failed_consistent; auto|].
  destruct res as [res|]; [|apply failed_consistent; auto]. cbv zeta. split; [|by repeat case_match].
  destruct (er_Errors res) as [|e errs]; cbn.
  - destruct (er_Success res); [left|right; right]; cbn; auto.
  - destruct (productive _) eqn:Ep; [right; left|right; right]; cbn; [|auto]. split_and!; try done. by eexists.
Qed.

Lemma invoke_consistent h eventType unresolved p : always (answers_as eventType) (invoke h eventType unresolved p).
Proof.
  unfold invoke. apply always_bind. intros [[e|cfg] source]; [apply always_ret, failed_consistent; auto|].
  apply always_bind. intros [res err]. apply always_ret, BuildLambdaResponse_consistent.
Qed.

Lemma handleDirectInvocation_consistent h raw :
  always (answers_as EventTypeDirectInvocation) (handleDirectInvocation h raw).
Proof.
  unfold handleDirectInvocation. destruct (if has_content raw then _ else _) as [p [e|]]; [|apply invoke_consistent].
  apply always_ret, failed_consistent. auto.
Qed.

Lemma s3_response_consistent t : answers_as EventTypeS3Put (s3_response t).
Proof.
  unfold s3_response, given_any. split; [|by repeat case_match]. destruct (t_errors t) as [|e errs] eqn:Ee; cbn.
  - by left.
  - destruct (productive (t_summary t)) eqn:Ep; [right; left|right; right]; cbn; [|auto]. split_and!; try done. by eexists.
Qed.

(** *** The records of an S3 event *)

(** An execution of the engine that is merged into the totals. *)
Definition merge_of (c : answered LambdaE) : option (option ExecutionResult) :=
  match c with existT _ (EngineExecute _ _ _, (res, None)) => Some res | _ => None end.

Definition merges (tr : list (answered LambdaE)) : list (option ExecutionResult) := omap merge_of tr.

Definition merge_all (t : s3_totals) (ms : list (option ExecutionResult)) : ExecutionSummary * list ProjectChange :=
  (foldl add_summary (t_summary t) ((fun r => execution_summary (er_Metrics r)) <$> omap id ms),
   t_changed t ++ (omap id ms ≫= er_ProjectChanges)).

Lemma quiet_merges tr :
  Forall (fun c : answered LambdaE => executes (fun _ => False) _ (projT2 c).1) tr -> merges tr = [].
Proof.
  intros Htr. unfold merges. induction Htr as [|c tr Hc Htr IH]; [done|]. cbn [omap list_omap].
  destruct c as [X [e x]]. cbn in Hc. by destruct e.
Qed.

Lemma load_traces h path : traces (fun tr _ => merges tr = []) (load h path).
Proof. eapply traces_mono; [|apply only_traces, (load_executes (fun _ => False))]. intros l a. apply quiet_merges. Qed.

(** Every record that names a configuration is reported or merged. *)
Lemma s3_records_traces h records t :
  traces (fun tr t' =>
    (length (t_errors t') + length (merges tr) = length (t_errors t) + length (omap config_uri records))%nat /\
    (t_summary t', t_changed t') = merge_all t (merges tr)) (s3_records h records t).
Proof.
  revert t. induction records as [|record rest IH]; intros t; cbn [s3_records].
  { apply traces_ret. unfold merge_all. cbn. rewrite app_nil_r. auto. }
  cbn [omap list_omap]. destruct (config_uri record) as [uri|]; [|apply IH].
  eapply traces_bind; [apply load_traces|]. intros l [[e|cfg] source] Hl; cbn beta.
  { eapply traces_mono; [|apply IH]. intros tr t' [Hn Hm]. unfold merges in *. rewrite omap_app, Hl. cbn [app].
    split; [|exact Hm]. rewrite Hn. cbn [t_errors report_error length]. rewrite length_app. cbn. lia. }
  unfold executeEngine. eapply (traces_bind _ (fun tr a => merges tr = match a with (res, None) => [res] | _ => [] end)).
  { apply traces_call. intros [e|]; [by apply traces_ret|]. intros [res [e|]]; by cbn. }
  intros l2 [res err] Hl2. cbn beta.
  destruct err as [e|]; (eapply traces_mono; [|apply IH]); intros tr t' [Hn Hm]; unfold merges in *;
    rewrite !omap_app, Hl, Hl2; cbn [app length] in *; cbn [t_errors report_error] in Hn.
  - split; [|exact Hm]. rewrite Hn, length_app. cbn. lia.
  - destruct res as [res|]; cbn [t_errors mergeEngineResult] in Hn; (split; [lia|]); [|exact Hm].
    rewrite Hm. unfold merge_all. cbn. f_equal. by rewrite <- app_assoc.
Qed.

End Properties.

(** ** Properties *)

(** C29. An invocation that asks for a plan leaves GitLab as it was, whatever the
    policy that it resolves says, whoever triggers it and however the goroutines
    of the engine interleave: with the actions [plan] and [dry_run], or with
    [dry_run] set and another action than [apply], in a direct payload, the
    detail of a scheduled event or the body of a request. *)
Theorem Lambda_plan_changes_nothing `{GoRegexp} `{GoURL} `{GoYAML} `{GoJSON} `{GoQuery} `{GoLicense} {L W} (hl : handler LoadE L)
    (hg : handler GitLabE W) fuel env serverTime registry connect h raw p w :
  stable_reads hg -> all_dry_run registry -> asked raw = Some p ->
  EqualFold (dp_Action p) "plan" = true \/ EqualFold (dp_Action p) "dry_run" = true \/
    (dp_DryRun p = Some true /\ EqualFold (dp_Action p) "apply" = false) ->
  lw_gitlab (run (on_gitlab hl hg fuel env serverTime registry connect) (HandleRequest h raw) w).2 = lw_gitlab w.
Proof.
  intros Hst Hdry Ha Hp. assert (dp_DryRun (effective_payload p) = Some true) as Hd.
  { rewrite effective_dry_run. destruct Hp as [-> |[-> |[-> ->]]]; [by rewrite orb_true_r|done|by destruct (_ || _)]. }
  apply (run_only _ (executes (fun cfg => st_DryRun (cfg_Settings cfg) = Some true)) (fun w' => lw_gitlab w' = lw_gitlab w));
    [|by eapply HandleRequest_executes|done].
  intros X e w1 He Hw. destruct e as [X e|cfg|concurrency dryRun cfg]; cbn [on_gitlab].
  - by destruct (hl X e (lw_config w1)).
  - done.
  - destruct (lw_schedules w1) as [|schedule rest]; [done|]. destruct (Engine_Execute _ _ _ _ _ _ _ _) as [[[res err] g]|] eqn:Ee; [|done].
    cbn. rewrite <- Hw. unfold Engine_Execute in Ee. cbn in He. rewrite He in Ee. cbn [default] in Ee.
    by eapply runWithOptions_dry_run; [..|exact Ee].
Qed.

(** The policy that an invocation runs: the configuration of the payload as
    it is, or else what the first of the inline texts, the S3 location and the
    default sources gives, which is valid and complete; then the overrides of the
    payload, of which the action decides on the dry run before [dry_run] does.
    The policies and the settings of GitLab and of the license are never
    overridden. *)
Theorem ResolveFromDirectPayload_exact `{GoRegexp} `{GoURL} `{GoYAML} {W} (hw : handler LambdaE W) h p w cfg source :
  (run hw (ResolveFromDirectPayload h p) w).1 = (inr cfg, source) ->
  let content := or_string (dp_ConfigContent p) (or_string (dp_ConfigYAML p) (dp_ConfigJSON p)) in
  exists base,
    match dp_Config p with Some c => base = c | None => valid_policy base end /\
    (if is_some (dp_Config p) || negb (TrimSpace content =? "")%string then source = "inline:payload"
     else TrimSpace (dp_ConfigS3URI p) <> "" -> source = TrimSpace (dp_ConfigS3URI p)) /\
    cfg = applyPayloadOverrides base (effective_payload p) /\
    cfg_Policies cfg = cfg_Policies base /\ st_GitLab (cfg_Settings cfg) = st_GitLab (cfg_Settings base) /\
    st_License (cfg_Settings cfg) = st_License (cfg_Settings base) /\
    st_DryRun (cfg_Settings cfg) =
      if EqualFold (dp_Action p) "dry_run" || EqualFold (dp_Action p) "plan" then Some true
      else if EqualFold (dp_Action p) "apply" then Some false
      else or_else (dp_DryRun p) (st_DryRun (cfg_Settings base)).
Proof.
  cbv zeta. destruct (effective_source p) as (E1 & E2 & E3 & E4 & E5).
  set (content := or_string (dp_ConfigContent p) (or_string (dp_ConfigYAML p) (dp_ConfigJSON p))).
  pose (ok := fun r : (resolve_error + PolicyConfig) * string =>
    (if is_some (dp_Config p) || negb (TrimSpace content =? "")%string then r.2 = "inline:payload"
     else TrimSpace (dp_ConfigS3URI p) <> "" -> r.2 = TrimSpace (dp_ConfigS3URI p)) /\
    match r.1 with inl _ => True | inr c => match dp_Config p with Some c' => c = c' | None => valid_policy c end end).
  enough (always (fun r => exists r0, ok r0 /\ r = (match r0.1 with inl e => inl e
      | inr c => inr (applyPayloadOverrides c (effective_payload p)) end, r0.2)) (ResolveFromDirectPayload h p)) as Hall.
  { intros Hr. pose proof (always_run hw _ _ w Hall) as Hok. rewrite Hr in Hok. destruct Hok as ([r0 s0] & [Hs Hb] & [= Hc ->]).
    destruct r0 as [e|base]; [done|]. injection Hc as ->. exists base. cbn in Hs, Hb.
    split; [by destruct (dp_Config p)|]. split; [exact Hs|]. split_and!; try done. cbn. rewrite effective_dry_run. by repeat case_match. }
  unfold ResolveFromDirectPayload. cbv zeta. rewrite E1, E2, E3, E4, E5. fold content.
  apply (always_bind_always _ ok); [|intros [r0 s0] Hok; apply always_ret; by exists (r0, s0)].
  unfold ok. destruct (dp_Config p) as [c|]; [by apply always_ret|]. cbn [is_some orb].
  destruct (TrimSpace content =? "")%string; cbn [negb].
  - destruct (String.eqb_spec (TrimSpace (dp_ConfigS3URI p)) "") as [Ee|Ee]; cbn [negb];
      (eapply always_bind_always; [apply load_valid|]); intros [r source'] [Hv Hs]; apply always_ret; cbn in *;
      (split; [intros ?|by destruct r]); [done|]. apply Hs.
      unfold TrimSpace in *. by rewrite TrimFunc_idem.
  - apply always_ret. split; [done|]. cbn [fst]. unfold LoadFromBytes. destruct (loaded _) as [e|c] eqn:El; [done|].
    cbn. by eapply loaded_valid.
Qed.

(** What a response says is consistent, whatever the event, the sources, the
    client and the engine answer: it is a success without errors, a partial
    success with errors of a run that found or changed something, or a failure
    with status code 400 or 500; it carries the type of its event, and behind the
    API gateway it is the body of an answer with the same status code. *)
Theorem HandleRequest_consistent `{GoRegexp} `{GoURL} `{GoYAML} `{GoJSON} {W} (hw : handler LambdaE W) h raw w :
  match (run hw (HandleRequest h raw) w).1 with
  | Direct r => answers_as (DetectEventType raw) r /\ DetectEventType raw <> EventTypeAPIGateway
  | Proxy p => DetectEventType raw = EventTypeAPIGateway /\
      exists r, answers_as EventTypeAPIGateway r /\ ap_StatusCode p = lr_StatusCode r /\ ap_Body p = json_Marshal r
  end.
Proof.
  apply (always_run hw (fun reply => match reply with
    | Direct r => answers_as (DetectEventType raw) r /\ DetectEventType raw <> EventTypeAPIGateway
    | Proxy p => DetectEventType raw = EventTypeAPIGateway /\
        exists r, answers_as EventTypeAPIGateway r /\ ap_StatusCode p = lr_StatusCode r /\ ap_Body p = json_Marshal r
    end)).
  unfold HandleRequest. cbv zeta.
  destruct (String.eqb_spec (DetectEventType raw) EventTypeS3Put) as [->|N1].
  { eapply always_bind_always; [|intros r Hr; apply always_ret; split; [exact Hr|done]]. unfold handleS3Event.
    destruct (json_S3Event raw) as [e|[|r rs]]; [apply always_ret, failed_consistent; auto..|].
    apply always_bind. intros t. apply always_ret, s3_response_consistent. }
  destruct (String.eqb_spec (DetectEventType raw) EventTypeEventBridgeSchedule) as [->|N2].
  { eapply always_bind_always; [|intros r Hr; apply always_ret; split; [exact Hr|done]]. unfold handleEventBridgeEvent.
    destruct (json_EventBridgeDetail raw) as [e|detail]; [apply always_ret, failed_consistent; auto|]. apply invoke_consistent. }
  destruct (String.eqb_spec (DetectEventType raw) EventTypeAPIGateway) as [->|N3].
  { eapply always_bind_always; [|intros r Hr; apply always_ret; split; [done|exact Hr]]. unfold handleAPIGatewayEvent.
    destruct (json_APIGatewayProxyRequest raw) as [e|req];
      [apply always_ret; eexists; split; [apply failed_consistent; by left|done]|].
    destruct (if ag_IsBase64 req then _ else _) as [body|];
      [|apply always_ret; eexists; split; [apply failed_consistent; by left|done]].
    eapply always_bind_always; [apply handleDirectInvocation_consistent|]. intros r [Hr _]. apply always_ret. exists (proxied r).
    by split. }
  assert (DetectEventType raw = EventTypeDirectInvocation) as ->.
  { unfold DetectEventType in *. cbv zeta in *. by repeat case_match. }
  eapply always_bind_always; [apply handleDirectInvocation_consistent|]. intros r Hr. apply always_ret. by split.
Qed.

(** An event of several S3 objects loses none of them: every record that names
    a configuration is either reported as an error or was executed, the summary
    and the changed projects are those of all the executions together, and the
    response is a success exactly when no record was reported. *)
Theorem handleS3Event_accounts `{GoRegexp} `{GoURL} `{GoYAML} `{GoJSON} {W} (hw : handler LambdaE W) h raw w records :
  json_S3Event raw = inr records -> records <> [] ->
  let tr := trace hw (handleS3Event h raw) w in
  let r := (run hw (handleS3Event h raw) w).1 in
  (length (lr_Errors r) + length (merges tr) = length (omap config_uri records))%nat /\
  lr_Summary r = Some (foldl add_summary (Build_ExecutionSummary 0 0 0 0 0 0 0)
                         ((fun x => execution_summary (er_Metrics x)) <$> omap id (merges tr))) /\
  lr_ChangedProjects r = (omap id (merges tr) ≫= er_ProjectChanges) /\
  (lr_Status r = "SUCCESS" <-> lr_Errors r = []).
Proof.
  intros Hraw Hne tr r. unfold tr, r.
  apply (traces_run hw (fun tr r =>
    (length (lr_Errors r) + length (merges tr) = length (omap config_uri records))%nat /\
    lr_Summary r = Some (foldl add_summary (Build_ExecutionSummary 0 0 0 0 0 0 0)
                           ((fun x => execution_summary (er_Metrics x)) <$> omap id (merges tr))) /\
    lr_ChangedProjects r = (omap id (merges tr) ≫= er_ProjectChanges) /\
    (lr_Status r = "SUCCESS" <-> lr_Errors r = []))).
  unfold handleS3Event. rewrite Hraw. destruct records as [|r0 rs]; [done|].
  eapply traces_bind; [apply (s3_records_traces h (r0 :: rs) zero_totals)|]. intros l t [Hn Hm]. apply traces_ret.
  rewrite app_nil_r. injection Hm as Hs Hc. unfold s3_response, given_any. destruct (t_errors t) as [|e errs]; cbn in *.
  - split_and!; [exact Hn|by rewrite Hs|exact Hc|done].
  - destruct (productive _); cbn; (split_and!; [exact Hn|by rewrite Hs|exact Hc|done]).
Qed.

(** ** Concrete invocations *)

#[local] Existing Instance demo_literal.
#[local] Existing Instance demo_fleet_query.
#[local] Existing Instance demo_license.
#[local] Existing Instance demo_url.
#[local] Existing Instance demo_yaml.

Definition demo_payload (action : string) (cfg : option PolicyConfig) : DirectInvocationPayload :=
  Build_DirectInvocationPayload action cfg "" "" "" "" None 2 "" "" [] [] [] ["Platform/Sandbox"] [] [] "" "".

Definition demo_records : list S3EventRecord :=
  [{| sr_EventSource := "aws:s3"; sr_Bucket := "policies"; sr_Key := "team+a/policy.yaml" |};
   {| sr_EventSource := "aws:s3"; sr_Bucket := "policies"; sr_Key := "README.md" |};
   {| sr_EventSource := "aws:s3"; sr_Bucket := "policies"; sr_Key := "broken.json" |}].

(** A decoder that knows a few events. *)
#[local] Instance demo_json : GoJSON := {|
  json_S3Probe := fun d => if (d =? "put")%string then Some demo_records else None;
  json_EventBridgeProbe := fun _ => None;
  json_HTTPMethod := fun _ => None;
  json_S3Event := fun d => if (d =? "put")%string then inr demo_records else inl (ErrNew "no event");
  json_EventBridgeDetail := fun _ => inl (ErrNew "no event");
  json_APIGatewayProxyRequest := fun _ => inl (ErrNew "no request");
  json_Payload := fun d => if (d =? "plan")%string then (demo_payload "Plan" (Some demo_engine_cfg), None)
                           else (zero_Payload, Some (ErrNew "no payload"));
  json_Marshal := lr_Status |}.

Definition demo_handler : Handler := {| lh_lookupEnv := fun _ => None; lh_s3Client := true |}.

Definition demo_invocation : lambda_reply * lambda_world (Z * gset Z) server :=
  run (on_gitlab demo_fs demo_fleet_server demo_fleet_fuel demo_license_env None demo_registry (fun _ => None))
    (HandleRequest demo_handler "plan")
    (Build_lambda_world (0, ∅) empty_server [demo_schedule empty_server true]).

Lemma Lambda_plan_changes_nothing_witness :
  match demo_invocation.1 with
  | Direct r => lr_Status r = "SUCCESS" /\ lr_DryRun r = true /\ length (lr_ChangedProjects r) = 1%nat
  | Proxy _ => False
  end /\ lw_gitlab demo_invocation.2 = empty_server.
Proof.
  split; [vm_compute; by split_and!|].
  apply (Lambda_plan_changes_nothing demo_fs demo_fleet_server demo_fleet_fuel demo_license_env None demo_registry (fun _ => None)
    demo_handler "plan" (demo_payload "Plan" (Some demo_engine_cfg))
    (Build_lambda_world (0, ∅) empty_server [demo_schedule empty_server true]));
    [exact demo_fleet_server_stable|exact demo_registry_dry_run|reflexivity|left; reflexivity].
Defined.

Lemma ResolveFromDirectPayload_exact_witness :
  match (run (on_gitlab demo_fs demo_fleet_server demo_fleet_fuel demo_license_env None demo_registry (fun _ => None))
           (ResolveFromDirectPayload demo_handler (demo_payload "apply" None)) (Build_lambda_world (0, ∅) empty_server [])).1 with
  | (inr cfg, source) => source = "config.yaml" /\ st_DryRun (cfg_Settings cfg) = Some false
  | _ => False
  end.
Proof.
  destruct (run _ _ _).1 as [[e|cfg] source] eqn:Hr; [by vm_compute in Hr|].
  split; [vm_compute in Hr; by injection Hr|].
  destruct (ResolveFromDirectPayload_exact _ demo_handler (demo_payload "apply" None) _ cfg source Hr) as (base & _ & _ & _ & _ & _ & _ & Hd).
  exact Hd.
Defined.

(** A client that the second object of the event cannot be read with. *)
Definition demo_s3 : handler LambdaE Z := fun X e w =>
  match e in LambdaE X return X * Z with
  | ConfigCall e =>
      match e in LoadE X return X * Z with
      | S3GetObject bucket key =>
          (if (key =? "broken.json")%string then inl (ErrNew "access denied") else inr 7, w)
      | S3ReadAll _ => (inr "version: v1", w)
      | S3LoadDefaultConfig => (None, w)
      | S3Close _ | FileClose _ => (tt, w)
      | OsStat _ => (None, w)
      | OsReadFile _ | StdinReadAll => (inl (ErrNew "no file"), w)
      | OsOpen _ => (inl (ErrNew "no file"), w)
      | FileIsRegular _ => (inl (ErrNew "no file"), w)
      | FileReadLimit _ _ => (inl (ErrNew "no file"), w)
      end
  | CreateClient _ => (None, w)
  | EngineExecute _ dryRun cfg =>
      ((Some (ran_nothing "plan" dryRun false None (Snapshot (NewSummaryMetrics dryRun)) [ErrNew "group 7: 403 Forbidden"]), None), w + 1)
  end.

Lemma handleS3Event_accounts_witness :
  let r := (run demo_s3 (handleS3Event demo_handler "put") 0).1 in
  lr_Status r = "FAILED" /\ length (lr_Errors r) = 1%nat /\
  (length (lr_Errors r) + length (merges (trace demo_s3 (handleS3Event demo_handler "put") 0%Z)) = length (omap config_uri demo_records))%nat.
Proof.
  split; [vm_compute; reflexivity|]. split; [vm_compute; reflexivity|].
  apply (handleS3Event_accounts demo_s3 demo_handler "put" 0 demo_records); [reflexivity|discriminate].
Defined.

(** An execution whose result is a failure with errors is a success when an S3
    event triggered it: only the error that comes with a result counts. *)
Example handleS3Event_hides_failures :
  let r := run demo_s3 (s3_records demo_handler (take 1 demo_records) zero_totals) 0 in
  lr_Status (s3_response r.1) = "SUCCESS" /\ lr_Errors (s3_response r.1) = [] /\ r.2 = 1.
Proof. vm_compute. by split_and!. Qed.

Example config_uri_decodes : config_uri <$> demo_records =
  [Some "s3://policies/team a/policy.yaml"; None; Some "s3://policies/broken.json"].
Proof. vm_compute. reflexivity. Qed.

Example base64_demo : base64_Decode "eyJhY3Rpb24iOiJwbGFuIn0=" = Some (String.string_of_list_ascii
  (ascii_of_N <$> [123; 34; 97; 99; 116; 105; 111; 110; 34; 58; 34; 112; 108; 97; 110; 34; 125]%N)).
Proof. vm_compute. reflexivity. Qed.
