(* ===== verification/Inspect.v ===== *)
(** * Inspection of a project: internal/export/exporter.go, first half

    The exporter reads the live settings of a project and writes the policy
    that asks for them: [inspectProject] runs one inspection for every kind of
    policy.  Most of its calls are those of the reconcilers ([Client]); the
    listings it fetches page by page, and the details that only it reads, have
    calls of their own.  [seen] is what the policy is made from, and the
    [_quiet] theorems show that a reconciler that plans with the policy made
    from a live record has nothing to change in it. *)

From S2P Require Import Prelude GoLib Config GitLabAPI Server Governance PushRules TargetBranchRules ProtectedBranches.
From S2P Require Import PipelineRetention ProjectSettings Compliance Variables Keyed ApprovalRules Webhooks Runners Members.
Local Open Scope string_scope.
Local Open Scope list_scope.
Local Open Scope Z_scope.

(** ** Calls *)

(** The approval rule as the exporter reads it, with names. *)
Record InspectedRule : Type := {
  ir_ID : Z;
  ir_Name : string;
  ir_RuleType : string;
  ir_ApprovalsRequired : Z;
  ir_Users : list User;
  ir_EligibleApprovers : list (option User);
  (** Number and full path; number and name. *)
  ir_Groups : list (Z * string);
  ir_ProtectedBranches : list (Z * string)
}.

(** A runner of a listing, and whether it is paused. *)
Record ListedRunner : Type := { li_runner : Runner; li_Paused : bool }.

(** [RunnerOf] is the details that are kept of a reply whose error is ignored;
    [Warn] is a line of [opts.ErrOut]. *)
Variant InspectE : Type -> Type :=
| Client {X} (e : GitLabE X) : InspectE X
| ApprovalRulesOf (pid : Z) : InspectE (Reply (list InspectedRule))
| VariablesPage (pid page : Z) : InspectE (Reply (list Variable_))
| RunnersPage (pid page : Z) : InspectE (Reply (list ListedRunner))
| RunnerOf (rid : Z) : InspectE (option RunnerDetails)
| HooksPage (pid page : Z) : InspectE (Reply (list ProjectHook))
| MembersPage (pid page : Z) : InspectE (Reply (list Member))
| Warn (msg : string) : InspectE unit.

Abbreviation IP := (prog InspectE) (only parsing).

(** A call that changes nothing on the server. *)
Definition inspect_read {X} (e : InspectE X) : bool := match e with Client e => is_read e | _ => true end.

(** The same server, seen by the reconcilers. *)
Definition as_client {W} (h : handler InspectE W) : handler GitLabE W := fun X e w => h X (Client e) w.

Record ExportOptions : Type := {
  xo_ProjectID : Z;
  xo_IncludeSecretsPlaceholder : bool;
  xo_SkipReconcilers : string -> bool;
  xo_FromProject : string;
  xo_Strategy : string
}.

(** ** What the policies are made from *)

(** [if b { field = ptrBool(b) }] and [if z > 0 { field = ptrInt(z) }]. *)
Definition ptr_true (b : bool) : option bool := if b then Some true else None.
Definition ptr_pos (z : Z) : option Z := if 0 <? z then Some z else None.
(** [if z > 0 { field = z }]. *)
Definition when_pos (z : Z) : Z := if 0 <? z then z else 0.

Definition isPushRulesEmpty (p : PushRulesConfig) : bool :=
  (prc_AuthorEmailRegex p =? "")%string && (prc_BranchNameRegex p =? "")%string
  && (prc_CommitMessageRegex p =? "")%string && (prc_CommitMessageNegativeRegex p =? "")%string
  && (prc_FileNameRegex p =? "")%string && negb (is_some (prc_MaxFileSize p))
  && negb (is_some (prc_CommitCommitterCheck p)) && negb (is_some (prc_MemberCheck p))
  && negb (is_some (prc_PreventSecrets p)) && negb (is_some (prc_DenyDeleteTag p))
  && negb (is_some (prc_RejectUnsignedCommits p)) && negb (is_some (prc_RejectNonDCOCommits p)).

Definition pushRulesOf (rule : PushRules) : PushRulesConfig := {|
  prc_AuthorEmailRegex := pr_AuthorEmailRegex rule;
  prc_BranchNameRegex := pr_BranchNameRegex rule;
  prc_CommitMessageRegex := pr_CommitMessageRegex rule;
  prc_CommitMessageNegativeRegex := pr_CommitMessageNegativeRegex rule;
  prc_FileNameRegex := pr_FileNameRegex rule;
  prc_MaxFileSize := ptr_pos (pr_MaxFileSize rule);
  prc_CommitCommitterCheck := ptr_true (pr_CommitCommitterCheck rule);
  prc_MemberCheck := ptr_true (pr_MemberCheck rule);
  prc_PreventSecrets := ptr_true (pr_PreventSecrets rule);
  prc_DenyDeleteTag := ptr_true (pr_DenyDeleteTag rule);
  prc_RejectUnsignedCommits := ptr_true (pr_RejectUnsignedCommits rule);
  prc_RejectNonDCOCommits := ptr_true (pr_RejectNonDCOCommits rule)
|}.

Definition liveAccessToBranchDescriptions (levels : list BranchAccess) : list BranchAccessDescription :=
  (fun l => {| ba_AccessLevel := when_pos (bl_AccessLevel l); ba_UserID := when_pos (bl_UserID l);
               ba_GroupID := when_pos (bl_GroupID l); ba_Username := ""; ba_GroupPath := ""; ba_DeployKeyID := 0 |}) <$> levels.

Definition branchRuleOf (b : ProtectedBranch) : ProtectedBranchRuleConfig := {|
  pb_Name := br_Name b;
  pb_AllowedToPush := liveAccessToBranchDescriptions (br_PushAccessLevels b);
  pb_AllowedToMerge := liveAccessToBranchDescriptions (br_MergeAccessLevels b);
  pb_AllowedToUnprotect := liveAccessToBranchDescriptions (br_UnprotectAccessLevels b);
  pb_AllowForcePush := ptr_true (br_AllowForcePush b);
  pb_CodeOwnerApprovalRequired := ptr_true (br_CodeOwnerApprovalRequired b)
|}.

(** The approval settings, [nil] when none is worth stating. *)
Definition approvalSettingsOf (app : ProjectApprovals) : option ApprovalSettingsConfig :=
  if ap_MergeRequestsAuthorApproval app || ap_MergeRequestsDisableCommittersApproval app
     || ap_DisableOverridingApproversPerMergeRequest app || ap_SelectiveCodeOwnerRemovals app
     || ap_RequirePasswordToApprove app
  then Some {|
    aps_ApprovalsBeforeMerge := None;
    aps_ResetApprovalsOnPush := None;
    aps_AllowAuthorApproval := ptr_true (ap_MergeRequestsAuthorApproval app);
    aps_AllowCommitterApproval := if ap_MergeRequestsDisableCommittersApproval app then Some false else None;
    aps_AllowOverridesToApproverListPerMergeRequest :=
      if ap_DisableOverridingApproversPerMergeRequest app then Some false else None;
    aps_RetainApprovalsOnPush := None;
    aps_SelectiveCodeOwnerRemovals := ptr_true (ap_SelectiveCodeOwnerRemovals app);
    aps_RequirePasswordToApprove := ptr_true (ap_RequirePasswordToApprove app)
  |}
  else None.

(** The names of what has one, and the numbers of the rest: [if name != ""
    { append to names } else if id > 0 { append to ids }]. *)
Definition named_of (l : list (Z * string)) : list string := List.filter (fun n => negb (n =? "")%string) (snd <$> l).
Definition unnamed_of (l : list (Z * string)) : list Z :=
  fst <$> List.filter (fun x => (x.2 =? "")%string && (0 <? x.1)) l.

(** The users of a rule, or the approvers that could be eligible. *)
Definition rule_users (r : InspectedRule) : list (Z * string) :=
  (fun u => (us_ID u, us_Username u)) <$>
  (if (length (ir_Users r) =? 0)%nat then omap id (ir_EligibleApprovers r) else ir_Users r).

Definition approvalRuleOf (r : InspectedRule) : ApprovalRuleConfig := {|
  ar_Name := ir_Name r;
  ar_ApprovalsRequired := ir_ApprovalsRequired r;
  ar_UserUsernames := named_of (rule_users r);
  ar_UserIDs := unnamed_of (rule_users r);
  ar_GroupPaths := named_of (ir_Groups r);
  ar_GroupIDs := unnamed_of (ir_Groups r);
  ar_ProtectedBranchNames := named_of (ir_ProtectedBranches r);
  ar_ProtectedBranchIDs := unnamed_of (ir_ProtectedBranches r);
  ar_RuleType := ir_RuleType r
|}.

Definition nonempty_slice {A} (l : list A) : bool := (0 <? length l)%nat.

(** A rule without approvers of its own is left out. *)
Definition keeps_rule (rule : ApprovalRuleConfig) : bool :=
  (ar_RuleType rule =? "any_approver")%string
  || (nonempty_slice (ar_UserUsernames rule) || nonempty_slice (ar_UserIDs rule)
      || nonempty_slice (ar_GroupPaths rule) || nonempty_slice (ar_GroupIDs rule)).

Definition isApprovalRulesEmpty (cfg : ApprovalRulesConfig) : bool :=
  negb (is_some (ars_ApprovalsBeforeMerge cfg)) && negb (is_some (ars_ResetApprovalsOnPush cfg))
  && negb (is_some (ars_Settings cfg)) && (length (ars_Rules cfg) =? 0)%nat.

Definition approvalRulesOf (app : option ProjectApprovals) (rules : list InspectedRule) : ApprovalRulesConfig := {|
  ars_ApprovalsBeforeMerge := app ≫= (fun a => ptr_pos (ap_ApprovalsBeforeMerge a));
  ars_ResetApprovalsOnPush := app ≫= (fun a => ptr_true (ap_ResetApprovalsOnPush a));
  ars_Settings := app ≫= approvalSettingsOf;
  ars_Rules := List.filter keeps_rule (approvalRuleOf <$> rules);
  ars_Prune := None
|}.

Definition expirationOf (cep : ContainerExpirationPolicy) : ContainerExpirationPolicyConfig := {|
  cep_Cadence := ce_Cadence cep;
  cep_Enabled := ptr_true (ce_Enabled cep);
  cep_KeepN := ptr_pos (ce_KeepN cep);
  cep_OlderThan := ce_OlderThan cep;
  cep_NameRegex := ce_NameRegex cep;
  cep_NameRegexDelete := ce_NameRegexDelete cep;
  cep_NameRegexKeep := ce_NameRegexKeep cep
|}.

Definition projectSettingsOf (proj : Project) : ProjectSettingsConfig := {|
  pj_DefaultBranch := p_DefaultBranch proj;
  pj_SquashOption := p_SquashOption proj;
  pj_MergeMethod := p_MergeMethod proj;
  pj_OnlyAllowMergeIfPipelineSucceeds := ptr_true (p_OnlyAllowMergeIfPipelineSucceeds proj);
  pj_AllowMergeOnSkippedPipeline := ptr_true (p_AllowMergeOnSkippedPipeline proj);
  pj_OnlyAllowMergeIfAllDiscussionsAreResolved := ptr_true (p_OnlyAllowMergeIfAllDiscussionsAreResolved proj);
  pj_RemoveSourceBranchAfterMerge := ptr_true (p_RemoveSourceBranchAfterMerge proj);
  pj_KeepLatestArtifact := ptr_true (p_KeepLatestArtifact proj);
  pj_PrintingMergeRequestLinkEnabled := ptr_true (p_PrintingMergeRequestLinkEnabled proj);
  pj_AutoCancelPendingPipelines := p_AutoCancelPendingPipelines proj;
  pj_AutoDevopsEnabled := ptr_true (p_AutoDevopsEnabled proj);
  pj_ContainerExpirationPolicy := expirationOf <$> p_ContainerExpirationPolicy proj
|}.

Definition retentionOf (seconds : Z) : option PipelineRetentionConfig :=
  if seconds <=? 0 then None
  else let days := Z.quot seconds 86400 in
       if days <=? 0 then None else Some {| prt_RetentionDays := days |}.

Definition isSecretVariable (key : string) : bool :=
  let upper := ToUpper key in
  Contains upper "SECRET" || Contains upper "TOKEN" || Contains upper "PASSWORD" || Contains upper "KEY"
  || Contains upper "PASS" || Contains upper "CREDENTIAL".

Definition variableOf (includePlaceholder : bool) (v : Variable_) : VariableConfig := {|
  v_Key := va_Key v;
  v_Value := if includePlaceholder && (va_Masked v || isSecretVariable (va_Key v))
             then "${" +:+ va_Key v +:+ ":-PLACEHOLDER}" else va_Value v;
  v_VariableType := va_VariableType v;
  v_Protected := ptr_true (va_Protected v);
  v_Masked := ptr_true (va_Masked v);
  v_Raw := ptr_true (va_Raw v);
  v_EnvironmentScope := va_EnvironmentScope v;
  v_Description := va_Description v
|}.

Definition runnerOf (r : ListedRunner) (details : option RunnerDetails) : RunnerConfig := {|
  rn_ID := rr_ID (li_runner r);
  rn_Description := rr_Description (li_runner r);
  rn_Paused := ptr_true (match details with Some d => rd_Paused d | None => li_Paused r end);
  rn_Locked := details ≫= (fun d => ptr_true (rd_Locked d));
  rn_TagList := match details with Some d => rd_TagList d | None => [] end;
  rn_RunUntagged := details ≫= (fun d => ptr_true (rd_RunUntagged d));
  rn_AccessLevel := match details with Some d => rd_AccessLevel d | None => "" end;
  rn_MaximumTimeout := details ≫= (fun d => ptr_pos (rd_MaximumTimeout d))
|}.

Definition isRunnersEmpty (cfg : RunnersConfig) : bool :=
  negb (is_some (rns_SharedRunnersEnabled cfg)) && negb (is_some (rns_GroupRunnersEnabled cfg))
  && (length (rns_Runners cfg) =? 0)%nat.

Definition runnersOf (proj : option Project) (runners : list RunnerConfig) : RunnersConfig := {|
  rns_SharedRunnersEnabled := proj ≫= (fun p => ptr_true (p_SharedRunnersEnabled p));
  rns_GroupRunnersEnabled := proj ≫= (fun p => ptr_true (p_GroupRunnersEnabled p));
  rns_Runners := runners
|}.

Definition hookOf (h : ProjectHook) : WebhookConfig := {|
  wh_URL := hk_URL h;
  wh_PushEvents := ptr_true (hk_PushEvents h);
  wh_MergeRequestsEvents := ptr_true (hk_MergeRequestsEvents h);
  wh_TagPushEvents := ptr_true (hk_TagPushEvents h);
  wh_IssuesEvents := ptr_true (hk_IssuesEvents h);
  wh_PipelineEvents := ptr_true (hk_PipelineEvents h);
  wh_JobEvents := ptr_true (hk_JobEvents h);
  wh_ReleasesEvents := ptr_true (hk_ReleasesEvents h);
  wh_EnableSSLVerification := ptr_true (hk_EnableSSLVerification h);
  wh_SecretToken := "";
  wh_PushEventsBranchFilter := hk_PushEventsBranchFilter h
|}.

Definition memberOf `{GoCalendar} (m : Member) : MemberRuleConfig := {|
  mr_Username := me_Username m;
  mr_AccessLevel := me_AccessLevel m;
  mr_ExpiresAt := match me_ExpiresAt m with Some t => FormatDay t | None => "" end
|}.

Definition membersOf `{GoCalendar} (l : list Member) : MembersConfig :=
  Build_MembersConfig None None None None None (memberOf <$> l) [].

Definition complianceOf (fw : ComplianceFramework) : ComplianceConfig :=
  {| co_FrameworkName := cf_Name fw; co_FrameworkID := None; co_Prune := None |}.

Definition branchRulesOf (rules : list TargetBranchRule) : TargetBranchRulesConfig := {|
  tbrs_Prune := None;
  tbrs_Rules := (fun r => {| tbr_Name := tr_Name r; tbr_TargetBranch := tr_TargetBranch r |}) <$> rules
|}.

(** ** The inspections *)

(** A listing, page by page; [true] when a page that is not found ends it. *)
Fixpoint inspectPages {A} (list_page : Z -> InspectE (Reply (list A))) (fuel : nat) (page : Z) (all : list A)
  : IP (error + (list A * bool)) :=
  match fuel with
  | O => mret (inl errOutOfFuel)
  | S fuel' =>
      r ← call (list_page page);
      if isNotFound (r_err r) (r_resp r) then mret (inr (all, true))
      else match r_err r with
           | Some err => mret (inl err)
           | None =>
               let all := all ++ r_val r in
               match r_resp r with
               | None => mret (inr (all, false))
               | Some resp => if NextPage resp =? 0 then mret (inr (all, false))
                              else inspectPages list_page fuel' (NextPage resp) all
               end
           end
  end.

(** What an inspection makes of a listing, unless an error ends it. *)
Definition from_pages {A B} (f : list A -> bool -> B) (p : IP (error + (list A * bool))) : IP (error + B) :=
  r ← p; mret match r with inl err => inl err | inr (l, gone) => inr (f l gone) end.

Definition inspectPushRules (pid : Z) : IP (error + option PushRulesConfig) :=
  r ← call (Client (PushRules_ (GetPushRule OnProject pid)));
  mret (if isNotFound (r_err r) (r_resp r) then inr None
        else match r_val r with
             | None => inr None
             | Some rule =>
                 match r_err r with
                 | Some err => inl err
                 | None => let cfg := pushRulesOf rule in inr (if isPushRulesEmpty cfg then None else Some cfg)
                 end
             end).

(** A page that is not found discards the pages before it. *)
Definition inspectProtectedBranches (fuel : nat) (pid : Z) : IP (error + list ProtectedBranchRuleConfig) :=
  from_pages (fun branches gone => if gone then [] else branchRuleOf <$> branches)
    (inspectPages (fun page => Client (ProtectedBranches (ListProtectedBranches pid page))) fuel 1 []).

Definition inspectRules (pid : Z) (app : option ProjectApprovals) : IP (error + option ApprovalRulesConfig) :=
  r ← call (ApprovalRulesOf pid);
  let absent := isNotFound (r_err r) (r_resp r) in
  mret match (if absent then None else r_err r) with
       | Some err => inl err
       | None =>
           let rules := if absent then [] else r_val r in
           if negb (is_some app) && (length rules =? 0)%nat then inr None
           else let cfg := approvalRulesOf app rules in inr (if isApprovalRulesEmpty cfg then None else Some cfg)
       end.

Definition inspectApprovalRules (pid : Z) : IP (error + option ApprovalRulesConfig) :=
  a ← call (Client (ApprovalRules_ (GetApprovalConfiguration pid)));
  if isNotFound (r_err a) (r_resp a) then inspectRules pid None
  else match r_err a with
       | Some err => mret (inl err)
       | None => inspectRules pid (r_val a)
       end.

Definition inspectProjectSettings (pid : Z) (proj : option Project) : IP (error + option ProjectSettingsConfig) :=
  match proj with
  | Some proj => mret (inr (Some (projectSettingsOf proj)))
  | None =>
      r ← call (Client (Projects (GetProject pid)));
      mret (if isNotFound (r_err r) (r_resp r) then inr None
            else match r_val r with
                 | None => inr None
                 | Some p => match r_err r with Some err => inl err | None => inr (Some (projectSettingsOf p)) end
                 end)
  end.

Definition inspectPipelineRetention (pid : Z) : IP (error + option PipelineRetentionConfig) :=
  r ← call (Client (Projects (GetProjectPipelineRetention pid)));
  mret (if isNotFound (r_err r) (r_resp r) || (r_val r <=? 0) then inr None
        else match r_err r with Some err => inl err | None => inr (retentionOf (r_val r)) end).

Definition inspectVariables (fuel : nat) (pid : Z) (includePlaceholder : bool) : IP (error + list VariableConfig) :=
  from_pages (fun vars _ => variableOf includePlaceholder <$> vars) (inspectPages (VariablesPage pid) fuel 1 []).

(** The details of each runner; the error of the call is ignored. *)
Fixpoint inspectDetails (runners : list ListedRunner) : IP (list RunnerConfig) :=
  match runners with
  | [] => mret []
  | r :: rest => d ← call (RunnerOf (rr_ID (li_runner r))); cfgs ← inspectDetails rest; mret (runnerOf r d :: cfgs)
  end.

Definition inspectRunners (fuel : nat) (pid : Z) (proj : option Project) : IP (error + option RunnersConfig) :=
  proj ← match proj with
         | Some p => mret (Some p)
         | None => r ← call (Client (Projects (GetProject pid))); mret (r_val r)
         end;
  r ← inspectPages (RunnersPage pid) fuel 1 [];
  match r with
  | inl err => mret (inl err)
  | inr (runners, _) =>
      if negb (is_some proj) && (length runners =? 0)%nat then mret (inr None)
      else
        cfgs ← inspectDetails runners;
        let cfg := runnersOf proj cfgs in
        mret (inr (if isRunnersEmpty cfg then None else Some cfg))
  end.

(** An error is as good as no framework. *)
Definition inspectCompliance (pid : Z) : IP (error + option ComplianceConfig) :=
  r ← call (Client (Compliance (GetProjectComplianceFrameworks pid)));
  mret (inr match r with inr (fw :: _) => Some (complianceOf fw) | _ => None end).

Definition inspectWebhooks (fuel : nat) (pid : Z) : IP (error + list WebhookConfig) :=
  from_pages (fun hooks _ => hookOf <$> hooks) (inspectPages (HooksPage pid) fuel 1 []).

Definition inspectMembers `{GoCalendar} (fuel : nat) (pid : Z) : IP (error + option MembersConfig) :=
  from_pages (fun members _ => if (length members =? 0)%nat then None else Some (membersOf members))
    (inspectPages (MembersPage pid) fuel 1 []).

Definition inspectTargetBranchRules (path : string) : IP (error + option TargetBranchRulesConfig) :=
  r ← call (Client (TargetBranchRules (GetTargetBranchRules path)));
  mret (inr match r with inr ((_ :: _) as rules) => Some (branchRulesOf rules) | _ => None end).

(** ** A project *)

(** [if !opts.SkipReconcilers[name] && ctx.Err() == nil { ... }]: one section of
    the policy, left as it is when it is skipped or cannot be read. *)
Definition inspectSection {A} (opts : ExportOptions) (path name : string) (zero : A) (inspect : IP (error + A)) : IP A :=
  if xo_SkipReconcilers opts name then mret zero
  else
    c ← call (Client (Context_ CtxErr));
    match c with
    | Some _ => mret zero
    | None =>
        r ← inspect;
        match r with
        | inl err =>
            _ ← call (Warn ("WARNING: failed to inspect " +:+ name +:+ " for project " +:+ path +:+ ": " +:+ error_text err));
            mret zero
        | inr a => mret a
        end
    end.

Record ProjectPolicyExport : Type := {
  px_ProjectID : Z;
  px_ProjectPath : string;
  px_Policies : PoliciesConfig
}.

(** [proj.Raw], or the project fetched once. *)
Definition rawProject (pid : Z) (raw : option Project) : IP (option Project) :=
  match raw with
  | Some p => mret (Some p)
  | None =>
      r ← call (Client (Projects (GetProject pid)));
      mret match r_err r with Some _ => None | None => r_val r end
  end.

Definition inspectProject `{GoCalendar} (fuel : nat) (opts : ExportOptions) (pid : Z) (path : string) (raw : option Project)
  : IP ProjectPolicyExport :=
  let export pol := {| px_ProjectID := pid; px_ProjectPath := path; px_Policies := pol |} in
  c ← call (Client (Context_ CtxErr));
  match c with
  | Some _ => mret (export zero_Policies)
  | None =>
      rawProj ← rawProject pid raw;
      pr ← inspectSection opts path "push_rules" None (inspectPushRules pid);
      pb ← inspectSection opts path "protected_branches" [] (inspectProtectedBranches fuel pid);
      ar ← inspectSection opts path "approval_rules" None (inspectApprovalRules pid);
      ps ← inspectSection opts path "project_settings" None (inspectProjectSettings pid rawProj);
      pt ← inspectSection opts path "pipeline_retention" None (inspectPipelineRetention pid);
      vars ← inspectSection opts path "variables" [] (inspectVariables fuel pid (xo_IncludeSecretsPlaceholder opts));
      rn ← inspectSection opts path "runners" None (inspectRunners fuel pid rawProj);
      comp ← inspectSection opts path "compliance" None (inspectCompliance pid);
      wh ← inspectSection opts path "webhooks" [] (inspectWebhooks fuel pid);
      mem ← inspectSection opts path "members" None (inspectMembers fuel pid);
      tbr ← inspectSection opts path "target_branch_rules" None (inspectTargetBranchRules path);
      mret (export {|
        pol_PushRules := pr; pol_ProtectedBranches := pb; pol_ProtectedTags := None; pol_ProtectedEnvironments := None;
        pol_ApprovalRules := ar; pol_ProjectSettings := ps; pol_PipelineRetention := pt; pol_Variables := vars;
        pol_Runners := rn; pol_Compliance := comp; pol_Webhooks := wh; pol_Members := mem; pol_TargetBranchRules := tbr;
        pol_RepositoryFiles := []; pol_BranchMerges := [] |})
  end.

(** ** Reading only *)

Abbreviation inspects p := (only (fun X (e : InspectE X) => inspect_read e = true) p).

Lemma inspectPages_reads {A} (list_page : Z -> InspectE (Reply (list A))) fuel page all :
  (forall page, inspect_read (list_page page) = true) -> inspects (inspectPages list_page fuel page all).
Proof.
  intros Hr. revert page all. induction fuel as [|fuel IH]; intros page all; [done|]. cbn [inspectPages].
  apply only_bind; [by split|]. intros r. by repeat case_match.
Qed.

Lemma from_pages_reads {A B} (f : list A -> bool -> B) p : inspects p -> inspects (from_pages f p).
Proof. intros Hp. unfold from_pages. apply only_bind; [done|]. by intros [e|[l b]]. Qed.

Lemma inspectDetails_reads l : inspects (inspectDetails l).
Proof. induction l as [|r l IH]; cbn [inspectDetails]; [done|]. apply only_bind; [by split|]. intros d. by apply only_bind. Qed.

Lemma inspectSection_reads {A} opts path name (zero : A) p : inspects p -> inspects (inspectSection opts path name zero p).
Proof.
  intros Hp. unfold inspectSection. case_match; [done|]. apply only_bind; [by split|]. intros [e|]; [done|].
  apply only_bind; [done|]. by intros [e|a].
Qed.

Ltac inspects :=
  repeat first
    [ done | apply inspectSection_reads | apply from_pages_reads | apply inspectPages_reads | apply inspectDetails_reads
    | apply only_bind; [|intros] | progress intros | case_match | split ].

Lemma inspectProject_reads `{GoCalendar} fuel opts pid path raw : inspects (inspectProject fuel opts pid path raw).
Proof.
  unfold inspectProject, rawProject, inspectPushRules, inspectProtectedBranches, inspectApprovalRules, inspectRules,
    inspectProjectSettings, inspectPipelineRetention, inspectVariables, inspectRunners, inspectCompliance, inspectWebhooks,
    inspectMembers, inspectTargetBranchRules.
  inspects.
Qed.

(** ** What an export says of a project *)

(** What GitLab holds of a project. *)
Record live_project : Type := {
  lv_project : Project;
  lv_push : option PushRules;
  lv_branches : list ProtectedBranch;
  lv_approvals : ProjectApprovals;
  lv_rules : list InspectedRule;
  lv_retention : Z;
  lv_variables : list Variable_;
  lv_runners : list ListedRunner;
  lv_details : Z -> RunnerDetails;
  lv_frameworks : list ComplianceFramework;
  lv_hooks : list ProjectHook;
  lv_members : list Member;
  lv_targets : list TargetBranchRule
}.

Definition push_reply (r : option PushRules) : Reply (option PushRules) :=
  match r with Some r => reply_ok (Some r) | None => reply_err None 404 (ErrNew "404 Not Found") end.

(** A server that answers the exporter's questions about a project, as the API
    documents, and is not disturbed by them. *)
Record shows {W} (h : handler InspectE W) (pid : Z) (path : string) (live : live_project) (w : W) : Prop := {
  sh_ctx : h _ (Client (Context_ CtxErr)) w = (None, w);
  sh_project : h _ (Client (Projects (GetProject pid))) w = (reply_ok (Some (lv_project live)), w);
  sh_push : h _ (Client (PushRules_ (GetPushRule OnProject pid))) w = (push_reply (lv_push live), w);
  sh_branches : forall page, 1 <= page ->
    h _ (Client (ProtectedBranches (ListProtectedBranches pid page))) w = (page_of (lv_branches live) page, w);
  sh_approvals : h _ (Client (ApprovalRules_ (GetApprovalConfiguration pid))) w = (reply_ok (Some (lv_approvals live)), w);
  sh_rules : h _ (ApprovalRulesOf pid) w = (reply_ok (lv_rules live), w);
  sh_retention : h _ (Client (Projects (GetProjectPipelineRetention pid))) w = (reply_ok (lv_retention live), w);
  sh_variables : forall page, 1 <= page -> h _ (VariablesPage pid page) w = (page_of (lv_variables live) page, w);
  sh_runners : forall page, 1 <= page -> h _ (RunnersPage pid page) w = (page_of (lv_runners live) page, w);
  sh_details : forall i, h _ (RunnerOf i) w = (Some (lv_details live i), w);
  sh_frameworks : h _ (Client (Compliance (GetProjectComplianceFrameworks pid))) w = (inr (lv_frameworks live), w);
  sh_hooks : forall page, 1 <= page -> h _ (HooksPage pid page) w = (page_of (lv_hooks live) page, w);
  sh_members : forall page, 1 <= page -> h _ (MembersPage pid page) w = (page_of (lv_members live) page, w);
  sh_targets : h _ (Client (TargetBranchRules (GetTargetBranchRules path))) w = (inr (lv_targets live), w)
}.

(** [fuel] pages hold the listings. *)
Definition pages_fit (fuel : nat) (live : live_project) : Prop :=
  (length (lv_branches live) < per_page * fuel)%nat /\ (length (lv_variables live) < per_page * fuel)%nat /\
  (length (lv_runners live) < per_page * fuel)%nat /\ (length (lv_hooks live) < per_page * fuel)%nat /\
  (length (lv_members live) < per_page * fuel)%nat.

Definition section_of {A} (opts : ExportOptions) (name : string) (zero a : A) : A :=
  if xo_SkipReconcilers opts name then zero else a.

Definition some_unless {A} (empty : A -> bool) (a : A) : option A := if empty a then None else Some a.

(** The policies that ask for what GitLab holds. *)
Definition exported `{GoCalendar} (opts : ExportOptions) (raw : option Project) (live : live_project) : PoliciesConfig :=
  let proj := default (lv_project live) raw in {|
  pol_PushRules := section_of opts "push_rules" None (lv_push live ≫= fun r => some_unless isPushRulesEmpty (pushRulesOf r));
  pol_ProtectedBranches := section_of opts "protected_branches" [] (branchRuleOf <$> lv_branches live);
  pol_ProtectedTags := None;
  pol_ProtectedEnvironments := None;
  pol_ApprovalRules := section_of opts "approval_rules" None
    (some_unless isApprovalRulesEmpty (approvalRulesOf (Some (lv_approvals live)) (lv_rules live)));
  pol_ProjectSettings := section_of opts "project_settings" None (Some (projectSettingsOf proj));
  pol_PipelineRetention := section_of opts "pipeline_retention" None (retentionOf (lv_retention live));
  pol_Variables := section_of opts "variables" [] (variableOf (xo_IncludeSecretsPlaceholder opts) <$> lv_variables live);
  pol_Runners := section_of opts "runners" None
    (some_unless isRunnersEmpty
       (runnersOf (Some proj) ((fun r => runnerOf r (Some (lv_details live (rr_ID (li_runner r))))) <$> lv_runners live)));
  pol_Compliance := section_of opts "compliance" None (complianceOf <$> head (lv_frameworks live));
  pol_Webhooks := section_of opts "webhooks" [] (hookOf <$> lv_hooks live);
  pol_Members := section_of opts "members" None
    (if (length (lv_members live) =? 0)%nat then None else Some (membersOf (lv_members live)));
  pol_TargetBranchRules := section_of opts "target_branch_rules" None
    (match lv_targets live with [] => None | l => Some (branchRulesOf l) end);
  pol_RepositoryFiles := [];
  pol_BranchMerges := []
|}.

Section Shown.
Context `{GoCalendar} {W : Type} (h : handler InspectE W).

Lemma inspectPages_from {A} list_page (l : list A) w fuel page :
  (forall page, 1 <= page -> h _ (list_page page) w = (page_of l page, w)) -> 1 <= page ->
  page = 1 \/ (per_page * Z.to_nat (page - 1) < length l)%nat ->
  (length l < per_page * Z.to_nat (page - 1) + per_page * fuel)%nat ->
  run h (inspectPages list_page fuel page (take (per_page * Z.to_nat (page - 1)) l)) w = (inr (l, false), w).
Proof.
  intros Hl. revert page. induction fuel as [|fuel IH]; intros page Hp Hfirst Hf.
  { exfalso. rewrite Nat.mul_0_r, Nat.add_0_r in Hf. destruct Hfirst as [-> |]; [|lia].
    change (Z.to_nat (1 - 1)) with 0%nat in Hf. lia. }
  cbn [inspectPages]. rewrite run_bind, run_call, Hl by done.
  change (isNotFound (r_err (page_of l page)) (r_resp (page_of l page))) with false. cbv iota.
  cbn [r_err r_val r_resp page_of NextPage]. rewrite take_take_drop.
  assert (per_page * Z.to_nat (page - 1) + per_page = per_page * Z.to_nat (page + 1 - 1))%nat as He.
  { replace (Z.to_nat (page + 1 - 1)) with (S (Z.to_nat (page - 1))) by lia. lia. }
  destruct (Nat.ltb_spec (per_page * Z.to_nat (page - 1) + per_page) (length l)) as [Hlt|Hge].
  - rewrite (proj2 (Z.eqb_neq (page + 1) 0)) by lia. rewrite He. apply IH; [lia| |]; rewrite <- He; [by right|].
    rewrite Nat.mul_succ_r in Hf. lia.
  - cbv iota. by rewrite Z.eqb_refl, run_ret, take_ge by lia.
Qed.

Lemma inspectPages_run {A} list_page (l : list A) w fuel :
  (forall page, 1 <= page -> h _ (list_page page) w = (page_of l page, w)) -> (length l < per_page * fuel)%nat ->
  run h (inspectPages list_page fuel 1 []) w = (inr (l, false), w).
Proof.
  intros Hl Hf. apply (inspectPages_from list_page l w fuel 1 Hl); [lia|by left|].
  change (Z.to_nat (1 - 1)) with 0%nat. rewrite Nat.mul_0_r. lia.
Qed.

Lemma from_pages_run {A B} (f : list A -> bool -> B) list_page (l : list A) w fuel :
  (forall page, 1 <= page -> h _ (list_page page) w = (page_of l page, w)) -> (length l < per_page * fuel)%nat ->
  run h (from_pages f (inspectPages list_page fuel 1 [])) w = (inr (f l false), w).
Proof. intros Hl Hf. unfold from_pages. by rewrite run_bind, (inspectPages_run list_page l). Qed.

Lemma inspectSection_run {A} opts path name (zero a : A) p w :
  h _ (Client (Context_ CtxErr)) w = (None, w) -> run h p w = (inr a, w) ->
  run h (inspectSection opts path name zero p) w = (section_of opts name zero a, w).
Proof.
  intros Hc Hp. unfold inspectSection, section_of. destruct (xo_SkipReconcilers opts name); [done|].
  by rewrite run_bind, run_call, Hc, run_bind, Hp.
Qed.

Context (pid : Z) (path : string) (live : live_project) (w : W) (Hs : shows h pid path live w).

Lemma inspectDetails_run l :
  run h (inspectDetails l) w = ((fun r => runnerOf r (Some (lv_details live (rr_ID (li_runner r))))) <$> l, w).
Proof using Hs.
  induction l as [|r l IH]; cbn [inspectDetails]; [done|].
  by rewrite run_bind, run_call, (sh_details _ _ _ _ _ Hs), run_bind, IH.
Qed.

Lemma inspectPushRules_run :
  run h (inspectPushRules pid) w = (inr (lv_push live ≫= fun r => some_unless isPushRulesEmpty (pushRulesOf r)), w).
Proof using Hs. unfold inspectPushRules. rewrite run_bind, run_call, (sh_push _ _ _ _ _ Hs). by destruct (lv_push live). Qed.

Lemma inspectApprovalRules_run :
  run h (inspectApprovalRules pid) w =
    (inr (some_unless isApprovalRulesEmpty (approvalRulesOf (Some (lv_approvals live)) (lv_rules live))), w).
Proof using Hs.
  unfold inspectApprovalRules, inspectRules. rewrite run_bind, run_call, (sh_approvals _ _ _ _ _ Hs).
  cbn [r_err r_resp r_val reply_ok]. change (isNotFound None _) with false. cbv iota.
  by rewrite run_bind, run_call, (sh_rules _ _ _ _ _ Hs).
Qed.

Lemma inspectPipelineRetention_run :
  run h (inspectPipelineRetention pid) w = (inr (retentionOf (lv_retention live)), w).
Proof using Hs.
  unfold inspectPipelineRetention, retentionOf. rewrite run_bind, run_call, (sh_retention _ _ _ _ _ Hs), run_ret.
  cbn [r_err r_resp r_val reply_ok]. change (isNotFound None _) with false. cbn [orb].
  by destruct (lv_retention live <=? 0).
Qed.

Lemma inspectRunners_run fuel proj :
  (length (lv_runners live) < per_page * fuel)%nat ->
  run h (inspectRunners fuel pid (Some proj)) w =
    (inr (some_unless isRunnersEmpty (runnersOf (Some proj)
       ((fun r => runnerOf r (Some (lv_details live (rr_ID (li_runner r))))) <$> lv_runners live))), w).
Proof using Hs.
  intros Hf. unfold inspectRunners. rewrite run_bind, run_ret, run_bind, (inspectPages_run _ (lv_runners live)); [|apply (sh_runners _ _ _ _ _ Hs)|done].
  cbn [is_some negb andb]. by rewrite run_bind, inspectDetails_run.
Qed.

Lemma inspectCompliance_run :
  run h (inspectCompliance pid) w = (inr (complianceOf <$> head (lv_frameworks live)), w).
Proof using Hs. unfold inspectCompliance. rewrite run_bind, run_call, (sh_frameworks _ _ _ _ _ Hs). by destruct (lv_frameworks live). Qed.

Lemma inspectTargetBranchRules_run :
  run h (inspectTargetBranchRules path) w =
    (inr (match lv_targets live with [] => None | l => Some (branchRulesOf l) end), w).
Proof using Hs. unfold inspectTargetBranchRules. rewrite run_bind, run_call, (sh_targets _ _ _ _ _ Hs). by destruct (lv_targets live). Qed.

Lemma rawProject_run raw : run h (rawProject pid raw) w = (Some (default (lv_project live) raw), w).
Proof using Hs. destruct raw as [p|]; [done|]. unfold rawProject. by rewrite run_bind, run_call, (sh_project _ _ _ _ _ Hs). Qed.

Lemma inspectProject_run fuel opts raw :
  pages_fit fuel live ->
  run h (inspectProject fuel opts pid path raw) w =
    ({| px_ProjectID := pid; px_ProjectPath := path; px_Policies := exported opts raw live |}, w).
Proof using Hs.
  intros (Hb & Hv & Hr & Hh & Hm). pose proof (sh_ctx _ _ _ _ _ Hs) as Hc.
  pose proof (fun A name zero a p => inspectSection_run (A := A) opts path name zero a p w Hc) as Hsec.
  unfold inspectProject, inspectProtectedBranches, inspectVariables, inspectWebhooks, inspectMembers.
  rewrite run_bind, run_call, Hc, run_bind, rawProject_run.
  rewrite run_bind, (Hsec _ _ _ _ _ inspectPushRules_run).
  rewrite run_bind, (Hsec _ _ _ _ _ (from_pages_run (fun l (gone : bool) => if gone then [] else branchRuleOf <$> l)
    _ _ _ _ (sh_branches _ _ _ _ _ Hs) Hb)).
  rewrite run_bind, (Hsec _ _ _ _ _ inspectApprovalRules_run).
  rewrite run_bind, (Hsec _ _ _ (Some (projectSettingsOf (default (lv_project live) raw)))) by done.
  rewrite run_bind, (Hsec _ _ _ _ _ inspectPipelineRetention_run).
  rewrite run_bind, (Hsec _ _ _ _ _ (from_pages_run (fun l _ => variableOf (xo_IncludeSecretsPlaceholder opts) <$> l)
    _ _ _ _ (sh_variables _ _ _ _ _ Hs) Hv)).
  rewrite run_bind, (Hsec _ _ _ _ _ (inspectRunners_run fuel _ Hr)).
  rewrite run_bind, (Hsec _ _ _ _ _ inspectCompliance_run).
  rewrite run_bind, (Hsec _ _ _ _ _ (from_pages_run (fun l _ => hookOf <$> l) _ _ _ _ (sh_hooks _ _ _ _ _ Hs) Hh)).
  rewrite run_bind, (Hsec _ _ _ _ _ (from_pages_run (fun l _ => if (length l =? 0)%nat then None else Some (membersOf l))
    _ _ _ _ (sh_members _ _ _ _ _ Hs) Hm)).
  by rewrite run_bind, (Hsec _ _ _ _ _ inspectTargetBranchRules_run).
Qed.

End Shown.
