(* ===== verification/ExportPlan.v ===== *)
(** * Planning with an exported policy

    The exporter (Inspect.v) and the reconcilers are two views of the same live
    project.  Here they meet: a policy exported from a project states everything
    that the project is ([says_everything]), and the eleven reconcilers of the
    sections that are exported find nothing to change when they plan with it. *)

From S2P Require Import Prelude GoLib Config GitLabAPI Server Fetch Governance PushRules TargetBranchRules ProtectedBranches.
From S2P Require Import PipelineRetention ProjectSettings Compliance Variables Keyed ApprovalRules Webhooks Runners Members Inspect.
Local Open Scope string_scope.
Local Open Scope list_scope.
Local Open Scope Z_scope.

(** ** A record meets the policy made of it *)

Lemma ptr_true_Some b x : ptr_true b = Some x -> b = x.
Proof. destruct b; [by intros [= <-]|done]. Qed.

Lemma ptr_pos_Some z x : ptr_pos z = Some x -> z = x.
Proof. unfold ptr_pos. case_match; [by intros [= <-]|done]. Qed.

Lemma when_pos_id z : 0 <= z -> when_pos z = z.
Proof. unfold when_pos. case_match; lia. Qed.

#[local] Hint Resolve ptr_true_Some ptr_pos_Some : core.

Lemma pushRulesOf_meets r : push_rules_meet (pushRulesOf r) r.
Proof. unfold push_rules_meet. split_and!; cbn; auto. Qed.

Lemma projectSettingsOf_meets p : settings_meet (projectSettingsOf p) p.
Proof. unfold settings_meet. split_and!; cbn; auto. Qed.

Lemma variableOf_meets v : variable_meets (variableOf false v) v.
Proof. unfold variable_meets. split_and!; cbn; auto. Qed.

Lemma decl_key_variableOf b v : decl_key (variableOf b v) = Variables.live_key v.
Proof.
  unfold decl_key, decl_scope, Variables.live_key, varCompositeKey, or_string. cbn [variableOf v_Key v_EnvironmentScope].
  by destruct (va_EnvironmentScope v =? "")%string eqn:E; rewrite ?E.
Qed.

Lemma hookOf_meets h : hook_meets (hookOf h) h.
Proof. unfold hook_meets. split_and!; cbn; auto. Qed.

Lemma approvalSettingsOf_stated app rules s :
  effectiveApprovalSettings (approvalRulesOf (Some app) rules) = Some s -> settings_as_stated s app.
Proof.
  unfold effectiveApprovalSettings. case_match; [done|]. intros [= <-]. unfold settings_as_stated. cbn.
  unfold approvalSettingsOf.
  destruct app as [n [] [] [] [] [] []]; cbn; split_and!; intros x; unfold ptr_pos; try case_match; naive_solver.
Qed.

(** Levels and numbers of GitLab are not negative. *)
Definition nonnegative_access (l : BranchAccess) : Prop := 0 <= bl_AccessLevel l /\ 0 <= bl_UserID l /\ 0 <= bl_GroupID l.

Lemma access_exported l :
  Forall nonnegative_access l -> access_meets (liveAccessToBranchDescriptions l) l.
Proof.
  intros Hl. right. unfold liveAccessToDescriptions, liveAccessToBranchDescriptions. rewrite <- !list_fmap_compose.
  match goal with |- ?a ≡ₚ ?b => cut (a = b); [by intros ->|] end. apply list_fmap_ext. intros i x Hx. rewrite Forall_lookup in Hl.
  destruct (Hl i x Hx) as (? & ? & ?). unfold access_triple; cbn. by rewrite !when_pos_id.
Qed.

Lemma branchRuleOf_meets b :
  Forall nonnegative_access (br_PushAccessLevels b) -> Forall nonnegative_access (br_MergeAccessLevels b) ->
  Forall nonnegative_access (br_UnprotectAccessLevels b) -> branch_meets (branchRuleOf b) b.
Proof. intros Hp Hm Hu. unfold branch_meets. cbn. split_and!; auto using access_exported. Qed.

Lemma runnerOf_meets r d : runner_meets (runnerOf r (Some d)) d.
Proof.
  unfold runner_meets. split_and!; cbn; auto.
Qed.

Lemma runnersOf_switches p l : switches_meet (runnersOf (Some p) l) p.
Proof. split; cbn; auto. Qed.

(** ** Plans *)

Section Pure.
Context {W : Type} (hg : handler GitLabE W) (w : W).

(** Records matched by a key that all meet their entries. *)
Lemma planRecords_quiet {Rule Live Opt} (kd : keyed Rule Live Opt) m rules acc :
  Forall (fun rule => exists opt live, run hg (plan_options kd rule) w = (inr opt, w) /\ m !! rule_key kd rule = Some live /\
                        Diff_HasChanges (drift_diff kd rule live opt) = false) rules ->
  exists matched, run hg (planRecords kd m rules acc) w = (inr (acc.1, matched), w).
Proof.
  intros Hall. revert acc. induction Hall as [|rule rules (opt & lv & Ho & Hm & Hd) _ IH]; intros acc; cbn [planRecords].
  { exists acc.2. by destruct acc. }
  rewrite run_bind, Ho. unfold planRecord. rewrite Hm, Hd. apply (IH (acc.1, _)).
Qed.

Lemma planKeyed_quiet {Rule Live Opt} (kd : keyed Rule Live Opt) live_ rules diffs :
  Forall (fun rule => exists opt live, run hg (plan_options kd rule) w = (inr opt, w) /\
            live_by_key kd live_ !! rule_key kd rule = Some live /\ Diff_HasChanges (drift_diff kd rule live opt) = false) rules ->
  run hg (planKeyed kd false (Some <$> live_) rules diffs) w = (inr diffs, w).
Proof.
  intros Hall. unfold planKeyed. rewrite run_bind, omap_id_Some. destruct (planRecords_quiet kd _ _ (diffs, ∅) Hall) as [m ->]. done.
Qed.

(** The numbers of the named approvers are those that the exporter saw. *)
Lemma resolve_named (call_ : string -> GitLabE (error + Z)) (l : list (Z * string)) :
  (forall i name, (i, name) ∈ l -> name <> "" -> hg _ (call_ name) w = (inr i, w)) ->
  run hg (try_map (fun u => call (call_ u)) (given_names (named_of l))) w =
    (inr (fst <$> List.filter (fun x => negb (x.2 =? "")%string) l), w).
Proof.
  intros Hc. induction l as [|[i n] l IH]; [done|]. unfold named_of, given_names in *. rewrite fmap_cons. cbn [List.filter snd].
  destruct (String.eqb_spec n "") as [->|Hn]; cbn [negb].
  { apply IH. intros j m Hj. apply Hc. set_solver. }
  apply String.eqb_neq in Hn as Hn'. cbn [List.filter]. rewrite Hn'. cbn [negb try_map].
  rewrite run_bind, run_call, (Hc i n) by (done || set_solver). rewrite run_bind, IH; [done|].
  intros j m Hj. apply Hc. set_solver.
Qed.

Lemma sorted_ids_named (l : list (Z * string)) :
  NoDup (fst <$> l) -> Forall (fun x => 0 < x.1) l ->
  sorted_ids (unnamed_of l) (fst <$> List.filter (fun x => negb (x.2 =? "")%string) l) = sort_Ints (fst <$> l).
Proof.
  intros Hnd Hpos. unfold sorted_ids, sort_Ints. apply (merge_sort_unique Z.le).
  rewrite <- (elements_list_to_set (C := gset Z) (fst <$> l)) by done. f_equiv. intros i.
  unfold given_ids, unnamed_of. rewrite elem_of_union, !elem_of_list_to_set.
  rewrite list_elem_of_In, List.filter_In, <- list_elem_of_In, !list_elem_of_fmap.
  rewrite Forall_forall in Hpos. split.
  - intros [[(x & -> & Hx') _]|(x & -> & Hx')]; apply list_elem_of_In, List.filter_In in Hx' as [Hx' _]; exists x;
      (split; [done|by apply list_elem_of_In]).
  - intros ([j n] & -> & Hj). pose proof (Hpos _ Hj) as Hz. cbn in Hz |- *. destruct (String.eqb_spec n "") as [->|Hn].
    + left. split; [|lia]. exists (j, ""). split; [done|]. apply list_elem_of_In, List.filter_In. split; [by apply list_elem_of_In|]. cbn. lia.
    + right. exists (j, n). split; [done|]. apply list_elem_of_In, List.filter_In. split; [by apply list_elem_of_In|]. cbn.
      apply String.eqb_neq in Hn. by rewrite Hn.
Qed.

End Pure.


(** An approval rule as the reconciler reads it: with numbers. *)
Definition seen_rule (r : InspectedRule) : ProjectApprovalRule := {|
  ru_ID := ir_ID r; ru_Name := ir_Name r; ru_RuleType := ir_RuleType r; ru_ApprovalsRequired := ir_ApprovalsRequired r;
  ru_Users := Some <$> (us_ID <$> ir_Users r); ru_Groups := Some <$> (fst <$> ir_Groups r)
|}.

(** The calls that only the reconcilers make: listings of one page, and the
    numbers of the users and groups that the rules name. *)
Record lists_whole {W} (h : handler InspectE W) (pid : Z) (live : live_project) (w : W) : Prop := {
  lw_variables : h _ (Client (Variables (ListVariables OnProject pid))) w = (reply_ok (Some <$> lv_variables live), w);
  lw_hooks : h _ (Client (Webhooks_ (ListProjectHooks pid))) w = (reply_ok (Some <$> lv_hooks live), w);
  lw_runners : h _ (Client (Runners_ (ListProjectRunners pid))) w = (reply_ok (li_runner <$> lv_runners live), w);
  lw_details : forall i, h _ (Client (Runners_ (GetRunnerDetails i))) w = (reply_ok (lv_details live i), w);
  lw_rules : h _ (Client (ApprovalRules_ (GetProjectApprovalRules pid))) w = (reply_ok (Some <$> (seen_rule <$> lv_rules live)), w);
  lw_members : exists l, h _ (Client (Members_ (ListProjectMembers pid))) w = (reply_ok l, w);
  lw_all_members : exists l, h _ (Client (Members_ (ListAllProjectMembers pid))) w = (reply_ok l, w);
  lw_now : exists now, h _ (Client (Clock_ Now)) w = (now, w);
  lw_users : forall r i name, r ∈ lv_rules live -> (i, name) ∈ rule_users r -> name <> "" ->
    h _ (Client (Resolver_ (ResolveUsername ApprovalRules_Name name))) w = (inr i, w);
  lw_groups : forall r i name, r ∈ lv_rules live -> (i, name) ∈ ir_Groups r -> name <> "" ->
    h _ (Client (Resolver_ (ResolveGroupPath ApprovalRules_Name name))) w = (inr i, w)
}.

(** A live project whose export says everything: names are used once, numbers
    are not negative, no deploy key has access, the retention is of whole days, a runner is found again by
    its number and its description, the framework has a name, no value was
    replaced by a placeholder, and a rule without users has no one eligible
    either, since the export would name them. *)
Record exportable `{GoURLParse} (opts : ExportOptions) (live : live_project) : Prop := {
  ex_branches : NoDup (br_Name <$> lv_branches live);
  ex_access : Forall (fun b => Forall nonnegative_access (br_PushAccessLevels b) /\ Forall nonnegative_access (br_MergeAccessLevels b) /\
                               Forall nonnegative_access (br_UnprotectAccessLevels b)) (lv_branches live);
  ex_keyless : Forall keyless (lv_branches live);
  ex_sizes : from_option (fun r => 0 <= pr_MaxFileSize r) True (lv_push live) /\ 0 <= ap_ApprovalsBeforeMerge (lv_approvals live) /\
    from_option (fun c => 0 <= ce_KeepN c) True (p_ContainerExpirationPolicy (lv_project live)) /\
    (forall i, 0 <= rd_MaximumTimeout (lv_details live i));
  ex_retention : (86400 | lv_retention live) /\ 0 <= lv_retention live < 2 ^ 63;
  ex_variables : NoDup (Variables.live_key <$> lv_variables live);
  ex_clear : Forall (fun v => xo_IncludeSecretsPlaceholder opts && (va_Masked v || isSecretVariable (va_Key v)) = false)
               (lv_variables live);
  ex_runners : forall r1 r2, r1 ∈ lv_runners live -> r2 ∈ lv_runners live ->
    matches_runner (runnerOf r1 (Some (lv_details live (rr_ID (li_runner r1))))) (li_runner r2) = true ->
    rr_ID (li_runner r2) = rr_ID (li_runner r1);
  ex_numbered : Forall (fun r => 0 < rr_ID (li_runner r)) (lv_runners live);
  ex_framework : forall fw, head (lv_frameworks live) = Some fw -> cf_Name fw <> "";
  ex_hooks : NoDup (normalizeWebhookURL <$> (hk_URL <$> lv_hooks live));
  ex_targets : NoDup (tr_Name <$> lv_targets live);
  ex_rules : NoDup (approval_key <$> (ir_Name <$> lv_rules live));
  ex_approvers : Forall (fun r => (ir_Users r = [] -> omap id (ir_EligibleApprovers r) = []) /\
    NoDup (fst <$> rule_users r) /\ NoDup (fst <$> ir_Groups r) /\ Forall (fun x => 0 < x.1) (rule_users r ++ ir_Groups r))
    (lv_rules live)
}.

(** ** Specification: what a policy says *)

(** A field that a policy leaves out stands for the value GitLab gives to a new
    project: off, nothing, none. *)
Definition or_off (b : option bool) : bool := set_opt b false.
Definition or_none (z : option Z) : Z := set_opt z 0.

Definition push_said (c : option PushRulesConfig) : PushRules :=
  match c with
  | None => Build_PushRules "" "" "" "" "" 0 false false false false false false
  | Some c => {|
      pr_AuthorEmailRegex := prc_AuthorEmailRegex c; pr_BranchNameRegex := prc_BranchNameRegex c;
      pr_CommitMessageRegex := prc_CommitMessageRegex c; pr_CommitMessageNegativeRegex := prc_CommitMessageNegativeRegex c;
      pr_FileNameRegex := prc_FileNameRegex c; pr_MaxFileSize := or_none (prc_MaxFileSize c);
      pr_CommitCommitterCheck := or_off (prc_CommitCommitterCheck c); pr_MemberCheck := or_off (prc_MemberCheck c);
      pr_PreventSecrets := or_off (prc_PreventSecrets c); pr_DenyDeleteTag := or_off (prc_DenyDeleteTag c);
      pr_RejectUnsignedCommits := or_off (prc_RejectUnsignedCommits c); pr_RejectNonDCOCommits := or_off (prc_RejectNonDCOCommits c) |}
  end.

Definition access_said (d : BranchAccessDescription) : BranchAccess := {|
  bl_AccessLevel := ba_AccessLevel d; bl_UserID := ba_UserID d; bl_GroupID := ba_GroupID d; bl_DeployKeyID := ba_DeployKeyID d |}.

Definition branch_said (r : ProtectedBranchRuleConfig) : ProtectedBranch := {|
  br_Name := pb_Name r; br_PushAccessLevels := access_said <$> pb_AllowedToPush r;
  br_MergeAccessLevels := access_said <$> pb_AllowedToMerge r; br_UnprotectAccessLevels := access_said <$> pb_AllowedToUnprotect r;
  br_AllowForcePush := or_off (pb_AllowForcePush r); br_CodeOwnerApprovalRequired := or_off (pb_CodeOwnerApprovalRequired r) |}.

Definition approvals_said (c : option ApprovalRulesConfig) : ProjectApprovals :=
  let s := c ≫= ars_Settings in {|
  ap_ApprovalsBeforeMerge := or_none (c ≫= ars_ApprovalsBeforeMerge);
  ap_ResetApprovalsOnPush := or_off (c ≫= ars_ResetApprovalsOnPush);
  ap_MergeRequestsAuthorApproval := or_off (s ≫= aps_AllowAuthorApproval);
  ap_MergeRequestsDisableCommittersApproval := negb (set_opt (s ≫= aps_AllowCommitterApproval) true);
  ap_DisableOverridingApproversPerMergeRequest :=
    negb (set_opt (s ≫= aps_AllowOverridesToApproverListPerMergeRequest) true);
  ap_SelectiveCodeOwnerRemovals := or_off (s ≫= aps_SelectiveCodeOwnerRemovals);
  ap_RequirePasswordToApprove := or_off (s ≫= aps_RequirePasswordToApprove) |}.

(** The named ones by name, the others by number. *)
Definition names_all (names : list string) (ids : list Z) (l : list (Z * string)) : Prop :=
  (forall n, n ∈ names <-> n <> "" /\ exists i, (i, n) ∈ l) /\ (forall i, i ∈ ids <-> 0 < i /\ (i, "") ∈ l).

Definition rule_said (r : InspectedRule) (c : ApprovalRuleConfig) : Prop :=
  ar_Name c = ir_Name r /\ ar_ApprovalsRequired c = ir_ApprovalsRequired r /\ ar_RuleType c = ir_RuleType r /\
  names_all (ar_UserUsernames c) (ar_UserIDs c) ((fun u => (us_ID u, us_Username u)) <$> ir_Users r) /\
  names_all (ar_GroupPaths c) (ar_GroupIDs c) (ir_Groups r) /\
  names_all (ar_ProtectedBranchNames c) (ar_ProtectedBranchIDs c) (ir_ProtectedBranches r).

Definition settings_said (c : ProjectSettingsConfig) (p : Project) : Prop :=
  pj_DefaultBranch c = p_DefaultBranch p /\ pj_SquashOption c = p_SquashOption p /\ pj_MergeMethod c = p_MergeMethod p /\
  or_off (pj_OnlyAllowMergeIfPipelineSucceeds c) = p_OnlyAllowMergeIfPipelineSucceeds p /\
  or_off (pj_AllowMergeOnSkippedPipeline c) = p_AllowMergeOnSkippedPipeline p /\
  or_off (pj_OnlyAllowMergeIfAllDiscussionsAreResolved c) = p_OnlyAllowMergeIfAllDiscussionsAreResolved p /\
  or_off (pj_RemoveSourceBranchAfterMerge c) = p_RemoveSourceBranchAfterMerge p /\
  or_off (pj_KeepLatestArtifact c) = p_KeepLatestArtifact p /\
  or_off (pj_PrintingMergeRequestLinkEnabled c) = p_PrintingMergeRequestLinkEnabled p /\
  pj_AutoCancelPendingPipelines c = p_AutoCancelPendingPipelines p /\
  or_off (pj_AutoDevopsEnabled c) = p_AutoDevopsEnabled p /\
  ((fun e => Build_ContainerExpirationPolicy (cep_Cadence e) (or_off (cep_Enabled e)) (or_none (cep_KeepN e)) (cep_OlderThan e)
      (cep_NameRegex e) (cep_NameRegexDelete e) (cep_NameRegexKeep e)) <$> pj_ContainerExpirationPolicy c)
    = p_ContainerExpirationPolicy p.

Definition variable_said (v : VariableConfig) : Variable_ := {|
  va_Key := v_Key v; va_Value := v_Value v; va_VariableType := v_VariableType v; va_Protected := or_off (v_Protected v);
  va_Masked := or_off (v_Masked v); va_Raw := or_off (v_Raw v); va_EnvironmentScope := v_EnvironmentScope v;
  va_Description := v_Description v |}.

Definition runner_said (r : RunnerConfig) : Runner * RunnerDetails :=
  ({| rr_ID := rn_ID r; rr_Description := rn_Description r |},
   {| rd_Paused := or_off (rn_Paused r); rd_Locked := or_off (rn_Locked r); rd_RunUntagged := or_off (rn_RunUntagged r);
      rd_AccessLevel := rn_AccessLevel r; rd_MaximumTimeout := or_none (rn_MaximumTimeout r); rd_TagList := rn_TagList r |}).

(** A webhook, by what a policy can say of it: its number is GitLab's. *)
Definition hook_said (id : Z) (c : WebhookConfig) : ProjectHook := {|
  hk_ID := id; hk_URL := wh_URL c; hk_PushEvents := or_off (wh_PushEvents c);
  hk_MergeRequestsEvents := or_off (wh_MergeRequestsEvents c); hk_TagPushEvents := or_off (wh_TagPushEvents c);
  hk_IssuesEvents := or_off (wh_IssuesEvents c); hk_PipelineEvents := or_off (wh_PipelineEvents c);
  hk_JobEvents := or_off (wh_JobEvents c); hk_ReleasesEvents := or_off (wh_ReleasesEvents c);
  hk_EnableSSLVerification := or_off (wh_EnableSSLVerification c); hk_PushEventsBranchFilter := wh_PushEventsBranchFilter c |}.

(** The policies say everything that GitLab holds of the project, section by
    section, but for the sections the options skip.  Left out are approval rules
    that nobody has to approve, and all frameworks but the first. *)
Record says_everything `{GoCalendar} (opts : ExportOptions) (pol : PoliciesConfig) (live : live_project) : Prop := {
  se_push : xo_SkipReconcilers opts "push_rules" = false ->
    forall r, lv_push live = Some r -> push_said (pol_PushRules pol) = r;
  se_branches : xo_SkipReconcilers opts "protected_branches" = false ->
    branch_said <$> pol_ProtectedBranches pol = lv_branches live;
  se_approvals : xo_SkipReconcilers opts "approval_rules" = false ->
    approvals_said (pol_ApprovalRules pol) = lv_approvals live /\
    (forall c, c ∈ from_option ars_Rules [] (pol_ApprovalRules pol) -> exists r, r ∈ lv_rules live /\ rule_said r c) /\
    forall r, r ∈ lv_rules live -> ir_RuleType r = "any_approver" \/ ir_Users r <> [] \/ ir_Groups r <> [] ->
      exists a c, pol_ApprovalRules pol = Some a /\ c ∈ ars_Rules a /\ rule_said r c;
  se_settings : xo_SkipReconcilers opts "project_settings" = false ->
    exists c, pol_ProjectSettings pol = Some c /\ settings_said c (lv_project live);
  se_retention : xo_SkipReconcilers opts "pipeline_retention" = false ->
    86400 * from_option prt_RetentionDays 0 (pol_PipelineRetention pol) = lv_retention live;
  se_variables : xo_SkipReconcilers opts "variables" = false -> variable_said <$> pol_Variables pol = lv_variables live;
  se_runners : xo_SkipReconcilers opts "runners" = false ->
    or_off (pol_Runners pol ≫= rns_SharedRunnersEnabled) = p_SharedRunnersEnabled (lv_project live) /\
    or_off (pol_Runners pol ≫= rns_GroupRunnersEnabled) = p_GroupRunnersEnabled (lv_project live) /\
    runner_said <$> from_option rns_Runners [] (pol_Runners pol) =
      (fun r => (li_runner r, lv_details live (rr_ID (li_runner r)))) <$> lv_runners live;
  se_compliance : xo_SkipReconcilers opts "compliance" = false ->
    co_FrameworkName <$> pol_Compliance pol = cf_Name <$> head (lv_frameworks live);
  se_hooks : xo_SkipReconcilers opts "webhooks" = false ->
    zip_with hook_said (hk_ID <$> lv_hooks live) (pol_Webhooks pol) = lv_hooks live /\
    length (pol_Webhooks pol) = length (lv_hooks live);
  se_members : xo_SkipReconcilers opts "members" = false ->
    (fun m => (mr_Username m, mr_AccessLevel m, mr_ExpiresAt m)) <$> from_option mb_AllowedMembers [] (pol_Members pol) =
    (fun m => (me_Username m, me_AccessLevel m, from_option FormatDay "" (me_ExpiresAt m))) <$> lv_members live;
  se_targets : xo_SkipReconcilers opts "target_branch_rules" = false ->
    (fun r => (tbr_Name r, tbr_TargetBranch r)) <$> from_option tbrs_Rules [] (pol_TargetBranchRules pol) =
    (fun r => (tr_Name r, tr_TargetBranch r)) <$> lv_targets live
}.

(** ** Lemmas: the export says everything *)

Lemma or_off_ptr b : or_off (ptr_true b) = b.
Proof. by destruct b. Qed.

Lemma or_none_ptr z : 0 <= z -> or_none (ptr_pos z) = z.
Proof. intros Hz. unfold or_none, ptr_pos. destruct (Z.ltb_spec 0 z); simpl; lia. Qed.

(** A list read back entry by entry. *)
Lemma fmap_back {A B C} (f : A -> B) (g : B -> C) (k : A -> C) (l : list A) : (forall x, x ∈ l -> g (f x) = k x) -> g <$> (f <$> l) = k <$> l.
Proof. intros Hg. induction l as [|x l IH]; [done|]. rewrite !fmap_cons, Hg, IH by set_solver. done. Qed.

Lemma push_said_of r : 0 <= pr_MaxFileSize r -> push_said (some_unless isPushRulesEmpty (pushRulesOf r)) = r.
Proof.
  intros Hz. unfold some_unless. destruct (isPushRulesEmpty (pushRulesOf r)) eqn:He.
  - unfold isPushRulesEmpty, pushRulesOf in He. cbn in He. destruct r as [a b c d e z [] [] [] [] [] []]; cbn in *;
      rewrite ?andb_false_r in He; try discriminate.
    rewrite !andb_true_iff, !String.eqb_eq in He. destruct He as [[[[[[[[[[[-> ->] ->] ->] ->] He] _] _] _] _] _] _].
    unfold ptr_pos in He. destruct (Z.ltb_spec 0 z); [done|]. f_equal. lia.
  - destruct r. unfold push_said, pushRulesOf; cbn in *. by rewrite !or_off_ptr, or_none_ptr.
Qed.

Lemma access_said_of l :
  Forall nonnegative_access l -> Forall (fun a => bl_DeployKeyID a = 0) l ->
  access_said <$> liveAccessToBranchDescriptions l = l.
Proof.
  intros Hn Hk. unfold liveAccessToBranchDescriptions. rewrite (fmap_back _ _ id); [apply list_fmap_id|]. intros x Hx.
  rewrite Forall_forall in Hn, Hk. destruct (Hn x Hx) as (? & ? & ?). specialize (Hk x Hx). destruct x. unfold access_said; cbn in *.
  by rewrite !when_pos_id, Hk.
Qed.

Lemma approvals_said_of a rules :
  0 <= ap_ApprovalsBeforeMerge a -> approvals_said (some_unless isApprovalRulesEmpty (approvalRulesOf (Some a) rules)) = a.
Proof.
  intros Hz. unfold some_unless. destruct (isApprovalRulesEmpty _) eqn:He.
  - unfold isApprovalRulesEmpty, approvalRulesOf, approvalSettingsOf in He. cbn in He.
    destruct a as [z [] [] [] [] [] []]; cbn in He; rewrite ?andb_false_r in He; try discriminate.
    rewrite !andb_true_iff in He. destruct He as [[[He _] _] _]. unfold ptr_pos in He. cbn in Hz.
    destruct (Z.ltb_spec 0 z); [done|]. unfold approvals_said. cbn. f_equal. lia.
  - unfold approvals_said, approvalRulesOf, approvalSettingsOf. cbn. rewrite or_none_ptr, or_off_ptr by done.
    by destruct a as [z r [] [] [] [] []].
Qed.

Lemma names_all_of l : names_all (named_of l) (unnamed_of l) l.
Proof.
  unfold names_all, named_of, unnamed_of. split.
  - intros n. rewrite list_elem_of_In, List.filter_In, <- list_elem_of_In, list_elem_of_fmap, negb_true_iff, String.eqb_neq.
    split; [intros [([i m] & -> & Hin) Hn]; eauto|intros [Hn (i & Hin)]; split; [by exists (i, n)|done]].
  - intros i. rewrite list_elem_of_fmap. split.
    + intros ([j n] & -> & Hx). apply list_elem_of_In, List.filter_In in Hx as [Hx Hc]. cbn in Hc |- *.
      apply andb_true_iff in Hc as [->%String.eqb_eq Hc%Z.ltb_lt]. split; [done|by apply list_elem_of_In].
    + intros [Hi Hx]. exists (i, ""). split; [done|]. apply list_elem_of_In, List.filter_In. split; [by apply list_elem_of_In|].
      cbn. by apply Z.ltb_lt.
Qed.

(** A list with a positive number in it names someone. *)
Lemma named_or_not l : l <> [] -> Forall (fun x => 0 < x.1) l -> nonempty_slice (named_of l) || nonempty_slice (unnamed_of l) = true.
Proof.
  intros Hl Hpos. destruct l as [|[i n] l]; [done|]. apply Forall_cons in Hpos as [Hi _]. cbn in Hi.
  unfold named_of, unnamed_of. rewrite fmap_cons. cbn [List.filter snd fst].
  destruct (String.eqb_spec n "") as [->|Hn]; cbn [negb]; [|done]. rewrite (proj2 (Z.ltb_lt 0 i) Hi). cbn [andb].
  rewrite fmap_cons. by rewrite orb_true_r.
Qed.

Lemma rule_said_of r :
  (ir_Users r = [] -> omap id (ir_EligibleApprovers r) = []) -> rule_said r (approvalRuleOf r).
Proof.
  intros He. assert (rule_users r = (fun u => (us_ID u, us_Username u)) <$> ir_Users r) as Hu.
  { unfold rule_users. destruct (ir_Users r); [|done]. cbn [length Nat.eqb]. by rewrite He. }
  unfold rule_said, approvalRuleOf. cbn. rewrite Hu. split_and!; [done..| | |]; apply names_all_of.
Qed.

Lemma settings_said_of p :
  from_option (fun c => 0 <= ce_KeepN c) True (p_ContainerExpirationPolicy p) -> settings_said (projectSettingsOf p) p.
Proof.
  intros Hk. unfold settings_said, projectSettingsOf. cbn. rewrite !or_off_ptr. split_and!; try done.
  destruct (p_ContainerExpirationPolicy p) as [c|]; [|done]. cbn in *. by rewrite or_off_ptr, or_none_ptr by done; destruct c.
Qed.

Lemma runner_said_of r d :
  0 <= rd_MaximumTimeout d -> runner_said (runnerOf r (Some d)) = (li_runner r, d).
Proof. intros Hd. destruct r as [[] ?], d. unfold runner_said, runnerOf; cbn in *. by rewrite !or_off_ptr, or_none_ptr. Qed.

Section Quiet.
Context `{GoCalendar} `{GoURLParse} {W : Type} (h : handler InspectE W) (project : Project) (live : live_project) (w : W).
Context (Hs : shows h (p_ID project) (p_PathWithNamespace project) live w).
Context (Hl : lists_whole h (p_ID project) live w).
Context (fuel : nat) (Hf : pages_fit fuel live).
Context (opts : ExportOptions) (Hx : exportable opts live).
Context (raw : option Project) (Hraw : default (lv_project live) raw = lv_project live).
Context (policy : PolicyConfig) (Hp : cfg_Policies policy = exported opts raw live).

Abbreviation hc := (as_client h).
Abbreviation nothing name := (noop_plan name OnProject (p_ID project) (p_PathWithNamespace project)).

Lemma PushRules_quiet : run hc (PushRules_Plan (Some policy) project) w = (nothing PushRules_Name, w).
Proof using Hs Hp.
  unfold PushRules_Plan, planPushRules, push_policy. rewrite Hp. unfold exported, section_of. cbn [pol_PushRules].
  destruct (xo_SkipReconcilers opts _); [done|]. destruct (lv_push live) as [r|] eqn:E; [|done]. cbn [mbind option_bind].
  unfold some_unless. destruct (isPushRulesEmpty _); [done|]. rewrite run_bind, run_call. unfold as_client.
  rewrite (sh_push _ _ _ _ _ Hs), E. cbn [push_reply reply_ok r_err r_val r_resp].
  change (isNotFound None _) with false. cbv iota.
  by rewrite (proj2 (buildProjectUpdateDiff_quiet _ _) (pushRulesOf_meets r)).
Qed.

Lemma ProtectedBranches_quiet : run hc (ProtectedBranches_Plan fuel (Some policy) project) w = (nothing ProtectedBranches_Name, w).
Proof using Hs Hf Hx Hp.
  unfold ProtectedBranches_Plan, branches_policy. rewrite Hp. unfold exported, section_of. cbn [pol_ProtectedBranches].
  destruct (xo_SkipReconcilers opts _); [done|].
  assert (Forall (rule_ok (live_map (lv_branches live))) (branchRuleOf <$> lv_branches live)) as Hok.
  { apply Forall_fmap, Forall_forall. intros b Hb. pose proof (ex_access _ _ Hx) as Ha. rewrite Forall_forall in Ha.
    destruct (Ha b Hb) as (? & ? & ?). exists b. split; [|by apply branchRuleOf_meets].
    by apply (map_by_lookup br_Name); [apply (ex_branches _ _ Hx)|]. }
  destruct (branchRuleOf <$> lv_branches live) as [|rule rules]; [done|].
  unfold fetchAllLiveProtectedBranches. rewrite run_bind, (fetchPages_run hc _ (lv_branches live)); [|exact (sh_branches _ _ _ _ _ Hs)|apply Hf].
  apply planRules_nil in Hok. destruct (planRules _ _ _) as [diffs a]. cbn in Hok. by subst.
Qed.

Lemma ProjectSettings_quiet : run hc (ProjectSettings_Plan (Some policy) project) w = (nothing ProjectSettings_Name, w).
Proof using Hs Hraw Hp.
  unfold ProjectSettings_Plan, settings_policy. rewrite Hp. unfold exported, section_of. cbn [pol_ProjectSettings].
  destruct (xo_SkipReconcilers opts _); [done|]. rewrite Hraw, run_bind, run_call. unfold as_client. rewrite (sh_project _ _ _ _ _ Hs).
  cbn [reply_ok r_err r_val]. by rewrite (proj2 (buildProjectSettingsDiff_quiet _ _) (projectSettingsOf_meets _)).
Qed.

Lemma PipelineRetention_quiet : run hc (PipelineRetention_Plan (Some policy) project) w = (nothing PipelineRetention_Name, w).
Proof using Hs Hx Hp.
  unfold PipelineRetention_Plan, retention_policy. rewrite Hp. unfold exported, section_of. cbn [pol_PipelineRetention].
  destruct (xo_SkipReconcilers opts _); [done|]. unfold retentionOf. destruct (Z.leb_spec (lv_retention live) 0) as [|Hpos]; [done|].
  destruct (ex_retention _ _ Hx) as [[d Hd] Hmax]. rewrite Hd, Z.quot_mul by lia. destruct (Z.leb_spec d 0); [done|].
  rewrite run_bind, run_call. unfold as_client. rewrite (sh_retention _ _ _ _ _ Hs). cbn [reply_ok r_err r_val].
  unfold PipelineRetention_Seconds. cbn [prt_RetentionDays]. rewrite wrap64_id by (unfold int64_range; lia).
  by rewrite Hd, Z.eqb_refl.
Qed.

Lemma Compliance_quiet : run hc (Compliance_Plan (Some policy) project) w = (nothing Compliance_Name, w).
Proof using Hs Hx Hp.
  unfold Compliance_Plan, compliance_policy. rewrite Hp. unfold exported, section_of. cbn [pol_Compliance].
  destruct (xo_SkipReconcilers opts _); [done|]. pose proof (ex_framework _ _ Hx) as Hn.
  destruct (lv_frameworks live) as [|fw fws] eqn:E; [done|]. cbn [head hd_error fmap option_fmap option_map] in Hn |- *.
  specialize (Hn fw eq_refl). unfold calculateComplianceDiffs. rewrite run_bind, run_bind, run_call. unfold as_client.
  rewrite (sh_frameworks _ _ _ _ _ Hs), E, run_ret. unfold complianceDiffs, wantsPrune, frameworkMatches. cbn.
  apply String.eqb_neq in Hn. rewrite Hn. cbn. unfold EqualFold. rewrite String.eqb_refl. by destruct (cf_ID fw =? cf_Name fw)%string.
Qed.

Lemma Variables_quiet : run hc (Variables_Plan false (Some policy) project) w = (nothing Variables_Name, w).
Proof using Hl Hx Hp.
  unfold Variables_Plan, planVariables, variables_policy. rewrite Hp. unfold exported, section_of. cbn [pol_Variables].
  destruct (xo_SkipReconcilers opts _); [done|].
  assert (variableDiffs OnProject false (variableOf (xo_IncludeSecretsPlaceholder opts) <$> lv_variables live)
    (Some <$> lv_variables live) = []) as Hd.
  { apply variableDiffs_nil, Forall_fmap, Forall_forall. intros v Hv. pose proof (ex_clear _ _ Hx) as Hc. rewrite Forall_forall in Hc.
    exists v. unfold live_vars_map. rewrite non_nil_Some. split.
    - rewrite decl_key_variableOf. apply (map_by_lookup Variables.live_key); [apply (ex_variables _ _ Hx)|done].
    - replace (variableOf _ v) with (variableOf false v); [apply variableOf_meets|]. unfold variableOf. by rewrite (Hc v Hv). }
  destruct (variableOf _ <$> lv_variables live) as [|d ds]; [done|]. rewrite run_bind, run_call. unfold as_client.
  rewrite (lw_variables _ _ _ _ Hl). cbn [reply_ok r_err r_val]. by rewrite Hd.
Qed.

Lemma TargetBranchRules_quiet : run hc (TargetBranchRules_Plan (Some policy) project) w = (nothing TargetBranchRules_Name, w).
Proof using Hs Hx Hp.
  unfold TargetBranchRules_Plan, rules_policy. rewrite Hp. unfold exported, section_of. cbn [pol_TargetBranchRules].
  destruct (xo_SkipReconcilers opts _); [done|]. pose proof (ex_targets _ _ Hx) as Hn.
  destruct (lv_targets live) as [|t ts] eqn:E; [done|]. rewrite run_bind, run_call. unfold as_client.
  rewrite (sh_targets _ _ _ _ _ Hs), E. set (l := t :: ts) in *.
  assert (tbr_Name <$> tbrs_Rules (branchRulesOf l) = tr_Name <$> l) as Hnames by (unfold branchRulesOf; cbn [tbrs_Rules]; by rewrite <- list_fmap_compose).
  assert ((calculateDiffs l (branchRulesOf l)).1 = []) as Hd.
  { apply calculateDiffs_meet; [done|by rewrite Hnames|]. split; [|done].
    rewrite List_filter_true.
    - unfold branchRulesOf. cbn [tbrs_Rules]. by rewrite <- list_fmap_compose.
    - intros r Hr. apply managed_spec. rewrite Hnames. by apply list_elem_of_fmap_2. }
  destruct (calculateDiffs l _) as [diffs a]. cbn in Hd. by subst.
Qed.

Lemma Webhooks_quiet : run hc (Webhooks_Plan false (Some policy) project) w = (nothing Webhooks_Name, w).
Proof using Hl Hx Hp.
  unfold Webhooks_Plan, hooks_policy. rewrite Hp. unfold exported, section_of. cbn [pol_Webhooks].
  destruct (xo_SkipReconcilers opts _); [done|].
  assert (run hc (calculateWebhooksDiffs false (hookOf <$> lv_hooks live) (p_ID project)) w = (inr [], w)) as Hd.
  { unfold calculateWebhooksDiffs. rewrite run_bind, run_call. unfold as_client at 1. rewrite (lw_hooks _ _ _ _ Hl).
    cbn [reply_ok r_err r_val]. apply (planKeyed_quiet hc w (hooks_of (p_ID project))). apply Forall_fmap, Forall_forall. intros k Hk.
    exists tt, k. split_and!; [done| |by apply updateHookDiff_quiet, hookOf_meets].
    apply (map_by_lookup (fun h => normalizeWebhookURL (hk_URL h))); [|done].
    pose proof (ex_hooks _ _ Hx) as Hn. by rewrite <- list_fmap_compose in Hn. }
  destruct (hookOf <$> lv_hooks live) as [|d ds]; [done|]. by rewrite run_bind, Hd.
Qed.

Lemma runnersDiffs_quiet l diffs :
  (forall r, r ∈ l -> r ∈ lv_runners live) ->
  run hc (runnersDiffs (li_runner <$> lv_runners live)
    ((fun r => runnerOf r (Some (lv_details live (rr_ID (li_runner r))))) <$> l) diffs) w = (inr diffs, w).
Proof using Hl Hx.
  clear Hs Hf Hp Hraw. revert diffs. induction l as [|r l IH]; intros diffs Hin; [done|]. rewrite fmap_cons. cbn [runnersDiffs].
  set (cfg := runnerOf r _). assert (r ∈ lv_runners live) as Hr by (apply Hin; set_solver).
  assert (matches_runner cfg (li_runner r) = true) as Hm.
  { unfold matches_runner, cfg. cbn [rn_ID runnerOf]. pose proof (ex_numbered _ _ Hx) as Hn. rewrite Forall_forall in Hn.
    rewrite Z.eqb_refl, (proj2 (Z.ltb_lt _ _) (Hn r Hr)). done. }
  unfold findMatchingRunner. destruct (List.find (matches_runner cfg) (li_runner <$> lv_runners live)) as [m|] eqn:E.
  2: { exfalso. pose proof (List.find_none _ _ E (li_runner r)) as Hn. rewrite Hm in Hn. by specialize (Hn ltac:(apply list_elem_of_In; set_solver)). }
  apply List.find_some in E as [Hi E]. apply list_elem_of_In, list_elem_of_fmap in Hi as (r2 & -> & Hr2).
  rewrite (ex_runners _ _ Hx r r2 Hr Hr2 E), run_bind, run_call. unfold as_client at 1. rewrite (lw_details _ _ _ _ Hl).
  cbn [reply_ok r_err r_val]. unfold append_changed.
  rewrite (proj2 (runnerDiff_quiet _ _ _) (runnerOf_meets r (lv_details live (rr_ID (li_runner r))))). apply IH. set_solver.
Qed.

Lemma Runners_quiet : run hc (Runners_Plan (Some policy) project) w = (nothing Runners_Name, w).
Proof using All.
  unfold Runners_Plan, runners_policy. rewrite Hp. unfold exported, section_of. cbn [pol_Runners].
  destruct (xo_SkipReconcilers opts _); [done|]. rewrite Hraw. unfold some_unless. destruct (isRunnersEmpty _); [done|].
  rewrite run_bind. unfold calculateProjectDiffs. rewrite run_bind, run_call. unfold as_client at 1. rewrite (sh_project _ _ _ _ _ Hs).
  cbn [reply_ok r_err r_val]. unfold append_changed.
  rewrite (proj2 (settingsDiff_quiet _ _) (runnersOf_switches (lv_project live) _)). cbn [rns_Runners runnersOf].
  pose proof (runnersDiffs_quiet (lv_runners live) [] ltac:(done)) as Hd.
  set (cfgs := (fun r => runnerOf r (Some (lv_details live (rr_ID (li_runner r))))) <$> lv_runners live) in *.
  clearbody cfgs. destruct cfgs as [|c cs]; [done|].
  rewrite run_bind, run_call. unfold as_client at 1. rewrite (lw_runners _ _ _ _ Hl). cbn [reply_ok r_err r_val]. by rewrite Hd.
Qed.

Lemma planApprovers_exported r :
  r ∈ lv_rules live ->
  run hc (planApprovers (approvalRuleOf r)) w =
    (inr (sort_Ints (omap id (ru_Users (seen_rule r))), sort_Ints (omap id (ru_Groups (seen_rule r)))), w).
Proof using Hl Hx.
  clear Hs Hf Hp Hraw. intros Hr. pose proof (ex_approvers _ _ Hx) as Ha. rewrite Forall_forall in Ha.
  destruct (Ha r Hr) as (He & Hu & Hg & Hpos). apply Forall_app in Hpos as [Hpu Hpg].
  assert (fst <$> rule_users r = us_ID <$> ir_Users r) as Hru.
  { unfold rule_users. rewrite <- list_fmap_compose. destruct (ir_Users r); [|done]. cbn [length Nat.eqb]. by rewrite He. }
  unfold planApprovers, resolveUserIDs, resolveGroupIDs. cbn [ar_UserUsernames ar_UserIDs ar_GroupPaths ar_GroupIDs approvalRuleOf].
  rewrite !run_bind, (resolve_named hc w (fun u => Resolver_ (ResolveUsername ApprovalRules_Name u)) (rule_users r)).
  2: { intros i n Hi Hn. by apply (lw_users _ _ _ _ Hl r). }
  rewrite run_ret, run_bind, run_bind, (resolve_named hc w (fun u => Resolver_ (ResolveGroupPath ApprovalRules_Name u)) (ir_Groups r)).
  2: { intros i n Hi Hn. by apply (lw_groups _ _ _ _ Hl r). }
  rewrite !run_ret, !sorted_ids_named by done. cbn [ru_Users ru_Groups seen_rule]. by rewrite !omap_id_Some, Hru.
Qed.

Lemma ApprovalRules_quiet : run hc (ApprovalRules_Plan (Some policy) project) w = (nothing ApprovalRules_Name, w).
Proof using Hs Hl Hx Hp.
  clear Hf Hraw. unfold ApprovalRules_Plan, approvals_policy. rewrite Hp. unfold exported, section_of. cbn [pol_ApprovalRules].
  destruct (xo_SkipReconcilers opts _); [done|]. unfold some_unless. destruct (isApprovalRulesEmpty _); [done|].
  set (c := approvalRulesOf (Some (lv_approvals live)) (lv_rules live)). rewrite run_bind.
  assert (run hc (planSettings (p_ID project) c) w = (inr [], w)) as ->.
  { unfold planSettings. pose proof (approvalSettingsOf_stated (lv_approvals live) (lv_rules live)) as Hst. fold c in Hst.
    destruct (effectiveApprovalSettings c) as [s|]; [|done]. rewrite run_bind, run_call. unfold as_client. rewrite (sh_approvals _ _ _ _ _ Hs).
    cbn [reply_ok r_err r_val]. by rewrite run_ret, (proj2 (diffApprovalSettings_quiet _ _) (Hst s eq_refl)). }
  rewrite run_bind, run_call. unfold as_client at 1. rewrite (lw_rules _ _ _ _ Hl). cbn [reply_ok r_err r_val].
  rewrite run_bind. change (set_opt (ars_Prune c) false) with false. rewrite (planKeyed_quiet hc w (approval_rules (p_ID project))); [done|].
  apply Forall_forall. intros rule Hrule. apply list_elem_of_In, List.filter_In in Hrule as [Hrule _].
  apply list_elem_of_In, list_elem_of_fmap in Hrule as (r & -> & Hr).
  eexists _, (seen_rule r). split_and!; [by apply planApprovers_exported| |by apply diffSingleRule_quiet].
  apply (map_by_lookup (fun lr => approval_key (ru_Name lr)) _ (seen_rule r)); [|by apply list_elem_of_fmap_2].
  rewrite <- list_fmap_compose. pose proof (ex_rules _ _ Hx) as Hn. by rewrite <- list_fmap_compose in Hn.
Qed.

Lemma Members_quiet : run hc (Members_Plan (Some policy) project) w = (nothing Members_Name, w).
Proof using Hl Hp.
  clear Hs Hf Hx Hraw. unfold Members_Plan, members_policy. rewrite Hp. unfold exported, section_of. cbn [pol_Members].
  destruct (xo_SkipReconcilers opts _); [done|]. destruct (length (lv_members live) =? 0)%nat; [done|].
  destruct (lw_members _ _ _ _ Hl) as [d Hd], (lw_all_members _ _ _ _ Hl) as [a Ha], (lw_now _ _ _ _ Hl) as [now Hn].
  unfold planMembers, auditProjectMembers. rewrite !run_bind, run_call. unfold as_client at 1. rewrite Hd. cbn [reply_ok r_err r_val].
  rewrite run_bind, run_call. unfold as_client at 1. rewrite Ha. cbn [reply_ok r_err r_val].
  rewrite run_bind, run_call. unfold as_client at 1. rewrite Hn, !run_ret.
  assert (memberFindings (membersOf (lv_members live)) now (present d) (present a) = []) as ->; [|done].
  unfold memberFindings. induction (present a) as [|m l IH]; [done|]. rewrite bind_cons, IH, app_nil_r.
  apply checkMember_nil. unfold compliant, not_denied. cbn. split_and!; [set_solver|done..].
Qed.

Lemma exported_says : says_everything opts (exported opts raw live) live.
Proof using Hx Hraw.
  clear Hs Hl Hf Hp. destruct (ex_sizes _ _ Hx) as (Hpush & Happ & Hkeep & Htime).
  unfold exported. rewrite Hraw. split; cbn -[Z.mul]; intros Hsk; unfold section_of; rewrite Hsk; cbn -[Z.mul].
  - intros r Hr. rewrite Hr in Hpush |- *. by apply push_said_of.
  - pose proof (ex_access _ _ Hx) as Ha. pose proof (ex_keyless _ _ Hx) as Hk. rewrite Forall_forall in Ha, Hk.
    rewrite (fmap_back _ _ id); [apply list_fmap_id|]. intros b Hb. destruct (Ha b Hb) as (? & ? & ?).
    specialize (Hk b Hb). unfold keyless in Hk. rewrite !Forall_cons in Hk. destruct Hk as (? & ? & ? & _).
    destruct b. unfold branch_said, branchRuleOf; cbn in *. by rewrite !access_said_of, !or_off_ptr.
  - pose proof (ex_approvers _ _ Hx) as Ha. rewrite Forall_forall in Ha. split; [by apply approvals_said_of|]. split.
    { intros c Hc. assert (c ∈ List.filter keeps_rule (approvalRuleOf <$> lv_rules live)) as Hin.
      { unfold some_unless in Hc. destruct (isApprovalRulesEmpty _); [by apply elem_of_nil in Hc|exact Hc]. }
      apply list_elem_of_In, List.filter_In in Hin as [Hin _]. apply list_elem_of_In, list_elem_of_fmap in Hin as (r & -> & Hr).
      exists r. split; [done|]. apply rule_said_of. by destruct (Ha r Hr). }
    intros r Hr Hsome.
    destruct (Ha r Hr) as (He & _ & _ & Hpos). apply Forall_app in Hpos as [Hpu Hpg].
    assert (approvalRuleOf r ∈ List.filter keeps_rule (approvalRuleOf <$> lv_rules live)) as Hin.
    { apply list_elem_of_In, List.filter_In. split; [by apply list_elem_of_In, list_elem_of_fmap_2|].
      unfold keeps_rule. cbn [approvalRuleOf ar_RuleType ar_UserUsernames ar_UserIDs ar_GroupPaths ar_GroupIDs].
      destruct Hsome as [->|[Hu|Hg]]; [done| |].
      - rewrite (named_or_not (rule_users r)), ?orb_true_r; [done| |done]. unfold rule_users. by destruct (ir_Users r).
      - rewrite <- !orb_assoc, (named_or_not (ir_Groups r)), !orb_true_r; done. }
    unfold some_unless. destruct (isApprovalRulesEmpty _) eqn:Hem.
    { exfalso. unfold isApprovalRulesEmpty in Hem. cbn in Hem. rewrite !andb_true_iff in Hem. destruct Hem as [_ Hem].
      apply Nat.eqb_eq, nil_length_inv in Hem. rewrite Hem in Hin. by apply elem_of_nil in Hin. }
    eexists _, _. split; [done|]. split; [exact Hin|]. by apply rule_said_of.
  - eexists. split; [done|]. by apply settings_said_of.
  - unfold retentionOf. destruct (ex_retention _ _ Hx) as [[d Hd] [Hlo _]]. rewrite Hd in Hlo |- *.
    destruct (Z.leb_spec (d * 86400) 0) as [|Hpos]; [simpl; lia|]. rewrite Z.quot_mul by lia. destruct (Z.leb_spec d 0); simpl; lia.
  - pose proof (ex_clear _ _ Hx) as Hc. rewrite Forall_forall in Hc. rewrite (fmap_back _ _ id); [apply list_fmap_id|].
    intros v Hv. unfold variableOf. rewrite (Hc v Hv). destruct v. unfold variable_said; cbn. by rewrite !or_off_ptr.
  - set (l := (fun r => runnerOf r (Some (lv_details live (rr_ID (li_runner r))))) <$> lv_runners live).
    assert (runner_said <$> l = (fun r => (li_runner r, lv_details live (rr_ID (li_runner r)))) <$> lv_runners live) as Hrun.
    { apply fmap_back. intros r _. by apply runner_said_of. }
    unfold some_unless. destruct (isRunnersEmpty _) eqn:Hem; cbn; rewrite ?or_off_ptr; [|done].
    unfold isRunnersEmpty in Hem. cbn in Hem. rewrite !andb_true_iff in Hem. destruct Hem as [[H1 H2] H3].
    apply Nat.eqb_eq, nil_length_inv in H3. rewrite <- Hrun, H3.
    by destruct (p_SharedRunnersEnabled _), (p_GroupRunnersEnabled _).
  - by destruct (lv_frameworks live).
  - split; [|by rewrite length_fmap]. induction (lv_hooks live) as [|k l IH]; [done|]. cbn. rewrite IH. f_equal.
    destruct k. unfold hook_said, hookOf; cbn. by rewrite !or_off_ptr.
  - destruct (lv_members live) as [|m l]; [done|]. cbn [length Nat.eqb from_option membersOf mb_AllowedMembers]. by apply fmap_back.
  - destruct (lv_targets live) as [|r l]; [done|]. cbn [from_option branchRulesOf tbrs_Rules]. by apply fmap_back.
Qed.

End Quiet.

(** ** Properties *)

(** The reconcilers whose policies the exporter writes. *)
Definition exported_reconcilers `{GoCalendar} `{GoURLParse} (fuel : nat) : list GovernanceOperation :=
  [NewPushRulesReconciler; NewProtectedBranchesReconciler fuel; NewApprovalRulesReconciler; NewProjectSettingsReconciler;
   NewTargetBranchRulesReconciler; NewPipelineRetentionReconciler; NewVariablesReconciler false; NewRunnersReconciler;
   NewComplianceReconciler; NewWebhooksReconciler false; NewMembersReconciler].


(** ** Witnesses *)

#[local] Instance demo_calendar : GoCalendar := {| AddDays := fun t d => t + d * 86400; FormatDay := Itoa |}.
#[local] Instance demo_hook_url : GoURLParse := {|
  URL := string; url_Parse := fun s => Some s; url_Path := fun u => u; url_WithPath := fun _ p => p; url_String := fun u => u |}.

Definition demo_live : live_project := {|
  lv_project := demo_project;
  lv_push := Some (Build_PushRules "@example\.com$" "" "" "" "" 10 false true false false false false);
  lv_branches := [{| br_Name := "main"; br_PushAccessLevels := [{| bl_AccessLevel := 0; bl_UserID := 0; bl_GroupID := 0; bl_DeployKeyID := 0 |}];
                     br_MergeAccessLevels := [{| bl_AccessLevel := 30; bl_UserID := 0; bl_GroupID := 0; bl_DeployKeyID := 0 |}];
                     br_UnprotectAccessLevels := []; br_AllowForcePush := false; br_CodeOwnerApprovalRequired := true |}];
  lv_approvals := Build_ProjectApprovals 2 true false true false false false;
  lv_rules := [{| ir_ID := 1; ir_Name := "Security"; ir_RuleType := "regular"; ir_ApprovalsRequired := 1;
                  ir_Users := [{| us_ID := 7; us_Username := "ana" |}; {| us_ID := 3; us_Username := "bo" |}];
                  ir_EligibleApprovers := []; ir_Groups := [(11, "platform")]; ir_ProtectedBranches := [(5, "main")] |}];
  lv_retention := 172800;
  lv_variables := [{| va_Key := "REGION"; va_Value := "eu"; va_VariableType := "env_var"; va_Protected := true; va_Masked := false;
                      va_Raw := false; va_EnvironmentScope := "*"; va_Description := "" |}];
  lv_runners := [{| li_runner := {| rr_ID := 4; rr_Description := "linux" |}; li_Paused := false |}];
  lv_details := fun _ => Build_RunnerDetails false true false "not_protected" 3600 ["docker"; "linux"];
  lv_frameworks := [{| cf_ID := "1"; cf_Name := "SOC2" |}];
  lv_hooks := [Build_ProjectHook 2 "https://hooks.example.com" true false false false false false false true ""];
  lv_members := [{| me_ID := 7; me_Username := "ana"; me_AccessLevel := 40; me_ExpiresAt := None |}];
  lv_targets := [{| tr_ID := "1"; tr_Name := "hotfix/*"; tr_TargetBranch := "main" |}]
|}.

Definition demo_client {X} (e : GitLabE X) : X :=
  match e in GitLabE X return X with
  | Projects e =>
      match e in ProjectsE X return X with
      | GetProject _ => reply_ok (Some (lv_project demo_live))
      | GetProjectPipelineRetention _ => reply_ok (lv_retention demo_live)
      | e => absent_call (Projects e)
      end
  | PushRules_ e =>
      match e in PushRulesE X return X with GetPushRule _ _ => push_reply (lv_push demo_live) | e => absent_call (PushRules_ e) end
  | ProtectedBranches e =>
      match e in ProtectedBranchesE X return X with
      | ListProtectedBranches _ page => page_of (lv_branches demo_live) page | e => absent_call (ProtectedBranches e) end
  | ApprovalRules_ e =>
      match e in ApprovalRulesE X return X with
      | GetApprovalConfiguration _ => reply_ok (Some (lv_approvals demo_live))
      | GetProjectApprovalRules _ => reply_ok (Some <$> (seen_rule <$> lv_rules demo_live))
      | e => absent_call (ApprovalRules_ e)
      end
  | Compliance e =>
      match e in ComplianceE X return X with
      | GetProjectComplianceFrameworks _ => inr (lv_frameworks demo_live) | e => absent_call (Compliance e) end
  | TargetBranchRules e =>
      match e in TargetBranchRulesE X return X with
      | GetTargetBranchRules _ => inr (lv_targets demo_live) | e => absent_call (TargetBranchRules e) end
  | Variables e =>
      match e in VariablesE X return X with
      | ListVariables _ _ => reply_ok (Some <$> lv_variables demo_live) | e => absent_call (Variables e) end
  | Webhooks_ e =>
      match e in WebhooksE X return X with
      | ListProjectHooks _ => reply_ok (Some <$> lv_hooks demo_live) | e => absent_call (Webhooks_ e) end
  | Runners_ e =>
      match e in RunnersE X return X with
      | ListProjectRunners _ => reply_ok (li_runner <$> lv_runners demo_live)
      | GetRunnerDetails i => reply_ok (lv_details demo_live i)
      | e => absent_call (Runners_ e)
      end
  | Members_ e =>
      match e in MembersE X return X with
      | ListProjectMembers _ | ListAllProjectMembers _ => reply_ok (Some <$> lv_members demo_live)
      | e => absent_call (Members_ e)
      end
  | Resolver_ e =>
      match e in ResolverE X return X with
      | ResolveUsername _ name => inr (if (name =? "ana")%string then 7 else 3)
      | ResolveGroupPath _ _ => inr 11
      end
  | e => absent_call e
  end.

Definition demo_inspected : handler InspectE unit := fun X e w =>
  let answer : X := match e in InspectE X return X with
    | Client e => demo_client e
    | ApprovalRulesOf _ => reply_ok (lv_rules demo_live)
    | VariablesPage _ page => page_of (lv_variables demo_live) page
    | RunnersPage _ page => page_of (lv_runners demo_live) page
    | RunnerOf i => Some (lv_details demo_live i)
    | HooksPage _ page => page_of (lv_hooks demo_live) page
    | MembersPage _ page => page_of (lv_members demo_live) page
    | Warn _ => tt
    end in (answer, w).

Lemma demo_shows : shows demo_inspected 42 "platform/api" demo_live tt.
Proof. by split. Qed.

Lemma demo_lists_whole : lists_whole demo_inspected 42 demo_live tt.
Proof.
  split; try done; try (by eexists).
  - intros r i n [->|Hr]%elem_of_cons; [|by apply elem_of_nil in Hr].
    intros [[= -> ->]|[[= -> ->]|Hi]%elem_of_cons]%elem_of_cons; [done..|by apply elem_of_nil in Hi].
  - intros r i n [->|Hr]%elem_of_cons; [|by apply elem_of_nil in Hr].
    intros [[= -> ->]|Hi]%elem_of_cons; [done|by apply elem_of_nil in Hi].
Qed.

Definition demo_export_options (secrets : bool) : ExportOptions := {|
  xo_ProjectID := 42; xo_IncludeSecretsPlaceholder := secrets; xo_SkipReconcilers := fun _ => false;
  xo_FromProject := ""; xo_Strategy := "archetype" |}.

Lemma demo_exportable : exportable (demo_export_options true) demo_live.
Proof.
  split.
  - apply NoDup_singleton.
  - repeat constructor; cbn; lia.
  - repeat constructor.
  - split_and!; cbn; intros; by try lia.
  - split; [by exists 2|done].
  - apply NoDup_singleton.
  - by apply Forall_singleton.
  - intros r1 r2 [->|H1]%elem_of_cons [->|H2]%elem_of_cons _; try done; [by apply elem_of_nil in H2|by apply elem_of_nil in H1..].
  - by apply Forall_singleton.
  - intros fw [= <-]. done.
  - apply NoDup_singleton.
  - apply NoDup_singleton.
  - apply NoDup_singleton.
  - apply Forall_singleton. split_and!; [done|apply NoDup_cons; split; [set_solver|apply NoDup_singleton]|apply NoDup_singleton|repeat constructor].
Qed.

Definition demo_exported_policy : PolicyConfig :=
  Build_PolicyConfig "v1" zero_Settings (Build_TargetSelectors None None) (exported (demo_export_options true) None demo_live).


(** A retention that is not of whole days is not the retention exported. *)
Example retention_rounded : PipelineRetention_Seconds <$> retentionOf 100000 = Some 86400.
Proof. reflexivity. Qed.

(** A refusal of the push rules call is silent: no rule, no warning. *)
Theorem inspectPushRules_silent {W} (h : handler InspectE W) pid w resp e w' :
  h _ (Client (PushRules_ (GetPushRule OnProject pid))) w = ({| r_val := None; r_resp := resp; r_err := Some e |}, w') ->
  run h (inspectPushRules pid) w = (inr None, w').
Proof. intros Hh. unfold inspectPushRules. rewrite run_bind, run_call, Hh, run_ret. cbn [r_err r_resp r_val]. by destruct (isNotFound _ _). Qed.
