(* ===== verification/Export.v ===== *)
(** * Export of a fleet: internal/export/exporter.go, second half

    [ExportFleetPolicy] discovers the fleet, inspects its projects with a
    goroutine each, and makes one policy of theirs: [normalizePolicies] keeps
    what all projects share, and treats what they do not share by the strategy.
    The goroutines interleave: an execution is a list of labels, and
    [ExportFleetPolicy_exact] holds for every one of them.  The YAML encoder is
    not modelled; [serializeWithComments] is where it puts the warnings. *)

From S2P Require Import Prelude GoLib Config GitLabAPI Server ProjectFilter GroupTree Pagination Discovery Members PushRules Inspect ExportPlan.
Local Open Scope string_scope.
Local Open Scope list_scope.
Local Open Scope Z_scope.

Definition StrategyArchetype : string := "archetype".
Definition StrategyConsensus : string := "consensus".
Definition StrategyStrict : string := "strict".

(** ** One policy for several projects *)

(** [reflect.DeepEqual] of what the inspections make. *)
#[export] Instance PushRulesConfig_eq_dec : EqDecision PushRulesConfig.
Proof. solve_decision. Defined.
#[export] Instance BranchAccessDescription_eq_dec : EqDecision BranchAccessDescription.
Proof. solve_decision. Defined.
#[export] Instance ProtectedBranchRuleConfig_eq_dec : EqDecision ProtectedBranchRuleConfig.
Proof. solve_decision. Defined.
#[export] Instance ApprovalSettingsConfig_eq_dec : EqDecision ApprovalSettingsConfig.
Proof. solve_decision. Defined.
#[export] Instance ApprovalRuleConfig_eq_dec : EqDecision ApprovalRuleConfig.
Proof. solve_decision. Defined.
#[export] Instance ApprovalRulesConfig_eq_dec : EqDecision ApprovalRulesConfig.
Proof. solve_decision. Defined.
#[export] Instance ContainerExpirationPolicyConfig_eq_dec : EqDecision ContainerExpirationPolicyConfig.
Proof. solve_decision. Defined.
#[export] Instance ProjectSettingsConfig_eq_dec : EqDecision ProjectSettingsConfig.
Proof. solve_decision. Defined.
#[export] Instance PipelineRetentionConfig_eq_dec : EqDecision PipelineRetentionConfig.
Proof. solve_decision. Defined.
#[export] Instance VariableConfig_eq_dec : EqDecision VariableConfig.
Proof. solve_decision. Defined.
#[export] Instance RunnerConfig_eq_dec : EqDecision RunnerConfig.
Proof. solve_decision. Defined.
#[export] Instance RunnersConfig_eq_dec : EqDecision RunnersConfig.
Proof. solve_decision. Defined.
#[export] Instance ComplianceConfig_eq_dec : EqDecision ComplianceConfig.
Proof. solve_decision. Defined.
#[export] Instance WebhookConfig_eq_dec : EqDecision WebhookConfig.
Proof. solve_decision. Defined.
#[export] Instance MemberRuleConfig_eq_dec : EqDecision MemberRuleConfig.
Proof. solve_decision. Defined.
#[export] Instance MembersConfig_eq_dec : EqDecision MembersConfig.
Proof. solve_decision. Defined.
#[export] Instance TargetBranchRuleConfig_eq_dec : EqDecision TargetBranchRuleConfig.
Proof. solve_decision. Defined.
#[export] Instance TargetBranchRulesConfig_eq_dec : EqDecision TargetBranchRulesConfig.
Proof. solve_decision. Defined.

(** The eleven functions [all...Equal], which differ in their type. *)
Definition allEqual {A} `{EqDecision A} (l : list A) (totalProjects : nat) : bool :=
  if negb (length l =? totalProjects)%nat then false
  else match l with [] => true | a :: rest => forallb (fun b => bool_decide (a = b)) rest end.

(** The index of the project that [--from-project] names. *)
Fixpoint archetypeIndex (from : string) (exports : list ProjectPolicyExport) : option nat :=
  match exports with
  | [] => None
  | pe :: rest =>
      if (Itoa (px_ProjectID pe) =? from)%string || (px_ProjectPath pe =? from)%string
         || HasSuffix (px_ProjectPath pe) ("/" +:+ from)
      then Some O else S <$> archetypeIndex from rest
  end.

Section Normalize.
Context (opts : ExportOptions) (exports : list ProjectPolicyExport) (archetype : ProjectPolicyExport).

Definition totalProjects : nat := length exports.

Definition divergenceDesc (reconciler : string) : string :=
  if negb (xo_FromProject opts =? "")%string then
    Itoa (Z.of_nat totalProjects) +:+ " projects diverge from archetype project '" +:+ px_ProjectPath archetype +:+ "' on "
      +:+ reconciler +:+ " — only archetype project's values shown"
  else Itoa (Z.of_nat totalProjects) +:+ " projects have divergent " +:+ reconciler +:+ " — only first project's values shown".

(** One block of [normalizePolicies]: [get] is the section of a project's
    policies and [stated] whether it says anything; the value, and the warnings
    so far. *)
Definition normalizeSection {A} `{EqDecision A} (reconciler : string) (zero : A) (stated : A -> bool)
    (get : PoliciesConfig -> A) (warnings : list string) : error + (A * list string) :=
  let l := List.filter stated ((fun pe => get (px_Policies pe)) <$> exports) in
  let own := get (px_Policies archetype) in
  if allEqual l totalProjects then inr (match l with a :: _ => a | [] => zero end, warnings)
  else if (totalProjects <=? 1)%nat then inr (own, warnings)
  else if (xo_Strategy opts =? StrategyStrict)%string then
    inl (ErrNew ("strict export failed: " +:+ Itoa (Z.of_nat totalProjects) +:+ " projects have divergent " +:+ reconciler))
  else if (xo_Strategy opts =? StrategyConsensus)%string then
    inr (zero, warnings ++ [Itoa (Z.of_nat totalProjects) +:+ " projects have divergent " +:+ reconciler
                              +:+ " — omitted under consensus strategy"])
  else inr (own, warnings ++ [divergenceDesc reconciler]).

Definition normalizeSections : error + (PoliciesConfig * list string) :=
  match normalizeSection "push_rules" None is_some pol_PushRules [] with inl e => inl e | inr (pr, ws) =>
  match normalizeSection "protected_branches" [] nonempty_slice pol_ProtectedBranches ws with inl e => inl e | inr (pb, ws) =>
  match normalizeSection "approval_rules" None is_some pol_ApprovalRules ws with inl e => inl e | inr (ar, ws) =>
  match normalizeSection "project_settings" None is_some pol_ProjectSettings ws with inl e => inl e | inr (ps, ws) =>
  match normalizeSection "pipeline_retention" None is_some pol_PipelineRetention ws with inl e => inl e | inr (pt, ws) =>
  match normalizeSection "variables" [] nonempty_slice pol_Variables ws with inl e => inl e | inr (vars, ws) =>
  match normalizeSection "runners" None is_some pol_Runners ws with inl e => inl e | inr (rn, ws) =>
  match normalizeSection "compliance" None is_some pol_Compliance ws with inl e => inl e | inr (comp, ws) =>
  match normalizeSection "webhooks" [] nonempty_slice pol_Webhooks ws with inl e => inl e | inr (wh, ws) =>
  match normalizeSection "members" None is_some pol_Members ws with inl e => inl e | inr (mem, ws) =>
  match normalizeSection "target_branch_rules" None is_some pol_TargetBranchRules ws with inl e => inl e | inr (tbr, ws) =>
    inr ({| pol_PushRules := pr; pol_ProtectedBranches := pb; pol_ProtectedTags := None; pol_ProtectedEnvironments := None;
            pol_ApprovalRules := ar; pol_ProjectSettings := ps; pol_PipelineRetention := pt; pol_Variables := vars;
            pol_Runners := rn; pol_Compliance := comp; pol_Webhooks := wh; pol_Members := mem; pol_TargetBranchRules := tbr;
            pol_RepositoryFiles := []; pol_BranchMerges := [] |}, ws)
  end end end end end end end end end end end.

End Normalize.

Definition normalizePolicies (exports : list ProjectPolicyExport) (opts : ExportOptions)
  : error + (PoliciesConfig * list string) :=
  match exports with
  | [] => inr (zero_Policies, [])
  | first :: _ =>
      let idx := if (xo_FromProject opts =? "")%string then Some O else archetypeIndex (xo_FromProject opts) exports in
      match idx with
      | None => inl (ErrNew ("from-project '" +:+ xo_FromProject opts +:+ "' not found in discovered fleet"))
      | Some i => normalizeSections opts exports (default first (exports !! i))
      end
  end.

(** ** The targets and the document *)

(** Where nobody selected anything: the groups found, in the order of the map.
    Without groups the code reads [fleet.Projects[0].ID], of a map that is keyed by
    number: the [None] is the panic of a project number 0 that is not there. *)
Definition buildExportTargets (src : TargetSelectors) (fleet : TargetFleet) : option TargetSelectors :=
  match ts_GroupSelector src, ts_ProjectSelector src with
  | Some g, _ => Some {| ts_GroupSelector := Some g; ts_ProjectSelector := None |}
  | None, Some p => Some {| ts_GroupSelector := None; ts_ProjectSelector := Some p |}
  | None, None =>
      if (0 <? size (tf_Groups fleet))%nat then
        Some {| ts_GroupSelector := Some {| gs_GroupIDsInclude := []; gs_GroupIDsExclude := [];
                  gs_GroupPathsInclude := tg_FullPath <$> (snd <$> map_to_list (tf_Groups fleet));
                  gs_GroupPathsExclude := []; gs_Recursive := Some true |};
                ts_ProjectSelector := None |}
      else if (0 <? size (tf_Projects fleet))%nat then
        p ← tf_Projects fleet !! 0;
        Some {| ts_GroupSelector := None;
                ts_ProjectSelector := Some (Build_ProjectSelector [] [] "" "" [] [] "" None None
                                              (Some {| idr_Min := tp_ID p; idr_Max := tp_ID p |})) |}
      else Some (Build_TargetSelectors None None)
  end.

(** The keys of the mapping of the policies, in the order of the struct; an
    empty section has none. *)
Definition policyKeys (p : PoliciesConfig) : list string :=
  let key (stated : bool) (name : string) := if stated then [name] else [] in
  key (is_some (pol_PushRules p)) "push_rules" ++ key (nonempty_slice (pol_ProtectedBranches p)) "protected_branches"
  ++ key (is_some (pol_ProtectedTags p)) "protected_tags" ++ key (is_some (pol_ProtectedEnvironments p)) "protected_environments"
  ++ key (is_some (pol_ApprovalRules p)) "approval_rules" ++ key (is_some (pol_ProjectSettings p)) "project_settings"
  ++ key (is_some (pol_PipelineRetention p)) "pipeline_retention" ++ key (nonempty_slice (pol_Variables p)) "variables"
  ++ key (is_some (pol_Runners p)) "runners" ++ key (is_some (pol_Compliance p)) "compliance"
  ++ key (nonempty_slice (pol_Webhooks p)) "webhooks" ++ key (is_some (pol_Members p)) "members"
  ++ key (is_some (pol_TargetBranchRules p)) "target_branch_rules" ++ key (nonempty_slice (pol_RepositoryFiles p)) "repository_files"
  ++ key (nonempty_slice (pol_BranchMerges p)) "branch_merges".

(** The head comments: one for each section, the last of its warnings, and one
    for the policies, the warnings that no section took. *)
Record comments : Type := { cm_sections : list (string * string); cm_policies : string }.

Definition newline : string := String (Ascii.ascii_of_nat 10) "".

Definition sectionComment (warnings : list string) (key : string) : string :=
  foldl (fun c w => if Contains w key then "WARNING: " +:+ w else c) "" warnings.

Definition serializeWithComments (p : PoliciesConfig) (warnings : list string) : comments :=
  let keys := policyKeys p in
  match keys, warnings with
  | [], _ | _, [] => {| cm_sections := (fun k => (k, "")) <$> keys; cm_policies := "" |}
  | _, _ =>
      let unmatched := List.filter (fun w => negb (existsb (Contains w) keys)) warnings in {|
        cm_sections := (fun k => (k, sectionComment warnings k)) <$> keys;
        cm_policies := TrimRight (Ascii.ascii_of_nat 10)
                         (String.concat "" ((fun w => "WARNING: " +:+ w +:+ newline) <$> unmatched)) |}
  end.

Record exported_document : Type := { xd_config : PolicyConfig; xd_comments : comments }.

(** The document is in dry-run mode. *)
Definition documentOf (targets : TargetSelectors) (policies : PoliciesConfig) (warnings : list string) : exported_document := {|
  xd_config := {| cfg_Version := "v1";
                  cfg_Settings := Build_SettingsConfig (Some true) 0 "" "" "" "" [] [] zero_GitLabSettings (st_License zero_Settings);
                  cfg_Targets := targets; cfg_Policies := policies |};
  xd_comments := serializeWithComments policies warnings |}.

(** ** The inspection of the fleet *)

Variant inspect_label : Type :=
| Check          (* the loop looks at the context *)
| Acquire        (* the loop gets a place and starts a goroutine *)
| Go (i : nat)   (* the i-th goroutine makes a call *).

Record inspection (W : Type) : Type := {
  in_todo : list TargetProject;
  in_checked : bool;
  in_running : list (IP (error + ProjectPolicyExport));
  in_err : option error;
  in_canceled : option error;
  in_world : W
}.
Arguments Build_inspection {W}. Arguments in_todo {W}. Arguments in_checked {W}. Arguments in_running {W}.
Arguments in_err {W}. Arguments in_canceled {W}. Arguments in_world {W}.

Definition returned {A} (p : IP A) : option A := match p with Ret a => Some a | Vis _ _ => None end.

Section Inspection.
Context `{GoCalendar} {W : Type} (h : handler InspectE W) (pages : nat) (opts : ExportOptions) (concurrency : Z).

Definition goroutine (p : TargetProject) : IP (error + ProjectPolicyExport) :=
  c ← call (Client (Context_ CtxErr));
  match c with
  | Some e => again ← call (Client (Context_ CtxErr)); mret (inl (default e again))
  | None => pe ← inspectProject pages opts (tp_ID p) (tp_PathWithNamespace p) (tp_Raw p); mret (inr pe)
  end.

(** The goroutines that hold a place of the semaphore. *)
Definition holding (l : list (IP (error + ProjectPolicyExport))) : nat :=
  length (List.filter (fun p => negb (is_some (returned p))) l).

(** [if inspectErr == nil { inspectErr = ctx.Err() }]. *)
Definition note_error (err : option error) (p : IP (error + ProjectPolicyExport)) : option error :=
  match returned p with Some (inl e) => or_else err (Some e) | _ => err end.

Definition inspect_step (l : inspect_label) (s : inspection W) : option (inspection W) :=
  match l with
  | Check =>
      match in_todo s, in_checked s, in_canceled s with
      | _ :: _, false, None =>
          let '(c, w') := h _ (Client (Context_ CtxErr)) (in_world s) in
          Some {| in_todo := in_todo s; in_checked := negb (is_some c); in_running := in_running s; in_err := in_err s;
                  in_canceled := c; in_world := w' |}
      | _, _, _ => None
      end
  | Acquire =>
      match in_todo s, in_checked s with
      | p :: todo, true =>
          if (holding (in_running s) <? Z.to_nat concurrency)%nat then
            Some {| in_todo := todo; in_checked := false; in_running := in_running s ++ [goroutine p]; in_err := in_err s;
                    in_canceled := in_canceled s; in_world := in_world s |}
          else None
      | _, _ => None
      end
  | Go i =>
      p ← in_running s !! i;
      '(p', w') ← advance h p (in_world s);
      Some {| in_todo := in_todo s; in_checked := in_checked s; in_running := <[i := p']> (in_running s);
              in_err := note_error (in_err s) p'; in_canceled := in_canceled s; in_world := w' |}
  end.

Fixpoint inspect_steps (ls : list inspect_label) (s : inspection W) : option (inspection W) :=
  match ls with
  | [] => Some s
  | l :: rest => match inspect_step l s with Some s' => inspect_steps rest s' | None => None end
  end.

Definition inspect_start (projects : list TargetProject) (w : W) : inspection W := {|
  in_todo := projects; in_checked := false; in_running := []; in_err := None; in_canceled := None; in_world := w |}.

(** The exports by project; [None] while a goroutine runs. *)
Definition exports_of (s : inspection W) : option (list ProjectPolicyExport) :=
  match in_todo s with
  | [] => mapM (fun p => match returned p with
                         | Some (inl _) => Some {| px_ProjectID := 0; px_ProjectPath := ""; px_Policies := zero_Policies |}
                         | Some (inr pe) => Some pe
                         | None => None
                         end) (in_running s)
  | _ => None
  end.

(** A complete execution: up to the early return, or to the end of [wg.Wait()]. *)
Definition inspectFleet (projects : list TargetProject) (schedule : list inspect_label) (w : W)
  : option ((error + list ProjectPolicyExport) * W) :=
  s ← inspect_steps schedule (inspect_start projects w);
  match in_canceled s with
  | Some e => Some (inl e, in_world s)
  | None =>
      pes ← exports_of s;
      Some (match in_err s with Some e => inl e | None => inr pes end, in_world s)
  end.

End Inspection.

(** ** The export *)

(** The single project that the targets name. *)
Definition singleProject (t : TargetSelectors) : option Z :=
  match ts_GroupSelector t, ts_ProjectSelector t with
  | None, Some p =>
      match ps_IDRange p with
      | Some r => if (0 <? idr_Min r) && (idr_Min r =? idr_Max r) then Some (idr_Min r) else None
      | None => None
      end
  | _, _ => None
  end.

Definition targetOf (p : Project) : TargetProject := {|
  tp_ID := p_ID p; tp_Name := p_Name p; tp_Path := p_Path p; tp_PathWithNamespace := p_PathWithNamespace p;
  tp_DefaultBranch := p_DefaultBranch p; tp_Visibility := p_Visibility p; tp_Archived := p_Archived p;
  tp_MarkedForDeletion := false; tp_MarkedForDeletionAt := None; tp_Topics := []; tp_NamespaceFullPath := "";
  tp_ParentGroupID := 0; tp_Raw := Some p
|}.

Definition fetchSingle (pid : Z) : IP (error + TargetFleet) :=
  r ← call (Client (Projects (GetProject pid)));
  let absent := ErrNew ("target project " +:+ Itoa pid +:+ " not found") in
  mret (if isNotFound (r_err r) (r_resp r) then inl absent
        else match r_val r with
             | None => inl absent
             | Some p =>
                 match r_err r with
                 | Some e => inl (ErrWrap ("failed to fetch target project " +:+ Itoa pid +:+ ": ") e)
                 | None => inr {| tf_Projects := {[p_ID p := targetOf p]}; tf_Groups := ∅; tf_ScannedProjectsCount := 0;
                                  tf_ScannedGroupsCount := 0; tf_MatchedProjectsCount := 1; tf_MatchedGroupsCount := 0 |}
                 end
             end).

(** The options and the configuration after the defaults of the first lines. *)
Definition exportTargets (opts : ExportOptions) (cfg : PolicyConfig) : TargetSelectors :=
  let t := cfg_Targets cfg in
  match ts_ProjectSelector t with
  | None =>
      if 0 <? xo_ProjectID opts then
        {| ts_GroupSelector := None;
           ts_ProjectSelector := Some (Build_ProjectSelector [] [] "" "" [] [] "" None None
                                         (Some {| idr_Min := xo_ProjectID opts; idr_Max := xo_ProjectID opts |})) |}
      else t
  | Some _ => t
  end.

Definition with_strategy (opts : ExportOptions) : ExportOptions := {|
  xo_ProjectID := xo_ProjectID opts; xo_IncludeSecretsPlaceholder := xo_IncludeSecretsPlaceholder opts;
  xo_SkipReconcilers := xo_SkipReconcilers opts; xo_FromProject := xo_FromProject opts;
  xo_Strategy := or_string (xo_Strategy opts) StrategyArchetype
|}.

(** The projects in the order of their numbers. *)
Definition id_le (a b : TargetProject) : Prop := tp_ID a <= tp_ID b.

#[export] Instance id_le_dec a b : Decision (id_le a b).
Proof. unfold id_le. apply _. Defined.

Definition projectsByID (f : TargetFleet) : list TargetProject :=
  merge_sort id_le (snd <$> map_to_list (tf_Projects f)).

Record export_schedule : Type := { es_discovery : list scan_label; es_inspection : list inspect_label }.

Definition warn_all (warnings : list string) : IP unit :=
  foldr (fun m k => _ ← call (Warn ("WARNING: " +:+ m)); k) (mret tt) warnings.

(** "1. Discover target fleet". *)
Definition exportFleet `{GoRegexp} `{GoQuery} {W} (h : handler InspectE W) (fuel : discoveryFuel) (targets : TargetSelectors)
    (concurrency : Z) (schedule : list scan_label) (w : W) : option ((error + TargetFleet) * W) :=
  match singleProject targets with
  | Some pid => Some (run h (fetchSingle pid) w)
  | None =>
      '(r, w) ← DiscoverFleet (as_client h) fuel targets concurrency schedule w;
      Some (match r with inl e => inl (ErrWrap "fleet discovery failed: " e) | inr f => inr f end, w)
  end.

(** [None]: the schedule is not a complete execution, or the code panics.  The
    encoder's text and the check that it can be read again, whose failure is
    only logged, are left out. *)
Definition ExportFleetPolicy `{GoRegexp} `{GoQuery} `{GoCalendar} {W} (h : handler InspectE W) (fuel : discoveryFuel) (pages : nat)
    (opts : ExportOptions) (cfg : option PolicyConfig) (schedule : export_schedule) (w : W)
  : option ((error + exported_document) * W) :=
  let cfg := default (Policy_SetDefaults zero_Policy) cfg in
  let targets := exportTargets opts cfg in
  let opts := with_strategy opts in
  let concurrency := or_positive (st_Concurrency (cfg_Settings cfg)) 10 in
  '(fleet, w) ← exportFleet h fuel targets concurrency (es_discovery schedule) w;
  match fleet with
  | inl e => Some (inl e, w)
  | inr fleet =>
      '(exports, w) ← inspectFleet h pages opts concurrency (projectsByID fleet) (es_inspection schedule) w;
      match exports with
      | inl e => Some (inl e, w)
      | inr exports =>
          match normalizePolicies exports opts with
          | inl e => Some (inl e, w)
          | inr (policies, warnings) =>
              let w := (run h (warn_all warnings) w).2 in
              t ← buildExportTargets targets fleet;
              Some (inr (documentOf t policies warnings), w)
          end
      end
  end.

(** ** Lemmas: one policy *)

(** The sections that the exporter writes. *)
Variant section : Type -> Type :=
| SPushRules : section (option PushRulesConfig)
| SProtectedBranches : section (list ProtectedBranchRuleConfig)
| SApprovalRules : section (option ApprovalRulesConfig)
| SProjectSettings : section (option ProjectSettingsConfig)
| SPipelineRetention : section (option PipelineRetentionConfig)
| SVariables : section (list VariableConfig)
| SRunners : section (option RunnersConfig)
| SCompliance : section (option ComplianceConfig)
| SWebhooks : section (list WebhookConfig)
| SMembers : section (option MembersConfig)
| STargetBranchRules : section (option TargetBranchRulesConfig).

Definition get {A} (s : section A) : PoliciesConfig -> A :=
  match s in section A return PoliciesConfig -> A with
  | SPushRules => pol_PushRules | SProtectedBranches => pol_ProtectedBranches | SApprovalRules => pol_ApprovalRules
  | SProjectSettings => pol_ProjectSettings | SPipelineRetention => pol_PipelineRetention | SVariables => pol_Variables
  | SRunners => pol_Runners | SCompliance => pol_Compliance | SWebhooks => pol_Webhooks | SMembers => pol_Members
  | STargetBranchRules => pol_TargetBranchRules
  end.

(** The section says nothing. *)
Definition silent {A} (s : section A) : A :=
  match s in section A return A with
  | SPushRules => None | SProtectedBranches => [] | SApprovalRules => None | SProjectSettings => None
  | SPipelineRetention => None | SVariables => [] | SRunners => None | SCompliance => None | SWebhooks => []
  | SMembers => None | STargetBranchRules => None
  end.

(** Every project states this section, and states it the same way. *)
Definition agreed {A} (s : section A) (exports : list ProjectPolicyExport) (a : A) : Prop :=
  a <> silent s /\ Forall (fun pe => get s (px_Policies pe) = a) exports.

Definition is_archetype (opts : ExportOptions) (exports : list ProjectPolicyExport) (arch : ProjectPolicyExport) : Prop :=
  if (xo_FromProject opts =? "")%string then head exports = Some arch
  else exists i, archetypeIndex (xo_FromProject opts) exports = Some i /\ exports !! i = Some arch.

Lemma archetypeIndex_lookup from exports i :
  archetypeIndex from exports = Some i -> exists arch, exports !! i = Some arch.
Proof.
  revert i. induction exports as [|pe rest IH]; intros i; cbn [archetypeIndex]; [done|].
  case_match; [intros [= <-]; by exists pe|]. destruct (archetypeIndex from rest) as [j|]; [|done]. intros [= <-].
  destruct (IH j eq_refl) as [a Ha]. by exists a.
Qed.

Lemma normalizePolicies_archetype exports opts :
  exports <> [] ->
  (exists arch, is_archetype opts exports arch /\ normalizePolicies exports opts = normalizeSections opts exports arch) \/
  (xo_FromProject opts <> "" /\ archetypeIndex (xo_FromProject opts) exports = None /\
   exists e, normalizePolicies exports opts = inl e).
Proof.
  intros Hne. unfold normalizePolicies, is_archetype. destruct exports as [|pe rest]; [done|].
  destruct (String.eqb_spec (xo_FromProject opts) "") as [E|E].
  - left. exists pe. done.
  - destruct (archetypeIndex _ _) as [i|] eqn:Ei; [|right; eauto]. left.
    destruct (archetypeIndex_lookup _ _ _ Ei) as [arch Ha]. exists arch. rewrite Ha. split; [by exists i|done].
Qed.

Lemma allEqual_iff {A} `{EqDecision A} (l : list A) n :
  allEqual l n = true <-> length l = n /\ forall a b, a ∈ l -> b ∈ l -> a = b.
Proof.
  unfold allEqual. destruct (Nat.eqb_spec (length l) n) as [Hn|Hn]; cbn [negb]; [|naive_solver].
  destruct l as [|a l]; [split; [intros _; split; [done|set_solver]|done]|].
  rewrite forallb_forall. split.
  - intros Hall. split; [done|].
    assert (forall b, b ∈ a :: l -> b = a) as Hb.
    { intros b [->|Hb]%elem_of_cons; [done|]. apply list_elem_of_In, Hall in Hb. by apply bool_decide_eq_true in Hb. }
    intros x y Hx Hy. by rewrite (Hb x Hx), (Hb y Hy).
  - intros [_ Hall] b Hb. apply bool_decide_eq_true. apply Hall; [set_solver|]. apply list_elem_of_In in Hb. set_solver.
Qed.

Section Section.
Context {A : Type} `{EqDecision A} (opts : ExportOptions) (exports : list ProjectPolicyExport) (arch : ProjectPolicyExport).
Context (Hne : exports <> []).
Context (zero : A) (stated : A -> bool) (Hstated : forall a, stated a = true <-> a <> zero) (get_ : PoliciesConfig -> A).

Definition section_agreed (a : A) : Prop := a <> zero /\ Forall (fun pe => get_ (px_Policies pe) = a) exports.

Lemma uniform_iff :
  let l := List.filter stated ((fun pe => get_ (px_Policies pe)) <$> exports) in
  allEqual l (length exports) = true <-> exists a, section_agreed a /\ head l = Some a.
Proof using Hne Hstated.
  cbv zeta. rewrite allEqual_iff. set (vs := (fun pe => get_ (px_Policies pe)) <$> exports).
  assert (length vs = length exports) as Hlen by apply length_fmap.
  assert (forall a, Forall (fun pe => get_ (px_Policies pe) = a) exports <-> Forall (eq a) vs) as Hvs.
  { intros a. unfold vs. rewrite Forall_fmap. apply Forall_iff. intros pe. naive_solver. }
  split.
  - intros [Hl Heq]. assert (List.filter stated vs = vs) as Hf.
    { clear -Hl Hlen. rewrite <- Hlen in Hl. clear Hlen. induction vs as [|v vs IH]; [done|]. cbn [List.filter] in *.
      pose proof (List.filter_length_le stated vs). destruct (stated v); cbn in Hl; [|lia]. f_equal. apply IH. lia. }
    rewrite Hf in Heq |- *. destruct vs as [|v vs']; [destruct exports; done|]. exists v. split; [|done].
    assert (stated v = true) as Hv.
    { assert (v ∈ List.filter stated (v :: vs')) as Hin by (rewrite Hf; set_solver). apply list_elem_of_In, List.filter_In in Hin. tauto. }
    split; [by apply Hstated|]. apply Hvs, Forall_forall. intros x Hx. apply Heq; set_solver.
  - intros (a & [Ha Hall] & _). apply Hvs in Hall. rewrite List_filter_true.
    + split; [done|]. rewrite Forall_forall in Hall. intros x y Hx Hy. by rewrite <- (Hall x Hx), <- (Hall y Hy).
    + rewrite Forall_forall in Hall. intros x Hx. rewrite <- (Hall x Hx). by apply Hstated.
Qed.

Lemma section_agreed_unique a b : section_agreed a -> section_agreed b -> a = b.
Proof using Hne.
  intros [_ Ha] [_ Hb]. destruct exports as [|pe rest]; [done|].
  apply Forall_cons in Ha as [<- _]. apply Forall_cons in Hb as [<- _]. done.
Qed.

(** What a block makes of a section. *)
Lemma normalizeSection_spec name ws v ws' :
  normalizeSection opts exports arch name zero stated get_ ws = inr (v, ws') ->
  (forall a, section_agreed a -> v = a) /\
  (~ (exists a, section_agreed a) ->
   ((1 < length exports)%nat -> xo_Strategy opts <> StrategyStrict) /\
   v = if bool_decide (1 < length exports)%nat && (xo_Strategy opts =? StrategyConsensus)%string then zero
       else get_ (px_Policies arch)).
Proof using Hne Hstated.
  unfold normalizeSection, totalProjects. pose proof uniform_iff as Hu. cbv zeta in Hu.
  set (l := List.filter _ _) in *. destruct (allEqual l (length exports)).
  - destruct (proj1 Hu eq_refl) as (a & Ha & Hh). intros [= <- _]. destruct l as [|b l']; [done|]. injection Hh as ->. split.
    + intros b Hb. by apply section_agreed_unique.
    + intros []. by exists a.
  - intros Hr. assert (forall a, ~ section_agreed a) as Hn.
    { intros a Ha. enough (false = true) by done. apply Hu. exists a. split; [done|].
      destruct Ha as [Ha Hall]. unfold l. destruct exports as [|pe rest]; [done|]. apply Forall_cons in Hall as [Hpe _].
      cbn [fmap list_fmap List.filter]. rewrite Hpe, (proj2 (Hstated a) Ha). done. }
    split; [intros a Ha; by destruct (Hn a)|]. intros _.
    destruct (Nat.leb_spec (length exports) 1) as [Hle|Hlt].
    + injection Hr as <- _. rewrite bool_decide_eq_false_2 by lia. split; [lia|done].
    + rewrite bool_decide_eq_true_2 by done. cbn [andb].
      destruct (String.eqb_spec (xo_Strategy opts) StrategyStrict) as [E|E]; [done|]. split; [done|].
      destruct (_ =? _)%string; by injection Hr as <- _.
Qed.

(** In the strict strategy a block succeeds when the section is agreed. *)
Lemma normalizeSection_strict name ws :
  (1 < length exports)%nat -> xo_Strategy opts = StrategyStrict ->
  match normalizeSection opts exports arch name zero stated get_ ws with
  | inr (v, ws') => section_agreed v /\ ws' = ws
  | inl _ => forall a, ~ section_agreed a
  end.
Proof using Hne Hstated.
  intros Hlt Hst. pose proof (normalizeSection_spec name ws) as Hs. pose proof uniform_iff as Hu. cbv zeta in Hu.
  unfold normalizeSection, totalProjects in *. set (l := List.filter _ _) in *. destruct (allEqual l (length exports)).
  - destruct (proj1 Hu eq_refl) as (a & Ha & Hh). destruct l as [|b l']; [done|]. by injection Hh as ->.
  - rewrite (proj2 (Nat.leb_gt _ _) Hlt), Hst. cbn. intros a Ha. enough (false = true) by done. apply Hu. exists a.
    split; [done|]. destruct Ha as [Ha Hall]. unfold l. destruct exports as [|pe rest]; [done|].
    apply Forall_cons in Hall as [Hpe _]. cbn [fmap list_fmap List.filter]. rewrite Hpe, (proj2 (Hstated a) Ha). done.
Qed.

End Section.

Lemma is_some_stated {A} (a : option A) : is_some a = true <-> a <> None.
Proof. by destruct a. Qed.

Lemma nonempty_stated {A} (l : list A) : nonempty_slice l = true <-> l <> [].
Proof. by destruct l. Qed.


(** How a section is normalized: whether it says something, and the equality of
    what it says. *)
Definition states {A} (s : section A) : A -> bool :=
  match s in section A return A -> bool with
  | SPushRules => is_some | SProtectedBranches => nonempty_slice | SApprovalRules => is_some | SProjectSettings => is_some
  | SPipelineRetention => is_some | SVariables => nonempty_slice | SRunners => is_some | SCompliance => is_some
  | SWebhooks => nonempty_slice | SMembers => is_some | STargetBranchRules => is_some
  end.

Definition section_eq_dec {A} (s : section A) : EqDecision A.
Proof. destruct s; apply _. Defined.

Lemma states_iff {A} (s : section A) a : states s a = true <-> a <> silent s.
Proof. destruct s; first [apply is_some_stated | apply nonempty_stated]. Qed.

(** Each section of what the blocks make is the value of its block, which adds
    to the warnings of the blocks before it. *)
Definition block {A} (s : section A) opts exports arch name ws : error + (A * list string) :=
  @normalizeSection opts exports arch A (section_eq_dec s) name (silent s) (states s) (get s) ws.

Lemma block_prefix {A} (s : section A) opts exports arch name ws v ws' :
  block s opts exports arch name ws = inr (v, ws') -> ws `prefix_of` ws'.
Proof.
  unfold block, normalizeSection. intros Hr. repeat case_match; simplify_eq/=; first [done | by apply prefix_app_r].
Qed.

Lemma normalizeSections_blocks opts exports arch norm ws :
  normalizeSections opts exports arch = inr (norm, ws) ->
  forall A (s : section A), exists name ws1 ws2,
    block s opts exports arch name ws1 = inr (get s norm, ws2) /\ ws2 `prefix_of` ws.
Proof.
  unfold normalizeSections.
  destruct (normalizeSection _ _ _ "push_rules" _ _ _ _) as [?|[pr w1]] eqn:E1; [done|].
  destruct (normalizeSection _ _ _ "protected_branches" _ _ _ _) as [?|[pb w2]] eqn:E2; [done|].
  destruct (normalizeSection _ _ _ "approval_rules" _ _ _ _) as [?|[ar w3]] eqn:E3; [done|].
  destruct (normalizeSection _ _ _ "project_settings" _ _ _ _) as [?|[ps w4]] eqn:E4; [done|].
  destruct (normalizeSection _ _ _ "pipeline_retention" _ _ _ _) as [?|[pt w5]] eqn:E5; [done|].
  destruct (normalizeSection _ _ _ "variables" _ _ _ _) as [?|[vars w6]] eqn:E6; [done|].
  destruct (normalizeSection _ _ _ "runners" _ _ _ _) as [?|[rn w7]] eqn:E7; [done|].
  destruct (normalizeSection _ _ _ "compliance" _ _ _ _) as [?|[comp w8]] eqn:E8; [done|].
  destruct (normalizeSection _ _ _ "webhooks" _ _ _ _) as [?|[wh w9]] eqn:E9; [done|].
  destruct (normalizeSection _ _ _ "members" _ _ _ _) as [?|[mem w10]] eqn:E10; [done|].
  destruct (normalizeSection _ _ _ "target_branch_rules" _ _ _ _) as [?|[tbr w11]] eqn:E11; [done|].
  intros [= <- <-].
  pose proof (block_prefix SProtectedBranches _ _ _ _ _ _ _ E2). pose proof (block_prefix SApprovalRules _ _ _ _ _ _ _ E3).
  pose proof (block_prefix SProjectSettings _ _ _ _ _ _ _ E4). pose proof (block_prefix SPipelineRetention _ _ _ _ _ _ _ E5).
  pose proof (block_prefix SVariables _ _ _ _ _ _ _ E6). pose proof (block_prefix SRunners _ _ _ _ _ _ _ E7).
  pose proof (block_prefix SCompliance _ _ _ _ _ _ _ E8). pose proof (block_prefix SWebhooks _ _ _ _ _ _ _ E9).
  pose proof (block_prefix SMembers _ _ _ _ _ _ _ E10). pose proof (block_prefix STargetBranchRules _ _ _ _ _ _ _ E11).
  intros A s.
  destruct s; do 3 eexists; (split; [first [exact E1|exact E2|exact E3|exact E4|exact E5|exact E6|exact E7|exact E8|exact E9|exact E10|exact E11]
    | repeat (etrans; [eassumption|]); done]).
Qed.

Lemma block_warns {A} (s : section A) opts exports arch name ws v ws' :
  exports <> [] -> block s opts exports arch name ws = inr (v, ws') ->
  ws' = ws <-> (length exports <= 1)%nat \/ exists a, agreed s exports a.
Proof.
  intros Hne. unfold block, normalizeSection, totalProjects.
  pose proof (@uniform_iff A (section_eq_dec s) exports Hne (silent s) (states s) (states_iff s) (get s)) as Hu. cbv zeta in Hu.
  set (l := List.filter _ _) in *. destruct (@allEqual _ _ l (length exports)) eqn:El.
  - destruct (proj1 Hu eq_refl) as (a & Ha & _). intros [= _ <-]. split; [|done]. intros _. right. by exists a.
  - assert (~ exists a, agreed s exports a) as Hn.
    { intros (a & Ha). enough (false = true) by done. apply Hu. exists a. split; [done|].
      destruct Ha as [Ha Hall]. unfold l. destruct exports as [|pe rest]; [done|]. apply Forall_cons in Hall as [Hpe _].
      cbn [fmap list_fmap List.filter]. by rewrite Hpe, (proj2 (states_iff s a) Ha). }
    destruct (Nat.leb_spec (length exports) 1) as [Hle|Hlt]; [intros [= _ <-]; split; auto|].
    assert (forall m : string, ws ++ [m] = ws <-> (length exports <= 1)%nat \/ exists a, agreed s exports a) as Hm.
    { intros m. split; [intros He; apply (f_equal length) in He; rewrite length_app in He; cbn in He; lia|].
      intros [?|?]; [lia|done]. }
    repeat case_match; intros Hr; simplify_eq/=; apply Hm.
Qed.

(** The policy made of the projects' policies: a section on which all agree
    is kept as it is.  Where they do not agree, the strict strategy has no result;
    the consensus leaves the section out, and the archetype strategy takes it from
    the archetype, which is the first project, or the one that [--from-project]
    names.  There is no warning when nothing diverged. *)
Theorem normalizePolicies_exact exports opts norm ws :
  exports <> [] -> normalizePolicies exports opts = inr (norm, ws) ->
  exists arch, is_archetype opts exports arch /\
    (forall A (s : section A),
       (forall a, agreed s exports a -> get s norm = a) /\
       ((forall a, ~ agreed s exports a) ->
          ((1 < length exports)%nat -> xo_Strategy opts <> StrategyStrict) /\
          get s norm = if bool_decide (1 < length exports)%nat && (xo_Strategy opts =? StrategyConsensus)%string
                       then silent s else get s (px_Policies arch))) /\
    (ws = [] -> (1 < length exports)%nat -> forall A (s : section A), exists a, agreed s exports a).
Proof.
  intros Hne Hn. destruct (normalizePolicies_archetype exports opts Hne) as [(arch & Ha & He)|(_ & _ & e & He)];
    [|by rewrite Hn in He].
  rewrite He in Hn. pose proof (normalizeSections_blocks _ _ _ _ _ Hn) as Hb. exists arch. split; [done|]. split.
  - intros A s. destruct (Hb A s) as (name & ws1 & ws2 & Hs & _).
    destruct (@normalizeSection_spec A (section_eq_dec s) opts exports arch Hne (silent s) (states s) (states_iff s) (get s) _ _ _ _ Hs)
      as [H1 H2].
    split; [exact H1|]. intros Hno. apply H2. intros [a Hag]. by apply (Hno a).
  - intros -> Hlt A s. destruct (Hb A s) as (name & ws1 & ws2 & Hs & Hp).
    apply prefix_nil_inv in Hp as ->. pose proof (block_prefix _ _ _ _ _ _ _ _ Hs) as Hp. apply prefix_nil_inv in Hp as ->.
    destruct (proj1 (block_warns _ _ _ _ _ _ _ _ Hne Hs) eq_refl) as [?|?]; [lia|done].
Qed.

(** The next block succeeds without a warning, by [Hok]. *)
Ltac next_block Hok s :=
  match goal with
  | |- context [@normalizeSection ?o ?x ?a ?A ?d ?n ?z ?st ?g []] =>
      let v := fresh "v" in let E := fresh "E" in destruct (Hok _ s n) as [v E];
      replace (@normalizeSection o x a A d n z st g []) with (@inr error _ (v, @nil string)) by (symmetry; exact E)
  end.

(** Strict export succeeds when every section that the exporter writes is
    stated by every project, and stated alike: a section that no project states, or
    that the caller skips, refuses the export. *)
Theorem strict_export_iff exports opts :
  (1 < length exports)%nat -> xo_FromProject opts = "" -> xo_Strategy opts = StrategyStrict ->
  (exists norm ws, normalizePolicies exports opts = inr (norm, ws)) <-> forall A (s : section A), exists a, agreed s exports a.
Proof.
  intros Hlt Hf Hst. assert (exports <> []) as Hne by (intros ->; cbn in Hlt; lia).
  destruct (normalizePolicies_archetype exports opts Hne) as [(arch & _ & ->)|(? & _)]; [|done].
  pose proof (fun A (s : section A) name ws =>
    @normalizeSection_strict A (section_eq_dec s) opts exports arch Hne (silent s) (states s) (states_iff s) (get s) name ws Hlt Hst) as Hs.
  split.
  - intros (norm & ws & Hn) A s. destruct (normalizeSections_blocks _ _ _ _ _ Hn A s) as (name & ws1 & ws2 & Hb & _).
    specialize (Hs A s name ws1). unfold block in Hb. rewrite Hb in Hs. exists (get s norm). apply Hs.
  - intros Hag. unfold normalizeSections.
    assert (forall A (s : section A) name, exists v, block s opts exports arch name [] = inr (v, [])) as Hok.
    { intros A s name. specialize (Hs A s name []). unfold block. destruct (normalizeSection _ _ _ _ _ _ _ _) as [e|[v ws']].
      - destruct (Hag A s) as [a Ha]. by destruct (Hs a).
      - destruct Hs as [_ ->]. by exists v. }
    next_block Hok SPushRules. next_block Hok SProtectedBranches. next_block Hok SApprovalRules. next_block Hok SProjectSettings.
    next_block Hok SPipelineRetention. next_block Hok SVariables. next_block Hok SRunners. next_block Hok SCompliance.
    next_block Hok SWebhooks. next_block Hok SMembers. next_block Hok STargetBranchRules. by do 2 eexists.
Qed.

(** ** Lemmas: the inspection *)

(** Calls that only read do not disturb the server. *)
Definition inspect_stable {W} (h : handler InspectE W) : Prop :=
  forall X (e : InspectE X) w, inspect_read e = true -> (h X e w).2 = w.

Lemma run_inspects {A W} (h : handler InspectE W) (p : IP A) w : inspect_stable h -> inspects p -> (run h p w).2 = w.
Proof.
  intros Hst Hp. apply (run_only h (fun X e => inspect_read e = true) (fun w' => w' = w)); [|done|done].
  intros X e w1 He ->. by apply Hst.
Qed.

Lemma goroutine_reads `{GoCalendar} pages opts p : inspects (goroutine pages opts p).
Proof.
  unfold goroutine. apply only_bind; [by split|]. intros [e|].
  - apply only_bind; [by split|]. done.
  - apply only_bind; [apply inspectProject_reads|done].
Qed.

Section Executions.
Context `{GoCalendar} {W : Type} (h : handler InspectE W) (pages : nat) (opts : ExportOptions) (concurrency : Z).
Context (projects : list TargetProject) (w : W).

Abbreviation in_step := (inspect_step h pages opts concurrency).
Abbreviation in_steps := (inspect_steps h pages opts concurrency).

Lemma inspect_steps_app ls1 ls2 s : in_steps (ls1 ++ ls2) s = in_steps ls1 s ≫= in_steps ls2.
Proof. revert s. induction ls1 as [|l ls1 IH]; intros s; cbn [inspect_steps app]; [done|]. by destruct (in_step l s). Qed.

Context (Hst : inspect_stable h) (Hctx : h _ (Client (Context_ CtxErr)) w = (None, w)).

(** What the inspection of a project returns when it runs alone. *)
Definition alone (p : TargetProject) : ProjectPolicyExport :=
  (run h (inspectProject pages opts (tp_ID p) (tp_PathWithNamespace p) (tp_Raw p)) w).1.

Lemma goroutine_run p : run h (goroutine pages opts p) w = (inr (alone p), w).
Proof using Hst Hctx.
  unfold goroutine, alone. rewrite run_bind, run_call, Hctx, run_bind.
  pose proof (run_inspects h _ w Hst (inspectProject_reads pages opts (tp_ID p) (tp_PathWithNamespace p) (tp_Raw p))) as Hw.
  destruct (run h (inspectProject _ _ _ _ _) w) as [pe w1]. cbn [snd] in Hw. by subst.
Qed.

(** Every goroutine is on its way to what its project's inspection returns. *)
Record InspectInv (s : inspection W) : Prop := {
  ii_world : in_world s = w;
  ii_canceled : in_canceled s = None;
  ii_err : in_err s = None;
  ii_running : exists started, projects = started ++ in_todo s /\
    Forall2 (fun t p => run h t w = (inr (alone p), w) /\ inspects t) (in_running s) started
}.

Lemma InspectInv_start : InspectInv (inspect_start projects w).
Proof. split; [done..|]. by exists []. Qed.

Lemma inspect_step_Inv l s s' : InspectInv s -> in_step l s = Some s' -> InspectInv s'.
Proof using Hst Hctx.
  intros [Hw Hc He (started & Hp & Hr)]. destruct l as [| |i]; cbn [inspect_step].
  - destruct (in_todo s) eqn:Et; [done|]. rewrite Hc, Hw, Hctx. destruct (in_checked s); [done|]. intros [= <-].
    split; cbn; [done..|]. exists started. auto.
  - destruct (in_todo s) as [|p todo] eqn:Et; [done|]. destruct (in_checked s); [|done]. destruct (_ <? _)%nat; [|done].
    intros [= <-]. split; cbn; [done..|]. exists (started ++ [p]). split; [by rewrite <- app_assoc|].
    apply Forall2_app; [done|]. constructor; [|done]. split; [apply goroutine_run|apply goroutine_reads].
  - destruct (in_running s !! i) as [t|] eqn:Hi; [|done]. cbn. destruct (advance h t (in_world s)) as [[t' w']|] eqn:Ha; [|done].
    intros [= <-]. rewrite Hw in Ha. destruct (Forall2_lookup_l _ _ _ _ _ Hr Hi) as (p & Hpi & Hrun & Hreads).
    pose proof (run_advance _ _ _ _ _ Ha) as Hadv.
    assert (w' = w /\ inspects t') as [-> Ht'].
    { destruct t as [a|X e k]; [done|]. cbn in Ha. destruct Hreads as [Hrd Hk]. pose proof (Hst _ e w Hrd) as He'.
      destruct (h X e w) as [x w1]. injection Ha as <- <-. cbn in He'. subst. auto. }
    rewrite Hrun in Hadv. split; cbn; [done|done| |].
    + rewrite He. destruct t' as [[e|pe]|]; [|done|done]. by cbn in Hadv.
    + exists started. split; [done|]. rewrite <- (list_insert_id _ _ _ Hpi). apply Forall2_insert; [done|]. auto.
Qed.

Lemma inspect_steps_Inv ls s s' : InspectInv s -> in_steps ls s = Some s' -> InspectInv s'.
Proof using Hst Hctx.
  revert s. induction ls as [|l ls IH]; intros s Hi; cbn [inspect_steps]; [by intros [= <-]|].
  destruct (in_step l s) as [s1|] eqn:E; [|done]. intros Hs. apply (IH s1); [|done]. by eapply inspect_step_Inv.
Qed.

(** A complete execution returns what the inspections return alone. *)
Lemma inspectFleet_run schedule r w' :
  inspectFleet h pages opts concurrency projects schedule w = Some (r, w') -> w' = w /\ r = inr (alone <$> projects).
Proof using Hst Hctx.
  unfold inspectFleet. destruct (in_steps schedule _) as [s|] eqn:Es; cbn; [|done].
  pose proof (inspect_steps_Inv _ _ _ InspectInv_start Es) as [Hw Hc He (started & Hp & Hr)]. rewrite Hc, He. cbn.
  unfold exports_of. destruct (in_todo s); [|done]. rewrite app_nil_r in Hp. subst started.
  destruct (mapM _ _) as [pes|] eqn:Em; [|done]. intros [= <- <-]. split; [done|]. f_equal. apply mapM_Some_1 in Em. clear -Em Hr.
  revert projects Hr. induction Em as [|t pe ts pes Ht _ IH]; intros ps Hr; inversion Hr as [|? p ? ps' [Hrun _] Hrest]; subst; [done|].
  cbn. f_equal; [|by apply IH]. destruct t as [[e|a]|]; cbn in *; congruence.
Qed.

End Executions.

Section Completion.
Context `{GoCalendar} {W : Type} (h : handler InspectE W) (pages : nat) (opts : ExportOptions) (concurrency : Z).

Abbreviation in_step := (inspect_step h pages opts concurrency).
Abbreviation in_steps := (inspect_steps h pages opts concurrency).

(** The loop is where it was: only goroutines have moved. *)
Record loop_still (s s' : inspection W) : Prop := {
  ls_todo : in_todo s' = in_todo s;
  ls_checked : in_checked s' = in_checked s;
  ls_canceled : in_canceled s' = in_canceled s;
  ls_length : length (in_running s') = length (in_running s)
}.

Lemma finish_one t i s :
  in_running s !! i = Some t ->
  exists ls s' a, in_steps ls s = Some s' /\ loop_still s s' /\ in_running s' !! i = Some (Ret a) /\
    forall j, j <> i -> in_running s' !! j = in_running s !! j.
Proof.
  revert s. induction t as [a|X e k IH]; intros s Hi.
  - exists [], s, a. split_and!; done.
  - destruct (h X e (in_world s)) as [x w'] eqn:Ee.
    set (s1 := {| in_todo := in_todo s; in_checked := in_checked s; in_running := <[i := k x]> (in_running s);
                  in_err := note_error (in_err s) (k x); in_canceled := in_canceled s; in_world := w' |}).
    assert (in_step (Go i) s = Some s1) as Hs1 by (cbn; rewrite Hi; cbn; by rewrite Ee).
    destruct (IH x s1) as (ls & s' & a & Hls & [H1 H2 H3 H4] & Ha & Hj).
    { cbn. apply list_lookup_insert_eq. by eapply lookup_lt_Some. }
    exists (Go i :: ls), s', a. split_and!; [by cbn [inspect_steps]; rewrite Hs1| |done|].
    + split; [done..|]. by rewrite H4; cbn; rewrite length_insert.
    + intros j Hij. rewrite (Hj j Hij). cbn. by rewrite list_lookup_insert_ne.
Qed.

Lemma finish_first n s :
  (n <= length (in_running s))%nat ->
  exists ls s', in_steps ls s = Some s' /\ loop_still s s' /\
    forall j, (j < n)%nat -> exists a, in_running s' !! j = Some (Ret a).
Proof.
  induction n as [|n IH]; intros Hn; [exists [], s; split_and!; [done|done|intros; lia]|].
  destruct IH as (ls & s1 & Hls & [H1 H2 H3 H4] & Hr); [lia|].
  destruct (lookup_lt_is_Some_2 (in_running s1) n) as [t Ht]; [lia|].
  destruct (finish_one t n s1 Ht) as (ls' & s2 & a & Hls' & [H5 H6 H7 H8] & Ha & Hj).
  exists (ls ++ ls'), s2. split_and!; [by rewrite inspect_steps_app, Hls|split; congruence|].
  intros j Hlt. destruct (decide (j = n)) as [->|Hne]; [by exists a|]. rewrite (Hj j Hne). apply Hr. lia.
Qed.

Definition all_returned (s : inspection W) : Prop := Forall (fun t => is_Some (returned t)) (in_running s).

Lemma finish_all s : exists ls s', in_steps ls s = Some s' /\ loop_still s s' /\ all_returned s'.
Proof.
  destruct (finish_first (length (in_running s)) s) as (ls & s' & Hls & Hl & Hr); [done|]. exists ls, s'. split_and!; [done..|].
  apply Forall_lookup. intros j t Hj. destruct (Hr j) as [a Ha]; [rewrite <- (ls_length _ _ Hl); by eapply lookup_lt_Some|].
  rewrite Hj in Ha. injection Ha as ->. by exists a.
Qed.

Lemma all_returned_holding s : all_returned s -> holding (in_running s) = 0%nat.
Proof.
  intros Hr. unfold holding. rewrite (proj2 (List_filter_nil _ _)); [done|]. intros t Ht.
  destruct (proj1 (Forall_forall _ _) Hr t Ht) as [a Ha]. by rewrite Ha.
Qed.

(** From wherever it stands, the inspection can go on to its end: it has no
    deadlock. *)
Lemma inspection_completes s :
  0 < concurrency ->
  exists ls s', in_steps ls s = Some s' /\ (is_Some (in_canceled s') \/ in_todo s' = [] /\ in_canceled s' = None /\ all_returned s').
Proof.
  intros Hc. remember (in_todo s) as todo eqn:Et. revert s Et. induction todo as [|p todo IH]; intros s Et;
    destruct (finish_all s) as (ls & s1 & Hls & [H1 H2 H3 _] & Hr);
    (destruct (in_canceled s) as [e|] eqn:Ec; [exists ls, s1; split; [done|left; by exists e]|]).
  { exists ls, s1. split; [done|]. right. split_and!; congruence. }
  assert (forall s2, in_todo s2 = p :: todo -> in_checked s2 = true -> in_canceled s2 = None -> all_returned s2 ->
    exists ls s', in_steps ls s2 = Some s' /\ (is_Some (in_canceled s') \/ in_todo s' = [] /\ in_canceled s' = None /\ all_returned s')) as Hgo.
  { intros s2 E1 E2 E3 E4. edestruct (IH {| in_todo := todo; in_checked := false; in_running := in_running s2 ++ [goroutine pages opts p];
      in_err := in_err s2; in_canceled := in_canceled s2; in_world := in_world s2 |}) as (ls' & s' & Hls' & He); [done|].
    exists (Acquire :: ls'), s'. split; [|done]. cbn [inspect_steps inspect_step]. rewrite E1, E2, all_returned_holding by done.
    by rewrite (proj2 (Nat.ltb_lt _ _)) by lia. }
  destruct (in_checked s1) eqn:Ek.
  { destruct (Hgo s1) as (ls' & s' & Hls' & He); [congruence..|done|]. exists (ls ++ ls'), s'. by rewrite inspect_steps_app, Hls. }
  destruct (h _ (Client (Context_ CtxErr)) (in_world s1)) as [c w'] eqn:Eh.
  set (s2 := {| in_todo := in_todo s1; in_checked := negb (is_some c); in_running := in_running s1; in_err := in_err s1;
                in_canceled := c; in_world := w' |}).
  assert (in_step Check s1 = Some s2) as Hs2 by (cbn [inspect_step]; rewrite H1, <- Et, Ek, H3, Eh; unfold s2; by rewrite H1, <- Et).
  assert (in_steps (ls ++ [Check]) s = Some s2) as Hpre by (rewrite inspect_steps_app, Hls; cbn [mbind option_bind inspect_steps]; by rewrite Hs2).
  destruct c as [e|]; [exists (ls ++ [Check]), s2; split; [done|left; by exists e]|].
  destruct (Hgo s2) as (ls' & s' & Hls' & He); [cbn; congruence|done|done|done|]. exists ((ls ++ [Check]) ++ ls'), s'.
  by rewrite inspect_steps_app, Hpre.
Qed.

End Completion.

Lemma fetchSingle_reads pid : inspects (fetchSingle pid).
Proof. unfold fetchSingle. apply only_bind; [by split|]. done. Qed.

Lemma exportFleet_world `{GoRegexp} `{GoQuery} {W} (h : handler InspectE W) fuel targets concurrency schedule w r w' :
  inspect_stable h -> exportFleet h fuel targets concurrency schedule w = Some (r, w') -> w' = w.
Proof.
  intros Hst. unfold exportFleet. destruct (singleProject targets) as [pid|].
  - intros Hr%(inj Some). pose proof (run_inspects h _ w Hst (fetchSingle_reads pid)) as Hw. by rewrite Hr in Hw.
  - destruct (DiscoverFleet _ _ _ _ _ _) as [[res w1]|] eqn:Hd; [|done]. cbn. intros [= _ <-].
    apply DiscoverFleet_world in Hd; [done|]. intros X e w2 He. by apply (Hst X (Client e)).
Qed.

Lemma warn_all_reads ws : inspects (warn_all ws).
Proof. induction ws as [|m ws IH]; cbn [warn_all foldr]; [done|]. apply only_bind; [by split|done]. Qed.

Section World.
Context `{GoCalendar} {W : Type} (h : handler InspectE W) (pages : nat) (opts : ExportOptions) (concurrency : Z).
Context (Hst : inspect_stable h).

(** Every goroutine only reads, and the server is as it was. *)
Definition only_reading (w : W) (s : inspection W) : Prop := in_world s = w /\ Forall (fun t => inspects t) (in_running s).

Lemma inspect_step_reading w l s s' : only_reading w s -> inspect_step h pages opts concurrency l s = Some s' -> only_reading w s'.
Proof using Hst.
  intros [Hw Hr]. destruct l as [| |i]; cbn [inspect_step].
  - destruct (in_todo s); [done|]. destruct (in_checked s), (in_canceled s); try done.
    pose proof (Hst _ (Client (Context_ CtxErr)) (in_world s) eq_refl) as Hc. destruct (h _ _ _) as [c w']. intros [= <-].
    split; [|done]. cbn in *. congruence.
  - destruct (in_todo s) as [|p todo]; [done|]. destruct (in_checked s); [|done]. destruct (_ <? _)%nat; [|done]. intros [= <-].
    split; [done|]. apply Forall_app. split; [done|]. constructor; [apply goroutine_reads|done].
  - destruct (in_running s !! i) as [t|] eqn:Hi; [|done]. cbn. destruct t as [a|X e k]; [done|]. cbn.
    destruct (proj1 (Forall_lookup _ _) Hr i _ Hi) as [He Hk]. pose proof (Hst _ e (in_world s) He) as Hw'.
    destruct (h X e (in_world s)) as [x w1]. intros [= <-]. split; [cbn in *; congruence|]. apply Forall_insert; [done|apply Hk].
Qed.

Lemma inspectFleet_world projects schedule w r w' :
  inspectFleet h pages opts concurrency projects schedule w = Some (r, w') -> w' = w.
Proof using Hst.
  assert (forall ls s s', only_reading w s -> inspect_steps h pages opts concurrency ls s = Some s' -> only_reading w s') as Hsteps.
  { induction ls as [|l ls IH]; intros s s' Hs; cbn [inspect_steps]; [by intros [= <-]|].
    destruct (inspect_step _ _ _ _ l s) as [s1|] eqn:E; [|done]. apply IH. by eapply inspect_step_reading. }
  unfold inspectFleet. destruct (inspect_steps _ _ _ _ schedule _) as [s|] eqn:E; [|done]. cbn.
  apply Hsteps in E as [Hw _]; [|by split; [|constructor]]. destruct (in_canceled s); [by intros [= _ <-]|].
  destruct (exports_of s); [|done]. cbn. by intros [= _ <-].
Qed.

End World.

Lemma ExportFleetPolicy_world `{GoRegexp} `{GoQuery} `{GoCalendar} {W} (h : handler InspectE W) fuel pages opts cfg schedule w r w' :
  inspect_stable h -> ExportFleetPolicy h fuel pages opts cfg schedule w = Some (r, w') -> w' = w.
Proof.
  intros Hst. unfold ExportFleetPolicy. cbv zeta. destruct (exportFleet _ _ _ _ _ w) as [[fleet w1]|] eqn:Hf; [|done]. cbn [mbind option_bind].
  apply exportFleet_world in Hf as ->; [|done]. destruct fleet as [e|fleet]; [by intros [= _ <-]|].
  destruct (inspectFleet _ _ _ _ _ _ w) as [[exports w2]|] eqn:Hi; [|done]. cbn [mbind option_bind].
  apply inspectFleet_world in Hi as ->; [|done]. destruct exports as [e|exports]; [by intros [= _ <-]|].
  destruct (normalizePolicies _ _) as [e|[policies warnings]]; [by intros [= _ <-]|].
  rewrite (run_inspects h (warn_all warnings) w Hst (warn_all_reads warnings)).
  destruct (buildExportTargets _ _); [|done]. cbn. by intros [= _ <-].
Qed.

(** ** Properties: the export *)

(** The inspection cannot be stuck: wherever an execution of the loop and its
    goroutines stands, it can go on to its end, when there is a place in the
    semaphore. *)
Theorem inspectFleet_progress `{GoCalendar} {W} (h : handler InspectE W) pages opts concurrency projects ls w s :
  0 < concurrency ->
  inspect_steps h pages opts concurrency ls (inspect_start projects w) = Some s ->
  exists ls' res, inspectFleet h pages opts concurrency projects (ls ++ ls') w = Some res.
Proof.
  intros Hc Hls. destruct (inspection_completes h pages opts concurrency s Hc) as (ls' & s' & Hls' & He). exists ls'.
  unfold inspectFleet. rewrite inspect_steps_app, Hls. cbn [mbind option_bind]. rewrite Hls'. cbn [mbind option_bind].
  destruct He as [[e ->]|(Ht & -> & Hr)]; [by eexists|]. unfold exports_of. rewrite Ht.
  match goal with |- context [mapM ?f _] => assert (is_Some (mapM f (in_running s'))) as [pes ->] end; [|by eexists].
  apply mapM_is_Some. apply (Forall_impl _ _ _ Hr). intros t [[e|pe] Ht']; cbn; rewrite Ht'; by eexists.
Qed.

(** What the exporter writes of a project of the fleet. *)
Definition exportOf `{GoCalendar} (opts : ExportOptions) (live : Z -> live_project) (p : TargetProject) : ProjectPolicyExport := {|
  px_ProjectID := tp_ID p; px_ProjectPath := tp_PathWithNamespace p; px_Policies := exported opts (tp_Raw p) (live (tp_ID p)) |}.

(** C18. The export of a fleet, whatever the interleaving of the goroutines: on a
    server that shows its projects and that reading does not disturb, the document
    is made of what the policies of the fleet's projects ask for, in the order of
    their numbers, normalized; the server is as it was, and the document is a
    dry-run. *)
Theorem ExportFleetPolicy_exact `{GoRegexp} `{GoQuery} `{GoCalendar} {W} (h : handler InspectE W) fuel pages opts cfg targets fleet
    live schedule w w1 r w' :
  inspect_stable h ->
  exportFleet h fuel targets (or_positive (st_Concurrency (cfg_Settings cfg)) 10) (es_discovery schedule) w = Some (inr fleet, w1) ->
  targets = exportTargets opts cfg ->
  h _ (Client (Context_ CtxErr)) w = (None, w) ->
  Forall (fun p => shows h (tp_ID p) (tp_PathWithNamespace p) (live (tp_ID p)) w /\ pages_fit pages (live (tp_ID p)))
    (projectsByID fleet) ->
  ExportFleetPolicy h fuel pages opts (Some cfg) schedule w = Some (r, w') ->
  w' = w /\
  match normalizePolicies (exportOf (with_strategy opts) live <$> projectsByID fleet) (with_strategy opts) with
  | inl e => r = inl e
  | inr (policies, warnings) =>
      exists t, buildExportTargets targets fleet = Some t /\ r = inr (documentOf t policies warnings)
  end.
Proof.
  intros Hst Hf -> Hctx Hall. pose proof (exportFleet_world _ _ _ _ _ _ _ _ Hst Hf) as ->. unfold ExportFleetPolicy. cbn [from_option]. cbv zeta. unfold id. rewrite Hf. cbn [mbind option_bind].
  destruct (inspectFleet _ _ _ _ _ _ _) as [[exports w2]|] eqn:Ei; [|done]. cbn [mbind option_bind].
  destruct (inspectFleet_run _ _ _ _ _ _ Hst Hctx _ _ _ Ei) as [-> ->].
  assert (alone h pages (with_strategy opts) w <$> projectsByID fleet = exportOf (with_strategy opts) live <$> projectsByID fleet) as ->.
  { apply list_fmap_ext. intros i p Hi. rewrite Forall_lookup in Hall. destruct (Hall i p Hi) as [Hs Hp].
    unfold alone. by rewrite (inspectProject_run h _ _ _ _ Hs pages (with_strategy opts) (tp_Raw p) Hp). }
  destruct (normalizePolicies _ _) as [e|[policies ws]]; [by intros [= <- <-]|].
  rewrite (run_inspects h (warn_all ws) w Hst (warn_all_reads ws)).
  destruct (buildExportTargets _ _) as [t|]; [|done]. cbn. intros [= <- <-]. split; [done|]. by exists t.
Qed.

Lemma is_some_default {A} (o : option A) d : is_some o = true -> o = Some (default d o).
Proof. by destruct o. Qed.

(** ** Witnesses: a fleet of two projects *)

#[local] Existing Instance demo_literal.
#[local] Existing Instance demo_fleet_query.
#[local] Existing Instance ExportPlan.demo_calendar.

Definition demo_lives (pid : Z) : live_project := {|
  lv_project := if pid =? 43 then demo_playground else demo_project;
  lv_push := lv_push demo_live; lv_branches := lv_branches demo_live; lv_approvals := lv_approvals demo_live;
  lv_rules := lv_rules demo_live; lv_retention := lv_retention demo_live; lv_variables := lv_variables demo_live;
  lv_runners := lv_runners demo_live; lv_details := lv_details demo_live; lv_frameworks := lv_frameworks demo_live;
  lv_hooks := lv_hooks demo_live; lv_members := lv_members demo_live; lv_targets := lv_targets demo_live |}.

Definition demo_export_server : handler InspectE unit := fun X e w =>
  match e in InspectE X return X * unit with
  | Client e =>
      match e in GitLabE X return X * unit with
      | Projects e =>
          match e in ProjectsE X return X * unit with
          | GetProject pid => (reply_ok (Some (lv_project (demo_lives pid))), w)
          | ListProjects _ => (demo_listing [demo_playground; demo_project], w)
          | e => demo_inspected _ (Client (Projects e)) w
          end
      | e => demo_inspected _ (Client e) w
      end
  | e => demo_inspected _ e w
  end.

Lemma demo_export_stable : inspect_stable demo_export_server.
Proof. intros X [? e| | | | | | |] [] _; by destruct (demo_export_server _ _ _) as [? []]. Qed.

Definition demo_fleet_options (strategy : string) : ExportOptions := {|
  xo_ProjectID := 0; xo_IncludeSecretsPlaceholder := true; xo_SkipReconcilers := fun _ => false;
  xo_FromProject := ""; xo_Strategy := strategy |}.

Definition demo_fleet_config : PolicyConfig := {|
  cfg_Version := "v1"; cfg_Settings := zero_Settings;
  cfg_Targets := {| ts_GroupSelector := None;
                    ts_ProjectSelector := Some (Build_ProjectSelector [] [] "" "" [] [] "" None None
                                                  (Some {| idr_Min := 40; idr_Max := 49 |})) |};
  cfg_Policies := zero_Policies |}.

Definition demo_export_fleet : TargetFleet :=
  match exportFleet demo_export_server demo_fleet_fuel (cfg_Targets demo_fleet_config) 10 [] tt with
  | Some (inr fleet, _) => fleet
  | _ => ToFleet newFleetAccumulator
  end.

(** Two goroutines that take turns. *)
Definition demo_inspection_schedule : list inspect_label :=
  [Check; Acquire; Go 0; Check; Acquire] ++ flat_map (fun _ => [Go 1%nat; Go 0%nat]) (seq 0 24) ++ [Go 1%nat].

Definition demo_export_run (strategy : string) :=
  ExportFleetPolicy demo_export_server demo_fleet_fuel 1 (demo_fleet_options strategy) (Some demo_fleet_config)
    {| es_discovery := []; es_inspection := demo_inspection_schedule |} tt.

Lemma demo_export_shows :
  Forall (fun p => shows demo_export_server (tp_ID p) (tp_PathWithNamespace p) (demo_lives (tp_ID p)) tt /\
                   pages_fit 1 (demo_lives (tp_ID p))) (projectsByID demo_export_fleet).
Proof. repeat constructor; try (apply Nat.ltb_lt; reflexivity). Qed.

Lemma ExportFleetPolicy_exact_witness :
  match demo_export_run "" with
  | Some (inr d, _) => cm_sections (xd_comments d) !! 3%nat = Some ("project_settings",
        "WARNING: 2 projects have divergent project_settings — only first project's values shown") /\
      tp_ID <$> projectsByID demo_export_fleet = [42; 43]
  | _ => False
  end /\
  match demo_export_run "" with
  | Some (inr d, _) =>
      match normalizePolicies (exportOf (demo_fleet_options "archetype") demo_lives <$> projectsByID demo_export_fleet)
              (demo_fleet_options "archetype") with
      | inr (policies, _) => cfg_Policies (xd_config d) = policies
      | inl _ => False
      end
  | _ => False
  end.
Proof.
  split; [vm_compute; by split|].
  destruct (demo_export_run "") as [[[e|d] w']|] eqn:Hr; [by vm_compute in Hr| |by vm_compute in Hr].
  unfold demo_export_run in Hr.
  destruct (ExportFleetPolicy_exact demo_export_server demo_fleet_fuel 1 (demo_fleet_options "") demo_fleet_config
    (cfg_Targets demo_fleet_config) demo_export_fleet demo_lives _ tt tt (inr d) w'
    demo_export_stable ltac:(vm_compute; reflexivity) ltac:(reflexivity) ltac:(reflexivity) demo_export_shows Hr) as [_ Hd].
  change (with_strategy (demo_fleet_options "")) with (demo_fleet_options "archetype") in Hd.
  destruct (normalizePolicies _ _) as [e|[policies ws]]; [done|]. destruct Hd as (t & _ & [= ->]). done.
Defined.

Definition demo_exports (second : ProjectPolicyExport -> ProjectPolicyExport) : list ProjectPolicyExport :=
  let pe := {| px_ProjectID := 42; px_ProjectPath := "platform/api"; px_Policies := exported (demo_fleet_options "") None demo_live |} in
  [pe; second pe].

(** The same policies, without the section of the variables. *)
Definition without_variables (pe : ProjectPolicyExport) : ProjectPolicyExport :=
  let p := px_Policies pe in {|
  px_ProjectID := 43; px_ProjectPath := "platform/web";
  px_Policies := Build_PoliciesConfig (pol_PushRules p) (pol_ProtectedBranches p) (pol_ProtectedTags p)
    (pol_ProtectedEnvironments p) (pol_ApprovalRules p) (pol_ProjectSettings p) (pol_PipelineRetention p) []
    (pol_Runners p) (pol_Compliance p) (pol_Webhooks p) (pol_Members p) (pol_TargetBranchRules p)
    (pol_RepositoryFiles p) (pol_BranchMerges p) |}.

Lemma strict_export_iff_witness :
  (exists norm ws, normalizePolicies (demo_exports id) (demo_fleet_options "strict") = inr (norm, ws)) /\
  ~ (forall A (s : section A), exists a, agreed s (demo_exports without_variables) a).
Proof.
  split.
  - apply (strict_export_iff (demo_exports id) (demo_fleet_options "strict")); [apply Nat.ltb_lt; reflexivity|reflexivity|reflexivity|].
    intros A s. exists (get s (exported (demo_fleet_options "") None demo_live)). split; [by destruct s|by repeat constructor].
  - intros Hall. apply (strict_export_iff (demo_exports without_variables) (demo_fleet_options "strict")) in Hall as (norm & ws & Hn);
      [by vm_compute in Hn|apply Nat.ltb_lt; reflexivity|reflexivity|reflexivity].
Defined.

Lemma normalizePolicies_exact_witness :
  match normalizePolicies (demo_exports without_variables) (demo_fleet_options "consensus") with
  | inr (norm, ws) =>
      length ws = 1%nat /\ pol_Variables norm = [] /\
      pol_PushRules norm = pol_PushRules (exported (demo_fleet_options "") None demo_live)
  | inl _ => False
  end.
Proof.
  destruct (normalizePolicies _ _) as [e|[norm ws]] eqn:Hn; [by vm_compute in Hn|].
  destruct (normalizePolicies_exact (demo_exports without_variables) (demo_fleet_options "consensus") norm ws
    ltac:(discriminate) Hn) as (arch & _ & Hs & _).
  split; [vm_compute in Hn; by injection Hn as _ <-|]. split.
  - change (get SVariables norm = []). rewrite (proj2 (proj2 (Hs _ SVariables) ltac:(intros a [Ha Hall]; apply Forall_cons in Hall as [_ Hall];
      apply Forall_cons in Hall as [Hall _]; by apply Ha))). reflexivity.
  - apply (proj1 (Hs _ SPushRules)). split; [discriminate|repeat constructor].
Defined.

Lemma inspectFleet_progress_witness :
  exists ls' res, inspectFleet demo_export_server 1 (demo_fleet_options "") 10 (projectsByID demo_export_fleet)
    (take 9 demo_inspection_schedule ++ ls') tt = Some res.
Proof.
  eapply inspectFleet_progress; [reflexivity|].
  apply (is_some_default _ (inspect_start [] tt)). vm_compute. reflexivity.
Defined.
