(* ===== verification/AuditModel.v ===== *)
(** * The model of the audit: internal/audit/model.go

    Findings, their severity, the summary of a report, and the classification
    of accounts and of projects.  [ComputeSummary_exact] shows what the counters
    count.  The calls that only the audit makes are [AuditE]; the audit modules
    are in [AuditModules] and the auditor in [Auditor]. *)

From S2P Require Import Prelude GoLib GoTime PathMatch GitLabAPI Transport Discovery.
Local Open Scope string_scope.
Local Open Scope list_scope.
Local Open Scope Z_scope.

(** ** Severities *)

Inductive Severity : Type := Critical | High | Medium | Low | Info | Pass.

#[export] Instance Severity_eq_dec : EqDecision Severity.
Proof. solve_decision. Defined.

Definition severity_text (s : Severity) : string :=
  match s with
  | Critical => "CRITICAL" | High => "HIGH" | Medium => "MEDIUM" | Low => "LOW" | Info => "INFO" | Pass => "PASS"
  end.

(** How grave a severity is. *)
Definition rank (s : Severity) : nat :=
  match s with Critical => 5 | High => 4 | Medium => 3 | Low => 2 | Info => 1 | Pass => 0 end.

Definition of_rank (n : nat) : Severity :=
  match n with 5%nat => Critical | 4%nat => High | 3%nat => Medium | 2%nat => Low | 1%nat => Info | _ => Pass end.

#[export] Instance Severity_countable : Countable Severity.
Proof. apply (inj_countable' rank of_rank). by intros []. Defined.

Definition is_violation (s : Severity) : bool := negb (bool_decide (s = Pass)) && negb (bool_decide (s = Info)).

Definition AdjustSeverityForProject (base : Severity) (isArchived isInactive : bool) : Severity :=
  if isArchived then
    match base with Critical => Medium | High => Low | Medium => Low | _ => base end
  else if isInactive then
    match base with Critical => High | High => Medium | _ => base end
  else base.

(** ** Modules *)

Definition ModuleUserAccess : string := "user_access".
Definition ModuleProtectedBranches : string := "protected_branches".
Definition ModuleProtectedEnvironments : string := "protected_environments".
Definition ModulePipelineRetention : string := "pipeline_retention".
Definition ModuleRepositoryFiles : string := "repository_files".
Definition ModuleProtectedTags : string := "protected_tags".

Definition AllModuleNames : list string :=
  [ModuleUserAccess; ModuleProtectedBranches; ModuleProtectedEnvironments; ModulePipelineRetention; ModuleRepositoryFiles;
   ModuleProtectedTags].

(** ** Findings *)

(** The fields that the findings of all modules begin with. *)
Record finding_project : Type := {
  fp_ProjectID : Z;
  fp_ProjectName : string;
  fp_ProjectPath : string;
  fp_ProjectWebURL : string;
  fp_ProjectStatus : string
}.

Record UserInfo : Type := {
  ui_ID : Z;
  ui_Username : string;
  ui_Name : string;
  ui_Email : string;
  ui_State : string;
  ui_WebURL : string;
  ui_IsBot : bool;
  ui_AccountType : string;
  ui_ProjectsCount : Z;
  ui_ProjectPaths : list string
}.

Record UserAccessFinding : Type := {
  uf_Project : finding_project;
  uf_UserID : Z;
  uf_Username : string;
  uf_Name : string;
  uf_Email : string;
  uf_AccessLevel : Z;
  uf_AccessRoleName : string;
  uf_IsDirect : bool;
  uf_MembershipType : string;
  uf_IsBot : bool;
  uf_AccountType : string;
  uf_ExpiresAt : string;
  uf_HasExpiration : bool;
  uf_Severity : Severity;
  uf_ViolationType : string;
  uf_Details : string;
  uf_Remediation : string
}.

Record ProtectedBranchFinding : Type := {
  bf_Project : finding_project;
  bf_BranchName : string;
  bf_IsDefaultBranch : bool;
  bf_IsProtected : bool;
  bf_AllowForcePush : bool;
  bf_CodeOwnerApprovalRequired : bool;
  bf_PushAccessLevelsSummary : string;
  bf_MergeAccessLevelsSummary : string;
  bf_DirectUserPushGrants : list string;
  bf_DirectGroupPushGrants : list string;
  bf_Severity : Severity;
  bf_Violations : list string;
  bf_Details : string;
  bf_Remediation : string
}.

Record ProtectedEnvironmentFinding : Type := {
  ef_Project : finding_project;
  ef_EnvironmentName : string;
  ef_IsProduction : bool;
  ef_RequiredApprovalCount : Z;
  ef_DeployAccessLevelsSummary : string;
  ef_DirectUserDeployGrants : list string;
  ef_DirectGroupDeployGrants : list string;
  ef_Severity : Severity;
  ef_Violations : list string;
  ef_Details : string;
  ef_Remediation : string
}.

Record PipelineRetentionFinding : Type := {
  nf_Project : finding_project;
  nf_RetentionSeconds : Z;
  nf_RetentionDays : Z;
  nf_HasRetentionConfigured : bool;
  nf_OldestPipelineID : Z;
  nf_OldestPipelineRef : string;
  nf_OldestPipelineStatus : string;
  nf_OldestPipelineCreated : string;
  nf_OldestPipelineAgeDays : Z;
  nf_StalePipelinesCount : Z;
  nf_Severity : Severity;
  nf_ViolationType : string;
  nf_Details : string;
  nf_Remediation : string
}.

Record RepositoryFileFinding : Type := {
  ff_Project : finding_project;
  ff_FilePath : string;
  ff_TargetBranch : string;
  ff_FileExists : bool;
  ff_Severity : Severity;
  ff_ViolationType : string;
  ff_Details : string;
  ff_Remediation : string
}.

Record ProtectedTagFinding : Type := {
  gf_Project : finding_project;
  gf_TagNamePattern : string;
  gf_IsProtected : bool;
  gf_CreateAccessLevelsSummary : string;
  gf_DirectUserCreateGrants : list string;
  gf_DirectGroupCreateGrants : list string;
  gf_Severity : Severity;
  gf_Violations : list string;
  gf_Details : string;
  gf_Remediation : string
}.

(** ** The summary *)

(** [SummaryMetrics]; the counts of the projects by their state are set by the
    auditor. *)
Record AuditSummary : Type := {
  as_TotalProjectsScanned : Z;
  as_ActiveProjectsCount : Z;
  as_ArchivedProjectsCount : Z;
  as_PendingDeletionProjectsCount : Z;
  as_CompliantProjectsCount : Z;
  as_NonCompliantProjectsCount : Z;
  as_TotalViolations : Z;
  as_CriticalSeverityCount : Z;
  as_HighSeverityCount : Z;
  as_MediumSeverityCount : Z;
  as_LowSeverityCount : Z;
  as_HumanUserViolations : Z;
  as_BotUserViolations : Z;
  as_UserAccessViolations : Z;
  as_ProtectedBranchViolations : Z;
  as_ProtectedEnvViolations : Z;
  as_PipelineRetentionViolations : Z;
  as_RepositoryFileViolations : Z;
  as_ProtectedTagViolations : Z;
  as_AuditedBy : string;
  as_SeverityBreakdown : gmap Severity Z;
  as_ModuleViolations : gmap string Z
}.

(** The seven lists of findings of a report. *)
Record findings : Type := {
  fs_UserAccess : list UserAccessFinding;
  fs_BotAccess : list UserAccessFinding;
  fs_ProtectedBranches : list ProtectedBranchFinding;
  fs_ProtectedEnvs : list ProtectedEnvironmentFinding;
  fs_PipelineRetention : list PipelineRetentionFinding;
  fs_RepositoryFiles : list RepositoryFileFinding;
  fs_ProtectedTags : list ProtectedTagFinding
}.

Definition no_findings : findings := Build_findings [] [] [] [] [] [] [].

Variant finding_list : Type := LHuman | LBot | LBranches | LEnvs | LRetention | LFiles | LTags.

#[export] Instance finding_list_eq_dec : EqDecision finding_list.
Proof. solve_decision. Defined.

Definition clear_counters (s : AuditSummary) : AuditSummary := {|
  as_TotalProjectsScanned := as_TotalProjectsScanned s; as_ActiveProjectsCount := as_ActiveProjectsCount s;
  as_ArchivedProjectsCount := as_ArchivedProjectsCount s; as_PendingDeletionProjectsCount := as_PendingDeletionProjectsCount s;
  as_CompliantProjectsCount := as_CompliantProjectsCount s; as_NonCompliantProjectsCount := as_NonCompliantProjectsCount s;
  as_TotalViolations := 0; as_CriticalSeverityCount := 0; as_HighSeverityCount := 0; as_MediumSeverityCount := 0;
  as_LowSeverityCount := 0; as_HumanUserViolations := 0; as_BotUserViolations := 0; as_UserAccessViolations := 0;
  as_ProtectedBranchViolations := 0; as_ProtectedEnvViolations := 0; as_PipelineRetentionViolations := 0;
  as_RepositoryFileViolations := 0; as_ProtectedTagViolations := 0; as_AuditedBy := as_AuditedBy s;
  as_SeverityBreakdown := ∅; as_ModuleViolations := ∅
|}.

(** [if b { z++ }]. *)
Definition bump (b : bool) (z : Z) : Z := if b then z + 1 else z.

(** One turn of the loop over the list [m], whose finding is of project [f.1]
    with severity [f.2]; [acc.2] is [nonCompliantProjects]. *)
Definition count_finding (m : finding_list) (acc : AuditSummary * gset Z) (f : Z * Severity) : AuditSummary * gset Z :=
  let '(s, projects) := acc in
  let '(pid, sev) := f in
  let is_list l := bool_decide (m = l) in
  let is_sev x := bool_decide (sev = x) in
  if is_violation sev then
    ({| as_TotalProjectsScanned := as_TotalProjectsScanned s; as_ActiveProjectsCount := as_ActiveProjectsCount s;
        as_ArchivedProjectsCount := as_ArchivedProjectsCount s; as_PendingDeletionProjectsCount := as_PendingDeletionProjectsCount s;
        as_CompliantProjectsCount := as_CompliantProjectsCount s; as_NonCompliantProjectsCount := as_NonCompliantProjectsCount s;
        as_TotalViolations := as_TotalViolations s + 1;
        as_CriticalSeverityCount := bump (is_sev Critical) (as_CriticalSeverityCount s);
        as_HighSeverityCount := bump (is_sev High) (as_HighSeverityCount s);
        as_MediumSeverityCount := bump (is_sev Medium) (as_MediumSeverityCount s);
        as_LowSeverityCount := bump (is_sev Low) (as_LowSeverityCount s);
        as_HumanUserViolations := bump (is_list LHuman) (as_HumanUserViolations s);
        as_BotUserViolations := bump (is_list LBot) (as_BotUserViolations s);
        as_UserAccessViolations := bump (is_list LHuman || is_list LBot) (as_UserAccessViolations s);
        as_ProtectedBranchViolations := bump (is_list LBranches) (as_ProtectedBranchViolations s);
        as_ProtectedEnvViolations := bump (is_list LEnvs) (as_ProtectedEnvViolations s);
        as_PipelineRetentionViolations := bump (is_list LRetention) (as_PipelineRetentionViolations s);
        as_RepositoryFileViolations := bump (is_list LFiles) (as_RepositoryFileViolations s);
        as_ProtectedTagViolations := bump (is_list LTags) (as_ProtectedTagViolations s);
        as_AuditedBy := as_AuditedBy s;
        as_SeverityBreakdown := <[sev := default 0 (as_SeverityBreakdown s !! sev) + 1]> (as_SeverityBreakdown s);
        as_ModuleViolations := as_ModuleViolations s |},
     {[pid]} ∪ projects)
  else acc.

Definition user_key (f : UserAccessFinding) : Z * Severity := (fp_ProjectID (uf_Project f), uf_Severity f).
Definition branch_key (f : ProtectedBranchFinding) : Z * Severity := (fp_ProjectID (bf_Project f), bf_Severity f).
Definition env_key (f : ProtectedEnvironmentFinding) : Z * Severity := (fp_ProjectID (ef_Project f), ef_Severity f).
Definition retention_key (f : PipelineRetentionFinding) : Z * Severity := (fp_ProjectID (nf_Project f), nf_Severity f).
Definition file_finding_key (f : RepositoryFileFinding) : Z * Severity := (fp_ProjectID (ff_Project f), ff_Severity f).
Definition tag_key (f : ProtectedTagFinding) : Z * Severity := (fp_ProjectID (gf_Project f), gf_Severity f).

(** The findings in the order of the seven loops. *)
Definition all_findings (fs : findings) : list (finding_list * (Z * Severity)) :=
  ((LHuman,.) ∘ user_key <$> fs_UserAccess fs) ++ ((LBot,.) ∘ user_key <$> fs_BotAccess fs)
  ++ ((LBranches,.) ∘ branch_key <$> fs_ProtectedBranches fs) ++ ((LEnvs,.) ∘ env_key <$> fs_ProtectedEnvs fs)
  ++ ((LRetention,.) ∘ retention_key <$> fs_PipelineRetention fs) ++ ((LFiles,.) ∘ file_finding_key <$> fs_RepositoryFiles fs)
  ++ ((LTags,.) ∘ tag_key <$> fs_ProtectedTags fs).

Definition count_all (l : list (finding_list * (Z * Severity))) (acc : AuditSummary * gset Z) : AuditSummary * gset Z :=
  foldl (fun acc f => count_finding f.1 acc f.2) acc l.

(** The last lines: the modules' counts, and the projects with and without
    violations. *)
Definition finish_summary (acc : AuditSummary * gset Z) : AuditSummary :=
  let '(s, projects) := acc in
  let nonCompliant := Z.of_nat (size projects) in {|
  as_TotalProjectsScanned := as_TotalProjectsScanned s; as_ActiveProjectsCount := as_ActiveProjectsCount s;
  as_ArchivedProjectsCount := as_ArchivedProjectsCount s; as_PendingDeletionProjectsCount := as_PendingDeletionProjectsCount s;
  as_CompliantProjectsCount := if as_TotalProjectsScanned s - nonCompliant <? 0 then 0 else as_TotalProjectsScanned s - nonCompliant;
  as_NonCompliantProjectsCount := nonCompliant; as_TotalViolations := as_TotalViolations s;
  as_CriticalSeverityCount := as_CriticalSeverityCount s; as_HighSeverityCount := as_HighSeverityCount s;
  as_MediumSeverityCount := as_MediumSeverityCount s; as_LowSeverityCount := as_LowSeverityCount s;
  as_HumanUserViolations := as_HumanUserViolations s; as_BotUserViolations := as_BotUserViolations s;
  as_UserAccessViolations := as_UserAccessViolations s; as_ProtectedBranchViolations := as_ProtectedBranchViolations s;
  as_ProtectedEnvViolations := as_ProtectedEnvViolations s; as_PipelineRetentionViolations := as_PipelineRetentionViolations s;
  as_RepositoryFileViolations := as_RepositoryFileViolations s; as_ProtectedTagViolations := as_ProtectedTagViolations s;
  as_AuditedBy := as_AuditedBy s; as_SeverityBreakdown := as_SeverityBreakdown s;
  as_ModuleViolations := list_to_map [
    (ModuleUserAccess, as_UserAccessViolations s); (ModuleProtectedBranches, as_ProtectedBranchViolations s);
    (ModuleProtectedEnvironments, as_ProtectedEnvViolations s); (ModulePipelineRetention, as_PipelineRetentionViolations s);
    (ModuleRepositoryFiles, as_RepositoryFileViolations s); (ModuleProtectedTags, as_ProtectedTagViolations s)]
|}.

Definition ComputeSummary (s : AuditSummary) (fs : findings) : AuditSummary :=
  finish_summary (count_all (all_findings fs) (clear_counters s, ∅)).

(** ** Names *)

Definition AccessLevelToName (level : Z) : string :=
  if level =? 10 then "Guest (10)"
  else if level =? 15 then "Planner (15)"
  else if level =? 20 then "Reporter (20)"
  else if level =? 30 then "Developer (30)"
  else if level =? 40 then "Maintainer (40)"
  else if level =? 50 then "Owner (50)"
  else if level =? 60 then "Admin (60)"
  else "Level " +:+ Itoa level.

(** "@user (Name) <email> [ID: n]". *)
Definition identity (u : UserInfo) : string :=
  "@" +:+ ui_Username u
  +:+ (if negb (ui_Name u =? "")%string && negb (ui_Name u =? ui_Username u)%string then " (" +:+ ui_Name u +:+ ")" else "")
  +:+ (if negb (ui_Email u =? "")%string then " <" +:+ ui_Email u +:+ ">" else "")
  +:+ (if 0 <? ui_ID u then " [ID: " +:+ Itoa (ui_ID u) +:+ "]" else "").

Definition InitiatorDescription (authenticated : option UserInfo) (auditedBy : string) : string :=
  match authenticated with
  | Some u => identity u
  | None => if negb (auditedBy =? "")%string then auditedBy else "System / Anonymous"
  end.

(** ** The order of a report *)

Definition pair_less (a b : string * string) : bool :=
  if negb (a.1 =? b.1)%string then (a.1 <? b.1)%string else (a.2 <? b.2)%string.

(** [a] may come before [b] in a list sorted by [key]. *)
Definition by_pair {A} (key : A -> string * string) (a b : A) : Prop := pair_less (key b) (key a) = false.

#[export] Instance by_pair_dec {A} (key : A -> string * string) a b : Decision (by_pair key a b).
Proof. unfold by_pair. apply _. Defined.

Definition user_less (a b : UserInfo) : bool :=
  if (ui_Username a =? ui_Username b)%string then ui_ID a <? ui_ID b
  else (ToLower (ui_Username a) <? ToLower (ui_Username b))%string.

Definition user_le (a b : UserInfo) : Prop := user_less b a = false.

#[export] Instance user_le_dec a b : Decision (user_le a b).
Proof. unfold user_le. apply _. Defined.

Definition user_order (f : UserAccessFinding) : string * string := (fp_ProjectPath (uf_Project f), ToLower (uf_Username f)).
Definition branch_order (f : ProtectedBranchFinding) : string * string := (fp_ProjectPath (bf_Project f), bf_BranchName f).
Definition env_order (f : ProtectedEnvironmentFinding) : string * string := (fp_ProjectPath (ef_Project f), ef_EnvironmentName f).
Definition retention_order (f : PipelineRetentionFinding) : string * Z :=
  (fp_ProjectPath (nf_Project f), nf_OldestPipelineID f).
Definition file_order (f : RepositoryFileFinding) : string * string := (fp_ProjectPath (ff_Project f), ff_FilePath f).
Definition tag_order (f : ProtectedTagFinding) : string * string := (fp_ProjectPath (gf_Project f), gf_TagNamePattern f).

(** [SortFindings], less the user directory, which [AllUsers] has sorted.
    [sort.Slice] may leave findings with equal keys in any order. *)
Definition SortFindings (fs : findings) : findings := {|
  fs_UserAccess := merge_sort (by_pair user_order) (fs_UserAccess fs);
  fs_BotAccess := merge_sort (by_pair user_order) (fs_BotAccess fs);
  fs_ProtectedBranches := merge_sort (by_pair branch_order) (fs_ProtectedBranches fs);
  fs_ProtectedEnvs := merge_sort (by_pair env_order) (fs_ProtectedEnvs fs);
  fs_PipelineRetention := merge_sort (by_key retention_order) (fs_PipelineRetention fs);
  fs_RepositoryFiles := merge_sort (by_pair file_order) (fs_RepositoryFiles fs);
  fs_ProtectedTags := merge_sort (by_pair tag_order) (fs_ProtectedTags fs)
|}.

(** ** Accounts *)

Record BotClassifier : Type := { bc_explicitAccounts : gset string; bc_patterns : list string }.

Definition NewBotClassifier (serviceAccounts patterns : list string) : BotClassifier := {|
  bc_explicitAccounts :=
    list_to_set (List.filter (fun a => negb (a =? "")%string) ((fun a => ToLower (TrimSpace a)) <$> serviceAccounts));
  bc_patterns := patterns
|}.

(** A service account that the caller names. *)
Definition explicit_account (c : BotClassifier) (userID : Z) (u e : string) : bool :=
  (negb (u =? "")%string && bool_decide (u ∈ bc_explicitAccounts c))
  || (negb (e =? "")%string && bool_decide (e ∈ bc_explicitAccounts c))
  || ((0 <? userID) && bool_decide (Itoa userID ∈ bc_explicitAccounts c)).

(** A pattern of the caller, matched as in a file system or as a substring. *)
Definition pattern_account (u n e p : string) : bool :=
  let p := ToLower (TrimSpace p) in
  negb (p =? "")%string && (path_matched p u || path_matched p e || Contains u p || Contains n p || Contains e p).

(** The conventions of GitLab and of the trade. *)
Definition conventional_bot (u n e : string) : bool :=
  (HasPrefix u "project_" || HasPrefix u "group_")
  || (HasPrefix u "service_account" || HasPrefix u "service-account")
  || (HasPrefix e "service_account" || HasPrefix e "service-account")
  || (Contains e "service_account" || Contains e "serviceaccount")
  || (Contains e "@noreply." && (Contains e "service_account" || Contains e "bot" || Contains e "project_" || Contains e "group_"))
  || (HasSuffix u "_bot" || HasSuffix u "-bot")
  || ((u =? "gitlab-bot") || (u =? "support-bot") || (u =? "alert-bot") || (u =? "security-bot"))%string
  || (Contains u "bot" || Contains u "service_account" || Contains u "serviceaccount")
  || (Contains n " bot" || Contains n "token" || Contains n "service account")
  || (HasPrefix e "bot@" || HasPrefix e "service@" || HasPrefix e "automation@" || HasPrefix e "ops-bot@").

(** [IsBot] of a classifier that may be nil. *)
Definition IsBot (c : option BotClassifier) (userID : Z) (username name email : string) : bool :=
  let u := ToLower (TrimSpace username) in
  let n := ToLower (TrimSpace name) in
  let e := ToLower (TrimSpace email) in
  match c with
  | Some c => explicit_account c userID u e || existsb (pattern_account u n e) (bc_patterns c)
  | None => false
  end || conventional_bot u n e.

Definition IsBotOrServiceAccount (username name : string) : bool := IsBot None 0 username name "".

(** The classifier's verdict, or the simple one without a classifier. *)
Definition classify (c : option BotClassifier) (userID : Z) (username name email : string) : bool :=
  match c with
  | Some _ => IsBot c userID username name email
  | None => IsBotOrServiceAccount username name
  end.

Definition accountType (isBot : bool) : string := if isBot then "Service Account / Bot" else "Human".

(** ** The calls of the audit *)

(** [gogitlab.User], and what the member listings show of one. *)
Record Account : Type := {
  ac_ID : Z;
  ac_Username : string;
  ac_Name : string;
  ac_Email : string;
  ac_State : string;
  ac_WebURL : string
}.

(** A member, with its expiry as [ISOTime.String] writes it. *)
Record AuditedMember : Type := { am_Account : Account; am_AccessLevel : Z; am_ExpiresAt : option string }.

(** [TagAccessDescription] and [EnvironmentAccessDescription], with the text
    that GitLab gives a level. *)
Record DescribedAccess : Type := {
  da_AccessLevel : Z;
  da_UserID : Z;
  da_GroupID : Z;
  da_AccessLevelDescription : string
}.

Record AuditedTag : Type := { at_Name : string; at_CreateAccessLevels : list (option DescribedAccess) }.

Record AuditedEnvironment : Type := {
  ae_Name : string;
  ae_DeployAccessLevels : list (option DescribedAccess);
  ae_RequiredApprovalCount : Z
}.

Record Pipeline : Type := {
  pl_ID : Z;
  pl_Ref : string;
  pl_Status : string;
  pl_CreatedAt : option Z;
  pl_UpdatedAt : option Z
}.

(** The first page of the pipelines, and [TotalItems] of its response. *)
Record PipelinePage : Type := { pp_Pipelines : list Pipeline; pp_TotalItems : Z }.

(** [OnClient] is a call that the reconcilers make too; [TimeNow] is in
    nanoseconds; [Register] and [Lookup] are the two accesses to the registry
    of users that its lock makes atomic. *)
Variant AuditE : Type -> Type :=
| OnClient {X} (e : GitLabE X) : AuditE X
| TimeNow : AuditE Z
| CurrentUser : AuditE (Reply (option Account))
| GetUser (userID : Z) : AuditE (Reply (option Account))
| DirectMembers (pid : Z) : AuditE (Reply (list (option AuditedMember)))
| AllMembersPage (pid page : Z) : AuditE (Reply (list (option AuditedMember)))
| TagsPage (pid page : Z) : AuditE (Reply (list (option AuditedTag)))
| EnvironmentsPage (pid page : Z) : AuditE (Reply (list (option AuditedEnvironment)))
| StalePipelines (pid updatedBefore : Z) : AuditE (Reply PipelinePage)
| Register (a : Account) (projectPath : string) : AuditE (option UserInfo)
| Lookup (userID : Z) : AuditE (option UserInfo).

Abbreviation AP := (prog AuditE) (only parsing).

(** A call that changes nothing on the server. *)
Definition audit_read {X} (e : AuditE X) : bool := match e with OnClient e => is_read e | _ => true end.

Definition audits {A} (p : AP A) : Prop := only (fun X e => audit_read e = true) p.

(** ** The state of a project *)

(** [int(time.Since(t).Hours() / 24)]. *)
Definition age_days `{GoConversion} (now t : Z) : Z :=
  let d := time_Sub now t in
  let hour := 3600 * 10 ^ 9 in
  let hours := fadd (float_of_int (Z.quot d hour)) (fdiv (float_of_int (Z.rem d hour)) (float_of_int hour)) in
  int_of_float (fdiv hours (float_of_int 24)).

(** The zero [time.Time], in nanoseconds since 1970. *)
Definition zeroTime : Z := - 62135596800 * 10 ^ 9.

(** The state, [isArchived] and [isInactive]. *)
Definition EvaluateProjectLifecycle `{GoConversion} (archived markedForDeletion : bool) (lastActivityAt : option Z)
  : AP (string * bool * bool) :=
  if markedForDeletion then mret ("Pending Deletion", true, true)
  else if archived then mret ("Archived", true, false)
  else match lastActivityAt with
       | Some t =>
           if t =? zeroTime then mret ("Active", false, false)
           else
             now ← call TimeNow;
             let days := age_days now t in
             mret (if 180 <? days then ("Inactive (" +:+ Itoa days +:+ "d)", false, true) else ("Active", false, false))
       | None => mret ("Active", false, false)
       end.

(** ** Lemmas: severities *)

Lemma AdjustSeverity_rank base archived inactive : (rank (AdjustSeverityForProject base archived inactive) <= rank base)%nat.
Proof. destruct base, archived, inactive; cbn; lia. Qed.

(** De-prioritizing never hides a violation. *)
Lemma AdjustSeverity_violation base archived inactive :
  is_violation (AdjustSeverityForProject base archived inactive) = is_violation base.
Proof. by destruct base, archived, inactive. Qed.

(** ** Lemmas: the counters *)

Definition tally {A} (P : A -> bool) (l : list A) : Z := Z.of_nat (length (List.filter P l)).

Definition violating (f : finding_list * (Z * Severity)) : bool := is_violation f.2.2.
Definition graded (x : Severity) (f : finding_list * (Z * Severity)) : bool := violating f && bool_decide (f.2.2 = x).
Definition listed (m : finding_list) (f : finding_list * (Z * Severity)) : bool := violating f && bool_decide (f.1 = m).

Lemma tally_snoc {A} (P : A -> bool) l a : tally P (l ++ [a]) = bump (P a) (tally P l).
Proof. unfold tally. rewrite List.filter_app, length_app. cbn. destruct (P a); cbn; lia. Qed.

Lemma tally_perm {A} (P : A -> bool) l1 l2 : l1 ≡ₚ l2 -> tally P l1 = tally P l2.
Proof. unfold tally. induction 1 as [|a l1 l2 _ IH|a b l|]; cbn; [done|destruct (P a); cbn; lia|by destruct (P a), (P b)|lia]. Qed.

Lemma tally_pos {A} (P : A -> bool) l : 0 <= tally P l.
Proof. unfold tally. lia. Qed.

Lemma violating_eq m p s : violating (m, (p, s)) = is_violation s.
Proof. done. Qed.
Lemma graded_eq x m p s : graded x (m, (p, s)) = is_violation s && bool_decide (s = x).
Proof. done. Qed.
Lemma listed_eq x m p s : listed x (m, (p, s)) = is_violation s && bool_decide (m = x).
Proof. done. Qed.

(** Every violation has one of four severities, and is in one of seven lists. *)
Lemma tally_severities l : tally violating l = tally (graded Critical) l + tally (graded High) l + tally (graded Medium) l + tally (graded Low) l.
Proof.
  induction l as [|[m [p s]] l IH] using rev_ind; [done|]. rewrite !tally_snoc, IH, violating_eq, !graded_eq.
  unfold is_violation. destruct s; repeat case_bool_decide; try done; cbn [negb andb bump]; lia.
Qed.

Lemma tally_lists l :
  tally violating l = tally (listed LHuman) l + tally (listed LBot) l + tally (listed LBranches) l + tally (listed LEnvs) l
    + tally (listed LRetention) l + tally (listed LFiles) l + tally (listed LTags) l.
Proof.
  induction l as [|[m [p s]] l IH] using rev_ind; [done|]. rewrite !tally_snoc, IH, violating_eq, !listed_eq.
  destruct (is_violation s); cbn [andb]; [|done]. destruct m; repeat case_bool_decide; try done; cbn [bump]; lia.
Qed.

(** What the loops have counted after the findings [l]. *)
Record counted (s0 : AuditSummary) (l : list (finding_list * (Z * Severity))) (s : AuditSummary) (bad : gset Z) : Prop := {
  ct_total : as_TotalViolations s = tally violating l;
  ct_critical : as_CriticalSeverityCount s = tally (graded Critical) l;
  ct_high : as_HighSeverityCount s = tally (graded High) l;
  ct_medium : as_MediumSeverityCount s = tally (graded Medium) l;
  ct_low : as_LowSeverityCount s = tally (graded Low) l;
  ct_human : as_HumanUserViolations s = tally (listed LHuman) l;
  ct_bot : as_BotUserViolations s = tally (listed LBot) l;
  ct_user : as_UserAccessViolations s = tally (listed LHuman) l + tally (listed LBot) l;
  ct_branches : as_ProtectedBranchViolations s = tally (listed LBranches) l;
  ct_envs : as_ProtectedEnvViolations s = tally (listed LEnvs) l;
  ct_retention : as_PipelineRetentionViolations s = tally (listed LRetention) l;
  ct_files : as_RepositoryFileViolations s = tally (listed LFiles) l;
  ct_tags : as_ProtectedTagViolations s = tally (listed LTags) l;
  ct_breakdown : forall x, as_SeverityBreakdown s !! x = if 0 <? tally (graded x) l then Some (tally (graded x) l) else None;
  ct_modules : as_ModuleViolations s = ∅;
  ct_bad : forall pid, pid ∈ bad <-> exists f, f ∈ l /\ violating f = true /\ f.2.1 = pid;
  ct_kept : (as_TotalProjectsScanned s, as_ActiveProjectsCount s, as_ArchivedProjectsCount s, as_PendingDeletionProjectsCount s,
             as_CompliantProjectsCount s, as_NonCompliantProjectsCount s, as_AuditedBy s) =
            (as_TotalProjectsScanned s0, as_ActiveProjectsCount s0, as_ArchivedProjectsCount s0, as_PendingDeletionProjectsCount s0,
             as_CompliantProjectsCount s0, as_NonCompliantProjectsCount s0, as_AuditedBy s0)
}.

Lemma count_finding_counted s0 l s bad m pid sev s' bad' :
  counted s0 l s bad -> count_finding m (s, bad) (pid, sev) = (s', bad') -> counted s0 (l ++ [(m, (pid, sev))]) s' bad'.
Proof.
  intros [] Hc. cbn [count_finding] in Hc. destruct (is_violation sev) eqn:Ev; injection Hc as <- <-;
    (split; cbn -[bool_decide tally graded listed bump]; rewrite ?tally_snoc, ?violating_eq, ?graded_eq, ?listed_eq, ?Ev;
      cbn [andb bump]; try congruence).
  - rewrite ct_user0. destruct m; repeat case_bool_decide; try done; cbn [orb bump]; lia.
  - intros x. rewrite tally_snoc, graded_eq, Ev. cbn [andb]. destruct (decide (sev = x)) as [->|Hne].
    + rewrite lookup_insert_eq, ct_breakdown0, bool_decide_eq_true_2 by done. pose proof (tally_pos (graded x) l). cbn [bump].
      destruct (Z.ltb_spec 0 (tally (graded x) l)); cbn [default from_option]; rewrite (proj2 (Z.ltb_lt _ _)) by lia;
        [done|f_equal; unfold id; lia].
    + rewrite lookup_insert_ne, bool_decide_eq_false_2 by done. apply ct_breakdown0.
  - intros x. rewrite elem_of_union, elem_of_singleton, ct_bad0. setoid_rewrite elem_of_app. setoid_rewrite list_elem_of_singleton. split.
    + intros [->|(f & ? & ? & ?)]; [exists (m, (pid, sev))|exists f]; auto.
    + intros (f & [?| ->] & ? & <-); [right; by exists f|by left].
  - intros x. rewrite tally_snoc, graded_eq, Ev. apply ct_breakdown0.
  - intros x. rewrite ct_bad0. setoid_rewrite elem_of_app. setoid_rewrite list_elem_of_singleton. split.
    + intros (f & ? & ? & ?). exists f. auto.
    + intros (f & [?| ->] & Hf & <-); [by exists f|]. rewrite violating_eq in Hf. congruence.
Qed.

Lemma count_all_counted l s : counted s l (count_all l (clear_counters s, ∅)).1 (count_all l (clear_counters s, ∅)).2.
Proof.
  induction l as [|[m [pid sev]] l IH] using rev_ind.
  - split; try done. intros pid. cbn. set_solver.
  - unfold count_all in *. rewrite foldl_app. cbn [foldl fst snd]. destruct (foldl _ _ l) as [s1 bad1].
    destruct (count_finding m (s1, bad1) (pid, sev)) as [s2 bad2] eqn:E. by eapply count_finding_counted.
Qed.

(** The counters do not depend on the order of the findings. *)
Lemma count_all_perm l1 l2 s : l1 ≡ₚ l2 -> count_all l1 (clear_counters s, ∅) = count_all l2 (clear_counters s, ∅).
Proof.
  intros Hp. pose proof (count_all_counted l1 s) as H1. pose proof (count_all_counted l2 s) as H2.
  destruct (count_all l1 _) as [[] b1], (count_all l2 _) as [[] b2]. cbn [fst snd] in *. destruct H1, H2. cbn in *.
  assert (forall P, tally P l1 = tally P l2) as Ht by (intros P; by apply tally_perm).
  assert (b1 = b2) as ->.
  { apply set_eq. intros x. rewrite ct_bad0, ct_bad1. by setoid_rewrite Hp. }
  f_equal. simplify_eq. f_equal; rewrite ?Ht; try congruence.
  apply map_eq. intros x. by rewrite ct_breakdown0, ct_breakdown1, Ht.
Qed.

(** The findings of two reports are the same but for their order. *)
Record same_findings (a b : findings) : Prop := {
  sf_user : fs_UserAccess a ≡ₚ fs_UserAccess b;
  sf_bot : fs_BotAccess a ≡ₚ fs_BotAccess b;
  sf_branches : fs_ProtectedBranches a ≡ₚ fs_ProtectedBranches b;
  sf_envs : fs_ProtectedEnvs a ≡ₚ fs_ProtectedEnvs b;
  sf_retention : fs_PipelineRetention a ≡ₚ fs_PipelineRetention b;
  sf_files : fs_RepositoryFiles a ≡ₚ fs_RepositoryFiles b;
  sf_tags : fs_ProtectedTags a ≡ₚ fs_ProtectedTags b
}.

#[export] Instance same_findings_equiv : Equivalence same_findings.
Proof.
  split.
  - done.
  - intros a b []. by split.
  - intros a b c [] []. split; by etrans.
Qed.

#[export] Instance all_findings_proper : Proper (same_findings ==> (≡ₚ)) all_findings.
Proof. intros a b []. unfold all_findings. repeat apply Permutation_app; by apply fmap_Permutation. Qed.

#[export] Instance ComputeSummary_proper s : Proper (same_findings ==> eq) (ComputeSummary s).
Proof. intros a b Hab. unfold ComputeSummary. f_equal. apply count_all_perm. by rewrite Hab. Qed.

Lemma SortFindings_same fs : same_findings (SortFindings fs) fs.
Proof. split; apply merge_sort_Permutation. Qed.

(** ** Properties *)

