(* ===== verification/UserRegistry.v ===== *)
(** * The registry of users: internal/audit/user_registry.go

    The audit modules share a directory of the accounts they meet, which fills
    up while the projects are audited at the same time.  [Register] and [Lookup]
    are its atomic accesses ([with_registry] answers them); [FormatUser_settles]
    shows that what a finding calls a user does not depend on what the directory
    holds by then, when GitLab shows an account alike everywhere. *)

From S2P Require Import Prelude GoLib GitLabAPI AuditModel.
Local Open Scope string_scope.
Local Open Scope list_scope.
Local Open Scope Z_scope.

Abbreviation registry := (gmap Z UserInfo).

(** [if field == "" && value != "" { field = value }]. *)
Definition fill (field value : string) : string := if (field =? "")%string && negb (value =? "")%string then value else field.

Definition newUser (c : option BotClassifier) (a : Account) : UserInfo :=
  let isBot := classify c (ac_ID a) (ac_Username a) (ac_Name a) (ac_Email a) in {|
  ui_ID := ac_ID a; ui_Username := ac_Username a; ui_Name := ac_Name a; ui_Email := ac_Email a; ui_State := ac_State a;
  ui_WebURL := ac_WebURL a; ui_IsBot := isBot; ui_AccountType := accountType isBot; ui_ProjectsCount := 0; ui_ProjectPaths := []
|}.

Definition fillUser (u : UserInfo) (a : Account) : UserInfo := {|
  ui_ID := ui_ID u; ui_Username := fill (ui_Username u) (ac_Username a); ui_Name := fill (ui_Name u) (ac_Name a);
  ui_Email := fill (ui_Email u) (ac_Email a); ui_State := fill (ui_State u) (ac_State a);
  ui_WebURL := fill (ui_WebURL u) (ac_WebURL a); ui_IsBot := ui_IsBot u; ui_AccountType := ui_AccountType u;
  ui_ProjectsCount := ui_ProjectsCount u; ui_ProjectPaths := ui_ProjectPaths u
|}.

Definition addPath (u : UserInfo) (path : string) : UserInfo :=
  if negb (path =? "")%string && negb (bool_decide (path ∈ ui_ProjectPaths u)) then {|
    ui_ID := ui_ID u; ui_Username := ui_Username u; ui_Name := ui_Name u; ui_Email := ui_Email u; ui_State := ui_State u;
    ui_WebURL := ui_WebURL u; ui_IsBot := ui_IsBot u; ui_AccountType := ui_AccountType u;
    ui_ProjectsCount := Z.of_nat (length (ui_ProjectPaths u ++ [path])); ui_ProjectPaths := ui_ProjectPaths u ++ [path] |}
  else u.

Definition registerUser (c : option BotClassifier) (r : registry) (a : Account) (projectPath : string)
  : registry * option UserInfo :=
  if ac_ID a <=? 0 then (r, None)
  else
    let u := addPath (match r !! ac_ID a with None => newUser c a | Some u => fillUser u a end) projectPath in
    (<[ac_ID a := u]> r, Some u).

(** The registry in front of the server; its calls never reach the server. *)
Definition with_registry {W} (c : option BotClassifier) (h : handler AuditE W) : handler AuditE (W * registry) := fun X e s =>
  match e in AuditE X return X * (W * registry) with
  | Register a path => let '(r, u) := registerUser c s.2 a path in (u, (s.1, r))
  | Lookup userID => (s.2 !! userID, s)
  | e => let '(x, w) := h _ e s.1 in (x, (w, s.2))
  end.

(** The pointer that [Resolve] returns is read without the lock; a snapshot has
    the same user name, which is never changed once it is there. *)
Definition Resolve (userID : Z) : AP (option UserInfo) :=
  if userID <=? 0 then mret None
  else
    let fetch :=
      r ← call (GetUser userID);
      match r_err r, r_val r, r_resp r with
      | None, Some user, Some resp => if StatusCode resp =? 200 then call (Register user "") else call (Lookup userID)
      | _, _, _ => call (Lookup userID)
      end in
    u ← call (Lookup userID);
    match u with
    | Some u' => if negb (ui_Username u' =? "")%string then mret u else fetch
    | None => fetch
    end.

(** "@user (Name) [ID: n]". *)
Definition userText (userID : Z) (username name : string) : string :=
  "@" +:+ username +:+ (if negb (name =? "")%string && negb (name =? username)%string then " (" +:+ name +:+ ")" else "")
    +:+ " [ID: " +:+ Itoa userID +:+ "]".

Definition FormatUser (userID : Z) : AP string :=
  if userID <=? 0 then mret ""
  else
    u ← Resolve userID;
    mret match u with
         | Some u => if negb (ui_Username u =? "")%string then userText userID (ui_Username u) (ui_Name u)
                     else "User ID " +:+ Itoa userID
         | None => "User ID " +:+ Itoa userID
         end.

(** [AllUsers]. *)
Definition AllUsers (r : registry) : list UserInfo := merge_sort user_le (snd <$> map_to_list r).

(** ** Laws of the registry *)

(** A user is never forgotten, and what is known of it stays. *)
Record extends (u v : UserInfo) : Prop := {
  ex_ID : ui_ID v = ui_ID u;
  ex_Username : ui_Username u <> "" -> ui_Username v = ui_Username u;
  ex_Name : ui_Name u <> "" -> ui_Name v = ui_Name u;
  ex_IsBot : ui_IsBot v = ui_IsBot u;
  ex_ProjectPaths : ui_ProjectPaths u `prefix_of` ui_ProjectPaths v
}.

Lemma fill_keeps field value : field <> "" -> fill field value = field.
Proof. unfold fill. by destruct (String.eqb_spec field ""). Qed.

Lemma addPath_fields u path :
  ui_ID (addPath u path) = ui_ID u /\ ui_Username (addPath u path) = ui_Username u /\ ui_Name (addPath u path) = ui_Name u /\
  ui_IsBot (addPath u path) = ui_IsBot u /\ ui_ProjectPaths u `prefix_of` ui_ProjectPaths (addPath u path).
Proof. unfold addPath. case_match; cbn; split_and!; try done. apply prefix_app_r. done. Qed.

Lemma registerUser_extends c r a path r' u :
  registerUser c r a path = (r', u) -> forall id v, r !! id = Some v -> exists v', r' !! id = Some v' /\ extends v v'.
Proof.
  unfold registerUser. destruct (ac_ID a <=? 0).
  - intros [= <- <-] id v Hv. exists v. split; [done|]. by split.
  - intros [= <- <-] id v Hv. destruct (decide (ac_ID a = id)) as [<-|Hne].
    + rewrite lookup_insert_eq, Hv. eexists. split; [done|]. destruct (addPath_fields (fillUser v a) path) as (H1 & H2 & H3 & H4 & H5).
      split; [by rewrite H1|rewrite H2; by apply fill_keeps|rewrite H3; by apply fill_keeps|by rewrite H4|done].
    + rewrite lookup_insert_ne by done. exists v. split; [done|]. by split.
Qed.

(** ** What the projects call a user *)

Section Directory.
Context (accounts : Z -> Account).

(** An account as the directory has it: same name, same user name. *)
Definition shown_as (id : Z) (username name : string) : Prop :=
  username = ac_Username (accounts id) /\ name = ac_Name (accounts id).

Definition entry_ok (id : Z) (u : UserInfo) : Prop := shown_as id (ui_Username u) (ui_Name u).
Definition account_ok (a : Account) : Prop := shown_as (ac_ID a) (ac_Username a) (ac_Name a).
Definition registry_ok (r : registry) : Prop := forall id u, r !! id = Some u -> entry_ok id u.

Lemma registry_ok_empty : registry_ok ∅.
Proof. intros id u. by rewrite lookup_empty. Qed.

Lemma registerUser_ok c r a path r' u :
  registry_ok r -> account_ok a -> registerUser c r a path = (r', u) ->
  registry_ok r' /\ (0 < ac_ID a -> exists v, u = Some v /\ entry_ok (ac_ID a) v).
Proof.
  intros Hr [Hu Hn]. unfold registerUser. destruct (Z.leb_spec (ac_ID a) 0); [intros [= <- <-]; split; [done|lia]|]. intros [= <- <-].
  match goal with |- context [<[_ := ?v]> r] => assert (entry_ok (ac_ID a) v) as Hv end.
  { destruct (addPath_fields (match r !! ac_ID a with Some u => fillUser u a | None => newUser c a end) path) as (_ & H2 & H3 & _).
    unfold entry_ok, shown_as. rewrite H2, H3. destruct (r !! ac_ID a) as [v|] eqn:E; [|done]. destruct (Hr _ _ E) as [H4 H5].
    cbn. rewrite H4, H5, <- Hu, <- Hn. unfold fill. split; repeat case_match; done. }
  split; [|by eexists]. intros id v. destruct (decide (ac_ID a = id)) as [<-|Hne].
  - rewrite lookup_insert_eq. by intros [= <-].
  - rewrite lookup_insert_ne by done. apply Hr.
Qed.

(** The directory names every user, and GitLab shows it on request. *)
Record directory_of {W} (h : handler AuditE W) (w : W) : Prop := {
  do_named : forall id, 0 < id -> ac_ID (accounts id) = id /\ ac_Username (accounts id) <> "";
  do_shown : forall id, 0 < id -> h _ (GetUser id) w = (reply_ok (Some (accounts id)), w)
}.

(** The calls of an audit, and the answers they can get while other projects are
    audited: those of the server do not change, those of the registry agree with
    the directory. *)
Definition audit_call X (e : AuditE X) : Prop :=
  audit_read e = true /\ match e with Register a _ => account_ok a | _ => True end.

Definition audit_answer {W} (h : handler AuditE W) (w : W) X (e : AuditE X) : X -> Prop :=
  match e in AuditE X return X -> Prop with
  | Register a _ => fun u => 0 < ac_ID a -> exists v, u = Some v /\ entry_ok (ac_ID a) v
  | Lookup userID => fun u => forall v, u = Some v -> entry_ok userID v
  | e => fun x => x = (h _ e w).1
  end.

(** A server that reading does not disturb. *)
Definition audit_stable {W} (h : handler AuditE W) : Prop := forall X (e : AuditE X) w, audit_read e = true -> (h X e w).2 = w.

Lemma with_registry_answers {W} c (h : handler AuditE W) w X (e : AuditE X) s :
  audit_stable h -> audit_call X e -> s.1 = w /\ registry_ok s.2 ->
  audit_answer h w X e (with_registry c h X e s).1 /\
  (with_registry c h X e s).2.1 = w /\ registry_ok (with_registry c h X e s).2.2.
Proof.
  intros Hst [Hr Ha] [<- Hs]. pose proof (Hst X e s.1 Hr) as Hw.
  destruct e; cbn [with_registry audit_answer] in *;
    try (match goal with |- context [h ?Y ?e ?v] => destruct (h Y e v) end; cbn in *; subst; done).
  - destruct (registerUser c s.2 a projectPath) as [r u] eqn:E. cbn. destruct (registerUser_ok _ _ _ _ _ _ Hs Ha E). done.
  - cbn. split_and!; [|done|done]. intros v. apply Hs.
Qed.

(** The program has one result, and it satisfies [Q]. *)
Definition settles {W A} (h : handler AuditE W) (w : W) (Q : A -> Prop) (p : AP A) : Prop :=
  exists a, Q a /\ follows (audit_answer h w) audit_call (eq a) p.

Lemma settles_ret {W A} (h : handler AuditE W) w (Q : A -> Prop) a : Q a -> settles h w Q (mret a).
Proof. by exists a. Qed.

Lemma settles_bind {W A B} (h : handler AuditE W) w (Q : A -> Prop) (R : B -> Prop) (p : AP A) (f : A -> AP B) :
  settles h w Q p -> (forall a, Q a -> settles h w R (f a)) -> settles h w R (p ≫= f).
Proof.
  intros (a & Ha & Hp) Hf. destruct (Hf a Ha) as (b & Hb & Hfa). exists b. split; [done|].
  eapply follows_bind; [exact Hp|]. by intros ? <-.
Qed.

Lemma settles_mono {W A} (h : handler AuditE W) w (Q R : A -> Prop) (p : AP A) :
  (forall a, Q a -> R a) -> settles h w Q p -> settles h w R p.
Proof. intros HQR (a & Ha & Hp). exists a. auto. Qed.

(** The first program's result does not matter. *)
Lemma settles_then {W A B} (h : handler AuditE W) w (R : B -> Prop) (p : AP A) (q : AP B) :
  follows (audit_answer h w) audit_call (fun _ => True) p -> settles h w R q -> settles h w R (p ≫= fun _ => q).
Proof. intros Hp (b & Hb & Hq). exists b. split; [done|]. eapply follows_bind; [exact Hp|done]. Qed.

Definition of_server {X} (e : AuditE X) : bool :=
  match e with Register _ _ | Lookup _ => false | e => audit_read e end.

Lemma settles_call {W X} (h : handler AuditE W) w (Q : X -> Prop) (e : AuditE X) :
  of_server e = true -> Q (h _ e w).1 -> settles h w Q (call e).
Proof. intros He HQ. exists (h _ e w).1. split; [done|]. destruct e; try done; (apply follows_call; [by split|]; by intros x ->). Qed.

(** A program that leaves the registry alone has the result it has alone. *)
Lemma server_settles {W A} (h : handler AuditE W) w (p : AP A) :
  audit_stable h -> only (fun X e => of_server e = true) p -> settles h w (fun a => a = (run h p w).1) p.
Proof.
  intros Hst Hp. exists (run h p w).1. split; [done|]. induction p as [a|X e k IH]; [done|]. destruct Hp as [He Hk]. cbn [run].
  assert (audit_call X e /\ forall x, audit_answer h w X e x -> x = (h X e w).1) as [Hc Ha] by (destruct e; done).
  split; [done|]. intros x Hx. pose proof (Hst X e w (proj1 Hc)) as Hw. rewrite (Ha x Hx).
  destruct (h X e w) as [y w1]. cbn in Hw. subst w1. apply IH, Hk.
Qed.

Lemma settles_run {W A} c (h : handler AuditE W) w (Q : A -> Prop) (p : AP A) r :
  audit_stable h -> settles h w Q p -> registry_ok r -> Q (run (with_registry c h) p (w, r)).1.
Proof.
  intros Hst (a & Ha & Hp) Hr. destruct (follows_run _ _ (fun s => s.1 = w /\ registry_ok s.2) (with_registry c h) _ p (w, r)
    ltac:(intros; by apply with_registry_answers) Hp) as [<- _]; done.
Qed.

(** Whatever the registry holds, a finding calls a user what the directory
    does. *)
Lemma FormatUser_settles {W} (h : handler AuditE W) w id :
  directory_of h w -> settles h w (fun t => 0 < id -> t = userText id (ac_Username (accounts id)) (ac_Name (accounts id))) (FormatUser id).
Proof.
  intros [Hn Hs]. unfold FormatUser. destruct (Z.leb_spec id 0) as [Hid|Hid]; [apply settles_ret; lia|].
  destruct (Hn id Hid) as [Ha Hu]. eexists. split; [reflexivity|]. eapply (follows_bind _ _ (fun u => exists v, u = Some v /\ entry_ok id v)).
  - unfold Resolve. rewrite (proj2 (Z.leb_gt id 0)) by done. eapply follows_bind; [apply follows_call; [by split|intros x Hx; exact Hx]|].
    match goal with |- context [call (GetUser id) ≫= ?k] => set (fetch := call (GetUser id) ≫= k) end.
    assert (follows (audit_answer h w) audit_call (fun u => exists v, u = Some v /\ entry_ok id v) fetch) as Hfetch.
    { unfold fetch. eapply follows_bind; [apply follows_call; [by split|intros x Hx; exact Hx]|]. intros x Hx.
      cbn [audit_answer] in Hx. rewrite (Hs id Hid) in Hx. subst x. cbn [fst r_err r_val r_resp reply_ok StatusCode].
      apply follows_call; [split; [done|]; unfold account_ok, shown_as; by rewrite Ha|].
      intros x Hx. cbn [audit_answer] in Hx. rewrite Ha in Hx. auto. }
    intros [u|] Hx; [|done]. destruct (String.eqb_spec (ui_Username u) ""); cbn [negb]; [done|].
    exists u. split; [done|]. by apply Hx.
  - intros ? (v & -> & [H1 H2]). cbn. rewrite H1, H2. by rewrite (proj2 (String.eqb_neq _ _) Hu).
Qed.

End Directory.
