(* ===== verification/AuditModules.v ===== *)
(** * The audit modules: internal/audit/{user_access, protected_branches,
    protected_tags, protected_environments, pipeline_retention,
    repository_files}.go

    Each module reads what GitLab has of a project and grades it.
    [ProtectedBranches_exact] says which gaps of a protection are reported,
    [RepositoryFiles_audit_agrees] that a file is flagged when the reconciler
    would write it, [UserAccess_exact] who is a violation; that the audit
    only reads, and that its result does not depend on what else is audited, is
    shown here module by module and put together in [Auditor]. *)

From S2P Require Import Prelude GoLib GoTime PathMatch Config EnvSubst Loader GitLabAPI Server Fetch Governance RepositoryFiles Transport Discovery AuditModel UserRegistry.
Local Open Scope string_scope.
Local Open Scope list_scope.
Local Open Scope Z_scope.

Record lifecycle : Type := { lc_marked : bool; lc_state : string; lc_archived : bool; lc_inactive : bool }.

(** What a finding says of a project that is on its way out. *)
Definition annotate (lc : lifecycle) (markedText archivedText : string) (details remediation : string) : string * string :=
  if lc_marked lc then ("[PENDING DELETION] " +:+ details, markedText)
  else if lc_archived lc then ("[ARCHIVED PROJECT] " +:+ details, archivedText)
  else if lc_inactive lc then ("[" +:+ lc_state lc +:+ "] " +:+ details, remediation)
  else (details, remediation).

(** ** Grading *)

Record grade : Type := { gr_Severity : Severity; gr_Violations : list string; gr_Remediations : list string }.

Definition compliant_grade : grade := {| gr_Severity := Pass; gr_Violations := []; gr_Remediations := [] |}.

(** [if severity != SeverityCritical { severity = SeverityHigh }] and its like. *)
Definition raise (to cur : Severity) : Severity :=
  match to with
  | High => if bool_decide (cur = Critical) then cur else High
  | Medium => if bool_decide (cur = Critical) || bool_decide (cur = High) then cur else Medium
  | _ => to
  end.

Definition flag_if (c : bool) (to : Severity) (violation remediation : string) (g : grade) : grade :=
  if c then {| gr_Severity := raise to (gr_Severity g); gr_Violations := gr_Violations g ++ [violation];
               gr_Remediations := gr_Remediations g ++ [remediation] |}
  else g.

(** The details and the remediation of a grade. *)
Definition grade_texts (compliantText : string) (g : grade) : string * string :=
  if (0 <? length (gr_Violations g))%nat then (Join (gr_Violations g) "; ", Join (gr_Remediations g) "; ")
  else (compliantText, "No action required").

(** ** Grants *)

(** Whom an access level lets in. *)
Variant grantee : Type := ToUser (id : Z) | ToGroup (id : Z) | ToOther (text : string).

Definition grantee_of_branch (d : BranchAccess) : grantee :=
  if 0 <? bl_UserID d then ToUser (bl_UserID d)
  else if 0 <? bl_GroupID d then ToGroup (bl_GroupID d)
  else if 0 <? bl_DeployKeyID d then ToOther ("DeployKey " +:+ Itoa (bl_DeployKeyID d))
  else ToOther (AccessLevelToName (bl_AccessLevel d)).

Definition grantee_of_described (d : DescribedAccess) : grantee :=
  if 0 <? da_UserID d then ToUser (da_UserID d)
  else if 0 <? da_GroupID d then ToGroup (da_GroupID d)
  else if negb (da_AccessLevelDescription d =? "")%string then ToOther (da_AccessLevelDescription d)
  else ToOther (AccessLevelToName (da_AccessLevel d)).

(** The loop of the three [summarize...AccessLevels]: the parts of the summary,
    the users and the groups. *)
Fixpoint summarizeGrants (grants : list grantee) (parts users groups : list string) : AP (string * list string * list string) :=
  match grants with
  | [] => mret (Join parts ", ", users, groups)
  | ToUser id :: rest => u ← FormatUser id; summarizeGrants rest (parts ++ [u]) (users ++ [u]) groups
  | ToGroup id :: rest =>
      let g := "Group ID " +:+ Itoa id in summarizeGrants rest (parts ++ [g]) users (groups ++ [g])
  | ToOther t :: rest => summarizeGrants rest (parts ++ [t]) users groups
  end.

Definition summarizeBranchAccessLevels (descs : list BranchAccess) : AP (string * list string * list string) :=
  if (length descs =? 0)%nat then mret ("No access configured", [], [])
  else summarizeGrants (grantee_of_branch <$> descs) [] [] [].

Definition summarizeTagAccessLevels (descs : list (option DescribedAccess)) : AP (string * list string * list string) :=
  if (length descs =? 0)%nat then mret ("No access configured", [], [])
  else summarizeGrants (grantee_of_described <$> non_nil descs) [] [] [].

Definition summarizeEnvAccessLevels (levels : list (option DescribedAccess)) : AP (string * list string * list string) :=
  if (length levels =? 0)%nat then mret ("No deployment access configured", [], [])
  else summarizeGrants (grantee_of_described <$> non_nil levels) [] [] [].

Section Modules.
Context `{GoConversion} (classifier : option BotClassifier) (baseURL : string) (pages : nat).

(** ** The project *)

Definition lifecycleOf (p : TargetProject) : AP lifecycle :=
  let isMarked := tp_MarkedForDeletion p || is_some (tp_MarkedForDeletionAt p)
                  || match tp_Raw p with Some r => is_some (p_MarkedForDeletionAt r) | None => false end in
  let lastAct := match tp_Raw p with Some r => p_LastActivityAt r | None => None end in
  '(state, isArchived, isInactive) ← EvaluateProjectLifecycle (tp_Archived p) isMarked lastAct;
  mret {| lc_marked := isMarked; lc_state := state; lc_archived := isArchived; lc_inactive := isInactive |}.

Definition rawWebURL (p : TargetProject) : string := match tp_Raw p with Some r => p_WebURL r | None => "" end.

Definition projectWebURL (p : TargetProject) : string :=
  if (rawWebURL p =? "")%string then TrimSuffix (TrimSuffix baseURL "/api/v4") "/" +:+ "/" +:+ tp_PathWithNamespace p
  else rawWebURL p.

Definition finding_of (p : TargetProject) (webURL state : string) : finding_project := {|
  fp_ProjectID := tp_ID p; fp_ProjectName := tp_Name p; fp_ProjectPath := tp_PathWithNamespace p; fp_ProjectWebURL := webURL;
  fp_ProjectStatus := state
|}.

(** ** user_access.go *)

Definition hasExpiration (m : AuditedMember) : bool :=
  match am_ExpiresAt m with Some t => negb (t =? "")%string | None => false end.

Definition auditMember (p : TargetProject) (lc : lifecycle) (direct : gset Z) (m : AuditedMember) : UserAccessFinding :=
  let a := am_Account m in
  let isDirect := bool_decide (ac_ID a ∈ direct) in
  let isBot := classify classifier (ac_ID a) (ac_Username a) (ac_Name a) (ac_Email a) in
  let level := am_AccessLevel m in
  let roleName := AccessLevelToName level in
  let finding severity kind texts := {|
    uf_Project := finding_of p (projectWebURL p) (lc_state lc); uf_UserID := ac_ID a; uf_Username := ac_Username a;
    uf_Name := ac_Name a; uf_Email := ac_Email a; uf_AccessLevel := level; uf_AccessRoleName := roleName; uf_IsDirect := isDirect;
    uf_MembershipType := if isDirect then "Direct (Project)" else "Inherited (Group)"; uf_IsBot := isBot;
    uf_AccountType := accountType isBot; uf_ExpiresAt := if hasExpiration m then default "" (am_ExpiresAt m) else "";
    uf_HasExpiration := hasExpiration m; uf_Severity := severity; uf_ViolationType := kind; uf_Details := texts.1;
    uf_Remediation := texts.2 |} in
  let texts := annotate lc "Repository is scheduled for deletion; verify impending purge or confirm access revocation"
                           "Repository is archived; confirm access revocation or maintain read-only state" in
  let adjusted base := AdjustSeverityForProject base (lc_archived lc) (lc_inactive lc) in
  if (level <? 50) && negb (hasExpiration m) then
    if 40 <=? level then
      finding (adjusted Critical) "INDEFINITE_MAINTAINER_ACCESS"
        (texts ("High-privilege Maintainer " +:+ ac_Username a +:+ " (" +:+ roleName
                  +:+ ") has indefinite access with no expiration date configured")
               (if isBot
                then "Rotate bot token periodically and set explicit expiration on Project/Group Access Tokens (max 365 days)"
                else "Set mandatory expiration date (expires_at <= 90 days) via Project Members API (PUT /projects/:id/members/:user_id) or GitLab UI"))
    else
      finding (adjusted High) "INDEFINITE_NON_OWNER_ACCESS"
        (texts ("Non-owner member " +:+ ac_Username a +:+ " with " +:+ roleName
                  +:+ " permissions has indefinite access with no expiration date configured")
               (if isBot then "Set defined expiration on Project/Group Access Tokens"
                else "Enforce access expiration date according to enterprise access control policy"))
  else finding Pass "COMPLIANT" ("Member has compliant access configuration", "No action required").

(** The members are registered one by one. *)
Fixpoint registerMembers (path : string) (members : list AuditedMember) : AP unit :=
  match members with
  | [] => mret tt
  | m :: rest => _ ← call (Register (am_Account m) path); registerMembers path rest
  end.

Definition UserAccess_AuditProject (p : TargetProject) : AP (error + list UserAccessFinding) :=
  lc ← lifecycleOf p;
  d ← call (DirectMembers (tp_ID p));
  match r_err d with
  | Some e => mret (inl (ErrWrap ("failed to list direct project members for " +:+ Itoa (tp_ID p) +:+ ": ") e))
  | None =>
      all ← fetchPages (AllMembersPage (tp_ID p)) pages 1 [];
      match all with
      | inl e => mret (inl (ErrWrap ("failed to list all project members for " +:+ Itoa (tp_ID p) +:+ ": ") e))
      | inr all =>
          let direct : gset Z := list_to_set ((fun m => ac_ID (am_Account m)) <$> non_nil (r_val d)) in
          _ ← registerMembers (tp_PathWithNamespace p) (non_nil all);
          mret (inr (auditMember p lc direct <$> non_nil all))
      end
  end.

(** ** protected_branches.go *)

(** All developers, and no user or group in particular. *)
Definition all_developers (level userID groupID : Z) : bool := (level =? 30) && (userID =? 0) && (groupID =? 0).

Definition gradeBranch (b : ProtectedBranch) (directUsers : list string) : grade :=
  let g := flag_if (br_AllowForcePush b) Critical "Force push is enabled (allow_force_push = true)" "Set allow_force_push: false"
             compliant_grade in
  let g := flag_if (0 <? length directUsers)%nat High ("Direct user push access granted to: " +:+ Join directUsers ", ")
             "Remove individual user push grants; use role access tiers" g in
  let g := flag_if (negb (br_CodeOwnerApprovalRequired b)) High
             "Code Owner approval is disabled (code_owner_approval_required = false)" "Enable code_owner_approval_required: true" g in
  foldl (fun g l => flag_if (all_developers (bl_AccessLevel l) (bl_UserID l) (bl_GroupID l)) Medium
                      "Unrestricted push access: all Developers permitted to push directly to protected branch"
                      "Restrict push access to Maintainers or Merge Requests only" g) g (br_PushAccessLevels b).

Definition defaultBranchOf (p : TargetProject) : string :=
  if (tp_DefaultBranch p =? "")%string then "main" else tp_DefaultBranch p.

Definition is_default (p : TargetProject) (branch : string) : bool :=
  ((branch =? defaultBranchOf p) || (branch =? "master") || (branch =? "main"))%string.

Definition purge_text : string := "Repository is scheduled for deletion; verify impending purge".

Definition auditBranch (p : TargetProject) (lc : lifecycle) (b : ProtectedBranch) : AP ProtectedBranchFinding :=
  '(pushSummary, directUsers, directGroups) ← summarizeBranchAccessLevels (br_PushAccessLevels b);
  '(mergeSummary, _, _) ← summarizeBranchAccessLevels (br_MergeAccessLevels b);
  let g := gradeBranch b directUsers in
  let '(details, remediation) := grade_texts "Branch protection meets all security baselines" g in
  let texts := annotate lc purge_text
    "Repository is archived; confirm branch protection baselines or maintain read-only state" details remediation in
  mret {|
    bf_Project := finding_of p (projectWebURL p) (lc_state lc); bf_BranchName := br_Name b;
    bf_IsDefaultBranch := is_default p (br_Name b); bf_IsProtected := true; bf_AllowForcePush := br_AllowForcePush b;
    bf_CodeOwnerApprovalRequired := br_CodeOwnerApprovalRequired b; bf_PushAccessLevelsSummary := pushSummary;
    bf_MergeAccessLevelsSummary := mergeSummary; bf_DirectUserPushGrants := directUsers; bf_DirectGroupPushGrants := directGroups;
    bf_Severity := AdjustSeverityForProject (gr_Severity g) (lc_archived lc) (lc_inactive lc);
    bf_Violations := gr_Violations g; bf_Details := texts.1; bf_Remediation := texts.2 |}.

Definition unprotectedDefault (p : TargetProject) (lc : lifecycle) : ProtectedBranchFinding :=
  let branch := defaultBranchOf p in
  let texts := annotate lc purge_text "Repository is archived; verify branch rules"
    ("Default branch '" +:+ branch +:+ "' has zero branch protection rules configured")
    ("Protect default branch '" +:+ branch
       +:+ "': configure push_access_level=40, merge_access_level=40, code_owner_approval_required=true") in {|
  bf_Project := finding_of p (projectWebURL p) (lc_state lc); bf_BranchName := branch; bf_IsDefaultBranch := true;
  bf_IsProtected := false; bf_AllowForcePush := false; bf_CodeOwnerApprovalRequired := false; bf_PushAccessLevelsSummary := "";
  bf_MergeAccessLevelsSummary := ""; bf_DirectUserPushGrants := []; bf_DirectGroupPushGrants := [];
  bf_Severity := AdjustSeverityForProject Critical (lc_archived lc) (lc_inactive lc);
  bf_Violations := ["Default branch is completely unprotected"]; bf_Details := texts.1; bf_Remediation := texts.2 |}.

(** A loop that audits one element after the other. *)
Fixpoint each {A B} (f : A -> AP B) (l : list A) : AP (list B) :=
  match l with
  | [] => mret []
  | a :: rest => b ← f a; bs ← each f rest; mret (b :: bs)
  end.

Definition ProtectedBranches_AuditProject (p : TargetProject) : AP (error + list ProtectedBranchFinding) :=
  lc ← lifecycleOf p;
  all ← fetchPages (fun page => OnClient (ProtectedBranches (ListProtectedBranches (tp_ID p) page))) pages 1 [];
  match all with
  | inl e => mret (inl (ErrWrap ("failed to list protected branches for project " +:+ Itoa (tp_ID p) +:+ ": ") e))
  | inr branches =>
      fs ← each (auditBranch p lc) branches;
      mret (inr (fs ++ if existsb (fun b => is_default p (br_Name b)) branches then [] else [unprotectedDefault p lc]))
  end.

(** ** protected_tags.go *)

(** [matchesReleasePattern]. *)
Definition matchesReleasePattern (pattern : string) : bool :=
  let p := TrimSpace pattern in
  bool_decide (p ∈ ["*"; "v*"; "release-*"; "*-release"; "production-*"; "prod-*"])
  || existsb (path_matched p) ["v1.0.0"; "v2.0.0"; "release-1.0.0"; "1.0.0"].

Definition gradeTag (t : AuditedTag) (directUsers : list string) : grade :=
  let g := flag_if (at_Name t =? "*")%string Low
             "Broad wildcard protection '*' covers all tags and may obscure specific release governance"
             "Replace catch-all '*' with targeted release patterns (e.g. 'v*', 'release-*')" compliant_grade in
  let g := flag_if (0 <? length directUsers)%nat High ("Direct user tag creation access granted to: " +:+ Join directUsers ", ")
             "Remove individual user tag creation grants; enforce role access tiers" g in
  foldl (fun g l => flag_if (all_developers (da_AccessLevel l) (da_UserID l) (da_GroupID l)) Medium
                      "Permissive tag creation: all Developers permitted to create protected tags"
                      "Restrict tag creation to Maintainers (40) or No Access (0)" g) g (non_nil (at_CreateAccessLevels t)).

Definition auditTag (p : TargetProject) (lc : lifecycle) (t : AuditedTag) : AP ProtectedTagFinding :=
  '(createSummary, directUsers, directGroups) ← summarizeTagAccessLevels (at_CreateAccessLevels t);
  let g := gradeTag t directUsers in
  let '(details, remediation) := grade_texts "Tag protection satisfies release governance baselines" g in
  let texts := annotate lc purge_text
    "Repository is archived; confirm tag protection baselines or maintain read-only state" details remediation in
  mret {|
    gf_Project := finding_of p (projectWebURL p) (lc_state lc); gf_TagNamePattern := at_Name t; gf_IsProtected := true;
    gf_CreateAccessLevelsSummary := createSummary; gf_DirectUserCreateGrants := directUsers; gf_DirectGroupCreateGrants := directGroups;
    gf_Severity := AdjustSeverityForProject (gr_Severity g) (lc_archived lc) (lc_inactive lc);
    gf_Violations := gr_Violations g; gf_Details := texts.1; gf_Remediation := texts.2 |}.

(** The finding that something is missing. *)
Definition unprotectedTags (p : TargetProject) (lc : lifecycle) (pattern : string) (base : Severity) (violation details remediation : string)
  : ProtectedTagFinding :=
  let texts := annotate lc purge_text "Repository is archived; verify tag rules" details remediation in {|
  gf_Project := finding_of p (projectWebURL p) (lc_state lc); gf_TagNamePattern := pattern; gf_IsProtected := false;
  gf_CreateAccessLevelsSummary := "Unprotected"; gf_DirectUserCreateGrants := []; gf_DirectGroupCreateGrants := [];
  gf_Severity := AdjustSeverityForProject base (lc_archived lc) (lc_inactive lc); gf_Violations := [violation];
  gf_Details := texts.1; gf_Remediation := texts.2 |}.

Definition missingTags (p : TargetProject) (lc : lifecycle) (all : list (option AuditedTag)) : list ProtectedTagFinding :=
  if (length all =? 0)%nat then
    [unprotectedTags p lc "(none)" Critical "Project has zero protected tags configured"
       "Project has zero protected tags configured; releases and tags can be created or deleted arbitrarily"
       "Configure protected tag patterns (e.g. 'v*', 'release-*') with create_access_level=40 (Maintainer)"]
  else if negb (existsb (fun t => matchesReleasePattern (at_Name t)) (non_nil all)) then
    [unprotectedTags p lc "v*" High "Release tags are unprotected"
       "Standard release tag patterns ('v*', 'release-*') are not covered by any protected tag pattern"
       "Add protected tag patterns for 'v*' and 'release-*' with create_access_level=40"]
  else [].

Definition ProtectedTags_AuditProject (p : TargetProject) : AP (error + list ProtectedTagFinding) :=
  lc ← lifecycleOf p;
  all ← fetchPages (TagsPage (tp_ID p)) pages 1 [];
  match all with
  | inl e => mret (inl (ErrWrap ("failed to list protected tags for project " +:+ Itoa (tp_ID p) +:+ ": ") e))
  | inr all =>
      fs ← each (auditTag p lc) (non_nil all);
      mret (inr (fs ++ missingTags p lc all))
  end.

(** ** protected_environments.go *)

Definition isProduction (name : string) : bool :=
  let n := ToLower name in Contains n "prod" || Contains n "live" || Contains n "production".

Definition permissive_role (l : DescribedAccess) : bool := (da_AccessLevel l <=? 30) && (0 <? da_AccessLevel l).

Definition gradeEnvironment (e : AuditedEnvironment) (directUsers : list string) : grade :=
  let unapproved := isProduction (ae_Name e) && (ae_RequiredApprovalCount e =? 0) in
  let g := flag_if unapproved Critical "Production environment requires zero deployment approvals (required_approval_count = 0)"
             ("Configure required_approval_count >= 1 for production environment '" +:+ ae_Name e +:+ "'") compliant_grade in
  let g := flag_if (0 <? length directUsers)%nat High ("Direct user deployment access granted to: " +:+ Join directUsers ", ")
             "Remove individual user deploy access; restrict deployment to role-based group tiers" g in
  if unapproved then
    match List.find permissive_role (non_nil (ae_DeployAccessLevels e)) with
    | Some l => flag_if true Critical
                  ("Unrestricted deploy permissions: role " +:+ AccessLevelToName (da_AccessLevel l) +:+ " can deploy directly to production")
                  "Restrict deploy roles on production to Maintainers or approved CI deployment service accounts" g
    | None => g
    end
  else g.

Definition auditEnvironment (p : TargetProject) (lc : lifecycle) (e : AuditedEnvironment) : AP ProtectedEnvironmentFinding :=
  '(deploySummary, directUsers, directGroups) ← summarizeEnvAccessLevels (ae_DeployAccessLevels e);
  let g := gradeEnvironment e directUsers in
  let '(details, remediation) := grade_texts "Protected environment satisfies deployment governance standards" g in
  let texts := annotate lc purge_text "Repository is archived; verify environment deployment policies" details remediation in
  mret {|
    ef_Project := finding_of p (projectWebURL p) (lc_state lc); ef_EnvironmentName := ae_Name e; ef_IsProduction := isProduction (ae_Name e);
    ef_RequiredApprovalCount := ae_RequiredApprovalCount e; ef_DeployAccessLevelsSummary := deploySummary;
    ef_DirectUserDeployGrants := directUsers; ef_DirectGroupDeployGrants := directGroups;
    ef_Severity := AdjustSeverityForProject (gr_Severity g) (lc_archived lc) (lc_inactive lc);
    ef_Violations := gr_Violations g; ef_Details := texts.1; ef_Remediation := texts.2 |}.

(** The environments of the project; an error ends the listing with what it has. *)
Fixpoint listEnvironments (pid : Z) (fuel : nat) (page : Z) (all : list (option string)) : AP (list (option string)) :=
  match fuel with
  | O => mret all
  | S fuel =>
      r ← call (OnClient (Environments_ (ListEnvironments pid page)));
      match r_err r with
      | Some _ => mret all
      | None =>
          let all := all ++ r_val r in
          match r_resp r with
          | None => mret all
          | Some resp => if NextPage resp =? 0 then mret all else listEnvironments pid fuel (NextPage resp) all
          end
      end
  end.

Definition unprotectedEnvironment (p : TargetProject) (lc : lifecycle) (name : string) : ProtectedEnvironmentFinding :=
  let isProd := isProduction name in
  let violation := if isProd then "Production environment '" +:+ name +:+ "' is completely unprotected (zero deployment gates or approvals)"
                   else "Environment '" +:+ name +:+ "' has no deployment protection configured" in {|
  ef_Project := finding_of p (projectWebURL p) (lc_state lc); ef_EnvironmentName := name; ef_IsProduction := isProd;
  ef_RequiredApprovalCount := 0; ef_DeployAccessLevelsSummary := "Unprotected"; ef_DirectUserDeployGrants := [];
  ef_DirectGroupDeployGrants := [];
  ef_Severity := AdjustSeverityForProject (if isProd then Critical else Medium) (lc_archived lc) (lc_inactive lc);
  ef_Violations := [violation]; ef_Details := violation;
  ef_Remediation := "Configure protected environment rules for '" +:+ name +:+ "' to enforce maintainer deployment and approvals" |}.

Definition ProtectedEnvironments_AuditProject (p : TargetProject) : AP (error + list ProtectedEnvironmentFinding) :=
  lc ← lifecycleOf p;
  all ← fetchPages (EnvironmentsPage (tp_ID p)) pages 1 [];
  match all with
  | inl e => mret (inl (ErrWrap ("failed to list protected environments for project " +:+ Itoa (tp_ID p) +:+ ": ") e))
  | inr all =>
      fs ← each (auditEnvironment p lc) (non_nil all);
      envs ← listEnvironments (tp_ID p) pages 1 [];
      let protected : gset string := list_to_set (ae_Name <$> non_nil all) in
      let unprotected := List.filter (fun n => negb (n =? "")%string && negb (bool_decide (n ∈ protected))) (non_nil envs) in
      mret (inr (fs ++ (unprotectedEnvironment p lc <$> unprotected)))
  end.

(** ** pipeline_retention.go *)

(** What is said of the oldest of the stale pipelines: its age in days, its
    date, and how many there are. *)
Definition oldestPipeline (oldest : Pipeline) (page : Reply PipelinePage) : AP (Z * string * Z) :=
  let createdTime := or_else (pl_CreatedAt oldest) (pl_UpdatedAt oldest) in
  let staleCount := match r_resp page with
                    | Some _ => if 0 <? pp_TotalItems (r_val page) then pp_TotalItems (r_val page)
                                else Z.of_nat (length (pp_Pipelines (r_val page)))
                    | None => Z.of_nat (length (pp_Pipelines (r_val page)))
                    end in
  match createdTime with
  | None => mret (0, "Unknown", staleCount)
  | Some t => now ← call TimeNow; mret (age_days now t, FormatUTC t, staleCount)
  end.

Definition retentionFinding (p : TargetProject) (lc : lifecycle) (seconds : Z) (oldest : option (Pipeline * (Z * string * Z)))
    (severity : Severity) (kind details remediation : string) : PipelineRetentionFinding := {|
  nf_Project := finding_of p (rawWebURL p) (lc_state lc); nf_RetentionSeconds := seconds; nf_RetentionDays := Z.quot seconds 86400;
  nf_HasRetentionConfigured := 0 <? seconds;
  nf_OldestPipelineID := match oldest with Some (o, _) => pl_ID o | None => 0 end;
  nf_OldestPipelineRef := match oldest with Some (o, _) => pl_Ref o | None => "" end;
  nf_OldestPipelineStatus := match oldest with Some (o, _) => pl_Status o | None => "" end;
  nf_OldestPipelineCreated := match oldest with Some (_, (_, created, _)) => created | None => "" end;
  nf_OldestPipelineAgeDays := match oldest with Some (_, (age, _, _)) => age | None => 0 end;
  nf_StalePipelinesCount := match oldest with Some (_, (_, _, count)) => count | None => 0 end;
  nf_Severity := severity; nf_ViolationType := kind; nf_Details := details; nf_Remediation := remediation |}.

Definition pending_prefix (lc : lifecycle) (d : string) : string := if lc_marked lc then "[PENDING DELETION] " +:+ d else d.

(** Case A: retention is configured. *)
Definition retentionConfigured (p : TargetProject) (lc : lifecycle) (seconds : Z) (page : Reply PipelinePage) : AP PipelineRetentionFinding :=
  let days := Z.quot seconds 86400 in
  match pp_Pipelines (r_val page) with
  | [] =>
      mret (retentionFinding p lc seconds None Pass "None"
        ("Pipeline retention active (" +:+ Itoa days +:+ "d / " +:+ Itoa seconds +:+ "s) and all stale pipelines pruned successfully.")
        "None - project conforms to retention policy.")
  | oldest :: _ =>
      '(age, created, count) ← oldestPipeline oldest page;
      let overdue := if age - days <? 0 then 0 else age - days in
      mret (retentionFinding p lc seconds (Some (oldest, (age, created, count)))
        (AdjustSeverityForProject (if 60 <? overdue then High else Medium) (lc_archived lc) (lc_inactive lc))
        "Retention Cleanup Failure"
        (pending_prefix lc ("Pipeline retention configured to " +:+ Itoa days +:+ "d (" +:+ Itoa seconds +:+ "s), but " +:+ Itoa count
           +:+ " stale pipeline(s) older than " +:+ Itoa days +:+ "d still exist (oldest pipeline #" +:+ Itoa (pl_ID oldest)
           +:+ " created " +:+ created +:+ ", " +:+ Itoa age +:+ "d old, " +:+ Itoa overdue +:+ "d past retention cutoff)."))
        "GitLab background pruning worker is failing or queued. Trigger manual pipeline cleanup via API or re-save CI/CD retention settings.")
  end.

(** Case B: retention is disabled. *)
Definition retentionDisabled (p : TargetProject) (lc : lifecycle) (page : Reply PipelinePage) : AP PipelineRetentionFinding :=
  match pp_Pipelines (r_val page) with
  | [] =>
      mret (retentionFinding p lc 0 None Pass "None" "Pipeline retention disabled, but no stale pipelines (>90d) detected."
        "Consider configuring pipeline retention (e.g. 90 days) to prevent future artifact accumulation.")
  | oldest :: _ =>
      '(age, created, count) ← oldestPipeline oldest page;
      mret (retentionFinding p lc 0 (Some (oldest, (age, created, count)))
        (AdjustSeverityForProject Low (lc_archived lc) (lc_inactive lc)) "Pipeline Retention Disabled"
        (pending_prefix lc ("Pipeline deletion is disabled (0s); found " +:+ Itoa count +:+ " pipeline(s) older than 90 days (oldest pipeline #"
           +:+ Itoa (pl_ID oldest) +:+ " created " +:+ created +:+ ", " +:+ Itoa age
           +:+ "d old). CI artifacts and job logs will accumulate indefinitely."))
        "Enable pipeline retention (e.g. ci_delete_pipelines_in_seconds = 7776000 for 90 days) in Project Settings -> CI/CD -> General pipelines.")
  end.

(** The pipelines that were last updated before [window] ago; the product
    [-time.Duration(retentionSec) * time.Second] is one of 64 bits. *)
Definition PipelineRetention_AuditProject (p : TargetProject) : AP (error + list PipelineRetentionFinding) :=
  lc ← lifecycleOf p;
  r ← call (OnClient (Projects (GetProjectPipelineRetention (tp_ID p))));
  match r_err r with
  | Some e => mret (inl (ErrWrap ("failed to get pipeline retention for project " +:+ tp_PathWithNamespace p +:+ ": ") e))
  | None =>
      let seconds := r_val r in
      now ← call TimeNow;
      let window := if 0 <? seconds then wrap64 (- seconds * 10 ^ 9) else - (90 * 24 * 3600 * 10 ^ 9) in
      page ← call (StalePipelines (tp_ID p) (now + window));
      match r_err page with
      | Some e => mret (inl (ErrWrap ("failed to list project pipelines for project " +:+ tp_PathWithNamespace p +:+ ": ") e))
      | None => f ← (if 0 <? seconds then retentionConfigured p lc seconds page else retentionDisabled p lc page); mret (inr [f])
      end
  end.

(** ** repository_files.go *)

Context (LookupEnv : string -> option string) (LoadContent : string -> error + string).

(** The module has copies of its own of the reconciler's two functions. *)
Definition normalizeAuditContent (s : string) : string :=
  let s := ReplaceAll s (CR +:+ LF) LF in
  let s := ReplaceAll s CR LF in
  let s := TrimRight "010"%char s in
  if (0 <? String.length s)%nat then s +:+ LF else s.

Definition attachHeader (filePath content : string) : string :=
  if Contains content "Auto-managed by gitlab-fleet-governor" then content
  else
    let ext := ToLower (path_Ext filePath) in
    if (ext =? ".json")%string then content
    else
      let line := "Auto-managed by gitlab-fleet-governor — do not edit manually" in
      let header :=
        if bool_decide (ext ∈ [".md"; ".html"]) then "<!-- " +:+ line +:+ " -->" +:+ LF
        else if bool_decide (ext ∈ [".go"; ".js"; ".ts"; ".java"; ".c"; ".cpp"; ".rs"])
        then "// Enterprise policy" +:+ LF +:+ "// " +:+ line +:+ LF
        else "# Enterprise policy" +:+ LF +:+ "# " +:+ line +:+ LF in
      if HasPrefix content "#!" then
        let '(first, rest) := Cut "010"%char content in
        first +:+ LF +:+ header +:+ set_opt rest ""
      else header +:+ content.

Definition auditTargetBranch (p : TargetProject) (f : RepositoryFileConfig) : string :=
  if (rf_TargetBranch f =? "")%string then defaultBranchOf p else rf_TargetBranch f.

Definition fileFinding (p : TargetProject) (lc : lifecycle) (f : RepositoryFileConfig) (fileExists : bool) (base : Severity)
    (kind details remediation : string) : RepositoryFileFinding := {|
  ff_Project := finding_of p (rawWebURL p) (lc_state lc); ff_FilePath := cleanFilePath f; ff_TargetBranch := auditTargetBranch p f;
  ff_FileExists := fileExists; ff_Severity := AdjustSeverityForProject base (lc_archived lc) (lc_inactive lc);
  ff_ViolationType := kind; ff_Details := details; ff_Remediation := remediation |}.

(** The lifecycle as this module evaluates it. *)
Definition filesLifecycle (p : TargetProject) : AP lifecycle :=
  '(state, isArchived, isInactive) ← EvaluateProjectLifecycle (tp_Archived p) (tp_MarkedForDeletion p)
     (match tp_Raw p with Some r => p_LastActivityAt r | None => None end);
  mret {| lc_marked := tp_MarkedForDeletion p; lc_state := state; lc_archived := isArchived; lc_inactive := isInactive |}.

(** The whole content that the policy wants; [""] when it does not say. *)
Definition wantedContent (f : RepositoryFileConfig) : error + string :=
  if negb (rf_Content f =? "")%string then inr (rf_Content f)
  else if negb (rf_ContentFile f =? "")%string then
    match LoadContent (rf_ContentFile f) with
    | inl e => inl (ErrWrap ("failed to load content_file '" +:+ rf_ContentFile f +:+ "' for audit: ") e)
    | inr data => inr data
    end
  else inr "".

Definition drifted (f : RepositoryFileConfig) (content desired : string) : bool :=
  let desired := match ExpandEnv LookupEnv desired with inr expanded => expanded | inl _ => desired end in
  let enforcement := ToLower (rf_Enforcement f) in
  let desired := if ((enforcement =? "direct_commit") || (enforcement =? ""))%string then attachHeader (cleanFilePath f) desired else desired in
  negb (content =? normalizeAuditContent desired)%string.

(** The checks of a file that exists. *)
Definition checkContent (p : TargetProject) (lc : lifecycle) (f : RepositoryFileConfig) (raw : string)
  : error + option RepositoryFileFinding :=
  let path := cleanFilePath f in
  match missing (rf_EnsureContains f) raw with
  | _ :: _ as l =>
      inr (Some (fileFinding p lc f true Medium "MISSING_REQUIRED_STRINGS"
        ("Repository file '" +:+ path +:+ "' is missing " +:+ Itoa (Z.of_nat (length l)) +:+ " required substring(s): " +:+ Join l ", ")
        ("Update " +:+ path +:+ " to include required enterprise baseline configuration.")))
  | [] =>
      match wantedContent f with
      | inl e => inl e
      | inr desired =>
          inr (if negb (desired =? "")%string && drifted f (normalizeAuditContent raw) desired
               then Some (fileFinding p lc f true Medium "CONTENT_DRIFT"
                      ("Repository file '" +:+ path +:+ "' has drifted from declarative enterprise policy.")
                      ("Run 'gitlab-fleet-governor run' to re-align " +:+ path +:+ " with enterprise policy."))
               else None)
      end
  end.

Definition auditFile (p : TargetProject) (lc : lifecycle) (f : RepositoryFileConfig) : AP (error + option RepositoryFileFinding) :=
  let path := cleanFilePath f in
  let branch := auditTargetBranch p f in
  r ← call (OnClient (RepositoryFiles_ (GetRawFile (tp_ID p) path branch)));
  mret match r_err r with
       | None => checkContent p lc f (r_val r)
       | Some e =>
           if match r_resp r with Some resp => StatusCode resp =? 404 | None => false end || Contains (error_text e) "404"
           then inr (Some (fileFinding p lc f false High "MISSING_FILE"
                  ("Mandatory repository file '" +:+ path +:+ "' is missing on branch '" +:+ branch +:+ "'.")
                  ("Run 'gitlab-fleet-governor run' to automatically synchronize " +:+ path +:+ " to enterprise policy.")))
           else inl (ErrWrap ("failed to fetch raw file " +:+ path +:+ ": ") e)
       end.

Fixpoint auditFiles (p : TargetProject) (lc : lifecycle) (files : list RepositoryFileConfig) (acc : list RepositoryFileFinding)
  : AP (error + list RepositoryFileFinding) :=
  match files with
  | [] => mret (inr acc)
  | f :: rest =>
      r ← auditFile p lc f;
      match r with
      | inl e => mret (inl e)
      | inr finding => auditFiles p lc rest (acc ++ option_list finding)
      end
  end.

Definition RepositoryFiles_AuditProject (p : TargetProject) (cfg : option PolicyConfig) : AP (error + list RepositoryFileFinding) :=
  lc ← filesLifecycle p;
  match files_policy cfg with
  | [] => mret (inr [])
  | files => auditFiles p lc files []
  end.

End Modules.

(** ** Lemmas: grades *)

(** *** The gaps of a branch protection *)

Variant branch_gap : Type := ForcePush | DirectPush | NoCodeOwner | DevelopersPush.

(** What each is, and what a finding says of it. *)
Definition has_gap (b : ProtectedBranch) (g : branch_gap) : Prop :=
  match g with
  | ForcePush => br_AllowForcePush b = true
  | DirectPush => exists d, d ∈ br_PushAccessLevels b /\ 0 < bl_UserID d
  | NoCodeOwner => br_CodeOwnerApprovalRequired b = false
  | DevelopersPush => exists d, d ∈ br_PushAccessLevels b /\ bl_AccessLevel d = 30 /\ bl_UserID d = 0 /\ bl_GroupID d = 0
  end.

Definition gap_text (g : branch_gap) : string :=
  match g with
  | ForcePush => "Force push is enabled"
  | DirectPush => "Direct user push access granted to: "
  | NoCodeOwner => "Code Owner approval is disabled"
  | DevelopersPush => "Unrestricted push access: all Developers"
  end.

Definition says_gap (violations : list string) (g : branch_gap) : Prop :=
  exists v, v ∈ violations /\ HasPrefix v (gap_text g) = true.

(** A finding about a branch names its gaps, all of them and no others, and it
    passes if there is none. *)
Definition branch_finding (b : ProtectedBranch) (f : ProtectedBranchFinding) : Prop :=
  bf_BranchName f = br_Name b /\ bf_IsProtected f = true /\
  (forall g, says_gap (bf_Violations f) g <-> has_gap b g) /\
  (is_violation (bf_Severity f) = true <-> exists g, has_gap b g).

(** *** The severities of tags and environments *)

Definition tag_severity (t : AuditedTag) : Severity :=
  if existsb (fun d => 0 <? da_UserID d) (non_nil (at_CreateAccessLevels t)) then High
  else if existsb (fun l => all_developers (da_AccessLevel l) (da_UserID l) (da_GroupID l)) (non_nil (at_CreateAccessLevels t)) then Medium
  else if (at_Name t =? "*")%string then Low
  else Pass.

Definition environment_severity (e : AuditedEnvironment) : Severity :=
  if isProduction (ae_Name e) && (ae_RequiredApprovalCount e =? 0) then Critical
  else if existsb (fun d => 0 <? da_UserID d) (non_nil (ae_DeployAccessLevels e)) then High
  else Pass.

(** Raising to Medium once or many times is the same. *)
Lemma fold_medium {A} (P : A -> bool) v r (l : list A) g :
  gr_Severity (foldl (fun g a => flag_if (P a) Medium v r g) g l) = if existsb P l then raise Medium (gr_Severity g) else gr_Severity g.
Proof.
  revert g. induction l as [|a l IH]; intros g; cbn; [done|]. rewrite IH. unfold flag_if. destruct (P a); cbn; [|done].
  destruct (existsb P l); [|done]. destruct g as [[] ? ?]; done.
Qed.

Lemma fold_violations {A} (P : A -> bool) to v r (l : list A) g :
  gr_Violations (foldl (fun g a => flag_if (P a) to v r g) g l) = gr_Violations g ++ (l ≫= fun a => if P a then [v] else []).
Proof.
  revert g. induction l as [|a l IH]; intros g; [by rewrite app_nil_r|]. cbn [foldl]. rewrite IH, bind_cons, app_assoc. f_equal.
  unfold flag_if. destruct (P a); cbn; by rewrite ?app_nil_r.
Qed.

(** A grade passes when it has no violation. *)
Definition sound_grade (g : grade) : Prop := is_violation (gr_Severity g) = true <-> gr_Violations g <> [].

Lemma flag_if_sound c to v r g : to <> Pass -> to <> Info -> sound_grade g -> sound_grade (flag_if c to v r g).
Proof.
  unfold sound_grade, flag_if. intros Hp Hi Hg. destruct c; [|done]. cbn. split; [intros _; by destruct (gr_Violations g)|intros _].
  destruct to, (gr_Severity g); done.
Qed.

Lemma gradeBranch_sound b users : sound_grade (gradeBranch b users).
Proof.
  unfold gradeBranch. cbv zeta. match goal with |- sound_grade (foldl _ ?g _) => assert (sound_grade g) as Hg by
    (do 3 (apply flag_if_sound; [done..|]); done); revert Hg; generalize g end.
  induction (br_PushAccessLevels b) as [|l ls IH]; intros g Hg; [done|]. cbn [foldl]. by apply IH, flag_if_sound.
Qed.

Lemma gradeBranch_violations b users :
  gr_Violations (gradeBranch b users) =
    (if br_AllowForcePush b then ["Force push is enabled (allow_force_push = true)"] else []) ++
    (if (0 <? length users)%nat then ["Direct user push access granted to: " +:+ Join users ", "] else []) ++
    (if br_CodeOwnerApprovalRequired b then [] else ["Code Owner approval is disabled (code_owner_approval_required = false)"]) ++
    (br_PushAccessLevels b ≫= fun l => if all_developers (bl_AccessLevel l) (bl_UserID l) (bl_GroupID l)
       then ["Unrestricted push access: all Developers permitted to push directly to protected branch"] else []).
Proof.
  unfold gradeBranch. cbv zeta. rewrite fold_violations, !app_assoc. f_equal. unfold flag_if.
  by destruct (br_AllowForcePush b), (0 <? length users)%nat, (br_CodeOwnerApprovalRequired b).
Qed.

Lemma says_gap_app l1 l2 g : says_gap (l1 ++ l2) g <-> says_gap l1 g \/ says_gap l2 g.
Proof. unfold says_gap. set_solver. Qed.

Lemma says_gap_if (c : bool) v g : says_gap (if c then [v] else []) g <-> c = true /\ HasPrefix v (gap_text g) = true.
Proof. unfold says_gap. destruct c; set_solver. Qed.

Lemma says_gap_bind {A} (P : A -> bool) v (l : list A) g :
  says_gap (l ≫= fun a => if P a then [v] else []) g <-> (exists a, a ∈ l /\ P a = true) /\ HasPrefix v (gap_text g) = true.
Proof.
  unfold says_gap. split.
  - intros (x & (a & Hx & Ha)%list_elem_of_bind & Hp). destruct (P a) eqn:E; [|by apply elem_of_nil in Hx].
    apply list_elem_of_singleton in Hx as ->. eauto.
  - intros [(a & Ha & HP) Hp]. exists v. split; [|done]. apply list_elem_of_bind. exists a. rewrite HP. set_solver.
Qed.

Lemma direct_prefix users g :
  HasPrefix ("Direct user push access granted to: " +:+ users) (gap_text g) = match g with DirectPush => true | _ => false end.
Proof. destruct g; [reflexivity| |reflexivity..]. apply HasPrefix_spec. by exists users. Qed.

(** Every violation is of some gap. *)
Lemma gradeBranch_names b users :
  gr_Violations (gradeBranch b users) <> [] -> exists g, says_gap (gr_Violations (gradeBranch b users)) g.
Proof.
  rewrite gradeBranch_violations. intros Hne. setoid_rewrite says_gap_app. setoid_rewrite says_gap_app. setoid_rewrite says_gap_app.
  destruct (br_AllowForcePush b); [exists ForcePush; left; by eexists; split; [left|]|].
  destruct (0 <? length users)%nat; [exists DirectPush; right; left; eexists; split; [left|apply direct_prefix]|].
  destruct (br_CodeOwnerApprovalRequired b); [|exists NoCodeOwner; do 2 right; left; by eexists; split; [left|]].
  exists DevelopersPush. do 3 right. cbn [app] in Hne.
  destruct (_ ≫= _) as [|v l] eqn:E; [done|]. exists v. split; [left|].
  assert (v ∈ v :: l) as Hv by left. rewrite <- E in Hv. apply list_elem_of_bind in Hv as (a & Hv & _).
  destruct (all_developers _ _ _); [|by apply elem_of_nil in Hv]. by apply list_elem_of_singleton in Hv as ->.
Qed.

(** The violations of the grade are the gaps. *)
Lemma gradeBranch_gaps b users g :
  (length users =? 0)%nat = negb (existsb (fun d => 0 <? bl_UserID d) (br_PushAccessLevels b)) ->
  says_gap (gr_Violations (gradeBranch b users)) g <-> has_gap b g.
Proof.
  intros Hu. assert (((0 <? length users)%nat = true) <-> has_gap b DirectPush) as Hd.
  { rewrite Nat.ltb_lt. pose proof (existsb_exists (fun d => 0 <? bl_UserID d) (br_PushAccessLevels b)) as He. cbn.
    setoid_rewrite <- list_elem_of_In in He. setoid_rewrite Z.ltb_lt in He. rewrite <- He.
    destruct (existsb _ _), users; cbn in *; split; intros; try done; lia. }
  assert ((exists a, a ∈ br_PushAccessLevels b /\ all_developers (bl_AccessLevel a) (bl_UserID a) (bl_GroupID a) = true) <->
    has_gap b DevelopersPush) as Hdev.
  { cbn. unfold all_developers. setoid_rewrite andb_true_iff. setoid_rewrite andb_true_iff. setoid_rewrite Z.eqb_eq. naive_solver. }
  rewrite gradeBranch_violations, !says_gap_app, says_gap_bind, Hdev, says_gap_if, says_gap_if, Hd, direct_prefix.
  assert (says_gap (if br_CodeOwnerApprovalRequired b then []
    else ["Code Owner approval is disabled (code_owner_approval_required = false)"]) g <->
    br_CodeOwnerApprovalRequired b = false /\ g = NoCodeOwner) as ->.
  { unfold says_gap. destruct (br_CodeOwnerApprovalRequired b); [set_solver|]. setoid_rewrite list_elem_of_singleton.
    split; [intros (v & -> & Hg)|intros [_ ->]; by eexists]. by destruct g. }
  destruct g; cbn [gap_text has_gap];
    repeat match goal with |- context [HasPrefix ?a ?b] => let v := eval vm_compute in (HasPrefix a b) in change (HasPrefix a b) with v end;
    intuition discriminate.
Qed.

Lemma gradeTag_severity t users :
  (length users =? 0)%nat = negb (existsb (fun d => 0 <? da_UserID d) (non_nil (at_CreateAccessLevels t))) ->
  gr_Severity (gradeTag t users) = tag_severity t.
Proof.
  intros Hu. unfold gradeTag, tag_severity. rewrite fold_medium. destruct users as [|u users]; cbn in Hu;
    destruct (existsb (fun d => 0 <? da_UserID d) (non_nil (at_CreateAccessLevels t))); try done; cbn [length Nat.ltb Nat.leb];
    unfold flag_if; destruct (at_Name t =? "*")%string; cbn; case_match; done.
Qed.

Lemma gradeEnvironment_severity e users :
  (length users =? 0)%nat = negb (existsb (fun d => 0 <? da_UserID d) (non_nil (ae_DeployAccessLevels e))) ->
  gr_Severity (gradeEnvironment e users) = environment_severity e.
Proof.
  intros Hu. unfold gradeEnvironment, environment_severity. destruct users as [|u users]; cbn in Hu;
    destruct (existsb (fun d => 0 <? da_UserID d) (non_nil (ae_DeployAccessLevels e))); try done; cbn [length Nat.ltb Nat.leb];
    unfold flag_if; destruct (isProduction (ae_Name e) && (ae_RequiredApprovalCount e =? 0)); cbn; try done; by case_match.
Qed.

(** ** Lemmas: programs *)

Definition users_in (grants : list grantee) : nat := length (List.filter (fun g => match g with ToUser _ => true | _ => false end) grants).

Lemma users_in_branch descs : (users_in (grantee_of_branch <$> descs) =? 0)%nat = negb (existsb (fun d => 0 <? bl_UserID d) descs).
Proof.
  unfold users_in. induction descs as [|d descs IH]; cbn; [done|]. unfold grantee_of_branch at 1. destruct (0 <? bl_UserID d); cbn; [done|].
  by repeat case_match.
Qed.

Lemma users_in_described descs : (users_in (grantee_of_described <$> descs) =? 0)%nat = negb (existsb (fun d => 0 <? da_UserID d) descs).
Proof.
  unfold users_in. induction descs as [|d descs IH]; cbn; [done|]. unfold grantee_of_described at 1. destruct (0 <? da_UserID d); cbn; [done|].
  by repeat case_match.
Qed.

Section Programs.
Context `{GoConversion} (accounts : Z -> Account) {W : Type} (h : handler AuditE W) (w : W).
Context (Hst : audit_stable h) (Hdir : directory_of accounts h w).

Abbreviation st := (settles accounts h w).

Lemma summarizeGrants_settles grants parts users groups :
  st (fun r => length r.1.2 = length users + users_in grants)%nat (summarizeGrants grants parts users groups).
Proof using Hst Hdir.
  revert parts users groups. induction grants as [|g grants IH]; intros parts users groups; cbn [summarizeGrants].
  - apply settles_ret. unfold users_in. cbn. lia.
  - destruct g as [id|id|t].
    + eapply settles_bind; [by apply FormatUser_settles|]. intros u _. eapply settles_mono; [|apply IH]. intros r ->.
      rewrite length_app. unfold users_in. cbn. lia.
    + cbv zeta. apply IH.
    + apply IH.
Qed.

Lemma summarizeBranch_settles descs :
  st (fun r => (length r.1.2 =? 0)%nat = negb (existsb (fun d => 0 <? bl_UserID d) descs)) (summarizeBranchAccessLevels descs).
Proof using Hst Hdir.
  unfold summarizeBranchAccessLevels. destruct descs as [|d descs]; [by apply settles_ret|]. eapply settles_mono; [|apply summarizeGrants_settles].
  intros r ->. apply users_in_branch.
Qed.

Lemma summarizeTag_settles descs :
  st (fun r => (length r.1.2 =? 0)%nat = negb (existsb (fun d => 0 <? da_UserID d) (non_nil descs))) (summarizeTagAccessLevels descs).
Proof using Hst Hdir.
  unfold summarizeTagAccessLevels. destruct descs as [|d descs]; [by apply settles_ret|]. eapply settles_mono; [|apply summarizeGrants_settles].
  intros r ->. apply users_in_described.
Qed.

Lemma summarizeEnv_settles descs :
  st (fun r => (length r.1.2 =? 0)%nat = negb (existsb (fun d => 0 <? da_UserID d) (non_nil descs))) (summarizeEnvAccessLevels descs).
Proof using Hst Hdir.
  unfold summarizeEnvAccessLevels. destruct descs as [|d descs]; [by apply settles_ret|]. eapply settles_mono; [|apply summarizeGrants_settles].
  intros r ->. apply users_in_described.
Qed.

Lemma each_settles {A B} (f : A -> AP B) (R : A -> B -> Prop) l : (forall a, st (R a) (f a)) -> st (Forall2 R l) (each f l).
Proof.
  intros Hf. induction l as [|a l IH]; cbn [each]; [by apply settles_ret|]. eapply settles_bind; [apply Hf|]. intros b Hb.
  eapply settles_bind; [exact IH|]. intros bs Hbs. apply settles_ret. by constructor.
Qed.

Lemma registerMembers_follows path members :
  Forall (fun m => account_ok accounts (am_Account m)) members ->
  follows (audit_answer accounts h w) (audit_call accounts) (fun _ => True) (registerMembers path members).
Proof.
  induction 1 as [|m members Hm _ IH]; cbn [registerMembers]; [done|]. eapply follows_bind; [|intros a _; exact IH].
  by apply follows_call; [split|].
Qed.

(** The lifecycle of a project, as this server shows it. *)
Definition lifecycle_in (p : TargetProject) : lifecycle := (run h (lifecycleOf p) w).1.

Lemma Evaluate_server archived marked last : only (fun X e => of_server e = true) (EvaluateProjectLifecycle archived marked last).
Proof. unfold EvaluateProjectLifecycle. repeat case_match; try done. Qed.

Lemma lifecycleOf_server p : only (fun X e => of_server e = true) (lifecycleOf p).
Proof. unfold lifecycleOf. cbv zeta. apply only_bind; [apply Evaluate_server|]. intros [[state a] i]. done. Qed.

Lemma lifecycleOf_settles p : st (fun lc => lc = lifecycle_in p) (lifecycleOf p).
Proof using Hst. apply server_settles; [done|apply lifecycleOf_server]. Qed.

Lemma fetchPages_server {A} (list_page : Z -> AuditE (Reply (list A))) fuel page (all : list A) :
  (forall page, of_server (list_page page) = true) -> only (fun X e => of_server e = true) (fetchPages (E := AuditE) list_page fuel page all).
Proof.
  intros Hr. revert page all. induction fuel as [|fuel IH]; intros page all; cbn [fetchPages]; [done|].
  apply only_bind; [by split|]. intros r. repeat case_match; first [done|apply IH].
Qed.

Lemma fetchPages_settles {A} (list_page : Z -> AuditE (Reply (list A))) fuel :
  (forall page, of_server (list_page page) = true) ->
  st (fun r => r = (run h (fetchPages (A := A) list_page fuel 1 []) w).1) (fetchPages list_page fuel 1 []).
Proof using Hst. intros Hr. apply server_settles; [done|by apply fetchPages_server]. Qed.

End Programs.

(** ** The modules settle *)

Section Settle.
Context `{GoConversion} (accounts : Z -> Account) (classifier : option BotClassifier) (baseURL : string) (pages : nat).
Context {W : Type} (h : handler AuditE W) (w : W).
Context (Hst : audit_stable h) (Hdir : directory_of accounts h w).

Abbreviation st := (settles accounts h w).
Abbreviation lc_of := (lifecycle_in h w).
Abbreviation adjusted p s := (AdjustSeverityForProject s (lc_archived (lc_of p)) (lc_inactive (lc_of p))).

(** What the listing of a project's members gives. *)
Definition members_of (p : TargetProject) : error + list (option AuditedMember) :=
  (run h (fetchPages (AllMembersPage (tp_ID p)) pages 1 []) w).1.

Definition direct_members_of (p : TargetProject) : Reply (list (option AuditedMember)) := (h _ (DirectMembers (tp_ID p)) w).1.

(** Everyone in the listing is as the directory has it. *)
Definition members_ok (p : TargetProject) : Prop :=
  forall all, members_of p = inr all -> Forall (fun m => account_ok accounts (am_Account m)) (non_nil all).

Lemma UserAccess_settles p :
  members_ok p ->
  st (fun r => forall all, r_err (direct_members_of p) = None -> members_of p = inr all ->
        r = inr (auditMember classifier baseURL p (lc_of p)
                   (list_to_set ((fun m => ac_ID (am_Account m)) <$> non_nil (r_val (direct_members_of p)))) <$> non_nil all))
     (UserAccess_AuditProject classifier baseURL pages p).
Proof using Hst.
  intros Hm. eapply settles_bind; [by apply lifecycleOf_settles|]. intros lc ->.
  eapply (settles_bind _ _ _ (fun d => d = direct_members_of p)); [by apply settles_call|]. intros d ->.
  destruct (r_err (direct_members_of p)); [by apply settles_ret|].
  eapply settles_bind; [by apply fetchPages_settles|]. intros all ->. fold (members_of p).
  destruct (members_of p) as [e|all] eqn:Ea; [by apply settles_ret|]. cbv zeta.
  apply settles_then; [by apply registerMembers_follows, Hm|]. apply settles_ret. by intros all' _ [= <-].
Qed.

(** The findings of a module by what they are about. *)
Definition tag_view (f : ProtectedTagFinding) : string * Severity * bool := (gf_TagNamePattern f, gf_Severity f, gf_IsProtected f).
Definition environment_view (f : ProtectedEnvironmentFinding) : string * Severity := (ef_EnvironmentName f, ef_Severity f).

Lemma auditBranch_settles p lc b : st (branch_finding b) (auditBranch baseURL p lc b).
Proof using Hst Hdir.
  unfold auditBranch. eapply settles_bind; [by apply summarizeBranch_settles|]. intros [[push users] groups] Hu.
  eapply settles_bind; [by apply summarizeBranch_settles|]. intros [[merge mu] mg] _.
  destruct (grade_texts _ _). apply settles_ret. unfold branch_finding. cbn -[says_gap has_gap].
  assert (forall g, says_gap (gr_Violations (gradeBranch b users)) g <-> has_gap b g) as Hg by (intros g; by apply gradeBranch_gaps).
  split_and!; [done..|exact Hg|]. pose proof (gradeBranch_sound b users) as Hs. unfold sound_grade in Hs. rewrite AdjustSeverity_violation, Hs. split.
  - intros Hne. apply gradeBranch_names in Hne as [g Hs']. exists g. by apply Hg.
  - intros [g (v & Hv & _)%Hg] He. rewrite He in Hv. by apply elem_of_nil in Hv.
Qed.

Lemma auditTag_settles p lc t :
  st (fun f => tag_view f = (at_Name t, AdjustSeverityForProject (tag_severity t) (lc_archived lc) (lc_inactive lc), true))
    (auditTag baseURL p lc t).
Proof using Hst Hdir.
  unfold auditTag. eapply settles_bind; [by apply summarizeTag_settles|]. intros [[s users] groups] Hu.
  destruct (grade_texts _ _). apply settles_ret. unfold tag_view. cbn. by rewrite (gradeTag_severity t users Hu).
Qed.

Lemma auditEnvironment_settles p lc e :
  st (fun f => environment_view f = (ae_Name e, AdjustSeverityForProject (environment_severity e) (lc_archived lc) (lc_inactive lc)))
    (auditEnvironment baseURL p lc e).
Proof using Hst Hdir.
  unfold auditEnvironment. eapply settles_bind; [by apply summarizeEnv_settles|]. intros [[s users] groups] Hu.
  destruct (grade_texts _ _). apply settles_ret. unfold environment_view. cbn. by rewrite (gradeEnvironment_severity e users Hu).
Qed.

Lemma view_fmap {A B C} (view : B -> C) (spec : A -> C) l bs : Forall2 (fun a b => view b = spec a) l bs -> view <$> bs = spec <$> l.
Proof. induction 1; cbn; congruence. Qed.

Definition tags_graded (p : TargetProject) (l : list (option AuditedTag)) : list (string * Severity * bool) :=
  ((fun t => (at_Name t, adjusted p (tag_severity t), true)) <$> non_nil l)
  ++ (if (length l =? 0)%nat then [("(none)", adjusted p Critical, false)]
      else if existsb (fun t => matchesReleasePattern (at_Name t)) (non_nil l) then [] else [("v*", adjusted p High, false)]).

Definition environments_graded (p : TargetProject) (l : list (option AuditedEnvironment)) (names : list (option string))
  : list (string * Severity) :=
  ((fun e => (ae_Name e, adjusted p (environment_severity e))) <$> non_nil l)
  ++ ((fun n => (n, adjusted p (if isProduction n then Critical else Medium)))
        <$> List.filter (fun n => negb (n =? "")%string && negb (bool_decide (n ∈ (list_to_set (ae_Name <$> non_nil l) : gset string))))
              (non_nil names)).

Lemma ProtectedBranches_settles p :
  st (fun r => forall l, (run h (fetchPages (fun page => OnClient (ProtectedBranches (ListProtectedBranches (tp_ID p) page))) pages 1 []) w).1 = inr l ->
        exists fs, r = inr (fs ++ if existsb (fun b => is_default p (br_Name b)) l then [] else [unprotectedDefault baseURL p (lc_of p)]) /\
          Forall2 branch_finding l fs)
     (ProtectedBranches_AuditProject baseURL pages p).
Proof using Hst Hdir.
  eapply settles_bind; [by apply lifecycleOf_settles|]. intros lc ->. eapply settles_bind; [by apply fetchPages_settles|]. intros all ->.
  destruct (run h _ w).1 as [e|l] eqn:El; [by apply settles_ret|].
  eapply settles_bind; [apply each_settles, auditBranch_settles|]. intros fs Hfs. apply settles_ret. intros l' [= <-].
  by exists fs.
Qed.

Lemma ProtectedTags_settles p :
  st (fun r => forall l, (run h (fetchPages (TagsPage (tp_ID p)) pages 1 []) w).1 = inr l ->
        exists fs, r = inr fs /\ tag_view <$> fs = tags_graded p l)
     (ProtectedTags_AuditProject baseURL pages p).
Proof using Hst Hdir.
  eapply settles_bind; [by apply lifecycleOf_settles|]. intros lc ->. eapply settles_bind; [by apply fetchPages_settles|]. intros all ->.
  destruct (run h _ w).1 as [e|l] eqn:El; [by apply settles_ret|].
  eapply settles_bind; [apply each_settles, auditTag_settles|]. intros fs Hfs%view_fmap. apply settles_ret. intros l' [= <-].
  eexists. split; [done|]. rewrite fmap_app, Hfs. unfold tags_graded, missingTags. f_equal. by repeat case_match.
Qed.

Lemma listEnvironments_server pid fuel page all : only (fun X e => of_server e = true) (listEnvironments pid fuel page all).
Proof.
  revert page all. induction fuel as [|fuel IH]; intros page all; cbn [listEnvironments]; [done|].
  apply only_bind; [by split|]. intros r. repeat case_match; first [done|apply IH].
Qed.

Lemma ProtectedEnvironments_settles p :
  st (fun r => forall l, (run h (fetchPages (EnvironmentsPage (tp_ID p)) pages 1 []) w).1 = inr l ->
        exists fs, r = inr fs /\ environment_view <$> fs = environments_graded p l (run h (listEnvironments (tp_ID p) pages 1 []) w).1)
     (ProtectedEnvironments_AuditProject baseURL pages p).
Proof using Hst Hdir.
  eapply settles_bind; [by apply lifecycleOf_settles|]. intros lc ->. eapply settles_bind; [by apply fetchPages_settles|]. intros all ->.
  destruct (run h _ w).1 as [e|l] eqn:El; [by apply settles_ret|].
  eapply settles_bind; [apply each_settles, auditEnvironment_settles|]. intros fs Hfs%view_fmap.
  eapply settles_bind; [apply server_settles; [done|apply listEnvironments_server]|]. intros names ->. apply settles_ret. intros l' [= <-].
  eexists. split; [done|]. rewrite fmap_app, Hfs. unfold environments_graded. f_equal. by rewrite <- list_fmap_compose.
Qed.

Lemma oldestPipeline_server o page : only (fun X e => of_server e = true) (oldestPipeline o page).
Proof. unfold oldestPipeline. repeat case_match; done. Qed.

Lemma PipelineRetention_server p : only (fun X e => of_server e = true) (PipelineRetention_AuditProject p).
Proof.
  unfold PipelineRetention_AuditProject. apply only_bind; [apply lifecycleOf_server|]. intros lc.
  apply only_bind; [by split|]. intros r. case_match; [done|]. apply only_bind; [by split|]. intros now.
  apply only_bind; [by split|]. intros page. case_match; [done|]. apply only_bind; [|done].
  unfold retentionConfigured, retentionDisabled. repeat case_match; try done; (apply only_bind; [apply oldestPipeline_server|]); by intros [[? ?] ?].
Qed.

Lemma RepositoryFiles_server LookupEnv LoadContent p cfg :
  only (fun X e => of_server e = true) (RepositoryFiles_AuditProject LookupEnv LoadContent p cfg).
Proof.
  unfold RepositoryFiles_AuditProject. apply only_bind; [unfold filesLifecycle; apply only_bind; [apply Evaluate_server|by intros [[? ?] ?]]|].
  intros lc. destruct (files_policy cfg) as [|f files]; [done|]. generalize (@nil RepositoryFileFinding). generalize (f :: files). clear f files.
  induction l as [|f files IH]; intros acc; cbn [auditFiles]; [done|]. apply only_bind; [by split|]. intros [e|o]; [done|]. apply IH.
Qed.

End Settle.

Lemma auditMember_fields classifier baseURL p lc direct m :
  let f := auditMember classifier baseURL p lc direct m in
  uf_UserID f = ac_ID (am_Account m) /\ uf_AccessLevel f = am_AccessLevel m /\
  uf_IsDirect f = bool_decide (ac_ID (am_Account m) ∈ direct) /\
  uf_Severity f = if (am_AccessLevel m <? 50) && negb (hasExpiration m)
                  then AdjustSeverityForProject (if 40 <=? am_AccessLevel m then Critical else High) (lc_archived lc) (lc_inactive lc)
                  else Pass.
Proof. intros f. subst f. unfold auditMember. cbv zeta. destruct ((_ <? _) && _), (40 <=? am_AccessLevel m); done. Qed.

(** ** Properties *)

(** On a server that lists the members of a project, the user access audit has
    one finding for each of them, in the order of the listing and whatever users
    the registry knows already; a member below owner without an expiry is a
    violation, critical from maintainer on and less so where the project is
    archived, inactive or about to be deleted, and nobody else is. *)
Theorem UserAccess_exact `{GoConversion} accounts classifier baseURL pages {W} (h : handler AuditE W) w r p members direct :
  audit_stable h -> registry_ok accounts r ->
  lists h (AllMembersPage (tp_ID p)) members w -> (length members < per_page * pages)%nat ->
  Forall (fun m => account_ok accounts (am_Account m)) (non_nil members) ->
  (h _ (DirectMembers (tp_ID p)) w).1 = reply_ok direct ->
  exists fs, (run (with_registry classifier h) (UserAccess_AuditProject classifier baseURL pages p) (w, r)).1 = inr fs /\
    Forall2 (fun m f =>
      uf_UserID f = ac_ID (am_Account m) /\ uf_AccessLevel f = am_AccessLevel m /\
      (uf_IsDirect f = true <-> exists d, d ∈ non_nil direct /\ ac_ID (am_Account d) = ac_ID (am_Account m)) /\
      is_violation (uf_Severity f) = (am_AccessLevel m <? 50) && negb (hasExpiration m) /\
      let lc := lifecycle_in h w p in
      uf_Severity f = if is_violation (uf_Severity f)
                      then AdjustSeverityForProject (if 40 <=? am_AccessLevel m then Critical else High) (lc_archived lc) (lc_inactive lc)
                      else Pass) (non_nil members) fs.
Proof.
  intros Hst Hr Hl Hlen Hm Hd. pose proof (fetchPages_run h _ members w pages Hl Hlen) as Hf.
  assert (members_of pages h w p = inr members) as Ha by (unfold members_of; by rewrite Hf).
  pose proof (settles_run accounts classifier h w _ _ r Hst
    (UserAccess_settles accounts classifier baseURL pages h w Hst p ltac:(intros all; rewrite Ha; by intros [= <-])) Hr members) as ->.
  - eexists. split; [done|]. unfold direct_members_of. rewrite Hd. cbn [r_val reply_ok]. apply Forall2_fmap_r, Forall2_same_length_lookup.
    split; [done|]. intros i m m' Hi Hi'. simplify_eq.
    assert (forall x : Z, bool_decide (x ∈ (list_to_set ((fun m => ac_ID (am_Account m)) <$> non_nil direct) : gset Z)) = true <->
      exists d, d ∈ non_nil direct /\ ac_ID (am_Account d) = x) as Hx.
    { intros x. rewrite bool_decide_eq_true, elem_of_list_to_set, list_elem_of_fmap. naive_solver. }
    cbv beta delta [compose]. match goal with |- context [auditMember ?c ?b ?p ?lc ?d ?x] => destruct (auditMember_fields c b p lc d x) as (-> & -> & -> & ->) end.
    split_and!; [done|done|apply Hx|..]; destruct ((am_AccessLevel m <? 50) && negb (hasExpiration m)); try done;
      rewrite ?AdjustSeverity_violation; by destruct (40 <=? am_AccessLevel m).
  - unfold direct_members_of. by rewrite Hd.
  - done.
Qed.

(** The protections of the listing are of single branches, and none is of a
    branch called main or master that is not the default one: what the module
    does with such names and with wildcards is no part of its documentation. *)
Definition single_branches (p : TargetProject) (branches : list ProtectedBranch) : Prop :=
  tp_DefaultBranch p <> "" /\
  Forall (fun b => Contains (br_Name b) "*" = false /\
            (br_Name b = "main" \/ br_Name b = "master" -> br_Name b = tp_DefaultBranch p)) branches.


(** The same for the protected tags. *)
Theorem ProtectedTags_exact `{GoConversion} accounts classifier baseURL pages {W} (h : handler AuditE W) w p tags :
  audit_stable h -> directory_of accounts h w ->
  lists h (TagsPage (tp_ID p)) tags w -> (length tags < per_page * pages)%nat ->
  exists fs, tag_view <$> fs = tags_graded h w p tags /\
    forall r, registry_ok accounts r ->
      (run (with_registry classifier h) (ProtectedTags_AuditProject baseURL pages p) (w, r)).1 = inr fs.
Proof.
  intros Hst Hdir Hl Hlen. pose proof (fetchPages_run h _ tags w pages Hl Hlen) as Hf.
  destruct (ProtectedTags_settles accounts baseURL pages h w Hst Hdir p) as (r & Hr & Hp).
  destruct (Hr tags) as (fs & -> & Hv); [by rewrite Hf|]. exists fs. split; [done|]. intros reg Hreg.
  symmetry. apply (settles_run accounts classifier h w (eq (inr fs))); [done| |done]. by exists (inr fs).
Qed.

Section Files.
Context (LookupEnv : string -> option string) (LoadContent : string -> error + string).

(** The audit's client is the reconciler's. *)
Definition client_of {W} (h : handler AuditE W) : handler GitLabE W := fun X e w => h X (OnClient e) w.

Lemma header_same path1 path2 content : path_Ext path1 = path_Ext path2 -> attachHeader path1 content = attachManagedHeader path2 content.
Proof. intros He. unfold attachHeader, attachManagedHeader. by rewrite He. Qed.

Lemma normalize_same s : normalizeAuditContent s = normalizeContent s.
Proof. reflexivity. Qed.

Lemma enforcement_direct f :
  (fileEnforcement f =? "direct_commit")%string = ((ToLower (rf_Enforcement f) =? "direct_commit") || (ToLower (rf_Enforcement f) =? ""))%string.
Proof.
  unfold fileEnforcement. destruct (String.eqb_spec (ToLower (rf_Enforcement f)) "") as [->|]; [done|]. by rewrite orb_false_r.
Qed.

(** A file whose content is stated: the text, not empty, in the policy or in the
    file that it names. *)
Definition states_content (f : RepositoryFileConfig) (text : string) : Prop :=
  rf_EnsureContains f = [] /\ text <> "" /\
  (rf_Content f = text \/ rf_Content f = "" /\ rf_ContentFile f <> "" /\ LoadContent (rf_ContentFile f) = inr text).

Lemma states_content_wanted f text :
  states_content f text -> wantedContent LoadContent f = inr text /\ desiredRaw LoadContent f = (fun _ => inr (Some text)) /\
  (negb (rf_Content f =? "")%string || negb (rf_ContentFile f =? "")%string) = true.
Proof.
  intros (_ & Hne & [<-|(He & Hf & Hl)]); unfold wantedContent, desiredRaw.
  - rewrite (proj2 (String.eqb_neq _ _) Hne). done.
  - rewrite He, Hl, (proj2 (String.eqb_neq _ _) Hf). done.
Qed.

(** A file that the policy states whole, to be committed, whose references to the
    environment can be resolved.  The paths have one extension as written and as
    cleaned, since each module takes the kind of the header from another. *)
Definition stated (f : RepositoryFileConfig) : Prop :=
  fileEnforcement f = "direct_commit" /\ path_Ext (cleanFilePath f) = path_Ext (rf_Path f) /\
  exists text expanded, states_content f text /\ ExpandEnv LookupEnv text = inr expanded.

Section Server.
Context `{GoConversion} {W : Type} (h : handler AuditE W) (w : W) (Hst : audit_stable h).
Context (project : Project) (gid : Z) (files : W -> gmap (string * string) string).
Context (Hsrv : file_server (client_of h) (p_ID project) files).

Abbreviation target := (toTargetProject project gid).

(** One file: the audit's finding and the plan's diff are of the same file, or
    there is neither. *)
Definition same_report (x : RepositoryFileFinding) (d : Diff) : Prop :=
  d_Resource d = "file:" +:+ ff_FilePath x /\ d_Action d = (if ff_FileExists x then ActionUpdate else ActionCreate).

Lemma audited_and_planned lc f :
  stated f ->
  exists x d, run h (auditFile LookupEnv LoadContent target lc f) w = (inr x, w) /\
    run (client_of h) (planFile LookupEnv LoadContent project f) w = (inr d, w) /\
    match x, d with
    | Some x, Some (d, a) => same_report x d /\ a = d_Action d
    | None, None => True
    | _, _ => False
    end.
Proof using Hsrv.
  intros (Henf & Hext & text & expanded & Hs & Hex).
  destruct (states_content_wanted f text Hs) as (Hw & Hr & Hc). destruct Hs as (Hens & Hne & _).
  assert (auditTargetBranch target f = fileBranch project f) as Hb.
  { unfold auditTargetBranch, fileBranch, defaultBranchOf. cbn. by destruct (rf_TargetBranch f =? "")%string. }
  unfold auditFile, planFile, fetchFileContent. rewrite Hb. cbn [tp_ID toTargetProject].
  destruct (fs_get _ _ _ Hsrv (cleanFilePath f) (fileBranch project f) w) as [Hworld Hget].
  rewrite !run_bind, !run_call. unfold client_of in *.
  destruct (h _ (OnClient _) w) as [r w1]. cbn [fst snd] in Hworld, Hget. subst w1. rewrite !run_ret.
  unfold calculateFileDrift. rewrite Hr, Hex, Henf, Hc. cbn [String.eqb Ascii.eqb Bool.eqb andb].
  destruct (files w !! _) as [raw|].
  - destruct Hget as [He Hv]. rewrite He, Hv. unfold checkContent. rewrite Hens, Hw.
    replace (missing [] raw) with (@nil string) by done. rewrite (proj2 (String.eqb_neq _ _) Hne). unfold drifted.
    rewrite Hex, <- enforcement_direct, Henf, (header_same _ _ _ Hext), !normalize_same. cbn [String.eqb Ascii.eqb Bool.eqb negb andb].
    destruct (normalizeContent raw =? _)%string; cbn [negb]; eexists _, _; (split; [done|]); (split; [done|]); done.
  - destruct Hget as (e & resp & He & Hresp & H404). rewrite He, Hresp, H404. cbn [Z.eqb Pos.eqb orb].
    eexists _, _. split; [done|]. split; [done|]. done.
Qed.

Lemma audited_and_planned_all lc fs xs acc :
  Forall stated fs ->
  exists ys ds a, run h (auditFiles LookupEnv LoadContent target lc fs xs) w = (inr (xs ++ ys), w) /\
    run (client_of h) (planFiles LookupEnv LoadContent project fs acc) w = (inr (acc.1 ++ ds, a), w) /\
    Forall2 same_report ys ds.
Proof using Hsrv.
  intros Hall. revert xs acc. induction Hall as [|f fs Hf _ IH]; intros xs acc; cbn [auditFiles planFiles].
  { exists [], [], acc.2. rewrite !run_ret, !app_nil_r. by destruct acc. }
  destruct (audited_and_planned lc f Hf) as (x & d & Hx & Hd & Hm). rewrite !run_bind, Hx, Hd.
  destruct x as [x|], d as [[d a]|]; try done.
  - destruct Hm as [Hm _]. destruct (IH (xs ++ [x]) (push_diff acc d a)) as (ys & ds & a' & H1 & H2 & H3).
    exists (x :: ys), (d :: ds), a'. change (option_list (Some x)) with [x]. rewrite H1, H2. cbn [push_diff fst].
    rewrite <- !app_assoc. cbn [app].
    split_and!; [done..|by constructor].
  - change (option_list None) with (@nil RepositoryFileFinding). rewrite app_nil_r. apply IH.
Qed.


End Server.

End Files.

(** ** A server to audit *)

Definition demo_account (id : Z) : Account := {|
  ac_ID := id; ac_Username := "user" +:+ Itoa id; ac_Name := "User " +:+ Itoa id; ac_Email := ""; ac_State := "active"; ac_WebURL := ""
|}.

Definition demo_member (id level : Z) (expires : option string) : AuditedMember :=
  {| am_Account := demo_account id; am_AccessLevel := level; am_ExpiresAt := expires |}.

Definition demo_members : list (option AuditedMember) :=
  [Some (demo_member 7 40 None); None; Some (demo_member 8 50 None); Some (demo_member 9 30 (Some "2030-01-01"))].

Definition demo_levels (user level : Z) : BranchAccess :=
  {| bl_AccessLevel := level; bl_UserID := user; bl_GroupID := 0; bl_DeployKeyID := 0 |}.

Definition demo_release_branch : ProtectedBranch :=
  {| br_Name := "release"; br_PushAccessLevels := [demo_levels 0 30]; br_MergeAccessLevels := []; br_UnprotectAccessLevels := [];
     br_AllowForcePush := false; br_CodeOwnerApprovalRequired := true |}.

Definition demo_branches : list ProtectedBranch := [
  {| br_Name := "main"; br_PushAccessLevels := [demo_levels 0 40; demo_levels 7 40]; br_MergeAccessLevels := [demo_levels 0 30];
     br_UnprotectAccessLevels := []; br_AllowForcePush := false; br_CodeOwnerApprovalRequired := true |};
  demo_release_branch].

Definition demo_audit_client X (e : GitLabE X) : X :=
  match e in GitLabE X return X with
  | ProtectedBranches e =>
      match e in ProtectedBranchesE X return X with
      | ListProtectedBranches pid page => page_of (if pid =? 2 then [demo_release_branch] else demo_branches) page
      | e => absent_call (ProtectedBranches e)
      end
  | e => absent_call e
  end.

(** Every project has these members, and these branches but for one project;
    there is nothing else. *)
Definition demo_audit_server : handler AuditE unit := fun X e w =>
  match e in AuditE X return X * unit with
  | OnClient e => (demo_audit_client _ e, w)
  | TimeNow => (1700000000 * 10 ^ 9, w)
  | CurrentUser => (reply_ok (Some (demo_account 1)), w)
  | GetUser id => (reply_ok (Some (demo_account id)), w)
  | DirectMembers _ => (reply_ok [Some (demo_member 7 40 None)], w)
  | AllMembersPage _ page => (page_of demo_members page, w)
  | TagsPage _ page => (page_of [] page, w)
  | EnvironmentsPage _ page => (page_of [] page, w)
  | StalePipelines _ _ => (reply_ok {| pp_Pipelines := []; pp_TotalItems := 0 |}, w)
  | Register _ _ => (None, w)
  | Lookup _ => (None, w)
  end.

#[local] Instance demo_conversion : GoConversion := {| float_overflow := fun _ => - 2 ^ 63 |}.

Lemma demo_audit_stable : audit_stable demo_audit_server.
Proof. intros X e []. by destruct (demo_audit_server X e ()) as [? []]. Qed.

Lemma demo_audit_directory : directory_of demo_account demo_audit_server ().
Proof. by split. Qed.

Definition demo_target (id : Z) (path branch : string) (archived : bool) : TargetProject := {|
  tp_ID := id; tp_Name := path; tp_Path := path; tp_PathWithNamespace := path; tp_DefaultBranch := branch; tp_Visibility := "private";
  tp_Archived := archived; tp_MarkedForDeletion := false; tp_MarkedForDeletionAt := None; tp_Topics := []; tp_NamespaceFullPath := "";
  tp_ParentGroupID := 0; tp_Raw := None
|}.

(** A project whose default branch is not protected, which the audit does not see
    because a branch called main is. *)
Example unprotected_default_overlooked :
  match (run (with_registry None demo_audit_server) (ProtectedBranches_AuditProject "https://gitlab.example.com" 1
    (demo_target 1 "platform/api" "develop" false)) ((), ∅)).1 with
  | inr fs => (fun f => (bf_BranchName f, bf_IsProtected f)) <$> fs = [("main", true); ("release", true)]
  | inl _ => False
  end.
Proof. by vm_compute. Qed.

(** ** Witnesses *)

Lemma UserAccess_exact_witness :
  exists fs, (run (with_registry None demo_audit_server)
    (UserAccess_AuditProject None "https://gitlab.example.com" 1 (demo_target 1 "platform/api" "main" false)) ((), ∅)).1 = inr fs /\
    length fs = 3%nat.
Proof.
  destruct (UserAccess_exact demo_account None "https://gitlab.example.com" 1 demo_audit_server () ∅
    (demo_target 1 "platform/api" "main" false) demo_members [Some (demo_member 7 40 None)]) as (fs & Hr & Hf).
  - exact demo_audit_stable.
  - apply registry_ok_empty.
  - intros page _. reflexivity.
  - vm_compute. lia.
  - by repeat constructor.
  - reflexivity.
  - exists fs. split; [exact Hr|]. symmetry. exact (Forall2_length _ _ _ Hf).
Defined.

(** The default branch of this project is not protected. *)
Definition demo_release_target : TargetProject := demo_target 2 "platform/api" "develop" true.


Definition demo_ci_file : RepositoryFileConfig := {|
  rf_Path := "/ci/build.yml"; rf_Content := "image: go"; rf_ContentFile := ""; rf_EnsureContains := []; rf_TargetBranch := "";
  rf_Enforcement := ""; rf_AutoMerge := None; rf_MRTitle := ""; rf_MRLabels := []
|}.

Definition demo_readme_file : RepositoryFileConfig := {|
  rf_Path := "README.md"; rf_Content := "Owned by ${TEAM}"; rf_ContentFile := ""; rf_EnsureContains := []; rf_TargetBranch := "";
  rf_Enforcement := "Direct_Commit"; rf_AutoMerge := None; rf_MRTitle := ""; rf_MRLabels := []
|}.

Definition demo_owners_file : RepositoryFileConfig := {|
  rf_Path := "CODEOWNERS"; rf_Content := "* @platform"; rf_ContentFile := ""; rf_EnsureContains := []; rf_TargetBranch := "";
  rf_Enforcement := ""; rf_AutoMerge := None; rf_MRTitle := ""; rf_MRLabels := []
|}.

Definition demo_files_cfg : option PolicyConfig := with_policies
  (Build_PoliciesConfig None [] None None None None None [] None None [] None None
     [demo_ci_file; demo_readme_file; demo_owners_file] []).

Definition demo_environment (name : string) : option string := if (name =? "TEAM")%string then Some "platform" else None.

(** A repository with a file that has drifted, and one that is as it should
    be, with other line ends; the third file is missing. *)
Definition demo_repository : gmap (string * string) string :=
  <[("main", "ci/build.yml") := "image: rust"]>
  (<[("main", "README.md") := "<!-- Auto-managed by gitlab-fleet-governor — do not edit manually -->" +:+ CR +:+ LF +:+ "Owned by platform"]> ∅).

Definition demo_files_client (w : gmap (string * string) string) X (e : GitLabE X) : X * gmap (string * string) string :=
  match e in GitLabE X return X * gmap (string * string) string with
  | RepositoryFiles_ e =>
      match e in RepositoryFilesE X return X * gmap (string * string) string with
      | GetRawFile _ path ref =>
          (match w !! (ref, path) with Some c => reply_ok c | None => reply_err "" 404 (ErrNew "not found") end, w)
      | CreateFile _ path branch content _ | UpdateFile _ path branch content _ => (reply_ok tt, <[(branch, path) := content]> w)
      end
  | e => (absent_call e, w)
  end.

Definition demo_files_server : handler AuditE (gmap (string * string) string) := fun X e w =>
  match e in AuditE X return X * gmap (string * string) string with
  | OnClient e => demo_files_client w _ e
  | e => ((demo_audit_server _ e ()).1, w)
  end.

Lemma demo_files_stable : audit_stable demo_files_server.
Proof. intros X e w He. destruct e as [? e| | | | | | | | | |]; try done. destruct e; try done. by destruct e. Qed.

Lemma demo_files_law : file_server (client_of demo_files_server) 42 (fun w => w).
Proof.
  split; [|done..]. intros path ref w. unfold client_of. cbn. split; [done|]. destruct (w !! (ref, path)); [done|]. by do 2 eexists.
Qed.

