(* ===== verification/Auditor.v ===== *)
(** * The auditor: internal/audit/auditor.go

    [Auditor_Execute] discovers the fleet, asks the license, audits every project
    with a goroutine of its own and assembles the report.  The goroutines
    interleave, and share the registry of users: an execution is a list of
    labels.  [Audit_exact] shows that every execution reports what auditing each
    project alone reports, with the same summary, and leaves the server as it
    was; [Audit_drops_failures] that a module that fails is not in the report. *)

From S2P Require Import Prelude GoLib Config GitLabAPI Server Transport License ProjectFilter GroupTree Pagination Discovery.
From S2P Require Import Governance RepositoryFiles Fetch AuditModel UserRegistry AuditModules.
Local Open Scope string_scope.
Local Open Scope list_scope.
Local Open Scope Z_scope.

(** ** The auditor and its options *)

Record Auditor : Type := {
  au_targets : TargetSelectors;
  au_policyCfg : option PolicyConfig;
  au_concurrency : Z;
  au_activeModules : gset string;
  au_classifier : option BotClassifier;
  au_licenseKey : string;
  au_licenseFile : string;
  au_licenseCRL : string;
  au_licenseCRLFile : string;
  au_licenseCRLURL : string;
  au_dryRun : bool;
  au_requiredFeatures : list string
}.

(** The [WithAuditor...] options, less those that replace a module. *)
Variant AuditorOption : Type :=
| WithRequiredFeatures (features : list string)
| WithLicense (key file : string) (dryRun : bool)
| WithCRL (crl file : string)
| WithCRLURL (url : string)
| WithConcurrency (c : Z)
| WithTargets (t : TargetSelectors)
| WithPolicy (cfg : option PolicyConfig)
| WithModules (modules : list string)
| WithClassifier (c : option BotClassifier)
| WithServiceAccounts (serviceAccounts botPatterns : list string).

(** The value of a field after the options: the default, as each option that
    sets the field leaves it. *)
Definition option_field {A} (set : AuditorOption -> A -> A) (default : A) (opts : list AuditorOption) : A :=
  foldl (fun a o => set o a) default opts.

Definition NewAuditor (has_client : bool) (opts : list AuditorOption) : error + Auditor :=
  if negb has_client then inl (ErrNew "gitlab client cannot be nil")
  else inr {|
    au_targets := option_field (fun o t => match o with WithTargets t' => t' | _ => t end) (Build_TargetSelectors None None) opts;
    au_policyCfg := option_field (fun o c => match o with WithPolicy c' => c' | _ => c end) None opts;
    au_concurrency := option_field (fun o c => match o with WithConcurrency c' => if 0 <? c' then c' else c | _ => c end) 10 opts;
    au_activeModules := option_field (fun o m => match o with
      | WithModules ms => if (0 <? length ms)%nat then list_to_set ((fun s => ToLower (TrimSpace s)) <$> ms) else m
      | _ => m end) (list_to_set AllModuleNames) opts;
    au_classifier := option_field (fun o c => match o with
      | WithClassifier c' => c'
      | WithServiceAccounts sa ps => Some (NewBotClassifier sa ps)
      | _ => c end) None opts;
    au_licenseKey := option_field (fun o k => match o with WithLicense k' _ _ => k' | _ => k end) "" opts;
    au_licenseFile := option_field (fun o f => match o with WithLicense _ f' _ => f' | _ => f end) "" opts;
    au_licenseCRL := option_field (fun o c => match o with WithCRL c' _ => c' | _ => c end) "" opts;
    au_licenseCRLFile := option_field (fun o c => match o with WithCRL _ f => f | _ => c end) "" opts;
    au_licenseCRLURL := option_field (fun o u => match o with WithCRLURL u' => u' | _ => u end) "" opts;
    au_dryRun := option_field (fun o d => match o with WithLicense _ _ d' => d' | _ => d end) false opts;
    au_requiredFeatures := option_field (fun o fs => match o with WithRequiredFeatures fs' => fs ++ fs' | _ => fs end) [] opts
  |}.

Definition isModuleActive (a : Auditor) (m : string) : bool := bool_decide (ToLower m ∈ au_activeModules a).

Definition activeModuleList (a : Auditor) : list string := List.filter (fun m => bool_decide (m ∈ au_activeModules a)) AllModuleNames.

(** ** One project *)

Record project_audit : Type := {
  pa_User : list UserAccessFinding;
  pa_Branches : list ProtectedBranchFinding;
  pa_Envs : list ProtectedEnvironmentFinding;
  pa_Retention : list PipelineRetentionFinding;
  pa_Files : list RepositoryFileFinding;
  pa_Tags : list ProtectedTagFinding;
  pa_Err : option error
}.

(** [errors.Join]. *)
Definition errors_Join (errs : list error) : option error :=
  match errs with [] => None | _ => Some (ErrNew (Join (error_text <$> errs) LF)) end.

(** A module's findings and its error, when the module is active. *)
Definition run_module {A} (active : bool) (name : string) (p : AP (error + list A)) : AP (list A * list error) :=
  if active then
    r ← p;
    mret match r with inl e => ([], [ErrWrap (name +:+ ": ") e]) | inr fs => (fs, []) end
  else mret ([], []).

(** An audit under way. *)
Record auditing (W : Type) : Type := {
  ag_todo : list TargetProject;
  (** The goroutines; [None] has returned. *)
  ag_running : list (option (TargetProject * AP project_audit));
  ag_findings : findings;
  ag_errors : list error;
  ag_canceled : option error;
  ag_world : W * registry
}.
Arguments Build_auditing {W}. Arguments ag_todo {W}. Arguments ag_running {W}. Arguments ag_findings {W}.
Arguments ag_errors {W}. Arguments ag_canceled {W}. Arguments ag_world {W}.

Section Audit.
Context `{GoConversion} (baseURL : string) (pages : nat) (LookupEnv : string -> option string) (LoadContent : string -> error + string).

Definition auditSingleProject (a : Auditor) (p : TargetProject) : AP project_audit :=
  let active := isModuleActive a in
  '(us, e1) ← run_module (active ModuleUserAccess) "user_access" (UserAccess_AuditProject (au_classifier a) baseURL pages p);
  '(bs, e2) ← run_module (active ModuleProtectedBranches) "protected_branches" (ProtectedBranches_AuditProject baseURL pages p);
  '(es, e3) ← run_module (active ModuleProtectedEnvironments) "protected_environments" (ProtectedEnvironments_AuditProject baseURL pages p);
  '(rs, e4) ← run_module (active ModulePipelineRetention) "pipeline_retention" (PipelineRetention_AuditProject p);
  '(fs, e5) ← run_module (active ModuleRepositoryFiles && is_some (au_policyCfg a)) "repository_files"
                (RepositoryFiles_AuditProject LookupEnv LoadContent p (au_policyCfg a));
  '(ts, e6) ← run_module (active ModuleProtectedTags) "protected_tags" (ProtectedTags_AuditProject baseURL pages p);
  mret {| pa_User := us; pa_Branches := bs; pa_Envs := es; pa_Retention := rs; pa_Files := fs; pa_Tags := ts;
          pa_Err := errors_Join (e1 ++ e2 ++ e3 ++ e4 ++ e5 ++ e6) |}.

(** ** The fleet *)

Variant audit_label : Type :=
| Done_          (* the loop sees that the context is done *)
| Acquire        (* the loop gets a place and starts a goroutine *)
| Go (i : nat)   (* the i-th goroutine makes a call *)
| Collect (i : nat) (* the i-th goroutine appends its findings *).

(** The critical section of a goroutine. *)
Definition addFindings (fs : findings) (r : project_audit) : findings := {|
  fs_UserAccess := fs_UserAccess fs ++ List.filter (fun f => negb (uf_IsBot f)) (pa_User r);
  fs_BotAccess := fs_BotAccess fs ++ List.filter uf_IsBot (pa_User r);
  fs_ProtectedBranches := fs_ProtectedBranches fs ++ pa_Branches r;
  fs_ProtectedEnvs := fs_ProtectedEnvs fs ++ pa_Envs r;
  fs_PipelineRetention := fs_PipelineRetention fs ++ pa_Retention r;
  fs_RepositoryFiles := fs_RepositoryFiles fs ++ pa_Files r;
  fs_ProtectedTags := fs_ProtectedTags fs ++ pa_Tags r
|}.

Definition audit_error (p : TargetProject) (r : project_audit) : list error :=
  match pa_Err r with Some e => [ErrWrap ("project " +:+ tp_PathWithNamespace p +:+ ": ") e] | None => [] end.

Definition busy {W} (s : auditing W) : nat := length (List.filter is_some (ag_running s)).

Definition audit_step {W} (h : handler AuditE (W * registry)) (a : Auditor) (l : audit_label) (s : auditing W) : option (auditing W) :=
  match ag_canceled s with
  | Some _ => None
  | None =>
      match l with
      | Done_ =>
          match ag_todo s with
          | [] => None
          | _ :: _ =>
              let '(c, w') := h _ (OnClient (Context_ CtxErr)) (ag_world s) in
              match c with
              | None => None
              | Some e => Some {| ag_todo := ag_todo s; ag_running := ag_running s; ag_findings := ag_findings s;
                                  ag_errors := ag_errors s; ag_canceled := Some e; ag_world := w' |}
              end
          end
      | Acquire =>
          match ag_todo s with
          | [] => None
          | p :: todo =>
              if (busy s <? Z.to_nat (au_concurrency a))%nat then
                Some {| ag_todo := todo; ag_running := ag_running s ++ [Some (p, auditSingleProject a p)];
                        ag_findings := ag_findings s; ag_errors := ag_errors s; ag_canceled := None; ag_world := ag_world s |}
              else None
          end
      | Go i =>
          match ag_running s !! i with
          | Some (Some (p, t)) =>
              '(t', w') ← advance h t (ag_world s);
              Some {| ag_todo := ag_todo s; ag_running := <[i := Some (p, t')]> (ag_running s); ag_findings := ag_findings s;
                      ag_errors := ag_errors s; ag_canceled := None; ag_world := w' |}
          | _ => None
          end
      | Collect i =>
          match ag_running s !! i with
          | Some (Some (p, Ret r)) =>
              Some {| ag_todo := ag_todo s; ag_running := <[i := None]> (ag_running s); ag_findings := addFindings (ag_findings s) r;
                      ag_errors := ag_errors s ++ audit_error p r; ag_canceled := None; ag_world := ag_world s |}
          | _ => None
          end
      end
  end.

Fixpoint audit_steps {W} (h : handler AuditE (W * registry)) (a : Auditor) (ls : list audit_label) (s : auditing W)
  : option (auditing W) :=
  match ls with
  | [] => Some s
  | l :: rest => s' ← audit_step h a l s; audit_steps h a rest s'
  end.

Definition audit_start {W} (projects : list TargetProject) (w : W * registry) : auditing W := {|
  ag_todo := projects; ag_running := []; ag_findings := no_findings; ag_errors := []; ag_canceled := None; ag_world := w |}.

Definition finished {W} (s : auditing W) : bool :=
  match ag_todo s with [] => forallb (fun g => negb (is_some g)) (ag_running s) | _ => false end.

(** A complete execution: up to the early return, or to the end of [wg.Wait()]. *)
Definition auditFleet {W} (h : handler AuditE (W * registry)) (a : Auditor) (projects : list TargetProject)
    (schedule : list audit_label) (w : W * registry) : option ((error + findings * list error) * (W * registry)) :=
  s ← audit_steps h a schedule (audit_start projects w);
  match ag_canceled s with
  | Some e => Some (inl e, ag_world s)
  | None => if finished s then Some (inr (ag_findings s, ag_errors s), ag_world s) else None
  end.

(** ** The license *)

Record LicenseAttestation : Type := {
  la_GovernorVersion : string;
  la_Status : string;
  la_LicenseModel : string;
  la_Tier : string;
  la_LicensedTo : string;
  la_LicenseID : string;
  la_MaxProjects : Z;
  la_DiscoveredProjects : Z;
  la_ChangeDate : string;
  la_AttestationStatement : string
}.

Context `{GoLicense} (env : license_env) (serverTime : option Z).

Definition auditFeatures (a : Auditor) (projects : list TargetProject) : list string :=
  (if (FreeTierMaxProjects <? Z.of_nat (length projects)) || negb (au_licenseKey a =? "")%string || negb (au_licenseFile a =? "")%string
   then ["audit.run"] else [])
  ++ au_requiredFeatures a
  ++ (if negb (le_Getenv env "AWS_LAMBDA_FUNCTION_NAME" =? "")%string || negb (le_Getenv env "AWS_LAMBDA_RUNTIME_API" =? "")%string
      then ["runtime.lambda"] else []).

Definition auditEnforcement (a : Auditor) (projects : list TargetProject) : EnforcementOptions := {|
  eo_DiscoveredProjects := Z.of_nat (length projects); eo_IsDryRun := au_dryRun a; eo_GitLabBaseURL := baseURL;
  eo_TargetPaths := tp_PathWithNamespace <$> projects; eo_LicenseKey := au_licenseKey a; eo_LicenseFile := au_licenseFile a;
  eo_CRL := au_licenseCRL a; eo_CRLFile := au_licenseCRLFile a; eo_CRLURL := au_licenseCRLURL a; eo_Command := "audit";
  eo_EvaluationTime := None; eo_GitLabServerTime := serverTime; eo_RequiredFeatures := auditFeatures a projects |}.

Definition buildLicenseAttestation (a : Auditor) (status : option ValidationStatus) (projectCount : Z) : LicenseAttestation :=
  let build := le_Build env in
  let changeDate := if is_some (bi_ChangeDate build) then bi_ChangeDay build else "Unknown" in
  let attest status model tier licensedTo id max statement := {|
    la_GovernorVersion := bi_Version build; la_Status := status; la_LicenseModel := model; la_Tier := tier; la_LicensedTo := licensedTo;
    la_LicenseID := id; la_MaxProjects := max; la_DiscoveredProjects := projectCount; la_ChangeDate := changeDate;
    la_AttestationStatement := statement |} in
  if IsApacheConverted build (default (le_Now env) serverTime) then
    attest "APACHE_2_CONVERTED" "Apache-2.0" "OPEN-SOURCE" "Open Source Commons" "" 0
      ("Governed under the Apache License, Version 2.0 (converted on " +:+ changeDate
         +:+ " pursuant to BSL 1.1 Change Date terms). Unrestricted enterprise production governance permitted.")
  else
    match status ≫= vs_Claims with
    | Some claims =>
        let plan := ToUpper (GetClaimsPlan (Some claims)) in
        let max := GetClaimsMaxProjects (Some claims) in
        attest (if match status with Some st => vs_InGracePeriod st | None => false end then "OPERATING_IN_GRACE_PERIOD" else "VALID_COMMERCIAL")
          "BSL-1.1" plan (claims_CustomerName claims) (claims_ID claims) max
          ("Certified commercial governance under Business Source License 1.1. Licensed to " +:+ claims_CustomerName claims +:+ " ("
             +:+ plan +:+ " Tier, Capacity: " +:+ Itoa max +:+ " projects, License ID: " +:+ claims_ID claims
             +:+ "). Cryptographically attested via Ed25519 asymmetric signature.")
    | None =>
        if au_dryRun a then
          attest "EXEMPTED_DRY_RUN" "BSL-1.1" "SIMULATION" "Non-Production / Dry-Run Simulation" "" 0
            "Audit execution performed in non-destructive dry-run simulation mode, permitted free of charge under Business Source License 1.1 Additional Use Grant (a)."
        else
          attest "COMMUNITY_TIER" "BSL-1.1" "COMMUNITY" "Community Tier (Unlicensed)" "community" FreeTierMaxProjects
            ("Governed under Business Source License 1.1 Free Community Tier (governing " +:+ Itoa projectCount +:+ "/"
               +:+ Itoa FreeTierMaxProjects +:+ " production projects). Unrestricted for fleets up to "
               +:+ Itoa FreeTierMaxProjects +:+ " projects.")
    end.

(** ** The report *)

(** [AuditReport], without its title and its times. *)
Record AuditReport : Type := {
  rp_GovernorVersion : string;
  rp_AuthenticatedUser : option UserInfo;
  rp_ActiveModules : list string;
  rp_Summary : AuditSummary;
  rp_LicenseAttestation : option LicenseAttestation;
  rp_Findings : findings;
  rp_UserDirectory : list UserInfo
}.

(** About to be deleted, archived, or active. *)
Definition deletion_pending (p : TargetProject) : bool :=
  tp_MarkedForDeletion p || is_some (tp_MarkedForDeletionAt p)
  || match tp_Raw p with Some r => is_some (p_MarkedForDeletionAt r) | None => false end.

Definition count_projects (P : TargetProject -> bool) (projects : list TargetProject) : Z := Z.of_nat (length (List.filter P projects)).

(** Who runs the audit; an error is only logged. *)
Definition authenticated (a : Auditor) : AP (option UserInfo) :=
  r ← call CurrentUser;
  mret match r_err r, r_val r with
       | None, Some u =>
           let isBot := is_some (au_classifier a) && IsBot (au_classifier a) (ac_ID u) (ac_Username u) (ac_Name u) (ac_Email u) in
           Some {| ui_ID := ac_ID u; ui_Username := ac_Username u; ui_Name := ac_Name u; ui_Email := ac_Email u; ui_State := ac_State u;
                   ui_WebURL := ac_WebURL u; ui_IsBot := isBot; ui_AccountType := accountType isBot; ui_ProjectsCount := 0;
                   ui_ProjectPaths := [] |}
       | _, _ => None
       end.

Definition initial_summary (projects : list TargetProject) (user : option UserInfo) : AuditSummary := {|
  as_TotalProjectsScanned := Z.of_nat (length projects);
  as_ActiveProjectsCount := count_projects (fun p => negb (deletion_pending p) && negb (tp_Archived p)) projects;
  as_ArchivedProjectsCount := count_projects (fun p => negb (deletion_pending p) && tp_Archived p) projects;
  as_PendingDeletionProjectsCount := count_projects deletion_pending projects;
  as_CompliantProjectsCount := 0; as_NonCompliantProjectsCount := 0; as_TotalViolations := 0; as_CriticalSeverityCount := 0;
  as_HighSeverityCount := 0; as_MediumSeverityCount := 0; as_LowSeverityCount := 0; as_HumanUserViolations := 0;
  as_BotUserViolations := 0; as_UserAccessViolations := 0; as_ProtectedBranchViolations := 0; as_ProtectedEnvViolations := 0;
  as_PipelineRetentionViolations := 0; as_RepositoryFileViolations := 0; as_ProtectedTagViolations := 0;
  as_AuditedBy := match user with Some u => identity u | None => "" end; as_SeverityBreakdown := ∅; as_ModuleViolations := ∅
|}.

Record audit_schedule : Type := { us_discovery : list scan_label; us_audit : list audit_label }.

(** The server as discovery sees it. *)
Definition audit_client {W} (h : handler AuditE W) : handler GitLabE W := fun X e w => h X (OnClient e) w.

(** [None]: the schedule is not a complete execution. *)
Definition Auditor_Execute `{GoRegexp} `{GoQuery} {W} (h : handler AuditE W) (fuel : discoveryFuel) (a : Auditor)
    (schedule : audit_schedule) (w : W) : option ((error + AuditReport) * W) :=
  '(fleet, w) ← DiscoverFleet (audit_client h) fuel (au_targets a) (au_concurrency a) (us_discovery schedule) w;
  match fleet with
  | inl e => Some (inl (ErrWrap "fleet discovery for audit failed: " e), w)
  | inr fleet =>
      let projects := ProjectList fleet in
      match Enforce env (auditEnforcement a projects) with
      | (_, Some e) => Some (inl e, w)
      | (status, None) =>
          let '(user, w) := run h (authenticated a) w in
          let summary := initial_summary projects user in
          let report fs directory := {|
            rp_GovernorVersion := bi_Version (le_Build env); rp_AuthenticatedUser := user; rp_ActiveModules := activeModuleList a;
            rp_Summary := ComputeSummary summary fs;
            rp_LicenseAttestation := Some (buildLicenseAttestation a status (Z.of_nat (length projects))); rp_Findings := fs;
            rp_UserDirectory := directory |} in
          match projects with
          | [] => Some (inr (report no_findings []), w)
          | _ =>
              '(res, s) ← auditFleet (with_registry (au_classifier a) h) a projects (us_audit schedule) (w, ∅);
              Some (match res with
                    | inl e => inl e
                    | inr (fs, _) => inr (report (SortFindings fs) (AllUsers s.2))
                    end, s.1)
          end
      end
  end.

End Audit.

(** ** Lemmas: the audit only reads *)

Lemma audits_of_server {A} (p : AP A) : only (fun X e => of_server e = true) p -> audits p.
Proof. apply only_mono. by intros X []. Qed.

Lemma Resolve_audits id : audits (Resolve id).
Proof.
  unfold Resolve. case_match; [done|]. cbv zeta. apply only_bind; [by split|]. intros o.
  assert (forall p : AP (option UserInfo), audits p -> audits match o with
    | Some u' => if negb (ui_Username u' =? "")%string then mret o else p
    | None => p end) as Hp by (intros p Hp; by repeat case_match).
  apply Hp. apply only_bind; [by split|]. intros r. by repeat case_match.
Qed.

Lemma FormatUser_audits id : audits (FormatUser id).
Proof. unfold FormatUser. case_match; [done|]. by apply only_bind; [apply Resolve_audits|]. Qed.

Lemma summarizeGrants_audits grants parts users groups : audits (summarizeGrants grants parts users groups).
Proof.
  revert parts users groups. induction grants as [|[id|id|t] grants IH]; intros parts users groups; cbn [summarizeGrants]; [done| |apply IH|apply IH].
  apply only_bind; [apply FormatUser_audits|]. intros u. apply IH.
Qed.

Lemma summarize_audits descs : audits (summarizeBranchAccessLevels descs).
Proof. unfold summarizeBranchAccessLevels. case_match; [done|]. apply summarizeGrants_audits. Qed.
Lemma summarizeTag_audits descs : audits (summarizeTagAccessLevels descs).
Proof. unfold summarizeTagAccessLevels. case_match; [done|]. apply summarizeGrants_audits. Qed.
Lemma summarizeEnv_audits descs : audits (summarizeEnvAccessLevels descs).
Proof. unfold summarizeEnvAccessLevels. case_match; [done|]. apply summarizeGrants_audits. Qed.

Lemma each_audits {A B} (f : A -> AP B) l : (forall a, audits (f a)) -> audits (each f l).
Proof. intros Hf. induction l as [|a l IH]; cbn [each]; [done|]. apply only_bind; [apply Hf|]. intros b. by apply only_bind; [exact IH|]. Qed.

Lemma fetchPages_audits {A} (list_page : Z -> AuditE (Reply (list A))) fuel :
  (forall page, of_server (list_page page) = true) -> audits (fetchPages list_page fuel 1 []).
Proof. intros Hr. by apply audits_of_server, fetchPages_server. Qed.

Lemma registerMembers_audits path members : audits (registerMembers path members).
Proof. induction members as [|m members IH]; cbn [registerMembers]; [done|]. by apply only_bind; [split|]. Qed.

Section Reads.
Context `{GoConversion} (baseURL : string) (pages : nat) (LookupEnv : string -> option string) (LoadContent : string -> error + string).

Lemma UserAccess_audits c p : audits (UserAccess_AuditProject c baseURL pages p).
Proof.
  apply only_bind; [apply audits_of_server, lifecycleOf_server|]. intros lc. apply only_bind; [by split|]. intros d. case_match; [done|].
  apply only_bind; [by apply fetchPages_audits|]. intros [e|all]; [done|]. cbv zeta. by apply only_bind; [apply registerMembers_audits|].
Qed.

Lemma ProtectedBranches_audits p : audits (ProtectedBranches_AuditProject baseURL pages p).
Proof.
  apply only_bind; [apply audits_of_server, lifecycleOf_server|]. intros lc. apply only_bind; [by apply fetchPages_audits|].
  intros [e|all]; [done|]. apply only_bind; [|done]. apply each_audits. intros b. unfold auditBranch.
  apply only_bind; [apply summarize_audits|]. intros [[? ?] ?]. apply only_bind; [apply summarize_audits|]. intros [[? ?] ?]. by case_match.
Qed.

Lemma ProtectedTags_audits p : audits (ProtectedTags_AuditProject baseURL pages p).
Proof.
  apply only_bind; [apply audits_of_server, lifecycleOf_server|]. intros lc. apply only_bind; [by apply fetchPages_audits|].
  intros [e|all]; [done|]. apply only_bind; [|done]. apply each_audits. intros b. unfold auditTag.
  apply only_bind; [apply summarizeTag_audits|]. intros [[? ?] ?]. by case_match.
Qed.

Lemma ProtectedEnvironments_audits p : audits (ProtectedEnvironments_AuditProject baseURL pages p).
Proof.
  apply only_bind; [apply audits_of_server, lifecycleOf_server|]. intros lc. apply only_bind; [by apply fetchPages_audits|].
  intros [e|all]; [done|]. apply only_bind.
  - apply each_audits. intros b. unfold auditEnvironment. apply only_bind; [apply summarizeEnv_audits|]. intros [[? ?] ?]. by case_match.
  - intros fs. by apply only_bind; [apply audits_of_server, listEnvironments_server|].
Qed.

Lemma run_module_audits {A} active name (p : AP (error + list A)) : audits p -> audits (run_module active name p).
Proof. intros Hp. unfold run_module. destruct active; [|done]. by apply only_bind. Qed.

Lemma auditSingleProject_audits a p : audits (auditSingleProject baseURL pages LookupEnv LoadContent a p).
Proof.
  unfold auditSingleProject. cbv zeta.
  apply only_bind; [apply run_module_audits, UserAccess_audits|]. intros [us e1].
  apply only_bind; [apply run_module_audits, ProtectedBranches_audits|]. intros [bs e2].
  apply only_bind; [apply run_module_audits, ProtectedEnvironments_audits|]. intros [es e3].
  apply only_bind; [apply run_module_audits, audits_of_server, PipelineRetention_server|]. intros [rs e4].
  apply only_bind; [apply run_module_audits, audits_of_server, RepositoryFiles_server|]. intros [fs e5].
  apply only_bind; [apply run_module_audits, ProtectedTags_audits|]. by intros [ts e6].
Qed.

End Reads.

(** A read of the registered server leaves the server as it was. *)
Lemma with_registry_stable {W} c (h : handler AuditE W) X (e : AuditE X) s :
  audit_stable h -> audit_read e = true -> (with_registry c h X e s).2.1 = s.1.
Proof.
  intros Hst Hr. pose proof (Hst X e s.1 Hr) as Hw.
  destruct e; cbn [with_registry]; try (match goal with |- context [h ?Y ?e ?v] => destruct (h Y e v) end; cbn in *; done).
  - by destruct (registerUser c s.2 a projectPath).
  - done.
Qed.

Section World.
Context `{GoConversion} (baseURL : string) (pages : nat) (LookupEnv : string -> option string) (LoadContent : string -> error + string).
Context {W : Type} (h : handler AuditE W) (c : option BotClassifier) (a : Auditor) (Hst : audit_stable h).

Abbreviation step := (audit_step baseURL pages LookupEnv LoadContent (with_registry c h) a).
Abbreviation steps := (audit_steps baseURL pages LookupEnv LoadContent (with_registry c h) a).

(** Every goroutine only reads. *)
Definition running_reads (s : auditing W) : Prop :=
  Forall (fun g => match g with Some (_, t) => audits t | None => True end) (ag_running s).

Lemma step_world l s s' : running_reads s -> step l s = Some s' -> running_reads s' /\ (ag_world s').1 = (ag_world s).1.
Proof using Hst.
  intros Hr. unfold audit_step. destruct (ag_canceled s); [done|]. destruct l as [| |i|i].
  - destruct (ag_todo s); [done|]. pose proof (with_registry_stable c h _ (OnClient (Context_ CtxErr)) (ag_world s) Hst eq_refl) as Hw.
    destruct (with_registry c h _ _ _) as [[e|] w1]; [|done]. by intros [= <-].
  - destruct (ag_todo s) as [|p todo]; [done|]. case_match; [|done]. intros [= <-]. split; [|done].
    apply Forall_app. split; [done|]. constructor; [apply auditSingleProject_audits|done].
  - destruct (ag_running s !! i) as [[[p t]|]|] eqn:Hi; [|done..].
    pose proof (proj1 (Forall_lookup _ _) Hr i _ Hi) as Ht. cbn in Ht. destruct t as [r|X e k]; [done|]. destruct Ht as [He Hk].
    cbn [advance]. pose proof (with_registry_stable c h X e (ag_world s) Hst He) as Hw. destruct (with_registry c h X e _) as [x w1]. cbn.
    intros [= <-]. split; [|exact Hw]. apply Forall_insert; [done|apply Hk].
  - destruct (ag_running s !! i) as [[[p [r|]]|]|]; [|done..]. intros [= <-]. split; [|done]. by apply Forall_insert.
Qed.

Lemma steps_world ls s s' : running_reads s -> steps ls s = Some s' -> (ag_world s').1 = (ag_world s).1.
Proof using Hst.
  revert s. induction ls as [|l ls IH]; intros s Hr; cbn [audit_steps]; [by intros [= <-]|].
  destruct (step l s) as [s1|] eqn:E; [|done]. destruct (step_world _ _ _ Hr E) as [Hr1 Hw]. cbn. intros Hs.
  by rewrite (IH s1 Hr1 Hs).
Qed.

Lemma auditFleet_world projects schedule w res w' :
  auditFleet baseURL pages LookupEnv LoadContent (with_registry c h) a projects schedule w = Some (res, w') -> w'.1 = w.1.
Proof using Hst.
  unfold auditFleet. destruct (steps schedule _) as [s|] eqn:E; [|done]. cbn. apply steps_world in E; [|by constructor].
  destruct (ag_canceled s); [by intros [= _ <-]|]. case_match; [|done]. by intros [= _ <-].
Qed.

End World.

(** ** Lemmas: findings put together *)

Definition merged (rs : list project_audit) : findings := {|
  fs_UserAccess := rs ≫= (fun r => List.filter (fun f => negb (uf_IsBot f)) (pa_User r));
  fs_BotAccess := rs ≫= (fun r => List.filter uf_IsBot (pa_User r));
  fs_ProtectedBranches := rs ≫= pa_Branches;
  fs_ProtectedEnvs := rs ≫= pa_Envs;
  fs_PipelineRetention := rs ≫= pa_Retention;
  fs_RepositoryFiles := rs ≫= pa_Files;
  fs_ProtectedTags := rs ≫= pa_Tags
|}.

Lemma addFindings_merged fs rs r : same_findings fs (merged rs) -> same_findings (addFindings fs r) (merged (r :: rs)).
Proof. intros []. split; cbn; rewrite Permutation_app_comm; by apply Permutation_app_head. Qed.

#[export] Instance merged_proper : Proper ((≡ₚ) ==> same_findings) merged.
Proof. intros rs1 rs2 Hr. split; cbn; by rewrite Hr. Qed.

(** The projects whose goroutine has returned. *)
Fixpoint collected {A B} (running : list (option A)) (started : list B) : list B :=
  match running, started with
  | None :: running, p :: started => p :: collected running started
  | Some _ :: running, _ :: started => collected running started
  | _, _ => []
  end.

Lemma collected_insert {A B} (running : list (option A)) (started : list B) i g p :
  running !! i = Some (Some g) -> started !! i = Some p -> collected (<[i := None]> running) started ≡ₚ p :: collected running started.
Proof.
  revert running started. induction i as [|i IH]; intros [|g' running] [|p' started]; try done; cbn.
  - by intros [= ->] [= ->].
  - intros Hg Hp. specialize (IH running started Hg Hp). destruct g'; [done|]. rewrite IH. apply Permutation_swap.
Qed.

Lemma collected_keep {A B} (running : list (option A)) (started : list B) i g g' :
  running !! i = Some (Some g) -> collected (<[i := Some g']> running) started = collected running started.
Proof.
  revert running started. induction i as [|i IH]; intros [|g'' running] started Hg; try done; cbn in Hg.
  - injection Hg as ->. by destruct started.
  - destruct started as [|p' started]; [by destruct g''|]. change (<[S i := Some g']> (g'' :: running)) with (g'' :: <[i := Some g']> running).
    cbn [collected]. by rewrite (IH running started Hg).
Qed.

Lemma collected_start {A B} (running : list (option A)) (started : list B) g p :
  length running = length started -> collected (running ++ [Some g]) (started ++ [p]) = collected running started.
Proof.
  revert started. induction running as [|g' running IH]; intros [|p' started] Hl; try done. cbn. injection Hl as Hl. rewrite IH by done. by destruct g'.
Qed.

Lemma collected_all {A B} (running : list (option A)) (started : list B) :
  length running = length started -> forallb (fun g => negb (is_some g)) running = true -> collected running started = started.
Proof.
  revert started. induction running as [|g running IH]; intros [|p started]; try done. cbn. intros [= Hl] [Hg Hr]%andb_prop.
  destruct g; [done|]. by rewrite IH.
Qed.

(** ** Lemmas: executions *)

Section Executions.
Context `{GoConversion} (accounts : Z -> Account) (baseURL : string) (pages : nat) (LookupEnv : string -> option string).
Context (LoadContent : string -> error + string) {W : Type} (h : handler AuditE W) (a : Auditor) (w : W).

Abbreviation c := (au_classifier a).
Abbreviation step := (audit_step baseURL pages LookupEnv LoadContent (with_registry c h) a).
Abbreviation steps := (audit_steps baseURL pages LookupEnv LoadContent (with_registry c h) a).
Abbreviation single := (auditSingleProject baseURL pages LookupEnv LoadContent a).

(** What the audit of a project finds when it is alone with an empty registry. *)
Definition alone (p : TargetProject) : project_audit := (run (with_registry c h) (single p) (w, ∅)).1.

Context (Hst : audit_stable h) (Hdir : directory_of accounts h w) (Hctx : h _ (OnClient (Context_ CtxErr)) w = (None, w)).

Abbreviation follows_to r t := (follows (audit_answer accounts h w) (audit_call accounts) (eq r) t).

Lemma run_module_settles {A} (Q : error + list A -> Prop) active name p :
  settles accounts h w Q p -> settles accounts h w (fun _ => True) (run_module active name p).
Proof. intros Hp. unfold run_module. destruct active; [|by apply settles_ret]. eapply settles_bind; [exact Hp|]. intros r _. by apply settles_ret. Qed.

Lemma single_alone p : members_ok accounts pages h w p -> follows_to (alone p) (single p).
Proof using Hst Hdir.
  intros Hm. assert (settles accounts h w (fun _ => True) (single p)) as (r & _ & Hr).
  { unfold auditSingleProject. cbv zeta.
    eapply settles_bind; [by eapply run_module_settles, UserAccess_settles|]. intros [us e1] _.
    eapply settles_bind; [by eapply run_module_settles, ProtectedBranches_settles|]. intros [bs e2] _.
    eapply settles_bind; [by eapply run_module_settles, ProtectedEnvironments_settles|]. intros [es e3] _.
    eapply settles_bind; [by eapply run_module_settles, server_settles, PipelineRetention_server|]. intros [rs e4] _.
    eapply settles_bind; [by eapply run_module_settles, server_settles, RepositoryFiles_server|]. intros [fs e5] _.
    eapply settles_bind; [by eapply run_module_settles, ProtectedTags_settles|]. intros [ts e6] _. by apply settles_ret. }
  assert (r = alone p) as <-; [|done].
  apply (settles_run accounts c h w (eq r) (single p) ∅); [done|by exists r|apply registry_ok_empty].
Qed.

Context (projects : list TargetProject) (Hm : Forall (members_ok accounts pages h w) projects).

(** Where an execution can stand. *)
Record AuditInv (s : auditing W) : Prop := {
  ai_world : (ag_world s).1 = w;
  ai_registry : registry_ok accounts (ag_world s).2;
  ai_canceled : ag_canceled s = None;
  ai_running : exists started, projects = started ++ ag_todo s /\
    Forall2 (fun g p => match g with Some (q, t) => q = p /\ follows_to (alone p) t | None => True end) (ag_running s) started /\
    same_findings (ag_findings s) (merged (alone <$> collected (ag_running s) started)) /\
    ag_errors s ≡ₚ collected (ag_running s) started ≫= (fun p => audit_error p (alone p))
}.

Lemma AuditInv_start r : registry_ok accounts r -> AuditInv (audit_start projects (w, r)).
Proof. intros Hr. split; [done..|]. exists []. by split_and!. Qed.

Lemma step_Inv l s s' : AuditInv s -> step l s = Some s' -> AuditInv s'.
Proof using Hst Hdir Hctx Hm.
  intros [Hw Hreg Hc (started & Hp & Hr & Hf & He)]. unfold audit_step. rewrite Hc.
  assert (forall X (e : AuditE X) s, audit_call accounts X e -> s.1 = w /\ registry_ok accounts s.2 ->
    audit_answer accounts h w X e (with_registry c h X e s).1 /\
    ((with_registry c h X e s).2.1 = w /\ registry_ok accounts (with_registry c h X e s).2.2)) as Hlaw
    by (intros; by apply with_registry_answers).
  pose proof (Forall2_length _ _ _ Hr) as Hlen. destruct l as [| |i|i].
  - destruct (ag_todo s); [done|]. cbn [with_registry]. by rewrite Hw, Hctx.
  - destruct (ag_todo s) as [|p todo] eqn:Et; [done|]. case_match; [|done]. intros [= <-]. split; cbn; [done..|].
    exists (started ++ [p]). rewrite collected_start by done. split_and!; [by rewrite <- app_assoc|..|done|done].
    apply Forall2_app; [done|]. constructor; [|done]. split; [done|]. apply single_alone.
    rewrite Hp in Hm. apply Forall_app in Hm as [_ Hm']. by apply Forall_cons in Hm' as [? _].
  - destruct (ag_running s !! i) as [[[p t]|]|] eqn:Hi; [|done..].
    destruct (advance _ t _) as [[t' w']|] eqn:Ha; [|done]. cbn. intros [= <-].
    destruct (Forall2_lookup_l _ _ _ _ _ Hr Hi) as (p' & Hpi & -> & Ht).
    destruct (follows_advance _ _ _ _ _ _ _ _ _ Hlaw Ht (conj Hw Hreg) Ha) as [Ht' [Hw' Hreg']].
    split; cbn; [done..|]. exists started. rewrite (collected_keep _ _ _ _ _ Hi). split_and!; [done| |done|done].
    rewrite <- (list_insert_id _ _ _ Hpi). by apply Forall2_insert.
  - destruct (ag_running s !! i) as [[[p [r|]]|]|] eqn:Hi; [|done..]. intros [= <-].
    destruct (Forall2_lookup_l _ _ _ _ _ Hr Hi) as (p' & Hpi & -> & Ht). cbn in Ht. subst r.
    pose proof (collected_insert _ _ _ _ _ Hi Hpi) as Hperm. split; cbn; [done..|]. exists started. split_and!; [done| | |].
    + rewrite <- (list_insert_id _ _ _ Hpi). by apply Forall2_insert.
    + rewrite Hperm. cbn. by apply addFindings_merged.
    + rewrite Hperm, He. cbn. apply Permutation_app_comm.
Qed.

Lemma steps_Inv ls s s' : AuditInv s -> steps ls s = Some s' -> AuditInv s'.
Proof using Hst Hdir Hctx Hm.
  revert s. induction ls as [|l ls IH]; intros s Hs; cbn [audit_steps]; [by intros [= <-]|].
  destruct (step l s) as [s1|] eqn:E; [|done]. cbn. apply IH. by eapply step_Inv.
Qed.

(** A complete execution reports what the projects report alone. *)
Lemma auditFleet_run schedule r res s' :
  registry_ok accounts r ->
  auditFleet baseURL pages LookupEnv LoadContent (with_registry c h) a projects schedule (w, r) = Some (res, s') ->
  exists fs errs, res = inr (fs, errs) /\ same_findings fs (merged (alone <$> projects)) /\
    errs ≡ₚ projects ≫= (fun p => audit_error p (alone p)) /\ s'.1 = w /\ registry_ok accounts s'.2.
Proof using Hst Hdir Hctx Hm.
  intros Hreg. unfold auditFleet. destruct (steps schedule _) as [s|] eqn:E; [|done]. cbn.
  destruct (steps_Inv _ _ _ (AuditInv_start r Hreg) E) as [Hw Hr Hc (started & Hp & Hrun & Hf & He)]. rewrite Hc.
  unfold finished. destruct (ag_todo s); [|done]. destruct (forallb _ _) eqn:Eb; [|done]. intros [= <- <-].
  rewrite app_nil_r in Hp. subst started. rewrite collected_all in Hf, He by (done || by eapply Forall2_length). eauto 10.
Qed.

End Executions.

Section Progress.
Context `{GoConversion} (baseURL : string) (pages : nat) (LookupEnv : string -> option string) (LoadContent : string -> error + string).
Context {W : Type} (h : handler AuditE (W * registry)) (a : Auditor).

Abbreviation step := (audit_step baseURL pages LookupEnv LoadContent h a).
Abbreviation steps := (audit_steps baseURL pages LookupEnv LoadContent h a).

Lemma audit_steps_app ls1 ls2 s : steps (ls1 ++ ls2) s = steps ls1 s ≫= steps ls2.
Proof. revert s. induction ls1 as [|l ls1 IH]; intros s; cbn [audit_steps app]; [done|]. by destruct (step l s); cbn; [apply IH|]. Qed.

(** The loop is where it was: only goroutines have moved. *)
Record same_loop (s s' : auditing W) : Prop := {
  sl_todo : ag_todo s' = ag_todo s;
  sl_canceled : ag_canceled s' = ag_canceled s;
  sl_length : length (ag_running s') = length (ag_running s)
}.

(** A goroutine can go on to its end. *)
Lemma finish_goroutine t p i s :
  ag_canceled s = None -> ag_running s !! i = Some (Some (p, t)) ->
  exists ls s', steps ls s = Some s' /\ same_loop s s' /\ ag_running s' !! i = Some None /\
    forall j, j <> i -> ag_running s' !! j = ag_running s !! j.
Proof.
  revert s. induction t as [r|X e k IH]; intros s Hc Hi; pose proof (lookup_lt_Some _ _ _ Hi) as Hlt.
  - eexists [Collect i], _. cbn [audit_steps]. unfold audit_step. rewrite Hc, Hi. cbn. split; [done|]. split.
    { split; cbn; [done..|by rewrite length_insert]. }
    cbn. split; [by apply list_lookup_insert_eq|]. intros j Hj. by apply list_lookup_insert_ne.
  - destruct (h X e (ag_world s)) as [x w'] eqn:Ee.
    set (s1 := {| ag_todo := ag_todo s; ag_running := <[i := Some (p, k x)]> (ag_running s); ag_findings := ag_findings s;
                  ag_errors := ag_errors s; ag_canceled := None; ag_world := w' |}).
    assert (step (Go i) s = Some s1) as Hs1 by (unfold audit_step; rewrite Hc, Hi; cbn; by rewrite Ee).
    destruct (IH x s1) as (ls & s' & Hls & [H1 H2 H3] & Ha & Hj); [done|by apply list_lookup_insert_eq|].
    exists (Go i :: ls), s'. split_and!; [by cbn [audit_steps]; rewrite Hs1| |done|].
    + split; [done|by rewrite Hc|]. by rewrite H3; cbn; rewrite length_insert.
    + intros j Hij. rewrite (Hj j Hij). cbn. by rewrite list_lookup_insert_ne.
Qed.

Lemma finish_goroutines n s :
  ag_canceled s = None -> (n <= length (ag_running s))%nat ->
  exists ls s', steps ls s = Some s' /\ same_loop s s' /\ forall j, (j < n)%nat -> ag_running s' !! j = Some None.
Proof.
  intros Hc. induction n as [|n IH]; intros Hn; [exists [], s; split_and!; [done|done|intros; lia]|].
  destruct IH as (ls & s1 & Hls & [H1 H2 H3] & Hr); [lia|].
  destruct (lookup_lt_is_Some_2 (ag_running s1) n) as [[[p t]|] Ht]; [lia| |].
  - destruct (finish_goroutine t p n s1) as (ls' & s2 & Hls' & [H4 H5 H6] & Ha & Hj); [congruence|done|].
    exists (ls ++ ls'), s2. split_and!; [by rewrite audit_steps_app, Hls|split; congruence|].
    intros j Hlt. destruct (decide (j = n)) as [->|Hne]; [done|]. rewrite (Hj j Hne). apply Hr. lia.
  - exists ls, s1. split_and!; [done..|]. intros j Hlt. destruct (decide (j = n)) as [->|Hne]; [done|]. apply Hr. lia.
Qed.

Definition returned_all (s : auditing W) : Prop := Forall (fun g => g = None) (ag_running s).

Lemma finish_running s : ag_canceled s = None -> exists ls s', steps ls s = Some s' /\ same_loop s s' /\ returned_all s'.
Proof.
  intros Hc. destruct (finish_goroutines (length (ag_running s)) s Hc) as (ls & s' & Hls & Hl & Hr); [done|]. exists ls, s'.
  split_and!; [done..|]. apply Forall_lookup. intros j g Hg. pose proof (lookup_lt_Some _ _ _ Hg) as Hlt.
  rewrite (sl_length _ _ Hl) in Hlt. rewrite (Hr j Hlt) in Hg. congruence.
Qed.

Lemma returned_busy s : returned_all s -> busy s = 0%nat /\ forallb (fun g => negb (is_some g)) (ag_running s) = true.
Proof. unfold returned_all, busy. induction 1 as [|g l -> _ IH]; [done|]. exact IH. Qed.

(** From wherever it stands, an audit can go on to its end. *)
Lemma audit_completes s :
  0 < au_concurrency a -> exists ls s', steps ls s = Some s' /\ (is_Some (ag_canceled s') \/ ag_canceled s' = None /\ finished s' = true).
Proof.
  intros Hc. remember (ag_todo s) as todo eqn:Et. revert s Et. induction todo as [|p todo IH]; intros s Et;
    (destruct (ag_canceled s) as [e|] eqn:Ec; [exists [], s; split; [done|left; by rewrite Ec]|]);
    destruct (finish_running s Ec) as (ls & s1 & Hls & [H1 H2 _] & Hr); destruct (returned_busy _ Hr) as [Hb Hn].
  - exists ls, s1. split; [done|]. right. split; [congruence|]. unfold finished. by rewrite H1, <- Et.
  - edestruct (IH {| ag_todo := todo; ag_running := ag_running s1 ++ [Some (p, auditSingleProject baseURL pages LookupEnv LoadContent a p)];
                     ag_findings := ag_findings s1; ag_errors := ag_errors s1; ag_canceled := None; ag_world := ag_world s1 |})
      as (ls' & s' & Hls' & Hend); [done|]. exists (ls ++ Acquire :: ls'), s'. split; [|done].
    rewrite audit_steps_app, Hls. cbn [mbind option_bind audit_steps]. unfold audit_step at 1. rewrite H2, Ec, H1, <- Et, Hb.
    rewrite (proj2 (Nat.ltb_lt _ _)) by lia. exact Hls'.
Qed.

End Progress.

(** The audit cannot be stuck: wherever an execution of the loop and its
    goroutines stands, it can go on to its end. *)
Theorem auditFleet_progress `{GoConversion} baseURL pages LookupEnv LoadContent {W} (h : handler AuditE (W * registry)) a projects ls w s :
  0 < au_concurrency a -> audit_steps baseURL pages LookupEnv LoadContent h a ls (audit_start projects w) = Some s ->
  exists ls' res, auditFleet baseURL pages LookupEnv LoadContent h a projects (ls ++ ls') w = Some res.
Proof.
  intros Hc Hls. destruct (audit_completes baseURL pages LookupEnv LoadContent h a s Hc) as (ls' & s' & Hls' & Hend). exists ls'.
  unfold auditFleet. rewrite audit_steps_app, Hls. cbn [mbind option_bind]. rewrite Hls'. cbn [mbind option_bind].
  destruct Hend as [[e ->]|[-> ->]]; by eexists.
Qed.

(** ** Properties *)

Lemma authenticated_audits a : audits (authenticated a).
Proof. by split. Qed.

Lemma run_audits {W A} (h : handler AuditE W) (p : AP A) w : audit_stable h -> audits p -> (run h p w).2 = w.
Proof.
  intros Hst Hp. apply (run_only h (fun X e => audit_read e = true) (fun w' => w' = w)); [|done|done]. intros X e w1 He ->. by apply Hst.
Qed.

Section Run.
Context `{GoConversion} `{GoLicense} `{GoRegexp} `{GoQuery} (baseURL : string) (pages : nat) (LookupEnv : string -> option string).
Context (LoadContent : string -> error + string) (env : license_env) (serverTime : option Z).

Abbreviation execute := (Auditor_Execute baseURL pages LookupEnv LoadContent env serverTime).

Lemma Auditor_Execute_world {W} (h : handler AuditE W) fuel a schedule w r w' :
  audit_stable h -> execute h fuel a schedule w = Some (r, w') -> w' = w.
Proof.
  intros Hst. unfold Auditor_Execute. destruct (DiscoverFleet _ _ _ _ _ _) as [[res w1]|] eqn:Hd; [|done].
  cbn [mbind option_bind]. apply DiscoverFleet_world in Hd as ->; [|intros X e w2 He; by apply (Hst X (OnClient e))].
  destruct res as [e|fleet]; [by intros [= _ <-]|]. destruct (Enforce _ _) as [st [e|]]; [by intros [= _ <-]|].
  pose proof (run_audits h _ w Hst (authenticated_audits a)) as Hu. destruct (run h (authenticated a) w) as [user w1]. cbn in Hu. subst w1.
  destruct (ProjectList fleet) as [|p ps]; [by intros [= _ <-]|]. destruct (auditFleet _ _ _ _ _ _ _ _ _) as [[res s]|] eqn:Ha; [|done].
  cbn [mbind option_bind]. apply auditFleet_world in Ha; [|done]. intros [= _ <-]. exact Ha.
Qed.

(** C20. An audit changes nothing: whatever GitLab answers, and in whatever order
    the projects are audited, the server is as it was. *)
Theorem Audit_changes_nothing {W} (h : handler AuditE W) fuel a schedule w r w' :
  audit_stable h -> execute h fuel a schedule w = Some (r, w') -> w' = w.
Proof. apply Auditor_Execute_world. Qed.

(** C19. The report of an audit, whatever the interleaving: when the license
    refuses the fleet there is none; else its findings are those of auditing each
    project of the fleet alone, sorted, its summary counts exactly them, and its
    attestation is of the license that was found.  This is so on a server that
    reading does not disturb and that shows every account alike wherever it
    appears, as long as the context is not done. *)
Theorem Audit_exact accounts {W} (h : handler AuditE W) fuel a schedule w fleet w1 r w' :
  audit_stable h -> directory_of accounts h w -> h _ (OnClient (Context_ CtxErr)) w = (None, w) ->
  DiscoverFleet (audit_client h) fuel (au_targets a) (au_concurrency a) (us_discovery schedule) w = Some (inr fleet, w1) ->
  Forall (members_ok accounts pages h w) (ProjectList fleet) ->
  execute h fuel a schedule w = Some (r, w') ->
  let projects := ProjectList fleet in
  let found := merged (alone baseURL pages LookupEnv LoadContent h a w <$> projects) in
  let opts := auditEnforcement baseURL env serverTime a projects in
  match (Enforce env opts).2 with
  | Some e => r = inl e
  | None => exists rep, r = inr rep /\ same_findings (rp_Findings rep) found /\
      rp_Summary rep = ComputeSummary (initial_summary projects (run h (authenticated a) w).1) found /\
      rp_LicenseAttestation rep =
        Some (buildLicenseAttestation env serverTime a (Enforce env opts).1 (Z.of_nat (length projects)))
  end.
Proof.
  intros Hst Hdir Hctx Hd Hm He projects found opts. unfold Auditor_Execute in He. rewrite Hd in He. cbn [mbind option_bind] in He.
  apply DiscoverFleet_world in Hd as ->; [|intros X e w2 He'; by apply (Hst X (OnClient e))]. fold projects in He. fold opts in He.
  destruct (Enforce env opts) as [st [e|]]; [by injection He as <- _|]. cbn [fst snd].
  pose proof (run_audits h _ w Hst (authenticated_audits a)) as Hu. destruct (run h (authenticated a) w) as [user w1]. cbn in Hu. subst w1.
  destruct (decide (projects = [])) as [Hnil|Hne].
  - rewrite Hnil in He. injection He as <- _. subst found. rewrite Hnil. by eexists.
  - destruct (auditFleet baseURL pages LookupEnv LoadContent (with_registry (au_classifier a) h) a projects (us_audit schedule) (w, ∅))
      as [[res s]|] eqn:Ha; [|by destruct projects].
    destruct (auditFleet_run accounts _ _ _ _ _ _ _ Hst Hdir Hctx projects Hm _ ∅ _ _ (registry_ok_empty accounts) Ha)
      as (fs & errs & -> & Hf & _). destruct projects as [|p ps]; [done|]. injection He as <- _. eexists. split; [done|]. cbn [rp_Findings rp_Summary rp_LicenseAttestation].
    assert (same_findings (SortFindings fs) found) as Hs by (etrans; [apply SortFindings_same|exact Hf]).
    split_and!; [done| |done]. by rewrite Hs.
Qed.

End Run.

(** ** Witnesses: a fleet of two projects *)

#[local] Existing Instance demo_literal.
#[local] Existing Instance demo_fleet_query.
#[local] Existing Instance demo_license.
#[local] Existing Instance AuditModules.demo_conversion.

(** The server of [AuditModules] with two projects; [refuses] is whether the
    branches are hidden from the token of the audit. *)
Definition demo_fleet_client (refuses : bool) X (e : GitLabE X) : X :=
  match e in GitLabE X return X with
  | Projects e =>
      match e in ProjectsE X return X with
      | ListProjects _ => demo_listing [demo_playground; demo_project]
      | e => demo_audit_client _ (Projects e)
      end
  | ProtectedBranches e =>
      match e in ProtectedBranchesE X return X with
      | ListProtectedBranches pid page =>
          if refuses then reply_err [] 403 (ErrNew "403 Forbidden")
          else demo_audit_client _ (ProtectedBranches (ListProtectedBranches pid page))
      | e => demo_audit_client _ (ProtectedBranches e)
      end
  | e => demo_audit_client _ e
  end.

Definition demo_fleet_audit (refuses : bool) : handler AuditE nat := fun X e n =>
  (match e in AuditE X return X with
   | OnClient e => demo_fleet_client refuses _ e
   | e => (demo_audit_server _ e tt).1
   end, n).

Lemma demo_fleet_audit_stable refuses : audit_stable (demo_fleet_audit refuses).
Proof. done. Qed.

Definition demo_auditor (modules : list string) : Auditor :=
  match NewAuditor true [WithModules modules; WithConcurrency 2] with
  | inr a => a
  | inl _ => Build_Auditor (Build_TargetSelectors None None) None 10 ∅ None "" "" "" "" "" false []
  end.

(** Two goroutines that take turns for [n] calls each. *)
Definition demo_audit_labels (n : nat) : list audit_label :=
  [Acquire; Go 0; Acquire] ++ [Go 1%nat] ++ flat_map (fun _ => [Go 1%nat; Go 0%nat]) (seq 0 (n - 1)) ++ [Collect 1; Collect 0].

Definition demo_audit_run (refuses : bool) (modules : list string) (n : nat) :=
  Auditor_Execute "https://gitlab.example.com" 1 (fun _ => None) (fun _ => inr "") demo_license_env None
    (demo_fleet_audit refuses) demo_fleet_fuel (demo_auditor modules)
    {| us_discovery := []; us_audit := demo_audit_labels n |} 5%nat.


Lemma demo_fleet_audit_directory refuses w : directory_of demo_account (demo_fleet_audit refuses) w.
Proof. by split. Qed.

(** An audit that may not read the branches finds nothing and reports two
    compliant projects: the errors of the modules are collected and dropped. *)
Example Audit_drops_failures :
  exists rep w, demo_audit_run true ["protected_branches"] 1 = Some (inr rep, w) /\
    rp_Findings rep = no_findings /\ as_CompliantProjectsCount (rp_Summary rep) = 2 /\ as_TotalViolations (rp_Summary rep) = 0.
Proof. do 2 eexists. split; [by vm_compute|]. by vm_compute. Qed.

Lemma Audit_changes_nothing_witness : exists rep, demo_audit_run false [] 11 = Some (inr rep, 5%nat).
Proof.
  assert (exists rep w, demo_audit_run false [] 11 = Some (inr rep, w)) as (rep & w & Hr).
  { do 2 eexists. vm_compute. reflexivity. }
  exists rep. rewrite Hr. unfold demo_audit_run in Hr. f_equal. f_equal.
  exact (Audit_changes_nothing _ _ _ _ _ _ _ _ _ _ _ _ _ (demo_fleet_audit_stable false) Hr).
Defined.

Definition demo_audited : TargetFleet :=
  match DiscoverFleet (audit_client (demo_fleet_audit false)) demo_fleet_fuel (au_targets (demo_auditor [])) 2 [] 5%nat with
  | Some (inr fleet, _) => fleet
  | _ => Build_TargetFleet ∅ ∅ 0 0 0 0
  end.

Lemma demo_audited_found :
  DiscoverFleet (audit_client (demo_fleet_audit false)) demo_fleet_fuel (au_targets (demo_auditor [])) (au_concurrency (demo_auditor [])) []
    5%nat = Some (inr demo_audited, 5%nat).
Proof. by vm_compute. Qed.

Lemma demo_fleet_members_ok w p : members_ok demo_account 1 (demo_fleet_audit false) w p.
Proof.
  intros all Ha. assert (members_of 1 (demo_fleet_audit false) w p = inr demo_members) as Hm by reflexivity.
  rewrite Hm in Ha. injection Ha as <-. by repeat constructor.
Qed.

Lemma Audit_exact_witness :
  exists rep, demo_audit_run false [] 11 = Some (inr rep, 5%nat) /\
    as_TotalViolations (rp_Summary rep) = 8 /\ as_NonCompliantProjectsCount (rp_Summary rep) = 2.
Proof.
  assert (exists rep, demo_audit_run false [] 11 = Some (inr rep, 5%nat)) as (rep & Hr).
  { eexists. vm_compute. reflexivity. }
  exists rep. split; [exact Hr|]. unfold demo_audit_run in Hr.
  pose proof (Audit_exact "https://gitlab.example.com" 1 (fun _ => None) (fun _ => inr "") demo_license_env None demo_account
    (demo_fleet_audit false) demo_fleet_fuel (demo_auditor []) {| us_discovery := []; us_audit := demo_audit_labels 11 |}
    5%nat demo_audited 5%nat (inr rep) 5%nat (demo_fleet_audit_stable false) (demo_fleet_audit_directory false 5%nat) eq_refl
    demo_audited_found (Forall_true _ _ (demo_fleet_members_ok 5%nat)) Hr) as H.
  assert (match (Enforce demo_license_env (auditEnforcement "https://gitlab.example.com" demo_license_env None (demo_auditor [])
    (ProjectList demo_audited))).2 with Some _ => false | None => true end = true) as Hn by (vm_compute; reflexivity).
  cbv zeta in H. destruct (_.2) as [e|]; [discriminate Hn|]. destruct H as (rep' & [= <-] & _ & Hs & _). rewrite Hs.
  vm_compute. split; reflexivity.
Defined.
