(* ===== verification/Csv.v ===== *)
(** * Package encoding/csv, as the reports use it

    [csv_write] is [csv.Writer] with its defaults, [csv_read] a reader of RFC
    4180: what is written is read back, whatever the fields hold. *)

From S2P Require Import Prelude GoLib.
Local Open Scope string_scope.
Local Open Scope list_scope.

Definition DQ : ascii := "034"%char.
Definition COMMA : ascii := ","%char.
Definition EOL : ascii := "010"%char.

(** ** The writer *)

(** The white space of Unicode beyond ASCII, in UTF-8. *)
Definition wide_spaces : list string :=
  (fun l => String.string_of_list_ascii (ascii_of_N <$> l)) <$>
    ([[194; 133]; [194; 160]; [225; 154; 128]; [226; 128; 168]; [226; 128; 169]; [226; 128; 175]; [226; 129; 159]; [227; 128; 128]]%N
     ++ ((fun n => [226; 128; 128 + N.of_nat n]%N) <$> seq 0 11)).

(** [unicode.IsSpace] of the first rune. *)
Definition starts_with_space (s : string) : bool :=
  match s with "" => false | String c _ => is_space c || existsb (HasPrefix s) wide_spaces end.

Definition special (c : ascii) : bool := (c =? DQ)%char || (c =? COMMA)%char || (c =? EOL)%char || (c =? "013")%char.

Definition fieldNeedsQuotes (field : string) : bool :=
  if (field =? "")%string then false
  else (field =? "\.")%string || negb (string_all (fun c => negb (special c)) field) || starts_with_space field.

(** A quote is doubled. *)
Fixpoint escape_quotes (s : string) : string :=
  match s with
  | "" => ""
  | String c s => if (c =? DQ)%char then String DQ (String DQ (escape_quotes s)) else String c (escape_quotes s)
  end.

Definition csv_field (field : string) : string :=
  if fieldNeedsQuotes field then String DQ (escape_quotes field +:+ String DQ "") else field.

Definition csv_record (fields : list string) : string := Join (csv_field <$> fields) "," +:+ String EOL "".

Definition csv_write (records : list (list string)) : string := String.concat "" (csv_record <$> records).

(** ** The reader *)

Variant csv_mode : Type := AtStart | Plain | Quoted | Closed.

(** [field] is the field under way, [row] the fields before it. *)
Fixpoint csv_go (m : csv_mode) (field : string) (row : list string) (s : string) : option (list (list string)) :=
  let finish s' c :=
    if (c =? COMMA)%char then csv_go AtStart "" (row ++ [field]) s'
    else rows ← csv_go AtStart "" [] s'; Some ((row ++ [field]) :: rows) in
  match s with
  | "" =>
      match m, row with
      | Quoted, _ => None
      | AtStart, [] => Some []
      | _, _ => Some [row ++ [field]]
      end
  | String c s' =>
      match m with
      | Quoted => if (c =? DQ)%char then csv_go Closed field row s' else csv_go Quoted (field +:+ String c "") row s'
      | Closed =>
          if (c =? DQ)%char then csv_go Quoted (field +:+ String c "") row s'
          else if (c =? COMMA)%char || (c =? EOL)%char then finish s' c
          else None
      | AtStart =>
          if (c =? DQ)%char then csv_go Quoted "" row s'
          else if (c =? COMMA)%char || (c =? EOL)%char then finish s' c
          else csv_go Plain (String c "") row s'
      | Plain =>
          if (c =? DQ)%char then None
          else if (c =? COMMA)%char || (c =? EOL)%char then finish s' c
          else csv_go Plain (field +:+ String c "") row s'
      end
  end.

Definition csv_read (s : string) : option (list (list string)) := csv_go AtStart "" [] s.

(** ** What is written is read back *)

Lemma string_app_snoc (a : string) c b : (a +:+ String c "") +:+ b = a +:+ String c b.
Proof. by rewrite string_app_assoc. Qed.

(** What may follow a field. *)
Definition csv_end (s : string) : Prop := exists c s', s = String c s' /\ (c = COMMA \/ c = EOL).

(** The reader at the end of a field, where there is nothing but the delimiter. *)
Definition csv_finish (field : string) (row : list string) (s : string) : option (list (list string)) :=
  match s with
  | "" => None
  | String c s' =>
      if (c =? COMMA)%char then csv_go AtStart "" (row ++ [field]) s'
      else rows ← csv_go AtStart "" [] s'; Some ((row ++ [field]) :: rows)
  end.

Lemma csv_go_finish m field row s :
  csv_end s -> m = Plain \/ m = Closed -> csv_go m field row s = csv_finish field row s.
Proof. intros (c & s' & -> & [->| ->]) [->| ->]; reflexivity. Qed.

Lemma special_no c : negb (special c) = true -> (c =? DQ)%char = false /\ ((c =? COMMA)%char || (c =? EOL)%char) = false.
Proof. unfold special. rewrite negb_true_iff, !orb_false_iff. naive_solver. Qed.

Lemma csv_go_plain s : string_all (fun c => negb (special c)) s = true ->
  forall field row rest, csv_end rest -> csv_go Plain field row (s +:+ rest) = csv_finish (field +:+ s) row rest.
Proof.
  induction s as [|c s IH]; intros Hs field row rest He.
  - rewrite string_app_nil_r. apply csv_go_finish; auto.
  - rewrite string_all_cons in Hs. apply andb_prop in Hs as [Hc Hs]. apply special_no in Hc as [Hd Hn]. simpl. rewrite Hd, Hn.
    rewrite IH by done. by rewrite string_app_snoc.
Qed.

Lemma csv_go_quoted s field row rest :
  csv_end rest -> csv_go Quoted field row (escape_quotes s +:+ String DQ rest) = csv_finish (field +:+ s) row rest.
Proof.
  intros He. revert field. induction s as [|c s IH]; intros field.
  - rewrite string_app_nil_r. apply (csv_go_finish Closed); auto.
  - cbn [escape_quotes]. destruct (Ascii.eqb_spec c DQ) as [->|Hne]; simpl.
    + rewrite IH. by rewrite string_app_snoc.
    + apply Ascii.eqb_neq in Hne. rewrite Hne, IH. by rewrite string_app_snoc.
Qed.

Lemma csv_go_field f row rest : csv_end rest -> csv_go AtStart "" row (csv_field f +:+ rest) = csv_finish f row rest.
Proof.
  intros He. unfold csv_field. destruct (fieldNeedsQuotes f) eqn:Hq.
  - change (csv_go Quoted "" row ((escape_quotes f +:+ String DQ "") +:+ rest) = csv_finish f row rest).
    rewrite string_app_snoc. by apply csv_go_quoted.
  - destruct f as [|c f]; [destruct He as (c & s' & -> & [->| ->]); reflexivity|].
    unfold fieldNeedsQuotes in Hq. cbn [String.eqb] in Hq. apply orb_false_iff in Hq as [Hq _].
    apply orb_false_iff in Hq as [_ Hs]. apply negb_false_iff in Hs.
    rewrite string_all_cons in Hs. apply andb_prop in Hs as [Hc Hs]. apply special_no in Hc as [Hd Hn]. simpl. rewrite Hd, Hn.
    by apply (csv_go_plain f).
Qed.

Lemma csv_go_record fields : forall row rest,
  fields <> [] ->
  csv_go AtStart "" row (csv_record fields +:+ rest) = (rows ← csv_go AtStart "" [] rest; Some ((row ++ fields) :: rows)).
Proof.
  unfold csv_record. induction fields as [|f fields IH]; intros row rest Hne; [done|]. rewrite string_app_snoc.
  destruct fields as [|g fields].
  - cbn [fmap list_fmap Join]. rewrite csv_go_field by (do 2 eexists; split; [done|by right]). reflexivity.
  - specialize (IH (row ++ [f]) rest). rewrite string_app_snoc in IH.
    change (Join (csv_field <$> f :: g :: fields) ",") with (csv_field f +:+ String COMMA (Join (csv_field <$> g :: fields) ",")).
    rewrite string_app_assoc. rewrite csv_go_field by (do 2 eexists; split; [done|by left]).
    rewrite string_app_cons. cbn [csv_finish Ascii.eqb]. change ((COMMA =? COMMA)%char) with true. cbv iota.
    rewrite IH by done. by rewrite <- (assoc_L (++)).
Qed.

Lemma csv_roundtrip records : Forall (fun r => r <> []) records -> csv_read (csv_write records) = Some records.
Proof.
  unfold csv_read, csv_write. induction 1 as [|r records Hr _ IH]; [done|].
  assert (String.concat "" (csv_record <$> r :: records) = csv_record r +:+ String.concat "" (csv_record <$> records)) as ->.
  { destruct records; [by rewrite string_app_nil_r|done]. }
  rewrite csv_go_record by done. rewrite IH. done.
Qed.
