(* ===== verification/Report.v ===== *)
(** * The reports of a run: internal/report

    [FromExecutionResult] makes the data of a report from the result of a run,
    [AddTarget] target by target; the renderers turn it into CSV, Markdown, a
    summary or a table.  The JSON reporter hands the data to encoding/json and
    is left out.  [Report_totals_exact] shows that the totals of a report of a
    run are those of the targets it lists, [Report_csv_exact] that a reader of
    the CSV gets exactly the rows that are to be reported ([reported]), each
    once and field by field. *)

From S2P Require Import Prelude GoLib Csv Config GitLabAPI Server Transport Governance ProjectFilter Pagination Discovery License Metrics Engine.
Local Open Scope string_scope.
Local Open Scope list_scope.
Local Open Scope Z_scope.

(** ** Formats *)

Inductive Format : Type := FormatTable | FormatJSON | FormatCSV | FormatMarkdown | FormatSummary.

#[export] Instance Format_eq_dec : EqDecision Format.
Proof. solve_decision. Defined.

Definition ParseFormat (s : string) : error + Format :=
  let f := ToLower (TrimSpace s) in
  let among := existsb (String.eqb f) in
  if among ["table"; "tbl"; "ascii"] then inr FormatTable
  else if among ["json"; "js"] then inr FormatJSON
  else if among ["csv"] then inr FormatCSV
  else if among ["markdown"; "md"; "gfm"] then inr FormatMarkdown
  else if among ["summary"; "text"; "short"; "txt"] then inr FormatSummary
  else inl (ErrNew ("unsupported report format " +:+ quote s +:+ " (valid: table, json, csv, markdown, summary)")).

Record Options : Type := { o_Color : bool; o_IndentJSON : bool; o_IncludeDiffs : bool; o_Title : string }.

Variant ReportOption : Type :=
| WithColor (enabled : bool)
| WithIndent (indent : bool)
| WithDiffs (include : bool)
| WithTitle (title : string).

Definition reportTitle : string := "GitLab Fleet Governor Execution Report".

Definition DefaultOptions (no_color : string) : Options :=
  {| o_Color := (no_color =? "")%string; o_IndentJSON := true; o_IncludeDiffs := true; o_Title := reportTitle |}.

Definition apply_option (o : Options) (opt : ReportOption) : Options :=
  match opt with
  | WithColor b => {| o_Color := b; o_IndentJSON := o_IndentJSON o; o_IncludeDiffs := o_IncludeDiffs o; o_Title := o_Title o |}
  | WithIndent b => {| o_Color := o_Color o; o_IndentJSON := b; o_IncludeDiffs := o_IncludeDiffs o; o_Title := o_Title o |}
  | WithDiffs b => {| o_Color := o_Color o; o_IndentJSON := o_IndentJSON o; o_IncludeDiffs := b; o_Title := o_Title o |}
  | WithTitle t => {| o_Color := o_Color o; o_IndentJSON := o_IndentJSON o; o_IncludeDiffs := o_IncludeDiffs o; o_Title := t |}
  end.

(** A reporter: its format and its options. *)
Definition NewReporter (has_out : bool) (no_color : string) (format : Format) (opts : list ReportOption) : error + Format * Options :=
  if has_out then inr (format, foldl apply_option (DefaultOptions no_color) opts)
  else inl (ErrNew "output writer cannot be nil").

(** ** The data of a report *)

Record OpMetric : Type := { om_Name : string; om_Changed : Z; om_Unchanged : Z; om_Failed : Z; om_Skipped : Z }.

Record FieldDiffReport : Type := { rf_Field : string; rf_OldValue : value; rf_NewValue : value; rf_Action : string }.

Record DiffReport : Type := { df_Resource : string; df_Action : string; df_Details : string; df_Fields : list FieldDiffReport }.

(** Durations and times are in nanoseconds. *)
Record OperationReport : Type := {
  ro_Name : string;
  ro_ResourceType : string;
  ro_ResourceID : Z;
  ro_ResourcePath : string;
  ro_Action : string;
  ro_Status : string;
  ro_HasChanges : bool;
  ro_Diffs : list DiffReport;
  ro_Error : string;
  ro_Duration : Z
}.

Record TargetReport : Type := {
  rt_ID : Z;
  rt_Path : string;
  rt_ResourceType : string;
  rt_Status : string;
  rt_HasDrift : bool;
  rt_Duration : Z;
  rt_Error : string;
  rt_Operations : list OperationReport
}.

Record ReportData : Type := {
  rd_Title : string;
  rd_Version : string;
  rd_StartedAt : Z;
  rd_CompletedAt : Z;
  rd_Duration : Z;
  rd_DryRun : bool;
  rd_TotalScanned : Z;
  rd_TotalTargeted : Z;
  rd_TotalChanged : Z;
  rd_TotalUnchanged : Z;
  rd_TotalFailed : Z;
  rd_OperationMetrics : gmap string OpMetric;
  rd_Targets : list TargetReport
}.

Definition NewReportData (version : string) (dryRun : bool) (startedAt completedAt : Z) : ReportData := {|
  rd_Title := reportTitle; rd_Version := version; rd_StartedAt := startedAt; rd_CompletedAt := completedAt;
  rd_Duration := Z.max 0 (time_Sub completedAt startedAt); rd_DryRun := dryRun; rd_TotalScanned := 0; rd_TotalTargeted := 0;
  rd_TotalChanged := 0; rd_TotalUnchanged := 0; rd_TotalFailed := 0; rd_OperationMetrics := ∅; rd_Targets := [] |}.

(** The counters of an operation after one more of its results. *)
Definition add_operation (m : OpMetric) (op : OperationReport) : OpMetric :=
  let set changed unchanged failed skipped :=
    {| om_Name := om_Name m; om_Changed := om_Changed m + b2z changed; om_Unchanged := om_Unchanged m + b2z unchanged;
       om_Failed := om_Failed m + b2z failed; om_Skipped := om_Skipped m + b2z skipped |} in
  if (ro_Status op =? "FAILED")%string then set false false true false
  else if ((ro_Action op =? "SKIPPED") || (ro_Status op =? "SKIPPED"))%string then set false false false true
  else if (ro_HasChanges op || negb (ro_Action op =? "NOOP") && negb (ro_Action op =? "SKIPPED"))%string then set true false false false
  else set false true false false.

Definition add_metric (ms : gmap string OpMetric) (op : OperationReport) : gmap string OpMetric :=
  let metric := default {| om_Name := ro_Name op; om_Changed := 0; om_Unchanged := 0; om_Failed := 0; om_Skipped := 0 |}
                  (ms !! ro_Name op) in
  <[ro_Name op := add_operation metric op]> ms.

Definition target_status (t : TargetReport) : bool * bool * bool :=
  if (rt_Status t =? "FAILED")%string then (false, false, true)
  else if (rt_Status t =? "CHANGED")%string then (true, false, false)
  else if ((rt_Status t =? "UNCHANGED") || (rt_Status t =? "SUCCESS"))%string then (rt_HasDrift t, negb (rt_HasDrift t), false)
  else (false, true, false).

Definition AddTarget (r : ReportData) (t : TargetReport) : ReportData :=
  let '(changed, unchanged, failed) := target_status t in {|
  rd_Title := rd_Title r; rd_Version := rd_Version r; rd_StartedAt := rd_StartedAt r; rd_CompletedAt := rd_CompletedAt r;
  rd_Duration := rd_Duration r; rd_DryRun := rd_DryRun r; rd_TotalScanned := rd_TotalScanned r;
  rd_TotalTargeted := rd_TotalTargeted r + 1; rd_TotalChanged := rd_TotalChanged r + b2z changed;
  rd_TotalUnchanged := rd_TotalUnchanged r + b2z unchanged; rd_TotalFailed := rd_TotalFailed r + b2z failed;
  rd_OperationMetrics := foldl add_metric (rd_OperationMetrics r) (rt_Operations t); rd_Targets := rd_Targets r ++ [t] |}.

Definition report_HasDrift (r : ReportData) : bool := 0 <? rd_TotalChanged r.
Definition report_HasErrors (r : ReportData) : bool := 0 <? rd_TotalFailed r.

(** ** From the result of a run *)

Definition action_text (a : ActionType) : string :=
  match a with
  | ActionUnset => "" | ActionCreate => "CREATE" | ActionUpdate => "UPDATE" | ActionDelete => "DELETE" | ActionNoop => "NOOP"
  | ActionAudit => "AUDIT" | ActionSkipped => "SKIPPED"
  end.

Definition status_text (s : StatusType) : string :=
  match s with StatusSuccess => "SUCCESS" | StatusFailed => "FAILED" | StatusSkipped => "SKIPPED" | StatusNoop => "NOOP" end.

Definition resource_text (r : ResourceType) : string :=
  match r with ResourceTypeProject => "project" | ResourceTypeGroup => "group" end.

Definition error_string (e : option error) : string := match e with Some e => error_text e | None => "" end.

Definition field_report (f : FieldDiff) : FieldDiffReport :=
  {| rf_Field := fd_Field f; rf_OldValue := fd_OldValue f; rf_NewValue := fd_NewValue f; rf_Action := action_text (fd_Action f) |}.

Definition diff_report (d : Diff) : DiffReport :=
  {| df_Resource := d_Resource d; df_Action := action_text (d_Action d); df_Details := d_Details d;
     df_Fields := field_report <$> d_Fields d |}.

Definition operation_report (duration : Z) (op : OperationResult) : OperationReport := {|
  ro_Name := or_OperationName op; ro_ResourceType := resource_text (or_ResourceType op); ro_ResourceID := or_ResourceID op;
  ro_ResourcePath := or_ResourcePath op; ro_Action := action_text (or_Action op); ro_Status := status_text (or_Status op);
  ro_HasChanges := or_HasChanges op; ro_Diffs := diff_report <$> or_Diffs op; ro_Error := error_string (or_Error op);
  ro_Duration := duration |}.

Definition status_of (tr : TargetResult) : string :=
  if negb (tr_Success tr) || is_some (tr_Error tr) then "FAILED" else if tr_HasChanges tr then "CHANGED" else "UNCHANGED".

(** The times that a result carries and that [Metrics] leaves out: when the run
    began and ended, and how long the i-th target and its j-th operation took. *)
Record result_times : Type := {
  ti_Now : Z;
  ti_StartedAt : Z;
  ti_CompletedAt : Z;
  ti_Target : nat -> Z;
  ti_Operation : nat -> nat -> Z
}.

Definition target_report (ts : result_times) (i : nat) (tr : TargetResult) : TargetReport := {|
  rt_ID := tr_TargetID tr; rt_Path := tr_TargetPath tr; rt_ResourceType := resource_text (tr_ResourceType tr);
  rt_Status := status_of tr; rt_HasDrift := tr_HasChanges tr; rt_Duration := ti_Target ts i; rt_Error := error_string (tr_Error tr);
  rt_Operations := imap (fun j => operation_report (ti_Operation ts i j)) (tr_Operations tr) |}.

Definition op_metric (name : string) (s : OperationSummary) : OpMetric := {|
  om_Name := name; om_Changed := os_Created s + os_Updated s + os_Deleted s; om_Unchanged := os_Noop s;
  om_Failed := os_Failed s; om_Skipped := os_Skipped s |}.

Definition FromExecutionResult (version : string) (ts : result_times) (res : option ExecutionResult) : ReportData :=
  match res with
  | None => NewReportData version true (ti_Now ts) (ti_Now ts)
  | Some er =>
      let rd := NewReportData version (er_DryRun er) (ti_StartedAt ts) (ti_CompletedAt ts) in
      let m := ss_Metrics (er_Metrics er) in {|
      rd_Title := rd_Title rd; rd_Version := rd_Version rd; rd_StartedAt := rd_StartedAt rd; rd_CompletedAt := rd_CompletedAt rd;
      rd_Duration := rd_Duration rd; rd_DryRun := rd_DryRun rd; rd_TotalScanned := sm_TotalScanned m;
      rd_TotalTargeted := sm_TotalTargeted m; rd_TotalChanged := sm_TotalChanged m; rd_TotalUnchanged := sm_TotalUnchanged m;
      rd_TotalFailed := sm_TotalFailed m; rd_OperationMetrics := map_imap (fun n s => Some (op_metric n s)) (sm_OperationCounts m);
      rd_Targets := imap (target_report ts) (er_TargetResults er) |}
  end.

(** ** fmt and time *)

(** [%v] of a float64, and a time in the zone of the machine. *)
Class GoFormat : Type := {
  format_float : QArith_base.Q -> string;
  time_Format : Z -> string -> string
}.

(** [%v]. *)
Definition format_value `{GoFormat} (v : value) : string :=
  match v with
  | VNil => "<nil>"
  | VStr s => s
  | VInt z => Itoa z
  | VBool b => fmt_bool b
  | VFloat q => format_float q
  | VStrs l => "[" +:+ Join l " " +:+ "]"
  | VInts l => "[" +:+ Join (Itoa <$> l) " " +:+ "]"
  end.

Definition Milliseconds (d : Z) : Z := Z.quot d (10 ^ 6).

(** [d.Round(time.Millisecond)]: half away from zero. *)
Definition round_ms (d : Z) : Z :=
  let m := 10 ^ 6 in
  let r := Z.rem (Z.abs d) m in
  let a := if r + r <? m then Z.abs d - r else Z.abs d + m - r in
  sat64 (if d <? 0 then - a else a).

(** The digits of [v / 10^prec] after the point, without trailing zeros. *)
Definition fraction (v : Z) (prec : nat) : string :=
  let digits := Itoa (10 ^ Z.of_nat prec + Z.rem v (10 ^ Z.of_nat prec)) in
  let s := TrimRight "0" (string_drop 1 digits) in
  if (s =? "")%string then "" else "." +:+ s.

(** [Duration.String]. *)
Definition Duration_String (d : Z) : string :=
  let u := Z.abs d in
  let sign := if d <? 0 then "-" else "" in
  let small prec unit := Itoa (Z.quot u (10 ^ Z.of_nat prec)) +:+ fraction u prec +:+ unit in
  if u =? 0 then "0s"
  else if u <? 10 ^ 3 then sign +:+ small 0%nat "ns"
  else if u <? 10 ^ 6 then sign +:+ small 3%nat "µs"
  else if u <? 10 ^ 9 then sign +:+ small 6%nat "ms"
  else
    let secs := Z.quot u (10 ^ 9) in
    let mins := Z.quot secs 60 in
    let hours := Z.quot mins 60 in
    sign +:+ (if 0 <? hours then Itoa hours +:+ "h" else "") +:+ (if 0 <? mins then Itoa (Z.rem mins 60) +:+ "m" else "")
         +:+ Itoa (Z.rem secs 60) +:+ fraction u 9 +:+ "s".

Definition duration_text (d : Z) : string := Duration_String (round_ms d).

Example duration_texts :
  duration_text 0 = "0s" /\ duration_text 1499999 = "1ms" /\ duration_text 1500000 = "2ms" /\ duration_text (62 * 10 ^ 9 + 5 * 10 ^ 8) = "1m2.5s"
  /\ duration_text (3600 * 10 ^ 9) = "1h0m0s" /\ duration_text (- 250 * 10 ^ 6) = "-250ms".
Proof. by vm_compute. Qed.

(** [utf8.RuneCountInString]: the bytes that follow are skipped when they make a
    whole rune with [c]. *)
Definition byte_in (lo hi : N) (b : option N) : bool :=
  match b with Some x => (lo <=? x)%N && (x <=? hi)%N | None => false end.

Definition rune_tail (c : N) (b1 b2 b3 : option N) : nat :=
  let cont := byte_in 128 191 in
  if byte_in 194 223 (Some c) then if cont b1 then 1 else 0
  else if byte_in 224 239 (Some c) then
    let first := if (c =? 224)%N then byte_in 160 191 else if (c =? 237)%N then byte_in 128 159 else cont in
    if first b1 && cont b2 then 2 else 0
  else if byte_in 240 244 (Some c) then
    let first := if (c =? 240)%N then byte_in 144 191 else if (c =? 244)%N then byte_in 128 143 else cont in
    if first b1 && cont b2 && cont b3 then 3 else 0
  else 0.

Fixpoint rune_count (skip : nat) (s : string) : nat :=
  let byte n := match String.get n s with Some c => Some (N_of_ascii c) | None => None end in
  match s with
  | "" => 0
  | String c s' =>
      match skip with
      | S skip => rune_count skip s'
      | O => S (rune_count (rune_tail (N_of_ascii c) (byte 1%nat) (byte 2%nat) (byte 3%nat)) s')
      end
  end.

(** [%-ns]. *)
Definition pad_right (n : nat) (s : string) : string :=
  s +:+ String.string_of_list_ascii (replicate (n - rune_count 0 s) " "%char).

Definition NL : string := String EOL "".

(** ** CSV *)

Definition csv_header : list string :=
  ["resource_type"; "resource_id"; "resource_path"; "operation"; "action"; "status"; "has_drift"; "field"; "old_value"; "new_value";
   "error"; "duration_ms"].

Section Render.
Context `{GoFormat}.

(** [if v != nil { fmt.Sprintf(...) }]. *)
Definition cell (v : value) : string := match v with VNil => "" | v => format_value v end.

Definition field_row (t : TargetReport) (op : OperationReport) (f : FieldDiffReport) : list string :=
  [rt_ResourceType t; Itoa (rt_ID t); rt_Path t; ro_Name op; rf_Action f; ro_Status op; "true"; rf_Field f; cell (rf_OldValue f);
   cell (rf_NewValue f); ro_Error op; Itoa (Milliseconds (ro_Duration op))].

Definition operation_row (t : TargetReport) (op : OperationReport) (resource : string) : list string :=
  [rt_ResourceType t; Itoa (rt_ID t); rt_Path t; ro_Name op; ro_Action op; ro_Status op; fmt_bool (ro_HasChanges op); resource; ""; "";
   ro_Error op; Itoa (Milliseconds (ro_Duration op))].

Definition target_row (t : TargetReport) : list string :=
  [rt_ResourceType t; Itoa (rt_ID t); rt_Path t; ""; ""; rt_Status t; fmt_bool (rt_HasDrift t); ""; ""; ""; rt_Error t;
   Itoa (Milliseconds (rt_Duration t))].

Definition diff_rows (t : TargetReport) (op : OperationReport) (d : DiffReport) : list (list string) :=
  match df_Fields d with [] => [operation_row t op (df_Resource d)] | fields => field_row t op <$> fields end.

Definition operation_rows (t : TargetReport) (op : OperationReport) : list (list string) :=
  match ro_Diffs op with [] => [operation_row t op ""] | diffs => diffs ≫= diff_rows t op end.

Definition target_rows (t : TargetReport) : list (list string) :=
  match rt_Operations t with [] => [target_row t] | ops => ops ≫= operation_rows t end.

Definition CSV_Render (data : ReportData) : string := csv_write (csv_header :: (rd_Targets data ≫= target_rows)).

(** ** Markdown *)

(** [strings.Builder]: the text is the concatenation of the pieces. *)
Abbreviation text := (String.concat "").

(** [sortedOpNames]: the selection sort of distinct names. *)
Definition sortedOpNames (m : gmap string OpMetric) : list string := sort_Strings ((map_to_list m).*1).

(** The metrics in the order of their names. *)
Definition sorted_metrics (m : gmap string OpMetric) : list (string * OpMetric) :=
  omap (fun name => (name,.) <$> m !! name) (sortedOpNames m).

Definition RFC3339 : string := "2006-01-02T15:04:05Z07:00".

Definition markdown_field (f : FieldDiffReport) : string :=
  let old := format_value (rf_OldValue f) in
  let new := format_value (rf_NewValue f) in
  (if (rf_Action f =? "CREATE")%string then "+ " +:+ rf_Field f +:+ ": " +:+ new
   else if (rf_Action f =? "DELETE")%string then "- " +:+ rf_Field f +:+ ": " +:+ old
   else if (rf_Action f =? "UPDATE")%string then "! " +:+ rf_Field f +:+ ": " +:+ old +:+ " -> " +:+ new
   else "  " +:+ rf_Field f +:+ ": " +:+ old) +:+ NL.

Definition markdown_operation (op : OperationReport) : string :=
  if negb (ro_HasChanges op) && negb (ro_Status op =? "FAILED")%string then ""
  else
    "#### Operation: `" +:+ ro_Name op +:+ "` (`" +:+ ro_Action op +:+ "`)" +:+ NL +:+ NL +:+
    (if (0 <? length (ro_Diffs op))%nat
     then "```diff" +:+ NL +:+ text (markdown_field <$> (ro_Diffs op ≫= df_Fields)) +:+ "```" +:+ NL +:+ NL
     else "").

Definition markdown_details (t : TargetReport) : string :=
  if negb (rt_HasDrift t) && negb (rt_Status t =? "FAILED")%string then ""
  else
    "<details>" +:+ NL +:+ "<summary><b>" +:+ rt_Path t +:+ " (" +:+ rt_ResourceType t +:+ ")</b> — " +:+ rt_Status t +:+ "</summary>" +:+ NL +:+ NL +:+
    (if (rt_Error t =? "")%string then "" else "> ❌ **Error**: `" +:+ rt_Error t +:+ "`" +:+ NL +:+ NL) +:+
    text (markdown_operation <$> rt_Operations t) +:+ "</details>" +:+ NL +:+ NL.

Definition markdown_target (dryRun : bool) (t : TargetReport) : string :=
  let typeBadge := if (rt_ResourceType t =? "group")%string then "`Group`" else "`Project`" in
  let statusBadge :=
    if (rt_Status t =? "FAILED")%string then "🔴 Failed"
    else if rt_HasDrift t || (rt_Status t =? "CHANGED")%string then if dryRun then "🟡 Drift" else "🟡 Changed"
    else "🟢 Compliant" in
  "| " +:+ typeBadge +:+ " | `" +:+ Itoa (rt_ID t) +:+ "` | `" +:+ rt_Path t +:+ "` | " +:+ statusBadge +:+ " | `"
    +:+ duration_text (rt_Duration t) +:+ "` |" +:+ NL.

Definition markdown_metric (nm : string * OpMetric) : string :=
  "| `" +:+ nm.1 +:+ "` | " +:+ Itoa (om_Changed nm.2) +:+ " | " +:+ Itoa (om_Unchanged nm.2) +:+ " | " +:+ Itoa (om_Failed nm.2)
    +:+ " | " +:+ Itoa (om_Skipped nm.2) +:+ " |" +:+ NL.

Definition metadata_row (name value : string) : string := "| **" +:+ name +:+ "** | `" +:+ value +:+ "` |" +:+ NL.

Definition Markdown_Render (opts : Options) (data : ReportData) : string := text [
  "# 🛡️ " +:+ o_Title opts +:+ NL +:+ NL;
  (if rd_DryRun data then "> ⚠️ **Execution Mode**: **DRY-RUN SIMULATION** (No live mutations applied)."
   else if report_HasErrors data then "> ❌ **Execution Mode**: **LIVE APPLY** completed with errors."
   else "> ✅ **Execution Mode**: **LIVE APPLY** completed successfully.") +:+ NL +:+ NL;
  "### 📊 Executive Summary" +:+ NL +:+ NL +:+ "| Metric | Value |" +:+ NL +:+ "|---|---|" +:+ NL;
  metadata_row "Execution Mode" (if rd_DryRun data then "DRY-RUN" else "LIVE APPLY");
  metadata_row "Started At" (time_Format (rd_StartedAt data) RFC3339);
  metadata_row "Completed At" (time_Format (rd_CompletedAt data) RFC3339);
  metadata_row "Total Duration" (duration_text (rd_Duration data));
  metadata_row "Total Scanned" (Itoa (rd_TotalScanned data));
  metadata_row "Targeted Fleet" (Itoa (rd_TotalTargeted data));
  metadata_row "Drift / Changed" (Itoa (rd_TotalChanged data));
  metadata_row "Compliant / Unchanged" (Itoa (rd_TotalUnchanged data));
  metadata_row "Failed / Errors" (Itoa (rd_TotalFailed data)) +:+ NL;
  (if (0 <? size (rd_OperationMetrics data))%nat
   then "### ⚙️ Operations Breakdown" +:+ NL +:+ NL +:+ "| Operation | Drift / Changed | Compliant | Failed | Skipped |" +:+ NL
        +:+ "|---|:---:|:---:|:---:|:---:|" +:+ NL +:+ text (markdown_metric <$> sorted_metrics (rd_OperationMetrics data)) +:+ NL
   else "");
  (if (0 <? length (rd_Targets data))%nat
   then "### 🎯 Target Results" +:+ NL +:+ NL +:+ "| Type | ID | Path | Status | Duration |" +:+ NL +:+ "|:---:|:---:|---|:---:|:---:|" +:+ NL
        +:+ text (markdown_target (rd_DryRun data) <$> rd_Targets data) +:+ NL
        +:+ (if o_IncludeDiffs opts && (report_HasDrift data || report_HasErrors data)
             then "### 🔍 Granular Policy Diffs" +:+ NL +:+ NL +:+ text (markdown_details <$> rd_Targets data)
             else "")
   else "")].

(** ** Colors *)

Definition paint (code : string) (enabled : bool) (s : string) : string :=
  if enabled then String "027" ("[" +:+ code +:+ "m") +:+ s +:+ String "027" "[0m" else s.

Definition bold := paint "1".
Definition red := paint "31".
Definition green := paint "32".
Definition yellow := paint "33".
Definition magenta := paint "35".

Definition colorizeIf (enabled cond : bool) (colored plain : string) : string := if cond && enabled then colored else plain.

(** ** The summary *)

Definition Summary_Render (opts : Options) (data : ReportData) : string :=
  let c := o_Color opts in
  let mode := if rd_DryRun data then "DRY-RUN" else "APPLY" in
  let status := if report_HasErrors data then red c "FAILED" else if report_HasDrift data then yellow c "DRIFT_DETECTED" else green c "SUCCESS" in
  let summaries := omap (fun nm : string * OpMetric =>
    if (0 <? om_Changed nm.2) || (0 <? om_Failed nm.2)
    then Some (nm.1 +:+ " (" +:+ Itoa (om_Changed nm.2) +:+ " drift, " +:+ Itoa (om_Failed nm.2) +:+ " fail)") else None)
    (sorted_metrics (rd_OperationMetrics data)) in
  "GitLab Fleet Governor [" +:+ mode +:+ "] " +:+ status +:+ " in " +:+ duration_text (rd_Duration data) +:+ NL
  +:+ "Targets: " +:+ Itoa (rd_TotalTargeted data) +:+ " matched (" +:+ Itoa (rd_TotalScanned data) +:+ " scanned) | Changed: "
  +:+ Itoa (rd_TotalChanged data) +:+ " | Compliant: " +:+ Itoa (rd_TotalUnchanged data) +:+ " | Failed: " +:+ Itoa (rd_TotalFailed data) +:+ NL
  +:+ (if (0 <? size (rd_OperationMetrics data))%nat
       then match summaries with
            | [] => "Operations: all in sync" +:+ NL
            | _ => "Operations with drift: " +:+ Join summaries ", " +:+ NL
            end
       else "").

(** ** The table *)

Definition formatFieldDiff (c : bool) (f : FieldDiffReport) : string :=
  let old := format_value (rf_OldValue f) in
  let new := format_value (rf_NewValue f) in
  let on a := (rf_Action f =? a)%string in
  if on "CREATE" then green c ("+ " +:+ rf_Field f +:+ ": " +:+ new)
  else if on "DELETE" then red c ("- " +:+ rf_Field f +:+ ": " +:+ old)
  else if on "UPDATE" then yellow c ("~ " +:+ rf_Field f +:+ ": " +:+ old +:+ " -> " +:+ new)
  else if on "AUDIT" then magenta c ("! " +:+ rf_Field f +:+ ": " +:+ old)
  else "  " +:+ rf_Field f +:+ ": " +:+ old.

Definition table_diff (c : bool) (d : DiffReport) : string :=
  match df_Fields d with
  | [] => if (df_Details d =? "")%string then "" else "│     │     " +:+ df_Resource d +:+ ": " +:+ df_Details d +:+ NL
  | fields => text ((fun f => "│     │     " +:+ formatFieldDiff c f +:+ NL) <$> fields)
  end.

Definition table_operation (c : bool) (op : OperationReport) : string :=
  let is_failed := (ro_Status op =? "FAILED")%string in
  if negb (ro_HasChanges op) && negb is_failed then ""
  else
    "│     ├─► " +:+ pad_right 22 (ro_Name op) +:+ " [" +:+ (if is_failed then red c "FAILED" else yellow c (ro_Action op)) +:+ "]"
    +:+ (if (ro_Error op =? "")%string then "" else " error: " +:+ red c (ro_Error op)) +:+ NL
    +:+ text (table_diff c <$> ro_Diffs op).

Definition table_path (path : string) : string :=
  if (44 <? String.length path)%nat then "..." +:+ string_drop (String.length path - 41) path else path.

Definition table_status (c dryRun : bool) (t : TargetReport) : string :=
  if (rt_Status t =? "FAILED")%string then red c "FAILED   "
  else if rt_HasDrift t || (rt_Status t =? "CHANGED")%string then if dryRun then yellow c "DRIFT    " else yellow c "CHANGED  "
  else green c "COMPLIANT".

Definition table_target (c dryRun diffs : bool) (t : TargetReport) : string :=
  "│ " +:+ pad_right 3 (if (rt_ResourceType t =? "group")%string then "[G]" else "[P]") +:+ " │ " +:+ pad_right 12 (Itoa (rt_ID t)) +:+ " │ "
  +:+ pad_right 44 (table_path (rt_Path t)) +:+ " │ " +:+ pad_right 9 (table_status c dryRun t) +:+ " │ "
  +:+ pad_right 10 (duration_text (rt_Duration t)) +:+ " │" +:+ NL
  +:+ (if diffs && (rt_HasDrift t || (rt_Status t =? "FAILED")%string || (0 <? length (rt_Operations t))%nat)
       then text (table_operation c <$> rt_Operations t) else "").

Definition table_metric (c : bool) (nm : string * OpMetric) : string :=
  let m := nm.2 in
  let chg := Itoa (om_Changed m) in
  let fail := Itoa (om_Failed m) in
  "│ " +:+ pad_right 32 nm.1 +:+ " │ " +:+ pad_right 9 (if 0 <? om_Changed m then yellow c chg else chg) +:+ " │ "
  +:+ pad_right 11 (Itoa (om_Unchanged m)) +:+ " │ " +:+ pad_right 8 (if 0 <? om_Failed m then red c fail else fail) +:+ " │ "
  +:+ pad_right 8 (Itoa (om_Skipped m)) +:+ " │" +:+ NL.

(** The box of the title, the mode and the counts. *)
Definition table_banner (opts : Options) (data : ReportData) : string :=
  let c := o_Color opts in
  let changed := Itoa (rd_TotalChanged data) in
  let failures := Itoa (rd_TotalFailed data) in
  let metricsLine := "Scanned: " +:+ Itoa (rd_TotalScanned data) +:+ " | Targeted: " +:+ Itoa (rd_TotalTargeted data) +:+ " | Changed: "
    +:+ colorizeIf c (0 <? rd_TotalChanged data) (yellow c changed) changed +:+ " | Compliant: "
    +:+ green c (Itoa (rd_TotalUnchanged data)) +:+ " | Failed: "
    +:+ colorizeIf c (0 <? rd_TotalFailed data) (red c failures) failures in
  text [
    NL;
    bold c ("╔══════════════════════════════════════════════════════════════════════════════════╗" +:+ NL);
    bold c ("║  " +:+ pad_right 76 (o_Title opts) +:+ "  ║" +:+ NL);
    bold c ("╠══════════════════════════════════════════════════════════════════════════════════╣" +:+ NL);
    "║  Version: " +:+ pad_right 70 (if (rd_Version data =? "")%string then "dev" else rd_Version data) +:+ " ║" +:+ NL;
    "║  Mode: " +:+ pad_right 71 (if rd_DryRun data then yellow c "DRY-RUN SIMULATION (No mutations applied)" else green c "LIVE APPLY")
      +:+ " ║" +:+ NL;
    "║  Duration: " +:+ pad_right 15 (duration_text (rd_Duration data)) +:+ " Started: "
      +:+ pad_right 19 (time_Format (rd_StartedAt data) "2006-01-02 15:04:05") +:+ " Finished: "
      +:+ pad_right 13 (time_Format (rd_CompletedAt data) "15:04:05") +:+ " ║" +:+ NL;
    "║  Metrics: " +:+ pad_right 70 metricsLine +:+ " ║" +:+ NL;
    bold c ("╚══════════════════════════════════════════════════════════════════════════════════╝" +:+ NL +:+ NL)].

Definition Table_Render (opts : Options) (data : ReportData) : string :=
  let c := o_Color opts in
  table_banner opts data +:+
  match rd_Targets data with
  | [] => yellow c ("  No projects or groups matched target selector criteria." +:+ NL +:+ NL)
  | targets => text [
      bold c ("TARGET FLEET BREAKDOWN:" +:+ NL);
      bold c ("┌─────┬──────────────┬──────────────────────────────────────────────┬───────────┬────────────┐" +:+ NL);
      bold c ("│ TYPE│ ID           │ RESOURCE PATH                                │ STATUS    │ DURATION   │" +:+ NL);
      bold c ("├─────┼──────────────┼──────────────────────────────────────────────┼───────────┼────────────┤" +:+ NL);
      text (table_target c (rd_DryRun data) (o_IncludeDiffs opts) <$> targets);
      bold c ("└─────┴──────────────┴──────────────────────────────────────────────┴───────────┴────────────┘" +:+ NL +:+ NL);
      (if (0 <? size (rd_OperationMetrics data))%nat then text [
        bold c ("OPERATIONS RECONCILIATION SUMMARY:" +:+ NL);
        bold c ("┌──────────────────────────────────┬───────────┬─────────────┬──────────┬──────────┐" +:+ NL);
        bold c ("│ OPERATION                        │ DRIFT/CHG │ COMPLIANT   │ FAILED   │ SKIPPED  │" +:+ NL);
        bold c ("├──────────────────────────────────┼───────────┼─────────────┼──────────┼──────────┤" +:+ NL);
        text (table_metric c <$> sorted_metrics (rd_OperationMetrics data));
        bold c ("└──────────────────────────────────┴───────────┴─────────────┴──────────┴──────────┘" +:+ NL +:+ NL)]
       else "")]
  end.

(** [Render] of a reporter; the JSON text is made by encoding/json. *)
Definition Render (json : bool -> ReportData -> error + string) (r : Format * Options) (data : option ReportData) : error + string :=
  match data with
  | None => inl (ErrNew "report data cannot be nil")
  | Some data =>
      match r.1 with
      | FormatTable => inr (Table_Render r.2 data)
      | FormatJSON => match json (o_IndentJSON r.2) data with inl e => inl (ErrWrap "failed to encode JSON report: " e) | inr s => inr s end
      | FormatCSV => inr (CSV_Render data)
      | FormatMarkdown => inr (Markdown_Render r.2 data)
      | FormatSummary => inr (Summary_Render r.2 data)
      end
  end.

End Render.

(** ** Lemmas: counting *)

Lemma count_perm {A} (P : A -> bool) l k : l ≡ₚ k -> count P l = count P k.
Proof. induction 1; rewrite ?count_cons; lia. Qed.

Lemma count_ext {A} (P Q : A -> bool) l : (forall x, P x = Q x) -> count P l = count Q l.
Proof. intros He. induction l as [|x l IH]; [done|]. by rewrite !count_cons, He, IH. Qed.

Lemma count_filter {A} (P Q : A -> bool) l : count P (List.filter Q l) = count (fun x => Q x && P x) l.
Proof. induction l as [|x l IH]; [done|]. simpl. destruct (Q x) eqn:E; rewrite !count_cons, IH, ?E; by rewrite ?andb_true_l. Qed.

Lemma count_imap {A B} (P : B -> bool) (Q : A -> bool) (f : nat -> A -> B) l :
  (forall i x, P (f i x) = Q x) -> count P (imap f l) = count Q l.
Proof.
  revert f. induction l as [|x l IH]; intros f He; [done|]. rewrite imap_cons, !count_cons, He.
  f_equal. apply IH. intros i y. apply He.
Qed.

Lemma count_imap_bind {A B C D} (P : C -> bool) (Q : D -> bool) (f : nat -> A -> B) (g : B -> list C) (k : A -> list D) l :
  (forall i x, count P (g (f i x)) = count Q (k x)) -> count P (imap f l ≫= g) = count Q (l ≫= k).
Proof.
  revert f. induction l as [|x l IH]; intros f He; [done|]. rewrite imap_cons. cbn [mbind list_bind]. rewrite !count_app, He.
  f_equal. apply IH. intros i y. apply He.
Qed.

Lemma count_add {A} (P Q : A -> bool) l :
  (forall x, P x = true -> Q x = false) -> count P l + count Q l = count (fun x => P x || Q x) l.
Proof.
  intros Hd. induction l as [|x l IH]; [done|]. rewrite !count_cons, <- IH.
  destruct (P x) eqn:E; [rewrite (Hd _ E)|]; cbn [b2z orb]; lia.
Qed.

Lemma existsb_count {A} (P : A -> bool) l : existsb P l = true <-> 0 < count P l.
Proof.
  rewrite existsb_exists. split.
  - intros (x & Hx & HP). destruct (Z.eq_dec (count P l) 0) as [H0|]; [|pose proof (count_nonneg P l); lia].
    rewrite count_zero in H0. rewrite (H0 x) in HP; [done|]. by apply list_elem_of_In.
  - intros Hc. destruct (existsb P l) eqn:E; [by apply existsb_exists|].
    assert (count P l = 0) as H0; [|lia]. apply count_zero. intros x Hx. apply list_elem_of_In in Hx.
    apply not_true_is_false. intros HP. assert (existsb P l = true) by (apply existsb_exists; eauto). congruence.
Qed.

(** ** Lemmas: the metrics of a run *)

(** What a run returns was recorded target by target from nothing. *)
Lemma run_recorded `{GoRegexp} `{GoQuery} `{GoLicense} {W} (h : handler GitLabE W) fuel env serverTime e cfg dryRun concurrency schedule w er err w' :
  runWithOptions h fuel env serverTime e (Some cfg) dryRun concurrency schedule w = Some (Some er, err, w') ->
  exists m trs, er_TargetResults er ≡ₚ trs /\ er_Metrics er = Snapshot (foldl RecordTargetResult m trs) /\
    sm_TotalChanged m = 0 /\ sm_TotalUnchanged m = 0 /\ sm_TotalFailed m = 0 /\ sm_OperationCounts m = ∅.
Proof.
  intros Hr. apply runWithOptions_cases in Hr as (res & w1 & _ & Hr).
  destruct res as [derr|fleet]; [destruct Hr as (_ & _ & [= ->]); by exists (NewSummaryMetrics dryRun), []|].
  destruct (Enforce _ _).2; [destruct Hr as (_ & _ & [= ->]); by exists (RecordDiscovery (NewSummaryMetrics dryRun) fleet), []|].
  destruct Hr as [_ Hr].
  destruct (IsEmpty fleet); [destruct Hr as (_ & [= ->]); by exists (RecordDiscovery (NewSummaryMetrics dryRun) fleet), []|].
  destruct Hr as (x & [= <-] & Hg). apply governFleet_phases in Hg as (? & ? & ? & ? & ? & _ & _ & _ & _ & _ & Hp & Hm & _).
  by exists (RecordDiscovery (NewSummaryMetrics dryRun) fleet), (er_GroupResults er ++ er_ProjectResults er).
Qed.

Definition with_status (s : string) (t : TargetReport) : bool := (rt_Status t =? s)%string.

(** The results of operation [n] whose action is one of [actions]. *)
Definition of_operation (n : string) (actions : list string) (op : OperationReport) : bool :=
  (ro_Name op =? n)%string && existsb (String.eqb (ro_Action op)) actions.

Lemma count_statuses ts trs :
  count (with_status "FAILED") (imap (target_report ts) trs) = count target_failed trs /\
  count (with_status "CHANGED") (imap (target_report ts) trs) = count target_changed trs /\
  count (with_status "UNCHANGED") (imap (target_report ts) trs) = count (fun tr => negb (target_failed tr) && negb (tr_HasChanges tr)) trs.
Proof.
  split_and!; apply count_imap; intros i tr; unfold with_status, target_report, target_changed, target_failed; cbn [rt_Status]; unfold status_of;
    destruct (negb (tr_Success tr) || is_some (tr_Error tr)), (tr_HasChanges tr); reflexivity.
Qed.

Lemma count_operations ts trs n actions :
  count (of_operation n (action_text <$> actions)) (imap (target_report ts) trs ≫= rt_Operations) =
  count (fun op => op_named n op && existsb (fun a => is_action a op) actions) (recorded trs).
Proof.
  apply count_imap_bind. intros i tr. apply count_imap. intros j op. unfold of_operation, op_named. cbn [ro_Name ro_Action operation_report]. f_equal.
  induction actions as [|a l IH]; [done|]. cbn [fmap list_fmap existsb]. rewrite IH. f_equal. unfold is_action.
  by destruct (or_Action op), a.
Qed.

Lemma named_operations ts trs n :
  0 < count (op_named n) (recorded trs) <-> exists op, op ∈ imap (target_report ts) trs ≫= rt_Operations /\ ro_Name op = n.
Proof.
  unfold recorded. rewrite <- (count_imap_bind (fun op => ro_Name op =? n)%string (op_named n) (target_report ts) rt_Operations tr_Operations)
    by (intros i tr; by apply count_imap).
  rewrite <- existsb_count, existsb_exists. split; intros (op & Hop & Hn); exists op; split;
    [by apply list_elem_of_In|by apply String.eqb_eq|by apply list_elem_of_In|by apply String.eqb_eq].
Qed.

(** ** Properties *)

(** C24. A report tells the truth about the run: its totals are the numbers of
    the targets that it lists as failed, changed and unchanged, and every
    operation of the listed targets, and no other, has a line that counts its
    results by action. *)
Theorem Report_totals_exact `{GoRegexp} `{GoQuery} `{GoLicense} {W} (h : handler GitLabE W) fuel env serverTime e cfg dryRun concurrency schedule
    version ts w er err w' :
  runWithOptions h fuel env serverTime e (Some cfg) dryRun concurrency schedule w = Some (Some er, err, w') ->
  let rd := FromExecutionResult version ts (Some er) in
  let ops := rd_Targets rd ≫= rt_Operations in
  rd_TotalFailed rd = count (with_status "FAILED") (rd_Targets rd) /\
  rd_TotalChanged rd = count (with_status "CHANGED") (rd_Targets rd) /\
  rd_TotalUnchanged rd = count (with_status "UNCHANGED") (rd_Targets rd) /\
  forall n, match rd_OperationMetrics rd !! n with
    | None => forall op, op ∈ ops -> ro_Name op <> n
    | Some m => (exists op, op ∈ ops /\ ro_Name op = n) /\
        om_Changed m = count (of_operation n ["CREATE"; "UPDATE"; "DELETE"]) ops /\
        om_Unchanged m = count (of_operation n ["NOOP"]) ops /\ om_Skipped m = count (of_operation n ["SKIPPED"]) ops
    end.
Proof.
  intros Hr. apply run_recorded in Hr as (m & trs & Hp & Hm & Hc0 & Hu0 & Hf0 & Hops).
  cbn zeta. destruct (RecordTargetResults_totals m trs) as (Hc & Hu & Hf & _). destruct (count_statuses ts (er_TargetResults er)) as (Sf & Sc & Su).
  unfold FromExecutionResult. cbn [rd_TotalFailed rd_TotalChanged rd_TotalUnchanged rd_OperationMetrics rd_Targets].
  rewrite Sf, Sc, Su, !(count_perm _ _ _ Hp), Hm. cbn [Snapshot ss_Metrics sm_TotalFailed sm_TotalChanged sm_TotalUnchanged sm_OperationCounts].
  split_and!; [lia..|]. intros n. rewrite map_lookup_imap, RecordTargetResults_counts by done.
  assert (recorded (er_TargetResults er) ≡ₚ recorded trs) as Hrec by (unfold recorded; by rewrite Hp).
  pose proof (fun acts => eq_trans (count_operations ts (er_TargetResults er) n acts) (count_perm _ _ _ Hrec)) as Hops'.
  pose proof (named_operations ts (er_TargetResults er) n) as Hnamed. rewrite (count_perm _ _ _ Hrec), <- existsb_count in Hnamed.
  destruct (existsb (op_named n) (recorded trs)); cbn [mbind option_bind].
  - split; [by apply Hnamed|]. unfold op_metric, summary_of. cbn [om_Changed om_Unchanged om_Skipped os_Created os_Updated os_Deleted os_Noop os_Skipped].
    pose proof (Hops' [ActionCreate; ActionUpdate; ActionDelete]) as Ha. pose proof (Hops' [ActionNoop]) as Hb.
    pose proof (Hops' [ActionSkipped]) as Hd. cbn [fmap list_fmap action_text] in Ha, Hb, Hd. rewrite Ha, Hb, Hd, !count_filter.
    rewrite !count_add by (intros op; unfold is_action; repeat case_bool_decide; congruence || by rewrite ?andb_false_r).
    split_and!; apply count_ext; intros op; cbn [existsb]; destruct (op_named n op), (is_action ActionCreate op); cbn; by rewrite ?orb_false_r.
  - intros op Hop Hn. assert (false = true) by (apply Hnamed; eauto). done.
Qed.

(** *** What the CSV is to hold *)

(** The rows of a report, column by column: a target without operations, an
    operation without diffs, a diff without fields, and every field that changes,
    under the values it had and is to have. *)
Inductive reported `{GoFormat} (data : ReportData) : list string -> Prop :=
| reported_target t :
    t ∈ rd_Targets data -> rt_Operations t = [] ->
    reported data [rt_ResourceType t; Itoa (rt_ID t); rt_Path t; ""; ""; rt_Status t; fmt_bool (rt_HasDrift t); ""; ""; ""; rt_Error t;
                   Itoa (Milliseconds (rt_Duration t))]
| reported_operation t op :
    t ∈ rd_Targets data -> op ∈ rt_Operations t -> ro_Diffs op = [] ->
    reported data [rt_ResourceType t; Itoa (rt_ID t); rt_Path t; ro_Name op; ro_Action op; ro_Status op; fmt_bool (ro_HasChanges op);
                   ""; ""; ""; ro_Error op; Itoa (Milliseconds (ro_Duration op))]
| reported_diff t op d :
    t ∈ rd_Targets data -> op ∈ rt_Operations t -> d ∈ ro_Diffs op -> df_Fields d = [] ->
    reported data [rt_ResourceType t; Itoa (rt_ID t); rt_Path t; ro_Name op; ro_Action op; ro_Status op; fmt_bool (ro_HasChanges op);
                   df_Resource d; ""; ""; ro_Error op; Itoa (Milliseconds (ro_Duration op))]
| reported_field t op d f old new :
    t ∈ rd_Targets data -> op ∈ rt_Operations t -> d ∈ ro_Diffs op -> f ∈ df_Fields d ->
    (rf_OldValue f = VNil /\ old = "" \/ rf_OldValue f <> VNil /\ old = format_value (rf_OldValue f)) ->
    (rf_NewValue f = VNil /\ new = "" \/ rf_NewValue f <> VNil /\ new = format_value (rf_NewValue f)) ->
    reported data [rt_ResourceType t; Itoa (rt_ID t); rt_Path t; ro_Name op; rf_Action f; ro_Status op; "true"; rf_Field f; old; new;
                   ro_Error op; Itoa (Milliseconds (ro_Duration op))].

(** How many rows that makes: one for whatever has nothing below it. *)
Definition at_least_one (l : list nat) : nat := match l with [] => 1 | l => sum_list l end.
Definition diff_lines (d : DiffReport) : nat := at_least_one ((fun _ => 1%nat) <$> df_Fields d).
Definition operation_lines (op : OperationReport) : nat := at_least_one (diff_lines <$> ro_Diffs op).
Definition target_lines (t : TargetReport) : nat := at_least_one (operation_lines <$> rt_Operations t).

Lemma cell_spec `{GoFormat} v c : c = cell v <-> (v = VNil /\ c = "" \/ v <> VNil /\ c = format_value v).
Proof. unfold cell. destruct v; naive_solver. Qed.

(** A list with nothing in it has a row of its own. *)
Lemma elem_of_or_one {A B} (l : list A) (one : B) (f : A -> list B) x :
  x ∈ (match l with [] => [one] | l => l ≫= f end) <-> l = [] /\ x = one \/ exists a, a ∈ l /\ x ∈ f a.
Proof.
  destruct l as [|a l]; [rewrite list_elem_of_singleton; set_solver|]. rewrite list_elem_of_bind. naive_solver.
Qed.

Lemma length_or_one {A B} (l : list A) (one : B) (f : A -> list B) (n : A -> nat) :
  (forall a, length (f a) = n a) -> length (match l with [] => [one] | l => l ≫= f end) = at_least_one (n <$> l).
Proof.
  intros Hf. assert (forall k, length (k ≫= f) = sum_list (n <$> k)) as Hs.
  { intros k. induction k as [|a k IH]; [done|]. rewrite bind_cons, length_app, Hf, IH. done. }
  destruct l as [|a l]; [done|]. by rewrite Hs.
Qed.

Lemma diff_rows_bind `{GoFormat} t op d :
  diff_rows t op d = match df_Fields d with [] => [operation_row t op (df_Resource d)] | fs => fs ≫= fun f => [field_row t op f] end.
Proof. unfold diff_rows. destruct (df_Fields d) as [|f fs]; [done|]. generalize (f :: fs). intros l. induction l; cbn; by f_equal. Qed.

Ltac by_level H l := pose proof H as Hlevel; destruct l; exact Hlevel.

Lemma diff_rows_spec `{GoFormat} t op d r :
  length (diff_rows t op d) = diff_lines d /\
  (r ∈ diff_rows t op d <-> df_Fields d = [] /\ r = operation_row t op (df_Resource d) \/ exists f, f ∈ df_Fields d /\ r ∈ [field_row t op f]).
Proof.
  rewrite diff_rows_bind. unfold diff_lines. split.
  - by_level (length_or_one (df_Fields d) (operation_row t op (df_Resource d)) (fun f => [field_row t op f]) (fun _ => 1%nat) (fun _ => eq_refl)) (df_Fields d).
  - by_level (elem_of_or_one (df_Fields d) (operation_row t op (df_Resource d)) (fun f => [field_row t op f]) r) (df_Fields d).
Qed.

Lemma operation_rows_spec `{GoFormat} t op r :
  length (operation_rows t op) = operation_lines op /\
  (r ∈ operation_rows t op <-> ro_Diffs op = [] /\ r = operation_row t op "" \/ exists d, d ∈ ro_Diffs op /\ r ∈ diff_rows t op d).
Proof.
  unfold operation_rows, operation_lines. split.
  - by_level (length_or_one (ro_Diffs op) (operation_row t op "") (diff_rows t op) diff_lines (fun d => proj1 (diff_rows_spec t op d []))) (ro_Diffs op).
  - by_level (elem_of_or_one (ro_Diffs op) (operation_row t op "") (diff_rows t op) r) (ro_Diffs op).
Qed.

Lemma target_rows_spec `{GoFormat} t r :
  length (target_rows t) = target_lines t /\
  (r ∈ target_rows t <-> rt_Operations t = [] /\ r = target_row t \/ exists op, op ∈ rt_Operations t /\ r ∈ operation_rows t op).
Proof.
  unfold target_rows, target_lines. split.
  - by_level (length_or_one (rt_Operations t) (target_row t) (operation_rows t) operation_lines (fun op => proj1 (operation_rows_spec t op []))) (rt_Operations t).
  - by_level (elem_of_or_one (rt_Operations t) (target_row t) (operation_rows t) r) (rt_Operations t).
Qed.

Lemma target_rows_reported `{GoFormat} data r : r ∈ rd_Targets data ≫= target_rows <-> reported data r.
Proof.
  rewrite list_elem_of_bind. split.
  - intros (t & Hr & Ht). apply target_rows_spec in Hr as [[Ho ->]|(op & Hop & Hr)]; [by apply reported_target|].
    apply operation_rows_spec in Hr as [[Hd ->]|(d & Hd & Hr)]; [by apply reported_operation|].
    apply diff_rows_spec in Hr as [[Hf ->]|(f & Hf & ->%list_elem_of_singleton)]; [by eapply reported_diff|].
    by eapply reported_field; [..|by apply cell_spec|by apply cell_spec].
  - assert (forall r t op d, t ∈ rd_Targets data -> op ∈ rt_Operations t -> d ∈ ro_Diffs op -> r ∈ diff_rows t op d ->
      exists t, r ∈ target_rows t /\ t ∈ rd_Targets data) as Hdiff.
    { clear. intros r t op d Ht Hop Hd Hr. exists t. split; [|done]. apply target_rows_spec. right. exists op. split; [done|].
      apply operation_rows_spec. right. by exists d. }
    intros [t Ht Ho|t op Ht Hop Hd|t op d Ht Hop Hd Hf|t op d f old new Ht Hop Hd Hf ->%cell_spec ->%cell_spec].
    + exists t. split; [|done]. apply target_rows_spec. by left.
    + exists t. split; [|done]. apply target_rows_spec. right. exists op. split; [done|]. apply operation_rows_spec. by left.
    + apply (Hdiff _ t op d Ht Hop Hd), diff_rows_spec. by left.
    + apply (Hdiff _ t op d Ht Hop Hd), diff_rows_spec. right. exists f. split; [done|]. by apply list_elem_of_singleton.
Qed.

Lemma reported_width `{GoFormat} data r : reported data r -> length r = 12%nat.
Proof. by intros []. Qed.

(** C25. The CSV of a report loses nothing: a reader of RFC 4180 gets the header
    and rows of twelve fields, whatever the names, the errors and the values
    hold.  The rows are exactly those that are to be reported, for every target,
    every operation, every diff and every changed field, in the columns that the
    header names, and each of them once. *)
Theorem Report_csv_exact `{GoFormat} data :
  exists rows,
    csv_read (CSV_Render data) =
      Some (["resource_type"; "resource_id"; "resource_path"; "operation"; "action"; "status"; "has_drift"; "field"; "old_value"; "new_value";
             "error"; "duration_ms"] :: rows) /\
    (forall r, r ∈ rows <-> reported data r) /\
    length rows = sum_list (target_lines <$> rd_Targets data).
Proof.
  exists (rd_Targets data ≫= target_rows). split_and!; [|apply target_rows_reported|].
  - change [_; _; _; _; _; _; _; _; _; _; _; _] with csv_header. apply csv_roundtrip. constructor; [done|].
    apply Forall_forall. intros r Hr ->. by apply target_rows_reported, reported_width in Hr.
  - induction (rd_Targets data) as [|t ts IH]; [done|]. rewrite bind_cons, length_app, (proj1 (target_rows_spec t [])), IH. done.
Qed.

(** ** Examples and witnesses *)

Definition demo_report_times : result_times :=
  {| ti_Now := 0; ti_StartedAt := 0; ti_CompletedAt := 2500 * 10 ^ 6; ti_Target := fun _ => 10 ^ 6; ti_Operation := fun _ _ => 10 ^ 6 |}.

Lemma Report_totals_exact_witness :
  match demo_run true with
  | Some (Some er, _, _) =>
      let rd := FromExecutionResult "1.0.0" demo_report_times (Some er) in
      rd_TotalChanged rd = 4 /\ count (with_status "CHANGED") (rd_Targets rd) = 4
  | _ => False
  end.
Proof.
  destruct (demo_run true) as [[[[er|] err] w']|] eqn:Hr; [|by vm_compute in Hr..].
  unfold demo_run in Hr.
  pose proof (@Report_totals_exact demo_literal demo_fleet_query demo_license _ demo_fleet_server demo_fleet_fuel demo_license_env None
    demo_engine demo_engine_cfg true 2 (demo_schedule empty_server true) "1.0.0" demo_report_times empty_server er err w' Hr) as H.
  cbv zeta in *.
  destruct H as (_ & Hc & _). rewrite <- Hc. clear Hc. split; vm_compute in Hr; injection Hr as <- _ _; reflexivity.
Defined.

Definition demo_result (action : ActionType) (status : StatusType) : OperationResult := {|
  or_OperationName := "members"; or_ResourceType := ResourceTypeProject; or_ResourceID := 1; or_ResourcePath := "platform/api";
  or_Action := action; or_Status := status; or_HasChanges := true; or_Success := bool_decide (status <> StatusFailed); or_Diffs := [];
  or_Details := ""; or_Error := None |}.

(** The summary of a report counts an audit that found violations nowhere, and a
    failed update twice; [AddTarget] counts either once. *)
Example audit_counted_nowhere :
  let m := op_metric "members" (summary_of "members" [demo_result ActionAudit StatusSuccess]) in
  om_Changed m + om_Unchanged m + om_Failed m + om_Skipped m = 0 /\
  om_Changed (add_operation (op_metric "members" (new_summary "members")) (operation_report 0 (demo_result ActionAudit StatusSuccess))) = 1.
Proof. by vm_compute. Qed.

Example failure_counted_twice :
  let m := op_metric "members" (summary_of "members" [demo_result ActionUpdate StatusFailed]) in om_Changed m + om_Failed m = 2.
Proof. by vm_compute. Qed.
