(* ===== verification/AuditReport.v ===== *)
(** * The reports of an audit: internal/audit/report/export.go

    The CSV, the Markdown, the HTML and the terminal table of an audit report;
    the workbook is in [Xlsx], the JSON, which encoding/json makes, a
    parameter.  [Audit_csv_exact] shows that the CSV gives back one row for each
    finding; [Audit_markdown_tables] that the tables of the Markdown keep their
    columns whatever the escaped fields hold, and the examples after it what the
    fields that are not escaped can do to the Markdown and to the HTML. *)

From S2P Require Import Prelude GoLib GoTime Csv Config GitLabAPI RepositoryFiles License Discovery AuditModel Auditor Report.
Local Open Scope string_scope.
Local Open Scope list_scope.
Local Open Scope Z_scope.

Inductive ExportFormat : Type := ExportXLSX | ExportJSON | ExportCSV | ExportMarkdown | ExportHTML | ExportTable.

#[export] Instance ExportFormat_eq_dec : EqDecision ExportFormat.
Proof. solve_decision. Defined.

Definition ParseExportFormat (s : string) : error + ExportFormat :=
  let f := ToLower (TrimSpace s) in
  let among := existsb (String.eqb f) in
  if among ["xlsx"; "excel"] then inr ExportXLSX
  else if among ["json"; "js"] then inr ExportJSON
  else if among ["csv"] then inr ExportCSV
  else if among ["markdown"; "md"; "gfm"] then inr ExportMarkdown
  else if among ["html"; "htm"] then inr ExportHTML
  else if among ["table"; "tbl"; "text"; "summary"] then inr ExportTable
  else inl (ErrNew ("unsupported audit report format " +:+ quote s +:+ " (valid: xlsx, json, csv, markdown, html, table)")).

(** ** CSV *)

Definition csv_headers : list string :=
  ["Category"; "Project ID"; "Project Name"; "Project Path"; "Project State"; "Project URL"; "Entity Name"; "Role / Branch / Env";
   "Account Type"; "Status"; "Violation Type"; "Details"; "Remediation"].

(** The columns that all findings share. *)
Definition csv_row (category : string) (p : finding_project) (entity role accountType : string) (sev : Severity)
    (violation details remediation : string) : list string :=
  [category; Itoa (fp_ProjectID p); fp_ProjectName p; fp_ProjectPath p; fp_ProjectStatus p; fp_ProjectWebURL p; entity; role; accountType;
   severity_text sev; violation; details; remediation].

Definition user_csv (category : string) (f : UserAccessFinding) : list string :=
  csv_row category (uf_Project f) ("@" +:+ uf_Username f +:+ " (" +:+ uf_Name f +:+ ")") (uf_AccessRoleName f) (uf_AccountType f)
    (uf_Severity f) (uf_ViolationType f) (uf_Details f) (uf_Remediation f).

Definition branch_csv (f : ProtectedBranchFinding) : list string :=
  csv_row "protected_branches" (bf_Project f) (bf_BranchName f) (bf_PushAccessLevelsSummary f) "N/A" (bf_Severity f)
    (Join (bf_Violations f) "; ") (bf_Details f) (bf_Remediation f).

Definition env_csv (f : ProtectedEnvironmentFinding) : list string :=
  csv_row "protected_environments" (ef_Project f) (ef_EnvironmentName f) (ef_DeployAccessLevelsSummary f) "N/A" (ef_Severity f)
    (Join (ef_Violations f) "; ") (ef_Details f) (ef_Remediation f).

Definition retention_csv (f : PipelineRetentionFinding) : list string :=
  csv_row "Pipeline Retention" (nf_Project f)
    ("Retention: " +:+ Itoa (nf_RetentionDays f) +:+ "d (" +:+ Itoa (nf_RetentionSeconds f) +:+ "s)")
    ("Stale: " +:+ Itoa (nf_StalePipelinesCount f) +:+ " (Oldest: #" +:+ Itoa (nf_OldestPipelineID f) +:+ ")") "N/A" (nf_Severity f)
    (nf_ViolationType f) (nf_Details f) (nf_Remediation f).

Definition file_csv (f : RepositoryFileFinding) : list string :=
  csv_row "Repository Files" (ff_Project f) ("File: " +:+ ff_FilePath f +:+ " (Branch: " +:+ ff_TargetBranch f +:+ ")") (ff_ViolationType f) "N/A"
    (ff_Severity f) (ff_ViolationType f) (ff_Details f) (ff_Remediation f).

Definition tag_csv (f : ProtectedTagFinding) : list string :=
  csv_row "Protected Tags" (gf_Project f) (gf_TagNamePattern f) (gf_CreateAccessLevelsSummary f) "N/A" (gf_Severity f)
    (Join (gf_Violations f) "; ") (gf_Details f) (gf_Remediation f).

Definition audit_rows (fs : findings) : list (list string) :=
  (user_csv "user_access" <$> fs_UserAccess fs) ++ (user_csv "bots_and_service_accounts" <$> fs_BotAccess fs)
  ++ (branch_csv <$> fs_ProtectedBranches fs) ++ (env_csv <$> fs_ProtectedEnvs fs) ++ (retention_csv <$> fs_PipelineRetention fs)
  ++ (file_csv <$> fs_RepositoryFiles fs) ++ (tag_csv <$> fs_ProtectedTags fs).

Definition exportCSV (report : AuditReport) : string := csv_write (csv_headers :: audit_rows (rp_Findings report)).

(** ** time.RFC1123 in UTC *)

Definition days_of_week : list string := ["Sun"; "Mon"; "Tue"; "Wed"; "Thu"; "Fri"; "Sat"].
Definition months_of_year : list string :=
  ["Jan"; "Feb"; "Mar"; "Apr"; "May"; "Jun"; "Jul"; "Aug"; "Sep"; "Oct"; "Nov"; "Dec"].

Definition RFC1123 (t : Z) : string :=
  let secs := t / 10 ^ 9 in
  let days := secs / 86400 in
  let '(y, m, d) := civil days in
  let s := secs mod 86400 in
  nth (Z.to_nat ((days + 4) mod 7)) days_of_week "" +:+ ", " +:+ pad 2 d +:+ " " +:+ nth (Z.to_nat (m - 1)) months_of_year "" +:+ " " +:+ pad 4 y
    +:+ " " +:+ pad 2 (s / 3600) +:+ ":" +:+ pad 2 (s mod 3600 / 60) +:+ ":" +:+ pad 2 (s mod 60) +:+ " UTC".

Example RFC1123_text : RFC1123 (1709251199 * 10 ^ 9) = "Thu, 29 Feb 2024 23:59:59 UTC".
Proof. by vm_compute. Qed.

(** When the report was made, in nanoseconds, and how long the audit took. *)
Record report_meta : Type := { mt_GeneratedAt : Z; mt_DurationString : string }.

(** ** Markdown *)

Definition escapeMD (s : string) : string := ReplaceAll (ReplaceAll s "|" "\|") LF " ".

Definition formatBadge (s : Severity) : string :=
  match s with
  | Critical => "🔴 `CRITICAL`"
  | High => "🟠 `HIGH`"
  | Medium => "🟡 `MEDIUM`"
  | Low => "🔵 `LOW`"
  | Pass => "🟢 `PASS`"
  | Info => "`INFO`"
  end.

(** A table: its title, its header, the line under the header, and the cells of
    its rows. *)
Record md_table : Type := { mt_title : string; mt_header : list string; mt_align : string; mt_rows : list (list string) }.

Definition md_row (cells : list string) : string := "| " +:+ Join cells " | " +:+ " |".

Definition md_lines (lines : list string) : string := String.concat "" ((fun l => l +:+ LF) <$> lines).

(** The text of a table, when it has rows. *)
Definition md_table_text (t : md_table) : string :=
  match mt_rows t with
  | [] => ""
  | rows => md_lines ([mt_title t; ""; md_row (mt_header t); mt_align t] ++ (md_row <$> rows) ++ [""])
  end.

Definition code (s : string) : string := "`" +:+ s +:+ "`".

Definition project_link (p : finding_project) : string := "[" +:+ escapeMD (fp_ProjectPath p) +:+ "](" +:+ fp_ProjectWebURL p +:+ ")".

Definition expiration (none : string) (f : UserAccessFinding) : string := if uf_HasExpiration f then uf_ExpiresAt f else none.

Definition yes_no (b : bool) (yes no : string) : string := if b then yes else no.

Definition user_md (f : UserAccessFinding) : list string :=
  [project_link (uf_Project f); fp_ProjectStatus (uf_Project f); "@" +:+ uf_Username f; uf_AccessRoleName f;
   expiration "None (Indefinite)" f; formatBadge (uf_Severity f); escapeMD (uf_Details f); escapeMD (uf_Remediation f)].

Definition bot_md (f : UserAccessFinding) : list string :=
  [project_link (uf_Project f); fp_ProjectStatus (uf_Project f); "@" +:+ uf_Username f +:+ " (" +:+ escapeMD (uf_Name f) +:+ ")";
   uf_AccessRoleName f; expiration "None (Indefinite)" f; formatBadge (uf_Severity f); escapeMD (uf_Details f); escapeMD (uf_Remediation f)].

Definition branch_md (f : ProtectedBranchFinding) : list string :=
  [project_link (bf_Project f); fp_ProjectStatus (bf_Project f); code (bf_BranchName f); yes_no (bf_AllowForcePush f) "**YES**" "No";
   yes_no (bf_CodeOwnerApprovalRequired f) "Yes" "**NO**"; escapeMD (bf_PushAccessLevelsSummary f); formatBadge (bf_Severity f);
   escapeMD (bf_Details f); escapeMD (bf_Remediation f)].

Definition env_md (f : ProtectedEnvironmentFinding) : list string :=
  [project_link (ef_Project f); fp_ProjectStatus (ef_Project f); code (ef_EnvironmentName f); yes_no (ef_IsProduction f) "**Yes**" "No";
   Itoa (ef_RequiredApprovalCount f); escapeMD (ef_DeployAccessLevelsSummary f); formatBadge (ef_Severity f); escapeMD (ef_Details f);
   escapeMD (ef_Remediation f)].

Definition retention_policy_text (f : PipelineRetentionFinding) : string :=
  if nf_HasRetentionConfigured f then Itoa (nf_RetentionDays f) +:+ "d (" +:+ Itoa (nf_RetentionSeconds f) +:+ "s)" else "Disabled (0s)".

Definition oldest_text (suffix : string) (f : PipelineRetentionFinding) : string :=
  if 0 <? nf_OldestPipelineID f then "#" +:+ Itoa (nf_OldestPipelineID f) +:+ " (" +:+ Itoa (nf_OldestPipelineAgeDays f) +:+ suffix +:+ ")" else "-".

Definition retention_md (f : PipelineRetentionFinding) : list string :=
  [project_link (nf_Project f); fp_ProjectStatus (nf_Project f); retention_policy_text f; Itoa (nf_StalePipelinesCount f); oldest_text "d old" f;
   formatBadge (nf_Severity f); escapeMD (nf_ViolationType f); escapeMD (nf_Details f); escapeMD (nf_Remediation f)].

Definition file_md (f : RepositoryFileFinding) : list string :=
  [project_link (ff_Project f); fp_ProjectStatus (ff_Project f); code (escapeMD (ff_FilePath f)); code (escapeMD (ff_TargetBranch f));
   formatBadge (ff_Severity f); escapeMD (ff_ViolationType f); escapeMD (ff_Details f); escapeMD (ff_Remediation f)].

Definition tag_md (f : ProtectedTagFinding) : list string :=
  [project_link (gf_Project f); fp_ProjectStatus (gf_Project f); code (escapeMD (gf_TagNamePattern f)); yes_no (gf_IsProtected f) "Yes" "No";
   escapeMD (gf_CreateAccessLevelsSummary f); formatBadge (gf_Severity f); escapeMD (gf_Details f); escapeMD (gf_Remediation f)].

Definition directory_md (u : UserInfo) : list string :=
  [Itoa (ui_ID u); "[@" +:+ ui_Username u +:+ "](" +:+ ui_WebURL u +:+ ")"; escapeMD (ui_Name u); ui_AccountType u; ui_State u;
   Itoa (ui_ProjectsCount u)].

Definition md_tables (report : AuditReport) : list md_table :=
  let fs := rp_Findings report in [
  {| mt_title := "## 1. Human User Access & Expiration Audit (`user_access`)";
     mt_header := ["Project"; "State"; "Username"; "Role"; "Expiration"; "Status"; "Details"; "Remediation"];
     mt_align := "|---|---|---|---|---|:---:|---|---|"; mt_rows := user_md <$> fs_UserAccess fs |};
  {| mt_title := "## 2. Bots & Service Accounts Audit";
     mt_header := ["Project"; "State"; "Bot / Account"; "Role"; "Expiration"; "Status"; "Details"; "Remediation"];
     mt_align := "|---|---|---|---|---|:---:|---|---|"; mt_rows := bot_md <$> fs_BotAccess fs |};
  {| mt_title := "## 3. Protected Branches Compliance Audit (`protected_branches`)";
     mt_header := ["Project"; "State"; "Branch"; "Force Push"; "Code Owner"; "Push Access"; "Status"; "Details"; "Remediation"];
     mt_align := "|---|---|---|:---:|:---:|---|:---:|---|---|"; mt_rows := branch_md <$> fs_ProtectedBranches fs |};
  {| mt_title := "## 4. Protected Environments Deployment Audit (`protected_environments`)";
     mt_header := ["Project"; "State"; "Environment"; "Prod?"; "Approvals Required"; "Deploy Access"; "Status"; "Details"; "Remediation"];
     mt_align := "|---|---|---|:---:|:---:|---|:---:|---|---|"; mt_rows := env_md <$> fs_ProtectedEnvs fs |};
  {| mt_title := "## 5. Pipeline Retention & Cleanup Audit (`pipeline_retention`)";
     mt_header := ["Project"; "State"; "Retention Policy"; "Stale Pipelines"; "Oldest Pipeline"; "Status"; "Violation Type"; "Details"; "Remediation"];
     mt_align := "|---|---|---|:---:|---|:---:|---|---|---|"; mt_rows := retention_md <$> fs_PipelineRetention fs |};
  {| mt_title := "## 6. Repository Files Compliance Audit (`repository_files`)";
     mt_header := ["Project"; "State"; "File Path"; "Branch"; "Status"; "Violation Type"; "Details"; "Remediation"];
     mt_align := "|---|---|---|---|:---:|---|---|---|"; mt_rows := file_md <$> fs_RepositoryFiles fs |};
  {| mt_title := "## 7. Protected Tags Compliance Audit (`protected_tags`)";
     mt_header := ["Project"; "State"; "Tag Pattern"; "Protected?"; "Create Access"; "Status"; "Details"; "Remediation"];
     mt_align := "|---|---|---|:---:|---|:---:|---|---|"; mt_rows := tag_md <$> fs_ProtectedTags fs |};
  {| mt_title := "## 8. Fleet User Directory";
     mt_header := ["ID"; "Username"; "Full Name"; "Account Type"; "State"; "Projects Access"];
     mt_align := "|---|---|---|---|---|---:|"; mt_rows := directory_md <$> rp_UserDirectory report |}].

Definition initiator (report : AuditReport) : string :=
  InitiatorDescription (rp_AuthenticatedUser report) (as_AuditedBy (rp_Summary report)).

Definition capacity_text (att : LicenseAttestation) : string :=
  if la_MaxProjects att =? 0 then "Unlimited Projects" else Itoa (la_MaxProjects att) +:+ " Projects".

Definition attested_version (report : AuditReport) (att : LicenseAttestation) : string :=
  let v := la_GovernorVersion att in if (v =? "")%string then rp_GovernorVersion report else v.

Definition md_summary (report : AuditReport) : list string :=
  let s := rp_Summary report in
  let line name n := md_row [name; Itoa n] in
  let strong name n := md_row [name; "**" +:+ Itoa n +:+ "**"] in
  [ "## Executive Summary"; ""; "| Metric | Value |"; "|---|---:|";
    md_row ["GitLab Fleet Governor Version"; code (rp_GovernorVersion report)];
    md_row ["Audit Initiator (Token Identity)"; escapeMD (initiator report)];
    line "Total Repositories Scanned" (as_TotalProjectsScanned s);
    line "Active Repositories" (as_ActiveProjectsCount s);
    line "Archived Repositories" (as_ArchivedProjectsCount s)]
  ++ (if 0 <? as_PendingDeletionProjectsCount s then [line "Pending Deletion Repositories" (as_PendingDeletionProjectsCount s)] else [])
  ++ [line "Fully Compliant Repositories" (as_CompliantProjectsCount s);
    line "Non-Compliant Repositories" (as_NonCompliantProjectsCount s);
    strong "Total Audit Violations" (as_TotalViolations s);
    strong "Critical Severity Violations" (as_CriticalSeverityCount s);
    strong "High Severity Violations" (as_HighSeverityCount s);
    line "Medium Severity Violations" (as_MediumSeverityCount s);
    line "Low Severity Violations" (as_LowSeverityCount s);
    line "Human User Violations" (as_HumanUserViolations s);
    line "Bot / Service Account Violations" (as_BotUserViolations s);
    line "Pipeline Retention Violations" (as_PipelineRetentionViolations s);
    line "Repository File Violations" (as_RepositoryFileViolations s);
    line "Protected Tag Violations" (as_ProtectedTagViolations s);
    line "Unique Fleet Users Discovered" (Z.of_nat (length (rp_UserDirectory report))); ""].

Definition md_attestation (report : AuditReport) : list string :=
  let line name v := md_row ["**" +:+ name +:+ "**"; v] in
  match rp_LicenseAttestation report with None => [] | Some att => [ "## Commercial Licensing & Statutory Attestation"; ""; "| Attestation Property | Record Value |"; "|---|---|";
    line "GitLab Fleet Governor Version" (code (attested_version report att));
    line "Governing License Model" (code (la_LicenseModel att));
    line "Entitlement Status" (code (la_Status att));
    line "Licensed Customer / Entity" (escapeMD (la_LicensedTo att));
    line "Subscription Tier" (la_Tier att);
    line "Fleet Capacity Limit" (capacity_text att);
    line "Governed Projects in Audit" (Itoa (la_DiscoveredProjects att) +:+ " Projects");
    line "Apache 2.0 Change Date" (la_ChangeDate att);
    line "Statutory Compliance Attestation" ("*" +:+ escapeMD (la_AttestationStatement att) +:+ "*"); ""] end.

Definition exportMarkdown (meta : report_meta) (report : AuditReport) : string :=
  md_lines ([
    "# GitLab Fleet Compliance & Security Audit Report"; "";
    "**Governor Version**: `" +:+ rp_GovernorVersion report +:+ "`  ";
    "**Generated At**: " +:+ RFC1123 (mt_GeneratedAt meta) +:+ "  ";
    "**Scan Duration**: " +:+ mt_DurationString meta +:+ "  ";
    "**Audited By**: " +:+ escapeMD (initiator report) +:+ "  ";
    "**Active Modules**: `" +:+ Join (rp_ActiveModules report) "`, `" +:+ "`  "; ""]
    ++ md_summary report ++ md_attestation report)
  +:+ String.concat "" (md_table_text <$> md_tables report).

(** ** HTML *)

Definition html_escape_char (c : ascii) : string :=
  if (c =? "&")%char then "&amp;"
  else if (c =? "'")%char then "&#39;"
  else if (c =? "<")%char then "&lt;"
  else if (c =? ">")%char then "&gt;"
  else if (c =? DQ)%char then "&#34;"
  else String c "".

(** [html.EscapeString]. *)
Fixpoint html_EscapeString (s : string) : string :=
  match s with "" => "" | String c s => html_escape_char c +:+ html_EscapeString s end.

(** Markup, written here with single quotes. *)
Definition markup (s : string) : string := string_map (fun c => if (c =? "'")%char then DQ else c) s.

Definition htmlBadge (s : Severity) : string :=
  match s with
  | Critical => markup "<span class='badge badge-critical'>Critical</span>"
  | High => markup "<span class='badge badge-high'>High</span>"
  | Medium => markup "<span class='badge badge-medium'>Medium</span>"
  | Low => markup "<span class='badge badge-low'>Low</span>"
  | Pass => markup "<span class='badge badge-pass'>Pass</span>"
  | Info => "INFO"
  end.

Definition dangerClass (count : Z) : string := if 0 <? count then "stat-val-danger" else "".

Definition html_head : list string := [
   "<!DOCTYPE html>";
   "<html lang='en'>";
   "<head>";
   "<meta charset='UTF-8'>";
   "<title>GitLab Fleet Compliance & Security Audit</title>";
   "<style>";
   "  body { font-family: -apple-system, BlinkMacSystemFont, 'Segoe UI', Roboto, Helvetica, Arial, sans-serif; margin: 30px; color: #24292e; background-color: #f6f8fa; }";
   "  .container { max-width: 1400px; margin: 0 auto; background: #fff; padding: 30px; border-radius: 8px; box-shadow: 0 1px 3px rgba(0,0,0,0.12); }";
   "  h1 { color: #1f497d; margin-top: 0; }";
   "  h2 { color: #2c3e50; border-bottom: 2px solid #eaecef; padding-bottom: 8px; margin-top: 32px; }";
   "  .meta { color: #586069; font-size: 14px; margin-bottom: 20px; }";
   "  .badge { display: inline-block; padding: 3px 8px; font-size: 11px; font-weight: 700; border-radius: 12px; text-transform: uppercase; }";
   "  .badge-critical { background-color: #fadbd8; color: #78281f; border: 1px solid #f5b7b1; }";
   "  .badge-high { background-color: #fadbd8; color: #78281f; border: 1px solid #f5b7b1; }";
   "  .badge-medium { background-color: #fcf3cf; color: #7d6608; border: 1px solid #f9e79f; }";
   "  .badge-low { background-color: #fdebd0; color: #6e2c00; border: 1px solid #f5cba7; }";
   "  .badge-pass { background-color: #d4efdf; color: #145a32; border: 1px solid #a9dfbf; }";
   "  table { width: 100%; border-collapse: collapse; margin-top: 14px; margin-bottom: 24px; font-size: 13px; }";
   "  th { background-color: #1f497d; color: #ffffff; text-align: left; padding: 10px; border: 1px solid #d1d5da; }";
   "  td { padding: 8px 10px; border: 1px solid #e1e4e8; vertical-align: top; }";
   "  tr:nth-child(even) { background-color: #fcfcfc; }";
   "  a { color: #0366d6; text-decoration: none; }";
   "  a:hover { text-decoration: underline; }";
   "  .stat-grid { display: grid; grid-template-columns: repeat(auto-fit, minmax(180px, 1fr)); gap: 16px; margin: 20px 0; }";
   "  .stat-card { background: #f6f8fa; border: 1px solid #e1e4e8; border-radius: 6px; padding: 16px; text-align: center; }";
   "  .stat-val { font-size: 24px; font-weight: 700; color: #1f497d; margin-top: 6px; }";
   "  .stat-val-danger { color: #cb2431; }";
   "</style>";
   "</head>";
   "<body>";
   "<div class='container'>";
   "<h1>GitLab Fleet Compliance & Security Audit</h1>"
].

(** A card: the class of its value, its label and the value. *)
Definition stat_card (danger : option string) (label : string) (value : Z) : string :=
  markup "  <div class='stat-card'><div>" +:+ label +:+
  match danger with
  | None => markup "</div><div class='stat-val'>"
  | Some d => markup "</div><div class='stat-val " +:+ d +:+ markup "'>"
  end +:+ Itoa value +:+ "</div></div>".

(** A table: its title, its header and the text of its rows. *)
Definition html_table (title : string) (headers : list string) (rows : list string) : string :=
  match rows with
  | [] => ""
  | _ => "<h2>" +:+ title +:+ "</h2>" +:+ LF +:+ "<table>" +:+ LF +:+ "  <thead>" +:+ LF +:+ "    <tr>"
         +:+ String.concat "" ((fun h => "<th>" +:+ h +:+ "</th>") <$> headers) +:+ "</tr>" +:+ LF +:+ "  </thead>" +:+ LF +:+ "  <tbody>"
         +:+ String.concat "" rows +:+ "</tbody></table>"
  end.

Definition html_row (p : finding_project) (cells : list string) : string :=
  "<tr>" +:+ LF +:+ markup "  <td><a href='" +:+ fp_ProjectWebURL p +:+ markup "' target='_blank'>" +:+ fp_ProjectPath p +:+ "</a></td>" +:+ LF
  +:+ md_lines ((fun c => "  <td>" +:+ c +:+ "</td>") <$> fp_ProjectStatus p :: cells) +:+ "</tr>".

Definition html_code (s : string) : string := "<code>" +:+ s +:+ "</code>".

Definition user_html (f : UserAccessFinding) : string :=
  html_row (uf_Project f) ["@" +:+ uf_Username f; uf_AccessRoleName f; expiration "Indefinite" f; htmlBadge (uf_Severity f); uf_Details f;
    uf_Remediation f].

Definition bot_html (f : UserAccessFinding) : string :=
  html_row (uf_Project f) ["@" +:+ uf_Username f +:+ " (" +:+ uf_Name f +:+ ")"; uf_AccessRoleName f; expiration "Indefinite" f;
    htmlBadge (uf_Severity f); uf_Details f; uf_Remediation f].

Definition branch_html (f : ProtectedBranchFinding) : string :=
  html_row (bf_Project f) [html_code (bf_BranchName f); yes_no (bf_AllowForcePush f) "<b>YES</b>" "No";
    yes_no (bf_CodeOwnerApprovalRequired f) "Yes" "<b>NO</b>"; bf_PushAccessLevelsSummary f; htmlBadge (bf_Severity f); bf_Details f;
    bf_Remediation f].

Definition env_html (f : ProtectedEnvironmentFinding) : string :=
  html_row (ef_Project f) [html_code (ef_EnvironmentName f); yes_no (ef_IsProduction f) "<b>Yes</b>" "No"; Itoa (ef_RequiredApprovalCount f);
    ef_DeployAccessLevelsSummary f; htmlBadge (ef_Severity f); ef_Details f; ef_Remediation f].

Definition retention_html (f : PipelineRetentionFinding) : string :=
  html_row (nf_Project f) [retention_policy_text f; Itoa (nf_StalePipelinesCount f); oldest_text "d old" f; htmlBadge (nf_Severity f); nf_Details f;
    nf_Remediation f].

Definition file_html (f : RepositoryFileFinding) : string :=
  html_row (ff_Project f) [html_code (html_EscapeString (ff_FilePath f)); html_code (html_EscapeString (ff_TargetBranch f));
    htmlBadge (ff_Severity f); html_EscapeString (ff_ViolationType f); html_EscapeString (ff_Details f); html_EscapeString (ff_Remediation f)].

Definition tag_html (f : ProtectedTagFinding) : string :=
  html_row (gf_Project f) [html_code (html_EscapeString (gf_TagNamePattern f)); yes_no (gf_IsProtected f) "Yes" "No";
    html_EscapeString (gf_CreateAccessLevelsSummary f); htmlBadge (gf_Severity f); gf_Details f; gf_Remediation f].

Definition html_attestation (report : AuditReport) : string :=
  let row name v := "    <tr><td><b>" +:+ name +:+ "</b></td><td>" +:+ v +:+ "</td></tr>" in
  match rp_LicenseAttestation report with None => "" | Some att => md_lines [
    "<h2>Commercial Licensing & Statutory Attestation</h2>"; "<table>"; "  <thead>";
    "    <tr><th>Attestation Property</th><th>Attestation Record</th></tr>"; "  </thead>"; "  <tbody>";
    row "GitLab Fleet Governor Version" (html_EscapeString (attested_version report att));
    row "Governing License Model" (html_EscapeString (la_LicenseModel att));
    row "Entitlement Status" (html_EscapeString (la_Status att));
    row "Licensed Entity / Customer" (html_EscapeString (la_LicensedTo att));
    row "Subscription Tier" (html_EscapeString (la_Tier att));
    row "Fleet Capacity Limit" (capacity_text att);
    row "Governed Projects in Audit" (Itoa (la_DiscoveredProjects att) +:+ " Projects");
    row "Apache 2.0 Change Date" (html_EscapeString (la_ChangeDate att));
    row "Statutory Compliance Statement" ("<i>" +:+ html_EscapeString (la_AttestationStatement att) +:+ "</i>");
    "  </tbody>"; "</table>"] end.

Definition html_cards (s : AuditSummary) : list string :=
  let danger n := Some (dangerClass n) in
  [ stat_card None "Repositories Scanned" (as_TotalProjectsScanned s); stat_card None "Active Repositories" (as_ActiveProjectsCount s);
    stat_card None "Archived Repositories" (as_ArchivedProjectsCount s)]
  ++ (if 0 <? as_PendingDeletionProjectsCount s then [stat_card None "Pending Deletion" (as_PendingDeletionProjectsCount s)] else [])
  ++ [stat_card None "Fully Compliant" (as_CompliantProjectsCount s);
    stat_card (danger (as_TotalViolations s)) "Total Violations" (as_TotalViolations s);
    stat_card (danger (as_CriticalSeverityCount s)) "Critical Severity" (as_CriticalSeverityCount s);
    stat_card (danger (as_HighSeverityCount s)) "High Severity" (as_HighSeverityCount s);
    stat_card (danger (as_HumanUserViolations s)) "Human Violations" (as_HumanUserViolations s);
    stat_card None "Bot / Token Violations" (as_BotUserViolations s);
    stat_card (danger (as_PipelineRetentionViolations s)) "Retention Violations" (as_PipelineRetentionViolations s);
    stat_card (danger (as_RepositoryFileViolations s)) "File Violations" (as_RepositoryFileViolations s);
    stat_card (danger (as_ProtectedTagViolations s)) "Tag Violations" (as_ProtectedTagViolations s)].

Definition exportHTML (meta : report_meta) (report : AuditReport) : string :=
  let fs := rp_Findings report in
  md_lines (markup <$> html_head)
  +:+ md_lines ([markup "<div class='meta'>Governor Version: " +:+ html_EscapeString (rp_GovernorVersion report) +:+ " | Generated: "
      +:+ RFC1123 (mt_GeneratedAt meta) +:+ " | Scan Duration: " +:+ mt_DurationString meta +:+ " | Audited By: "
      +:+ html_EscapeString (initiator report) +:+ "</div>"; ""; markup "<div class='stat-grid'>"]
      ++ html_cards (rp_Summary report) ++ ["</div>"])
  +:+ html_attestation report
  +:+ html_table "Human User Access & Expiration Audit"
        ["Project"; "State"; "Username"; "Role"; "Expiration"; "Status"; "Details"; "Remediation"] (user_html <$> fs_UserAccess fs)
  +:+ html_table "Bots & Service Accounts Audit"
        ["Project"; "State"; "Bot / Account"; "Role"; "Expiration"; "Status"; "Details"; "Remediation"] (bot_html <$> fs_BotAccess fs)
  +:+ html_table "Protected Branches Compliance Audit"
        ["Project"; "State"; "Branch"; "Force Push"; "Code Owner"; "Push Access"; "Status"; "Details"; "Remediation"]
        (branch_html <$> fs_ProtectedBranches fs)
  +:+ html_table "Protected Environments Deployment Audit"
        ["Project"; "State"; "Environment"; "Production?"; "Approvals Required"; "Deploy Access"; "Status"; "Details"; "Remediation"]
        (env_html <$> fs_ProtectedEnvs fs)
  +:+ html_table "Pipeline Retention & Cleanup Audit"
        ["Project"; "State"; "Retention Policy"; "Stale Pipelines"; "Oldest Pipeline"; "Status"; "Details"; "Remediation"]
        (retention_html <$> fs_PipelineRetention fs)
  +:+ html_table "Repository Files Compliance Audit"
        ["Project"; "State"; "File Path"; "Branch"; "Status"; "Violation Type"; "Details"; "Remediation"] (file_html <$> fs_RepositoryFiles fs)
  +:+ html_table "Protected Tags Compliance Audit"
        ["Project"; "State"; "Tag Pattern"; "Protected?"; "Create Access"; "Status"; "Details"; "Remediation"] (tag_html <$> fs_ProtectedTags fs)
  +:+ "</div></body></html>".

(** ** The terminal table *)

(** [truncate], by bytes. *)
Definition truncate (s : string) (max : nat) : string :=
  if (String.length s <=? max)%nat then s
  else if (max <=? 3)%nat then String.substring 0 max s
  else String.substring 0 (max - 3) s +:+ "...".

(** [fmt.Sprintf] of left-justified columns and a last one. *)
Definition columns (cells : list (nat * string)) (last : string) : string :=
  String.concat "" ((fun wc => pad_right wc.1 wc.2 +:+ " ") <$> cells) +:+ last.

Definition repeated (n : nat) (c : ascii) : string := String.string_of_list_ascii (replicate n c).

(** A section: its title, the line of its columns and its rows. *)
Definition table_section (title header : string) (rows : list string) : string :=
  match rows with [] => "" | _ => md_lines ([title; header; repeated 105 "-"] ++ rows ++ [""]) end.

Definition user_line (f : UserAccessFinding) : string :=
  columns [(28, truncate (fp_ProjectPath (uf_Project f)) 27); (16, truncate ("@" +:+ uf_Username f) 15); (16, truncate (uf_AccessRoleName f) 15);
    (12, truncate (expiration "Indefinite" f) 11); (10, severity_text (uf_Severity f))]%nat (truncate (uf_Details f) 40).

Definition branch_line (f : ProtectedBranchFinding) : string :=
  columns [(28, truncate (fp_ProjectPath (bf_Project f)) 27); (16, truncate (bf_BranchName f) 15); (12, yes_no (bf_AllowForcePush f) "YES" "No");
    (12, yes_no (bf_CodeOwnerApprovalRequired f) "Yes" "NO"); (10, severity_text (bf_Severity f))]%nat (truncate (bf_Details f) 40).

Definition env_line (f : ProtectedEnvironmentFinding) : string :=
  columns [(28, truncate (fp_ProjectPath (ef_Project f)) 27); (16, truncate (ef_EnvironmentName f) 15); (12, yes_no (ef_IsProduction f) "Yes" "No");
    (12, Itoa (ef_RequiredApprovalCount f)); (10, severity_text (ef_Severity f))]%nat (truncate (ef_Details f) 40).

Definition retention_line (f : PipelineRetentionFinding) : string :=
  columns [(28, truncate (fp_ProjectPath (nf_Project f)) 27);
    (16, truncate (if nf_HasRetentionConfigured f then Itoa (nf_RetentionDays f) +:+ "d" else "Disabled") 15);
    (12, truncate (Itoa (nf_StalePipelinesCount f)) 11); (16, truncate (oldest_text "d" f) 15); (10, severity_text (nf_Severity f))]%nat
    (truncate (nf_Details f) 40).

Definition file_line (f : RepositoryFileFinding) : string :=
  columns [(28, truncate (fp_ProjectPath (ff_Project f)) 27); (20, truncate (ff_FilePath f) 19); (12, truncate (ff_TargetBranch f) 11);
    (10, severity_text (ff_Severity f))]%nat (truncate (ff_Details f) 40).

Definition tag_line (f : ProtectedTagFinding) : string :=
  columns [(28, truncate (fp_ProjectPath (gf_Project f)) 27); (20, truncate (gf_TagNamePattern f) 19);
    (12, truncate (yes_no (gf_IsProtected f) "Yes" "No") 11); (10, severity_text (gf_Severity f))]%nat (truncate (gf_Details f) 40).

Definition table_projects (s : AuditSummary) : string :=
  "Projects       : Scanned: " +:+ Itoa (as_TotalProjectsScanned s) +:+ " (Active: " +:+ Itoa (as_ActiveProjectsCount s) +:+ ", Archived: "
  +:+ Itoa (as_ArchivedProjectsCount s)
  +:+ (if 0 <? as_PendingDeletionProjectsCount s then ", Pending Deletion: " +:+ Itoa (as_PendingDeletionProjectsCount s) else "")
  +:+ ") | Compliant: " +:+ Itoa (as_CompliantProjectsCount s) +:+ " | Non-Compliant: " +:+ Itoa (as_NonCompliantProjectsCount s).

Definition rule : string := repeated 80 "=".

Definition exportTable (meta : report_meta) (report : AuditReport) : string :=
  let s := rp_Summary report in
  let fs := rp_Findings report in
  md_lines ([ ""; rule; "                  GITLAB FLEET COMPLIANCE & SECURITY AUDIT"; rule;
    "Governor Version: " +:+ (if (rp_GovernorVersion report =? "")%string then "dev" else rp_GovernorVersion report);
    "Scan Completed : " +:+ RFC1123 (mt_GeneratedAt meta) +:+ " (Duration: " +:+ mt_DurationString meta +:+ ")";
    "Audited By     : " +:+ initiator report; table_projects s;
    "Violations     : Total: " +:+ Itoa (as_TotalViolations s) +:+ " (Critical: " +:+ Itoa (as_CriticalSeverityCount s) +:+ ", High: "
      +:+ Itoa (as_HighSeverityCount s) +:+ ", Medium: " +:+ Itoa (as_MediumSeverityCount s) +:+ ", Low: " +:+ Itoa (as_LowSeverityCount s) +:+ ")";
    "Account Types  : Human Violations: " +:+ Itoa (as_HumanUserViolations s) +:+ " | Bot/Service Account Violations: " +:+ Itoa (as_BotUserViolations s);
    "Pipeline Audit : Retention & Cleanup Violations: " +:+ Itoa (as_PipelineRetentionViolations s);
    "Repository Files: File & CODEOWNERS Violations: " +:+ Itoa (as_RepositoryFileViolations s);
    "Protected Tags : Protected Tag Violations: " +:+ Itoa (as_ProtectedTagViolations s)]
    ++ match rp_LicenseAttestation report with
       | None => []
       | Some att =>
           ["Licensing      : " +:+ la_LicenseModel att +:+ " (Tier: " +:+ la_Tier att +:+ ") | Status: " +:+ la_Status att +:+ " | Licensed To: " +:+ la_LicensedTo att;
            "Attestation    : " +:+ la_AttestationStatement att]
       end
    ++ [rule; ""])
  +:+ table_section "[HUMAN USER ACCESS & EXPIRATION FINDINGS]"
        (columns [(28, "PROJECT"); (16, "USER"); (16, "ROLE"); (12, "EXPIRATION"); (10, "STATUS")]%nat "DETAILS") (user_line <$> fs_UserAccess fs)
  +:+ table_section "[BOTS & SERVICE ACCOUNTS ACCESS FINDINGS]"
        (columns [(28, "PROJECT"); (16, "BOT / ACCOUNT"); (16, "ROLE"); (12, "EXPIRATION"); (10, "STATUS")]%nat "DETAILS")
        (user_line <$> fs_BotAccess fs)
  +:+ table_section "[PROTECTED BRANCHES FINDINGS]"
        (columns [(28, "PROJECT"); (16, "BRANCH"); (12, "FORCE PUSH"); (12, "CODE OWNER"); (10, "STATUS")]%nat "DETAILS")
        (branch_line <$> fs_ProtectedBranches fs)
  +:+ table_section "[PROTECTED ENVIRONMENTS FINDINGS]"
        (columns [(28, "PROJECT"); (16, "ENVIRONMENT"); (12, "PROD?"); (12, "APPROVALS"); (10, "STATUS")]%nat "DETAILS")
        (env_line <$> fs_ProtectedEnvs fs)
  +:+ table_section "[PIPELINE RETENTION & CLEANUP FINDINGS]"
        (columns [(28, "PROJECT"); (16, "RETENTION"); (12, "STALE COUNT"); (16, "OLDEST PIPELINE"); (10, "STATUS")]%nat "DETAILS")
        (retention_line <$> fs_PipelineRetention fs)
  +:+ table_section "[REPOSITORY FILES FINDINGS]"
        (columns [(28, "PROJECT"); (20, "FILE"); (12, "BRANCH"); (10, "STATUS")]%nat "DETAILS") (file_line <$> fs_RepositoryFiles fs)
  +:+ table_section "[PROTECTED TAGS FINDINGS]"
        (columns [(28, "PROJECT"); (20, "TAG PATTERN"); (12, "PROTECTED?"); (10, "STATUS")]%nat "DETAILS") (tag_line <$> fs_ProtectedTags fs).

(** The workbook and the JSON are made by their own encoders. *)
Definition ExportAuditReport (xlsx json : AuditReport -> error + string) (meta : report_meta) (report : option AuditReport) (format : ExportFormat)
    (has_out : bool) : error + string :=
  match report with
  | None => inl (ErrNew "audit report cannot be nil")
  | Some r =>
      if negb has_out then inl (ErrNew "output writer cannot be nil")
      else match format with
           | ExportXLSX => xlsx r
           | ExportJSON => json r
           | ExportCSV => inr (exportCSV r)
           | ExportMarkdown => inr (exportMarkdown meta r)
           | ExportHTML => inr (exportHTML meta r)
           | ExportTable => inr (exportTable meta r)
           end
  end.

(** ** Lemmas: the cells of a Markdown row *)

(** The split of a row of a GFM table: at the pipes that no backslash precedes;
    [esc] is whether one precedes the text. *)
Fixpoint md_split (esc : bool) (cur s : string) : list string :=
  match s with
  | "" => [cur]
  | String c s =>
      if (c =? "|")%char && negb esc then cur :: md_split false "" s
      else md_split (c =? "\")%char (cur +:+ String c "") s
  end.

(** Text that stays in its cell and on its line. *)
Fixpoint md_safe (esc : bool) (s : string) : bool :=
  match s with
  | "" => true
  | String c s => (negb (c =? "|")%char || esc) && negb (c =? EOL)%char && md_safe (c =? "\")%char s
  end.

(** [ReplaceAll] of one byte. *)
Fixpoint subst_byte (c : ascii) (new s : string) : string :=
  match s with "" => "" | String x s => (if (x =? c)%char then new else String x "") +:+ subst_byte c new s end.

Lemma ReplaceAll_byte c new s : ReplaceAll s (String c "") new = subst_byte c new s.
Proof.
  unfold ReplaceAll. induction s as [|x s IH]; [done|]. cbn [replace_go subst_byte].
  unfold HasPrefix. cbn [String.prefix]. destruct (ascii_dec c x) as [->|Hne].
  - rewrite Ascii.eqb_refl. cbn [String.length Nat.sub]. replace (String.prefix "" s) with true by (by destruct s).
    f_equal. exact IH.
  - destruct (Ascii.eqb_spec x c) as [->|_]; [done|]. cbn. f_equal. exact IH.
Qed.

Lemma md_safe_mono esc s : md_safe false s = true -> md_safe esc s = true.
Proof. destruct esc; [|done]. destruct s as [|c s]; [done|]. cbn [md_safe]. rewrite orb_false_r, orb_true_r. by intros [[_ ->]%andb_prop ->]%andb_prop. Qed.

Lemma md_safe_app esc a b : md_safe esc a = true -> md_safe false b = true -> md_safe esc (a +:+ b) = true.
Proof.
  intros Ha Hb. revert esc Ha. induction a as [|c a IH]; intros esc Ha; [by apply md_safe_mono|].
  rewrite string_app_cons. cbn [md_safe] in *. apply andb_prop in Ha as [-> Ha]. by apply IH.
Qed.

Lemma escapeMD_safe s : md_safe false (escapeMD s) = true.
Proof.
  unfold escapeMD, LF. rewrite !ReplaceAll_byte. induction s as [|c s IH]; [done|]. cbn [subst_byte].
  destruct (Ascii.eqb_spec c "|") as [->|Hp]; [exact IH|]. rewrite string_app_cons, string_app_nil_l. cbn [subst_byte].
  destruct (Ascii.eqb_spec c "010") as [->|Hn]; [exact IH|]. rewrite string_app_cons, string_app_nil_l. cbn [md_safe].
  apply Ascii.eqb_neq in Hp, Hn. unfold EOL. rewrite Hp, Hn. by apply md_safe_mono.
Qed.

Lemma md_safe_Itoa z : md_safe false (Itoa z) = true.
Proof.
  pose proof (Itoa_numeral z) as Hn. revert Hn. generalize (Itoa z) false. induction s as [|c s IH]; intros b Hn; [done|].
  rewrite string_all_cons in Hn. apply andb_prop in Hn as [Hc Hn]. cbn [md_safe]. rewrite IH by done. rewrite andb_true_r.
  destruct (Ascii.eqb_spec c "|") as [->|]; [done|]. by destruct (Ascii.eqb_spec c EOL) as [->|].
Qed.

Lemma md_split_safe s : forall esc cur rest,
  md_safe esc s = true -> md_split esc cur (s +:+ String " " rest) = md_split false (cur +:+ s +:+ " ") rest.
Proof.
  induction s as [|c s IH]; intros esc cur rest Hs; [done|]. rewrite string_app_cons. cbn [md_safe md_split] in *.
  apply andb_prop in Hs as [[Hp _]%andb_prop Hs].
  replace ((c =? "|")%char && negb esc) with false by (by destruct (c =? "|")%char, esc). rewrite IH by done.
  by rewrite string_app_snoc.
Qed.

Lemma md_row_cells cells : cells <> [] -> md_row cells = String "|" (String.concat "" ((fun c => " " +:+ c +:+ " |") <$> cells)).
Proof.
  intros Hne. unfold md_row. change ("| " +:+ ?x) with (String "|" (" " +:+ x)). f_equal. induction cells as [|a [|b l] IH]; [done|done|].
  specialize (IH ltac:(done)). change (Join (a :: b :: l) " | ") with (a +:+ " | " +:+ Join (b :: l) " | ").
  change (String.concat "" ((fun c => " " +:+ c +:+ " |") <$> a :: b :: l))
    with ((" " +:+ a +:+ " |") +:+ String.concat "" ((fun c => " " +:+ c +:+ " |") <$> b :: l)).
  rewrite <- IH, !string_app_assoc. reflexivity.
Qed.

(** A row of safe cells splits into its cells. *)
Lemma md_row_split cells :
  cells <> [] -> Forall (fun c => md_safe false c = true) cells ->
  md_split false "" (md_row cells) = "" :: ((fun c => " " +:+ c +:+ " ") <$> cells) ++ [""].
Proof.
  intros Hne Hs. rewrite md_row_cells by done. cbn [md_split Ascii.eqb]. change ((("|" =? "|")%char && negb false)) with true. cbv iota. f_equal.
  clear Hne. induction Hs as [|c l Hc _ IH]; [done|].
  assert (String.concat "" ((fun c => " " +:+ c +:+ " |") <$> c :: l) =
    String " " (c +:+ String " " (String "|" (String.concat "" ((fun c => " " +:+ c +:+ " |") <$> l))))) as ->.
  { destruct l; [done|]. change (String.concat "" ((fun c => " " +:+ c +:+ " |") <$> c :: ?l'))
      with ((" " +:+ c +:+ " |") +:+ String.concat "" ((fun c => " " +:+ c +:+ " |") <$> l')).
    by rewrite !string_app_assoc. }
  change (md_split false "" (String " " ?x)) with (md_split false " " x). rewrite md_split_safe by done.
  change (md_split false ?cur (String "|" ?x)) with (cur :: md_split false "" x). by rewrite IH.
Qed.

Lemma md_safe_line s : forall esc, md_safe esc s = true -> string_all (fun c => negb (c =? EOL)%char) s = true.
Proof.
  induction s as [|c s IH]; intros esc Hs; [done|]. cbn [md_safe] in Hs. apply andb_prop in Hs as [[_ Hc]%andb_prop Hs].
  by rewrite string_all_cons, Hc, (IH _ Hs).
Qed.

Lemma formatBadge_safe sev : md_safe false (formatBadge sev) = true.
Proof. by destruct sev; vm_compute. Qed.

Lemma yes_no_safe b yes no : md_safe false yes = true -> md_safe false no = true -> md_safe false (yes_no b yes no) = true.
Proof. by destruct b. Qed.

Create HintDb markdown.
#[export] Hint Resolve escapeMD_safe md_safe_Itoa formatBadge_safe : markdown.

(** Safety of the texts that are put together of safe ones. *)
Ltac md_solve :=
  repeat first
    [ assumption | reflexivity | progress unfold project_link, code, oldest_text, retention_policy_text
    | match goal with
      | |- md_safe _ (if ?b then _ else _) = true => destruct b
      | |- md_safe _ (_ +:+ _) = true => apply md_safe_app
      | |- md_safe _ (yes_no _ _ _) = true => apply yes_no_safe
      | |- Forall _ (_ :: _) => constructor
      | |- Forall _ [] => constructor
      end
    | solve [auto with markdown] ].

(** ** Properties of the tables *)

(** The fields that the Markdown shows as they are. *)
Definition shown_project (p : finding_project) : list string := [fp_ProjectWebURL p; fp_ProjectStatus p].
Definition raw_user (f : UserAccessFinding) : list string :=
  shown_project (uf_Project f) ++ [uf_Username f; uf_AccessRoleName f; uf_ExpiresAt f].
Definition raw_directory (u : UserInfo) : list string := [ui_Username u; ui_WebURL u; ui_AccountType u; ui_State u].

Definition raw_fields (report : AuditReport) : list string :=
  let fs := rp_Findings report in
  (fs_UserAccess fs ≫= raw_user) ++ (fs_BotAccess fs ≫= raw_user)
  ++ (fs_ProtectedBranches fs ≫= fun f => bf_BranchName f :: shown_project (bf_Project f))
  ++ (fs_ProtectedEnvs fs ≫= fun f => ef_EnvironmentName f :: shown_project (ef_Project f))
  ++ (fs_PipelineRetention fs ≫= fun f => shown_project (nf_Project f)) ++ (fs_RepositoryFiles fs ≫= fun f => shown_project (ff_Project f))
  ++ (fs_ProtectedTags fs ≫= fun f => shown_project (gf_Project f)) ++ (rp_UserDirectory report ≫= raw_directory).

Abbreviation safe := (fun s => md_safe false s = true).

(** The rows of a table have its columns, and safe cells. *)
Definition table_ok (t : md_table) : Prop :=
  Forall (fun row => length row = length (mt_header t) /\ Forall safe row) (mt_rows t).

Lemma rows_ok {A} (raw : A -> list string) (cells : A -> list string) title header align (l : list A) :
  Forall safe (l ≫= raw) ->
  (forall f, Forall safe (raw f) -> length (cells f) = length header /\ Forall safe (cells f)) ->
  table_ok {| mt_title := title; mt_header := header; mt_align := align; mt_rows := cells <$> l |}.
Proof.
  intros Hl Hc. unfold table_ok. apply Forall_fmap. rewrite Forall_bind in Hl. eapply Forall_impl; [exact Hl|].
  intros f Hf. by apply Hc.
Qed.

Lemma md_tables_ok report : Forall safe (raw_fields report) -> Forall table_ok (md_tables report).
Proof.
  unfold raw_fields. rewrite !Forall_app. intros (H1 & H2 & H3 & H4 & H5 & H6 & H7 & H8). unfold md_tables.
  repeat (apply Forall_cons; split); [..|constructor];
    [apply (rows_ok raw_user)|apply (rows_ok raw_user)|apply (rows_ok (fun f => bf_BranchName f :: shown_project (bf_Project f)))
    |apply (rows_ok (fun f => ef_EnvironmentName f :: shown_project (ef_Project f)))|apply (rows_ok (fun f => shown_project (nf_Project f)))
    |apply (rows_ok (fun f => shown_project (ff_Project f)))|apply (rows_ok (fun f => shown_project (gf_Project f)))
    |apply (rows_ok raw_directory)]; try assumption; intros f Hf; split; [reflexivity| |reflexivity| |reflexivity| |reflexivity| |reflexivity|
    |reflexivity| |reflexivity| |reflexivity| ]; unfold raw_user, shown_project, raw_directory in Hf; cbn [app] in Hf; rewrite ?Forall_cons in Hf;
    destruct_and?; unfold user_md, bot_md, branch_md, env_md, retention_md, file_md, tag_md, directory_md, expiration; md_solve.
Qed.

Lemma md_row_line cells : Forall safe cells -> string_all (fun c => negb (c =? EOL)%char) (md_row cells) = true.
Proof.
  intros Hs. unfold md_row. rewrite !string_all_app. cbn. rewrite andb_true_r. induction Hs as [|c [|d l] Hc _ IH]; [done| |].
  - by eapply md_safe_line.
  - change (Join (c :: d :: l) " | ") with (c +:+ " | " +:+ Join (d :: l) " | "). rewrite !string_all_app, IH. cbn.
    by rewrite (md_safe_line _ _ Hc).
Qed.

(** The tables of the Markdown report keep their shape: every row is one line
    and splits into as many cells as the table has columns, namely those that
    were written, whatever the paths, names, details and remediations hold; the
    condition is on the fields that are not escaped. *)
Theorem Audit_markdown_tables report :
  Forall safe (raw_fields report) ->
  forall t row, t ∈ md_tables report -> row ∈ mt_rows t ->
    length row = length (mt_header t) /\ string_all (fun c => negb (c =? EOL)%char) (md_row row) = true /\
    md_split false "" (md_row row) = "" :: ((fun c => " " +:+ c +:+ " ") <$> row) ++ [""].
Proof.
  intros Hraw t row Ht Hrow. pose proof (md_tables_ok report Hraw) as Hok. rewrite Forall_forall in Hok. specialize (Hok t Ht).
  unfold table_ok in Hok. rewrite Forall_forall in Hok. destruct (Hok row Hrow) as [Hlen Hs]. split_and!; [done|by apply md_row_line|].
  apply md_row_split; [|done]. intros ->. unfold md_tables in Ht. repeat (apply elem_of_cons in Ht as [->|Ht]; [done|]). by apply elem_of_nil in Ht.
Qed.

(** ** Properties of the CSV *)

(** The project and the status of a row, and whether it is a violation. *)
Definition row_key (r : list string) : string * string := (nth 1 r "", nth 9 r "").
Definition key_violates (k : string * string) : bool := negb (k.2 =? "PASS")%string && negb (k.2 =? "INFO")%string.
Definition row_violates (r : list string) : bool := key_violates (row_key r).

Lemma audit_rows_keys fs :
  row_key <$> audit_rows fs = (fun f : finding_list * (Z * Severity) => (Itoa f.2.1, severity_text f.2.2)) <$> all_findings fs.
Proof. unfold audit_rows, all_findings. rewrite !fmap_app, <- !list_fmap_compose. repeat f_equal. Qed.

Lemma audit_rows_length fs : Forall (fun r => length r = 13%nat) (audit_rows fs).
Proof. unfold audit_rows. rewrite !Forall_app, !Forall_fmap. repeat split; by apply Forall_true. Qed.

Lemma tally_fmap {A B} (P : B -> bool) (f : A -> B) l : tally P (f <$> l) = tally (fun x => P (f x)) l.
Proof. unfold tally. induction l as [|x l IH]; [done|]. cbn. destruct (P (f x)); cbn; lia. Qed.

Lemma tally_ext {A} (P Q : A -> bool) l : (forall x, P x = Q x) -> tally P l = tally Q l.
Proof. intros He. unfold tally. induction l as [|x l IH]; [done|]. cbn. rewrite He. destruct (Q x); cbn; lia. Qed.

Lemma summary_total s fs : as_TotalViolations (ComputeSummary s fs) = tally violating (all_findings fs).
Proof.
  unfold ComputeSummary. pose proof (count_all_counted (all_findings fs) s) as Hc. destruct (count_all _ _) as [s1 bad]. by destruct Hc.
Qed.

(** The CSV of an audit gives back, to a reader of RFC 4180, one row of
    thirteen fields for each finding, in order, with its project and its
    severity, whatever the texts hold; the rows that violate a baseline are as
    many as the summary of the report says. *)
Theorem Audit_csv_exact s report :
  rp_Summary report = ComputeSummary s (rp_Findings report) ->
  exists rows, csv_read (exportCSV report) = Some (csv_headers :: rows) /\ Forall (fun r => length r = 13%nat) rows /\
    row_key <$> rows = (fun f : finding_list * (Z * Severity) => (Itoa f.2.1, severity_text f.2.2)) <$> all_findings (rp_Findings report) /\
    tally row_violates rows = as_TotalViolations (rp_Summary report).
Proof.
  intros Hs. exists (audit_rows (rp_Findings report)). split_and!.
  - apply csv_roundtrip. constructor; [done|]. eapply Forall_impl; [apply audit_rows_length|]. by intros [].
  - apply audit_rows_length.
  - apply audit_rows_keys.
  - rewrite Hs, summary_total. unfold row_violates.
    rewrite <- (tally_fmap key_violates row_key), audit_rows_keys, tally_fmap. apply tally_ext. by intros [m [p []]].
Qed.

(** ** Examples and witnesses *)

Definition demo_meta : report_meta := {| mt_GeneratedAt := 1709251199 * 10 ^ 9; mt_DurationString := "2s" |}.

Definition demo_audit_report : AuditReport :=
  match demo_audit_run false [] 11 with
  | Some (inr rep, _) => rep
  | _ => Build_AuditReport "" None [] (initial_summary [] None)
           (Some (buildLicenseAttestation (H0 := demo_license) demo_license_env None (demo_auditor []) None 0)) no_findings []
  end.

Definition demo_summary : AuditSummary := initial_summary (ProjectList demo_audited) (rp_AuthenticatedUser demo_audit_report).

Lemma Audit_csv_exact_witness :
  exists rows, csv_read (exportCSV demo_audit_report) = Some (csv_headers :: rows) /\ tally row_violates rows = 8.
Proof.
  destruct (Audit_csv_exact demo_summary demo_audit_report) as (rows & Hr & _ & _ & Hv).
  - vm_compute. reflexivity.
  - exists rows. split; [exact Hr|]. rewrite Hv. vm_compute. reflexivity.
Defined.

Lemma Audit_markdown_tables_witness :
  exists t row, t ∈ md_tables demo_audit_report /\ row ∈ mt_rows t /\ length (md_split false "" (md_row row)) = 10%nat.
Proof.
  assert (forall t row, t ∈ md_tables demo_audit_report -> row ∈ mt_rows t -> length (md_split false "" (md_row row)) = (length (mt_header t) + 2)%nat) as H.
  { intros t row Ht Hrow. destruct (Audit_markdown_tables demo_audit_report) with (t := t) (row := row) as (Hl & _ & Hs); [|done..|].
    - vm_compute. repeat constructor.
    - rewrite Hs. cbn [length]. rewrite length_app, length_fmap, Hl. cbn [length]. lia. }
  do 2 eexists. split; [vm_compute; left|]. split; [left|]. rewrite (H _ _ ltac:(vm_compute; left) ltac:(left)). reflexivity.
Defined.

Definition demo_branch_finding (branch : string) : ProtectedBranchFinding := {|
  bf_Project := {| fp_ProjectID := 1; fp_ProjectName := "api"; fp_ProjectPath := "platform/api"; fp_ProjectWebURL := "https://gitlab.example.com/platform/api";
                   fp_ProjectStatus := "Active" |};
  bf_BranchName := branch; bf_IsDefaultBranch := false; bf_IsProtected := true; bf_AllowForcePush := false; bf_CodeOwnerApprovalRequired := true;
  bf_PushAccessLevelsSummary := "Maintainer (40)"; bf_MergeAccessLevelsSummary := ""; bf_DirectUserPushGrants := []; bf_DirectGroupPushGrants := [];
  bf_Severity := Pass; bf_Violations := []; bf_Details := "Branch protection meets all security baselines"; bf_Remediation := "No action required" |}.

(** A pipe in the name of a branch, which git allows, adds a cell to its row. *)
Example branch_name_breaks_table :
  length (md_split false "" (md_row (branch_md (demo_branch_finding "a|b")))) = 12%nat /\
  length (md_split false "" (md_row (branch_md (demo_branch_finding "main")))) = 11%nat.
Proof. by vm_compute. Qed.

(** The HTML report shows the name of a branch, and the details of every finding
    but those of files, as markup. *)
Example branch_name_is_markup : Contains (branch_html (demo_branch_finding "<svg/onload=alert(1)>")) "<td><code><svg/onload=alert(1)></code></td>" = true.
Proof. by vm_compute. Qed.
