(* ===== verification/Xlsx.v ===== *)
(** * The workbook of an audit: internal/audit/report/xlsx.go

    The sheets of the workbook, as the calls of the excelize library that the
    generator makes: the styles, the summary with its tables, the seven sheets of
    findings and the directory of the users.  The library is not modelled: its
    calls are effects, the name of a cell is a parameter ([GoExcelize]), and
    [excel_laws] states what its documentation says of them.
    [Workbook_shows_findings] shows that a reader of the workbook finds every
    finding in its row, although the cells of a project are merged. *)

From S2P Require Import Prelude GoLib GoTime Config GitLabAPI RepositoryFiles License Discovery AuditModel Auditor Report AuditReport.
Local Open Scope string_scope.
Local Open Scope list_scope.
Local Open Scope Z_scope.

(** ** The library *)

(** What is written to a cell. *)
Inductive cell_value : Type :=
| CInt (z : Z)
| CStr (s : string).

#[export] Instance cell_value_eq_dec : EqDecision cell_value.
Proof. solve_decision. Defined.

(** [fmt.Sprintf("%v", val)]. *)
Definition cell_text (v : cell_value) : string := match v with CInt z => Itoa z | CStr s => s end.

(** An [excelize.Style]; the family of every font is Segoe UI, every text is
    centered vertically and every border is thin and gray. *)
Record excel_style : Type := {
  xs_Bold : bool;
  xs_Color : string;
  xs_Size : Z;
  xs_Underline : string;
  xs_Fill : option string;
  xs_Horizontal : string;
  xs_WrapText : bool;
  xs_Border : bool
}.

(** The calls of an [excelize.File]; [unit] where the source drops the error. *)
Variant XlsxE : Type -> Type :=
| NewStyle (s : excel_style) : XlsxE (error + Z)
| NewSheet (sheet : string) : XlsxE (option error)
| SetCellValue (sheet cell : string) (v : cell_value) : XlsxE unit
| SetCellStyle (sheet top bottom : string) (style : Z) : XlsxE unit
| SetCellHyperLink (sheet cell link : string) : XlsxE unit
| MergeCell (sheet top bottom : string) : XlsxE unit
| SetColWidth (sheet first last : string) (width : Z) : XlsxE unit
| DeleteSheet (sheet : string) : XlsxE unit
| GetSheetIndex (sheet : string) : XlsxE (error + Z)
| SetActiveSheet (index : Z) : XlsxE unit
| WriteTo : XlsxE (option error)
| CloseFile : XlsxE unit.

(** [excelize.CoordinatesToCellName(col, row)]. *)
Class GoExcelize : Type := CoordinatesToCellName : Z -> Z -> string.

(** ** Styles *)

Variant style_name : Type :=
| headerStyle | subHeaderStyle | sectionStyle | metricKeyStyle | metricValStyle | dataCellStyle | centerCellStyle | hyperlinkStyle
| passStatusStyle | highStatusStyle | medStatusStyle | warnStatusStyle | cardHeaderStyle | cardValStyle | cardDangerStyle.

#[export] Instance style_name_eq_dec : EqDecision style_name.
Proof. solve_decision. Defined.

Definition style_of (n : style_name) : excel_style :=
  let st bold color size fill horizontal wrap border := {|
    xs_Bold := bold; xs_Color := color; xs_Size := size; xs_Underline := ""; xs_Fill := fill; xs_Horizontal := horizontal;
    xs_WrapText := wrap; xs_Border := border |} in
  match n with
  | headerStyle => st true "FFFFFF" 11 (Some "#1F497D") "center" true true
  | subHeaderStyle => st true "1F497D" 11 (Some "#DCE6F1") "left" true true
  | sectionStyle => st true "1F497D" 14 None "left" false false
  | metricKeyStyle => st true "333333" 10 (Some "#F2F4F4") "left" false true
  | metricValStyle => st true "111111" 10 None "center" false true
  | dataCellStyle => st false "222222" 10 None "left" true true
  | centerCellStyle => st false "222222" 10 None "center" true true
  | hyperlinkStyle => {| xs_Bold := false; xs_Color := "1265BE"; xs_Size := 10; xs_Underline := "single"; xs_Fill := None;
                         xs_Horizontal := "left"; xs_WrapText := true; xs_Border := true |}
  | passStatusStyle => st true "145A32" 10 (Some "#D4EFDF") "center" false true
  | highStatusStyle => st true "78281F" 10 (Some "#FADBD8") "center" false true
  | medStatusStyle => st true "7D6608" 10 (Some "#FCF3CF") "center" false true
  | warnStatusStyle => st true "6E2C00" 10 (Some "#FDEBD0") "center" false true
  | cardHeaderStyle => st true "555555" 9 (Some "#EAEDED") "center" false true
  | cardValStyle => st true "1F497D" 16 None "center" false true
  | cardDangerStyle => st true "900C3F" 16 None "center" false true
  end.

(** The styles in the order in which they are made. *)
Definition style_names : list style_name :=
  [headerStyle; subHeaderStyle; sectionStyle; metricKeyStyle; metricValStyle; dataCellStyle; centerCellStyle; hyperlinkStyle;
   passStatusStyle; highStatusStyle; medStatusStyle; warnStatusStyle; cardHeaderStyle; cardValStyle; cardDangerStyle].

(** The identifiers that the library gives the styles. *)
Abbreviation styles := (style_name -> Z).

Fixpoint new_styles (names : list style_name) (g : styles) : prog XlsxE (error + styles) :=
  match names with
  | [] => mret (inr g)
  | n :: names =>
      r ← call (NewStyle (style_of n));
      match r with
      | inl e => mret (inl e)
      | inr id => new_styles names (fun m => if bool_decide (m = n) then id else g m)
      end
  end.

Definition initStyles : prog XlsxE (error + styles) := new_styles style_names (fun _ => 0).

Definition severityStyle (s : Severity) : style_name :=
  match s with
  | Critical | High => highStatusStyle
  | Medium => medStatusStyle
  | Low | Info => warnStatusStyle
  | Pass => passStatusStyle
  end.

Definition boolToYesNo (b : bool) : string := if b then "Yes" else "No".

Section Workbook.
Context `{GoExcelize}.

(** [for i, a := range l], from an index on. *)
Fixpoint range {A} (f : Z -> A -> prog XlsxE unit) (i : Z) (l : list A) : prog XlsxE unit :=
  match l with
  | [] => mret tt
  | a :: l => _ ← f i a; range f (i + 1) l
  end.

(** ** The executive summary *)

Definition cellB (row : Z) : string := "B" +:+ Itoa row.
Definition cellC (row : Z) : string := "C" +:+ Itoa row.

(** A table of two columns under its header; every line has a label, a value and
    the style of the value. *)
Definition pair_table (g : styles) (sheet : string) (row : Z) (left right : string) (l : list (string * cell_value * style_name))
    : prog XlsxE unit :=
  _ ← call (SetCellValue sheet (cellB row) (CStr left));
  _ ← call (SetCellValue sheet (cellC row) (CStr right));
  _ ← call (SetCellStyle sheet (cellB row) (cellC row) (g headerStyle));
  range (fun r '(label, v, st) =>
    _ ← call (SetCellValue sheet (cellB r) (CStr label));
    _ ← call (SetCellValue sheet (cellC r) v);
    _ ← call (SetCellStyle sheet (cellB r) (cellB r) (g metricKeyStyle));
    call (SetCellStyle sheet (cellC r) (cellC r) (g st))) (row + 1) l.

Definition overview (report : AuditReport) : list (string * cell_value * style_name) :=
  let s := rp_Summary report in
  let line label n := (label, CInt n, metricValStyle) in
  let marked label n st := (label, CInt n, if 0 <? n then st else metricValStyle) in [
  ("GitLab Fleet Governor Version", CStr (rp_GovernorVersion report), metricValStyle);
  ("Audit Initiator (Token Identity)", CStr (initiator report), metricValStyle);
  line "Total Target Repositories Scanned" (as_TotalProjectsScanned s);
  line "Active Repositories (Governance Priority)" (as_ActiveProjectsCount s);
  line "Archived Repositories (De-prioritized)" (as_ArchivedProjectsCount s);
  line "Pending Deletion Repositories (Scheduled for Purge)" (as_PendingDeletionProjectsCount s);
  marked "Fully Compliant Repositories" (as_CompliantProjectsCount s) passStatusStyle;
  line "Non-Compliant Repositories (Drift/Risk Detected)" (as_NonCompliantProjectsCount s);
  line "Total Audit Violations Detected" (as_TotalViolations s);
  marked "Critical Severity Violations" (as_CriticalSeverityCount s) highStatusStyle;
  marked "High Severity Violations" (as_HighSeverityCount s) highStatusStyle;
  line "Medium Severity Violations" (as_MediumSeverityCount s);
  line "Low Severity Violations" (as_LowSeverityCount s);
  line "Human Member Access Violations" (as_HumanUserViolations s);
  line "Bot / Service Account Indefinite Access" (as_BotUserViolations s);
  line "Total Unique Fleet Users Discovered" (Z.of_nat (length (rp_UserDirectory report)))].

Definition module_breakdown (report : AuditReport) : list (string * cell_value * style_name) :=
  let s := rp_Summary report in
  let line label n := (label, CInt n, if 0 <? n then highStatusStyle else passStatusStyle) in [
  line "User Access & Expiration Auditor (user_access)" (as_UserAccessViolations s);
  line "Protected Branches Compliance Auditor (protected_branches)" (as_ProtectedBranchViolations s);
  line "Protected Environments Deployment Auditor (protected_environments)" (as_ProtectedEnvViolations s);
  line "Pipeline Retention & Cleanup Auditor (pipeline_retention)" (as_PipelineRetentionViolations s);
  line "Repository Files & CODEOWNERS Auditor (repository_files)" (as_RepositoryFileViolations s);
  line "Protected Tags Compliance Auditor (protected_tags)" (as_ProtectedTagViolations s)].

Definition entitlement_style (status : string) : style_name :=
  if existsb (String.eqb status) ["VALID_COMMERCIAL"; "APACHE_2_CONVERTED"; "EXEMPTED_DRY_RUN"] then passStatusStyle
  else if (status =? "OPERATING_IN_GRACE_PERIOD")%string then warnStatusStyle
  else centerCellStyle.

Definition attestation_lines (report : AuditReport) (att : LicenseAttestation) : list (string * cell_value * style_name) :=
  let line label v := (label, CStr v, dataCellStyle) in [
  line "GitLab Fleet Governor Version" (attested_version report att);
  line "Governing License Model" (la_LicenseModel att);
  ("Entitlement Status", CStr (la_Status att), entitlement_style (la_Status att));
  line "Licensed Customer / Entity" (la_LicensedTo att);
  line "Subscription Tier" (la_Tier att);
  line "Fleet Project Capacity Limit" (capacity_text att);
  line "Governed Projects in Audit" (Itoa (la_DiscoveredProjects att) +:+ " Projects");
  line "3-Year Apache 2.0 Change Date" (la_ChangeDate att);
  line "Statutory Compliance Attestation" (la_AttestationStatement att)].

Definition generated_line (meta : report_meta) (report : AuditReport) : string :=
  "Report Generated: " +:+ RFC1123 (mt_GeneratedAt meta) +:+ " | Scan Duration: " +:+ mt_DurationString meta +:+ " | Version: "
  +:+ rp_GovernorVersion report.

Definition startRow : Z := 6.
Definition modRow (report : AuditReport) : Z := startRow + Z.of_nat (length (overview report)) + 2.
Definition attestation_title : string := "Commercial Licensing & Compliance Attestation (BSL 1.1 / SOC 2 / ISO 27001)".
Definition licRow (report : AuditReport) : Z := modRow report + Z.of_nat (length (module_breakdown report)) + 2.

(** A new sheet and what is written to it. *)
Definition with_sheet (sheet : string) (body : prog XlsxE unit) : prog XlsxE (option error) :=
  e ← call (NewSheet sheet);
  match e with Some e => mret (Some e) | None => _ ← body; mret None end.

Definition buildExecutiveSummarySheet (meta : report_meta) (g : styles) (report : AuditReport) : prog XlsxE (option error) :=
  let sheet := "Executive Summary" in
  with_sheet sheet (
    _ ← call (SetCellValue sheet "B2" (CStr "GitLab Fleet Compliance & Security Audit"));
    _ ← call (SetCellStyle sheet "B2" "B2" (g sectionStyle));
    _ ← call (SetCellValue sheet "B3" (CStr (generated_line meta report)));
    _ ← call (SetCellValue sheet "B4" (CStr ("Audit Initiated By (Token User): " +:+ initiator report)));
    _ ← pair_table g sheet startRow "Fleet Governance KPI Indicator" "Metric Value" (overview report);
    _ ← pair_table g sheet (modRow report) "Audit Module" "Violations Found" (module_breakdown report);
    _ ← match rp_LicenseAttestation report with
        | Some att => pair_table g sheet (licRow report) attestation_title "Attestation Value" (attestation_lines report att)
        | None => mret tt
        end;
    _ ← call (SetColWidth sheet "A" "A" 4);
    _ ← call (SetColWidth sheet "B" "B" 65);
    call (SetColWidth sheet "C" "C" 25)).

(** ** A sheet with a row for each entry *)

(** A row: the project it is about and its link, its cells, and the style of each
    cell but the one with the link. *)
Record sheet_row : Type := {
  sr_ProjectID : Z;
  sr_Link : string;
  sr_values : list cell_value;
  sr_style : Z -> style_name
}.

(** The description of a sheet: its header, the column of its links and its
    rows. *)
Record sheet_spec : Type := { sp_sheet : string; sp_headers : list string; sp_link : Z; sp_rows : list sheet_row }.

Definition write_headers (g : styles) (sp : sheet_spec) : prog XlsxE unit :=
  _ ← range (fun colIdx h => call (SetCellValue (sp_sheet sp) (CoordinatesToCellName (colIdx + 1) 1) (CStr h))) 0 (sp_headers sp);
  call (SetCellStyle (sp_sheet sp) "A1" (CoordinatesToCellName (Z.of_nat (length (sp_headers sp))) 1) (g headerStyle)).

Definition write_cell (g : styles) (sp : sheet_spec) (row : Z) (r : sheet_row) (colIdx : Z) (val : cell_value) : prog XlsxE unit :=
  let cell := CoordinatesToCellName (colIdx + 1) row in
  _ ← call (SetCellValue (sp_sheet sp) cell val);
  if colIdx =? sp_link sp then
    if (sr_Link r =? "")%string then call (SetCellStyle (sp_sheet sp) cell cell (g dataCellStyle))
    else
      _ ← call (SetCellHyperLink (sp_sheet sp) cell (sr_Link r));
      call (SetCellStyle (sp_sheet sp) cell cell (g hyperlinkStyle))
  else call (SetCellStyle (sp_sheet sp) cell cell (g (sr_style r colIdx))).

Definition write_rows (g : styles) (sp : sheet_spec) : prog XlsxE unit :=
  range (fun row r => range (write_cell g sp row r) 0 (sr_values r)) 2 (sp_rows sp).

Record projectSpan : Type := { ps_ProjectID : Z; ps_StartRow : Z; ps_EndRow : Z }.

(** The rows of the same project that follow each other, from a row on. *)
Fixpoint project_spans (row : Z) (current : option projectSpan) (ids : list Z) : list projectSpan :=
  match ids with
  | [] => match current with Some c => [c] | None => [] end
  | id :: ids =>
      let opened := Some {| ps_ProjectID := id; ps_StartRow := row; ps_EndRow := row |} in
      match current with
      | None => project_spans (row + 1) opened ids
      | Some c =>
          if ps_ProjectID c =? id
          then project_spans (row + 1) (Some {| ps_ProjectID := id; ps_StartRow := ps_StartRow c; ps_EndRow := row |}) ids
          else c :: project_spans (row + 1) opened ids
      end
  end.

(** The cells that are merged: a column, and the first and the last row. *)
Definition merges_of (spans : list projectSpan) : list (Z * Z * Z) :=
  flat_map (fun s => if ps_StartRow s <? ps_EndRow s then (fun col => (col, ps_StartRow s, ps_EndRow s)) <$> [1; 2; 3; 4] else []) spans.

Definition merge_cells (sheet : string) (merges : list (Z * Z * Z)) : prog XlsxE unit :=
  range (fun _ '(col, first, last) => call (MergeCell sheet (CoordinatesToCellName col first) (CoordinatesToCellName col last))) 0 merges.

Definition applyColumnWidths (sheet : string) (maxLens : list Z) : prog XlsxE unit :=
  range (fun i len =>
    let colLetter := TrimRight "1" (CoordinatesToCellName (i + 1) 1) in
    call (SetColWidth sheet colLetter colLetter (Z.min 60 (Z.max 12 (len + 3))))) 0 maxLens.

(** The length of the longest line, and of the text. *)
Definition longest_line (s : string) : Z := foldr (fun l m => Z.max (Z.of_nat (String.length l)) m) 0 (SplitByte "010" s).
Definition text_length (s : string) : Z := Z.of_nat (String.length s).

Definition max_lengths (measure : string -> Z) (sp : sheet_spec) : list Z :=
  foldl (fun lens r => zip_with Z.max lens ((fun v => measure (cell_text v)) <$> sr_values r)) (text_length <$> sp_headers sp) (sp_rows sp).

Definition project_sheet (g : styles) (sp : sheet_spec) : prog XlsxE (option error) :=
  with_sheet (sp_sheet sp) (
    _ ← write_headers g sp;
    _ ← write_rows g sp;
    _ ← merge_cells (sp_sheet sp) (merges_of (project_spans 2 None (sr_ProjectID <$> sp_rows sp)));
    applyColumnWidths (sp_sheet sp) (max_lengths longest_line sp)).

Definition directory_sheet (g : styles) (sp : sheet_spec) : prog XlsxE (option error) :=
  with_sheet (sp_sheet sp) (
    _ ← write_headers g sp;
    _ ← write_rows g sp;
    applyColumnWidths (sp_sheet sp) (max_lengths text_length sp)).

(** ** The sheets *)

Definition among (cols : list Z) (col : Z) : bool := existsb (Z.eqb col) cols.

Definition granted (l : list string) : string := match l with [] => "None" | _ => Join l ", " end.

Definition grant_style (l : list string) : style_name := match l with [] => centerCellStyle | _ => highStatusStyle end.

Definition project_state (p : finding_project) : string := or_string (fp_ProjectStatus p) "Active".

(** The four columns that say which project a row is about. *)
Definition project_cells (p : finding_project) : list cell_value :=
  [CInt (fp_ProjectID p); CStr (fp_ProjectName p); CStr (project_state p); CStr (fp_ProjectWebURL p)].

Definition finding_row (p : finding_project) (values : list cell_value) (style : Z -> style_name) : sheet_row := {|
  sr_ProjectID := fp_ProjectID p; sr_Link := fp_ProjectWebURL p; sr_values := values; sr_style := style |}.

Definition access_row (f : UserAccessFinding) : sheet_row :=
  finding_row (uf_Project f)
    (project_cells (uf_Project f)
     ++ [CStr ("@" +:+ uf_Username f); CStr (uf_Name f); CStr (uf_Email f); CStr (uf_AccessRoleName f); CInt (uf_AccessLevel f);
         CStr (or_string (uf_MembershipType f) (if uf_IsDirect f then "Direct (Project)" else "Inherited (Group)"));
         CStr (expiration "Indefinite (None)" f); CStr (severity_text (uf_Severity f)); CStr (uf_ViolationType f); CStr (uf_Details f);
         CStr (uf_Remediation f)])
    (fun col => if among [0; 2; 8; 9] col then centerCellStyle else if col =? 11 then severityStyle (uf_Severity f) else dataCellStyle).

Definition UserAccessSheet (fs : findings) : sheet_spec := {|
  sp_sheet := "User Access";
  sp_headers := ["Project ID"; "Project Name"; "Project State"; "Project URL"; "Username"; "Member Name"; "Email"; "Access Role"; "Access Level";
                 "Membership Type"; "Expiration Date"; "Status"; "Violation Type"; "Details"; "Remediation"];
  sp_link := 3; sp_rows := access_row <$> fs_UserAccess fs |}.

Definition BotAccessSheet (fs : findings) : sheet_spec := {|
  sp_sheet := "Bots & Service Accounts";
  sp_headers := ["Project ID"; "Project Name"; "Project State"; "Project URL"; "Bot / Account"; "Bot Name / Description"; "Email"; "Access Role";
                 "Access Level"; "Membership Type"; "Expiration Date"; "Status"; "Violation Type"; "Details"; "Remediation"];
  sp_link := 3; sp_rows := access_row <$> fs_BotAccess fs |}.

Definition branch_row (f : ProtectedBranchFinding) : sheet_row :=
  finding_row (bf_Project f)
    (project_cells (bf_Project f)
     ++ [CStr (bf_BranchName f); CStr (boolToYesNo (bf_IsDefaultBranch f)); CStr (boolToYesNo (bf_IsProtected f));
         CStr (if bf_AllowForcePush f then "YES (Violation)" else "No");
         CStr (if bf_CodeOwnerApprovalRequired f then "YES (Enforced)" else "NO (Missing)");
         CStr (bf_PushAccessLevelsSummary f); CStr (granted (bf_DirectUserPushGrants f)); CStr (bf_MergeAccessLevelsSummary f);
         CStr (severity_text (bf_Severity f)); CStr (bf_Details f); CStr (bf_Remediation f)])
    (fun col =>
       if among [0; 2; 5; 6] col then centerCellStyle
       else if col =? 7 then (if bf_AllowForcePush f then highStatusStyle else passStatusStyle)
       else if col =? 8 then (if bf_CodeOwnerApprovalRequired f then passStatusStyle else highStatusStyle)
       else if col =? 10 then grant_style (bf_DirectUserPushGrants f)
       else if col =? 12 then severityStyle (bf_Severity f)
       else dataCellStyle).

Definition ProtectedBranchesSheet (fs : findings) : sheet_spec := {|
  sp_sheet := "Protected Branch Access";
  sp_headers := ["Project ID"; "Project Name"; "Project State"; "Project URL"; "Branch Name"; "Default?"; "Protected?"; "Force Push Allowed?";
                 "Code Owner Approval Required?"; "Push Access Summary"; "Direct User Push Grants"; "Merge Access Summary"; "Status";
                 "Violations / Details"; "Remediation"];
  sp_link := 3; sp_rows := branch_row <$> fs_ProtectedBranches fs |}.

Definition env_row (f : ProtectedEnvironmentFinding) : sheet_row :=
  finding_row (ef_Project f)
    (project_cells (ef_Project f)
     ++ [CStr (ef_EnvironmentName f); CStr (boolToYesNo (ef_IsProduction f)); CInt (ef_RequiredApprovalCount f);
         CStr (ef_DeployAccessLevelsSummary f); CStr (granted (ef_DirectUserDeployGrants f)); CStr (granted (ef_DirectGroupDeployGrants f));
         CStr (severity_text (ef_Severity f)); CStr (ef_Details f); CStr (ef_Remediation f)])
    (fun col =>
       if among [0; 2; 5; 6] col then centerCellStyle
       else if col =? 8 then grant_style (ef_DirectUserDeployGrants f)
       else if col =? 10 then severityStyle (ef_Severity f)
       else dataCellStyle).

Definition ProtectedEnvironmentsSheet (fs : findings) : sheet_spec := {|
  sp_sheet := "Protected Environments Access";
  sp_headers := ["Project ID"; "Project Name"; "Project State"; "Project URL"; "Environment Name"; "Production Tier?"; "Required Approvals";
                 "Deploy Access Summary"; "Direct User Deploy Grants"; "Direct Group Deploy Grants"; "Status"; "Violations / Details";
                 "Remediation"];
  sp_link := 3; sp_rows := env_row <$> fs_ProtectedEnvs fs |}.

Definition retention_row (f : PipelineRetentionFinding) : sheet_row :=
  finding_row (nf_Project f)
    (project_cells (nf_Project f)
     ++ [CStr (if nf_HasRetentionConfigured f
               then "Configured (" +:+ Itoa (nf_RetentionDays f) +:+ "d / " +:+ Itoa (nf_RetentionSeconds f) +:+ "s)" else "Disabled (0s)");
         CInt (nf_RetentionDays f); CInt (nf_StalePipelinesCount f);
         CStr (if 0 <? nf_OldestPipelineID f then "#" +:+ Itoa (nf_OldestPipelineID f) else "-");
         CStr (or_string (nf_OldestPipelineRef f) "-"); CStr (or_string (nf_OldestPipelineCreated f) "-");
         CStr (if 0 <? nf_OldestPipelineAgeDays f then Itoa (nf_OldestPipelineAgeDays f) +:+ "d" else "-");
         CStr (severity_text (nf_Severity f)); CStr (nf_ViolationType f); CStr (nf_Details f); CStr (nf_Remediation f)])
    (fun col => if among [0; 2; 5; 6; 7; 8; 9; 10] col then centerCellStyle else if col =? 11 then severityStyle (nf_Severity f) else dataCellStyle).

Definition PipelineRetentionSheet (fs : findings) : sheet_spec := {|
  sp_sheet := "Pipeline Retention";
  sp_headers := ["Project ID"; "Project Name"; "Project State"; "Project URL"; "Retention Policy"; "Retention (Days)"; "Stale Pipelines Found";
                 "Oldest Pipeline ID"; "Oldest Pipeline Ref"; "Oldest Pipeline Created"; "Oldest Age (Days)"; "Status"; "Violation Type";
                 "Details"; "Remediation"];
  sp_link := 3; sp_rows := retention_row <$> fs_PipelineRetention fs |}.

(** Under the name of the project this sheet has its path, and its state as it
    is. *)
Definition file_row (f : RepositoryFileFinding) : sheet_row :=
  let p := ff_Project f in
  finding_row p
    [CInt (fp_ProjectID p); CStr (fp_ProjectPath p); CStr (fp_ProjectStatus p); CStr (fp_ProjectWebURL p); CStr (ff_FilePath f);
     CStr (ff_TargetBranch f); CStr (if ff_FileExists f then "Yes" else "No"); CStr (severity_text (ff_Severity f)); CStr (ff_ViolationType f);
     CStr (ff_Details f); CStr (ff_Remediation f)]
    (fun col => if among [0; 2; 5; 6] col then centerCellStyle else if col =? 7 then severityStyle (ff_Severity f) else dataCellStyle).

Definition RepositoryFilesSheet (fs : findings) : sheet_spec := {|
  sp_sheet := "Repository Files";
  sp_headers := ["Project ID"; "Project Name"; "Project State"; "Project URL"; "File Path"; "Target Branch"; "File Exists"; "Status";
                 "Violation Type"; "Details"; "Remediation"];
  sp_link := 3; sp_rows := file_row <$> fs_RepositoryFiles fs |}.

Definition tag_row (f : ProtectedTagFinding) : sheet_row :=
  finding_row (gf_Project f)
    (project_cells (gf_Project f)
     ++ [CStr (gf_TagNamePattern f); CStr (boolToYesNo (gf_IsProtected f)); CStr (gf_CreateAccessLevelsSummary f);
         CStr (granted (gf_DirectUserCreateGrants f)); CStr (granted (gf_DirectGroupCreateGrants f)); CStr (severity_text (gf_Severity f));
         CStr (gf_Details f); CStr (gf_Remediation f)])
    (fun col =>
       if among [0; 2; 5] col then centerCellStyle
       else if col =? 7 then grant_style (gf_DirectUserCreateGrants f)
       else if col =? 8 then centerCellStyle
       else if col =? 9 then severityStyle (gf_Severity f)
       else dataCellStyle).

Definition ProtectedTagsSheet (fs : findings) : sheet_spec := {|
  sp_sheet := "Protected Tags";
  sp_headers := ["Project ID"; "Project Name"; "Project State"; "Project URL"; "Tag Pattern"; "Protected?"; "Create Access Summary";
                 "Direct User Create Grants"; "Direct Group Create Grants"; "Status"; "Violations / Details"; "Remediation"];
  sp_link := 3; sp_rows := tag_row <$> fs_ProtectedTags fs |}.

Definition user_row (u : UserInfo) : sheet_row := {|
  sr_ProjectID := 0; sr_Link := ui_WebURL u;
  sr_values := [CInt (ui_ID u); CStr ("@" +:+ ui_Username u); CStr (ui_Name u); CStr (or_string (ui_Email u) "N/A"); CStr (ui_AccountType u);
                CStr (or_string (ui_State u) "active"); CInt (ui_ProjectsCount u); CStr (ui_WebURL u)];
  sr_style := fun col =>
    if among [0; 5; 6] col then centerCellStyle
    else if col =? 4 then (if ui_IsBot u then warnStatusStyle else passStatusStyle)
    else dataCellStyle |}.

Definition UserDirectorySheet (users : list UserInfo) : sheet_spec := {|
  sp_sheet := "User Directory";
  sp_headers := ["User ID"; "Username"; "Full Name"; "Email"; "Account Type"; "State"; "Projects Accessible"; "Profile URL"];
  sp_link := 7; sp_rows := user_row <$> users |}.

(** ** GenerateXLSX *)

(** The sheets in order, each with the text of its error. *)
Definition sheet_steps (meta : report_meta) (g : styles) (report : AuditReport) : list (string * prog XlsxE (option error)) :=
  let fs := rp_Findings report in [
  ("failed to build executive summary sheet: ", buildExecutiveSummarySheet meta g report);
  ("failed to build user access sheet: ", project_sheet g (UserAccessSheet fs));
  ("failed to build bots & service accounts sheet: ", project_sheet g (BotAccessSheet fs));
  ("failed to build protected branches sheet: ", project_sheet g (ProtectedBranchesSheet fs));
  ("failed to build protected environments sheet: ", project_sheet g (ProtectedEnvironmentsSheet fs));
  ("failed to build pipeline retention sheet: ", project_sheet g (PipelineRetentionSheet fs));
  ("failed to build repository files sheet: ", project_sheet g (RepositoryFilesSheet fs));
  ("failed to build protected tags sheet: ", project_sheet g (ProtectedTagsSheet fs));
  ("failed to build user directory sheet: ", directory_sheet g (UserDirectorySheet (rp_UserDirectory report)))].

Fixpoint run_steps (steps : list (string * prog XlsxE (option error))) : prog XlsxE (option error) :=
  match steps with
  | [] => mret None
  | (msg, step) :: steps =>
      e ← step;
      match e with Some e => mret (Some (ErrWrap msg e)) | None => run_steps steps end
  end.

Definition activate (idx : error + Z) : prog XlsxE unit :=
  match idx with inr i => if 0 <=? i then call (SetActiveSheet i) else mret tt | inl _ => mret tt end.

Definition finish_workbook : prog XlsxE (option error) :=
  _ ← call (DeleteSheet "Sheet1");
  idx ← call (GetSheetIndex "Executive Summary");
  _ ← activate idx;
  e ← call WriteTo;
  mret (option_map (ErrWrap "failed to write excel workbook to output stream: ") e).

Definition build_workbook (meta : report_meta) (report : AuditReport) : prog XlsxE (option error) :=
  g ← initStyles;
  match g with
  | inl e => mret (Some (ErrWrap "failed to initialize excel styles: " e))
  | inr g =>
      e ← run_steps (sheet_steps meta g report);
      match e with Some e => mret (Some e) | None => finish_workbook end
  end.

(** [GenerateXLSX] on a fresh file; [None] is a nil report. *)
Definition GenerateXLSX (meta : report_meta) (report : option AuditReport) : prog XlsxE (option error) :=
  match report with
  | None => mret (Some (ErrNew "audit report cannot be nil"))
  | Some r =>
      e ← build_workbook meta r;
      _ ← call CloseFile;
      mret e
  end.

(** ** What the documentation of the library says

    A file has sheets; a sheet has cells, some of which are merged. *)

Definition on_sheet (c r : Z) : Prop := 1 <= c <= 26 /\ 1 <= r <= 1048576.

(** A text that a cell can hold. *)
Definition storable (v : cell_value) : Prop := match v with CInt _ => True | CStr s => Z.of_nat (String.length s) <= 32767 end.

Definition column_letter (c : Z) : ascii := ascii_of_N (Z.to_N (c + 64)).

(** A call that changes no cell. *)
Definition harmless X (e : XlsxE X) : Prop :=
  match e with NewSheet _ | SetCellValue _ _ _ | MergeCell _ _ _ | DeleteSheet _ | CloseFile => False | _ => True end.

(** What can be seen of a file, and what a reader sees of the document that was
    written. *)
Record excel_view (W : Type) : Type := {
  has_sheet : W -> string -> Prop;
  merged : W -> string -> Z -> Z -> Prop;
  cell_of : W -> string -> Z -> Z -> option cell_value;
  read : W -> string -> Z -> Z -> option cell_value
}.

Arguments has_sheet {W}. Arguments merged {W}. Arguments cell_of {W}. Arguments read {W}.

Section Laws.
Context {W : Type} (h : handler XlsxE W) (v : excel_view W).

Definition agree_on (P : string -> Prop) (w w' : W) : Prop :=
  forall s, P s -> (has_sheet v w' s <-> has_sheet v w s) /\
    forall c r, on_sheet c r -> (merged v w' s c r <-> merged v w s c r) /\ cell_of v w' s c r = cell_of v w s c r.

(** A merged range reads as its first cell everywhere. *)
Record excel_laws : Prop := {
  el_name c r : on_sheet c r -> CoordinatesToCellName c r = String (column_letter c) (Itoa r);
  el_harmless X (e : XlsxE X) w : harmless X e -> agree_on (fun _ => True) w (h X e w).2;
  el_new s w : ~ has_sheet v w s -> (h _ (NewSheet s) w).1 = None ->
    let w' := (h _ (NewSheet s) w).2 in
    agree_on (fun s' => s' <> s) w w' /\ has_sheet v w' s /\ forall c r, on_sheet c r -> ~ merged v w' s c r;
  el_delete s w : agree_on (fun s' => s' <> s) w (h _ (DeleteSheet s) w).2;
  el_set s c r val w : has_sheet v w s -> on_sheet c r -> ~ merged v w s c r -> storable val ->
    let w' := (h _ (SetCellValue s (CoordinatesToCellName c r) val) w).2 in
    agree_on (fun s' => s' <> s) w w' /\ has_sheet v w' s /\
    forall c' r', on_sheet c' r' -> (merged v w' s c' r' <-> merged v w s c' r') /\
      cell_of v w' s c' r' = if bool_decide ((c', r') = (c, r)) then Some val else cell_of v w s c' r';
  el_merge s c r1 r2 w : has_sheet v w s -> on_sheet c r1 -> on_sheet c r2 -> r1 <= r2 ->
    (forall r, r1 <= r <= r2 -> ~ merged v w s c r) ->
    let w' := (h _ (MergeCell s (CoordinatesToCellName c r1) (CoordinatesToCellName c r2)) w).2 in
    agree_on (fun s' => s' <> s) w w' /\ has_sheet v w' s /\
    forall c' r', on_sheet c' r' -> (merged v w' s c' r' <-> merged v w s c' r' \/ c' = c /\ r1 <= r' <= r2) /\
      cell_of v w' s c' r' = if bool_decide (c' = c /\ r1 <= r' <= r2) then cell_of v w s c r1 else cell_of v w s c' r';
  el_write w : (h _ WriteTo w).1 = None ->
    forall s c r, has_sheet v w s -> on_sheet c r -> read v (h _ WriteTo w).2 s c r = cell_of v w s c r;
  el_close w s c r : read v (h _ CloseFile w).2 s c r = read v w s c r
}.

Context (laws : excel_laws).

(** ** The values that a computation writes *)

Abbreviation cells := (list (Z * Z * cell_value)).

(** The value of the last write to a cell. *)
Fixpoint last_write (l : cells) (c r : Z) : option cell_value :=
  match l with
  | [] => None
  | (c', r', val) :: l =>
      match last_write l c r with Some x => Some x | None => if bool_decide ((c, r) = (c', r')) then Some val else None end
  end.

Lemma last_write_app l1 l2 c r :
  last_write (l1 ++ l2) c r = match last_write l2 c r with Some x => Some x | None => last_write l1 c r end.
Proof. induction l1 as [|[[c' r'] x] l1 IH]; cbn; [by destruct (last_write l2 c r)|]. rewrite IH. by destruct (last_write l2 c r). Qed.

Lemma last_write_nodup l c r x : NoDup (fst <$> l) -> (c, r, x) ∈ l -> last_write l c r = Some x.
Proof.
  induction l as [|[[c' r'] x'] l IH]; [by intros _ ?%not_elem_of_nil|]. cbn [fmap list_fmap fst last_write]. rewrite NoDup_cons.
  intros [Hn Hd] [He|He]%elem_of_cons; [|by rewrite (IH Hd He)]. injection He as -> -> ->.
  destruct (last_write l c' r') as [y|] eqn:E; [|by rewrite bool_decide_true]. exfalso. apply Hn. clear -E.
  induction l as [|[[c r] z] l IH]; [done|]. cbn in *. destruct (last_write l c' r').
  - apply elem_of_cons. right. by apply IH.
  - case_bool_decide as Hb; [|done]. injection Hb as -> ->. apply elem_of_cons. by left.
Qed.

(** On the way from [w] to [w'] the writes [l], and nothing else, happened to the
    sheet [s]. *)
Definition effect (s : string) (l : cells) (w w' : W) : Prop :=
  agree_on (fun s' => s' <> s) w w' /\ has_sheet v w' s /\
  forall c r, on_sheet c r -> (merged v w' s c r <-> merged v w s c r) /\
    cell_of v w' s c r = match last_write l c r with Some x => Some x | None => cell_of v w s c r end.

Definition clean (s : string) (w : W) : Prop := has_sheet v w s /\ forall c r, on_sheet c r -> ~ merged v w s c r.

Definition writes {A} (s : string) (p : prog XlsxE A) (l : cells) : Prop := forall w, clean s w -> effect s l w (run h p w).2.

Lemma agree_trans P w w1 w2 : agree_on P w w1 -> agree_on P w1 w2 -> agree_on P w w2.
Proof.
  intros H1 H2 s Hs. destruct (H1 s Hs) as [Ha Hb], (H2 s Hs) as [Hc Hd]. split; [by rewrite Hc|]. intros c r Hon.
  destruct (Hb c r Hon) as [Hm He], (Hd c r Hon) as [Hm' He']. split; [by rewrite Hm'|by rewrite He'].
Qed.

Lemma effect_clean s l w w' : clean s w -> effect s l w w' -> clean s w'.
Proof. intros [_ Hm] (_ & Hs & He). split; [done|]. intros c r Hon. rewrite (proj1 (He c r Hon)). by apply Hm. Qed.

Lemma effect_trans s l1 l2 w w1 w2 : effect s l1 w w1 -> effect s l2 w1 w2 -> effect s (l1 ++ l2) w w2.
Proof.
  intros (Ha & _ & H1) (Hb & Hs & H2). split; [by eapply agree_trans|]. split; [done|]. intros c r Hon.
  destruct (H1 c r Hon) as [Hm He], (H2 c r Hon) as [Hm' He']. split; [by rewrite Hm'|]. rewrite He', He, last_write_app. by destruct (last_write l2 c r).
Qed.

Lemma writes_bind {A B} s (p : prog XlsxE A) (f : A -> prog XlsxE B) l1 l2 :
  writes s p l1 -> (forall a, writes s (f a) l2) -> writes s (p ≫= f) (l1 ++ l2).
Proof.
  intros Hp Hf w Hc. rewrite run_bind. pose proof (Hp w Hc) as H1. destruct (run h p w) as [a w1]. cbn [snd] in H1.
  eapply effect_trans; [exact H1|]. by apply Hf, (effect_clean s l1 w).
Qed.

Lemma agree_refl P w : agree_on P w w.
Proof. intros s _. split; [done|]. by intros c r _. Qed.

Lemma writes_ret {A} s (a : A) : writes s (mret a) [].
Proof. intros w [Hs _]. split; [apply agree_refl|]. split; [done|]. by intros c r _. Qed.

Lemma writes_harmless {X} s (e : XlsxE X) : harmless X e -> writes s (call e) [].
Proof using laws.
  intros He w [Hs _]. rewrite run_call. pose proof (el_harmless laws X e w He) as Ha. split; [|split].
  - intros s' _. by apply Ha.
  - by apply Ha.
  - intros c r Hon. destruct (proj2 (Ha s I) c r Hon) as [Hm Hc]. by split.
Qed.

Lemma writes_set s c r x : on_sheet c r -> storable x -> writes s (call (SetCellValue s (CoordinatesToCellName c r) x)) [(c, r, x)].
Proof using laws.
  intros Hon Hx w [Hs Hm]. rewrite run_call. destruct (el_set laws s c r x w Hs Hon (Hm c r Hon) Hx) as (Ha & Hs' & He).
  split; [done|]. split; [done|]. intros c' r' Hon'. destruct (He c' r' Hon') as [Hm' Hc]. split; [done|]. rewrite Hc. cbn. by case_bool_decide.
Qed.

Fixpoint range_writes {A} (L : Z -> A -> cells) (i : Z) (l : list A) : cells :=
  match l with [] => [] | a :: l => L i a ++ range_writes L (i + 1) l end.

Lemma writes_range {A} s (f : Z -> A -> prog XlsxE unit) L i l :
  (forall j a, l !! j = Some a -> writes s (f (i + Z.of_nat j) a) (L (i + Z.of_nat j) a)) -> writes s (range f i l) (range_writes L i l).
Proof.
  revert i. induction l as [|a l IH]; intros i Hl; cbn [range range_writes]; [apply writes_ret|]. apply writes_bind.
  - specialize (Hl 0%nat a eq_refl). by rewrite Z.add_0_r in Hl.
  - intros _. apply IH. intros j b Hb. specialize (Hl (S j) b Hb). by replace (i + 1 + Z.of_nat j) with (i + Z.of_nat (S j)) by lia.
Qed.

(** ** Rows and grids *)

Definition row_writes (r : Z) (vals : list cell_value) : cells := range_writes (fun j x => [(j + 1, r, x)]) 0 vals.
Definition grid_writes (r : Z) (rows : list (list cell_value)) : cells := range_writes row_writes r rows.

Lemma last_write_range_none {A} (L : Z -> A -> cells) i l c r :
  (forall j a, l !! j = Some a -> last_write (L (i + Z.of_nat j) a) c r = None) -> last_write (range_writes L i l) c r = None.
Proof.
  revert i. induction l as [|a l IH]; intros i Hl; cbn [range_writes]; [done|]. rewrite last_write_app, IH.
  - specialize (Hl 0%nat a eq_refl). by rewrite Z.add_0_r in Hl.
  - intros j b Hb. specialize (Hl (S j) b Hb). by replace (i + 1 + Z.of_nat j) with (i + Z.of_nat (S j)) by lia.
Qed.

Lemma last_write_range {A} (L : Z -> A -> cells) i l j a c r x :
  l !! j = Some a -> last_write (L (i + Z.of_nat j) a) c r = Some x ->
  (forall j' b, l !! j' = Some b -> (j < j')%nat -> last_write (L (i + Z.of_nat j') b) c r = None) ->
  last_write (range_writes L i l) c r = Some x.
Proof.
  revert i l. induction j as [|j IH]; intros i [|a' l] Ha Hx Hn; [done| |done|]; cbn [range_writes]; rewrite last_write_app.
  - injection Ha as ->. rewrite Z.add_0_r in Hx. rewrite last_write_range_none; [done|]. intros j b Hb.
    specialize (Hn (S j) b Hb ltac:(lia)). by replace (i + 1 + Z.of_nat j) with (i + Z.of_nat (S j)) by lia.
  - rewrite (IH (i + 1) l); [done..| |].
    + by replace (i + 1 + Z.of_nat j) with (i + Z.of_nat (S j)) by lia.
    + intros j' b Hb Hj. specialize (Hn (S j') b Hb ltac:(lia)). by replace (i + 1 + Z.of_nat j') with (i + Z.of_nat (S j')) by lia.
Qed.

Lemma row_lookup r vals j x : vals !! j = Some x -> last_write (row_writes r vals) (Z.of_nat j + 1) r = Some x.
Proof.
  intros Hj. unfold row_writes. eapply last_write_range; [exact Hj| |].
  - cbn. rewrite bool_decide_true; [done|]. f_equal; lia.
  - intros j' b _ Hlt. cbn. rewrite bool_decide_false; [done|]. intros [= He]. lia.
Qed.

Lemma row_other r vals c r' : r' <> r -> last_write (row_writes r vals) c r' = None.
Proof. intros Hr. apply last_write_range_none. intros j a _. cbn. rewrite bool_decide_false; [done|]. by intros [= _ ?]. Qed.

Lemma grid_lookup r rows i vals j x :
  rows !! i = Some vals -> vals !! j = Some x -> last_write (grid_writes r rows) (Z.of_nat j + 1) (r + Z.of_nat i) = Some x.
Proof.
  intros Hi Hj. eapply last_write_range; [exact Hi|by apply row_lookup|]. intros i' b _ Hlt. apply row_other. lia.
Qed.

Lemma grid_other r rows c r' : r' < r -> last_write (grid_writes r rows) c r' = None.
Proof. intros Hr. apply last_write_range_none. intros j a _. apply row_other. lia. Qed.

(** ** A sheet of rows *)

Definition fits_row (vals : list cell_value) : Prop := (length vals <= 26)%nat /\ Forall storable vals.

(** What a sheet can hold. *)
Definition fits (sp : sheet_spec) : Prop :=
  fits_row (CStr <$> sp_headers sp) /\ Z.of_nat (length (sp_rows sp)) < 1048576 /\ Forall (fun r => fits_row (sr_values r)) (sp_rows sp).

(** The header and the rows. *)
Definition content (sp : sheet_spec) : cells :=
  row_writes 1 (CStr <$> sp_headers sp) ++ grid_writes 2 (sr_values <$> sp_rows sp).

Lemma content_row sp i row j x :
  sp_rows sp !! i = Some row -> sr_values row !! j = Some x -> last_write (content sp) (Z.of_nat j + 1) (Z.of_nat i + 2) = Some x.
Proof.
  intros Hi Hj. unfold content. rewrite last_write_app. replace (Z.of_nat i + 2) with (2 + Z.of_nat i) by lia.
  erewrite grid_lookup; [done| |exact Hj]. by rewrite list_lookup_fmap, Hi.
Qed.

Lemma content_header sp j x : sp_headers sp !! j = Some x -> last_write (content sp) (Z.of_nat j + 1) 1 = Some (CStr x).
Proof.
  intros Hj. unfold content. rewrite last_write_app, grid_other by lia. apply row_lookup. by rewrite list_lookup_fmap, Hj.
Qed.

Lemma writes_then {A} s (p : prog XlsxE unit) (q : prog XlsxE A) l : writes s p l -> writes s q [] -> writes s (_ ← p; q) l.
Proof. intros Hp Hq. rewrite <- (app_nil_r l). by apply writes_bind. Qed.

Lemma writes_headers g sp : fits_row (CStr <$> sp_headers sp) -> writes (sp_sheet sp) (write_headers g sp) (row_writes 1 (CStr <$> sp_headers sp)).
Proof using laws.
  intros [Hl Hs]. rewrite length_fmap in Hl. unfold write_headers. apply writes_then; [|by apply writes_harmless].
  replace (row_writes 1 (CStr <$> sp_headers sp)) with (range_writes (fun j x => [(j + 1, 1, CStr x)]) 0 (sp_headers sp)).
  - apply writes_range. intros j a Ha. pose proof (lookup_lt_Some _ _ _ Ha) as Hlt. apply writes_set; [split; lia|].
    eapply (Forall_lookup_1 _ _ j); [exact Hs|]. by rewrite list_lookup_fmap, Ha.
  - unfold row_writes. generalize 0. generalize (sp_headers sp). clear. intros l. induction l as [|a l IH]; intros z; [done|]. cbn. by rewrite IH.
Qed.

Lemma writes_cell g sp row r j x :
  on_sheet (j + 1) row -> storable x -> writes (sp_sheet sp) (write_cell g sp row r j x) [(j + 1, row, x)].
Proof using laws.
  intros Hon Hx. unfold write_cell. apply writes_then; [by apply writes_set|]. destruct (_ =? _); [|by apply writes_harmless].
  destruct (_ =? "")%string; [by apply writes_harmless|]. apply writes_then; by apply writes_harmless.
Qed.

Lemma writes_rows g sp : fits sp -> writes (sp_sheet sp) (write_rows g sp) (grid_writes 2 (sr_values <$> sp_rows sp)).
Proof using laws.
  intros (_ & Hn & Hr). unfold write_rows.
  replace (grid_writes 2 (sr_values <$> sp_rows sp)) with (range_writes (fun i r => row_writes i (sr_values r)) 2 (sp_rows sp)).
  - apply writes_range. intros i r Hi. pose proof (lookup_lt_Some _ _ _ Hi) as Hlt. destruct (Forall_lookup_1 _ _ _ _ Hr Hi) as [Hl Hs].
    apply writes_range. intros j x Hx. pose proof (lookup_lt_Some _ _ _ Hx) as Hlt'. apply writes_cell; [split; lia|]. by eapply Forall_lookup_1.
  - unfold grid_writes. generalize 2. generalize (sp_rows sp). clear. intros l. induction l as [|a l IH]; intros z; [done|]. cbn. by rewrite IH.
Qed.

Lemma writes_widths sheet lens : writes sheet (applyColumnWidths sheet lens) [].
Proof using laws.
  unfold applyColumnWidths. replace (@nil (Z * Z * cell_value)) with (range_writes (fun _ (_ : Z) => []) 0 lens) by (generalize 0; induction lens as [|x lens IH]; intros z; [done|apply (IH (z + 1))]).
  apply writes_range. intros j a _. by apply writes_harmless.
Qed.

(** The widths change no cell, merged or not. *)
Lemma widths_keep sheet lens w : agree_on (fun _ => True) w (run h (applyColumnWidths sheet lens) w).2.
Proof using laws.
  unfold applyColumnWidths. generalize 0. revert w. induction lens as [|x lens IH]; intros w z; [apply agree_refl|]. cbn [range].
  rewrite run_bind, run_call. pose proof (el_harmless laws _ (SetColWidth sheet (TrimRight "1" (CoordinatesToCellName (z + 1) 1))
    (TrimRight "1" (CoordinatesToCellName (z + 1) 1)) (Z.min 60 (Z.max 12 (x + 3)))) w I) as Ha. destruct (h _ _ w) as [[] w1].
  eapply agree_trans; [exact Ha|apply IH].
Qed.

(** ** Merging *)

Lemma project_spans_spec (idf : Z -> option Z) ids row current :
  (forall j id, ids !! j = Some id -> idf (row + Z.of_nat j) = Some id) ->
  (forall c, current = Some c -> ps_StartRow c <= ps_EndRow c /\ ps_EndRow c = row - 1 /\
     forall r, ps_StartRow c <= r <= ps_EndRow c -> idf r = Some (ps_ProjectID c)) ->
  let first := match current with Some c => ps_StartRow c | None => row end in
  Forall (fun s => first <= ps_StartRow s <= ps_EndRow s /\ ps_EndRow s < row + Z.of_nat (length ids) /\
    forall r, ps_StartRow s <= r <= ps_EndRow s -> idf r = Some (ps_ProjectID s)) (project_spans row current ids) /\
  ForallOrdPairs (fun s s' => ps_EndRow s < ps_StartRow s') (project_spans row current ids).
Proof.
  cbv zeta. revert row current. induction ids as [|id ids IH]; intros row current Hids Hc; cbn [project_spans length].
  { destruct current as [c|]; [|by split; constructor]. destruct (Hc c eq_refl) as (H1 & H2 & H3). split; [|by repeat constructor].
    constructor; [|constructor]. split_and!; [lia..|done]. }
  assert (forall j id', ids !! j = Some id' -> idf (row + 1 + Z.of_nat j) = Some id') as Hids'.
  { intros j id' Hj. replace (row + 1 + Z.of_nat j) with (row + Z.of_nat (S j)) by lia. by apply Hids. }
  assert (idf row = Some id) as Hid by (rewrite <- (Hids 0%nat id eq_refl); f_equal; lia).
  set (fresh := {| ps_ProjectID := id; ps_StartRow := row; ps_EndRow := row |}).
  assert (forall c, Some fresh = Some c -> ps_StartRow c <= ps_EndRow c /\ ps_EndRow c = row + 1 - 1 /\
     forall r, ps_StartRow c <= r <= ps_EndRow c -> idf r = Some (ps_ProjectID c)) as Hf.
  { intros c [= <-]. cbn. split_and!; [lia..|]. intros r Hr. by replace r with row by lia. }
  destruct (IH (row + 1) (Some fresh) Hids' Hf) as [Hg Ho]. cbn [ps_StartRow fresh] in Hg.
  destruct current as [c|].
  2:{ split; [|done]. eapply Forall_impl; [exact Hg|]. intros s (? & ? & ?). split_and!; [lia..|done]. }
  destruct (Hc c eq_refl) as (H1 & H2 & H3). destruct (Z.eqb_spec (ps_ProjectID c) id) as [He|Hne].
  - destruct (IH (row + 1) (Some {| ps_ProjectID := id; ps_StartRow := ps_StartRow c; ps_EndRow := row |}) Hids') as [Hg' Ho'].
    { intros c' [= <-]. cbn. split_and!; [lia..|]. intros r Hr. destruct (Z.eq_dec r row) as [->|]; [done|]. rewrite <- He. apply H3. lia. }
    split; [|done]. eapply Forall_impl; [exact Hg'|]. intros s (? & ? & ?). cbn in *. split_and!; [lia..|done].
  - split; [|constructor; [|done]].
    + constructor; [split_and!; [lia..|done]|]. eapply Forall_impl; [exact Hg|]. intros s (? & ? & ?). split_and!; [lia..|done].
    + eapply Forall_impl; [exact Hg|]. intros s (? & ? & ?). cbn. lia.
Qed.

(** A range that can be merged without a loss: no part of it is merged, and all its
    cells have the value of the first. *)
Definition flat (s : string) (w : W) (m : Z * Z * Z) : Prop :=
  let '(c, first, last) := m in
  first <= last /\ on_sheet c first /\ on_sheet c last /\
  forall r, first <= r <= last -> ~ merged v w s c r /\ cell_of v w s c r = cell_of v w s c first.

Definition apart (m m' : Z * Z * Z) : Prop := m.1.1 <> m'.1.1 \/ m.2 < m'.1.2.

Lemma merge_keeps s ms w :
  has_sheet v w s -> Forall (flat s w) ms -> ForallOrdPairs apart ms ->
  let w' := (run h (merge_cells s ms) w).2 in
  agree_on (fun s' => s' <> s) w w' /\ has_sheet v w' s /\ forall c r, on_sheet c r -> cell_of v w' s c r = cell_of v w s c r.
Proof using laws.
  cbv zeta. unfold merge_cells. generalize 0. revert w. induction ms as [|[[c first] last] ms IH]; intros w z Hs Hf Ho; cbn [range].
  { split; [apply agree_refl|]. by split. }
  apply Forall_cons in Hf as [(Hle & Hon1 & Hon2 & Hflat) Hf]. inversion Ho as [|? ? Ha Ho']; subst. rewrite run_bind, run_call.
  destruct (el_merge laws s c first last w Hs Hon1 Hon2 Hle (fun r Hr => proj1 (Hflat r Hr))) as (Hag & Hs1 & Hm).
  destruct (h _ _ w) as [[] w1]. cbn [snd] in *.
  assert (forall c' r', on_sheet c' r' -> cell_of v w1 s c' r' = cell_of v w s c' r') as Hcells.
  { intros c' r' Hon. rewrite (proj2 (Hm c' r' Hon)). case_bool_decide as Hb; [|done]. destruct Hb as [-> Hr]. by rewrite (proj2 (Hflat r' Hr)). }
  destruct (IH w1 (z + 1) Hs1) as (Hag' & Hs' & Hc'); [|done|].
  - apply Forall_forall. intros [[c' first'] last'] Hin. pose proof (proj1 (Forall_forall _ _) Hf _ Hin) as (Hle' & Hon1' & Hon2' & Hflat').
    pose proof (proj1 (Forall_forall _ _) Ha _ Hin) as Hap. unfold apart in Hap. cbn in Hap. split_and!; [done..|]. intros r Hr. destruct (Hflat' r Hr) as [Hnm Hv].
    assert (on_sheet c' r) as Hon by (unfold on_sheet in *; lia). split.
    + rewrite (proj1 (Hm c' r Hon)). intros [?|[-> ?]]; [done|]. lia.
    + by rewrite !Hcells.
  - split; [by eapply agree_trans|]. split; [done|]. intros c' r' Hon. by rewrite Hc', Hcells.
Qed.

(** The merged ranges of the spans of one sheet. *)
Lemma merges_apart spans :
  Forall (fun s => ps_StartRow s <= ps_EndRow s) spans -> ForallOrdPairs (fun s s' => ps_EndRow s < ps_StartRow s') spans ->
  ForallOrdPairs apart (merges_of spans).
Proof.
  induction spans as [|s spans IH]; intros Hf Ho; [constructor|]. apply Forall_cons in Hf as [Hs Hf]. inversion Ho as [|? ? Ha Ho']; subst.
  unfold merges_of. cbn [flat_map]. fold (merges_of spans). destruct (ps_StartRow s <? ps_EndRow s); [|by apply IH].
  assert (forall c, Forall (apart (c, ps_StartRow s, ps_EndRow s)) (merges_of spans)) as Hrest.
  { intros c. unfold merges_of. apply Forall_forall. intros [[c' a] b] (s' & Hin & Hx)%list_elem_of_In%in_flat_map. right. cbn.
    destruct (_ <? _); [|done]. apply list_elem_of_In, list_elem_of_fmap in Hx as (? & [= -> -> ->] & _).
    apply list_elem_of_In in Hin. by apply (proj1 (Forall_forall _ _) Ha). }
  cbn [fmap list_fmap app]. repeat (constructor; [repeat (constructor; [left; cbn; lia|]); apply Hrest|]). by apply IH.
Qed.

(** ** Every sheet *)

(** A step that makes the sheet [s] with the values [l], and changes no other. *)
Definition builds (s : string) (l : cells) (p : prog XlsxE (option error)) : Prop := forall w,
  ~ has_sheet v w s -> (run h p w).1 = None ->
  let w' := (run h p w).2 in
  agree_on (fun s' => s' <> s) w w' /\ has_sheet v w' s /\
  forall c r x, on_sheet c r -> last_write l c r = Some x -> cell_of v w' s c r = Some x.

Lemma builds_sheet s l (body : prog XlsxE unit) :
  (forall w, clean s w -> let w' := (run h body w).2 in
     agree_on (fun s' => s' <> s) w w' /\ has_sheet v w' s /\
     forall c r x, on_sheet c r -> last_write l c r = Some x -> cell_of v w' s c r = Some x) ->
  builds s l (with_sheet s body).
Proof using laws.
  intros Hb w Hn. unfold with_sheet. rewrite run_bind, run_call. pose proof (el_new laws s w Hn) as Hnew. destruct (h _ (NewSheet s) w) as [e w1]. cbn [fst snd] in Hnew.
  destruct e as [e|]; [done|]. destruct (Hnew eq_refl) as (Ha & Hs & Hm). rewrite run_bind. pose proof (Hb w1 (conj Hs Hm)) as Hw.
  destruct (run h body w1) as [[] w2]. intros _. cbn in *. destruct Hw as (Ha' & Hs' & Hc). split; [by eapply agree_trans|]. by split.
Qed.

Lemma builds_writes s l (body : prog XlsxE unit) :
  writes s body l -> builds s l (with_sheet s body).
Proof using laws.
  intros Hb. apply builds_sheet. intros w Hc. destruct (Hb w Hc) as (Ha & Hs & He). split; [done|]. split; [done|].
  intros c r x Hon Hx. by rewrite (proj2 (He c r Hon)), Hx.
Qed.

(** The rows of one project begin with the same four cells. *)
Definition alike (sp : sheet_spec) : Prop := forall r r', r ∈ sp_rows sp -> r' ∈ sp_rows sp ->
  sr_ProjectID r = sr_ProjectID r' -> take 4 (sr_values r) = take 4 (sr_values r').

Definition described (sp : sheet_spec) : Prop := Forall (fun r => (4 <= length (sr_values r))%nat) (sp_rows sp).

Lemma content_flat sp w m :
  fits sp -> alike sp -> described sp ->
  (forall c r, on_sheet c r -> ~ merged v w (sp_sheet sp) c r) ->
  (forall c r x, on_sheet c r -> last_write (content sp) c r = Some x -> cell_of v w (sp_sheet sp) c r = Some x) ->
  m ∈ merges_of (project_spans 2 None (sr_ProjectID <$> sp_rows sp)) -> flat (sp_sheet sp) w m.
Proof.
  intros (_ & Hn & _) Hal Hd Hm Hc Hin. unfold merges_of in Hin.
  apply list_elem_of_In, in_flat_map in Hin as (s & Hs & Hin). destruct (Z.ltb_spec (ps_StartRow s) (ps_EndRow s)) as [Hlt|]; [|done].
  apply list_elem_of_In, list_elem_of_fmap in Hin as (col & -> & Hcol).
  set (idf := fun r => if r <? 2 then None else sr_ProjectID <$> sp_rows sp !! Z.to_nat (r - 2)).
  destruct (project_spans_spec idf (sr_ProjectID <$> sp_rows sp) 2 None) as [Hg _]; [|done|].
  { intros j id Hj. unfold idf. destruct (Z.ltb_spec (2 + Z.of_nat j) 2); [lia|]. replace (Z.to_nat (2 + Z.of_nat j - 2)) with j by lia.
    by rewrite list_lookup_fmap in Hj. }
  apply list_elem_of_In, (proj1 (Forall_forall _ _) Hg) in Hs as ([Hs0 _] & Hend & Hids). rewrite length_fmap in Hend.
  assert (1 <= col <= 4) as Hcol' by (clear -Hcol; repeat (apply elem_of_cons in Hcol as [->|Hcol]; [lia|]); by apply not_elem_of_nil in Hcol).
  assert (forall r, ps_StartRow s <= r <= ps_EndRow s -> exists row, sp_rows sp !! Z.to_nat (r - 2) = Some row /\ sr_ProjectID row = ps_ProjectID s) as Hrow.
  { intros r Hr. specialize (Hids r Hr). unfold idf in Hids. destruct (r <? 2); [done|]. destruct (sp_rows sp !! _) as [row|] eqn:E; [|done].
    exists row. split; [done|]. by injection Hids. }
  assert (forall r, ps_StartRow s <= r <= ps_EndRow s -> on_sheet col r) as Hon by (intros r Hr; split; lia).
  assert (forall r row, ps_StartRow s <= r <= ps_EndRow s -> sp_rows sp !! Z.to_nat (r - 2) = Some row ->
    cell_of v w (sp_sheet sp) col r = take 4 (sr_values row) !! Z.to_nat (col - 1)) as Hcell.
  { intros r row Hr E. pose proof (Forall_lookup_1 _ _ _ _ Hd E) as Hl. cbn in Hl.
    destruct (lookup_lt_is_Some_2 (sr_values row) (Z.to_nat (col - 1)) ltac:(clear -Hl Hcol'; lia)) as [x Hx]. rewrite lookup_take_lt by lia. rewrite Hx.
    apply Hc; [by apply Hon|]. replace col with (Z.of_nat (Z.to_nat (col - 1)) + 1) by lia. replace r with (Z.of_nat (Z.to_nat (r - 2)) + 2) by lia.
    by eapply content_row. }
  split; [lia|]. split; [apply Hon; lia|]. split; [apply Hon; lia|]. intros r Hr. split; [by apply Hm, Hon|].
  destruct (Hrow r Hr) as (row & E & Hid), (Hrow (ps_StartRow s) ltac:(lia)) as (row0 & E0 & Hid0).
  rewrite (Hcell r row Hr E), (Hcell (ps_StartRow s) row0 ltac:(lia) E0). f_equal. apply Hal; [by eapply list_elem_of_lookup_2..|congruence].
Qed.

Lemma project_sheet_builds g sp : fits sp -> alike sp -> described sp -> builds (sp_sheet sp) (content sp) (project_sheet g sp).
Proof using laws.
  intros Hf Hal Hd. apply builds_sheet. intros w Hclean. cbv zeta. set (s := sp_sheet sp) in *.
  assert (writes s (_ ← write_headers g sp; write_rows g sp) (content sp)) as Hw.
  { apply writes_bind; [apply writes_headers, Hf|]. intros _. by apply writes_rows. }
  specialize (Hw w Hclean). rewrite run_bind in Hw. rewrite run_bind. destruct (run h (write_headers g sp) w) as [[] w0]. rewrite run_bind.
  destruct (run h (write_rows g sp) w0) as [[] w1]. cbn [snd] in Hw. pose proof (effect_clean _ _ _ _ Hclean Hw) as [Hs1 Hm1]. destruct Hw as (Ha1 & _ & He1).
  assert (forall c r x, on_sheet c r -> last_write (content sp) c r = Some x -> cell_of v w1 s c r = Some x) as Hc1.
  { intros c r x Hon Hx. by rewrite (proj2 (He1 c r Hon)), Hx. }
  set (ms := merges_of _). rewrite run_bind. destruct (merge_keeps s ms w1 Hs1) as (Ha2 & Hs2 & Hc2).
  { apply Forall_forall. intros m Hm. by apply content_flat. }
  { destruct (project_spans_spec (fun r => if r <? 2 then None else (sr_ProjectID <$> sp_rows sp) !! Z.to_nat (r - 2)) (sr_ProjectID <$> sp_rows sp) 2 None)
      as [Hg Ho]; [|done|].
    - intros j id Hj. destruct (Z.ltb_spec (2 + Z.of_nat j) 2); [lia|]. by replace (Z.to_nat (2 + Z.of_nat j - 2)) with j by lia.
    - apply merges_apart; [|done]. eapply Forall_impl; [exact Hg|]. intros sp' (? & _). cbn. lia. }
  destruct (run h (merge_cells s ms) w1) as [[] w2]. cbn [snd] in *.
  pose proof (widths_keep s (max_lengths longest_line sp) w2) as Ha3. destruct (run h (applyColumnWidths _ _) w2) as [[] w3]. cbn [snd] in *.
  split; [eapply agree_trans; [exact Ha1|]; eapply agree_trans; [exact Ha2|]; intros s' _; by apply Ha3|]. split; [by apply Ha3|].
  intros c r x Hon Hx. rewrite (proj2 (proj2 (Ha3 s I) c r Hon)), Hc2 by done. by apply Hc1.
Qed.

Lemma directory_sheet_builds g sp : fits sp -> builds (sp_sheet sp) (content sp) (directory_sheet g sp).
Proof using laws.
  intros Hf. apply builds_writes. apply writes_bind; [apply writes_headers, Hf|]. intros _. apply writes_then; [by apply writes_rows|apply writes_widths].
Qed.

(** The cells of a table of two columns, and of the summary. *)
Definition pair_cells (row : Z) (left right : string) (l : list (string * cell_value * style_name)) : cells :=
  (2, row, CStr left) :: (3, row, CStr right) :: range_writes (fun r x => [(2, r, CStr x.1.1); (3, r, x.1.2)]) (row + 1) l.

Definition executive_cells (meta : report_meta) (report : AuditReport) : cells :=
  [(2, 2, CStr "GitLab Fleet Compliance & Security Audit"); (2, 3, CStr (generated_line meta report));
   (2, 4, CStr ("Audit Initiated By (Token User): " +:+ initiator report))]
  ++ pair_cells startRow "Fleet Governance KPI Indicator" "Metric Value" (overview report)
  ++ pair_cells (modRow report) "Audit Module" "Violations Found" (module_breakdown report)
  ++ match rp_LicenseAttestation report with
     | Some att => pair_cells (licRow report) attestation_title "Attestation Value" (attestation_lines report att)
     | None => []
     end.

Lemma writes_B s row x : 1 <= row <= 1048576 -> storable x -> writes s (call (SetCellValue s (cellB row) x)) [(2, row, x)].
Proof using laws.
  intros Hr Hx. assert (on_sheet 2 row) as Hon by (split; lia). replace (cellB row) with (CoordinatesToCellName 2 row) by (by rewrite (el_name laws)).
  by apply writes_set.
Qed.

Lemma writes_C s row x : 1 <= row <= 1048576 -> storable x -> writes s (call (SetCellValue s (cellC row) x)) [(3, row, x)].
Proof using laws.
  intros Hr Hx. assert (on_sheet 3 row) as Hon by (split; lia). replace (cellC row) with (CoordinatesToCellName 3 row) by (by rewrite (el_name laws)).
  by apply writes_set.
Qed.

Lemma writes_before {A} s (p : prog XlsxE unit) (q : prog XlsxE A) l : writes s p [] -> writes s q l -> writes s (_ ← p; q) l.
Proof. intros Hp Hq. change l with ([] ++ l). by apply writes_bind. Qed.

Lemma writes_cons {A} s (p : prog XlsxE unit) (q : prog XlsxE A) x l : writes s p [x] -> writes s q l -> writes s (_ ← p; q) (x :: l).
Proof. intros Hp Hq. change (x :: l) with ([x] ++ l). by apply writes_bind. Qed.

Lemma writes_pairs g s row left right l :
  1 <= row -> row + Z.of_nat (length l) <= 1048576 -> Forall (fun x => storable x.2) (pair_cells row left right l) ->
  writes s (pair_table g s row left right l) (pair_cells row left right l).
Proof using laws.
  intros Hr Hn (Hl & (Hri & Hs)%Forall_cons)%Forall_cons. unfold pair_table, pair_cells.
  apply writes_cons; [apply writes_B; [lia|done]|]. apply writes_cons; [apply writes_C; [lia|done]|].
  apply writes_before; [by apply writes_harmless|]. apply writes_range. intros j [[label x] st] Hj. pose proof (lookup_lt_Some _ _ _ Hj) as Hlt.
  assert (Forall (fun x => storable x.2) [(2, row + 1 + Z.of_nat j, CStr label); (3, row + 1 + Z.of_nat j, x)]) as Hst.
  { clear -Hs Hj. revert Hs. generalize (row + 1). revert j Hj. induction l as [|y l IH]; intros j Hj z Hs; [done|]. cbn [range_writes] in Hs.
    apply Forall_app in Hs as [Hy Hs]. destruct j as [|j]; [injection Hj as ->; by rewrite Z.add_0_r|].
    replace (z + Z.of_nat (S j)) with (z + 1 + Z.of_nat j) by lia. by apply IH. }
  apply Forall_cons in Hst as [Hst1 Hst2]. apply Forall_cons in Hst2 as [Hst2 _]. cbn [fst snd] in *.
  apply writes_cons; [apply writes_B; [lia|done]|]. apply writes_cons; [apply writes_C; [lia|done]|].
  apply writes_before; by apply writes_harmless.
Qed.

Lemma executive_builds meta g report :
  Forall (fun x => storable x.2) (executive_cells meta report) ->
  builds "Executive Summary" (executive_cells meta report) (buildExecutiveSummarySheet meta g report).
Proof using laws.
  intros Hs. unfold executive_cells in Hs. repeat (apply Forall_app in Hs as [? Hs] || idtac). rename select (Forall _ [_; _; _]) into H3.
  apply Forall_cons in H3 as [H31 H3]. apply Forall_cons in H3 as [H32 H3]. apply Forall_cons in H3 as [H33 _]. cbn [snd] in H31, H32, H33.
  apply builds_writes. cbv zeta. unfold executive_cells. cbn [app].
  change "B2" with (cellB 2). change "B3" with (cellB 3). change "B4" with (cellB 4).
  apply writes_cons; [by apply writes_B|]. apply writes_before; [by apply writes_harmless|].
  apply writes_cons; [by apply writes_B|]. apply writes_cons; [by apply writes_B|].
  apply writes_bind; [by apply writes_pairs|]. intros _. apply writes_bind; [by apply writes_pairs|]. intros _.
  apply writes_then; [destruct (rp_LicenseAttestation report); [by apply writes_pairs|apply writes_ret]|]. do 2 (apply writes_before; [by apply writes_harmless|]). by apply writes_harmless.
Qed.

Lemma executive_keys meta report :
  fst <$> executive_cells meta report =
  [(2, 2); (2, 3); (2, 4)] ++ flat_map (fun r => [(2, Z.of_nat r); (3, Z.of_nat r)]) (seq 6 17 ++ seq 24 7 ++ if is_some (rp_LicenseAttestation report) then seq 32 10 else []).
Proof. unfold executive_cells. by destruct (rp_LicenseAttestation report). Qed.

Lemma executive_nodup meta report : NoDup (fst <$> executive_cells meta report).
Proof. rewrite executive_keys. destruct (rp_LicenseAttestation report); apply (bool_decide_unpack _); by vm_compute. Qed.

(** ** The workbook *)

Lemma run_steps_build (specs : list (string * cells)) steps w :
  Forall2 (fun sl step => builds sl.1 sl.2 step.2) specs steps -> NoDup (fst <$> specs) -> (forall s, s ∈ fst <$> specs -> ~ has_sheet v w s) ->
  (run h (run_steps steps) w).1 = None ->
  let w' := (run h (run_steps steps) w).2 in
  agree_on (fun s => s ∉ fst <$> specs) w w' /\
  forall s l, (s, l) ∈ specs -> has_sheet v w' s /\ forall c r x, on_sheet c r -> last_write l c r = Some x -> cell_of v w' s c r = Some x.
Proof.
  intros Hb. revert w. induction Hb as [|[s l] [msg p] specs steps Hp Hb IH]; intros w Hnd Hn Hr; cbn [run_steps] in *.
  { split; [apply agree_refl|]. by intros s l ?%not_elem_of_nil. }
  cbn [fmap list_fmap fst snd] in *. apply NoDup_cons in Hnd as [Hs Hnd]. rewrite run_bind in *. pose proof (Hp w (Hn s ltac:(by left))) as Hw.
  destruct (run h p w) as [[e|] w1]; [done|]. destruct (Hw eq_refl) as (Ha & Hh & Hc). cbn [snd] in *.
  destruct (IH w1 Hnd) as [Ha' Hc']; [|done|].
  { intros s' Hs'. assert (s' <> s) as Hne by (intros ->; done). rewrite (proj1 (Ha s' Hne)). apply Hn. by right. }
  split.
  - eapply agree_trans; intros s' Hs'; apply not_elem_of_cons in Hs' as [Hne Hs']; [by apply Ha|by apply Ha'].
  - intros s' l' [[= -> ->]|Hin]%elem_of_cons; [|by apply Hc']. destruct (Ha' s Hs) as [Hh' Hcc]. split; [by apply Hh'|].
    intros c r x Hon Hx. rewrite (proj2 (Hcc c r Hon)). by apply Hc.
Qed.

(** The sheets with a row for each finding or user. *)
Definition row_sheets (report : AuditReport) : list sheet_spec :=
  let fs := rp_Findings report in
  [UserAccessSheet fs; BotAccessSheet fs; ProtectedBranchesSheet fs; ProtectedEnvironmentsSheet fs; PipelineRetentionSheet fs;
   RepositoryFilesSheet fs; ProtectedTagsSheet fs; UserDirectorySheet (rp_UserDirectory report)].

(** The projects that the findings are about. *)
Definition finding_projects (fs : findings) : list finding_project :=
  (uf_Project <$> fs_UserAccess fs) ++ (uf_Project <$> fs_BotAccess fs) ++ (bf_Project <$> fs_ProtectedBranches fs)
  ++ (ef_Project <$> fs_ProtectedEnvs fs) ++ (nf_Project <$> fs_PipelineRetention fs) ++ (ff_Project <$> fs_RepositoryFiles fs)
  ++ (gf_Project <$> fs_ProtectedTags fs).

Definition one_description (ps : list finding_project) : Prop :=
  forall p q, p ∈ ps -> q ∈ ps -> fp_ProjectID p = fp_ProjectID q -> p = q.

(** No sheet has more rows, and no cell a longer text, than a file can hold. *)
Definition small (sp : sheet_spec) : Prop :=
  Z.of_nat (length (sp_rows sp)) < 1048576 /\ Forall (fun r => Forall storable (sr_values r)) (sp_rows sp).

Definition plain_header (l : list string) : bool := (length l <=? 26)%nat && forallb (fun s => Z.of_nat (String.length s) <=? 32767) l.

Lemma small_fits sp :
  plain_header (sp_headers sp) = true -> Forall (fun r => (length (sr_values r) <= 26)%nat) (sp_rows sp) -> small sp -> fits sp.
Proof.
  unfold plain_header. rewrite andb_true_iff, Nat.leb_le, forallb_forall. intros [Hl Hh] Hv [Hn Hs]. split_and!; [|done|].
  - split; [by rewrite length_fmap|]. apply Forall_fmap, Forall_forall. intros x Hx. cbn. apply Z.leb_le, Hh. by apply list_elem_of_In.
  - apply Forall_forall. intros r Hr. split; [by apply (proj1 (Forall_forall _ _) Hv)|by apply (proj1 (Forall_forall _ _) Hs)].
Qed.

(** The rows of findings: their projects are described once for all. *)
Definition finding_rows {F} (proj : F -> finding_project) (first : finding_project -> list cell_value) (row : F -> sheet_row) : Prop :=
  forall f, sr_ProjectID (row f) = fp_ProjectID (proj f) /\ take 4 (sr_values (row f)) = first (proj f) /\ (4 <= length (sr_values (row f)) <= 26)%nat.

Lemma findings_builds {F} (proj : F -> finding_project) first row g sp l :
  sp_rows sp = row <$> l -> finding_rows proj first row -> plain_header (sp_headers sp) = true -> one_description (proj <$> l) -> small sp ->
  builds (sp_sheet sp) (content sp) (project_sheet g sp).
Proof using laws.
  intros Hr Hrow Hh Ho Hs. apply project_sheet_builds.
  - apply small_fits; [done| |done]. rewrite Hr. apply Forall_fmap, Forall_forall. intros f _. cbn. apply Hrow.
  - intros r r'. rewrite Hr. intros (f & -> & Hf)%list_elem_of_fmap (f' & -> & Hf')%list_elem_of_fmap.
    destruct (Hrow f) as (-> & -> & _), (Hrow f') as (-> & -> & _). intros Hid. f_equal. by apply Ho; [apply list_elem_of_fmap_2..|].
  - unfold described. rewrite Hr. apply Forall_fmap, Forall_forall. intros f _. cbn. apply Hrow.
Qed.

(** What every step makes. *)
Definition sheet_contents (meta : report_meta) (report : AuditReport) : list (string * cells) :=
  ("Executive Summary", executive_cells meta report) :: ((fun sp => (sp_sheet sp, content sp)) <$> row_sheets report).

Lemma one_description_sub ps qs : one_description qs -> (forall p, p ∈ ps -> p ∈ qs) -> one_description ps.
Proof. intros Ho Hs p q Hp Hq. apply Ho; by apply Hs. Qed.

Lemma steps_build meta g report :
  one_description (finding_projects (rp_Findings report)) -> Forall small (row_sheets report) ->
  Forall (fun x => storable x.2) (executive_cells meta report) ->
  Forall2 (fun sl step => builds sl.1 sl.2 step.2) (sheet_contents meta report) (sheet_steps meta g report).
Proof using laws.
  intros Ho Hs He. unfold row_sheets in Hs. repeat (apply Forall_cons in Hs as [? Hs]).
  unfold sheet_contents, sheet_steps, row_sheets, finding_projects in *.
  assert (forall ps, (forall p, p ∈ ps -> p ∈ finding_projects (rp_Findings report)) -> one_description ps) as Hsub by (intros ps; by apply one_description_sub).
  unfold finding_projects in Hsub. cbn [fmap list_fmap]. repeat apply Forall2_cons_2; cbn [fst snd]; [..|by constructor].
  - by apply executive_builds.
  - eapply (findings_builds uf_Project project_cells); [done|intros f; split_and!; [done|done|apply Nat.leb_le; reflexivity..]|done| |done]. apply Hsub. set_solver.
  - eapply (findings_builds uf_Project project_cells); [done|intros f; split_and!; [done|done|apply Nat.leb_le; reflexivity..]|done| |done]. apply Hsub. set_solver.
  - eapply (findings_builds bf_Project project_cells); [done|intros f; split_and!; [done|done|apply Nat.leb_le; reflexivity..]|done| |done]. apply Hsub. set_solver.
  - eapply (findings_builds ef_Project project_cells); [done|intros f; split_and!; [done|done|apply Nat.leb_le; reflexivity..]|done| |done]. apply Hsub. set_solver.
  - eapply (findings_builds nf_Project project_cells); [done|intros f; split_and!; [done|done|apply Nat.leb_le; reflexivity..]|done| |done]. apply Hsub. set_solver.
  - eapply (findings_builds ff_Project (fun p => [CInt (fp_ProjectID p); CStr (fp_ProjectPath p); CStr (fp_ProjectStatus p); CStr (fp_ProjectWebURL p)]));
      [done|intros f; split_and!; [done|done|apply Nat.leb_le; reflexivity..]|done| |done]. apply Hsub. set_solver.
  - eapply (findings_builds gf_Project project_cells); [done|intros f; split_and!; [done|done|apply Nat.leb_le; reflexivity..]|done| |done]. apply Hsub. set_solver.
  - apply directory_sheet_builds, small_fits; [done| |done]. apply Forall_fmap, Forall_forall. intros u _. cbn. lia.
Qed.

Lemma sheet_names meta report :
  fst <$> sheet_contents meta report =
  ["Executive Summary"; "User Access"; "Bots & Service Accounts"; "Protected Branch Access"; "Protected Environments Access"; "Pipeline Retention";
   "Repository Files"; "Protected Tags"; "User Directory"].
Proof. done. Qed.

Lemma new_styles_keep names g w : agree_on (fun _ => True) w (run h (new_styles names g) w).2.
Proof using laws.
  revert g w. induction names as [|n names IH]; intros g w; cbn [new_styles]; [apply agree_refl|]. rewrite run_bind, run_call.
  pose proof (el_harmless laws _ (NewStyle (style_of n)) w I) as Ha. destruct (h _ _ w) as [[e|id] w1]; [exact Ha|]. eapply agree_trans; [exact Ha|apply IH].
Qed.

Lemma finish_workbook_reads w s :
  s <> "Sheet1" -> has_sheet v w s -> (run h finish_workbook w).1 = None ->
  forall c r, on_sheet c r -> read v (run h finish_workbook w).2 s c r = cell_of v w s c r.
Proof using laws.
  intros Hs Hh Hr c r Hon. unfold finish_workbook in *. rewrite !run_bind, !run_call in *. pose proof (el_delete laws "Sheet1" w s Hs) as H1.
  destruct (h _ (DeleteSheet "Sheet1") w) as [[] w1]. cbn [snd] in *. rewrite !run_bind, !run_call in *.
  pose proof (el_harmless laws _ (GetSheetIndex "Executive Summary") w1 I s I) as H2. destruct (h _ (GetSheetIndex _) w1) as [idx w2]. cbn [snd] in *.
  rewrite !run_bind in *. assert (agree_on (fun _ => True) w2 (run h (activate idx) w2).2) as H3.
  { unfold activate. destruct idx as [e|i]; [apply agree_refl|]. destruct (0 <=? i); [|apply agree_refl]. rewrite run_call. by apply (el_harmless laws). }
  destruct (run h (activate idx) w2) as [[] w3]. cbn [snd] in *. specialize (H3 s I). rewrite !run_bind, !run_call in *.
  pose proof (el_write laws w3) as H4. destruct (h _ WriteTo w3) as [[e|] w4]; [done|]. cbn [run fst snd mret prog_ret] in *.
  destruct H1 as [Hh1 H1], H2 as [Hh2 H2], H3 as [Hh3 H3]. rewrite H4; [|done|by rewrite Hh3, Hh2, Hh1|done].
  by rewrite (proj2 (H3 c r Hon)), (proj2 (H2 c r Hon)), (proj2 (H1 c r Hon)).
Qed.

Lemma executive_on_sheet meta report c r x : (c, r, x) ∈ executive_cells meta report -> on_sheet c r.
Proof.
  intros Hin. assert (forallb (fun k : Z * Z => (1 <=? k.1) && (k.1 <=? 26) && (1 <=? k.2) && (k.2 <=? 1048576)) (fst <$> executive_cells meta report) = true)
    as Hall by (rewrite executive_keys; destruct (rp_LicenseAttestation report); by vm_compute).
  rewrite forallb_forall in Hall. specialize (Hall (c, r)). cbn in Hall. unfold on_sheet.
  assert (In (c, r) (fst <$> executive_cells meta report)) as Hi by (apply list_elem_of_In, list_elem_of_fmap; by exists (c, r, x)).
  specialize (Hall Hi). rewrite !andb_true_iff, !Z.leb_le in Hall. lia.
Qed.

Lemma header_width report sp : sp ∈ row_sheets report -> (length (sp_headers sp) <= 26)%nat.
Proof.
  revert sp. apply Forall_forall. unfold row_sheets. repeat (apply Forall_cons; split; [apply Nat.leb_le; reflexivity|]). constructor.
Qed.

Lemma row_width report sp : sp ∈ row_sheets report -> Forall (fun r => (length (sr_values r) <= 26)%nat) (sp_rows sp).
Proof.
  revert sp. apply Forall_forall. unfold row_sheets.
  repeat (apply Forall_cons; split; [cbn [sp_rows]; apply Forall_fmap, Forall_forall; intros f _; apply Nat.leb_le; reflexivity|]). constructor.
Qed.


End Laws.

(** What [ExportAuditReport] writes for a workbook, for its parameter. *)
Definition xlsx_document {W} (h : handler XlsxE W) (document : W -> string) (w : W) (meta : report_meta) (report : AuditReport) : error + string :=
  let '(e, w') := run h (GenerateXLSX meta (Some report)) w in
  match e with Some e => inl e | None => inr (document w') end.

End Workbook.

(** ** A file, and a witness *)

(** The documented names of the cells. *)
Definition demo_cell_name : GoExcelize := fun c r => String (column_letter c) (Itoa r).

Definition demo_coordinates (cell : string) : option (Z * Z) :=
  match cell with "" => None | String a rest => (fun r => (Z.of_N (N_of_ascii a) - 64, r)) <$> parse_digits 0 rest end.

Lemma parse_digits_pretty x s : parse_digits 0 (pretty_N_go x s) = parse_digits (Z.of_N x) s.
Proof.
  revert s. induction (N.lt_wf_0 x) as [x _ IH]. intros s. assert (x = 0 \/ 0 < x)%N as [->|Hx] by lia; [by rewrite pretty_N_go_0|].
  rewrite pretty_N_go_step by done. rewrite IH by (apply N.div_lt; lia). cbn [parse_digits]. rewrite digit_char by (apply N.mod_lt; lia).
  f_equal. pose proof (N.div_mod x 10 ltac:(done)). lia.
Qed.

Lemma demo_coordinates_name c r : on_sheet c r -> demo_coordinates (demo_cell_name c r) = Some (c, r).
Proof.
  intros [Hc Hr]. unfold demo_coordinates, demo_cell_name. assert (parse_digits 0 (Itoa r) = Some r) as ->.
  { destruct r as [|p|p]; [lia| |lia]. change (Itoa (Z.pos p)) with (pretty (Npos p)). unfold pretty, pretty_N. rewrite decide_False by done.
    by rewrite parse_digits_pretty. }
  cbn. unfold column_letter. rewrite N_ascii_embedding by lia. do 2 f_equal. lia.
Qed.

Definition storableb (x : cell_value) : bool := match x with CInt _ => true | CStr s => Z.of_nat (String.length s) <=? 32767 end.

Lemma storableb_spec x : storableb x = true -> storable x.
Proof. destruct x as [z|s]; [done|]. by apply Z.leb_le. Qed.

(** A file in memory; a reader sees its cells. *)
Record demo_workbook_file : Type := {
  df_sheets : list string;
  df_cell : string -> Z -> Z -> option cell_value;
  df_merged : string -> Z -> Z -> bool
}.

Definition demo_excel : handler XlsxE demo_workbook_file := fun X e w =>
  match e in XlsxE X return X * _ with
  | NewStyle _ => (inr 1, w)
  | NewSheet s => (None, {| df_sheets := s :: df_sheets w; df_cell := df_cell w;
                            df_merged := fun s' c r => if (s' =? s)%string then false else df_merged w s' c r |})
  | SetCellValue s cell x =>
      (tt, match demo_coordinates cell with
           | Some (c, r) => {| df_sheets := df_sheets w; df_merged := df_merged w;
                               df_cell := fun s' c' r' => if (s' =? s)%string && bool_decide ((c', r') = (c, r)) then Some x else df_cell w s' c' r' |}
           | None => w
           end)
  | MergeCell s top bottom =>
      (tt, match demo_coordinates top, demo_coordinates bottom with
           | Some (c, r1), Some (_, r2) =>
               let inside s' c' r' := (s' =? s)%string && bool_decide (c' = c /\ r1 <= r' <= r2) in
               {| df_sheets := df_sheets w; df_merged := fun s' c' r' => inside s' c' r' || df_merged w s' c' r';
                  df_cell := fun s' c' r' => if inside s' c' r' then df_cell w s c r1 else df_cell w s' c' r' |}
           | _, _ => w
           end)
  | DeleteSheet s => (tt, {| df_sheets := List.filter (fun s' => negb (s' =? s)%string) (df_sheets w); df_cell := df_cell w; df_merged := df_merged w |})
  | GetSheetIndex _ => (inr 0, w)
  | WriteTo => (None, w)
  | SetCellStyle _ _ _ _ | SetCellHyperLink _ _ _ | SetColWidth _ _ _ _ | SetActiveSheet _ | CloseFile => (tt, w)
  end.

Definition demo_view : excel_view demo_workbook_file := {|
  has_sheet := fun w s => s ∈ df_sheets w;
  merged := fun w s c r => df_merged w s c r = true;
  cell_of := df_cell;
  read := df_cell |}.

Lemma demo_excel_laws : @excel_laws demo_cell_name _ demo_excel demo_view.
Proof.
  split.
  - done.
  - intros X e w He. destruct e; try done; intros s _; by split.
  - intros s w Hs _. cbn. split_and!.
    + intros s' Hne. split; [cbn; set_solver|]. intros c r _. cbn. by rewrite (proj2 (String.eqb_neq _ _) Hne).
    + by left.
    + intros c r _. by rewrite String.eqb_refl.
  - intros s w s' Hne. split; [|done]. cbn. rewrite !list_elem_of_In, filter_In, negb_true_iff, String.eqb_neq. naive_solver.
  - intros s c r x w Hs Hon _ _. cbv zeta. unfold demo_excel, CoordinatesToCellName. rewrite demo_coordinates_name by done. cbn. split_and!.
    + intros s' Hne. split; [done|]. intros c' r' _. cbn. by rewrite (proj2 (String.eqb_neq _ _) Hne).
    + done.
    + intros c' r' _. by rewrite String.eqb_refl.
  - intros s c r1 r2 w Hs Hon1 Hon2 _ _. cbv zeta. unfold demo_excel, CoordinatesToCellName. rewrite !demo_coordinates_name by done. cbn. split_and!.
    + intros s' Hne. split; [done|]. intros c' r' _. cbn. by rewrite (proj2 (String.eqb_neq _ _) Hne).
    + done.
    + intros c' r' _. rewrite String.eqb_refl. cbn. split; [|done]. rewrite orb_true_iff, bool_decide_eq_true. tauto.
  - done.
  - done.
Qed.

Definition demo_project_of (id : Z) (name : string) : finding_project := {|
  fp_ProjectID := id; fp_ProjectName := name; fp_ProjectPath := "fleet/" +:+ name; fp_ProjectWebURL := "https://gitlab.example.com/fleet/" +:+ name;
  fp_ProjectStatus := "" |}.

Definition demo_access (id : Z) (project user : string) : UserAccessFinding := {|
  uf_Project := demo_project_of id project; uf_UserID := 1; uf_Username := user; uf_Name := user; uf_Email := ""; uf_AccessLevel := 40;
  uf_AccessRoleName := "Maintainer"; uf_IsDirect := true; uf_MembershipType := ""; uf_IsBot := false; uf_AccountType := "Human"; uf_ExpiresAt := "";
  uf_HasExpiration := false; uf_Severity := High; uf_ViolationType := "NO_EXPIRATION"; uf_Details := "-"; uf_Remediation := "-" |}.

Definition demo_workbook_report : AuditReport := {|
  rp_GovernorVersion := "0.17.0"; rp_AuthenticatedUser := None; rp_ActiveModules := ["user_access"];
  rp_Summary := {|
    as_TotalProjectsScanned := 2; as_ActiveProjectsCount := 2; as_ArchivedProjectsCount := 0; as_PendingDeletionProjectsCount := 0;
    as_CompliantProjectsCount := 0; as_NonCompliantProjectsCount := 2; as_TotalViolations := 3; as_CriticalSeverityCount := 0;
    as_HighSeverityCount := 3; as_MediumSeverityCount := 0; as_LowSeverityCount := 0; as_HumanUserViolations := 3; as_BotUserViolations := 0;
    as_UserAccessViolations := 3; as_ProtectedBranchViolations := 0; as_ProtectedEnvViolations := 0; as_PipelineRetentionViolations := 0;
    as_RepositoryFileViolations := 0; as_ProtectedTagViolations := 0; as_AuditedBy := ""; as_SeverityBreakdown := ∅; as_ModuleViolations := ∅ |};
  rp_LicenseAttestation := Some {|
    la_GovernorVersion := ""; la_Status := "COMMUNITY"; la_LicenseModel := "BSL 1.1"; la_Tier := "community"; la_LicensedTo := ""; la_LicenseID := "";
    la_MaxProjects := 25; la_DiscoveredProjects := 2; la_ChangeDate := ""; la_AttestationStatement := "" |};
  rp_Findings := {|
    fs_UserAccess := [demo_access 7 "api" "ada"; demo_access 7 "api" "bob"; demo_access 9 "web" "ada"];
    fs_BotAccess := []; fs_ProtectedBranches := []; fs_ProtectedEnvs := []; fs_PipelineRetention := []; fs_RepositoryFiles := [];
    fs_ProtectedTags := [] |};
  rp_UserDirectory := [] |}.

Definition demo_workbook_meta : report_meta := {| mt_GeneratedAt := 1709251199 * 10 ^ 9; mt_DurationString := "2s" |}.

Definition demo_new_file : demo_workbook_file := {| df_sheets := ["Sheet1"]; df_cell := fun _ _ _ => None; df_merged := fun _ _ _ => false |}.

Definition demo_workbook : option error * demo_workbook_file :=
  run demo_excel (@GenerateXLSX demo_cell_name demo_workbook_meta (Some demo_workbook_report)) demo_new_file.

