(* ===== verification/Smtp.v ===== *)
(** * The mail of an audit: internal/audit/smtp/dispatcher.go

    [Send] delivers a message in a conversation with an SMTP server: it
    connects, encrypts when the server offers it, authenticates, names the
    sender and the recipients and sends the MIME message.  The conversation is
    that of package net/smtp: a command is a line, written in the clear or
    encrypted, and an answer a code with a text; [Client] is its state.
    [Send_delivers] shows what the server has accepted when [Send] reports
    success: to whom it delivers the mail, and that what it reads of the body,
    through the doubled dots and the line ends of package net/textproto, is the
    mail with its bodies and its attachments.  [Smtp_credentials_encrypted] shows
    what is sent in the clear when there are credentials.  [BuildAuditEmail] is the message of an audit. *)

From S2P Require Import Prelude GoLib Base64 GoTime Config RepositoryFiles AuditModel Auditor Csv AuditReport.
Local Open Scope string_scope.
Local Open Scope list_scope.
Local Open Scope Z_scope.

(** ** Configuration and messages *)

Record SMTPConfig : Type := {
  sc_Host : string;
  sc_Port : Z;
  sc_Username : string;
  sc_Password : string;
  sc_From : string;
  sc_To : list string;
  sc_Cc : list string;
  sc_Bcc : list string;
  sc_Subject : string;
  sc_StartTLS : bool;
  sc_DirectTLS : bool;
  sc_SkipTLSVerify : bool;
  sc_SendAttach : bool;
  sc_Greeting : string
}.

Definition SMTP_SetDefaults (c : SMTPConfig) : SMTPConfig :=
  let port := if sc_Port c <=? 0 then 587 else sc_Port c in {|
  sc_Host := sc_Host c; sc_Port := port; sc_Username := sc_Username c; sc_Password := sc_Password c; sc_From := sc_From c;
  sc_To := sc_To c; sc_Cc := sc_Cc c; sc_Bcc := sc_Bcc c;
  sc_Subject := or_string (sc_Subject c) "GitLab Fleet Compliance & Security Audit Report";
  sc_StartTLS := if port =? 465 then sc_StartTLS c else true;
  sc_DirectTLS := if port =? 465 then true else sc_DirectTLS c;
  sc_SkipTLSVerify := sc_SkipTLSVerify c; sc_SendAttach := true; sc_Greeting := sc_Greeting c |}.

Record Attachment : Type := { at_Filename : string; at_ContentType : string; at_Data : string }.

Record Message : Type := {
  ms_From : string;
  ms_To : list string;
  ms_Cc : list string;
  ms_Bcc : list string;
  ms_Subject : string;
  ms_TextBody : string;
  ms_HTMLBody : string;
  ms_Attachments : list Attachment
}.

(** ** The MIME message *)

Definition CRLF : string := String "013" (String "010" "").

Definition lines_of (l : list string) : string := String.concat "" ((fun s => s +:+ CRLF) <$> l).

(** The clock as the message shows it: the nanoseconds in the two boundaries and
    the text of the date. *)
Record mail_clock : Type := { mc_Mixed : Z; mc_Alt : Z; mc_Date : string }.

Definition boundary_mixed (k : mail_clock) : string := "==_FleetMixed_" +:+ Itoa (mc_Mixed k) +:+ "_==".
Definition boundary_alt (k : mail_clock) : string := "==_FleetAlt_" +:+ Itoa (mc_Alt k) +:+ "_==".

Definition quoted (s : string) : string := String DQ (s +:+ String DQ "").

(** The rest of a base64 text in lines of 76 characters. *)
Fixpoint wrap_lines (fuel : nat) (s : string) : list string :=
  match fuel with
  | 0%nat => []
  | S fuel => if (s =? "")%string then [] else String.substring 0 76 s :: wrap_lines fuel (string_drop 76 s)
  end.

Definition wrapped_base64 (data : string) : list string := let e := base64_Encode data in wrap_lines (String.length e) e.

Definition attachment_part (k : mail_clock) (a : Attachment) : string :=
  lines_of [
    "--" +:+ boundary_mixed k;
    "Content-Type: " +:+ or_string (at_ContentType a) "application/octet-stream" +:+ "; name=" +:+ quoted (at_Filename a);
    "Content-Disposition: attachment; filename=" +:+ quoted (at_Filename a);
    "Content-Transfer-Encoding: base64"; ""]
  +:+ lines_of (wrapped_base64 (at_Data a)) +:+ CRLF.

(** A body of the alternative part. *)
Definition body_part (k : mail_clock) (content_type : string) (encoding : list string) (body : string) : string :=
  lines_of (["--" +:+ boundary_alt k; "Content-Type: " +:+ content_type +:+ "; charset=UTF-8"] ++ encoding ++ [""])
  +:+ body +:+ CRLF +:+ CRLF.

Definition mail_headers (k : mail_clock) (from : string) (to cc : list string) (subject : string) : list string :=
  ["From: " +:+ from]
  ++ (match to with [] => [] | _ => ["To: " +:+ Join to ", "] end)
  ++ (match cc with [] => [] | _ => ["Cc: " +:+ Join cc ", "] end)
  ++ ["Subject: " +:+ subject; "Date: " +:+ mc_Date k; "MIME-Version: 1.0"].

Definition buildMIMEMessage (k : mail_clock) (from : string) (to cc : list string) (subject : string) (msg : Message) : string :=
  let headers := lines_of (mail_headers k from to cc subject) in
  let bit7 := ["Content-Transfer-Encoding: 7bit"] in
  let text := ms_TextBody msg in
  let html := ms_HTMLBody msg in
  match ms_Attachments msg with
  | _ :: _ =>
      headers
      +:+ lines_of ["Content-Type: multipart/mixed; boundary=" +:+ quoted (boundary_mixed k); "";
                    "--" +:+ boundary_mixed k; "Content-Type: multipart/alternative; boundary=" +:+ quoted (boundary_alt k); ""]
      +:+ (if (text =? "")%string then "" else body_part k "text/plain" bit7 text)
      +:+ (if (html =? "")%string then "" else body_part k "text/html" bit7 html)
      +:+ lines_of ["--" +:+ boundary_alt k +:+ "--"]
      +:+ String.concat "" (attachment_part k <$> ms_Attachments msg)
      +:+ lines_of ["--" +:+ boundary_mixed k +:+ "--"]
  | [] =>
      if negb (html =? "")%string && negb (text =? "")%string then
        headers +:+ lines_of ["Content-Type: multipart/alternative; boundary=" +:+ quoted (boundary_alt k); ""]
        +:+ body_part k "text/plain" [] text +:+ body_part k "text/html" [] html +:+ lines_of ["--" +:+ boundary_alt k +:+ "--"]
      else if negb (html =? "")%string then headers +:+ lines_of ["Content-Type: text/html; charset=UTF-8"; ""] +:+ html
      else headers +:+ lines_of ["Content-Type: text/plain; charset=UTF-8"; ""] +:+ text
  end.

(** ** Package net/smtp *)

(** An answer of the server: its code and its text. *)
Abbreviation response := (Z * string)%type.

(** [Exchange] writes a line and reads the answer; [WriteBody] sends the message as
    it goes over the wire, and [EndBody] what ends it and reads the answer; the
    flag says whether the connection is encrypted. *)
Variant SmtpE : Type -> Type :=
| CtxErr : SmtpE (option error)
| DialTLS (addr : string) : SmtpE (option error)
| DialTCP (addr : string) : SmtpE (option error)
| Greeting : SmtpE (error + response)
| Exchange (tls : bool) (line : string) : SmtpE (error + response)
| WriteBody (tls : bool) (body : string) : SmtpE (option error)
| EndBody (tls : bool) (ending : string) : SmtpE (error + response)
| CloseConn : SmtpE unit.

Record Client : Type := {
  cl_serverName : string;
  cl_tls : bool;
  cl_didHello : bool;
  cl_helloError : option error;
  cl_ext : option (gmap string string);
  cl_closed : bool
}.

(** A computation of a client: its state is threaded through. *)
Definition SM (A : Type) : Type := Client -> prog SmtpE (A * Client).

#[export] Instance SM_ret : MRet SM := fun A a c => mret (a, c).
#[export] Instance SM_bind : MBind SM := fun A B f m c => '(a, c') ← m c; f a c'.

Definition get_client : SM Client := fun c => mret (c, c).
Definition set_client (f : Client -> Client) : SM unit := fun c => mret (tt, f c).
Definition smtp {X} (e : SmtpE X) : SM X := fun c => x ← call e; mret (x, c).

Definition errClosed : error := ErrNew "use of closed network connection".

(** [textproto.ReadResponse]: the code that is expected may be given by its
    first digits. *)
Definition code_expected (expect code : Z) : bool :=
  if (1 <=? expect) && (expect <? 10) then code / 100 =? expect
  else if (10 <=? expect) && (expect <? 100) then code / 10 =? expect
  else if (100 <=? expect) && (expect <? 1000) then code =? expect
  else true.

Definition expecting (expect : Z) (r : error + response) : error + response :=
  match r with
  | inl e => inl e
  | inr (code, msg) => if code_expected expect code then inr (code, msg) else inl (ErrNew (pad 3 code +:+ " " +:+ msg))
  end.

Definition cmd (expect : Z) (line : string) : SM (error + response) :=
  c ← get_client;
  if cl_closed c then mret (inl errClosed)
  else r ← smtp (Exchange (cl_tls c) line); mret (expecting expect r).

(** The extensions of the answer to EHLO: the lines after the first. *)
Definition extensions (msg : string) : gmap string string :=
  foldl (fun m line => let '(k, v) := Cut " " line in <[k := default "" v]> m) ∅ (tail (SplitByte "010" msg)).

Definition with_hello (e : option error) (c : Client) : Client := {|
  cl_serverName := cl_serverName c; cl_tls := cl_tls c; cl_didHello := true; cl_helloError := e; cl_ext := cl_ext c; cl_closed := cl_closed c |}.
Definition with_ext (x : option (gmap string string)) (c : Client) : Client := {|
  cl_serverName := cl_serverName c; cl_tls := cl_tls c; cl_didHello := cl_didHello c; cl_helloError := cl_helloError c; cl_ext := x;
  cl_closed := cl_closed c |}.
Definition with_tls (c : Client) : Client := {|
  cl_serverName := cl_serverName c; cl_tls := true; cl_didHello := cl_didHello c; cl_helloError := cl_helloError c; cl_ext := cl_ext c;
  cl_closed := cl_closed c |}.
Definition with_closed (c : Client) : Client := {|
  cl_serverName := cl_serverName c; cl_tls := cl_tls c; cl_didHello := cl_didHello c; cl_helloError := cl_helloError c; cl_ext := cl_ext c;
  cl_closed := true |}.

Definition ehlo : SM (option error) :=
  r ← cmd 250 "EHLO localhost";
  match r with
  | inl e => mret (Some e)
  | inr (_, msg) => _ ← set_client (with_ext (Some (extensions msg))); mret None
  end.

Definition helo : SM (option error) :=
  _ ← set_client (with_ext None);
  r ← cmd 250 "HELO localhost";
  mret (match r with inl e => Some e | inr _ => None end).

Definition hello : SM (option error) :=
  c ← get_client;
  if cl_didHello c then mret (cl_helloError c)
  else
    _ ← set_client (with_hello None);
    e ← ehlo;
    match e with
    | None => mret None
    | Some _ => e ← helo; _ ← set_client (with_hello e); mret e
    end.

Definition close_client : SM unit := _ ← smtp CloseConn; set_client with_closed.

Definition quit : SM (option error) :=
  _ ← hello;
  r ← cmd 221 "QUIT";
  match r with
  | inl e => mret (Some e)
  | inr _ => _ ← close_client; mret None
  end.

(** [Extension] of an upper-case name. *)
Definition Extension (name : string) : SM bool :=
  e ← hello;
  c ← get_client;
  mret (match e with
        | Some _ => false
        | None => match cl_ext c with Some ext => is_some (ext !! name) | None => false end
        end).

Definition StartTLS : SM (option error) :=
  e ← hello;
  match e with
  | Some e => mret (Some e)
  | None =>
      r ← cmd 220 "STARTTLS";
      match r with
      | inl e => mret (Some e)
      | inr _ => _ ← set_client with_tls; ehlo
      end
  end.

Definition isLocalhost (name : string) : bool := existsb (String.eqb name) ["localhost"; "127.0.0.1"; "::1"].

(** [smtp.Auth]: what it starts with, and its answer to what the server says; the
    flag is set for a challenge. *)
Record Auth : Type := {
  au_Start : Client -> error + (string * string);
  au_Next : string -> bool -> error + option string
}.

Definition NUL : string := String "000" "".

Definition PlainAuth (username password host : string) : Auth := {|
  au_Start := fun c =>
    if negb (cl_tls c) && negb (isLocalhost (cl_serverName c)) then inl (ErrNew "unencrypted connection")
    else if negb (cl_serverName c =? host)%string then inl (ErrNew "wrong host name")
    else inr ("PLAIN", NUL +:+ username +:+ NUL +:+ password);
  au_Next := fun _ more => if more then inl (ErrNew "unexpected server challenge") else inr None |}.

Definition newLoginAuth (username password : string) : Auth := {|
  au_Start := fun _ => inr ("LOGIN", username);
  au_Next := fun fromServer more =>
    if more then
      if existsb (String.eqb fromServer) ["Username:"; "username:"] then inr (Some username)
      else if existsb (String.eqb fromServer) ["Password:"; "password:"] then inr (Some password)
      else inl (ErrNew ("unexpected server challenge in LOGIN auth: " +:+ fromServer))
    else inr None |}.

(** The rest of an exchange of [Client.Auth], from an answer of the server. *)
Fixpoint auth_loop (fuel : nat) (a : Auth) (r : error + response) : SM (option error) :=
  match r with
  | inl e => mret (Some e)
  | inr (code, msg64) =>
      match fuel with
      | 0%nat => mret (Some errOutOfFuel)
      | S fuel =>
          let answer :=
            if code =? 334 then match base64_Decode msg64 with Some msg => au_Next a msg true | None => inl (ErrNew "illegal base64 data") end
            else if code =? 235 then au_Next a msg64 false
            else inl (ErrNew (pad 3 code +:+ " " +:+ msg64)) in
          match answer with
          | inl e => _ ← cmd 501 "*"; _ ← quit; mret (Some e)
          | inr None => mret None
          | inr (Some resp) => r ← cmd 0 (base64_Encode resp); auth_loop fuel a r
          end
      end
  end.

Definition auth (fuel : nat) (a : Auth) : SM (option error) :=
  e ← hello;
  match e with
  | Some e => mret (Some e)
  | None =>
      c ← get_client;
      match au_Start a c with
      | inl e => _ ← quit; mret (Some e)
      | inr (mech, resp) => r ← cmd 0 (TrimSpace ("AUTH " +:+ mech +:+ " " +:+ base64_Encode resp)); auth_loop fuel a r
      end
  end.

(** [validateLine]. *)
Definition one_line (s : string) : bool := string_all (fun c => negb (breaks_line c)) s.
Definition errLine : error := ErrNew "smtp: A line must not contain CR or LF".

Definition smtp_failed (r : error + response) : option error := match r with inl e => Some e | inr _ => None end.

Definition mail_line (c : Client) (from : string) : string :=
  let has name := match cl_ext c with Some ext => is_some (ext !! name) | None => false end in
  "MAIL FROM:<" +:+ from +:+ ">" +:+ (if has "8BITMIME" then " BODY=8BITMIME" else "") +:+ (if has "SMTPUTF8" then " SMTPUTF8" else "").

Definition Mail (from : string) : SM (option error) :=
  if negb (one_line from) then mret (Some errLine)
  else
    e ← hello;
    match e with
    | Some e => mret (Some e)
    | None => c ← get_client; r ← cmd 250 (mail_line c from); mret (smtp_failed r)
    end.

Definition Rcpt (to : string) : SM (option error) :=
  if negb (one_line to) then mret (Some errLine)
  else r ← cmd 25 ("RCPT TO:<" +:+ to +:+ ">"); mret (smtp_failed r).

Definition Data : SM (option error) := r ← cmd 354 "DATA"; mret (smtp_failed r).

(** *** The body on the wire *)

(** The states of the writer that package net/textproto gives [Data]. *)
Variant wstate : Type := wstateBegin | wstateBeginLine | wstateCR | wstateData.

#[export] Instance wstate_eq_dec : EqDecision wstate.
Proof. solve_decision. Defined.

Definition is_lf (c : ascii) : bool := Ascii.eqb c "010".
Definition is_cr (c : ascii) : bool := Ascii.eqb c "013".

(** [dotWriter.Write] for a character: a dot that starts a line is doubled, and a
    line feed without a carriage return gets one. *)
Definition dot_char (st : wstate) (c : ascii) : string * wstate :=
  match st with
  | wstateCR => (String c "", if is_lf c then wstateBeginLine else wstateData)
  | _ =>
      let stuffed := match st with wstateData => false | _ => Ascii.eqb c "." end in
      if is_cr c then (String c "", wstateCR)
      else if is_lf c then (CRLF, wstateBeginLine)
      else (if stuffed then String "." (String c "") else String c "", wstateData)
  end.

Fixpoint dot_Write (st : wstate) (s : string) : string * wstate :=
  match s with
  | "" => ("", st)
  | String c s => let '(out, st) := dot_char st c in let '(rest, st) := dot_Write st s in (out +:+ rest, st)
  end.

(** [dotWriter.Close]: the line that is open is ended, and a line with a dot ends
    the message. *)
Definition dot_Close (st : wstate) : string :=
  match st with
  | wstateBeginLine => ""
  | wstateCR => LF
  | wstateBegin | wstateData => CRLF
  end +:+ "." +:+ CRLF.

(** The message and its end; on a connection that is closed both fail. *)
Definition write_body (payload : string) : SM (option error) :=
  c ← get_client; if cl_closed c then mret (Some errClosed) else smtp (WriteBody (cl_tls c) (dot_Write wstateBegin payload).1).

Definition close_body (ending : string) : SM (option error) :=
  c ← get_client;
  if cl_closed c then mret (Some errClosed) else r ← smtp (EndBody (cl_tls c) ending); mret (smtp_failed (expecting 250 r)).

(** ** Dispatcher.Send *)

Definition new_client (host : string) (tls : bool) : Client := {|
  cl_serverName := host; cl_tls := tls; cl_didHello := false; cl_helloError := None; cl_ext := None; cl_closed := false |}.

(** [smtp.NewClient] on a connection; when it fails the connection is closed. *)
Definition NewClient (host : string) (tls : bool) : prog SmtpE (error + Client) :=
  r ← call Greeting;
  match expecting 220 r with
  | inl e => _ ← call CloseConn; mret (inl e)
  | inr _ => mret (inr (new_client host tls))
  end.

(** [net.JoinHostPort]. *)
Definition JoinHostPort (host port : string) : string :=
  if Contains host ":" || Contains host "%" then "[" +:+ host +:+ "]:" +:+ port else host +:+ ":" +:+ port.

(** The client, encrypted where the configuration or the server provide for it. *)
Definition connect (cfg : SMTPConfig) (addr : string) : prog SmtpE (error + Client) :=
  if sc_DirectTLS cfg || (sc_Port cfg =? 465) then
    d ← call (DialTLS addr);
    match d with
    | Some e => mret (inl (ErrWrap ("failed to connect via direct TLS to " +:+ addr +:+ ": ") e))
    | None =>
        c ← NewClient (sc_Host cfg) true;
        mret (match c with inl e => inl (ErrWrap "failed to create SMTP client over TLS: " e) | inr c => inr c end)
    end
  else
    d ← call (DialTCP addr);
    match d with
    | Some e => mret (inl (ErrWrap ("failed to dial SMTP server " +:+ addr +:+ ": ") e))
    | None =>
        c ← NewClient (sc_Host cfg) false;
        match c with
        | inl e => mret (inl (ErrWrap "failed to create SMTP client: " e))
        | inr c =>
            if negb (sc_StartTLS cfg) then mret (inr c)
            else
              '(ok, c) ← Extension "STARTTLS" c;
              if negb ok then mret (inr c)
              else
                '(e, c) ← StartTLS c;
                match e with
                | Some e => _ ← close_client c; mret (inl (ErrWrap ("STARTTLS handshake failed with " +:+ addr +:+ ": ") e))
                | None => mret (inr c)
                end
        end
    end.

Definition has_credentials (cfg : SMTPConfig) : bool := negb (sc_Username cfg =? "")%string && negb (sc_Password cfg =? "")%string.

Definition authenticate (fuel : nat) (cfg : SMTPConfig) : SM (option error) :=
  if has_credentials cfg then
    e ← auth fuel (PlainAuth (sc_Username cfg) (sc_Password cfg) (sc_Host cfg));
    match e with
    | None => mret None
    | Some err =>
        e ← auth fuel (newLoginAuth (sc_Username cfg) (sc_Password cfg));
        mret (match e with
              | None => None
              | Some loginErr => Some (ErrNew ("SMTP authentication failed (auth: " +:+ error_text err +:+ ", login fallback: "
                                               +:+ error_text loginErr +:+ ")"))
              end)
    end
  else mret None.

(** The recipients of the envelope: trimmed, the first of each address up to
    case. *)
Fixpoint dedup_recipients (seen : list string) (l : list string) : list string :=
  match l with
  | [] => []
  | r :: l =>
      let clean := TrimSpace r in
      if (clean =? "")%string || existsb (String.eqb (ToLower clean)) seen then dedup_recipients seen l
      else clean :: dedup_recipients (ToLower clean :: seen) l
  end.

Fixpoint name_recipients (l : list string) : SM (option error) :=
  match l with
  | [] => mret None
  | r :: l =>
      e ← Rcpt r;
      match e with
      | Some e => mret (Some (ErrWrap ("SMTP RCPT TO failed for " +:+ r +:+ ": ") e))
      | None => name_recipients l
      end
  end.

(** Behind a write that failed nothing more is sent, but the answer is read. *)
Definition transmit (payload : string) : SM (option error) :=
  e ← Data;
  match e with
  | Some e => mret (Some (ErrWrap "SMTP DATA command failed: " e))
  | None =>
      e ← write_body payload;
      match e with
      | Some e => _ ← close_body ""; mret (Some (ErrWrap "failed writing SMTP body payload: " e))
      | None =>
          e ← close_body (dot_Close (dot_Write wstateBegin payload).2);
          mret (match e with Some e => Some (ErrWrap "failed closing SMTP DATA stream: " e) | None => None end)
      end
  end.

(** The steps 3 to 6 of [Send]. *)
Definition deliver (fuel : nat) (cfg : SMTPConfig) (from : string) (recipients : list string) (payload : string) : SM (option error) :=
  e ← authenticate fuel cfg;
  match e with
  | Some e => mret (Some e)
  | None =>
      e ← Mail from;
      match e with
      | Some e => mret (Some (ErrWrap ("SMTP MAIL FROM failed for " +:+ from +:+ ": ") e))
      | None =>
          e ← name_recipients recipients;
          match e with Some e => mret (Some e) | None => transmit payload end
      end
  end.

Definition or_list {A} (l d : list A) : list A := match l with [] => d | _ => l end.

(** What [Send] sends of a message: the sender, the recipients of the headers and
    of the envelope, and the subject. *)
Definition effective_from (cfg : SMTPConfig) (msg : Message) : string := or_string (ms_From msg) (sc_From cfg).
Definition effective_to (cfg : SMTPConfig) (msg : Message) : list string := or_list (ms_To msg) (sc_To cfg).
Definition effective_cc (cfg : SMTPConfig) (msg : Message) : list string := or_list (ms_Cc msg) (sc_Cc cfg).
Definition effective_bcc (cfg : SMTPConfig) (msg : Message) : list string := or_list (ms_Bcc msg) (sc_Bcc cfg).

Definition envelope (cfg : SMTPConfig) (msg : Message) : list string :=
  dedup_recipients [] (effective_to cfg msg ++ effective_cc cfg msg ++ effective_bcc cfg msg).

Definition payload_of (k : mail_clock) (cfg : SMTPConfig) (msg : Message) : string :=
  buildMIMEMessage k (effective_from cfg msg) (effective_to cfg msg) (effective_cc cfg msg) (or_string (ms_Subject msg) (sc_Subject cfg)) msg.

(** [NewDispatcher(cfg).Send(ctx, msg)]; [None] is a nil message. *)
Definition Send (k : mail_clock) (fuel : nat) (cfg : SMTPConfig) (msg : option Message) : prog SmtpE (option error) :=
  let cfg := SMTP_SetDefaults cfg in
  match msg with
  | None => mret (Some (ErrNew "cannot dispatch nil email message"))
  | Some msg =>
      if (effective_from cfg msg =? "")%string then mret (Some (ErrNew "smtp sender 'From' address is required"))
      else
        match effective_to cfg msg ++ effective_cc cfg msg ++ effective_bcc cfg msg with
        | [] => mret (Some (ErrNew "smtp recipient 'To' address is required"))
        | _ =>
            x ← call CtxErr;
            match x with
            | Some e => mret (Some e)
            | None =>
                c ← connect cfg (JoinHostPort (sc_Host cfg) (Itoa (sc_Port cfg)));
                match c with
                | inl e => mret (Some e)
                | inr c =>
                    '(e, c) ← deliver fuel cfg (effective_from cfg msg) (envelope cfg msg) (payload_of k cfg msg) c;
                    '(_, c) ← quit c;
                    _ ← close_client c;
                    mret e
                end
            end
        end
  end.

(** ** The message of an audit *)

(** The count of a line of the summary. *)
Definition BuildAuditEmail (meta : report_meta) (report : AuditReport) (xlsxData filename greeting : string) : Message :=
  let greeting := if (TrimSpace greeting =? "")%string then "Hello Team," else greeting in
  let s := rp_Summary report in
  let rule := "================================================================================" in
  let generated := RFC1123 (mt_GeneratedAt meta) in
  let text := Join [
    greeting; "";
    "Please find below the latest GitLab Fleet compliance and security audit summary.";
    "Review any critical or high severity findings and take corrective action as needed.";
    rule; "GitLab Fleet Compliance & Security Audit Report"; rule;
    "Generated At       : " +:+ generated;
    "Duration           : " +:+ mt_DurationString meta;
    "Audited By         : " +:+ initiator report;
    "Repositories       : Scanned: " +:+ Itoa (as_TotalProjectsScanned s) +:+ " | Compliant: " +:+ Itoa (as_CompliantProjectsCount s)
      +:+ " | Non-Compliant: " +:+ Itoa (as_NonCompliantProjectsCount s);
    "Total Violations   : " +:+ Itoa (as_TotalViolations s) +:+ " (Critical: " +:+ Itoa (as_CriticalSeverityCount s) +:+ ", High: "
      +:+ Itoa (as_HighSeverityCount s) +:+ ", Medium: " +:+ Itoa (as_MediumSeverityCount s) +:+ ", Low: "
      +:+ Itoa (as_LowSeverityCount s) +:+ ")";
    ""; "Audit Breakdown:";
    "- User Access & Expiration Violations         : " +:+ Itoa (as_UserAccessViolations s);
    "- Protected Branches Compliance Violations    : " +:+ Itoa (as_ProtectedBranchViolations s);
    "- Protected Environments Deployment Violations: " +:+ Itoa (as_ProtectedEnvViolations s);
    "- Pipeline Retention & Cleanup Violations     : " +:+ Itoa (as_PipelineRetentionViolations s);
    rule; "Please inspect the attached Excel workbook (" +:+ filename +:+ ") for detailed repository findings."; "";
    "— GitLab Fleet Governor"] LF in
  let metric color name n :=
    "      <tr><td style=" +:+ quoted "padding: 8px; border: 1px solid #e1e4e8;" +:+ ">" +:+ name +:+ "</td><td style="
    +:+ quoted ("padding: 8px; border: 1px solid #e1e4e8; text-align: right; font-weight: bold;" +:+ color) +:+ ">" +:+ Itoa n +:+ "</td></tr>" in
  let small := quoted "color: #666666; font-size: 13px;" in
  let html := Join [
    "<!DOCTYPE html>"; "<html>";
    "<body style=" +:+ quoted "font-family: Arial, sans-serif; color: #333333; line-height: 1.6; margin: 20px;" +:+ ">";
    "  <div style=" +:+ quoted "max-width: 650px; margin: auto; border: 1px solid #e1e4e8; border-radius: 6px; padding: 24px; background: #ffffff;" +:+ ">";
    "    <h2 style=" +:+ quoted "color: #1f497d; margin-top: 0; border-bottom: 2px solid #eaecef; padding-bottom: 8px;"
      +:+ ">GitLab Fleet Compliance &amp; Security Audit</h2>";
    "    <p style=" +:+ quoted "font-size: 14px;" +:+ ">" +:+ greeting +:+ "</p>";
    "    <p style=" +:+ small +:+ ">Please find below the latest GitLab Fleet compliance and security audit summary. Review any critical or high severity findings and take corrective action as needed.</p>";
    "    <p style=" +:+ small +:+ "><b>Generated:</b> " +:+ generated +:+ " | <b>Scan Duration:</b> " +:+ mt_DurationString meta
      +:+ " | <b>Audited By:</b> " +:+ initiator report +:+ "</p>";
    "    ";
    "    <table style=" +:+ quoted "width: 100%; border-collapse: collapse; margin: 16px 0;" +:+ ">";
    "      <tr style=" +:+ quoted "background: #f6f8fa;" +:+ "><th style=" +:+ quoted "padding: 8px; border: 1px solid #d1d5da; text-align: left;"
      +:+ ">Metric</th><th style=" +:+ quoted "padding: 8px; border: 1px solid #d1d5da; text-align: right;" +:+ ">Count</th></tr>";
    metric "" "Repositories Scanned" (as_TotalProjectsScanned s);
    metric " color: #28a745;" "Fully Compliant" (as_CompliantProjectsCount s);
    metric " color: #cb2431;" "Non-Compliant (Drift Detected)" (as_NonCompliantProjectsCount s);
    metric " color: #cb2431;" "Critical Severity Violations" (as_CriticalSeverityCount s);
    metric " color: #cb2431;" "High Severity Violations" (as_HighSeverityCount s);
    "    </table>"; "";
    "    <p style=" +:+ quoted "margin-top: 20px;" +:+ ">The detailed multi-sheet audit workbook <b>" +:+ filename
      +:+ "</b> is attached with complete field-level findings.</p>";
    "    <p style=" +:+ quoted "margin-top: 24px; color: #888888; font-size: 12px; border-top: 1px solid #eaecef; padding-top: 12px;"
      +:+ ">— GitLab Fleet Governor</p>";
    "  </div>"; "</body>"; "</html>"] LF in
  {| ms_From := ""; ms_To := []; ms_Cc := []; ms_Bcc := []; ms_Subject := ""; ms_TextBody := text; ms_HTMLBody := html;
     ms_Attachments := if (xlsxData =? "")%string then [] else
       [{| at_Filename := filename; at_ContentType := "application/vnd.openxmlformats-officedocument.spreadsheetml.sheet"; at_Data := xlsxData |}] |}.

(** ** Routing by group *)

Record GroupRoutingRule : Type := { gr_GroupID : Z; gr_GroupPath : string; gr_Recipients : list string }.

(** The addresses that follow, without those that were seen. *)
Fixpoint add_new (seen : list string) (l : list string) : list string :=
  match l with
  | [] => seen
  | r :: l =>
      let email := TrimSpace r in
      add_new (if (email =? "")%string || existsb (String.eqb email) seen then seen else seen ++ [email]) l
  end.

Definition path_routed (rule : GroupRoutingRule) (projectPath : string) : bool :=
  let p := ToLower projectPath in
  let gp := ToLower (Trim "/" (gr_GroupPath rule)) in
  negb (gr_GroupPath rule =? "")%string && (HasPrefix p (gp +:+ "/") || (p =? gp)%string).

Definition id_routed (rule : GroupRoutingRule) (groupID : Z) : bool := (0 <? gr_GroupID rule) && (gr_GroupID rule =? groupID).

Definition ResolveGroupRecipients (rules : list GroupRoutingRule) (groupID : Z) (projectPath : string) : list string :=
  foldl (fun seen rule =>
    let seen := if id_routed rule groupID then add_new seen (gr_Recipients rule) else seen in
    if path_routed rule projectPath then add_new seen (gr_Recipients rule) else seen) [] rules.

(** ** The attachments survive *)

Lemma substring_drop n s : String.substring 0 n s +:+ string_drop n s = s.
Proof. revert s. induction n as [|n IH]; intros [|c s]; [done..|]. cbn [String.substring string_drop]. by rewrite string_app_cons, IH. Qed.

Lemma substring_length n s : (String.length (String.substring 0 n s) <= n)%nat.
Proof. revert s. induction n as [|n IH]; intros [|c s]; cbn; [lia..|]. specialize (IH s). lia. Qed.

Lemma wrap_lines_spec fuel s :
  (String.length s <= fuel)%nat ->
  letters_of (lines_of (wrap_lines fuel s)) = letters_of s /\ Forall (fun l => (0 < String.length l <= 76)%nat) (wrap_lines fuel s).
Proof.
  revert s. induction fuel as [|fuel IH]; intros s Hs; [by destruct s; [|cbn in Hs; lia]|]. cbn [wrap_lines].
  destruct (String.eqb_spec s "") as [->|Hne]; [done|].
  assert (0 < String.length s)%nat as Hpos by (destruct s; [done|cbn; lia]).
  destruct (IH (string_drop 76 s)) as [Hl Hf]; [rewrite string_drop_length; lia|]. split.
  - unfold lines_of. change ((fun s => s +:+ CRLF) <$> String.substring 0 76 s :: ?l) with ((String.substring 0 76 s +:+ CRLF) :: ((fun s => s +:+ CRLF) <$> l)).
    assert (forall a l, String.concat "" (a :: l) = a +:+ String.concat "" l) as Hc by (intros a []; [by rewrite string_app_nil_r|done]).
    rewrite Hc, !letters_of_app. unfold lines_of in Hl. rewrite Hl. change (letters_of CRLF) with (@nil ascii). rewrite app_nil_r, <- letters_of_app.
    by rewrite substring_drop.
  - constructor; [|done]. split; [|apply substring_length]. destruct s; [done|]. cbn. lia.
Qed.

(** ** How a server reads the body *)

(** Where a server is in a line: at its start, behind a carriage return, or
    elsewhere. *)
Variant rstate : Type := at_start | behind_cr | in_line.

#[export] Instance rstate_eq_dec : EqDecision rstate.
Proof. solve_decision. Defined.

Definition reads (st : rstate) (c : ascii) : rstate :=
  if is_cr c then behind_cr
  else match st with behind_cr => if is_lf c then at_start else in_line | _ => in_line end.

(** The message in what is sent after DATA (RFC 5321, 4.5.2): a line with nothing
    but a dot ends it, and a dot that starts another line is not part of it.
    [None] when the end is missing, or when something follows it, which the
    server would take for a command. *)
Fixpoint dot_read (st : rstate) (s : string) : option string :=
  match s with
  | "" => None
  | String c s =>
      match st with
      | at_start =>
          if Ascii.eqb c "." then
            if HasPrefix s CRLF then (if (s =? CRLF)%string then Some "" else None) else dot_read in_line s
          else String c <$> dot_read (reads st c) s
      | _ => String c <$> dot_read (reads st c) s
      end
  end.

(** A text with its last line ended. *)
Fixpoint ended (s : string) : string :=
  match s with
  | "" => LF
  | String c s => if is_lf c && (s =? "")%string then LF else String c (ended s)
  end.

(** [widened p q]: [q] is [p] with carriage returns added before line feeds. *)
Inductive widened : string -> string -> Prop :=
| widened_nil : widened "" ""
| widened_same c p q : widened p q -> widened (String c p) (String c q)
| widened_cr p q : widened p q -> widened (String "010" p) (String "013" (String "010" q)).

(** Every line feed follows a carriage return. *)
Fixpoint crlf_lines (cr : bool) (s : string) : Prop :=
  match s with
  | "" => True
  | String c s => (is_lf c = true -> cr = true) /\ crlf_lines (is_cr c) s
  end.

(** Where the server is when the writer is in a state. *)
Definition in_step (w : wstate) (r : rstate) : Prop :=
  match w with
  | wstateBegin | wstateBeginLine => r = at_start
  | wstateCR => r = behind_cr
  | wstateData => r <> at_start
  end.

Definition after_cr (r : rstate) : bool := match r with behind_cr => true | _ => false end.

(** The rest of the message, from a state of the writer. *)
Definition rest_of (w : wstate) (p : string) : string :=
  match w, p with wstateBeginLine, "" => "" | _, _ => ended p end.

Lemma rest_of_cons w c p : is_lf c = false \/ p <> "" -> rest_of w (String c p) = String c (ended p).
Proof. intros H. destruct w; cbn; (destruct (is_lf c); [destruct (String.eqb_spec p ""); [by destruct H|done]|done]). Qed.

Lemma rest_of_lf w p : rest_of w (String "010" p) = String "010" (rest_of wstateBeginLine p).
Proof. destruct w; by destruct p. Qed.

Lemma rest_of_other w w' c p : is_lf c = false -> w' <> wstateBeginLine -> rest_of w (String c p) = String c (rest_of w' p).
Proof. intros Hc Hw. rewrite rest_of_cons by auto. by destruct w', p. Qed.

(** A server that keeps a character. *)
Lemma dot_read_cons r c s : r <> at_start \/ Ascii.eqb c "." = false ->
  dot_read r (String c s) = String.append (String c "") <$> dot_read (reads r c) s.
Proof. intros Hc. cbn [dot_read]. destruct r; [destruct Hc as [?| ->]; [done|]|..]; by destruct (dot_read _ s). Qed.

Lemma dot_read_crlf r s : dot_read r (CRLF +:+ s) = String.append CRLF <$> dot_read at_start s.
Proof.
  unfold CRLF. rewrite !string_app_cons, string_app_nil_l, dot_read_cons by auto. replace (reads r "013") with behind_cr by (by destruct r).
  rewrite dot_read_cons by (by left). change (reads behind_cr "010") with at_start. by destruct (dot_read at_start s).
Qed.

(** One character: what it becomes on the wire is read as it was, but for a
    carriage return before a line feed. *)
Lemma dot_char_read w r c p : in_step w r -> exists pre r',
  in_step (dot_char w c).2 r' /\
  (forall s, dot_read r ((dot_char w c).1 +:+ s) = String.append pre <$> dot_read r' s) /\
  (forall q, widened (rest_of (dot_char w c).2 p) q -> widened (rest_of w (String c p)) (pre +:+ q)) /\
  (forall q, crlf_lines (after_cr r') q -> crlf_lines (after_cr r) (pre +:+ q)).
Proof.
  intros Hr. destruct (is_lf c) eqn:Hlf; [|destruct (is_cr c) eqn:Hcr].
  - apply Ascii.eqb_eq in Hlf as ->.
    assert (in_step (dot_char w "010").2 at_start) as Hs by (by destruct w).
    destruct (decide (w = wstateCR)) as [->|Hne].
    + cbn in Hr. subst r. exists LF, at_start. split_and!; [done| | |done].
      * intros s. unfold LF. cbn [dot_char fst]. rewrite string_app_cons, string_app_nil_l. apply dot_read_cons. by left.
      * intros q Hq. rewrite rest_of_lf. by apply widened_same.
    + assert (dot_char w "010" = (CRLF, wstateBeginLine)) as Hd by (by destruct w). rewrite Hd in *.
      exists CRLF, at_start. split_and!; [done|intros s; apply dot_read_crlf| |done]. intros q Hq. rewrite rest_of_lf. by apply widened_cr.
  - apply Ascii.eqb_eq in Hcr as ->. exists (String "013" ""), behind_cr.
    assert ((dot_char w "013").1 = String "013" "") as -> by (by destruct w).
    assert (reads r "013" = behind_cr) as Hreads by done.
    split_and!; [by destruct w| | |done].
    + intros s. rewrite string_app_cons, string_app_nil_l, dot_read_cons by auto. by rewrite Hreads.
    + intros q Hq. rewrite (rest_of_other w (dot_char w "013").2) by (by destruct w). by constructor.
  - exists (String c ""), in_line.
    assert ((dot_char w c).2 = wstateData) as -> by (destruct w; cbn; by rewrite ?Hlf, ?Hcr).
    assert (reads r c = in_line) as Hreads by (unfold reads; rewrite Hcr; destruct r; by rewrite ?Hlf).
    split_and!; [done| | |].
    + intros s. destruct (decide (r = at_start /\ c = "."%char)) as [[-> ->]|Hne].
      * destruct w; cbn in Hr; try done; cbn; by destruct (dot_read in_line s).
      * assert ((dot_char w c).1 = String c "") as ->.
        { destruct w; cbn in *; rewrite ?Hlf, ?Hcr; try done; destruct (Ascii.eqb_spec c "."); naive_solver. }
        rewrite string_app_cons, string_app_nil_l, dot_read_cons, Hreads; [done|].
        destruct (decide (r = at_start)); [right; apply Ascii.eqb_neq; naive_solver|by left].
    + intros q Hq. rewrite (rest_of_other w wstateData) by done. by constructor.
    + intros q Hq. rewrite string_app_cons, string_app_nil_l. cbn [crlf_lines]. rewrite Hlf, Hcr. by split.
Qed.

(** What a server reads is what was written, whatever it is: no line of it ends
    the message, and none is lost. *)
Lemma dot_read_written p : forall w r, in_step w r ->
  exists text, dot_read r ((dot_Write w p).1 +:+ dot_Close (dot_Write w p).2) = Some text /\
    widened (rest_of w p) text /\ crlf_lines (after_cr r) text.
Proof.
  induction p as [|c p IH]; intros w r Hr.
  - destruct w; cbn in Hr; [exists CRLF|exists ""|exists LF|exists CRLF];
      (split_and!; [subst r || destruct r; done|first [apply widened_nil|apply widened_cr, widened_nil|apply widened_same, widened_nil]|by subst r || by cbn]).
  - cbn [dot_Write]. destruct (dot_char_read w r c p Hr) as (pre & r' & Hr' & Hread & Hw & Hcr).
    destruct (dot_char w c) as [out w']. cbn [fst snd] in *. destruct (IH w' r' Hr') as (q & Hq & Hwq & Hcq).
    destruct (dot_Write w' p) as [rest w'']. cbn [fst snd] in *. exists (pre +:+ q). rewrite string_app_assoc, Hread, Hq. split_and!; auto.
Qed.

(** ** What a mail holds *)

(** A MIME entity: its header fields, a blank line and its content; and a content
    that consists of parts, divided by a boundary (RFC 2046, 5.1.1). *)
Definition entity (fields : list string) (content : string) : string := lines_of fields +:+ CRLF +:+ content.

Definition multipart (boundary : string) (parts : list string) : string :=
  String.concat "" ((fun p => "--" +:+ boundary +:+ CRLF +:+ p) <$> parts) +:+ "--" +:+ boundary +:+ "--" +:+ CRLF.

(** The bodies of a message with their types: those that are not empty. *)
Definition bodies_of (m : Message) : list (string * string) :=
  filter (fun b => b.2 <> "") [("text/plain", ms_TextBody m); ("text/html", ms_HTMLBody m)].

(** A part with a body as it is, and one with a file. *)
Definition holds_body (body : string * string) (part : string) : Prop :=
  exists encoding, (encoding = [] \/ encoding = ["Content-Transfer-Encoding: 7bit"]) /\
    part = entity (("Content-Type: " +:+ body.1 +:+ "; charset=UTF-8") :: encoding) (body.2 +:+ CRLF +:+ CRLF).

Definition holds_file (a : Attachment) (part : string) : Prop :=
  exists type encoded,
    part = entity ["Content-Type: " +:+ type +:+ "; name=" +:+ quoted (at_Filename a);
                   "Content-Disposition: attachment; filename=" +:+ quoted (at_Filename a);
                   "Content-Transfer-Encoding: base64"] (lines_of encoded +:+ CRLF) /\
    (at_ContentType a <> "" -> type = at_ContentType a) /\
    Forall (fun l => (0 < String.length l <= 76)%nat) encoded /\
    base64_Decode (lines_of encoded +:+ CRLF) = Some (at_Data a).

Definition multipart_type (kind boundary : string) : string := "Content-Type: multipart/" +:+ kind +:+ "; boundary=" +:+ quoted boundary.

(** The content of a mail with a message, by its type. *)
Inductive holds (m : Message) : string -> string -> Prop :=
| holds_text :
    ms_Attachments m = [] -> ms_HTMLBody m = "" -> holds m "Content-Type: text/plain; charset=UTF-8" (ms_TextBody m)
| holds_html :
    ms_Attachments m = [] -> ms_HTMLBody m <> "" -> ms_TextBody m = "" -> holds m "Content-Type: text/html; charset=UTF-8" (ms_HTMLBody m)
| holds_both b ps :
    ms_Attachments m = [] -> ms_HTMLBody m <> "" -> ms_TextBody m <> "" -> Forall2 holds_body (bodies_of m) ps ->
    holds m (multipart_type "alternative" b) (multipart b ps)
| holds_files b b' ps fs :
    ms_Attachments m <> [] -> Forall2 holds_body (bodies_of m) ps -> Forall2 holds_file (ms_Attachments m) fs ->
    holds m (multipart_type "mixed" b) (multipart b (entity [multipart_type "alternative" b'] (multipart b' ps) :: fs)).

(** A mail: its header names the sender, the recipients that everyone may see, the
    subject and the date, and its content is that of the message. *)
Definition carries (from : string) (to cc : list string) (subject date : string) (m : Message) (mail : string) : Prop :=
  exists type content,
    mail = entity (["From: " +:+ from] ++ (if bool_decide (to = []) then [] else ["To: " +:+ Join to ", "])
                   ++ (if bool_decide (cc = []) then [] else ["Cc: " +:+ Join cc ", "])
                   ++ ["Subject: " +:+ subject; "Date: " +:+ date; "MIME-Version: 1.0"; type]) content /\
    holds m type content.

Lemma concat_cons a l : String.concat "" (a :: l) = a +:+ String.concat "" l.
Proof. destruct l; [by rewrite string_app_nil_r|done]. Qed.

Lemma lines_of_cons a l : lines_of (a :: l) = a +:+ CRLF +:+ lines_of l.
Proof. unfold lines_of. by rewrite fmap_cons, concat_cons, string_app_assoc. Qed.

Lemma lines_of_app l l' : lines_of (l ++ l') = lines_of l +:+ lines_of l'.
Proof. induction l as [|a l IH]; [done|]. by rewrite <- app_comm_cons, !lines_of_cons, IH, !string_app_assoc. Qed.

(** An attachment is encoded in lines of at most 76 characters, from which a
    decoder reads its bytes, whatever they are. *)
Lemma attachment_part_holds k a :
  exists part, attachment_part k a = "--" +:+ boundary_mixed k +:+ CRLF +:+ part /\ holds_file a part.
Proof.
  eexists. split.
  - unfold attachment_part. rewrite lines_of_cons, !string_app_assoc. reflexivity.
  - eexists (or_string (at_ContentType a) "application/octet-stream"), (wrapped_base64 (at_Data a)). split_and!.
    + unfold entity. rewrite !lines_of_cons. change (lines_of []) with "". by rewrite ?string_app_assoc, ?string_app_nil_l.
    + apply or_string_set.
    + unfold wrapped_base64. cbv zeta. by apply wrap_lines_spec.
    + apply base64_roundtrip. unfold wrapped_base64. cbv zeta.
      destruct (wrap_lines_spec (String.length (base64_Encode (at_Data a))) (base64_Encode (at_Data a)) ltac:(lia)) as [Hl _].
      rewrite letters_of_app, Hl. change (letters_of CRLF) with (@nil ascii). by rewrite app_nil_r, letters_of_Encode.
Qed.

Lemma attachment_parts k l :
  exists parts, String.concat "" (attachment_part k <$> l) = String.concat "" ((fun p => "--" +:+ boundary_mixed k +:+ CRLF +:+ p) <$> parts) /\
    Forall2 holds_file l parts.
Proof.
  induction l as [|a l (ps & Hp & Hf)]; [by exists []|]. destruct (attachment_part_holds k a) as (p & Ha & Hh). exists (p :: ps).
  rewrite !fmap_cons, !concat_cons, Ha, Hp. split; [done|by constructor].
Qed.

(** The bodies between the boundaries of the alternatives. *)
Lemma body_parts k encoding m : encoding = [] \/ encoding = ["Content-Transfer-Encoding: 7bit"] ->
  exists ps, (if (ms_TextBody m =? "")%string then "" else body_part k "text/plain" encoding (ms_TextBody m)) +:+
             (if (ms_HTMLBody m =? "")%string then "" else body_part k "text/html" encoding (ms_HTMLBody m)) =
             String.concat "" ((fun p => "--" +:+ boundary_alt k +:+ CRLF +:+ p) <$> ps) /\ Forall2 holds_body (bodies_of m) ps.
Proof.
  intros Hen.
  assert (forall type body, exists p, body_part k type encoding body = "--" +:+ boundary_alt k +:+ CRLF +:+ p /\ holds_body (type, body) p) as Hp.
  { intros type body. eexists. split; [|exists encoding; split; [done|reflexivity]]. unfold body_part, entity. cbn [fst snd].
    rewrite <- !app_comm_cons, !lines_of_cons, !app_nil_l, lines_of_app, lines_of_cons. change (lines_of []) with "".
    by rewrite ?string_app_assoc, ?string_app_nil_l. }
  destruct (Hp "text/plain" (ms_TextBody m)) as (p & -> & Ht), (Hp "text/html" (ms_HTMLBody m)) as (q & -> & Hh). unfold bodies_of.
  rewrite !filter_cons, filter_nil. cbn [snd].
  destruct (String.eqb_spec (ms_TextBody m) "") as [->|Hnt], (String.eqb_spec (ms_HTMLBody m) "") as [->|Hnh];
    repeat case_decide; try congruence.
  - by exists [].
  - exists [q]. rewrite fmap_cons, concat_cons, string_app_nil_r, string_app_nil_l. split; [done|by repeat constructor].
  - exists [p]. rewrite fmap_cons, concat_cons. split; [done|by repeat constructor].
  - exists [p; q]. rewrite !fmap_cons, !concat_cons, string_app_nil_r. split; [done|by repeat constructor].
Qed.

Lemma buildMIMEMessage_carries k from to cc subject m : carries from to cc subject (mc_Date k) m (buildMIMEMessage k from to cc subject m).
Proof.
  set (fields type := ["From: " +:+ from] ++ (if bool_decide (to = []) then [] else ["To: " +:+ Join to ", "])
                      ++ (if bool_decide (cc = []) then [] else ["Cc: " +:+ Join cc ", "])
                      ++ ["Subject: " +:+ subject; "Date: " +:+ mc_Date k; "MIME-Version: 1.0"; type]).
  assert (forall type content, entity (fields type) content =
    lines_of (mail_headers k from to cc subject) +:+ lines_of [type; ""] +:+ content) as He.
  { intros type content. unfold entity, fields, mail_headers. destruct to, cc; repeat case_bool_decide; try done;
      cbn [app]; rewrite !lines_of_cons; change (lines_of []) with "";
      by rewrite ?string_app_assoc, ?string_app_nil_l. }
  unfold carries, buildMIMEMessage. cbv zeta. destruct (ms_Attachments m) as [|a atts] eqn:Ha.
  - destruct (String.eqb_spec (ms_HTMLBody m) "") as [Hh|Hh], (String.eqb_spec (ms_TextBody m) "") as [Ht|Ht]; cbn [negb andb].
    + eexists _, _. split; [|by apply holds_text]. symmetry. apply He.
    + eexists _, _. split; [|by apply holds_text]. symmetry. apply He.
    + eexists _, _. split; [|by apply holds_html]. symmetry. apply He.
    + destruct (body_parts k [] m (or_introl eq_refl)) as (ps & Hp & Hf).
      rewrite (proj2 (String.eqb_neq _ _) Hh), (proj2 (String.eqb_neq _ _) Ht) in Hp.
      exists (multipart_type "alternative" (boundary_alt k)), (multipart (boundary_alt k) ps). split; [|by apply holds_both].
      fold (fields (multipart_type "alternative" (boundary_alt k))). rewrite He. unfold multipart, multipart_type. rewrite <- Hp, !lines_of_cons. change (lines_of []) with "".
      by rewrite ?string_app_assoc, ?string_app_nil_r.
  - destruct (body_parts k ["Content-Transfer-Encoding: 7bit"] m (or_intror eq_refl)) as (ps & Hp & Hf).
    destruct (attachment_parts k (ms_Attachments m)) as (fs & Hfs & Hff). rewrite Ha in Hfs.
    exists (multipart_type "mixed" (boundary_mixed k)),
      (multipart (boundary_mixed k) (entity [multipart_type "alternative" (boundary_alt k)] (multipart (boundary_alt k) ps) :: fs)).
    split; [|apply holds_files; [by rewrite Ha|done|done]].
    fold (fields (multipart_type "mixed" (boundary_mixed k))). rewrite He, Hfs. unfold multipart, multipart_type, entity. rewrite fmap_cons, concat_cons, <- Hp, !lines_of_cons. change (lines_of []) with "".
    by rewrite ?string_app_assoc, ?string_app_nil_r, ?string_app_nil_l.
Qed.

(** ** The envelope *)

Lemma dedup_recipients_spec seen l :
  NoDup (ToLower <$> dedup_recipients seen l) /\
  forall x, x ∈ ToLower <$> dedup_recipients seen l <-> (~ x ∈ seen) /\ (exists r, r ∈ l /\ TrimSpace r <> "" /\ x = ToLower (TrimSpace r)).
Proof.
  revert seen. induction l as [|r l IH]; intros seen; cbn [dedup_recipients].
  { split; [constructor|]. intros x. split; [by intros ?%elem_of_nil|]. intros (_ & ? & ?%elem_of_nil & _). done. }
  destruct ((TrimSpace r =? "")%string || existsb (String.eqb (ToLower (TrimSpace r))) seen) eqn:Hskip.
  - destruct (IH seen) as [Hnd Hin]. split; [done|]. intros x. rewrite Hin. split.
    + intros (Hx & r' & Hr & Hrest). split; [done|]. exists r'. split; [by right|done].
    + intros (Hx & r' & [->|Hr]%elem_of_cons & Hne & ->); split; [done| |done|by exists r'].
      apply orb_true_iff in Hskip as [He%String.eqb_eq|He]; [done|]. apply existsb_exists in He as (y & Hy & <-%String.eqb_eq).
      by apply list_elem_of_In in Hy.
  - apply orb_false_iff in Hskip as [Hne%String.eqb_neq Hns]. destruct (IH (ToLower (TrimSpace r) :: seen)) as [Hnd Hin].
    assert (ToLower (TrimSpace r) ∉ seen) as Hfresh.
    { intros Hx. assert (existsb (String.eqb (ToLower (TrimSpace r))) seen = true) as Ht; [|congruence].
      apply existsb_exists. exists (ToLower (TrimSpace r)). split; [by apply list_elem_of_In|apply String.eqb_refl]. }
    rewrite fmap_cons. split.
    + constructor; [|done]. rewrite Hin. intros [Hx _]. apply Hx. by left.
    + intros x. rewrite elem_of_cons, Hin. split.
      * intros [->|(Hx & r' & Hr & Hrest)]; [split; [done|]; exists r; split; [by left|done]|].
        split; [intros ?; apply Hx; by right|]. exists r'. split; [by right|done].
      * intros (Hx & r' & [->|Hr]%elem_of_cons & Hne' & ->); [by left|].
        destruct (decide (ToLower (TrimSpace r') = ToLower (TrimSpace r))) as [He|He]; [by left|right]. split; [|by exists r'].
        by intros [?|?]%elem_of_cons.
Qed.

Lemma dedup_recipients_listed seen l x : x ∈ dedup_recipients seen l -> x <> "" /\ exists a, a ∈ l /\ x = TrimSpace a.
Proof.
  revert seen. induction l as [|a l IH]; intros seen; cbn [dedup_recipients]; [by intros ?%elem_of_nil|].
  destruct ((TrimSpace a =? "")%string || _) eqn:Hskip.
  - intros Hx. destruct (IH _ Hx) as (Hne & b & Hb & ->). split; [done|]. exists b. split; [by right|done].
  - apply orb_false_iff in Hskip as [Hne%String.eqb_neq _]. intros [->|Hx]%elem_of_cons; [split; [done|]; exists a; split; [by left|done]|].
    destruct (IH _ Hx) as (Hne' & b & Hb & ->). split; [done|]. exists b. split; [by right|done].
Qed.

(** Everyone who is listed once, up to case: the addresses without blanks around
    them, of those that are not blank. *)
Definition once_each (listed recipients : list string) : Prop :=
  NoDup (ToLower <$> recipients) /\
  Forall (fun r => r <> "" /\ exists a, a ∈ listed /\ r = TrimSpace a) recipients /\
  (forall a, a ∈ listed -> TrimSpace a <> "" -> ToLower (TrimSpace a) ∈ ToLower <$> recipients).

Lemma envelope_once cfg msg :
  once_each (effective_to cfg msg ++ effective_cc cfg msg ++ effective_bcc cfg msg) (envelope cfg msg).
Proof.
  unfold envelope. destruct (dedup_recipients_spec [] (effective_to cfg msg ++ effective_cc cfg msg ++ effective_bcc cfg msg)) as [Hnd Hin].
  split_and!; [done| |].
  - apply Forall_forall. intros r. apply dedup_recipients_listed.
  - intros a Ha Hne. apply Hin. split; [by intros ?%elem_of_nil|]. by exists a.
Qed.

(** ** What success means *)

(** A call with its answer. *)
Definition said {X} (e : SmtpE X) (x : X) : answered SmtpE := existT X (e, x).

(** A call other than those that carry the message. *)
Definition no_body X (e : SmtpE X) : Prop := match e with WriteBody _ _ | EndBody _ _ => False | _ => True end.

Definition bodyless (l : list (answered SmtpE)) : Prop := Forall (fun a : answered SmtpE => no_body _ (projT2 a).1) l.

(** A line that the server accepted with a code. *)
Definition accepts (tls : bool) (line : string) (expect : Z) (a : answered SmtpE) : Prop :=
  exists code msg, a = said (Exchange tls line) (inr (code, msg)) /\ code_expected expect code = true.

(** The conversation of a message that was delivered: its sender, the recipients,
    the body and what ends it, each accepted. *)
Definition delivered (tls : bool) (from : string) (recipients : list string) (body ending : string) (l : list (answered SmtpE)) : Prop :=
  exists pre mail rcpts data last post options,
    l = pre ++ [mail] ++ rcpts ++ [data; said (WriteBody tls body) None; last] ++ post /\
    accepts tls ("MAIL FROM:<" +:+ from +:+ ">" +:+ options) 250 mail /\
    Forall2 (fun r a => accepts tls ("RCPT TO:<" +:+ r +:+ ">") 25 a) recipients rcpts /\
    accepts tls "DATA" 354 data /\
    (exists code msg, last = said (EndBody tls ending) (inr (code, msg)) /\ code_expected 250 code = true) /\
    bodyless pre /\ bodyless post.

Create HintDb bodyless.

Ltac bodyless_solve :=
  repeat first
    [ exact I | assumption | progress intros
    | match goal with
      | |- only _ (mret _ _) => exact I
      | |- only _ (mret _) => exact I
      | |- only _ (Ret _) => exact I
      | |- only _ (call _) => split; [exact I|intros; exact I]
      | |- only _ (mbind _ _ _) => apply only_bind
      | |- only _ (mbind _ _) => apply only_bind
      | |- only _ (get_client _) => exact I
      | |- only _ (set_client _ _) => exact I
      | |- only _ (smtp _ _) => split; [exact I|intros; exact I]
      | |- only _ (match ?x with _ => _ end _) => destruct x
      | |- only _ (match ?x with _ => _ end) => destruct x
      | |- only _ (let '_ := ?x in _) => destruct x
      end
    | solve [auto with bodyless] ].

Lemma cmd_bodyless expect line c : only no_body (cmd expect line c).
Proof. unfold cmd. bodyless_solve. Qed.
#[local] Hint Resolve cmd_bodyless : bodyless.
Lemma ehlo_bodyless c : only no_body (ehlo c).
Proof. unfold ehlo. bodyless_solve. Qed.
Lemma helo_bodyless c : only no_body (helo c).
Proof. unfold helo. bodyless_solve. Qed.
#[local] Hint Resolve ehlo_bodyless helo_bodyless : bodyless.
Lemma hello_bodyless c : only no_body (hello c).
Proof. unfold hello. bodyless_solve. Qed.
#[local] Hint Resolve hello_bodyless : bodyless.
Lemma close_client_bodyless c : only no_body (close_client c).
Proof. unfold close_client. bodyless_solve. Qed.
#[local] Hint Resolve close_client_bodyless : bodyless.
Lemma quit_bodyless c : only no_body (quit c).
Proof. unfold quit. bodyless_solve. Qed.
Lemma Extension_bodyless name c : only no_body (Extension name c).
Proof. unfold Extension. bodyless_solve. Qed.
Lemma StartTLS_bodyless c : only no_body (StartTLS c).
Proof. unfold StartTLS. bodyless_solve. Qed.
#[local] Hint Resolve quit_bodyless Extension_bodyless StartTLS_bodyless : bodyless.
Lemma auth_loop_bodyless fuel a r c : only no_body (auth_loop fuel a r c).
Proof.
  revert r c. induction fuel as [|fuel IH]; intros [e|[code msg]] c; cbn [auth_loop]; [exact I..|].
  destruct (if code =? 334 then _ else _) as [e|[resp|]]; bodyless_solve.
Qed.
#[local] Hint Resolve auth_loop_bodyless : bodyless.
Lemma auth_bodyless fuel a c : only no_body (auth fuel a c).
Proof. unfold auth. bodyless_solve. Qed.
#[local] Hint Resolve auth_bodyless : bodyless.
Lemma authenticate_bodyless fuel cfg c : only no_body (authenticate fuel cfg c).
Proof. unfold authenticate. bodyless_solve. Qed.
Lemma connect_bodyless cfg addr : only no_body (connect cfg addr).
Proof. unfold connect, NewClient. bodyless_solve. Qed.
#[local] Hint Resolve authenticate_bodyless connect_bodyless : bodyless.

(** Runs the state of a client through a computation. *)
Ltac sm_step :=
  cbv [mbind mret SM_bind SM_ret prog_bind prog_ret get_client set_client smtp call]; cbn [prog_bind_def traces follows fst snd cl_tls cl_closed cl_serverName cl_didHello cl_helloError cl_ext with_hello with_ext with_closed with_tls].

(** What a command leaves of the conversation: nothing but its line, with an
    answer; the client is as it was. *)
Lemma cmd_traces expect line c :
  traces (fun t '(r, c') => c' = c /\ bodyless t /\
    match r with
    | inl _ => True
    | inr (code, msg) => t = [said (Exchange (cl_tls c) line) (inr (code, msg))] /\ code_expected expect code = true
    end) (cmd expect line c).
Proof.
  unfold cmd. sm_step. destruct (cl_closed c); sm_step; [by repeat constructor|]. intros [e|[code msg]]; sm_step; cbn [expecting].
  - by repeat constructor.
  - destruct (code_expected expect code) eqn:He; by repeat constructor.
Qed.

(** A command of which only the failure counts. *)
Lemma failed_cmd_traces expect line c :
  traces (fun t '(e, c') => c' = c /\ bodyless t /\ (e = None -> exists a, t = [a] /\ accepts (cl_tls c) line expect a))
    ((r ← cmd expect line; mret (smtp_failed r)) c).
Proof.
  change ((r ← cmd expect line; mret (smtp_failed r)) c) with ('(r, c') ← cmd expect line c; mret (smtp_failed r, c')).
  eapply traces_bind; [apply cmd_traces|]. intros t [r c'] (-> & Hb & Hr). apply traces_ret. rewrite app_nil_r. split_and!; [done..|].
  destruct r as [e|[code msg]]; [done|]. intros _. destruct Hr as [-> He]. eexists. split; [done|]. by exists code, msg.
Qed.

(** A computation that sends no message and leaves the encryption as it is. *)
Definition tame {A} (tls : bool) (m : SM A) : Prop :=
  forall c, cl_tls c = tls -> traces (fun t '(_, c') => bodyless t /\ cl_tls c' = tls) (m c).

Lemma tame_bind {A B} tls (m : SM A) (f : A -> SM B) : tame tls m -> (forall a, tame tls (f a)) -> tame tls (a ← m; f a).
Proof.
  intros Hm Hf c Hc. eapply (traces_bind _ _ (m c)); [by apply Hm|]. intros t [a c1] [Hb Ht]. eapply traces_mono; [|exact (Hf a c1 Ht)].
  intros t' [b c2] [Hb' Ht']. split; [by apply Forall_app|done].
Qed.

Lemma tame_ret {A} tls (a : A) : tame tls (mret a).
Proof. by repeat constructor. Qed.

Lemma tame_get tls : tame tls get_client.
Proof. by repeat constructor. Qed.

Lemma tame_set tls f : (forall c, cl_tls (f c) = cl_tls c) -> tame tls (set_client f).
Proof. intros Hf c Hc. split; [constructor|]. by rewrite Hf. Qed.

Lemma tame_cmd tls expect line : tame tls (cmd expect line).
Proof. intros c Hc. eapply traces_mono; [|apply cmd_traces]. intros t [r c'] (-> & Hb & _). done. Qed.

Lemma tame_hello tls : tame tls hello.
Proof.
  unfold hello, ehlo, helo.
  repeat first
    [ apply tame_ret | apply tame_get | apply tame_cmd | apply tame_set; done | apply tame_bind; [|intros] | progress intros
    | match goal with |- tame _ (match ?x with _ => _ end) => destruct x end ].
Qed.


Lemma Mail_traces from c :
  traces (fun t '(e, c') => cl_tls c' = cl_tls c /\ bodyless t /\
    (e = None -> exists pre a options, t = pre ++ [a] /\ bodyless pre /\ accepts (cl_tls c) ("MAIL FROM:<" +:+ from +:+ ">" +:+ options) 250 a))
    (Mail from c).
Proof.
  unfold Mail. destruct (negb (one_line from)); [split_and!; [done|constructor|done]|].
  eapply (traces_bind _ _ (hello c)); [by apply tame_hello|]. intros t [[e|] c1] [Hb Ht]; cbn [fst snd].
  { apply traces_ret. rewrite app_nil_r. by split_and!. }
  change ((c ← get_client; r ← cmd 250 (mail_line c from); mret (smtp_failed r)) c1) with ((r ← cmd 250 (mail_line c1 from); mret (smtp_failed r)) c1).
  eapply traces_mono; [|apply failed_cmd_traces]. intros t' [e c'] (-> & Hb' & He). split_and!; [done|by apply Forall_app|].
  intros ->. destruct (He eq_refl) as (a & -> & Ha). exists t, a. rewrite Ht in Ha. unfold mail_line in Ha. cbv zeta in Ha. by eexists.
Qed.

Lemma Rcpt_traces to c :
  traces (fun t '(e, c') => c' = c /\ bodyless t /\ (e = None -> exists a, t = [a] /\ accepts (cl_tls c) ("RCPT TO:<" +:+ to +:+ ">") 25 a))
    (Rcpt to c).
Proof. unfold Rcpt. destruct (negb (one_line to)); [split_and!; [done|constructor|done]|]. apply failed_cmd_traces. Qed.

Lemma name_recipients_traces l c :
  traces (fun t '(e, c') => c' = c /\ bodyless t /\
    (e = None -> Forall2 (fun r a => accepts (cl_tls c) ("RCPT TO:<" +:+ r +:+ ">") 25 a) l t)) (name_recipients l c).
Proof.
  induction l as [|r l IH]; [split_and!; [done|constructor|constructor]|]. cbn [name_recipients].
  eapply (traces_bind _ _ (Rcpt r c)); [apply Rcpt_traces|]. intros t [[e|] c1] (-> & Hb & He); cbn [fst snd].
  { apply traces_ret. by rewrite app_nil_r. }
  eapply traces_mono; [|apply IH]. intros t' [e c'] (-> & Hb' & He'). split_and!; [done|by apply Forall_app|].
  intros ->. destruct (He eq_refl) as (a & -> & Ha). constructor; auto.
Qed.

Lemma transmit_traces payload c :
  traces (fun t '(e, c') => c' = c /\ (e = None -> exists data ending, t = [data; said (WriteBody (cl_tls c) (dot_Write wstateBegin payload).1) None; ending] /\
    accepts (cl_tls c) "DATA" 354 data /\
    exists code msg, ending = said (EndBody (cl_tls c) (dot_Close (dot_Write wstateBegin payload).2)) (inr (code, msg)) /\ code_expected 250 code = true))
    (transmit payload c).
Proof.
  unfold transmit. eapply (traces_bind _ _ (Data c)); [apply failed_cmd_traces|]. intros t [[e|] c1] (-> & Hb & He); cbn [fst snd].
  { apply traces_ret. by split. }
  destruct (He eq_refl) as (a & -> & Ha). unfold write_body, close_body.
  destruct (cl_closed c) eqn:Hc; sm_step; rewrite Hc; sm_step; [rewrite Hc; sm_step; by split|].
  intros [e|]; sm_step; rewrite Hc; sm_step.
  - intros r. by split.
  - intros [e|[code msg]]; cbn [expecting smtp_failed]; [by split|]. destruct (code_expected 250 code) eqn:Hcode; [|by split]. split; [done|]. intros _.
    exists a. eexists. split; [done|]. split; [done|]. by exists code, msg.
Qed.

Lemma deliver_traces fuel cfg from recipients payload c :
  traces (fun t '(e, _) => e = None -> exists tls,
    delivered tls from recipients (dot_Write wstateBegin payload).1 (dot_Close (dot_Write wstateBegin payload).2) t) (deliver fuel cfg from recipients payload c).
Proof.
  unfold deliver. eapply (traces_bind _ _ (authenticate fuel cfg c)); [apply only_traces, authenticate_bodyless|].
  intros t0 [[e|] c0] Hb0; cbn [fst snd]; [done|].
  eapply (traces_bind _ _ (Mail from c0)); [apply Mail_traces|]. intros t1 [[e|] c1] (Ht1 & Hb1 & He1); cbn [fst snd]; [done|].
  destruct (He1 eq_refl) as (pre & mail & options & -> & Hpre & Hmail).
  eapply (traces_bind _ _ (name_recipients recipients c1)); [apply name_recipients_traces|].
  intros t2 [[e|] c2] (-> & Hb2 & He2); cbn [fst snd]; [done|]. specialize (He2 eq_refl).
  eapply traces_mono; [|apply transmit_traces]. intros t3 [e c3] (-> & He3) ->. destruct (He3 eq_refl) as (data & ending & -> & Hdata & Hend).
  exists (cl_tls c1), (t0 ++ pre), mail, t2, data, ending, [], options. rewrite Ht1 in *. rewrite !app_nil_r.
  split_and!; [by rewrite <- !app_assoc|done|done|done|done|by apply Forall_app|constructor].
Qed.

Lemma delivered_between pre post tls from recipients body ending t :
  bodyless pre -> bodyless post -> delivered tls from recipients body ending t -> delivered tls from recipients body ending (pre ++ t ++ post).
Proof.
  intros Hpre Hpost (pre' & mail & rcpts & data & last & post' & options & -> & Hm & Hr & Hd & He & Hb & Hb').
  exists (pre ++ pre'), mail, rcpts, data, last, (post' ++ post), options. split_and!; [by rewrite <- !app_assoc|done..|by apply Forall_app|by apply Forall_app].
Qed.

(** What a message says itself comes before what is configured. *)
Definition in_force (own configured l : list string) : Prop := own <> [] /\ l = own \/ own = [] /\ l = configured.
Definition first_said (own configured x : string) : Prop := own <> "" /\ x = own \/ own = "" /\ x = configured.

Lemma or_list_in_force own configured : in_force own configured (or_list own configured).
Proof. unfold in_force. destruct own; [by right|by left]. Qed.

Lemma or_string_first own configured : first_said own configured (or_string own configured).
Proof. unfold first_said, or_string. destruct (String.eqb_spec own ""); [by right|by left]. Qed.

(** C27. When [Send] reports success, the server has accepted the sender, then the
    recipients, then the message and its end, whatever the server answers.  The
    recipients are the addresses of To, Cc and Bcc, of the message or else as
    configured, everyone once up to case, and nobody else.  What a server reads of
    what was sent (RFC 5321) is a whole mail, with its lines ended by CRLF: its
    header shows the sender, To and Cc, but not Bcc, the subject and the date,
    and it holds the bodies of the message that are not empty and every
    attachment, from whose part a decoder of base64 reads the file. *)
Theorem Send_delivers k fuel cfg msg :
  traces (fun t r => r = None -> exists m from to cc bcc subject recipients tls body ending text mail,
    msg = Some m /\ first_said (ms_From m) (sc_From cfg) from /\
    in_force (ms_To m) (sc_To cfg) to /\ in_force (ms_Cc m) (sc_Cc cfg) cc /\ in_force (ms_Bcc m) (sc_Bcc cfg) bcc /\
    (sc_Subject cfg <> "" -> first_said (ms_Subject m) (sc_Subject cfg) subject) /\
    once_each (to ++ cc ++ bcc) recipients /\
    delivered tls from recipients body ending t /\
    dot_read at_start (body +:+ ending) = Some text /\ crlf_lines false text /\ widened (ended mail) text /\
    carries from to cc subject (mc_Date k) m mail)
    (Send k fuel cfg msg).
Proof.
  unfold Send. cbv zeta. destruct msg as [m|]; [|done].
  assert (sc_Subject cfg <> "" -> sc_Subject (SMTP_SetDefaults cfg) = sc_Subject cfg) as Hsub by apply or_string_set.
  change (sc_From cfg) with (sc_From (SMTP_SetDefaults cfg)). change (sc_To cfg) with (sc_To (SMTP_SetDefaults cfg)).
  change (sc_Cc cfg) with (sc_Cc (SMTP_SetDefaults cfg)). change (sc_Bcc cfg) with (sc_Bcc (SMTP_SetDefaults cfg)).
  set (cfg' := SMTP_SetDefaults cfg) in *. destruct (effective_from cfg' m =? "")%string; [done|].
  destruct (effective_to cfg' m ++ effective_cc cfg' m ++ effective_bcc cfg' m) as [|r0 rs]; [done|].
  apply traces_call. intros [e|]; [done|].
  eapply traces_bind; [apply only_traces, connect_bodyless|]. intros t0 [e|c] Hb0; [done|].
  eapply traces_bind; [apply deliver_traces|]. intros t1 [e c1] He.
  eapply traces_bind; [apply only_traces, quit_bodyless|]. intros t2 [e2 c2] Hb2.
  eapply traces_bind; [apply only_traces, close_client_bodyless|]. intros t3 [[] c3] Hb3. apply traces_ret.
  rewrite app_nil_r. intros ->. destruct (He eq_refl) as [tls Hd].
  destruct (dot_read_written (payload_of k cfg' m) wstateBegin at_start eq_refl) as (text & Hread & Hw & Hcr).
  eexists m, _, _, _, _, _, _, tls, _, _, text, _. split_and!; [done|apply or_string_first|apply or_list_in_force..| |apply envelope_once| | | | |].
  - intros Hs. rewrite <- (Hsub Hs). apply or_string_first.
  - change (?a :: t0 ++ t1 ++ t2 ++ t3) with ((a :: t0) ++ t1 ++ (t2 ++ t3)).
    apply delivered_between; [by constructor|by apply Forall_app|exact Hd].
  - exact Hread.
  - exact Hcr.
  - exact Hw.
  - apply buildMIMEMessage_carries.
Qed.

(** ** What is sent in the clear *)

(** A server that ends the session when it is told to. *)
Definition honest X (e : SmtpE X) : X -> Prop :=
  match e in SmtpE X return X -> Prop with
  | Exchange _ line => fun x => line = "QUIT" -> exists msg, x = inr (221, msg)
  | _ => fun _ => True
  end.

(** The lines that say nothing but that this is a mail client. *)
Definition handshake : list string := ["EHLO localhost"; "HELO localhost"; "STARTTLS"; "QUIT"].

(** A call that sends nothing but the handshake in the clear. *)
Definition guarded X (e : SmtpE X) : Prop :=
  match e with
  | Exchange false line => line ∈ handshake
  | WriteBody false _ | EndBody false _ => False
  | _ => True
  end.

(** From a client in [P], a computation makes guarded calls and ends in [Q]. *)
Definition keeps_guard {A} (P : Client -> Prop) (m : SM A) (Q : A -> Client -> Prop) : Prop :=
  forall c, P c -> follows honest guarded (fun r => Q r.1 r.2) (m c).

Lemma guard_bind {A B} P (Q : A -> Client -> Prop) (R : B -> Client -> Prop) (m : SM A) (f : A -> SM B) :
  keeps_guard P m Q -> (forall a, keeps_guard (Q a) (f a) R) -> keeps_guard P (a ← m; f a) R.
Proof. intros Hm Hf c Hc. apply (follows_bind _ _ _ _ (m c) _ (Hm c Hc)). intros [a c1] Ha. by apply Hf. Qed.

Lemma guard_ret {A} P (Q : A -> Client -> Prop) a : (forall c, P c -> Q a c) -> keeps_guard P (mret a) Q.
Proof. intros HP c Hc. by apply HP. Qed.

Lemma guard_get (P : Client -> Prop) : keeps_guard P get_client (fun a c => a = c /\ P c).
Proof. by intros c Hc. Qed.

Lemma guard_set (P : Client -> Prop) (Q : Client -> Prop) f : (forall c, P c -> Q (f c)) -> keeps_guard P (set_client f) (fun _ => Q).
Proof. intros HP c Hc. by apply HP. Qed.

Lemma guard_mono {A} (P P' : Client -> Prop) (Q Q' : A -> Client -> Prop) m :
  (forall c, P' c -> P c) -> (forall a c, Q a c -> Q' a c) -> keeps_guard P m Q -> keeps_guard P' m Q'.
Proof. intros HP HQ Hm c Hc. eapply follows_mono; [|apply Hm, HP, Hc]. intros [a c']. apply HQ. Qed.

(** A command that may be sent in the clear, or that is encrypted. *)
Lemma guard_cmd (P : Client -> Prop) expect line :
  (forall c, P c -> cl_tls c = true \/ line ∈ handshake) -> keeps_guard P (cmd expect line) (fun _ => P).
Proof.
  intros HP c Hc. unfold cmd. cbv [mbind mret SM_bind SM_ret prog_bind prog_ret get_client smtp call]. cbn [prog_bind_def]. destruct (cl_closed c); [done|].
  cbn [prog_bind_def follows]. split; [|done]. destruct (HP c Hc) as [->|Hl]; [done|]. by destruct (cl_tls c).
Qed.

Lemma in_handshake line : existsb (String.eqb line) handshake = true -> line ∈ handshake.
Proof. intros (x & Hx & ->%String.eqb_eq)%existsb_exists. by apply list_elem_of_In. Qed.

(** *** An encrypted client stays encrypted, so all its calls are guarded *)

Definition encrypted (c : Client) : Prop := cl_tls c = true.

Ltac guard_solve :=
  repeat first
    [ solve [apply guard_ret; done] | solve [apply guard_cmd; intros; by left]
    | solve [apply guard_set; done]
    | match goal with
      | |- keeps_guard _ (_ ← get_client; _) _ =>
          eapply guard_bind; [apply guard_get|]; intros; cbv beta; eapply (guard_mono encrypted); [by intros ? [_ ?]|by intros ? ? H; exact H|]
      | |- keeps_guard _ (mbind _ _) _ => eapply (guard_bind _ (fun _ => encrypted)); [|intros]
      | |- keeps_guard _ (match ?x with _ => _ end) _ => destruct x
      end
    | solve [auto with guard] ].

Create HintDb guard.

Lemma hello_encrypted : keeps_guard encrypted hello (fun _ => encrypted).
Proof. unfold hello, ehlo, helo. guard_solve. Qed.
#[local] Hint Resolve hello_encrypted : guard.

Lemma close_client_encrypted : keeps_guard encrypted close_client (fun _ => encrypted).
Proof. unfold close_client. eapply (guard_bind _ (fun _ => encrypted)); [by intros c Hc|]. intros []. guard_solve. Qed.
#[local] Hint Resolve close_client_encrypted : guard.

Lemma quit_encrypted : keeps_guard encrypted quit (fun _ => encrypted).
Proof. unfold quit. guard_solve. Qed.
#[local] Hint Resolve quit_encrypted : guard.

Lemma auth_loop_encrypted fuel a r : keeps_guard encrypted (auth_loop fuel a r) (fun _ => encrypted).
Proof.
  revert r. induction fuel as [|fuel IH]; intros [e|[code msg]]; cbn [auth_loop]; [by guard_solve..|].
  destruct (if code =? 334 then _ else _) as [e|[resp|]]; guard_solve.
Qed.
#[local] Hint Resolve auth_loop_encrypted : guard.

Lemma auth_encrypted fuel a : keeps_guard encrypted (auth fuel a) (fun _ => encrypted).
Proof. unfold auth. guard_solve. Qed.
#[local] Hint Resolve auth_encrypted : guard.

Lemma authenticate_encrypted fuel cfg : keeps_guard encrypted (authenticate fuel cfg) (fun _ => encrypted).
Proof. unfold authenticate. guard_solve. Qed.
#[local] Hint Resolve authenticate_encrypted : guard.

Lemma smtp_encrypted {X} (e : bool -> SmtpE X) c : guarded _ (e true) -> encrypted c ->
  follows honest guarded (fun r : X * Client => encrypted r.2) (smtp (e (cl_tls c)) c).
Proof. intros He Hc. unfold encrypted in Hc. rewrite Hc. by split. Qed.

Lemma transmit_encrypted payload : keeps_guard encrypted (transmit payload) (fun _ => encrypted).
Proof.
  assert (keeps_guard encrypted (write_body payload) (fun _ => encrypted)) as Hw.
  { intros c Hc. unfold write_body. sm_step. destruct (cl_closed c); [done|]. by apply (smtp_encrypted (fun tls => WriteBody tls _)). }
  assert (forall ending, keeps_guard encrypted (close_body ending) (fun _ => encrypted)) as Hcl.
  { intros ending c Hc. unfold close_body. sm_step. destruct (cl_closed c); [done|]. sm_step. unfold encrypted in Hc. rewrite Hc. by split. }
  unfold transmit, Data. guard_solve.
Qed.
#[local] Hint Resolve transmit_encrypted : guard.

Lemma deliver_encrypted fuel cfg from recipients payload : keeps_guard encrypted (deliver fuel cfg from recipients payload) (fun _ => encrypted).
Proof.
  assert (forall l, keeps_guard encrypted (name_recipients l) (fun _ => encrypted)) as Hn.
  { induction l as [|r l IH]; cbn [name_recipients]; unfold Rcpt; guard_solve. }
  unfold deliver, Mail. guard_solve.
Qed.

(** *** A client in the clear only shakes hands *)

(** The name and the encryption of a client. *)
Definition clear (host : string) (c : Client) : Prop := cl_serverName c = host /\ cl_tls c = false.

Lemma hello_clear host c : clear host c ->
  follows honest guarded (fun r => clear host r.2 /\ cl_didHello r.2 = true /\ cl_helloError r.2 = r.1) (hello c).
Proof.
  intros [Hn Ht]. unfold hello, ehlo, helo, cmd. sm_step. destruct (cl_didHello c) eqn:Hd; [by sm_step|]. sm_step.
  destruct (cl_closed c) eqn:Hcl; sm_step; [rewrite Hcl; by sm_step|]. rewrite Ht.
  split; [by apply in_handshake|]. intros [e|[code msg]] _; cbn [expecting]; sm_step; [|destruct (code_expected 250 code); [by sm_step|]];
    sm_step; rewrite Hcl; sm_step; rewrite Ht; (split; [by apply in_handshake|]); intros r _; by destruct (expecting 250 r) as [?|[]].
Qed.

(** A client that can do no more: it was refused, or it has closed. *)
Definition dead (c : Client) : Prop := cl_didHello c = true /\ (cl_helloError c = None -> cl_closed c = true).

Lemma hello_done c : cl_didHello c = true -> hello c = mret (cl_helloError c, c).
Proof. intros Hd. unfold hello. sm_step. by rewrite Hd. Qed.

Lemma quit_clear host c : clear host c -> cl_didHello c = true -> cl_helloError c = None ->
  follows honest guarded (fun r => clear host r.2 /\ dead r.2) (quit c).
Proof.
  intros [Hn Ht] Hd He. unfold quit. change (follows honest guarded (fun r => clear host r.2 /\ dead r.2)
    ('(_, c') ← hello c; (r ← cmd 221 "QUIT"; match r with inl e => mret (Some e) | inr _ => _ ← close_client; mret None end) c')).
  rewrite hello_done by done. unfold cmd, close_client. sm_step. destruct (cl_closed c) eqn:Hcl; sm_step; [by split_and!|].
  rewrite Ht. split; [by apply in_handshake|]. intros r Hr. destruct (Hr eq_refl) as [msg ->]. cbn. by split.
Qed.

(** Without encryption the password is never started with. *)
Lemma auth_plain_clear fuel user pass host c :
  isLocalhost host = false -> clear host c ->
  follows honest guarded (fun r => clear host r.2 /\ dead r.2 /\ is_some r.1 = true) (auth fuel (PlainAuth user pass host) c).
Proof.
  intros Hl Hc. unfold auth. eapply (follows_bind _ _ _ _ (hello c)); [by apply hello_clear|].
  intros [e c1] (Hc1 & Hd & He); cbn [fst snd] in *. destruct e as [e|].
  { split; [done|]. split; [split; [done|cbn; congruence]|done]. }
  cbv [mbind mret SM_bind SM_ret get_client]. cbv [prog_ret]. cbn [au_Start PlainAuth]. destruct Hc1 as [Hn Ht].
  change (follows honest guarded (fun r => clear host r.2 /\ dead r.2 /\ is_some r.1 = true)
    (match (if negb (cl_tls c1) && negb (isLocalhost (cl_serverName c1)) then inl (ErrNew "unencrypted connection")
            else if negb (cl_serverName c1 =? host)%string then inl (ErrNew "wrong host name") else inr ("PLAIN", NUL +:+ user +:+ NUL +:+ pass)) with
     | inl e => (_ ← quit; mret (Some e))
     | inr (mech, resp) => (r ← cmd 0 (TrimSpace ("AUTH " +:+ mech +:+ " " +:+ base64_Encode resp)); auth_loop fuel (PlainAuth user pass host) r)
     end c1)).
  rewrite Ht, Hn, Hl. cbn [negb andb]. eapply (follows_bind _ _ _ _ (quit c1)); [by apply (quit_clear host)|].
  intros [e2 c2] [Hc2 Hd2]. by cbn.
Qed.

(** Nor does the fallback do anything: the client is closed by then. *)
Lemma auth_dead fuel a c : dead c -> follows honest guarded (fun r => r.2 = c /\ is_some r.1 = true) (auth fuel a c).
Proof.
  intros [Hd He]. unfold auth. change (follows honest guarded (fun r => r.2 = c /\ is_some r.1 = true)
    ('(e, c') ← hello c;
     match e with
     | Some e => mret (Some e)
     | None => (c0 ← get_client; match au_Start a c0 with
                | inl e => (_ ← quit; mret (Some e))
                | inr (mech, resp) => (r ← cmd 0 (TrimSpace ("AUTH " +:+ mech +:+ " " +:+ base64_Encode resp)); auth_loop fuel a r)
                end)
     end c')).
  rewrite hello_done by done. sm_step. destruct (cl_helloError c) as [e|] eqn:Hx; [by sm_step|]. specialize (He eq_refl).
  sm_step. destruct (au_Start a c) as [e|[mech resp]].
  - unfold quit, hello, cmd. sm_step. rewrite Hd. sm_step. rewrite He. by sm_step.
  - unfold cmd. sm_step. rewrite He. sm_step. by destruct fuel.
Qed.

Lemma deliver_clear fuel cfg from recipients payload c :
  has_credentials cfg = true -> isLocalhost (sc_Host cfg) = false -> clear (sc_Host cfg) c ->
  follows honest guarded (fun r => dead r.2) (deliver fuel cfg from recipients payload c).
Proof.
  intros Hcred Hl Hc. unfold deliver. eapply (follows_bind _ _ (fun r => dead r.2 /\ is_some r.1 = true) _ (authenticate fuel cfg c)).
  - unfold authenticate. rewrite Hcred. eapply (follows_bind _ _ _ _ (auth fuel _ c)); [by apply auth_plain_clear|].
    intros [e c1] (Hc1 & Hd1 & He); cbn [fst snd] in *. destruct e as [e|]; [|done].
    eapply (follows_bind _ _ _ _ (auth fuel _ c1)); [by apply auth_dead|]. intros [e2 c2] [Hc2 He2]. cbn [fst snd] in *. subst c2. by destruct e2.
  - intros [e c1] [Hd He]. cbn [fst snd] in *. by destruct e.
Qed.

(** A client that was connected: encrypted, or in the clear after a handshake. *)
Lemma connect_guarded cfg addr :
  follows honest guarded (fun r => match r with inr c => encrypted c \/ clear (sc_Host cfg) c | inl _ => True end) (connect cfg addr).
Proof.
  unfold connect. destruct (sc_DirectTLS cfg || (sc_Port cfg =? 465)).
  - split; [exact I|]. intros [e|] _; [done|]. cbn. split; [exact I|]. intros r _. destruct (expecting 220 r); cbn; [by split|by left].
  - split; [exact I|]. intros [e|] _; [done|]. unfold NewClient. cbn [mbind prog_bind prog_bind_def call]. split; [exact I|]. intros r _.
    destruct (expecting 220 r) as [e|]; [by split|]. cbn [prog_bind_def mret prog_ret].
    change (prog_bind_def ?f (mret ?a)) with (f a). cbv beta iota.
    destruct (negb (sc_StartTLS cfg)); [by right|].
    assert (clear (sc_Host cfg) (new_client (sc_Host cfg) false)) as Hc0 by done. revert Hc0. generalize (new_client (sc_Host cfg) false). intros c0 Hc0.
    assert (follows honest guarded (fun r => clear (sc_Host cfg) r.2) (Extension "STARTTLS" c0)) as Hext.
    { unfold Extension. eapply (follows_bind _ _ _ _ (hello c0)); [by apply hello_clear|]. intros [e c1] (Hc1 & _). done. }
    eapply follows_bind; [exact Hext|]. intros [ok c1] Hc1. cbn [fst snd] in *. destruct (negb ok); [by right|].
    assert (follows honest guarded (fun r => r.1 = None -> encrypted r.2) (StartTLS c1)) as Hst.
    { unfold StartTLS. eapply (follows_bind _ _ _ _ (hello c1)); [by apply hello_clear|]. intros [e c2] (Hc2 & _); cbn [fst snd] in *. destruct e; [done|].
      eapply (follows_bind _ _ (fun r => clear (sc_Host cfg) r.2) _ (cmd 220 "STARTTLS" c2)).
      - eapply follows_mono; [|apply (guard_cmd (clear (sc_Host cfg))); [|exact Hc2]]; [done|]. intros c _. right. by apply in_handshake.
      - intros [r2 c3] Hc3. cbn [fst snd] in *. destruct r2 as [e|]; [done|].
        assert (keeps_guard encrypted ehlo (fun _ => encrypted)) as Hehlo by (unfold ehlo; guard_solve).
        eapply follows_mono; [|exact (Hehlo (with_tls c3) eq_refl)]. by intros r3 Hr3 _. }
    eapply follows_bind; [exact Hst|]. intros [e c2] He. cbn [fst snd] in *. destruct e as [e|]; [by split|]. left. by apply He.
Qed.

(** C28. With credentials, and unless the server is this machine, nothing but the
    handshake is ever sent in the clear, whatever the server answers as long as
    it ends the session when told to: neither the credentials nor the message,
    whether or not it offers encryption. *)
Theorem Smtp_credentials_encrypted k fuel cfg msg :
  has_credentials cfg = true -> isLocalhost (sc_Host cfg) = false ->
  follows honest guarded (fun _ => True) (Send k fuel cfg msg).
Proof.
  intros Hcred Hl. unfold Send. cbv zeta. destruct msg as [m|]; [|done].
  assert (has_credentials (SMTP_SetDefaults cfg) = true /\ sc_Host (SMTP_SetDefaults cfg) = sc_Host cfg) as [Hcred' Hhost] by done.
  revert Hcred' Hhost. generalize (SMTP_SetDefaults cfg). intros cfg' Hcred' Hhost. rewrite <- Hhost in Hl.
  destruct (effective_from cfg' m =? "")%string; [done|]. destruct (effective_to cfg' m ++ _); [done|]. split; [exact I|]. intros [e|] _; [done|].
  change (prog_bind_def ?f (Ret ?a)) with (f a). cbv beta iota.
  eapply follows_bind; [apply connect_guarded|]. intros [e|c] Hc; [done|].
  eapply (follows_bind _ _ (fun r => encrypted r.2 \/ dead r.2)).
  { destruct Hc as [Hc|Hc].
    - eapply follows_mono; [|by apply deliver_encrypted]. intros r Hr. by left.
    - eapply follows_mono; [|by apply deliver_clear]. intros r Hr. by right. }
  intros [e c1] Hc1. cbn [fst snd] in *. eapply (follows_bind _ _ (fun _ => True)); [|intros [e2 c2] _; by split].
  destruct Hc1 as [Hc1|[Hd He]].
  - eapply follows_mono; [|by apply quit_encrypted]. done.
  - unfold quit. eapply (follows_bind _ _ (fun r => r.2 = c1) _ (hello c1)); [by rewrite hello_done|]. intros [e2 c2]; cbn [fst snd]. intros ->.
    eapply (follows_bind _ _ (fun _ => True) _ (cmd 221 "QUIT" c1)).
    + eapply follows_mono; [|apply (guard_cmd (fun _ => True)); [|exact I]]; [done|]. intros c0 _. right. by apply in_handshake.
    + intros [[e3|r3] c3] _; [done|]. by split.
Qed.

(** ** Examples and witnesses *)

Definition demo_smtp : SMTPConfig := {|
  sc_Host := "mail.example.com"; sc_Port := 587; sc_Username := "governor"; sc_Password := "s3cret"; sc_From := "governor@example.com";
  sc_To := ["a@example.com"]; sc_Cc := ["A@example.com"; "b@example.com"]; sc_Bcc := []; sc_Subject := ""; sc_StartTLS := false;
  sc_DirectTLS := false; sc_SkipTLSVerify := false; sc_SendAttach := false; sc_Greeting := "" |}.

Definition demo_message : Message := {|
  ms_From := ""; ms_To := []; ms_Cc := []; ms_Bcc := []; ms_Subject := ""; ms_TextBody := "hello"; ms_HTMLBody := ""; ms_Attachments := [] |}.

Definition demo_clock : mail_clock := {| mc_Mixed := 1; mc_Alt := 2; mc_Date := "Thu, 29 Feb 2024 23:59:59 +0000" |}.

(** A server that keeps the lines it is told, with or without encryption; it
    answers QUIT with a code of its choice. *)
Definition demo_mail_server (starttls : bool) (quit_code : Z) : handler SmtpE (list (bool * string)) := fun X e w =>
  match e in SmtpE X return X * _ with
  | CtxErr | DialTLS _ | DialTCP _ => (None, w)
  | Greeting => (inr (220, "ready"), w)
  | Exchange tls line =>
      (inr (if HasPrefix line "EHLO" then (250, "mail.example.com" +:+ (if starttls then LF +:+ "STARTTLS" else ""))
            else if (line =? "QUIT")%string then (quit_code, "bye")
            else if (line =? "STARTTLS")%string then (220, "go")
            else if (line =? "DATA")%string then (354, "go")
            else if HasPrefix line "AUTH PLAIN" then (if tls then (235, "ok") else (535, "no"))
            else if HasPrefix line "AUTH LOGIN" then (334, base64_Encode "Password:")
            else (250, "ok")), w ++ [(tls, line)])
  | WriteBody tls _ => (None, w ++ [(tls, "...")])
  | EndBody _ _ => (inr (250, "ok"), w)
  | CloseConn => (tt, w)
  end.

(** A server that offers encryption gets the mail, encrypted: the envelope names
    an address once. *)
Example demo_mail_sent :
  run (demo_mail_server true 221) (Send demo_clock 3 demo_smtp (Some demo_message)) [] =
  (None, [(false, "EHLO localhost"); (false, "STARTTLS"); (true, "EHLO localhost");
          (true, "AUTH PLAIN " +:+ base64_Encode (NUL +:+ "governor" +:+ NUL +:+ "s3cret")); (true, "MAIL FROM:<governor@example.com>");
          (true, "RCPT TO:<a@example.com>"); (true, "RCPT TO:<b@example.com>"); (true, "DATA"); (true, "..."); (true, "QUIT")]).
Proof. by vm_compute. Qed.

(** That mail, as the theorem has it. *)
Lemma Send_delivers_witness :
  let tr := trace (demo_mail_server true 221) (Send demo_clock 3 demo_smtp (Some demo_message)) [] in
  exists recipients tls body ending text mail,
    once_each ["a@example.com"; "A@example.com"; "b@example.com"] recipients /\
    delivered tls "governor@example.com" recipients body ending tr /\
    dot_read at_start (body +:+ ending) = Some text /\ widened (ended mail) text /\
    exists subject, carries "governor@example.com" ["a@example.com"] ["A@example.com"; "b@example.com"] subject (mc_Date demo_clock) demo_message mail.
Proof.
  intros tr. subst tr.
  destruct (traces_run (demo_mail_server true 221) _ _ [] (Send_delivers demo_clock 3 demo_smtp (Some demo_message)))
    as (m & from & to & cc & bcc & subject & rs & tls & body & ending & text & mail & [= <-] & Hfrom & Hto & Hcc & Hbcc & _ & Hrs & Hd & Hread & _ & Hw & Hc);
    [by vm_compute|].
  destruct Hfrom as [[[] _]|[_ ->]]; [done|]. destruct Hto as [[[] _]|[_ ->]]; [done|]. destruct Hcc as [[[] _]|[_ ->]]; [done|].
  destruct Hbcc as [[[] _]|[_ ->]]; [done|].
  exists rs, tls, body, ending, text, mail. split; [exact Hrs|]. split; [exact Hd|]. split; [exact Hread|]. split; [exact Hw|]. exists subject. exact Hc.
Defined.

(** A line with a dot does not end a message, and a bare line feed becomes the end
    of a line. *)
Example dot_stuffed :
  let sent := dot_Write wstateBegin ("." +:+ LF +:+ ".." +:+ CRLF +:+ "end") in
  sent.1 = ".." +:+ CRLF +:+ "..." +:+ CRLF +:+ "end" /\
  dot_read at_start (sent.1 +:+ dot_Close sent.2) = Some ("." +:+ CRLF +:+ ".." +:+ CRLF +:+ "end" +:+ CRLF).
Proof. by vm_compute. Qed.

(** The fallback to LOGIN does not look whether the connection is encrypted.  What
    keeps the password is that net/smtp ends the session when PLAIN fails: a
    server that refuses to end it gets the password in the clear. *)
Example stubborn_server_reads_password :
  (false, base64_Encode "s3cret") ∈ (run (demo_mail_server false 250) (Send demo_clock 3 demo_smtp (Some demo_message)) []).2 /\
  (run (demo_mail_server false 221) (Send demo_clock 3 demo_smtp (Some demo_message)) []).2 = [(false, "EHLO localhost"); (false, "QUIT")].
Proof. split; [|by vm_compute]. vm_compute. repeat (apply elem_of_cons; first [by left|right]). Qed.

(** The defaults overwrite what the flags say: encryption is negotiated even when
    it is switched off. *)
Example starttls_flag_ignored : sc_StartTLS (SMTP_SetDefaults demo_smtp) = true /\ sc_StartTLS demo_smtp = false.
Proof. by vm_compute. Qed.

Lemma Smtp_credentials_encrypted_witness :
  Forall (fun l : bool * string => l.1 = false -> l.2 ∈ handshake)
    (run (demo_mail_server false 221) (Send demo_clock 3 demo_smtp (Some demo_message)) []).2.
Proof.
  refine (proj2 (follows_run honest guarded _ (demo_mail_server false 221) (fun _ => True) _ []
    _ (Smtp_credentials_encrypted demo_clock 3 demo_smtp (Some demo_message) eq_refl eq_refl) _)); [|constructor].
  intros X e w He Hw. destruct e; cbn; split; try done.
  - intros ->. by eexists.
  - apply Forall_app. split; [done|]. constructor; [|constructor]. cbn. intros ->. exact He.
  - apply Forall_app. split; [done|]. constructor; [|constructor]. cbn. intros ->. destruct He.
Defined.
