(* ===== verification/Cli.v ===== *)
(** * The command line: internal/cli and cmd/gitlab-fleet-governor

    Every command is a program that ends with the error of its [RunE], which
    [main] turns into the exit code: it loads the policy, lets the flags
    override the settings, connects to GitLab, runs one of the components and
    writes what came of it.  The calls that load a policy, connect and run the
    engine are those of [Lambda]; the audit, the export and the branch merge
    are calls of their own, which [on_services] answers with [Auditor],
    [Export] and the GitLab server.  [Cli_changes_only_when_told] shows that no
    command changes GitLab unless it is told to, [validate_agrees_with_run] that
    [validate] accepts just the policies that [run] loads, and [Run_exit_exact]
    what the exit code of [run] says; [version_verify_exact] that
    [version --verify] passes just the attested releases.  The parser of the
    flags (cobra), the log lines and the deadlines are left out, and so is
    [license fingerprint], which prints what the license library finds. *)

From S2P Require Import Prelude GoLib Config EnvSubst Validator Loader GitLabAPI Server Governance BranchMerges Registry ProjectFilter GroupTree.
From S2P Require Import WorkerPool Pagination Discovery License TaskPool Metrics Engine DefaultRegistry Lambda Inspect ExportPlan Export.
From S2P Require Import Logging GoTime Provenance Transport Members AuditModel UserRegistry AuditModules Auditor Report AuditReport Smtp.
Local Open Scope string_scope.
Local Open Scope list_scope.
Local Open Scope Z_scope.

(** ** root.go *)

Record GlobalFlags : Type := {
  gf_ConfigPath : string;
  gf_DryRun : bool;
  gf_Concurrency : Z;
  gf_LogLevel : string;
  gf_LogFormat : string;
  gf_ReportFormat : string;
  gf_OutputFile : string;
  gf_NoColor : bool;
  gf_LicenseKey : string;
  gf_LicenseFile : string;
  gf_LicenseCRL : string;
  gf_LicenseCRLFile : string;
  gf_LicenseCRLURL : string
}.

Definition with_no_color (g : GlobalFlags) : GlobalFlags := {|
  gf_ConfigPath := gf_ConfigPath g; gf_DryRun := gf_DryRun g; gf_Concurrency := gf_Concurrency g; gf_LogLevel := gf_LogLevel g;
  gf_LogFormat := gf_LogFormat g; gf_ReportFormat := gf_ReportFormat g; gf_OutputFile := gf_OutputFile g; gf_NoColor := true;
  gf_LicenseKey := gf_LicenseKey g; gf_LicenseFile := gf_LicenseFile g; gf_LicenseCRL := gf_LicenseCRL g;
  gf_LicenseCRLFile := gf_LicenseCRLFile g; gf_LicenseCRLURL := gf_LicenseCRLURL g |}.

(** [PersistentPreRunE]; [no_color] is the variable NO_COLOR. *)
Definition preRun (no_color : string) (g : GlobalFlags) : error + GlobalFlags :=
  let g := if negb (no_color =? "")%string then with_no_color g else g in
  match ParseLevel (gf_LogLevel g) with
  | inl e => inl e
  | inr _ =>
      match ParseLogFormat (gf_LogFormat g) with
      | inl e => inl e
      | inr _ =>
          match ParseFormat (gf_ReportFormat g) with
          | inl e => inl e
          | inr _ =>
              if gf_Concurrency g <? 1 then inl (ErrNew ("concurrency must be at least 1 (got " +:+ Itoa (gf_Concurrency g) +:+ ")"))
              else inr g
          end
      end
  end.

(** ** Errors, documents and calls *)

(** The error of a command, before it is printed; [Panicked] is a nil pointer
    that the command dereferences, which nothing recovers from. *)
Inductive cli_error : Type :=
| Plain (e : error)
| Unloaded (pre : string) (e : LoadError)
| Rejected (errs : list ValidationError)
| Panicked.

Record TargetSummaryJSON : Type := { tj_GroupIDsIncluded : Z; tj_GroupPathsIncluded : Z; tj_HasProjectSelectors : bool }.

Record PolicySummaryJSON : Type := {
  pj_PushRules : bool;
  pj_ProtectedBranches : Z;
  pj_ProtectedTags : Z;
  pj_ProtectedEnvironments : Z;
  pj_ApprovalRules : Z;
  pj_ProjectSettings : bool;
  pj_PipelineRetention : bool;
  pj_Variables : Z;
  pj_Runners : Z;
  pj_Compliance : bool;
  pj_Webhooks : Z;
  pj_Members : Z;
  pj_TargetBranchRules : Z;
  pj_BranchMerges : Z
}.

Record ValidateJSONOutput : Type := {
  vj_Status : string;
  vj_Valid : bool;
  vj_Source : string;
  vj_Targets : option TargetSummaryJSON;
  vj_Policies : option PolicySummaryJSON;
  vj_Errors : list ValidationError;
  vj_Warnings : list ValidationWarning
}.

(** What [merge --json] prints; the status and the success are of an
    enforcement. *)
Record merge_outcome : Type := {
  mj_Project : string;
  mj_DryRun : bool;
  mj_Action : ActionType;
  mj_HasChanges : option bool;
  mj_Status : option (StatusType * bool);
  mj_Diffs : list Diff
}.

(** What [license status --json] prints. *)
Inductive license_report : Type :=
| StatusConverted (changeDay message : string)
| StatusCommunity (changeDay : string)
| StatusInvalid (e : string)
| StatusValid (valid inGracePeriod : bool) (daysRemaining : Z) (message claims : string).

(** A text, or a value that encoding/json writes. *)
Inductive document : Type :=
| Text (s : string)
| ValidateJSON (v : ValidateJSONOutput)
| MergeJSON (m : merge_outcome)
| LambdaJSON (pretty : bool) (r : lambda_reply)
| VersionJSON (i : version_Info)
| LicenseJSON (r : license_report).

Variant destination : Type := Stdout | Stderr | ToFile (path : string).

(** [Service] is a call that loads a policy, connects or runs the engine;
    [RunAudit] and [RunExport] run the auditor and the exporter with the client
    that was connected; [CreateFile] opens a file for writing, empty;
    [SendMail] is [Send] of a mail dispatcher. *)
Variant CliE : Type -> Type :=
| Service {X} (e : LambdaE X) : CliE X
| RunAudit (a : Auditor) : CliE (error + AuditReport)
| RunExport (opts : ExportOptions) (cfg : PolicyConfig) : CliE (error + string)
| OnServer {X} (e : GitLabE X) : CliE X
| GetProjectByPath (pathOrID : string) : CliE (Reply (option Project))
| CreateFile (path : string) : CliE (option error)
| Write (d : destination) (doc : document) : CliE (option error)
| WriteFile (path text : string) : CliE (option error)
| SendMail (cfg : SMTPConfig) (msg : Message) : CliE (option error).

Abbreviation CP := (prog CliE) (only parsing).

(** An error of writing to the terminal is not looked at. *)
Definition say (d : destination) (s : string) : CP unit := _ ← call (Write d (Text s)); mret tt.

Definition wrapped (pre : string) (e : error) : option cli_error := Some (Plain (ErrWrap pre e)).
Definition refused (msg : string) : option cli_error := Some (Plain (ErrNew msg)).

(** [getOutputWriter]. *)
Definition getOutputWriter (outputFile : string) : CP (error + destination) :=
  if (outputFile =? "")%string then mret (inr Stdout)
  else
    let cleanPath := path_Clean outputFile in
    if has_nul cleanPath then mret (inl (ErrNew "invalid output file path: contains null byte"))
    else
      r ← call (CreateFile cleanPath);
      mret (match r with
            | Some e => inl (ErrWrap ("failed to create output file '" +:+ cleanPath +:+ "': ") e)
            | None => inr (ToFile cleanPath)
            end).

(** The environment of the process; the S3 client is not injected. *)
Definition cli_handler (lookup : EnvLookupFunc) : Handler := {| lh_lookupEnv := lookup; lh_s3Client := false |}.

(** The parts of a list of flags: [strings.Split(s, ",")], trimmed, without the
    empty ones. *)
Definition split_flag (s : string) : list string :=
  List.filter (fun t => negb (t =? "")%string) (TrimSpace <$> SplitByte "," s).

Section Commands.
Context `{GoRegexp} `{GoURL} `{GoYAML} `{GoJSON} `{GoFormat} `{GoLicense}.

(** What the commands get from the process: the environment, and which flags
    were given ([Changed]). *)
Context (lookup : EnvLookupFunc) (given : string -> bool).

Definition getenv (name : string) : string := default "" (lookup name).

Definition load_policy (g : GlobalFlags) : CP ((LoadError + PolicyConfig) * string) :=
  translate (@Service) (load (cli_handler lookup) (gf_ConfigPath g)).

Definition connect_client (cfg : GitLabSettingsConfig) : CP (option error) := call (Service (CreateClient cfg)).

(** ** run.go *)

Record runFlags : Type := { rn_IncludeDiffs : bool }.

Definition override_license (g : GlobalFlags) (l : LicenseSettingsConfig) : LicenseSettingsConfig := {|
  ls_Key := or_string (gf_LicenseKey g) (ls_Key l); ls_File := or_string (gf_LicenseFile g) (ls_File l);
  ls_CRL := or_string (gf_LicenseCRL g) (ls_CRL l); ls_CRLFile := or_string (gf_LicenseCRLFile g) (ls_CRLFile l);
  ls_CRLURL := or_string (gf_LicenseCRLURL g) (ls_CRLURL l) |}.

(** The policy after the flags. *)
Definition run_policy (g : GlobalFlags) (cfg : PolicyConfig) : PolicyConfig :=
  let s := cfg_Settings cfg in {|
  cfg_Version := cfg_Version cfg;
  cfg_Settings := {|
    st_DryRun := if given "dry-run" then Some (gf_DryRun g) else st_DryRun s;
    st_Concurrency := if given "concurrency" then gf_Concurrency g else st_Concurrency s;
    st_LogLevel := st_LogLevel s; st_LogFormat := st_LogFormat s;
    st_ReportFormat := if given "report-format" then gf_ReportFormat g else st_ReportFormat s;
    st_OutputFilePath := st_OutputFilePath s; st_ServiceAccounts := st_ServiceAccounts s; st_BotPatterns := st_BotPatterns s;
    st_GitLab := st_GitLab s; st_License := override_license g (st_License s) |};
  cfg_Targets := cfg_Targets cfg;
  cfg_Policies := cfg_Policies cfg |}.

(** How a run ended, after the report. *)
Definition run_outcome (result : option ExecutionResult) (execErr : option error) : option cli_error :=
  match execErr, result with
  | Some e, _ => wrapped "governance execution failed: " e
  | None, Some er =>
      if HasErrors er then
        refused ("governance execution completed with "
                 +:+ Itoa (Z.of_nat (length (er_Errors er)) + sm_TotalFailed (ss_Metrics (er_Metrics er))) +:+ " error(s)")
      else None
  | None, None => None
  end.

(** The report of a run: the version, the times of the run and the encoder of
    the JSON are parameters.  An error of rendering is logged. *)
Context (version : string) (times : result_times) (report_json : bool -> ReportData -> error + string).

Definition write_report (g : GlobalFlags) (fl : runFlags) (out : destination) (data : ReportData) : CP (option cli_error) :=
  let reportFmt := match ParseFormat (gf_ReportFormat g) with inl _ => FormatTable | inr f => f end in
  match NewReporter true (getenv "NO_COLOR") reportFmt [WithColor (negb (gf_NoColor g)); WithDiffs (rn_IncludeDiffs fl)] with
  | inl e => mret (wrapped "failed to initialize reporter: " e)
  | inr reporter =>
      match Render report_json reporter (Some data) with
      | inl _ => mret None
      | inr text => _ ← call (Write out (Text text)); mret None
      end
  end.

(** What follows the loading of the policy. *)
Definition run_loaded (g : GlobalFlags) (fl : runFlags) (r : (LoadError + PolicyConfig) * string) : CP (option cli_error) :=
  match r.1 with
  | inl e => mret (Some (Unloaded "failed to load configuration: " e))
  | inr cfg =>
      let cfg := run_policy g cfg in
      let dryRun := default true (st_DryRun (cfg_Settings cfg)) in
      let concurrency := or_positive (st_Concurrency (cfg_Settings cfg)) 10 in
      c ← connect_client (st_GitLab (cfg_Settings cfg));
      match c with
      | Some e => mret (wrapped "failed to initialize GitLab client: " e)
      | None =>
          '(result, execErr) ← call (Service (EngineExecute concurrency dryRun cfg));
          out ← getOutputWriter (gf_OutputFile g);
          match out with
          | inl e => mret (Some (Plain e))
          | inr out =>
              w ← write_report g fl out (FromExecutionResult version times result);
              mret (match w with Some e => Some e | None => run_outcome result execErr end)
          end
      end
  end.

Definition executeRun (g : GlobalFlags) (fl : runFlags) : CP (option cli_error) :=
  r ← load_policy g; run_loaded g fl r.

(** ** validate.go *)

Record validateFlags : Type := { vf_Quiet : bool; vf_JSON : bool }.

(** [ValidationErrors.Error]. *)
Definition errors_text (errs : list ValidationError) : string :=
  match errs with
  | [] => ""
  | _ =>
      "configuration validation failed with " +:+ Itoa (Z.of_nat (length errs)) +:+ " error(s):" +:+ NL +:+
      String.concat "" (imap (fun i e =>
        "  [" +:+ Itoa (Z.of_nat i + 1) +:+ "] " +:+ ve_Field e +:+ ": " +:+ ve_Message e
        +:+ match ve_Value e with VNil => "" | v => " (got: " +:+ format_value v +:+ ")" end +:+ NL) errs)
  end.

Definition count_of {A} (l : list A) : Z := Z.of_nat (length l).

Definition target_summary (t : TargetSelectors) : TargetSummaryJSON := {|
  tj_GroupIDsIncluded := match ts_GroupSelector t with Some s => count_of (gs_GroupIDsInclude s) | None => 0 end;
  tj_GroupPathsIncluded := match ts_GroupSelector t with Some s => count_of (gs_GroupPathsInclude s) | None => 0 end;
  tj_HasProjectSelectors := is_some (ts_ProjectSelector t) |}.

Definition policy_summary (p : PoliciesConfig) : PolicySummaryJSON := {|
  pj_PushRules := is_some (pol_PushRules p);
  pj_ProtectedBranches := count_of (pol_ProtectedBranches p);
  pj_ProtectedTags := match pol_ProtectedTags p with Some t => count_of (pts_Rules t) | None => 0 end;
  pj_ProtectedEnvironments := match pol_ProtectedEnvironments p with Some e => count_of (pes_Rules e) | None => 0 end;
  pj_ApprovalRules := match pol_ApprovalRules p with Some a => count_of (ars_Rules a) | None => 0 end;
  pj_ProjectSettings := is_some (pol_ProjectSettings p);
  pj_PipelineRetention := is_some (pol_PipelineRetention p);
  pj_Variables := count_of (pol_Variables p);
  pj_Runners := match pol_Runners p with Some r => count_of (rns_Runners r) | None => 0 end;
  pj_Compliance := is_some (pol_Compliance p);
  pj_Webhooks := count_of (pol_Webhooks p);
  pj_Members := match pol_Members p with Some m => count_of (mb_AllowedMembers m) | None => 0 end;
  pj_TargetBranchRules := match pol_TargetBranchRules p with Some t => count_of (tbrs_Rules t) | None => 0 end;
  pj_BranchMerges := count_of (pol_BranchMerges p) |}.

Definition validation_failed (source : string) (errs : list ValidationError) (warnings : list ValidationWarning) : ValidateJSONOutput := {|
  vj_Status := "INVALID"; vj_Valid := false; vj_Source := source; vj_Targets := None; vj_Policies := None; vj_Errors := errs;
  vj_Warnings := warnings |}.

Definition validation_passed (source : string) (cfg : PolicyConfig) (warnings : list ValidationWarning) : ValidateJSONOutput := {|
  vj_Status := "VALID"; vj_Valid := true; vj_Source := source; vj_Targets := Some (target_summary (cfg_Targets cfg));
  vj_Policies := Some (policy_summary (cfg_Policies cfg)); vj_Errors := []; vj_Warnings := warnings |}.

(** A line, plain or in a color. *)
Definition colored (plain : bool) (color without within : string) : string :=
  if plain then without +:+ NL else paint color true within +:+ NL.

Definition say_warnings (plain : bool) (warnings : list ValidationWarning) : CP unit :=
  foldr (fun w rest =>
    _ ← say Stdout (colored plain "33" ("WARNING: " +:+ ve_Field w +:+ ": " +:+ ve_Message w)
                      ("⚠ WARNING: " +:+ ve_Field w +:+ ": " +:+ ve_Message w)); rest) (mret tt) warnings.

Definition invalid_text (e : cli_error) : string :=
  match e with
  | Plain e => error_text e
  | Rejected errs => errors_text errs
  | Unloaded pre _ => pre
  | Panicked => ""
  end.

Definition handleValidateError (fl : validateFlags) (source : string) (e : cli_error) (warnings : list ValidationWarning)
  : CP (option cli_error) :=
  let plain := negb (getenv "NO_COLOR" =? "")%string in
  if vf_JSON fl then
    let errs := match e with Rejected errs => errs | e => [VErr "syntax" (invalid_text e) VNil] end in
    _ ← call (Write Stdout (ValidateJSON (validation_failed source errs warnings)));
    mret (Some e)
  else
    _ ← (if vf_Quiet fl then mret tt
         else
           _ ← say_warnings plain warnings;
           say Stdout (if plain then "FAILED: Configuration validation error in '" +:+ source +:+ "':" +:+ NL +:+ invalid_text e +:+ NL
                       else paint "31" true ("✖ Configuration validation failed for '" +:+ source +:+ "':") +:+ NL +:+ invalid_text e +:+ NL));
    mret (Some e).

Definition validate_succeeded (g : GlobalFlags) (fl : validateFlags) (source : string) (cfg : PolicyConfig)
    (warnings : list ValidationWarning) : CP (option cli_error) :=
  if vf_JSON fl then
    _ ← call (Write Stdout (ValidateJSON (validation_passed source cfg warnings)));
    mret None
  else
    _ ← (if vf_Quiet fl then mret tt
         else
           _ ← say_warnings (gf_NoColor g) warnings;
           say Stdout (colored (gf_NoColor g) "32" ("SUCCESS: Configuration in '" +:+ source +:+ "' is valid.")
                         ("✔ Configuration in '" +:+ source +:+ "' is valid and complies with all schema rules.")));
    mret None.

Definition executeValidate (g : GlobalFlags) (fl : validateFlags) : CP (option cli_error) :=
  '(raw, source) ← translate (fun X e => Service (ConfigCall e)) (LoadRaw (handler_loader (cli_handler lookup)) (gf_ConfigPath g));
  match raw with
  | inl e => handleValidateError fl source (Plain e) []
  | inr rawBytes =>
      match default (inl errOutOfFuel) (ExpandEnvWithLookup rawBytes lookup) with
      | inl e => handleValidateError fl source (Plain e) []
      | inr expanded =>
          match UnmarshalStrict expanded with
          | inl e => handleValidateError fl source (Plain e) []
          | inr decoded =>
              let cfg := Policy_SetDefaults decoded in
              match ValidateWithWarnings (Some cfg) with
              | ([], warnings) => validate_succeeded g fl source cfg warnings
              | (errs, warnings) => handleValidateError fl source (Rejected errs) warnings
              end
          end
      end
  end.

(** ** merge.go *)

Record mergeFlags : Type := {
  mf_Project : string;
  mf_SourceBranch : string;
  mf_TargetBranch : string;
  mf_Title : string;
  mf_Description : string;
  mf_AutoMerge : bool;
  mf_JSON : bool
}.

Definition merge_policy (fl : mergeFlags) (source target : string) : PolicyConfig := {|
  cfg_Version := "v1"; cfg_Settings := zero_Settings; cfg_Targets := Build_TargetSelectors None None;
  cfg_Policies := Build_PoliciesConfig None [] None None None None None [] None None [] None None []
    [{| bm_SourceBranch := source; bm_TargetBranch := target; bm_Title := mf_Title fl; bm_Description := mf_Description fl; bm_Labels := [];
        bm_AutoMerge := Some (mf_AutoMerge fl); bm_RemoveSourceBranch := None; bm_Squash := None; bm_MergeWhenPipelineSucceeds := None |}] |}.

(** The settings of GitLab: those of the policy when it loads, else none. *)
Definition merge_settings (g : GlobalFlags) : CP GitLabSettingsConfig :=
  if (gf_ConfigPath g =? "")%string then mret zero_GitLabSettings
  else
    '(r, _) ← load_policy g;
    mret (match r with inr cfg => st_GitLab (cfg_Settings cfg) | inl _ => zero_GitLabSettings end).

Definition field_line (f : FieldDiff) : string :=
  "  • " +:+ fd_Field f +:+ ": " +:+ format_value (fd_OldValue f) +:+ " -> " +:+ format_value (fd_NewValue f)
  +:+ " (" +:+ action_text (fd_Action f) +:+ ")" +:+ NL.

Definition say_fields (diffs : list Diff) : CP unit :=
  foldr (fun f rest => _ ← say Stderr (field_line f); rest) (mret tt) (diffs ≫= d_Fields).

(** An error of the encoder, which writes to the terminal, ends the command. *)
Definition encode (m : merge_outcome) : CP (option cli_error) :=
  e ← call (Write Stdout (MergeJSON m)); mret (option_map Plain e).

Definition merge_dry (fl : mergeFlags) (source target : string) (proj : Project) : CP (option cli_error) :=
  '(planRes, planErr) ← translate (@OnServer) (BranchMerges_Plan (Some (merge_policy fl source target)) proj);
  match planErr, planRes with
  | Some e, _ => mret (wrapped "merge plan failed: " e)
  | None, None => mret (Some Panicked)
  | None, Some p =>
      if mf_JSON fl then
        encode {| mj_Project := p_PathWithNamespace proj; mj_DryRun := true; mj_Action := pl_Action p; mj_HasChanges := Some (pl_HasChanges p);
                  mj_Status := None; mj_Diffs := pl_Diffs p |}
      else if negb (pl_HasChanges p) then
        _ ← say Stderr ("Project " +:+ p_PathWithNamespace proj +:+ ": branches '" +:+ source +:+ "' and '" +:+ target
                          +:+ "' are already in sync (no-op)." +:+ NL);
        mret None
      else
        _ ← say Stderr ("SIMULATION (Dry-Run): Would merge branch '" +:+ source +:+ "' into '" +:+ target +:+ "' on project "
                          +:+ p_PathWithNamespace proj +:+ "." +:+ NL);
        _ ← say_fields (pl_Diffs p);
        mret None
  end.

Definition merge_live (fl : mergeFlags) (source target : string) (proj : Project) : CP (option cli_error) :=
  '(applyRes, applyErr) ← translate (@OnServer) (BranchMerges_Apply (Some (merge_policy fl source target)) proj);
  match applyErr, applyRes with
  | Some e, _ => mret (wrapped "merge apply failed: " e)
  | None, None => mret (Some Panicked)
  | None, Some a =>
      if mf_JSON fl then
        encode {| mj_Project := p_PathWithNamespace proj; mj_DryRun := false; mj_Action := al_Action a; mj_HasChanges := None;
                  mj_Status := Some (al_Status a, al_Success a); mj_Diffs := al_Diffs a |}
      else if negb (al_Success a) then
        mret (refused ("branch merge failed: " +:+ match al_Error a with Some e => error_text e | None => "<nil>" end))
      else if bool_decide (al_Action a = ActionNoop) then
        _ ← say Stderr ("Project " +:+ p_PathWithNamespace proj +:+ ": branches '" +:+ source +:+ "' and '" +:+ target
                          +:+ "' are already in sync." +:+ NL);
        mret None
      else
        _ ← say Stderr ("Project " +:+ p_PathWithNamespace proj +:+ ": branch merge applied (" +:+ status_text (al_Status a) +:+ ")." +:+ NL);
        _ ← say_fields (al_Diffs a);
        mret None
  end.

Definition executeMerge (g : GlobalFlags) (fl : mergeFlags) : CP (option cli_error) :=
  let projectPathOrID := TrimSpace (mf_Project fl) in
  let source := TrimSpace (mf_SourceBranch fl) in
  let target := TrimSpace (mf_TargetBranch fl) in
  if (projectPathOrID =? "")%string then mret (refused "project is required")
  else if (source =? "")%string then mret (refused "source branch is required")
  else if (target =? "")%string then mret (refused "target branch is required")
  else if (source =? target)%string
  then mret (refused ("target branch cannot be identical to source branch ('" +:+ source +:+ "')"))
  else
    gitlabCfg ← merge_settings g;
    c ← connect_client gitlabCfg;
    match c with
    | Some e => mret (wrapped "failed to initialize GitLab client: " e)
    | None =>
        r ← call (GetProjectByPath projectPathOrID);
        match r_err r, r_val r with
        | Some e, _ => mret (wrapped ("failed to retrieve project '" +:+ projectPathOrID +:+ "': ") e)
        | None, None => mret (Some Panicked)
        | None, Some proj => if gf_DryRun g then merge_dry fl source target proj else merge_live fl source target proj
        end
    end.

(** ** export.go *)

Record exportFlags : Type := {
  xf_GroupPath : string;
  xf_ProjectID : Z;
  xf_Recursive : bool;
  xf_Output : string;
  xf_IncludeSecretsPlaceholder : bool;
  xf_SkipReconcilers : string;
  xf_FromProject : string;
  xf_Strategy : string
}.

(** The policy whose targets are those of the flags. *)
Definition export_policy (g : GlobalFlags) (fl : exportFlags) (cfg : PolicyConfig) : PolicyConfig :=
  let s := cfg_Settings cfg in {|
  cfg_Version := cfg_Version cfg;
  cfg_Settings := {|
    st_DryRun := st_DryRun s; st_Concurrency := if given "concurrency" then gf_Concurrency g else st_Concurrency s;
    st_LogLevel := st_LogLevel s; st_LogFormat := st_LogFormat s; st_ReportFormat := st_ReportFormat s;
    st_OutputFilePath := st_OutputFilePath s; st_ServiceAccounts := st_ServiceAccounts s; st_BotPatterns := st_BotPatterns s;
    st_GitLab := st_GitLab s; st_License := st_License s |};
  cfg_Targets :=
    if negb (TrimSpace (xf_GroupPath fl) =? "")%string then
      {| ts_GroupSelector := Some (Build_GroupSelector [] [] [TrimSpace (xf_GroupPath fl)] [] (Some (xf_Recursive fl)));
         ts_ProjectSelector := None |}
    else if 0 <? xf_ProjectID fl then
      {| ts_GroupSelector := None;
         ts_ProjectSelector := Some (Build_ProjectSelector [] [] "" "" [] [] "" None None
                                       (Some {| idr_Min := xf_ProjectID fl; idr_Max := xf_ProjectID fl |})) |}
    else cfg_Targets cfg;
  cfg_Policies := cfg_Policies cfg |}.

Definition skip_set (s : string) (name : string) : bool := existsb (String.eqb name) (ToLower <$> split_flag s).

Definition export_options (fl : exportFlags) (strategy : string) : ExportOptions := {|
  xo_ProjectID := 0; xo_IncludeSecretsPlaceholder := xf_IncludeSecretsPlaceholder fl; xo_SkipReconcilers := skip_set (xf_SkipReconcilers fl);
  xo_FromProject := TrimSpace (xf_FromProject fl); xo_Strategy := strategy |}.

Definition export_config (g : GlobalFlags) : CP ((LoadError + PolicyConfig) * string) :=
  if (gf_ConfigPath g =? "")%string then mret (inr (Policy_SetDefaults zero_Policy), "") else load_policy g.

Definition write_export (output text : string) : CP (option cli_error) :=
  if (output =? "")%string || (output =? "-")%string then e ← call (Write Stdout (Text text)); mret (option_map Plain e)
  else
    let cleanOutput := path_Clean output in
    if has_nul cleanOutput then mret (refused "invalid output file path: contains null byte")
    else
      e ← call (WriteFile cleanOutput text);
      mret (match e with Some e => wrapped ("failed to write export output to file '" +:+ cleanOutput +:+ "': ") e | None => None end).

Definition executeExport (g : GlobalFlags) (fl : exportFlags) : CP (option cli_error) :=
  if (TrimSpace (xf_GroupPath fl) =? "")%string && (xf_ProjectID fl <=? 0)
  then mret (refused "either --group-path or --project-id must be specified")
  else
    let strategy := or_string (ToLower (TrimSpace (xf_Strategy fl))) "archetype" in
    if negb (existsb (String.eqb strategy) ["consensus"; "archetype"; "strict"])
    then mret (refused ("invalid strategy '" +:+ xf_Strategy fl +:+ "' (must be archetype, consensus, or strict)"))
    else
      '(r, _) ← export_config g;
      match r with
      | inl e => mret (Some (Unloaded ("failed to load configuration '" +:+ gf_ConfigPath g +:+ "': ") e))
      | inr cfg =>
          let cfg := export_policy g fl cfg in
          c ← connect_client (st_GitLab (cfg_Settings cfg));
          match c with
          | Some e => mret (wrapped "failed to initialize GitLab client: " e)
          | None =>
              r ← call (RunExport (export_options fl strategy) cfg);
              match r with
              | inl e => mret (wrapped "export failed: " e)
              | inr text => write_export (xf_Output fl) text
              end
          end
      end.

(** ** audit.go *)

Record auditFlags : Type := {
  af_Modules : string;
  af_Format : string;
  af_OutputFile : string;
  af_Concurrency : Z;
  af_ServiceAccounts : string;
  af_BotPatterns : string;
  af_SMTPHost : string;
  af_SMTPPort : Z;
  af_SMTPUsername : string;
  af_SMTPPassword : string;
  af_SMTPFrom : string;
  af_SMTPTo : string;
  af_SMTPCc : string;
  af_SMTPBcc : string;
  af_SMTPSubject : string;
  af_SMTPGreeting : string;
  af_SMTPStartTLS : bool;
  af_SMTPDirectTLS : bool;
  af_SMTPSkipVerify : bool;
  af_SMTPSendAttach : bool
}.

Definition audit_concurrency (g : GlobalFlags) (fl : auditFlags) (cfg : PolicyConfig) : Z :=
  let c :=
    if given "concurrency" then af_Concurrency fl
    else if 0 <? gf_Concurrency g then gf_Concurrency g
    else if 0 <? st_Concurrency (cfg_Settings cfg) then st_Concurrency (cfg_Settings cfg)
    else af_Concurrency fl in
  or_positive c 10.

Definition audit_modules (fl : auditFlags) : list string :=
  match split_flag (af_Modules fl) with [] => AllModuleNames | ms => ms end.

Definition audit_dry_run (g : GlobalFlags) (cfg : PolicyConfig) : bool :=
  if given "dry-run" then gf_DryRun g else default false (st_DryRun (cfg_Settings cfg)).

(** Where the report goes, and in which format; [inl] is a format that is not
    known. *)
Definition audit_output (g : GlobalFlags) (fl : auditFlags) : string := or_string (af_OutputFile fl) (gf_OutputFile g).

Definition format_of_file (file : string) : ExportFormat :=
  let ext := ToLower (path_Ext file) in
  if (ext =? ".xlsx")%string then ExportXLSX
  else if (ext =? ".json")%string then ExportJSON
  else if (ext =? ".csv")%string then ExportCSV
  else if (ext =? ".md")%string || (ext =? ".markdown")%string then ExportMarkdown
  else if (ext =? ".html")%string || (ext =? ".htm")%string then ExportHTML
  else ExportTable.

Definition audit_format (g : GlobalFlags) (fl : auditFlags) : error + ExportFormat :=
  if negb (af_Format fl =? "")%string then ParseExportFormat (af_Format fl)
  else if negb (audit_output g fl =? "")%string then inr (format_of_file (audit_output g fl))
  else inr ExportTable.

Definition audit_file (g : GlobalFlags) (fl : auditFlags) (format : ExportFormat) : string :=
  if bool_decide (format = ExportXLSX) && (audit_output g fl =? "")%string then "gitlab-fleet-audit.xlsx" else audit_output g fl.

Definition mails (fl : auditFlags) : bool :=
  negb (af_SMTPHost fl =? "")%string || negb (af_SMTPTo fl =? "")%string || negb (af_SMTPCc fl =? "")%string
  || negb (af_SMTPBcc fl =? "")%string.

Definition audit_features (fl : auditFlags) (format : ExportFormat) : list string :=
  (if bool_decide (format = ExportXLSX) then ["audit.export.xlsx"] else []) ++ (if mails fl then ["audit.smtp"] else []).

Definition auditor_options (g : GlobalFlags) (fl : auditFlags) (cfg : PolicyConfig) (format : ExportFormat) : list AuditorOption :=
  let l := override_license g (st_License (cfg_Settings cfg)) in
  [ WithConcurrency (audit_concurrency g fl cfg); WithTargets (cfg_Targets cfg); WithPolicy (Some cfg); WithModules (audit_modules fl);
    WithServiceAccounts (st_ServiceAccounts (cfg_Settings cfg) ++ split_flag (af_ServiceAccounts fl))
      (st_BotPatterns (cfg_Settings cfg) ++ split_flag (af_BotPatterns fl));
    WithLicense (ls_Key l) (ls_File l) (audit_dry_run g cfg); WithCRL (ls_CRL l) (ls_CRLFile l); WithCRLURL (ls_CRLURL l);
    WithRequiredFeatures (audit_features fl format)].

(** The workbook and the JSON of an audit, and the time that the report shows. *)
Context (xlsx audit_json : AuditReport -> error + string) (meta : report_meta).

Definition format_name (f : ExportFormat) : string :=
  match f with
  | ExportXLSX => "xlsx" | ExportJSON => "json" | ExportCSV => "csv" | ExportMarkdown => "markdown" | ExportHTML => "html"
  | ExportTable => "table"
  end.

Definition export_audit (report : AuditReport) (f : ExportFormat) : error + string := ExportAuditReport xlsx audit_json meta (Some report) f true.

(** The report in its file; the bytes of the workbook are kept for the mail. *)
Definition write_audit_file (outputFile : string) (format : ExportFormat) (report : AuditReport) : CP (cli_error + string) :=
  let cleanOutput := path_Clean outputFile in
  if has_nul cleanOutput then mret (inl (Plain (ErrNew "invalid output report file path: contains null byte")))
  else
    c ← call (CreateFile cleanOutput);
    match c with
    | Some e => mret (inl (Plain (ErrWrap ("failed to create output report file '" +:+ cleanOutput +:+ "': ") e)))
    | None =>
        let failure e := inl (Plain (ErrWrap (if bool_decide (format = ExportXLSX) then "failed to generate xlsx report: "
                                              else "failed to export report: ") e)) in
        match export_audit report format with
        | inl e => mret (failure e)
        | inr text =>
            w ← call (Write (ToFile cleanOutput) (Text text));
            match w with
            | Some e => mret (failure e)
            | None =>
                _ ← say Stderr ("Audit report successfully written to " +:+ outputFile +:+ " (format: " +:+ format_name format +:+ ")" +:+ NL);
                mret (inr (if bool_decide (format = ExportXLSX) then text else ""))
            end
        end
    end.

Definition print_audit (format : ExportFormat) (report : AuditReport) : CP (cli_error + string) :=
  let failure e := inl (Plain (ErrWrap "failed to render report: " e)) in
  match export_audit report format with
  | inl e => mret (failure e)
  | inr text => w ← call (Write Stdout (Text text)); mret (match w with Some e => failure e | None => inr "" end)
  end.

(** [filepath.Base] of a path that ends in a suffix without a slash. *)
Definition base_name (p : string) : string := default "" (last (SplitByte "/" p)).

(** The workbook for the mail: the one that was written, else a new one when
    attachments are asked for. *)
Definition audit_attachment (fl : auditFlags) (report : AuditReport) (workbook : string) : string :=
  if af_SMTPSendAttach fl && (workbook =? "")%string then match xlsx report with inr text => text | inl _ => "" end else workbook.

Definition attachment_name (outputFile : string) : string :=
  if negb (outputFile =? "")%string && HasSuffix (ToLower outputFile) ".xlsx" then base_name outputFile else "gitlab-fleet-audit.xlsx".

Definition audit_message (fl : auditFlags) (report : AuditReport) (workbook outputFile : string) : Message :=
  let m := BuildAuditEmail meta report (audit_attachment fl report workbook) (attachment_name outputFile) (af_SMTPGreeting fl) in {|
  ms_From := af_SMTPFrom fl; ms_To := split_flag (af_SMTPTo fl); ms_Cc := split_flag (af_SMTPCc fl); ms_Bcc := split_flag (af_SMTPBcc fl);
  ms_Subject := af_SMTPSubject fl; ms_TextBody := ms_TextBody m; ms_HTMLBody := ms_HTMLBody m; ms_Attachments := ms_Attachments m |}.

Definition audit_smtp (fl : auditFlags) : SMTPConfig := {|
  sc_Host := af_SMTPHost fl; sc_Port := af_SMTPPort fl; sc_Username := af_SMTPUsername fl; sc_Password := af_SMTPPassword fl;
  sc_From := af_SMTPFrom fl; sc_To := split_flag (af_SMTPTo fl); sc_Cc := split_flag (af_SMTPCc fl); sc_Bcc := split_flag (af_SMTPBcc fl);
  sc_Subject := af_SMTPSubject fl; sc_StartTLS := af_SMTPStartTLS fl; sc_DirectTLS := af_SMTPDirectTLS fl;
  sc_SkipTLSVerify := af_SMTPSkipVerify fl; sc_SendAttach := af_SMTPSendAttach fl; sc_Greeting := "" |}.

Definition dispatchAuditEmail (fl : auditFlags) (report : AuditReport) (workbook outputFile : string) : CP (option error) :=
  let m := audit_message fl report workbook outputFile in
  match ms_To m ++ ms_Cc m ++ ms_Bcc m with
  | [] => mret (Some (ErrNew "no email recipients configured (--smtp-to, --smtp-cc, or --smtp-bcc)"))
  | _ => call (SendMail (audit_smtp fl) m)
  end.

Definition mail_audit (fl : auditFlags) (report : AuditReport) (workbook outputFile : string) : CP (option cli_error) :=
  if mails fl then
    e ← dispatchAuditEmail fl report workbook outputFile;
    match e with
    | Some e => mret (wrapped "smtp dispatch failed: " e)
    | None =>
        let recipients :=
          if (af_SMTPCc fl =? "")%string then af_SMTPTo fl
          else if (af_SMTPTo fl =? "")%string then "(cc: " +:+ af_SMTPCc fl +:+ ")"
          else af_SMTPTo fl +:+ " (cc: " +:+ af_SMTPCc fl +:+ ")" in
        _ ← say Stderr ("Audit report successfully emailed to " +:+ recipients +:+ " via " +:+ af_SMTPHost fl +:+ NL);
        mret None
    end
  else mret None.

Definition audit_outcome (s : AuditSummary) : option cli_error :=
  if (0 <? as_CriticalSeverityCount s) || (0 <? as_HighSeverityCount s) then
    refused ("audit completed with " +:+ Itoa (as_CriticalSeverityCount s + as_HighSeverityCount s)
             +:+ " critical/high security violations (see report)")
  else None.

(** "7. Write Report Output" and what follows. *)
Definition deliver_audit (fl : auditFlags) (outputFile : string) (format : ExportFormat) (report : AuditReport) : CP (option cli_error) :=
  w ← (if negb (outputFile =? "")%string then write_audit_file outputFile format report else print_audit format report);
  match w with
  | inl e => mret (Some e)
  | inr workbook =>
      _ ← (if negb (outputFile =? "")%string && negb (bool_decide (format = ExportTable)) then
             match export_audit report ExportTable with inr text => say Stderr text | inl _ => mret tt end
           else mret tt);
      m ← mail_audit fl report workbook outputFile;
      mret (match m with Some e => Some e | None => audit_outcome (rp_Summary report) end)
  end.

Definition executeAudit (g : GlobalFlags) (fl : auditFlags) : CP (option cli_error) :=
  '(r, _) ← load_policy g;
  match r with
  | inl e => mret (Some (Unloaded "failed to load configuration: " e))
  | inr cfg =>
      c ← connect_client (st_GitLab (cfg_Settings cfg));
      match c with
      | Some e => mret (wrapped "failed to initialize GitLab client: " e)
      | None =>
          match audit_format g fl with
          | inl e => mret (Some (Plain e))
          | inr format =>
              match NewAuditor true (auditor_options g fl cfg format) with
              | inl e => mret (wrapped "failed to initialize auditor: " e)
              | inr auditor =>
                  r ← call (RunAudit auditor);
                  match r with
                  | inl e => mret (wrapped "audit execution failed: " e)
                  | inr report => deliver_audit fl (audit_file g fl format) format report
                  end
              end
          end
      end
  end.

(** ** license.go *)

Context (env : license_env).

Definition license_settings (g : GlobalFlags) : CP (option LicenseSettingsConfig) :=
  if (gf_ConfigPath g =? "")%string then mret None
  else '(r, _) ← load_policy g; mret (match r with inr cfg => Some (st_License (cfg_Settings cfg)) | inl _ => None end).

Definition resolveActiveLicenseToken (g : GlobalFlags) : CP (error + string) :=
  if negb (gf_LicenseKey g =? "")%string || negb (gf_LicenseFile g =? "")%string
  then mret (ResolveToken env (gf_LicenseKey g) (gf_LicenseFile g))
  else
    s ← license_settings g;
    mret (match s with
          | Some l =>
              if negb (ls_Key l =? "")%string || negb (ls_File l =? "")%string then ResolveToken env (ls_Key l) (ls_File l)
              else ResolveToken env "" ""
          | None => ResolveToken env "" ""
          end).

(** The revocation list of some sources, when they give one. *)
Definition found_crl (crl file : string) : option string :=
  if negb (crl =? "")%string || negb (file =? "")%string then
    match ResolveCRL [crl; file] with inr c => if (c =? "")%string then None else Some c | inl _ => None end
  else None.

Definition default_crl : string := match ResolveCRL [] with inr c => c | inl _ => "" end.

Definition resolveActiveCRL (g : GlobalFlags) : CP string :=
  if negb (gf_LicenseCRLURL g =? "")%string then mret (gf_LicenseCRLURL g)
  else
    match found_crl (gf_LicenseCRL g) (gf_LicenseCRLFile g) with
    | Some c => mret c
    | None =>
        s ← license_settings g;
        mret (match s with
              | Some l => if negb (ls_CRLURL l =? "")%string then ls_CRLURL l else default default_crl (found_crl (ls_CRL l) (ls_CRLFile l))
              | None => default_crl
              end)
    end.

(** [license check]. *)
Definition checkLicense (g : GlobalFlags) : CP (option cli_error) :=
  let build := le_Build env in
  if IsApacheConverted build (le_Now env) then
    _ ← say Stdout ("OK: Version " +:+ bi_Version build +:+ " converted to Apache License 2.0 on " +:+ bi_ChangeDay build
                      +:+ " (100% unrestricted usage permitted)" +:+ NL);
    mret None
  else
    t ← resolveActiveLicenseToken g;
    match t with
    | inl e => mret (Some (Plain e))
    | inr token =>
        if (token =? "")%string then
          _ ← say Stdout ("OK: No commercial license provided (operating under Free Community Tier for <=25 projects)" +:+ NL);
          mret None
        else
          crl ← resolveActiveCRL g;
          match ParseAndVerifyAt env token (le_Now env) [crl] with
          | (_, Some e) => mret (wrapped "license check failed: " e)
          | (None, None) => mret (Some Panicked)
          | (Some status, None) =>
              _ ← say Stdout ((if vs_InGracePeriod status then "WARNING: " +:+ vs_Message status
                               else match vs_Claims status with
                                    | Some c => "OK: License " +:+ claims_ID c +:+ " is valid for " +:+ claims_CustomerName c +:+ " ("
                                                +:+ GetClaimsPlan (Some c) +:+ " tier, " +:+ Itoa (vs_DaysRemaining status) +:+ " days remaining)"
                                    | None => ""
                                    end) +:+ NL);
              mret None
          end
    end.

(** Lines on the terminal. *)
Definition say_all (lines : list string) : CP unit := foldr (fun l rest => _ ← say Stdout (l +:+ NL); rest) (mret tt) lines.

Definition say_json (r : license_report) : CP (option cli_error) := e ← call (Write Stdout (LicenseJSON r)); mret (option_map Plain e).

Definition status_rule : string := "================================================================================".

Definition status_banner (lines : list string) : list string := [status_rule; "GitLab Fleet Governor License Status"; status_rule] ++ lines ++ [status_rule].

(** How the license library shows claims, as JSON and as a banner. *)
Context (claims_json claims_banner : Claims -> string).

(** [license status]. *)
Definition statusLicense (json : bool) (g : GlobalFlags) : CP (option cli_error) :=
  let build := le_Build env in
  t ← resolveActiveLicenseToken g;
  match t with
  | inl e => mret (Some (Plain e))
  | inr token =>
      if IsApacheConverted build (le_Now env) then
        let day := bi_ChangeDay build in
        if json then
          say_json (StatusConverted day ("Version " +:+ bi_Version build +:+ " converted to Apache License 2.0 on " +:+ day
                                         +:+ " under BSL 1.1 Change Date terms."))
        else
          _ ← say_all (status_banner [
            "Active License   : Apache License, Version 2.0";
            "Converted On     : " +:+ day +:+ " (under BSL 1.1 Change Date terms)";
            "Status           : 100% Free & Open Source (Zero capacity limits or token requirements)"]);
          mret None
      else if (token =? "")%string then
        let day := match bi_ChangeDate build with Some _ => bi_ChangeDay build | None => "Unknown (dev build)" end in
        if json then say_json (StatusCommunity day)
        else
          _ ← say_all (status_banner (
            ["Active Tier      : Free Community Tier (BSL 1.1)"]
            ++ (match bi_ReleaseTime build with Some t => ["Release Date     : " +:+ FormatDate t] | None => [] end)
            ++ ["Change Date      : " +:+ day +:+ " (Converts to Apache License 2.0)";
                "Production Quota : Up to " +:+ Itoa FreeTierMaxProjects +:+ " managed projects/repositories";
                "Non-Production   : Free and unrestricted (local dev, staging, QA, CI/CD dry-run)";
                "Status           : ACTIVE (No commercial license required for <=25 projects)"])
            ++ [NL +:+ "To configure a commercial license for larger fleets:";
                "  export DIVMORA_LICENSE_KEY=" +:+ quoted "<your-license-token>";
                "  or visit https://divmora.com / contact licensing@divmora.com";
                NL +:+ "For centralized license management and air-gapped requests:";
                "  go install github.com/divmora/license-go/cmd/license-cli@v1.3.1";
                "  license-cli request -product " +:+ quoted "gitlab-fleet-governor" +:+ " -customer " +:+ quoted "<Company>"
                  +:+ " -out ./node.divreq"]);
          mret None
      else
        crl ← resolveActiveCRL g;
        match ParseAndVerifyAt env token (le_Now env) [crl] with
        | (_, Some e) =>
            if json then _ ← call (Write Stdout (LicenseJSON (StatusInvalid (error_text e)))); mret (Some (Plain e))
            else mret (wrapped "license verification failed: " e)
        | (None, None) => mret (Some Panicked)
        | (Some status, None) =>
            if json then
              say_json (StatusValid (vs_Valid status) (vs_InGracePeriod status) (vs_DaysRemaining status) (vs_Message status)
                          (match vs_Claims status with Some c => claims_json c | None => "null" end))
            else
              _ ← say Stdout (match vs_Claims status with Some c => claims_banner c | None => "" end);
              mret None
        end
  end.

(** ** version.go *)

Context `{GoRelease} (renv : release_env).

Record versionFlags : Type := { vn_JSON : bool; vn_Short : bool; vn_Verify : bool }.

Definition provenance_refusal (i : version_Info) : option cli_error :=
  refused ("cryptographic release provenance unverified: " +:+ provenance_text (rv_Status (in_Provenance i))).

(** The lines of [version --verify]. *)
Definition provenance_lines (i : version_Info) : list string :=
  let p := in_Provenance i in
  [ status_rule; "GitLab Fleet Governor: Cryptographic Release Provenance (Layer 3)"; status_rule;
    "Version         : " +:+ in_Version i;
    "Git Commit      : " +:+ in_GitCommit i;
    "Build Date      : " +:+ in_BuildDate i;
    "Go Version      : " +:+ in_GoVersion i;
    "Platform        : " +:+ in_Platform i;
    "Provenance      : " +:+ provenance_text (rv_Status p) ]
  ++ (if rv_Verified p then
        ["Release Signer  : " +:+ rv_Authority p]
        ++ (if negb (rv_Source p =? "")%string then ["Signature Source: " +:+ rv_Source p] else [])
        ++ (match ChangeDate i with
            | Some t => ["Apache 2.0 Date : " +:+ FormatDate t +:+ " (Converts under BSL 1.1 Change Date terms)"]
            | None => []
            end)
        ++ ["Verification    : PASSED (Cryptographically verified official release)"]
      else
        ["Verification    : UNVERIFIED (" +:+ rv_Error p +:+ ")";
         "Governing Terms : Standard Business Source License 1.1 (Custom/unattested build)"])
  ++ [status_rule].

Definition executeVersion (fl : versionFlags) : CP (option cli_error) :=
  let i := version_Get renv in
  let verdict := if rv_Verified (in_Provenance i) then None else provenance_refusal i in
  if vn_JSON fl then
    _ ← call (Write Stdout (VersionJSON i)); mret (if vn_Verify fl then verdict else None)
  else if vn_Short fl then _ ← say Stdout (in_Version i +:+ NL); mret None
  else if vn_Verify fl then _ ← say_all (provenance_lines i); mret verdict
  else _ ← say Stdout (Info_String i +:+ NL); mret None.

(** ** lambda.go *)

Record lambdaFlags : Type := { lf_EventFile : string; lf_Pretty : bool }.

Definition read_event (file : string) : CP (error + string) :=
  if (file =? "-")%string then
    r ← call (Service (ConfigCall StdinReadAll));
    mret (match r with inl e => inl (ErrWrap "failed to read event payload from stdin: " e) | inr d => inr d end)
  else
    let cleanPath := path_Clean file in
    r ← call (Service (ConfigCall (OsReadFile cleanPath)));
    mret (match r with inl e => inl (ErrWrap ("failed to read event payload file '" +:+ cleanPath +:+ "': ") e) | inr d => inr d end).

Definition executeLambda (g : GlobalFlags) (fl : lambdaFlags) : CP (option cli_error) :=
  ev ← read_event (lf_EventFile fl);
  match ev with
  | inl e => mret (Some (Plain e))
  | inr raw =>
      resp ← translate (@Service) (HandleRequest (cli_handler lookup) (or_string raw "{}"));
      out ← getOutputWriter (gf_OutputFile g);
      match out with
      | inl e => mret (Some (Plain e))
      | inr out => _ ← call (Write out (LambdaJSON (lf_Pretty fl) resp)); mret None
      end
  end.

(** ** The command line *)

Inductive command : Type :=
| CmdRun (fl : runFlags)
| CmdMerge (fl : mergeFlags)
| CmdAudit (fl : auditFlags)
| CmdExport (fl : exportFlags)
| CmdValidate (fl : validateFlags)
| CmdLambda (fl : lambdaFlags)
| CmdLicenseCheck
| CmdLicenseStatus (json : bool)
| CmdVersion (fl : versionFlags).

Definition run_command (g : GlobalFlags) (c : command) : CP (option cli_error) :=
  match c with
  | CmdRun fl => executeRun g fl
  | CmdMerge fl => executeMerge g fl
  | CmdAudit fl => executeAudit g fl
  | CmdExport fl => executeExport g fl
  | CmdValidate fl => executeValidate g fl
  | CmdLambda fl => if (lf_EventFile fl =? "")%string then mret (refused "required flag --event / -e not specified") else executeLambda g fl
  | CmdLicenseCheck => checkLicense g
  | CmdLicenseStatus json => statusLicense json g
  | CmdVersion fl => executeVersion fl
  end.

Definition Cli_Execute (g : GlobalFlags) (c : command) : CP (option cli_error) :=
  match preRun (getenv "NO_COLOR") g with
  | inl e => mret (Some (Plain e))
  | inr g => run_command g c
  end.

(** [main]: the Lambda runtime, or the command line with its exit code. *)
Definition isLambdaEnvironment : bool :=
  existsb (fun v => negb (getenv v =? "")%string) ["AWS_LAMBDA_FUNCTION_NAME"; "AWS_LAMBDA_RUNTIME_API"; "_LAMBDA_SERVER_PORT"].

Definition exit_code (e : option cli_error) : Z := match e with None => 0 | Some Panicked => 2 | Some _ => 1 end.

End Commands.

(** ** The commands and their services *)

(** The world of the command line: that of the Lambda function, the
    interleavings of the audits and the exports to come, and what was written. *)
Record cli_world (L W : Type) : Type := {
  cw_core : lambda_world L W;
  cw_audits : list audit_schedule;
  cw_exports : list export_schedule;
  cw_written : list (destination * document)
}.
Arguments Build_cli_world {L W}. Arguments cw_core {L W}. Arguments cw_audits {L W}. Arguments cw_exports {L W}. Arguments cw_written {L W}.

Definition gitlab_of {L W} (w : cli_world L W) : W := lw_gitlab (cw_core w).

(** The server, as the reconcilers, the exporter and the auditor see it. *)
Record cli_server (W : Type) : Type := {
  cs_client : handler GitLabE W;
  cs_inspect : handler InspectE W;
  cs_audit : handler AuditE W;
  cs_project : string -> W -> Reply (option Project)
}.
Arguments Build_cli_server {W}. Arguments cs_client {W}. Arguments cs_inspect {W}. Arguments cs_audit {W}. Arguments cs_project {W}.

(** What answers the other calls: the connection, the files, the mail, the
    encoder of YAML, and what the components are set up with. *)
Record cli_services : Type := {
  sv_fuel : discoveryFuel;
  sv_pages : nat;
  sv_env : license_env;
  sv_serverTime : option Z;
  sv_registry : OperationsRegistry;
  sv_connect : GitLabSettingsConfig -> option error;
  sv_baseURL : string;
  sv_LookupEnv : string -> option string;
  sv_LoadContent : string -> error + string;
  sv_yaml : exported_document -> string;
  sv_create : string -> option error;
  sv_write : destination -> option error;
  sv_mail : SMTPConfig -> Message -> option error
}.

Section Services.
Context `{GoRegexp} `{GoQuery} `{GoLicense} `{GoCalendar} `{GoConversion} {L W : Type}.
Context (sv : cli_services) (hl : handler LoadE L) (s : cli_server W).

Definition set_gitlab (w : cli_world L W) (audits : list audit_schedule) (exports : list export_schedule) (g : W) : cli_world L W :=
  Build_cli_world (Build_lambda_world (lw_config (cw_core w)) g (lw_schedules (cw_core w))) audits exports (cw_written w).

(** An audit or an export without a schedule does not end; the command is
    stopped. *)
Definition answer_audit (a : Auditor) (w : cli_world L W) : (error + AuditReport) * cli_world L W :=
  match cw_audits w with
  | [] => (inl errCanceled, w)
  | schedule :: rest =>
      match Auditor_Execute (sv_baseURL sv) (sv_pages sv) (sv_LookupEnv sv) (sv_LoadContent sv) (sv_env sv) (sv_serverTime sv) (cs_audit s)
              (sv_fuel sv) a schedule (gitlab_of w) with
      | None => (inl errCanceled, set_gitlab w rest (cw_exports w) (gitlab_of w))
      | Some (r, g) => (r, set_gitlab w rest (cw_exports w) g)
      end
  end.

Definition answer_export (opts : ExportOptions) (cfg : PolicyConfig) (w : cli_world L W) : (error + string) * cli_world L W :=
  match cw_exports w with
  | [] => (inl errCanceled, w)
  | schedule :: rest =>
      match ExportFleetPolicy (cs_inspect s) (sv_fuel sv) (sv_pages sv) opts (Some cfg) schedule (gitlab_of w) with
      | None => (inl errCanceled, set_gitlab w (cw_audits w) rest (gitlab_of w))
      | Some (r, g) => (match r with inl e => inl e | inr d => inr (sv_yaml sv d) end, set_gitlab w (cw_audits w) rest g)
      end
  end.

Definition written (w : cli_world L W) (d : destination) (doc : document) : cli_world L W :=
  Build_cli_world (cw_core w) (cw_audits w) (cw_exports w) (cw_written w ++ [(d, doc)]).

(** A write that fails leaves nothing. *)
Definition wrote (w : cli_world L W) (d : destination) (doc : document) : cli_world L W :=
  match sv_write sv d with None => written w d doc | Some _ => w end.

Definition on_services : handler CliE (cli_world L W) := fun X e w =>
  match e in CliE X return X * cli_world L W with
  | Service e =>
      let '(x, core) := on_gitlab hl (cs_client s) (sv_fuel sv) (sv_env sv) (sv_serverTime sv) (sv_registry sv) (sv_connect sv) _ e (cw_core w) in
      (x, Build_cli_world core (cw_audits w) (cw_exports w) (cw_written w))
  | RunAudit a => answer_audit a w
  | RunExport opts cfg => answer_export opts cfg w
  | OnServer e => let '(x, g) := cs_client s _ e (gitlab_of w) in (x, set_gitlab w (cw_audits w) (cw_exports w) g)
  | GetProjectByPath p => (cs_project s p (gitlab_of w), w)
  | CreateFile path => (sv_create sv path, w)
  | Write d doc => (sv_write sv d, wrote w d doc)
  | WriteFile path text => (sv_write sv (ToFile path), wrote w (ToFile path) (Text text))
  | SendMail cfg m => (sv_mail sv cfg m, w)
  end.

End Services.

(** ** Specification: when GitLab must not change *)

(** A server that reading does not disturb. *)
Definition server_stable {W} (s : cli_server W) : Prop :=
  stable_reads (cs_client s) /\ inspect_stable (cs_inspect s) /\ audit_stable (cs_audit s).

Section ToldToChange.
Context `{GoRegexp} `{GoURL} `{GoYAML} `{GoJSON} (lookup : EnvLookupFunc) (given : string -> bool).

(** The command is not told to change anything: [run] by its flag or else by the
    policy that it loads, [merge] by its flag, [lambda] by the payload of its
    event. *)
Definition plans_only {W} (h : handler CliE W) (g : GlobalFlags) (c : command) (w : W) : Prop :=
  match c with
  | CmdRun _ =>
      if given "dry-run" then gf_DryRun g = true
      else forall cfg, (run h (load_policy lookup g) w).1.1 = inr cfg -> st_DryRun (cfg_Settings cfg) <> Some false
  | CmdMerge _ => gf_DryRun g = true
  | CmdLambda fl =>
      forall raw, (run h (read_event (lf_EventFile fl)) w).1 = inr raw ->
        exists p, asked (or_string raw "{}") = Some p /\ dp_DryRun (effective_payload p) = Some true
  | _ => True
  end.

End ToldToChange.

(** ** Lemmas: calls that leave GitLab as it is *)

Definition quiet_call X (e : CliE X) : Prop :=
  match e with
  | Service (EngineExecute _ dryRun cfg) => default dryRun (st_DryRun (cfg_Settings cfg)) = true
  | OnServer e => is_read e = true
  | _ => True
  end.

Abbreviation quiet p := (only quiet_call p).

Lemma on_services_quiet `{GoRegexp} `{GoQuery} `{GoLicense} `{GoCalendar} `{GoConversion} {L W} sv (hl : handler LoadE L) (s : cli_server W)
    X (e : CliE X) w :
  server_stable s -> all_dry_run (sv_registry sv) -> quiet_call X e -> gitlab_of (on_services sv hl s X e w).2 = gitlab_of w.
Proof.
  intros (Hg & Hi & Ha) Hdry He. unfold gitlab_of. destruct e as [X e|a|opts cfg|X e|p|path|d doc|path text|m]; cbn [on_services]; try done.
  - destruct e as [X e|cfg|concurrency dryRun cfg]; cbn [on_gitlab].
    + by destruct (hl X e (lw_config (cw_core w))).
    + done.
    + destruct (lw_schedules (cw_core w)) as [|schedule rest]; [done|].
      destruct (Engine_Execute _ _ _ _ _ _ _ _) as [[[res err] g]|] eqn:Ee; [|done]. cbn. unfold Engine_Execute in Ee. cbn in He.
      unfold engineFactory in Ee. cbn [ge_dryRun] in Ee. rewrite He in Ee. by eapply runWithOptions_dry_run; [..|exact Ee].
  - unfold answer_audit. destruct (cw_audits w) as [|schedule rest]; [done|].
    destruct (Auditor_Execute _ _ _ _ _ _ _ _ _ _ _) as [[r g]|] eqn:Ee; [|done]. cbn.
    unfold gitlab_of in Ee. by eapply Auditor_Execute_world; [|exact Ee].
  - unfold answer_export. destruct (cw_exports w) as [|schedule rest]; [done|].
    destruct (ExportFleetPolicy _ _ _ _ _ _ _) as [[r g]|] eqn:Ee; [|done]. cbn. by apply ExportFleetPolicy_world in Ee.
  - pose proof (Hg X e (gitlab_of w) He) as Hr. destruct (cs_client s X e (gitlab_of w)) as [x g]. exact Hr.
  - unfold wrote. by destruct (sv_write sv d).
  - unfold wrote. by destruct (sv_write sv (ToFile path)).
Qed.

Lemma say_quiet d t : quiet (say d t).
Proof. by split. Qed.

Lemma getOutputWriter_quiet f : quiet (getOutputWriter f).
Proof. unfold getOutputWriter. cbv zeta. repeat case_match; [done..|]. by apply only_bind; [by split|]. Qed.

Create HintDb quiet.
#[export] Hint Resolve say_quiet getOutputWriter_quiet : quiet.

(** Commands that make only such calls. *)
Ltac quiet_solve :=
  repeat first
    [ exact I | assumption | progress intros
    | match goal with
      | |- only _ (mret _) => exact I
      | |- only _ (call _) => split; [exact I|intros; exact I]
      | |- only _ (mbind _ _) => apply only_bind
      | |- only _ (match ?x with _ => _ end) => destruct x
      | |- only _ (let '_ := ?x in _) => destruct x
      end
    | solve [auto with quiet] ].

Section Quiet.
Context `{GoRegexp} `{GoURL} `{GoYAML} `{GoJSON} `{GoFormat} `{GoLicense} (lookup : EnvLookupFunc) (given : string -> bool).

Lemma load_policy_quiet g : quiet (load_policy lookup g).
Proof.
  unfold load_policy, load. induction (Load _ _ _) as [[r source]|X e k IH]; [exact I|]. split; [exact I|exact IH].
Qed.

Lemma say_warnings_quiet plain ws : quiet (say_warnings plain ws).
Proof. induction ws as [|w ws IH]; [exact I|]. cbn [say_warnings foldr]. apply only_bind; [apply say_quiet|]. by intros. Qed.

Lemma say_fields_quiet ds : quiet (say_fields ds).
Proof. unfold say_fields. induction (ds ≫= d_Fields) as [|f fs IH]; [exact I|]. cbn [foldr]. apply only_bind; [apply say_quiet|]. by intros. Qed.

Hint Resolve load_policy_quiet say_warnings_quiet say_fields_quiet : quiet.

Lemma handleValidateError_quiet fl source e ws : quiet (handleValidateError lookup fl source e ws).
Proof. unfold handleValidateError. cbv zeta. quiet_solve. Qed.

Lemma validate_succeeded_quiet g fl source cfg ws : quiet (validate_succeeded g fl source cfg ws).
Proof. unfold validate_succeeded. quiet_solve. Qed.

Hint Resolve handleValidateError_quiet validate_succeeded_quiet : quiet.

Lemma executeValidate_quiet g fl : quiet (executeValidate lookup g fl).
Proof.
  unfold executeValidate. apply only_bind; [by apply only_translate|]. cbv zeta. quiet_solve.
Qed.

Lemma merge_settings_quiet g : quiet (merge_settings lookup g).
Proof. unfold merge_settings. quiet_solve. Qed.

Hint Resolve merge_settings_quiet : quiet.

Lemma merge_dry_quiet fl source target proj : quiet (merge_dry fl source target proj).
Proof.
  unfold merge_dry. apply only_bind.
  - pose proof (plan_reads (op := NewBranchMergesReconciler) (Some (merge_policy fl source target)) proj) as Hr.
    cbn [op_Plan NewBranchMergesReconciler] in Hr. revert Hr. generalize (BranchMerges_Plan (Some (merge_policy fl source target)) proj). induction p as [a|X e k IH]; [done|]. intros [He Hk]. split; [exact He|]. intros x. apply IH, Hk.
  - intros [planRes planErr]. unfold encode. quiet_solve.
Qed.

Lemma executeMerge_quiet g fl : gf_DryRun g = true -> quiet (executeMerge lookup g fl).
Proof. intros Hd. unfold executeMerge, connect_client. cbv zeta. rewrite Hd. quiet_solve. apply merge_dry_quiet. Qed.

Lemma executeExport_quiet g fl : quiet (executeExport lookup given g fl).
Proof. unfold executeExport, export_config, connect_client, write_export. cbv zeta. quiet_solve. Qed.

Context (version : string) (times : result_times) (report_json : bool -> ReportData -> error + string).
Context (xlsx audit_json : AuditReport -> error + string) (meta : report_meta).

Lemma deliver_audit_quiet fl file format report : quiet (deliver_audit xlsx audit_json meta fl file format report).
Proof. unfold deliver_audit, write_audit_file, print_audit, mail_audit, dispatchAuditEmail. cbv zeta. quiet_solve. Qed.

Hint Resolve deliver_audit_quiet : quiet.

Lemma executeAudit_quiet g fl : quiet (executeAudit lookup given xlsx audit_json meta g fl).
Proof. unfold executeAudit, connect_client. quiet_solve. Qed.

Lemma checkLicense_quiet env g : quiet (checkLicense lookup env g).
Proof. unfold checkLicense, resolveActiveLicenseToken, resolveActiveCRL, license_settings. cbv zeta. quiet_solve. Qed.

Lemma say_all_quiet lines : quiet (say_all lines).
Proof. unfold say_all. induction lines as [|l lines IH]; cbn [foldr]; quiet_solve. Qed.

Hint Resolve say_all_quiet : quiet.

Lemma statusLicense_quiet env claims_json claims_banner json g : quiet (statusLicense lookup env claims_json claims_banner json g).
Proof. unfold statusLicense, resolveActiveLicenseToken, resolveActiveCRL, license_settings, say_json. cbv zeta. quiet_solve. Qed.

Lemma executeVersion_quiet `{GoRelease} renv fl : quiet (executeVersion renv fl).
Proof. unfold executeVersion. cbv zeta. quiet_solve. Qed.

Lemma write_report_quiet g fl out data : quiet (write_report lookup report_json g fl out data).
Proof. unfold write_report. cbv zeta. quiet_solve. Qed.

Hint Resolve write_report_quiet : quiet.

Lemma run_loaded_quiet g fl r :
  match r.1 with inl _ => True | inr cfg => default true (st_DryRun (cfg_Settings (run_policy given g cfg))) = true end ->
  quiet (run_loaded lookup given version times report_json g fl r).
Proof.
  intros Hd. unfold run_loaded. destruct r.1 as [e|cfg]; [exact I|]. cbv zeta. unfold connect_client. apply only_bind; [quiet_solve|].
  intros [e|]; [exact I|]. apply only_bind; [split; [|by intros]; cbn [quiet_call]; by destruct (st_DryRun _)|]. intros [result execErr]. quiet_solve.
Qed.

End Quiet.

(** What a handler does with the loader's calls. *)
Definition loader_of {W} (h : handler CliE W) : handler LoadE W := fun X e w => h X (Service (ConfigCall e)) w.

Lemma run_load_policy `{GoRegexp} `{GoURL} `{GoYAML} {W} (h : handler CliE W) lookup g w :
  let '(raw, source, w') := run (loader_of h) (LoadRaw (handler_loader (cli_handler lookup)) (gf_ConfigPath g)) w in
  run h (load_policy lookup g) w =
    (match raw with
     | inl e => inl (LoadErr (wrap "config load error" e))
     | inr bytes => loaded (loadStages (" in source '" +:+ source +:+ "'") false lookup bytes)
     end, source, w').
Proof.
  unfold load_policy, load. rewrite run_translate, run_bind, run_translate. unfold Load. rewrite run_bind. cbn [handler_loader l_lookupEnv cli_handler lh_lookupEnv].
  change (fun X (e : LoadE X) => _) with (loader_of h).
  destruct (run _ (LoadRaw _ _) w) as [[raw source] w']. by destruct raw.
Qed.

Lemma handleValidateError_fails lookup `{GoFormat} fl source e ws : always (fun r => r = Some e) (handleValidateError lookup fl source e ws).
Proof. unfold handleValidateError. destruct (vf_JSON fl); apply always_bind; by intros. Qed.

Lemma validate_succeeded_passes g fl source cfg ws : always (fun r => r = None) (validate_succeeded g fl source cfg ws).
Proof. unfold validate_succeeded. destruct (vf_JSON fl); apply always_bind; by intros. Qed.

(** ** Properties *)

(** C4. No command changes GitLab unless it is told to: [audit], [export],
    [validate] and [license check] never do; [run] only when --dry-run=false is
    given or, without the flag, the policy says so; [merge] only with
    --dry-run=false, whatever the policy says; [lambda] only when the payload of
    the event does not ask for a plan.  This is so for every policy, flag,
    environment and interleaving, on a server that reading does not disturb. *)
Theorem Cli_changes_only_when_told `{GoRegexp} `{GoURL} `{GoYAML} `{GoJSON} `{GoFormat} `{GoLicense} `{GoQuery} `{GoCalendar} `{GoConversion} `{GoRelease} {L W}
    sv (hl : handler LoadE L) (s : cli_server W) lookup given version times report_json xlsx audit_json meta env claims_json claims_banner renv g c w :
  server_stable s -> all_dry_run (sv_registry sv) ->
  (forall g', preRun (getenv lookup "NO_COLOR") g = inr g' -> plans_only lookup given (on_services sv hl s) g' c w) ->
  gitlab_of (run (on_services sv hl s) (Cli_Execute lookup given version times report_json xlsx audit_json meta env claims_json claims_banner renv g c) w).2 = gitlab_of w.
Proof.
  intros Hs Hdry Hp. set (h := on_services sv hl s) in *.
  assert (forall A (p : prog CliE A) w1, quiet p -> gitlab_of (run h p w1).2 = gitlab_of w1) as Hq.
  { intros A p w1 Hp1. apply (run_only h quiet_call (fun w' => gitlab_of w' = gitlab_of w1)); [|done|done].
    intros X e w2 He <-. by apply on_services_quiet. }
  unfold Cli_Execute. destruct (preRun _ g) as [e|g']; [done|]. specialize (Hp g' eq_refl).
  destruct c as [fl|fl|fl|fl|fl|fl| |json|fl]; cbn [run_command].
  - unfold executeRun. rewrite run_bind. pose proof (Hq _ (load_policy lookup g') w (load_policy_quiet lookup g')) as Hl.
    cbn [plans_only] in Hp. destruct (run h (load_policy lookup g') w) as [r w1] eqn:Er. cbn in Hl. rewrite <- Hl. apply Hq, run_loaded_quiet.
    destruct r.1 as [e|cfg] eqn:Ec; [done|]. cbn. destruct (given "dry-run"); cbn; [done|]. specialize (Hp cfg).
    destruct (st_DryRun (cfg_Settings cfg)) as [[]|]; [done|by destruct Hp|done].
  - by apply Hq, executeMerge_quiet.
  - by apply Hq, executeAudit_quiet.
  - by apply Hq, executeExport_quiet.
  - by apply Hq, executeValidate_quiet.
  - destruct (_ =? "")%string; [done|]. unfold executeLambda. rewrite run_bind. cbn [plans_only] in Hp.
    assert (quiet (read_event (lf_EventFile fl))) as He by (unfold read_event; cbv zeta; quiet_solve).
    pose proof (Hq _ _ w He) as Hr. destruct (run h (read_event _) w) as [[e|raw] w1]; [exact Hr|]. destruct (Hp raw eq_refl) as (p & Ha & Hd).
    cbn in Hr. rewrite <- Hr. apply Hq. apply only_bind; [|intros resp; apply only_bind; [apply getOutputWriter_quiet|]; intros [e|out]; [done|by split]].
    pose proof (HandleRequest_executes (cli_handler lookup) _ _ _ Ha Hd) as Hx. revert Hx.
    generalize (HandleRequest (cli_handler lookup) (or_string raw "{}")). clear. induction p as [a|X e k IH]; [done|]. intros [He Hk].
    split; [|intros x; by apply IH]. destruct e; try done. cbn in *. by rewrite He.
  - by apply Hq, checkLicense_quiet.
  - by apply Hq, statusLicense_quiet.
  - by apply Hq, executeVersion_quiet.
Qed.

(** [version --verify] passes just the attested releases: the exit code is 0
    if a release token attests the binary under the release key, and 1 if not,
    whatever else is printed; but with --short, or without --verify, it always is
    0. *)
Theorem version_verify_exact `{GoRelease} {W} (h : handler CliE W) renv fl w :
  let code := exit_code (run h (executeVersion renv fl) w).1 in
  if vn_Verify fl && (vn_JSON fl || negb (vn_Short fl))
  then (code = 0 <-> exists claims, attested renv (compiled renv) claims) /\ (code = 0 \/ code = 1)
  else code = 0.
Proof.
  cbv zeta. destruct (EvaluateProvenance_decides renv (compiled renv)) as [Hd _].
  set (verdict := if rv_Verified (in_Provenance (version_Get renv)) then None else provenance_refusal (version_Get renv)).
  assert ((exit_code verdict = 0 <-> exists claims, attested renv (compiled renv) claims) /\ (exit_code verdict = 0 \/ exit_code verdict = 1)) as Hv.
  { subst verdict. cbn [in_Provenance version_Get]. destruct (rv_Verified _) eqn:E; cbn.
    - split; [|by left]. split; [|done]. intros _. eexists. apply Hd. by split.
    - split; [|by right]. split; [done|]. intros [claims [? _]%Hd]. done. }
  unfold executeVersion. fold verdict. destruct (vn_JSON fl); cbv zeta.
  - rewrite run_bind. destruct (run h (call _) w) as [x w1]. rewrite run_ret. cbn [fst orb]. rewrite andb_true_r. by destruct (vn_Verify fl).
  - destruct (vn_Short fl); cbn [orb negb]; rewrite ?andb_false_r, ?andb_true_r; [rewrite run_bind; destruct (run h (say _ _) w) as [x w1]; done|].
    destruct (vn_Verify fl); rewrite run_bind; [destruct (run h (say_all _) w)|destruct (run h (say _ _) w)]; done.
Qed.

(** C5. [validate] accepts just the policies that [run] loads, whatever the
    sources, the environment and the files answer: it ends with exit code 0 when
    the policy that [run] would load is valid, and when it fails, [run] ends
    before it connects to anything. *)
Theorem validate_agrees_with_run `{GoRegexp} `{GoURL} `{GoYAML} `{GoJSON} `{GoFormat} {W} (h : handler CliE W) lookup given
    version times report_json g vfl rfl w :
  match (run h (executeValidate lookup g vfl) w).1 with
  | None => exists cfg, (run h (load_policy lookup g) w).1.1 = inr cfg /\ valid_policy cfg
  | Some _ => exists pre e, (run h (executeRun lookup given version times report_json g rfl) w).1 = Some (Unloaded pre e)
  end.
Proof.
  pose proof (run_load_policy h lookup g w) as Hl. unfold executeRun. rewrite run_bind. unfold executeValidate. rewrite run_bind, run_translate.
  change (fun X (e : LoadE X) => h X (Service (ConfigCall e))) with (loader_of h).
  destruct (run (loader_of h) _ w) as [[raw source] w1]. rewrite Hl. clear Hl. cbv beta iota. cbn [fst].
  assert (forall r e ws, (exists e', r = inl e') -> match (run h (handleValidateError lookup vfl source e ws) w1).1 with
    | None => exists cfg, r = inr cfg /\ valid_policy cfg
    | Some _ => exists pre e, (run h (run_loaded lookup given version times report_json g rfl (r, source)) w1).1 = Some (Unloaded pre e) end) as Hfail.
  { intros r e ws [e' ->]. rewrite (always_run h _ _ w1 (handleValidateError_fails lookup vfl source e ws)). by do 2 eexists. }
  destruct raw as [e|bytes]; [exact (Hfail _ _ _ (ex_intro _ _ eq_refl))|]. unfold loadStages.
  destruct (ExpandEnvWithLookup_total bytes lookup) as [ex ->]. cbn [from_option id].
  destruct ex as [e|expanded]; [exact (Hfail _ _ _ (ex_intro _ _ eq_refl))|]. destruct (UnmarshalStrict expanded) as [e|decoded]; [exact (Hfail _ _ _ (ex_intro _ _ eq_refl))|].
  cbv zeta. unfold Validate. destruct (ValidateWithWarnings _) as [errs ws] eqn:Ev. cbn [negb fst].
  destruct errs as [|err errs]; [|exact (Hfail _ _ _ (ex_intro _ _ eq_refl))].
  rewrite (always_run h _ _ w1 (validate_succeeded_passes g vfl source (Policy_SetDefaults decoded) ws)). eexists. split; [reflexivity|].
  assert (Validate (Some (Policy_SetDefaults decoded)) = []) as Hv by (unfold Validate; by rewrite Ev).
  apply Validate_nil in Hv. split; [done|]. apply SetDefaults_effective. apply Hv.
Qed.

Section RunCommand.
Context `{GoRegexp} `{GoURL} `{GoYAML} `{GoJSON} `{GoFormat} `{GoLicense} `{GoQuery} `{GoCalendar} `{GoConversion} {L W : Type}.
Context (sv : cli_services) (hl : handler LoadE L) (s : cli_server W) (lookup : EnvLookupFunc) (given : string -> bool).
Context (version : string) (times : result_times) (report_json : bool -> ReportData -> error + string).

Abbreviation h := (on_services sv hl s).

(** The engine's run of a policy, with the next interleaving. *)
Definition engine_ran (cfg : PolicyConfig) (w : cli_world L W) : option (option ExecutionResult * option error * W) :=
  match lw_schedules (cw_core w) with
  | [] => None
  | schedule :: _ =>
      Engine_Execute (cs_client s) (sv_fuel sv) (sv_env sv) (sv_serverTime sv)
        (engineFactory (sv_registry sv) (or_positive (st_Concurrency (cfg_Settings cfg)) 10) (default true (st_DryRun (cfg_Settings cfg))))
        (Some cfg) schedule (gitlab_of w)
  end.

(** Where the report goes. *)
Definition output_of (f : string) : error + destination :=
  if (f =? "")%string then inr Stdout
  else if has_nul (path_Clean f) then inl (ErrNew "invalid output file path: contains null byte")
  else match sv_create sv (path_Clean f) with
       | Some e => inl (ErrWrap ("failed to create output file '" +:+ path_Clean f +:+ "': ") e)
       | None => inr (ToFile (path_Clean f))
       end.

Lemma getOutputWriter_run f w : run h (getOutputWriter f) w = (output_of f, w).
Proof.
  unfold getOutputWriter, output_of. destruct (f =? "")%string; [done|]. cbv zeta. destruct (has_nul _); [done|].
  rewrite run_bind, run_call. cbn [on_services]. by destruct (sv_create sv _).
Qed.

Lemma load_policy_keeps g w :
  let w1 := (run h (load_policy lookup g) w).2 in
  cw_written w1 = cw_written w /\ gitlab_of w1 = gitlab_of w /\ lw_schedules (cw_core w1) = lw_schedules (cw_core w).
Proof.
  cbv zeta. apply (run_only h (fun X e => match e with Service (ConfigCall _) => True | _ => False end)
    (fun w1 => cw_written w1 = cw_written w /\ gitlab_of w1 = gitlab_of w /\ lw_schedules (cw_core w1) = lw_schedules (cw_core w))); [| |done].
  - intros X e w1 He Hw. destruct e as [X e| | | | | | | |]; try done. destruct e as [X e| |]; try done. cbn [on_services on_gitlab].
    by destruct (hl X e (lw_config (cw_core w1))).
  - unfold load_policy, load. induction (Load _ _ _) as [[r source]|X e k IH]; [exact I|]. split; [exact I|exact IH].
Qed.

(** The format and the options of the report. *)
Definition run_reporter (g : GlobalFlags) (fl : runFlags) : Format * Options :=
  (match ParseFormat (gf_ReportFormat g) with inl _ => FormatTable | inr f => f end,
   {| o_Color := negb (gf_NoColor g); o_IndentJSON := true; o_IncludeDiffs := rn_IncludeDiffs fl; o_Title := reportTitle |}).

(** What [run] does with the policy that it has loaded. *)
Lemma run_loaded_run g fl cfg source w1 :
  let cfg' := run_policy given g cfg in
  let '(r, w2) := run h (run_loaded lookup given version times report_json g fl (inr cfg, source)) w1 in
  match sv_connect sv (st_GitLab (cfg_Settings cfg')), engine_ran cfg' w1, output_of (gf_OutputFile g) with
  | None, Some (res, err, gl), inr out =>
      r = run_outcome res err /\ gitlab_of w2 = gl /\
      cw_written w2 = cw_written w1 ++
        match Render report_json (run_reporter g fl) (Some (FromExecutionResult version times res)) with
        | inr text => match sv_write sv out with Some _ => [] | None => [(out, Text text)] end
        | inl _ => []
        end
  | _, _, _ => exit_code r = 1
  end.
Proof.
  cbv zeta. unfold run_loaded. cbn [fst]. cbv zeta. unfold connect_client. rewrite run_bind, run_call. cbn [on_services on_gitlab].
  destruct (sv_connect _ _) as [e|]; [done|]. rewrite run_bind, run_call. cbn [on_services on_gitlab]. unfold engine_ran, gitlab_of. cbn [cw_core].
  assert (forall res err w2 (P : option cli_error * cli_world L W -> Prop),
    (forall out, output_of (gf_OutputFile g) = inr out -> forall w3, cw_core w3 = cw_core w2 -> cw_written w3 = cw_written w2 ++
       match Render report_json (run_reporter g fl) (Some (FromExecutionResult version times res)) with inr text => match sv_write sv out with Some _ => [] | None => [(out, Text text)] end | inl _ => [] end ->
       P (run_outcome res err, w3)) ->
    (forall e, output_of (gf_OutputFile g) = inl e -> P (Some (Plain e), w2)) ->
    P (run h (out ← getOutputWriter (gf_OutputFile g);
              match out with
              | inl e => mret (Some (Plain e))
              | inr out => w ← write_report lookup report_json g fl out (FromExecutionResult version times res);
                           mret (match w with Some e => Some e | None => run_outcome res err end)
              end) w2)) as Hout.
  { intros res err w2 P Hok Hbad. rewrite run_bind, getOutputWriter_run. destruct (output_of _) as [e|out]; [by apply Hbad|].
    rewrite run_bind. unfold write_report. cbn [NewReporter foldl apply_option]. cbv zeta.
    change (match ParseFormat (gf_ReportFormat g) with inl _ => FormatTable | inr f => f end, _) with (run_reporter g fl).
    specialize (Hok out eq_refl). destruct (Render _ _ _) as [e|text].
    - apply Hok; [done|]. by rewrite app_nil_r.
    - rewrite run_bind, run_call. cbn [on_services].
      unfold wrote; destruct (sv_write sv out); (apply Hok; [done|]); by rewrite ?app_nil_r. }
  destruct (lw_schedules (cw_core w1)) as [|schedule rest].
  - cbn [lw_schedules]. match goal with |- context [run h ?p ?w2] => destruct (run h p w2) as [r w3] eqn:Er end.
    revert Er. match goal with |- context [run h _ ?w2] => apply (Hout None (Some errCanceled) w2 (fun x => x = (r, w3) -> exit_code r = 1)) end;
      intros; by simplify_eq.
  - destruct (Engine_Execute _ _ _ _ _ _ _ _) as [[[res err] gl]|].
    + match goal with |- context [run h ?p ?w2] => destruct (run h p w2) as [r w3] eqn:Er end. revert Er.
      match goal with |- context [run h _ ?w2] => apply (Hout res err w2 (fun x => x = (r, w3) -> _)) end.
      * intros out -> w4 Hc Hw [= <- <-]. by rewrite Hc.
      * by intros e -> [= <- _].
    + match goal with |- context [run h ?p ?w2] => destruct (run h p w2) as [r w3] eqn:Er end. revert Er.
      match goal with |- context [run h _ ?w2] => apply (Hout None (Some errCanceled) w2 (fun x => x = (r, w3) -> exit_code r = 1)) end;
      intros; by simplify_eq.
Qed.

Lemma engine_ran_totals cfg w res err gl er :
  engine_ran cfg w = Some (res, err, gl) -> res = Some er ->
  sm_TotalFailed (ss_Metrics (er_Metrics er)) = 0 <-> Forall (fun tr => target_failed tr = false) (er_TargetResults er).
Proof.
  unfold engine_ran. destruct (lw_schedules _) as [|schedule rest]; [done|]. intros Hr ->. unfold Engine_Execute in Hr.
  apply run_recorded in Hr as (m & trs & Hp & Hm & _ & _ & Hf & _). destruct (RecordTargetResults_totals m trs) as (_ & _ & Ht & _).
  rewrite Hm. cbn [Snapshot ss_Metrics sm_TotalFailed]. rewrite Ht, Hf, Z.add_0_l, <- (count_perm _ _ _ Hp), count_zero, Forall_forall. done.
Qed.

(** C6. The exit code of [run] tells the truth, and its report is written
    whatever it is: when the policy loads, GitLab can be connected to and the
    output file be created, the exit code is 0 just if the engine ended without
    an error, no error was recorded and no target failed, and the report of the
    run, and nothing else, is written, unless the writing fails; the server is as
    the engine left it.  In
    every other case the exit code is 1. *)
Theorem Run_exit_exact g fl w :
  let '(r, w') := run h (executeRun lookup given version times report_json g fl) w in
  match (run h (load_policy lookup g) w).1.1 with
  | inl e => exit_code r = 1 /\ cw_written w' = cw_written w /\ gitlab_of w' = gitlab_of w
  | inr cfg =>
      let cfg' := run_policy given g cfg in
      match sv_connect sv (st_GitLab (cfg_Settings cfg')), engine_ran cfg' w, output_of (gf_OutputFile g) with
      | None, Some (res, err, gl), inr out =>
          (exit_code r = 0 <-> err = None /\ forall er, res = Some er ->
             er_Success er = true /\ er_Errors er = [] /\ Forall (fun tr => target_failed tr = false) (er_TargetResults er)) /\
          gitlab_of w' = gl /\
          cw_written w' = cw_written w ++
            match Render report_json (run_reporter g fl) (Some (FromExecutionResult version times res)) with
            | inr text => match sv_write sv out with Some _ => [] | None => [(out, Text text)] end
            | inl _ => []
            end
      | _, _, _ => exit_code r = 1
      end
  end.
Proof.
  unfold executeRun. rewrite run_bind. destruct (load_policy_keeps g w) as (Kw & Kg & Ks).
  destruct (run h (load_policy lookup g) w) as [[[e|cfg] source] w1]; cbn [fst snd] in *; [done|].
  pose proof (run_loaded_run g fl cfg source w1) as Hr. cbv zeta in *. destruct (run h (run_loaded _ _ _ _ _ _ _ _) w1) as [r w2].
  assert (forall c, engine_ran c w1 = engine_ran c w) as Ee by (intros c; unfold engine_ran; by rewrite Ks, Kg). rewrite Ee in Hr.
  destruct (sv_connect _ _); [done|]. destruct (engine_ran _ w) as [[[res err] gl]|] eqn:Er; [|done].
  destruct (output_of _) as [|out]; [done|]. destruct Hr as (-> & Hg & Hw). rewrite <- Kw. split; [|done]. clear Hw Hg.
  unfold run_outcome. destruct err as [e|]; [by split; [|intros []]|]. destruct res as [er|]; [|by split].
  pose proof (engine_ran_totals _ _ _ _ _ er Er eq_refl) as Hz. unfold HasErrors.
  destruct (er_Success er) eqn:Hsu; cbn [negb orb].
  2: { split; [done|]. intros [_ Hx]. by destruct (Hx er eq_refl) as [? _]; congruence. }
  destruct (er_Errors er) as [|x l] eqn:Hl; cbn [length Nat.ltb Nat.leb orb].
  2: { split; [done|]. intros [_ Hx]. destruct (Hx er eq_refl) as (_ & He & _). congruence. }
  destruct (0 <? _) eqn:Hn; cbn.
  - split; [done|]. intros [_ Hx]. destruct (Hx er eq_refl) as (_ & _ & Hf). apply Hz in Hf. apply Z.ltb_lt in Hn. lia.
  - split; [|done]. intros _. split; [done|]. intros er' [= <-]. split_and!; [done..|]. apply Hz. apply Z.ltb_ge in Hn.
    assert (0 <= sm_TotalFailed (ss_Metrics (er_Metrics er))) as Hpos; [|lia].
    unfold engine_ran in Er. destruct (lw_schedules (cw_core w)); [done|]. unfold Engine_Execute in Er.
    apply run_recorded in Er as (m & trs & _ & Hm & _ & _ & Hf & _). destruct (RecordTargetResults_totals m trs) as (_ & _ & Ht & _).
    rewrite Hm. cbn [Snapshot ss_Metrics sm_TotalFailed]. rewrite Ht, Hf. pose proof (count_nonneg target_failed trs). lia.
Qed.

End RunCommand.

(** ** Witnesses: a merge that is planned *)

#[local] Existing Instance demo_literal.
#[local] Existing Instance demo_fleet_query.
#[local] Existing Instance demo_license.
#[local] Existing Instance demo_url.
#[local] Existing Instance demo_yaml.
#[local] Existing Instance demo_json.
#[local] Existing Instance ExportPlan.demo_calendar.
#[local] Existing Instance AuditModules.demo_conversion.
#[local] Existing Instance demo_release.
#[local] Instance demo_format : GoFormat := {| format_float := fun _ => "0.5"; time_Format := fun t _ => Itoa t |}.

Definition demo_global_flags (dryRun : bool) : GlobalFlags := {|
  gf_ConfigPath := "config.yaml"; gf_DryRun := dryRun; gf_Concurrency := 10; gf_LogLevel := "info"; gf_LogFormat := "text";
  gf_ReportFormat := "table"; gf_OutputFile := ""; gf_NoColor := true; gf_LicenseKey := ""; gf_LicenseFile := ""; gf_LicenseCRL := "";
  gf_LicenseCRLFile := ""; gf_LicenseCRLURL := "" |}.

Definition demo_merge_flags : mergeFlags := {|
  mf_Project := " platform/api "; mf_SourceBranch := "develop"; mf_TargetBranch := "main"; mf_Title := ""; mf_Description := "";
  mf_AutoMerge := true; mf_JSON := false |}.

Definition demo_cli_server : cli_server merge_state := {|
  cs_client := demo_merge_server; cs_inspect := fun X e w => ((demo_export_server X e tt).1, w);
  cs_audit := fun X e w => ((demo_fleet_audit false X e 0%nat).1, w); cs_project := fun _ _ => reply_ok (Some demo_project) |}.

Definition demo_cli_services : cli_services := {|
  sv_fuel := demo_fleet_fuel; sv_pages := 1; sv_env := demo_license_env; sv_serverTime := None; sv_registry := demo_registry;
  sv_connect := fun _ => None; sv_baseURL := "https://gitlab.example.com"; sv_LookupEnv := fun _ => None; sv_LoadContent := fun _ => inr "";
  sv_yaml := fun _ => ""; sv_create := fun _ => None; sv_write := fun _ => None; sv_mail := fun _ _ => None |}.

Definition demo_command (dryRun : bool) (c : command) : option cli_error * cli_world (Z * gset Z) merge_state :=
  run (on_services demo_cli_services demo_fs demo_cli_server)
    (Cli_Execute (fun _ => None) (fun _ => false) "1.0.0" demo_report_times (fun _ _ => inr "") (fun _ => inr "") (fun _ => inr "") demo_meta
       demo_license_env (fun _ => "{}") (fun _ => "") (demo_release_env true) (demo_global_flags dryRun) c)
    (Build_cli_world (Build_lambda_world (0, ∅) (demo_merge false) []) [] [] []).

Lemma demo_cli_server_stable : server_stable demo_cli_server.
Proof.
  split; [|by split; intros X e w He]. intros X e w He.
  destruct e as [? e|? e|? e|? e|? e|? e|? e|? e|? e|? e|? e|? e|? e|? e|? e|? e|? e|? e|? e|? e|? e]; try done; destruct e; done.
Qed.

(** Planning the merge of the open request says so and leaves it open; the same
    command with --dry-run=false merges it. *)
Lemma Cli_changes_only_when_told_witness :
  gitlab_of (demo_command true (CmdMerge demo_merge_flags)).2 = demo_merge false /\
  (demo_command true (CmdMerge demo_merge_flags)).1 = None /\
  ms_main (gitlab_of (demo_command false (CmdMerge demo_merge_flags)).2) = "c2".
Proof.
  split; [|split; vm_compute; reflexivity].
  apply (Cli_changes_only_when_told demo_cli_services demo_fs demo_cli_server (fun _ => None) (fun _ => false) "1.0.0" demo_report_times
    (fun _ _ => inr "") (fun _ => inr "") (fun _ => inr "") demo_meta demo_license_env (fun _ => "{}") (fun _ => "") (demo_release_env true) (demo_global_flags true) (CmdMerge demo_merge_flags)
    (Build_cli_world (Build_lambda_world (0, ∅) (demo_merge false) []) [] [] []));
    [exact demo_cli_server_stable|exact demo_registry_dry_run|]. intros g' [= <-]. reflexivity.
Defined.

(** A policy that does not load does not stop [merge]: it goes on without the
    policy's URL, token and limits. *)
Example merge_ignores_broken_policy :
  (run (on_services demo_cli_services (fun X e w => match e in LoadE X return X * (Z * gset Z) with
                                                    | OsOpen _ => (inl (ErrNew "no such file"), w) | e => demo_fs _ e w end) demo_cli_server)
     (merge_settings (fun _ => None) (demo_global_flags true))
     (Build_cli_world (Build_lambda_world (0, ∅) (demo_merge false) []) [] [] [])).1 = zero_GitLabSettings.
Proof. by vm_compute. Qed.

(** The number of workers that the policy asks for is not looked at by [audit]:
    the global flag is always set. *)
Example audit_ignores_policy_concurrency g fl cfg g' :
  preRun "" g = inr g' -> audit_concurrency (fun _ => false) g' fl cfg = gf_Concurrency g'.
Proof.
  unfold preRun. cbn [negb String.eqb]. destruct (ParseLevel _); [done|]. destruct (ParseLogFormat _); [done|]. destruct (ParseFormat _); [done|].
  destruct (Z.ltb_spec (gf_Concurrency g) 1) as [|Hc]; [done|]. intros [= <-]. unfold audit_concurrency, or_positive.
  rewrite (proj2 (Z.ltb_lt _ _)) by lia. by rewrite (proj2 (Z.leb_gt _ _)) by lia.
Qed.
